(* ===== verification/_CoqProject ===== *)
-Q . S2P
Prelude.v
Mem.v
CString.v
Mmu.v
KState.v
Printf.v
Pmap.v
VmInv.v
VmSpec.v
VmLife.v
Environ.v
Sched.v
Syscall.v
Trap.v
EnvInv.v
EnvFree.v
SchedSpec.v
UserMem.v
SysSpec.v
Samples.v
KernelThms.v
EnvThms.v
SysThms.v
IpcThms.v
Defects.v
LibThms.v
BootThms.v
User.v
UserSpec.v
UserVm.v
UserEnv.v
Fork.v
ForkSpec.v
UserPage.v
Pgfault.v
ForkRun.v
ForkThms.v
Spawn.v
SpawnStack.v
SpawnRun.v
SpawnThms.v
UState.v
Fs.v
FsInv.v
FsSpec.v
FsFile.v
FsRead.v
FsDir.v
FsFrame.v
FsSample.v
FsThms.v
Fsformat.v
FsformatSpec.v
FsformatImage.v
FsformatView.v
FsformatThms.v
Spinlock.v
Pipe.v
Serve.v
ServeSpec.v
ServeRun.v
ServeSample.v
ServeThms.v
Client.v
ClientSpec.v
ClientThms.v
Kdebug.v
KdebugThms.v
E1000.v
E1000Thms.v
Console.v
ConsoleThms.v
Malloc.v
MallocThms.v
Monitor.v
MonitorThms.v
Args.v
Sh.v
ShSpec.v
ShThms.v
