(* ===== verification/Prelude.v ===== *)
(** * JOS (mit-6.828/lab): a verification library of its kernel, file system and user library

    JOS is a small exokernel-style operating system in C.  The kernel ([kern/]) multiplexes
    pages, environments (processes) and messages; everything else is user mode: the library
    ([lib/]) with system call stubs, copy-on-write fork, descriptors and pipes, and the file
    server ([fs/]), an environment that serves files over messages.  [fs/fsformat.c] builds
    the disk on a host.  This library models those parts as executable definitions under
    the C names and proves what makes them correct.  Paths are relative to
    [src/mit-6.828/lab/].

    ** Conventions

    - A C integer is a [Z]; what can wrap is written out with [w32], [s32] and so on (this
      file).  Memory is a finite map from addresses to bytes (Mem.v); a pointer is an
      address.  C structures are records, and an array of structures is a map by index.
    - Kernel code is a function in the monad [K] over the state [kst] (KState.v): it returns,
      or ends in one of the exits ([env_run] to user mode, panic, a fault in the kernel, a
      dead loop, [Undefined] for behaviour C leaves open).  User code that runs on the
      kernel (User.v) is in a monad over the kernel's state, a program being resumed by
      [trap].  The file server, the descriptor layer and [fsformat] are in the monad
      [U S] over their own state (UState.v): return, panic, stop.
    - Loops the C text bounds are structural on that bound; the others carry fuel.  The fuel
      is part of a definition, so that each runs in [vm_compute]; running out of it is an
      outcome of its own, different from every return, and the theorems that say what is
      returned exclude it.  [kwhile] has fuel for the address space ([page_fuel],
      [printf_fuel]); [search_fuel] is two rounds per stab; [openfile_alloc] and [fd_alloc]
      have one round per slot; [malloc_scan] two rounds of the arena and one of the address
      space; the console's loops take the number of bytes that can arrive during a call,
      [readline] the number of characters typed, and [umain] the number of lines; the loops
      of Sh have a round per character of the longest line; [file_read] one per block of a 32-bit size;
      [readn] one per byte asked for, since a read that returns less than one byte ends it;
      the string loops of Spawn take their fuel as an argument, which SpawnThms bounds.
    - Devices are not under [src/]: console, network card, clock and disk are operations of a
      class ([Devices], [TrapDevices], [Disk], [PcDevices], [PhysMem]); the linker's symbols
      are [StabSection] and [KernelSymbols].  The theorems hold for every instance; the
      samples give concrete ones.

    ** Files

    - Shared: Prelude (integers, list and option lemmas, record update, tactics, hint
      databases), Mem, Mmu ([inc/mmu.h], [inc/memlayout.h]), CString ([lib/string.c]),
      Printf ([lib/printfmt.c], the [printf.c] files).  LibThms: the routines against lists
      of bytes, numbers printed and read back.
    - Pages: Pmap ([kern/pmap.c]: [page_alloc], [pgdir_walk], [page_insert], [page_remove],
      [user_mem_check] ...).  VmInv gives every physical page a role (free, directory, page
      table, user page) and [vm_inv] ties the roles to free list, directories and reference
      counts; VmSpec describes the operations by what they do to address spaces ([umap]);
      VmLife a page's changes of role.  KernelThms: insert, remove, check.
    - Environments: Environ, Sched ([kern/env.c], [kern/sched.c]); EnvInv adds the environment
      table to the invariant ([sys_inv]), EnvFree is [env_free], SchedSpec the round-robin
      order.  EnvThms: allocation, destruction, [envid2env], fairness, reuse of identifiers.
    - System calls and traps: Syscall, Trap ([kern/syscall.c], [kern/trap.c],
      [kern/time.c]); UserMem, SysSpec.  SysThms: [syscall_safe] (no call but
      [sys_exec] and those of the devices breaks the invariants, panics, loops or faults,
      except that [sys_cputs] reads one byte too far), and the page calls on every branch; IpcThms: messages,
      [sys_exofork], [env_destroy].  BootThms: the free list at boot, the big lock, the clock.
    - User mode: User ([lib/syscall.c], loads and stores through the MMU), UserSpec, UserVm,
      UserEnv, UserPage (a page staged at a temporary address and handed over);
      Fork ([lib/fork.c], [lib/sfork.c], [lib/pgfault.c]), ForkSpec,
      Pgfault, ForkRun.  ForkThms: [fork] gives the child a copy-on-write copy of
      its parent and a write fault gives a private page, with the system calls carried out
      by the kernel of the model, not by a specification of it.
    - Spawning: Spawn ([lib/spawn.c]; files are operations of the class [Library]), SpawnStack
      ([init_stack], the stack page as a function of the arguments), SpawnRun
      ([copy_shared_pages] and the rest).  SpawnThms: the child as it is before its segments
      are loaded, that is, its shared pages, stack, arguments and trap frame, on the same
      kernel, errors included.
    - The file system: Fs ([fs/bc.c], [fs/fs.c], [fs/ide.c]); FsInv: [sees s v n], server
      state [s] shows a disk of [n] blocks with contents [v], which makes the cache
      disappear; FsSpec, FsFile, FsRead, FsDir: each operation as a function of the
      contents; FsFrame: more free memory changes nothing (the class [Framed]).  FsThms.
    - The disk image: Fsformat ([fs/fsformat.c]), FsformatSpec, FsformatImage,
      FsformatView.  FsformatThms: files formatted by one program are read
      back by the other, the first of each base name.
    - The file server's loop: Serve ([fs/serv.c], [lib/pageref.c], [ipc_send]); ServeSpec ([serv_inv],
      the open-file table), ServeRun (each handler).  ServeThms: clients that seek, share and
      close as steps interleaved with the server's turns, [serve_safe] on every state they
      reach; what the kernel answers to a reply is an argument of the turn.
    - Descriptors: Client ([lib/fd.c], [lib/file.c]), ClientSpec ([cl_inv]).  ClientThms:
      [open], [readn], [close] down to the bytes on the disk.
    - Concurrency: Spinlock ([kern/spinlock.c] one memory access at a time, any number of
      processors), Pipe ([lib/pipe.c], reader and writer interleaved).
    - The network card: E1000 ([kern/e1000.c] one access to the shared rings at a time, and
      the card's documented moves), E1000Thms: packets go through unchanged and in order, and
      a ring that was filled to the last descriptor is stuck.
    - Debug information: Kdebug ([kern/kdebug.c]), KdebugThms: the binary search ends on any
      table and brackets the address, or a later one it has gone on to, on a sorted one.
    - The console: Console ([kern/console.c], [kern/picirq.c]) over any ports and video
      memory.  ConsoleThms: the screen is a window on an endless tape ([tty]), and the input
      ring hands out what the keyboard and the serial line sent, with the keyboard's bits
      of state read as the modifiers held and the locks set ([kbd]).
    - The monitor: Monitor ([lib/readline.c], [kern/monitor.c]) over the class [Terminal].
      MonitorThms: the line editor and the word splitter as functions on lists, proved from
      the laws [TerminalOk]; the console of Console has them, and [console_line_correct] goes
      from scan codes to the command that is called.
    - The allocator: Malloc ([lib/malloc.c]) over a page table and memory.  MallocThms:
      [heap_inv], and [heap_safe] on every state that a program reaches with [malloc],
      [free] and stores to its chunks.
    - The shell: Args ([lib/args.c], on an argument array in memory, against a parser on
      lists), Sh ([user/sh.c] over the class [ShellWorld], what it asks of the library),
      ShSpec (a line as tokens, tokens as calls), ShThms: [runcmd] makes exactly the calls
      of its line, and [umain], with its flags, does so for every line.
    - Samples, ForkThms, FsSample, ServeSample hold concrete states in which the
      invariants are proved, for the instances that follow the theorems; Defects has
      concrete runs in which the code departs from its documentation.

    ** What is not modelled, and why

    - Boot: [boot/], [kern/init.c], [kern/mpconfig.c], [kern/lapic.c] and the assembly files
      program the processor and devices; [mem_init] and the IDT are set up before the
      state of the model exists.
    - The other device drivers ([kern/pci.c], the port side of [fs/ide.c]): register
      programming.  The kernel model has the interface of the console and the card, not
      Console and E1000 themselves.
    - [Malloc]'s two system calls are functions of the address space, as IpcThms and SysThms
      show the kernel's to be; it does not run on the machine of User.
    - The shell's calls ([spawn], [pipe], [dup], ...) are the interface [ShellWorld]; a
      string is passed as the bytes at its address.  With [-d] it prints more, which the
      model does and the theorems leave aside.
    - Messages between the library and the server (Client): a request and its reply are one
      turn of the server; that the kernel's IPC carries a message is IpcThms.  [dup] maps
      pages at addresses this model does not have.
    - [mon_backtrace] ([kern/monitor.c]) walks the stack it runs on, which the model of a
      command does not have; it is an argument of [commands].
    - [lib/spawn.c] is modelled whole, but the theorems stop before its segments are
      loaded: they come from files, which are an interface there.  [lib/exec.c] is a call
      of [sys_exec], which Trap has.  Sockets ([lib/sockets.c],
      [lib/nsipc.c]) and [net/] are glue around [net/lwip], third-party code.  The programs
      of [user/] other than the shell are tests of the library.  [6.858-2012FA] is another
      course's web server.
    - Instruction-level timing: kernel code runs with the big lock held, so a system call is
      one step; Spinlock justifies the lock itself. *)

From stdpp Require Export base numbers list gmap strings fin_maps.
From Stdlib Require Export ZArith Lia.

#[global] Open Scope Z_scope.
#[export] Set Warnings "-clear-no-such-hyp,-notation-for-abbreviation".

(** ** Machine integers ([inc/types.h])

    A C integer is a [Z]; the operations that can wrap write the wrap-around
    out.  [w32] is the value of an unsigned 32-bit object, [s32] the value of
    the same bits read as a signed one. *)

Definition w8 (z : Z) : Z := z mod 2 ^ 8.
Definition s8 (z : Z) : Z := if w8 z <? 2 ^ 7 then w8 z else w8 z - 2 ^ 8.
Definition w16 (z : Z) : Z := z mod 2 ^ 16.
Definition w32 (z : Z) : Z := z mod 2 ^ 32.
Definition w64 (z : Z) : Z := z mod 2 ^ 64.
Definition s32 (z : Z) : Z :=
  if w32 z <? 2 ^ 31 then w32 z else w32 z - 2 ^ 32.
Definition s64 (z : Z) : Z :=
  if w64 z <? 2 ^ 63 then w64 z else w64 z - 2 ^ 64.

(** [MIN], [ROUNDDOWN] and [ROUNDUP] of [inc/types.h]: the roundings compute
    in [uint32_t]. *)
Definition MIN (a b : Z) : Z := if a <=? b then a else b.
Definition ROUNDDOWN (a n : Z) : Z := w32 a - w32 a mod n.
Definition ROUNDUP (a n : Z) : Z := ROUNDDOWN (w32 (w32 a + n - 1)) n.

(** [x & flag] used as a condition. *)
Definition has (x flag : Z) : bool := negb (Z.land x flag =? 0).

(** ** Arithmetic automation *)

(** Compute the powers of two with literal exponents. *)
Ltac zpow :=
  repeat match goal with
  | |- context [2 ^ ?e] =>
      let v := eval vm_compute in (2 ^ e) in
      lazymatch v with Zpos _ => change (2 ^ e) with v end
  | H : context [2 ^ ?e] |- _ =>
      let v := eval vm_compute in (2 ^ e) in
      lazymatch v with Zpos _ => change (2 ^ e) with v in H end
  end.

(** [lia] with quotients and remainders turned into equations. *)
Ltac zlia := zpow; Z.to_euclidean_division_equations; lia.
Ltac znia := zpow; Z.to_euclidean_division_equations; nia.

(** Decide every boolean comparison the goal branches on. *)
Ltac case_bool :=
  repeat (match goal with
  | |- context [if ?b then _ else _] =>
      lazymatch type of b with
      | bool => let E := fresh "E" in destruct b eqn:E
      end
  end; rewrite ?Z.ltb_lt, ?Z.ltb_ge, ?Z.leb_le, ?Z.leb_gt, ?Z.eqb_eq, ?Z.eqb_neq in *).

(** Turn boolean hypotheses into propositions [lia] reads. *)
Ltac zbool :=
  repeat match goal with
  | H : (_ && _)%bool = true |- _ => apply andb_true_iff in H; destruct H
  | H : (_ || _)%bool = false |- _ => apply orb_false_iff in H; destruct H
  | H : negb _ = true |- _ => apply negb_true_iff in H
  | H : negb _ = false |- _ => apply negb_false_iff in H
  | H : (_ =? _)%Z = true |- _ => apply Z.eqb_eq in H
  | H : (_ =? _)%Z = false |- _ => apply Z.eqb_neq in H
  | H : (_ <? _)%Z = true |- _ => apply Z.ltb_lt in H
  | H : (_ <? _)%Z = false |- _ => apply Z.ltb_ge in H
  | H : (_ <=? _)%Z = true |- _ => apply Z.leb_le in H
  | H : (_ <=? _)%Z = false |- _ => apply Z.leb_gt in H
  end.

(** Split every range test of the goal and close the branches that are
    arithmetic, up to the argument of a common function. *)
Ltac zrange :=
  case_bool; zbool; rewrite ?andb_false_iff, ?Z.leb_gt, ?Z.ltb_ge in *;
  try lia; try done; try (f_equal; lia).

Lemma w32_small z : 0 <= z < 2 ^ 32 -> w32 z = z.
Proof. apply Z.mod_small. Qed.
Lemma w32_bound z : 0 <= w32 z < 2 ^ 32.
Proof. apply Z.mod_pos_bound; lia. Qed.
Lemma w32_idem z : w32 (w32 z) = w32 z.
Proof. unfold w32. zlia. Qed.
Lemma w16_small z : 0 <= z < 2 ^ 16 -> w16 z = z.
Proof. apply Z.mod_small. Qed.
Lemma w64_small z : 0 <= z < 2 ^ 64 -> w64 z = z.
Proof. apply Z.mod_small. Qed.
Lemma s32_bound z : - 2 ^ 31 <= s32 z < 2 ^ 31.
Proof. unfold s32. pose proof (w32_bound z). case_bool; lia. Qed.
Lemma s32_small z : - 2 ^ 31 <= z < 2 ^ 31 -> s32 z = z.
Proof. intros. unfold s32, w32. case_bool; zlia. Qed.
Lemma w32_s32 z : w32 (s32 z) = w32 z.
Proof. unfold s32, w32. case_bool; zlia. Qed.
Lemma s32_w32 z : s32 (w32 z) = s32 z.
Proof. unfold s32. rewrite w32_idem. done. Qed.

Lemma ROUNDDOWN_spec a n :
  0 <= a < 2 ^ 32 -> 0 < n -> ROUNDDOWN a n = a - a mod n.
Proof. intros. unfold ROUNDDOWN. rewrite w32_small by lia. done. Qed.

(** Without overflow, [ROUNDUP] is the least multiple of [n] not below [a]. *)
Lemma ROUNDUP_spec a n :
  0 <= a -> 0 < n -> a + n - 1 < 2 ^ 32 ->
  ROUNDUP a n = (a + n - 1) / n * n.
Proof.
  intros. unfold ROUNDUP, ROUNDDOWN.
  rewrite (w32_small a) by lia. rewrite !w32_small by (rewrite ?w32_small; lia).
  pose proof (Z.div_mod (a + n - 1) n). lia.
Qed.

(** ** Bits *)

(** [x & ~(2^n - 1)], the way C clears low bits. *)
Lemma land_lnot_ones x n :
  0 <= n -> Z.land x (Z.lnot (2 ^ n - 1)) = x / 2 ^ n * 2 ^ n.
Proof.
  intros. replace (2 ^ n - 1) with (Z.ones n) by (rewrite Z.ones_equiv; lia).
  rewrite <- Z.ldiff_land, Z.ldiff_ones_r by lia.
  rewrite Z.shiftl_mul_pow2, Z.shiftr_div_pow2 by lia. done.
Qed.

Lemma land_ones_mod x n : 0 <= n -> Z.land x (2 ^ n - 1) = x mod 2 ^ n.
Proof.
  intros. replace (2 ^ n - 1) with (Z.ones n) by (rewrite Z.ones_equiv; lia).
  apply Z.land_ones; lia.
Qed.

(** An aligned base and a small offset occupy disjoint bits, so [|] is [+]. *)
Lemma lor_add_disjoint a b n :
  0 <= n -> 0 <= b < 2 ^ n -> a mod 2 ^ n = 0 -> Z.lor a b = a + b.
Proof.
  intros Hn Hb Ha. symmetry. rewrite Z.add_nocarry_lxor; [apply Z.lxor_lor|];
  apply Z.bits_inj'; intros i Hi; rewrite Z.land_spec, Z.bits_0;
  (destruct (decide (i < n)) as [Hlt | Hge];
   [ rewrite <- (Z.mod_pow2_bits_low a n i), Ha, Z.bits_0 by lia; done
   | rewrite <- (Z.mod_small b (2 ^ n)), Z.mod_pow2_bits_high by lia;
     apply andb_false_r ]).
Qed.

Lemma lor_bound a b n :
  0 <= n -> 0 <= a < 2 ^ n -> 0 <= b < 2 ^ n -> 0 <= Z.lor a b < 2 ^ n.
Proof.
  intros Hn Ha Hb. split; [apply Z.lor_nonneg; lia|].
  destruct (Z.eq_dec a 0) as [-> | Ha0]; [rewrite Z.lor_0_l; lia|].
  destruct (Z.eq_dec b 0) as [-> | Hb0]; [rewrite Z.lor_0_r; lia|].
  destruct (Z.eq_dec (Z.lor a b) 0) as [-> | Hne]; [lia|].
  pose proof (proj2 (Z.lor_nonneg a b) ltac:(lia)).
  apply Z.log2_lt_pow2; [lia|]. rewrite Z.log2_lor by lia.
  apply Z.max_lub_lt; apply Z.log2_lt_pow2; lia.
Qed.

(** The single-bit flag [2^k] of a word is its [k]-th bit. *)
Lemma has_pow2 x k : 0 <= k -> has x (2 ^ k) = Z.testbit x k.
Proof.
  intros. unfold has. destruct (Z.testbit x k) eqn:E.
  - apply negb_true_iff, Z.eqb_neq. intros Hz.
    apply (f_equal (fun z => Z.testbit z k)) in Hz.
    rewrite Z.land_spec, Z.pow2_bits_true, Z.bits_0, E in Hz by lia. done.
  - apply negb_false_iff, Z.eqb_eq, Z.bits_inj'. intros i Hi.
    rewrite Z.land_spec, Z.bits_0, Z.pow2_bits_eqb by lia.
    destruct (Z.eqb_spec k i); subst; rewrite ?E, ?andb_false_r; done.
Qed.

(** A word with the bits of [p] tested against them all: [(x & p) == p]. *)
Lemma land_all_testbit x p :
  Z.land x p = p <->
  (forall i, 0 <= i -> Z.testbit p i = true -> Z.testbit x i = true).
Proof.
  split.
  - intros H i Hi Hp. rewrite <- H, Z.land_spec in Hp.
    apply andb_true_iff in Hp. tauto.
  - intros H. apply Z.bits_inj'. intros i Hi. rewrite Z.land_spec.
    destruct (Z.testbit p i) eqn:E; [|apply andb_false_r].
    rewrite H; done.
Qed.

(** ** Loops

    A C loop is a body run on the loop's variables: [inl] goes round again,
    [inr] leaves the loop.  [while] runs it under fuel; [while_total] is the
    rule every use discharges: an invariant and a decreasing measure give a
    result for any fuel above the measure. *)

Fixpoint while {St R : Type} (fuel : nat) (body : St -> St + R) (s : St) : option R :=
  match fuel with
  | O => None
  | S fuel' =>
      match body s with
      | inl s' => while fuel' body s'
      | inr r => Some r
      end
  end.

Section loops.
Context {St R : Type}.
Implicit Types (body : St -> St + R) (s : St).

Lemma while_total body (I : St -> Prop) (Q : R -> Prop) (mu : St -> nat) :
  (forall s, I s ->
     match body s with
     | inl s' => I s' /\ (mu s' < mu s)%nat
     | inr r => Q r
     end) ->
  forall fuel s, I s -> (mu s < fuel)%nat ->
  exists r, while fuel body s = Some r /\ Q r.
Proof.
  intros Hbody. induction fuel as [|fuel IH]; intros s HI Hmu; [lia|].
  simpl. pose proof (Hbody s HI) as Hs. destruct (body s) as [s' | r].
  - destruct Hs. apply IH; [done | lia].
  - eauto.
Qed.

(** A loop that has a result keeps it when given more fuel. *)
Lemma while_mono body fuel fuel' s r :
  while fuel body s = Some r -> (fuel <= fuel')%nat -> while fuel' body s = Some r.
Proof.
  revert fuel' s. induction fuel as [|fuel IH]; intros fuel' s H Hle; [done|].
  destruct fuel' as [|fuel']; [lia|]. simpl in *.
  destruct (body s); [apply IH; [done|lia] | done].
Qed.
End loops.

(** ** Record update

    [x <| f := v |>] is the record [x] with field [f] replaced: C's assignment
    to a member.  A record opts in with an [Eta] instance (its constructor
    applied to its projections); the setter of each field is computed from it. *)

Class Eta (R : Type) := eta : R -> R.
Class Setter {R T : Type} (proj : R -> T) := upd : (T -> T) -> R -> R.
Arguments upd {R T} proj {_} _ _ /.

Ltac solve_setter :=
  match goal with
  | |- @Setter ?R ?T ?proj =>
      let f := fresh "f" in
      let x := fresh "x" in
      refine (fun (f : T -> T) (x : R) => _);
      let t := constr:(eta x) in
      let t := eval cbv [eta] in t in
      let t := match t with
               | ?h x => eval cbv beta delta [h] in t
               | ?h _ x => eval cbv beta delta [h] in t
               | _ => t
               end in
      let t := eval pattern (proj x) in t in
      lazymatch t with ?g _ => let r := eval cbv beta in (g (f (proj x))) in exact r end
  end.
#[export] Hint Extern 1 (Setter _) => solve_setter : typeclass_instances.

Notation "x <| proj := v |>" := (upd proj (fun _ => v) x)
  (at level 12, left associativity, v at level 200, format "x  <| proj  :=  v |>").

(** ** Intrusive linked lists

    [chain link h l]: following [link] from [h] visits [l] and ends in NULL.
    [linked link h P]: the list from [h] holds exactly the nodes satisfying [P],
    each once. *)

Fixpoint chain (link : Z -> option Z) (h : option Z) (l : list Z) : Prop :=
  match l with
  | [] => h = None
  | p :: l' => h = Some p /\ chain link (link p) l'
  end.

Definition linked (link : Z -> option Z) (h : option Z) (P : Z -> Prop) : Prop :=
  exists l, chain link h l /\ NoDup l /\ forall p, p ∈ l <-> P p.

Section linked.
Implicit Types (link : Z -> option Z) (P : Z -> Prop) (l : list Z).

Lemma chain_ext link link' h l :
  (forall p, p ∈ l -> link' p = link p) -> chain link h l -> chain link' h l.
Proof.
  revert h. induction l as [|p l IH]; intros h Hext; simpl; [done|].
  intros [-> Hc]. split; [done|]. rewrite Hext by set_solver. apply IH; [|done].
  intros q Hq. apply Hext. set_solver.
Qed.

(** A list head determines the list. *)
Lemma chain_det link h l l' : chain link h l -> chain link h l' -> l = l'.
Proof.
  revert h l'. induction l as [|p l IH]; intros h [|p' l']; simpl; try done.
  - intros -> [H _]. done.
  - intros [-> _] H. done.
  - intros [-> H] [Heq H']. injection Heq as ->. f_equal. eauto.
Qed.

Lemma linked_head link q P : linked link (Some q) P -> P q.
Proof.
  intros (l & Hc & _ & Hl). destruct l as [|q' l]; simpl in Hc; [done|].
  destruct Hc as [[= ->] _]. apply Hl. set_solver.
Qed.
Lemma linked_empty link P p : linked link None P -> ~ P p.
Proof.
  intros (l & Hc & _ & Hl) HP. destruct l as [|q l]; simpl in Hc; [|by destruct Hc].
  apply Hl in HP. set_solver.
Qed.

(** Nodes that are not on the list may change. *)
Lemma linked_keep link link' h P P' :
  linked link h P -> (forall p, P p -> link' p = link p) -> (forall p, P' p <-> P p) ->
  linked link' h P'.
Proof.
  intros (l & Hc & Hnd & Hl) Hk HP. exists l. split; [|split; [done|]].
  - eapply chain_ext; [|exact Hc]. intros p Hp. apply Hk. by apply Hl.
  - intros p. rewrite Hl. symmetry. apply HP.
Qed.
Lemma linked_push link link' h q P P' :
  linked link h P -> ~ P q -> link' q = h -> (forall p, P p -> link' p = link p) ->
  (forall p, P' p <-> p = q \/ P p) -> linked link' (Some q) P'.
Proof.
  intros (l & Hc & Hnd & Hl) Hq Hlq Hk HP. exists (q :: l). split; [|split].
  - split; [done|]. rewrite Hlq. eapply chain_ext; [|exact Hc]. intros p Hp. apply Hk. by apply Hl.
  - apply NoDup_cons. split; [|done]. by rewrite Hl.
  - intros p. rewrite elem_of_cons, Hl. symmetry. apply HP.
Qed.
Lemma linked_pop link link' q P P' :
  linked link (Some q) P -> (forall p, p <> q -> link' p = link p) ->
  (forall p, P' p <-> P p /\ p <> q) -> linked link' (link q) P'.
Proof.
  intros (l & Hc & Hnd & Hl) Hk HP. destruct l as [|q' l]; simpl in Hc; [done|].
  destruct Hc as [[= ->] Hc]. apply NoDup_cons in Hnd as [Hnin Hnd].
  exists l. split; [|split; [done|]].
  - eapply chain_ext; [|exact Hc]. intros p Hp. apply Hk. set_solver.
  - intros p. rewrite HP, <- Hl. set_solver.
Qed.
End linked.

(** ** Counting the elements of a list that satisfy a predicate *)

Section counting.
Context {A : Type}.
Implicit Types (l : list A).

Lemma filter_length_ext (P Q : A -> Prop) `{HdP : !forall x, Decision (P x)}
    `{HdQ : !forall x, Decision (Q x)} l :
  (forall x, x ∈ l -> P x <-> Q x) -> length (filter P l) = length (filter Q l).
Proof.
  induction l as [|x l IH]; intros H; [done|]. rewrite !filter_cons.
  assert (HPQ : P x <-> Q x) by (apply H; set_solver).
  pose proof (IH ltac:(intros; apply H; set_solver)).
  destruct (decide (P x)), (decide (Q x)); simpl; tauto || lia.
Qed.

(** Changing the predicate at one element of a duplicate-free list. *)
Lemma filter_length_change (P Q : A -> Prop) `{HdP : !forall x, Decision (P x)}
    `{HdQ : !forall x, Decision (Q x)} l x :
  NoDup l -> x ∈ l -> (forall y, y ∈ l -> y <> x -> P y <-> Q y) ->
  (length (filter Q l) + (if decide (P x) then 1 else 0) =
   length (filter P l) + (if decide (Q x) then 1 else 0))%nat.
Proof.
  induction l as [|y l IH]; intros Hnd Hx H; [set_solver|].
  apply NoDup_cons in Hnd as [Hy Hnd]. rewrite !filter_cons.
  apply elem_of_cons in Hx as [<- | Hx].
  - assert (length (filter P l) = length (filter Q l)).
    { apply filter_length_ext. intros z Hz. apply H; set_solver. }
    destruct (decide (P x)), (decide (Q x)); simpl; lia.
  - assert (HPQ : P y <-> Q y) by (apply H; set_solver).
    pose proof (IH Hnd Hx ltac:(intros; apply H; set_solver)).
    destruct (decide (P y)), (decide (Q y)); simpl; tauto || lia.
Qed.

Lemma filter_length_pos (P : A -> Prop) `{HdP : !forall x, Decision (P x)} l x :
  x ∈ l -> P x -> (0 < length (filter P l))%nat.
Proof.
  intros Hx HP. assert (x ∈ filter P l) as Hin by (apply list_elem_of_filter; done).
  destruct (filter P l); [set_solver | simpl; lia].
Qed.

Lemma filter_length_zero (P : A -> Prop) `{HdP : !forall x, Decision (P x)} l :
  (forall x, x ∈ l -> ~ P x) -> length (filter P l) = 0%nat.
Proof.
  intros Hn. destruct (filter P l) as [|x k] eqn:E; [done|].
  assert (x ∈ filter P l) as Hx by (rewrite E; set_solver).
  apply list_elem_of_filter in Hx as [HP Hx]. exfalso. eapply Hn; eauto.
Qed.
End counting.

(** ** Searching a list *)

Lemma find_app {A} (p : A -> bool) l l' :
  List.find p (l ++ l') = match List.find p l with Some x => Some x | None => List.find p l' end.
Proof. induction l as [|x l IH]; simpl; [done|]. by destruct (p x). Qed.
Lemma find_fmap {A B} (p : B -> bool) (g : A -> B) l : List.find p (g <$> l) = g <$> List.find (fun x => p (g x)) l.
Proof. induction l as [|x l IH]; simpl; [done|]. by destruct (p (g x)). Qed.
Lemma find_fmap_ext {A B} (p q : A -> bool) (g h : A -> B) l :
  (forall x, x ∈ l -> p x = q x /\ g x = h x) -> g <$> List.find p l = h <$> List.find q l.
Proof.
  induction l as [|x l IH]; intros Hl; [done|]. cbn [List.find].
  destruct (Hl x ltac:(left)) as [-> Hx]. destruct (q x); [simpl; by rewrite Hx|].
  apply IH. intros y Hy. apply Hl. by right.
Qed.

(** A property of all small numbers, checked by computation. *)
Lemma forallb_seqZ (f : Z -> bool) n z : forallb f (seqZ 0 n) = true -> 0 <= z < n -> f z = true.
Proof.
  rewrite forallb_forall. intros H Hz. apply H, list_elem_of_In, elem_of_seqZ. lia.
Qed.

Lemma lookup_repeat {A} (x : A) n i : (i < n)%nat -> repeat x n !! i = Some x.
Proof. revert i. induction n as [|n IH]; intros [|i] Hi; simpl; [lia | lia | done | apply IH; lia]. Qed.
