(* ===== verification/Mem.v ===== *)
(** * Byte-addressed memory

    The memory every component shares: a finite map from addresses to bytes in
    which an address never written reads as zero (the kernel clears its bss and
    every page it hands out).  [ld32]/[st32] are the little-endian accesses the
    x86 makes for a [uint32_t]. *)

From S2P Require Import Prelude.

Abbreviation memory := (gmap Z Z).

Definition ld8 (m : memory) (a : Z) : Z := default 0 (m !! a) mod 256.
Definition st8 (m : memory) (a v : Z) : memory := <[a := v mod 256]> m.

Definition ld32 (m : memory) (a : Z) : Z :=
  ld8 m a + 256 * ld8 m (a + 1) + 65536 * ld8 m (a + 2) + 16777216 * ld8 m (a + 3).
Definition st32 (m : memory) (a v : Z) : memory :=
  st8 (st8 (st8 (st8 m a v) (a + 1) (v / 256)) (a + 2) (v / 65536)) (a + 3) (v / 16777216).

Lemma ld8_bound m a : 0 <= ld8 m a < 256.
Proof. apply Z.mod_pos_bound; lia. Qed.

Lemma ld8_mod m a : ld8 m a mod 256 = ld8 m a.
Proof. apply Z.mod_small, ld8_bound. Qed.

Lemma ld8_st8 m a v b : ld8 (st8 m a v) b = if b =? a then v mod 256 else ld8 m b.
Proof.
  unfold ld8, st8. destruct (Z.eqb_spec b a) as [-> | Hne].
  - rewrite lookup_insert_eq. simpl. apply Z.mod_mod; lia.
  - by rewrite lookup_insert_ne.
Qed.
Lemma ld8_st8_eq m a v : ld8 (st8 m a v) a = v mod 256.
Proof. rewrite ld8_st8, Z.eqb_refl. done. Qed.
Lemma ld8_st8_ne m a v b : b <> a -> ld8 (st8 m a v) b = ld8 m b.
Proof. intros. rewrite ld8_st8. destruct (Z.eqb_spec b a); done. Qed.

Lemma ld32_bound m a : 0 <= ld32 m a < 2 ^ 32.
Proof.
  unfold ld32. pose proof (ld8_bound m a). pose proof (ld8_bound m (a + 1)).
  pose proof (ld8_bound m (a + 2)). pose proof (ld8_bound m (a + 3)). lia.
Qed.

(** Two words at the same place or at disjoint places. *)
Lemma ld32_st32_eq m a v : ld32 (st32 m a v) a = w32 v.
Proof.
  unfold ld32, st32.
  repeat first [rewrite ld8_st8_eq | rewrite ld8_st8_ne by lia].
  unfold w32. zlia.
Qed.
Lemma ld32_st32_ne m a v b : b + 4 <= a \/ a + 4 <= b -> ld32 (st32 m a v) b = ld32 m b.
Proof. intros. unfold ld32, st32. rewrite !ld8_st8_ne by lia. done. Qed.

(** The bytes a word store writes are the bytes of the word. *)
Lemma ld8_st32 m a v b :
  ld8 (st32 m a v) b =
    if (a <=? b) && (b <? a + 4) then (v / 2 ^ (8 * (b - a))) mod 256 else ld8 m b.
Proof.
  unfold st32. rewrite !ld8_st8.
  destruct ((a <=? b) && (b <? a + 4)) eqn:E; zbool; [|zrange].
  assert (b = a + 0 \/ b = a + 1 \/ b = a + 2 \/ b = a + 3) as [-> | [-> | [-> | ->]]] by lia;
  rewrite Z.add_simpl_l; zpow; rewrite ?Z.add_0_r, ?Z.div_1_r; case_bool; done || lia.
Qed.

(** Copying a word copies its four bytes. *)
Lemma ld8_ld32 m a i : 0 <= i < 4 -> (ld32 m a / 2 ^ (8 * i)) mod 256 = ld8 m (a + i).
Proof.
  intros Hi. unfold ld32. pose proof (ld8_bound m a). pose proof (ld8_bound m (a + 1)).
  pose proof (ld8_bound m (a + 2)). pose proof (ld8_bound m (a + 3)).
  assert (i = 0 \/ i = 1 \/ i = 2 \/ i = 3) as [-> | [-> | [-> | ->]]] by lia;
  rewrite ?Z.add_0_r; zlia.
Qed.

(** Memories that read the same, the equality loads respect. *)
Definition mem_equiv (m1 m2 : memory) : Prop := forall a, ld8 m1 a = ld8 m2 a.
Infix "=m=" := mem_equiv (at level 70, no associativity).

#[export] Instance mem_equiv_equivalence : Equivalence mem_equiv.
Proof.
  split; unfold mem_equiv; [intros m a; done | intros m1 m2 H a; done |].
  intros m1 m2 m3 H1 H2 a. by rewrite H1.
Qed.
#[export] Instance ld8_proper : Proper (mem_equiv ==> eq ==> eq) ld8.
Proof. intros m1 m2 H a ? <-. apply H. Qed.
#[export] Instance ld32_proper : Proper (mem_equiv ==> eq ==> eq) ld32.
Proof. intros m1 m2 H a ? <-. unfold ld32. by rewrite !H. Qed.
#[export] Instance st8_proper : Proper (mem_equiv ==> eq ==> eq ==> mem_equiv) st8.
Proof. intros m1 m2 H a ? <- v ? <- b. rewrite !ld8_st8. by rewrite H. Qed.
#[export] Instance st32_proper : Proper (mem_equiv ==> eq ==> eq ==> mem_equiv) st32.
Proof. intros m1 m2 H a ? <- v ? <-. unfold st32. by rewrite H. Qed.

(** A range of [n] bytes of memory as a list. *)
Fixpoint ldbytes (m : memory) (a : Z) (n : nat) : list Z :=
  match n with
  | O => []
  | S n' => ld8 m a :: ldbytes m (a + 1) n'
  end.
Fixpoint stbytes (m : memory) (a : Z) (l : list Z) : memory :=
  match l with
  | [] => m
  | b :: l' => stbytes (st8 m a b) (a + 1) l'
  end.

Lemma ldbytes_length m a n : length (ldbytes m a n) = n.
Proof. revert a. induction n; intros; simpl; auto. Qed.
Lemma ldbytes_lookup m a n i :
  (i < n)%nat -> ldbytes m a n !! i = Some (ld8 m (a + Z.of_nat i)).
Proof.
  revert a i. induction n as [|n IH]; intros a i Hi; [lia|].
  destruct i as [|i]; simpl; [rewrite Z.add_0_r; done|].
  rewrite IH by lia. do 2 f_equal. lia.
Qed.
Lemma ld8_stbytes_out m a l b :
  b < a \/ a + Z.of_nat (length l) <= b -> ld8 (stbytes m a l) b = ld8 m b.
Proof.
  revert m a. induction l as [|c l IH]; intros m a Hb; simpl in *; [done|].
  rewrite IH by lia. apply ld8_st8_ne. lia.
Qed.
Lemma ld8_stbytes_in m a l i c :
  l !! i = Some c -> ld8 (stbytes m a l) (a + Z.of_nat i) = c mod 256.
Proof.
  revert m a i. induction l as [|d l IH]; intros m a i Hi; [done|].
  destruct i as [|i]; simpl in *.
  - injection Hi as ->. rewrite Z.add_0_r, ld8_stbytes_out by lia. apply ld8_st8_eq.
  - rewrite <- (IH (st8 m a d) (a + 1) i Hi). f_equal. lia.
Qed.

Lemma ldbytes_stbytes m a l : Forall (fun b => 0 <= b < 256) l -> ldbytes (stbytes m a l) a (length l) = l.
Proof.
  intros Hl. apply list_eq. intros i. destruct (decide (i < length l)%nat) as [Hi | Hi].
  - rewrite ldbytes_lookup by done. destruct (lookup_lt_is_Some_2 l i Hi) as [c Hc]. rewrite Hc. f_equal.
    rewrite (ld8_stbytes_in _ _ _ _ _ Hc). apply Z.mod_small. by apply (Forall_lookup_1 _ _ _ _ Hl Hc).
  - rewrite !lookup_ge_None_2 by (rewrite ?ldbytes_length; lia). done.
Qed.

#[export] Hint Rewrite ld8_st8_eq ld32_st32_eq : mem.
#[export] Hint Rewrite ld8_st8_ne ld32_st32_ne using lia : mem.
