(* ===== verification/CString.v ===== *)
(** * The string routines ([lib/string.c])

    Both the kernel and user programs link this file.  Pointers are addresses
    into a [memory]; a routine that writes returns the memory it leaves.  The
    routines that look for a terminating NUL run under fuel ([while]); the
    lemmas show that fuel above the length of the string is enough.  The
    [#if ASM] bodies of [memset] and [memmove] are the ones compiled, so the
    [rep] string instructions they use are modelled, with their direction. *)

From S2P Require Import Prelude Mem.

(** ** Definitions *)

Definition strlen (fuel : nat) (m : memory) (s : Z) : option Z :=
  while fuel (fun '(s, n) =>
    if negb (ld8 m s =? 0) then inl (s + 1, n + 1) else inr n) (s, 0).

Definition strnlen (fuel : nat) (m : memory) (s size : Z) : option Z :=
  while fuel (fun '(s, size, n) =>
    if (size >? 0) && negb (ld8 m s =? 0)
    then inl (s + 1, size - 1, n + 1) else inr n) (s, size, 0).

(** The loop tests the byte it has just stored. *)
Definition strcpy (fuel : nat) (m : memory) (dst src : Z) : option memory :=
  while fuel (fun '(m, dst, src) =>
    let c := ld8 m src in
    let m' := st8 m dst c in
    if negb (c =? 0) then inl (m', dst + 1, src + 1) else inr m') (m, dst, src).

Definition strcat (fuel : nat) (m : memory) (dst src : Z) : option memory :=
  match strlen fuel m dst with
  | Some len => strcpy fuel m (dst + len) src
  | None => None
  end.

Definition strncpy (m : memory) (dst src size : Z) : option memory :=
  while (S (Z.to_nat size)) (fun '(i, m, dst, src) =>
    if i <? size then
      let m' := st8 m dst (ld8 m src) in
      inl (i + 1, m', dst + 1, if negb (ld8 m' src =? 0) then src + 1 else src)
    else inr m) (0, m, dst, src).

(** Returns the memory and [dst - dst_in]. *)
Definition strlcpy (m : memory) (dst src size : Z) : option (memory * Z) :=
  if size >? 0 then
    while (S (Z.to_nat size)) (fun '(m, d, src, size) =>
      let size := size - 1 in
      if (size >? 0) && negb (ld8 m src =? 0)
      then inl (st8 m d (ld8 m src), d + 1, src + 1, size)
      else inr (st8 m d 0, d - dst)) (m, dst, src, size)
  else Some (m, 0).

Definition strcmp (fuel : nat) (m : memory) (p q : Z) : option Z :=
  while fuel (fun '(p, q) =>
    if negb (ld8 m p =? 0) && (ld8 m p =? ld8 m q)
    then inl (p + 1, q + 1) else inr (ld8 m p - ld8 m q)) (p, q).

Definition strncmp (m : memory) (p q n : Z) : option Z :=
  while (S (Z.to_nat n)) (fun '(p, q, n) =>
    if (n >? 0) && negb (ld8 m p =? 0) && (ld8 m p =? ld8 m q)
    then inl (p + 1, q + 1, n - 1)
    else inr (if n =? 0 then 0 else ld8 m p - ld8 m q)) (p, q, n).

(** [c] is a [char]; a null result is [0]. *)
Definition strchr (fuel : nat) (m : memory) (s c : Z) : option Z :=
  while fuel (fun s =>
    if negb (ld8 m s =? 0) then
      if ld8 m s =? c mod 256 then inr s else inl (s + 1)
    else inr 0) s.

Definition strfind (fuel : nat) (m : memory) (s c : Z) : option Z :=
  while fuel (fun s =>
    if negb (ld8 m s =? 0) then
      if ld8 m s =? c mod 256 then inr s else inl (s + 1)
    else inr s) s.

(** [rep stosb], [rep stosl] with DF clear. *)
Fixpoint rep_stosb (ecx : nat) (m : memory) (edi eax : Z) : memory :=
  match ecx with
  | O => m
  | S k => rep_stosb k (st8 m edi eax) (edi + 1) eax
  end.
Fixpoint rep_stosl (ecx : nat) (m : memory) (edi eax : Z) : memory :=
  match ecx with
  | O => m
  | S k => rep_stosl k (st32 m edi eax) (edi + 4) eax
  end.
(** [rep movsb], [rep movsl]: [df] is the direction flag ([std] / [cld]). *)
Fixpoint rep_movsb (df : bool) (ecx : nat) (m : memory) (edi esi : Z) : memory :=
  match ecx with
  | O => m
  | S k =>
      let d := if df then -1 else 1 in
      rep_movsb df k (st8 m edi (ld8 m esi)) (edi + d) (esi + d)
  end.
Fixpoint rep_movsl (df : bool) (ecx : nat) (m : memory) (edi esi : Z) : memory :=
  match ecx with
  | O => m
  | S k =>
      let d := if df then -4 else 4 in
      rep_movsl df k (st32 m edi (ld32 m esi)) (edi + d) (esi + d)
  end.

Definition memset (m : memory) (v c n : Z) : memory :=
  if n =? 0 then m
  else if (v mod 4 =? 0) && (n mod 4 =? 0) then
    let c := Z.land c 0xFF in
    let c := Z.lor (Z.lor (Z.lor (Z.shiftl c 24) (Z.shiftl c 16)) (Z.shiftl c 8)) c in
    rep_stosl (Z.to_nat (n / 4)) m v c
  else rep_stosb (Z.to_nat n) m v c.

Definition memmove (m : memory) (dst src n : Z) : memory :=
  let s := src in
  let d := dst in
  if (s <? d) && (s + n >? d) then
    let s := s + n in
    let d := d + n in
    if (s mod 4 =? 0) && (d mod 4 =? 0) && (n mod 4 =? 0)
    then rep_movsl true (Z.to_nat (n / 4)) m (d - 4) (s - 4)
    else rep_movsb true (Z.to_nat n) m (d - 1) (s - 1)
  else
    if (s mod 4 =? 0) && (d mod 4 =? 0) && (n mod 4 =? 0)
    then rep_movsl false (Z.to_nat (n / 4)) m d s
    else rep_movsb false (Z.to_nat n) m d s.

Definition memcpy (m : memory) (dst src n : Z) : memory := memmove m dst src n.

(** [while (n-- > 0)]: the comparison of the two ranges stops at the first difference. *)
Definition memcmp (m : memory) (v1 v2 n : Z) : option Z :=
  while (S (Z.to_nat n)) (fun '(s1, s2, n) =>
    if n >? 0 then
      if negb (ld8 m s1 =? ld8 m s2) then inr (ld8 m s1 - ld8 m s2)
      else inl (s1 + 1, s2 + 1, n - 1)
    else inr 0) (v1, v2, n).

Definition memfind (m : memory) (s c n : Z) : option Z :=
  let ends := s + n in
  while (S (Z.to_nat n)) (fun s =>
    if s <? ends then
      if ld8 m s =? c mod 256 then inr s else inl (s + 1)
    else inr s) s.

(** *** [strtol] *)

Definition is_blank (c : Z) : bool := (c =? 32) || (c =? 9).

(** The value of a digit character, [None] where the code leaves the loop. *)
Definition digit_val (c : Z) : option Z :=
  if (48 <=? c) && (c <=? 57) then Some (c - 48)
  else if (97 <=? c) && (c <=? 122) then Some (c - 97 + 10)
  else if (65 <=? c) && (c <=? 90) then Some (c - 65 + 10)
  else None.

(** The [while (1)] over the digits; [long] is 32 bits wide on this target. *)
Definition strtol_digits (fuel : nat) (m : memory) (s base : Z) : option (Z * Z) :=
  while fuel (fun '(s, val) =>
    match digit_val (ld8 m s) with
    | None => inr (s, val)
    | Some dig =>
        if dig >=? base then inr (s, val) else inl (s + 1, s32 (val * base + dig))
    end) (s, 0).

Definition strtol_prefix (m : memory) (s base : Z) : Z * Z :=
  if ((base =? 0) || (base =? 16)) && ((ld8 m s =? 48) && (ld8 m (s + 1) =? 120))
  then (s + 2, 16)
  else if (base =? 0) && (ld8 m s =? 48) then (s + 1, 8)
  else if base =? 0 then (s, 10)
  else (s, base).

(** Returns the value and [*endptr]. *)
Definition strtol (fuel : nat) (m : memory) (s base : Z) : option (Z * Z) :=
  match while fuel (fun s => if is_blank (ld8 m s) then inl (s + 1) else inr s) s with
  | None => None
  | Some s =>
      let '(s, neg) :=
        if ld8 m s =? 43 then (s + 1, false)
        else if ld8 m s =? 45 then (s + 1, true)
        else (s, false) in
      let '(s, base) := strtol_prefix m s base in
      match strtol_digits fuel m s base with
      | None => None
      | Some (s, val) => Some ((if neg then s32 (- val) else val), s)
      end
  end.

(** ** NUL-terminated strings *)

(** [cstr m s l]: the bytes [l], none of them NUL, are at [s], followed by a NUL. *)
Fixpoint cstr (m : memory) (s : Z) (l : list Z) : Prop :=
  match l with
  | [] => ld8 m s = 0
  | c :: l' => c <> 0 /\ ld8 m s = c /\ cstr m (s + 1) l'
  end.

#[export] Instance cstr_dec m s l : Decision (cstr m s l).
Proof. revert s. induction l as [|c l IH]; intros s; simpl; apply _. Defined.

Lemma cstr_byte m s l i c :
  cstr m s l -> l !! i = Some c -> ld8 m (s + Z.of_nat i) = c /\ c <> 0.
Proof.
  revert s i. induction l as [|d l IH]; intros s i H Hi; [done|].
  destruct H as (Hnz & Hd & Hl). destruct i as [|i]; simpl in Hi.
  - injection Hi as <-. rewrite Z.add_0_r. done.
  - destruct (IH _ _ Hl Hi) as [<- ?]. split; [f_equal; lia | done].
Qed.
Lemma cstr_end m s l : cstr m s l -> ld8 m (s + Z.of_nat (length l)) = 0.
Proof.
  revert s. induction l as [|d l IH]; intros s H; simpl in *.
  - rewrite Z.add_0_r. done.
  - destruct H as (_ & _ & Hl). rewrite <- (IH _ Hl). f_equal. lia.
Qed.

(** A string survives any write that leaves its bytes alone. *)
Lemma cstr_frame m m' s l :
  (forall a, s <= a <= s + Z.of_nat (length l) -> ld8 m' a = ld8 m a) ->
  cstr m s l -> cstr m' s l.
Proof.
  revert s. induction l as [|c l IH]; intros s Hf H; simpl in *.
  - rewrite Hf by lia. done.
  - destruct H as (Hnz & Hc & Hl). repeat split; [done | rewrite Hf by lia; done |].
    apply IH; [|done]. intros. apply Hf. lia.
Qed.

Lemma cstr_intro m s l :
  (forall i c, l !! i = Some c -> c <> 0 /\ ld8 m (s + Z.of_nat i) = c) ->
  ld8 m (s + Z.of_nat (length l)) = 0 -> cstr m s l.
Proof.
  revert s. induction l as [|c l IH]; intros s Hl He; simpl in *.
  - rewrite Z.add_0_r in He. done.
  - destruct (Hl O c eq_refl) as [? Hc]. rewrite Z.add_0_r in Hc. repeat split; try done.
    apply IH; [intros i d Hi; destruct (Hl (S i) d Hi) as [? <-] |];
    [split; [done | f_equal; lia] | rewrite <- He; f_equal; lia].
Qed.

(** ** [memset] and [memmove] *)

Lemma ld8_copy_word m m' d s a :
  ld8 (st32 m d (ld32 m' s)) a =
    if (d <=? a) && (a <? d + 4) then ld8 m' (s + (a - d)) else ld8 m a.
Proof.
  rewrite ld8_st32. destruct ((d <=? a) && (a <? d + 4)) eqn:E; [|done].
  zbool. apply ld8_ld32. lia.
Qed.

Lemma rep_stosb_spec k m d c a :
  ld8 (rep_stosb k m d c) a =
    if (d <=? a) && (a <? d + Z.of_nat k) then c mod 256 else ld8 m a.
Proof.
  revert m d. induction k as [|k IH]; intros m d; simpl.
  - zrange.
  - rewrite IH, ld8_st8. zrange.
Qed.

Lemma rep_stosl_spec k m d c a :
  0 <= c < 256 ->
  let w := Z.lor (Z.lor (Z.lor (Z.shiftl c 24) (Z.shiftl c 16)) (Z.shiftl c 8)) c in
  ld8 (rep_stosl k m d w) a =
    if (d <=? a) && (a <? d + 4 * Z.of_nat k) then c else ld8 m a.
Proof.
  intros Hc w. assert (Hw : w = 16843009 * c).
  { unfold w. rewrite !Z.shiftl_mul_pow2 by lia.
    rewrite (lor_add_disjoint (c * 2 ^ 24) (c * 2 ^ 16) 24) by zlia.
    rewrite (lor_add_disjoint _ (c * 2 ^ 8) 16) by zlia.
    rewrite (lor_add_disjoint _ c 8) by zlia. lia. }
  assert (Hbyte : forall i, 0 <= i < 4 -> (w / 2 ^ (8 * i)) mod 256 = c).
  { intros i Hi. rewrite Hw.
    assert (i = 0 \/ i = 1 \/ i = 2 \/ i = 3) as [-> | [-> | [-> | ->]]] by lia;
    zlia. }
  clearbody w. clear Hw. revert m d.
  induction k as [|k IH]; intros m d; simpl.
  - zrange.
  - rewrite IH, ld8_st32. zrange; apply Hbyte; lia.
Qed.

(** [memset] writes the byte [c] over [v, v+n) and nothing else, whichever of
    the word and the byte loop it takes. *)
Lemma memset_spec m v c n a :
  0 <= n ->
  ld8 (memset m v c n) a =
    if (v <=? a) && (a <? v + n) then c mod 256 else ld8 m a.
Proof.
  intros Hn. unfold memset. destruct (Z.eqb_spec n 0) as [-> | Hn0].
  { zrange. }
  destruct ((v mod 4 =? 0) && (n mod 4 =? 0)) eqn:E; zbool.
  - change (Z.land c 255) with (Z.land c (2 ^ 8 - 1)). rewrite land_ones_mod by lia.
    rewrite rep_stosl_spec by (apply Z.mod_pos_bound; lia).
    rewrite Z2Nat.id by zlia. replace (4 * (n / 4)) with n by zlia. done.
  - rewrite rep_stosb_spec, Z2Nat.id by lia. done.
Qed.

(** A forward copy is right when the destination does not start inside the
    part of the source still to be read; a backward copy in the mirrored case. *)
Lemma rep_movsb_forward k m d s a :
  d <= s \/ s + Z.of_nat k <= d ->
  ld8 (rep_movsb false k m d s) a =
    if (d <=? a) && (a <? d + Z.of_nat k) then ld8 m (s + (a - d)) else ld8 m a.
Proof.
  revert m d s. induction k as [|k IH]; intros m d s Hds; simpl.
  - zrange.
  - rewrite IH by lia. rewrite !ld8_st8, ?ld8_mod.
    zrange.
Qed.

Lemma rep_movsl_forward k m d s a :
  d <= s \/ s + 4 * Z.of_nat k <= d ->
  ld8 (rep_movsl false k m d s) a =
    if (d <=? a) && (a <? d + 4 * Z.of_nat k) then ld8 m (s + (a - d)) else ld8 m a.
Proof.
  revert m d s. induction k as [|k IH]; intros m d s Hds; simpl.
  - zrange.
  - rewrite IH by lia. rewrite !ld8_copy_word.
    zrange.
Qed.

Lemma rep_movsb_backward k m d s a :
  s <= d ->
  ld8 (rep_movsb true k m (d + Z.of_nat k - 1) (s + Z.of_nat k - 1)) a =
    if (d <=? a) && (a <? d + Z.of_nat k) then ld8 m (s + (a - d)) else ld8 m a.
Proof.
  revert m. induction k as [|k IH]; intros m Hds.
  - simpl. zrange.
  - cbn [rep_movsb].
    replace (d + Z.of_nat (S k) - 1 + -1) with (d + Z.of_nat k - 1) by lia.
    replace (s + Z.of_nat (S k) - 1 + -1) with (s + Z.of_nat k - 1) by lia.
    rewrite IH by done. rewrite !ld8_st8, ?ld8_mod.
    zrange.
Qed.

Lemma rep_movsl_backward k m d s a :
  s < d -> s mod 4 = 0 -> d mod 4 = 0 ->
  ld8 (rep_movsl true k m (d + 4 * Z.of_nat k - 4) (s + 4 * Z.of_nat k - 4)) a =
    if (d <=? a) && (a <? d + 4 * Z.of_nat k) then ld8 m (s + (a - d)) else ld8 m a.
Proof.
  intros Hlt Hs4 Hd4. assert (s + 4 <= d) as Hds by zlia. clear Hlt Hs4 Hd4.
  revert m. induction k as [|k IH]; intros m.
  - simpl. zrange.
  - cbn [rep_movsl].
    replace (d + 4 * Z.of_nat (S k) - 4 + -4) with (d + 4 * Z.of_nat k - 4) by lia.
    replace (s + 4 * Z.of_nat (S k) - 4 + -4) with (s + 4 * Z.of_nat k - 4) by lia.
    rewrite IH by done. rewrite !ld8_copy_word.
    zrange.
Qed.

Lemma memmove_ld8 m dst src n a :
  0 <= n ->
  ld8 (memmove m dst src n) a =
    if (dst <=? a) && (a <? dst + n) then ld8 m (src + (a - dst)) else ld8 m a.
Proof.
  intros Hn. unfold memmove.
  assert (Hq : n mod 4 = 0 -> n = 4 * Z.of_nat (Z.to_nat (n / 4))) by zlia.
  assert (Hb : n = Z.of_nat (Z.to_nat n)) by lia.
  destruct ((src <? dst) && (src + n >? dst)) eqn:E.
  - zbool. match goal with |- context [if ?b then _ else _] => destruct b eqn:E' end.
    + zbool. pose proof (Hq ltac:(done)) as Hn4.
      set (k := Z.to_nat (n / 4)) in *. clearbody k. subst n.
      apply rep_movsl_backward; zlia.
    + set (k := Z.to_nat n) in *. clearbody k. subst n.
      apply rep_movsb_backward; lia.
  - assert (dst <= src \/ src + n <= dst) as Hds.
    { apply andb_false_iff in E as [E | E]; [apply Z.ltb_ge in E; lia|].
      rewrite Z.gtb_ltb, Z.ltb_ge in E. lia. }
    match goal with |- context [if ?b then _ else _] => destruct b eqn:E' end.
    + zbool. pose proof (Hq ltac:(done)) as Hn4.
      set (k := Z.to_nat (n / 4)) in *. clearbody k. subst n.
      apply rep_movsl_forward. lia.
    + set (k := Z.to_nat n) in *. clearbody k. subst n.
      apply rep_movsb_forward. lia.
Qed.

(** ** Length, copy and comparison *)

Section strings.
Implicit Types (m : memory) (l : list Z).

Lemma strlen_spec m s l fuel :
  cstr m s l -> (length l < fuel)%nat -> strlen fuel m s = Some (Z.of_nat (length l)).
Proof.
  intros Hs Hf. unfold strlen.
  assert (H : forall f s n l, cstr m s l -> (length l < f)%nat ->
    while f (fun '(s, n) =>
      if negb (ld8 m s =? 0) then inl (s + 1, n + 1) else inr n) (s, n)
    = Some (n + Z.of_nat (length l))).
  { clear. induction f as [|f IH]; intros s n l Hs Hf; [lia|]. simpl.
    destruct l as [|c l]; simpl in *.
    - rewrite Hs. simpl. f_equal. lia.
    - destruct Hs as (Hnz & Hc & Hl). rewrite Hc.
      destruct (Z.eqb_spec c 0); [done|]. simpl.
      rewrite (IH _ _ l) by (done || lia). f_equal. lia. }
  rewrite (H _ _ _ l) by done. done.
Qed.

(** Copying a string whose source and destination do not overlap. *)
Lemma strcpy_spec m dst src l fuel :
  cstr m src l -> (length l < fuel)%nat ->
  (dst + Z.of_nat (length l) < src \/ src + Z.of_nat (length l) < dst) ->
  exists m', strcpy fuel m dst src = Some m' /\ cstr m' dst l /\
    (forall a, a < dst \/ dst + Z.of_nat (length l) < a -> ld8 m' a = ld8 m a).
Proof.
  unfold strcpy. revert fuel m dst src.
  induction l as [|c l IH]; intros [|fuel] m dst src Hs Hf Hd; try (simpl in *; lia).
  - simpl in *. rewrite Hs. simpl. eexists. split; [done|]. split.
    + simpl. rewrite ld8_st8_eq. done.
    + intros. apply ld8_st8_ne. lia.
  - pose proof Hs as Hs0. destruct Hs as (Hnz & Hc & Hl). simpl in Hf, Hd. cbn [while].
    rewrite Hc. destruct (Z.eqb_spec c 0); [done|]. simpl negb. cbv iota.
    destruct (IH fuel (st8 m dst c) (dst + 1) (src + 1)) as (m' & Hrun & Hcs & Hfr);
      [| lia | lia |].
    { eapply cstr_frame; [|exact Hl]. intros. apply ld8_st8_ne. simpl in Hd. lia. }
    exists m'. split; [exact Hrun|]. split.
    + cbn [cstr]. repeat split; [done | | done].
      rewrite Hfr by lia. rewrite ld8_st8_eq. rewrite <- Hc. apply ld8_mod.
    + simpl. intros a Ha. rewrite Hfr by lia. apply ld8_st8_ne. lia.
Qed.

(** [strcmp] orders strings by their first differing byte: the sign the C
    library promises, as a comparison of the byte lists. *)
Fixpoint lex (l1 l2 : list Z) : comparison :=
  match l1, l2 with
  | [], [] => Eq
  | [], _ :: _ => Lt
  | _ :: _, [] => Gt
  | a :: l1', b :: l2' =>
      match a ?= b with Eq => lex l1' l2' | c => c end
  end.

Lemma lex_eq l1 l2 : lex l1 l2 = Eq <-> l1 = l2.
Proof.
  revert l2. induction l1 as [|a l1 IH]; intros [|b l2]; simpl; try done.
  destruct (Z.compare_spec a b); subst; rewrite ?IH; split; intros; try done;
  [congruence | congruence | injection H0; lia | injection H0; lia].
Qed.

Lemma strcmp_lex m p q l1 l2 fuel :
  cstr m p l1 -> cstr m q l2 -> (length l1 < fuel)%nat ->
  exists r, strcmp fuel m p q = Some r /\ (r ?= 0) = lex l1 l2.
Proof.
  unfold strcmp. revert fuel p q l2.
  induction l1 as [|a l1 IH]; intros [|fuel] p q l2 Hp Hq Hf; try (simpl in *; lia).
  - simpl in *. rewrite Hp. simpl. eexists; split; [done|].
    destruct l2 as [|b l2]; simpl in *; [rewrite Hq; done|].
    destruct Hq as (? & Hb & _). pose proof (ld8_bound m q). apply Z.compare_lt_iff. lia.
  - destruct Hp as (Hnz & Ha & Hl). cbn [while]. rewrite Ha.
    destruct (Z.eqb_spec a 0); [done|]. simpl negb. simpl andb.
    destruct (Z.eqb_spec a (ld8 m q)) as [Heq | Hne].
    + destruct l2 as [|b l2]; simpl in Hq; [congruence|].
      destruct Hq as (_ & Hb & Hq). simpl in Hf.
      destruct (IH fuel (p + 1) (q + 1) l2) as (r & ? & ?); try done; [lia|].
      exists r. split; [done|]. simpl. replace (a ?= b) with Eq; [done|].
      symmetry. apply Z.compare_eq_iff. congruence.
    + eexists. split; [done|]. pose proof (ld8_bound m p).
      destruct l2 as [|b l2]; simpl in Hq |- *.
      * apply Z.compare_gt_iff. lia.
      * destruct Hq as (_ & Hb & _). rewrite Hb in Hne |- *.
        destruct (Z.compare_spec a b); [lia | apply Z.compare_lt_iff; lia
          | apply Z.compare_gt_iff; lia].
Qed.
End strings.

(** [strlcpy] never writes outside [dst, dst+size), always terminates the copy
    when [size > 0], and copies the longest prefix that leaves room for the NUL. *)
Lemma strlcpy_loop m dst src size l d :
  cstr m src l -> 0 < size ->
  (d + size <= src \/ src + Z.of_nat (length l) < d) ->
  exists m',
    while (S (Z.to_nat size)) (fun '(m, d, src, size) =>
      let size := size - 1 in
      if (size >? 0) && negb (ld8 m src =? 0)
      then inl (st8 m d (ld8 m src), d + 1, src + 1, size)
      else inr (st8 m d 0, d - dst)) (m, d, src, size)
    = Some (m', d - dst + Z.of_nat (length (take (Z.to_nat (size - 1)) l))) /\
    cstr m' d (take (Z.to_nat (size - 1)) l) /\
    (forall a, a < d \/ d + size <= a -> ld8 m' a = ld8 m a).
Proof.
  intros Hs Hsz. remember (Z.to_nat (size - 1)) as k eqn:Hk.
  assert (size = Z.of_nat k + 1) as -> by lia.
  replace (Z.to_nat (Z.of_nat k + 1)) with (S k) by lia.
  clear Hk Hsz. revert m d src l Hs.
  induction k as [|k IH]; intros m d src l Hs Hd; cbn [while].
  - simpl. eexists. split; [do 2 f_equal; lia|]. split; [simpl; by rewrite ld8_st8_eq|].
    intros. apply ld8_st8_ne. lia.
  - replace (Z.of_nat (S k) + 1 - 1) with (Z.of_nat k + 1) by lia.
    replace (Z.of_nat k + 1 >? 0) with true by lia. destruct l as [|c l].
    + simpl in Hs. rewrite Hs. simpl. eexists. split; [do 2 f_equal; lia|].
      split; [by rewrite ld8_st8_eq|]. intros. apply ld8_st8_ne. lia.
    + destruct Hs as (Hnz & Hc & Hl). rewrite Hc. simpl length in Hd.
      destruct (Z.eqb_spec c 0); [done|]. cbn [negb andb].
      destruct (IH (st8 m d c) (d + 1) (src + 1) l) as (m' & Hrun & Hcs & Hfr); [|lia|].
      { eapply cstr_frame; [|exact Hl]. intros. apply ld8_st8_ne. lia. }
      exists m'. split; [etransitivity; [exact Hrun|]; do 2 f_equal; simpl length; lia|].
      split.
      * cbn [take cstr]. repeat split; try done. rewrite Hfr by lia.
        rewrite ld8_st8_eq, <- Hc. apply ld8_mod.
      * intros a Ha. rewrite Hfr by lia. apply ld8_st8_ne. lia.
Qed.

(** ** [strtol] *)

(** The value a list of digits denotes in [base], most significant first. *)
Definition digits_val (base : Z) (ds : list Z) : Z :=
  fold_left (fun v d => v * base + d) ds 0.

Lemma digits_val_mono base ds v :
  1 <= base -> Forall (fun d => 0 <= d) ds -> 0 <= v ->
  v <= fold_left (fun v d => v * base + d) ds v.
Proof.
  intros Hb. revert v. induction ds as [|d ds IH]; intros v HF Hv; simpl; [lia|].
  inversion HF as [|? ? Hd HF']; subst. specialize (IH (v * base + d) HF'). nia.
Qed.

(** The digit loop reads exactly the digits and stops at the first byte that is
    not one; the value is exact as long as it fits a [long]. *)
Lemma strtol_loop m base cs : forall ds s v fuel,
  2 <= base -> 0 <= v ->
  Forall2 (fun c d => digit_val c = Some d /\ 0 <= d < base) cs ds ->
  (forall i c, cs !! i = Some c -> ld8 m (s + Z.of_nat i) = c) ->
  digit_val (ld8 m (s + Z.of_nat (length cs))) = None ->
  fold_left (fun v d => v * base + d) ds v < 2 ^ 31 -> (length cs < fuel)%nat ->
  while fuel (fun '(s, val) =>
    match digit_val (ld8 m s) with
    | None => inr (s, val)
    | Some dig =>
        if dig >=? base then inr (s, val) else inl (s + 1, s32 (val * base + dig))
    end) (s, v)
  = Some (s + Z.of_nat (length cs), fold_left (fun v d => v * base + d) ds v).
Proof.
  induction cs as [|c cs IH]; intros ds s v [|fuel] Hb Hv HF Hcs Hend Hfit Hfuel;
    try (simpl in Hfuel; lia); inversion HF as [|? d ? ds' (Hd & Hr) HF']; subst; cbn [while].
  - simpl in Hend. rewrite Z.add_0_r in Hend. rewrite Hend. simpl. rewrite Z.add_0_r. done.
  - pose proof (Hcs O c eq_refl) as Hc. rewrite Z.add_0_r in Hc. rewrite Hc, Hd.
    destruct (Z.geb_spec d base); [lia|]. simpl in Hfit.
    assert (0 <= v * base + d) by nia.
    assert (v * base + d <= fold_left (fun v d => v * base + d) ds' (v * base + d)).
    { apply digits_val_mono; [lia | | lia].
      eapply Forall2_Forall_r; [exact HF' |]. apply Forall_true. intros; lia. }
    rewrite s32_small by lia. etransitivity; [apply (IH ds')|]; try done.
    + intros i e Hi. rewrite <- (Hcs (S i) e Hi). f_equal. lia.
    + rewrite <- Hend. do 2 f_equal. simpl. lia.
    + simpl in Hfuel. lia.
    + do 2 f_equal. simpl. lia.
Qed.
