(* ===== verification/Mmu.v ===== *)
(** * Paging constants and address arithmetic ([inc/mmu.h], [inc/memlayout.h])

    The constants of the two headers, the macros that take a linear address
    apart and put it together, and the bit-level facts about page-table entries
    that the kernel's page code relies on. *)

From S2P Require Import Prelude.

(** ** [inc/mmu.h] *)

Definition PGSHIFT : Z := 12.
Definition PTXSHIFT : Z := 12.
Definition PDXSHIFT : Z := 22.
Definition PGSIZE : Z := 4096.
Definition NPDENTRIES : Z := 1024.
Definition NPTENTRIES : Z := 1024.
Definition PTSIZE : Z := PGSIZE * NPTENTRIES.

Definition PGNUM (la : Z) : Z := Z.shiftr (w32 la) PTXSHIFT.
Definition PDX (la : Z) : Z := Z.land (Z.shiftr (w32 la) PDXSHIFT) 0x3FF.
Definition PTX (la : Z) : Z := Z.land (Z.shiftr (w32 la) PTXSHIFT) 0x3FF.
Definition PGOFF (la : Z) : Z := Z.land (w32 la) 0xFFF.
Definition PGADDR (d t o : Z) : Z :=
  Z.lor (Z.lor (w32 (Z.shiftl d PDXSHIFT)) (w32 (Z.shiftl t PTXSHIFT))) o.

Definition PTE_P : Z := 0x001.
Definition PTE_W : Z := 0x002.
Definition PTE_U : Z := 0x004.
Definition PTE_PWT : Z := 0x008.
Definition PTE_PCD : Z := 0x010.
Definition PTE_AVAIL : Z := 0xE00.
Definition PTE_SHARE : Z := 0x400.
Definition PTE_SYSCALL : Z := Z.lor (Z.lor (Z.lor PTE_AVAIL PTE_P) PTE_W) PTE_U.
Definition PTE_ADDR (pte : Z) : Z := Z.land pte (Z.lnot 0xFFF).

Definition FL_IF : Z := 0x200.
Definition FL_IOPL_3 : Z := 0x3000.

Definition FEC_WR : Z := 0x2.
Definition FEC_U : Z := 0x4.

(** ** [inc/memlayout.h] *)

Definition GD_KT : Z := 0x08.
Definition GD_KD : Z := 0x10.
Definition GD_UT : Z := 0x18.
Definition GD_UD : Z := 0x20.

Definition KERNBASE : Z := 0xF0000000.
Definition IOPHYSMEM : Z := 0x0A0000.
Definition EXTPHYSMEM : Z := 0x100000.
Definition KSTACKTOP : Z := KERNBASE.
Definition KSTKSIZE : Z := 8 * PGSIZE.
Definition KSTKGAP : Z := 8 * PGSIZE.
Definition MMIOLIM : Z := KSTACKTOP - PTSIZE.
Definition MMIOBASE : Z := MMIOLIM - PTSIZE.
Definition ULIM : Z := MMIOBASE.
Definition UVPT : Z := ULIM - PTSIZE.
Definition UPAGES : Z := UVPT - PTSIZE.
Definition UENVS : Z := UPAGES - PTSIZE.
Definition UTOP : Z := UENVS.
Definition UXSTACKTOP : Z := UTOP.
Definition USTACKTOP : Z := UTOP - 2 * PGSIZE.
Definition UTEMP : Z := PTSIZE.
Definition PFTEMP : Z := UTEMP + PTSIZE - PGSIZE.
Definition MPENTRY_PADDR : Z := 0x7000.

(** ** Arithmetic readings of the macros *)

Lemma PGNUM_div la : 0 <= la < 2 ^ 32 -> PGNUM la = la / PGSIZE.
Proof.
  intros. unfold PGNUM, PTXSHIFT, PGSIZE. rewrite w32_small by lia.
  rewrite Z.shiftr_div_pow2 by lia. done.
Qed.
Lemma PDX_div la : 0 <= la < 2 ^ 32 -> PDX la = la / PTSIZE.
Proof.
  intros. unfold PDX, PDXSHIFT, PTSIZE, PGSIZE, NPTENTRIES. rewrite w32_small by lia.
  change 0x3FF with (2 ^ 10 - 1). rewrite land_ones_mod, Z.shiftr_div_pow2 by lia. zlia.
Qed.
Lemma PTX_div la : 0 <= la < 2 ^ 32 -> PTX la = la / PGSIZE mod NPTENTRIES.
Proof.
  intros. unfold PTX, PTXSHIFT, PGSIZE, NPTENTRIES. rewrite w32_small by lia.
  change 0x3FF with (2 ^ 10 - 1). rewrite land_ones_mod, Z.shiftr_div_pow2 by lia. done.
Qed.
Lemma PDX_range la : 0 <= PDX la < NPDENTRIES.
Proof.
  unfold PDX. change 0x3FF with (2 ^ 10 - 1). rewrite land_ones_mod by lia.
  apply (Z.mod_pos_bound _ (2 ^ 10)). lia.
Qed.
Lemma PTX_range la : 0 <= PTX la < NPTENTRIES.
Proof.
  unfold PTX. change 0x3FF with (2 ^ 10 - 1). rewrite land_ones_mod by lia.
  apply (Z.mod_pos_bound _ (2 ^ 10)). lia.
Qed.

(** [PGADDR] rebuilds the address its indexes came from. *)
Lemma PGADDR_add d t o :
  0 <= d < NPDENTRIES -> 0 <= t < NPTENTRIES -> 0 <= o < PGSIZE ->
  PGADDR d t o = d * PTSIZE + t * PGSIZE + o.
Proof.
  unfold NPDENTRIES, NPTENTRIES, PGSIZE, PGADDR, PDXSHIFT, PTXSHIFT. intros.
  change PTSIZE with 4194304.
  rewrite !Z.shiftl_mul_pow2, !w32_small by zlia.
  rewrite (lor_add_disjoint (d * 2 ^ 22) (t * 2 ^ 12) 22) by zlia.
  rewrite (lor_add_disjoint _ o 12) by zlia. lia.
Qed.

Lemma PTE_ADDR_div pte : PTE_ADDR pte = pte / PGSIZE * PGSIZE.
Proof. unfold PTE_ADDR. change 0xFFF with (2 ^ 12 - 1). apply land_lnot_ones. lia. Qed.

(** A page address and twelve permission bits, as every PTE is built. *)
Definition mkpte (pa perm : Z) : Z := Z.lor (Z.lor pa perm) PTE_P.

Lemma perm_lor_bound perm : 0 <= perm < PGSIZE -> 0 <= Z.lor perm PTE_P < PGSIZE.
Proof. intros. apply (lor_bound _ _ 12); unfold PTE_P, PGSIZE in *; lia. Qed.

Lemma mkpte_add pa perm :
  0 <= perm < PGSIZE -> pa mod PGSIZE = 0 -> mkpte pa perm = pa + Z.lor perm PTE_P.
Proof.
  intros Hp Ha. unfold mkpte. rewrite <- Z.lor_assoc.
  apply (lor_add_disjoint _ _ 12); [lia | by apply perm_lor_bound | done].
Qed.

Lemma PTE_ADDR_mkpte pa perm :
  0 <= perm < PGSIZE -> pa mod PGSIZE = 0 -> PTE_ADDR (mkpte pa perm) = pa.
Proof.
  intros Hp Ha. rewrite PTE_ADDR_div, mkpte_add by done.
  pose proof (perm_lor_bound perm Hp). unfold PGSIZE in *. zlia.
Qed.

Lemma has_P_mkpte pa perm : has (mkpte pa perm) PTE_P = true.
Proof.
  change PTE_P with (2 ^ 0). rewrite has_pow2 by lia. unfold mkpte.
  rewrite Z.lor_spec. apply orb_true_r.
Qed.

(** The flags of an entry. *)
Lemma has_mkpte pa perm k :
  0 <= k < 12 -> pa mod PGSIZE = 0 -> has (mkpte pa perm) (2 ^ k) = has perm (2 ^ k) || (k =? 0).
Proof.
  intros Hk Ha. rewrite !has_pow2 by lia. unfold mkpte. rewrite !Z.lor_spec.
  rewrite (Z.div_mod pa PGSIZE), Ha by done. change PGSIZE with (2 ^ 12) at 1.
  rewrite Z.add_0_r, (Z.mul_comm (2 ^ 12)), Z.mul_pow2_bits_low by lia. cbn [orb]. f_equal.
Qed.

Lemma mkpte_range pa perm :
  0 <= perm < PGSIZE -> pa mod PGSIZE = 0 -> 0 <= pa < 2 ^ 32 ->
  0 <= mkpte pa perm < 2 ^ 32.
Proof.
  intros Hp Ha Hr. rewrite mkpte_add by done.
  pose proof (perm_lor_bound perm Hp). unfold PGSIZE in *. zlia.
Qed.

Lemma has_0 f : has 0 f = false.
Proof. done. Qed.
