(* ===== verification/KState.v ===== *)
(** * Kernel state and the monad of kernel code

    The data every file under [kern/] works on ([inc/env.h], [inc/trap.h],
    [kern/cpu.h], the globals of [pmap.c], [env.c] and [trap.c]), as one record
    [kst] threaded through the code by a small monad [K].  Kernel code can return,
    panic, or leave the kernel without returning to its caller. *)

From S2P Require Import Prelude Mem CString Mmu.

(** ** Registers and environments ([inc/trap.h], [inc/env.h])

    A structure that was never written is all zero, as [memset] leaves it. *)

Record PushRegs := mkPushRegs {
  reg_edi : Z;
  reg_esi : Z;
  reg_ebp : Z;
  reg_oesp : Z;
  reg_ebx : Z;
  reg_edx : Z;
  reg_ecx : Z;
  reg_eax : Z;
}.
#[export] Instance PushRegs_eta : Eta PushRegs := fun r => mkPushRegs (reg_edi r) (reg_esi
  r) (reg_ebp r) (reg_oesp r) (reg_ebx r) (reg_edx r) (reg_ecx r) (reg_eax r).
#[export] Instance PushRegs_zero : Inhabited PushRegs := populate (mkPushRegs 0 0 0 0 0 0 0
  0).

Record Trapframe := mkTrapframe {
  tf_regs : PushRegs;
  tf_es : Z;
  tf_ds : Z;
  tf_trapno : Z;
  tf_err : Z;
  tf_eip : Z;
  tf_cs : Z;
  tf_eflags : Z;
  tf_esp : Z;
  tf_ss : Z;
}.
#[export] Instance Trapframe_eta : Eta Trapframe := fun r => mkTrapframe (tf_regs r) (tf_es
  r) (tf_ds r) (tf_trapno r) (tf_err r) (tf_eip r) (tf_cs r) (tf_eflags r) (tf_esp r) (tf_ss
  r).
#[export] Instance Trapframe_zero : Inhabited Trapframe := populate (mkTrapframe inhabitant
  0 0 0 0 0 0 0 0 0).

(** [struct Env].  A [struct Env *] is an index into [envs]; NULL is [None]. *)
Record Env := mkEnv {
  env_tf : Trapframe;  (* Saved registers *)
  env_link : option Z;  (* Next free Env *)
  env_id : Z;
  env_parent_id : Z;
  env_type : Z;
  env_status : Z;
  env_runs : Z;
  env_cpunum : Z;
  env_pgdir : Z;  (* Kernel virtual address of page dir *)
  env_pgfault_upcall : Z;
  env_ipc_recving : bool;
  env_ipc_dstva : Z;
  env_ipc_value : Z;
  env_ipc_from : Z;
  env_ipc_perm : Z;
}.
#[export] Instance Env_eta : Eta Env := fun r => mkEnv (env_tf r) (env_link r) (env_id r)
  (env_parent_id r) (env_type r) (env_status r) (env_runs r) (env_cpunum r) (env_pgdir r)
  (env_pgfault_upcall r) (env_ipc_recving r) (env_ipc_dstva r) (env_ipc_value r) (env_ipc_from
  r) (env_ipc_perm r).
#[export] Instance Env_zero : Inhabited Env := populate (mkEnv inhabitant None 0 0 0 0 0 0 0
  0 false 0 0 0 0).

(** [struct PageInfo] ([inc/memlayout.h]); a [struct PageInfo *] is an index into [pages]. *)
Record PageInfo := mkPageInfo {
  pp_link : option Z;
  pp_ref : Z;  (* uint16_t *)
}.
#[export] Instance PageInfo_eta : Eta PageInfo := fun r => mkPageInfo (pp_link r) (pp_ref
  r).
#[export] Instance PageInfo_zero : Inhabited PageInfo := populate (mkPageInfo None 0).

(** [struct CpuInfo] ([kern/cpu.h]) and the MMU registers of that CPU. *)
Record CpuInfo := mkCpuInfo {
  cpu_status : Z;
  cpu_env : option Z;  (* curenv *)
  cpu_cr3 : Z;  (* hardware: page directory base *)
  cpu_tlb : gmap Z Z;  (* hardware: cached translations, page number to PTE *)
}.
#[export] Instance CpuInfo_eta : Eta CpuInfo := fun r => mkCpuInfo (cpu_status r) (cpu_env
  r) (cpu_cr3 r) (cpu_tlb r).
#[export] Instance CpuInfo_zero : Inhabited CpuInfo := populate (mkCpuInfo 0 None 0 ∅).

(** ** The kernel's global variables, and the machine they live on *)

Record kst := mkKst {
  mem : memory;  (* physical memory, at KERNBASE *)
  npages : Z;
  npages_basemem : Z;
  kern_pgdir : Z;
  pages : gmap Z PageInfo;
  page_free_list : option Z;
  nextfree : Z;  (* static of boot_alloc *)
  mmio_base : Z;  (* static of mmio_map_region *)
  user_mem_check_addr : Z;
  envs : gmap Z Env;
  env_free_list : option Z;
  cpus : gmap Z CpuInfo;
  cpunum : Z;  (* the CPU in the kernel *)
  kernel_lock : option Z;  (* the CPU holding the big lock *)
  ticks : Z;  (* kern/time.c *)
  console : list Z;  (* what cputchar has put on the console *)
}.
#[export] Instance kst_eta : Eta kst := fun r => mkKst (mem r) (npages r) (npages_basemem r)
  (kern_pgdir r) (pages r) (page_free_list r) (nextfree r) (mmio_base r) (user_mem_check_addr
  r) (envs r) (env_free_list r) (cpus r) (cpunum r) (kernel_lock r) (ticks r) (console r).
#[export] Instance kst_zero : Inhabited kst := populate (mkKst ∅ 0 0 0 ∅ None 0 0 0 ∅ None ∅
  0 None 0 []).

(** ** Constants ([inc/env.h], [inc/error.h], [kern/cpu.h], [kern/pmap.h]) *)

Definition NENV : Z := 1024.
Definition ENVX (envid : Z) : Z := Z.land envid (NENV - 1).
Definition ENV_FREE : Z := 0.
Definition ENV_DYING : Z := 1.
Definition ENV_RUNNABLE : Z := 2.
Definition ENV_RUNNING : Z := 3.
Definition ENV_NOT_RUNNABLE : Z := 4.
Definition ENV_TYPE_USER : Z := 0.
Definition ENV_TYPE_FS : Z := 1.
Definition ENV_TYPE_NS : Z := 2.

Definition NCPU : Z := 8.
Definition CPU_UNUSED : Z := 0.
Definition CPU_STARTED : Z := 1.
Definition CPU_HALTED : Z := 2.

Definition E_UNSPECIFIED : Z := 1.
Definition E_BAD_ENV : Z := 2.
Definition E_INVAL : Z := 3.
Definition E_NO_MEM : Z := 4.
Definition E_NO_FREE_ENV : Z := 5.
Definition E_FAULT : Z := 6.
Definition E_IPC_NOT_RECV : Z := 7.
Definition E_EOF : Z := 8.
Definition E_NO_DISK : Z := 9.
Definition E_MAX_OPEN : Z := 10.
Definition E_NOT_FOUND : Z := 11.
Definition E_BAD_PATH : Z := 12.
Definition E_FILE_EXISTS : Z := 13.
Definition E_NOT_EXEC : Z := 14.
Definition E_NOT_SUPP : Z := 15.

(** ** The monad *)

(** How kernel code leaves without returning to its caller: it runs an
    environment ([env_pop_tf]), halts the CPU ([sched_halt]), stays in the
    monitor for ever, spins on a lock another CPU holds, page-faults while
    touching user memory, runs into undefined behaviour of C, or (never, as the
    theorems show where it matters) exhausts the fuel of a loop. *)
Inductive exit_kind :=
  | ToUser (e : Z)
  | Halted
  | InMonitor
  | Spinning
  | KernelFault (va : Z)
  | Undefined
  | OutOfFuel.

Inductive outcome (A : Type) :=
  | Ret (a : A) (s : kst)
  | Panic (msg : string) (s : kst)
  | Exit (x : exit_kind) (s : kst).
Arguments Ret {A} a s.
Arguments Panic {A} msg s.
Arguments Exit {A} x s.

Definition K (A : Type) : Type := kst -> outcome A.

#[export] Instance K_ret : MRet K := fun A a s => Ret a s.
#[export] Instance K_bind : MBind K := fun A B f m s =>
  match m s with
  | Ret a s' => f a s'
  | Panic msg s' => Panic msg s'
  | Exit x s' => Exit x s'
  end.

Definition gets {A} (f : kst -> A) : K A := fun s => Ret (f s) s.
Definition modify (f : kst -> kst) : K unit := fun s => Ret tt (f s).
Definition panic {A} (msg : string) : K A := fun s => Panic msg s.
Definition leave {A} (x : exit_kind) : K A := fun s => Exit x s.
Definition assert (b : bool) (msg : string) : K unit :=
  if b then mret tt else panic msg.

(** A loop of kernel code, under fuel. *)
Fixpoint kloop {St R : Type} (fuel : nat) (body : St -> K (St + R)) (st : St) : K R :=
  match fuel with
  | O => leave OutOfFuel
  | S fuel' =>
      x ← body st;
      match x with
      | inl st' => kloop fuel' body st'
      | inr r => mret r
      end
  end.

(** The same with binary fuel: at most [p] iterations, for loops whose bound is
    the size of the address space. *)
Fixpoint kiter {St R : Type} (p : positive) (body : St -> K (St + R)) (st : St) : K (St + R) :=
  match p with
  | xH => body st
  | xO p' =>
      x ← kiter p' body st;
      match x with inl st' => kiter p' body st' | inr r => mret (inr r) end
  | xI p' =>
      x ← body st;
      match x with
      | inl st' =>
          y ← kiter p' body st';
          match y with inl st'' => kiter p' body st'' | inr r => mret (inr r) end
      | inr r => mret (inr r)
      end
  end.
Definition kwhile {St R : Type} (body : St -> K (St + R)) (st : St) : K R :=
  x ← kiter (2 ^ 33)%positive body st;
  match x with inl _ => leave OutOfFuel | inr r => mret r end.

(** [for (i = 0; i < n; i++) body(i)] whose body never leaves the loop. *)
Fixpoint kfor (n : nat) (i : Z) (body : Z -> K unit) : K unit :=
  match n with
  | O => mret tt
  | S n' => body i;; kfor n' (i + 1) body
  end.

(** One iteration per page of the address space, and one to leave the loop:
    enough for every loop that steps an address by [PGSIZE]. *)
Definition page_fuel : nat := Z.to_nat (2 ^ 20 + 1).

(** Loads and stores through kernel virtual addresses. *)
Definition load32 (kva : Z) : K Z := gets (fun s => ld32 (mem s) kva).
Definition store32 (kva v : Z) : K unit :=
  modify (fun s => s <| mem := st32 (mem s) kva v |>).

(** Array element updates. *)
Definition set_page (pp : Z) (p : PageInfo) : K unit :=
  modify (fun s => s <| pages := <[pp := p]> (pages s) |>).
Definition page (pp : Z) : K PageInfo := gets (fun s => pages s !!! pp).
Definition set_env (e : Z) (v : Env) : K unit :=
  modify (fun s => s <| envs := <[e := v]> (envs s) |>).
Definition env (e : Z) : K Env := gets (fun s => envs s !!! e).

(** [thiscpu] and [curenv] ([kern/cpu.h], [kern/env.h]). *)
Definition thiscpu (s : kst) : CpuInfo := cpus s !!! cpunum s.
Definition curenv (s : kst) : option Z := cpu_env (thiscpu s).
Definition set_thiscpu (f : CpuInfo -> CpuInfo) (s : kst) : kst :=
  s <| cpus := <[cpunum s := f (thiscpu s)]> (cpus s) |>.
Definition set_curenv (e : option Z) : K unit :=
  modify (set_thiscpu (fun c => c <| cpu_env := e |>)).

(** ** Reasoning about kernel code

    [wp m Q X s]: started in [s], [m] does not panic; if it returns, its value
    and final state satisfy [Q]; if it leaves the kernel, [X] holds.  The rules
    below follow the code's structure. *)

Section wp.
Definition wp {A} (m : K A) (Q : A -> kst -> Prop) (X : exit_kind -> kst -> Prop)
    (s : kst) : Prop :=
  match m s with
  | Ret a s' => Q a s'
  | Panic _ _ => False
  | Exit x s' => X x s'
  end.

Lemma wp_ret {A} (a : A) Q X s : Q a s -> wp (mret a) Q X s.
Proof. done. Qed.
Lemma wp_bind {A B} (m : K A) (f : A -> K B) Q X s :
  wp m (fun a => wp (f a) Q X) X s -> wp (m ≫= f) Q X s.
Proof. unfold wp, mbind, K_bind. destruct (m s); done. Qed.
Lemma wp_mono {A} (m : K A) (Q Q' : A -> kst -> Prop) (X X' : exit_kind -> kst -> Prop) s :
  wp m Q X s -> (forall a s', Q a s' -> Q' a s') -> (forall x s', X x s' -> X' x s') ->
  wp m Q' X' s.
Proof. unfold wp. destruct (m s); auto. Qed.
Lemma wp_gets {A} (f : kst -> A) Q X s : Q (f s) s -> wp (gets f) Q X s.
Proof. done. Qed.
Lemma wp_modify f Q X s : Q tt (f s) -> wp (modify f) Q X s.
Proof. done. Qed.
Lemma wp_leave {A} x Q X s : X x s -> wp (@leave A x) Q X s.
Proof. done. Qed.
Lemma wp_assert b msg Q X s : b = true -> Q tt s -> wp (assert b msg) Q X s.
Proof. intros ->. done. Qed.
Lemma wp_if {A} (b : bool) (m1 m2 : K A) Q X s :
  (b = true -> wp m1 Q X s) -> (b = false -> wp m2 Q X s) ->
  wp (if b then m1 else m2) Q X s.
Proof. destruct b; auto. Qed.

(** A run with a known outcome. *)
Lemma wp_run {A} (m : K A) a s s' Q X : m s = Ret a s' -> Q a s' -> wp m Q X s.
Proof. unfold wp. intros ->. done. Qed.
Lemma wp_eq {A} (m m' : K A) s Q X : m s = m' s -> wp m' Q X s -> wp m Q X s.
Proof. unfold wp. intros ->. done. Qed.
Lemma wp_elim {A} (m : K A) Q s :
  wp m Q (fun _ _ => False) s -> exists a s', m s = Ret a s' /\ Q a s'.
Proof. unfold wp. destruct (m s); [eauto | done | done]. Qed.

(** An invariant carried through a counted loop. *)
Lemma wp_kfor n (body : Z -> K unit) (I : Z -> kst -> Prop) X i s :
  I i s ->
  (forall j s, i <= j < i + Z.of_nat n -> I j s ->
     wp (body j) (fun _ => I (j + 1)) X s) ->
  wp (kfor n i body) (fun _ => I (i + Z.of_nat n)) X s.
Proof.
  revert i s. induction n as [|n IH]; intros i s HI Hb; cbn [kfor].
  - apply wp_ret. rewrite Z.add_0_r. done.
  - apply wp_bind. eapply wp_mono; [apply Hb; [lia | done] | | auto].
    intros ? s' HI'; simpl in HI'. replace (i + Z.of_nat (S n)) with (i + 1 + Z.of_nat n) by lia.
    apply IH; [done|]. intros. apply Hb; [lia | done].
Qed.

(** An invariant and a measure for an uncounted one. *)
Lemma wp_kloop {St R} (body : St -> K (St + R)) (I : St -> kst -> Prop)
    (mu : St -> nat) Q X :
  (forall st s, I st s ->
     wp (body st) (fun x s' =>
       match x with
       | inl st' => I st' s' /\ (mu st' < mu st)%nat
       | inr r => Q r s'
       end) X s) ->
  forall fuel st s, I st s -> (mu st < fuel)%nat -> wp (kloop fuel body st) Q X s.
Proof.
  intros Hb. induction fuel as [|fuel IH]; intros st s HI Hmu; [lia|].
  cbn [kloop]. apply wp_bind. eapply wp_mono; [by apply Hb | | auto].
  intros [st' | r] s' Hs'; [|by apply wp_ret]. destruct Hs'. apply IH; [done | lia].
Qed.

(** The rule for [kwhile]: a measure below [2^33] makes it return. *)
Lemma wp_kiter {St R} (body : St -> K (St + R)) (I : St -> kst -> Prop) (mu : St -> Z) Q X :
  (forall st s, I st s ->
     wp (body st) (fun x s' =>
       match x with
       | inl st' => I st' s' /\ 0 <= mu st' < mu st
       | inr r => Q r s'
       end) X s) ->
  forall p st s, I st s ->
    wp (kiter p body st) (fun x s' =>
       match x with
       | inl st' => I st' s' /\ 0 <= mu st' <= mu st - Zpos p
       | inr r => Q r s'
       end) X s.
Proof.
  intros Hb. induction p as [p IH | p IH |]; intros st s HI; cbn [kiter].
  - apply wp_bind. eapply wp_mono; [by apply Hb | | auto].
    intros [st1 | r] s1 H1; [|by apply wp_ret]. destruct H1 as [HI1 Hm1].
    apply wp_bind. eapply wp_mono; [by apply IH | | auto].
    intros [st2 | r] s2 H2; [|by apply wp_ret]. destruct H2 as [HI2 Hm2].
    eapply wp_mono; [by apply IH | | auto]. intros [st3 | r] s3 H3; [|done].
    destruct H3. split; [done | lia].
  - apply wp_bind. eapply wp_mono; [by apply IH | | auto].
    intros [st2 | r] s2 H2; [|by apply wp_ret]. destruct H2 as [HI2 Hm2].
    eapply wp_mono; [by apply IH | | auto]. intros [st3 | r] s3 H3; [|done].
    destruct H3. split; [done | lia].
  - eapply wp_mono; [by apply Hb | | auto]. intros [st1 | r] s1 H1; [|done].
    destruct H1. split; [done | lia].
Qed.

Lemma wp_kwhile {St R} (body : St -> K (St + R)) (I : St -> kst -> Prop) (mu : St -> Z) Q X :
  (forall st s, I st s ->
     wp (body st) (fun x s' =>
       match x with
       | inl st' => I st' s' /\ 0 <= mu st' < mu st
       | inr r => Q r s'
       end) X s) ->
  forall st s, I st s -> mu st < 2 ^ 33 -> wp (kwhile body st) Q X s.
Proof.
  intros Hb st s HI Hmu. unfold kwhile. apply wp_bind.
  eapply wp_mono; [by apply (wp_kiter body I mu Q X Hb) | | auto].
  intros [st' | r] s' H; [|by apply wp_ret]. destruct H as [_ H].
  change (Z.pos (2 ^ 33)) with (2 ^ 33) in H. lia.
Qed.

(** One turn of a loop that goes on, or leaves. *)
Lemma kloop_next {St R} (body : St -> K (St + R)) n st st' s s' :
  body st s = Ret (inl st') s' -> kloop (S n) body st s = kloop n body st' s'.
Proof. cbn [kloop]. unfold mbind, K_bind. intros ->. done. Qed.
Lemma kloop_done {St R} (body : St -> K (St + R)) n st r s s' :
  body st s = Ret (inr r) s' -> kloop (S n) body st s = Ret r s'.
Proof. cbn [kloop]. unfold mbind, K_bind. intros ->. done. Qed.
End wp.

#[export] Hint Resolve wp_ret wp_gets wp_modify wp_leave : kernel.

(** One step of symbolic execution: a primitive, or the left of a bind. *)
Ltac kstep :=
  first
  [ apply wp_bind
  | apply wp_ret | apply wp_gets | apply wp_modify
  | apply wp_leave ];
  simpl.
Ltac ksteps := repeat kstep.

(** Unfold the monad and the primitives, then reduce record updates. *)
Ltac krun :=
  cbv beta iota delta [mbind K_bind mret K_ret gets modify panic leave assert
    load32 store32 page set_page env set_env]; simpl.

(** The same on a state given by its fields: [kexplode s] names them, [kred]
    computes with them.  Much faster than [krun] after several updates. *)
Ltac kfields_in_hyps :=
  cbn [mem npages npages_basemem kern_pgdir pages page_free_list nextfree mmio_base
    user_mem_check_addr envs env_free_list cpus cpunum kernel_lock ticks console] in *.
Ltac kexplode s :=
  let m := fresh "m" in let np := fresh "np" in let nb := fresh "nb" in
  let kp := fresh "kp" in let ps := fresh "ps" in let fl := fresh "fl" in
  let nf := fresh "nf" in let mb := fresh "mb" in let ua := fresh "ua" in
  let es := fresh "es" in let el := fresh "el" in let cs := fresh "cs" in
  let cn := fresh "cn" in let kl := fresh "kl" in let tk := fresh "tk" in
  let co := fresh "co" in
  destruct s as [m np nb kp ps fl nf mb ua es el cs cn kl tk co]; kfields_in_hyps.
Ltac kred :=
  lazy beta iota zeta delta [mbind K_bind mret K_ret gets modify panic leave assert
    load32 store32 page set_page env set_env upd
    mem npages npages_basemem kern_pgdir pages page_free_list nextfree mmio_base
    user_mem_check_addr envs env_free_list cpus cpunum kernel_lock ticks console
    negb]; cbn [pp_link pp_ref].

Arguments st32 : simpl never.
Arguments ld32 : simpl never.
Arguments st8 : simpl never.
Arguments ld8 : simpl never.
Arguments memset : simpl never.
Arguments Z.add : simpl never.
Arguments Z.sub : simpl never.
Arguments Z.mul : simpl never.
Arguments Z.lor : simpl never.
Arguments Z.land : simpl never.
Arguments Z.shiftl : simpl never.
Arguments Z.shiftr : simpl never.
Arguments has : simpl never.
Arguments lookup_total : simpl never.
Arguments insert : simpl never.
Arguments delete : simpl never.

(** One step of a run whose left part is known. *)
Lemma bind_run {A B} (m : K A) (f : A -> K B) s a s' : m s = Ret a s' -> (m ≫= f) s = f a s'.
Proof. unfold mbind, K_bind. intros ->. done. Qed.
Lemma bind_gets {A B} (g : kst -> A) (f : A -> K B) s : (gets g ≫= f) s = f (g s) s.
Proof. done. Qed.
Lemma bind_modify {B} g (f : unit -> K B) s : (modify g ≫= f) s = f tt (g s).
Proof. done. Qed.
Lemma bind_mret {A B} (a : A) (f : A -> K B) s : (mret a ≫= f) s = f a s.
Proof. done. Qed.

Lemma bind_env {B} e (f : Env -> K B) s : (env e ≫= f) s = f (envs s !!! e) s.
Proof. done. Qed.
Lemma bind_set_env {B} e v (f : unit -> K B) s :
  (set_env e v ≫= f) s = f tt (s <| envs := <[e := v]> (envs s) |>).
Proof. done. Qed.
Lemma bind_page {B} p (f : PageInfo -> K B) s : (page p ≫= f) s = f (pages s !!! p) s.
Proof. done. Qed.
Lemma bind_set_page {B} p v (f : unit -> K B) s :
  (set_page p v ≫= f) s = f tt (s <| pages := <[p := v]> (pages s) |>).
Proof. done. Qed.
Lemma bind_load32 {B} a (f : Z -> K B) s : (load32 a ≫= f) s = f (ld32 (mem s) a) s.
Proof. done. Qed.
Lemma bind_store32 {B} a v (f : unit -> K B) s :
  (store32 a v ≫= f) s = f tt (s <| mem := st32 (mem s) a v |>).
Proof. done. Qed.
Lemma bind_assoc {A B C} (m : K A) (f : A -> K B) (g : B -> K C) s :
  ((m ≫= f) ≫= g) s = (m ≫= (fun a => f a ≫= g)) s.
Proof. unfold mbind, K_bind. destruct (m s); done. Qed.

(** Run the primitive at the head of a program. *)
Ltac kb :=
  first
  [ rewrite bind_gets | rewrite bind_modify | rewrite bind_mret | rewrite bind_env
  | rewrite bind_set_env | rewrite bind_page | rewrite bind_set_page
  | rewrite bind_load32 | rewrite bind_store32 | rewrite bind_assoc ];
  cbv beta iota.

(** Rewrite with the run of the first action of a bind. *)
Ltac krw H := erewrite bind_run by (exact H); cbv beta iota.
