(* ===== verification/Printf.v ===== *)
(** * Formatted output ([lib/printfmt.c], [kern/printf.c], [lib/printf.c])

    [vprintfmt] as a state machine over the format: one step per turn of its
    outer loop or of the [reswitch] label.  [putch] threads what [putdat] points
    to; the variable arguments are 32-bit stack words. *)

From S2P Require Import Prelude Mem CString Mmu KState.

(** A format is a C string; [cchar f i] is its byte [i], NUL past the end. *)
Definition cchar (f : string) (i : Z) : Z :=
  match String.get (Z.to_nat i) f with
  | Some c => Z.of_nat (Ascii.nat_of_ascii c)
  | None => 0
  end.
Definition chr (c : string) : Z := cchar c 0.

Definition MAXERROR : Z := 19.
Definition error_string (err : Z) : option string :=
  nth (Z.to_nat err)
    [None; Some "unspecified error"; Some "bad environment"; Some "invalid parameter";
     Some "out of memory"; Some "out of environments"; Some "segmentation fault";
     Some "env is not recving"; Some "unexpected end of file"; Some "no free space on disk";
     Some "too many files are open"; Some "file or block not found"; Some "invalid path";
     Some "file already exists"; Some "file is not a valid executable";
     Some "operation not supported"; Some "transmit queue full"; Some "packet too large";
     Some "no packet to receive"]%string None.

(** ** Arguments *)

Definition va_word (ap : list Z) : K (Z * list Z) :=
  match ap with
  | w :: ap' => mret (w32 w, ap')
  | [] => leave Undefined
  end.
Definition va_int (ap : list Z) : K (Z * list Z) :=
  '(w, ap) ← va_word ap; mret (s32 w, ap).

Definition getuint (ap : list Z) (lflag : Z) : K (Z * list Z) :=
  '(lo, ap) ← va_word ap;
  if lflag >=? 2 then '(hi, ap) ← va_word ap; mret (lo + 2 ^ 32 * hi, ap) else mret (lo, ap).
Definition getint (ap : list Z) (lflag : Z) : K (Z * list Z) :=
  '(u, ap) ← getuint ap lflag;
  mret (if lflag >=? 2 then s64 u else s32 u, ap).

Section printfmt.
Context {D : Type} (putch : Z -> D -> K D).

(** [n] copies of a character. *)
Fixpoint putn (n : nat) (c : Z) (dat : D) : K D :=
  match n with
  | O => mret dat
  | S n' => dat ← putch c dat; putn n' c dat
  end.

(** The digits of a number below [2^64], most significant first: one level of
    recursion per digit. *)
Fixpoint printnum_rec (fuel : nat) (num base width padc : Z) (dat : D) : K D :=
  match fuel with
  | O => leave OutOfFuel
  | S fuel' =>
      dat ← (if num >=? base then printnum_rec fuel' (num / base) base (width - 1) padc dat
             else putn (Z.to_nat (width - 1)) padc dat);
      putch (cchar "0123456789abcdef" (num mod base)) dat
  end.
Definition printnum (num base width padc : Z) (dat : D) : K D :=
  printnum_rec 64 num base width padc dat.

(** Strings are read through [ldb]. *)
Context (ldb : Z -> K Z).

(** [strnlen] of a precision that is negative has no limit. *)
Definition pstrnlen (p precision : Z) : K Z :=
  kwhile (fun n =>
    if n <? w32 precision then
      c ← ldb (w32 (p + n));
      mret (if c =? 0 then inr n else inl (n + 1))
    else mret (inr n)) 0.

(** The body of [%s] once [p] is known; [get i] is the byte at [p + i]. *)
Definition print_string (get : Z -> K Z) (len : K Z) (width precision padc : Z) (alt : bool)
    (dat : D) : K D :=
  '(width, dat) ← (if (width >? 0) && negb (padc =? chr "-") then
      n ← len;
      let w := width - n in
      dat ← putn (Z.to_nat w) padc dat; mret (Z.min w 0, dat)
    else mret (width, dat));
  '(width, dat) ← kwhile (fun '(i, precision, width, dat) =>
      ch ← get i;
      if ch =? 0 then mret (inr (width, dat))
      else if (precision <? 0) || (precision - 1 >=? 0) then
        dat ← (if alt && ((s8 ch <? chr " ") || (s8 ch >? chr "~"))
               then putch (chr "?") dat else putch (s8 ch) dat);
        mret (inl (i + 1, if precision <? 0 then precision else precision - 1, width - 1, dat))
      else mret (inr (width, dat))) (0, precision, width, dat);
  putn (Z.to_nat width) (chr " ") dat.

Definition lit_len (l : string) (precision : Z) : Z :=
  let n := Z.of_nat (String.length l) in
  if n <? w32 precision then n else w32 precision.

(** Where the machine is: copying text, or inside an escape. *)
Inductive mode :=
  | Text
  | Esc (padc width precision lflag : Z) (alt : bool).

(** [precision = precision * 10 + ch - '0'] while digits follow. *)
Fixpoint digits (fuel : nat) (f : string) (fmt ch precision : Z) : Z * Z :=
  let precision := s32 (precision * 10 + ch - chr "0") in
  let ch := cchar f fmt in
  match fuel with
  | O => (precision, fmt)
  | S fuel' =>
      if (ch <? chr "0") || (ch >? chr "9") then (precision, fmt)
      else digits fuel' f (fmt + 1) ch precision
  end.

(** [for (fmt--; fmt[-1] != '%'; fmt--)]. *)
Fixpoint back (fuel : nat) (f : string) (fmt : Z) : Z :=
  match fuel with
  | O => fmt
  | S fuel' => if cchar f (fmt - 1) =? chr "%" then fmt else back fuel' f (fmt - 1)
  end.

Definition pst : Type := Z * list Z * mode * D.

Definition esc_step (f : string) (fmt : Z) (ap : list Z) (padc width precision lflag : Z)
    (alt : bool) (dat : D) : K pst :=
  let ch := cchar f fmt in
  let fmt := fmt + 1 in
  let reswitch := Esc padc width precision lflag alt in
  let process_precision fmt ap precision :=
    if width <? 0 then (fmt, ap, Esc padc precision (-1) lflag alt, dat)
    else (fmt, ap, Esc padc width precision lflag alt, dat) in
  let number num base ap dat :=
    dat ← printnum num base width padc dat; mret (fmt, ap, Text, dat) in
  if ch =? chr "-" then mret (fmt, ap, Esc (chr "-") width precision lflag alt, dat)
  else if ch =? chr "0" then mret (fmt, ap, Esc (chr "0") width precision lflag alt, dat)
  else if (ch >=? chr "1") && (ch <=? chr "9") then
    let '(precision, fmt) := digits (S (String.length f)) f fmt ch 0 in
    mret (process_precision fmt ap precision)
  else if ch =? chr "*" then
    '(precision, ap) ← va_int ap; mret (process_precision fmt ap precision)
  else if ch =? chr "." then
    mret (fmt, ap, Esc padc (if width <? 0 then 0 else width) precision lflag alt, dat)
  else if ch =? chr "#" then mret (fmt, ap, Esc padc width precision lflag true, dat)
  else if ch =? chr "l" then mret (fmt, ap, Esc padc width precision (lflag + 1) alt, dat)
  else if ch =? chr "c" then
    '(c, ap) ← va_int ap; dat ← putch c dat; mret (fmt, ap, Text, dat)
  else if ch =? chr "e" then
    '(err, ap) ← va_int ap;
    let err := if err <? 0 then s32 (- err) else err in
    if err <? 0 then leave Undefined
    else
      dat ← match (if err >=? MAXERROR then None else error_string err) with
            | None =>
                dat ← print_string (fun i => mret (cchar "error " i))
                  (mret 0) (-1) (-1) (chr " ") false dat;
                printnum err 10 (-1) (chr " ") dat
            | Some p =>
                print_string (fun i => mret (cchar p i)) (mret 0) (-1) (-1) (chr " ") false dat
            end;
      mret (fmt, ap, Text, dat)
  else if ch =? chr "s" then
    '(p, ap) ← va_word ap;
    dat ← (if p =? 0 then
             print_string (fun i => mret (cchar "(null)" i)) (mret (lit_len "(null)" precision))
               width precision padc alt dat
           else
             print_string (fun i => ldb (w32 (p + i))) (pstrnlen p precision)
               width precision padc alt dat);
    mret (fmt, ap, Text, dat)
  else if ch =? chr "d" then
    '(num, ap) ← getint ap lflag;
    if num <? 0 then dat ← putch (chr "-") dat; number (w64 (- num)) 10 ap dat
    else number num 10 ap dat
  else if ch =? chr "u" then '(num, ap) ← getuint ap lflag; number num 10 ap dat
  else if ch =? chr "o" then '(num, ap) ← getuint ap lflag; number num 8 ap dat
  else if ch =? chr "p" then
    dat ← putch (chr "0") dat; dat ← putch (chr "x") dat;
    '(num, ap) ← va_word ap; number num 16 ap dat
  else if ch =? chr "x" then '(num, ap) ← getuint ap lflag; number num 16 ap dat
  else if ch =? chr "%" then dat ← putch ch dat; mret (fmt, ap, Text, dat)
  else
    dat ← putch (chr "%") dat;
    mret (back (Z.to_nat fmt) f (fmt - 1), ap, Text, dat).

Definition vprintfmt_step (f : string) (st : pst) : K (pst + D) :=
  let '(fmt, ap, md, dat) := st in
  match md with
  | Text =>
      let ch := cchar f fmt in
      let fmt := fmt + 1 in
      if ch =? chr "%" then mret (inl (fmt, ap, Esc (chr " ") (-1) (-1) 0 false, dat))
      else if ch =? 0 then mret (inr dat)
      else dat ← putch ch dat; mret (inl (fmt, ap, Text, dat))
  | Esc padc width precision lflag alt =>
      st ← esc_step f fmt ap padc width precision lflag alt dat; mret (inl st)
  end.

(** Every step reads a character; one that falls back to just after its ['%']
    is read a second time as text. *)
Definition printf_fuel (f : string) : nat := 2 * String.length f + 3.
Definition vprintfmt (f : string) (ap : list Z) (dat : D) : K D :=
  kloop (printf_fuel f) (vprintfmt_step f) (0, ap, Text, dat).
End printfmt.

(** ["%.*s"] prints the string at its second argument, up to the length that is
    its first. *)
Lemma vprintfmt_prec_s {D} (putch : Z -> D -> K D) ldb len p dat s :
  vprintfmt putch ldb "%.*s" [len; p] dat s =
  (let pr := s32 (w32 len) in
   if w32 p =? 0 then
     print_string putch (fun i => mret (cchar "(null)" i)) (mret (lit_len "(null)" pr))
       0 pr 32 false dat
   else print_string putch (fun i => ldb (w32 (w32 p + i))) (pstrnlen ldb (w32 p) pr)
     0 pr 32 false dat) s.
Proof.
  cbv zeta. set (f := "%.*s"%string). set (pr := s32 (w32 len)).
  assert (H0 : vprintfmt_step putch ldb f (0, [len; p], Text, dat) s =
    Ret (inl (1, [len; p], Esc 32 (-1) (-1) 0 false, dat)) s) by reflexivity.
  assert (H1 : vprintfmt_step putch ldb f (1, [len; p], Esc 32 (-1) (-1) 0 false, dat) s =
    Ret (inl (2, [len; p], Esc 32 0 (-1) 0 false, dat)) s) by reflexivity.
  assert (H2 : vprintfmt_step putch ldb f (2, [len; p], Esc 32 0 (-1) 0 false, dat) s =
    Ret (inl (3, [p], Esc 32 0 pr 0 false, dat)) s) by reflexivity.
  set (ps := if w32 p =? 0 then _ else _).
  assert (H3 : vprintfmt_step putch ldb f (3, [p], Esc 32 0 pr 0 false, dat) s =
    (dat ← ps; mret (inl (4, [], Text, dat))) s).
  { change (vprintfmt_step putch ldb f (3, [p], Esc 32 0 pr 0 false, dat) s) with
      ((st ← (dat ← ps; mret ((4, [], Text, dat) : pst (D := D)));
        mret (inl st : pst (D := D) + D)) s).
    by rewrite bind_assoc. }
  unfold vprintfmt. change (printf_fuel f) with 11%nat.
  rewrite (kloop_next _ _ _ _ _ _ H0), (kloop_next _ _ _ _ _ _ H1), (kloop_next _ _ _ _ _ _ H2).
  cbn [kloop]. unfold mbind at 1, K_bind at 1. rewrite H3. unfold mbind, K_bind.
  destruct (ps s) as [dat' s' | |]; done.
Qed.

(** Printing a string of bounded length returns, and keeps what its reads and its
    writes keep. *)
Section print_string.
Context {D : Type} (putch : Z -> D -> K D) (get : Z -> K Z).
Context (I : kst -> Prop) (X : exit_kind -> kst -> Prop) (n : Z).
Context (Hput : forall ch dat s, I s -> wp (putch ch dat) (fun _ => I) X s).
Context (Hget : forall i s, 0 <= i <= n -> I s -> wp (get i) (fun _ => I) X s).

(** With precision [n] it reads the characters [0] to [n], the last one in vain. *)
Lemma wp_print_string len padc alt dat s :
  I s -> 0 <= n < 2 ^ 31 -> wp (print_string putch get len 0 n padc alt dat) (fun _ => I) X s.
Proof.
  intros HI Hpr. unfold print_string. rewrite andb_false_l by done.
  apply wp_bind, wp_ret. apply wp_bind.
  eapply wp_mono; [apply (wp_kwhile _ (fun '(i, pr', w, _) s => I s /\ 0 <= pr' /\ w <= 0 /\ 0 <= i /\ i + pr' = n)
    (fun '(_, pr', _, _) => pr') (fun '(w, _) s => I s /\ w <= 0) X) | | auto].
  - intros [[[i pr'] w] dat'] s' (HI' & Hp' & Hw' & Hi & Hip). apply wp_bind.
    eapply wp_mono; [apply Hget; [lia | done] | | auto]. intros ch s1 HI1; simpl in HI1.
    destruct (ch =? 0); [by apply wp_ret|].
    destruct (Z.ltb_spec pr' 0); [lia|]. cbn [orb].
    destruct (Z.geb_spec (pr' - 1) 0); [|by apply wp_ret].
    apply wp_bind. eapply wp_mono; [destruct (alt && _); by apply Hput | | auto].
    intros dat1 s2 HI2; simpl in HI2. apply wp_ret. split; [|lia]. split; [done | lia].
  - split; [done | lia].
  - simpl. lia.
  - intros [w dat'] s' [HI' Hw']. destruct w; [by apply wp_ret | lia | by apply wp_ret].
Qed.
End print_string.

(** ** [vsnprintf] *)

Record sprintbuf := mkSprintbuf { sb_buf : Z; sb_ebuf : Z; sb_cnt : Z }.

Definition sprintputch (ch : Z) (b : sprintbuf) : K sprintbuf :=
  let cnt := s32 (sb_cnt b + 1) in
  if sb_buf b <? sb_ebuf b then
    modify (fun s => s <| mem := st8 (mem s) (sb_buf b) ch |>);;
    mret (mkSprintbuf (w32 (sb_buf b + 1)) (sb_ebuf b) cnt)
  else mret (mkSprintbuf (sb_buf b) (sb_ebuf b) cnt).

Definition load8 (a : Z) : K Z := gets (fun s => ld8 (mem s) a).

Definition vsnprintf (buf n : Z) (f : string) (ap : list Z) : K Z :=
  if (buf =? 0) || (n <? 1) then mret (- E_INVAL)
  else
    b ← vprintfmt sprintputch load8 f ap (mkSprintbuf buf (w32 (buf + n - 1)) 0);
    modify (fun s => s <| mem := st8 (mem s) (sb_buf b) 0 |>);;
    mret (sb_cnt b).

(** ** The kernel's [cprintf] ([kern/printf.c])

    [putch] increments its copy of the pointer [cnt], not the counter. *)

Definition cputchar (ch : Z) : K unit := modify (fun s => s <| console := console s ++ [ch] |>).
Definition kputch (ch cnt : Z) : K Z := cputchar ch;; mret cnt.
Definition vcprintf (ldb : Z -> K Z) (f : string) (ap : list Z) : K Z :=
  vprintfmt kputch ldb f ap 0.

(** ** The user environments' [cprintf] ([lib/printf.c])

    Up to 255 characters are collected before one system call prints them;
    [sys_cputs] is given what it prints. *)

Record printbuf := mkPrintbuf { pb_cnt : Z; pb_buf : list Z }.
Definition uputch (sys_cputs : list Z -> K unit) (ch : Z) (b : printbuf) : K printbuf :=
  let buf := pb_buf b ++ [w8 ch] in
  let cnt := s32 (pb_cnt b + 1) in
  if Z.of_nat (length buf) =? 256 - 1
  then sys_cputs buf;; mret (mkPrintbuf cnt [])
  else mret (mkPrintbuf cnt buf).
Definition user_vcprintf (sys_cputs : list Z -> K unit) (ldb : Z -> K Z) (f : string)
    (ap : list Z) : K Z :=
  b ← vprintfmt (uputch sys_cputs) ldb f ap (mkPrintbuf 0 []);
  sys_cputs (pb_buf b);;
  mret (pb_cnt b).
