(* ===== verification/Pmap.v ===== *)
(** * Physical pages and page tables ([kern/pmap.c], [kern/pmap.h])

    The page allocator, the two-level page-table walk, the operations that map
    and unmap pages, and the kernel's boot-time layout.  Page directories and
    page tables live in the modelled memory as 32-bit words. *)

From S2P Require Import Prelude Mem CString Mmu KState.

(** Addresses the linker chooses. *)
Class Linked := {
  end_ : Z;                     (* first address after the kernel's bss *)
  bootstack : Z;
  percpu_kstacks : Z            (* unsigned char percpu_kstacks[NCPU][KSTKSIZE] *)
}.

(** ** [kern/pmap.h] *)

Definition ALLOC_ZERO : Z := 1.

Definition PADDR (kva : Z) : K Z :=
  if w32 kva <? KERNBASE then panic "PADDR called with invalid kva"
  else mret (w32 kva - KERNBASE).

Definition KADDR (pa : Z) : K Z :=
  np ← gets npages;
  if PGNUM pa >=? np then panic "KADDR called with invalid pa"
  else mret (w32 (pa + KERNBASE)).

Definition page2pa (pp : Z) : Z := w32 (Z.shiftl pp PGSHIFT).

Definition pa2page (pa : Z) : K Z :=
  np ← gets npages;
  if PGNUM pa >=? np then panic "pa2page called with invalid pa"
  else mret (PGNUM pa).

Definition page2kva (pp : Z) : K Z := KADDR (page2pa pp).

(** ** Memory detection and the boot allocator *)

Definition NVRAM_BASELO : Z := 0x15.
Definition NVRAM_EXTLO : Z := 0x17.

(** [mc146818_read] is the CMOS clock chip: a parameter. *)
Definition nvram_read (mc146818_read : Z -> Z) (r : Z) : Z :=
  Z.lor (mc146818_read r) (Z.shiftl (mc146818_read (r + 1)) 8).

Definition i386_detect_memory (mc146818_read : Z -> Z) : K unit :=
  let base := nvram_read mc146818_read NVRAM_BASELO * 1024 / PGSIZE in
  let npages_extmem := nvram_read mc146818_read NVRAM_EXTLO * 1024 / PGSIZE in
  modify (fun s => s <| npages_basemem := base |>);;
  if negb (npages_extmem =? 0)
  then modify (fun s => s <| npages := EXTPHYSMEM / PGSIZE + npages_extmem |>)
  else modify (fun s => s <| npages := base |>).

Definition boot_alloc `{Linked} (n : Z) : K Z :=
  nf ← gets nextfree;
  (if nf =? 0 then modify (fun s => s <| nextfree := ROUNDUP end_ PGSIZE |>) else mret tt);;
  nf ← gets nextfree;
  if n =? 0 then mret nf
  else
    let result := nf in
    modify (fun s => s <| nextfree := ROUNDUP (w32 (nf + n)) PGSIZE |>);;
    nf ← gets nextfree;
    np ← gets npages;
    if nf >? w32 (KERNBASE + w32 (np * PGSIZE))
    then panic "boot_alloc: out of memory"
    else mret result.

(** ** The page allocator *)

(** The guards of [page_init], in order: the pages left out of the free list. *)
Definition page_init_skip `{Linked} (i : Z) : K bool :=
  base ← gets npages_basemem;
  if i =? 0 then mret true
  else if (i >=? base) && (i <? IOPHYSMEM / PGSIZE) then mret true
  else if (i >=? IOPHYSMEM / PGSIZE) && (i <? EXTPHYSMEM / PGSIZE) then mret true
  else if i =? MPENTRY_PADDR / PGSIZE then mret true
  else if i >=? EXTPHYSMEM / PGSIZE then
    nf ← boot_alloc 0;
    mret (i <? w32 (nf - KERNBASE) / PGSIZE)
  else mret false.

Definition page_init `{Linked} : K unit :=
  modify (fun s => s <| page_free_list := None |>);;
  np ← gets npages;
  kfor (Z.to_nat np) 0 (fun i =>
    skip ← page_init_skip i;
    if (skip : bool) then mret tt
    else
      fl ← gets page_free_list;
      set_page i {| pp_link := fl; pp_ref := 0 |};;
      modify (fun s => s <| page_free_list := Some i |>)).

Definition page_alloc (alloc_flags : Z) : K (option Z) :=
  fl ← gets page_free_list;
  match fl with
  | None => mret None
  | Some pp =>
      p ← page pp;
      modify (fun s => s <| page_free_list := pp_link p |>);;
      p ← page pp;
      set_page pp (p <| pp_link := None |>);;
      p ← page pp;
      set_page pp (p <| pp_ref := 0 |>);;
      (if has alloc_flags ALLOC_ZERO then
         kva ← page2kva pp;
         modify (fun s => s <| mem := memset (mem s) kva 0 PGSIZE |>)
       else mret tt);;
      mret (Some pp)
  end.

Definition page_free (pp : Z) : K unit :=
  p ← page pp;
  if negb (pp_ref p =? 0) then panic "page_free: pp->pp_ref is nonzero"
  else
    fl ← gets page_free_list;
    set_page pp (p <| pp_link := fl |>);;
    modify (fun s => s <| page_free_list := Some pp |>).

(** [pp_ref] is a [uint16_t]. *)
Definition page_decref (pp : Z) : K unit :=
  p ← page pp;
  set_page pp (p <| pp_ref := w16 (pp_ref p - 1) |>);;
  p ← page pp;
  if pp_ref p =? 0 then page_free pp else mret tt.

Definition page_incref (pp : Z) : K unit :=
  p ← page pp;
  set_page pp (p <| pp_ref := w16 (pp_ref p + 1) |>).

(** ** Page-table management *)

(** The address of the page-table entry of [va], or NULL. *)
Definition pgdir_walk (pgdir va : Z) (create : bool) : K (option Z) :=
  let pde_p := pgdir + 4 * PDX va in
  pde ← load32 pde_p;
  ok ← (if negb (has pde PTE_P) then
          if negb create then mret false
          else
            r ← page_alloc ALLOC_ZERO;
            match r with
            | None => mret false
            | Some pp =>
                page_incref pp;;
                store32 pde_p (Z.lor (Z.lor (Z.lor (page2pa pp) PTE_P) PTE_W) PTE_U);;
                mret true
            end
        else mret true);
  if negb ok then mret None
  else
    pde ← load32 pde_p;
    pt ← KADDR (PTE_ADDR pde);
    mret (Some (pt + 4 * PTX va)).

Definition boot_map_region (pgdir va size pa perm : Z) : K unit :=
  kloop page_fuel (fun i =>
    if i <? size then
      pte ← pgdir_walk pgdir (w32 (va + i)) true;
      match pte with
      | None => panic "boot_map_region: pgdir_walk failed"
      | Some pte =>
          store32 pte (Z.lor (Z.lor (w32 (pa + i)) perm) PTE_P);;
          mret (inl (w32 (i + PGSIZE)))
      end
    else mret (inr tt)) 0.

(** [invlpg] drops one translation of this CPU's TLB; [lcr3] drops them all. *)
Definition invlpg (va : Z) : K unit :=
  modify (set_thiscpu (fun c => c <| cpu_tlb := delete (PGNUM va) (cpu_tlb c) |>)).
Definition lcr3 (pa : Z) : K unit :=
  modify (set_thiscpu (fun c => c <| cpu_cr3 := pa |> <| cpu_tlb := ∅ |>)).

Definition tlb_invalidate (pgdir va : Z) : K unit :=
  ce ← gets curenv;
  match ce with
  | None => invlpg va
  | Some e =>
      ev ← env e;
      if env_pgdir ev =? pgdir then invlpg va else mret tt
  end.

(** The page mapped at [va] and, as [*pte_store], the address of its PTE. *)
Definition page_lookup (pgdir va : Z) : K (option (Z * Z)) :=
  pte ← pgdir_walk pgdir va false;
  match pte with
  | None => mret None
  | Some pte =>
      v ← load32 pte;
      if negb (has v PTE_P) then mret None
      else
        pp ← pa2page (PTE_ADDR v);
        mret (Some (pp, pte))
  end.

Definition page_remove (pgdir va : Z) : K unit :=
  r ← page_lookup pgdir va;
  match r with
  | None => mret tt
  | Some (pp, pte) =>
      store32 pte 0;;
      tlb_invalidate pgdir va;;
      page_decref pp
  end.

Definition page_insert (pgdir pp va perm : Z) : K Z :=
  r ← pgdir_walk pgdir va true;
  match r with
  | None => mret (- E_NO_MEM)
  | Some pte =>
      let install :=
        page_incref pp;;
        store32 pte (mkpte (page2pa pp) perm);;
        tlb_invalidate pgdir va;;
        mret 0 in
      v ← load32 pte;
      if has v PTE_P then
        if PTE_ADDR v =? page2pa pp then
          store32 pte (mkpte (page2pa pp) perm);;
          tlb_invalidate pgdir va;;
          mret 0
        else page_remove pgdir va;; install
      else install
  end.

Definition mmio_map_region (pa size : Z) : K Z :=
  let size := ROUNDUP size PGSIZE in
  base ← gets mmio_base;
  if (w32 (base + size) >=? MMIOLIM) || (w32 (base + size) <? base)
  then panic "mmio_map_region: out of MMIO space"
  else
    kp ← gets kern_pgdir;
    boot_map_region kp base size pa (Z.lor (Z.lor PTE_W PTE_PCD) PTE_PWT);;
    modify (fun s => s <| mmio_base := w32 (base + size) |>);;
    base ← gets mmio_base;
    mret (w32 (base - size)).

(** Pointer comparisons are on unsigned 32-bit addresses; [start + len] and the
    stepping of [addr] wrap. *)
Definition user_mem_check (e va len perm : Z) : K Z :=
  let start := va in
  let end_ := w32 (start + len) in
  let fail :=
    modify (fun s => s <| user_mem_check_addr := start |>);; mret (- E_FAULT) in
  if (start >=? ULIM) || (start >=? end_) then fail
  else
    kloop page_fuel (fun addr =>
      if addr <? end_ then
        ev ← env e;
        pte ← pgdir_walk (env_pgdir ev) addr false;
        match pte with
        | None => r ← fail; mret (inr r)
        | Some pte =>
            v ← load32 pte;
            if negb (has v PTE_P) || negb (Z.land v perm =? perm)
            then r ← fail; mret (inr r)
            else mret (inl (w32 (addr + PGSIZE)))
        end
      else mret (inr 0)) (ROUNDDOWN start PGSIZE).

(** Per-CPU kernel stacks ([mem_init_mp]): [KSTKSIZE] bytes mapped for each
    CPU, a gap of [KSTKGAP] below each. *)
Definition mem_init_mp `{Linked} : K unit :=
  kfor (Z.to_nat NCPU) 0 (fun i =>
    let kstacktop := w32 (KSTACKTOP - i * (KSTKSIZE + KSTKGAP)) in
    kp ← gets kern_pgdir;
    pa ← PADDR (percpu_kstacks + i * KSTKSIZE);
    boot_map_region kp (w32 (kstacktop - KSTKSIZE)) KSTKSIZE pa PTE_W).

(** ** The MMU

    The translation the hardware makes for a kernel-mode access under the page
    directory in [cr3]: both levels present, and the PTE writable for a store
    ([CR0_WP] is set in [mem_init]).  [vload8]/[vstore8] are accesses through
    it; an access with no translation traps. *)

Definition mmu_pte (m : memory) (cr3 va : Z) : option Z :=
  let pde := ld32 m (w32 (cr3 + KERNBASE) + 4 * PDX va) in
  if negb (has pde PTE_P) then None
  else
    let pte := ld32 m (w32 (PTE_ADDR pde + KERNBASE) + 4 * PTX va) in
    if negb (has pte PTE_P) then None else Some pte.

Definition mmu_kva (s : kst) (va : Z) (write : bool) : option Z :=
  match mmu_pte (mem s) (cpu_cr3 (thiscpu s)) va with
  | None => None
  | Some pte =>
      if write && negb (has pte PTE_W) then None
      else Some (w32 (PTE_ADDR pte + KERNBASE) + PGOFF va)
  end.

Definition vload8 (va : Z) : K Z := fun s =>
  match mmu_kva s va false with
  | Some a => Ret (ld8 (mem s) a) s
  | None => Exit (KernelFault va) s
  end.
Definition vstore8 (va v : Z) : K unit := fun s =>
  match mmu_kva s va true with
  | Some a => Ret tt (s <| mem := st8 (mem s) a v |>)
  | None => Exit (KernelFault va) s
  end.
Definition vload32 (va : Z) : K Z :=
  b0 ← vload8 va; b1 ← vload8 (w32 (va + 1));
  b2 ← vload8 (w32 (va + 2)); b3 ← vload8 (w32 (va + 3));
  mret (b0 + 256 * b1 + 65536 * b2 + 16777216 * b3).
Definition vstore32 (va v : Z) : K unit :=
  vstore8 va v;; vstore8 (w32 (va + 1)) (v / 256);;
  vstore8 (w32 (va + 2)) (v / 65536);; vstore8 (w32 (va + 3)) (v / 16777216).

(** [memset] and [memcpy] on user addresses, byte by byte. *)
Definition vmemset (va c n : Z) : K unit :=
  kfor (Z.to_nat n) 0 (fun i => vstore8 (w32 (va + i)) c).
Definition vmemcpy (dst : Z) (src : Z -> K Z) (n : Z) : K unit :=
  kfor (Z.to_nat n) 0 (fun i => b ← src i; vstore8 (w32 (dst + i)) b).
