(* ===== verification/VmInv.v ===== *)
(** * The ownership invariant of physical pages

    What [kern/pmap.c] relies on and preserves: the free list is a proper list of
    unused pages, every page table is owned by one directory slot, user pages are
    never page tables, and [pp_ref] counts exactly the mappings of a page. *)

From S2P Require Import Prelude Mem CString Mmu KState Pmap.

(** ** Pages as arrays of words *)

Definition kva (p : Z) : Z := KERNBASE + p * PGSIZE.
Definition word (m : memory) (p k : Z) : Z := ld32 m (kva p + 4 * k).

(** The page number in a present entry. *)
Definition ent (v : Z) : option Z := if has v PTE_P then Some (v / PGSIZE) else None.

Definition NUPDE : Z := PDX UTOP.

(** The page table behind user slot [i] of directory [d], and the page mapped
    by entry [j] of that table. *)
Definition pt_of (m : memory) (d i : Z) : option Z := ent (word m d i).
Definition upte (m : memory) (d i j : Z) : option Z :=
  match pt_of m d i with Some t => Some (word m t j) | None => None end.
Definition upage (m : memory) (d i j : Z) : option Z :=
  match upte m d i j with Some v => ent v | None => None end.

Lemma word_bound m p k : 0 <= word m p k < 2 ^ 32.
Proof. apply ld32_bound. Qed.

Lemma word_st32 m p k v p' k' :
  0 <= k < 1024 -> 0 <= k' < 1024 ->
  word (st32 m (kva p + 4 * k) v) p' k' =
    if (p' =? p) && (k' =? k) then w32 v else word m p' k'.
Proof.
  intros Hk Hk'. unfold word, kva, PGSIZE.
  destruct ((p' =? p) && (k' =? k)) eqn:E.
  - zbool. subst. apply ld32_st32_eq.
  - apply ld32_st32_ne. apply andb_false_iff in E as [E | E]; zbool; [|nia].
    assert (p' < p \/ p < p') by lia. nia.
Qed.

Lemma word_memset m p p' k :
  0 <= k < 1024 ->
  word (memset m (kva p) 0 PGSIZE) p' k = if p' =? p then 0 else word m p' k.
Proof.
  intros Hk. unfold word, ld32, PGSIZE. rewrite !memset_spec by lia. unfold kva, PGSIZE.
  destruct (Z.eqb_spec p' p) as [-> | Hne].
  - repeat match goal with |- context [if ?b then _ else _] =>
      replace b with true by (symmetry; apply andb_true_iff; lia) end. done.
  - repeat match goal with |- context [if ?b then _ else _] =>
      replace b with false by (symmetry; apply andb_false_iff; lia) end. done.
Qed.

Lemma ent_0 : ent 0 = None.
Proof. done. Qed.
Lemma ent_mkpte p perm : 0 <= perm < PGSIZE -> 0 <= p -> ent (mkpte (p * PGSIZE) perm) = Some p.
Proof.
  intros Hp H0. unfold ent. rewrite has_P_mkpte, mkpte_add by (done || apply Z.mod_mul; done).
  pose proof (perm_lor_bound perm Hp). f_equal. unfold PGSIZE in *. zlia.
Qed.

(** ** What a page is used for *)

Inductive role :=
  | RFree              (* on the free list *)
  | RDir               (* the page directory of an environment *)
  | RPT (d i : Z)      (* the page table of user slot [i] of directory [d] *)
  | RUser              (* mapped by user page-table entries *)
  | RKernel.           (* never handed out: kernel image, kernel page tables, holes *)

#[export] Instance role_eq_dec : EqDecision role.
Proof. solve_decision. Defined.

(** ** The free list as pages come and go *)

Definition set_role (rl : Z -> role) (p : Z) (r : role) (q : Z) : role :=
  if q =? p then r else rl q.
Lemma set_role_eq rl p r : set_role rl p r p = r.
Proof. unfold set_role. by rewrite Z.eqb_refl. Qed.
Lemma set_role_ne rl p r q : q <> p -> set_role rl p r q = rl q.
Proof. unfold set_role. intros. by destruct (Z.eqb_spec q p). Qed.

(** The free list holds exactly the pages with role [RFree]. *)
Definition free_ok (s : kst) (rl : Z -> role) : Prop :=
  linked (fun p => pp_link (pages s !!! p)) (page_free_list s) (fun p => rl p = RFree).

(** Pages that are not free may change. *)
Lemma free_ok_keep s s' rl rl' :
  free_ok s rl -> page_free_list s' = page_free_list s ->
  (forall p, rl p = RFree -> pp_link (pages s' !!! p) = pp_link (pages s !!! p)) ->
  (forall p, rl' p = RFree <-> rl p = RFree) -> free_ok s' rl'.
Proof. unfold free_ok. intros H ->. by apply linked_keep. Qed.

(** A page is put on the list. *)
Lemma free_ok_push s s' rl q :
  free_ok s rl -> rl q <> RFree -> page_free_list s' = Some q ->
  pages s' = <[q := {| pp_link := page_free_list s; pp_ref := 0 |}]> (pages s) ->
  free_ok s' (set_role rl q RFree).
Proof.
  unfold free_ok. intros H Hq -> ->. eapply linked_push; [exact H | done | | |].
  - by rewrite lookup_total_insert_eq.
  - intros p Hp. rewrite lookup_total_insert_ne; [done | congruence].
  - intros p. unfold set_role. destruct (Z.eqb_spec p q); naive_solver.
Qed.

(** The head of the list is taken. *)
Lemma free_ok_pop s s' rl q v r :
  free_ok s rl -> page_free_list s = Some q -> r <> RFree ->
  page_free_list s' = pp_link (pages s !!! q) -> pages s' = <[q := v]> (pages s) ->
  free_ok s' (set_role rl q r).
Proof.
  unfold free_ok. intros H Hq Hr -> ->. rewrite Hq in H.
  apply (linked_pop _ (fun p => pp_link (<[q := v]> (pages s) !!! p)) q _
    (fun p => set_role rl q r p = RFree)) in H; [done | |].
  - intros p Hp. by rewrite lookup_total_insert_ne.
  - intros p. unfold set_role. destruct (Z.eqb_spec p q); naive_solver.
Qed.

(** The user page-table slots of a set of directories, and how many map [p]. *)
Definition slots (dirs : list Z) : list (Z * Z * Z) :=
  d ← dirs; i ← seqZ 0 NUPDE; j ← seqZ 0 NPTENTRIES; [(d, i, j)].

Definition maps (m : memory) (p : Z) (x : Z * Z * Z) : Prop :=
  let '(d, i, j) := x in upage m d i j = Some p.
#[export] Instance maps_dec m p x : Decision (maps m p x).
Proof. destruct x as [[d i] j]. unfold maps. apply _. Defined.

Definition ucount (m : memory) (dirs : list Z) (p : Z) : Z :=
  Z.of_nat (length (filter (maps m p) (slots dirs))).

(** The invariant.  [lim] is a page that was just allocated and is not mapped
    yet: no other user page has a zero count. *)
Record vm_inv (s : kst) (dirs : list Z) (rl : Z -> role) (lim : option Z) : Prop := {
  vi_npages : 0 <= npages s <= 2 ^ 16;
  vi_range : forall p, rl p <> RKernel -> 0 <= p < npages s;
  vi_free : free_ok s rl;
  vi_free_ref : forall p, rl p = RFree -> pp_ref (pages s !!! p) = 0;
  vi_nodup : NoDup dirs;
  vi_dirs : forall d, d ∈ dirs <-> rl d = RDir;
  vi_dir_ref : forall d, d ∈ dirs -> pp_ref (pages s !!! d) = 1;
  vi_pt : forall d i p, d ∈ dirs -> 0 <= i < NUPDE ->
    pt_of (mem s) d i = Some p -> rl p = RPT d i;
  vi_pt_ref : forall p d i, rl p = RPT d i ->
    pp_ref (pages s !!! p) = 1 /\ d ∈ dirs /\ 0 <= i < NUPDE /\ pt_of (mem s) d i = Some p;
  vi_user : forall d i j p, d ∈ dirs -> 0 <= i < NUPDE -> 0 <= j < NPTENTRIES ->
    upage (mem s) d i j = Some p -> rl p = RUser;
  vi_user_ref : forall p, rl p = RUser ->
    pp_ref (pages s !!! p) = ucount (mem s) dirs p /\
    (ucount (mem s) dirs p = 0 -> lim = Some p);
  vi_ref16 : forall p, rl p = RUser -> pp_ref (pages s !!! p) < 2 ^ 16;
  vi_lim : forall p, lim = Some p -> rl p = RUser /\ ucount (mem s) dirs p = 0
}.

(** ** Slots and counts *)

Lemma NUPDE_val : NUPDE = 955.
Proof. reflexivity. Qed.

Lemma elem_of_slots dirs d i j :
  (d, i, j) ∈ slots dirs <-> d ∈ dirs /\ 0 <= i < NUPDE /\ 0 <= j < NPTENTRIES.
Proof.
  unfold slots. rewrite list_elem_of_bind. setoid_rewrite list_elem_of_bind.
  setoid_rewrite list_elem_of_bind. setoid_rewrite elem_of_seqZ.
  setoid_rewrite list_elem_of_singleton. unfold NPTENTRIES. split.
  - intros (d' & (i' & (j' & Heq & Hj) & Hi) & Hd). injection Heq as -> -> ->.
    split; [done|]. lia.
  - intros (Hd & Hi & Hj). exists d. split; [|done]. exists i. split; [|lia].
    exists j. split; [done | lia].
Qed.

Lemma NoDup_slots dirs : NoDup dirs -> NoDup (slots dirs).
Proof.
  intros Hnd. unfold slots.
  apply NoDup_bind; [ | | done].
  - intros d1 d2 x _ _ H1 H2. apply list_elem_of_bind in H1 as (i & H1 & _).
    apply list_elem_of_bind in H1 as (j & H1 & _). apply list_elem_of_singleton in H1 as ->.
    apply list_elem_of_bind in H2 as (i' & H2 & _).
    apply list_elem_of_bind in H2 as (j' & H2 & _). apply list_elem_of_singleton in H2. congruence.
  - intros d _. apply NoDup_bind; [ | | apply NoDup_seqZ].
    + intros i1 i2 x _ _ H1 H2. apply list_elem_of_bind in H1 as (j & H1 & _).
      apply list_elem_of_singleton in H1 as ->. apply list_elem_of_bind in H2 as (j' & H2 & _).
      apply list_elem_of_singleton in H2. congruence.
    + intros i _. apply NoDup_bind; [ | intros; apply NoDup_singleton | apply NoDup_seqZ].
      intros j1 j2 x _ _ H1 H2. apply list_elem_of_singleton in H1 as ->.
      apply list_elem_of_singleton in H2. congruence.
Qed.

Lemma ucount_nonneg m dirs p : 0 <= ucount m dirs p.
Proof. unfold ucount. lia. Qed.

Lemma ucount_ext m m' dirs p :
  (forall d i j, d ∈ dirs -> 0 <= i < NUPDE -> 0 <= j < NPTENTRIES ->
     upage m d i j = Some p <-> upage m' d i j = Some p) ->
  ucount m dirs p = ucount m' dirs p.
Proof.
  intros H. unfold ucount. f_equal. apply filter_length_ext.
  intros [[d i] j] Hx. apply elem_of_slots in Hx as (? & ? & ?). simpl. auto.
Qed.

(** One slot changes what it maps. *)
Lemma ucount_change m m' dirs d i j p :
  NoDup dirs -> d ∈ dirs -> 0 <= i < NUPDE -> 0 <= j < NPTENTRIES ->
  (forall d' i' j', d' ∈ dirs -> 0 <= i' < NUPDE -> 0 <= j' < NPTENTRIES ->
     (d', i', j') <> (d, i, j) -> upage m d' i' j' = upage m' d' i' j') ->
  ucount m' dirs p + (if decide (upage m d i j = Some p) then 1 else 0) =
  ucount m dirs p + (if decide (upage m' d i j = Some p) then 1 else 0).
Proof.
  intros Hnd Hd Hi Hj H. unfold ucount.
  pose proof (filter_length_change (maps m p) (maps m' p) (slots dirs) (d, i, j)
    (NoDup_slots _ Hnd) (proj2 (elem_of_slots _ _ _ _) (conj Hd (conj Hi Hj)))) as Hc.
  ospecialize (Hc _).
  { intros [[d' i'] j'] Hx Hne. apply elem_of_slots in Hx as (? & ? & ?). simpl.
    rewrite (H d' i' j') by done. done. }
  change (decide (maps m p (d, i, j))) with (decide (upage m d i j = Some p)) in Hc.
  change (decide (maps m' p (d, i, j))) with (decide (upage m' d i j = Some p)) in Hc.
  destruct (decide (upage m d i j = Some p)), (decide (upage m' d i j = Some p)); lia.
Qed.

Lemma ucount_pos m dirs d i j p :
  d ∈ dirs -> 0 <= i < NUPDE -> 0 <= j < NPTENTRIES ->
  upage m d i j = Some p -> 0 < ucount m dirs p.
Proof.
  intros Hd Hi Hj Hu. unfold ucount.
  assert ((d, i, j) ∈ slots dirs) as Hin by (apply elem_of_slots; done).
  pose proof (filter_length_pos (maps m p) (slots dirs) (d, i, j) Hin Hu). lia.
Qed.

Lemma ucount_zero m dirs p :
  (forall d i j, d ∈ dirs -> 0 <= i < NUPDE -> 0 <= j < NPTENTRIES ->
     upage m d i j <> Some p) -> ucount m dirs p = 0.
Proof.
  intros H. unfold ucount. rewrite filter_length_zero; [done|].
  intros [[d i] j] Hx. apply elem_of_slots in Hx as (? & ? & ?). simpl. auto.
Qed.

(** ** What the operations do to the state

    Each operation as an equation, under what its callers guarantee. *)

Lemma kva_small p : 0 <= p <= 2 ^ 16 -> KERNBASE <= kva p <= 2 ^ 32.
Proof. unfold kva, KERNBASE, PGSIZE. lia. Qed.

Lemma page2pa_eq p : 0 <= p < 2 ^ 20 -> page2pa p = p * PGSIZE.
Proof.
  intros. unfold page2pa, PGSHIFT, PGSIZE. rewrite Z.shiftl_mul_pow2 by lia.
  apply w32_small. lia.
Qed.

Lemma KADDR_run s p :
  0 <= p < npages s -> npages s <= 2 ^ 16 -> KADDR (p * PGSIZE) s = Ret (kva p) s.
Proof.
  intros Hp Hn. unfold KADDR. krun.
  rewrite PGNUM_div by (unfold PGSIZE; lia). rewrite Z.div_mul by done.
  destruct (Z.geb_spec p (npages s)); [lia|]. f_equal.
  unfold kva. rewrite w32_small; [lia|]. unfold KERNBASE, PGSIZE. lia.
Qed.

Lemma page2kva_run s p :
  0 <= p < npages s -> npages s <= 2 ^ 16 -> page2kva p s = Ret (kva p) s.
Proof. intros. unfold page2kva. rewrite page2pa_eq by lia. by apply KADDR_run. Qed.

Lemma ent_Some v p : ent v = Some p <-> has v PTE_P = true /\ p = v / PGSIZE.
Proof. unfold ent. destruct (has v PTE_P); split; intros; try done; naive_solver. Qed.

Lemma KADDR_ent s v t :
  ent v = Some t -> 0 <= t < npages s -> npages s <= 2 ^ 16 ->
  KADDR (PTE_ADDR v) s = Ret (kva t) s.
Proof. intros [_ ->]%ent_Some ? ?. rewrite PTE_ADDR_div. by apply KADDR_run. Qed.

Lemma pa2page_ent s v t :
  ent v = Some t -> 0 <= t < npages s -> npages s <= 2 ^ 16 ->
  pa2page (PTE_ADDR v) s = Ret t s.
Proof.
  intros [_ ->]%ent_Some Ht Hn. unfold pa2page. krun. rewrite PTE_ADDR_div.
  rewrite PGNUM_div by (unfold PGSIZE in *; lia). rewrite Z.div_mul by done.
  destruct (Z.geb_spec (v / PGSIZE) (npages s)); [lia | done].
Qed.

Definition after_alloc (flags : Z) (s : kst) (p : Z) : kst :=
  let s' := s <| page_free_list := pp_link (pages s !!! p) |>
              <| pages := <[p := {| pp_link := None; pp_ref := 0 |}]> (pages s) |> in
  if has flags ALLOC_ZERO then s' <| mem := memset (mem s) (kva p) 0 PGSIZE |> else s'.

Lemma page_alloc_none s flags : page_free_list s = None -> page_alloc flags s = Ret None s.
Proof. intros H. unfold page_alloc. krun. by rewrite H. Qed.

Lemma page_alloc_some s flags p :
  page_free_list s = Some p -> 0 <= p < npages s -> npages s <= 2 ^ 16 ->
  page_alloc flags s = Ret (Some p) (after_alloc flags s p).
Proof.
  intros H Hp Hn. unfold page_alloc, after_alloc. kexplode s. subst. kred.
  rewrite !lookup_total_insert_eq. kred. rewrite insert_insert_eq.
  destruct (has flags ALLOC_ZERO); [|done].
  rewrite page2kva_run by done. done.
Qed.

Lemma page_free_run s p :
  pp_ref (pages s !!! p) = 0 ->
  page_free p s = Ret tt (s <| pages := <[p := {| pp_link := page_free_list s; pp_ref := 0 |}]>
    (pages s) |> <| page_free_list := Some p |>).
Proof. intros H. unfold page_free. krun. rewrite H. simpl. done. Qed.

(** Dropping a reference either lowers the count or, at the last one, frees. *)
Lemma page_decref_run s p :
  let r := pp_ref (pages s !!! p) in
  let l := pp_link (pages s !!! p) in
  0 < r < 2 ^ 16 ->
  page_decref p s = Ret tt
    (if r =? 1 then
       s <| pages := <[p := {| pp_link := page_free_list s; pp_ref := 0 |}]> (pages s) |>
         <| page_free_list := Some p |>
     else s <| pages := <[p := {| pp_link := l; pp_ref := r - 1 |}]> (pages s) |>).
Proof.
  intros r l Hr. subst r l. unfold page_decref. kexplode s. kred.
  rewrite lookup_total_insert_eq. kred. rewrite w16_small by lia.
  destruct (Z.eqb_spec (pp_ref (ps !!! p)) 1) as [H1 | H1].
  - rewrite H1. change (1 - 1 =? 0) with true. cbv iota.
    rewrite page_free_run by (kred; by rewrite lookup_total_insert_eq).
    kred. by rewrite insert_insert_eq.
  - destruct (Z.eqb_spec (pp_ref (ps !!! p) - 1) 0); [lia|]. done.
Qed.

Lemma page_incref_run s p :
  pp_ref (pages s !!! p) + 1 < 2 ^ 16 -> 0 <= pp_ref (pages s !!! p) ->
  page_incref p s = Ret tt (s <| pages := <[p := {| pp_link := pp_link (pages s !!! p);
    pp_ref := pp_ref (pages s !!! p) + 1 |}]> (pages s) |>).
Proof. intros. unfold page_incref. krun. rewrite w16_small by lia. done. Qed.

(** [tlb_invalidate] only touches the TLB of this CPU. *)
Definition tlb_flush (d va : Z) (s : kst) : kst :=
  let drop := set_thiscpu (fun c => c <| cpu_tlb := delete (PGNUM va) (cpu_tlb c) |>) s in
  match curenv s with
  | None => drop
  | Some e => if env_pgdir (envs s !!! e) =? d then drop else s
  end.

Lemma tlb_invalidate_run s d va : tlb_invalidate d va s = Ret tt (tlb_flush d va s).
Proof.
  unfold tlb_invalidate, tlb_flush, invlpg. krun.
  destruct (curenv s); [|done]. case_bool; done.
Qed.

(** Two states that agree on the memory and the page array. *)
Record vm_eq (s s' : kst) : Prop := {
  ve_mem : mem s' = mem s;
  ve_npages : npages s' = npages s;
  ve_pages : pages s' = pages s;
  ve_free : page_free_list s' = page_free_list s }.

Lemma vm_eq_tlb d va s : vm_eq s (tlb_flush d va s).
Proof. unfold tlb_flush. destruct (curenv s); case_bool; split; done. Qed.

Lemma vm_inv_eq s s' dirs rl lim : vm_eq s s' -> vm_inv s dirs rl lim -> vm_inv s' dirs rl lim.
Proof.
  intros [Hm Hn Hp Hf] []. constructor; unfold free_ok in *; rewrite ?Hm, ?Hn, ?Hp, ?Hf; done.
Qed.

(** ** Preservation, one state change at a time *)

Lemma vi_ucount_dirs s dirs rl lim p :
  vm_inv s dirs rl lim -> rl p <> RUser -> ucount (mem s) dirs p = 0.
Proof.
  intros Hi Hp. apply ucount_zero. intros d i j Hd Hir Hj Hu. eauto using vi_user.
Qed.

Lemma upage_pt m d i j t : pt_of m d i = Some t -> upage m d i j = ent (word m t j).
Proof. unfold upage, upte. intros ->. done. Qed.

(** The head of the free list. *)
Lemma vi_head s dirs rl lim p :
  vm_inv s dirs rl lim -> page_free_list s = Some p -> rl p = RFree /\ 0 <= p < npages s.
Proof.
  intros Hi Hh. pose proof (vi_free _ _ _ _ Hi) as H. unfold free_ok in H. rewrite Hh in H.
  pose proof (linked_head _ _ _ H) as Hp. simpl in Hp.
  split; [done|]. apply (vi_range _ _ _ _ Hi); congruence.
Qed.

(** The words of memory after a page table was taken from the free list, cleared
    and hooked into slot [i] of directory [d]. *)
Lemma word_new_pt m d i p v q k :
  0 <= i < 1024 -> 0 <= k < 1024 -> 0 <= v < 2 ^ 32 ->
  word (st32 (memset m (kva p) 0 PGSIZE) (kva d + 4 * i) v) q k =
    if (q =? d) && (k =? i) then v else if q =? p then 0 else word m q k.
Proof.
  intros. rewrite word_st32, word_memset by done. rewrite w32_small by done. done.
Qed.

(** The memory after: the new table is there and empty, and every other entry is as before. *)
Lemma new_pt_words s m' dirs rl lim d i p :
  vm_inv s dirs rl lim -> rl p = RFree -> 0 <= p < npages s ->
  d ∈ dirs -> 0 <= i < NUPDE -> pt_of (mem s) d i = None ->
  m' = st32 (memset (mem s) (kva p) 0 PGSIZE) (kva d + 4 * i) (mkpte (p * PGSIZE) 6) ->
  pt_of m' d i = Some p /\
  (forall d' i', d' ∈ dirs -> 0 <= i' < NUPDE -> (d', i') <> (d, i) -> pt_of m' d' i' = pt_of (mem s) d' i') /\
  (forall d' i' j', d' ∈ dirs -> 0 <= i' < NUPDE -> 0 <= j' < NPTENTRIES ->
     (d', i') <> (d, i) -> upte m' d' i' j' = upte (mem s) d' i' j') /\
  (forall j, 0 <= j < NPTENTRIES -> upte m' d i j = Some 0).
Proof.
  intros Hi Hrp Hpr Hd Hir Hno Hm. pose proof (vi_npages _ _ _ _ Hi) as Hnp. rewrite NUPDE_val in Hir.
  assert (Hdne : forall d', d' ∈ dirs -> d' <> p).
  { intros d' Hd' ->. apply (vi_dirs _ _ _ _ Hi) in Hd'. congruence. }
  assert (Hw : forall q k, 0 <= k < 1024 -> word m' q k =
    if (q =? d) && (k =? i) then mkpte (p * PGSIZE) 6 else if q =? p then 0 else word (mem s) q k).
  { intros q k Hk. rewrite Hm. apply word_new_pt; [lia | done |].
    apply mkpte_range; unfold PGSIZE; [lia | apply Z.mod_mul; lia | lia]. }
  assert (Hent : ent (mkpte (p * PGSIZE) 6) = Some p) by (apply ent_mkpte; unfold PGSIZE; lia).
  assert (Hpt : pt_of m' d i = Some p).
  { unfold pt_of. rewrite Hw by lia. rewrite !Z.eqb_refl. done. }
  assert (Hpt' : forall d' i', d' ∈ dirs -> 0 <= i' < NUPDE -> (d', i') <> (d, i) ->
    pt_of m' d' i' = pt_of (mem s) d' i').
  { intros d' i' Hd' Hi' Hne. rewrite NUPDE_val in Hi'. unfold pt_of. rewrite Hw by lia.
    rewrite (proj2 (Z.eqb_neq d' p)) by auto.
    destruct ((d' =? d) && (i' =? i)) eqn:E; [zbool; congruence | done]. }
  split; [done|]. split; [done|]. split.
  - intros d' i' j' Hd' Hi' Hj' Hne. unfold upte. rewrite Hpt' by done.
    destruct (pt_of (mem s) d' i') as [t|] eqn:Et; [|done].
    pose proof (vi_pt _ _ _ _ Hi _ _ _ Hd' Hi' Et) as Ht.
    pose proof (proj1 (vi_dirs _ _ _ _ Hi d) Hd) as Hdr. unfold NPTENTRIES in Hj'.
    rewrite Hw by lia.
    rewrite (proj2 (Z.eqb_neq t p)), (proj2 (Z.eqb_neq t d)) by congruence. done.
  - intros j Hj. unfold upte. rewrite Hpt. rewrite Hw by (unfold NPTENTRIES in Hj; lia).
    rewrite Z.eqb_refl. rewrite (proj2 (Z.eqb_neq p d)); [done|].
    intros ->. by apply (Hdne d).
Qed.

Lemma new_pt_inv s s' dirs rl lim d i p :
  vm_inv s dirs rl lim -> page_free_list s = Some p ->
  d ∈ dirs -> 0 <= i < NUPDE -> pt_of (mem s) d i = None ->
  mem s' = st32 (memset (mem s) (kva p) 0 PGSIZE) (kva d + 4 * i) (mkpte (p * PGSIZE) 6) ->
  npages s' = npages s ->
  pages s' = <[p := {| pp_link := None; pp_ref := 1 |}]> (pages s) ->
  page_free_list s' = pp_link (pages s !!! p) ->
  vm_inv s' dirs (set_role rl p (RPT d i)) lim /\
  pt_of (mem s') d i = Some p /\
  (forall d' i' j', d' ∈ dirs -> 0 <= i' < NUPDE -> 0 <= j' < NPTENTRIES ->
     (d', i') <> (d, i) -> upte (mem s') d' i' j' = upte (mem s) d' i' j') /\
  (forall j, 0 <= j < NPTENTRIES -> upte (mem s') d i j = Some 0).
Proof.
  intros Hi Hh Hd Hir Hno Hm Hn Hp Hf.
  destruct (vi_head _ _ _ _ _ Hi Hh) as (Hrp & Hpr).
  assert (Hdne : forall d', d' ∈ dirs -> d' <> p).
  { intros d' Hd' ->. apply (vi_dirs _ _ _ _ Hi) in Hd'. congruence. }
  destruct (new_pt_words s (mem s') dirs rl lim d i p Hi Hrp Hpr Hd Hir Hno Hm) as (Hpt & Hpt' & Hupte & Hzero).
  assert (Hup : forall d' i' j', d' ∈ dirs -> 0 <= i' < NUPDE -> 0 <= j' < NPTENTRIES ->
     upage (mem s') d' i' j' = upage (mem s) d' i' j').
  { intros d' i' j' Hd' Hi' Hj'. unfold upage.
    destruct (decide ((d', i') = (d, i))) as [Heq | Hne].
    - injection Heq as -> ->. rewrite Hzero by done. unfold upte. rewrite Hno. done.
    - rewrite Hupte by done. done. }
  assert (Huc : forall q, ucount (mem s') dirs q = ucount (mem s) dirs q).
  { intros q. apply ucount_ext. intros. rewrite Hup by done. done. }
  split; [|auto]. constructor; rewrite ?Hn, ?Hp, ?Hf; try apply Hi.
  - intros q. unfold set_role. destruct (Z.eqb_spec q p) as [-> | ?]; [done | apply Hi].
  - eapply free_ok_pop; eauto using vi_free; done.
  - intros q. unfold set_role. destruct (Z.eqb_spec q p) as [-> | ?]; [done|]. intros Hq.
    rewrite lookup_total_insert_ne by done. by apply (vi_free_ref _ _ _ _ Hi).
  - intros d'. unfold set_role. destruct (Z.eqb_spec d' p) as [-> | ?]; [|apply Hi].
    split; [intros H; by apply Hdne in H | done].
  - intros d' Hd'. rewrite lookup_total_insert_ne by (apply not_eq_sym; auto).
    by apply (vi_dir_ref _ _ _ _ Hi).
  - intros d' i' q Hd' Hi' Hq. destruct (decide ((d', i') = (d, i))) as [Heq | Hne].
    + injection Heq as -> ->. assert (q = p) as -> by congruence. apply set_role_eq.
    + rewrite Hpt' in Hq by done. pose proof (vi_pt _ _ _ _ Hi _ _ _ Hd' Hi' Hq).
      rewrite set_role_ne; [done | congruence].
  - intros q d' i'. unfold set_role. destruct (Z.eqb_spec q p) as [-> | Hq].
    + intros Heq. injection Heq as <- <-. rewrite lookup_total_insert_eq.
      rewrite NUPDE_val. auto.
    + intros Hr. destruct (vi_pt_ref _ _ _ _ Hi _ _ _ Hr) as (? & ? & ? & ?).
      rewrite lookup_total_insert_ne by done. repeat split; try done; try lia.
      rewrite Hpt'; [done | done | done | congruence].
  - intros d' i' j' q Hd' Hi' Hj' Hq. rewrite Hup in Hq by done.
    pose proof (vi_user _ _ _ _ Hi _ _ _ _ Hd' Hi' Hj' Hq).
    rewrite set_role_ne; [done | congruence].
  - intros q. rewrite Huc. unfold set_role. destruct (Z.eqb_spec q p) as [-> | Hq]; [done|].
    rewrite lookup_total_insert_ne by done. apply Hi.
  - intros q. unfold set_role. destruct (Z.eqb_spec q p) as [-> | Hq]; [done|].
    rewrite lookup_total_insert_ne by done. apply Hi.
  - intros q Hq. rewrite Huc. destruct (vi_lim _ _ _ _ Hi q Hq). split; [|done].
    rewrite set_role_ne; [done | congruence].
Qed.

(** A store into an existing user page table. *)
Lemma slot_store s m' dirs rl lim d i j t v :
  vm_inv s dirs rl lim -> d ∈ dirs -> 0 <= i < NUPDE -> 0 <= j < NPTENTRIES ->
  pt_of (mem s) d i = Some t -> 0 <= v < 2 ^ 32 ->
  m' = st32 (mem s) (kva t + 4 * j) v ->
  (forall d' i', d' ∈ dirs -> 0 <= i' < NUPDE -> pt_of m' d' i' = pt_of (mem s) d' i') /\
  upte m' d i j = Some v /\
  (forall d' i' j', d' ∈ dirs -> 0 <= i' < NUPDE -> 0 <= j' < NPTENTRIES ->
     (d', i', j') <> (d, i, j) -> upte m' d' i' j' = upte (mem s) d' i' j').
Proof.
  intros Hi Hd Hir Hj Ht Hv ->. unfold NPTENTRIES in *. rewrite NUPDE_val in Hir.
  pose proof (vi_pt _ _ _ _ Hi _ _ _ Hd ltac:(by rewrite NUPDE_val) Ht) as Hrt.
  assert (Hpt : forall d' i', d' ∈ dirs -> 0 <= i' < NUPDE ->
    pt_of (st32 (mem s) (kva t + 4 * j) v) d' i' = pt_of (mem s) d' i').
  { intros d' i' Hd' Hi'. rewrite NUPDE_val in Hi'. unfold pt_of. rewrite word_st32 by lia.
    apply (vi_dirs _ _ _ _ Hi) in Hd'. rewrite (proj2 (Z.eqb_neq d' t)) by congruence. done. }
  split; [exact Hpt|]. unfold upte. split.
  - rewrite Hpt, Ht, word_st32 by (done || lia || by rewrite NUPDE_val).
    rewrite !Z.eqb_refl. simpl. by rewrite w32_small.
  - intros d' i' j' Hd' Hi' Hj' Hne. rewrite Hpt by done.
    destruct (pt_of (mem s) d' i') as [t'|] eqn:Et; [|done].
    rewrite word_st32 by lia. destruct ((t' =? t) && (j' =? j)) eqn:E; [|done].
    zbool. subst. pose proof (vi_pt _ _ _ _ Hi _ _ _ Hd' Hi' Et). congruence.
Qed.

(** The invariant again, when page tables stay and only user pages move between
    mapped and free. *)
Lemma vm_inv_user s s' dirs rl rl' lim lim' :
  vm_inv s dirs rl lim ->
  npages s' = npages s ->
  (forall d i, d ∈ dirs -> 0 <= i < NUPDE -> pt_of (mem s') d i = pt_of (mem s) d i) ->
  (forall p, rl' p = rl p \/
     (rl p = RUser \/ rl p = RFree) /\ (rl' p = RUser \/ rl' p = RFree)) ->
  (forall p, rl p <> RUser -> rl p <> RFree ->
     pp_ref (pages s' !!! p) = pp_ref (pages s !!! p)) ->
  free_ok s' rl' ->
  (forall p, rl' p = RFree -> pp_ref (pages s' !!! p) = 0) ->
  (forall d i j p, d ∈ dirs -> 0 <= i < NUPDE -> 0 <= j < NPTENTRIES ->
     upage (mem s') d i j = Some p -> rl' p = RUser) ->
  (forall p, rl' p = RUser ->
     pp_ref (pages s' !!! p) = ucount (mem s') dirs p /\
     (ucount (mem s') dirs p = 0 -> lim' = Some p) /\ pp_ref (pages s' !!! p) < 2 ^ 16) ->
  (forall p, lim' = Some p -> rl' p = RUser /\ ucount (mem s') dirs p = 0) ->
  vm_inv s' dirs rl' lim'.
Proof.
  intros Hi Hn Hpt Hrl Href Hfree Hfref Huser Huref Hlim.
  assert (Hkeep : forall p r, r <> RUser -> r <> RFree -> rl' p = r <-> rl p = r).
  { intros p r ? ?. destruct (Hrl p) as [-> | [[H1|H1] [H2|H2]]]; rewrite ?H1, ?H2;
    split; intros; subst; done. }
  constructor; rewrite ?Hn; try done; try apply Hi.
  - intros p Hp. apply (vi_range _ _ _ _ Hi). rewrite <- (Hkeep p RKernel) by done. done.
  - intros d. rewrite Hkeep by done. apply Hi.
  - intros d Hd. pose proof (proj1 (vi_dirs _ _ _ _ Hi d) Hd).
    rewrite Href by congruence. by apply (vi_dir_ref _ _ _ _ Hi).
  - intros d i p Hd Hir Hp. rewrite Hpt in Hp by done. apply Hkeep; [done..|].
    eauto using vi_pt.
  - intros p d i Hp. apply Hkeep in Hp; [|done..].
    destruct (vi_pt_ref _ _ _ _ Hi _ _ _ Hp) as (? & ? & ? & ?).
    rewrite Href, Hpt by (done || congruence). done.
  - intros p Hp. destruct (Huref p Hp) as (? & ? & ?). done.
  - intros p Hp. destruct (Huref p Hp) as (? & ? & ?). done.
Qed.

Lemma upage_upte m d i j v : upte m d i j = Some v -> upage m d i j = ent v.
Proof. unfold upage. intros ->. done. Qed.

(** Mapping [pp] in an empty slot. *)
Lemma map_inv s s' dirs rl lim d i j t pp v :
  vm_inv s dirs rl lim -> d ∈ dirs -> 0 <= i < NUPDE -> 0 <= j < NPTENTRIES ->
  pt_of (mem s) d i = Some t -> upage (mem s) d i j = None ->
  rl pp = RUser -> pp_ref (pages s !!! pp) + 1 < 2 ^ 16 -> ent v = Some pp -> 0 <= v < 2 ^ 32 ->
  mem s' = st32 (mem s) (kva t + 4 * j) v -> npages s' = npages s ->
  pages s' = <[pp := {| pp_link := pp_link (pages s !!! pp);
                        pp_ref := pp_ref (pages s !!! pp) + 1 |}]> (pages s) ->
  page_free_list s' = page_free_list s ->
  vm_inv s' dirs rl (if decide (lim = Some pp) then None else lim).
Proof.
  intros Hi Hd Hir Hj Ht Hno Hpp H16 Hent Hv Hm Hn Hp Hf.
  destruct (slot_store _ _ _ _ _ _ _ _ _ _ Hi Hd Hir Hj Ht Hv Hm) as (Hpt & Hnew & Hold).
  assert (Hup : forall d' i' j', d' ∈ dirs -> 0 <= i' < NUPDE -> 0 <= j' < NPTENTRIES ->
     (d', i', j') <> (d, i, j) -> upage (mem s) d' i' j' = upage (mem s') d' i' j').
  { intros. unfold upage. rewrite Hold by done. done. }
  pose proof (upage_upte _ _ _ _ _ Hnew) as Hnew'. rewrite Hent in Hnew'.
  assert (Huc : forall p, ucount (mem s') dirs p =
                  ucount (mem s) dirs p + (if decide (pp = p) then 1 else 0)).
  { intros p. pose proof (ucount_change (mem s) (mem s') dirs d i j p
      (vi_nodup _ _ _ _ Hi) Hd Hir Hj Hup) as Hc.
    rewrite Hno, Hnew' in Hc. destruct (decide (pp = p)); repeat case_decide; try lia; congruence. }
  eapply (vm_inv_user s s' dirs rl rl); rewrite ?Hp; try done.
  - auto.
  - intros p Hp1 Hp2. rewrite lookup_total_insert_ne; [done | congruence].
  - eapply free_ok_keep; [apply Hi | done | | done].
    intros p Hpf. rewrite Hp, lookup_total_insert_ne; [done | congruence].
  - intros p Hp1. rewrite lookup_total_insert_ne by congruence. by apply (vi_free_ref _ _ _ _ Hi).
  - intros d' i' j' p Hd' Hi' Hj' Hu. destruct (decide ((d', i', j') = (d, i, j))) as [Heq | Hne].
    + injection Heq as -> -> ->. congruence.
    + rewrite <- Hup in Hu by done. eauto using vi_user.
  - intros p Hp1. rewrite Huc. destruct (vi_user_ref _ _ _ _ Hi p Hp1) as [Hr Hz].
    pose proof (ucount_nonneg (mem s) dirs p). destruct (decide (pp = p)) as [<- | Hne].
    + rewrite lookup_total_insert_eq. simpl. repeat split; lia.
    + rewrite lookup_total_insert_ne by done.
      split; [lia|]. split; [|by apply (vi_ref16 _ _ _ _ Hi)]. intros Hz'.
      rewrite Hz by lia. case_decide; [congruence | done].
  - intros p Hlim. case_decide; [done|]. destruct (vi_lim _ _ _ _ Hi p Hlim) as [? ?].
    rewrite Huc. split; [done|]. case_decide; [congruence | lia].
Qed.

(** Rewriting the permissions of a slot that keeps its page. *)
Lemma remap_inv s s' dirs rl lim d i j t pp v :
  vm_inv s dirs rl lim -> d ∈ dirs -> 0 <= i < NUPDE -> 0 <= j < NPTENTRIES ->
  pt_of (mem s) d i = Some t -> upage (mem s) d i j = Some pp ->
  ent v = Some pp -> 0 <= v < 2 ^ 32 ->
  mem s' = st32 (mem s) (kva t + 4 * j) v -> npages s' = npages s ->
  pages s' = pages s -> page_free_list s' = page_free_list s ->
  vm_inv s' dirs rl lim.
Proof.
  intros Hi Hd Hir Hj Ht Hold Hent Hv Hm Hn Hp Hf.
  destruct (slot_store _ _ _ _ _ _ _ _ _ _ Hi Hd Hir Hj Ht Hv Hm) as (Hpt & Hnew & Hoth).
  assert (Hup : forall d' i' j', d' ∈ dirs -> 0 <= i' < NUPDE -> 0 <= j' < NPTENTRIES ->
     upage (mem s') d' i' j' = upage (mem s) d' i' j').
  { intros d' i' j' Hd' Hi' Hj'. destruct (decide ((d', i', j') = (d, i, j))) as [Heq | Hne].
    - injection Heq as -> -> ->. rewrite (upage_upte _ _ _ _ _ Hnew). congruence.
    - unfold upage. rewrite Hoth by done. done. }
  assert (Huc : forall p, ucount (mem s') dirs p = ucount (mem s) dirs p).
  { intros p. apply ucount_ext. intros. rewrite Hup by done. done. }
  eapply (vm_inv_user s s' dirs rl rl); try done; rewrite ?Hp; auto.
  - eapply free_ok_keep; [apply Hi | done | by rewrite Hp | done].
  - apply Hi.
  - intros d' i' j' p Hd' Hi' Hj' Hu. rewrite Hup in Hu by done. eauto using vi_user.
  - intros p Hr. rewrite Huc. destruct (vi_user_ref _ _ _ _ Hi p Hr).
    split; [done|]. split; [done|]. by apply (vi_ref16 _ _ _ _ Hi).
  - intros p. rewrite Huc. apply Hi.
Qed.

(** What [page_decref] leaves in the page array and the free list. *)
Definition decref_pages (s : kst) (q : Z) : gmap Z PageInfo :=
  let r := pp_ref (pages s !!! q) in
  <[q := if r =? 1 then {| pp_link := page_free_list s; pp_ref := 0 |}
         else {| pp_link := pp_link (pages s !!! q); pp_ref := r - 1 |}]> (pages s).
Definition decref_free (s : kst) (q : Z) : option Z :=
  if pp_ref (pages s !!! q) =? 1 then Some q else page_free_list s.

(** Removing the mapping of [q] from a slot: the page is freed exactly when that
    was its last mapping. *)
Lemma unmap_inv s s' dirs rl lim d i j t q :
  vm_inv s dirs rl lim -> d ∈ dirs -> 0 <= i < NUPDE -> 0 <= j < NPTENTRIES ->
  pt_of (mem s) d i = Some t -> upage (mem s) d i j = Some q ->
  mem s' = st32 (mem s) (kva t + 4 * j) 0 -> npages s' = npages s ->
  pages s' = decref_pages s q -> page_free_list s' = decref_free s q ->
  vm_inv s' dirs (if pp_ref (pages s !!! q) =? 1 then set_role rl q RFree else rl) lim.
Proof.
  intros Hi Hd Hir Hj Ht Hold Hm Hn Hp Hf.
  destruct (slot_store _ _ _ _ _ _ _ _ _ 0 Hi Hd Hir Hj Ht ltac:(lia) Hm) as (Hpt & Hnew & Hoth).
  pose proof (vi_user _ _ _ _ Hi _ _ _ _ Hd Hir Hj Hold) as Hrq.
  pose proof (upage_upte _ _ _ _ _ Hnew) as Hnew'. rewrite ent_0 in Hnew'.
  assert (Hup : forall d' i' j', d' ∈ dirs -> 0 <= i' < NUPDE -> 0 <= j' < NPTENTRIES ->
     (d', i', j') <> (d, i, j) -> upage (mem s) d' i' j' = upage (mem s') d' i' j').
  { intros. unfold upage. rewrite Hoth by done. done. }
  assert (Huc : forall p, ucount (mem s') dirs p =
                  ucount (mem s) dirs p - (if decide (q = p) then 1 else 0)).
  { intros p. pose proof (ucount_change (mem s) (mem s') dirs d i j p
      (vi_nodup _ _ _ _ Hi) Hd Hir Hj Hup) as Hc.
    rewrite Hold, Hnew' in Hc. destruct (decide (q = p)); repeat case_decide; try lia; congruence. }
  destruct (vi_user_ref _ _ _ _ Hi q Hrq) as [Hrefq _].
  pose proof (ucount_pos _ _ _ _ _ _ Hd Hir Hj Hold) as Hpos.
  assert (Hqlim : lim <> Some q).
  { intros Hlim. destruct (vi_lim _ _ _ _ Hi q Hlim). lia. }
  unfold decref_pages, decref_free in *.
  destruct (Z.eqb_spec (pp_ref (pages s !!! q)) 1) as [H1 | H1].
  - eapply (vm_inv_user s s' dirs rl); rewrite ?Hp; try done.
    + intros p. unfold set_role. destruct (Z.eqb_spec p q) as [-> | ?]; auto.
    + intros p ? ?. rewrite lookup_total_insert_ne; [done | congruence].
    + eapply free_ok_push; eauto using vi_free; congruence.
    + intros p. unfold set_role. destruct (Z.eqb_spec p q) as [-> | ?].
      * rewrite lookup_total_insert_eq. done.
      * rewrite lookup_total_insert_ne by done. apply Hi.
    + intros d' i' j' p Hd' Hi' Hj' Hu.
      destruct (decide ((d', i', j') = (d, i, j))) as [Heq | Hne]; [injection Heq as -> -> ->; congruence|].
      rewrite <- Hup in Hu by done. rewrite set_role_ne; [eauto using vi_user|].
      intros ->. rewrite Hup in Hu by done.
      pose proof (ucount_pos _ _ _ _ _ _ Hd' Hi' Hj' Hu) as Hpos'. rewrite Huc in Hpos'.
      rewrite decide_True in Hpos' by done. lia.
    + intros p. unfold set_role. destruct (Z.eqb_spec p q) as [-> | Hne]; [done|]. intros Hrp.
      rewrite lookup_total_insert_ne by done. rewrite Huc, decide_False, Z.sub_0_r by done.
      destruct (vi_user_ref _ _ _ _ Hi p Hrp). eauto using vi_ref16.
    + intros p Hlim. destruct (vi_lim _ _ _ _ Hi p Hlim). rewrite Huc.
      rewrite set_role_ne, decide_False by congruence. split; [done | lia].
  - eapply (vm_inv_user s s' dirs rl rl); rewrite ?Hp; try done.
    + auto.
    + intros p ? ?. rewrite lookup_total_insert_ne; [done | congruence].
    + eapply free_ok_keep; [apply Hi | done | | done].
      intros p Hpf. rewrite Hp, lookup_total_insert_ne; [done | congruence].
    + intros p Hrp. rewrite lookup_total_insert_ne by congruence. by apply (vi_free_ref _ _ _ _ Hi).
    + intros d' i' j' p Hd' Hi' Hj' Hu.
      destruct (decide ((d', i', j') = (d, i, j))) as [Heq | Hne]; [injection Heq as -> -> ->; congruence|].
      rewrite <- Hup in Hu by done. eauto using vi_user.
    + intros p Hrp. destruct (vi_user_ref _ _ _ _ Hi p Hrp) as [Hr Hz]. rewrite Huc.
      pose proof (vi_ref16 _ _ _ _ Hi p Hrp).
      destruct (decide (q = p)) as [<- | Hne].
      * rewrite lookup_total_insert_eq. simpl. lia.
      * rewrite lookup_total_insert_ne by done. rewrite Z.sub_0_r. done.
    + intros p Hlim. destruct (vi_lim _ _ _ _ Hi p Hlim). rewrite Huc.
      rewrite decide_False by congruence. split; [done | lia].
Qed.
