(* ===== verification/VmSpec.v ===== *)
(** * What the page-table operations of [kern/pmap.c] do

    Specifications of [pgdir_walk], [page_lookup], [page_remove] and
    [page_insert] on user addresses, against the view of an address space as a
    partial map from virtual pages to PTEs.  Each theorem covers success and
    failure, and states what is left unchanged. *)

From S2P Require Import Prelude Mem CString Mmu KState Pmap VmInv.

(** ** The user-visible map of a directory *)

(** The PTE of a user slot, when it is present. *)
Definition umap (m : memory) (d i j : Z) : option Z :=
  match upte m d i j with
  | Some v => if has v PTE_P then Some v else None
  | None => None
  end.

(** The PTE that maps user address [va] in directory [d]. *)
Definition aspace (m : memory) (d va : Z) : option Z := umap m d (PDX va) (PTX va).

Lemma upage_umap m d i j : upage m d i j = (fun v => v / PGSIZE) <$> umap m d i j.
Proof.
  unfold upage, umap, ent. destruct (upte m d i j); [|done]. destruct (has z PTE_P); done.
Qed.
Lemma umap_None m d i j : umap m d i j = None <-> upage m d i j = None.
Proof. rewrite upage_umap. destruct (umap m d i j); split; done. Qed.
Lemma umap_upte m d i j v : upte m d i j = Some v ->
  umap m d i j = if has v PTE_P then Some v else None.
Proof. unfold umap. intros ->. done. Qed.

(** Everything but the page array, the memory and the TLBs is the same. *)
Definition vm_frame (s s' : kst) : Prop :=
  exists m ps fl cs,
    s' = s <| mem := m |> <| pages := ps |> <| page_free_list := fl |> <| cpus := cs |> /\
    (forall c, (cs !!! c) <| cpu_tlb := ∅ |> = (cpus s !!! c) <| cpu_tlb := ∅ |>).

#[export] Instance vm_frame_refl : Reflexive vm_frame.
Proof. intros s. exists (mem s), (pages s), (page_free_list s), (cpus s). by destruct s. Qed.
#[export] Instance vm_frame_trans : Transitive vm_frame.
Proof.
  intros s1 s2 s3 (m & ps & fl & cs & -> & H1) (m' & ps' & fl' & cs' & -> & H2).
  exists m', ps', fl', cs'. split; [done|]. intros c. rewrite H2. simpl. apply H1.
Qed.

Lemma vm_frame_vm s m ps fl :
  vm_frame s (s <| mem := m |> <| pages := ps |> <| page_free_list := fl |>).
Proof. exists m, ps, fl, (cpus s). split; [by destruct s | done]. Qed.

Lemma vm_frame_intro s s' :
  s' = s <| mem := mem s' |> <| pages := pages s' |> <| page_free_list := page_free_list s' |> ->
  vm_frame s s'.
Proof. intros ->. apply vm_frame_vm. Qed.

Lemma vm_frame_tlb d va s : vm_frame s (tlb_flush d va s).
Proof.
  assert (H : vm_frame s (set_thiscpu (fun c => c <| cpu_tlb := delete (PGNUM va) (cpu_tlb c) |>) s)).
  { eexists (mem s), (pages s), (page_free_list s), _. split; [by destruct s|].
    intros c. destruct (decide (c = cpunum s)) as [-> | Hne].
    - rewrite lookup_total_insert_eq. done.
    - rewrite lookup_total_insert_ne by done. done. }
  unfold tlb_flush. destruct (curenv s); [case_bool; done|done].
Qed.

(** The memory of pages that are neither tables nor free. *)
Definition keeps_data (rl : Z -> role) (s s' : kst) : Prop :=
  forall p k, rl p = RUser \/ rl p = RKernel -> 0 <= k < 1024 ->
    word (mem s') p k = word (mem s) p k.

(** The kernel half of every directory. *)
Definition keeps_khalf (dirs : list Z) (s s' : kst) : Prop :=
  forall d w, d ∈ dirs -> NUPDE <= w < 1024 -> word (mem s') d w = word (mem s) d w.

(** Page-directory entries restrict nothing: what they point to may be read and written
    from user mode as far as the page-table entries allow. *)
Definition pde_user (dirs : list Z) (s : kst) : Prop :=
  forall d i, d ∈ dirs -> 0 <= i < NUPDE -> has (word (mem s) d i) PTE_P = true ->
    has (word (mem s) d i) PTE_U = true /\ has (word (mem s) d i) PTE_W = true.
Lemma pde_user_keep dirs s s' :
  (forall d w, d ∈ dirs -> 0 <= w < NUPDE -> word (mem s') d w = word (mem s) d w) ->
  pde_user dirs s -> pde_user dirs s'.
Proof. intros H Hp d i Hd Hi. rewrite H by done. by apply Hp. Qed.

(** The same user mappings everywhere except at one slot. *)
Definition same_umap_but (dirs : list Z) (s s' : kst) (x : Z * Z * Z) : Prop :=
  forall d i j, d ∈ dirs -> 0 <= i < NUPDE -> 0 <= j < NPTENTRIES -> (d, i, j) <> x ->
    umap (mem s') d i j = umap (mem s) d i j.

Lemma PDX_user va : 0 <= va < UTOP -> 0 <= PDX va < NUPDE.
Proof.
  intros H. assert (va < 2 ^ 32) by (change UTOP with 4005560320 in H; lia).
  rewrite PDX_div by lia. rewrite NUPDE_val. change UTOP with 4005560320 in H.
  change PTSIZE with 4194304. zlia.
Qed.

Lemma load_word s p k : load32 (kva p + 4 * k) s = Ret (word (mem s) p k) s.
Proof. done. Qed.

(** ** [pgdir_walk] *)

Section specs.
Context (s : kst) (dirs : list Z) (rl : Z -> role) (lim : option Z).
Context (Hi : vm_inv s dirs rl lim).
Context (d va : Z) (Hd : d ∈ dirs) (Hva : 0 <= va < UTOP).

Let i := PDX va.
Let j := PTX va.
Local Lemma Hir : 0 <= i < NUPDE.
Proof. by apply PDX_user. Qed.
Local Lemma Hjr : 0 <= j < NPTENTRIES.
Proof. apply PTX_range. Qed.

Lemma walk_present t create :
  pt_of (mem s) d i = Some t ->
  pgdir_walk (kva d) va create s = Ret (Some (kva t + 4 * j)) s.
Proof.
  intros Ht. pose proof (vi_pt _ _ _ _ Hi _ _ _ Hd Hir Ht) as Hrt.
  pose proof (vi_range _ _ _ _ Hi t ltac:(congruence)) as Htr.
  pose proof (vi_npages _ _ _ _ Hi). unfold pt_of in Ht.
  pose proof (proj1 (proj1 (ent_Some _ _) Ht)) as HP.
  unfold pgdir_walk. cbv zeta. fold i. fold j.
  krw (load_word s d i). rewrite HP. cbn [negb]. rewrite bind_mret. cbn [negb].
  krw (load_word s d i). krw (KADDR_ent s _ t Ht Htr ltac:(lia)). done.
Qed.

Lemma walk_absent :
  pt_of (mem s) d i = None -> pgdir_walk (kva d) va false s = Ret None s.
Proof.
  intros Ht. unfold pt_of, ent in Ht. unfold pgdir_walk. cbv zeta. fold i.
  krw (load_word s d i). destruct (has (word (mem s) d i) PTE_P); done.
Qed.

Lemma walk_nomem :
  pt_of (mem s) d i = None -> page_free_list s = None ->
  pgdir_walk (kva d) va true s = Ret None s.
Proof.
  intros Ht Hf. unfold pt_of, ent in Ht. unfold pgdir_walk. cbv zeta. fold i.
  krw (load_word s d i). destruct (has (word (mem s) d i) PTE_P); [done|]. cbn [negb].
  erewrite bind_run; [|krw (page_alloc_none s ALLOC_ZERO Hf); reflexivity]. done.
Qed.

(** The state in which [pgdir_walk] has added a page table taken from [p]. *)
Definition after_new_pt (p : Z) : kst :=
  s <| mem := st32 (memset (mem s) (kva p) 0 PGSIZE) (kva d + 4 * i) (mkpte (p * PGSIZE) 6) |>
    <| pages := <[p := {| pp_link := None; pp_ref := 1 |}]> (pages s) |>
    <| page_free_list := pp_link (pages s !!! p) |>.

Lemma after_new_pt_inv p :
  pt_of (mem s) d i = None -> page_free_list s = Some p ->
  vm_inv (after_new_pt p) dirs (set_role rl p (RPT d i)) lim /\
  pt_of (mem (after_new_pt p)) d i = Some p /\
  (forall d' i' j', d' ∈ dirs -> 0 <= i' < NUPDE -> 0 <= j' < NPTENTRIES ->
     umap (mem (after_new_pt p)) d' i' j' = umap (mem s) d' i' j').
Proof.
  intros Ht Hf.
  destruct (new_pt_inv s (after_new_pt p) dirs rl lim d i p Hi Hf Hd Hir Ht)
    as (Hinv & Hpt & Hold & Hnew); try done.
  split; [exact Hinv|]. split; [exact Hpt|].
  intros d' i' j' Hd' Hi' Hj'. destruct (decide ((d', i') = (d, i))) as [Heq | Hne].
  - injection Heq as -> ->. rewrite (umap_upte _ _ _ _ _ (Hnew j' Hj')).
    unfold umap, upte. rewrite Ht. done.
  - unfold umap. rewrite Hold by done. done.
Qed.

Lemma walk_create p :
  pt_of (mem s) d i = None -> page_free_list s = Some p ->
  pgdir_walk (kva d) va true s = Ret (Some (kva p + 4 * j)) (after_new_pt p).
Proof.
  intros Ht Hf. destruct (vi_head _ _ _ _ _ Hi Hf) as (Hrp & Hpr).
  pose proof (vi_npages _ _ _ _ Hi) as Hnp.
  destruct (after_new_pt_inv p Ht Hf) as (Hinv & Hpt & _).
  pose proof Hpt as Hpt'. unfold pt_of, ent in Ht. unfold pgdir_walk. cbv zeta. fold i. fold j.
  krw (load_word s d i). destruct (has (word (mem s) d i) PTE_P) eqn:HP; [done|]. cbn [negb].
  erewrite (bind_run _ _ _ true (after_new_pt p)).
  - cbn [negb]. krw (load_word (after_new_pt p) d i).
    assert (0 <= p < npages (after_new_pt p)) as Hpr' by exact Hpr.
    krw (KADDR_ent (after_new_pt p) _ p Hpt' Hpr' ltac:(simpl; lia)). done.
  - krw (page_alloc_some s ALLOC_ZERO p Hf Hpr ltac:(lia)).
    erewrite bind_run; [|apply page_incref_run; simpl; rewrite lookup_total_insert_eq; simpl; lia].
    unfold store32. rewrite bind_modify. unfold mret, K_ret. f_equal.
    unfold after_new_pt, after_alloc. simpl.
    rewrite lookup_total_insert_eq, insert_insert_eq. simpl.
    rewrite page2pa_eq by lia. unfold mkpte. 
    replace (Z.lor (Z.lor (Z.lor (p * PGSIZE) PTE_P) PTE_W) PTE_U)
      with (Z.lor (Z.lor (p * PGSIZE) 6) PTE_P); [done|].
    rewrite <- !Z.lor_assoc. done.
Qed.

(** Tables and directories are the only pages a new page table disturbs. *)
Lemma after_new_pt_data p :
  page_free_list s = Some p -> keeps_data rl s (after_new_pt p).
Proof.
  intros Hf q k Hq Hk. destruct (vi_head _ _ _ _ _ Hi Hf) as (Hrp & Hpr).
  pose proof (vi_npages _ _ _ _ Hi). pose proof Hir as Hir. rewrite NUPDE_val in Hir.
  simpl. rewrite word_new_pt.
  - rewrite (proj2 (Z.eqb_neq q d)), (proj2 (Z.eqb_neq q p)); [done | |].
    + destruct Hq; congruence.
    + apply (vi_dirs _ _ _ _ Hi) in Hd. destruct Hq; congruence.
  - lia.
  - done.
  - apply mkpte_range; unfold PGSIZE; [lia | apply Z.mod_mul; lia | lia].
Qed.

Lemma after_new_pt_khalf p :
  page_free_list s = Some p -> keeps_khalf dirs s (after_new_pt p).
Proof.
  intros Hf q k Hq Hk. destruct (vi_head _ _ _ _ _ Hi Hf) as (Hrp & Hpr).
  pose proof (vi_npages _ _ _ _ Hi). pose proof Hir as Hir. rewrite NUPDE_val in Hir, Hk.
  simpl. rewrite word_new_pt.
  - rewrite (proj2 (Z.eqb_neq k i)), andb_false_r by lia.
    rewrite (proj2 (Z.eqb_neq q p)); [done|].
    apply (vi_dirs _ _ _ _ Hi) in Hq. congruence.
  - lia.
  - lia.
  - apply mkpte_range; unfold PGSIZE; [lia | apply Z.mod_mul; lia | lia].
Qed.

Lemma after_new_pt_pde p :
  page_free_list s = Some p -> pde_user dirs s -> pde_user dirs (after_new_pt p).
Proof.
  intros Hf Hp q k Hq Hk. destruct (vi_head _ _ _ _ _ Hi Hf) as (Hrp & Hpr).
  pose proof (vi_npages _ _ _ _ Hi). pose proof Hir as Hir. rewrite NUPDE_val in Hir, Hk.
  simpl. rewrite word_new_pt.
  - destruct ((q =? d) && (k =? i)).
    + intros _. change PTE_U with (2 ^ 2). change PTE_W with (2 ^ 1).
      rewrite !has_mkpte by (lia || apply Z.mod_mul; done). done.
    + rewrite (proj2 (Z.eqb_neq q p)); [by apply Hp|].
      apply (vi_dirs _ _ _ _ Hi) in Hq. congruence.
  - lia.
  - lia.
  - apply mkpte_range; unfold PGSIZE; [lia | apply Z.mod_mul; lia | lia].
Qed.

Lemma after_new_pt_frame p : vm_frame s (after_new_pt p).
Proof. apply vm_frame_vm. Qed.

(** ** [page_lookup] *)

(** The slot of [va]: its table, if any, and the entry in it. *)
Lemma umap_pt v : umap (mem s) d i j = Some v ->
  exists t, pt_of (mem s) d i = Some t /\ word (mem s) t j = v /\ has v PTE_P = true.
Proof.
  unfold umap, upte. destruct (pt_of (mem s) d i) as [t|]; [|done]. intros H.
  destruct (has (word (mem s) t j) PTE_P) eqn:E; [|done]. injection H as <-. eauto.
Qed.

Lemma page_lookup_none : umap (mem s) d i j = None -> page_lookup (kva d) va s = Ret None s.
Proof.
  intros H. unfold page_lookup. destruct (pt_of (mem s) d i) as [t|] eqn:Et.
  - krw (walk_present t false Et). krw (load_word s t j).
    unfold umap, upte in H. rewrite Et in H.
    destruct (has (word (mem s) t j) PTE_P); done.
  - krw (walk_absent Et). done.
Qed.

Lemma page_lookup_some v t :
  umap (mem s) d i j = Some v -> pt_of (mem s) d i = Some t ->
  page_lookup (kva d) va s = Ret (Some (v / PGSIZE, kva t + 4 * j)) s.
Proof.
  intros H Ht. destruct (umap_pt v H) as (t' & Ht' & Hw & HP).
  assert (t' = t) as -> by congruence.
  assert (Hu : upage (mem s) d i j = Some (v / PGSIZE)) by (rewrite upage_umap, H; done).
  pose proof (vi_user _ _ _ _ Hi _ _ _ _ Hd Hir Hjr Hu) as Hr.
  pose proof (vi_range _ _ _ _ Hi _ ltac:(rewrite Hr; done)) as Hrange.
  pose proof (vi_npages _ _ _ _ Hi).
  unfold page_lookup. krw (walk_present t false Ht). krw (load_word s t j). rewrite Hw, HP.
  cbn [negb]. assert (He : ent v = Some (v / PGSIZE)) by (apply ent_Some; done).
  krw (pa2page_ent s v _ He Hrange ltac:(lia)). done.
Qed.

(** ** [page_remove] *)

(** The state after the mapping [v] at entry [j] of table [t] is removed. *)
Definition after_remove (t q : Z) : kst :=
  let s1 := tlb_flush (kva d) va (s <| mem := st32 (mem s) (kva t + 4 * j) 0 |>) in
  s1 <| pages := decref_pages s q |> <| page_free_list := decref_free s q |>.

Lemma page_remove_none : umap (mem s) d i j = None -> page_remove (kva d) va s = Ret tt s.
Proof. intros H. unfold page_remove. krw (page_lookup_none H). done. Qed.

Lemma page_remove_some v t :
  umap (mem s) d i j = Some v -> pt_of (mem s) d i = Some t ->
  page_remove (kva d) va s = Ret tt (after_remove t (v / PGSIZE)).
Proof.
  intros H Ht.
  assert (Hu : upage (mem s) d i j = Some (v / PGSIZE)) by (rewrite upage_umap, H; done).
  pose proof (vi_user _ _ _ _ Hi _ _ _ _ Hd Hir Hjr Hu) as Hr.
  destruct (vi_user_ref _ _ _ _ Hi _ Hr) as [Hcnt _].
  pose proof (ucount_pos _ _ _ _ _ _ Hd Hir Hjr Hu) as Hpos.
  pose proof (vi_ref16 _ _ _ _ Hi _ Hr) as Href.
  unfold page_remove. krw (page_lookup_some v t H Ht).
  unfold store32. rewrite bind_modify. krw (tlb_invalidate_run
    (s <| mem := st32 (mem s) (kva t + 4 * j) 0 |>) (kva d) va).
  unfold after_remove, decref_pages, decref_free.
  set (s1 := tlb_flush (kva d) va (s <| mem := st32 (mem s) (kva t + 4 * j) 0 |>)).
  assert (Heq : pages s1 = pages s /\ page_free_list s1 = page_free_list s).
  { destruct (vm_eq_tlb (kva d) va (s <| mem := st32 (mem s) (kva t + 4 * j) 0 |>)).
    split; done. }
  destruct Heq as [Hp1 Hf1].
  rewrite page_decref_run by (rewrite Hp1; lia). rewrite Hp1, Hf1.
  f_equal. destruct (pp_ref (pages s !!! (v / PGSIZE)) =? 1); [done|].
  rewrite <- Hf1. by destruct s1.
Qed.

Lemma after_remove_inv v t :
  umap (mem s) d i j = Some v -> pt_of (mem s) d i = Some t ->
  let q := v / PGSIZE in
  let s' := after_remove t q in
  vm_inv s' dirs (if pp_ref (pages s !!! q) =? 1 then set_role rl q RFree else rl) lim /\
  pt_of (mem s') d i = Some t /\
  umap (mem s') d i j = None /\ same_umap_but dirs s s' (d, i, j) /\
  keeps_data rl s s' /\ keeps_khalf dirs s s' /\ vm_frame s s' /\
  (pde_user dirs s -> pde_user dirs s').
Proof.
  intros H Ht q s'.
  assert (Hu : upage (mem s) d i j = Some q) by (rewrite upage_umap, H; done).
  pose proof (vm_eq_tlb (kva d) va (s <| mem := st32 (mem s) (kva t + 4 * j) 0 |>)) as Htlb.
  assert (Hm : mem s' = st32 (mem s) (kva t + 4 * j) 0) by exact (ve_mem _ _ Htlb).
  assert (Hn : npages s' = npages s) by exact (ve_npages _ _ Htlb).
  destruct (slot_store _ _ _ _ _ _ _ _ _ 0 Hi Hd Hir Hjr Ht ltac:(lia) Hm)
    as (Hpt & Hnew & Hoth).
  split; [eapply unmap_inv; eauto using Hir, Hjr; done|].
  split; [rewrite Hpt by (done || apply Hir); done|].
  split; [rewrite (umap_upte _ _ _ _ _ Hnew); done|].
  split; [intros d' i' j' ? ? ? ?; unfold umap; rewrite Hoth by done; done|].
  split.
  { intros p k Hp Hk. rewrite Hm. pose proof Hjr as Hj. unfold NPTENTRIES in Hj.
    rewrite word_st32 by lia.
    pose proof (vi_pt _ _ _ _ Hi _ _ _ Hd Hir Ht).
    rewrite (proj2 (Z.eqb_neq p t)); [done|]. destruct Hp; congruence. }
  split.
  { intros p k Hp Hk. rewrite Hm. pose proof Hjr as Hj. unfold NPTENTRIES in Hj.
    rewrite NUPDE_val in Hk. rewrite word_st32 by lia.
    pose proof (vi_pt _ _ _ _ Hi _ _ _ Hd Hir Ht). apply (vi_dirs _ _ _ _ Hi) in Hp.
    rewrite (proj2 (Z.eqb_neq p t)); [done | congruence]. }
  split.
  { unfold s', after_remove. set (s0 := s <| mem := _ |>). set (s1 := tlb_flush _ _ s0).
    transitivity s0; [|transitivity s1; [apply vm_frame_tlb|]].
    - apply vm_frame_intro. by destruct s.
    - apply vm_frame_intro. by destruct s1. }
  apply pde_user_keep. intros p k Hp Hk. rewrite Hm. pose proof Hjr as Hj. unfold NPTENTRIES in Hj.
  rewrite NUPDE_val in Hk. rewrite word_st32 by lia.
  pose proof (vi_pt _ _ _ _ Hi _ _ _ Hd Hir Ht). apply (vi_dirs _ _ _ _ Hi) in Hp.
  rewrite (proj2 (Z.eqb_neq p t)); [done | congruence].
Qed.

(** ** [page_insert] *)

(** The state after [pp] is entered in entry [j] of table [t], with one more
    reference unless it was mapped there already. *)
Definition after_install (t pp perm : Z) : kst :=
  tlb_flush (kva d) va
    (s <| pages := <[pp := {| pp_link := pp_link (pages s !!! pp);
                              pp_ref := pp_ref (pages s !!! pp) + 1 |}]> (pages s) |>
       <| mem := st32 (mem s) (kva t + 4 * j) (mkpte (pp * PGSIZE) perm) |>).
Definition after_remap (t pp perm : Z) : kst :=
  tlb_flush (kva d) va
    (s <| mem := st32 (mem s) (kva t + 4 * j) (mkpte (pp * PGSIZE) perm) |>).

Context (pp perm : Z) (Hperm : 0 <= perm < PGSIZE) (Hpp : rl pp = RUser).

Local Lemma Hppr : 0 <= pp < npages s /\ npages s <= 2 ^ 16.
Proof. split; [apply (vi_range _ _ _ _ Hi); congruence | apply Hi]. Qed.
Local Lemma Hpte : 0 <= mkpte (pp * PGSIZE) perm < 2 ^ 32.
Proof.
  pose proof Hppr. apply mkpte_range; [done | by apply Z.mod_mul | unfold PGSIZE; lia].
Qed.
Local Lemma Hpte_ent : ent (mkpte (pp * PGSIZE) perm) = Some pp.
Proof. pose proof Hppr. apply ent_mkpte; [done | lia]. Qed.
Local Lemma Hpte_P : has (mkpte (pp * PGSIZE) perm) PTE_P = true.
Proof. apply has_P_mkpte. Qed.

(** What storing the new PTE in table [t] does, whatever was there. *)
Lemma pte_store_inv t m' :
  pt_of (mem s) d i = Some t ->
  m' = st32 (mem s) (kva t + 4 * j) (mkpte (pp * PGSIZE) perm) ->
  pt_of m' d i = Some t /\
  umap m' d i j = Some (mkpte (pp * PGSIZE) perm) /\
  (forall d' i' j', d' ∈ dirs -> 0 <= i' < NUPDE -> 0 <= j' < NPTENTRIES ->
     (d', i', j') <> (d, i, j) -> umap m' d' i' j' = umap (mem s) d' i' j') /\
  (forall p k, p <> t -> 0 <= k < 1024 -> word m' p k = word (mem s) p k).
Proof.
  intros Ht Hm.
  destruct (slot_store _ _ _ _ _ _ _ _ _ _ Hi Hd Hir Hjr Ht Hpte Hm) as (Hpt & Hnew & Hoth).
  split; [rewrite Hpt by (done || apply Hir); done|].
  split; [rewrite (umap_upte _ _ _ _ _ Hnew), Hpte_P; done|].
  split; [intros; unfold umap; rewrite Hoth by done; done|].
  intros p k Hp Hk. rewrite Hm. pose proof Hjr as Hj. unfold NPTENTRIES in Hj.
  rewrite word_st32 by lia. rewrite (proj2 (Z.eqb_neq p t)) by done. done.
Qed.

Lemma after_install_inv t :
  pt_of (mem s) d i = Some t -> umap (mem s) d i j = None ->
  pp_ref (pages s !!! pp) + 1 < 2 ^ 16 ->
  vm_inv (after_install t pp perm) dirs rl (if decide (lim = Some pp) then None else lim).
Proof.
  intros Ht Hno%umap_None H16. eapply vm_inv_eq; [apply vm_eq_tlb|].
  apply (map_inv s _ dirs rl lim d i j t pp (mkpte (pp * PGSIZE) perm));
    try done; auto using Hir, Hjr, Hpte, Hpte_ent.
Qed.

Lemma after_remap_inv t :
  pt_of (mem s) d i = Some t -> upage (mem s) d i j = Some pp ->
  vm_inv (after_remap t pp perm) dirs rl lim.
Proof.
  intros Ht Hu. eapply vm_inv_eq; [apply vm_eq_tlb|].
  apply (remap_inv s _ dirs rl lim d i j t pp (mkpte (pp * PGSIZE) perm));
    try done; auto using Hir, Hjr, Hpte, Hpte_ent.
Qed.

Lemma after_install_mem t :
  mem (after_install t pp perm) = st32 (mem s) (kva t + 4 * j) (mkpte (pp * PGSIZE) perm).
Proof. unfold after_install. rewrite (ve_mem _ _ (vm_eq_tlb _ _ _)). done. Qed.
Lemma after_remap_mem t :
  mem (after_remap t pp perm) = st32 (mem s) (kva t + 4 * j) (mkpte (pp * PGSIZE) perm).
Proof. unfold after_remap. rewrite (ve_mem _ _ (vm_eq_tlb _ _ _)). done. Qed.

Lemma after_install_frame t : vm_frame s (after_install t pp perm).
Proof.
  clear Hi. unfold after_install. etransitivity; [|apply vm_frame_tlb].
  apply vm_frame_intro. by destruct s.
Qed.
Lemma after_remap_frame t : vm_frame s (after_remap t pp perm).
Proof.
  clear Hi. unfold after_remap. etransitivity; [|apply vm_frame_tlb].
  apply vm_frame_intro. by destruct s.
Qed.

Lemma install_run t :
  0 <= pp_ref (pages s !!! pp) -> pp_ref (pages s !!! pp) + 1 < 2 ^ 16 ->
  (page_incref pp;; store32 (kva t + 4 * j) (mkpte (page2pa pp) perm);;
   tlb_invalidate (kva d) va;; mret 0) s = Ret 0 (after_install t pp perm).
Proof.
  intros Hr0 Hr. pose proof Hppr. krw (page_incref_run s pp Hr Hr0).
  rewrite page2pa_eq by lia. unfold store32. rewrite bind_modify.
  erewrite bind_run by apply tlb_invalidate_run. done.
Qed.
End specs.

Lemma mkpte_page p v : 0 <= p < 2 ^ 20 -> 0 <= v -> (PTE_ADDR v =? page2pa p) = (v / PGSIZE =? p).
Proof.
  intros. rewrite page2pa_eq, PTE_ADDR_div by lia. unfold PGSIZE.
  destruct (Z.eqb_spec (v / 4096) p), (Z.eqb_spec (v / 4096 * 4096) (p * 4096)); lia.
Qed.

(** Pages change hands only between free and used: directories, kernel pages and
    existing page tables stay what they are, and no page becomes a user page. *)
Record role_step (rl rl' : Z -> role) : Prop := {
  rs_fixed : forall p, rl p = RDir \/ rl p = RKernel -> rl' p = rl p;
  rs_table : forall p d i, rl p = RPT d i -> rl' p = RPT d i;
  rs_user : forall p, rl' p = RUser -> rl p = RUser }.

#[export] Instance role_step_refl : Reflexive role_step.
Proof. intros rl. constructor; auto. Qed.
#[export] Instance role_step_trans : Transitive role_step.
Proof.
  intros r1 r2 r3 [F1 T1 U1] [F2 T2 U2]. constructor; [|eauto..].
  intros p Hp. rewrite F2; [by apply F1|]. rewrite F1 by done. done.
Qed.

Lemma role_step_free rl q : rl q = RUser -> role_step rl (set_role rl q RFree).
Proof.
  intros Hq. constructor; unfold set_role; intros p; destruct (Z.eqb_spec p q) as [-> | ?];
    intros; try done; naive_solver congruence.
Qed.
Lemma role_step_table rl q d i : rl q = RFree -> role_step rl (set_role rl q (RPT d i)).
Proof.
  intros Hq. constructor; unfold set_role; intros p; destruct (Z.eqb_spec p q) as [-> | ?];
    intros; try done; naive_solver congruence.
Qed.

(** The contract of an operation that leaves [o] in one user slot. *)
Record slot_set (dirs : list Z) (rl rl' : Z -> role) (s s' : kst) (x : Z * Z * Z)
    (o : option Z) : Prop := {
  ss_umap : let '(d, i, j) := x in umap (mem s') d i j = o;
  ss_other : same_umap_but dirs s s' x;
  ss_data : keeps_data rl s s';
  ss_khalf : keeps_khalf dirs s s';
  ss_roles : role_step rl rl';
  ss_frame : vm_frame s s';
  ss_pde : pde_user dirs s -> pde_user dirs s' }.

Section insert.
Context (dirs : list Z) (d va pp perm : Z).
Context (Hd : d ∈ dirs) (Hva : 0 <= va < UTOP) (Hperm : 0 <= perm < PGSIZE).

Let i := PDX va.
Let j := PTX va.

(** Storing a PTE disturbs no data page. *)
Local Lemma store_keeps s rl lim t s' :
  vm_inv s dirs rl lim -> pt_of (mem s) d i = Some t ->
  (forall p k, p <> t -> 0 <= k < 1024 -> word (mem s') p k = word (mem s) p k) ->
  keeps_data rl s s'.
Proof.
  intros Hi Ht H p k Hp Hk. apply H; [|done]. intros ->.
  pose proof (vi_pt _ _ _ _ Hi _ _ _ Hd (Hir va Hva) Ht). destruct Hp; congruence.
Qed.

Local Lemma store_keeps_pde s rl lim t s' :
  vm_inv s dirs rl lim -> pt_of (mem s) d i = Some t ->
  (forall p k, p <> t -> 0 <= k < 1024 -> word (mem s') p k = word (mem s) p k) ->
  pde_user dirs s -> pde_user dirs s'.
Proof.
  intros Hi Ht H. apply pde_user_keep. intros p k Hp Hk. rewrite NUPDE_val in Hk. apply H; [|lia]. intros ->.
  pose proof (vi_pt _ _ _ _ Hi _ _ _ Hd (Hir va Hva) Ht).
  apply (vi_dirs _ _ _ _ Hi) in Hp. congruence.
Qed.

Local Lemma store_keeps_khalf s rl lim t s' :
  vm_inv s dirs rl lim -> pt_of (mem s) d i = Some t ->
  (forall p k, p <> t -> 0 <= k < 1024 -> word (mem s') p k = word (mem s) p k) ->
  keeps_khalf dirs s s'.
Proof.
  intros Hi Ht H p k Hp Hk. rewrite NUPDE_val in Hk. apply H; [|lia]. intros ->.
  pose proof (vi_pt _ _ _ _ Hi _ _ _ Hd (Hir va Hva) Ht).
  apply (vi_dirs _ _ _ _ Hi) in Hp. congruence.
Qed.

(** The slot is empty. *)
Lemma install_empty s rl lim t :
  vm_inv s dirs rl lim -> rl pp = RUser -> pp_ref (pages s !!! pp) + 1 < 2 ^ 16 ->
  pt_of (mem s) d i = Some t -> umap (mem s) d i j = None ->
  exists s',
    (page_incref pp;; store32 (kva t + 4 * j) (mkpte (page2pa pp) perm);;
     tlb_invalidate (kva d) va;; mret 0) s = Ret 0 s' /\
    vm_inv s' dirs rl (if decide (lim = Some pp) then None else lim) /\
    slot_set dirs rl rl s s' (d, i, j) (Some (mkpte (pp * PGSIZE) perm)) /\
    (forall p k, p <> t -> 0 <= k < 1024 -> word (mem s') p k = word (mem s) p k).
Proof.
  intros Hi Hpp Href Ht Hno. exists (after_install s d va t pp perm).
  assert (0 <= pp_ref (pages s !!! pp)).
  { destruct (vi_user_ref _ _ _ _ Hi pp Hpp) as [-> _]. apply ucount_nonneg. }
  destruct (pte_store_inv s dirs rl lim Hi d va Hd Hva pp perm Hperm Hpp t _ Ht
    (after_install_mem s d va pp perm t)) as (_ & Hnew & Hoth & Hdat).
  split; [by eapply install_run|]. split; [by eapply after_install_inv|].
  split; [|exact Hdat]. constructor; [done | exact Hoth | by eapply store_keeps | by eapply store_keeps_khalf | done | apply after_install_frame | by eapply store_keeps_pde].
Qed.

(** The slot holds [pp] already. *)
Lemma install_same s rl lim t :
  vm_inv s dirs rl lim -> rl pp = RUser ->
  pt_of (mem s) d i = Some t -> upage (mem s) d i j = Some pp ->
  exists s',
    (store32 (kva t + 4 * j) (mkpte (page2pa pp) perm);;
     tlb_invalidate (kva d) va;; mret 0) s = Ret 0 s' /\
    vm_inv s' dirs rl (if decide (lim = Some pp) then None else lim) /\
    slot_set dirs rl rl s s' (d, i, j) (Some (mkpte (pp * PGSIZE) perm)).
Proof.
  intros Hi Hpp Ht Hu. exists (after_remap s d va t pp perm).
  pose proof (Hppr s dirs rl lim Hi pp Hpp) as [Hppr Hnp].
  destruct (pte_store_inv s dirs rl lim Hi d va Hd Hva pp perm Hperm Hpp t _ Ht
    (after_remap_mem s d va pp perm t)) as (_ & Hnew & Hoth & Hdat).
  split.
  { unfold store32. rewrite page2pa_eq, bind_modify by lia.
    erewrite bind_run by apply tlb_invalidate_run. done. }
  split.
  - rewrite decide_False; [by eapply after_remap_inv|]. intros Hlim.
    destruct (vi_lim _ _ _ _ Hi _ Hlim) as [_ Hz].
    pose proof (ucount_pos _ _ _ _ _ _ Hd (Hir va Hva) (Hjr va) Hu). lia.
  - constructor; [done | exact Hoth | by eapply store_keeps | by eapply store_keeps_khalf | done | apply after_remap_frame | by eapply store_keeps_pde].
Qed.

(** The slot holds another page, which loses that mapping. *)
Lemma install_other s rl lim t v :
  vm_inv s dirs rl lim -> rl pp = RUser -> pp_ref (pages s !!! pp) + 1 < 2 ^ 16 ->
  pt_of (mem s) d i = Some t -> umap (mem s) d i j = Some v -> v / PGSIZE <> pp ->
  exists s' rl',
    (page_remove (kva d) va;;
     page_incref pp;; store32 (kva t + 4 * j) (mkpte (page2pa pp) perm);;
     tlb_invalidate (kva d) va;; mret 0) s = Ret 0 s' /\
    vm_inv s' dirs rl' (if decide (lim = Some pp) then None else lim) /\
    slot_set dirs rl rl' s s' (d, i, j) (Some (mkpte (pp * PGSIZE) perm)).
Proof.
  intros Hi Hpp Href Ht Hu Hne. set (q := v / PGSIZE) in *.
  krw (page_remove_some s dirs rl lim Hi d va Hd Hva v t Hu Ht).
  destruct (after_remove_inv s dirs rl lim Hi d va Hd Hva v t Hu Ht)
    as (Hi1 & Ht1 & Hno1 & Hoth1 & Hdat1 & Hkh1 & Hfr1 & Hpd1). fold q in Hi1, Ht1, Hno1, Hoth1, Hdat1, Hkh1, Hfr1, Hpd1.
  set (s1 := after_remove s d va t q) in *.
  set (rl1 := if pp_ref (pages s !!! q) =? 1 then set_role rl q RFree else rl) in *.
  assert (Hrq : rl q = RUser).
  { eapply (vi_user _ _ _ _ Hi d i j); eauto using Hir, Hjr. rewrite upage_umap. by rewrite Hu. }
  assert (Hstep : role_step rl rl1).
  { unfold rl1. case_bool; [by apply role_step_free | done]. }
  assert (Hpp1 : rl1 pp = RUser).
  { unfold rl1. case_bool; [|done]. rewrite set_role_ne; done. }
  assert (Href1 : pages s1 !!! pp = pages s !!! pp).
  { unfold s1, after_remove, decref_pages. simpl. rewrite lookup_total_insert_ne; done. }
  destruct (install_empty s1 rl1 lim t Hi1 Hpp1 ltac:(by rewrite Href1) Ht1 Hno1)
    as (s' & Hrun & Hi' & [Hnew Hoth Hdat Hkh Hrs Hfr Hpd] & Hw).
  exists s', rl1. split; [exact Hrun|]. split; [exact Hi'|].
  constructor; [done | | | | done | by transitivity s1 | by auto].
  - intros d' i' j' ? ? ? ?. rewrite Hoth, Hoth1; done.
  - intros p k Hp Hk. rewrite <- Hdat1 by done.
    apply Hw; [|done]. intros ->.
    pose proof (vi_pt _ _ _ _ Hi _ _ _ Hd (Hir va Hva) Ht). destruct Hp; congruence.
  - intros p k Hp Hk. rewrite Hkh, Hkh1; done.
Qed.

Lemma page_insert_table s rl lim t :
  vm_inv s dirs rl lim -> rl pp = RUser ->
  pp_ref (pages s !!! pp) + 1 < 2 ^ 16 ->
  pt_of (mem s) d i = Some t ->
  exists s' rl',
    page_insert (kva d) pp va perm s = Ret 0 s' /\
    vm_inv s' dirs rl' (if decide (lim = Some pp) then None else lim) /\
    slot_set dirs rl rl' s s' (d, i, j) (Some (mkpte (pp * PGSIZE) perm)).
Proof.
  intros Hi Hpp Hrefs Ht.
  pose proof (Hppr s dirs rl lim Hi pp Hpp) as [Hppr Hnp].
  unfold page_insert. krw (walk_present s dirs rl lim Hi d va Hd Hva t true Ht). fold i j.
  krw (load_word s t j). rewrite mkpte_page by (lia || apply word_bound).
  set (v := word (mem s) t j).
  assert (Hum : umap (mem s) d i j = if has v PTE_P then Some v else None).
  { unfold umap, upte. rewrite Ht. done. }
  destruct (has v PTE_P).
  - assert (Hu : upage (mem s) d i j = Some (v / PGSIZE)) by (rewrite upage_umap, Hum; done).
    destruct (Z.eqb_spec (v / PGSIZE) pp) as [Heq | Hne].
    + destruct (install_same s rl lim t Hi Hpp Ht ltac:(by rewrite Hu, Heq)) as (s' & ? & ? & ?).
      eauto.
    + eapply install_other; eauto.
  - destruct (install_empty s rl lim t Hi Hpp Hrefs Ht Hum) as (s' & ? & ? & ? & _). eauto.
Qed.

Lemma page_insert_nomem s rl lim :
  vm_inv s dirs rl lim -> pt_of (mem s) d i = None -> page_free_list s = None ->
  page_insert (kva d) pp va perm s = Ret (- E_NO_MEM) s.
Proof.
  intros Hi Ht Hf. unfold page_insert.
  krw (walk_nomem s d va Ht Hf). done.
Qed.

Lemma page_insert_spec s rl lim :
  vm_inv s dirs rl lim -> rl pp = RUser ->
  pp_ref (pages s !!! pp) + 1 < 2 ^ 16 ->
  (page_insert (kva d) pp va perm s = Ret (- E_NO_MEM) s /\
   pt_of (mem s) d i = None /\ page_free_list s = None) \/
  exists s' rl',
    page_insert (kva d) pp va perm s = Ret 0 s' /\
    vm_inv s' dirs rl' (if decide (lim = Some pp) then None else lim) /\
    slot_set dirs rl rl' s s' (d, i, j) (Some (mkpte (pp * PGSIZE) perm)).
Proof.
  intros Hi Hpp Hrefs. destruct (pt_of (mem s) d i) as [t|] eqn:Ht.
  { right. by eapply page_insert_table. }
  destruct (page_free_list s) as [p|] eqn:Hf; [right | left; eauto using page_insert_nomem].
  destruct (after_new_pt_inv s dirs rl lim Hi d va Hd Hva p Ht Hf) as (Hi1 & Ht1 & Hum1).
  destruct (vi_head _ _ _ _ _ Hi Hf) as (Hrp & Hpr).
  set (s1 := after_new_pt s d va p) in *. set (rl1 := set_role rl p (RPT d (PDX va))) in *.
  assert (Hrun : page_insert (kva d) pp va perm s = page_insert (kva d) pp va perm s1).
  { unfold page_insert. krw (walk_create s dirs rl lim Hi d va Hd Hva p Ht Hf).
    symmetry. krw (walk_present s1 dirs rl1 lim Hi1 d va Hd Hva p true Ht1). done. }
  assert (Hpp1 : rl1 pp = RUser) by (unfold rl1; rewrite set_role_ne; congruence).
  destruct (page_insert_table s1 rl1 lim p Hi1 Hpp1) as (s' & rl' & Hr & Hi' & [Hn Ho Hdt Hkh Hrs Hfr Hpd]);
    [|done|].
  { unfold s1, after_new_pt. simpl. rewrite lookup_total_insert_ne by congruence. done. }
  exists s', rl'. split; [by rewrite Hrun|]. split; [done|]. constructor; [done | | | | | |].
  - intros d' i' j' ? ? ? ?. rewrite Ho, Hum1; done.
  - intros q k Hq Hk. rewrite Hdt; [|unfold rl1; rewrite set_role_ne; [done | ] | done].
    + by eapply after_new_pt_data.
    + intros ->. destruct Hq; congruence.
  - intros q k Hq Hk. rewrite Hkh by done.
    by eapply after_new_pt_khalf.
  - etransitivity; [by apply (role_step_table rl p d (PDX va)) | exact Hrs].
  - etransitivity; [apply after_new_pt_frame | exact Hfr].
  - intros Hp. apply Hpd. by eapply after_new_pt_pde.
Qed.

Lemma page_remove_spec s rl lim :
  vm_inv s dirs rl lim ->
  exists s' rl',
    page_remove (kva d) va s = Ret tt s' /\ vm_inv s' dirs rl' lim /\
    slot_set dirs rl rl' s s' (d, i, j) None.
Proof.
  intros Hi. destruct (umap (mem s) d i j) as [v|] eqn:Hu.
  - destruct (umap_pt s d va v Hu) as (t & Ht & _).
    assert (Hup : upage (mem s) d i j = Some (v / PGSIZE)) by (rewrite upage_umap, Hu; done).
    pose proof (vi_user _ _ _ _ Hi _ _ _ _ Hd (Hir va Hva) (Hjr va) Hup) as Hr.
    destruct (after_remove_inv s dirs rl lim Hi d va Hd Hva v t Hu Ht)
      as (Hi1 & _ & Hno & Hoth & Hdat & Hkh & Hfr & Hpd).
    eexists _, _. split; [eapply page_remove_some; eauto|]. split; [exact Hi1|].
    constructor; [done | done | done | done | | done | done]. case_bool; [by apply role_step_free | done].
  - exists s, rl. split; [by eapply page_remove_none|]. split; [done|].
    constructor; done.
Qed.
End insert.
