(* ===== verification/VmLife.v ===== *)
(** * The life of a physical page

    How pages change roles outside [page_insert] and [page_remove]: a page is
    allocated and not mapped yet, given back, becomes the directory of a new
    address space, and the tables and the directory of a dying one are freed. *)

From S2P Require Import Prelude Mem CString Mmu KState Pmap VmInv VmSpec.

(** ** Allocated, not mapped yet *)

Definition alloc_mem (flags : Z) (m : memory) (p : Z) : memory :=
  if has flags ALLOC_ZERO then memset m (kva p) 0 PGSIZE else m.

Lemma after_alloc_mem flags s p : mem (after_alloc flags s p) = alloc_mem flags (mem s) p.
Proof. unfold after_alloc, alloc_mem. destruct (has flags ALLOC_ZERO); done. Qed.
Lemma after_alloc_pages flags s p :
  pages (after_alloc flags s p) = <[p := {| pp_link := None; pp_ref := 0 |}]> (pages s).
Proof. unfold after_alloc. destruct (has flags ALLOC_ZERO); done. Qed.
Lemma after_alloc_free flags s p :
  page_free_list (after_alloc flags s p) = pp_link (pages s !!! p).
Proof. unfold after_alloc. destruct (has flags ALLOC_ZERO); done. Qed.
Lemma after_alloc_npages flags s p : npages (after_alloc flags s p) = npages s.
Proof. unfold after_alloc. destruct (has flags ALLOC_ZERO); done. Qed.
Lemma after_alloc_frame flags s p : vm_frame s (after_alloc flags s p).
Proof. apply vm_frame_intro. unfold after_alloc. destruct (has flags ALLOC_ZERO); by destruct s. Qed.

(** Only the words of the allocated page change. *)
Lemma alloc_mem_word flags m p q k :
  0 <= k < 1024 ->
  word (alloc_mem flags m p) q k =
    if has flags ALLOC_ZERO && (q =? p) then 0 else word m q k.
Proof. intros. unfold alloc_mem. destruct (has flags ALLOC_ZERO); [by apply word_memset | done]. Qed.

(** User page tables are seen through pages of other roles only. *)
Section same_tables.
Context (s : kst) (m' : memory) (dirs : list Z) (rl : Z -> role) (lim : option Z).
Context (Hi : vm_inv s dirs rl lim).
Context (Hw : forall q k, (rl q = RDir \/ exists d i, rl q = RPT d i) -> 0 <= k < 1024 ->
  word m' q k = word (mem s) q k).

Lemma same_pt d i : d ∈ dirs -> 0 <= i < NUPDE -> pt_of m' d i = pt_of (mem s) d i.
Proof.
  intros Hd Hr. rewrite NUPDE_val in Hr. unfold pt_of. rewrite Hw; [done | | lia].
  left. by apply (vi_dirs _ _ _ _ Hi).
Qed.
Lemma same_upte d i j : d ∈ dirs -> 0 <= i < NUPDE -> 0 <= j < NPTENTRIES ->
  upte m' d i j = upte (mem s) d i j.
Proof.
  intros Hd Hir Hj. unfold upte. rewrite same_pt by done.
  destruct (pt_of (mem s) d i) as [t|] eqn:Et; [|done]. rewrite Hw; [done | | done].
  right. eauto using vi_pt.
Qed.
Lemma same_umap d i j : d ∈ dirs -> 0 <= i < NUPDE -> 0 <= j < NPTENTRIES ->
  umap m' d i j = umap (mem s) d i j.
Proof. intros. unfold umap. by rewrite same_upte. Qed.
Lemma same_upage d i j : d ∈ dirs -> 0 <= i < NUPDE -> 0 <= j < NPTENTRIES ->
  upage m' d i j = upage (mem s) d i j.
Proof. intros. unfold upage. by rewrite same_upte. Qed.
Lemma same_ucount p : ucount m' dirs p = ucount (mem s) dirs p.
Proof. apply ucount_ext. intros. rewrite same_upage by done. done. Qed.
End same_tables.

Lemma role_step_alloc rl q : rl q = RFree ->
  forall p, p <> q -> set_role rl q RUser p = rl p.
Proof. intros. by apply set_role_ne. Qed.

Lemma alloc_words flags s dirs rl lim p :
  vm_inv s dirs rl lim -> page_free_list s = Some p ->
  forall q k, (rl q = RDir \/ exists d i, rl q = RPT d i) -> 0 <= k < 1024 ->
    word (mem (after_alloc flags s p)) q k = word (mem s) q k.
Proof.
  intros Hi Hf q k Hq Hk. destruct (vi_head _ _ _ _ _ Hi Hf) as [Hrp _].
  rewrite after_alloc_mem, alloc_mem_word by done.
  rewrite (proj2 (Z.eqb_neq q p)); [by rewrite andb_false_r|].
  intros ->. destruct Hq as [? | (? & ? & ?)]; congruence.
Qed.

Lemma alloc_inv flags s dirs rl p :
  vm_inv s dirs rl None -> page_free_list s = Some p ->
  vm_inv (after_alloc flags s p) dirs (set_role rl p RUser) (Some p).
Proof.
  intros Hi Hf. destruct (vi_head _ _ _ _ _ Hi Hf) as [Hrp Hpr].
  pose proof (alloc_words flags s dirs rl None p Hi Hf) as Hw.
  pose proof (vi_ucount_dirs _ _ _ _ p Hi ltac:(congruence)) as Hp0.
  eapply (vm_inv_user s _ dirs rl); rewrite ?after_alloc_npages, ?after_alloc_pages; try done.
  - intros d i Hd Hir. by eapply same_pt.
  - intros q. unfold set_role. destruct (Z.eqb_spec q p) as [-> | ?]; auto.
  - intros q ? ?. rewrite lookup_total_insert_ne; [done | congruence].
  - eapply free_ok_pop; eauto using vi_free, after_alloc_free, after_alloc_pages.
  - intros q. unfold set_role. destruct (Z.eqb_spec q p) as [-> | ?]; [done|]. intros Hq.
    rewrite lookup_total_insert_ne by done. by apply (vi_free_ref _ _ _ _ Hi).
  - intros d i j q Hd Hir Hj Hu. erewrite same_upage in Hu by eauto.
    pose proof (vi_user _ _ _ _ Hi _ _ _ _ Hd Hir Hj Hu). rewrite set_role_ne; congruence.
  - intros q. erewrite same_ucount by eauto. unfold set_role.
    destruct (Z.eqb_spec q p) as [-> | ?]; intros Hq.
    + rewrite lookup_total_insert_eq. simpl. split; [done|]. split; [done | lia].
    + rewrite lookup_total_insert_ne by done. destruct (vi_user_ref _ _ _ _ Hi _ Hq) as [? Hz].
      split; [done|]. split; [|by eapply vi_ref16]. intros H0. by apply Hz in H0.
  - intros q Hq. injection Hq as <-. erewrite same_ucount by eauto. by rewrite set_role_eq.
Qed.

(** The page is given back, as after a failed [page_insert]. *)
Definition after_free (s : kst) (p : Z) : kst :=
  s <| pages := <[p := {| pp_link := page_free_list s; pp_ref := 0 |}]> (pages s) |>
    <| page_free_list := Some p |>.

Lemma free_limbo_run s dirs rl p :
  vm_inv s dirs rl (Some p) -> page_free p s = Ret tt (after_free s p).
Proof.
  intros Hi. destruct (vi_lim _ _ _ _ Hi p eq_refl) as [Hr H0].
  destruct (vi_user_ref _ _ _ _ Hi p Hr) as [H1 _]. apply page_free_run. lia.
Qed.

Lemma free_limbo_inv s dirs rl p :
  vm_inv s dirs rl (Some p) -> vm_inv (after_free s p) dirs (set_role rl p RFree) None.
Proof.
  intros Hi. destruct (vi_lim _ _ _ _ Hi p eq_refl) as [Hr H0].
  eapply (vm_inv_user s _ dirs rl); try done.
  - intros q. unfold set_role. destruct (Z.eqb_spec q p) as [-> | ?]; auto.
  - intros q ? ?. simpl. rewrite lookup_total_insert_ne; [done | congruence].
  - eapply (free_ok_push s); [apply Hi | congruence | done | done].
  - intros q. unfold set_role. simpl. destruct (Z.eqb_spec q p) as [-> | ?]; intros Hq.
    + by rewrite lookup_total_insert_eq.
    + rewrite lookup_total_insert_ne by done. by apply (vi_free_ref _ _ _ _ Hi).
  - intros d i j q Hd Hir Hj Hu. simpl in Hu.
    pose proof (ucount_pos _ _ _ _ _ _ Hd Hir Hj Hu). rewrite set_role_ne; [by eapply vi_user|].
    intros ->. lia.
  - intros q. unfold set_role. simpl. destruct (Z.eqb_spec q p) as [-> | ?]; intros Hq; [done|].
    rewrite lookup_total_insert_ne by done. destruct (vi_user_ref _ _ _ _ Hi _ Hq) as [? Hz].
    split; [done|]. split; [|by eapply vi_ref16]. intros Hz0. apply Hz in Hz0. congruence.
Qed.

(** Roles matter up to extensional equality. *)
Lemma vm_inv_roles s dirs rl rl' lim :
  (forall p, rl' p = rl p) -> vm_inv s dirs rl lim -> vm_inv s dirs rl' lim.
Proof.
  intros H Hi. constructor; try (intros *; rewrite ?H; apply Hi); try apply Hi.
  eapply free_ok_keep; [apply Hi | done | done |]. intros p. by rewrite H.
Qed.
Lemma set_role_twice rl p r1 r2 q : set_role rl p r2 q = set_role (set_role rl p r1) p r2 q.
Proof. unfold set_role. by destruct (q =? p). Qed.

(** ** Directories *)

Lemma slots_cons d dirs : slots (d :: dirs) = slots [d] ++ slots dirs.
Proof. unfold slots. rewrite !bind_cons, <- app_assoc. f_equal. Qed.

(** A directory with no user page table counts for nothing. *)
Lemma ucount_cons_empty m d dirs q :
  (forall i, 0 <= i < NUPDE -> pt_of m d i = None) ->
  ucount m (d :: dirs) q = ucount m dirs q.
Proof.
  intros H. unfold ucount. rewrite slots_cons, filter_app, length_app.
  rewrite (filter_length_zero _ (slots [d])); [done|].
  intros [[d' i] j] Hx. apply elem_of_slots in Hx as (Hd & Hi & Hj).
  apply list_elem_of_singleton in Hd as ->. simpl. unfold upage, upte. by rewrite H.
Qed.
Lemma ucount_del_empty m d dirs q :
  (forall i, 0 <= i < NUPDE -> pt_of m d i = None) ->
  ucount m (filter (.≠ d) dirs) q = ucount m dirs q.
Proof.
  intros H. induction dirs as [|x dirs IH]; [done|]. rewrite filter_cons.
  destruct (decide (x ≠ d)) as [Hx | ->%dec_stable].
  - unfold ucount in *. rewrite (slots_cons x), (slots_cons x dirs), !filter_app, !length_app. lia.
  - rewrite ucount_cons_empty by done. done.
Qed.

(** The limbo page [p] becomes a directory without user page tables. *)
Lemma dir_add_inv s s' dirs rl p :
  vm_inv s dirs rl (Some p) -> npages s' = npages s ->
  page_free_list s' = page_free_list s ->
  pages s' = <[p := {| pp_link := pp_link (pages s !!! p); pp_ref := 1 |}]> (pages s) ->
  (forall q k, q <> p -> 0 <= k < 1024 -> word (mem s') q k = word (mem s) q k) ->
  (forall i, 0 <= i < NUPDE -> pt_of (mem s') p i = None) ->
  vm_inv s' (p :: dirs) (set_role rl p RDir) None.
Proof.
  intros Hi Hn Hf Hp Hw He. destruct (vi_lim _ _ _ _ Hi p eq_refl) as [Hr H0].
  assert (Hpd : p ∉ dirs) by (intros Hin; apply (vi_dirs _ _ _ _ Hi) in Hin; congruence).
  assert (Hw' : forall q k, (rl q = RDir \/ exists d i, rl q = RPT d i) -> 0 <= k < 1024 ->
    word (mem s') q k = word (mem s) q k).
  { intros q k Hq Hk. apply Hw; [|done]. intros ->. destruct Hq as [? | (? & ? & ?)]; congruence. }
  assert (Huc : forall q, ucount (mem s') (p :: dirs) q = ucount (mem s) dirs q).
  { intros q. rewrite ucount_cons_empty by done. by eapply same_ucount. }
  constructor; rewrite ?Hn, ?Hp, ?Hf; try apply Hi.
  - intros q. unfold set_role. destruct (Z.eqb_spec q p) as [-> | ?]; [|apply Hi].
    intros _. apply (vi_range _ _ _ _ Hi). congruence.
  - eapply free_ok_keep; [apply Hi | done | |].
    + intros q Hq. rewrite Hp, lookup_total_insert_ne; [done | congruence].
    + intros q. unfold set_role. destruct (Z.eqb_spec q p) as [-> | ?]; [|done].
      split; intros; congruence.
  - intros q. unfold set_role. destruct (Z.eqb_spec q p) as [-> | ?]; [done|]. intros Hq.
    rewrite lookup_total_insert_ne by done. by apply (vi_free_ref _ _ _ _ Hi).
  - apply NoDup_cons. split; [done | apply Hi].
  - intros d. rewrite elem_of_cons, (vi_dirs _ _ _ _ Hi). unfold set_role.
    destruct (Z.eqb_spec d p) as [-> | ?]; [by split; auto|].
    split; [intros [? | ?]; done | auto].
  - intros d [-> | Hd]%elem_of_cons; [by rewrite lookup_total_insert_eq|].
    rewrite lookup_total_insert_ne; [by apply (vi_dir_ref _ _ _ _ Hi) | congruence].
  - intros d i q [-> | Hd]%elem_of_cons Hir Hq; [by rewrite He in Hq|].
    erewrite same_pt in Hq by eauto. pose proof (vi_pt _ _ _ _ Hi _ _ _ Hd Hir Hq).
    rewrite set_role_ne; congruence.
  - intros q d i. unfold set_role. destruct (Z.eqb_spec q p) as [-> | ?]; [done|]. intros Hq.
    rewrite lookup_total_insert_ne by done.
    destruct (vi_pt_ref _ _ _ _ Hi _ _ _ Hq) as (? & Hd & ? & ?).
    rewrite (same_pt s (mem s') dirs rl (Some p) Hi Hw'), elem_of_cons by done. auto.
  - intros d i j q [-> | Hd]%elem_of_cons Hir Hj Hu.
    + unfold upage, upte in Hu. by rewrite He in Hu.
    + erewrite same_upage in Hu by eauto. rewrite set_role_ne; [by eapply vi_user|].
      intros ->. pose proof (ucount_pos _ _ _ _ _ _ Hd Hir Hj Hu). lia.
  - intros q. rewrite Huc. unfold set_role. destruct (Z.eqb_spec q p) as [-> | ?]; intros Hq; [done|].
    rewrite lookup_total_insert_ne by done. destruct (vi_user_ref _ _ _ _ Hi _ Hq) as [? Hz].
    split; [done|]. intros Hz0. apply Hz in Hz0. congruence.
  - intros q. unfold set_role. destruct (Z.eqb_spec q p) as [-> | ?]; intros Hq; [done|].
    rewrite lookup_total_insert_ne by done. by eapply vi_ref16.
  - done.
Qed.

(** The empty directory [d] is freed. *)
Lemma dir_del_inv s dirs rl lim d :
  vm_inv s dirs rl lim -> d ∈ dirs ->
  (forall i, 0 <= i < NUPDE -> pt_of (mem s) d i = None) ->
  vm_inv (after_free s d) (filter (.≠ d) dirs) (set_role rl d RFree) lim.
Proof.
  intros Hi Hd He. pose proof (proj1 (vi_dirs _ _ _ _ Hi d) Hd) as Hr.
  assert (Huc : forall q, ucount (mem s) (filter (.≠ d) dirs) q = ucount (mem s) dirs q).
  { intros q. by apply ucount_del_empty. }
  assert (Hin : forall x, x ∈ filter (.≠ d) dirs <-> x <> d /\ x ∈ dirs).
  { intros x. by rewrite list_elem_of_filter. }
  constructor; simpl; try apply Hi.
  - intros q. unfold set_role. destruct (Z.eqb_spec q d) as [-> | ?]; [|apply Hi].
    intros _. apply (vi_range _ _ _ _ Hi). congruence.
  - eapply (free_ok_push s); [apply Hi | congruence | done | done].
  - intros q. unfold set_role. destruct (Z.eqb_spec q d) as [-> | ?]; intros Hq.
    + by rewrite lookup_total_insert_eq.
    + rewrite lookup_total_insert_ne by done. by apply (vi_free_ref _ _ _ _ Hi).
  - apply NoDup_filter, Hi.
  - intros x. rewrite Hin, (vi_dirs _ _ _ _ Hi). unfold set_role.
    destruct (Z.eqb_spec x d) as [-> | ?]; [by split; [intros [? ?] | done]|].
    split; [by intros [_ ?] | done].
  - intros x [? Hx]%Hin. rewrite lookup_total_insert_ne by done. by apply (vi_dir_ref _ _ _ _ Hi).
  - intros x i q [? Hx]%Hin Hir Hq. pose proof (vi_pt _ _ _ _ Hi _ _ _ Hx Hir Hq).
    rewrite set_role_ne; congruence.
  - intros q x i. unfold set_role. destruct (Z.eqb_spec q d) as [-> | ?]; [done|]. intros Hq.
    rewrite lookup_total_insert_ne by done.
    destruct (vi_pt_ref _ _ _ _ Hi _ _ _ Hq) as (? & Hx & ? & Hp). rewrite Hin.
    repeat split; try done; try lia. intros ->. by rewrite He in Hp.
  - intros x i j q [? Hx]%Hin Hir Hj Hu. rewrite set_role_ne; [by eapply vi_user|].
    intros ->. pose proof (vi_user _ _ _ _ Hi _ _ _ _ Hx Hir Hj Hu). congruence.
  - intros q. rewrite Huc. unfold set_role. destruct (Z.eqb_spec q d) as [-> | ?]; intros Hq; [done|].
    rewrite lookup_total_insert_ne by done. by apply (vi_user_ref _ _ _ _ Hi).
  - intros q. unfold set_role. destruct (Z.eqb_spec q d) as [-> | ?]; intros Hq; [done|].
    rewrite lookup_total_insert_ne by done. by eapply vi_ref16.
  - intros q Hq. rewrite Huc. destruct (vi_lim _ _ _ _ Hi q Hq) as [? ?].
    rewrite set_role_ne; [done | congruence].
Qed.

(** The empty table [t] of slot [i] is unhooked and freed. *)
Definition after_pt_drop (s : kst) (d i t : Z) : kst :=
  after_free (s <| mem := st32 (mem s) (kva d + 4 * i) 0 |>) t.

Lemma pt_drop_word m d i q k : 0 <= i < 1024 -> 0 <= k < 1024 ->
  word (st32 m (kva d + 4 * i) 0) q k = if (q =? d) && (k =? i) then 0 else word m q k.
Proof. intros. by rewrite word_st32. Qed.

Lemma pt_drop_inv s dirs rl lim d i t :
  vm_inv s dirs rl lim -> d ∈ dirs -> 0 <= i < NUPDE -> pt_of (mem s) d i = Some t ->
  (forall j, 0 <= j < NPTENTRIES -> upage (mem s) d i j = None) ->
  let s' := after_pt_drop s d i t in
  vm_inv s' dirs (set_role rl t RFree) lim /\
  (forall x i', x ∈ dirs -> 0 <= i' < NUPDE ->
     pt_of (mem s') x i' = if decide ((x, i') = (d, i)) then None else pt_of (mem s) x i') /\
  (forall x i' j, x ∈ dirs -> 0 <= i' < NUPDE -> 0 <= j < NPTENTRIES -> (x, i') <> (d, i) ->
     upte (mem s') x i' j = upte (mem s) x i' j).
Proof.
  intros Hi Hd Hir Ht He s'. pose proof Hir as Hir'. rewrite NUPDE_val in Hir'.
  pose proof (vi_pt _ _ _ _ Hi _ _ _ Hd Hir Ht) as Hrt.
  assert (Hdr : forall x, x ∈ dirs -> rl x = RDir) by (intros; by apply (vi_dirs _ _ _ _ Hi)).
  assert (Hpt : forall x i', x ∈ dirs -> 0 <= i' < NUPDE ->
     pt_of (mem s') x i' = if decide ((x, i') = (d, i)) then None else pt_of (mem s) x i').
  { intros x i' Hx Hi'. rewrite NUPDE_val in Hi'. unfold pt_of, s'. simpl.
    rewrite pt_drop_word by lia. destruct ((x =? d) && (i' =? i)) eqn:E.
    - zbool. subst. by rewrite decide_True.
    - rewrite decide_False; [done|]. intros [= -> ->]. by rewrite !Z.eqb_refl in E. }
  assert (Hupte : forall x i' j, x ∈ dirs -> 0 <= i' < NUPDE -> 0 <= j < NPTENTRIES ->
     (x, i') <> (d, i) -> upte (mem s') x i' j = upte (mem s) x i' j).
  { intros x i' j Hx Hi' Hj Hne. unfold upte. rewrite Hpt, decide_False by done.
    destruct (pt_of (mem s) x i') as [t'|] eqn:Et; [|done].
    pose proof (vi_pt _ _ _ _ Hi _ _ _ Hx Hi' Et). pose proof (Hdr d Hd). unfold s'. simpl.
    unfold NPTENTRIES in Hj. rewrite pt_drop_word by lia.
    rewrite (proj2 (Z.eqb_neq t' d)) by congruence. done. }
  assert (Hup : forall x i' j, x ∈ dirs -> 0 <= i' < NUPDE -> 0 <= j < NPTENTRIES ->
     upage (mem s') x i' j = upage (mem s) x i' j).
  { intros x i' j Hx Hi' Hj. destruct (decide ((x, i') = (d, i))) as [[= -> ->] | Hne].
    - rewrite He by done. unfold upage, upte. rewrite Hpt, decide_True by done. done.
    - unfold upage. by rewrite Hupte. }
  assert (Huc : forall q, ucount (mem s') dirs q = ucount (mem s) dirs q).
  { intros q. apply ucount_ext. intros. by rewrite Hup. }
  split; [|done]. constructor; try apply Hi.
  - intros q. unfold set_role. destruct (Z.eqb_spec q t) as [-> | ?]; [|apply Hi].
    intros _. apply (vi_range _ _ _ _ Hi). congruence.
  - eapply (free_ok_push s); [apply Hi | congruence | done | done].
  - intros q. unfold set_role. simpl. destruct (Z.eqb_spec q t) as [-> | ?]; intros Hq.
    + by rewrite lookup_total_insert_eq.
    + rewrite lookup_total_insert_ne by done. by apply (vi_free_ref _ _ _ _ Hi).
  - intros x. rewrite (vi_dirs _ _ _ _ Hi). unfold set_role.
    destruct (Z.eqb_spec x t) as [-> | ?]; [|done]. split; congruence.
  - intros x Hx. simpl. pose proof (Hdr x Hx). rewrite lookup_total_insert_ne by congruence.
    by apply (vi_dir_ref _ _ _ _ Hi).
  - intros x i' q Hx Hi' Hq. rewrite Hpt in Hq by done. case_decide as Hc; [done|].
    pose proof (vi_pt _ _ _ _ Hi _ _ _ Hx Hi' Hq). rewrite set_role_ne; [done | congruence].
  - intros q x i'. unfold set_role. destruct (Z.eqb_spec q t) as [-> | Hne]; [done|]. intros Hq.
    simpl. rewrite lookup_total_insert_ne by done.
    destruct (vi_pt_ref _ _ _ _ Hi _ _ _ Hq) as (? & Hx & ? & Hp).
    repeat split; try done; try lia. change (pt_of (mem s') x i' = Some q).
    rewrite Hpt, decide_False by (done || congruence). done.
  - intros x i' j q Hx Hi' Hj Hu. rewrite Hup in Hu by done.
    pose proof (vi_user _ _ _ _ Hi _ _ _ _ Hx Hi' Hj Hu). rewrite set_role_ne; congruence.
  - intros q. rewrite Huc. unfold set_role. destruct (Z.eqb_spec q t) as [-> | ?]; intros Hq; [done|].
    simpl. rewrite lookup_total_insert_ne by done. by apply (vi_user_ref _ _ _ _ Hi).
  - intros q. unfold set_role. destruct (Z.eqb_spec q t) as [-> | ?]; intros Hq; [done|].
    simpl. rewrite lookup_total_insert_ne by done. by eapply vi_ref16.
  - intros q Hq. rewrite Huc. destruct (vi_lim _ _ _ _ Hi q Hq) as [? ?].
    rewrite set_role_ne; [done | congruence].
Qed.
