(* ===== verification/Environ.v ===== *)
(** * Environments ([kern/env.c], [kern/spinlock.c])

    Allocation, address-space construction, loading, destruction and running of
    environments, and the big kernel lock they are run under. *)

From S2P Require Import Prelude Mem CString Mmu KState Pmap.

(** ** The big kernel lock ([spin_lock] and [spin_unlock] with DEBUG_SPINLOCK)

    The lock word and its owner, as the CPU now running the code sees them: a
    spinning CPU makes no progress in this state. *)

Definition holding (s : kst) : bool :=
  match kernel_lock s with Some c => c =? cpunum s | None => false end.

Definition lock_kernel : K unit :=
  h ← gets holding;
  if (h : bool) then panic "spin_lock: already holding"
  else
    l ← gets kernel_lock;
    match l with
    | Some _ => leave Spinning
    | None => modify (fun s => s <| kernel_lock := Some (cpunum s) |>)
    end.

Definition unlock_kernel : K unit :=
  h ← gets holding;
  if negb h then panic "spin_unlock"
  else modify (fun s => s <| kernel_lock := None |>).

(** ** [kern/env.c] *)

Definition ENVGENSHIFT : Z := 12.

(** Returns the code and [*env_store]. *)
Definition envid2env (envid : Z) (checkperm : bool) : K (Z * option Z) :=
  if envid =? 0 then
    ce ← gets curenv;
    mret (0, ce)
  else
    let e := ENVX envid in
    ev ← env e;
    if (env_status ev =? ENV_FREE) || negb (env_id ev =? envid)
    then mret (- E_BAD_ENV, None)
    else
      ce ← gets curenv;
      cid ← gets (fun s => match ce with Some c => env_id (envs s !!! c) | None => 0 end);
      if checkperm && negb (bool_decide (ce = Some e)) && negb (env_parent_id ev =? cid)
      then mret (- E_BAD_ENV, None)
      else mret (0, Some e).

Definition env_init : K unit :=
  kfor (Z.to_nat NENV) 0 (fun k =>
    let i := NENV - 1 - k in
    ev ← env i;
    fl ← gets env_free_list;
    set_env i (ev <| env_id := 0 |> <| env_status := ENV_FREE |> <| env_link := fl |>);;
    modify (fun s => s <| env_free_list := Some i |>)).

Definition env_setup_vm (e : Z) : K Z :=
  r ← page_alloc ALLOC_ZERO;
  match r with
  | None => mret (- E_NO_MEM)
  | Some p =>
      kva ← page2kva p;
      ev ← env e;
      set_env e (ev <| env_pgdir := kva |>);;
      page_incref p;;
      kfor (Z.to_nat NPDENTRIES) 0 (fun i =>
        kp ← gets kern_pgdir;
        ev ← env e;
        v ← load32 (kp + 4 * i);
        store32 (env_pgdir ev + 4 * i) v);;
      ev ← env e;
      pa ← PADDR (env_pgdir ev);
      store32 (env_pgdir ev + 4 * PDX UVPT) (Z.lor (Z.lor pa PTE_P) PTE_U);;
      mret 0
  end.

(** The generation part of a new [env_id]: [int32_t] arithmetic. *)
Definition next_generation (old_id : Z) : Z :=
  let generation := Z.land (s32 (old_id + Z.shiftl 1 ENVGENSHIFT)) (Z.lnot (NENV - 1)) in
  if generation <=? 0 then Z.shiftl 1 ENVGENSHIFT else generation.

(** The register state of a new environment: all clear but the segments, the
    stack pointer and the interrupt flag. *)
Definition env_alloc_tf : Trapframe :=
  let tf : Trapframe := inhabitant in
  tf <| tf_ds := Z.lor GD_UD 3 |> <| tf_es := Z.lor GD_UD 3 |>
     <| tf_ss := Z.lor GD_UD 3 |> <| tf_esp := USTACKTOP |>
     <| tf_cs := Z.lor GD_UT 3 |> <| tf_eflags := Z.lor 0 FL_IF |>.

(** Returns the code and [*newenv_store]. *)
Definition env_alloc (parent_id : Z) : K (Z * option Z) :=
  fl ← gets env_free_list;
  match fl with
  | None => mret (- E_NO_FREE_ENV, None)
  | Some e =>
      r ← env_setup_vm e;
      if r <? 0 then mret (r, None)
      else
        ev ← env e;
        let id := Z.lor (next_generation (env_id ev)) e in
        set_env e (ev <| env_id := id |> <| env_parent_id := parent_id |>
          <| env_type := ENV_TYPE_USER |> <| env_status := ENV_RUNNABLE |>
          <| env_runs := 0 |> <| env_tf := env_alloc_tf |>
          <| env_pgfault_upcall := 0 |> <| env_ipc_recving := false |>);;
        modify (fun s => s <| env_free_list := env_link (envs s !!! e) |>);;
        mret (0, Some e)
  end.

(** The page loop of [region_alloc], shared with [exec_region_alloc]: a page for
    every page that [va, va+len) touches. *)
Definition alloc_range (e va len perm : Z) : K unit :=
  let start := ROUNDDOWN va PGSIZE in
  let end_ := ROUNDUP (w32 (va + len)) PGSIZE in
  kloop page_fuel (fun start =>
    if start <? end_ then
      r ← page_alloc ALLOC_ZERO;
      match r with
      | None => panic "region_alloc: page_alloc failed"
      | Some pp =>
          ev ← env e;
          r ← page_insert (env_pgdir ev) pp start perm;
          if r <? 0 then panic "region_alloc: page_insert failed"
          else mret (inl (w32 (start + PGSIZE)))
      end
    else mret (inr tt)) start.

Definition region_alloc (e va len : Z) : K unit :=
  alloc_range e va len (Z.lor PTE_U PTE_W).

(** ELF headers ([inc/elf.h]) by their field offsets. *)
Definition ELF_MAGIC : Z := 0x464C457F.
Definition ELF_PROG_LOAD : Z := 1.
Definition ld16 (m : memory) (a : Z) : Z := ld8 m a + 256 * ld8 m (a + 1).
Record Proghdr := mkProghdr {
  p_type : Z; p_offset : Z; p_va : Z; p_filesz : Z; p_memsz : Z }.
Definition ld_proghdr (m : memory) (a : Z) : Proghdr :=
  mkProghdr (ld32 m a) (ld32 m (a + 4)) (ld32 m (a + 8)) (ld32 m (a + 16)) (ld32 m (a + 20)).
Definition sizeof_Proghdr : Z := 32.

Definition load_icode (e binary : Z) : K unit :=
  magic ← load32 binary;
  if negb (magic =? ELF_MAGIC) then panic "load_icode: not an ELF executable"
  else
    ev ← env e;
    pa ← PADDR (env_pgdir ev);
    lcr3 pa;;
    phoff ← load32 (binary + 28);
    phnum ← gets (fun s => ld16 (mem s) (binary + 44));
    kfor (Z.to_nat phnum) 0 (fun i =>
      ph ← gets (fun s => ld_proghdr (mem s) (binary + phoff + i * sizeof_Proghdr));
      if negb (p_type ph =? ELF_PROG_LOAD) then mret tt
      else if p_memsz ph <? p_filesz ph then panic "load_icode: p_memsz < p_filesz"
      else if w32 (p_va ph + p_memsz ph) <? p_va ph
      then panic "load_icode: address space overflow"
      else
        region_alloc e (p_va ph) (p_memsz ph);;
        vmemset (p_va ph) 0 (p_memsz ph);;
        vmemcpy (p_va ph) (fun k => gets (fun s => ld8 (mem s) (binary + p_offset ph + k)))
          (p_filesz ph));;
    entry ← load32 (binary + 24);
    ev ← env e;
    set_env e (ev <| env_tf := env_tf ev <| tf_eip := entry |> |>);;
    region_alloc e (USTACKTOP - PGSIZE) PGSIZE.

Definition env_create (binary type : Z) : K unit :=
  r ← env_alloc 0;
  match r with
  | (_, None) => panic "env_create: env_alloc failed"
  | (_, Some e) =>
      load_icode e binary;;
      ev ← env e;
      set_env e (ev <| env_type := type |>);;
      if type =? ENV_TYPE_FS then
        ev ← env e;
        set_env e (ev <| env_tf := env_tf ev
          <| tf_eflags := Z.lor (tf_eflags (env_tf ev)) FL_IOPL_3 |> |>)
      else mret tt
  end.

(** The body of [env_free]'s loop over the user page-directory entries. *)
Definition env_free_pde (e pdeno : Z) : K unit :=
  ev ← env e;
  pde ← load32 (env_pgdir ev + 4 * pdeno);
  if negb (has pde PTE_P) then mret tt
  else
    let pa := PTE_ADDR pde in
    pt ← KADDR pa;
    kfor (Z.to_nat (PTX 0xFFFFFFFF + 1)) 0 (fun pteno =>
      pte ← load32 (pt + 4 * pteno);
      if has pte PTE_P
      then ev ← env e; page_remove (env_pgdir ev) (PGADDR pdeno pteno 0)
      else mret tt);;
    ev ← env e;
    store32 (env_pgdir ev + 4 * pdeno) 0;;
    pp ← pa2page pa;
    page_decref pp.

Definition env_free (e : Z) : K unit :=
  ce ← gets curenv;
  (if bool_decide (ce = Some e) then
     kp ← gets kern_pgdir;
     pa ← PADDR kp;
     lcr3 pa
   else mret tt);;
  kfor (Z.to_nat (PDX UTOP)) 0 (env_free_pde e);;
  ev ← env e;
  pa ← PADDR (env_pgdir ev);
  ev ← env e;
  set_env e (ev <| env_pgdir := 0 |>);;
  pp ← pa2page pa;
  page_decref pp;;
  ev ← env e;
  fl ← gets env_free_list;
  set_env e (ev <| env_status := ENV_FREE |> <| env_link := fl |>);;
  modify (fun s => s <| env_free_list := Some e |>).

(** [env_pop_tf] restores the registers of [curenv] and enters user mode. *)
Definition env_pop_tf {A} : K A :=
  ce ← gets curenv;
  match ce with
  | None => panic "env_pop_tf: no curenv"
  | Some c =>
      ev ← env c;
      n ← gets cpunum;
      set_env c (ev <| env_cpunum := n |>);;
      leave (ToUser c)
  end.

Definition env_run {A} (e : Z) : K A :=
  ce ← gets curenv;
  match ce with
  | Some c =>
      ev ← env c;
      if env_status ev =? ENV_RUNNING
      then set_env c (ev <| env_status := ENV_RUNNABLE |>) else mret tt
  | None => mret tt
  end;;
  set_curenv (Some e);;
  ev ← env e;
  set_env e (ev <| env_status := ENV_RUNNING |> <| env_runs := w32 (env_runs ev + 1) |>);;
  ev ← env e;
  pa ← PADDR (env_pgdir ev);
  lcr3 pa;;
  unlock_kernel;;
  env_pop_tf.
