(* ===== verification/Sched.v ===== *)
(** * Scheduling and destruction ([kern/sched.c], the end of [kern/env.c])

    The round-robin scheduler, the idle path, and the operations that end in
    the scheduler. *)

From S2P Require Import Prelude Mem Mmu KState Pmap Environ.

Definition sched_halt {A} : K A :=
  busy ← kloop (S (Z.to_nat NENV)) (fun i =>
    if i <? NENV then
      ev ← env i;
      if (env_status ev =? ENV_RUNNABLE) || (env_status ev =? ENV_RUNNING)
         || (env_status ev =? ENV_DYING)
      then mret (inr true) else mret (inl (i + 1))
    else mret (inr false)) 0;
  if negb busy then leave InMonitor
  else
    set_curenv None;;
    kp ← gets kern_pgdir;
    pa ← PADDR kp;
    lcr3 pa;;
    modify (set_thiscpu (fun c => c <| cpu_status := CPU_HALTED |>));;
    unlock_kernel;;
    leave Halted.

(** The circular search, from [e] on: [i] slots have been looked at. *)
Definition sched_search (e : Z) : K (option Z) :=
  kloop (S (Z.to_nat NENV)) (fun '(i, e) =>
    if i <? NENV then
      let e := if e >=? NENV then 0 else e in
      ev ← env e;
      if env_status ev =? ENV_RUNNABLE then mret (inr (Some e))
      else mret (inl (i + 1, e + 1))
    else mret (inr None)) (0, e).

Definition sched_yield {A} : K A :=
  ce ← gets curenv;
  e ← match ce with
      | Some c =>
          ev ← env c;
          (if env_status ev =? ENV_RUNNING
           then set_env c (ev <| env_status := ENV_RUNNABLE |>) else mret tt);;
          mret (c + 1)
      | None => mret 0
      end;
  r ← sched_search e;
  match r with
  | Some e => env_run e
  | None =>
      ce ← gets curenv;
      match ce with
      | Some c =>
          ev ← env c;
          if env_status ev =? ENV_RUNNING then env_run c else sched_halt
      | None => sched_halt
      end
  end.

(** [kern/env.c]: a running environment of another CPU becomes a zombie. *)
Definition env_destroy (e : Z) : K unit :=
  ev ← env e;
  ce ← gets curenv;
  if (env_status ev =? ENV_RUNNING) && negb (bool_decide (ce = Some e))
  then set_env e (ev <| env_status := ENV_DYING |>)
  else
    env_free e;;
    ce ← gets curenv;
    if bool_decide (ce = Some e) then set_curenv None;; sched_yield
    else mret tt.

(** [kern/pmap.c]. *)
Definition user_mem_assert (e va len perm : Z) : K unit :=
  r ← user_mem_check e va len (Z.lor perm PTE_U);
  if r <? 0 then env_destroy e else mret tt.
