(* ===== verification/Syscall.v ===== *)
(** * System calls ([kern/syscall.c], [kern/time.c])

    Each system call as the kernel runs it, on arguments as unsigned 32-bit
    words.  An [envid_t] is a signed word.  The console input and the network
    card, which these calls only forward to, are an interface. *)

From S2P Require Import Prelude Mem CString Mmu KState Printf Pmap Environ Sched.

Class Devices := {
  cons_getc : K Z;                         (* kern/console.c *)
  e1000_transmit : Z -> Z -> K Z;          (* kern/e1000.c *)
  e1000_receive : Z -> Z -> K Z
}.

(** ** Time *)

Definition time_tick : K unit :=
  modify (fun s => s <| ticks := w32 (ticks s + 1) |>);;
  t ← gets ticks;
  if w32 (t * 10) <? t then panic "time_tick: time overflowed" else mret tt.
Definition time_msec : K Z := t ← gets ticks; mret (w32 (t * 10)).

(** ** Helpers *)

(** Following a pointer: through NULL it faults. *)
Definition deref {A} (p : option A) : K A :=
  match p with Some a => mret a | None => leave (KernelFault 0) end.
Definition cur : K Z := ce ← gets curenv; deref ce.
Definition upd_env (e : Z) (f : Env -> Env) : K unit := ev ← env e; set_env e (f ev).

(** [n] bytes of user memory. *)
Fixpoint vread (n : nat) (va : Z) : K (list Z) :=
  match n with
  | O => mret []
  | S n' => b ← vload8 va; bs ← vread n' (w32 (va + 1)); mret (b :: bs)
  end.

(** Little-endian fields of a byte image. *)
Definition le8 (bs : list Z) (o : Z) : Z := nth (Z.to_nat o) bs 0.
Definition le16 (bs : list Z) (o : Z) : Z := le8 bs o + 256 * le8 bs (o + 1).
Definition le32 (bs : list Z) (o : Z) : Z := le16 bs o + 65536 * le16 bs (o + 2).

Definition sizeof_Trapframe : Z := 68.
Definition bytes_regs (bs : list Z) : PushRegs :=
  mkPushRegs (le32 bs 0) (le32 bs 4) (le32 bs 8) (le32 bs 12) (le32 bs 16) (le32 bs 20)
    (le32 bs 24) (le32 bs 28).
Definition bytes_trapframe (bs : list Z) : Trapframe :=
  mkTrapframe (bytes_regs bs) (le16 bs 32) (le16 bs 36) (le32 bs 40) (le32 bs 44) (le32 bs 48)
    (le16 bs 52) (le32 bs 56) (le32 bs 60) (le16 bs 64).

(** The checks the page calls share: a page address below [UTOP], and
    permissions within [PTE_SYSCALL | PTE_SHARE] that include [PTE_U]. *)
Definition bad_va (va : Z) : bool := (va >=? UTOP) || negb (va mod PGSIZE =? 0).
Definition bad_perm (perm : Z) : bool :=
  negb (Z.land perm (Z.lnot (Z.lor PTE_SYSCALL PTE_SHARE)) =? 0) || negb (has perm PTE_U).

Section syscalls.
Context `{Devices}.

Definition sys_cputs (s len : Z) : K unit :=
  c ← cur;
  user_mem_assert c s len PTE_U;;
  vcprintf vload8 "%.*s" [len; s];;
  mret tt.

Definition sys_cgetc : K Z := cons_getc.

Definition sys_getenvid : K Z := c ← cur; ev ← env c; mret (env_id ev).

Definition sys_env_destroy (envid : Z) : K Z :=
  '(r, e) ← envid2env envid true;
  if r <? 0 then mret r
  else e ← deref e; env_destroy e;; mret 0.

Definition sys_yield : K unit := sched_yield.

Definition sys_exofork : K Z :=
  c ← cur; cv ← env c;
  '(r, e) ← env_alloc (env_id cv);
  if r <? 0 then mret r
  else
    e ← deref e;
    upd_env e (fun ev => ev <| env_status := ENV_NOT_RUNNABLE |>);;
    cv ← env c;
    upd_env e (fun ev => ev <| env_tf := env_tf cv |>);;
    upd_env e (fun ev => ev <| env_tf := env_tf ev <| tf_regs :=
      tf_regs (env_tf ev) <| reg_eax := 0 |> |> |>);;
    ev ← env e;
    mret (env_id ev).

Definition sys_env_set_status (envid status : Z) : K Z :=
  if negb (status =? ENV_RUNNABLE) && negb (status =? ENV_NOT_RUNNABLE) then mret (- E_INVAL)
  else
    '(r, e) ← envid2env envid true;
    if r <? 0 then mret r
    else e ← deref e; upd_env e (fun ev => ev <| env_status := status |>);; mret 0.

Definition sys_env_set_trapframe (envid tf : Z) : K Z :=
  '(r, e) ← envid2env envid true;
  if r <? 0 then mret r
  else
    e ← deref e;
    c ← cur;
    user_mem_assert c tf sizeof_Trapframe PTE_U;;
    bs ← vread (Z.to_nat sizeof_Trapframe) tf;
    upd_env e (fun ev => ev <| env_tf := bytes_trapframe bs |>);;
    upd_env e (fun ev => ev <| env_tf := env_tf ev
      <| tf_cs := Z.lor (tf_cs (env_tf ev)) 3 |> |>);;
    upd_env e (fun ev => ev <| env_tf := env_tf ev
      <| tf_eflags := Z.lor (tf_eflags (env_tf ev)) FL_IF |> |>);;
    mret 0.

Definition sys_env_set_pgfault_upcall (envid func : Z) : K Z :=
  '(r, e) ← envid2env envid true;
  if r <? 0 then mret r
  else e ← deref e; upd_env e (fun ev => ev <| env_pgfault_upcall := func |>);; mret 0.

Definition sys_page_alloc (envid va perm : Z) : K Z :=
  if bad_va va then mret (- E_INVAL)
  else if bad_perm perm then mret (- E_INVAL)
  else
    '(r, e) ← envid2env envid true;
    if r <? 0 then mret r
    else
      e ← deref e;
      pp ← page_alloc ALLOC_ZERO;
      match pp with
      | None => mret (- E_NO_MEM)
      | Some pp =>
          ev ← env e;
          r ← page_insert (env_pgdir ev) pp va perm;
          if r <? 0 then page_free pp;; mret r else mret 0
      end.

(** The source entry of a mapping: found, present, and writable if the new
    mapping is to be; otherwise [-E_INVAL]. *)
Definition source_pte (pgdir srcva perm : Z) : K (option Z) :=
  pte ← pgdir_walk pgdir srcva false;
  match pte with
  | None => mret None
  | Some pte =>
      v ← load32 pte;
      if negb (has v PTE_P) then mret None
      else
        v ← load32 pte;
        if has perm PTE_W && negb (has v PTE_W) then mret None else mret (Some pte)
  end.

Definition sys_page_map (srcenvid srcva dstenvid dstva perm : Z) : K Z :=
  if bad_va srcva then mret (- E_INVAL)
  else if bad_va dstva then mret (- E_INVAL)
  else if bad_perm perm then mret (- E_INVAL)
  else
    '(r, srcenv) ← envid2env srcenvid true;
    if r <? 0 then mret r
    else
      '(r, dstenv) ← envid2env dstenvid true;
      if r <? 0 then mret r
      else
        srcenv ← deref srcenv; dstenv ← deref dstenv;
        sv ← env srcenv;
        pte ← source_pte (env_pgdir sv) srcva perm;
        match pte with
        | None => mret (- E_INVAL)
        | Some pte =>
            v ← load32 pte;
            pp ← pa2page (PTE_ADDR v);
            dv ← env dstenv;
            r ← page_insert (env_pgdir dv) pp dstva perm;
            if r <? 0 then mret r else mret 0
        end.

Definition sys_page_unmap (envid va : Z) : K Z :=
  if bad_va va then mret (- E_INVAL)
  else
    '(r, e) ← envid2env envid true;
    if r <? 0 then mret r
    else e ← deref e; ev ← env e; page_remove (env_pgdir ev) va;; mret 0.

(** The send proper, once the arguments are accepted. *)
Definition ipc_deliver (e value srcva perm : Z) (pte : option Z) : K Z :=
  c ← cur; cv ← env c;
  upd_env e (fun ev => ev <| env_ipc_from := env_id cv |>);;
  upd_env e (fun ev => ev <| env_ipc_value := value |>);;
  upd_env e (fun ev => ev <| env_ipc_recving := false |>);;
  upd_env e (fun ev => ev <| env_status := ENV_RUNNABLE |>);;
  ev ← env e;
  if (srcva <? UTOP) && (env_ipc_dstva ev <? UTOP) then
    pte ← deref pte;
    v ← load32 pte;
    pp ← pa2page (PTE_ADDR v);
    r ← page_insert (env_pgdir ev) pp (env_ipc_dstva ev) perm;
    if r <? 0 then mret r
    else upd_env e (fun ev => ev <| env_ipc_perm := perm |>);; mret 0
  else upd_env e (fun ev => ev <| env_ipc_perm := 0 |>);; mret 0.

Definition sys_ipc_try_send (envid value srcva perm : Z) : K Z :=
  '(r, e) ← envid2env envid false;
  if r <? 0 then mret r
  else
    e ← deref e;
    ev ← env e;
    if negb (env_ipc_recving ev) then mret (- E_IPC_NOT_RECV)
    else if srcva <? UTOP then
      if negb (srcva mod PGSIZE =? 0) then mret (- E_INVAL)
      else if bad_perm perm then mret (- E_INVAL)
      else
        c ← cur; cv ← env c;
        pte ← source_pte (env_pgdir cv) srcva perm;
        match pte with
        | None => mret (- E_INVAL)
        | Some pte => ipc_deliver e value srcva perm (Some pte)
        end
    else ipc_deliver e value srcva perm None.

Definition sys_ipc_recv (dstva : Z) : K Z :=
  if (dstva <? UTOP) && negb (dstva mod PGSIZE =? 0) then mret (- E_INVAL)
  else
    c ← cur;
    upd_env c (fun ev => ev <| env_ipc_recving := true |>);;
    upd_env c (fun ev => ev <| env_ipc_dstva := dstva |>);;
    upd_env c (fun ev => ev <| env_status := ENV_NOT_RUNNABLE |>);;
    (sched_yield : K unit);;
    mret 0.

Definition sys_time_msec : K Z := time_msec.

Definition sys_net_send (buf size : Z) : K Z :=
  c ← cur; user_mem_assert c buf size PTE_U;; e1000_transmit buf size.
Definition sys_net_recv (buf size : Z) : K Z :=
  c ← cur; user_mem_assert c buf size PTE_U;; e1000_receive buf size.
End syscalls.
