(* ===== verification/Trap.v ===== *)
(** * [sys_exec], the system call table and traps ([kern/syscall.c], [kern/trap.c])

    Everything that can happen between a trap and the return to user mode.
    Registers of the trapped program arrive in a [Trapframe]. *)

From S2P Require Import Prelude Mem CString Mmu KState Printf Pmap Environ Sched Syscall.

(** ** [sys_exec] *)

Record Elf := mkElf { e_magic : Z; e_entry : Z; e_phoff : Z; e_phnum : Z }.
Definition bytes_elf (bs : list Z) : Elf :=
  mkElf (le32 bs 0) (le32 bs 24) (le32 bs 28) (le16 bs 44).
Definition sizeof_Elf : Z := 52.
Definition bytes_proghdr (bs : list Z) (o : Z) : Proghdr :=
  mkProghdr (le32 bs o) (le32 bs (o + 4)) (le32 bs (o + 8)) (le32 bs (o + 16)) (le32 bs (o + 20)).

Definition load_cur_pgdir : K unit :=
  c ← cur; cv ← env c; pa ← PADDR (env_pgdir cv); lcr3 pa.
Definition load_kern_pgdir : K unit := kp ← gets kern_pgdir; pa ← PADDR kp; lcr3 pa.

Definition exec_region_alloc (e va len perm : Z) : K unit :=
  let start := ROUNDDOWN va PGSIZE in
  let end_ := ROUNDUP (w32 (va + len)) PGSIZE in
  kloop page_fuel (fun start =>
    if start <? end_ then
      pp ← page_alloc ALLOC_ZERO;
      match pp with
      | None => panic "exec_region_alloc: page_alloc failed"
      | Some pp =>
          ev ← env e;
          r ← page_insert (env_pgdir ev) pp start perm;
          if r <? 0 then panic "exec_region_alloc: page_insert failed"
          else mret (inl (w32 (start + PGSIZE)))
      end
    else mret (inr tt)) start.

Definition exec_unmap_user (e keep_lo keep_hi : Z) : K unit :=
  kfor (Z.to_nat (PDX UTOP)) 0 (fun pdeno =>
    ev ← env e;
    pde ← load32 (env_pgdir ev + 4 * pdeno);
    if negb (has pde PTE_P) then mret tt
    else
      ev ← env e;
      pde ← load32 (env_pgdir ev + 4 * pdeno);
      pt ← KADDR (PTE_ADDR pde);
      kfor (Z.to_nat (PTX 0xFFFFFFFF + 1)) 0 (fun pteno =>
        pte ← load32 (pt + 4 * pteno);
        if negb (has pte PTE_P) then mret tt
        else
          let va := PGADDR pdeno pteno 0 in
          if (va >=? keep_lo) && (va <? keep_hi) then mret tt
          else if has pte PTE_SHARE then mret tt
          else ev ← env e; page_remove (env_pgdir ev) va)).

(** The argument buffer [argbuf[512]]: writing past it is undefined. *)
Definition ARGBUF : Z := 512.

(** The length of the user string at [s], checked byte by byte; [inl] is the
    error to return. *)
Definition exec_strlen (c s string_size : Z) : K (Z + Z) :=
  kwhile (fun len =>
    user_mem_assert c (w32 (s + len)) 1 PTE_U;;
    load_cur_pgdir;;
    b ← vload8 (w32 (s + len));
    if b =? 0 then mret (inr (inr len))
    else
      let len := w32 (len + 1) in
      if len >=? w32 (ARGBUF - string_size - 1)
      then load_kern_pgdir;; mret (inr (inl (- E_NO_MEM)))
      else load_kern_pgdir;; mret (inl len)) 0.

(** The loop that collects [argv]: an error, or [argc] and the bytes collected. *)
Definition exec_args (c argv : Z) : K (Z + Z * list Z) :=
  kloop 34 (fun '(argc, argbuf) =>
    user_mem_assert c (w32 (argv + 4 * argc)) 4 PTE_U;;
    load_cur_pgdir;;
    s ← vload32 (w32 (argv + 4 * argc));
    if s =? 0 then load_kern_pgdir;; mret (inr (inr (argc, argbuf)))
    else if argc >=? 32 then load_kern_pgdir;; mret (inr (inl (- E_INVAL)))
    else
      load_kern_pgdir;;
      let string_size := Z.of_nat (length argbuf) in
      l ← exec_strlen c s string_size;
      match l with
      | inl r => mret (inr (inl r))
      | inr len =>
          if string_size + len + 1 >? ARGBUF then leave Undefined
          else bs ← vread (Z.to_nat (len + 1)) s; mret (inl (argc + 1, argbuf ++ bs))
      end) (0, []).

Definition load_phdrs (phdrs : list Proghdr) : list Proghdr :=
  List.filter (fun ph => p_type ph =? ELF_PROG_LOAD) phdrs.

Definition staging_size (phdrs : list Proghdr) : Z :=
  fold_left (fun sz ph => let n := w32 (p_offset ph + p_filesz ph) in if n >? sz then n else sz)
    (load_phdrs phdrs) PGSIZE.

(** [for] over program headers, with an early return. *)
Fixpoint kforeach {A R} (l : list A) (body : A -> K (option R)) : K (option R) :=
  match l with
  | [] => mret None
  | x :: l' => r ← body x; match r with Some r => mret (Some r) | None => kforeach l' body end
  end.

(** [memmove] of user memory: backwards when the regions overlap that way. *)
Definition vmemmove (dst src n : Z) : K unit :=
  if (src <? dst) && (w32 (src + n) >? dst) then
    kfor (Z.to_nat n) 0 (fun i =>
      b ← vload8 (w32 (src + (n - 1 - i))); vstore8 (w32 (dst + (n - 1 - i))) b)
  else vmemcpy dst (fun i => vload8 (w32 (src + i))) n.

(** Bytes up to and including the first NUL: what [strcpy] copies. *)
Fixpoint cstring (bs : list Z) : list Z :=
  match bs with
  | [] => [0]
  | b :: bs' => if b =? 0 then [0] else b :: cstring bs'
  end.

Fixpoint vwrite (va : Z) (bs : list Z) : K unit :=
  match bs with
  | [] => mret tt
  | b :: bs' => vstore8 va b;; vwrite (w32 (va + 1)) bs'
  end.

(** Copying the collected strings and their addresses onto the new stack. *)
Fixpoint exec_push_args (n : nat) (i argv_store string_store : Z) (argp : list Z) : K unit :=
  match n with
  | O => mret tt
  | S n' =>
      vstore32 (w32 (argv_store + 4 * i)) string_store;;
      let s := cstring argp in
      vwrite string_store s;;
      exec_push_args n' (i + 1) argv_store (w32 (string_store + Z.of_nat (length s)))
        (drop (length s) argp)
  end.

(** From the point of no return on. *)
Definition exec_replace (c binary : Z) (elf : Elf) (phdrs : list Proghdr) (argc : Z)
    (argbuf : list Z) : K Z :=
  let keep_lo := ROUNDDOWN binary PGSIZE in
  let keep_hi := w32 (keep_lo + ROUNDUP (staging_size phdrs) PGSIZE) in
  let perm := Z.lor (Z.lor PTE_U PTE_W) PTE_P in
  exec_unmap_user c keep_lo keep_hi;;
  r ← kforeach (load_phdrs phdrs) (fun ph =>
    if p_memsz ph <? p_filesz ph then mret (Some (- E_INVAL))
    else exec_region_alloc c (p_va ph) (p_memsz ph) perm;; mret None);
  match r with
  | Some r => mret r
  | None =>
      let string_store := USTACKTOP - Z.of_nat (length argbuf) in
      let argv_store := w32 (ROUNDDOWN string_store 4 - 4 * (argc + 1)) in
      if w32 (argv_store - 8) <? USTACKTOP - PGSIZE then mret (- E_NO_MEM)
      else
        exec_region_alloc c (USTACKTOP - PGSIZE) PGSIZE perm;;
        load_cur_pgdir;;
        _ ← kforeach (load_phdrs phdrs) (fun ph =>
          vmemmove (p_va ph) (w32 (binary + p_offset ph)) (p_filesz ph);;
          vmemset (w32 (p_va ph + p_filesz ph)) 0 (p_memsz ph - p_filesz ph);;
          mret (None : option unit));
        exec_push_args (Z.to_nat argc) 0 argv_store string_store argbuf;;
        vstore32 (w32 (argv_store + 4 * argc)) 0;;
        vstore32 (w32 (argv_store - 4)) argv_store;;
        vstore32 (w32 (argv_store - 8)) argc;;
        load_kern_pgdir;;
        upd_env c (fun ev => ev <| env_tf := env_tf ev <| tf_eip := e_entry elf |> |>);;
        upd_env c (fun ev => ev <| env_tf := env_tf ev <| tf_esp := w32 (argv_store - 8) |> |>);;
        upd_env c (fun ev => ev <| env_tf := env_tf ev
          <| tf_eflags := Z.lor (tf_eflags (env_tf ev)) FL_IF |> |>);;
        (sched_yield : K unit);;
        mret 0
  end.

Definition sys_exec (binary argv : Z) : K Z :=
  c ← cur;
  user_mem_assert c binary sizeof_Elf PTE_U;;
  load_cur_pgdir;;
  bs ← vread (Z.to_nat sizeof_Elf) binary;
  let elf := bytes_elf bs in
  if e_phnum elf >? 32 then panic "sys_exec: too many phdrs"
  else
    phbs ← vread (Z.to_nat (e_phnum elf * sizeof_Proghdr)) (w32 (binary + e_phoff elf));
    let phdrs := map (fun i => bytes_proghdr phbs (i * sizeof_Proghdr)) (seqZ 0 (e_phnum elf)) in
    a ← exec_args c argv;
    match a with
    | inl r => mret r
    | inr (argc, argbuf) =>
        if negb (e_magic elf =? ELF_MAGIC) then mret (- E_NOT_EXEC)
        else exec_replace c binary elf phdrs argc argbuf
    end.

(** ** The system call table *)

Definition SYS_cputs : Z := 0.
Definition SYS_cgetc : Z := 1.
Definition SYS_getenvid : Z := 2.
Definition SYS_env_destroy : Z := 3.
Definition SYS_page_alloc : Z := 4.
Definition SYS_page_map : Z := 5.
Definition SYS_page_unmap : Z := 6.
Definition SYS_exofork : Z := 7.
Definition SYS_env_set_status : Z := 8.
Definition SYS_env_set_trapframe : Z := 9.
Definition SYS_env_set_pgfault_upcall : Z := 10.
Definition SYS_yield : Z := 11.
Definition SYS_ipc_try_send : Z := 12.
Definition SYS_ipc_recv : Z := 13.
Definition SYS_time_msec : Z := 14.
Definition SYS_net_send : Z := 15.
Definition SYS_net_recv : Z := 16.
Definition SYS_exec : Z := 17.

Definition syscall `{Devices} (no a1 a2 a3 a4 a5 : Z) : K Z :=
  if no =? SYS_cputs then sys_cputs a1 a2;; mret 0
  else if no =? SYS_cgetc then sys_cgetc
  else if no =? SYS_getenvid then sys_getenvid
  else if no =? SYS_env_destroy then sys_env_destroy (s32 a1)
  else if no =? SYS_yield then sys_yield;; mret 0
  else if no =? SYS_exofork then sys_exofork
  else if no =? SYS_env_set_status then sys_env_set_status (s32 a1) (s32 a2)
  else if no =? SYS_env_set_trapframe then sys_env_set_trapframe (s32 a1) a2
  else if no =? SYS_env_set_pgfault_upcall then sys_env_set_pgfault_upcall (s32 a1) a2
  else if no =? SYS_page_alloc then sys_page_alloc (s32 a1) a2 a3
  else if no =? SYS_page_map then sys_page_map (s32 a1) a2 (s32 a3) a4 a5
  else if no =? SYS_page_unmap then sys_page_unmap (s32 a1) a2
  else if no =? SYS_ipc_try_send then sys_ipc_try_send (s32 a1) a2 a3 a4
  else if no =? SYS_ipc_recv then sys_ipc_recv a1
  else if no =? SYS_time_msec then sys_time_msec
  else if no =? SYS_net_send then sys_net_send a1 a2
  else if no =? SYS_net_recv then sys_net_recv a1 a2
  else if no =? SYS_exec then sys_exec a1 a2
  else mret (- E_INVAL).

(** ** Traps *)

Definition T_PGFLT : Z := 14.
Definition T_BRKPT : Z := 3.
Definition T_SYSCALL : Z := 48.
Definition IRQ_OFFSET : Z := 32.
Definition IRQ_TIMER : Z := 0.
Definition IRQ_KBD : Z := 1.
Definition IRQ_SERIAL : Z := 4.
Definition IRQ_SPURIOUS : Z := 7.

Definition excnames : list string :=
  ["Divide error"; "Debug"; "Non-Maskable Interrupt"; "Breakpoint"; "Overflow";
   "BOUND Range Exceeded"; "Invalid Opcode"; "Device Not Available"; "Double Fault";
   "Coprocessor Segment Overrun"; "Invalid TSS"; "Segment Not Present"; "Stack Fault";
   "General Protection"; "Page Fault"; "(unknown trap)"; "x87 FPU Floating-Point Error";
   "Alignment Check"; "Machine-Check"; "SIMD Floating-Point Exception"]%string.
Definition trapname (trapno : Z) : string :=
  if w32 trapno <? 20 then nth (Z.to_nat trapno) excnames ""%string
  else if trapno =? T_SYSCALL then "System call"
  else if (trapno >=? IRQ_OFFSET) && (trapno <? IRQ_OFFSET + 16) then "Hardware Interrupt"
  else "(unknown trap)".

(** The kernel's [cprintf]; its own strings are spliced into the format. *)
Definition cprintf (f : string) (ap : list Z) : K unit := vcprintf vload8 f ap;; mret tt.
Definition nl : string := String (Ascii.ascii_of_nat 10) EmptyString.

Definition print_regs (regs : PushRegs) : K unit :=
  cprintf ("  edi  0x%08x" +:+ nl) [reg_edi regs];;
  cprintf ("  esi  0x%08x" +:+ nl) [reg_esi regs];;
  cprintf ("  ebp  0x%08x" +:+ nl) [reg_ebp regs];;
  cprintf ("  oesp 0x%08x" +:+ nl) [reg_oesp regs];;
  cprintf ("  ebx  0x%08x" +:+ nl) [reg_ebx regs];;
  cprintf ("  edx  0x%08x" +:+ nl) [reg_edx regs];;
  cprintf ("  ecx  0x%08x" +:+ nl) [reg_ecx regs];;
  cprintf ("  eax  0x%08x" +:+ nl) [reg_eax regs].

(** [tfa] is the trap frame's address, [cr2] the register; every caller prints
    the frame [last_tf]. *)
Definition print_trapframe (tfa cr2 : Z) (tf : Trapframe) : K unit :=
  n ← gets cpunum;
  cprintf ("TRAP frame at %p from CPU %d" +:+ nl) [tfa; n];;
  print_regs (tf_regs tf);;
  cprintf ("  es   0x----%04x" +:+ nl) [tf_es tf];;
  cprintf ("  ds   0x----%04x" +:+ nl) [tf_ds tf];;
  cprintf ("  trap 0x%08x " +:+ trapname (s32 (tf_trapno tf)) +:+ nl) [tf_trapno tf];;
  (if tf_trapno tf =? T_PGFLT then cprintf ("  cr2  0x%08x" +:+ nl) [cr2] else mret tt);;
  cprintf "  err  0x%08x" [tf_err tf];;
  (if tf_trapno tf =? T_PGFLT then
     cprintf (" [" +:+ (if has (tf_err tf) 4 then "user" else "kernel") +:+ ", "
       +:+ (if has (tf_err tf) 2 then "write" else "read") +:+ ", "
       +:+ (if has (tf_err tf) 1 then "protection" else "not-present") +:+ "]" +:+ nl) []
   else cprintf nl []);;
  cprintf ("  eip  0x%08x" +:+ nl) [tf_eip tf];;
  cprintf ("  cs   0x----%04x" +:+ nl) [tf_cs tf];;
  cprintf ("  flag 0x%08x" +:+ nl) [tf_eflags tf];;
  if negb (Z.land (tf_cs tf) 3 =? 0) then
    cprintf ("  esp  0x%08x" +:+ nl) [tf_esp tf];;
    cprintf ("  ss   0x----%04x" +:+ nl) [tf_ss tf]
  else mret tt.

(** What a trap can call besides: the monitor and the device interrupts. *)
Class TrapDevices := {
  monitor : Trapframe -> K unit;     (* kern/monitor.c *)
  kbd_intr : K unit;                 (* kern/console.c *)
  serial_intr : K unit
}.

(** The words of a [struct UTrapframe], in order. *)
Definition utrapframe (fault_va : Z) (tf : Trapframe) : list Z :=
  [fault_va; tf_err tf;
   reg_edi (tf_regs tf); reg_esi (tf_regs tf); reg_ebp (tf_regs tf); reg_oesp (tf_regs tf);
   reg_ebx (tf_regs tf); reg_edx (tf_regs tf); reg_ecx (tf_regs tf); reg_eax (tf_regs tf);
   tf_eip tf; tf_eflags tf; tf_esp tf].
Definition sizeof_UTrapframe : Z := 52.

Definition word_bytes (w : Z) : list Z := [w8 w; w8 (w / 256); w8 (w / 65536); w8 (w / 16777216)].

Section trap.
Context `{Devices} `{TrapDevices} (tfa : Z).

(** In kernel mode the frame is the interrupted kernel's; in user mode it is
    [curenv]'s saved one. *)
Definition page_fault_handler (cr2 : Z) (tf : Trapframe) : K unit :=
  let fault_va := cr2 in
  if Z.land (tf_cs tf) 3 =? 0 then
    if fault_va >=? ULIM then panic "page fault in kernel"
    else
      cprintf ("page fault at %08x in kernel environment" +:+ nl) [fault_va];;
      c ← cur; env_destroy c
  else
    c ← cur; cv ← env c;
    if env_pgfault_upcall cv =? 0 then
      cprintf ("[%08x] user fault va %08x ip %08x" +:+ nl) [env_id cv; fault_va; tf_eip tf];;
      print_trapframe tfa cr2 tf;;
      env_destroy c
    else
      user_mem_assert c (UXSTACKTOP - PGSIZE) PGSIZE PTE_W;;
      let fault_stack :=
        if (tf_esp tf >=? UXSTACKTOP - PGSIZE) && (tf_esp tf <? UXSTACKTOP)
        then w32 (tf_esp tf - 4 - sizeof_UTrapframe)
        else UXSTACKTOP - sizeof_UTrapframe in
      user_mem_assert c fault_stack sizeof_UTrapframe PTE_W;;
      vwrite fault_stack (utrapframe fault_va tf ≫= word_bytes);;
      upd_env c (fun ev => ev <| env_tf := env_tf ev <| tf_esp := fault_stack |> |>);;
      upd_env c (fun ev => ev <| env_tf := env_tf ev
        <| tf_eip := env_pgfault_upcall ev |> |>).

(** The result of a system call goes to [tf->tf_regs.reg_eax]; [tf] is the
    frame of [curenv] when it was taken from user mode. *)
Definition trap_dispatch (cr2 : Z) (tf : Trapframe) : K unit :=
  let no := tf_trapno tf in
  if no =? T_PGFLT then page_fault_handler cr2 tf
  else if no =? T_BRKPT then monitor tf
  else if no =? T_SYSCALL then
    c ← cur;
    let r := tf_regs tf in
    ret ← syscall (reg_eax r) (reg_edx r) (reg_ecx r) (reg_ebx r) (reg_edi r) (reg_esi r);
    upd_env c (fun ev => ev <| env_tf := env_tf ev <| tf_regs :=
      tf_regs (env_tf ev) <| reg_eax := w32 ret |> |> |>)
  else if no =? IRQ_OFFSET + IRQ_SPURIOUS then
    cprintf ("Spurious interrupt on irq 7" +:+ nl) [];;
    print_trapframe tfa cr2 tf
  else if no =? IRQ_OFFSET + IRQ_TIMER then
    n ← gets cpunum;
    (if n =? 0 then time_tick else mret tt);;
    sched_yield
  else if no =? IRQ_OFFSET + IRQ_KBD then kbd_intr
  else if no =? IRQ_OFFSET + IRQ_SERIAL then serial_intr
  else
    print_trapframe tfa cr2 tf;;
    if tf_cs tf =? GD_KT then panic "unhandled trap in kernel"
    else c ← cur; env_destroy c.

(** The end of [trap]. *)
Definition trap_return {A} : K A :=
  ce ← gets curenv;
  match ce with
  | Some c =>
      ev ← env c;
      if env_status ev =? ENV_RUNNING then env_run c else sched_yield
  | None => sched_yield
  end.

(** A page fault of the kernel itself: a nested trap, after which the
    interrupted kernel code is never resumed. *)
Definition kernel_fault {A} (va : Z) : K A :=
  let tf : Trapframe := inhabitant in
  modify (set_thiscpu (fun c => c <| cpu_status := CPU_STARTED |>));;
  page_fault_handler va (tf <| tf_trapno := T_PGFLT |> <| tf_cs := GD_KT |>);;
  trap_return.
Definition with_faults {A} (m : K A) : K A := fun s =>
  match m s with
  | Exit (KernelFault va) s' => kernel_fault va s'
  | r => r
  end.

Definition trap_cpu_status : K unit :=
  c ← gets thiscpu;
  modify (set_thiscpu (fun c => c <| cpu_status := CPU_STARTED |>));;
  if cpu_status c =? CPU_HALTED then lock_kernel else mret tt.

Definition trap {A} (cr2 : Z) (tf : Trapframe) : K A :=
  trap_cpu_status;;
  (if Z.land (tf_cs tf) 3 =? 3 then
     lock_kernel;;
     ce ← gets curenv;
     match ce with
     | None => panic "assertion failed: curenv"
     | Some c =>
         ev ← env c;
         (if env_status ev =? ENV_DYING then
            env_free c;;
            set_curenv None;;
            sched_yield
          else mret tt);;
         upd_env c (fun ev => ev <| env_tf := tf |>)
     end
   else mret tt);;
  with_faults (trap_dispatch cr2 tf);;
  trap_return.
End trap.
