(* ===== verification/EnvInv.v ===== *)
(** * Invariant of the environment table, and the life of an environment

    Every environment that is not free owns one page directory of the ownership
    invariant of [VmInv], the free environments are on the free list, and
    identifiers name their slot.  [env_alloc], [env_free] and [env_destroy] keep
    it; what they do to the other environments is stated with it. *)

From S2P Require Import Prelude Mem CString Mmu KState Pmap VmInv VmSpec VmLife Environ Sched.

(** A slot in use. *)
Definition live (s : kst) (e : Z) : Prop := 0 <= e < NENV /\ env_status (envs s !!! e) <> ENV_FREE.
#[export] Instance live_dec s e : Decision (live s e).
Proof. unfold live. apply _. Defined.

Record sys_inv (s : kst) (dirs : list Z) (rl : Z -> role) : Prop := {
  si_vm : vm_inv s dirs rl None;
  (* the kernel's page directory has no user half *)
  si_kern : exists k, kern_pgdir s = kva k /\ rl k = RKernel /\ 0 <= k < npages s /\
    forall i, 0 <= i < NUPDE -> pt_of (mem s) k i = None;
  (* page directory entries above UTOP name page tables in memory *)
  si_khalf : forall d w t, d ∈ dirs \/ kern_pgdir s = kva d -> NUPDE <= w < 1024 ->
    ent (word (mem s) d w) = Some t -> 0 <= t < npages s;
  (* and the topmost page is the kernel's *)
  si_top : forall d t, d ∈ dirs \/ kern_pgdir s = kva d -> ent (word (mem s) d 1023) = Some t ->
    rl t = RKernel /\ has (word (mem s) t 1023) PTE_U = false;
  si_env : forall e, live s e -> exists d, d ∈ dirs /\ env_pgdir (envs s !!! e) = kva d;
  si_dir : forall d, d ∈ dirs -> exists e, live s e /\ env_pgdir (envs s !!! e) = kva d;
  si_inj : forall e1 e2, live s e1 -> live s e2 ->
    env_pgdir (envs s !!! e1) = env_pgdir (envs s !!! e2) -> e1 = e2;
  si_free : linked (fun e => env_link (envs s !!! e)) (env_free_list s)
    (fun e => 0 <= e < NENV /\ env_status (envs s !!! e) = ENV_FREE);
  si_id : forall e, 0 <= e < NENV -> 0 <= env_id (envs s !!! e) < 2 ^ 31;
  si_idx : forall e, live s e -> 0 < env_id (envs s !!! e) /\ ENVX (env_id (envs s !!! e)) = e
}.

Lemma kva_inj p q : kva p = kva q -> p = q.
Proof. unfold kva, PGSIZE. lia. Qed.

Lemma PADDR_kva s p : 0 <= p < npages s -> npages s <= 2 ^ 16 -> PADDR (kva p) s = Ret (p * PGSIZE) s.
Proof.
  intros Hp Hn. unfold PADDR. rewrite w32_small by (unfold kva, KERNBASE, PGSIZE; lia).
  destruct (Z.ltb_spec (kva p) KERNBASE) as [H | _]; [unfold kva, PGSIZE in H; lia|].
  unfold mret, K_ret. f_equal. unfold kva. lia.
Qed.

(** ** Operations on pages only *)

Lemma frame_envs s s' : vm_frame s s' -> envs s' = envs s.
Proof. by intros (? & ? & ? & ? & -> & _). Qed.
Lemma frame_env_free s s' : vm_frame s s' -> env_free_list s' = env_free_list s.
Proof. by intros (? & ? & ? & ? & -> & _). Qed.
Lemma frame_npages s s' : vm_frame s s' -> npages s' = npages s.
Proof. by intros (? & ? & ? & ? & -> & _). Qed.
Lemma frame_kern s s' : vm_frame s s' -> kern_pgdir s' = kern_pgdir s.
Proof. by intros (? & ? & ? & ? & -> & _). Qed.
Lemma frame_cpunum s s' : vm_frame s s' -> cpunum s' = cpunum s.
Proof. by intros (? & ? & ? & ? & -> & _). Qed.
Lemma frame_lock s s' : vm_frame s s' -> kernel_lock s' = kernel_lock s.
Proof. by intros (? & ? & ? & ? & -> & _). Qed.
Lemma frame_curenv s s' : vm_frame s s' -> curenv s' = curenv s.
Proof.
  intros (m & ps & fl & cs & -> & H). unfold curenv, thiscpu. simpl.
  pose proof (f_equal cpu_env (H (cpunum s))) as He. simpl in He. exact He.
Qed.
Lemma frame_live s s' e : vm_frame s s' -> live s' e <-> live s e.
Proof. intros H. unfold live. by rewrite (frame_envs _ _ H). Qed.

(** The environment table's part of the invariant only depends on these. *)
Lemma sys_inv_pages s s' dirs rl rl' :
  sys_inv s dirs rl -> vm_inv s' dirs rl' None -> vm_frame s s' ->
  (forall p k, rl p = RKernel -> 0 <= k < 1024 -> word (mem s') p k = word (mem s) p k) ->
  keeps_khalf dirs s s' ->
  (forall p, rl p = RKernel -> rl' p = RKernel) ->
  sys_inv s' dirs rl'.
Proof.
  intros Hs Hv Hf Hd Hkh Hr. destruct Hs as [Hvm Hk Hkd Htop He Hdir Hinj Hfree Hid Hidx].
  constructor; try done.
  - destruct Hk as (k & Hk & Hrk & Hkr & Hno). exists k.
    rewrite (frame_kern _ _ Hf), (frame_npages _ _ Hf). repeat split; try done; auto; try lia.
    intros i Hi. rewrite <- (Hno i Hi). unfold pt_of. rewrite Hd; [done | done |].
    rewrite NUPDE_val in Hi. lia.
  - intros d w t Hdk Hw. rewrite (frame_kern _ _ Hf) in Hdk. rewrite (frame_npages _ _ Hf).
    intros Ht. apply (Hkd d w t Hdk Hw). rewrite <- Ht. f_equal. symmetry.
    destruct Hdk as [Hin | Hkk]; [by apply Hkh|]. destruct Hk as (k & Hk & Hrk & _).
    rewrite Hk in Hkk. apply kva_inj in Hkk as <-. apply Hd; [done|]. rewrite NUPDE_val in Hw. lia.
  - intros d t Hdk. rewrite (frame_kern _ _ Hf) in Hdk. intros Ht.
    assert (Hwd : word (mem s') d 1023 = word (mem s) d 1023).
    { destruct Hdk as [Hin | Hkk]; [apply Hkh; [done | by rewrite NUPDE_val]|].
      destruct Hk as (k & Hk & Hrk & _). rewrite Hk in Hkk. apply kva_inj in Hkk as <-. by apply Hd. }
    rewrite Hwd in Ht. destruct (Htop d t Hdk Ht) as [Hrt Hu]. split; [by apply Hr|].
    rewrite Hd by done. exact Hu.
  - intros e. rewrite (frame_live _ _ _ Hf), (frame_envs _ _ Hf). apply He.
  - intros d Hin. destruct (Hdir d Hin) as (e & Hl & Hp). exists e.
    by rewrite (frame_live _ _ _ Hf), (frame_envs _ _ Hf).
  - intros e1 e2. rewrite !(frame_live _ _ _ Hf), (frame_envs _ _ Hf). apply Hinj.
  - by rewrite (frame_envs _ _ Hf), (frame_env_free _ _ Hf).
  - by rewrite (frame_envs _ _ Hf).
  - intros e. rewrite (frame_live _ _ _ Hf), (frame_envs _ _ Hf). apply Hidx.
Qed.

Lemma sys_inv_slot s s' dirs rl rl' x o :
  sys_inv s dirs rl -> vm_inv s' dirs rl' None -> slot_set dirs rl rl' s s' x o ->
  sys_inv s' dirs rl'.
Proof.
  intros Hs Hv [_ _ Hd Hkh Hr Hf]. eapply sys_inv_pages; eauto.
  intros p Hp. rewrite (rs_fixed _ _ Hr); auto.
Qed.

(** Changing a live environment's other fields. *)
Lemma sys_inv_env s dirs rl e v :
  sys_inv s dirs rl -> live s e -> env_pgdir v = env_pgdir (envs s !!! e) ->
  env_id v = env_id (envs s !!! e) -> env_status v <> ENV_FREE ->
  sys_inv (s <| envs := <[e := v]> (envs s) |>) dirs rl.
Proof.
  intros [Hvm Hk Hkd Htop He Hdir Hinj Hfree Hid Hidx] Hl Hpg Hi Hst.
  assert (Hlive : forall x, live (s <| envs := <[e := v]> (envs s) |>) x <-> live s x).
  { intros x. unfold live. simpl. destruct (decide (x = e)) as [-> | ?].
    - rewrite lookup_total_insert_eq. destruct Hl. done.
    - by rewrite lookup_total_insert_ne. }
  assert (Hf : forall x (A : Type) (f : Env -> A), f v = f (envs s !!! e) ->
    f (<[e := v]> (envs s) !!! x) = f (envs s !!! x)).
  { intros x A f Hfe. destruct (decide (x = e)) as [-> | ?].
    - by rewrite lookup_total_insert_eq.
    - by rewrite lookup_total_insert_ne. }
  constructor; simpl.
  - eapply vm_inv_eq; [|exact Hvm]. done.
  - exact Hk.
  - exact Hkd.
  - exact Htop.
  - intros x. rewrite Hlive, (Hf x _ env_pgdir) by done. apply He.
  - intros d Hin. destruct (Hdir d Hin) as (x & Hx & Hp). exists x.
    by rewrite Hlive, (Hf x _ env_pgdir).
  - intros x y. rewrite !Hlive, (Hf x _ env_pgdir), (Hf y _ env_pgdir) by done. apply Hinj.
  - eapply linked_keep; [exact Hfree | |].
    + intros x [_ Hx]. simpl. destruct (decide (x = e)) as [-> | ?]; [by destruct Hl|].
      by rewrite lookup_total_insert_ne.
    + intros x. destruct (decide (x = e)) as [-> | ?].
      * rewrite lookup_total_insert_eq. destruct Hl. naive_solver.
      * by rewrite lookup_total_insert_ne.
  - intros x Hx. rewrite (Hf x _ env_id) by done. by apply Hid.
  - intros x. rewrite Hlive, (Hf x _ env_id) by done. apply Hidx.
Qed.

(** A processor's registers and the lock are no part of it. *)
Lemma sys_inv_cpus s dirs rl cs kl :
  sys_inv s dirs rl -> sys_inv (s <| cpus := cs |> <| kernel_lock := kl |>) dirs rl.
Proof. intros []. constructor; try done. eapply vm_inv_eq; [|eassumption]. done. Qed.

(** ** [env_setup_vm] *)

(** The copy loop: the new directory [p] becomes the kernel's directory [k]. *)
Lemma copy_pgdir s e k p n i :
  kern_pgdir s = kva k -> env_pgdir (envs s !!! e) = kva p -> k <> p ->
  0 <= i -> i + Z.of_nat n <= 1024 ->
  exists m',
    kfor n i (fun i =>
      kp ← gets kern_pgdir; ev ← env e;
      v ← load32 (kp + 4 * i); store32 (env_pgdir ev + 4 * i) v) s = Ret tt (s <| mem := m' |>) /\
    forall q w, 0 <= w < 1024 -> word m' q w =
      if (q =? p) && (i <=? w) && (w <? i + Z.of_nat n) then word (mem s) k w else word (mem s) q w.
Proof.
  intros Hk Hp Hne. revert i s Hk Hp. induction n as [|n IH]; intros i s Hk Hp Hi0 Hi; cbn [kfor].
  - exists (mem s). split; [by destruct s|]. intros q w Hw.
    destruct (Z.leb_spec i w), (Z.ltb_spec w (i + Z.of_nat 0)); try lia; by rewrite ?andb_false_r.
  - set (s1 := s <| mem := st32 (mem s) (kva p + 4 * i) (word (mem s) k i) |>).
    assert (Hb : (kp ← gets kern_pgdir; ev ← env e;
        v ← load32 (kp + 4 * i); store32 (env_pgdir ev + 4 * i) v) s = Ret tt s1).
    { do 2 kb. rewrite Hk, Hp. krw (load_word s k i). done. }
    rewrite (bind_run _ _ _ _ _ Hb).
    destruct (IH (i + 1) s1 Hk Hp ltac:(lia) ltac:(lia)) as (m' & Hrun & Hw').
    exists m'. split; [exact Hrun|]. intros q w Hw. rewrite Hw' by done.
    unfold s1. simpl. rewrite !word_st32 by lia. rewrite w32_small by apply word_bound.
    rewrite (proj2 (Z.eqb_neq k p)) by done. rewrite andb_false_l.
    destruct (Z.eqb_spec q p) as [-> | Hq]; [|done]. rewrite !andb_true_l.
    destruct (Z.eqb_spec w i) as [-> | Hwi].
    + destruct (Z.leb_spec (i + 1) i); [lia|]. rewrite andb_false_l.
      destruct (Z.leb_spec i i), (Z.ltb_spec i (i + Z.of_nat (S n))); try lia. done.
    + destruct (Z.leb_spec (i + 1) w), (Z.leb_spec i w), (Z.ltb_spec w (i + 1 + Z.of_nat n)),
        (Z.ltb_spec w (i + Z.of_nat (S n))); try lia; done.
Qed.

Definition NUPDE_UVPT : PDX UVPT = 957 := eq_refl.

(** The contract of [env_setup_vm]: out of memory, nothing changes; otherwise a
    page [p] becomes the directory of [e], equal to the kernel's above [UTOP]
    but for the self map, and empty below. *)
Record vm_setup (s s' : kst) (e p : Z) : Prop := {
  vs_frame : vm_frame (s <| envs := <[e := (envs s !!! e) <| env_pgdir := kva p |>]> (envs s) |>) s';
  vs_words : forall q w, q <> p -> 0 <= w < 1024 -> word (mem s') q w = word (mem s) q w;
  vs_kern : forall w, 0 <= w < 1024 -> w <> PDX UVPT ->
    word (mem s') p w = ld32 (mem s) (kern_pgdir s + 4 * w);
  vs_self : word (mem s') p (PDX UVPT) = Z.lor (Z.lor (p * PGSIZE) PTE_P) PTE_U }.

Lemma env_setup_vm_nomem s e : page_free_list s = None -> env_setup_vm e s = Ret (- E_NO_MEM) s.
Proof. intros H. unfold env_setup_vm. krw (page_alloc_none s ALLOC_ZERO H). done. Qed.

Lemma env_setup_vm_spec s dirs rl e p :
  sys_inv s dirs rl -> page_free_list s = Some p ->
  exists s',
    env_setup_vm e s = Ret 0 s' /\ vm_setup s s' e p /\ rl p = RFree /\
    vm_inv s' (p :: dirs) (set_role rl p RDir) None.
Proof.
  intros Hs Hf. pose proof (si_vm _ _ _ Hs) as Hvm. pose proof (vi_npages _ _ _ _ Hvm) as Hnp.
  destruct (vi_head _ _ _ _ _ Hvm Hf) as [Hrp Hpr].
  destruct (si_kern _ _ _ Hs) as (k & Hk & Hrk & Hkr & Hno).
  assert (Hkp : k <> p) by congruence.
  pose proof (alloc_inv ALLOC_ZERO s dirs rl p Hvm Hf) as Hvm1.
  unfold env_setup_vm. krw (page_alloc_some s ALLOC_ZERO p Hf Hpr ltac:(lia)).
  set (s1 := after_alloc ALLOC_ZERO s p) in *.
  assert (Hfr1 : vm_frame s s1) by apply after_alloc_frame.
  pose proof (after_alloc_pages ALLOC_ZERO s p : pages s1 = _) as Hps1.
  assert (Hw1 : forall q w, 0 <= w < 1024 ->
    word (mem s1) q w = if q =? p then 0 else word (mem s) q w).
  { intros. unfold s1. rewrite after_alloc_mem. by apply alloc_mem_word. }
  assert (Hno1 : npages s1 = npages s) by apply (frame_npages _ _ Hfr1).
  assert (He1 : envs s1 = envs s) by apply (frame_envs _ _ Hfr1).
  assert (Hk1 : kern_pgdir s1 = kva k) by (by rewrite (frame_kern _ _ Hfr1)).
  clearbody s1.
  krw (page2kva_run s1 p ltac:(lia) ltac:(lia)).
  do 2 kb.
  set (s2 := s1 <| envs := <[e := (envs s1 !!! e) <| env_pgdir := kva p |>]> (envs s1) |>).
  assert (Hp2 : pages s2 !!! p = {| pp_link := None; pp_ref := 0 |}).
  { change (pages s2) with (pages s1). rewrite Hps1. by rewrite lookup_total_insert_eq. }
  krw (page_incref_run s2 p ltac:(rewrite Hp2; simpl; lia) ltac:(rewrite Hp2; simpl; lia)).
  set (s3 := s2 <| pages := _ |>).
  assert (Hno3 : npages s3 = npages s) by done.
  assert (Hm3 : mem s3 = mem s1) by done.
  assert (He3 : env_pgdir (envs s3 !!! e) = kva p).
  { unfold s3, s2. simpl. by rewrite lookup_total_insert_eq. }
  assert (Hk3 : kern_pgdir s3 = kva k) by done.
  destruct (copy_pgdir s3 e k p (Z.to_nat NPDENTRIES) 0 Hk3 He3 Hkp ltac:(lia) ltac:(done))
    as (m' & Hrun & Hw).
  krw Hrun. clear Hrun. kb.
  set (s3' := s3 <| mem := m' |>).
  assert (Hno3' : npages s3' = npages s) by done.
  change (envs s3') with (envs s3). rewrite He3.
  krw (PADDR_kva s3' p ltac:(rewrite Hno3'; lia) ltac:(rewrite Hno3'; lia)).
  kb. eexists. split; [reflexivity|]. set (s4 := s3' <| mem := _ |>).
  assert (Hlor : 0 <= Z.lor (Z.lor (p * PGSIZE) PTE_P) PTE_U < 2 ^ 32).
  { repeat (apply lor_bound; [lia| |unfold PTE_U, PTE_P; lia]). unfold PGSIZE. lia. }
  assert (Hw4 : forall q w, 0 <= w < 1024 -> word (mem s4) q w =
    if q =? p then if w =? PDX UVPT then Z.lor (Z.lor (p * PGSIZE) PTE_P) PTE_U
                   else word (mem s) k w else word (mem s) q w).
  { intros q w Hw'. unfold s4. simpl. change (PDX UVPT) with 957. rewrite word_st32, Hw by lia.
    rewrite w32_small by done. rewrite Hm3, !Hw1 by done. rewrite (proj2 (Z.eqb_neq k p)) by done.
    change (Z.of_nat (Z.to_nat NPDENTRIES)) with 1024.
    destruct (Z.eqb_spec q p); simpl; [|done]. destruct (Z.eqb_spec w 957); simpl; [done|].
    destruct (Z.leb_spec 0 w), (Z.ltb_spec w (0 + 1024)); try lia; done. }
  split; [|split; [done|]].
  - constructor.
    + destruct Hfr1 as (m1 & ps1 & fl1 & cs1 & -> & Hcs). unfold s4, s3', s3, s2.
      eexists _, _, fl1, cs1. split; [reflexivity | exact Hcs].
    + intros q w Hq Hww. rewrite Hw4 by done. by rewrite (proj2 (Z.eqb_neq q p)).
    + intros w Hww Hne. rewrite Hw4 by done. rewrite Z.eqb_refl, (proj2 (Z.eqb_neq w _)) by done.
      by rewrite Hk.
    + rewrite Hw4 by done. by rewrite !Z.eqb_refl.
  - eapply vm_inv_roles; [apply set_role_twice with (r1 := RUser)|]. eapply (dir_add_inv s1).
    + exact Hvm1.
    + reflexivity.
    + done.
    + unfold s4, s3', s3. simpl. unfold s2. simpl. rewrite !Hps1. by rewrite !lookup_total_insert_eq.
    + intros q w Hq Hww. rewrite Hw4, Hw1 by done. by rewrite (proj2 (Z.eqb_neq q p)).
    + intros i Hi. rewrite NUPDE_val in Hi. unfold pt_of. rewrite Hw4 by lia.
      rewrite Z.eqb_refl, (proj2 (Z.eqb_neq i _)) by (change (PDX UVPT) with 957; lia).
      apply Hno. by rewrite NUPDE_val.
Qed.

(** ** [env_alloc] *)

(** The generation moves on by one, wrapping before the sign bit. *)
Lemma next_generation_val old :
  0 <= old < 2 ^ 31 ->
  next_generation old =
    if old / 1024 * 1024 + 4096 <? 2 ^ 31 then old / 1024 * 1024 + 4096 else 4096.
Proof.
  intros H. unfold next_generation. change (NENV - 1) with (2 ^ 10 - 1).
  change (Z.shiftl 1 ENVGENSHIFT) with 4096. rewrite land_lnot_ones by lia. cbv zeta.
  change (2 ^ 10) with 1024. destruct (Z.ltb_spec (old / 1024 * 1024 + 4096) (2 ^ 31)) as [Hlt | Hge].
  - rewrite s32_small by (change (2 ^ 31) with 2147483648 in *; zlia).
    replace ((old + 4096) / 1024) with (old / 1024 + 4) by zlia.
    destruct (Z.leb_spec ((old / 1024 + 4) * 1024) 0); zlia.
  - assert (Hs : s32 (old + 4096) = old + 4096 - 2 ^ 32).
    { unfold s32, w32. change (2 ^ 31) with 2147483648 in *. change (2 ^ 32) with 4294967296.
      case_bool; zlia. }
    rewrite Hs. destruct (Z.leb_spec ((old + 4096 - 2 ^ 32) / 1024 * 1024) 0) as [_ | Hpos]; [done|].
    change (2 ^ 31) with 2147483648 in *. change (2 ^ 32) with 4294967296 in Hpos. zlia.
Qed.

Definition new_id (old e : Z) : Z := Z.lor (next_generation old) e.

Lemma new_id_val old e :
  0 <= old < 2 ^ 31 -> 0 <= e < NENV -> new_id old e = next_generation old + e.
Proof.
  intros Ho He. unfold NENV in He. apply lor_add_disjoint with (n := 10); [lia | lia |].
  rewrite next_generation_val by done. change (2 ^ 10) with 1024. case_bool; [|done].
  replace (old / 1024 * 1024 + 4096) with ((old / 1024 + 4) * 1024) by lia. by apply Z.mod_mul.
Qed.
Lemma next_generation_range old :
  0 <= old < 2 ^ 31 -> 4096 <= next_generation old <= 2 ^ 31 - 1024.
Proof.
  intros H. rewrite next_generation_val by done. change (2 ^ 31) with 2147483648 in *.
  case_bool; zbool; zlia.
Qed.
Lemma new_id_ok old e :
  0 <= old < 2 ^ 31 -> 0 <= e < NENV ->
  0 < new_id old e < 2 ^ 31 /\ ENVX (new_id old e) = e.
Proof.
  intros Ho He. pose proof (next_generation_range old Ho).
  rewrite new_id_val by done. unfold NENV in He. split; [lia|].
  unfold ENVX. change (NENV - 1) with (2 ^ 10 - 1). rewrite land_ones_mod by lia.
  rewrite next_generation_val by done. change (2 ^ 10) with 1024. case_bool; zlia.
Qed.

Definition alloc_env (ev : Env) (e parent_id : Z) : Env :=
  ev <| env_id := new_id (env_id ev) e |> <| env_parent_id := parent_id |>
     <| env_type := ENV_TYPE_USER |> <| env_status := ENV_RUNNABLE |>
     <| env_runs := 0 |> <| env_tf := env_alloc_tf |>
     <| env_pgfault_upcall := 0 |> <| env_ipc_recving := false |>.
Definition fresh_env (ev : Env) (d e parent_id : Z) : Env :=
  alloc_env (ev <| env_pgdir := kva d |>) e parent_id.

(** The contract of [env_alloc] when it succeeds: slot [e] comes off the free
    list with a directory [d] of its own; nothing else changes. *)
Record env_allocated (dirs : list Z) (rl : Z -> role) (s s' : kst) (e d parent_id : Z) : Prop := {
  ea_slot : env_free_list s = Some e;
  ea_page : page_free_list s = Some d;
  ea_frame : vm_frame (s <| envs := <[e := fresh_env (envs s !!! e) d e parent_id]> (envs s) |>
                         <| env_free_list := env_link (envs s !!! e) |>) s';
  ea_words : forall q w, q <> d -> 0 <= w < 1024 -> word (mem s') q w = word (mem s) q w;
  ea_empty : forall i, 0 <= i < NUPDE -> pt_of (mem s') d i = None;
  ea_kern : forall w, NUPDE <= w < 1024 -> w <> PDX UVPT ->
    word (mem s') d w = ld32 (mem s) (kern_pgdir s + 4 * w);
  ea_inv : sys_inv s' (d :: dirs) (set_role rl d RDir) }.

Lemma frame_set_envs s s' f el : vm_frame s s' ->
  vm_frame (s <| envs := f |> <| env_free_list := el |>)
           (s' <| envs := f |> <| env_free_list := el |>).
Proof.
  intros (m & ps & fl & cs & -> & H). exists m, ps, fl, cs. kexplode s.
  split; [by kred | exact H].
Qed.

(** The environment table when slot [e] is taken with directory [d]. *)
Lemma env_take_inv s s' dirs rl e d parent_id :
  sys_inv s dirs rl -> env_free_list s = Some e -> d ∉ dirs -> rl d = RFree ->
  vm_inv s' (d :: dirs) (set_role rl d RDir) None ->
  vm_frame (s <| envs := <[e := fresh_env (envs s !!! e) d e parent_id]> (envs s) |>
              <| env_free_list := env_link (envs s !!! e) |>) s' ->
  (forall q w, q <> d -> 0 <= w < 1024 -> word (mem s') q w = word (mem s) q w) ->
  (forall w t, NUPDE <= w < 1024 -> ent (word (mem s') d w) = Some t -> 0 <= t < npages s) ->
  (exists k, kern_pgdir s = kva k /\ word (mem s') d 1023 = word (mem s) k 1023) ->
  sys_inv s' (d :: dirs) (set_role rl d RDir).
Proof.
  intros Hs Hfe Hd Hrd Hvm Hfr Hw Hself (k0 & Hk0 & Hkw).
  destruct Hs as [Hvm0 Hk Hkd Htop He Hdir Hinj Hfree Hid Hidx].
  pose proof Hfree as Hfree'. rewrite Hfe in Hfree'.
  destruct (linked_head _ _ _ Hfree') as [Her Hst].
  pose proof (frame_envs _ _ Hfr : envs s' = _) as Henvs. simpl in Henvs.
  destruct (new_id_ok (env_id (envs s !!! e)) e (Hid e Her) Her) as [Hid1 Hid2].
  assert (Hlive : forall x, live s' x <-> x = e \/ x <> e /\ live s x).
  { intros x. unfold live. rewrite Henvs. destruct (decide (x = e)) as [-> | ?].
    - rewrite lookup_total_insert_eq. simpl. split; [auto | done].
    - rewrite lookup_total_insert_ne by done. naive_solver. }
  assert (Hee : envs s' !!! e = fresh_env (envs s !!! e) d e parent_id).
  { by rewrite Henvs, lookup_total_insert_eq. }
  assert (Hne : forall x, x <> e -> envs s' !!! x = envs s !!! x).
  { intros. by rewrite Henvs, lookup_total_insert_ne. }
  assert (Hnew : forall x, live s x -> env_pgdir (envs s !!! x) <> kva d).
  { intros x Hx Heq. destruct (He x Hx) as (d' & Hd' & Hp'). rewrite Heq in Hp'.
    by apply kva_inj in Hp' as ->. }
  constructor; [done | | | | | | | | |].
  - destruct Hk as (k & Hk & Hrk & Hkr & Hno). exists k.
    rewrite (frame_kern _ _ Hfr), (frame_npages _ _ Hfr). simpl.
    assert (k <> d) by congruence. rewrite set_role_ne by done. repeat split; try done; try lia.
    intros i Hi. rewrite <- (Hno i Hi). unfold pt_of. rewrite NUPDE_val in Hi.
    rewrite Hw; [done | done | lia].
  - intros d' w t Hdk Hww Ht. rewrite (frame_npages _ _ Hfr). simpl.
    destruct (decide (d' = d)) as [-> | Hne']; [by eapply Hself|].
    pose proof Hww as Hww'. rewrite NUPDE_val in Hww'. rewrite Hw in Ht by (done || lia).
    eapply Hkd; [|exact Hww|exact Ht]. rewrite (frame_kern _ _ Hfr) in Hdk.
    destruct Hdk as [[? | ?]%elem_of_cons | ?]; [done | auto | by right].
  - intros d' t Hdk Ht. rewrite (frame_kern _ _ Hfr) in Hdk. simpl in Hdk.
    assert (Hold : exists d0, (d0 ∈ dirs \/ kern_pgdir s = kva d0) /\
      word (mem s') d' 1023 = word (mem s) d0 1023).
    { destruct (decide (d' = d)) as [-> | Hne']; [by exists k0; auto|]. exists d'.
      split; [|by apply Hw]. destruct Hdk as [[? | ?]%elem_of_cons | ?]; [done | auto | by right]. }
    destruct Hold as (d0 & Hd0 & Hwd). rewrite Hwd in Ht.
    destruct (Htop d0 t Hd0 Ht) as [Hrt Hu]. assert (t <> d) by congruence.
    rewrite set_role_ne by done. split; [done|]. by rewrite Hw.
  - intros x [-> | [Hx Hl]]%Hlive.
    + exists d. rewrite Hee. split; [set_solver | done].
    + destruct (He x Hl) as (d' & ? & ?). exists d'. rewrite Hne by done. split; [set_solver | done].
  - intros d' [-> | Hin]%elem_of_cons.
    + exists e. rewrite Hlive, Hee. auto.
    + destruct (Hdir d' Hin) as (x & Hl & Hp). exists x.
      assert (x <> e) by (intros ->; destruct Hl; congruence). rewrite Hlive, Hne by done. auto.
  - intros x y [-> | [Hx Hlx]]%Hlive [-> | [Hy Hly]]%Hlive; rewrite ?Hee, ?Hne by done.
    + done.
    + intros Heq. symmetry in Heq. by apply Hnew in Heq.
    + intros Heq. by apply Hnew in Heq.
    + by apply Hinj.
  - rewrite (frame_env_free _ _ Hfr). simpl.
    apply (linked_pop _ (fun x => env_link (envs s' !!! x)) e _
      (fun x => 0 <= x < NENV /\ env_status (envs s' !!! x) = ENV_FREE)) in Hfree'; [done | |].
    + intros x Hx. by rewrite Hne.
    + intros x. destruct (decide (x = e)) as [-> | Hx]; [rewrite Hee; naive_solver|].
      rewrite Hne by done. naive_solver.
  - intros x Hx. destruct (decide (x = e)) as [-> | ?]; [rewrite Hee; simpl; lia|].
    rewrite Hne by done. by apply Hid.
  - intros x [-> | [Hx Hl]]%Hlive; [rewrite Hee; simpl; split; [lia | done]|].
    rewrite Hne by done. by apply Hidx.
Qed.

Lemma env_alloc_no_slot s parent_id :
  env_free_list s = None -> env_alloc parent_id s = Ret (- E_NO_FREE_ENV, None) s.
Proof. intros H. unfold env_alloc. kb. by rewrite H. Qed.
Lemma env_alloc_nomem s parent_id e :
  env_free_list s = Some e -> page_free_list s = None ->
  env_alloc parent_id s = Ret (- E_NO_MEM, None) s.
Proof.
  intros H Hp. unfold env_alloc. kb. rewrite H. krw (env_setup_vm_nomem s e Hp). done.
Qed.

Lemma env_alloc_spec s dirs rl parent_id e d :
  sys_inv s dirs rl -> env_free_list s = Some e -> page_free_list s = Some d ->
  exists s', env_alloc parent_id s = Ret (0, Some e) s' /\
    env_allocated dirs rl s s' e d parent_id.
Proof.
  intros Hs Hfe Hfp. destruct (env_setup_vm_spec s dirs rl e d Hs Hfp)
    as (s1 & Hrun & [Hfr Hw Hkern Hself] & Hrd & Hvm).
  unfold env_alloc. kb. rewrite Hfe. krw Hrun. change (0 <? 0) with false. cbv iota.
  assert (Hes1 : envs s1 = <[e := (envs s !!! e) <| env_pgdir := kva d |>]> (envs s)).
  { exact (frame_envs _ _ Hfr). }
  do 3 kb. eexists. split; [reflexivity|].
  set (s' := s1 <| envs := _ |> <| env_free_list := _ |>).
  assert (Hd : d ∉ dirs).
  { intros Hin. apply (vi_dirs _ _ _ _ (si_vm _ _ _ Hs)) in Hin. congruence. }
  assert (Hfr' : vm_frame (s <| envs := <[e := fresh_env (envs s !!! e) d e parent_id]> (envs s) |>
              <| env_free_list := env_link (envs s !!! e) |>) s').
  { assert (Hx : envs s' = <[e := fresh_env (envs s !!! e) d e parent_id]> (envs s)).
    { change (envs s') with (<[e := alloc_env (envs s1 !!! e) e parent_id]> (envs s1)).
      rewrite Hes1, lookup_total_insert_eq, insert_insert_eq. done. }
    assert (Hy : env_free_list s' = env_link (envs s !!! e)).
    { change (env_free_list s') with (env_link (envs s' !!! e)). by rewrite Hx, lookup_total_insert_eq. }
    rewrite <- Hx, <- Hy. apply (frame_set_envs _ _ (envs s') (env_free_list s')) in Hfr. exact Hfr. }
  assert (Hvm' : vm_inv s' (d :: dirs) (set_role rl d RDir) None).
  { eapply vm_inv_eq; [|exact Hvm]. done. }
  constructor; try done.
  - intros i Hi. destruct (si_kern _ _ _ Hs) as (k & Hk & Hrk & Hkr & Hno).
    rewrite <- (Hno i Hi). rewrite NUPDE_val in Hi. unfold pt_of. simpl.
    rewrite Hkern by (change (PDX UVPT) with 957; lia). by rewrite Hk.
  - intros w Hwr Hne. rewrite NUPDE_val in Hwr. simpl. apply Hkern; [lia | done].
  - eapply env_take_inv; eauto; [|destruct (si_kern _ _ _ Hs) as (k & Hk & _); exists k;
      split; [done|]; simpl; rewrite Hkern by done; by rewrite Hk].
    intros w t Hwr Ht. simpl in Ht.
    pose proof (vi_range _ _ _ _ (si_vm _ _ _ Hs) d ltac:(congruence)) as Hdr.
    destruct (decide (w = PDX UVPT)) as [-> | Hne].
    + rewrite Hself in Ht. apply ent_Some in Ht as [_ ->].
      replace (Z.lor (Z.lor (d * PGSIZE) PTE_P) PTE_U) with (d * PGSIZE + 5).
      { unfold PGSIZE. zlia. }
      rewrite <- Z.lor_assoc. symmetry. apply lor_add_disjoint with (n := 12); [lia | done |].
      apply Z.mod_mul. done.
    + pose proof Hwr as Hwr'. rewrite NUPDE_val in Hwr'. rewrite Hkern in Ht by (done || lia).
      destruct (si_kern _ _ _ Hs) as (k & Hk & _). rewrite Hk in Ht.
      eapply (si_khalf _ _ _ Hs k w); eauto.
Qed.
