(* ===== verification/EnvFree.v ===== *)
(** * Destroying an environment

    [env_free] unmaps every user page, frees every page table and the directory,
    and leaves all the other address spaces as they were. *)

From S2P Require Import Prelude Mem CString Mmu KState Pmap VmInv VmSpec VmLife Environ Sched EnvInv.

(** What taking directory [d] apart does, step by step: pages only become free,
    other directories keep their maps, other pages their contents. *)
Record torn (dirs : list Z) (d : Z) (rl rl' : Z -> role) (s s' : kst) : Prop := {
  tn_vm : vm_inv s' dirs rl' None;
  tn_roles : forall p, rl' p = rl p \/
    rl' p = RFree /\ (rl p = RUser \/ exists i, rl p = RPT d i);
  tn_other : forall d' i j, d' ∈ dirs -> d' <> d -> 0 <= i < NUPDE -> 0 <= j < NPTENTRIES ->
    umap (mem s') d' i j = umap (mem s) d' i j;
  tn_words : forall p k, p <> d -> (forall i, rl p <> RPT d i) -> 0 <= k < 1024 ->
    word (mem s') p k = word (mem s) p k;
  tn_frame : vm_frame s s' }.

Lemma torn_refl dirs d rl s : vm_inv s dirs rl None -> torn dirs d rl rl s s.
Proof. constructor; auto. reflexivity. Qed.

Lemma torn_trans dirs d rl1 rl2 rl3 s1 s2 s3 :
  torn dirs d rl1 rl2 s1 s2 -> torn dirs d rl2 rl3 s2 s3 -> torn dirs d rl1 rl3 s1 s3.
Proof.
  intros [V1 R1 O1 W1 F1] [V2 R2 O2 W2 F2]. constructor.
  - done.
  - intros p. destruct (R1 p) as [H1 | [H1 ?]], (R2 p) as [H2 | [H2 [? | [i ?]]]];
      rewrite H2, ?H1; try (by auto); right; (split; [done|]); rewrite <- ?H1; eauto; congruence.
  - intros. rewrite O2, O1 by done. done.
  - intros p k Hp Hr Hk. rewrite W2, W1; try done.
    intros i Hi. destruct (R1 p) as [H1 | [H1 ?]]; rewrite H1 in Hi; [by eapply Hr | done].
  - by transitivity s2.
Qed.

Section teardown.
Context (dirs : list Z) (d : Z) (Hd : d ∈ dirs).

(** One mapping. *)
Lemma torn_remove s rl va t q :
  vm_inv s dirs rl None -> 0 <= va < UTOP ->
  pt_of (mem s) d (PDX va) = Some t -> upage (mem s) d (PDX va) (PTX va) = Some q ->
  exists s' rl', page_remove (kva d) va s = Ret tt s' /\ torn dirs d rl rl' s s' /\
    (forall d' i, d' ∈ dirs -> 0 <= i < NUPDE -> pt_of (mem s') d' i = pt_of (mem s) d' i) /\
    (forall j, 0 <= j < NPTENTRIES -> upage (mem s') d (PDX va) j =
       if decide (j = PTX va) then None else upage (mem s) d (PDX va) j).
Proof.
  intros Hi Hva Ht Hu. pose proof (PDX_user va Hva) as Hir. pose proof (PTX_range va) as Hjr.
  pose proof Hu as Hum. rewrite upage_umap in Hum.
  destruct (umap (mem s) d (PDX va) (PTX va)) as [v|] eqn:Ev; [|done].
  simpl in Hum. injection Hum as <-.
  destruct (after_remove_inv s dirs rl None Hi d va Hd Hva v t Ev Ht)
    as (Hi1 & _ & Hno & Hoth & Hdat & _ & Hfr & _).
  set (s' := after_remove s d va t (v / PGSIZE)) in *.
  assert (Hm : mem s' = st32 (mem s) (kva t + 4 * PTX va) 0).
  { exact (ve_mem _ _ (vm_eq_tlb (kva d) va _)). }
  destruct (slot_store _ _ _ _ _ _ _ _ _ 0 Hi Hd Hir Hjr Ht ltac:(lia) Hm)
    as (Hpt & _ & _).
  pose proof (vi_user _ _ _ _ Hi _ _ _ _ Hd Hir Hjr Hu) as Hr.
  exists s', (if pp_ref (pages s !!! (v / PGSIZE)) =? 1 then set_role rl (v / PGSIZE) RFree else rl).
  split; [by apply (page_remove_some s dirs rl None Hi d va Hd Hva v t)|].
  split; [|split; [done|]].
  - constructor; [done | | | | done].
    + intros p. case_bool; [|auto]. unfold set_role. case_bool; zbool; subst; auto.
    + intros d' i j Hd' Hne ? ?. apply Hoth; try done. congruence.
    + intros p k Hp Hrp Hk. rewrite Hm. unfold NPTENTRIES in Hjr. rewrite word_st32 by lia.
      rewrite (proj2 (Z.eqb_neq p t)); [done|]. intros ->.
      apply (Hrp (PDX va)). by apply (vi_pt _ _ _ _ Hi).
  - intros j Hj. case_decide as Hc.
    + subst. by apply umap_None.
    + rewrite !upage_umap. rewrite Hoth by (done || congruence). done.
Qed.

(** The loop over the entries of table [t] of slot [i]. *)
Lemma torn_entries s rl e i t :
  vm_inv s dirs rl None -> env_pgdir (envs s !!! e) = kva d -> 0 <= i < NUPDE ->
  pt_of (mem s) d i = Some t ->
  wp (kfor (Z.to_nat (PTX 0xFFFFFFFF + 1)) 0 (fun pteno =>
        pte ← load32 (kva t + 4 * pteno);
        if has pte PTE_P
        then ev ← env e; page_remove (env_pgdir ev) (PGADDR i pteno 0)
        else mret tt))
    (fun _ s' => exists rl', torn dirs d rl rl' s s' /\
       (forall d' i', d' ∈ dirs -> 0 <= i' < NUPDE -> pt_of (mem s') d' i' = pt_of (mem s) d' i') /\
       (forall j, 0 <= j < NPTENTRIES -> upage (mem s') d i j = None))
    (fun _ _ => False) s.
Proof.
  intros Hi He Hir Ht. pose proof Hir as Hir'. rewrite NUPDE_val in Hir'.
  change (Z.to_nat (PTX 0xFFFFFFFF + 1)) with (Z.to_nat 1024).
  eapply wp_mono; [eapply (wp_kfor _ _ (fun n s' => exists rl', torn dirs d rl rl' s s' /\
       (forall d' i', d' ∈ dirs -> 0 <= i' < NUPDE -> pt_of (mem s') d' i' = pt_of (mem s) d' i') /\
       (forall j, 0 <= j < n -> upage (mem s') d i j = None)) (fun _ _ => False)) | | auto].
  - exists rl. split; [by apply torn_refl|]. split; [done | intros; lia].
  - intros n s1 Hn (rl1 & Htorn & Hpt & Hup). rewrite Z2Nat.id in Hn by lia.
    assert (Ht1 : pt_of (mem s1) d i = Some t) by (rewrite Hpt; done).
    unfold wp. kb. fold (word (mem s1) t n).
    assert (Hj : 0 <= n < NPTENTRIES) by (unfold NPTENTRIES; lia).
    assert (Hva : PDX (PGADDR i n 0) = i /\ PTX (PGADDR i n 0) = n /\ 0 <= PGADDR i n 0 < UTOP).
    { rewrite PGADDR_add by (unfold NPDENTRIES, PGSIZE; lia).
      change PTSIZE with 4194304. unfold PGSIZE. change UTOP with 4005560320.
      unfold NPTENTRIES in Hj. split; [|split; [|lia]].
      - rewrite PDX_div by lia. change PTSIZE with 4194304. zlia.
      - rewrite PTX_div by lia. unfold PGSIZE, NPTENTRIES. zlia. }
    set (va := PGADDR i n 0) in *. clearbody va. destruct Hva as (Hpdx & Hptx & Hva).
    destruct (has (word (mem s1) t n) PTE_P) eqn:HP.
    + assert (Hu : upage (mem s1) d i n = Some (word (mem s1) t n / PGSIZE)).
      { unfold upage, upte, ent. by rewrite Ht1, HP. }
      rewrite <- Hpdx in Ht1. rewrite <- Hpdx, <- Hptx in Hu at 1.
      destruct (torn_remove s1 rl1 va t _ (tn_vm _ _ _ _ _ _ Htorn) Hva Ht1 Hu)
        as (s2 & rl2 & Hrun & Htorn2 & Hpt2 & Hup2).
      kb. rewrite (frame_envs _ _ (tn_frame _ _ _ _ _ _ Htorn)), He, Hrun.
      exists rl2. split; [by eapply torn_trans|]. split.
      * intros. rewrite Hpt2, Hpt by done. done.
      * rewrite Hpdx, Hptx in Hup2. intros j Hjn. rewrite Hup2 by lia.
        case_decide; [done|]. apply Hup. lia.
    + exists rl1. split; [done|]. split; [done|]. intros j Hjn.
      destruct (decide (j = n)) as [-> | ?]; [|apply Hup; lia].
      unfold upage, upte, ent. by rewrite Ht1, HP.
  - intros ? s' (rl' & ? & ? & Hup). exists rl'. split; [done|]. split; [done|].
    intros j Hj. apply Hup. unfold NPTENTRIES in Hj. lia.
Qed.

(** Dropping the emptied table. *)
Lemma torn_drop s rl i t :
  vm_inv s dirs rl None -> 0 <= i < NUPDE -> pt_of (mem s) d i = Some t ->
  (forall j, 0 <= j < NPTENTRIES -> upage (mem s) d i j = None) ->
  page_decref t (s <| mem := st32 (mem s) (kva d + 4 * i) 0 |>) = Ret tt (after_pt_drop s d i t) /\
  torn dirs d rl (set_role rl t RFree) s (after_pt_drop s d i t) /\
  (forall i', 0 <= i' < NUPDE -> pt_of (mem (after_pt_drop s d i t)) d i' =
     if decide (i' = i) then None else pt_of (mem s) d i').
Proof.
  intros Hi Hir Ht Hup. pose proof (vi_pt _ _ _ _ Hi _ _ _ Hd Hir Ht) as Hrt.
  destruct (vi_pt_ref _ _ _ _ Hi _ _ _ Hrt) as (Href & _).
  destruct (pt_drop_inv s dirs rl None d i t Hi Hd Hir Ht Hup) as (Hv & Hpt & Hupte).
  split.
  { rewrite page_decref_run by (simpl; lia). simpl. rewrite Href. done. }
  split.
  - constructor; [done | | | | by apply vm_frame_intro].
    + intros p. unfold set_role. case_bool; zbool; subst; eauto.
    + intros d' i' j Hd' Hne ? ?. unfold umap. rewrite Hupte by (done || congruence). done.
    + intros p k Hp _ Hk. unfold after_pt_drop. simpl. rewrite NUPDE_val in Hir.
      rewrite pt_drop_word by lia. by rewrite (proj2 (Z.eqb_neq p d)).
  - intros i' Hi'. rewrite Hpt by done. repeat case_decide; congruence.
Qed.

Lemma env_free_pde_spec s rl e i :
  vm_inv s dirs rl None -> env_pgdir (envs s !!! e) = kva d -> 0 <= i < NUPDE ->
  exists s' rl', env_free_pde e i s = Ret tt s' /\ torn dirs d rl rl' s s' /\
    (forall i', 0 <= i' < NUPDE -> pt_of (mem s') d i' =
       if decide (i' = i) then None else pt_of (mem s) d i').
Proof.
  intros Hi He Hir. pose proof (vi_npages _ _ _ _ Hi) as Hnp.
  unfold env_free_pde. do 2 kb. rewrite He. fold (word (mem s) d i).
  destruct (has (word (mem s) d i) PTE_P) eqn:HP; cbn [negb].
  - set (t := word (mem s) d i / PGSIZE).
    assert (Ht : pt_of (mem s) d i = Some t) by (unfold pt_of, ent; by rewrite HP).
    pose proof (vi_pt _ _ _ _ Hi _ _ _ Hd Hir Ht) as Hrt.
    pose proof (vi_range _ _ _ _ Hi t ltac:(congruence)) as Htr.
    cbv zeta. krw (KADDR_ent s _ t Ht Htr ltac:(lia)).
    destruct (wp_elim _ _ _ (torn_entries s rl e i t Hi He Hir Ht))
      as ([] & s1 & Hrun & rl1 & Htorn & Hpt1 & Hup1). krw Hrun.
    assert (Ht1 : pt_of (mem s1) d i = Some t) by (rewrite Hpt1; done).
    do 2 kb. rewrite (frame_envs _ _ (tn_frame _ _ _ _ _ _ Htorn)), He.
    pose proof (frame_npages _ _ (tn_frame _ _ _ _ _ _ Htorn)) as Hnp1.
    set (s2 := s1 <| mem := _ |>). assert (Hnp2 : npages s2 = npages s) by done.
    krw (pa2page_ent s2 _ t Ht ltac:(rewrite Hnp2; lia) ltac:(rewrite Hnp2; lia)).
    destruct (torn_drop s1 rl1 i t (tn_vm _ _ _ _ _ _ Htorn) Hir Ht1 Hup1) as (Hdec & Htorn2 & Hpt2).
    exists (after_pt_drop s1 d i t), (set_role rl1 t RFree). split; [exact Hdec|].
    split; [by eapply torn_trans|]. intros i' Hi'. rewrite Hpt2, Hpt1 by done. done.
  - exists s, rl. split; [done|]. split; [by apply torn_refl|].
    intros i' Hi'. case_decide; [subst|done]. unfold pt_of, ent. by rewrite HP.
Qed.

(** The loop over the user half of the directory. *)
Lemma env_free_pdes s rl e :
  vm_inv s dirs rl None -> env_pgdir (envs s !!! e) = kva d ->
  exists s' rl', kfor (Z.to_nat (PDX UTOP)) 0 (env_free_pde e) s = Ret tt s' /\
    torn dirs d rl rl' s s' /\ (forall i, 0 <= i < NUPDE -> pt_of (mem s') d i = None).
Proof.
  intros Hi He.
  assert (H : wp (kfor (Z.to_nat NUPDE) 0 (env_free_pde e))
    (fun _ s' => exists rl', torn dirs d rl rl' s s' /\
       forall i, 0 <= i < NUPDE -> pt_of (mem s') d i = None) (fun _ _ => False) s).
  { eapply wp_mono; [eapply (wp_kfor _ _ (fun n s' => exists rl', torn dirs d rl rl' s s' /\
       forall i, 0 <= i < n -> pt_of (mem s') d i = None) (fun _ _ => False)) | | auto].
    - exists rl. split; [by apply torn_refl | intros; lia].
    - intros n s1 Hn (rl1 & Htorn & Hpt). rewrite Z2Nat.id in Hn by (rewrite NUPDE_val; lia).
      destruct (env_free_pde_spec s1 rl1 e n (tn_vm _ _ _ _ _ _ Htorn)) as (s2 & rl2 & Hrun & Ht2 & Hpt2).
      { by rewrite (frame_envs _ _ (tn_frame _ _ _ _ _ _ Htorn)). }
      { lia. }
      unfold wp. rewrite Hrun. exists rl2. split; [by eapply torn_trans|].
      intros i Hin. rewrite Hpt2 by lia. case_decide; [done|]. apply Hpt. lia.
    - intros ? s' (rl' & ? & Hpt). exists rl'. split; [done|]. intros i Hin. apply Hpt.
      rewrite Z2Nat.id by (rewrite NUPDE_val; lia). lia. }
  destruct (wp_elim _ _ _ H) as ([] & s' & ? & rl' & ? & ?). exists s', rl'. done.
Qed.
End teardown.

(** ** [env_free] *)

(** The running environment's page directory is left before it is freed. *)
Definition leave_pgdir (s : kst) (e : Z) : kst :=
  if bool_decide (curenv s = Some e) then
    set_thiscpu (fun c => c <| cpu_cr3 := kern_pgdir s - KERNBASE |> <| cpu_tlb := ∅ |>) s
  else s.

Lemma leave_pgdir_vm s e : vm_eq s (leave_pgdir s e).
Proof. unfold leave_pgdir. case_bool; done. Qed.
Lemma leave_pgdir_envs s e : envs (leave_pgdir s e) = envs s /\
  env_free_list (leave_pgdir s e) = env_free_list s /\ kern_pgdir (leave_pgdir s e) = kern_pgdir s.
Proof. unfold leave_pgdir. case_bool; done. Qed.

Definition freed_env (s : kst) (e : Z) : Env :=
  (envs s !!! e) <| env_pgdir := 0 |> <| env_status := ENV_FREE |> <| env_link := env_free_list s |>.

(** The contract of [env_free] on environment [e] with directory [d]. *)
Record env_freed (dirs : list Z) (rl rl' : Z -> role) (s s' : kst) (e d : Z) : Prop := {
  ef_frame : vm_frame (leave_pgdir s e <| envs := <[e := freed_env s e]> (envs s) |>
                                       <| env_free_list := Some e |>) s';
  ef_roles : forall p, rl' p = rl p \/
    rl' p = RFree /\ (rl p = RUser \/ p = d \/ exists i, rl p = RPT d i);
  ef_other : forall d' i j, d' ∈ dirs -> d' <> d -> 0 <= i < NUPDE -> 0 <= j < NPTENTRIES ->
    umap (mem s') d' i j = umap (mem s) d' i j;
  ef_words : forall p k, p <> d -> (forall i, rl p <> RPT d i) -> 0 <= k < 1024 ->
    word (mem s') p k = word (mem s) p k;
  ef_inv : sys_inv s' (filter (.≠ d) dirs) rl' }.

(** The environment table when slot [e] is given up with its directory [d]. *)
Lemma env_drop_inv s s' dirs rl rl' e d :
  sys_inv s dirs rl -> live s e -> env_pgdir (envs s !!! e) = kva d ->
  vm_inv s' (filter (.≠ d) dirs) rl' None ->
  envs s' = <[e := freed_env s e]> (envs s) -> env_free_list s' = Some e ->
  kern_pgdir s' = kern_pgdir s -> npages s' = npages s ->
  (forall p, rl p = RKernel -> rl' p = RKernel) ->
  (forall p k, rl p = RKernel \/ rl p = RDir /\ p <> d -> 0 <= k < 1024 ->
     word (mem s') p k = word (mem s) p k) ->
  sys_inv s' (filter (.≠ d) dirs) rl'.
Proof.
  intros Hs [Her Hest] Hed Hvm Hes Hel Hkp Hnp Hrl Hw.
  destruct Hs as [Hvm0 Hk Hkd Htop He Hdir Hinj Hfree Hid Hidx].
  assert (Hee : envs s' !!! e = freed_env s e) by (by rewrite Hes, lookup_total_insert_eq).
  assert (Hne : forall x, x <> e -> envs s' !!! x = envs s !!! x).
  { intros. by rewrite Hes, lookup_total_insert_ne. }
  assert (Hlive : forall x, live s' x <-> x <> e /\ live s x).
  { intros x. unfold live. destruct (decide (x = e)) as [-> | ?].
    - rewrite Hee. simpl. split; [intros [_ ?] | intros [? _]]; done.
    - rewrite Hne by done. naive_solver. }
  constructor; [done | | | | | | | | |].
  - destruct Hk as (k & Hk & Hrk & Hkr & Hno). exists k. rewrite Hkp, Hnp.
    repeat split; auto; try lia. intros i Hi. rewrite <- (Hno i Hi). unfold pt_of.
    rewrite NUPDE_val in Hi. rewrite Hw; [done | auto | lia].
  - intros d' w t Hdk Hww Ht. rewrite Hnp. rewrite Hkp in Hdk.
    pose proof Hww as Hww'. rewrite NUPDE_val in Hww'. rewrite Hw in Ht; [ | | lia].
    + eapply Hkd; [|exact Hww|exact Ht].
      destruct Hdk as [[? ?]%list_elem_of_filter | ?]; auto.
    + destruct Hdk as [[? Hin]%list_elem_of_filter | Hkk].
      * right. split; [by apply (vi_dirs _ _ _ _ Hvm0) | done].
      * left. destruct Hk as (k & Hk & Hrk & _). rewrite Hk in Hkk. by apply kva_inj in Hkk as <-.
  - intros d' t Hdk Ht. rewrite Hkp in Hdk.
    assert (Hd0 : (d' ∈ dirs \/ kern_pgdir s = kva d') /\ word (mem s') d' 1023 = word (mem s) d' 1023).
    { destruct Hdk as [[? Hin]%list_elem_of_filter | Hkk].
      - split; [auto|]. apply Hw; [|done]. right. split; [by apply (vi_dirs _ _ _ _ Hvm0) | done].
      - split; [auto|]. destruct Hk as (k & Hk & Hrk & _). rewrite Hk in Hkk.
        apply kva_inj in Hkk as <-. apply Hw; [by left | done]. }
    destruct Hd0 as [Hd0 Hwd]. rewrite Hwd in Ht.
    destruct (Htop d' t Hd0 Ht) as [Hrt Hu]. split; [auto|]. rewrite Hw; [done | by left | done].
  - intros x [Hx Hl]%Hlive. destruct (He x Hl) as (d' & Hd' & Hp). exists d'.
    rewrite Hne, list_elem_of_filter by done. split; [split; [|done]|done].
    intros ->. apply Hx. apply Hinj; [done | done | congruence].
  - intros d' [Hd' Hin]%list_elem_of_filter. destruct (Hdir d' Hin) as (x & Hl & Hp).
    exists x. assert (x <> e) by (intros ->; apply Hd', kva_inj; congruence).
    rewrite Hlive, Hne by done. done.
  - intros x y [Hx Hlx]%Hlive [Hy Hly]%Hlive. rewrite !Hne by done. by apply Hinj.
  - rewrite Hel. eapply linked_push; [exact Hfree | | | |].
    + intros [_ ?]. done.
    + simpl. by rewrite Hee.
    + intros x [_ Hx]. simpl. rewrite Hne; [done | congruence].
    + intros x. destruct (decide (x = e)) as [-> | ?]; [rewrite Hee; naive_solver|].
      rewrite Hne by done. naive_solver.
  - intros x Hx. destruct (decide (x = e)) as [-> | ?]; [rewrite Hee; by apply Hid|].
    rewrite Hne by done. by apply Hid.
  - intros x [Hx Hl]%Hlive. rewrite Hne by done. by apply Hidx.
Qed.

Lemma leave_pgdir_run s e dirs rl {B} (f : unit -> K B) :
  sys_inv s dirs rl ->
  ((if bool_decide (curenv s = Some e) then
     kp ← gets kern_pgdir; pa ← PADDR kp; lcr3 pa else mret tt) ≫= f) s = f tt (leave_pgdir s e).
Proof.
  intros Hs. destruct (si_kern _ _ _ Hs) as (k & Hk & _ & Hkr & _).
  pose proof (vi_npages _ _ _ _ (si_vm _ _ _ Hs)). unfold leave_pgdir.
  case_bool; [|done]. do 2 kb. rewrite Hk. kb. krw (PADDR_kva s k Hkr ltac:(lia)).
  unfold lcr3. kb. unfold kva.
  replace (KERNBASE + k * PGSIZE - KERNBASE) with (k * PGSIZE) by lia. done.
Qed.

Lemma frame_set_env s s' e v el : vm_frame s s' ->
  vm_frame (s <| envs := <[e := v]> (envs s) |> <| env_free_list := el |>)
           (s' <| envs := <[e := v]> (envs s') |> <| env_free_list := el |>).
Proof. intros H. rewrite (frame_envs _ _ H). by apply frame_set_envs. Qed.

Lemma env_free_spec s dirs rl e :
  sys_inv s dirs rl -> live s e ->
  exists s' rl' d, env_free e s = Ret tt s' /\ d ∈ dirs /\
    env_pgdir (envs s !!! e) = kva d /\ env_freed dirs rl rl' s s' e d.
Proof.
  intros Hs Hl. destruct (si_env _ _ _ Hs e Hl) as (d & Hd & Hed).
  pose proof (vi_npages _ _ _ _ (si_vm _ _ _ Hs)) as Hnp.
  unfold env_free. kb. rewrite (leave_pgdir_run s e dirs rl _ Hs).
  set (s0 := leave_pgdir s e).
  destruct (leave_pgdir_envs s e) as (He0 & Hel0 & Hk0). fold s0 in He0, Hel0, Hk0.
  assert (Hvm0 : vm_inv s0 dirs rl None).
  { eapply vm_inv_eq; [apply leave_pgdir_vm | apply Hs]. }
  destruct (env_free_pdes dirs d Hd s0 rl e Hvm0 ltac:(by rewrite He0))
    as (s1 & rl1 & Hrun & [Hvm1 Hrl1 Hoth1 Hw1 Hfr1] & Hpt1).
  krw Hrun. assert (Hes1 : envs s1 = envs s) by (rewrite (frame_envs _ _ Hfr1); done).
  pose proof (ve_mem _ _ (leave_pgdir_vm s e) : mem s0 = mem s) as Hm0.
  assert (Hnp1 : npages s1 = npages s).
  { rewrite (frame_npages _ _ Hfr1). apply (ve_npages _ _ (leave_pgdir_vm s e)). }
  assert (Hdr : rl1 d = RDir) by (by apply (vi_dirs _ _ _ _ Hvm1)).
  pose proof (vi_range _ _ _ _ Hvm1 d ltac:(congruence)) as Hdrange.
  kb. rewrite Hes1, Hed. krw (PADDR_kva s1 d Hdrange ltac:(lia)). do 2 kb.
  set (s2 := s1 <| envs := _ |>). assert (Hnp2 : npages s2 = npages s) by done.
  assert (Hpp : pa2page (d * PGSIZE) s2 = Ret d s2).
  { unfold pa2page. kb. rewrite PGNUM_div by (unfold PGSIZE; lia). rewrite Z.div_mul by done.
    rewrite Hnp2. destruct (Z.geb_spec d (npages s)); [lia | done]. }
  krw Hpp.
  assert (Hvm2 : vm_inv s2 dirs rl1 None) by (eapply vm_inv_eq; [|exact Hvm1]; done).
  assert (Hdec : page_decref d s2 = Ret tt (after_free s2 d)).
  { pose proof (vi_dir_ref _ _ _ _ Hvm2 d Hd) as Href. rewrite page_decref_run by lia.
    by rewrite Href. }
  krw Hdec. do 3 kb.
  change (envs (after_free s2 d)) with (<[e := (envs s1 !!! e) <| env_pgdir := 0 |>]> (envs s1)).
  change (env_free_list (after_free s2 d)) with (env_free_list s1).
  rewrite Hes1, lookup_total_insert_eq, insert_insert_eq.
  rewrite (frame_env_free _ _ Hfr1), Hel0. fold (freed_env s e).
  unfold modify. set (s' := _ <| env_free_list := Some e |>).
  exists s', (set_role rl1 d RFree), d. split; [done|]. split; [done|]. split; [done|].
  assert (Hw' : forall p k, p <> d -> (forall i, rl p <> RPT d i) -> 0 <= k < 1024 ->
    word (mem s') p k = word (mem s) p k).
  { intros p k Hp Hr Hk. rewrite <- Hm0. by apply Hw1. }
  constructor.
  - unfold s', s2, after_free. transitivity (s1 <| envs := <[e := freed_env s e]> (envs s) |>
      <| env_free_list := Some e |>).
    + rewrite <- He0. rewrite <- He0 in Hes1.
      destruct Hfr1 as (m & ps & fl & cs & -> & Hcs). exists m, ps, fl, cs.
      split; [reflexivity | exact Hcs].
    + apply vm_frame_intro. reflexivity.
  - intros p. unfold set_role. case_bool; zbool; subst; [auto|].
    destruct (Hrl1 p) as [? | [? [? | ?]]]; auto.
  - intros. change (mem s') with (mem s1). rewrite Hoth1 by done. by rewrite Hm0.
  - exact Hw'.
  - eapply (env_drop_inv s); try done.
    + eapply vm_inv_eq; [|eapply (dir_del_inv s2 dirs rl1 None d Hvm2 Hd)]; [done|].
      intros i Hi. by apply Hpt1.
    + change (kern_pgdir s') with (kern_pgdir s1). by rewrite (frame_kern _ _ Hfr1).
    + intros p Hp. destruct (Hrl1 p) as [H1 | [_ [? | [? ?]]]]; [|congruence..].
      rewrite set_role_ne; [congruence|]. intros ->. congruence.
    + apply (vi_dirs _ _ _ _ (si_vm _ _ _ Hs)) in Hd.
      intros p k Hp Hk. apply Hw'; [intros -> | intros i Hri | done];
        destruct Hp as [? | [? ?]]; congruence.
Qed.
