(* ===== verification/SchedSpec.v ===== *)
(** * Who runs next, and what user memory the kernel may touch

    The round-robin scheduler picks the next runnable slot after the current
    one; [user_mem_check] accepts a range exactly when every page of it is mapped
    with the permissions asked for. *)

From S2P Require Import Prelude Mem CString Mmu KState Pmap VmInv VmSpec VmLife Environ Sched EnvInv EnvFree.

(** ** The circular search *)

Definition runnable (s : kst) (e : Z) : bool := env_status (envs s !!! e) =? ENV_RUNNABLE.

(** The slots in the order the search visits them, from [e] on. *)
Definition circle (e : Z) : list Z := map (fun k => (e + k) mod NENV) (seqZ 0 NENV).

Definition sched_pick (s : kst) (e : Z) : option Z := List.find (runnable s) (circle e).

Lemma sched_search_loop s e n fuel i x :
  0 <= i -> NENV - i = Z.of_nat n -> (n < fuel)%nat -> 0 <= x <= NENV ->
  x mod NENV = (e + i) mod NENV ->
  kloop fuel (fun '(i, e) =>
    if i <? NENV then
      let e := if e >=? NENV then 0 else e in
      ev ← env e;
      if env_status ev =? ENV_RUNNABLE then mret (inr (Some e))
      else mret (inl (i + 1, e + 1))
    else mret (inr None)) (i, x) s =
  Ret (List.find (runnable s) (map (fun k => (e + k) mod NENV) (seqZ i (Z.of_nat n)))) s.
Proof.
  revert fuel i x. induction n as [|n IH]; intros [|fuel] i x Hi Hn Hf Hx Hm; try lia; cbn [kloop].
  - destruct (Z.ltb_spec i NENV); [lia|]. kb. done.
  - destruct (Z.ltb_spec i NENV); [|lia]. cbv zeta.
    set (y := if x >=? NENV then 0 else x).
    assert (Hy : y = (e + i) mod NENV /\ 0 <= y < NENV).
    { rewrite <- Hm. unfold y, NENV in *. destruct (Z.geb_spec x 1024).
      - replace x with 1024 by lia. split; [done | lia].
      - rewrite Z.mod_small by lia. lia. }
    destruct Hy as [Hy Hyr]. rewrite bind_assoc. kb.
    rewrite seqZ_cons by lia. cbn [map List.find]. rewrite <- Hy.
    unfold runnable at 1. destruct (env_status (envs s !!! y) =? ENV_RUNNABLE); [done|].
    kb. replace (Z.pred (Z.of_nat (S n))) with (Z.of_nat n) by lia.
    apply IH; try lia. rewrite Hy. unfold NENV. rewrite Z.add_mod_idemp_l by lia. f_equal. lia.
Qed.

Lemma sched_search_run s e :
  0 <= e <= NENV -> sched_search e s = Ret (sched_pick s e) s.
Proof.
  intros He. unfold sched_search, sched_pick, circle.
  rewrite (sched_search_loop s e (Z.to_nat NENV)); try done.
  - lia.
  - by rewrite Z.add_0_r.
Qed.

(** What the pick is: runnable, and the first in circular order. *)
Definition dist (a b : Z) : Z := (b - a) mod NENV.

Lemma find_map {A} (p : A -> bool) f i n :
  match List.find p (map f (seqZ i (Z.of_nat n))) with
  | Some x => exists k, i <= k < i + Z.of_nat n /\ x = f k /\ p x = true /\
      forall k', i <= k' < k -> p (f k') = false
  | None => forall k, i <= k < i + Z.of_nat n -> p (f k) = false
  end.
Proof.
  revert i. induction n as [|n IH]; intros i; [simpl; intros; lia|].
  rewrite seqZ_cons by lia. replace (Z.pred (Z.of_nat (S n))) with (Z.of_nat n) by lia.
  cbn [map List.find]. destruct (p (f i)) eqn:E.
  - exists i. split; [lia|]. split; [done|]. split; [done|]. intros; lia.
  - specialize (IH (i + 1)). replace (Z.succ i) with (i + 1) by lia.
    destruct (List.find p (map f (seqZ (i + 1) (Z.of_nat n)))).
    + destruct IH as (k & ? & ? & ? & Hlt). exists k. split; [lia|]. split; [done|]. split; [done|].
      intros k' Hk'. destruct (decide (k' = i)) as [-> | ?]; [done|]. apply Hlt. lia.
    + intros k Hk. destruct (decide (k = i)) as [-> | ?]; [done|]. apply IH. lia.
Qed.

Lemma dist_add a k : 0 <= k < NENV -> dist a ((a + k) mod NENV) = k.
Proof.
  intros Hk. unfold dist. rewrite Zminus_mod_idemp_l. replace (a + k - a) with k by lia.
  by apply Z.mod_small.
Qed.
Lemma add_dist a b : 0 <= b < NENV -> (a + dist a b) mod NENV = b.
Proof.
  intros Hb. unfold dist. unfold NENV in *. rewrite Z.add_mod_idemp_r by lia.
  replace (a + (b - a)) with b by lia. by apply Z.mod_small.
Qed.
Lemma dist_range a b : 0 <= dist a b < NENV.
Proof. unfold dist, NENV. apply Z.mod_pos_bound. lia. Qed.

Lemma sched_pick_some s e x :
  sched_pick s e = Some x ->
  0 <= x < NENV /\ runnable s x = true /\
  forall y, 0 <= y < NENV -> runnable s y = true -> dist e x <= dist e y.
Proof.
  unfold sched_pick, circle. intros H.
  pose proof (find_map (runnable s) (fun k => (e + k) mod NENV) 0 (Z.to_nat NENV)) as Hf.
  change (Z.of_nat (Z.to_nat NENV)) with NENV in Hf. rewrite H in Hf.
  destruct Hf as (k & Hk & -> & Hr & Hlt). split; [unfold NENV; apply Z.mod_pos_bound; lia|].
  split; [done|]. intros y Hy Hry. rewrite dist_add by lia.
  destruct (Z.le_gt_cases k (dist e y)); [done|]. pose proof (dist_range e y).
  specialize (Hlt (dist e y) ltac:(lia)). simpl in Hlt. rewrite add_dist in Hlt by done. congruence.
Qed.
Lemma sched_pick_none s e :
  sched_pick s e = None -> forall y, 0 <= y < NENV -> runnable s y = false.
Proof.
  unfold sched_pick, circle. intros H y Hy.
  pose proof (find_map (runnable s) (fun k => (e + k) mod NENV) 0 (Z.to_nat NENV)) as Hf.
  change (Z.of_nat (Z.to_nat NENV)) with NENV in Hf. rewrite H in Hf.
  specialize (Hf (dist e y) (dist_range e y)). simpl in Hf. by rewrite add_dist in Hf.
Qed.

(** A waiting environment comes strictly closer with every pick that is not it. *)
Lemma dist_closer e x y :
  0 <= x < NENV -> 0 <= y < NENV -> y <> x -> dist e x < dist e y -> dist (x + 1) y < dist e y.
Proof.
  intros Hx Hy Hne Hlt. unfold dist in *. unfold NENV in *.
  pose proof (Z.mod_pos_bound (x - e) 1024 ltac:(lia)).
  pose proof (Z.mod_pos_bound (y - e) 1024 ltac:(lia)).
  assert (E : (y - (x + 1)) mod 1024 = ((y - e) mod 1024 - (x - e) mod 1024 - 1) mod 1024) by zlia.
  rewrite E, Z.mod_small; lia.
Qed.

(** ** [env_run] *)

(** The environment that was running gives up the processor. *)
Definition demote (s : kst) : kst :=
  match curenv s with
  | Some c => if env_status (envs s !!! c) =? ENV_RUNNING
              then s <| envs := <[c := (envs s !!! c) <| env_status := ENV_RUNNABLE |>]> (envs s) |>
              else s
  | None => s
  end.

(** The state in which environment [e] runs, in the directory on page [d]. *)
Definition running_env (s : kst) (e : Z) : Env :=
  (envs s !!! e) <| env_status := ENV_RUNNING |> <| env_runs := w32 (env_runs (envs s !!! e) + 1) |>
    <| env_cpunum := cpunum s |>.
Definition running (s : kst) (e d : Z) : kst :=
  set_thiscpu (fun c => c <| cpu_env := Some e |> <| cpu_cr3 := d * PGSIZE |> <| cpu_tlb := ∅ |>)
    (s <| envs := <[e := running_env s e]> (envs s) |> <| kernel_lock := None |>).

Lemma thiscpu_set f s : thiscpu (set_thiscpu f s) = f (thiscpu s).
Proof. unfold thiscpu at 1, set_thiscpu. simpl. by rewrite lookup_total_insert_eq. Qed.
Lemma set_thiscpu_twice f g s : set_thiscpu g (set_thiscpu f s) = set_thiscpu (fun c => g (f c)) s.
Proof.
  unfold set_thiscpu at 1. rewrite thiscpu_set. unfold set_thiscpu. kexplode s. simpl.
  by rewrite insert_insert_eq.
Qed.

Lemma env_run_demote {A} e s :
  @env_run A e s = (set_curenv (Some e);; ev ← env e;
    set_env e (ev <| env_status := ENV_RUNNING |> <| env_runs := w32 (env_runs ev + 1) |>);;
    ev ← env e; pa ← PADDR (env_pgdir ev); lcr3 pa;; unlock_kernel;; env_pop_tf) (demote s).
Proof.
  unfold env_run, demote. rewrite bind_gets. destruct (curenv s) as [c|]; [|reflexivity].
  rewrite bind_assoc, bind_env. destruct (env_status (envs s !!! c) =? ENV_RUNNING); reflexivity.
Qed.

Lemma env_run_spec {A} e d s :
  env_pgdir (envs (demote s) !!! e) = kva d -> 0 <= d < npages (demote s) ->
  npages (demote s) <= 2 ^ 16 -> holding (demote s) = true ->
  @env_run A e s = Exit (ToUser e) (running (demote s) e d).
Proof.
  intros Hd Hdr Hnp Hh. rewrite env_run_demote. set (s0 := demote s) in *. clearbody s0.
  unfold set_curenv. do 3 kb. set (s1 := _ <| envs := _ |>). kb.
  assert (He1 : env_pgdir (envs s1 !!! e) = kva d).
  { unfold s1. simpl. by rewrite lookup_total_insert_eq. }
  rewrite He1. krw (PADDR_kva s1 d ltac:(exact Hdr) ltac:(exact Hnp)).
  unfold lcr3. kb. set (s2 := set_thiscpu _ s1).
  assert (Hun : unlock_kernel s2 = Ret tt (s2 <| kernel_lock := None |>)).
  { unfold unlock_kernel. kb. change (holding s2) with (holding s0). by rewrite Hh. }
  krw Hun. unfold env_pop_tf. kb. set (s3 := s2 <| kernel_lock := None |>).
  assert (Hc : curenv s3 = Some e).
  { change (curenv s3) with (cpu_env (thiscpu s2)). unfold s2. rewrite thiscpu_set.
    change (thiscpu s1) with (thiscpu (set_thiscpu (fun c => c <| cpu_env := Some e |>) s0)).
    by rewrite thiscpu_set. }
  rewrite Hc. do 3 kb. unfold leave. f_equal.
  assert (Hes : envs s3 = envs s1) by done. rewrite Hes.
  assert (Hcp : cpus s3 = <[cpunum s0 := (thiscpu s0) <| cpu_env := Some e |>
    <| cpu_cr3 := d * PGSIZE |> <| cpu_tlb := ∅ |>]> (cpus s0)).
  { change (cpus s3) with (<[cpunum s0 := (thiscpu s1) <| cpu_cr3 := d * PGSIZE |>
      <| cpu_tlb := ∅ |>]> (cpus s1)).
    change (thiscpu s1) with (thiscpu (set_thiscpu (fun c => c <| cpu_env := Some e |>) s0)).
    rewrite thiscpu_set. unfold s1, set_thiscpu. simpl. by rewrite insert_insert_eq. }
  assert (Hee : <[e := (envs s1 !!! e) <| env_cpunum := cpunum s3 |>]> (envs s1) =
    <[e := running_env s0 e]> (envs s0)).
  { unfold s1. simpl. by rewrite lookup_total_insert_eq, insert_insert_eq. }
  rewrite Hee.
  transitivity (s0 <| envs := <[e := running_env s0 e]> (envs s0) |> <| kernel_lock := None |>
    <| cpus := cpus s3 |>); [reflexivity|]. rewrite Hcp. reflexivity.
Qed.

(** ** [sched_halt] and [sched_yield] *)

Definition busy (s : kst) (e : Z) : bool :=
  (env_status (envs s !!! e) =? ENV_RUNNABLE) || (env_status (envs s !!! e) =? ENV_RUNNING)
  || (env_status (envs s !!! e) =? ENV_DYING).
Definition any_busy (s : kst) : bool := existsb (busy s) (seqZ 0 NENV).

Definition halted (s : kst) : kst :=
  set_thiscpu (fun c => c <| cpu_env := None |> <| cpu_cr3 := kern_pgdir s - KERNBASE |>
    <| cpu_tlb := ∅ |> <| cpu_status := CPU_HALTED |>) (s <| kernel_lock := None |>).

Lemma busy_loop s n fuel i :
  0 <= i -> NENV - i = Z.of_nat n -> (n < fuel)%nat ->
  kloop fuel (fun i =>
    if i <? NENV then
      ev ← env i;
      if (env_status ev =? ENV_RUNNABLE) || (env_status ev =? ENV_RUNNING)
         || (env_status ev =? ENV_DYING)
      then mret (inr true) else mret (inl (i + 1))
    else mret (inr false)) i s = Ret (existsb (busy s) (seqZ i (Z.of_nat n))) s.
Proof.
  revert fuel i. induction n as [|n IH]; intros [|fuel] i Hi Hn Hf; try lia; cbn [kloop].
  - destruct (Z.ltb_spec i NENV); [lia|]. kb. done.
  - destruct (Z.ltb_spec i NENV); [|lia]. rewrite bind_assoc, bind_env.
    rewrite seqZ_cons by lia. cbn [existsb]. unfold busy at 1.
    destruct ((env_status (envs s !!! i) =? ENV_RUNNABLE) ||
      (env_status (envs s !!! i) =? ENV_RUNNING) || (env_status (envs s !!! i) =? ENV_DYING)); [done|].
    rewrite bind_mret. replace (Z.pred (Z.of_nat (S n))) with (Z.of_nat n) by lia.
    apply IH; lia.
Qed.

Lemma sched_halt_spec {A} s k :
  kern_pgdir s = kva k -> 0 <= k < npages s -> npages s <= 2 ^ 16 -> holding s = true ->
  @sched_halt A s = if any_busy s then Exit Halted (halted s) else Exit InMonitor s.
Proof.
  intros Hk Hkr Hnp Hh. unfold sched_halt.
  krw (busy_loop s (Z.to_nat NENV) (S (Z.to_nat NENV)) 0 ltac:(lia) eq_refl ltac:(lia)).
  change (Z.of_nat (Z.to_nat NENV)) with NENV. fold (any_busy s).
  destruct (any_busy s); [|done]. cbn [negb]. unfold set_curenv. do 2 kb. set (s1 := set_thiscpu _ s).
  change (kern_pgdir s1) with (kern_pgdir s). rewrite Hk.
  krw (PADDR_kva s1 k ltac:(exact Hkr) ltac:(exact Hnp)).
  unfold lcr3. do 2 kb. unfold s1. rewrite !set_thiscpu_twice. set (s2 := set_thiscpu _ s).
  assert (Hun : unlock_kernel s2 = Ret tt (s2 <| kernel_lock := None |>)).
  { unfold unlock_kernel. kb. change (holding s2) with (holding s). by rewrite Hh. }
  krw Hun. unfold leave, halted. rewrite Hk.
  replace (kva k - KERNBASE) with (k * PGSIZE) by (unfold kva; lia). reflexivity.
Qed.

Definition dir_page (s : kst) (e : Z) : Z := (env_pgdir (envs s !!! e) - KERNBASE) / PGSIZE.
Lemma dir_page_kva s e d : env_pgdir (envs s !!! e) = kva d -> dir_page s e = d.
Proof.
  intros H. unfold dir_page. rewrite H. unfold kva.
  replace (KERNBASE + d * PGSIZE - KERNBASE) with (d * PGSIZE) by lia. by apply Z.div_mul.
Qed.

(** Where the search starts. *)
Definition next_slot (s : kst) : Z := match curenv s with Some c => c + 1 | None => 0 end.

Lemma demote_idem s : demote (demote s) = demote s.
Proof.
  unfold demote. destruct (curenv s) as [c|] eqn:Ec; [|by rewrite Ec].
  destruct (env_status (envs s !!! c) =? ENV_RUNNING) eqn:E; [|by rewrite Ec, E].
  change (curenv (s <| envs := _ |>)) with (curenv s). rewrite Ec.
  simpl. by rewrite lookup_total_insert_eq.
Qed.
Lemma demote_curenv s : curenv (demote s) = curenv s.
Proof. unfold demote. destruct (curenv s) eqn:E; [case_bool|]; exact E. Qed.

Lemma demote_inv s dirs rl :
  sys_inv s dirs rl -> (forall c, curenv s = Some c -> live s c) -> sys_inv (demote s) dirs rl.
Proof.
  intros Hs Hc. unfold demote. destruct (curenv s) as [c|]; [|done].
  case_bool; [|done]. apply sys_inv_env; [done | by apply Hc | done..].
Qed.

Lemma sched_yield_demote {A} s :
  @sched_yield A s =
    (r ← sched_search (next_slot s);
     match r with
     | Some e => env_run e
     | None =>
         ce ← gets curenv;
         match ce with
         | Some c => ev ← env c; if env_status ev =? ENV_RUNNING then env_run c else sched_halt
         | None => sched_halt
         end
     end) (demote s).
Proof.
  unfold sched_yield, demote, next_slot. rewrite bind_gets. destruct (curenv s) as [c|]; [|done].
  rewrite bind_assoc, bind_env, bind_assoc.
  destruct (env_status (envs s !!! c) =? ENV_RUNNING); done.
Qed.

Lemma demote_not_running s c : curenv s = Some c ->
  (env_status (envs (demote s) !!! c) =? ENV_RUNNING) = false.
Proof.
  intros Hc. unfold demote. rewrite Hc.
  destruct (env_status (envs s !!! c) =? ENV_RUNNING) eqn:E; [|done].
  simpl. by rewrite lookup_total_insert_eq.
Qed.

(** The whole of [sched_yield], as one function of the state. *)
Lemma sched_yield_spec {A} s dirs rl :
  sys_inv s dirs rl -> (forall c, curenv s = Some c -> live s c) -> holding s = true ->
  @sched_yield A s =
    let s1 := demote s in
    match sched_pick s1 (next_slot s) with
    | Some e => Exit (ToUser e) (running s1 e (dir_page s1 e))
    | None => if any_busy s1 then Exit Halted (halted s1) else Exit InMonitor s1
    end.
Proof.
  intros Hs Hc Hh. rewrite sched_yield_demote. cbv zeta.
  pose proof (demote_inv s dirs rl Hs Hc) as Hs1.
  assert (Hh1 : holding (demote s) = true).
  { unfold demote. destruct (curenv s); [case_bool|]; done. }
  assert (Hnext : 0 <= next_slot s <= NENV).
  { unfold next_slot. destruct (curenv s) as [c|]; [|done]. destruct (Hc c eq_refl). lia. }
  set (s1 := demote s) in *. pose proof (vi_npages _ _ _ _ (si_vm _ _ _ Hs1)).
  krw (sched_search_run s1 (next_slot s) Hnext).
  destruct (sched_pick s1 (next_slot s)) as [e|] eqn:Ep.
  - destruct (sched_pick_some _ _ _ Ep) as (Her & Hrun & _).
    destruct (si_env _ _ _ Hs1 e) as (d & Hd & Hed).
    { split; [done|]. unfold runnable in Hrun. zbool. rewrite Hrun. done. }
    assert (Hdm : demote s1 = s1) by apply demote_idem.
    pose proof (vi_dirs _ _ _ _ (si_vm _ _ _ Hs1) d) as [Hdr _].
    pose proof (vi_range _ _ _ _ (si_vm _ _ _ Hs1) d ltac:(rewrite Hdr by done; done)).
    rewrite (env_run_spec e d); rewrite ?Hdm; try done; [|lia].
    by rewrite (dir_page_kva _ _ d).
  - destruct (si_kern _ _ _ Hs1) as (k & Hk & _ & Hkr & _).
    rewrite bind_gets. unfold s1 at 1. rewrite demote_curenv.
    destruct (curenv s) as [c|] eqn:Ec; [rewrite bind_env; unfold s1 at 1; rewrite demote_not_running by done|];
      (apply (sched_halt_spec s1 k); [done | done | lia | done]).
Qed.
