(* ===== verification/UserMem.v ===== *)
(** * Checking user memory ([user_mem_check], [user_mem_assert])

    The check walks the pages of a range; it accepts exactly the ranges below
    [ULIM] all of whose pages are mapped with the permissions asked for. *)

From S2P Require Import Prelude Mem CString Mmu KState Pmap VmInv VmSpec VmLife Environ Sched EnvInv EnvFree SchedSpec.

(** The page of [a] is present in directory [d] with every bit of [perm]. *)
Definition page_ok (m : memory) (d perm a : Z) : bool :=
  match upte m d (PDX a) (PTX a) with
  | Some v => has v PTE_P && (Z.land v perm =? perm)
  | None => false
  end.

(** The pages of [start, end_), by their first address in the range's page grid. *)
Definition range_pages (start end_ : Z) : list Z :=
  let a0 := start / PGSIZE * PGSIZE in
  map (fun k => a0 + PGSIZE * k) (seqZ 0 ((end_ - a0 + PGSIZE - 1) / PGSIZE)).

Definition range_ok (m : memory) (d perm start end_ : Z) : bool :=
  forallb (page_ok m d perm) (range_pages start end_).

Lemma map_seqZ_shift {A} (f g : Z -> A) i n :
  (forall k, f (k + 1) = g k) -> map f (seqZ (Z.succ i) n) = map g (seqZ i n).
Proof.
  intros H. unfold seqZ. change (map f) with (fmap f : list Z -> list A).
  change (map g) with (fmap g : list Z -> list A). rewrite <- !list_fmap_compose.
  apply list_fmap_ext. intros k x _. simpl. rewrite <- H. f_equal. lia.
Qed.

Section check.
Context (s : kst) (dirs : list Z) (rl : Z -> role) (Hs : sys_inv s dirs rl).
Context (e d : Z) (Hd : d ∈ dirs) (Hed : env_pgdir (envs s !!! e) = kva d).

(** A walk over any address finds the entry or reports none. *)
Lemma walk_any va :
  0 <= va < 2 ^ 32 ->
  pgdir_walk (kva d) va false s =
    Ret (match pt_of (mem s) d (PDX va) with Some t => Some (kva t + 4 * PTX va) | None => None end) s.
Proof.
  intros Hva. pose proof (vi_npages _ _ _ _ (si_vm _ _ _ Hs)) as Hnp.
  pose proof (PDX_range va) as Hpd. unfold NPDENTRIES in Hpd.
  unfold pgdir_walk. cbv zeta. krw (load_word s d (PDX va)). unfold pt_of, ent.
  destruct (has (word (mem s) d (PDX va)) PTE_P) eqn:HP; cbn [negb]; [|done].
  assert (He : ent (word (mem s) d (PDX va)) = Some (word (mem s) d (PDX va) / PGSIZE)).
  { unfold ent. by rewrite HP. }
  assert (Ht : 0 <= word (mem s) d (PDX va) / PGSIZE < npages s).
  { destruct (Z.lt_ge_cases (PDX va) NUPDE) as [Hlt | Hge].
    - apply (vi_range _ _ _ _ (si_vm _ _ _ Hs)).
      rewrite (vi_pt _ _ _ _ (si_vm _ _ _ Hs) d (PDX va) _ Hd ltac:(lia) He). done.
    - eapply (si_khalf _ _ _ Hs d (PDX va)); [by left | lia | exact He]. }
  rewrite bind_mret. cbn [negb]. krw (load_word s d (PDX va)).
  krw (KADDR_ent s _ _ He Ht ltac:(lia)). done.
Qed.

Definition fault (va : Z) : outcome Z :=
  Ret (- E_FAULT) (s <| user_mem_check_addr := va |>).

(** The loop from page [a], with [n] pages to go. *)
Lemma check_loop start end_ perm n fuel a :
  (n < fuel)%nat -> 0 <= a -> a mod PGSIZE = 0 -> end_ < 2 ^ 32 ->
  (end_ <= 2 ^ 32 - PGSIZE \/ page_ok (mem s) d perm (2 ^ 32 - PGSIZE) = false) ->
  (n = 0%nat /\ end_ <= a \/
   a + PGSIZE * (Z.of_nat n - 1) < end_ <= a + PGSIZE * Z.of_nat n) ->
  kloop fuel (fun addr =>
    if addr <? end_ then
      ev ← env e;
      pte ← pgdir_walk (env_pgdir ev) addr false;
      match pte with
      | None => r ← (modify (fun s => s <| user_mem_check_addr := start |>);; mret (- E_FAULT));
                mret (inr r)
      | Some pte =>
          v ← load32 pte;
          if negb (has v PTE_P) || negb (Z.land v perm =? perm)
          then r ← (modify (fun s => s <| user_mem_check_addr := start |>);; mret (- E_FAULT));
               mret (inr r)
          else mret (inl (w32 (addr + PGSIZE)))
      end
    else mret (inr 0)) a s =
  if forallb (page_ok (mem s) d perm) (map (fun k => a + PGSIZE * k) (seqZ 0 (Z.of_nat n)))
  then Ret 0 s else fault start.
Proof.
  unfold PGSIZE. revert fuel a. induction n as [|n IH]; intros [|fuel] a Hf Ha Ham He Htop Hn; try lia;
    cbn [kloop].
  - destruct (Z.ltb_spec a end_); [lia|]. done.
  - destruct (Z.ltb_spec a end_); [|lia]. rewrite bind_assoc, bind_env, Hed, bind_assoc.
    krw (walk_any a ltac:(lia)).
    rewrite seqZ_cons by lia. cbn [map forallb]. rewrite Z.mul_0_r, Z.add_0_r.
    destruct (page_ok (mem s) d perm a) eqn:Eok; unfold page_ok, upte in Eok.
    2:{ destruct (pt_of (mem s) d (PDX a)) as [t|]; [|done].
        rewrite bind_assoc, bind_load32. fold (word (mem s) t (PTX a)).
        destruct (has (word (mem s) t (PTX a)) PTE_P); cbn [negb orb andb]; [|done].
        cbn [andb] in Eok. rewrite Eok. done. }
    assert (Hnot : a + 4096 < 2 ^ 32).
    { destruct (decide (a = 2 ^ 32 - 4096)) as [-> | Hne]; [|change (2 ^ 32) with 4294967296 in *; zlia].
      destruct Htop as [? | Htop]; [lia|]. unfold page_ok, upte in Htop. congruence. }
    destruct (pt_of (mem s) d (PDX a)) as [t|]; [|done].
    rewrite bind_assoc, bind_load32. fold (word (mem s) t (PTX a)).
    apply andb_true_iff in Eok as [-> ->]. cbn [negb orb andb].
    rewrite bind_mret, w32_small by lia. rewrite IH; try lia; [|zlia|done].
    replace (Z.pred (Z.of_nat (S n))) with (Z.of_nat n) by lia.
    replace (map (fun k => a + 4096 + 4096 * k) (seqZ 0 (Z.of_nat n)))
      with (map (fun k => a + 4096 * k) (seqZ (Z.succ 0) (Z.of_nat n))); [done|].
    apply map_seqZ_shift. intros. lia.
Qed.

Lemma top_not_user perm :
  has perm PTE_U = true -> page_ok (mem s) d perm (2 ^ 32 - PGSIZE) = false.
Proof.
  intros Hu. unfold page_ok, upte. change (PDX (2 ^ 32 - PGSIZE)) with 1023.
  change (PTX (2 ^ 32 - PGSIZE)) with 1023.
  destruct (pt_of (mem s) d 1023) as [t|] eqn:Et; [|done].
  destruct (si_top _ _ _ Hs d t (or_introl Hd) Et) as [_ Hn].
  destruct (has (word (mem s) t 1023) PTE_P); [|done]. cbn [andb]. apply Z.eqb_neq.
  intros He. change PTE_U with (2 ^ 2) in Hu, Hn. rewrite has_pow2 in Hu, Hn by lia.
  rewrite <- He, Z.land_spec, Hn in Hu. done.
Qed.

Lemma user_mem_check_spec va len perm :
  0 <= va < 2 ^ 32 -> 0 <= len < 2 ^ 32 ->
  (w32 (va + len) <= 2 ^ 32 - PGSIZE \/ has perm PTE_U = true) ->
  user_mem_check e va len perm s =
    if (va <? ULIM) && (va <? w32 (va + len)) && range_ok (mem s) d perm va (w32 (va + len))
    then Ret 0 s else fault va.
Proof.
  intros Hva Hlen Hend. unfold user_mem_check. cbv zeta. set (end_ := w32 (va + len)) in *.
  rewrite Z.geb_leb, Z.leb_antisym. destruct (Z.ltb_spec va ULIM); cbn [negb orb andb]; [|done].
  rewrite Z.geb_leb, Z.leb_antisym. destruct (Z.ltb_spec va end_); cbn [negb andb]; [|done].
  rewrite ROUNDDOWN_spec by (unfold PGSIZE; lia).
  replace (va - va mod PGSIZE) with (va / PGSIZE * PGSIZE) by (unfold PGSIZE; zlia).
  set (n := (end_ - va / PGSIZE * PGSIZE + PGSIZE - 1) / PGSIZE).
  assert (Hn : 0 < n <= 2 ^ 20).
  { pose proof (w32_bound (va + len)). unfold n, PGSIZE in *. zlia. }
  erewrite (check_loop va end_ perm (Z.to_nat n)).
  - rewrite Z2Nat.id by lia. done.
  - unfold page_fuel. lia.
  - unfold PGSIZE. zlia.
  - by apply Z.mod_mul.
  - apply w32_bound.
  - destruct Hend as [? | Hu]; [by left|]. right. by apply top_not_user.
  - right. rewrite Z2Nat.id by lia. unfold n, PGSIZE in *. zlia.
Qed.
End check.

(** A range is good when each of its bytes is on a good page. *)
Lemma page_ok_page m d perm a b :
  0 <= a < 2 ^ 32 -> 0 <= b < 2 ^ 32 -> a / PGSIZE = b / PGSIZE ->
  page_ok m d perm a = page_ok m d perm b.
Proof.
  intros Ha Hb E. unfold page_ok.
  assert (HX : PDX a = PDX b).
  { rewrite !PDX_div by done. change PTSIZE with (PGSIZE * 1024). rewrite <- !Z.div_div by done.
    by rewrite E. }
  assert (HT : PTX a = PTX b) by (rewrite !PTX_div by done; by rewrite E).
  by rewrite HX, HT.
Qed.

Lemma range_ok_iff m d perm start end_ :
  0 <= start < end_ -> end_ < 2 ^ 32 ->
  range_ok m d perm start end_ = true <->
  forall a, start <= a < end_ -> page_ok m d perm a = true.
Proof.
  intros Hs He. unfold range_ok, range_pages. rewrite forallb_forall. unfold PGSIZE. split.
  - intros H a Ha. rewrite (page_ok_page m d perm a (a / 4096 * 4096)).
    + apply H. apply List.in_map_iff. exists (a / 4096 - start / 4096). split; [zlia|].
      apply list_elem_of_In, elem_of_seqZ. zlia.
    + zlia.
    + zlia.
    + unfold PGSIZE. zlia.
  - intros H a Ha. apply List.in_map_iff in Ha as (k & <- & Hk).
    apply list_elem_of_In, elem_of_seqZ in Hk.
    destruct (Z.le_gt_cases start (start / 4096 * 4096 + 4096 * k)).
    + apply H. zlia.
    + rewrite (page_ok_page m d perm _ start); [apply H; lia | zlia | zlia | unfold PGSIZE; zlia].
Qed.
