(* ===== verification/SysSpec.v ===== *)
(** * System calls keep the kernel's invariants

    A system call that returns leaves the page-ownership and environment-table
    invariants in force with the caller still there; one that does not return
    leaves by running an environment, halting or entering the monitor, with the
    invariants in force and the kernel lock free. *)

From S2P Require Import Prelude Mem CString Mmu KState Printf Pmap VmInv VmSpec VmLife Environ Sched Syscall Trap EnvInv EnvFree SchedSpec UserMem.

(** In the kernel on behalf of environment [c]. *)
Record in_kernel (s : kst) (c : Z) (dirs : list Z) (rl : Z -> role) : Prop := {
  ik_sys : sys_inv s dirs rl;
  ik_cur : curenv s = Some c;
  ik_live : live s c;
  ik_lock : holding s = true }.

Definition kernel_ok (c : Z) (s : kst) : Prop := exists dirs rl, in_kernel s c dirs rl.

(** Out of the kernel. *)
Definition exit_ok (x : exit_kind) (s : kst) : Prop :=
  (exists dirs rl, sys_inv s dirs rl) /\
  match x with
  | ToUser e => curenv s = Some e /\ live s e /\ env_status (envs s !!! e) = ENV_RUNNING /\
                kernel_lock s = None /\ cpu_cr3 (thiscpu s) = env_pgdir (envs s !!! e) - KERNBASE
  | Halted => curenv s = None /\ kernel_lock s = None /\ cpu_status (thiscpu s) = CPU_HALTED
  | InMonitor => any_busy s = false
  | _ => False
  end.

Lemma ik_cur_ok s c dirs rl : in_kernel s c dirs rl -> forall x, curenv s = Some x -> live s x.
Proof. intros [_ Hc Hl _] x Hx. congruence. Qed.

(** Page operations keep us in the kernel. *)
Lemma holding_frame s s' : vm_frame s s' -> holding s' = holding s.
Proof. intros H. unfold holding. by rewrite (frame_lock _ _ H), (frame_cpunum _ _ H). Qed.

Lemma in_kernel_slot s s' c dirs rl rl' x o :
  in_kernel s c dirs rl -> vm_inv s' dirs rl' None -> slot_set dirs rl rl' s s' x o ->
  in_kernel s' c dirs rl'.
Proof.
  intros [Hs Hc Hl Hh] Hv Hss. pose proof (ss_frame _ _ _ _ _ _ _ Hss) as Hf. constructor.
  - by eapply sys_inv_slot.
  - by rewrite (frame_curenv _ _ Hf).
  - by rewrite (frame_live _ _ _ Hf).
  - by rewrite (holding_frame _ _ Hf).
Qed.

(** So do changes to fields of an environment that leave it in use. *)
Lemma in_kernel_env s c dirs rl e v :
  in_kernel s c dirs rl -> live s e -> env_pgdir v = env_pgdir (envs s !!! e) ->
  env_id v = env_id (envs s !!! e) -> env_status v <> ENV_FREE ->
  in_kernel (s <| envs := <[e := v]> (envs s) |>) c dirs rl.
Proof.
  intros [Hs Hc Hl Hh] He Hp Hi Hst. constructor; try done.
  - by apply sys_inv_env.
  - destruct Hl as [Hr Hl]. split; [done|]. simpl. destruct (decide (c = e)) as [-> | ?].
    + by rewrite lookup_total_insert_eq.
    + by rewrite lookup_total_insert_ne.
Qed.

Lemma upd_env_run e f s : upd_env e f s = Ret tt (s <| envs := <[e := f (envs s !!! e)]> (envs s) |>).
Proof. done. Qed.
Lemma cur_run s c : curenv s = Some c -> cur s = Ret c s.
Proof. intros H. unfold cur. kb. by rewrite H. Qed.

(** ** Writing user pages

    The contents of user pages are no part of the invariants. *)

Lemma vm_inv_data s m' dirs rl lim :
  vm_inv s dirs rl lim ->
  (forall q k, rl q <> RUser -> 0 <= k < 1024 -> word m' q k = word (mem s) q k) ->
  vm_inv (s <| mem := m' |>) dirs rl lim.
Proof.
  intros Hi Hw.
  assert (Hw' : forall q k, (rl q = RDir \/ exists d i, rl q = RPT d i) -> 0 <= k < 1024 ->
    word m' q k = word (mem s) q k).
  { intros q k Hq Hk. apply Hw; [|done]. destruct Hq as [-> | (? & ? & ->)]; done. }
  eapply (vm_inv_user s _ dirs rl); try done.
  - intros d i Hd Hir. by eapply same_pt.
  - auto.
  - apply Hi.
  - apply Hi.
  - intros d i j q Hd Hir Hj Hu. simpl in Hu. erewrite same_upage in Hu by eauto. by eapply vi_user.
  - intros q Hq. simpl. erewrite same_ucount by eauto. destruct (vi_user_ref _ _ _ _ Hi _ Hq).
    split; [done|]. split; [done|]. by eapply vi_ref16.
  - intros q Hq. simpl. erewrite same_ucount by eauto. by eapply vi_lim.
Qed.

Lemma vm_frame_mem s m' : vm_frame s (s <| mem := m' |>).
Proof. exists m', (pages s), (page_free_list s), (cpus s). by kexplode s. Qed.

Lemma in_kernel_data s m' c dirs rl :
  in_kernel s c dirs rl ->
  (forall q k, rl q <> RUser -> 0 <= k < 1024 -> word m' q k = word (mem s) q k) ->
  in_kernel (s <| mem := m' |>) c dirs rl.
Proof.
  intros [Hs Hc Hl Hh] Hw. constructor; [|done..].
  eapply (sys_inv_pages s); [exact Hs | apply vm_inv_data; [apply Hs | done] | apply vm_frame_mem | | | done].
  - intros p k Hp Hk. apply Hw; [congruence | done].
  - intros d w Hd Hw'. rewrite NUPDE_val in Hw'. apply Hw; [|lia].
    apply (vi_dirs _ _ _ _ (si_vm _ _ _ Hs)) in Hd. congruence.
Qed.

(** ** [sched_yield], [env_destroy], [user_mem_assert] *)

Lemma running_inv s dirs rl e :
  sys_inv s dirs rl -> live s e ->
  sys_inv (running s e (dir_page s e)) dirs rl /\
  exit_ok (ToUser e) (running s e (dir_page s e)).
Proof.
  intros Hs Hl. destruct (si_env _ _ _ Hs e Hl) as (d & Hd & Hed).
  pose proof (sys_inv_env s dirs rl e (running_env s e) Hs Hl eq_refl eq_refl ltac:(done)) as Hs1.
  apply (sys_inv_cpus _ _ _ (cpus (running s e (dir_page s e))) None) in Hs1.
  split; [exact Hs1|]. split; [by exists dirs, rl|].
  destruct Hl as [Her Hst]. unfold running. rewrite !thiscpu_set. unfold curenv. rewrite thiscpu_set.
  unfold live. simpl. rewrite !lookup_total_insert_eq. simpl. repeat split; try done; try lia.
  rewrite (dir_page_kva _ _ _ Hed), Hed. unfold kva. lia.
Qed.

Lemma yield_ok {A} s dirs rl (Q : A -> kst -> Prop) :
  sys_inv s dirs rl -> (forall c, curenv s = Some c -> live s c) -> holding s = true ->
  wp sched_yield Q exit_ok s.
Proof.
  intros Hs Hc Hh. unfold wp. rewrite (sched_yield_spec s dirs rl Hs Hc Hh). cbv zeta.
  pose proof (demote_inv s dirs rl Hs Hc) as Hs1. set (s1 := demote s) in *.
  destruct (sched_pick s1 (next_slot s)) as [e|] eqn:Ep.
  - destruct (sched_pick_some _ _ _ Ep) as (Her & Hr & _). unfold runnable in Hr. zbool.
    apply (running_inv s1 dirs rl e); [done|]. split; [done|]. by rewrite Hr.
  - destruct (any_busy s1) eqn:Eb.
    + split.
      * exists dirs, rl. by apply (sys_inv_cpus _ _ _ (cpus (halted s1)) None) in Hs1.
      * unfold halted, curenv. rewrite thiscpu_set. done.
    + split; [by exists dirs, rl | done].
Qed.

Lemma frame_leave s e : curenv (leave_pgdir s e) = curenv s /\ holding (leave_pgdir s e) = holding s.
Proof.
  unfold leave_pgdir. destruct (bool_decide (curenv s = Some e)); [|done].
  unfold curenv. rewrite thiscpu_set. done.
Qed.

Lemma env_freed_facts dirs rl rl' s s' e d :
  env_freed dirs rl rl' s s' e d ->
  curenv s' = curenv s /\ holding s' = holding s /\
  (forall x, live s' x <-> x <> e /\ live s x) /\ cpunum s' = cpunum s.
Proof.
  intros [Hf _ _ _ _]. destruct (frame_leave s e) as [Hc Hh].
  rewrite (frame_curenv _ _ Hf), (holding_frame _ _ Hf), (frame_cpunum _ _ Hf).
  split; [exact Hc|]. split; [exact Hh|]. split.
  - intros x. rewrite (frame_live _ _ _ Hf). unfold live. simpl.
    destruct (decide (x = e)) as [-> | ?].
    + rewrite lookup_total_insert_eq. naive_solver.
    + rewrite lookup_total_insert_ne by done. naive_solver.
  - unfold leave_pgdir. simpl. case_bool; done.
Qed.

Lemma env_destroy_ok s c dirs rl e :
  in_kernel s c dirs rl -> live s e ->
  wp (env_destroy e) (fun _ s' => kernel_ok c s') exit_ok s.
Proof.
  intros Hk He. destruct Hk as [Hs Hc Hl Hh]. unfold env_destroy, wp. do 2 kb. rewrite Hc.
  destruct ((env_status (envs s !!! e) =? ENV_RUNNING) && negb (bool_decide (Some c = Some e))).
  - exists dirs, rl. by apply in_kernel_env.
  - destruct (env_free_spec s dirs rl e Hs He) as (s' & rl' & d & Hrun & _ & _ & Hfr).
    krw Hrun. destruct (env_freed_facts _ _ _ _ _ _ _ Hfr) as (Hc' & Hh' & Hl' & _).
    pose proof (ef_inv _ _ _ _ _ _ _ Hfr) as Hs'. kb. rewrite Hc', Hc.
    case_bool_decide as Hce.
    + injection Hce as ->. unfold set_curenv. kb. set (s1 := set_thiscpu _ s').
      eapply (yield_ok s1).
      * apply (sys_inv_cpus _ _ _ (cpus s1) (kernel_lock s1)) in Hs'. exact Hs'.
      * unfold s1, curenv. rewrite thiscpu_set. done.
      * change (holding s1) with (holding s'). congruence.
    + exists (filter (.≠ d) dirs), rl'. constructor; [done | congruence | | congruence].
      apply Hl'. split; [congruence | done].
Qed.

(** The assertion returns only when the range is good, and then changed nothing. *)
Lemma user_mem_assert_ok s c dirs rl va len perm (Q : unit -> kst -> Prop) :
  in_kernel s c dirs rl -> 0 <= va < 2 ^ 32 -> 0 <= len < 2 ^ 32 ->
  (forall d, d ∈ dirs -> env_pgdir (envs s !!! c) = kva d ->
     range_ok (mem s) d (Z.lor perm PTE_U) va (w32 (va + len)) = true ->
     va < ULIM /\ va < w32 (va + len) -> Q tt s) ->
  wp (user_mem_assert c va len perm) Q exit_ok s.
Proof.
  intros Hk Hva Hlen HQ. destruct Hk as [Hs Hc Hl Hh].
  destruct (si_env _ _ _ Hs c Hl) as (d & Hd & Hed).
  assert (Hu : has (Z.lor perm PTE_U) PTE_U = true).
  { change PTE_U with (2 ^ 2) at 2. rewrite has_pow2 by lia. rewrite Z.lor_spec.
    change PTE_U with (2 ^ 2). rewrite Z.pow2_bits_true by lia. by rewrite orb_true_r. }
  pose proof (user_mem_check_spec s dirs rl Hs c d Hd Hed va len (Z.lor perm PTE_U) Hva Hlen
    (or_intror Hu)) as Hrun.
  unfold user_mem_assert, wp. destruct ((va <? ULIM) && (va <? w32 (va + len)) &&
    range_ok (mem s) d (Z.lor perm PTE_U) va (w32 (va + len))) eqn:E.
  - krw Hrun. change (0 <? 0) with false. cbv iota. unfold mret, K_ret.
    apply andb_true_iff in E as [E E3]. apply andb_true_iff in E as [E1 E2]. zbool. by apply (HQ d).
  - unfold fault in Hrun. krw Hrun. change (- E_FAULT <? 0) with true. cbv iota.
    set (s1 := s <| user_mem_check_addr := va |>).
    assert (Hs1 : sys_inv s1 dirs rl).
    { destruct Hs. constructor; try done. eapply vm_inv_eq; [|eassumption]. done. }
    assert (Hk1 : in_kernel s1 c dirs rl) by (constructor; done).
    (* the caller itself is destroyed, so there is no return *)
    unfold env_destroy. do 2 kb. change (curenv s1) with (curenv s). rewrite Hc.
    rewrite bool_decide_eq_true_2 by done. cbn [negb]. rewrite andb_false_r.
    destruct (env_free_spec s1 dirs rl c Hs1 Hl) as (s' & rl' & d' & Hrun' & _ & _ & Hfr).
    krw Hrun'. destruct (env_freed_facts _ _ _ _ _ _ _ Hfr) as (Hc' & Hh' & Hl' & _).
    pose proof (ef_inv _ _ _ _ _ _ _ Hfr) as Hs'. kb. rewrite Hc'.
    change (curenv s1) with (curenv s). rewrite Hc, bool_decide_eq_true_2 by done.
    unfold set_curenv. kb. set (s2 := set_thiscpu _ s'). eapply (yield_ok s2).
    + apply (sys_inv_cpus _ _ _ (cpus s2) (kernel_lock s2)) in Hs'. exact Hs'.
    + unfold s2, curenv. rewrite thiscpu_set. done.
    + change (holding s2) with (holding s'). rewrite Hh'. exact Hh.
Qed.

(** ** [envid2env] *)

(** The environment [envid] names for [c]: itself for 0, else the live one with
    that identifier, which must be [c] or its child when [checkperm] is set. *)
Definition names (s : kst) (c envid : Z) (checkperm : bool) (e : Z) : Prop :=
  live s e /\ (if envid =? 0 then e = c else env_id (envs s !!! e) = envid /\
    (checkperm = true -> e = c \/ env_parent_id (envs s !!! e) = env_id (envs s !!! c))).

Lemma ENVX_range envid : 0 <= ENVX envid < NENV.
Proof.
  unfold ENVX. change (NENV - 1) with (2 ^ 10 - 1). rewrite land_ones_mod by lia.
  change NENV with (2 ^ 10). apply Z.mod_pos_bound. lia.
Qed.

Lemma envid2env_spec s c dirs rl envid checkperm :
  in_kernel s c dirs rl ->
  (exists e, envid2env envid checkperm s = Ret (0, Some e) s /\ names s c envid checkperm e) \/
  (envid2env envid checkperm s = Ret (- E_BAD_ENV, None) s /\
   forall e, ~ names s c envid checkperm e).
Proof.
  intros [Hs Hc Hl Hh]. unfold envid2env, names.
  destruct (Z.eqb_spec envid 0) as [-> | Hne].
  { left. exists c. kb. by rewrite Hc. }
  kb. set (e := ENVX envid). pose proof (ENVX_range envid) as Her. fold e in Her.
  destruct ((env_status (envs s !!! e) =? ENV_FREE) || negb (env_id (envs s !!! e) =? envid)) eqn:E1.
  - right. split; [done|]. intros x (Hx & Hid & _).
    destruct (si_idx _ _ _ Hs x Hx) as [_ Hix]. rewrite Hid in Hix. fold e in Hix. subst x.
    destruct Hx as [_ Hst]. apply orb_true_iff in E1 as [E1 | E1]; zbool; done.
  - apply orb_false_iff in E1 as [E1 E2]. rewrite negb_false_iff in E2. zbool.
    assert (He : live s e) by done. do 2 kb. rewrite Hc.
    destruct (checkperm && negb (bool_decide (Some c = Some e)) &&
      negb (env_parent_id (envs s !!! e) =? env_id (envs s !!! c))) eqn:E3.
    + right. split; [done|]. intros x (Hx & Hid & Hperm).
      destruct (si_idx _ _ _ Hs x Hx) as [_ Hix]. rewrite Hid in Hix. fold e in Hix. subst x.
      apply andb_true_iff in E3 as [E3 E4]. apply andb_true_iff in E3 as [-> E3].
      rewrite negb_true_iff in E3, E4. apply bool_decide_eq_false in E3. zbool.
      destruct (Hperm eq_refl); congruence.
    + left. exists e. split; [done|]. split; [done|]. split; [done|]. intros ->.
      cbn [andb] in E3. apply andb_false_iff in E3 as [E3 | E3]; rewrite negb_false_iff in E3.
      * apply bool_decide_eq_true in E3. left. congruence.
      * zbool. by right.
Qed.

(** The common opening of a system call on another environment. *)
Lemma on_env_ok s c dirs rl envid checkperm (f : Z -> K Z) :
  in_kernel s c dirs rl ->
  (forall e, names s c envid checkperm e -> wp (f e) (fun _ s' => kernel_ok c s') exit_ok s) ->
  wp ('(r, e) ← envid2env envid checkperm; if r <? 0 then mret r else e ← deref e; f e)
    (fun _ s' => kernel_ok c s') exit_ok s.
Proof.
  intros Hk Hf. unfold wp.
  destruct (envid2env_spec s c dirs rl envid checkperm Hk) as [(e & Hrun & Hn) | [Hrun _]];
    krw Hrun; [exact (Hf e Hn)|]. by exists dirs, rl.
Qed.

(** ** The calls on environments *)

Lemma names_live s c envid chk e : names s c envid chk e -> live s e.
Proof. by intros [? _]. Qed.

Lemma live_upd s e x v : live s e -> env_status v <> ENV_FREE ->
  live (s <| envs := <[x := v]> (envs s) |>) e.
Proof.
  intros [Hr Hs] Hv. split; [done|]. simpl. destruct (decide (e = x)) as [-> | ?].
  - by rewrite lookup_total_insert_eq.
  - by rewrite lookup_total_insert_ne.
Qed.

(** Updating fields that the invariant does not constrain. *)
Lemma upd_env_ok s c dirs rl e f (Q : unit -> kst -> Prop) X :
  in_kernel s c dirs rl -> live s e ->
  env_pgdir (f (envs s !!! e)) = env_pgdir (envs s !!! e) ->
  env_id (f (envs s !!! e)) = env_id (envs s !!! e) ->
  env_status (f (envs s !!! e)) <> ENV_FREE ->
  (in_kernel (s <| envs := <[e := f (envs s !!! e)]> (envs s) |>) c dirs rl ->
   live (s <| envs := <[e := f (envs s !!! e)]> (envs s) |>) e ->
   Q tt (s <| envs := <[e := f (envs s !!! e)]> (envs s) |>)) ->
  wp (upd_env e f) Q X s.
Proof. intros Hk He Hp Hi Hs HQ. unfold wp. rewrite upd_env_run. apply HQ; [by apply in_kernel_env | by apply live_upd]. Qed.

Lemma sys_env_destroy_ok s c dirs rl envid :
  in_kernel s c dirs rl -> wp (sys_env_destroy envid) (fun _ => kernel_ok c) exit_ok s.
Proof.
  intros Hk. apply (on_env_ok s c dirs rl envid true); [done|]. intros e He%names_live.
  apply wp_bind. eapply wp_mono; [by apply (env_destroy_ok s c dirs rl) | | auto].
  intros u s' Hs'. by apply wp_ret.
Qed.

Lemma sys_env_set_status_ok s c dirs rl envid status :
  in_kernel s c dirs rl -> wp (sys_env_set_status envid status) (fun _ => kernel_ok c) exit_ok s.
Proof.
  intros Hk. unfold sys_env_set_status.
  destruct (negb (status =? ENV_RUNNABLE) && negb (status =? ENV_NOT_RUNNABLE)) eqn:Est.
  { apply wp_ret. by exists dirs, rl. }
  apply (on_env_ok s c dirs rl envid true); [done|]. intros e He%names_live. apply wp_bind.
  eapply upd_env_ok; eauto.
  - simpl. intros ->. done.
  - intros Hk' _. apply wp_ret. by exists dirs, rl.
Qed.

Lemma sys_env_set_pgfault_upcall_ok s c dirs rl envid func :
  in_kernel s c dirs rl ->
  wp (sys_env_set_pgfault_upcall envid func) (fun _ => kernel_ok c) exit_ok s.
Proof.
  intros Hk. apply (on_env_ok s c dirs rl envid true); [done|]. intros e He%names_live.
  apply wp_bind. eapply upd_env_ok; eauto; [by destruct He|].
  intros Hk' _. apply wp_ret. by exists dirs, rl.
Qed.

Lemma sys_getenvid_ok s c dirs rl :
  in_kernel s c dirs rl -> sys_getenvid s = Ret (env_id (envs s !!! c)) s.
Proof. intros Hk. unfold sys_getenvid. krw (cur_run s c (ik_cur _ _ _ _ Hk)). done. Qed.

(** The frame of a successful [env_alloc] keeps us in the kernel. *)
Lemma in_kernel_alloc s s' c dirs rl e d parent_id :
  in_kernel s c dirs rl -> env_allocated dirs rl s s' e d parent_id ->
  in_kernel s' c (d :: dirs) (set_role rl d RDir) /\ live s' e /\ e <> c /\
  envs s' = <[e := fresh_env (envs s !!! e) d e parent_id]> (envs s).
Proof.
  intros [Hs Hc Hl Hh] Ha. pose proof (ea_frame _ _ _ _ _ _ _ Ha) as Hf.
  pose proof (frame_envs _ _ Hf) as Hes. simpl in Hes.
  pose proof (si_free _ _ _ Hs) as Hfree. rewrite (ea_slot _ _ _ _ _ _ _ Ha) in Hfree.
  destruct (linked_head _ _ _ Hfree) as [Her Hst].
  assert (Hec : e <> c) by (intros ->; by destruct Hl).
  split; [|split; [|done]].
  - constructor.
    + by eapply ea_inv.
    + rewrite (frame_curenv _ _ Hf). exact Hc.
    + destruct Hl. split; [done|]. by rewrite Hes, lookup_total_insert_ne.
    + rewrite (holding_frame _ _ Hf). exact Hh.
  - split; [done|]. by rewrite Hes, lookup_total_insert_eq.
Qed.

(** Assignments to several fields of one structure, as one. *)
Lemma upd_env_fuse {B} e f g (k : unit -> K B) s :
  (upd_env e f;; (upd_env e g ≫= k)) s = (upd_env e (fun ev => g (f ev)) ≫= k) s.
Proof.
  unfold mbind, K_bind. rewrite !upd_env_run. f_equal. kexplode s. kred.
  by rewrite lookup_total_insert_eq, insert_insert_eq.
Qed.

(** The child of [c] in slot [e] with directory [d]: the caller's registers, with a
    result of 0, and not yet allowed to run. *)
Definition forked (s : kst) (c e d : Z) : Env :=
  let child := fresh_env (envs s !!! e) d e (env_id (envs s !!! c)) in
  let tf := env_tf (envs s !!! c) in
  child <| env_status := ENV_NOT_RUNNABLE |> <| env_tf := tf <| tf_regs := tf_regs tf <| reg_eax := 0 |> |> |>.

Lemma fork_keeps (v : Env) st tf :
  let v' := v <| env_status := st |> <| env_tf := tf |> in
  env_pgdir v' = env_pgdir v /\ env_id v' = env_id v /\ env_status v' = st.
Proof. by destruct v. Qed.

Lemma fork_tf (v : Env) tf :
  let v' := v <| env_tf := tf |> in
  v' <| env_tf := env_tf v' <| tf_regs := tf_regs (env_tf v') <| reg_eax := 0 |> |> |> =
  v <| env_tf := tf <| tf_regs := tf_regs tf <| reg_eax := 0 |> |> |>.
Proof. by destruct v. Qed.

Lemma sys_exofork_spec s c dirs rl :
  in_kernel s c dirs rl ->
  match env_free_list s, page_free_list s with
  | None, _ => sys_exofork s = Ret (- E_NO_FREE_ENV) s
  | _, None => sys_exofork s = Ret (- E_NO_MEM) s
  | Some e, Some d => exists s1 s',
      env_allocated dirs rl s s1 e d (env_id (envs s !!! c)) /\
      sys_exofork s = Ret (env_id (forked s c e d)) s' /\
      in_kernel s' c (d :: dirs) (set_role rl d RDir) /\ e <> c /\
      s' = s1 <| envs := <[e := forked s c e d]> (envs s) |>
  end.
Proof.
  intros Hk. pose proof (ik_sys _ _ _ _ Hk) as Hs. unfold sys_exofork.
  krw (cur_run s c (ik_cur _ _ _ _ Hk)). kb.
  destruct (env_free_list s) as [e|] eqn:Efe.
  2:{ krw (env_alloc_no_slot s (env_id (envs s !!! c)) Efe). done. }
  destruct (page_free_list s) as [d|] eqn:Efp.
  2:{ krw (env_alloc_nomem s (env_id (envs s !!! c)) e Efe Efp). done. }
  destruct (env_alloc_spec s dirs rl (env_id (envs s !!! c)) e d Hs Efe Efp) as (s1 & Hrun & Ha).
  krw Hrun. destruct (in_kernel_alloc _ _ _ _ _ _ _ _ Hk Ha) as (Hk1 & Hle & Hec & Hes).
  change (0 <? 0) with false. cbv iota. unfold deref. kb.
  assert (Hec1 : envs s1 !!! c = envs s !!! c) by (rewrite Hes; by apply lookup_total_insert_ne).
  assert (Hee1 : envs s1 !!! e = fresh_env (envs s !!! e) d e (env_id (envs s !!! c)))
    by (rewrite Hes; apply lookup_total_insert_eq).
  exists s1, (s1 <| envs := <[e := forked s c e d]> (envs s) |>). split; [done|].
  assert (Hfk : <[e := forked s c e d]> (envs s1) = <[e := forked s c e d]> (envs s))
    by (rewrite Hes; apply insert_insert_eq).
  split.
  - erewrite bind_run by apply upd_env_run. kb.
    set (s2 := s1 <| envs := <[e := (envs s1 !!! e) <| env_status := ENV_NOT_RUNNABLE |>]> (envs s1) |>).
    assert (Hec2 : envs s2 !!! c = envs s !!! c) by (unfold s2; simpl; by rewrite lookup_total_insert_ne).
    assert (Hee2 : envs s2 !!! e = (envs s1 !!! e) <| env_status := ENV_NOT_RUNNABLE |>)
      by (unfold s2; simpl; apply lookup_total_insert_eq).
    rewrite Hec2, upd_env_fuse. erewrite bind_run by apply upd_env_run. kb. rewrite Hee2, Hee1.
    rewrite fork_tf. fold (forked s c e d).
    set (s3 := s2 <| envs := _ |>).
    assert (Hee3 : envs s3 !!! e = forked s c e d) by (unfold s3; simpl; apply lookup_total_insert_eq).
    rewrite Hee3. unfold mret, K_ret. f_equal. rewrite <- Hfk. clear. unfold s3, s2.
    kexplode s1. kred. by rewrite insert_insert_eq.
  - split; [|split; [exact Hec | reflexivity]]. rewrite <- Hfk.
    refine (in_kernel_env s1 c _ _ e (forked s c e d) Hk1 Hle _ _ _).
    + rewrite Hee1. exact (proj1 (fork_keeps _ _ _)).
    + rewrite Hee1. exact (proj1 (proj2 (fork_keeps _ _ _))).
    + rewrite (proj2 (proj2 (fork_keeps _ _ _)) : env_status (forked s c e d) = ENV_NOT_RUNNABLE).
      discriminate.
Qed.

Lemma sys_exofork_ok s c dirs rl :
  in_kernel s c dirs rl -> wp sys_exofork (fun _ => kernel_ok c) exit_ok s.
Proof.
  intros Hk. pose proof (sys_exofork_spec s c dirs rl Hk) as H. unfold wp.
  destruct (env_free_list s) as [e|]; [destruct (page_free_list s) as [d|]|].
  - destruct H as (s1 & s' & _ & -> & Hk' & _). by exists (d :: dirs), (set_role rl d RDir).
  - rewrite H. by exists dirs, rl.
  - rewrite H. by exists dirs, rl.
Qed.

(** ** The calls on pages *)

Lemma bad_perm_range perm :
  0 <= perm -> bad_perm perm = false -> 0 <= perm < PGSIZE /\ has perm PTE_U = true.
Proof.
  intros H0. unfold bad_perm. intros [H1 H2]%orb_false_iff. rewrite negb_false_iff in H1, H2.
  split; [|done]. zbool. set (m := Z.lor PTE_SYSCALL PTE_SHARE) in *.
  assert (Hm : Z.land perm m = perm).
  { rewrite <- Z.ldiff_land in H1. rewrite <- (Z.lor_ldiff_and perm m) at 2. by rewrite H1. }
  assert (Hm2 : Z.land perm (2 ^ 12 - 1) = perm).
  { rewrite <- Hm at 1. rewrite <- Z.land_assoc. change (Z.land m (2 ^ 12 - 1)) with m. done. }
  rewrite land_ones_mod in Hm2 by lia. unfold PGSIZE. change (2 ^ 12) with 4096 in Hm2. zlia.
Qed.

Lemma bad_va_range va : 0 <= va -> bad_va va = false -> 0 <= va < UTOP /\ va mod PGSIZE = 0.
Proof.
  intros H0. unfold bad_va. intros [H1 H2]%orb_false_iff. rewrite negb_false_iff in H2. zbool.
  split; [lia | done].
Qed.

Lemma live_dir s dirs rl e : sys_inv s dirs rl -> live s e ->
  exists d, d ∈ dirs /\ env_pgdir (envs s !!! e) = kva d.
Proof. intros Hs. apply (si_env _ _ _ Hs). Qed.

(** What a call on pages leaves alone. *)
Record page_step (dirs : list Z) (rl : Z -> role) (s s' : kst) : Prop := {
  pg_data : keeps_data rl s s';
  pg_khalf : keeps_khalf dirs s s';
  pg_frame : vm_frame s s';
  pg_pde : pde_user dirs s -> pde_user dirs s' }.

#[export] Instance page_step_refl dirs rl : Reflexive (page_step dirs rl).
Proof. intros s. by constructor. Qed.
Lemma slot_page_step dirs rl rl' s s' x o : slot_set dirs rl rl' s s' x o -> page_step dirs rl s s'.
Proof. by intros []. Qed.

Lemma in_kernel_step s s' c dirs rl rl' :
  in_kernel s c dirs rl -> vm_inv s' dirs rl' None -> page_step dirs rl s s' ->
  (forall p, rl p = RKernel -> rl' p = RKernel) -> in_kernel s' c dirs rl'.
Proof.
  intros [Hs Hc Hl Hh] Hvm [Hd Hk Hf _] Hr. constructor.
  - eapply (sys_inv_pages s); [exact Hs | exact Hvm | exact Hf | | exact Hk | exact Hr].
    intros p k Hp Hkr. apply Hd; [by right | done].
  - by rewrite (frame_curenv _ _ Hf).
  - by rewrite (frame_live _ _ _ Hf).
  - by rewrite (holding_frame _ _ Hf).
Qed.

(** At most one page is free. *)
Definition nearly_full (s : kst) : Prop :=
  match page_free_list s with None => True | Some p => pp_link (pages s !!! p) = None end.

(** [sys_page_alloc] on an environment that may be changed. *)
Lemma page_alloc_at s c dirs rl e d va perm :
  in_kernel s c dirs rl -> d ∈ dirs -> env_pgdir (envs s !!! e) = kva d ->
  0 <= va < UTOP -> 0 <= perm < PGSIZE ->
  exists r s' rl',
    (pp ← page_alloc ALLOC_ZERO;
     match pp with
     | None => mret (- E_NO_MEM)
     | Some pp =>
         ev ← env e;
         r ← page_insert (env_pgdir ev) pp va perm;
         if r <? 0 then page_free pp;; mret r else mret 0
     end) s = Ret r s' /\ in_kernel s' c dirs rl' /\ page_step dirs rl s s' /\
    (r = - E_NO_MEM /\ nearly_full s' /\ (forall d' i j, d' ∈ dirs -> 0 <= i < NUPDE -> 0 <= j < NPTENTRIES ->
        umap (mem s') d' i j = umap (mem s) d' i j) \/
     r = 0 /\ exists pp, rl pp = RFree /\
       umap (mem s') d (PDX va) (PTX va) = Some (mkpte (pp * PGSIZE) perm) /\
       (forall k, 0 <= k < 1024 -> word (mem s') pp k = 0) /\
       same_umap_but dirs s s' (d, PDX va, PTX va)).
Proof.
  intros Hk Hd Hed Hva Hperm. pose proof (ik_sys _ _ _ _ Hk) as Hs. pose proof (si_vm _ _ _ Hs) as Hvm.
  destruct (page_free_list s) as [p|] eqn:Ef.
  2:{ exists (- E_NO_MEM), s, rl. krw (page_alloc_none s ALLOC_ZERO Ef). split_and!; [done | done | done | left; split_and!; [done | by unfold nearly_full; rewrite Ef | done]]. }
  destruct (vi_head _ _ _ _ _ Hvm Ef) as [Hrp Hpr]. pose proof (vi_npages _ _ _ _ Hvm) as Hnp.
  krw (page_alloc_some s ALLOC_ZERO p Ef Hpr ltac:(lia)). kb.
  pose proof (alloc_inv ALLOC_ZERO s dirs rl p Hvm Ef) as Hvm1.
  pose proof (after_alloc_frame ALLOC_ZERO s p) as Hf1.
  pose proof (alloc_words ALLOC_ZERO s dirs rl None p Hvm Ef) as Hw1.
  assert (Hz : forall k, 0 <= k < 1024 -> word (mem (after_alloc ALLOC_ZERO s p)) p k = 0).
  { intros k Hkr. rewrite after_alloc_mem, alloc_mem_word by done. by rewrite Z.eqb_refl. }
  assert (Hw2 : forall q k, q <> p -> 0 <= k < 1024 ->
    word (mem (after_alloc ALLOC_ZERO s p)) q k = word (mem s) q k).
  { intros q k Hq Hkr. rewrite after_alloc_mem, alloc_mem_word by done.
    by rewrite (proj2 (Z.eqb_neq q p)). }
  pose proof (after_alloc_pages ALLOC_ZERO s p) as Hps1.
  set (s1 := after_alloc ALLOC_ZERO s p) in *. clearbody s1.
  assert (Hum1 : forall d' i j, d' ∈ dirs -> 0 <= i < NUPDE -> 0 <= j < NPTENTRIES ->
    umap (mem s1) d' i j = umap (mem s) d' i j) by (intros; by eapply same_umap).
  assert (Hne : forall q, q ∈ dirs -> q <> p).
  { intros q Hq ->. apply (vi_dirs _ _ _ _ Hvm) in Hq. congruence. }
  assert (Hps : page_step dirs rl s s1).
  { constructor; [| |exact Hf1|].
    - intros q k Hq Hkr. apply Hw2; [|done]. intros ->. destruct Hq; congruence.
    - intros q k Hq Hkr. rewrite NUPDE_val in Hkr. apply Hw2; [by apply Hne | lia].
    - apply pde_user_keep. intros q k Hq Hkr. rewrite NUPDE_val in Hkr. apply Hw2; [by apply Hne | lia]. }
  rewrite (frame_envs _ _ Hf1), Hed.
  assert (Href : pp_ref (pages s1 !!! p) + 1 < 2 ^ 16).
  { rewrite Hps1, lookup_total_insert_eq. simpl. lia. }
  destruct (page_insert_spec dirs d va p perm Hd Hva Hperm s1 _ _ Hvm1 (set_role_eq _ _ _) Href)
    as [(Hrun & _ & Hfull) | (s' & rl' & Hrun & Hvm' & Hss)].
  - krw Hrun. change (- E_NO_MEM <? 0) with true. cbv iota.
    krw (free_limbo_run s1 dirs _ p Hvm1).
    exists (- E_NO_MEM), (after_free s1 p), (set_role (set_role rl p RUser) p RFree).
    assert (Hps2 : page_step dirs rl s (after_free s1 p)).
    { destruct Hps as [P1 P2 P3 P4]. constructor; try done.
      etransitivity; [exact P3|]. apply vm_frame_intro. reflexivity. }
    assert (Hnf : nearly_full (after_free s1 p)).
    { unfold nearly_full, after_free. simpl. by rewrite lookup_total_insert_eq. }
    split; [done|]. split; [|split; [exact Hps2 | by left]].
    eapply in_kernel_step; [exact Hk | exact (free_limbo_inv s1 dirs _ p Hvm1) | exact Hps2 |].
    intros q Hq. rewrite !set_role_ne; congruence.
  - krw Hrun. change (0 <? 0) with false. cbv iota. exists 0, s', rl'. split; [done|].
    rewrite decide_True in Hvm' by done. pose proof Hss as [Hss1 Hss2 Hss3 Hss4 Hss5 Hss6 Hss7].
    assert (Hps2 : page_step dirs rl s s').
    { destruct Hps as [P1 P2 P3 P4]. constructor; [| |by transitivity s1 | by auto].
      - intros q k Hq Hkr. rewrite Hss3, P1; try done. rewrite set_role_ne; [done|]. intros ->. destruct Hq; congruence.
      - intros q k Hq Hkr. rewrite Hss4, P2; done. }
    split; [|split; [exact Hps2|]].
    + eapply in_kernel_step; [exact Hk | exact Hvm' | exact Hps2 |].
      intros q Hq. rewrite (rs_fixed _ _ Hss5); rewrite set_role_ne by congruence; auto.
    + right. split; [done|]. exists p. split; [done|]. split; [done|]. split.
      * intros k Hkr. rewrite Hss3; [by apply Hz | | done]. left. apply set_role_eq.
      * intros d' i j Hd' Hi Hj Hx. rewrite Hss2, Hum1; done.
Qed.

Lemma sys_page_alloc_ok s c dirs rl envid va perm :
  in_kernel s c dirs rl -> 0 <= va -> 0 <= perm ->
  wp (sys_page_alloc envid va perm) (fun _ => kernel_ok c) exit_ok s.
Proof.
  intros Hk Hva Hperm. pose proof (ex_intro _ dirs (ex_intro _ rl Hk) : kernel_ok c s) as Hok.
  unfold sys_page_alloc. destruct (bad_va va) eqn:Ev; [by apply wp_ret|].
  destruct (bad_perm perm) eqn:Ep; [by apply wp_ret|].
  apply bad_va_range in Ev as [Hvar _]; [|done]. apply bad_perm_range in Ep as [Hpr _]; [|done].
  apply (on_env_ok s c dirs rl envid true); [done|]. intros e He%names_live.
  destruct (live_dir _ _ _ _ (ik_sys _ _ _ _ Hk) He) as (d & Hd & Hed).
  destruct (page_alloc_at s c dirs rl e d va perm Hk Hd Hed Hvar Hpr) as (r & s' & rl' & Hrun & Hk' & _).
  unfold wp. rewrite Hrun. by exists dirs, rl'.
Qed.

Lemma page_unmap_at s c dirs rl e d va :
  in_kernel s c dirs rl -> d ∈ dirs -> env_pgdir (envs s !!! e) = kva d -> 0 <= va < UTOP ->
  exists s' rl', (ev ← env e; page_remove (env_pgdir ev) va;; mret 0) s = Ret 0 s' /\
    in_kernel s' c dirs rl' /\ slot_set dirs rl rl' s s' (d, PDX va, PTX va) None.
Proof.
  intros Hk Hd Hed Hva. kb. rewrite Hed.
  destruct (page_remove_spec dirs d va Hd Hva s rl None (si_vm _ _ _ (ik_sys _ _ _ _ Hk)))
    as (s' & rl' & Hrun & Hvm' & Hss).
  krw Hrun. exists s', rl'. split; [done|]. split; [by eapply in_kernel_slot | done].
Qed.

Lemma sys_page_unmap_ok s c dirs rl envid va :
  in_kernel s c dirs rl -> 0 <= va ->
  wp (sys_page_unmap envid va) (fun _ => kernel_ok c) exit_ok s.
Proof.
  intros Hk Hva. pose proof (ex_intro _ dirs (ex_intro _ rl Hk) : kernel_ok c s) as Hok.
  unfold sys_page_unmap. destruct (bad_va va) eqn:Ev; [by apply wp_ret|].
  apply bad_va_range in Ev as [Hvar _]; [|done].
  apply (on_env_ok s c dirs rl envid true); [done|]. intros e He%names_live.
  destruct (live_dir _ _ _ _ (ik_sys _ _ _ _ Hk) He) as (d & Hd & Hed).
  destruct (page_unmap_at s c dirs rl e d va Hk Hd Hed Hvar) as (s' & rl' & Hrun & Hk' & _).
  unfold wp. rewrite Hrun. by exists dirs, rl'.
Qed.

(** The source of a mapping. *)
Lemma source_pte_spec s dirs rl d va perm :
  sys_inv s dirs rl -> d ∈ dirs -> 0 <= va < UTOP ->
  (exists t v, source_pte (kva d) va perm s = Ret (Some (kva t + 4 * PTX va)) s /\
     word (mem s) t (PTX va) = v /\ umap (mem s) d (PDX va) (PTX va) = Some v /\
     (has perm PTE_W = true -> has v PTE_W = true)) \/
  (source_pte (kva d) va perm s = Ret None s /\
   forall v, umap (mem s) d (PDX va) (PTX va) = Some v ->
     has perm PTE_W = true /\ has v PTE_W = false).
Proof.
  intros Hs Hd Hva. pose proof (si_vm _ _ _ Hs) as Hvm. unfold source_pte, umap, upte.
  destruct (pt_of (mem s) d (PDX va)) as [t|] eqn:Et.
  - krw (walk_present s dirs rl None Hvm d va Hd Hva t false Et).
    krw (load_word s t (PTX va)).
    destruct (has (word (mem s) t (PTX va)) PTE_P); cbn [negb]; [|right; by split].
    krw (load_word s t (PTX va)).
    destruct (has perm PTE_W) eqn:Ep; cbn [andb].
    + destruct (has (word (mem s) t (PTX va)) PTE_W) eqn:Ew; cbn [negb].
      * left. exists t, (word (mem s) t (PTX va)). auto.
      * right. split; [done|]. intros v [= <-]. done.
    + left. exists t, (word (mem s) t (PTX va)). split; [done|]. split; [done|]. split; done.
  - krw (walk_absent s d va Et). by right.
Qed.

(** Mapping the page behind an accepted source entry. *)
Lemma map_page_at s c dirs rl sd dd t v srcva dstva perm {B} (f : Z -> K B) :
  in_kernel s c dirs rl -> sd ∈ dirs -> dd ∈ dirs -> 0 <= srcva < UTOP -> 0 <= dstva < UTOP ->
  0 <= perm < PGSIZE -> word (mem s) t (PTX srcva) = v ->
  umap (mem s) sd (PDX srcva) (PTX srcva) = Some v ->
  pp_ref (pages s !!! (v / PGSIZE)) + 1 < 2 ^ 16 ->
  (v' ← load32 (kva t + 4 * PTX srcva); pp ← pa2page (PTE_ADDR v'); f pp) s = f (v / PGSIZE) s /\
  ((page_insert (kva dd) (v / PGSIZE) dstva perm s = Ret (- E_NO_MEM) s /\ page_free_list s = None) \/
   exists s' rl', page_insert (kva dd) (v / PGSIZE) dstva perm s = Ret 0 s' /\
     in_kernel s' c dirs rl' /\
     slot_set dirs rl rl' s s' (dd, PDX dstva, PTX dstva) (Some (mkpte (v / PGSIZE * PGSIZE) perm))).
Proof.
  intros Hk Hsd Hdd Hsva Hdva Hperm Hw Hu Href.
  pose proof (si_vm _ _ _ (ik_sys _ _ _ _ Hk)) as Hvm. pose proof (vi_npages _ _ _ _ Hvm).
  assert (Hup : upage (mem s) sd (PDX srcva) (PTX srcva) = Some (v / PGSIZE)).
  { rewrite upage_umap, Hu. done. }
  pose proof (vi_user _ _ _ _ Hvm _ _ _ _ Hsd (PDX_user _ Hsva) (PTX_range _) Hup) as Hr.
  pose proof (vi_range _ _ _ _ Hvm _ ltac:(rewrite Hr; done)) as Hpr.
  split.
  - krw (load_word s t (PTX srcva)). rewrite Hw.
    assert (He : ent v = Some (v / PGSIZE)).
    { apply ent_Some. split; [|done]. unfold umap in Hu.
      destruct (upte (mem s) sd (PDX srcva) (PTX srcva)) as [v'|]; [|done].
      destruct (has v' PTE_P) eqn:E; [|done]. congruence. }
    krw (pa2page_ent s v _ He Hpr ltac:(lia)). done.
  - destruct (page_insert_spec dirs dd dstva (v / PGSIZE) perm Hdd Hdva Hperm s rl None Hvm Hr Href)
      as [(Hrun & _ & Hfull) | (s' & rl' & Hrun & Hvm' & Hss)]; [by left|]. right.
    rewrite decide_False in Hvm' by done. exists s', rl'. split; [done|].
    split; [by eapply in_kernel_slot | done].
Qed.

(** No reference count is about to wrap. *)
Definition refs_ok (s : kst) : Prop := forall p, pp_ref (pages s !!! p) + 1 < 2 ^ 16.

(** [sys_page_map]: an error changes nothing; success gives the destination the
    source's page, writable only if the source was, and nothing else. *)
Definition page_map_done (s s' : kst) (dirs : list Z) (sd srcva dd dstva perm : Z) : Prop :=
  exists v, umap (mem s) sd (PDX srcva) (PTX srcva) = Some v /\
    umap (mem s') dd (PDX dstva) (PTX dstva) = Some (mkpte (v / PGSIZE * PGSIZE) perm) /\
    (has perm PTE_W = true -> has v PTE_W = true) /\
    same_umap_but dirs s s' (dd, PDX dstva, PTX dstva).

Lemma sys_page_map_spec s c dirs rl srcenvid srcva dstenvid dstva perm :
  in_kernel s c dirs rl -> (forall p, rl p = RUser -> pp_ref (pages s !!! p) + 1 < 2 ^ 16) -> 0 <= srcva -> 0 <= dstva -> 0 <= perm ->
  (exists r, sys_page_map srcenvid srcva dstenvid dstva perm s = Ret r s /\ - 16 <= r < 0) \/
  (exists s' rl' se de sd dd,
     sys_page_map srcenvid srcva dstenvid dstva perm s = Ret 0 s' /\ in_kernel s' c dirs rl' /\
     names s c srcenvid true se /\ names s c dstenvid true de /\ sd ∈ dirs /\ dd ∈ dirs /\
     env_pgdir (envs s !!! se) = kva sd /\ env_pgdir (envs s !!! de) = kva dd /\
     bad_perm perm = false /\ page_map_done s s' dirs sd srcva dd dstva perm /\
     exists o, slot_set dirs rl rl' s s' (dd, PDX dstva, PTX dstva) o).
Proof.
  intros Hk Href Hsva Hdva Hperm. unfold sys_page_map.
  destruct (bad_va srcva) eqn:Esv; [left; by exists (- E_INVAL)|].
  destruct (bad_va dstva) eqn:Edv; [left; by exists (- E_INVAL)|].
  destruct (bad_perm perm) eqn:Ep; [left; by exists (- E_INVAL)|].
  apply bad_va_range in Esv as [Hsr _]; [|done]. apply bad_va_range in Edv as [Hdr _]; [|done].
  destruct (bad_perm_range perm Hperm Ep) as [Hpr _].
  destruct (envid2env_spec s c dirs rl srcenvid true Hk) as [(se & Hrs & Hns) | [Hrs _]];
    krw Hrs; [|left; by exists (- E_BAD_ENV)]. change (0 <? 0) with false. cbv iota.
  destruct (envid2env_spec s c dirs rl dstenvid true Hk) as [(de & Hrd & Hnd) | [Hrd _]];
    krw Hrd; [|left; by exists (- E_BAD_ENV)]. change (0 <? 0) with false. cbv iota.
  unfold deref. do 3 kb. pose proof (ik_sys _ _ _ _ Hk) as Hs.
  destruct (live_dir _ _ _ _ Hs (names_live _ _ _ _ _ Hns)) as (sd & Hsd & Hse).
  destruct (live_dir _ _ _ _ Hs (names_live _ _ _ _ _ Hnd)) as (dd & Hdd & Hde).
  rewrite Hse. destruct (source_pte_spec s dirs rl sd srcva perm Hs Hsd Hsr)
    as [(t & v & Hrun & Hw & Hu & Hpw) | [Hrun _]]; krw Hrun; [|left; by exists (- E_INVAL)].
  destruct (map_page_at s c dirs rl sd dd t v srcva dstva perm (fun pp =>
     dv ← env de; r ← page_insert (env_pgdir dv) pp dstva perm; if r <? 0 then mret r else mret 0)
     Hk Hsd Hdd Hsr Hdr Hpr Hw Hu) as [-> Hins].
  { apply Href, (vi_user _ _ _ _ (si_vm _ _ _ Hs) sd (PDX srcva) (PTX srcva)); try done;
      [by apply PDX_user | apply PTX_range | by rewrite upage_umap, Hu]. }
  kb. rewrite Hde.
  destruct Hins as [[Hrun' _] | (s' & rl' & Hrun' & Hk' & Hss)]; krw Hrun'.
  - left. by exists (- E_NO_MEM).
  - right. exists s', rl', se, de, sd, dd. do 9 (split; [done|]). split; [|by eexists].
    destruct Hss as [Hss1 Hss2]. exists v. done.
Qed.

Lemma sys_page_map_ok s c dirs rl srcenvid srcva dstenvid dstva perm :
  in_kernel s c dirs rl -> refs_ok s -> 0 <= srcva -> 0 <= dstva -> 0 <= perm ->
  wp (sys_page_map srcenvid srcva dstenvid dstva perm) (fun _ => kernel_ok c) exit_ok s.
Proof.
  intros Hk Href Hsva Hdva Hperm. unfold wp.
  destruct (sys_page_map_spec s c dirs rl srcenvid srcva dstenvid dstva perm Hk (fun p _ => Href p)
    Hsva Hdva Hperm) as [(r & -> & _) | (s' & rl' & se & de & sd & dd & -> & Hk' & _)]; [by exists dirs, rl|].
  by exists dirs, rl'.
Qed.

(** ** IPC *)

Definition delivered (ev : Env) (from value : Z) : Env :=
  ev <| env_ipc_from := from |> <| env_ipc_value := value |> <| env_ipc_recving := false |>
     <| env_status := ENV_RUNNABLE |>.

(** The receiver is released first; then the page, if both sides want one, is
    mapped.  When there is no memory for that, the receiver stays released. *)
Lemma ipc_deliver_run s c e value srcva perm pte :
  curenv s = Some c ->
  ipc_deliver e value srcva perm pte s =
    (let ev := delivered (envs s !!! e) (env_id (envs s !!! c)) value in
     if (srcva <? UTOP) && (env_ipc_dstva ev <? UTOP) then
       pte ← deref pte; v ← load32 pte; pp ← pa2page (PTE_ADDR v);
       r ← page_insert (env_pgdir ev) pp (env_ipc_dstva ev) perm;
       if r <? 0 then mret r
       else upd_env e (fun ev => ev <| env_ipc_perm := perm |>);; mret 0
     else upd_env e (fun ev => ev <| env_ipc_perm := 0 |>);; mret 0)
    (s <| envs := <[e := delivered (envs s !!! e) (env_id (envs s !!! c)) value]> (envs s) |>).
Proof.
  intros Hc. unfold ipc_deliver. krw (cur_run s c Hc). kb.
  rewrite !upd_env_fuse.
  erewrite bind_run by apply upd_env_run. fold (delivered (envs s !!! e) (env_id (envs s !!! c)) value).
  kb. set (s1 := s <| envs := _ |>).
  assert (He : envs s1 !!! e = delivered (envs s !!! e) (env_id (envs s !!! c)) value).
  { unfold s1. simpl. by rewrite lookup_total_insert_eq. }
  rewrite He. done.
Qed.

Definition ipc_perm_ok (e : Z) (perm : Z) (s : kst) : kst :=
  s <| envs := <[e := (envs s !!! e) <| env_ipc_perm := perm |>]> (envs s) |>.

Lemma in_kernel_perm s c dirs rl e perm :
  in_kernel s c dirs rl -> live s e -> in_kernel (ipc_perm_ok e perm s) c dirs rl.
Proof. intros Hk He. apply in_kernel_env; [done | done | done | done | exact (proj2 He)]. Qed.

Lemma ipc_deliver_ok s c dirs rl e value srcva perm pte sd t v :
  in_kernel s c dirs rl -> live s e -> refs_ok s -> 0 <= env_ipc_dstva (envs s !!! e) ->
  (srcva < UTOP -> pte = Some (kva t + 4 * PTX srcva) /\ sd ∈ dirs /\ 0 <= srcva /\
     0 <= perm < PGSIZE /\ word (mem s) t (PTX srcva) = v /\
     umap (mem s) sd (PDX srcva) (PTX srcva) = Some v) ->
  wp (ipc_deliver e value srcva perm pte) (fun _ => kernel_ok c) exit_ok s.
Proof.
  intros Hk He Href Hdst Hsrc. unfold wp.
  rewrite (ipc_deliver_run s c e value srcva perm pte (ik_cur _ _ _ _ Hk)). cbv zeta.
  set (ev := delivered _ _ _).
  assert (Hk1 : in_kernel (s <| envs := <[e := ev]> (envs s) |>) c dirs rl) by (by apply in_kernel_env).
  assert (He1 : live (s <| envs := <[e := ev]> (envs s) |>) e) by (by apply live_upd).
  change (env_ipc_dstva ev) with (env_ipc_dstva (envs s !!! e)).
  change (env_pgdir ev) with (env_pgdir (envs s !!! e)).
  destruct (live_dir _ _ _ _ (ik_sys _ _ _ _ Hk) He) as (dd & Hdd & Hde). rewrite Hde.
  set (s1 := s <| envs := <[e := ev]> (envs s) |>) in *.
  destruct ((srcva <? UTOP) && (env_ipc_dstva (envs s !!! e) <? UTOP)) eqn:E.
  - apply andb_true_iff in E as [E1 E2]. zbool.
    destruct (Hsrc E1) as (-> & Hsd & Hs0 & Hpr & Hw & Hu). unfold deref. kb.
    assert (Hsr : 0 <= srcva < UTOP) by (split; assumption).
    assert (Hdr : 0 <= env_ipc_dstva (envs s !!! e) < UTOP) by (split; assumption).
    destruct (map_page_at s1 c dirs rl sd dd t v srcva (env_ipc_dstva (envs s !!! e)) perm
      (fun pp => r ← page_insert (kva dd) pp (env_ipc_dstva (envs s !!! e)) perm;
        if r <? 0 then mret r
        else upd_env e (fun ev => ev <| env_ipc_perm := perm |>);; mret 0) Hk1 Hsd Hdd
      Hsr Hdr Hpr Hw Hu (Href _)) as [-> Hins].
    destruct Hins as [[Hrun _] | (s' & rl' & Hrun & Hk' & Hss)]; krw Hrun; [by exists dirs, rl|].
    change (0 <? 0) with false. cbv iota. exists dirs, rl'.
    apply (in_kernel_perm s' c dirs rl' e perm Hk'). by rewrite (frame_live _ _ _ (ss_frame _ _ _ _ _ _ _ Hss)).
  - exists dirs, rl. by apply (in_kernel_perm s1 c dirs rl e 0).
Qed.

Lemma sys_ipc_try_send_ok s c dirs rl envid value srcva perm :
  in_kernel s c dirs rl -> refs_ok s -> 0 <= srcva -> 0 <= perm ->
  (forall e, 0 <= env_ipc_dstva (envs s !!! e)) ->
  wp (sys_ipc_try_send envid value srcva perm) (fun _ => kernel_ok c) exit_ok s.
Proof.
  intros Hk Href Hsva Hperm Hdst. pose proof (ex_intro _ dirs (ex_intro _ rl Hk) : kernel_ok c s) as Hok.
  apply (on_env_ok s c dirs rl envid false); [done|]. intros e He%names_live. unfold wp. kb.
  destruct (env_ipc_recving (envs s !!! e)); cbn [negb]; [|done].
  destruct (Z.ltb_spec srcva UTOP) as [Hlt | Hge].
  - destruct (srcva mod PGSIZE =? 0); cbn [negb]; [|done].
    destruct (bad_perm perm) eqn:Ep; [done|]. destruct (bad_perm_range perm Hperm Ep) as [Hpr _].
    krw (cur_run s c (ik_cur _ _ _ _ Hk)). kb.
    destruct (live_dir _ _ _ _ (ik_sys _ _ _ _ Hk) (ik_live _ _ _ _ Hk)) as (sd & Hsd & Hse).
    rewrite Hse.
    destruct (source_pte_spec s dirs rl sd srcva perm (ik_sys _ _ _ _ Hk) Hsd ltac:(lia))
      as [(t & v & Hrun & Hw & Hu & _) | [Hrun _]]; krw Hrun; [|done].
    eapply (ipc_deliver_ok s c dirs rl e value srcva perm _ sd t v Hk He Href (Hdst e)).
    intros _. repeat split; try done; lia.
  - eapply (ipc_deliver_ok s c dirs rl e value srcva perm None c 0 0 Hk He Href (Hdst e)).
    intros Hlt. exfalso. lia.
Qed.

Lemma sys_ipc_recv_ok s c dirs rl dstva :
  in_kernel s c dirs rl ->
  wp (sys_ipc_recv dstva) (fun r s' => r = - E_INVAL /\ s' = s) exit_ok s.
Proof.
  intros Hk. unfold sys_ipc_recv. case_bool; [by apply wp_ret|]. unfold wp.
  krw (cur_run s c (ik_cur _ _ _ _ Hk)).
  rewrite !upd_env_fuse. erewrite bind_run by apply upd_env_run.
  pose proof (ik_live _ _ _ _ Hk) as Hl.
  assert (Hk1 : in_kernel (s <| envs := <[c := (envs s !!! c) <| env_ipc_recving := true |>
    <| env_ipc_dstva := dstva |> <| env_status := ENV_NOT_RUNNABLE |>]> (envs s) |>) c dirs rl).
  { by apply in_kernel_env. }
  set (s1 := s <| envs := _ |>) in *. clearbody s1.
  enough (wp (sched_yield;; mret 0) (fun r s' => r = - E_INVAL /\ s' = s) exit_ok s1) as H by exact H.
  apply wp_bind. eapply yield_ok; [apply Hk1 | by apply (ik_cur_ok s1 c dirs rl) | apply Hk1].
Qed.

(** ** Calls that touch user memory

    A read through the page tables can fault; what [user_mem_assert] has checked does not. *)

(** The address space of the caller is the one that is loaded, as it is when a program
    enters the kernel. *)
Definition loaded (s : kst) (c : Z) : Prop := cpu_cr3 (thiscpu s) = env_pgdir (envs s !!! c) - KERNBASE.

(** Out of the kernel, or a fault at one of the addresses [F] with the caller still there. *)
Definition sys_exit (c : Z) (F : Z -> Prop) (x : exit_kind) (s : kst) : Prop :=
  exit_ok x s \/ (exists va, F va /\ x = KernelFault va) /\ kernel_ok c s.

Lemma wp_exit {A} (m : K A) Q c F s : wp m Q exit_ok s -> wp m Q (sys_exit c F) s.
Proof. intros H. eapply wp_mono; [exact H | auto |]. intros x s' Hx. by left. Qed.

(** A page the check has found is one the kernel can read. *)
Lemma page_ok_reads s c dirs rl d perm va :
  in_kernel s c dirs rl -> loaded s c -> d ∈ dirs -> env_pgdir (envs s !!! c) = kva d ->
  0 <= va < 2 ^ 32 -> page_ok (mem s) d perm va = true -> exists a, mmu_kva s va false = Some a.
Proof.
  intros Hk Hld Hd Hed Hva Hok. pose proof (ik_sys _ _ _ _ Hk) as Hs. pose proof (si_vm _ _ _ Hs) as Hvm.
  pose proof (vi_npages _ _ _ _ Hvm) as Hnp.
  assert (Hdr : 0 <= d < npages s).
  { apply (vi_range _ _ _ _ Hvm). apply (vi_dirs _ _ _ _ Hvm) in Hd. congruence. }
  assert (Hx : 0 <= PDX va < 1024) by (rewrite PDX_div by done; change PTSIZE with 4194304; zlia).
  unfold page_ok, upte in Hok. destruct (pt_of (mem s) d (PDX va)) as [t|] eqn:Et; [|done].
  assert (Htr : 0 <= t < npages s).
  { destruct (Z.lt_ge_cases (PDX va) NUPDE) as [Hu | Hu].
    - apply (vi_range _ _ _ _ Hvm). rewrite (vi_pt _ _ _ _ Hvm d (PDX va) t Hd ltac:(lia) Et). done.
    - exact (si_khalf _ _ _ Hs d (PDX va) t (or_introl Hd) ltac:(lia) Et). }
  apply ent_Some in Et as [HP ->]. apply andb_true_iff in Hok as [HPt _].
  unfold mmu_kva, mmu_pte. rewrite Hld, Hed, Z.sub_add.
  rewrite (w32_small (kva d)) by (unfold kva, KERNBASE, PGSIZE; lia). fold (word (mem s) d (PDX va)). rewrite HP. cbn [negb].
  rewrite PTE_ADDR_div, (w32_small (_ + KERNBASE)) by (unfold KERNBASE, PGSIZE in *; lia).
  replace (word (mem s) d (PDX va) / PGSIZE * PGSIZE + KERNBASE) with (kva (word (mem s) d (PDX va) / PGSIZE)) by (unfold kva; lia).
  fold (word (mem s) (word (mem s) d (PDX va) / PGSIZE) (PTX va)). rewrite HPt. cbn [negb andb]. by eexists.
Qed.

(** [user_mem_assert] returns when each byte of the range can be read. *)
Lemma user_mem_assert_reads s c dirs rl va len perm (Q : unit -> kst -> Prop) :
  in_kernel s c dirs rl -> loaded s c -> 0 <= va < 2 ^ 32 -> 0 <= len < 2 ^ 32 ->
  ((forall i, 0 <= i < len -> exists a, mmu_kva s (w32 (va + i)) false = Some a) -> Q tt s) ->
  wp (user_mem_assert c va len perm) Q exit_ok s.
Proof.
  intros Hk Hld Hva Hlen HQ. eapply (user_mem_assert_ok s c dirs rl); [done | done | done |].
  intros d Hd Hed Hr [Hul Hend]. apply HQ. intros i Hi. pose proof (w32_bound (va + len)) as Hb.
  assert (Hw : w32 (va + len) = va + len).
  { destruct (Z.lt_ge_cases (va + len) (2 ^ 32)) as [? | Hge]; [apply w32_small; lia|].
    exfalso. revert Hend. unfold w32. replace (va + len) with (va + len - 2 ^ 32 + 1 * 2 ^ 32) by lia.
    rewrite Z.mod_add, Z.mod_small by lia. lia. }
  rewrite Hw in Hr, Hb. rewrite w32_small by lia. eapply (page_ok_reads s c dirs rl d); [done | done | done | done | lia |].
  apply (proj1 (range_ok_iff (mem s) d _ va (va + len) ltac:(lia) ltac:(lia)) Hr). lia.
Qed.

Lemma vread_ok n va s X :
  (forall i, 0 <= i < Z.of_nat n -> exists a, mmu_kva s (w32 (va + i)) false = Some a) -> 0 <= va < 2 ^ 32 ->
  wp (vread n va) (fun _ s' => s' = s) X s.
Proof.
  revert va. induction n as [|n IH]; intros va Hr Hva; cbn [vread]; [by apply wp_ret|].
  destruct (Hr 0 ltac:(lia)) as [a Ha]. rewrite Z.add_0_r, w32_small in Ha by done.
  apply wp_bind. unfold wp at 1, vload8. rewrite Ha.
  apply wp_bind. eapply wp_mono; [apply IH | | auto].
  - intros i Hi. destruct (Hr (i + 1) ltac:(lia)) as [b Hb]. exists b. rewrite <- Hb. f_equal. unfold w32. zlia.
  - apply w32_bound.
  - intros bs s' ->. by apply wp_ret.
Qed.

Lemma sys_inv_console s dirs rl co :
  sys_inv s dirs rl -> sys_inv (s <| console := co |>) dirs rl.
Proof. intros []. constructor; try done. eapply vm_inv_eq; [|eassumption]. done. Qed.

(** While a string is printed, memory and the address space stay. *)
Definition printing (s : kst) (c : Z) (s' : kst) : Prop :=
  kernel_ok c s' /\ mem s' = mem s /\ thiscpu s' = thiscpu s.

Lemma kputch_ok s c ch (dat : Z) s' X : printing s c s' -> wp (kputch ch dat) (fun _ => printing s c) X s'.
Proof.
  intros ((dirs & rl & [Hs Hc Hl Hh]) & Hm & Ht). split; [|by split]. exists dirs, rl. constructor; try done.
  by apply sys_inv_console.
Qed.

Lemma vload8_printing s c va s' F :
  printing s c s' -> (exists a, mmu_kva s va false = Some a) \/ F va ->
  wp (vload8 va) (fun _ => printing s c) (sys_exit c F) s'.
Proof.
  intros Hp Hva. pose proof Hp as (Hk & Hm & Ht). unfold wp, vload8. destruct (mmu_kva s' va false) eqn:E; [done|].
  destruct Hva as [[a Ha] | HF]; [|right; eauto].
  unfold mmu_kva in E, Ha. rewrite Hm, Ht in E. congruence.
Qed.

(** The byte after the string is the only one that can fault. *)
Lemma sys_cputs_ok s c dirs rl p len :
  in_kernel s c dirs rl -> loaded s c -> 0 <= p < 2 ^ 32 -> 0 <= len < 2 ^ 31 ->
  wp (sys_cputs p len) (fun _ => kernel_ok c) (sys_exit c (eq (w32 (p + len)))) s.
Proof.
  intros Hk Hld Hp Hlen. unfold sys_cputs. apply wp_bind.
  eapply wp_run; [apply (cur_run s c (ik_cur _ _ _ _ Hk))|]. apply wp_bind, wp_exit.
  eapply (user_mem_assert_reads s c dirs rl); [exact Hk | done | lia | lia |]. intros Hread.
  assert (Hok : printing s c s) by (split; [by exists dirs, rl | done]).
  apply wp_bind.
  apply (wp_mono _ (fun _ => printing s c) _ (sys_exit c (eq (w32 (p + len))))); [|intros ? ? [? _]; by apply wp_ret | auto].
  eapply wp_eq; [apply vprintfmt_prec_s|]. cbv zeta.
  rewrite (w32_small len), (s32_small len) by lia.
  destruct (w32 p =? 0).
  - apply (wp_print_string kputch _ (printing s c) _ len (fun ch dat s0 => kputch_ok s c ch dat s0 _)); [|done | lia].
    intros i s0 _ H0. by apply wp_ret.
  - apply (wp_print_string kputch _ (printing s c) _ len (fun ch dat s0 => kputch_ok s c ch dat s0 _)); [|done | lia].
    intros i s0 Hi H0. rewrite (w32_small p) by lia. apply vload8_printing; [done|].
    destruct (decide (i = len)) as [-> | Hne]; [by right|]. left. apply Hread. lia.
Qed.

Lemma sys_env_set_trapframe_ok s c dirs rl envid tf F :
  in_kernel s c dirs rl -> loaded s c -> 0 <= tf < 2 ^ 32 ->
  wp (sys_env_set_trapframe envid tf) (fun _ => kernel_ok c) (sys_exit c F) s.
Proof.
  intros Hk Hld Htf. assert (Hok : kernel_ok c s) by (by exists dirs, rl).
  unfold sys_env_set_trapframe, wp.
  destruct (envid2env_spec s c dirs rl envid true Hk) as [(e & Hrun & Hn) | [Hrun _]]; krw Hrun; [|done].
  change (0 <? 0) with false. cbv iota. unfold deref. kb. krw (cur_run s c (ik_cur _ _ _ _ Hk)).
  apply names_live in Hn.
  apply wp_bind, wp_exit.
  eapply (user_mem_assert_reads s c dirs rl); [exact Hk | done | lia | done |]. intros Hread.
  apply wp_bind, (wp_mono _ (fun _ s' => s' = s) _ (sys_exit c F)); [apply vread_ok; [|lia] | | auto].
  { intros i Hi. apply Hread. unfold sizeof_Trapframe in *. lia. }
  intros bs s' ->. unfold wp. rewrite !upd_env_fuse. erewrite bind_run by apply upd_env_run.
  exists dirs, rl. apply in_kernel_env; [done | done | done | done | exact (proj2 Hn)].
Qed.

Lemma sys_time_msec_ok s : sys_time_msec s = Ret (w32 (ticks s * 10)) s.
Proof. done. Qed.

(** ** All of them *)

(** The calls that only forward to a device, and [sys_exec], are left out. *)
Definition covered (no : Z) : Prop :=
  no <> SYS_cgetc /\ no <> SYS_net_send /\ no <> SYS_net_recv /\ no <> SYS_exec.

Lemma syscall_ok `{Devices} s c dirs rl no a1 a2 a3 a4 a5 :
  in_kernel s c dirs rl -> refs_ok s -> (forall e, 0 <= env_ipc_dstva (envs s !!! e)) ->
  loaded s c -> covered no -> (no = SYS_cputs -> a2 < 2 ^ 31) ->
  0 <= a1 < 2 ^ 32 -> 0 <= a2 < 2 ^ 32 -> 0 <= a3 < 2 ^ 32 -> 0 <= a4 < 2 ^ 32 -> 0 <= a5 < 2 ^ 32 ->
  wp (syscall no a1 a2 a3 a4 a5) (fun _ => kernel_ok c) (sys_exit c (fun va => no = SYS_cputs /\ va = w32 (a1 + a2))) s.
Proof.
  intros Hk Href Hdst Hld (C1 & C2 & C3 & C4) Hcp H1 H2 H3 H4 H5.
  assert (Hok : kernel_ok c s) by (by exists dirs, rl).
  unfold syscall.
  destruct (Z.eqb_spec no SYS_cputs) as [E|_].
  { apply wp_bind. eapply wp_mono; [apply (sys_cputs_ok s c dirs rl); [done|done|done|lia] | |].
    - intros ? s' Hs'. by apply wp_ret.
    - intros x s' [Hx | [(va & <- & Hx) Hs']]; [by left|]. right. split; [by exists (w32 (a1 + a2)) | done]. }
  rewrite (proj2 (Z.eqb_neq no SYS_cgetc) C1).
  destruct (no =? SYS_getenvid); [by unfold wp; rewrite (sys_getenvid_ok s c dirs rl Hk)|].
  destruct (no =? SYS_env_destroy); [by apply wp_exit, (sys_env_destroy_ok s c dirs rl)|].
  destruct (no =? SYS_yield).
  { apply wp_bind, wp_exit. eapply yield_ok; [apply Hk | by eapply ik_cur_ok | apply Hk]. }
  destruct (no =? SYS_exofork); [by apply wp_exit, (sys_exofork_ok s c dirs rl)|].
  destruct (no =? SYS_env_set_status); [by apply wp_exit, (sys_env_set_status_ok s c dirs rl)|].
  destruct (no =? SYS_env_set_trapframe); [by apply (sys_env_set_trapframe_ok s c dirs rl)|].
  destruct (no =? SYS_env_set_pgfault_upcall); [by apply wp_exit, (sys_env_set_pgfault_upcall_ok s c dirs rl)|].
  destruct (no =? SYS_page_alloc); [apply wp_exit, (sys_page_alloc_ok s c dirs rl); [done|lia|lia]|].
  destruct (no =? SYS_page_map); [apply wp_exit, (sys_page_map_ok s c dirs rl); [done|done|lia|lia|lia]|].
  destruct (no =? SYS_page_unmap); [apply wp_exit, (sys_page_unmap_ok s c dirs rl); [done|lia]|].
  destruct (no =? SYS_ipc_try_send); [apply wp_exit, (sys_ipc_try_send_ok s c dirs rl); [done|done|lia|lia|done]|].
  destruct (no =? SYS_ipc_recv).
  { apply wp_exit. eapply wp_mono; [by apply (sys_ipc_recv_ok s c dirs rl) | | auto].
    by intros ? ? [_ ->]. }
  destruct (no =? SYS_time_msec); [done|].
  rewrite (proj2 (Z.eqb_neq no SYS_net_send) C2), (proj2 (Z.eqb_neq no SYS_net_recv) C3),
    (proj2 (Z.eqb_neq no SYS_exec) C4). done.
Qed.
