(* ===== verification/Samples.v ===== *)
(** * A small machine in a good state

    Concrete states for which the invariants are established, so that the
    theorems can be applied to them: sixteen pages, one environment running. *)

From S2P Require Import Prelude Mem CString Mmu KState Printf Pmap VmInv VmSpec VmLife Environ Sched Syscall Trap EnvInv EnvFree SchedSpec UserMem SysSpec.

(** How a call ended. *)
Definition ends {A} (o : outcome A) : option exit_kind := match o with Exit x _ => Some x | _ => None end.
Definition returns {A} (o : outcome A) : option A := match o with Ret r _ => Some r | _ => None end.

(** Devices for instances: they answer nothing. *)
Definition no_devices : Devices :=
  {| cons_getc := mret 0; e1000_transmit := fun _ _ => mret 0; e1000_receive := fun _ _ => mret 0 |}.

(** Checking a linked list by computation. *)
Fixpoint chainb (link : Z -> option Z) (h : option Z) (l : list Z) : bool :=
  match l with
  | [] => bool_decide (h = None)
  | p :: l' => bool_decide (h = Some p) && chainb link (link p) l'
  end.
Lemma chainb_ok link h l : chainb link h l = true -> chain link h l.
Proof.
  revert h. induction l as [|p l IH]; intros h; simpl.
  - apply bool_decide_eq_true.
  - intros [H1 H2]%andb_true_iff. apply bool_decide_eq_true in H1. auto.
Qed.

(** Environment 0 runs in the directory on page 2; 1 to 1023 are free. *)
Definition sample_env0 : Env :=
  let e : Env := inhabitant in
  e <| env_id := 4096 |> <| env_status := ENV_RUNNING |> <| env_pgdir := kva 2 |>
    <| env_tf := env_alloc_tf |>.
Definition sample_free_env (i : Z) : Env :=
  let e : Env := inhabitant in e <| env_link := if i =? 1023 then None else Some (i + 1) |>.
Definition sample_envs : gmap Z Env :=
  <[0 := sample_env0]> (list_to_map (map (fun i => (i, sample_free_env i)) (seqZ 1 1023))).

(** Pages 3 to 15 are free; page 1 is the kernel's directory. *)
Definition sample_page (i : Z) : PageInfo :=
  {| pp_link := if (i <? 3) || (i =? 15) then None else Some (i + 1);
     pp_ref := if i =? 2 then 1 else 0 |}.
Definition sample_pages : gmap Z PageInfo :=
  list_to_map (map (fun i => (i, sample_page i)) (seqZ 0 16)).

Definition sample : kst :=
  let s : kst := inhabitant in
  let cpu : CpuInfo := inhabitant in
  s <| npages := 16 |> <| npages_basemem := 16 |> <| kern_pgdir := kva 1 |>
    <| pages := sample_pages |> <| page_free_list := Some 3 |>
    <| envs := sample_envs |> <| env_free_list := Some 1 |>
    <| cpus := {[ 0 := cpu <| cpu_status := CPU_STARTED |> <| cpu_env := Some 0 |>
                           <| cpu_cr3 := 2 * PGSIZE |> ]} |>
    <| kernel_lock := Some 0 |>.

Definition sample_role (p : Z) : role :=
  if p =? 2 then RDir else if (3 <=? p) && (p <? 16) then RFree else RKernel.

Lemma sample_word p k : word (mem sample) p k = 0.
Proof. reflexivity. Qed.
Lemma sample_pt d i : pt_of (mem sample) d i = None.
Proof. reflexivity. Qed.
Lemma sample_upage d i j : upage (mem sample) d i j = None.
Proof. reflexivity. Qed.

Lemma sample_role_free p : sample_role p = RFree <-> 3 <= p < 16.
Proof.
  unfold sample_role. destruct (Z.eqb_spec p 2); [split; [done | lia]|].
  destruct (Z.leb_spec 3 p), (Z.ltb_spec p 16); simpl; split; (done || lia).
Qed.
Lemma sample_role_range p : sample_role p <> RKernel -> 0 <= p < 16.
Proof.
  unfold sample_role. destruct (Z.eqb_spec p 2); [lia|].
  destruct (Z.leb_spec 3 p), (Z.ltb_spec p 16); simpl; (done || lia).
Qed.

Lemma sample_free : free_ok sample sample_role.
Proof.
  exists (seqZ 3 13). split; [apply chainb_ok; vm_compute; reflexivity|].
  split; [apply NoDup_seqZ|]. intros p. rewrite elem_of_seqZ, sample_role_free. lia.
Qed.

Lemma sample_role_dir d : sample_role d = RDir <-> d = 2.
Proof.
  unfold sample_role. destruct (Z.eqb_spec d 2) as [->|]; [done|].
  destruct ((3 <=? d) && (d <? 16)); split; (done || congruence).
Qed.
Lemma sample_role_not d : sample_role d <> RUser /\ forall x i, sample_role d <> RPT x i.
Proof. unfold sample_role. repeat case_bool; done. Qed.

Lemma sample_vm : vm_inv sample [2] sample_role None.
Proof.
  constructor.
  - split; [done | by vm_compute].
  - exact sample_role_range.
  - apply sample_free.
  - intros p Hr%sample_role_free.
    assert (Hp : p ∈ seqZ 3 13) by (apply elem_of_seqZ; lia).
    assert (Hall : forallb (fun p => pp_ref (pages sample !!! p) =? 0) (seqZ 3 13) = true)
      by (vm_compute; reflexivity).
    rewrite forallb_forall in Hall. apply Z.eqb_eq, Hall. by apply list_elem_of_In.
  - apply NoDup_singleton.
  - intros d. rewrite sample_role_dir, list_elem_of_singleton. done.
  - intros d ->%list_elem_of_singleton. vm_compute. reflexivity.
  - intros d i p _ _ Hp. rewrite sample_pt in Hp. discriminate Hp.
  - intros p d i Hp. destruct (sample_role_not p) as [_ Hn]. by apply Hn in Hp.
  - intros d i j p _ _ _ Hp. rewrite sample_upage in Hp. discriminate Hp.
  - intros p Hp. by destruct (sample_role_not p) as [Hn _].
  - intros p Hp. by destruct (sample_role_not p) as [Hn _].
  - intros p Hp. discriminate Hp.
Qed.

Lemma sample_live e : live sample e <-> e = 0.
Proof.
  split; [|intros ->; split; [done | vm_compute; done]]. intros [Hr Hs].
  destruct (decide (e = 0)); [done|]. exfalso. apply Hs.
  assert (Hall : forallb (fun e => env_status (envs sample !!! e) =? ENV_FREE) (seqZ 1 1023) = true)
    by (vm_compute; reflexivity).
  rewrite forallb_forall in Hall. apply Z.eqb_eq, Hall. apply list_elem_of_In, elem_of_seqZ.
  unfold NENV in Hr. lia.
Qed.

Lemma sample_sys : sys_inv sample [2] sample_role.
Proof.
  constructor.
  - apply sample_vm.
  - exists 1. split; [done|]. split; [done|]. split; [done|]. intros. apply sample_pt.
  - intros d w t _ _ H. done.
  - intros d t _ H. done.
  - intros e ->%sample_live. exists 2. split; [set_solver | vm_compute; done].
  - intros d ->%list_elem_of_singleton. exists 0. split; [by apply sample_live | vm_compute; done].
  - intros e1 e2 ->%sample_live ->%sample_live. done.
  - exists (seqZ 1 1023). split; [apply chainb_ok; vm_compute; reflexivity|].
    split; [apply NoDup_seqZ|]. intros e. rewrite elem_of_seqZ. split.
    + intros He. split; [unfold NENV; lia|]. destruct (decide (live sample e)) as [Hl | Hl].
      * apply sample_live in Hl. lia.
      * destruct (decide (env_status (envs sample !!! e) = ENV_FREE)); [done|].
        exfalso. apply Hl. split; [unfold NENV; lia | done].
    + intros [Hr Hs]. unfold NENV in Hr. destruct (decide (e = 0)) as [-> |]; [|lia].
      vm_compute in Hs. done.
  - intros e He.
    assert (Hall : forallb (fun e => (0 <=? env_id (envs sample !!! e)) &&
      (env_id (envs sample !!! e) <? 2 ^ 31)) (seqZ 0 1024) = true) by (vm_compute; reflexivity).
    rewrite forallb_forall in Hall. specialize (Hall e).
    rewrite <- list_elem_of_In, elem_of_seqZ in Hall. unfold NENV in He.
    specialize (Hall ltac:(lia)). apply andb_true_iff in Hall as [? ?]. zbool. lia.
  - intros e ->%sample_live. vm_compute. done.
Qed.

Lemma sample_in_kernel : in_kernel sample 0 [2] sample_role.
Proof. constructor; [apply sample_sys | done | by apply sample_live | done]. Qed.

(** No count near its limit: a check over the pages that are listed. *)
Lemma refs_ok_check s :
  forallb (fun x => pp_ref (snd x) + 1 <? 2 ^ 16) (map_to_list (pages s)) = true -> refs_ok s.
Proof.
  intros H p. rewrite lookup_total_alt. destruct (pages s !! p) as [v|] eqn:E; [|done]. simpl.
  rewrite forallb_forall in H. apply (Z.ltb_lt _ (2 ^ 16)), (H (p, v)).
  apply list_elem_of_In, elem_of_map_to_list. done.
Qed.
Lemma sample_refs : refs_ok sample.
Proof. apply refs_ok_check. vm_compute. reflexivity. Qed.

(** ** Two environments, one of them receiving, the other with a page to send *)

Definition sample2 : kst :=
  match env_alloc 4096 sample with Ret _ s' => s' | _ => sample end.
Lemma sample2_alloc :
  env_alloc 4096 sample = Ret (0, Some 1) sample2 /\
  env_allocated [2] sample_role sample sample2 1 3 4096.
Proof.
  destruct (env_alloc_spec sample [2] sample_role 4096 1 3 sample_sys eq_refl eq_refl)
    as (s' & Hrun & Ha).
  assert (E : s' = sample2) by (unfold sample2; rewrite Hrun; reflexivity).
  rewrite E in Hrun, Ha. split; [exact Hrun | exact Ha].
Qed.
Lemma sample2_in_kernel : in_kernel sample2 0 [3; 2] (set_role sample_role 3 RDir) /\ live sample2 1.
Proof.
  destruct sample2_alloc as [_ Ha].
  destruct (in_kernel_alloc _ _ _ _ _ _ _ _ sample_in_kernel Ha) as (H & Hl & _).
  split; [exact H | exact Hl].
Qed.

(** Environment [e] blocked in [sys_ipc_recv]. *)
Definition receiving (s : kst) (e va : Z) : kst :=
  s <| envs := <[e := (envs s !!! e) <| env_ipc_recving := true |>
    <| env_ipc_dstva := va |> <| env_status := ENV_NOT_RUNNABLE |>]> (envs s) |>.
Lemma receiving_in_kernel s c dirs rl e va :
  in_kernel s c dirs rl -> live s e -> in_kernel (receiving s e va) c dirs rl.
Proof. intros. by apply in_kernel_env. Qed.

Definition sample_recv : kst := receiving sample2 1 0xA00000.
Lemma sample_recv_in_kernel : in_kernel sample_recv 0 [3; 2] (set_role sample_role 3 RDir).
Proof.
  destruct sample2_in_kernel as [H Hl]. exact (receiving_in_kernel sample2 0 _ _ 1 0xA00000 H Hl).
Qed.

Definition sample_mapped : kst :=
  match sys_page_alloc 0 0x800000 7 sample_recv with Ret _ s' => s' | _ => sample end.
Lemma sample_mapped_in_kernel : exists rl, in_kernel sample_mapped 0 [3; 2] rl.
Proof.
  unfold sample_mapped.
  destruct (page_alloc_at sample_recv 0 [3; 2] _ 0 2 0x800000 7 sample_recv_in_kernel)
    as (r & s' & rl' & Hrun & Hk & _).
  - apply list_elem_of_In. by right; left.
  - vm_compute. reflexivity.
  - vm_compute. split; congruence.
  - vm_compute. split; congruence.
  - exists rl'.
    assert (Hs : sys_page_alloc 0 0x800000 7 sample_recv = Ret r s'); [|by rewrite Hs].
    rewrite <- Hrun. reflexivity.
Qed.
Lemma sample_mapped_refs : refs_ok sample_mapped.
Proof. apply refs_ok_check. vm_compute. reflexivity. Qed.

(** The receive addresses of all environments: a check over those listed. *)
Lemma dstva_check s :
  forallb (fun x => 0 <=? env_ipc_dstva (snd x)) (map_to_list (envs s)) = true ->
  forall e, 0 <= env_ipc_dstva (envs s !!! e).
Proof.
  intros H e. rewrite lookup_total_alt. destruct (envs s !! e) as [v|] eqn:E; [|done]. simpl.
  rewrite forallb_forall in H. apply Z.leb_le, (H (e, v)).
  apply list_elem_of_In, elem_of_map_to_list. done.
Qed.

(** The same with bytes written by the user on its page, at offset [off]. *)
Lemma word_stbytes_out m p off l q k :
  0 <= off -> off + Z.of_nat (length l) <= PGSIZE -> q <> p -> 0 <= k < 1024 ->
  word (stbytes m (kva p + off) l) q k = word m q k.
Proof.
  intros H1 H2 Hq Hk. unfold word, ld32. unfold kva, PGSIZE in *.
  rewrite !ld8_stbytes_out by lia. done.
Qed.

Definition sample_text (off : Z) (l : list Z) : kst :=
  sample_mapped <| mem := stbytes (mem sample_mapped) (kva 4 + off) l |>.
Lemma sample_text_in_kernel off l :
  0 <= off -> off + Z.of_nat (length l) <= PGSIZE ->
  exists rl, in_kernel (sample_text off l) 0 [3; 2] rl.
Proof.
  intros H1 H2. destruct sample_mapped_in_kernel as [rl Hk]. exists rl.
  assert (H4 : rl 4 = RUser).
  { apply (vi_user _ _ _ _ (si_vm _ _ _ (ik_sys _ _ _ _ Hk)) 2 (PDX 0x800000) (PTX 0x800000)).
    - apply list_elem_of_In. by right; left.
    - vm_compute. split; congruence.
    - vm_compute. split; congruence.
    - vm_compute. reflexivity. }
  refine (in_kernel_data sample_mapped _ 0 [3; 2] rl Hk _).
  intros q k Hq Hkr. apply word_stbytes_out; [exact H1 | exact H2 | congruence | exact Hkr].
Qed.

(** Ten more pages for the running environment: no memory is left. *)
Definition alloc_step (va : Z) (s : kst) : kst :=
  match sys_page_alloc 0 va 7 s with Ret _ s' => s' | _ => s end.
Lemma alloc_step_ok c va s : 0 <= va -> kernel_ok c s -> kernel_ok c (alloc_step va s).
Proof.
  intros Hva (dirs & rl & Hk).
  pose proof (sys_page_alloc_ok s c dirs rl 0 va 7 Hk Hva ltac:(done)) as H. unfold wp in H.
  unfold alloc_step. destruct (sys_page_alloc 0 va 7 s); [exact H | done | by exists dirs, rl].
Qed.

Definition sample_full : kst :=
  foldr alloc_step sample_mapped (map (fun i => 0x801000 + PGSIZE * i) (seqZ 0 10)).
Lemma sample_full_ok : kernel_ok 0 sample_full.
Proof.
  unfold sample_full. assert (Hv : Forall (fun va => 0 <= va) (map (fun i => 0x801000 + PGSIZE * i) (seqZ 0 10))).
  { apply List.Forall_map, List.Forall_forall. intros i Hi. apply list_elem_of_In, elem_of_seqZ in Hi.
    unfold PGSIZE. lia. }
  induction Hv as [|va l Hva _ IH].
  - destruct sample_mapped_in_kernel as [rl Hk]. exists [3; 2], rl. exact Hk.
  - apply alloc_step_ok; [exact Hva | exact IH].
Qed.
