(* ===== verification/KernelThms.v ===== *)
(** * What the kernel guarantees

    The main theorems about [kern/], each with an instance on the sample machine
    where it has hypotheses. *)

From S2P Require Import Prelude Mem CString Mmu KState Printf Pmap VmInv VmSpec VmLife Environ Sched Syscall Trap EnvInv EnvFree SchedSpec UserMem SysSpec Samples.

(** ** Address spaces *)

(** C18. [page_insert] of a user page with perm bits at a user address either reports
    [-E_NO_MEM] having changed nothing, and then there was neither a page table nor a
    free page; or it succeeds: the slot of [va] holds exactly the new PTE, every other
    user slot of every address space keeps its PTE, user and kernel page contents and
    the kernel half of every directory are untouched, page roles only move from free to
    page table and from user to free, and the ownership invariant (free list exact,
    page tables uniquely owned, [pp_ref] equal to the number of mappings) holds again. *)
Theorem page_insert_correct dirs d va pp perm s rl lim :
  d ∈ dirs -> 0 <= va < UTOP -> 0 <= perm < PGSIZE ->
  vm_inv s dirs rl lim -> rl pp = RUser -> pp_ref (pages s !!! pp) + 1 < 2 ^ 16 ->
  (page_insert (kva d) pp va perm s = Ret (- E_NO_MEM) s /\
   pt_of (mem s) d (PDX va) = None /\ page_free_list s = None) \/
  exists s' rl',
    page_insert (kva d) pp va perm s = Ret 0 s' /\
    vm_inv s' dirs rl' (if decide (lim = Some pp) then None else lim) /\
    slot_set dirs rl rl' s s' (d, PDX va, PTX va) (Some (mkpte (pp * PGSIZE) perm)).
Proof. intros. by apply page_insert_spec. Qed.

Definition sample_limbo : kst := after_alloc ALLOC_ZERO sample 3.
Lemma sample_limbo_inv : vm_inv sample_limbo [2] (set_role sample_role 3 RUser) (Some 3).
Proof. apply alloc_inv; [apply sample_vm | done]. Qed.

Lemma page_insert_correct_witness :
  exists s' rl', page_insert (kva 2) 3 0x800000 7 sample_limbo = Ret 0 s' /\
    vm_inv s' [2] rl' None /\ aspace (mem s') 2 0x800000 = Some (mkpte (3 * PGSIZE) 7).
Proof.
  destruct (page_insert_correct [2] 2 0x800000 3 7 sample_limbo (set_role sample_role 3 RUser) (Some 3))
    as [(_ & _ & Hf) | (s' & rl' & Hrun & Hv & Hss)].
  - apply list_elem_of_singleton. reflexivity.
  - vm_compute. split; congruence.
  - vm_compute. split; congruence.
  - exact sample_limbo_inv.
  - reflexivity.
  - vm_compute. reflexivity.
  - vm_compute in Hf. discriminate Hf.
  - exists s', rl'. split; [exact Hrun|]. split; [exact Hv|]. exact (ss_umap _ _ _ _ _ _ _ Hss).
Defined.

(** C19. [page_remove] always succeeds: it leaves the slot of [va] empty and everything
    else that [page_insert] is required to keep; in particular a page is freed exactly
    when its last mapping goes, as the invariant counts mappings. *)
Theorem page_remove_correct dirs d va s rl lim :
  d ∈ dirs -> 0 <= va < UTOP -> vm_inv s dirs rl lim ->
  exists s' rl',
    page_remove (kva d) va s = Ret tt s' /\ vm_inv s' dirs rl' lim /\
    slot_set dirs rl rl' s s' (d, PDX va, PTX va) None.
Proof. intros. by apply page_remove_spec. Qed.

Lemma page_remove_correct_witness :
  exists s' rl', page_remove (kva 2) 0x800000 sample = Ret tt s' /\ vm_inv s' [2] rl' None.
Proof.
  destruct (page_remove_correct [2] 2 0x800000 sample sample_role None) as (s' & rl' & H1 & H2 & _).
  - apply list_elem_of_singleton. reflexivity.
  - vm_compute. split; congruence.
  - exact sample_vm.
  - exists s', rl'. split; assumption.
Defined.

(** C20. [user_mem_check] with user permissions accepts a range exactly when it starts
    below [ULIM], does not wrap or vanish, and every byte of it lies on a page that is
    present with all the permission bits asked for; otherwise it reports [-E_FAULT] and
    stores the start of the range in [user_mem_check_addr].  It always returns. *)
Theorem user_mem_check_correct s dirs rl e d va len perm :
  sys_inv s dirs rl -> d ∈ dirs -> env_pgdir (envs s !!! e) = kva d ->
  0 <= va < 2 ^ 32 -> 0 <= len < 2 ^ 32 -> has perm PTE_U = true ->
  let good := va < ULIM /\ va < w32 (va + len) /\
    forall a, va <= a < w32 (va + len) -> page_ok (mem s) d perm a = true in
  (good /\ user_mem_check e va len perm s = Ret 0 s) \/
  (~ good /\ user_mem_check e va len perm s = Ret (- E_FAULT) (s <| user_mem_check_addr := va |>)).
Proof.
  intros Hs Hd He Hva Hlen Hu good.
  rewrite (user_mem_check_spec s dirs rl Hs e d Hd He va len perm Hva Hlen (or_intror Hu)).
  pose proof (w32_bound (va + len)). unfold good.
  destruct (Z.ltb_spec va ULIM); cbn [andb]; [|right; split; [lia | done]].
  destruct (Z.ltb_spec va (w32 (va + len))); cbn [andb]; [|right; split; [lia | done]].
  pose proof (range_ok_iff (mem s) d perm va (w32 (va + len)) ltac:(lia) ltac:(lia)) as Hr.
  destruct (range_ok (mem s) d perm va (w32 (va + len))).
  - left. split; [|done]. split; [done|]. split; [done|]. by apply Hr.
  - right. split; [|done]. intros (_ & _ & Hg). by apply Hr in Hg.
Qed.

Lemma user_mem_check_correct_witness :
  user_mem_check 0 0x800000 16 5 sample =
    Ret (- E_FAULT) (sample <| user_mem_check_addr := 0x800000 |>).
Proof.
  destruct (user_mem_check_correct sample [2] sample_role 0 2 0x800000 16 5) as [[(_ & _ & H) _] | [_ H]].
  - exact sample_sys.
  - apply list_elem_of_singleton. reflexivity.
  - vm_compute. reflexivity.
  - vm_compute. split; congruence.
  - vm_compute. split; congruence.
  - vm_compute. reflexivity.
  - specialize (H 0x800000 ltac:(vm_compute; split; congruence)). vm_compute in H. discriminate H.
  - exact H.
Defined.
