(* ===== verification/EnvThms.v ===== *)
(** * Environments and scheduling: the theorems

    Allocation and destruction of environments, identifiers, and the fairness of
    the scheduler. *)

From S2P Require Import Prelude Mem CString Mmu KState Printf Pmap VmInv VmSpec VmLife Environ Sched Syscall Trap EnvInv EnvFree SchedSpec UserMem SysSpec Samples.

(** ** Identifiers *)

(** The identifiers a slot gets, one allocation after another. *)
Definition nth_id (n : nat) (id e : Z) : Z := Nat.iter n (fun id => new_id id e) id.

(** The generation number, and how it moves. *)
Lemma generation_step id e g :
  0 <= e < NENV -> 1 <= g < 2 ^ 19 -> id = g * 4096 + e ->
  new_id id e = (g mod (2 ^ 19 - 1) + 1) * 4096 + e.
Proof.
  intros He Hg ->. pose proof He as He'. unfold NENV in He'.
  rewrite new_id_val by (done || lia). rewrite next_generation_val by lia.
  replace ((g * 4096 + e) / 1024 * 1024) with (g * 4096) by zlia.
  destruct (Z.ltb_spec (g * 4096 + 4096) (2 ^ 31)) as [Hlt | Hge].
  - rewrite Z.mod_small by lia. lia.
  - assert (g = 2 ^ 19 - 1) as -> by lia. rewrite Z.mod_same by lia. lia.
Qed.

Lemma nth_id_val n e g :
  0 <= e < NENV -> 1 <= g < 2 ^ 19 ->
  nth_id n (g * 4096 + e) e = ((g - 1 + Z.of_nat n) mod (2 ^ 19 - 1) + 1) * 4096 + e.
Proof.
  intros He Hg. induction n as [|n IH].
  - simpl. rewrite Z.add_0_r, Z.mod_small by lia. lia.
  - change (nth_id (S n) (g * 4096 + e) e) with (new_id (nth_id n (g * 4096 + e) e) e).
    pose proof (Z.mod_pos_bound (g - 1 + Z.of_nat n) (2 ^ 19 - 1) ltac:(lia)).
    rewrite (generation_step _ e ((g - 1 + Z.of_nat n) mod (2 ^ 19 - 1) + 1)); [|done|lia|exact IH].
    rewrite Z.add_mod_idemp_l by lia. do 4 f_equal. lia.
Qed.

(** C29. The identifiers [env_alloc] hands out for one slot only repeat after
    [2^19 - 1] allocations of that slot: until then a stale identifier names nothing. *)
Theorem env_id_period n e g :
  0 <= e < NENV -> 1 <= g < 2 ^ 19 ->
  nth_id n (g * 4096 + e) e = g * 4096 + e <-> Z.of_nat n mod (2 ^ 19 - 1) = 0.
Proof.
  intros He Hg. rewrite nth_id_val by done.
  pose proof (Z.mod_pos_bound (g - 1 + Z.of_nat n) (2 ^ 19 - 1) ltac:(lia)).
  change (2 ^ 19 - 1) with 524287 in *. change (2 ^ 19) with 524288 in *.
  split; intros Hx; zlia.
Qed.

Lemma env_id_period_witness : nth_id 3 (1 * 4096 + 5) 5 <> 1 * 4096 + 5.
Proof.
  intros H. apply (env_id_period 3 5 1) in H.
  - vm_compute in H. discriminate H.
  - split; [done | reflexivity].
  - split; [done | reflexivity].
Defined.

(** [envid2env] answers with the environment that [envid] names to the caller
    (itself for 0; otherwise the live slot with exactly that identifier, which must
    be the caller or a child of it when permission is checked), and with
    [-E_BAD_ENV] exactly when there is none. *)
Theorem envid2env_correct s c dirs rl envid checkperm :
  in_kernel s c dirs rl ->
  (exists e, envid2env envid checkperm s = Ret (0, Some e) s /\ names s c envid checkperm e /\
     forall e', names s c envid checkperm e' -> e' = e) \/
  (envid2env envid checkperm s = Ret (- E_BAD_ENV, None) s /\
   forall e, ~ names s c envid checkperm e).
Proof.
  intros Hk. destruct (envid2env_spec s c dirs rl envid checkperm Hk) as [(e & Hr & Hn) | H]; [|by right].
  left. exists e. split; [done|]. split; [done|]. intros e' [Hl' Hn']. destruct Hn as [Hl Hn].
  destruct (envid =? 0); [congruence|]. destruct Hn as [Hi _], Hn' as [Hi' _].
  destruct (si_idx _ _ _ (ik_sys _ _ _ _ Hk) e Hl) as [_ <-].
  destruct (si_idx _ _ _ (ik_sys _ _ _ _ Hk) e' Hl') as [_ <-]. congruence.
Qed.

Lemma envid2env_correct_witness :
  exists e, envid2env 4096 true sample = Ret (0, Some e) sample /\ names sample 0 4096 true e.
Proof.
  destruct (envid2env_correct sample 0 [2] sample_role 4096 true sample_in_kernel)
    as [(e & H & Hn & _) | [_ Hn]].
  - exists e. split; [exact H | exact Hn].
  - exfalso. apply (Hn 0). split; [by apply sample_live|]. split; [reflexivity | by left].
Defined.

(** C25. [env_alloc] fails with [-E_NO_FREE_ENV] or [-E_NO_MEM] exactly when there is
    no free slot or no free page, and then changes nothing.  Otherwise it takes the
    first free slot and the first free page: the slot becomes a runnable environment
    with a fresh identifier, clean registers, no upcall and the given parent; its
    directory is empty below [UTOP], shares the kernel's entries above, and maps
    itself at [UVPT]; no other page and no other environment changes; and the
    system invariant holds with the new directory. *)
Theorem env_alloc_correct s dirs rl parent_id :
  sys_inv s dirs rl ->
  match env_free_list s, page_free_list s with
  | None, _ => env_alloc parent_id s = Ret (- E_NO_FREE_ENV, None) s
  | _, None => env_alloc parent_id s = Ret (- E_NO_MEM, None) s
  | Some e, Some d =>
      exists s', env_alloc parent_id s = Ret (0, Some e) s' /\
        env_allocated dirs rl s s' e d parent_id
  end.
Proof.
  intros Hs. destruct (env_free_list s) as [e|] eqn:Ee; [|by apply env_alloc_no_slot].
  destruct (page_free_list s) as [d|] eqn:Ed; [|by eapply env_alloc_nomem].
  by apply env_alloc_spec.
Qed.

Lemma env_alloc_correct_witness :
  exists s', env_alloc 4096 sample = Ret (0, Some 1) s' /\
    env_allocated [2] sample_role sample s' 1 3 4096.
Proof. exact (env_alloc_correct sample [2] sample_role 4096 sample_sys). Defined.

(** C26. [env_free] of an environment in use always returns: its directory, all its page
    tables and every user page that only it mapped become free (no page is freed
    that anyone else maps, as the invariant counts mappings), no other environment's
    mappings change, no page of another environment or of the kernel is written, and
    the slot returns to the free list with the system invariant restored. *)
Theorem env_free_correct s dirs rl e :
  sys_inv s dirs rl -> live s e ->
  exists s' rl' d, env_free e s = Ret tt s' /\ d ∈ dirs /\
    env_pgdir (envs s !!! e) = kva d /\ env_freed dirs rl rl' s s' e d.
Proof. apply env_free_spec. Qed.

Lemma env_free_correct_witness :
  exists s' rl' d, env_free 0 sample = Ret tt s' /\ env_freed [2] sample_role rl' sample s' 0 d.
Proof.
  destruct (env_free_correct sample [2] sample_role 0 sample_sys) as (s' & rl' & d & H & _ & _ & Hf).
  - by apply sample_live.
  - exists s', rl', d. split; [exact H | exact Hf].
Defined.

(** ** Scheduling *)

(** C27. [sched_yield] never returns.  It demotes the running environment, then runs
    the first runnable slot at or after the one following the current
    environment's, in circular order, in that environment's own address space and
    with the kernel lock released; if none is runnable it halts the processor
    (when some environment is running elsewhere or dying) or enters the monitor. *)
Theorem sched_yield_correct A s dirs rl :
  sys_inv s dirs rl -> (forall c, curenv s = Some c -> live s c) -> holding s = true ->
  let s1 := demote s in
  (exists e, @sched_yield A s = Exit (ToUser e) (running s1 e (dir_page s1 e)) /\
     0 <= e < NENV /\ runnable s1 e = true /\
     (forall y, 0 <= y < NENV -> runnable s1 y = true -> dist (next_slot s) e <= dist (next_slot s) y) /\
     exit_ok (ToUser e) (running s1 e (dir_page s1 e))) \/
  ((forall y, 0 <= y < NENV -> runnable s1 y = false) /\
   @sched_yield A s = if any_busy s1 then Exit Halted (halted s1) else Exit InMonitor s1).
Proof.
  intros Hs Hc Hh s1. pose proof (@sched_yield_spec A s dirs rl Hs Hc Hh) as Hy. cbv zeta in Hy.
  fold s1 in Hy. destruct (sched_pick s1 (next_slot s)) as [e|] eqn:Ep.
  - left. exists e. split; [exact Hy|]. destruct (sched_pick_some _ _ _ Ep) as (He & Hr & Hmin).
    split; [done|]. split; [done|]. split; [done|].
    apply (running_inv s1 dirs rl e); [by apply demote_inv|]. split; [done|].
    unfold runnable in Hr. zbool. by rewrite Hr.
  - right. split; [by eapply sched_pick_none | exact Hy].
Qed.

Lemma sched_yield_correct_witness :
  exists e, @sched_yield unit sample =
    Exit (ToUser e) (running (demote sample) e (dir_page (demote sample) e)).
Proof.
  destruct (sched_yield_correct unit sample [2] sample_role) as [(e & H & _) | [H _]].
  - exact sample_sys.
  - intros c Hc. vm_compute in Hc. injection Hc as <-. by apply sample_live.
  - reflexivity.
  - exists e. exact H.
  - exfalso. specialize (H 0 ltac:(done)). vm_compute in H. discriminate H.
Defined.

(** One decision brings a runnable [y] nearer: the slot after the pick is closer to it. *)
Lemma pick_closer A s dirs rl y :
  sys_inv s dirs rl -> (forall c, curenv s = Some c -> live s c) -> holding s = true ->
  0 <= y < NENV -> runnable (demote s) y = true ->
  exists e s', @sched_yield A s = Exit (ToUser e) s' /\ (e = y \/ dist (e + 1) y < dist (next_slot s) y).
Proof.
  intros Hs Hc Hh Hy Hw. rewrite (sched_yield_spec s dirs rl Hs Hc Hh). cbv zeta.
  destruct (sched_pick (demote s) (next_slot s)) as [e|] eqn:Ep.
  - exists e. eexists. split; [done|]. destruct (sched_pick_some _ _ _ Ep) as (He & _ & Hmin).
    destruct (decide (e = y)) as [-> | Hne]; [by left | right].
    assert (Hd : dist (next_slot s) e <> dist (next_slot s) y).
    { intros Heq. apply Hne. rewrite <- (add_dist (next_slot s) e) by done. rewrite Heq. by apply add_dist. }
    specialize (Hmin y Hy Hw). apply dist_closer; [done | done | congruence | lia].
  - by rewrite (sched_pick_none _ _ Ep y Hy) in Hw.
Qed.

(** C28. No starvation: let a processor call [sched_yield] in the states [st 0], [st 1], ...,
    where the environment it picks is still the current one at the next call (it is not
    when that environment has been destroyed, after which the search restarts at slot 0) and
    everything else may have changed in between.  An environment that is runnable at
    each of [NENV] such calls is run by one of them. *)
Theorem sched_no_starvation A (st : nat -> kst) y :
  0 <= y < NENV ->
  (forall k, (k < Z.to_nat NENV)%nat ->
     (exists dirs rl, sys_inv (st k) dirs rl) /\ (forall c, curenv (st k) = Some c -> live (st k) c) /\
     holding (st k) = true /\ runnable (demote (st k)) y = true) ->
  (forall k e s', @sched_yield A (st k) = Exit (ToUser e) s' -> curenv (st (S k)) = Some e) ->
  exists k s', (k < Z.to_nat NENV)%nat /\ @sched_yield A (st k) = Exit (ToUser y) s'.
Proof.
  intros Hy Hst Hnext.
  assert (H : forall n k, (k + n = Z.to_nat NENV)%nat -> dist (next_slot (st k)) y < Z.of_nat n ->
    exists k' s', (k' < Z.to_nat NENV)%nat /\ @sched_yield A (st k') = Exit (ToUser y) s').
  { induction n as [|n IH]; intros k Hk Hd; [pose proof (dist_range (next_slot (st k)) y); lia|].
    destruct (Hst k ltac:(lia)) as ((dirs & rl & Hs) & Hc & Hh & Hw).
    destruct (pick_closer A (st k) dirs rl y Hs Hc Hh Hy Hw) as (e & s' & Hrun & [-> | Hcl]); [exists k, s'; split; [lia | done]|].
    apply (IH (S k)); [lia|]. unfold next_slot at 1. rewrite (Hnext _ _ _ Hrun). lia. }
  apply (H (Z.to_nat NENV) 0%nat); [done|]. pose proof (dist_range (next_slot (st 0%nat)) y). lia.
Qed.

(** The second environment of [sample2] waits for the first, and then keeps the processor. *)
Definition second_runs (s : kst) : kst :=
  s <| cpus := <[0 := (cpus s !!! 0) <| cpu_env := Some 1 |>]> (cpus s) |> <| kernel_lock := Some 0 |>.
Definition sample_turns (k : nat) : kst := match k with O => sample2 | _ => second_runs sample2 end.
Lemma second_runs_inv s dirs rl : sys_inv s dirs rl -> sys_inv (second_runs s) dirs rl.
Proof. apply sys_inv_cpus. Qed.
Lemma second_runs_live s e : live s e -> live (second_runs s) e.
Proof. done. Qed.
Lemma sample_turns_ok k :
  sys_inv (sample_turns k) [3; 2] (set_role sample_role 3 RDir) /\
  (forall c, curenv (sample_turns k) = Some c -> live (sample_turns k) c) /\ holding (sample_turns k) = true.
Proof.
  destruct sample2_in_kernel as [Hk Hl]. destruct k as [|k]; (split; [|split; [|vm_compute; reflexivity]]).
  - apply Hk.
  - intros c Hc. vm_compute in Hc. injection Hc as <-. apply Hk.
  - apply second_runs_inv, Hk.
  - intros c Hc. vm_compute in Hc. injection Hc as <-. apply second_runs_live, Hl.
Qed.
Lemma sched_no_starvation_witness :
  exists k s', (k < Z.to_nat NENV)%nat /\ @sched_yield unit (sample_turns k) = Exit (ToUser 1) s'.
Proof.
  apply (sched_no_starvation unit sample_turns 1).
  - split; [done | reflexivity].
  - intros k _. destruct (sample_turns_ok k) as (Hs & Hc & Hh). split; [by eexists _, _|].
    split; [exact Hc|]. split; [exact Hh|]. destruct k; vm_compute; reflexivity.
  - intros k e s' H. destruct (sample_turns_ok k) as (Hs & Hc & Hh).
    rewrite (sched_yield_spec _ _ _ Hs Hc Hh) in H. cbv zeta in H.
    assert (Hp : sched_pick (demote (sample_turns k)) (next_slot (sample_turns k)) = Some 1)
      by (destruct k; vm_compute; reflexivity).
    rewrite Hp in H. injection H as <- _. reflexivity.
Defined.
