(* ===== verification/SysThms.v ===== *)
(** * System calls: the theorems

    Every system call keeps the kernel's invariants; what the calls on pages,
    messages and environments do, error paths included. *)

From S2P Require Import Prelude Mem CString Mmu KState Printf Pmap VmInv VmSpec VmLife Environ Sched Syscall Trap EnvInv EnvFree SchedSpec UserMem SysSpec Samples.

(** C1. A system call other than [sys_exec], which does worse, and the three that only
    forward to a device ([sys_cgetc], [sys_net_send], [sys_net_recv]): whatever its arguments,
    it never panics and never runs into undefined behaviour or out of fuel.  It returns to
    the caller with the kernel invariants in force and the lock held; or it leaves by
    running an environment, halting or entering the monitor with the system invariant in
    force; or it is [sys_cputs], and faults on the one byte after the string that
    it checked, with the invariants in force.  The caller's address space is loaded, no
    page is mapped 65535 times, no receive address is negative, and a length given to
    [sys_cputs], which is signed there, is not negative. *)
Theorem syscall_safe `{Devices} s c dirs rl no a1 a2 a3 a4 a5 :
  in_kernel s c dirs rl -> refs_ok s -> (forall e, 0 <= env_ipc_dstva (envs s !!! e)) -> loaded s c ->
  covered no -> (no = SYS_cputs -> a2 < 2 ^ 31) ->
  0 <= a1 < 2 ^ 32 -> 0 <= a2 < 2 ^ 32 -> 0 <= a3 < 2 ^ 32 -> 0 <= a4 < 2 ^ 32 -> 0 <= a5 < 2 ^ 32 ->
  wp (syscall no a1 a2 a3 a4 a5) (fun _ => kernel_ok c)
    (sys_exit c (fun va => no = SYS_cputs /\ va = w32 (a1 + a2))) s.
Proof. apply syscall_ok. Qed.

Lemma sample_dstva e : 0 <= env_ipc_dstva (envs sample !!! e).
Proof. apply dstva_check. vm_compute. reflexivity. Qed.

Lemma syscall_safe_witness :
  wp (@syscall no_devices SYS_page_alloc 0 0x800000 7 0 0) (fun _ => kernel_ok 0)
    (sys_exit 0 (fun va => SYS_page_alloc = SYS_cputs /\ va = w32 (0 + 0x800000))) sample.
Proof.
  apply (@syscall_safe no_devices sample 0 [2] sample_role).
  - exact sample_in_kernel.
  - exact sample_refs.
  - exact sample_dstva.
  - vm_compute. reflexivity.
  - vm_compute. repeat split; discriminate.
  - intros H. vm_compute in H. discriminate H.
  - vm_compute. split; congruence.
  - vm_compute. split; congruence.
  - vm_compute. split; congruence.
  - vm_compute. split; congruence.
  - vm_compute. split; congruence.
Defined.

(** The environment a page call works on, and its directory. *)
Definition target (s : kst) (c envid : Z) (dirs : list Z) (e d : Z) : Prop :=
  names s c envid true e /\ d ∈ dirs /\ env_pgdir (envs s !!! e) = kva d.

(** C22. [sys_page_alloc] returns [-E_INVAL] for a bad address or bad permissions and
    [-E_BAD_ENV] for an environment the caller may not change, and then changes nothing;
    with [-E_NO_MEM], at most one page is free and no user mapping anywhere has changed; with 0 the address maps a page that
    was free and now holds only zero bytes, with exactly the requested permissions, and every
    other user mapping of every environment is what it was. *)
Theorem sys_page_alloc_correct s c dirs rl envid va perm :
  in_kernel s c dirs rl -> 0 <= va -> 0 <= perm ->
  (exists r, sys_page_alloc envid va perm s = Ret r s /\
    (r = - E_INVAL /\ (bad_va va = true \/ bad_perm perm = true) \/
     r = - E_BAD_ENV /\ forall e, ~ names s c envid true e)) \/
  exists e d r s' rl', target s c envid dirs e d /\ bad_va va = false /\ bad_perm perm = false /\
    sys_page_alloc envid va perm s = Ret r s' /\ in_kernel s' c dirs rl' /\
    (r = - E_NO_MEM /\ nearly_full s' /\ (forall d' i j, d' ∈ dirs -> 0 <= i < NUPDE -> 0 <= j < NPTENTRIES ->
        umap (mem s') d' i j = umap (mem s) d' i j) \/
     r = 0 /\ exists pp, rl pp = RFree /\
       umap (mem s') d (PDX va) (PTX va) = Some (mkpte (pp * PGSIZE) perm) /\
       (forall k, 0 <= k < 1024 -> word (mem s') pp k = 0) /\
       same_umap_but dirs s s' (d, PDX va, PTX va)).
Proof.
  intros Hk Hva Hperm. unfold sys_page_alloc.
  destruct (bad_va va) eqn:Ev; [left; exists (- E_INVAL); by auto|].
  destruct (bad_perm perm) eqn:Ep; [left; exists (- E_INVAL); by auto|].
  pose proof Ev as Ev'. apply bad_va_range in Ev as [Hvar _]; [|done].
  pose proof Ep as Ep'. apply bad_perm_range in Ep as [Hpr _]; [|done].
  destruct (envid2env_spec s c dirs rl envid true Hk) as [(e & Hr & Hn) | [Hr Hn]]; krw Hr.
  2:{ left. exists (- E_BAD_ENV). split; [done|]. by right. }
  right. destruct (live_dir _ _ _ _ (ik_sys _ _ _ _ Hk) (names_live _ _ _ _ _ Hn)) as (d & Hd & Hed).
  destruct (page_alloc_at s c dirs rl e d va perm Hk Hd Hed Hvar Hpr) as (r & s' & rl' & Hrun & Hk' & _ & Hpost).
  exists e, d, r, s', rl'. split; [done|]. split; [done|]. split; [done|].
  split; [exact Hrun|]. split; [exact Hk' | exact Hpost].
Qed.

Lemma sys_page_alloc_correct_witness :
  exists r s', sys_page_alloc 0 0x800000 7 sample = Ret r s' /\ (r = - E_NO_MEM \/ r = 0).
Proof.
  destruct (sys_page_alloc_correct sample 0 [2] sample_role 0 0x800000 7)
    as [(r & _ & [[_ [H | H]] | [_ H]]) | (e & d & r & s' & rl' & _ & _ & _ & H & _ & [[Hr _] | [Hr _]])].
  - exact sample_in_kernel.
  - done.
  - done.
  - vm_compute in H. discriminate H.
  - vm_compute in H. discriminate H.
  - exfalso. apply (H 0). split; [by apply sample_live | reflexivity].
  - exists r, s'. split; [exact H | by left].
  - exists r, s'. split; [exact H | by right].
Defined.

(** C21. [sys_page_map] cannot widen anyone's rights: when it succeeds, both environments
    are the caller or its children, the destination slot maps exactly the page the
    source address maps, writable only if the source mapping is, and every other user
    mapping of every environment is unchanged; when it fails, nothing at all changes. *)
Theorem sys_page_map_confined s c dirs rl srcenvid srcva dstenvid dstva perm :
  in_kernel s c dirs rl -> refs_ok s -> 0 <= srcva -> 0 <= dstva -> 0 <= perm ->
  (exists r, sys_page_map srcenvid srcva dstenvid dstva perm s = Ret r s /\ r < 0) \/
  exists s' rl' se de sd dd,
    sys_page_map srcenvid srcva dstenvid dstva perm s = Ret 0 s' /\ in_kernel s' c dirs rl' /\
    target s c srcenvid dirs se sd /\ target s c dstenvid dirs de dd /\
    bad_perm perm = false /\ page_map_done s s' dirs sd srcva dd dstva perm.
Proof.
  intros Hk Hr Hs Hd Hp.
  destruct (sys_page_map_spec s c dirs rl srcenvid srcva dstenvid dstva perm Hk (fun p _ => Hr p) Hs Hd Hp)
    as [(r & Hrun & Hneg) | (s' & rl' & se & de & sd & dd & ? & ? & ? & ? & ? & ? & ? & ? & ? & ? & _)].
  { left. exists r. split; [exact Hrun | lia]. }
  right. by exists s', rl', se, de, sd, dd.
Qed.

Lemma sys_page_map_confined_witness :
  exists r, sys_page_map 0 0x800000 0 0x900000 7 sample = Ret r sample /\ r < 0.
Proof.
  destruct (sys_page_map_confined sample 0 [2] sample_role 0 0x800000 0 0x900000 7)
    as [H | (s' & rl' & se & de & sd & dd & _ & _ & (_ & Hd & _) & _ & _ & (v & Hv & _))].
  - exact sample_in_kernel.
  - exact sample_refs.
  - done.
  - done.
  - done.
  - exact H.
  - apply list_elem_of_singleton in Hd as ->. vm_compute in Hv. discriminate Hv.
Defined.

(** [sys_page_unmap] of a valid request always succeeds and leaves exactly that
    address unmapped; an invalid one changes nothing. *)
Theorem sys_page_unmap_correct s c dirs rl envid va :
  in_kernel s c dirs rl -> 0 <= va ->
  (exists r, sys_page_unmap envid va s = Ret r s /\
    (r = - E_INVAL /\ bad_va va = true \/ r = - E_BAD_ENV /\ forall e, ~ names s c envid true e)) \/
  exists e d s' rl', target s c envid dirs e d /\ bad_va va = false /\
    sys_page_unmap envid va s = Ret 0 s' /\ in_kernel s' c dirs rl' /\
    slot_set dirs rl rl' s s' (d, PDX va, PTX va) None.
Proof.
  intros Hk Hva. unfold sys_page_unmap. destruct (bad_va va) eqn:Ev; [left; exists (- E_INVAL); by auto|].
  pose proof Ev as Ev'. apply bad_va_range in Ev as [Hvar _]; [|done].
  destruct (envid2env_spec s c dirs rl envid true Hk) as [(e & Hr & Hn) | [Hr Hn]]; krw Hr.
  2:{ left. exists (- E_BAD_ENV). split; [done|]. by right. }
  right. destruct (live_dir _ _ _ _ (ik_sys _ _ _ _ Hk) (names_live _ _ _ _ _ Hn)) as (d & Hd & Hed).
  destruct (page_unmap_at s c dirs rl e d va Hk Hd Hed Hvar) as (s' & rl' & Hrun & Hk' & Hss).
  exists e, d, s', rl'. by split; [|split; [|split; [exact Hrun|]]].
Qed.

Lemma sys_page_unmap_correct_witness : exists s', sys_page_unmap 0 0x800000 sample = Ret 0 s'.
Proof.
  destruct (sys_page_unmap_correct sample 0 [2] sample_role 0 0x800000)
    as [(r & _ & [[_ H] | [_ H]]) | (e & d & s' & rl' & _ & _ & H & _)].
  - exact sample_in_kernel.
  - done.
  - vm_compute in H. discriminate H.
  - exfalso. apply (H 0). split; [by apply sample_live | reflexivity].
  - exists s'. exact H.
Defined.
