(* ===== verification/IpcThms.v ===== *)
(** * Messages, forking and destruction: the theorems *)

From S2P Require Import Prelude Mem CString Mmu KState Printf Pmap VmInv VmSpec VmLife Environ Sched Syscall Trap EnvInv EnvFree SchedSpec UserMem SysSpec Samples.

(** ** [sys_ipc_try_send] *)

(** The sender may send this page (or none). *)
Definition bad_ipc_page (srcva perm : Z) : bool :=
  (srcva <? UTOP) && (negb (srcva mod PGSIZE =? 0) || bad_perm perm).

(** A page goes with the message when both sides ask for one. *)
Definition page_goes (ev : Env) (srcva : Z) : bool := (srcva <? UTOP) && (env_ipc_dstva ev <? UTOP).

(** The state in which receiver [e] is awake with the message in its fields. *)
Definition awake (s : kst) (c e value : Z) : kst :=
  s <| envs := <[e := delivered (envs s !!! e) (env_id (envs s !!! c)) value]> (envs s) |>.

Record message_sent (s s' : kst) (dirs : list Z) (c e sd dd value srcva perm : Z) : Prop := {
  ms_env : envs s' = <[e := (delivered (envs s !!! e) (env_id (envs s !!! c)) value)
                              <| env_ipc_perm := if page_goes (envs s !!! e) srcva then perm else 0 |>]>
                     (envs s);
  ms_page : let dstva := env_ipc_dstva (envs s !!! e) in
    if page_goes (envs s !!! e) srcva then page_map_done s s' dirs sd srcva dd dstva perm
    else mem s' = mem s }.

Lemma ipc_deliver_spec s c dirs rl e value srcva perm pte sd dd t v :
  in_kernel s c dirs rl -> live s e -> refs_ok s -> 0 <= env_ipc_dstva (envs s !!! e) ->
  dd ∈ dirs -> env_pgdir (envs s !!! e) = kva dd ->
  (srcva < UTOP -> pte = Some (kva t + 4 * PTX srcva) /\ sd ∈ dirs /\ 0 <= srcva /\
     0 <= perm < PGSIZE /\ word (mem s) t (PTX srcva) = v /\
     umap (mem s) sd (PDX srcva) (PTX srcva) = Some v /\ (has perm PTE_W = true -> has v PTE_W = true)) ->
  (ipc_deliver e value srcva perm pte s = Ret (- E_NO_MEM) (awake s c e value) /\
     page_goes (envs s !!! e) srcva = true /\ page_free_list s = None) \/
  exists s' rl', ipc_deliver e value srcva perm pte s = Ret 0 s' /\ in_kernel s' c dirs rl' /\
    message_sent s s' dirs c e sd dd value srcva perm.
Proof.
  intros Hk He Href Hdst Hdd Hde Hsrc.
  rewrite (ipc_deliver_run s c e value srcva perm pte (ik_cur _ _ _ _ Hk)). cbv zeta.
  set (ev := delivered _ _ _).
  assert (Hk1 : in_kernel (awake s c e value) c dirs rl) by (by apply in_kernel_env).
  assert (He1 : live (awake s c e value) e) by (by apply live_upd).
  assert (Hes1 : envs (awake s c e value) = <[e := ev]> (envs s)) by done.
  assert (Href1 : refs_ok (awake s c e value)) by exact Href.
  change (s <| envs := <[e := ev]> (envs s) |>) with (awake s c e value).
  change (mem s) with (mem (awake s c e value)) in Hsrc.
  assert (Hmem : mem (awake s c e value) = mem s) by done.
  assert (Hfl : page_free_list (awake s c e value) = page_free_list s) by done.
  unfold page_goes. change (env_ipc_dstva ev) with (env_ipc_dstva (envs s !!! e)).
  change (env_pgdir ev) with (env_pgdir (envs s !!! e)). rewrite Hde.
  set (s1 := awake s c e value) in *. clearbody s1.
  destruct ((srcva <? UTOP) && (env_ipc_dstva (envs s !!! e) <? UTOP)) eqn:E.
  - apply andb_true_iff in E as [E1 E2]. zbool.
    destruct (Hsrc E1) as (-> & Hsd & Hs0 & Hpr & Hw & Hu & Hwr). unfold deref. kb.
    destruct (map_page_at s1 c dirs rl sd dd t v srcva (env_ipc_dstva (envs s !!! e)) perm
      (fun pp => r ← page_insert (kva dd) pp (env_ipc_dstva (envs s !!! e)) perm;
        if r <? 0 then mret r
        else upd_env e (fun ev => ev <| env_ipc_perm := perm |>);; mret 0) Hk1 Hsd Hdd
      (conj Hs0 E1) (conj Hdst E2) Hpr Hw Hu (Href1 _)) as [-> Hins].
    destruct Hins as [[Hrun Hno] | (s' & rl' & Hrun & Hk' & [Hss1 Hss2 _ _ _ Hf])]; krw Hrun.
    { left. split; [done|]. split; [done | by rewrite <- Hfl]. }
    right. change (0 <? 0) with false. cbv iota. exists (ipc_perm_ok e perm s'), rl'.
    split; [done|]. split; [apply in_kernel_perm; [done | by rewrite (frame_live _ _ _ Hf)]|].
    constructor.
    + unfold ipc_perm_ok. simpl. rewrite (frame_envs _ _ Hf), Hes1.
      rewrite lookup_total_insert_eq, insert_insert_eq. unfold page_goes.
      rewrite (proj2 (Z.ltb_lt _ _) E1), (proj2 (Z.ltb_lt _ _) E2). done.
    + unfold page_goes. rewrite (proj2 (Z.ltb_lt _ _) E1), (proj2 (Z.ltb_lt _ _) E2). cbn [andb].
      exists v. rewrite <- Hmem. split; [done|]. split; [exact Hss1|]. split; [done|].
      intros d i j Hd Hi Hj Hne. rewrite <- Hmem. by apply Hss2.
  - right. exists (ipc_perm_ok e 0 s1), rl. split; [done|]. split; [by apply in_kernel_perm|].
    constructor; unfold page_goes; rewrite E; [|done].
    unfold ipc_perm_ok. simpl. by rewrite Hes1, lookup_total_insert_eq, insert_insert_eq.
Qed.

(** What the caller may not send from [srcva]: the address or the permissions are bad, there
    is no page, or it asks to write a page it may only read. *)
Definition cannot_send (s : kst) (c srcva perm : Z) : Prop :=
  bad_ipc_page srcva perm = true \/
  exists sd, env_pgdir (envs s !!! c) = kva sd /\
    forall v, umap (mem s) sd (PDX srcva) (PTX srcva) = Some v -> has perm PTE_W = true /\ has v PTE_W = false.

(** C23. [sys_ipc_try_send] to an environment that does not exist or is not receiving, or
    with a page below [UTOP] whose address, permissions or source mapping the caller may
    not use, returns [-E_BAD_ENV], [-E_IPC_NOT_RECV] or [-E_INVAL] and changes nothing.
    Otherwise the receiver becomes runnable with the sender's identifier and the value in
    its fields, and no longer receiving; when both sides asked for a page, its receive
    address maps the sender's page with the given permissions (no more than the sender
    has) and the permission field says so; no other mapping and no other environment
    changes, and 0 is returned.  When a page is to go along and none is free for a page
    table it returns [-E_NO_MEM], but the receiver is awake with the value and the sender
    all the same.  (No page's count is about to wrap.) *)
Theorem sys_ipc_try_send_correct s c dirs rl envid value srcva perm :
  in_kernel s c dirs rl -> refs_ok s -> 0 <= srcva -> 0 <= perm ->
  (forall e, 0 <= env_ipc_dstva (envs s !!! e)) ->
  (exists r, sys_ipc_try_send envid value srcva perm s = Ret r s /\
    (r = - E_BAD_ENV /\ (forall e, ~ names s c envid false e) \/
     exists e, names s c envid false e /\
       (r = - E_IPC_NOT_RECV /\ env_ipc_recving (envs s !!! e) = false \/
        r = - E_INVAL /\ env_ipc_recving (envs s !!! e) = true /\ srcva < UTOP /\ cannot_send s c srcva perm))) \/
  exists e sd dd, names s c envid false e /\ env_ipc_recving (envs s !!! e) = true /\
    env_pgdir (envs s !!! c) = kva sd /\ env_pgdir (envs s !!! e) = kva dd /\
    bad_ipc_page srcva perm = false /\
    ((sys_ipc_try_send envid value srcva perm s = Ret (- E_NO_MEM) (awake s c e value) /\
      page_goes (envs s !!! e) srcva = true /\ page_free_list s = None) \/
     exists s' rl', sys_ipc_try_send envid value srcva perm s = Ret 0 s' /\ in_kernel s' c dirs rl' /\
       message_sent s s' dirs c e sd dd value srcva perm).
Proof.
  intros Hk Href Hsva Hperm Hdst. unfold sys_ipc_try_send.
  destruct (envid2env_spec s c dirs rl envid false Hk) as [(e & Hr & Hn) | [Hr Hn]]; krw Hr.
  2:{ left. exists (- E_BAD_ENV). split; [done|]. by left. }
  change (0 <? 0) with false. cbv iota. unfold deref. do 2 kb.
  destruct (env_ipc_recving (envs s !!! e)) eqn:Erec; cbn [negb].
  2:{ left. exists (- E_IPC_NOT_RECV). split; [done|]. right. exists e. auto. }
  assert (Hinval : srcva < UTOP -> cannot_send s c srcva perm ->
    exists r, Ret (- E_INVAL) s = Ret r s /\
    (r = - E_BAD_ENV /\ (forall e, ~ names s c envid false e) \/
     exists e, names s c envid false e /\
       (r = - E_IPC_NOT_RECV /\ env_ipc_recving (envs s !!! e) = false \/
        r = - E_INVAL /\ env_ipc_recving (envs s !!! e) = true /\ srcva < UTOP /\ cannot_send s c srcva perm))).
  { intros Hlt Hbad. exists (- E_INVAL). split; [done|]. right. exists e. split; [exact Hn|]. by right. }
  destruct (live_dir _ _ _ _ (ik_sys _ _ _ _ Hk) (names_live _ _ _ _ _ Hn)) as (dd & Hdd & Hde).
  destruct (live_dir _ _ _ _ (ik_sys _ _ _ _ Hk) (ik_live _ _ _ _ Hk)) as (sd & Hsd & Hse).
  destruct (Z.ltb_spec srcva UTOP) as [Hlt | Hge].
  - pose proof (proj2 (Z.ltb_lt _ _) Hlt) as Eb.
    destruct (srcva mod PGSIZE =? 0) eqn:Ea; cbn [negb].
    2:{ left. apply Hinval; [done|]. left. unfold bad_ipc_page. by rewrite Eb, Ea. }
    destruct (bad_perm perm) eqn:Ep.
    { left. apply Hinval; [done|]. left. unfold bad_ipc_page. by rewrite Eb, Ep, orb_true_r. }
    destruct (bad_perm_range perm Hperm Ep) as [Hpr _].
    krw (cur_run s c (ik_cur _ _ _ _ Hk)). kb. rewrite Hse.
    destruct (source_pte_spec s dirs rl sd srcva perm (ik_sys _ _ _ _ Hk) Hsd ltac:(lia))
      as [(t & v & Hrun & Hw & Hu & Hwr) | [Hrun Hno]]; krw Hrun; [|left; apply Hinval; [done | right; by exists sd]].
    right. exists e, sd, dd. do 4 (split; [done|]). split; [unfold bad_ipc_page; by rewrite Eb, Ea, Ep|].
    apply (ipc_deliver_spec s c dirs rl e value srcva perm _ sd dd t v Hk (names_live _ _ _ _ _ Hn)
      Href (Hdst e) Hdd Hde). intros _. repeat split; try done; lia.
  - right. exists e, sd, dd. do 4 (split; [done|]). split; [unfold bad_ipc_page; by rewrite (proj2 (Z.ltb_ge _ _) Hge)|].
    apply (ipc_deliver_spec s c dirs rl e value srcva perm None sd dd 0 0 Hk (names_live _ _ _ _ _ Hn)
      Href (Hdst e) Hdd Hde). lia.
Qed.

(** The answer of a call. *)
Definition answer {A} (o : outcome A) : option A := match o with Ret r _ => Some r | _ => None end.

Lemma sys_ipc_try_send_correct_witness :
  exists s', sys_ipc_try_send 4097 42 0x800000 5 sample_mapped = Ret 0 s' /\
    env_ipc_value (envs s' !!! 1) = 42 /\ env_ipc_perm (envs s' !!! 1) = 5.
Proof.
  destruct sample_mapped_in_kernel as [rl Hk].
  assert (H0 : answer (sys_ipc_try_send 4097 42 0x800000 5 sample_mapped) = Some 0)
    by (vm_compute; reflexivity).
  destruct (sys_ipc_try_send_correct sample_mapped 0 [3; 2] rl 4097 42 0x800000 5 Hk)
    as [(r & Hr & Hcase) | (e & sd & dd & Hn & _ & _ & _ & _ & [[Hr _] | (s' & rl' & Hr & _ & [He _])])].
  - exact sample_mapped_refs.
  - vm_compute. congruence.
  - vm_compute. congruence.
  - apply dstva_check. vm_compute. reflexivity.
  - exfalso. rewrite Hr in H0. injection H0 as ->.
    destruct Hcase as [[H _] | (e & _ & [[H _] | [H _]])]; discriminate H.
  - exfalso. rewrite Hr in H0. discriminate H0.
  - exists s'. split; [exact Hr|]. destruct Hn as [Hl [Hid _]].
    assert (e = 1) as ->.
    { destruct (si_idx _ _ _ (ik_sys _ _ _ _ Hk) e Hl) as [_ Hx]. rewrite Hid in Hx. exact (eq_sym Hx). }
    rewrite He, lookup_total_insert_eq. vm_compute. split; reflexivity.
Defined.

(** ** [sys_ipc_recv] *)

(** The caller waiting for a message at [dstva]. *)
Definition waiting (ev : Env) (dstva : Z) : Env :=
  ev <| env_ipc_recving := true |> <| env_ipc_dstva := dstva |> <| env_status := ENV_NOT_RUNNABLE |>.

(** [sys_ipc_recv] rejects a misaligned address below [UTOP] and changes nothing.
    Otherwise it never returns to its caller: the caller waits, with its saved
    registers as they are (so the call's result register is not set to 0, as the
    comment on the system call has it), and the processor goes to another
    environment or halts; the caller is not run again before a message makes it
    runnable. *)
Theorem sys_ipc_recv_correct s c dirs rl dstva :
  in_kernel s c dirs rl ->
  if (dstva <? UTOP) && negb (dstva mod PGSIZE =? 0) then sys_ipc_recv dstva s = Ret (- E_INVAL) s
  else exists x s', sys_ipc_recv dstva s = Exit x s' /\ exit_ok x s' /\ x <> ToUser c /\
    envs s' !!! c = waiting (envs s !!! c) dstva.
Proof.
  intros Hk. pose proof (sys_ipc_recv_ok s c dirs rl dstva Hk) as Hok.
  unfold sys_ipc_recv in *. destruct ((dstva <? UTOP) && _); [done|].
  assert (Hrun : (c ← cur;
    upd_env c (fun ev => ev <| env_ipc_recving := true |>);;
    upd_env c (fun ev => ev <| env_ipc_dstva := dstva |>);;
    upd_env c (fun ev => ev <| env_status := ENV_NOT_RUNNABLE |>);;
    (sched_yield : K unit);; mret 0) s =
    ((sched_yield : K unit);; mret 0)
      (s <| envs := <[c := waiting (envs s !!! c) dstva]> (envs s) |>)).
  { krw (cur_run s c (ik_cur _ _ _ _ Hk)). rewrite !upd_env_fuse.
    erewrite bind_run by apply upd_env_run. done. }
  unfold wp in Hok. rewrite Hrun in Hok. rewrite Hrun. clear Hrun.
  assert (Hk1 : in_kernel (s <| envs := <[c := waiting (envs s !!! c) dstva]> (envs s) |>) c dirs rl)
    by (apply in_kernel_env; [done | apply Hk | done..]).
  assert (He1 : envs (s <| envs := <[c := waiting (envs s !!! c) dstva]> (envs s) |>) !!! c =
    waiting (envs s !!! c) dstva) by (simpl; apply lookup_total_insert_eq).
  set (s1 := s <| envs := _ |>) in *. clearbody s1. destruct Hk1 as [Hs Hc Hl Hh].
  pose proof (@sched_yield_spec unit s1 dirs rl Hs ltac:(intros x Hx; congruence) Hh) as Hy.
  cbv zeta in Hy. unfold mbind, K_bind in Hok |- *. rewrite Hy in Hok |- *.
  assert (Hd : demote s1 = s1) by (unfold demote; by rewrite Hc, He1). rewrite Hd in *.
  destruct (sched_pick s1 (next_slot s1)) as [e|] eqn:Ep.
  - destruct (sched_pick_some _ _ _ Ep) as (_ & Hr & _).
    assert (e <> c) by (intros ->; unfold runnable in Hr; rewrite He1 in Hr; discriminate Hr).
    eexists _, _. split; [done|]. split; [exact Hok|]. split; [congruence|].
    unfold running, set_thiscpu. simpl. by rewrite lookup_total_insert_ne.
  - destruct (any_busy s1); eexists _, _; (split; [done|]); (split; [exact Hok|]); done.
Qed.

Lemma sys_ipc_recv_correct_witness :
  exists x s', sys_ipc_recv 0xA00000 sample_mapped = Exit x s' /\ x <> ToUser 0.
Proof.
  destruct sample_mapped_in_kernel as [rl Hk].
  destruct (sys_ipc_recv_correct sample_mapped 0 [3; 2] rl 0xA00000 Hk) as (x & s' & H & _ & Hx & _).
  exists x, s'. split; [exact H | exact Hx].
Defined.

(** ** [sys_exofork] *)

(** C24. [sys_exofork] creates a child of the caller: a fresh environment with an empty
    user address space that has the caller's registers except for a result of 0, is not
    runnable, and whose identifier the caller gets; no other environment changes.
    Without a free slot or page it reports that and changes nothing. *)
Theorem sys_exofork_correct s c dirs rl :
  in_kernel s c dirs rl ->
  match env_free_list s, page_free_list s with
  | None, _ => sys_exofork s = Ret (- E_NO_FREE_ENV) s
  | _, None => sys_exofork s = Ret (- E_NO_MEM) s
  | Some e, Some d => exists s1 s',
      env_allocated dirs rl s s1 e d (env_id (envs s !!! c)) /\
      sys_exofork s = Ret (env_id (forked s c e d)) s' /\
      in_kernel s' c (d :: dirs) (set_role rl d RDir) /\ e <> c /\
      s' = s1 <| envs := <[e := forked s c e d]> (envs s) |>
  end.
Proof.
  apply sys_exofork_spec.
Qed.

Lemma sys_exofork_correct_witness :
  exists s', sys_exofork sample = Ret (env_id (forked sample 0 1 3)) s' /\
    env_status (envs s' !!! 1) = ENV_NOT_RUNNABLE.
Proof.
  destruct (sys_exofork_correct sample 0 [2] sample_role sample_in_kernel) as (s1 & s' & _ & H & _ & _ & Hs').
  exists s'. split; [exact H|].
  assert (Hst : env_status (forked sample 0 1 3) = ENV_NOT_RUNNABLE) by (vm_compute; reflexivity).
  rewrite <- Hst, Hs'. f_equal.
Defined.

(** ** [env_destroy] *)

(** The processor after its environment was destroyed. *)
Definition deserted (s : kst) : kst := set_thiscpu (fun c => c <| cpu_env := None |>) s.

(** [env_destroy] of another environment that is running on some processor only marks
    it [ENV_DYING]; any other environment is freed on the spot, and if it was the
    caller's own the processor is given to someone else: the call does not return,
    and leaves the kernel with the system invariant in force. *)
Theorem env_destroy_correct s c dirs rl e :
  in_kernel s c dirs rl -> live s e ->
  if (env_status (envs s !!! e) =? ENV_RUNNING) && negb (e =? c) then
    env_destroy e s = Ret tt (s <| envs := <[e := (envs s !!! e) <| env_status := ENV_DYING |>]> (envs s) |>)
  else exists s' rl' d, env_free e s = Ret tt s' /\ env_freed dirs rl rl' s s' e d /\
    if e =? c then exists x s'', env_destroy e s = Exit x s'' /\ exit_ok x s'' /\
                     @sched_yield unit (deserted s') = Exit x s''
    else env_destroy e s = Ret tt s' /\ in_kernel s' c (filter (.≠ d) dirs) rl'.
Proof.
  intros Hk He. destruct Hk as [Hs Hc Hl Hh]. unfold env_destroy. do 2 kb. rewrite Hc.
  assert (Hb : bool_decide (Some c = Some e) = (e =? c)).
  { destruct (Z.eqb_spec e c) as [-> | Hne]; [by apply bool_decide_eq_true_2|].
    apply bool_decide_eq_false_2. congruence. }
  rewrite Hb. destruct ((env_status (envs s !!! e) =? ENV_RUNNING) && negb (e =? c)); [done|].
  destruct (env_free_spec s dirs rl e Hs He) as (s' & rl' & d & Hrun & _ & _ & Hfr).
  exists s', rl', d. split; [done|]. split; [done|].
  krw Hrun. destruct (env_freed_facts _ _ _ _ _ _ _ Hfr) as (Hc' & Hh' & Hl' & _).
  pose proof (ef_inv _ _ _ _ _ _ _ Hfr) as Hs'. kb. rewrite Hc', Hc, Hb.
  destruct (Z.eqb_spec e c) as [-> | Hne].
  - unfold set_curenv. kb. change (set_thiscpu _ s') with (deserted s').
    assert (Hy : wp (@sched_yield unit) (fun _ _ => False) exit_ok (deserted s')).
    { eapply yield_ok.
      - apply (sys_inv_cpus _ _ _ (cpus (deserted s')) (kernel_lock s')) in Hs'. exact Hs'.
      - unfold deserted, curenv. rewrite thiscpu_set. done.
      - change (holding (deserted s')) with (holding s'). congruence. }
    unfold wp in Hy. destruct (sched_yield (deserted s')) as [| |x s''] eqn:E; [done | done |].
    exists x, s''. split; [reflexivity|]. split; [exact Hy | reflexivity].
  - split; [done|]. constructor; [done | congruence | | congruence]. apply Hl'. split; congruence.
Qed.

Lemma env_destroy_correct_witness : exists x s', env_destroy 0 sample = Exit x s' /\ exit_ok x s'.
Proof.
  pose proof (env_destroy_correct sample 0 [2] sample_role 0 sample_in_kernel
    (proj2 (sample_live 0) eq_refl)) as H.
  rewrite Z.eqb_refl, andb_false_r in H. destruct H as (s' & rl' & d & _ & _ & x & s'' & H & Hx & _).
  exists x, s''. split; [exact H | exact Hx].
Defined.
