(* ===== verification/Defects.v ===== *)
(** * Where the code departs from its documentation

    Concrete runs, on states that satisfy the kernel's invariants, of the
    behaviours listed as findings. *)

From S2P Require Import Prelude Mem CString Mmu KState Printf Pmap VmInv VmSpec VmLife Environ Sched Syscall Trap EnvInv EnvFree SchedSpec UserMem SysSpec Samples.

(** ** [sys_exec] writes past its argument buffer

    Three argument strings: 510 letters, the empty string, and one more letter.
    After the first two, 512 bytes are in use, [sizeof(argbuf) - string_size - 1]
    wraps, and the third string has no limit. *)

Definition exec_image : list Z :=
  repeat 0 0x100 ++
  [0;2;0x80;0; 0;5;0x80;0; 0;6;0x80;0; 0;0;0;0] ++ repeat 0 (0x100 - 16) ++
  repeat 65 510 ++ repeat 0 0x202 ++ [65].

(** C38. A user program can make [sys_exec] copy an argument past the end of the
    512-byte buffer on the kernel stack: there is a state satisfying the kernel's
    invariants in which the call runs into undefined behaviour. *)
Theorem sys_exec_overflow :
  exists s rl binary argv,
    in_kernel s 0 [3; 2] rl /\ ends (sys_exec binary argv s) = Some Undefined.
Proof.
  destruct (sample_text_in_kernel 0 exec_image) as [rl Hk].
  - done.
  - vm_compute. congruence.
  - exists (sample_text 0 exec_image), rl, 0x800000, 0x800100.
    split; [exact Hk | vm_compute; reflexivity].
Qed.

(** [sys_cputs] reads one byte past the string it was given: a program that prints the
    last bytes of a page passes the check on its memory, and is killed for a page
    fault in the kernel on the byte after the end, when the next page is not mapped. *)
Theorem sys_cputs_overread :
  exists s rl p len,
    in_kernel s 0 [3; 2] rl /\ returns (user_mem_check 0 p len PTE_U s) = Some 0 /\
    ends (sys_cputs p len s) = Some (KernelFault (p + len)).
Proof.
  destruct (sample_text_in_kernel 0xffe [65; 66]) as [rl Hk].
  - done.
  - vm_compute. congruence.
  - exists (sample_text 0xffe [65; 66]), rl, 0x800ffe, 2.
    split; [exact Hk|]. split; vm_compute; reflexivity.
Qed.

(** A count of mappings that wraps: mapping a page for the 65,536th time leaves its
    reference count at 0 although it is mapped, so that the next unmapping of another slot
    underflows it, or the next allocation reuses it. *)
Theorem page_incref_wraps pp s :
  pp_ref (pages s !!! pp) = 2 ^ 16 - 1 ->
  exists s', page_incref pp s = Ret tt s' /\ pp_ref (pages s' !!! pp) = 0.
Proof.
  intros H. unfold page_incref. kb. eexists. split; [reflexivity|]. simpl.
  rewrite lookup_total_insert_eq. simpl. by rewrite H.
Qed.

Lemma page_incref_wraps_witness :
  exists s', page_incref 9 (sample <| pages := <[9 := {| pp_link := None; pp_ref := 65535 |}]> ∅ |>)
    = Ret tt s' /\ pp_ref (pages s' !!! 9) = 0.
Proof. apply page_incref_wraps. reflexivity. Defined.

(** A send that fails for lack of memory has already happened: with the receiver
    waiting for a page at an address with no page table, and the last page in use, the
    call reports [-E_NO_MEM], and the receiver is awake with the value. *)
Theorem sys_ipc_try_send_nomem :
  exists s, kernel_ok 0 s /\ env_ipc_recving (envs s !!! 1) = true /\
    match sys_ipc_try_send 4097 42 0x800000 5 s with
    | Ret r s' => r = - E_NO_MEM /\ env_status (envs s' !!! 1) = ENV_RUNNABLE /\
        env_ipc_recving (envs s' !!! 1) = false /\ env_ipc_value (envs s' !!! 1) = 42
    | _ => False
    end.
Proof.
  exists sample_full. split; [exact sample_full_ok|]. split; [vm_compute; reflexivity|].
  vm_compute. repeat split.
Qed.
