(* ===== verification/LibThms.v ===== *)
(** * The C library: the theorems ([lib/string.c], [lib/printfmt.c])

    Memory and string routines against the lists of bytes they stand for, and
    numbers printed and read back. *)

From S2P Require Import Prelude Mem CString Mmu KState Printf.

(** ** Memory *)

(** [memset] stores the low byte of [c] in each of the [n] bytes from [v] on and
    nothing else, whether it takes its word loop or its byte loop. *)
Theorem memset_correct m v c n a :
  0 <= n -> ld8 (memset m v c n) a = if (v <=? a) && (a <? v + n) then c mod 256 else ld8 m a.
Proof. apply memset_spec. Qed.
Lemma memset_correct_witness : ld8 (memset ∅ 4096 0x1ff 8) 4099 = 255.
Proof. rewrite memset_correct; [reflexivity | discriminate]. Defined.

(** C36. [memmove] leaves in [dst, dst+n) what [src, src+n) held before, and every other byte
    alone, however the two ranges overlap and whichever of its four copy loops runs. *)
Theorem memmove_correct m dst src n a :
  0 <= n ->
  ld8 (memmove m dst src n) a =
    if (dst <=? a) && (a <? dst + n) then ld8 m (src + (a - dst)) else ld8 m a.
Proof. apply memmove_ld8. Qed.
Lemma memmove_correct_witness :
  ld8 (memmove (stbytes ∅ 4096 [1; 2; 3; 4; 5; 6; 7; 8; 9]) 4100 4096 8) 4107 = 8.
Proof. rewrite memmove_correct; [reflexivity | discriminate]. Defined.

(** ** Strings *)

(** [strlcpy] into a buffer of [size > 0] bytes that does not meet the source writes
    only that buffer, ends it with a NUL inside, copies the longest prefix that
    leaves room, and returns its length. *)
Theorem strlcpy_correct m dst src size l :
  cstr m src l -> 0 < size -> (dst + size <= src \/ src + Z.of_nat (length l) < dst) ->
  let copied := take (Z.to_nat (size - 1)) l in
  exists m', strlcpy m dst src size = Some (m', Z.of_nat (length copied)) /\
    cstr m' dst copied /\ (forall a, a < dst \/ dst + size <= a -> ld8 m' a = ld8 m a).
Proof.
  intros Hs Hsz Hd copied. destruct (strlcpy_loop m dst src size l dst Hs Hsz Hd) as (m' & Hrun & Hc & Hf).
  exists m'. unfold strlcpy. destruct (Z.gtb_spec size 0); [|lia].
  split; [|done]. etransitivity; [exact Hrun|]. do 2 f_equal. unfold copied. lia.
Qed.
Lemma strlcpy_correct_witness :
  exists m', strlcpy (stbytes ∅ 4096 [104; 101; 108; 108; 111; 0]) 8192 4096 4 = Some (m', 3) /\
    cstr m' 8192 [104; 101; 108].
Proof.
  destruct (strlcpy_correct (stbytes ∅ 4096 [104; 101; 108; 108; 111; 0]) 8192 4096 4
    [104; 101; 108; 108; 111]) as (m' & H1 & H2 & _).
  - vm_compute. repeat split; congruence.
  - reflexivity.
  - right. reflexivity.
  - exists m'. split; [exact H1 | exact H2].
Defined.

(** [strcmp] of two strings terminates, and its sign is their lexicographic order by
    unsigned bytes; it is 0 exactly for equal strings. *)
Theorem strcmp_correct m p q l1 l2 fuel :
  cstr m p l1 -> cstr m q l2 -> (length l1 < fuel)%nat ->
  exists r, strcmp fuel m p q = Some r /\ (r ?= 0) = lex l1 l2 /\ (r = 0 <-> l1 = l2).
Proof.
  intros Hp Hq Hf. destruct (strcmp_lex m p q l1 l2 fuel Hp Hq Hf) as (r & Hr & Hc).
  exists r. split; [done|]. split; [done|]. rewrite <- lex_eq, <- Hc, Z.compare_eq_iff. done.
Qed.
Lemma strcmp_correct_witness :
  exists r, strcmp 9 (stbytes ∅ 4096 [97; 98; 0; 97; 200; 0]) 4096 4099 = Some r /\ (r ?= 0) = Lt.
Proof.
  destruct (strcmp_correct (stbytes ∅ 4096 [97; 98; 0; 97; 200; 0]) 4096 4099 [97; 98] [97; 200] 9)
    as (r & H1 & H2 & _).
  - vm_compute. repeat split; congruence.
  - vm_compute. repeat split; congruence.
  - vm_compute. repeat constructor.
  - exists r. split; [exact H1 | exact H2].
Defined.

(** ** Printing numbers *)

(** The digits of [num], most significant first. *)
Record numeral (base num : Z) (ds : list Z) : Prop := {
  nu_digits : Forall (fun d => 0 <= d < base) ds;
  nu_val : digits_val base ds = num;
  nu_lead : ds = [0] \/ exists d ds', ds = d :: ds' /\ d <> 0 }.

Definition digit_char (d : Z) : Z := cchar "0123456789abcdef" d.

Lemma digits_val_snoc base ds d : digits_val base (ds ++ [d]) = digits_val base ds * base + d.
Proof. unfold digits_val. by rewrite fold_left_app. Qed.

Lemma numeral_snoc base num ds :
  2 <= base -> base <= num -> numeral base (num / base) ds -> numeral base num (ds ++ [num mod base]).
Proof.
  intros Hb Hn [Hd Hv Hl]. constructor.
  - apply Forall_app. split; [done|]. constructor; [|constructor]. apply Z.mod_pos_bound. lia.
  - rewrite digits_val_snoc, Hv. pose proof (Z.div_mod num base). lia.
  - right. destruct Hl as [-> | (d & ds' & -> & Hnz)]; [|by exists d, (ds' ++ [num mod base])].
    exfalso. unfold digits_val in Hv. simpl in Hv.
    pose proof (Z.div_str_pos num base ltac:(lia)). lia.
Qed.

Lemma numeral_digit base num : 0 <= num < base -> numeral base num [num].
Proof.
  intros H. constructor; [by constructor | unfold digits_val; simpl; lia|].
  destruct (decide (num = 0)) as [-> |]; [by left|]. right. by exists num, [].
Qed.

Section printnum.
Context {D : Type} (putch : Z -> D -> K D).

(** Printing a list of characters. *)
Fixpoint putall (cs : list Z) (dat : D) : K D :=
  match cs with
  | [] => mret dat
  | c :: cs' => dat ← putch c dat; putall cs' dat
  end.

Lemma putall_snoc cs c dat s : putall (cs ++ [c]) dat s = (dat ← putall cs dat; putch c dat) s.
Proof.
  revert dat s. induction cs as [|c' cs IH]; intros dat s; cbn [putall app].
  - unfold mbind, K_bind, mret, K_ret. destruct (putch c dat s); done.
  - rewrite bind_assoc. unfold mbind, K_bind. destruct (putch c' dat s) as [dat' s' | |]; [|done..].
    apply IH.
Qed.

Lemma printnum_rec_spec fuel num base width padc :
  2 <= base -> 0 <= num < base ^ Z.of_nat fuel -> (0 < fuel)%nat ->
  exists ds, numeral base num ds /\ forall dat s,
    printnum_rec putch fuel num base width padc dat s =
    (dat ← putn putch (Z.to_nat (width - Z.of_nat (length ds))) padc dat;
     putall (map digit_char ds) dat) s.
Proof.
  intros Hb. revert num width. induction fuel as [|fuel IH]; intros num width Hn Hf; [lia|].
  cbn [printnum_rec]. destruct (Z.geb_spec num base) as [Hge | Hlt].
  - destruct (IH (num / base) (width - 1)) as (ds & Hds & Hrun).
    { split; [apply Z.div_pos; lia|]. apply Z.div_lt_upper_bound; [lia|].
      rewrite <- Z.pow_succ_r by lia. replace (Z.succ (Z.of_nat fuel)) with (Z.of_nat (S fuel)) by lia.
      exact (proj2 Hn). }
    { destruct fuel; [|lia]. change (base ^ Z.of_nat 1) with (base ^ 1) in Hn. lia. }
    exists (ds ++ [num mod base]). split; [apply numeral_snoc; [lia | lia | done]|]. intros dat s.
    unfold mbind at 1, K_bind at 1. rewrite Hrun. rewrite length_app, map_app.
    replace (width - Z.of_nat (length ds + length [num mod base])) with (width - 1 - Z.of_nat (length ds))
      by (simpl; lia).
    unfold mbind, K_bind.
    destruct (putn putch _ padc dat s) as [dat' s' | |]; [|done..].
    pose proof (putall_snoc (map digit_char ds) (digit_char (num mod base)) dat' s') as Hp.
    unfold mbind, K_bind in Hp. simpl map. rewrite Hp. done.
  - exists [num]. split; [apply numeral_digit; lia|]. intros dat s.
    rewrite Z.mod_small by lia. unfold mbind, K_bind. simpl length.
    change (Z.of_nat 1) with 1. destruct (putn putch (Z.to_nat (width - 1)) padc dat s) as [dat' s' | |]; [|done..].
    cbn [map putall]. unfold digit_char. unfold mbind, K_bind.
    destruct (putch (cchar "0123456789abcdef" num) dat' s'); done.
Qed.
End printnum.

(** [printnum] of a 64-bit number prints, after padding up to [width], the numeral
    of that number in the base: digits below the base, no leading zero, whose value is
    the number. *)
Theorem printnum_correct {D} (putch : Z -> D -> K D) num base width padc :
  2 <= base -> 0 <= num < 2 ^ 64 ->
  exists ds, numeral base num ds /\ forall dat s,
    printnum putch num base width padc dat s =
    (dat ← putn putch (Z.to_nat (width - Z.of_nat (length ds))) padc dat;
     putall putch (map digit_char ds) dat) s.
Proof.
  intros Hb Hn. apply printnum_rec_spec; [done| |lia]. split; [lia|].
  apply Z.lt_le_trans with (2 ^ 64); [lia|]. apply Z.pow_le_mono_l. lia.
Qed.
Lemma printnum_correct_witness :
  exists ds, numeral 16 0xcafe ds /\ printnum kputch 0xcafe 16 6 48 7 (inhabitant : kst) =
    (dat ← putn kputch (Z.to_nat (6 - Z.of_nat (length ds))) 48 7;
     putall kputch (map digit_char ds) dat) (inhabitant : kst).
Proof.
  destruct (printnum_correct kputch 0xcafe 16 6 48) as (ds & H1 & H2).
  - vm_compute. congruence.
  - vm_compute. split; congruence.
  - exists ds. split; [exact H1 | apply H2].
Defined.

(** ** Reading numbers *)

(** The bytes [l] are at [s]. *)
Definition bytes_at (m : memory) (s : Z) (l : list Z) : Prop :=
  forall i c, l !! i = Some c -> ld8 m (s + Z.of_nat i) = c.

Lemma bytes_at_cons m s c l : bytes_at m s (c :: l) -> ld8 m s = c /\ bytes_at m (s + 1) l.
Proof.
  intros H. split; [rewrite <- (H O c eq_refl); f_equal; lia|].
  intros i d Hi. rewrite <- (H (S i) d Hi). f_equal. lia.
Qed.
Lemma bytes_at_app m s l1 l2 :
  bytes_at m s (l1 ++ l2) -> bytes_at m (s + Z.of_nat (length l1)) l2.
Proof.
  revert s. induction l1 as [|c l1 IH]; intros s H; simpl in *.
  - by rewrite Z.add_0_r.
  - apply bytes_at_cons in H as [_ H]. replace (s + Z.of_nat (S (length l1)))
      with (s + 1 + Z.of_nat (length l1)) by lia. by apply IH.
Qed.

Lemma skip_blanks m s bl c fuel :
  Forall (fun c => is_blank c = true) bl -> bytes_at m s (bl ++ [c]) -> is_blank c = false ->
  (length bl < fuel)%nat ->
  while fuel (fun s => if is_blank (ld8 m s) then inl (s + 1) else inr s) s =
    Some (s + Z.of_nat (length bl)).
Proof.
  intros Hbl. revert s fuel. induction Hbl as [|b bl Hb _ IH]; intros s [|fuel] Hm Hc Hf;
    try (simpl in Hf; lia); cbn [while]; simpl app in Hm; apply bytes_at_cons in Hm as [-> Hm].
  - rewrite Hc. simpl. by rewrite Z.add_0_r.
  - rewrite Hb. rewrite IH by (done || (simpl in Hf; lia)). f_equal. simpl length. lia.
Qed.

Lemma digit_val_plain c d : digit_val c = Some d -> is_blank c = false /\ c <> 43 /\ c <> 45.
Proof.
  unfold digit_val, is_blank. intros H. assert (48 <= c).
  { destruct (Z.leb_spec 48 c), (Z.leb_spec 97 c), (Z.leb_spec 65 c); try lia. discriminate H. }
  destruct (Z.eqb_spec c 32), (Z.eqb_spec c 9); repeat split; lia.
Qed.

(** The sign a prefix stands for. *)
Definition sign_of (sg : list Z) : option Z :=
  match sg with
  | [] => Some 1
  | [c] => if c =? 43 then Some 1 else if c =? 45 then Some (-1) else None
  | _ => None
  end.
Lemma sign_of_cons g sg sgn :
  sign_of (g :: sg) = Some sgn -> sg = [] /\ (g = 43 /\ sgn = 1 \/ g = 45 /\ sgn = -1).
Proof.
  simpl. destruct sg; [|done]. destruct (Z.eqb_spec g 43), (Z.eqb_spec g 45); try done;
    intros [= <-]; auto.
Qed.

(** No prefix is taken from digits of the base: the [x] of [0x] is not one. *)
Lemma prefix_none m s base c cs ds :
  2 <= base <= 36 -> Forall2 (fun c d => digit_val c = Some d /\ 0 <= d < base) (c :: cs) ds ->
  bytes_at m s (c :: cs) -> digit_val (ld8 m (s + Z.of_nat (length (c :: cs)))) = None ->
  strtol_prefix m s base = (s, base).
Proof.
  intros Hb Hds Hm Hend. unfold strtol_prefix. rewrite (proj2 (Z.eqb_neq base 0)) by lia.
  destruct (Z.eqb_spec base 16) as [-> |]; [|done]. destruct (Z.eqb_spec (ld8 m (s + 1)) 120) as [Hx |]; [|by rewrite andb_false_r].
  exfalso. destruct cs as [|c' cs].
  - simpl length in Hend. change (Z.of_nat 1) with 1 in Hend. by rewrite Hx in Hend.
  - apply bytes_at_cons in Hm as [_ Hm]. apply bytes_at_cons in Hm as [Hc _]. rewrite Hx in Hc. subst c'.
    inversion Hds as [|? ? ? ? _ Hds']; subst. inversion Hds' as [|? d ? ? [Hd Hr] _]; subst.
    injection Hd as <-. lia.
Qed.

Lemma strtol_read m s base bl sg sgn cs ds fuel :
  2 <= base <= 36 ->
  Forall (fun c => is_blank c = true) bl -> sign_of sg = Some sgn ->
  Forall2 (fun c d => digit_val c = Some d /\ 0 <= d < base) cs ds -> cs <> [] ->
  bytes_at m s (bl ++ sg ++ cs) ->
  digit_val (ld8 m (s + Z.of_nat (length (bl ++ sg ++ cs)))) = None ->
  digits_val base ds < 2 ^ 31 -> (length (bl ++ sg ++ cs) < fuel)%nat ->
  strtol fuel m s base = Some (sgn * digits_val base ds, s + Z.of_nat (length (bl ++ sg ++ cs))).
Proof.
  intros Hb Hbl Hsg Hds Hne Hm Hend Hfit Hf.
  destruct cs as [|c cs]; [done|]. inversion Hds as [|? d ? ds' [Hd _] Hds']; subst.
  destruct (digit_val_plain c d Hd) as (Hcb & Hc43 & Hc45).
  rewrite !length_app in *.
  assert (H0 : 0 <= digits_val base (d :: ds')).
  { unfold digits_val. apply (digits_val_mono base (d :: ds') 0); [lia | | lia].
    apply Forall_forall. intros x Hx. rewrite Forall2_lookup in Hds.
    apply list_elem_of_lookup in Hx as [i Hi]. specialize (Hds i). rewrite Hi in Hds.
    inversion Hds as [? ? [? ?] |]; subst. lia. }
  assert (Hpre : forall k, bytes_at m (s + Z.of_nat k) (c :: cs) ->
    digit_val (ld8 m (s + Z.of_nat (k + length (c :: cs)))) = None ->
    strtol_prefix m (s + Z.of_nat k) base = (s + Z.of_nat k, base)).
  { intros k Hk He. eapply prefix_none; [done | exact Hds | exact Hk|]. rewrite <- He. do 2 f_equal. lia. }
  assert (Hgo : forall k, bytes_at m (s + Z.of_nat k) (c :: cs) -> (k + length (c :: cs) < fuel)%nat ->
    digit_val (ld8 m (s + Z.of_nat (k + length (c :: cs)))) = None ->
    strtol_digits fuel m (s + Z.of_nat k) base =
      Some (s + Z.of_nat (k + length (c :: cs)), digits_val base (d :: ds'))).
  { intros k Hk Hfk He. unfold strtol_digits.
    etransitivity; [apply (strtol_loop m base (c :: cs) (d :: ds')); try done; [lia | | lia]|].
    - rewrite <- He. do 2 f_equal. lia.
    - do 2 f_equal. lia. }
  unfold strtol.
  assert (Hsk : exists c', is_blank c' = false /\ bytes_at m s (bl ++ [c'])).
  { destruct sg as [|g sg].
    - exists c. split; [done|]. intros i x Hi. apply Hm.
      change (bl ++ [] ++ c :: cs) with (bl ++ [c] ++ cs). rewrite app_assoc. by apply lookup_app_l_Some.
    - exists g. split.
      + by destruct (sign_of_cons _ _ _ Hsg) as (_ & [[-> _] | [-> _]]).
      + intros i x Hi. apply Hm.
        change (bl ++ (g :: sg) ++ c :: cs) with (bl ++ [g] ++ sg ++ c :: cs).
        rewrite app_assoc. by apply lookup_app_l_Some. }
  destruct Hsk as (c' & Hc' & Hm').
  rewrite (skip_blanks m s bl c' fuel Hbl Hm' Hc') by lia.
  apply bytes_at_app in Hm.
  destruct sg as [|g sg]; [injection Hsg as <- |].
  - simpl app in Hm. pose proof (bytes_at_cons _ _ _ _ Hm) as [Hc _]. rewrite Hc.
    destruct (Z.eqb_spec c 43); [done|]. destruct (Z.eqb_spec c 45); [done|].
    rewrite Hpre, Hgo by (done || (simpl in *; lia) || exact Hend). by rewrite Z.mul_1_l.
  - destruct (sign_of_cons _ _ _ Hsg) as [-> Hg]. simpl app in Hm. apply bytes_at_cons in Hm as [Hmg Hm]. rewrite Hmg.
    replace (s + Z.of_nat (length bl) + 1) with (s + Z.of_nat (length bl + 1)) in * by lia.
    assert (He : digit_val (ld8 m (s + Z.of_nat (length bl + 1 + length (c :: cs)))) = None)
      by (rewrite <- Hend; do 2 f_equal; simpl; lia).
    destruct Hg as [[-> ->] | [-> ->]]; cbn [Z.eqb Pos.eqb]; rewrite Hpre, Hgo by (done || (simpl in *; lia)).
    + f_equal. f_equal; [lia|]. simpl. lia.
    + f_equal. f_equal; [rewrite s32_small by lia; lia|]. simpl. lia.
Qed.

(** [strtol] in an explicit base reads blanks, one optional sign and the
    longest run of digits of the base, whatever follows: it returns the value they
    denote, exact when it fits a [long], and the address after the last digit. *)
Theorem strtol_correct m s base bl sg sgn cs ds fuel :
  2 <= base <= 36 ->
  Forall (fun c => is_blank c = true) bl -> sign_of sg = Some sgn ->
  Forall2 (fun c d => digit_val c = Some d /\ 0 <= d < base) cs ds -> cs <> [] ->
  bytes_at m s (bl ++ sg ++ cs) ->
  digit_val (ld8 m (s + Z.of_nat (length (bl ++ sg ++ cs)))) = None ->
  digits_val base ds < 2 ^ 31 -> (length (bl ++ sg ++ cs) < fuel)%nat ->
  strtol fuel m s base = Some (sgn * digits_val base ds, s + Z.of_nat (length (bl ++ sg ++ cs))).
Proof. apply strtol_read. Qed.

Lemma strtol_correct_witness :
  strtol 20 (stbytes ∅ 4096 [32; 45; 49; 50; 44]) 4096 10 = Some (-12, 4100).
Proof.
  apply (strtol_correct (stbytes ∅ 4096 [32; 45; 49; 50; 44]) 4096 10 [32] [45] (-1) [49; 50] [1; 2] 20).
  - vm_compute. split; congruence.
  - repeat constructor.
  - reflexivity.
  - constructor; [vm_compute; split; [reflexivity | split; congruence]|].
    constructor; [vm_compute; split; [reflexivity | split; congruence] | constructor].
  - discriminate.
  - intros i c Hi. destruct i as [|[|[|[|i]]]]; vm_compute in Hi; [injection Hi as <-; reflexivity ..|].
    discriminate Hi.
  - reflexivity.
  - reflexivity.
  - vm_compute. repeat constructor.
Defined.

(** ** Printed numbers read back *)

(** Collecting the printed characters. *)
Definition collect (ch : Z) (l : list Z) : K (list Z) := mret (l ++ [ch]).

Lemma putall_collect cs l s : putall collect cs l s = Ret (l ++ cs) s.
Proof.
  revert l. induction cs as [|c cs IH]; intros l; cbn [putall].
  - by rewrite app_nil_r.
  - etransitivity; [exact (IH (l ++ [c]))|]. by rewrite <- app_assoc.
Qed.

Lemma digit_val_char d : 0 <= d < 16 -> digit_val (digit_char d) = Some d.
Proof.
  intros H. assert (Hall : forallb (fun d => match digit_val (digit_char d) with
    Some d' => d' =? d | None => false end) (seqZ 0 16) = true) by (vm_compute; reflexivity).
  rewrite forallb_forall in Hall. specialize (Hall d).
  rewrite <- list_elem_of_In, elem_of_seqZ in Hall. specialize (Hall ltac:(lia)).
  destruct (digit_val (digit_char d)) as [d'|]; [|done]. zbool. by subst.
Qed.

Lemma putn_collect n c l s : putn collect n c l s = Ret (l ++ replicate n c) s.
Proof.
  revert l. induction n as [|n IH]; intros l; cbn [putn replicate].
  - by rewrite app_nil_r.
  - etransitivity; [exact (IH (l ++ [c]))|]. by rewrite <- app_assoc.
Qed.

Lemma digits_val_zeros base n ds : digits_val base (replicate n 0 ++ ds) = digits_val base ds.
Proof. unfold digits_val. induction n as [|n IH]; [done | exact IH]. Qed.

(** The printed digits, with zeros before them, are digits for [strtol]. *)
Lemma digit_chars_ok base n ds : base <= 16 -> 0 < base -> Forall (fun d => 0 <= d < base) ds ->
  Forall2 (fun c d => digit_val c = Some d /\ 0 <= d < base)
    (replicate n 48 ++ map digit_char ds) (replicate n 0 ++ ds).
Proof.
  intros Hb H0 Hd. apply Forall2_app.
  - apply Forall2_replicate. split; [done | lia].
  - induction Hd; constructor; [|done]. split; [apply digit_val_char|]; lia.
Qed.

(** C37. What [printnum] prints of a number below [2^31], so that it fits a [long], in a
    base up to 16, padded with blanks or zeros to any width, [strtol] in that base reads back:
    the characters, stored anywhere and followed by anything that is neither a digit nor a
    letter, give the number and the address after them. *)
Theorem printnum_strtol_roundtrip num base width padc st :
  2 <= base <= 16 -> 0 <= num < 2 ^ 31 -> padc = 32 \/ padc = 48 ->
  exists cs, printnum collect num base width padc [] st = Ret cs st /\ width <= Z.of_nat (length cs) /\
    forall m s fuel, bytes_at m s cs -> digit_val (ld8 m (s + Z.of_nat (length cs))) = None ->
      (length cs < fuel)%nat ->
      strtol fuel m s base = Some (num, s + Z.of_nat (length cs)).
Proof.
  intros Hb Hn Hp.
  destruct (printnum_rec_spec collect 64 num base width padc) as (ds & Hds & Hrun); [lia | | lia |].
  { split; [lia|]. apply Z.lt_le_trans with (2 ^ 64); [lia|]. apply Z.pow_le_mono_l. lia. }
  set (n := Z.to_nat (width - Z.of_nat (length ds))) in *. exists (replicate n padc ++ map digit_char ds). split.
  { unfold printnum. rewrite Hrun. fold n. rewrite (bind_run _ _ _ _ _ (putn_collect n padc [] st)). apply putall_collect. }
  split; [rewrite length_app, length_replicate, length_map; lia|].
  intros m s fuel Hm Hend Hf. destruct Hds as [Hd Hv Hl].
  assert (Hne : map digit_char ds <> []) by (destruct Hl as [-> | (? & ? & -> & _)]; done).
  destruct Hp as [-> | ->].
  - rewrite (strtol_read m s base (replicate n 32) [] 1 (map digit_char ds) ds fuel); try done; try lia.
    + do 2 f_equal. lia.
    + by apply Forall_replicate.
    + apply (digit_chars_ok base 0); [lia | lia | done].
  - rewrite (strtol_read m s base [] [] 1 (replicate n 48 ++ map digit_char ds) (replicate n 0 ++ ds) fuel); try done; try lia.
    + rewrite digits_val_zeros. do 2 f_equal. lia.
    + apply digit_chars_ok; [lia | lia | done].
    + intros [_ ?]%app_nil. done.
    + rewrite digits_val_zeros. lia.
Qed.
Lemma printnum_strtol_roundtrip_witness :
  exists cs, printnum collect 0xcafe 16 8 48 [] (inhabitant : kst) = Ret cs (inhabitant : kst) /\ 8 <= Z.of_nat (length cs).
Proof.
  destruct (printnum_strtol_roundtrip 0xcafe 16 8 48 inhabitant) as (cs & H & Hw & _).
  - vm_compute. split; congruence.
  - split; [discriminate | reflexivity].
  - by right.
  - exists cs. split; [exact H | exact Hw].
Defined.
