(* ===== verification/BootThms.v ===== *)
(** * Start-up, the big lock and the clock: the theorems *)

From S2P Require Import Prelude Mem CString Mmu KState Printf Pmap VmInv Environ Sched Syscall.

(** ** [page_init] *)

(** The pages [page_init] leaves out, once the boot allocator is at [nf]: the
    real-mode page, the I/O hole, the memory above the base memory, the boot code of
    the other processors, and what the boot allocator has handed out. *)
Definition reserved (base nf i : Z) : bool :=
  (i =? 0) || ((base <=? i) && (i <? 256)) || ((160 <=? i) && (i <? 256)) || (i =? 7)
  || ((256 <=? i) && (i <? (nf - KERNBASE) / PGSIZE)).

(** The free list after the pages up to [n]: last page first. *)
Definition free_pages (base nf n : Z) : list Z :=
  rev (List.filter (fun i => negb (reserved base nf i)) (seqZ 0 n)).

Lemma page_init_skip_run `{Linked} s i :
  nextfree s <> 0 -> KERNBASE <= nextfree s < 2 ^ 32 -> npages_basemem s <= 160 -> 0 <= i ->
  page_init_skip i s = Ret (reserved (npages_basemem s) (nextfree s) i) s.
Proof.
  intros Hnf Hr Hb Hi. unfold page_init_skip, reserved. kb.
  change (IOPHYSMEM / PGSIZE) with 160. change (EXTPHYSMEM / PGSIZE) with 256.
  change (MPENTRY_PADDR / PGSIZE) with 7.
  assert (Hba : boot_alloc 0 s = Ret (nextfree s) s).
  { unfold boot_alloc. kb. rewrite (proj2 (Z.eqb_neq (nextfree s) 0)) by done. do 2 kb. done. }
  destruct (Z.eqb_spec i 0); [done|]. cbn [orb].
  destruct (Z.geb_spec i (npages_basemem s)), (Z.leb_spec (npages_basemem s) i); try lia;
    destruct (Z.ltb_spec i 160), (Z.geb_spec i 160), (Z.leb_spec 160 i), (Z.ltb_spec i 256); try lia;
    cbn [andb orb]; try done;
    destruct (Z.eqb_spec i 7); try lia; try done; cbn [orb];
    destruct (Z.geb_spec i 256), (Z.leb_spec 256 i); try lia; cbn [andb]; try done;
    krw Hba; rewrite w32_small by (unfold KERNBASE in *; lia); done.
Qed.

Lemma free_pages_S base nf n : 0 <= n ->
  free_pages base nf (n + 1) =
    if reserved base nf n then free_pages base nf n else n :: free_pages base nf n.
Proof.
  intros Hn. unfold free_pages. rewrite seqZ_app by lia. rewrite List.filter_app, rev_app_distr.
  change (seqZ (0 + n) 1) with [0 + n]. rewrite Z.add_0_l. simpl.
  destruct (reserved base nf n); done.
Qed.

Lemma free_pages_elem base nf n p :
  p ∈ free_pages base nf n <-> 0 <= p < n /\ reserved base nf p = false.
Proof.
  unfold free_pages. rewrite list_elem_of_In, <- in_rev, filter_In, <- list_elem_of_In, elem_of_seqZ.
  rewrite negb_true_iff. tauto.
Qed.

(** The list built so far and the pages it has touched. *)
Record page_init_inv (s0 : kst) (n : Z) (s : kst) : Prop := {
  pi_chain : chain (fun p => pp_link (pages s !!! p)) (page_free_list s)
    (free_pages (npages_basemem s0) (nextfree s0) n);
  pi_ref : forall p, p ∈ free_pages (npages_basemem s0) (nextfree s0) n -> pp_ref (pages s !!! p) = 0;
  pi_rest : forall p, p ∉ free_pages (npages_basemem s0) (nextfree s0) n -> pages s !!! p = pages s0 !!! p;
  pi_frame : exists ps fl, s = s0 <| pages := ps |> <| page_free_list := fl |> }.

Lemma page_init_run `{Linked} s0 :
  nextfree s0 <> 0 -> KERNBASE <= nextfree s0 < 2 ^ 32 -> npages_basemem s0 <= 160 -> 0 <= npages s0 ->
  exists s, page_init s0 = Ret tt s /\ page_init_inv s0 (npages s0) s.
Proof.
  intros Hnf Hr Hb Hnp. unfold page_init. do 2 kb.
  set (s1 := s0 <| page_free_list := None |>). change (npages s1) with (npages s0).
  assert (Hw : wp (kfor (Z.to_nat (npages s0)) 0 (fun i =>
      skip ← page_init_skip i;
      if (skip : bool) then mret tt
      else
        fl ← gets page_free_list;
        set_page i {| pp_link := fl; pp_ref := 0 |};;
        modify (fun s => s <| page_free_list := Some i |>)))
    (fun _ s => page_init_inv s0 (npages s0) s) (fun _ _ => False) s1).
  2:{ destruct (wp_elim _ _ _ Hw) as ([] & s & Hrun & Hi). by exists s. }
  eapply wp_mono; [eapply (wp_kfor _ _ (page_init_inv s0) (fun _ _ => False)) | | auto].
  - constructor; [done | by intros ? ?%elem_of_nil | done|]. exists (pages s0), None. by kexplode s0.
  - intros n s Hn [Hc Href Hrest Hfr]. destruct Hfr as (ps & fl & Hs).
    assert (Hskip : page_init_skip n s = Ret (reserved (npages_basemem s0) (nextfree s0) n) s).
    { assert (Hnf' : nextfree s = nextfree s0) by (by rewrite Hs).
      assert (Hb' : npages_basemem s = npages_basemem s0) by (by rewrite Hs).
      rewrite page_init_skip_run by (rewrite ?Hnf', ?Hb'; done || lia). by rewrite Hnf', Hb'. }
    unfold wp. krw Hskip. destruct (reserved _ _ n) eqn:E.
    { unfold mret, K_ret. constructor; try rewrite free_pages_S, E by lia; [done.. | by exists ps, fl]. }
    do 2 kb. unfold modify. set (s' := s <| pages := _ |> <| page_free_list := _ |>).
    assert (Hn0 : n ∉ free_pages (npages_basemem s0) (nextfree s0) n)
      by (rewrite free_pages_elem; lia).
    constructor; try rewrite free_pages_S, E by lia.
    + split; [done|]. unfold s'. simpl. rewrite lookup_total_insert_eq. simpl.
      eapply chain_ext; [|exact Hc]. intros p Hp.
      rewrite lookup_total_insert_ne; [done | intros ->; done].
    + intros p [-> | Hp]%elem_of_cons; unfold s'; simpl; [by rewrite lookup_total_insert_eq|].
      rewrite lookup_total_insert_ne; [by apply Href | intros ->; done].
    + intros p Hp. apply not_elem_of_cons in Hp as [Hpn Hp]. unfold s'. simpl.
      rewrite lookup_total_insert_ne by done. by apply Hrest.
    + unfold s'. rewrite Hs. eexists _, _. kexplode s0. reflexivity.
  - intros [] s Hi. by rewrite Z.add_0_l, Z2Nat.id in Hi by lia.
Qed.

(** [page_init], once the boot allocator has been used, returns with the free list made
    up of exactly the pages of memory that are neither reserved nor handed out by the boot
    allocator, each once and with a reference count of 0, and every other page as it
    was. *)
Theorem page_init_correct `{Linked} s0 :
  nextfree s0 <> 0 -> KERNBASE <= nextfree s0 < 2 ^ 32 -> npages_basemem s0 <= 160 -> 0 <= npages s0 ->
  exists s l, page_init s0 = Ret tt s /\ NoDup l /\
    chain (fun p => pp_link (pages s !!! p)) (page_free_list s) l /\
    (forall p, p ∈ l <-> 0 <= p < npages s0 /\ reserved (npages_basemem s0) (nextfree s0) p = false) /\
    (forall p, p ∈ l -> pp_ref (pages s !!! p) = 0) /\
    (forall p, p ∉ l -> pages s !!! p = pages s0 !!! p).
Proof.
  intros Hnf Hr Hb Hnp. destruct (page_init_run s0 Hnf Hr Hb Hnp) as (s & Hrun & [Hc Href Hrest _]).
  exists s, (free_pages (npages_basemem s0) (nextfree s0) (npages s0)).
  split; [done|]. split; [|split; [done|]; split; [apply free_pages_elem | done]].
  unfold free_pages. apply NoDup_ListNoDup, List.NoDup_rev, List.NoDup_filter, NoDup_ListNoDup, NoDup_seqZ.
Qed.

Definition sample_boot : kst :=
  let s : kst := inhabitant in
  s <| npages := 300 |> <| npages_basemem := 160 |> <| nextfree := KERNBASE + 280 * PGSIZE |>.
Definition sample_link : Linked := {| end_ := 0xF0117000; bootstack := 0; percpu_kstacks := 0 |}.
Lemma page_init_correct_witness :
  exists s, @page_init sample_link sample_boot = Ret tt s /\ page_free_list s <> None.
Proof.
  destruct (@page_init_correct sample_link sample_boot) as (s & l & Hrun & _ & Hc & Hl & _).
  - discriminate.
  - vm_compute. split; congruence.
  - discriminate.
  - discriminate.
  - exists s. split; [exact Hrun|]. intros Hn. rewrite Hn in Hc.
    assert (H1 : 1 ∈ l) by (apply Hl; vm_compute; repeat split; congruence).
    destruct l as [|p l]; [by apply elem_of_nil in H1 | destruct Hc as [Hc _]; discriminate Hc].
Defined.

(** ** [env_init] *)

(** [env_init] puts all [NENV] environments on the free list in the order of the table,
    so that the first allocation takes slot 0, all marked free with identifier 0. *)
Theorem env_init_correct s :
  env_free_list s = None ->
  exists s', env_init s = Ret tt s' /\ env_free_list s' = Some 0 /\
    forall i, 0 <= i < NENV -> envs s' !!! i =
      (envs s !!! i) <| env_id := 0 |> <| env_status := ENV_FREE |>
        <| env_link := if i =? NENV - 1 then None else Some (i + 1) |>.
Proof.
  intros Hf. unfold env_init.
  assert (Hw : wp (kfor (Z.to_nat NENV) 0 (fun k =>
      let i := NENV - 1 - k in
      ev ← env i;
      fl ← gets env_free_list;
      set_env i (ev <| env_id := 0 |> <| env_status := ENV_FREE |> <| env_link := fl |>);;
      modify (fun s => s <| env_free_list := Some i |>)))
    (fun _ s' => env_free_list s' = Some 0 /\
      forall i, 0 <= i < NENV -> envs s' !!! i =
        (envs s !!! i) <| env_id := 0 |> <| env_status := ENV_FREE |>
          <| env_link := if i =? NENV - 1 then None else Some (i + 1) |>) (fun _ _ => False) s).
  2:{ destruct (wp_elim _ _ _ Hw) as ([] & s' & Hrun & Hi). exists s'. split; [exact Hrun | exact Hi]. }
  eapply wp_mono; [eapply (wp_kfor _ _ (fun k s' =>
    env_free_list s' = (if k =? 0 then None else Some (NENV - k)) /\
    (forall i, 0 <= i < NENV - k -> envs s' !!! i = envs s !!! i) /\
    forall i, NENV - k <= i < NENV -> envs s' !!! i =
      (envs s !!! i) <| env_id := 0 |> <| env_status := ENV_FREE |>
        <| env_link := if i =? NENV - 1 then None else Some (i + 1) |>) (fun _ _ => False)) | | auto].
  - split; [done|]. split; [done|]. intros i Hi. lia.
  - intros k s' Hk (Hfl & Hlo & Hhi). change (Z.of_nat (Z.to_nat NENV)) with 1024 in Hk.
    unfold wp. cbv zeta. do 3 kb. unfold modify. change NENV with 1024 in *.
    rewrite (Hlo (1024 - 1 - k)) by lia. rewrite Hfl. split.
    { simpl. destruct (Z.eqb_spec (k + 1) 0); [lia|]. f_equal. lia. }
    split; intros i Hi; simpl.
    + rewrite lookup_total_insert_ne by lia. apply Hlo. lia.
    + destruct (decide (i = 1024 - 1 - k)) as [-> | Hne].
      * rewrite lookup_total_insert_eq. do 2 f_equal.
        destruct (Z.eqb_spec k 0), (Z.eqb_spec (1024 - 1 - k) (1024 - 1)); try lia; [done|].
        f_equal. lia.
      * rewrite lookup_total_insert_ne by done. apply Hhi. lia.
  - intros [] s' (Hfl & _ & Hhi). split; [exact Hfl|]. intros i Hi. apply Hhi.
    change (0 + Z.of_nat (Z.to_nat NENV)) with NENV. lia.
Qed.
Lemma env_init_correct_witness :
  exists s', env_init (inhabitant : kst) = Ret tt s' /\ env_free_list s' = Some 0.
Proof.
  destruct (env_init_correct (inhabitant : kst)) as (s' & H1 & H2 & _); [reflexivity|].
  exists s'. split; [exact H1 | exact H2].
Defined.

(** ** The big kernel lock *)

(** The big lock excludes: it is taken exactly when nobody holds it (another holder
    makes the processor spin, holding it already is a panic), it is released only by
    its holder, and releasing undoes taking. *)
Theorem kernel_lock_correct s :
  lock_kernel s =
    match kernel_lock s with
    | Some c => if c =? cpunum s then Panic "spin_lock: already holding" s else Exit Spinning s
    | None => Ret tt (s <| kernel_lock := Some (cpunum s) |>)
    end /\
  unlock_kernel s =
    match kernel_lock s with
    | Some c => if c =? cpunum s then Ret tt (s <| kernel_lock := None |>) else Panic "spin_unlock" s
    | None => Panic "spin_unlock" s
    end /\
  (kernel_lock s = None -> (lock_kernel;; unlock_kernel) s = Ret tt s).
Proof.
  unfold lock_kernel, unlock_kernel. split; [|split].
  - kb. unfold holding. destruct (kernel_lock s) as [c|] eqn:E.
    + destruct (c =? cpunum s); [done|]. kb. by rewrite E.
    + kb. by rewrite E.
  - kb. unfold holding. destruct (kernel_lock s) as [c|]; [|done]. by destruct (c =? cpunum s).
  - intros Hn. assert (Hl : (h ← gets holding; if (h : bool) then panic "spin_lock: already holding"
      else l ← gets kernel_lock; match l with
        | Some _ => leave Spinning
        | None => modify (fun s => s <| kernel_lock := Some (cpunum s) |>) end) s =
      Ret tt (s <| kernel_lock := Some (cpunum s) |>)).
    { kb. unfold holding. rewrite Hn. kb. by rewrite Hn. }
    krw Hl. kb. unfold holding. simpl. rewrite Z.eqb_refl. unfold modify. simpl. f_equal.
    kexplode s. kred. simpl in Hn. by rewrite Hn.
Qed.
Lemma kernel_lock_correct_witness : (lock_kernel;; unlock_kernel) (inhabitant : kst) = Ret tt (inhabitant : kst).
Proof. apply kernel_lock_correct. reflexivity. Defined.

(** ** The clock *)

(** The tick at which ten times the counter no longer fits 32 bits. *)
Definition last_tick : Z := 429496729.

(** From power-on, [n] timer ticks make [time_msec] answer exactly [10 * n] as long as
    that fits 32 bits (about 49 days and 17 hours), and the tick that would overflow
    it panics instead of wrapping. *)
Theorem time_tick_correct s :
  0 <= ticks s <= last_tick ->
  (if ticks s <? last_tick
   then exists s', time_tick s = Ret tt s' /\ ticks s' = ticks s + 1 /\
          time_msec s' = Ret (10 * (ticks s + 1)) s'
   else exists s', time_tick s = Panic "time_tick: time overflowed" s').
Proof.
  intros Ht. unfold time_tick, time_msec, last_tick in *. do 2 kb.
  set (s1 := s <| ticks := w32 (ticks s + 1) |>).
  assert (H1 : ticks s1 = ticks s + 1) by (unfold s1; simpl; apply w32_small; lia).
  rewrite H1. clearbody s1. destruct (Z.ltb_spec (ticks s) 429496729).
  - exists s1. rewrite (w32_small ((ticks s + 1) * 10)) by lia.
    destruct (Z.ltb_spec ((ticks s + 1) * 10) (ticks s + 1)); [lia|].
    split; [done|]. split; [done|]. kb. rewrite H1. unfold mret, K_ret. f_equal.
    rewrite w32_small by lia. lia.
  - exists s1. assert (ticks s = 429496729) as -> by lia. done.
Qed.
Lemma time_tick_correct_witness :
  exists s', time_tick (inhabitant : kst) = Ret tt s' /\ time_msec s' = Ret 10 s'.
Proof.
  destruct (time_tick_correct (inhabitant : kst)) as (s' & H1 & _ & H2).
  - split; [reflexivity | discriminate].
  - exists s'. split; [exact H1 | exact H2].
Defined.
