(* ===== verification/User.v ===== *)
(** * User mode: memory and system calls ([lib/syscall.c], [lib/panic.c], [inc/lib.h])

    A user program runs on the kernel's machine: its loads and stores go through the MMU
    with user rights, and a system call is the kernel's [trap] on the registers the stub
    loads.  A program is a computation of the kernel's state that returns, or stops with
    a panic of its own or at a fault. *)

From S2P Require Import Prelude Mem CString Mmu KState Printf Pmap Environ Sched Syscall Trap.

Inductive uend :=
  | UPanic (msg : string)
  | UFault (va err : Z).

Definition L (A : Type) : Type := K (A + uend).

#[export] Instance L_ret : MRet L := fun A a s => Ret (inl a) s.
#[export] Instance L_bind : MBind L := fun A B f m s =>
  match m s with
  | Ret (inl a) s' => f a s'
  | Ret (inr e) s' => Ret (inr e) s'
  | Panic msg s' => Panic msg s'
  | Exit x s' => Exit x s'
  end.
Definition uexit {A} (e : uend) : L A := fun s => Ret (inr e) s.

(** [lib/panic.c]: the message, and breakpoints for ever. *)
Definition user_panic {A} (msg : string) : L A := uexit (UPanic msg).

(** A loop of user code, under fuel, and a counted one. *)
Definition lloop {St R : Type} (fuel : nat) (body : St -> L (St + R)) (st : St) : L R :=
  kloop fuel (fun st s =>
    match body st s with
    | Ret (inl (inl st')) s' => Ret (inl st') s'
    | Ret (inl (inr r)) s' => Ret (inr (inl r)) s'
    | Ret (inr e) s' => Ret (inr (inr e)) s'
    | Panic msg s' => Panic msg s'
    | Exit x s' => Exit x s'
    end) st.
Fixpoint lfor (n : nat) (i : Z) (body : Z -> L unit) : L unit :=
  match n with
  | O => mret tt
  | S n' => body i;; lfor n' (i + 1) body
  end.

(** ** Memory

    The error code of a protection fault ([inc/mmu.h]). *)
Definition FEC_PR : Z := 1.

(** The translation of a user-mode access: the kernel address it reaches, or the error
    code of the fault.  Both levels must be present, allow user mode and, for a store,
    be writable. *)
Definition mmu_user (m : memory) (cr3 va : Z) (write : bool) : Z + Z :=
  let fec := Z.lor FEC_U (if write then FEC_WR else 0) in
  let pde := ld32 m (w32 (cr3 + KERNBASE) + 4 * PDX va) in
  if negb (has pde PTE_P) then inr fec
  else
    let pte := ld32 m (w32 (PTE_ADDR pde + KERNBASE) + 4 * PTX va) in
    if negb (has pte PTE_P) then inr fec
    else if negb (has pde PTE_U && has pte PTE_U)
      || (write && negb (has pde PTE_W && has pte PTE_W)) then inr (Z.lor fec FEC_PR)
    else inl (w32 (PTE_ADDR pte + KERNBASE) + PGOFF va).

Definition utrans (va : Z) (write : bool) : L Z := fun s =>
  match mmu_user (mem s) (cpu_cr3 (thiscpu s)) va write with
  | inl a => Ret (inl a) s
  | inr err => Ret (inr (UFault va err)) s
  end.
Definition umem {A} (f : memory -> A) : L A := fun s => Ret (inl (f (mem s))) s.
Definition uphys (f : memory -> memory) : L unit := fun s => Ret (inl tt) (s <| mem := f (mem s) |>).

Definition uload8 (va : Z) : L Z := a ← utrans va false; umem (fun m => ld8 m a).
Definition ustore8 (va v : Z) : L unit := a ← utrans va true; uphys (fun m => st8 m a v).

(** A word within a page is one access; one across pages is made byte by byte. *)
Definition uload32 (va : Z) : L Z :=
  if PGOFF va <=? PGSIZE - 4 then a ← utrans va false; umem (fun m => ld32 m a)
  else
    b0 ← uload8 va; b1 ← uload8 (w32 (va + 1)); b2 ← uload8 (w32 (va + 2)); b3 ← uload8 (w32 (va + 3));
    mret (b0 + 256 * b1 + 65536 * b2 + 16777216 * b3).
Definition ustore32 (va v : Z) : L unit :=
  if PGOFF va <=? PGSIZE - 4 then a ← utrans va true; uphys (fun m => st32 m a v)
  else
    ustore8 va v;; ustore8 (w32 (va + 1)) (v / 256);; ustore8 (w32 (va + 2)) (v / 65536);;
    ustore8 (w32 (va + 3)) (v / 16777216).

(** The arrays [uvpt] and [uvpd] of [lib/entry.S]. *)
Definition UVPD : Z := UVPT + Z.shiftr UVPT 12 * 4.
Definition uvpt (pn : Z) : L Z := uload32 (w32 (UVPT + 4 * pn)).
Definition uvpd (i : Z) : L Z := uload32 (w32 (UVPD + 4 * i)).

(** [memmove] of [lib/string.c] on the program's own memory: by words when everything is
    aligned, downwards when the regions overlap that way. *)
Definition umemmove (dst src n : Z) : L unit :=
  let sz := if (src mod 4 =? 0) && (dst mod 4 =? 0) && (n mod 4 =? 0) then 4 else 1 in
  let move (i : Z) : L unit :=
    if sz =? 4 then w ← uload32 (w32 (src + i)); ustore32 (w32 (dst + i)) w
    else b ← uload8 (w32 (src + i)); ustore8 (w32 (dst + i)) b in
  if (src <? dst) && (w32 (src + n) >? dst)
  then lfor (Z.to_nat (n / sz)) 0 (fun i => move (n - sz * (i + 1)))
  else lfor (Z.to_nat (n / sz)) 0 (fun i => move (sz * i)).

(** ** System calls *)

(** What a program brings along: the registers a trap of it saves besides the ones a
    system call loads, and where the linker put the symbols of [lib/pgfault.c],
    [lib/pfentry.S] and [lib/fork.c]. *)
Class Program := {
  saved_regs : Trapframe;
  trapframe_at : Z;                 (* of the trap frame on the kernel stack *)
  handler_var : Z;                  (* the variable [_pgfault_handler] *)
  upcall_fn : Z;                    (* [_pgfault_upcall] *)
  pgfault_fn : Z                    (* [pgfault] *)
}.

Section user.
Context `{Devices} `{TrapDevices} `{Program}.

(** The trap frame of a system call. *)
Definition call_frame (no a1 a2 a3 a4 a5 : Z) : Trapframe :=
  saved_regs <| tf_trapno := T_SYSCALL |> <| tf_regs := tf_regs saved_regs <| reg_eax := w32 no |>
    <| reg_edx := w32 a1 |> <| reg_ecx := w32 a2 |> <| reg_ebx := w32 a3 |> <| reg_edi := w32 a4 |>
    <| reg_esi := w32 a5 |> |>.

(** [int $T_SYSCALL] on the registers [tf]: the program goes on when the kernel returns to it, with the result
    in [eax].  When another environment is run instead, control is lost. *)
Definition int_syscall (tf : Trapframe) : L Z := fun s =>
  match (trap trapframe_at 0 tf : K unit) s with
  | Exit (ToUser e) s' =>
      if bool_decide (curenv s = Some e)
      then Ret (inl (s32 (reg_eax (tf_regs (env_tf (envs s' !!! e)))))) s'
      else Exit (ToUser e) s'
  | Exit x s' => Exit x s'
  | Panic msg s' => Panic msg s'
  | Ret _ s' => Exit Undefined s'
  end.

(** [syscall] of [lib/syscall.c]. *)
Definition usyscall (no : Z) (check : bool) (a1 a2 a3 a4 a5 : Z) : L Z :=
  ret ← int_syscall (call_frame no a1 a2 a3 a4 a5);
  if check && (ret >? 0) then user_panic "syscall %d returned %d (> 0)" else mret ret.

Definition sys_cputs (s len : Z) : L unit := usyscall SYS_cputs false s len 0 0 0;; mret tt.
Definition sys_cgetc : L Z := usyscall SYS_cgetc false 0 0 0 0 0.
Definition sys_env_destroy (envid : Z) : L Z := usyscall SYS_env_destroy true envid 0 0 0 0.
Definition sys_getenvid : L Z := usyscall SYS_getenvid false 0 0 0 0 0.
Definition sys_yield : L unit := usyscall SYS_yield false 0 0 0 0 0;; mret tt.
Definition sys_page_alloc (envid va perm : Z) : L Z := usyscall SYS_page_alloc true envid va perm 0 0.
Definition sys_page_map (srcenv srcva dstenv dstva perm : Z) : L Z :=
  usyscall SYS_page_map true srcenv srcva dstenv dstva perm.
Definition sys_page_unmap (envid va : Z) : L Z := usyscall SYS_page_unmap true envid va 0 0 0.
(** Inlined in [inc/lib.h]: only [eax] is loaded. *)
Definition exofork_frame : Trapframe :=
  saved_regs <| tf_trapno := T_SYSCALL |> <| tf_regs := tf_regs saved_regs <| reg_eax := SYS_exofork |> |>.
Definition sys_exofork : L Z := int_syscall exofork_frame.
Definition sys_env_set_status (envid status : Z) : L Z := usyscall SYS_env_set_status true envid status 0 0 0.
Definition sys_env_set_trapframe (envid tf : Z) : L Z := usyscall SYS_env_set_trapframe true envid tf 0 0 0.
Definition sys_env_set_pgfault_upcall (envid upcall : Z) : L Z :=
  usyscall SYS_env_set_pgfault_upcall true envid upcall 0 0 0.
Definition sys_ipc_try_send (envid value srcva perm : Z) : L Z :=
  usyscall SYS_ipc_try_send false envid value srcva perm 0.
Definition sys_ipc_recv (dstva : Z) : L Z := usyscall SYS_ipc_recv false dstva 0 0 0 0.
Definition sys_time_msec : L Z := r ← usyscall SYS_time_msec false 0 0 0 0 0; mret (w32 r).
Definition sys_net_send (buf size : Z) : L Z := usyscall SYS_net_send false buf size 0 0 0.
Definition sys_net_recv (buf size : Z) : L Z := usyscall SYS_net_recv false buf size 0 0 0.
Definition sys_exec (binary argv : Z) : L Z := usyscall SYS_exec false binary argv 0 0 0.
End user.
