(* ===== verification/UserSpec.v ===== *)
(** * From user mode into the kernel and back

    A system call that the kernel carries out for environment [c] is, for the program
    that made it, a step from one user-mode state to another. *)

From S2P Require Import Prelude Mem CString Mmu KState Printf Pmap VmInv VmSpec VmLife Environ Sched Syscall Trap EnvInv EnvFree SchedSpec UserMem SysSpec User.

(** Environment [c] running in user mode. *)
Record in_user (s : kst) (c : Z) (dirs : list Z) (rl : Z -> role) : Prop := {
  iu_sys : sys_inv s dirs rl;
  iu_cur : curenv s = Some c;
  iu_live : live s c;
  iu_run : env_status (envs s !!! c) = ENV_RUNNING;
  iu_lock : kernel_lock s = None;
  iu_cpu : cpu_status (thiscpu s) <> CPU_HALTED;
  iu_cr3 : cpu_cr3 (thiscpu s) = env_pgdir (envs s !!! c) - KERNBASE }.

(** The state in which the trap of [tf] is dispatched. *)
Definition entered (s : kst) (c : Z) (tf : Trapframe) : kst :=
  let s1 := set_thiscpu (fun u => u <| cpu_status := CPU_STARTED |>) s in
  s1 <| kernel_lock := Some (cpunum s) |> <| envs := <[c := (envs s !!! c) <| env_tf := tf |>]> (envs s) |>.

(** The state in which the program goes on, with [r] in [eax]. *)
Definition with_eax (s : kst) (c r : Z) : kst :=
  s <| envs := <[c := (envs s !!! c) <| env_tf := env_tf (envs s !!! c) <| tf_regs :=
    tf_regs (env_tf (envs s !!! c)) <| reg_eax := w32 r |> |> |>]> (envs s) |>.
Definition resumed (s : kst) (c r : Z) : kst :=
  running (demote (with_eax s c r)) c (dir_page s c).

Lemma entered_in_kernel s c dirs rl tf : in_user s c dirs rl -> in_kernel (entered s c tf) c dirs rl.
Proof.
  intros [Hs Hc Hl Hr Hk Hcpu Hcr]. set (s1 := set_thiscpu (fun u => u <| cpu_status := CPU_STARTED |>) s).
  pose proof (sys_inv_cpus _ _ _ (cpus s1) (Some (cpunum s)) Hs) as Hs1.
  assert (Hk1 : in_kernel (s <| cpus := cpus s1 |> <| kernel_lock := Some (cpunum s) |>) c dirs rl).
  { constructor; try done.
    - change (curenv s1 = Some c). unfold curenv, s1. by rewrite thiscpu_set.
    - apply Z.eqb_refl. }
  apply (in_kernel_env _ _ _ _ c ((envs s !!! c) <| env_tf := tf |>)) in Hk1; try done.
  simpl. by destruct Hl.
Qed.

Section trap.
Context `{Devices} `{TrapDevices}.

Lemma trap_enter {A} s c dirs rl tfa cr2 tf :
  in_user s c dirs rl -> Z.land (tf_cs tf) 3 = 3 ->
  (trap tfa cr2 tf : K A) s = (with_faults tfa (trap_dispatch tfa cr2 tf);; trap_return) (entered s c tf).
Proof.
  intros [Hs Hc Hl Hr Hk Hcpu Hcr] Hcs. unfold trap.
  set (s1 := set_thiscpu (fun u => u <| cpu_status := CPU_STARTED |>) s).
  assert (Hst : trap_cpu_status s = Ret tt s1).
  { unfold trap_cpu_status. do 2 kb. by rewrite (proj2 (Z.eqb_neq _ _) Hcpu). }
  krw Hst. rewrite Hcs, Z.eqb_refl.
  assert (Hlock : lock_kernel s1 = Ret tt (s1 <| kernel_lock := Some (cpunum s1) |>)).
  { unfold lock_kernel. kb. unfold holding. change (kernel_lock s1) with (kernel_lock s). rewrite Hk.
    kb. change (kernel_lock s1) with (kernel_lock s). by rewrite Hk. }
  rewrite bind_assoc. krw Hlock. set (s2 := s1 <| kernel_lock := _ |>). do 2 kb.
  assert (Hc2 : curenv s2 = Some c).
  { change (curenv s2) with (cpu_env (thiscpu s1)). unfold s1. rewrite thiscpu_set. exact Hc. }
  rewrite Hc2. do 2 kb. change (envs s2) with (envs s). rewrite Hr. change (ENV_RUNNING =? ENV_DYING) with false.
  cbv iota. repeat kb. erewrite bind_run by apply upd_env_run. done.
Qed.

Lemma trap_return_run {A} s c dirs rl :
  in_kernel s c dirs rl -> env_status (envs s !!! c) = ENV_RUNNING ->
  (trap_return : K A) s = Exit (ToUser c) (running (demote s) c (dir_page s c)).
Proof.
  intros [Hs Hc Hl Hh] Hr. unfold trap_return. kb. rewrite Hc. kb. rewrite Hr, Z.eqb_refl.
  destruct (si_env _ _ _ Hs c Hl) as (d & Hd & Hed). rewrite (dir_page_kva _ _ _ Hed).
  assert (Hn : npages (demote s) = npages s /\ holding (demote s) = holding s /\
    env_pgdir (envs (demote s) !!! c) = env_pgdir (envs s !!! c)).
  { unfold demote. rewrite Hc, Hr, Z.eqb_refl. simpl. by rewrite lookup_total_insert_eq. }
  destruct Hn as (Hn & Hho & Hp). pose proof (vi_npages _ _ _ _ (si_vm _ _ _ Hs)) as Hnp.
  apply env_run_spec; rewrite ?Hn, ?Hp, ?Hho; try done; [|lia].
  apply (vi_range _ _ _ _ (si_vm _ _ _ Hs)). apply (vi_dirs _ _ _ _ (si_vm _ _ _ Hs)) in Hd. congruence.
Qed.

Lemma with_eax_in_kernel s c dirs rl r :
  in_kernel s c dirs rl -> in_kernel (with_eax s c r) c dirs rl.
Proof. intros Hk. apply in_kernel_env; try done; by destruct (ik_live _ _ _ _ Hk). Qed.

Lemma resumed_in_user s c dirs rl r :
  in_kernel s c dirs rl -> cpu_status (thiscpu s) <> CPU_HALTED -> in_user (resumed s c r) c dirs rl.
Proof.
  intros Hk Hcpu. pose proof (with_eax_in_kernel s c dirs rl r Hk) as [Hs Hc Hl Hh].
  unfold resumed. set (s1 := with_eax s c r) in *.
  assert (Hd1 : dir_page s c = dir_page (demote s1) c).
  { unfold dir_page. do 2 f_equal. unfold demote. rewrite Hc. unfold s1, with_eax.
    case_bool; simpl; by rewrite !lookup_total_insert_eq. }
  rewrite Hd1. assert (Hl1 : live (demote s1) c).
  { unfold demote. rewrite Hc. case_bool; [|exact Hl]. by apply live_upd. }
  pose proof (demote_inv s1 dirs rl Hs ltac:(by eapply ik_cur_ok)) as Hs1.
  destruct (running_inv (demote s1) dirs rl c Hs1 Hl1) as [Hs2 (_ & Hc2 & Hl2 & Hr2 & Hk2 & Hcr2)].
  constructor; try done. unfold running. rewrite thiscpu_set.
  change (cpu_status (thiscpu (demote s1)) <> CPU_HALTED). unfold demote. rewrite Hc. by case_bool.
Qed.

(** A system call that comes back. *)
Lemma int_syscall_run `{Program} s c dirs rl tf s1 r dirs' rl' :
  in_user s c dirs rl -> Z.land (tf_cs tf) 3 = 3 -> tf_trapno tf = T_SYSCALL ->
  (let g := tf_regs tf in
   syscall (reg_eax g) (reg_edx g) (reg_ecx g) (reg_ebx g) (reg_edi g) (reg_esi g) (entered s c tf) = Ret r s1) ->
  in_kernel s1 c dirs' rl' -> env_status (envs s1 !!! c) = ENV_RUNNING ->
  cpu_status (thiscpu s1) <> CPU_HALTED ->
  int_syscall tf s = Ret (inl (s32 r)) (resumed s1 c r) /\ in_user (resumed s1 c r) c dirs' rl'.
Proof.
  intros Hu Hcs Hno Hrun Hk1 Hr1 Hcpu1.
  pose proof (resumed_in_user s1 c dirs' rl' r Hk1 Hcpu1) as Hu1. split; [|exact Hu1].
  unfold int_syscall. rewrite (trap_enter s c dirs rl) by done.
  pose proof (entered_in_kernel s c dirs rl tf Hu) as Hk0.
  erewrite (bind_run _ _ _ tt (with_eax s1 c r)).
  2:{ unfold with_faults, trap_dispatch. rewrite Hno. change (T_SYSCALL =? T_PGFLT) with false.
      change (T_SYSCALL =? T_BRKPT) with false. rewrite Z.eqb_refl. cbv iota zeta.
      rewrite (bind_run _ _ _ c (entered s c tf)) by (apply cur_run, Hk0). krw Hrun. by rewrite upd_env_run. }
  pose proof (with_eax_in_kernel s1 c dirs' rl' r Hk1) as Hk1'.
  rewrite (trap_return_run _ c dirs' rl' Hk1').
  2:{ unfold with_eax. simpl. by rewrite lookup_total_insert_eq. }
  assert (Hdp : dir_page (with_eax s1 c r) c = dir_page s1 c).
  { unfold dir_page, with_eax. simpl. by rewrite lookup_total_insert_eq. }
  rewrite Hdp. fold (resumed s1 c r).
  rewrite bool_decide_eq_true_2 by apply (iu_cur _ _ _ _ Hu). do 2 f_equal.
  unfold resumed, running. simpl. rewrite lookup_total_insert_eq. unfold running_env. simpl.
  unfold demote. rewrite (ik_cur _ _ _ _ Hk1').
  unfold with_eax. case_bool; simpl; rewrite ?lookup_total_insert_eq; simpl; rewrite ?lookup_total_insert_eq; simpl; apply s32_w32.
Qed.
End trap.

(** ** What a system call leaves as it was *)

(** The same environment, but for its registers and its accounting. *)
Definition same_env (v v' : Env) : Prop :=
  exists tf runs cpu, v' = v <| env_tf := tf |> <| env_runs := runs |> <| env_cpunum := cpu |>.

Record uframe (s s' : kst) (c : Z) : Prop := {
  uf_npages : npages s' = npages s;
  uf_kern : kern_pgdir s' = kern_pgdir s;
  uf_cpunum : cpunum s' = cpunum s;
  uf_free : env_free_list s' = env_free_list s;
  uf_other : forall x, x <> c -> envs s' !!! x = envs s !!! x;
  uf_self : same_env (envs s !!! c) (envs s' !!! c) }.

#[export] Instance same_env_refl : Reflexive same_env.
Proof. intros v. exists (env_tf v), (env_runs v), (env_cpunum v). by destruct v. Qed.
#[export] Instance same_env_trans : Transitive same_env.
Proof. intros v1 v2 v3 (t & r & n & ->) (t' & r' & n' & ->). by exists t', r', n'. Qed.
#[export] Instance uframe_refl c : Reflexive (fun s s' => uframe s s' c).
Proof. intros s. by constructor. Qed.
Lemma uframe_trans s1 s2 s3 c : uframe s1 s2 c -> uframe s2 s3 c -> uframe s1 s3 c.
Proof.
  intros [] []. constructor; try congruence; [|by etransitivity].
  intros x Hx. rewrite uf_other1 by done. by apply uf_other0.
Qed.

Lemma same_env_fields v v' : same_env v v' ->
  env_pgdir v' = env_pgdir v /\ env_id v' = env_id v /\ env_status v' = env_status v /\
  env_parent_id v' = env_parent_id v /\ env_pgfault_upcall v' = env_pgfault_upcall v.
Proof. by intros (tf & r & n & ->). Qed.

Lemma uframe_env s s' c x : uframe s s' c ->
  env_pgdir (envs s' !!! x) = env_pgdir (envs s !!! x) /\ env_id (envs s' !!! x) = env_id (envs s !!! x) /\
  env_status (envs s' !!! x) = env_status (envs s !!! x) /\
  env_parent_id (envs s' !!! x) = env_parent_id (envs s !!! x).
Proof.
  intros Hf. destruct (decide (x = c)) as [-> | Hx].
  - pose proof (same_env_fields _ _ (uf_self _ _ _ Hf)). naive_solver.
  - by rewrite (uf_other _ _ _ Hf).
Qed.
Lemma uframe_names s s' c envid chk e : uframe s s' c -> names s' c envid chk e <-> names s c envid chk e.
Proof.
  intros Hf. unfold names, live. destruct (uframe_env _ _ _ e Hf) as (_ & -> & -> & ->).
  by destruct (uframe_env _ _ _ c Hf) as (_ & -> & _).
Qed.

(** A step of user mode that only concerns pages. *)
Record ustep (dirs : list Z) (rl : Z -> role) (c : Z) (s s' : kst) : Prop := {
  us_frame : uframe s s' c;
  us_data : keeps_data rl s s';
  us_khalf : keeps_khalf dirs s s';
  us_pde : pde_user dirs s -> pde_user dirs s' }.

Lemma entered_frame s c tf : uframe s (entered s c tf) c.
Proof.
  constructor; try done.
  - intros x Hx. simpl. by rewrite lookup_total_insert_ne.
  - simpl. rewrite lookup_total_insert_eq. exists tf, (env_runs (envs s !!! c)), (env_cpunum (envs s !!! c)). by destruct (envs s !!! c).
Qed.

Lemma frame_uframe s s' c : vm_frame s s' -> uframe s s' c.
Proof.
  intros Hf. constructor; rewrite ?(frame_npages _ _ Hf), ?(frame_kern _ _ Hf), ?(frame_cpunum _ _ Hf),
    ?(frame_env_free _ _ Hf), ?(frame_envs _ _ Hf); done.
Qed.

Lemma frame_cpu_status s s' : vm_frame s s' -> cpu_status (thiscpu s') = cpu_status (thiscpu s).
Proof.
  intros (m & ps & fl & cs & -> & H). unfold thiscpu. simpl.
  exact (f_equal cpu_status (H (cpunum s))).
Qed.

Lemma resumed_env s c r : curenv s = Some c -> env_status (envs s !!! c) = ENV_RUNNING ->
  (forall x, x <> c -> envs (resumed s c r) !!! x = envs s !!! x) /\
  same_env (envs s !!! c) (envs (resumed s c r) !!! c).
Proof.
  intros Hc Hr. unfold resumed, running, demote.
  change (curenv (with_eax s c r)) with (curenv s). rewrite Hc.
  assert (He : envs (with_eax s c r) !!! c = (envs s !!! c) <| env_tf := env_tf (envs s !!! c) <| tf_regs :=
    tf_regs (env_tf (envs s !!! c)) <| reg_eax := w32 r |> |> |>).
  { unfold with_eax. simpl. by rewrite lookup_total_insert_eq. }
  rewrite He. change (env_status (_ <| env_tf := _ |>)) with (env_status (envs s !!! c)).
  rewrite Hr, Z.eqb_refl. split.
  - intros x Hx. simpl. rewrite !lookup_total_insert_ne by done. done.
  - simpl. rewrite lookup_total_insert_eq. unfold running_env. simpl. rewrite lookup_total_insert_eq.
    clear He. revert Hr. destruct (envs s !!! c). simpl. intros ->. by eexists _, _, _.
Qed.

Lemma resumed_frame s c r : curenv s = Some c -> env_status (envs s !!! c) = ENV_RUNNING ->
  uframe s (resumed s c r) c.
Proof.
  intros Hc Hr. destruct (resumed_env s c r Hc Hr) as [Ho He].
  assert (Hd : exists es, demote (with_eax s c r) = s <| envs := es |>).
  { unfold demote. destruct (curenv (with_eax s c r)); [case_bool|]; by eexists. }
  destruct Hd as [es Hd]. constructor; try done; unfold resumed; by rewrite Hd.
Qed.
Lemma resumed_mem s c r : mem (resumed s c r) = mem s /\ pages (resumed s c r) = pages s /\
  page_free_list (resumed s c r) = page_free_list s.
Proof.
  assert (Hd : exists es, demote (with_eax s c r) = s <| envs := es |>).
  { unfold demote. destruct (curenv (with_eax s c r)); [case_bool|]; by eexists. }
  destruct Hd as [es Hd]. unfold resumed. by rewrite Hd.
Qed.

(** ** The stubs *)

Section stubs.
Context `{Devices} `{TrapDevices} `{Program} (Hcs : Z.land (tf_cs saved_regs) 3 = 3).

Definition word32 (a : Z) : Prop := 0 <= a < 2 ^ 32.

Lemma usyscall_run s c dirs rl no a1 a2 a3 a4 a5 s1 r dirs' rl' :
  in_user s c dirs rl -> word32 no -> word32 a1 -> word32 a2 -> word32 a3 -> word32 a4 -> word32 a5 ->
  syscall no a1 a2 a3 a4 a5 (entered s c (call_frame no a1 a2 a3 a4 a5)) = Ret r s1 ->
  in_kernel s1 c dirs' rl' -> uframe (entered s c (call_frame no a1 a2 a3 a4 a5)) s1 c \/
    env_status (envs s1 !!! c) = ENV_RUNNING ->
  cpu_status (thiscpu s1) = CPU_STARTED -> - 2 ^ 31 <= r <= 0 ->
  usyscall no true a1 a2 a3 a4 a5 s = Ret (inl r) (resumed s1 c r) /\
  in_user (resumed s1 c r) c dirs' rl' /\ env_status (envs s1 !!! c) = ENV_RUNNING.
Proof.
  intros Hu W0 W1 W2 W3 W4 W5 Hrun Hk1 Hfr Hcpu Hr. set (tf := call_frame no a1 a2 a3 a4 a5) in *.
  assert (Hst : env_status (envs s1 !!! c) = ENV_RUNNING).
  { destruct Hfr as [Hf | ?]; [|done]. destruct (uframe_env _ _ _ c Hf) as (_ & _ & -> & _).
    destruct (uframe_env _ _ _ c (entered_frame s c tf)) as (_ & _ & -> & _). exact (iu_run _ _ _ _ Hu). }
  destruct (int_syscall_run s c dirs rl tf s1 r dirs' rl' Hu Hcs eq_refl) as [Hi Hu']; try done.
  { cbv zeta. rewrite <- Hrun. unfold word32 in *.
    change (syscall (w32 no) (w32 a1) (w32 a2) (w32 a3) (w32 a4) (w32 a5) (entered s c tf) = syscall no a1 a2 a3 a4 a5 (entered s c tf)).
    by rewrite !w32_small by done. }
  { by rewrite Hcpu. }
  split; [|by split]. unfold usyscall. fold tf. unfold mbind, L_bind. rewrite Hi, s32_small by lia.
  rewrite Z.gtb_ltb, (proj2 (Z.ltb_ge _ _)) by lia. done.
Qed.

(** A call that the kernel carries out on pages only. *)
Lemma page_call s c dirs rl no a1 a2 a3 a4 a5 s1 r rl' :
  in_user s c dirs rl -> word32 no -> word32 a1 -> word32 a2 -> word32 a3 -> word32 a4 -> word32 a5 ->
  syscall no a1 a2 a3 a4 a5 (entered s c (call_frame no a1 a2 a3 a4 a5)) = Ret r s1 ->
  in_kernel s1 c dirs rl' -> page_step dirs rl (entered s c (call_frame no a1 a2 a3 a4 a5)) s1 ->
  - 2 ^ 31 <= r <= 0 ->
  exists s', usyscall no true a1 a2 a3 a4 a5 s = Ret (inl r) s' /\ in_user s' c dirs rl' /\
    ustep dirs rl c s s' /\ mem s' = mem s1 /\ (nearly_full s1 -> nearly_full s').
Proof.
  intros Hu W0 W1 W2 W3 W4 W5 Hrun Hk1 [P1 P2 P3 P4] Hr. set (tf := call_frame no a1 a2 a3 a4 a5) in *.
  pose proof (frame_uframe _ _ c P3) as Hf.
  assert (Hcpu : cpu_status (thiscpu s1) = CPU_STARTED).
  { rewrite (frame_cpu_status _ _ P3). unfold entered. cbv zeta.
    change (thiscpu (set_thiscpu _ s <| kernel_lock := _ |> <| envs := _ |>))
      with (thiscpu (set_thiscpu (fun u => u <| cpu_status := CPU_STARTED |>) s)). by rewrite thiscpu_set. }
  destruct (usyscall_run s c dirs rl no a1 a2 a3 a4 a5 s1 r dirs rl') as (Hi & Hu' & Hst); try done; [by left|].
  exists (resumed s1 c r). split; [done|]. split; [done|].
  destruct (resumed_mem s1 c r) as (Hm & Hp & Hfl). split; [|split; [done | unfold nearly_full; by rewrite Hp, Hfl]].
  assert (Hw : forall p k, word (mem (resumed s1 c r)) p k = word (mem s1) p k) by (intros; by rewrite Hm).
  constructor.
  - eapply uframe_trans; [apply entered_frame|]. eapply uframe_trans; [exact Hf|].
    apply resumed_frame; [apply Hk1 | done].
  - intros p k Hp' Hk. rewrite Hw. by apply P1.
  - intros p k Hp' Hk. rewrite Hw. by apply P2.
  - intros Hpd p k Hp' Hk. rewrite Hw. by apply P4.
Qed.

Lemma bad_perm_word perm : 0 <= perm -> bad_perm perm = false -> word32 perm.
Proof.
  intros Hp0 Hb. destruct (bad_perm_range perm Hp0 Hb) as [Hr _]. unfold PGSIZE in Hr. unfold word32. lia.
Qed.
Lemma bad_va_word va : 0 <= va -> bad_va va = false -> word32 va.
Proof.
  intros Hv0 Hb. destruct (bad_va_range va Hv0 Hb) as [Hr _].
  change UTOP with 4005560320 in Hr. unfold word32. lia.
Qed.

Lemma syscall_page_map a1 a2 a3 a4 a5 s : 0 <= a1 < 2 ^ 31 -> 0 <= a3 < 2 ^ 31 ->
  syscall SYS_page_map a1 a2 a3 a4 a5 s = Syscall.sys_page_map a1 a2 a3 a4 a5 s.
Proof. intros. rewrite <- (s32_small a1), <- (s32_small a3) at 2 by lia. reflexivity. Qed.
Lemma syscall_page_alloc a1 a2 a3 a4 a5 s : 0 <= a1 < 2 ^ 31 ->
  syscall SYS_page_alloc a1 a2 a3 a4 a5 s = Syscall.sys_page_alloc a1 a2 a3 s.
Proof. intros. rewrite <- (s32_small a1) at 2 by lia. reflexivity. Qed.
Lemma syscall_page_unmap a1 a2 a3 a4 a5 s : 0 <= a1 < 2 ^ 31 ->
  syscall SYS_page_unmap a1 a2 a3 a4 a5 s = Syscall.sys_page_unmap a1 a2 s.
Proof. intros. rewrite <- (s32_small a1) at 2 by lia. reflexivity. Qed.
Ltac w32 := unfold word32 in *; lia.

Lemma names_unique s c dirs rl envid chk e e' :
  sys_inv s dirs rl -> names s c envid chk e -> names s c envid chk e' -> e' = e.
Proof.
  intros Hs [Hl Hn] [Hl' Hn']. destruct (envid =? 0); [congruence|].
  destruct Hn as [Hi _], Hn' as [Hi' _].
  destruct (si_idx _ _ _ Hs e Hl) as [_ <-]. destruct (si_idx _ _ _ Hs e' Hl') as [_ <-]. congruence.
Qed.

Lemma envid2env_run s c dirs rl envid chk e :
  in_kernel s c dirs rl -> names s c envid chk e -> envid2env envid chk s = Ret (0, Some e) s.
Proof.
  intros Hk Hn. destruct (envid2env_spec s c dirs rl envid chk Hk) as [(e' & Hrun & Hn') | [_ Hno]].
  - by rewrite <- (names_unique _ _ _ _ _ _ _ _ (ik_sys _ _ _ _ Hk) Hn Hn').
  - by destruct (Hno e).
Qed.

(** Mapping a page the caller has: only memory for a page table can be missing. *)
Lemma u_page_map s c dirs rl senv se sd srcva v denv de dd dstva perm :
  in_user s c dirs rl -> names s c senv true se -> names s c denv true de -> sd ∈ dirs -> dd ∈ dirs ->
  env_pgdir (envs s !!! se) = kva sd -> env_pgdir (envs s !!! de) = kva dd ->
  0 <= senv < 2 ^ 31 -> 0 <= denv < 2 ^ 31 -> 0 <= srcva -> 0 <= dstva -> 0 <= perm ->
  bad_va srcva = false -> bad_va dstva = false -> bad_perm perm = false ->
  umap (mem s) sd (PDX srcva) (PTX srcva) = Some v -> (has perm PTE_W = true -> has v PTE_W = true) ->
  pp_ref (pages s !!! (v / PGSIZE)) + 1 < 2 ^ 16 ->
  (exists s', sys_page_map senv srcva denv dstva perm s = Ret (inl (- E_NO_MEM)) s' /\
     in_user s' c dirs rl /\ nearly_full s' /\ ustep dirs rl c s s' /\ mem s' = mem s) \/
  (exists s' rl', sys_page_map senv srcva denv dstva perm s = Ret (inl 0) s' /\
     in_user s' c dirs rl' /\ ustep dirs rl c s s' /\ role_step rl rl' /\
     umap (mem s') dd (PDX dstva) (PTX dstva) = Some (mkpte (v / PGSIZE * PGSIZE) perm) /\
     same_umap_but dirs s s' (dd, PDX dstva, PTX dstva)).
Proof.
  intros Hu Hns Hnd Hsd Hdd Hse Hde Wse Wde Hs0 Hd0 Hp0 Hbs Hbd Hbp Hum HW Href. unfold sys_page_map.
  set (tf := call_frame SYS_page_map senv srcva denv dstva perm).
  pose proof (entered_in_kernel s c dirs rl tf Hu) as Hk. pose proof (entered_frame s c tf) as Hf.
  destruct (bad_va_range srcva Hs0 Hbs) as [Hsr _]. destruct (bad_va_range dstva Hd0 Hbd) as [Hdr _].
  destruct (bad_perm_range perm Hp0 Hbp) as [Hpr _].
  assert (Hopen : forall r s1, (r ← page_insert (kva dd) (v / PGSIZE) dstva perm; if r <? 0 then mret r else mret 0)
      (entered s c tf) = Ret r s1 ->
    syscall SYS_page_map senv srcva denv dstva perm (entered s c tf) = Ret r s1).
  { intros r s1 Hr. rewrite syscall_page_map by lia. unfold Syscall.sys_page_map. rewrite Hbs, Hbd, Hbp.
    apply (uframe_names _ _ _ _ _ _ Hf) in Hns. apply (uframe_names _ _ _ _ _ _ Hf) in Hnd.
    krw (envid2env_run _ _ _ _ _ _ _ Hk Hns). change (0 <? 0) with false. cbv iota.
    krw (envid2env_run _ _ _ _ _ _ _ Hk Hnd). change (0 <? 0) with false. cbv iota. unfold deref. do 3 kb.
    destruct (uframe_env _ _ _ se Hf) as (Hse' & _). destruct (uframe_env _ _ _ de Hf) as (Hde' & _).
    rewrite Hse', Hse.
    destruct (source_pte_spec (entered s c tf) dirs rl sd srcva perm (ik_sys _ _ _ _ Hk) Hsd Hsr)
      as [(t & v' & Hrun & Hw & Hu' & _) | [_ Hno]].
    - krw Hrun. assert (v' = v) as -> by (change (mem (entered s c tf)) with (mem s) in Hu'; congruence).
      destruct (map_page_at (entered s c tf) c dirs rl sd dd t v srcva dstva perm (fun pp =>
        dv ← env de; r ← page_insert (env_pgdir dv) pp dstva perm; if r <? 0 then mret r else mret 0)
        Hk Hsd Hdd Hsr Hdr Hpr Hw Hu' Href) as [-> _]. kb. rewrite Hde', Hde. exact Hr.
    - destruct (Hno v Hum) as [Hp Hn]. rewrite HW in Hn by done. done. }
  pose proof (si_vm _ _ _ (ik_sys _ _ _ _ Hk)) as Hvm.
  assert (Hrp : rl (v / PGSIZE) = RUser).
  { apply (vi_user _ _ _ _ Hvm sd (PDX srcva) (PTX srcva)); try done; [by apply PDX_user | apply PTX_range |].
    change (mem (entered s c tf)) with (mem s). by rewrite upage_umap, Hum. }
  pose proof (page_call s c dirs rl SYS_page_map senv srcva denv dstva perm) as Hcall.
  specialize (fun s1 r rl' => Hcall s1 r rl' Hu ltac:(done) ltac:(w32) (bad_va_word _ Hs0 Hbs) ltac:(w32)
    (bad_va_word _ Hd0 Hbd) (bad_perm_word _ Hp0 Hbp)).
  destruct (page_insert_spec dirs dd dstva (v / PGSIZE) perm Hdd Hdr Hpr (entered s c tf) rl None Hvm Hrp Href)
    as [(Hrun & _ & Hfull) | (s1 & rl' & Hrun & Hvm' & Hss)].
  - left. destruct (Hcall (entered s c tf) (- E_NO_MEM) rl) as (s' & H1' & H2' & H3' & H4' & Hnf);
      [| exact Hk | reflexivity | unfold E_NO_MEM; lia |].
    2:{ exists s'. split_and!; [done | done | | done | exact H4']. apply Hnf. unfold nearly_full. by rewrite Hfull. }
    apply Hopen. by krw Hrun.
  - right. rewrite decide_False in Hvm' by done. pose proof (in_kernel_slot _ _ _ _ _ _ _ _ Hk Hvm' Hss) as Hk1.
    destruct (Hcall s1 0 rl') as (s' & H1' & H2' & H3' & H4' & _);
      [| exact Hk1 | by eapply slot_page_step | lia |].
    + apply Hopen. by krw Hrun.
    + exists s', rl'. unfold same_umap_but. rewrite H4'. by destruct Hss.
Qed.

Lemma u_page_alloc s c dirs rl envid e d va perm :
  in_user s c dirs rl -> names s c envid true e -> d ∈ dirs -> env_pgdir (envs s !!! e) = kva d ->
  0 <= envid < 2 ^ 31 -> 0 <= va -> 0 <= perm -> bad_va va = false -> bad_perm perm = false ->
  exists r s' rl', sys_page_alloc envid va perm s = Ret (inl r) s' /\ in_user s' c dirs rl' /\
    ustep dirs rl c s s' /\
    (r = - E_NO_MEM /\ nearly_full s' /\ (forall d' i j, d' ∈ dirs -> 0 <= i < NUPDE -> 0 <= j < NPTENTRIES ->
        umap (mem s') d' i j = umap (mem s) d' i j) \/
     r = 0 /\ exists pp, rl pp = RFree /\
       umap (mem s') d (PDX va) (PTX va) = Some (mkpte (pp * PGSIZE) perm) /\
       (forall k, 0 <= k < 1024 -> word (mem s') pp k = 0) /\
       same_umap_but dirs s s' (d, PDX va, PTX va)).
Proof.
  intros Hu Hn Hd Hed Hid Hv0 Hp0 Hbv Hbp. unfold sys_page_alloc.
  set (tf := call_frame SYS_page_alloc envid va perm 0 0).
  pose proof (entered_in_kernel s c dirs rl tf Hu) as Hk. pose proof (entered_frame s c tf) as Hf.
  pose proof (bad_va_word va Hv0 Hbv) as Wv. pose proof (bad_perm_word perm Hp0 Hbp) as Wp.
  destruct (bad_va_range va Hv0 Hbv) as [Hvr _]. destruct (bad_perm_range perm Hp0 Hbp) as [Hpr _].
  destruct (uframe_env _ _ _ e Hf) as (He & _). rewrite Hed in He.
  destruct (page_alloc_at (entered s c tf) c dirs rl e d va perm Hk Hd He Hvr Hpr)
    as (r & s1 & rl' & Hrun & Hk1 & Hps & Hpost).
  assert (Hr : - 2 ^ 31 <= r <= 0).
  { destruct Hpost as [[-> _] | [-> _]]; unfold E_NO_MEM; lia. }
  destruct (page_call s c dirs rl SYS_page_alloc envid va perm 0 0 s1 r rl' Hu
    ltac:(done) ltac:(w32) Wv Wp ltac:(done) ltac:(done)) as (s' & Hrun' & Hu' & Hst & Hm & Hnf);
    [| exact Hk1 | exact Hps | exact Hr |].
  - rewrite syscall_page_alloc by lia. fold tf. unfold Syscall.sys_page_alloc. rewrite Hbv, Hbp.
    apply (uframe_names _ _ _ _ _ _ Hf) in Hn.
    krw (envid2env_run _ _ _ _ _ _ _ Hk Hn). change (0 <? 0) with false. cbv iota. unfold deref. kb. exact Hrun.
  - exists r, s', rl'. unfold same_umap_but in *. rewrite Hm. naive_solver.
Qed.

Lemma u_page_unmap s c dirs rl envid e d va :
  in_user s c dirs rl -> names s c envid true e -> d ∈ dirs -> env_pgdir (envs s !!! e) = kva d ->
  0 <= envid < 2 ^ 31 -> 0 <= va -> bad_va va = false ->
  exists s' rl', sys_page_unmap envid va s = Ret (inl 0) s' /\ in_user s' c dirs rl' /\
    ustep dirs rl c s s' /\ role_step rl rl' /\
    umap (mem s') d (PDX va) (PTX va) = None /\ same_umap_but dirs s s' (d, PDX va, PTX va).
Proof.
  intros Hu Hn Hd Hed Hid Hv0 Hbv. unfold sys_page_unmap.
  set (tf := call_frame SYS_page_unmap envid va 0 0 0).
  pose proof (entered_in_kernel s c dirs rl tf Hu) as Hk. pose proof (entered_frame s c tf) as Hf.
  pose proof (bad_va_word va Hv0 Hbv) as Wv. destruct (bad_va_range va Hv0 Hbv) as [Hvr _].
  destruct (uframe_env _ _ _ e Hf) as (He & _). rewrite Hed in He.
  destruct (page_unmap_at (entered s c tf) c dirs rl e d va Hk Hd He Hvr) as (s1 & rl' & Hrun & Hk1 & Hss).
  destruct (page_call s c dirs rl SYS_page_unmap envid va 0 0 0 s1 0 rl' Hu
    ltac:(done) ltac:(w32) Wv ltac:(done) ltac:(done) ltac:(done)) as (s' & Hrun' & Hu' & Hst & Hm & _);
    [| exact Hk1 | by eapply slot_page_step | lia |].
  - rewrite syscall_page_unmap by lia. fold tf. unfold Syscall.sys_page_unmap. rewrite Hbv.
    apply (uframe_names _ _ _ _ _ _ Hf) in Hn.
    krw (envid2env_run _ _ _ _ _ _ _ Hk Hn). change (0 <? 0) with false. cbv iota. unfold deref. kb. exact Hrun.
  - exists s', rl'. unfold same_umap_but. rewrite Hm. destruct Hss. done.
Qed.
End stubs.
