(* ===== verification/UserVm.v ===== *)
(** * A program's view of its own memory

    Loads, stores and the page-table arrays [uvpt] and [uvpd], in terms of the address
    space the kernel keeps for the program. *)

From S2P Require Import Prelude Mem CString Mmu KState Printf Pmap VmInv VmSpec VmLife Environ Sched Syscall Trap EnvInv EnvFree SchedSpec UserMem SysSpec User UserSpec.

(** ** Running user code *)

Lemma lbind_run {A B} (m : L A) (f : A -> L B) s a s' : m s = Ret (inl a) s' -> (m ≫= f) s = f a s'.
Proof. unfold mbind, L_bind. intros ->. done. Qed.
Lemma lbind_ret {A B} (a : A) (f : A -> L B) s : ((mret a : L A) ≫= f) s = f a s.
Proof. done. Qed.
Lemma lbind_assoc {A B C} (m : L A) (f : A -> L B) (g : B -> L C) s :
  ((m ≫= f) ≫= g) s = (m ≫= (fun a => f a ≫= g)) s.
Proof. unfold mbind, L_bind. destruct (m s) as [[a|e] s'| |]; done. Qed.
Lemma lbind_umem {A B} (g : memory -> A) (f : A -> L B) s : (umem g ≫= f) s = f (g (mem s)) s.
Proof. done. Qed.
Lemma lbind_uphys {B} g (f : unit -> L B) s : (uphys g ≫= f) s = f tt (s <| mem := g (mem s) |>).
Proof. done. Qed.

Ltac lb := first [ rewrite lbind_ret | rewrite lbind_umem | rewrite lbind_uphys | rewrite lbind_assoc ]; cbv beta iota.
Ltac lrw H := erewrite lbind_run by (exact H); cbv beta iota.

Lemma lloop_next {St R} (body : St -> L (St + R)) n st st' s s' :
  body st s = Ret (inl (inl st')) s' -> lloop (S n) body st s = lloop n body st' s'.
Proof. unfold lloop. cbn [kloop]. unfold mbind, K_bind. intros ->. done. Qed.
Lemma lloop_done {St R} (body : St -> L (St + R)) n st r s s' :
  body st s = Ret (inl (inr r)) s' -> lloop (S n) body st s = Ret (inl r) s'.
Proof. unfold lloop. cbn [kloop]. unfold mbind, K_bind. intros ->. done. Qed.
Lemma lloop_stop {St R} (body : St -> L (St + R)) n st e s s' :
  body st s = Ret (inr e) s' -> lloop (S n) body st s = Ret (inr e) s'.
Proof. unfold lloop. cbn [kloop]. unfold mbind, K_bind. intros ->. done. Qed.

(** ** Translation *)

Lemma PGOFF_mod a : 0 <= a < 2 ^ 32 -> PGOFF a = a mod PGSIZE.
Proof. intros. unfold PGOFF. rewrite w32_small by lia. change 0xFFF with (2 ^ 12 - 1). by rewrite land_ones_mod by lia. Qed.

(** The directory of [c] maps itself at [UVPT], for its own use. *)
Definition selfmap (s : kst) (d : Z) : Prop :=
  word (mem s) d (PDX UVPT) = Z.lor (Z.lor (d * PGSIZE) PTE_P) PTE_U.

Section view.
Context (s : kst) (c : Z) (dirs : list Z) (rl : Z -> role) (Hu : in_user s c dirs rl).
Context (d : Z) (Hd : d ∈ dirs) (Hed : env_pgdir (envs s !!! c) = kva d) (Hpde : pde_user dirs s).

Local Lemma dir_range : 0 <= d < npages s /\ npages s <= 2 ^ 16.
Proof.
  pose proof (si_vm _ _ _ (iu_sys _ _ _ _ Hu)) as Hvm. split; [|apply Hvm].
  apply (vi_range _ _ _ _ Hvm). apply (vi_dirs _ _ _ _ Hvm) in Hd. congruence.
Qed.
Local Lemma cr3_kva : w32 (cpu_cr3 (thiscpu s) + KERNBASE) = kva d.
Proof.
  destruct dir_range. rewrite (iu_cr3 _ _ _ _ Hu), Hed. rewrite Z.sub_add. apply w32_small.
  unfold kva, KERNBASE, PGSIZE. lia.
Qed.
Lemma pte_kva v p : v / PGSIZE = p -> 0 <= p < npages s -> w32 (PTE_ADDR v + KERNBASE) = kva p.
Proof.
  intros <- Hp. destruct dir_range. rewrite PTE_ADDR_div, w32_small by (unfold KERNBASE, PGSIZE in *; lia).
  unfold kva. lia.
Qed.

(** An access to a mapped user page. *)
Lemma utrans_run va v write :
  0 <= va < UTOP -> umap (mem s) d (PDX va) (PTX va) = Some v -> has v PTE_U = true ->
  (write = true -> has v PTE_W = true) ->
  utrans va write s = Ret (inl (kva (v / PGSIZE) + PGOFF va)) s.
Proof.
  intros Hva Hum HU HW. pose proof (si_vm _ _ _ (iu_sys _ _ _ _ Hu)) as Hvm.
  destruct dir_range as [_ Hnp]. pose proof (PDX_user va Hva) as Hi.
  destruct (umap_pt s d va v Hum) as (t & Ht & Hw & HP).
  pose proof (vi_pt _ _ _ _ Hvm _ _ _ Hd Hi Ht) as Hrt.
  pose proof (vi_range _ _ _ _ Hvm t ltac:(congruence)) as Htr.
  assert (Hup : upage (mem s) d (PDX va) (PTX va) = Some (v / PGSIZE)) by (by rewrite upage_umap, Hum).
  pose proof (vi_user _ _ _ _ Hvm _ _ _ _ Hd Hi (PTX_range va) Hup) as Hrp.
  pose proof (vi_range _ _ _ _ Hvm _ ltac:(rewrite Hrp; done)) as Hpr.
  apply ent_Some in Ht as [HPd Ht]. destruct (Hpde d (PDX va) Hd Hi HPd) as [HUd HWd].
  unfold utrans, mmu_user. rewrite cr3_kva. fold (word (mem s) d (PDX va)).
  rewrite HPd, (pte_kva _ t) by done. fold (word (mem s) t (PTX va)). rewrite Hw, HP. cbn [negb].
  rewrite HUd, HU, HWd. cbn [andb negb orb].
  rewrite (pte_kva v _ eq_refl) by done. destruct write; cbn [andb]; [|done]. by rewrite HW.
Qed.

(** ** The page tables as arrays *)

Context (Hself : selfmap s d).

Local Lemma self_pte : has (word (mem s) d 957) PTE_P = true /\ has (word (mem s) d 957) PTE_U = true /\
  word (mem s) d 957 / PGSIZE = d.
Proof.
  destruct dir_range as [Hdr Hnp]. change 957 with (PDX UVPT). rewrite Hself.
  assert (Hm : d * PGSIZE mod PGSIZE = 0) by (by apply Z.mod_mul).
  replace (Z.lor (Z.lor (d * PGSIZE) PTE_P) PTE_U) with (mkpte (d * PGSIZE) PTE_U).
  - split; [apply has_P_mkpte|]. split.
    + change PTE_U with (2 ^ 2). by rewrite has_mkpte by (lia || done).
    + rewrite mkpte_add by (unfold PGSIZE, PTE_U; done || lia). change (Z.lor PTE_U PTE_P) with 5.
      unfold PGSIZE. zlia.
  - unfold mkpte. rewrite <- !Z.lor_assoc. f_equal.
Qed.

Lemma table_load i va :
  PDX va = 957 -> PTX va = i -> PGOFF va <=? PGSIZE - 4 = true ->
  forall t, ent (word (mem s) d i) = Some t -> 0 <= t < npages s ->
  has (word (mem s) d i) PTE_U = true -> uload32 va s = Ret (inl (ld32 (mem s) (kva t + PGOFF va))) s.
Proof.
  intros Hx Hi Ho t Ht Htr HU. destruct self_pte as (SP & SU & Sd). destruct dir_range as [Hdr _].
  apply ent_Some in Ht as [HP Ht]. unfold uload32. rewrite Ho.
  erewrite lbind_run; [by rewrite <- (pte_kva _ t (eq_sym Ht) Htr)|].
  unfold utrans, mmu_user. rewrite cr3_kva, Hx. fold (word (mem s) d 957). rewrite SP. cbn [negb].
  rewrite (pte_kva _ d Sd Hdr), Hi. fold (word (mem s) d i). rewrite HP, SU, HU. done.
Qed.

Lemma uvpd_run va : 0 <= va < UTOP -> uvpd (PDX va) s = Ret (inl (word (mem s) d (PDX va))) s.
Proof.
  intros Hva. pose proof (PDX_user va Hva) as Hi. rewrite NUPDE_val in Hi. destruct self_pte as (SP & SU & Sd).
  destruct dir_range as [Hdr _]. set (i := PDX va) in *. clearbody i.
  unfold uvpd. change UVPD with 4017868800. rewrite w32_small by lia.
  assert (Ho : PGOFF (4017868800 + 4 * i) = 4 * i) by (rewrite PGOFF_mod by lia; unfold PGSIZE; zlia).
  rewrite (table_load 957 (4017868800 + 4 * i)) with (t := d); try done.
  - by rewrite Ho.
  - rewrite PDX_div by lia. change PTSIZE with 4194304. zlia.
  - rewrite PTX_div by lia. unfold PGSIZE, NPTENTRIES. zlia.
  - rewrite Ho. unfold PGSIZE. apply Z.leb_le. lia.
  - by apply ent_Some.
Qed.

Lemma uvpt_run va t : 0 <= va < UTOP -> pt_of (mem s) d (PDX va) = Some t ->
  uvpt (PGNUM va) s = Ret (inl (word (mem s) t (PTX va))) s.
Proof.
  intros Hva Ht. pose proof (si_vm _ _ _ (iu_sys _ _ _ _ Hu)) as Hvm. pose proof (PDX_user va Hva) as Hi.
  pose proof (vi_pt _ _ _ _ Hvm _ _ _ Hd Hi Ht) as Hrt.
  pose proof (vi_range _ _ _ _ Hvm t ltac:(congruence)) as Htr.
  pose proof Ht as [HP _]%ent_Some. destruct (Hpde d (PDX va) Hd Hi HP) as [HU _].
  change UTOP with 4005560320 in Hva. rewrite PGNUM_div by lia.
  unfold uvpt. change UVPT with 4013948928. rewrite w32_small by (unfold PGSIZE; zlia).
  set (a := 4013948928 + 4 * (va / PGSIZE)).
  assert (Ho : PGOFF a = 4 * PTX va).
  { unfold a. rewrite PGOFF_mod, PTX_div by (unfold PGSIZE; zlia). unfold PGSIZE, NPTENTRIES. zlia. }
  rewrite (table_load (PDX va) a) with (t := t); try done.
  - by rewrite Ho.
  - unfold a. rewrite PDX_div by (unfold PGSIZE; zlia). change PTSIZE with 4194304. unfold PGSIZE. zlia.
  - unfold a. rewrite PTX_div, PDX_div by (unfold PGSIZE; zlia). change PTSIZE with 4194304. unfold PGSIZE, NPTENTRIES. zlia.
  - rewrite Ho. pose proof (PTX_range va). unfold NPTENTRIES, PGSIZE in *. apply Z.leb_le. lia.
Qed.
End view.
