(* ===== verification/UserEnv.v ===== *)
(** * A program, its children and its stores

    The calls on environments as the program that makes them sees them, its stores, and
    [memmove] of a page. *)

From S2P Require Import Prelude Mem CString Mmu KState Printf Pmap VmInv VmSpec VmLife Environ Sched Syscall Trap EnvInv EnvFree SchedSpec UserMem SysSpec User UserSpec UserVm.

(** ** A program and its children: the calls on environments, and stores

    [sys_exofork], [sys_env_set_pgfault_upcall] and [sys_env_set_status] as the program
    that makes them sees them, and its own stores. *)

(** One environment's entry changed. *)
Definition with_env (s : kst) (e : Z) (f : Env -> Env) : kst :=
  s <| envs := <[e := f (envs s !!! e)]> (envs s) |>.

Lemma names_with_env s c envid e f :
  names s c envid true e -> 0 < envid -> e <> c ->
  (forall v, env_id (f v) = env_id v /\ env_parent_id (f v) = env_parent_id v /\
     (env_status v <> ENV_FREE -> env_status (f v) <> ENV_FREE)) ->
  names (with_env s e f) c envid true e.
Proof.
  intros [[Hr Hst] Hn] Hid Hec Hf. destruct (Hf (envs s !!! e)) as (Hi & Hp & Hs).
  rewrite (proj2 (Z.eqb_neq envid 0)) in Hn by lia. destruct Hn as [Hid' Hpar].
  split; [split; [done|]; simpl; rewrite lookup_total_insert_eq; by apply Hs|].
  rewrite (proj2 (Z.eqb_neq envid 0)) by lia. simpl.
  rewrite lookup_total_insert_eq, lookup_total_insert_ne by done. rewrite Hi, Hp. split; [done|].
  intros _. right. by destruct (Hpar eq_refl).
Qed.

Lemma with_env_at s s' c e f : uframe (with_env s e f) s' c -> e <> c -> envs s' !!! e = f (envs s !!! e).
Proof. intros Hf He. rewrite (uf_other _ _ _ Hf) by done. simpl. by rewrite lookup_total_insert_eq. Qed.
Lemma with_env_off s s' c e f x : uframe (with_env s e f) s' c -> x <> c -> x <> e -> envs s' !!! x = envs s !!! x.
Proof. intros Hf Hx He. rewrite (uf_other _ _ _ Hf) by done. simpl. by rewrite lookup_total_insert_ne. Qed.
Lemma with_env_self s s' c e f : uframe (with_env s e f) s' c -> e <> c -> same_env (envs s !!! c) (envs s' !!! c).
Proof.
  intros Hf He. pose proof (uf_self _ _ _ Hf) as Hs. simpl in Hs. by rewrite lookup_total_insert_ne in Hs.
Qed.

(** The pages and the list of free ones as they were. *)
Definition same_pages (s s' : kst) : Prop :=
  mem s' = mem s /\ pages s' = pages s /\ page_free_list s' = page_free_list s.

Section stubs.
Context `{Program}.

(** A new child of [c]: slot [e] with the directory [d'], which maps nothing yet. *)
Record child_made (dirs : list Z) (rl : Z -> role) (c : Z) (s s' : kst) (e d' envid : Z) : Prop := {
  cm_user : in_user s' c (d' :: dirs) (set_role rl d' RDir);
  cm_names : names s' c envid true e;
  cm_id : 0 < envid < 2 ^ 31;
  cm_ne : e <> c;
  cm_new : ~ live s e;
  cm_dir : rl d' = RFree;
  cm_env : envs s' !!! e = forked (entered s c exofork_frame) c e d';
  cm_self : same_env (envs s !!! c) (envs s' !!! c);
  cm_other : forall x, x <> c -> x <> e -> envs s' !!! x = envs s !!! x;
  cm_words : forall q k, q <> d' -> 0 <= k < 1024 -> word (mem s') q k = word (mem s) q k;
  cm_empty : forall i, 0 <= i < NUPDE -> pt_of (mem s') d' i = None }.

Context `{Devices} `{TrapDevices} (Hcs : Z.land (tf_cs saved_regs) 3 = 3).

Lemma entered_cpu s c tf : cpu_status (thiscpu (entered s c tf)) = CPU_STARTED.
Proof.
  unfold entered. cbv zeta.
  change (thiscpu (set_thiscpu _ s <| kernel_lock := _ |> <| envs := _ |>))
    with (thiscpu (set_thiscpu (fun u => u <| cpu_status := CPU_STARTED |>) s)). by rewrite thiscpu_set.
Qed.

Lemma uframe_with_env s s' c e f : (forall v v', same_env v v' -> same_env (f v) (f v')) ->
  uframe s s' c -> uframe (with_env s e f) (with_env s' e f) c.
Proof.
  intros Hf [F1 F2 F3 F4 F5 F6]. constructor; try done; simpl.
  - intros x Hx. destruct (decide (x = e)) as [-> | Hxe].
    + rewrite !lookup_total_insert_eq. by rewrite F5.
    + rewrite !lookup_total_insert_ne by done. by apply F5.
  - destruct (decide (c = e)) as [-> | Hxe].
    + rewrite !lookup_total_insert_eq. by apply Hf.
    + rewrite !lookup_total_insert_ne by done. done.
Qed.

(** A call whose effect is on the entry of one environment. *)
Lemma env_call s c dirs rl no a1 a2 e f :
  in_user s c dirs rl -> word32 no -> word32 a1 -> word32 a2 -> live s e ->
  let s0 := entered s c (call_frame no a1 a2 0 0 0) in
  syscall no a1 a2 0 0 0 s0 = Ret 0 (with_env s0 e f) ->
  (forall v v', same_env v v' -> same_env (f v) (f v')) ->
  (forall v, env_pgdir (f v) = env_pgdir v /\ env_id (f v) = env_id v /\ (env_status v <> ENV_FREE -> env_status (f v) <> ENV_FREE)) ->
  (e = c -> forall v, env_status (f v) = env_status v) ->
  exists s', usyscall no true a1 a2 0 0 0 s = Ret (inl 0) s' /\ in_user s' c dirs rl /\
    uframe (with_env s e f) s' c /\ same_pages s s'.
Proof.
  intros Hu W0 W1 W2 Hl s0 Hrun Hf Hk Hst. pose proof (entered_in_kernel s c dirs rl (call_frame no a1 a2 0 0 0) Hu) as Hk0.
  fold s0 in Hk0. pose proof (entered_frame s c (call_frame no a1 a2 0 0 0)) as Hfr. fold s0 in Hfr.
  assert (Hl0 : live s0 e) by (unfold live; by rewrite (proj1 (proj2 (proj2 (uframe_env _ _ _ e Hfr))))).
  destruct (Hk (envs s0 !!! e)) as (Hp & Hi & Hs).
  pose proof (in_kernel_env s0 c dirs rl e (f (envs s0 !!! e)) Hk0 Hl0 Hp Hi (Hs (proj2 Hl0))) as Hk1.
  fold (with_env s0 e f) in Hk1.
  assert (Hr1 : env_status (envs (with_env s0 e f) !!! c) = ENV_RUNNING).
  { pose proof (iu_run _ _ _ _ Hu) as Hr. rewrite <- (proj1 (proj2 (proj2 (uframe_env _ _ _ c Hfr)))) in Hr.
    simpl. destruct (decide (c = e)) as [<- | Hne]; [|by rewrite lookup_total_insert_ne].
    rewrite lookup_total_insert_eq. by rewrite Hst. }
  destruct (usyscall_run Hcs s c dirs rl no a1 a2 0 0 0 (with_env s0 e f) 0 dirs rl Hu W0 W1 W2 ltac:(done) ltac:(done)
    ltac:(done) Hrun Hk1 (or_intror Hr1) (entered_cpu s c _) ltac:(lia)) as (Hi' & Hu' & _).
  eexists. split; [exact Hi'|]. split; [exact Hu'|]. split.
  - eapply uframe_trans; [by apply uframe_with_env|]. apply resumed_frame; [apply Hk1 | exact Hr1].
  - unfold same_pages. destruct (resumed_mem (with_env s0 e f) c 0) as (-> & -> & ->). done.
Qed.

Lemma u_set_upcall s c dirs rl envid e func :
  in_user s c dirs rl -> names s c envid true e -> 0 <= envid < 2 ^ 31 -> word32 func ->
  exists s', sys_env_set_pgfault_upcall envid func s = Ret (inl 0) s' /\ in_user s' c dirs rl /\
    uframe (with_env s e (fun v => v <| env_pgfault_upcall := func |>)) s' c /\ same_pages s s'.
Proof.
  intros Hu Hn Wid Wf. set (fr := call_frame SYS_env_set_pgfault_upcall envid func 0 0 0).
  pose proof (entered_frame s c fr) as Hf. pose proof (entered_in_kernel s c dirs rl fr Hu) as Hk.
  apply (env_call s c dirs rl _ _ _ e); try done; try (unfold word32; lia); [by destruct Hn | |].
  - fold fr. apply (uframe_names _ _ _ _ _ _ Hf) in Hn. set (s0 := entered s c fr) in *.
    assert (Hsys : syscall SYS_env_set_pgfault_upcall envid func 0 0 0 s0 = Syscall.sys_env_set_pgfault_upcall envid func s0).
    { rewrite <- (s32_small envid) at 2 by lia. reflexivity. }
    rewrite Hsys. unfold Syscall.sys_env_set_pgfault_upcall.
    krw (envid2env_run _ _ _ _ _ _ _ Hk Hn). change (0 <? 0) with false. cbv iota. unfold deref. kb.
    erewrite bind_run by apply upd_env_run. reflexivity.
  - intros v v' (tf & r & n & ->). by exists tf, r, n.
Qed.

Lemma u_set_status s c dirs rl envid e status :
  in_user s c dirs rl -> names s c envid true e -> 0 <= envid < 2 ^ 31 -> e <> c ->
  status = ENV_RUNNABLE \/ status = ENV_NOT_RUNNABLE ->
  exists s', sys_env_set_status envid status s = Ret (inl 0) s' /\ in_user s' c dirs rl /\
    uframe (with_env s e (fun v => v <| env_status := status |>)) s' c /\ same_pages s s'.
Proof.
  intros Hu Hn Wid Hec Hst. set (fr := call_frame SYS_env_set_status envid status 0 0 0).
  pose proof (entered_frame s c fr) as Hf. pose proof (entered_in_kernel s c dirs rl fr Hu) as Hk.
  assert (Wst : 0 <= status < 2 ^ 31 /\ negb (status =? ENV_RUNNABLE) && negb (status =? ENV_NOT_RUNNABLE) = false /\
    status <> ENV_FREE) by (by destruct Hst as [-> | ->]).
  destruct Wst as (Wst & Hok & Hnf).
  apply (env_call s c dirs rl _ _ _ e); try done; try (unfold word32; lia); [by destruct Hn | |].
  - fold fr. apply (uframe_names _ _ _ _ _ _ Hf) in Hn. set (s0 := entered s c fr) in *.
    assert (Hsys : syscall SYS_env_set_status envid status 0 0 0 s0 = Syscall.sys_env_set_status envid status s0).
    { rewrite <- (s32_small envid), <- (s32_small status) at 2 by lia. reflexivity. }
    rewrite Hsys. unfold Syscall.sys_env_set_status. rewrite Hok.
    krw (envid2env_run _ _ _ _ _ _ _ Hk Hn). change (0 <? 0) with false. cbv iota. unfold deref. kb.
    erewrite bind_run by apply upd_env_run. reflexivity.
  - intros v v' (tf & r & n & ->). by exists tf, r, n.
Qed.

(** The call returns to the program when the kernel's part of it does. *)
Lemma exofork_returns s c dirs rl r s1 dirs' rl' :
  in_user s c dirs rl -> Syscall.sys_exofork (entered s c exofork_frame) = Ret r s1 -> in_kernel s1 c dirs' rl' ->
  env_status (envs s1 !!! c) = ENV_RUNNING -> cpu_status (thiscpu s1) = CPU_STARTED ->
  sys_exofork s = Ret (inl (s32 r)) (resumed s1 c r) /\ in_user (resumed s1 c r) c dirs' rl'.
Proof.
  intros Hu Hrun Hk1 Hr1 Hcpu. unfold sys_exofork.
  apply (int_syscall_run s c dirs rl exofork_frame s1 r dirs' rl' Hu Hcs eq_refl Hrun Hk1 Hr1). by rewrite Hcpu.
Qed.

Lemma exofork_fails s c dirs rl r :
  let s0 := entered s c exofork_frame in
  in_user s c dirs rl -> - 2 ^ 31 <= r < 0 -> Syscall.sys_exofork s0 = Ret r s0 ->
  sys_exofork s = Ret (inl r) (resumed s0 c r) /\ in_user (resumed s0 c r) c dirs rl /\
  uframe s (resumed s0 c r) c /\ same_pages s (resumed s0 c r).
Proof.
  intros s0 Hu Hr Hrun. pose proof (entered_in_kernel s c dirs rl exofork_frame Hu) as Hk.
  pose proof (entered_frame s c exofork_frame) as Hf.
  assert (Hr0 : env_status (envs s0 !!! c) = ENV_RUNNING).
  { unfold s0. destruct (uframe_env _ _ _ c Hf) as (_ & _ & -> & _). exact (iu_run _ _ _ _ Hu). }
  destruct (exofork_returns s c dirs rl r s0 dirs rl Hu Hrun Hk Hr0 (entered_cpu s c _)) as [Hi Hu'].
  rewrite s32_small in Hi by lia. split; [exact Hi|]. split; [exact Hu'|]. split.
  - eapply uframe_trans; [exact Hf|]. apply resumed_frame; [apply Hk | exact Hr0].
  - destruct (resumed_mem s0 c r) as (Hm & Hp & Hl). unfold same_pages. by rewrite Hm, Hp, Hl.
Qed.

(** [sys_exofork]: no slot or no page, or a child. *)
Lemma u_exofork s c dirs rl :
  in_user s c dirs rl ->
  (exists r s', sys_exofork s = Ret (inl r) s' /\ r < 0 /\ in_user s' c dirs rl /\ uframe s s' c /\
     same_pages s s' /\ (env_free_list s = None \/ page_free_list s = None)) \/
  (exists e d' envid s', sys_exofork s = Ret (inl envid) s' /\ child_made dirs rl c s s' e d' envid).
Proof.
  intros Hu. set (s0 := entered s c exofork_frame).
  pose proof (entered_in_kernel s c dirs rl exofork_frame Hu) as Hk. fold s0 in Hk.
  pose proof (entered_frame s c exofork_frame) as Hf. fold s0 in Hf.
  pose proof (sys_exofork_spec s0 c dirs rl Hk) as Hspec. change (env_free_list s0) with (env_free_list s) in Hspec.
  change (page_free_list s0) with (page_free_list s) in Hspec.
  pose proof (fun r => exofork_fails s c dirs rl r Hu) as Hfail. cbv zeta in Hfail. fold s0 in Hfail.
  destruct (env_free_list s) as [e|] eqn:Efe.
  2:{ left. eexists _, _. destruct (Hfail (- E_NO_FREE_ENV) ltac:(unfold E_NO_FREE_ENV; lia) Hspec) as (A & B & C & D).
      split; [exact A|]. split; [done|]. split; [exact B|]. split; [exact C|]. split; [exact D | by left]. }
  destruct (page_free_list s) as [d'|] eqn:Efp.
  2:{ left. eexists _, _. destruct (Hfail (- E_NO_MEM) ltac:(unfold E_NO_MEM; lia) Hspec) as (A & B & C & D).
      split; [exact A|]. split; [done|]. split; [exact B|]. split; [exact C|]. split; [exact D | by right]. }
  right. destruct Hspec as (s1 & s2 & Ha & Hrun & Hk2 & Hec & Hs2).
  pose proof (ea_frame _ _ _ _ _ _ _ Ha) as Hfr.
  assert (Hcpu : cpu_status (thiscpu s2) = CPU_STARTED).
  { rewrite Hs2. change (thiscpu (s1 <| envs := _ |>)) with (thiscpu s1). rewrite (frame_cpu_status _ _ Hfr).
    exact (entered_cpu s c exofork_frame). }
  assert (Hec2 : envs s2 !!! c = envs s0 !!! c) by (rewrite Hs2; by apply lookup_total_insert_ne).
  assert (Hee2 : envs s2 !!! e = forked s0 c e d') by (rewrite Hs2; apply lookup_total_insert_eq).
  assert (Hr2 : env_status (envs s2 !!! c) = ENV_RUNNING) by (rewrite Hec2; destruct (uframe_env _ _ _ c Hf) as (_ & _ & -> & _); exact (iu_run _ _ _ _ Hu)).
  destruct (exofork_returns s c dirs rl _ s2 _ _ Hu Hrun Hk2 Hr2 Hcpu) as [Hi Hu'].
  pose proof (resumed_frame s2 c (env_id (forked s0 c e d')) (ik_cur _ _ _ _ Hk2) Hr2) as Hf2.
  set (s3 := resumed s2 c _) in *. exists e, d', (env_id (forked s0 c e d')), s3.
  assert (Hle : live s2 e).
  { split; [|by rewrite Hee2]. pose proof (si_free _ _ _ (ik_sys _ _ _ _ Hk)) as Hfree.
    change (env_free_list s0) with (env_free_list s) in Hfree. rewrite Efe in Hfree.
    destruct (linked_head _ _ _ Hfree) as [Her _]. exact Her. }
  destruct (si_idx _ _ _ (ik_sys _ _ _ _ Hk2) e Hle) as [Hpos _].
  pose proof (si_id _ _ _ (ik_sys _ _ _ _ Hk2) e (proj1 Hle)) as Hlt. rewrite Hee2 in Hpos, Hlt.
  rewrite s32_small in Hi by lia. split; [exact Hi|].
  assert (Hm3 : mem s3 = mem s1) by (etransitivity; [exact (proj1 (resumed_mem s2 c _)) | by rewrite Hs2]).
  assert (Hfe : env_status (envs s0 !!! e) = ENV_FREE /\ rl d' = RFree).
  { pose proof (si_free _ _ _ (ik_sys _ _ _ _ Hk)) as Hfree. change (env_free_list s0) with (env_free_list s) in Hfree.
    rewrite Efe in Hfree. destruct (linked_head _ _ _ Hfree) as [_ Hst]. split; [exact Hst|].
    exact (proj1 (vi_head _ _ _ _ _ (si_vm _ _ _ (ik_sys _ _ _ _ Hk)) Efp)). }
  destruct Hfe as [Hst Hrd].
  constructor; try done.
  - apply (uframe_names _ _ _ _ _ _ Hf2). split; [exact Hle|]. rewrite (proj2 (Z.eqb_neq _ 0)) by lia.
    rewrite Hee2. split; [done|]. intros _. right. by rewrite Hec2.
  - lia.
  - intros [_ Hnf]. apply Hnf. rewrite <- Hst. by destruct (uframe_env _ _ _ e Hf) as (_ & _ & -> & _).
  - by rewrite (uf_other _ _ _ Hf2).
  - etransitivity; [exact (uf_self _ _ _ Hf)|]. rewrite <- Hec2. exact (uf_self _ _ _ Hf2).
  - intros x Hxc Hxe. rewrite (uf_other _ _ _ Hf2), Hs2 by done. simpl. rewrite lookup_total_insert_ne by done.
    by rewrite (uf_other _ _ _ Hf).
  - intros q k Hq Hk'. rewrite Hm3. by apply (ea_words _ _ _ _ _ _ _ Ha).
  - rewrite Hm3. by apply (ea_empty _ _ _ _ _ _ _ Ha).
Qed.
End stubs.

(** ** Stores of user mode

    A store goes to a page the program has mapped and changes no page table, so every
    invariant of the kernel survives it; [memmove] copies a page. *)

(** Only pages mapped by user page tables changed. *)
Definition user_words (rl : Z -> role) (m m' : memory) : Prop :=
  forall q k, rl q <> RUser -> 0 <= k < 1024 -> word m' q k = word m q k.

Lemma user_words_tables rl m m' : user_words rl m m' ->
  forall q k, (rl q = RDir \/ exists d i, rl q = RPT d i) -> 0 <= k < 1024 -> word m' q k = word m q k.
Proof. intros Hw q k Hq. apply Hw. destruct Hq as [-> | (? & ? & ->)]; done. Qed.

Lemma user_words_inv s m' c dirs rl :
  in_user s c dirs rl -> user_words rl (mem s) m' -> in_user (s <| mem := m' |>) c dirs rl.
Proof.
  intros [Hs Hc Hl Hr Hk Hcpu Hcr] Hw. constructor; try done.
  eapply sys_inv_pages; [exact Hs | by apply vm_inv_data; [apply Hs|] | | | | done].
  - by apply vm_frame_intro.
  - intros p k Hp Hkr. apply Hw; [by rewrite Hp | done].
  - intros d w Hd Hwr. apply Hw; [|rewrite NUPDE_val in Hwr; lia].
    apply (vi_dirs _ _ _ _ (si_vm _ _ _ Hs)) in Hd. by rewrite Hd.
Qed.

(** The pieces of an address within a page. *)
Lemma va_plus va o : 0 <= va < UTOP -> va mod PGSIZE = 0 -> 0 <= o < PGSIZE ->
  0 <= va + o < UTOP /\ PDX (va + o) = PDX va /\ PTX (va + o) = PTX va /\ PGOFF (va + o) = o.
Proof.
  change UTOP with 4005560320. unfold PGSIZE. intros Hva Hm Ho. assert (Hr : 0 <= va + o < 4005560320) by zlia.
  rewrite !PDX_div, !PTX_div, PGOFF_mod by lia. change PTSIZE with 4194304. unfold PGSIZE, NPTENTRIES.
  split; [exact Hr|]. split_and!; zlia.
Qed.

Section move.
Context (c : Z) (dirs : list Z) (rl : Z -> role) (d : Z) (Hd : d ∈ dirs).

(** What an access needs. *)
Record owns (s : kst) : Prop := {
  ow_user : in_user s c dirs rl;
  ow_pgdir : env_pgdir (envs s !!! c) = kva d;
  ow_pde : pde_user dirs s }.

Lemma owns_words s m' : owns s -> user_words rl (mem s) m' -> owns (s <| mem := m' |>).
Proof.
  intros [Hu He Hp] Hw. constructor; [by apply user_words_inv | done |].
  revert Hp. apply pde_user_keep. intros x w Hx Hwr. apply Hw; [|rewrite NUPDE_val in Hwr; lia].
  apply (vi_dirs _ _ _ _ (si_vm _ _ _ (iu_sys _ _ _ _ Hu))) in Hx. by rewrite Hx.
Qed.

Lemma owns_role s va v : owns s -> 0 <= va < UTOP -> umap (mem s) d (PDX va) (PTX va) = Some v -> rl (v / PGSIZE) = RUser.
Proof.
  intros [Hu _ _] Hva Hum. apply (vi_user _ _ _ _ (si_vm _ _ _ (iu_sys _ _ _ _ Hu)) d (PDX va) (PTX va)); try done.
  - by apply PDX_user.
  - apply PTX_range.
  - by rewrite upage_umap, Hum.
Qed.

Lemma owns_umap s m' i j : owns s -> user_words rl (mem s) m' -> 0 <= i < NUPDE -> 0 <= j < NPTENTRIES ->
  forall x, x ∈ dirs -> umap m' x i j = umap (mem s) x i j.
Proof.
  intros [Hu _ _] Hw Hi Hj x Hx.
  by apply (same_umap s m' dirs rl None (si_vm _ _ _ (iu_sys _ _ _ _ Hu)) (user_words_tables _ _ _ Hw)).
Qed.

Lemma access_run s va v k write : owns s -> 0 <= va < UTOP -> va mod PGSIZE = 0 -> 0 <= k < 1024 ->
  umap (mem s) d (PDX va) (PTX va) = Some v -> has v PTE_U = true -> (write = true -> has v PTE_W = true) ->
  utrans (va + 4 * k) write s = Ret (inl (kva (v / PGSIZE) + 4 * k)) s /\ (PGOFF (va + 4 * k) <=? PGSIZE - 4) = true.
Proof.
  intros [Hu He Hp] Hva Hm Hk Hum HU HW.
  destruct (va_plus va (4 * k) Hva Hm) as (Hr & Hx & Ht & Ho); [unfold PGSIZE; lia|]. rewrite <- Hx, <- Ht in Hum.
  rewrite (utrans_run s c dirs rl Hu d Hd He Hp _ v write Hr Hum HU HW), Ho. split; [done|].
  unfold PGSIZE. apply Z.leb_le. lia.
Qed.

Lemma uload_run s va v k : owns s -> 0 <= va < UTOP -> va mod PGSIZE = 0 -> 0 <= k < 1024 ->
  umap (mem s) d (PDX va) (PTX va) = Some v -> has v PTE_U = true ->
  uload32 (va + 4 * k) s = Ret (inl (word (mem s) (v / PGSIZE) k)) s.
Proof.
  intros Ho Hva Hm Hk Hum HU.
  destruct (access_run s va v k false Ho Hva Hm Hk Hum HU ltac:(done)) as [Ht Hin].
  unfold uload32. rewrite Hin. by lrw Ht.
Qed.

Lemma ustore_run s va v k w : owns s -> 0 <= va < UTOP -> va mod PGSIZE = 0 -> 0 <= k < 1024 ->
  umap (mem s) d (PDX va) (PTX va) = Some v -> has v PTE_U = true -> has v PTE_W = true ->
  ustore32 (va + 4 * k) w s = Ret (inl tt) (s <| mem := st32 (mem s) (kva (v / PGSIZE) + 4 * k) w |>).
Proof.
  intros Ho Hva Hm Hk Hum HU HW.
  destruct (access_run s va v k true Ho Hva Hm Hk Hum HU ltac:(done)) as [Ht Hin].
  unfold ustore32. rewrite Hin. by lrw Ht.
Qed.

Lemma st32_user p k w m : rl p = RUser -> 0 <= k < 1024 -> user_words rl m (st32 m (kva p + 4 * k) w).
Proof.
  intros Hp Hk q k' Hq Hk'. rewrite word_st32 by done. destruct (Z.eqb_spec q p) as [-> | ?]; [done|]. done.
Qed.
Lemma user_words_trans m1 m2 m3 : user_words rl m1 m2 -> user_words rl m2 m3 -> user_words rl m1 m3.
Proof. intros W1 W2 q k Hq Hk. by rewrite W2, W1. Qed.

(** [n] words of the page copied, from word [i] on. *)
Definition copied (ps pd i : Z) (m m' : memory) : Prop :=
  forall q k, 0 <= k < 1024 -> word m' q k = if (q =? pd) && (k <? i) then word m ps k else word m q k.

Lemma copied_next ps pd i m m' : ps <> pd -> 0 <= i < 1024 -> copied ps pd i m m' ->
  copied ps pd (i + 1) m (st32 m' (kva pd + 4 * i) (word m' ps i)).
Proof.
  intros Hne Hi Hc q k Hk. rewrite word_st32 by done. rewrite !Hc by done.
  rewrite (proj2 (Z.eqb_neq ps pd) Hne). cbn [andb].
  destruct (Z.eqb_spec q pd) as [-> | ?]; cbn [andb]; [|done].
  destruct (Z.eqb_spec k i) as [-> | ?].
  - rewrite (proj2 (Z.ltb_lt i (i + 1))) by lia. apply w32_small, word_bound.
  - destruct (Z.ltb_spec k i), (Z.ltb_spec k (i + 1)); done || lia.
Qed.

Section copy.
Context (dst src vd vs : Z) (Hdst : 0 <= dst < UTOP) (Hsrc : 0 <= src < UTOP).
Context (Md : dst mod PGSIZE = 0) (Ms : src mod PGSIZE = 0).
Context (s0 : kst) (Ho0 : owns s0).
Context (Hvs : umap (mem s0) d (PDX src) (PTX src) = Some vs) (Us : has vs PTE_U = true).
Context (Hvd : umap (mem s0) d (PDX dst) (PTX dst) = Some vd) (Ud : has vd PTE_U = true) (Wd : has vd PTE_W = true).
Context (Hne : vs / PGSIZE <> vd / PGSIZE).

Lemma copied_user i m : copied (vs / PGSIZE) (vd / PGSIZE) i (mem s0) m -> user_words rl (mem s0) m.
Proof.
  intros Hc q k Hq Hk. rewrite Hc by done. destruct (Z.eqb_spec q (vd / PGSIZE)) as [-> | ?]; [|done].
  by rewrite (owns_role s0 dst vd Ho0 Hdst Hvd) in Hq.
Qed.

Lemma copy_loop (move : Z -> L unit) n i m :
  (forall k, 0 <= k < 1024 -> move (4 * k) = (w ← uload32 (w32 (src + 4 * k)); ustore32 (w32 (dst + 4 * k)) w)) ->
  i + Z.of_nat n = 1024 -> 0 <= i -> copied (vs / PGSIZE) (vd / PGSIZE) i (mem s0) m ->
  exists m', lfor n i (fun j => move (4 * j)) (s0 <| mem := m |>) = Ret (inl tt) (s0 <| mem := m' |>) /\
    copied (vs / PGSIZE) (vd / PGSIZE) 1024 (mem s0) m'.
Proof.
  intros Hmv. revert i m. induction n as [|n IH]; intros i m Hi H0 Hc.
  { exists m. split; [done|]. replace 1024 with i by lia. done. }
  set (s := s0 <| mem := m |>). pose proof (copied_user i m Hc) as Hw.
  pose proof (owns_words s0 m Ho0 Hw) as Ho.
  assert (Hm : forall va, 0 <= va < UTOP -> umap (mem s) d (PDX va) (PTX va) = umap (mem s0) d (PDX va) (PTX va)).
  { intros va Hva. exact (owns_umap s0 m _ _ Ho0 Hw (PDX_user va Hva) (PTX_range va) d Hd). }
  assert (Hk : 0 <= i < 1024) by lia.
  assert (Hws : w32 (src + 4 * i) = src + 4 * i /\ w32 (dst + 4 * i) = dst + 4 * i).
  { change UTOP with 4005560320 in *. by rewrite !w32_small by lia. }
  pose proof (uload_run s src vs i Ho Hsrc Ms Hk (eq_trans (Hm src Hsrc) Hvs) Us) as Hld.
  pose proof (ustore_run s dst vd i (word (mem s) (vs / PGSIZE) i) Ho Hdst Md Hk (eq_trans (Hm dst Hdst) Hvd) Ud Wd) as Hst.
  cbn [lfor]. destruct Hws as [E1 E2].
  assert (Hrun : move (4 * i) s = Ret (inl tt) (s <| mem := st32 m (kva (vd / PGSIZE) + 4 * i) (word m (vs / PGSIZE) i) |>)).
  { rewrite Hmv, E1, E2 by done. by lrw Hld. }
  rewrite (lbind_run _ _ _ _ _ Hrun).
  destruct (IH (i + 1) (st32 m (kva (vd / PGSIZE) + 4 * i) (word m (vs / PGSIZE) i))) as (m' & Hl & Hc'); try lia.
  - by apply copied_next.
  - exists m'. split; [exact Hl | exact Hc'].
Qed.

(** [memmove] of a whole page to another one. *)
Lemma umemmove_page : exists m', umemmove dst src PGSIZE s0 = Ret (inl tt) (s0 <| mem := m' |>) /\
  copied (vs / PGSIZE) (vd / PGSIZE) 1024 (mem s0) m'.
Proof.
  change UTOP with 4005560320 in Hdst, Hsrc. unfold umemmove.
  assert (Hal : (src mod 4 =? 0) && (dst mod 4 =? 0) && (PGSIZE mod 4 =? 0) = true).
  { unfold PGSIZE in *. rewrite !andb_true_iff, !Z.eqb_eq. split_and!; zlia. }
  rewrite Hal, Z.eqb_refl.
  assert (Hdir : (src <? dst) && (w32 (src + PGSIZE) >? dst) = false).
  { rewrite w32_small by (unfold PGSIZE; lia). destruct (Z.ltb_spec src dst); [|done]. cbn [andb].
    rewrite Z.gtb_ltb. apply Z.ltb_ge. unfold PGSIZE in *. zlia. }
  rewrite Hdir. change (Z.to_nat (PGSIZE / 4)) with 1024%nat.
  assert (Hs : s0 <| mem := mem s0 |> = s0) by (by destruct s0).
  destruct (copy_loop (fun o => w ← uload32 (w32 (src + o)); ustore32 (w32 (dst + o)) w) 1024 0 (mem s0))
    as (m' & Hrun & Hc); try done.
  - intros q k Hk. rewrite (proj2 (Z.ltb_ge k 0)) by lia. by rewrite andb_false_r.
  - exists m'. rewrite Hs in Hrun. split; [exact Hrun | exact Hc].
Qed.
End copy.
End move.
