(* ===== verification/Fork.v ===== *)
(** * Copy-on-write fork ([lib/fork.c], [lib/sfork.c], [lib/pgfault.c])

    The user-level page-fault handler and the two forks, as programs over the system
    calls and the page-table arrays. *)

From S2P Require Import Prelude Mem CString Mmu KState Printf Pmap Environ Sched Syscall Trap User.

Definition PTE_COW : Z := 0x800.
Definition UXSTACK : Z := UXSTACKTOP - PGSIZE.

Section fork.
Context `{Devices} `{TrapDevices} `{Program}.

(** [lib/pgfault.c]: the exception stack is made the first time. *)
Definition set_pgfault_handler (handler : Z) : L unit :=
  h ← uload32 handler_var;
  (if h =? 0 then
     r ← sys_page_alloc 0 UXSTACK (Z.lor (Z.lor PTE_AVAIL PTE_U) PTE_W);
     if r <? 0 then user_panic "set_pgfault_handler: %e"
     else
       r ← sys_env_set_pgfault_upcall 0 upcall_fn;
       if r <? 0 then user_panic "set_pgfault_handler: %e" else mret tt
   else mret tt);;
  ustore32 handler_var handler.

(** The handler: [utf_fault_va] and [utf_err] of the frame are [addr] and [err]. *)
Definition pgfault (addr err : Z) : L unit :=
  let perm := Z.lor (Z.lor PTE_U PTE_W) PTE_P in
  cow ← (if Z.land err FEC_WR =? 0 then mret false
         else v ← uvpt (PGNUM addr); mret (has v PTE_COW));
  if negb cow then user_panic "pgfault at %p: err %d"
  else
    r ← sys_page_alloc 0 PFTEMP perm;
    if r <? 0 then user_panic "pgfault: page alloc failed: %e"
    else
      umemmove PFTEMP (ROUNDDOWN addr PGSIZE) PGSIZE;;
      r ← sys_page_map 0 PFTEMP 0 (ROUNDDOWN addr PGSIZE) perm;
      if r <? 0 then user_panic "pgfault: page map failed: %e"
      else
        r ← sys_page_unmap 0 PFTEMP;
        if r <? 0 then user_panic "pgfault: page unmap failed: %e" else mret tt.

Definition duppage (envid pn : Z) : L Z :=
  let addr := w32 (pn * PGSIZE) in
  v ← uvpt pn;
  let perm := Z.land v PTE_SYSCALL in
  v ← uvpt pn;
  perm ← (if has v PTE_SHARE then v ← uvpt pn; mret (Z.lor (Z.land v PTE_SYSCALL) PTE_SHARE)
          else if has perm PTE_W then mret (Z.lor (Z.land perm (Z.lnot PTE_W)) PTE_COW)
          else mret perm);
  r ← sys_page_map 0 addr envid addr perm;
  if r <? 0 then user_panic "duppage: %e"
  else if has perm PTE_COW then
    r ← sys_page_map 0 addr 0 addr perm;
    if r <? 0 then user_panic "duppage: %e" else mret 0
  else mret 0.

(** The test both forks make before they touch a page. *)
Definition user_page (addr : Z) : L bool :=
  pde ← uvpd (PDX addr);
  if negb (has pde PTE_P) then mret false
  else
    v ← uvpt (PGNUM addr);
    if negb (has v PTE_P) then mret false
    else v ← uvpt (PGNUM addr); mret (has v PTE_U).

(** [for (addr = 0; addr < UTOP; addr += PGSIZE)] but the exception stack. *)
Definition each_page (body : Z -> L unit) : L unit :=
  lloop page_fuel (fun addr =>
    if addr <? UTOP then
      (if addr =? UXSTACK then mret tt
       else ok ← user_page addr; if (ok : bool) then body addr else mret tt);;
      mret (inl (w32 (addr + PGSIZE)))
    else mret (inr tt)) 0.

(** What follows the loop: the child's exception stack, upcall and status. *)
Definition start_child (envid : Z) : L Z :=
  r ← sys_page_alloc envid UXSTACK (Z.lor PTE_U PTE_W);
  if r <? 0 then user_panic "fork: exception stack alloc: %e"
  else
    r ← sys_env_set_pgfault_upcall envid upcall_fn;
    if r <? 0 then user_panic "fork: set pgfault upcall: %e"
    else
      r ← sys_env_set_status envid ENV_RUNNABLE;
      if r <? 0 then user_panic "fork: set status: %e" else mret envid.

(** The child starts where [sys_exofork] returns, with 0. *)
Definition fork : L Z :=
  set_pgfault_handler pgfault_fn;;
  envid ← sys_exofork;
  if envid <? 0 then user_panic "fork: %e"
  else if envid =? 0 then mret 0
  else
    each_page (fun addr =>
      r ← duppage envid (PGNUM addr);
      if r <? 0 then user_panic "fork: duppage: %e" else mret tt);;
    start_child envid.

(** [lib/sfork.c]: only the stacks are copied on write. *)
Definition is_stack_page (a : Z) : bool :=
  (a >=? UXSTACKTOP - PGSIZE) && (a <? UXSTACKTOP) ||
  (a >=? USTACKTOP - PGSIZE) && (a <? USTACKTOP).

Definition sharepage (envid pn : Z) : L Z :=
  let addr := w32 (pn * PGSIZE) in
  v ← uvpt pn;
  let perm := Z.land v PTE_SYSCALL in
  v ← uvpt pn;
  let perm :=
    if has v PTE_SHARE then Z.lor perm PTE_SHARE
    else if has perm PTE_W then Z.lor (Z.lor (Z.land perm (Z.lnot PTE_COW)) PTE_SHARE) PTE_W
    else perm in
  r ← sys_page_map 0 addr envid addr perm;
  if r <? 0 then mret r else mret 0.

Definition sfork : L Z :=
  set_pgfault_handler pgfault_fn;;
  envid ← sys_exofork;
  if envid <? 0 then user_panic "sfork: %e"
  else if envid =? 0 then mret 0
  else
    each_page (fun addr =>
      if is_stack_page addr then
        r ← duppage envid (PGNUM addr);
        if r <? 0 then user_panic "sfork: duppage: %e" else mret tt
      else
        r ← sharepage envid (PGNUM addr);
        if r <? 0 then user_panic "sfork: sharepage: %e" else mret tt);;
    start_child envid.
End fork.
