(* ===== verification/ForkSpec.v ===== *)
(** * Duplicating an address space, page by page

    What [duppage] does to the two address spaces, and the loop of [fork]. *)

From S2P Require Import Prelude Mem CString Mmu KState Printf Pmap VmInv VmSpec VmLife Environ Sched Syscall Trap EnvInv EnvFree SchedSpec UserMem SysSpec User UserSpec UserVm Fork.

(** ** Permissions *)

(** The permissions [duppage] computes from an entry, and the entry they make. *)
Definition cow_perm (v : Z) : Z :=
  if has v PTE_SHARE then Z.lor (Z.land v PTE_SYSCALL) PTE_SHARE
  else if has (Z.land v PTE_SYSCALL) PTE_W
  then Z.lor (Z.land (Z.land v PTE_SYSCALL) (Z.lnot PTE_W)) PTE_COW
  else Z.land v PTE_SYSCALL.
Definition cow_pte (v : Z) : Z := mkpte (v / PGSIZE * PGSIZE) (cow_perm v).

(** What the child and the parent have after the page behind [o] was duplicated. *)
Definition child_pte (o : option Z) : option Z :=
  match o with Some v => if has v PTE_U then Some (cow_pte v) else None | None => None end.
Definition parent_pte (o : option Z) : option Z :=
  match o with
  | Some v => if has v PTE_U && has (cow_perm v) PTE_COW then Some (cow_pte v) else Some v
  | None => None
  end.

(** Flags only look at the twelve low bits that a system call may set. *)
Lemma has_mask v f : Z.land f PTE_SYSCALL = f -> has (Z.land v PTE_SYSCALL) f = has v f.
Proof. intros Hf. unfold has. by rewrite <- Z.land_assoc, (Z.land_comm PTE_SYSCALL), Hf. Qed.
Lemma cow_perm_mask v : cow_perm (Z.land v PTE_SYSCALL) = cow_perm v.
Proof.
  unfold cow_perm. rewrite <- Z.land_assoc, Z.land_diag, has_mask by done. done.
Qed.

Definition cow_check (w : Z) : bool :=
  let p := cow_perm w in
  (0 <=? p) && (p <? PGSIZE) &&
  (if has w PTE_U then negb (bad_perm p) else true) &&
  (if has p PTE_W then has w PTE_W && has w PTE_SHARE else true) &&
  Bool.eqb (has p PTE_U) (has w PTE_U) &&
  (if has w PTE_SHARE then true else Bool.eqb (has p PTE_COW) (has w PTE_COW || has w PTE_W)).
Lemma cow_check_all : forallb cow_check (seqZ 0 4096) = true.
Proof. vm_compute. reflexivity. Qed.

Lemma cow_check_mask v : cow_check (Z.land v PTE_SYSCALL) = true.
Proof.
  apply (forallb_seqZ _ 4096 _ cow_check_all). change 4096 with (2 ^ 12).
  assert (Hm : Z.land (Z.land v PTE_SYSCALL) (2 ^ 12 - 1) = Z.land v PTE_SYSCALL) by (by rewrite <- Z.land_assoc).
  rewrite land_ones_mod in Hm by lia. rewrite <- Hm. by apply Z.mod_pos_bound.
Qed.

Lemma cow_perm_facts v :
  (0 <= cow_perm v < PGSIZE) /\ (has v PTE_U = true -> bad_perm (cow_perm v) = false) /\
  (has (cow_perm v) PTE_W = true -> has v PTE_W = true /\ has v PTE_SHARE = true) /\
  has (cow_perm v) PTE_U = has v PTE_U /\
  (has v PTE_SHARE = false -> has (cow_perm v) PTE_COW = has v PTE_COW || has v PTE_W).
Proof.
  pose proof (cow_check_mask v) as Hall. unfold cow_check in Hall. cbv zeta in Hall.
  rewrite cow_perm_mask, (has_mask v PTE_U), (has_mask v PTE_W), (has_mask v PTE_SHARE), (has_mask v PTE_COW) in Hall by done.
  apply andb_true_iff in Hall as [Hall H5]. apply andb_true_iff in Hall as [Hall H4].
  apply andb_true_iff in Hall as [Hall H3]. apply andb_true_iff in Hall as [Hall H2].
  apply andb_true_iff in Hall as [H0 H1]. zbool.
  split; [done|]. split; [intros Hu; rewrite Hu in H2; by apply negb_true_iff|].
  split; [intros Hp; rewrite Hp in H3; by apply andb_true_iff|].
  split; [by apply eqb_prop|]. intros Hs. rewrite Hs in H5. by apply eqb_prop.
Qed.

(** ** Steps that keep every mapped page *)

Definition mapped (dirs : list Z) (s : kst) (p : Z) : Prop :=
  exists d i j v, d ∈ dirs /\ 0 <= i < NUPDE /\ 0 <= j < NPTENTRIES /\
    umap (mem s) d i j = Some v /\ p = v / PGSIZE.

(** Environment [c] took steps after which what was mapped anywhere still is, with the
    same contents. *)
Record astep (dirs : list Z) (c : Z) (s s' : kst) : Prop := {
  as_frame : uframe s s' c;
  as_mapped : forall p, mapped dirs s p -> mapped dirs s' p;
  as_pages : forall p k, mapped dirs s p -> 0 <= k < 1024 -> word (mem s') p k = word (mem s) p k;
  as_khalf : keeps_khalf dirs s s';
  as_pde : pde_user dirs s -> pde_user dirs s' }.

#[export] Instance astep_refl dirs c : Reflexive (astep dirs c).
Proof. intros s. by constructor. Qed.
#[export] Instance astep_trans dirs c : Transitive (astep dirs c).
Proof.
  intros s1 s2 s3 [F1 M1 P1 K1 D1] [F2 M2 P2 K2 D2]. constructor.
  - by eapply uframe_trans.
  - auto.
  - intros p k Hp Hk. rewrite P2, P1; auto.
  - intros d w Hd Hw. rewrite K2, K1; done.
  - auto.
Qed.

Lemma mapped_va dirs s d va v :
  d ∈ dirs -> 0 <= va < UTOP -> umap (mem s) d (PDX va) (PTX va) = Some v -> mapped dirs s (v / PGSIZE).
Proof.
  intros Hd Hva Hu. exists d, (PDX va), (PTX va), v.
  exact (conj Hd (conj (PDX_user va Hva) (conj (PTX_range va) (conj Hu eq_refl)))).
Qed.
Lemma mapped_user s dirs rl lim p : vm_inv s dirs rl lim -> mapped dirs s p -> rl p = RUser.
Proof.
  intros Hvm (d & i & j & v & Hd & Hi & Hj & Hu & ->).
  apply (vi_user _ _ _ _ Hvm d i j); try done. by rewrite upage_umap, Hu.
Qed.

Lemma ustep_astep dirs rl c s s' :
  in_user s c dirs rl -> ustep dirs rl c s s' -> (forall p, mapped dirs s p -> mapped dirs s' p) ->
  astep dirs c s s'.
Proof.
  intros Hu [F D K P] Hm. constructor; try done. intros p k Hp Hk. apply D; [|done]. left.
  eapply mapped_user; [apply (iu_sys _ _ _ _ Hu) | exact Hp].
Qed.

Lemma selfmap_keep dirs s s' d : d ∈ dirs -> keeps_khalf dirs s s' -> selfmap s d -> selfmap s' d.
Proof. intros Hd Hk. unfold selfmap. rewrite Hk; [done | done | rewrite NUPDE_val; done]. Qed.

(** A slot that was empty gets a page, or keeps the page it had: nothing is unmapped. *)
Lemma mapped_set dirs s s' d i j v' :
  same_umap_but dirs s s' (d, i, j) -> umap (mem s') d i j = Some v' ->
  (forall v, umap (mem s) d i j = Some v -> v / PGSIZE = v' / PGSIZE) ->
  forall p, mapped dirs s p -> mapped dirs s' p.
Proof.
  intros Ho Hn Hold p (d0 & i0 & j0 & v & Hd & Hi & Hj & Hu & ->).
  destruct (decide ((d0, i0, j0) = (d, i, j))) as [Heq | Hne].
  - injection Heq as -> -> ->. exists d, i, j, v'. split_and!; try done; try lia. by apply Hold.
  - exists d0, i0, j0, v. split_and!; try done; try lia. by rewrite Ho.
Qed.

(** ** Counting mappings *)

Lemma slots_single x y : slots [y] = (fun z => let '(_, i, j) := z in (y, i, j)) <$> slots [x].
Proof.
  unfold slots. cbn [mbind list_bind]. rewrite !app_nil_r.
  induction (seqZ 0 NUPDE) as [|i l IH]; [done|]. cbn [mbind list_bind]. rewrite fmap_app.
  apply (f_equal2 app); [clear IH | exact IH].
  induction (seqZ 0 NPTENTRIES) as [|j l' IH]; [done|]. cbn [mbind list_bind]. rewrite fmap_app.
  apply (f_equal2 app); [done | exact IH].
Qed.

Lemma slots_app l1 l2 : slots (l1 ++ l2) = slots l1 ++ slots l2.
Proof. unfold slots. apply bind_app. Qed.

Lemma ucount_app m l1 l2 p : ucount m (l1 ++ l2) p = ucount m l1 p + ucount m l2 p.
Proof. unfold ucount. rewrite slots_app, filter_app, length_app. lia. Qed.

Lemma filter_length_fmap {A B} (f : A -> B) (P : B -> Prop) (Q : A -> Prop)
    `{HP : forall x, Decision (P x)} `{HQ : forall x, Decision (Q x)} (l : list A) :
  (forall x, x ∈ l -> P (f x) -> Q x) -> (length (filter P (f <$> l)) <= length (filter Q l))%nat.
Proof.
  induction l as [|x l IH]; intros Hl; [done|]. cbn [fmap list_fmap]. rewrite !filter_cons.
  specialize (IH ltac:(intros; apply Hl; [by right | done])).
  destruct (decide (P (f x))) as [Hp|]; [|destruct (decide (Q x)); simpl; lia].
  rewrite decide_True by (apply Hl; [by left | done]). simpl. lia.
Qed.

(** A directory that maps no more than another one counts no more, slot by slot. *)
Lemma ucount_sub m m' x y p :
  (forall i j, 0 <= i < NUPDE -> 0 <= j < NPTENTRIES -> upage m' y i j = Some p -> upage m x i j = Some p) ->
  ucount m' [y] p <= ucount m [x] p.
Proof.
  intros H. unfold ucount. rewrite (slots_single x y). apply inj_le, filter_length_fmap.
  intros [[d i] j] Hin Hp. apply elem_of_slots in Hin as (->%list_elem_of_singleton & Hi & Hj). by apply H.
Qed.
Lemma ucount_in m dirs d p : d ∈ dirs -> ucount m [d] p <= ucount m dirs p.
Proof.
  intros (l1 & l2 & ->)%list_elem_of_split. rewrite ucount_app. change (d :: l2) with ([d] ++ l2). rewrite ucount_app.
  pose proof (ucount_nonneg m l1 p). pose proof (ucount_nonneg m l2 p). lia.
Qed.

(** ** [duppage] *)

Section fork.
Context `{Devices} `{TrapDevices} `{Program} (Hcs : Z.land (tf_cs saved_regs) 3 = 3).

(** What the page calls need of the caller: [c] runs in directory [d], which maps itself,
    and no page has so many mappings that two more would not be counted. *)
Record ready (s : kst) (c : Z) (dirs : list Z) (rl : Z -> role) (d : Z) : Prop := {
  re_user : in_user s c dirs rl;
  re_dir : d ∈ dirs;
  re_pgdir : env_pgdir (envs s !!! c) = kva d;
  re_pde : pde_user dirs s;
  re_self : selfmap s d }.

Lemma ready_step s s' c dirs rl rl' d :
  ready s c dirs rl d -> in_user s' c dirs rl' -> astep dirs c s s' -> ready s' c dirs rl' d.
Proof.
  intros [Hu Hd He Hp Hs] Hu' [F M P K D]. constructor; [done | done | | auto | by eapply selfmap_keep].
  destruct (uframe_env _ _ _ c F) as (-> & _). exact He.
Qed.

Lemma names_self s c dirs rl : in_user s c dirs rl -> names s c 0 true c.
Proof. intros Hu. split; [apply Hu | done]. Qed.

Lemma page_of_va va : 0 <= va < UTOP -> va mod PGSIZE = 0 -> w32 (PGNUM va * PGSIZE) = va /\ bad_va va = false.
Proof.
  intros Hva Hm. split.
  - change UTOP with 4005560320 in Hva. rewrite PGNUM_div by lia. rewrite w32_small; unfold PGSIZE in *; zlia.
  - unfold bad_va. rewrite Hm, Z.geb_leb, (proj2 (Z.leb_gt _ _)) by lia. done.
Qed.

(** One page mapped in another environment, or in the caller's own again. *)
Lemma remap_run s c dirs rl d va v denv e dd perm :
  ready s c dirs rl d -> names s c denv true e -> dd ∈ dirs -> env_pgdir (envs s !!! e) = kva dd ->
  0 <= denv < 2 ^ 31 -> 0 <= va < UTOP -> va mod PGSIZE = 0 -> 0 <= perm -> bad_perm perm = false ->
  umap (mem s) d (PDX va) (PTX va) = Some v -> (has perm PTE_W = true -> has v PTE_W = true) ->
  (umap (mem s) dd (PDX va) (PTX va) = None \/ dd = d) ->
  ucount (mem s) dirs (v / PGSIZE) + 1 < 2 ^ 16 ->
  (exists s', sys_page_map 0 va denv va perm s = Ret (inl (- E_NO_MEM)) s' /\
     in_user s' c dirs rl /\ nearly_full s') \/
  (exists s' rl', sys_page_map 0 va denv va perm s = Ret (inl 0) s' /\ ready s' c dirs rl' d /\
     astep dirs c s s' /\ role_step rl rl' /\
     umap (mem s') dd (PDX va) (PTX va) = Some (mkpte (v / PGSIZE * PGSIZE) perm) /\
     same_umap_but dirs s s' (dd, PDX va, PTX va)).
Proof.
  intros Hr Hn Hdd Hed Wd Hva Hm Hp0 Hbp Hum HW Hempty Hc. pose proof Hr as [Hu Hd He Hp Hs].
  destruct (page_of_va va Hva Hm) as [_ Hbv]. pose proof (si_vm _ _ _ (iu_sys _ _ _ _ Hu)) as Hvm.
  assert (Hru : rl (v / PGSIZE) = RUser).
  { eapply mapped_user; [exact Hvm | by eapply mapped_va]. }
  destruct (vi_user_ref _ _ _ _ Hvm _ Hru) as [Href _].
  destruct (u_page_map Hcs s c dirs rl 0 c d va v denv e dd va perm) as [(s' & ? & ? & ? & _) | (s' & rl' & Hrun & Hu' & Hst & Hrs & Hnew & Hoth)];
    try done; try lia; [by eapply names_self | left; by exists s' |].
  right. exists s', rl'.
  assert (Ha : astep dirs c s s').
  { eapply ustep_astep; [done | done |]. eapply mapped_set; [exact Hoth | exact Hnew |].
    intros v0 Hv0. assert (v0 = v) as -> by (destruct Hempty as [Hn0 | ->]; congruence).
    destruct (bad_perm_range perm Hp0 Hbp) as [Hpr _].
    pose proof (vi_range _ _ _ _ Hvm _ ltac:(rewrite Hru; done)) as Hpg.
    pose proof (ent_mkpte (v / PGSIZE) perm Hpr ltac:(lia)) as [_ Hent]%ent_Some. exact Hent. }
  split_and!; try done. by eapply ready_step.
Qed.

Lemma uvpt_ready s c dirs rl d va v :
  ready s c dirs rl d -> 0 <= va < UTOP -> umap (mem s) d (PDX va) (PTX va) = Some v ->
  uvpt (PGNUM va) s = Ret (inl v) s.
Proof.
  intros [Hu Hd He Hp Hs] Hva Hum. destruct (umap_pt s d va v Hum) as (t & Ht & Hw & _).
  rewrite (uvpt_run s c dirs rl Hu d Hd He Hp Hs va t Hva Ht). by rewrite Hw.
Qed.

(** The outcome of a step that needs memory. *)
Definition out_of_memory {A} (m : L A) (s : kst) (c : Z) (dirs : list Z) : Prop :=
  exists msg s' rl', m s = Ret (inr (UPanic msg)) s' /\ in_user s' c dirs rl' /\ nearly_full s'.

Lemma oom_bind {A B} (m : L A) (f : A -> L B) s c dirs :
  out_of_memory m s c dirs -> out_of_memory (m ≫= f) s c dirs.
Proof. intros (msg & s' & rl' & Hrun & H'). exists msg, s', rl'. split; [|exact H']. unfold mbind, L_bind. by rewrite Hrun. Qed.

Lemma ready_names s s' c dirs rl d envid e x : ready s c dirs rl d -> astep dirs c s s' ->
  names s c envid true e -> env_pgdir (envs s !!! e) = x ->
  names s' c envid true e /\ env_pgdir (envs s' !!! e) = x.
Proof.
  intros _ [F _ _ _ _] Hn He. split; [by apply (uframe_names _ _ _ _ _ _ F)|].
  destruct (uframe_env _ _ _ e F) as (-> & _). exact He.
Qed.

(** The two slots a duplicated page occupies, and everything else. *)
Record duplicated (dirs : list Z) (d d' : Z) (s s' : kst) (i j v : Z) : Prop := {
  du_child : umap (mem s') d' i j = child_pte (Some v);
  du_parent : umap (mem s') d i j = parent_pte (Some v);
  du_other : forall d0 i0 j0, d0 ∈ dirs -> 0 <= i0 < NUPDE -> 0 <= j0 < NPTENTRIES ->
    (d0, i0, j0) <> (d, i, j) -> (d0, i0, j0) <> (d', i, j) -> umap (mem s') d0 i0 j0 = umap (mem s) d0 i0 j0 }.

Lemma ucount_one_more dirs s s' d i j p rl rl' lim lim' :
  vm_inv s dirs rl lim -> vm_inv s' dirs rl' lim' -> d ∈ dirs -> 0 <= i < NUPDE -> 0 <= j < NPTENTRIES ->
  same_umap_but dirs s s' (d, i, j) -> ucount (mem s') dirs p <= ucount (mem s) dirs p + 1.
Proof.
  intros Hv Hv' Hd Hi Hj Ho.
  pose proof (ucount_change (mem s) (mem s') dirs d i j p (vi_nodup _ _ _ _ Hv) Hd Hi Hj) as Hch.
  ospecialize (Hch _).
  { intros d0 i0 j0 Hd0 Hi0 Hj0 Hne. rewrite !upage_umap. rewrite Ho; done. }
  repeat case_decide; lia.
Qed.

Lemma duppage_run s c dirs rl d envid e d' va v :
  ready s c dirs rl d -> names s c envid true e -> d' ∈ dirs -> d <> d' ->
  env_pgdir (envs s !!! e) = kva d' -> 0 <= envid < 2 ^ 31 -> 0 <= va < UTOP -> va mod PGSIZE = 0 ->
  umap (mem s) d (PDX va) (PTX va) = Some v -> has v PTE_U = true ->
  umap (mem s) d' (PDX va) (PTX va) = None -> ucount (mem s) dirs (v / PGSIZE) + 2 < 2 ^ 16 ->
  out_of_memory (duppage envid (PGNUM va)) s c dirs \/
  exists s' rl', duppage envid (PGNUM va) s = Ret (inl 0) s' /\ ready s' c dirs rl' d /\
    astep dirs c s s' /\ role_step rl rl' /\ duplicated dirs d d' s s' (PDX va) (PTX va) v.
Proof.
  intros Hr Hn Hd' Hdd Hed Wid Hva Hm Hum HU Hno Hcnt.
  destruct (page_of_va va Hva Hm) as [Haddr _]. destruct (cow_perm_facts v) as (Hpr & Hbp & HW & HpU & _).
  specialize (Hbp HU). pose proof (PDX_user va Hva) as Hi. pose proof (PTX_range va) as Hj.
  assert (Hopen : duppage envid (PGNUM va) s = (r ← sys_page_map 0 va envid va (cow_perm v);
    if r <? 0 then user_panic "duppage: %e"
    else if has (cow_perm v) PTE_COW then
      r ← sys_page_map 0 va 0 va (cow_perm v); if r <? 0 then user_panic "duppage: %e" else mret 0
    else mret 0) s).
  { pose proof (uvpt_ready s c dirs rl d va v Hr Hva Hum) as Hld. unfold duppage. rewrite Haddr.
    do 2 lrw Hld. unfold cow_perm. destruct (has v PTE_SHARE).
    - rewrite lbind_assoc. lrw Hld. reflexivity.
    - destruct (has (Z.land v PTE_SYSCALL) PTE_W); reflexivity. }
  unfold out_of_memory. rewrite Hopen. clear Hopen.
  assert (HW' : has (cow_perm v) PTE_W = true -> has v PTE_W = true) by (intros Hx; by apply HW).
  destruct (remap_run s c dirs rl d va v envid e d' (cow_perm v) Hr Hn Hd' Hed Wid Hva Hm (proj1 Hpr) Hbp Hum HW'
    (or_introl Hno) ltac:(lia)) as [(s1 & Hrun & Hu1 & Hnf) | (s1 & rl1 & Hrun & Hr1 & Ha1 & Hrs1 & Hnew1 & Hoth1)];
    rewrite (lbind_run _ _ _ _ _ Hrun); [left; by exists "duppage: %e"%string, s1, rl|].
  change (0 <? 0) with false. cbv iota.
  assert (Hch : umap (mem s1) d' (PDX va) (PTX va) = child_pte (Some v)) by (rewrite Hnew1; simpl; by rewrite HU).
  assert (Hum1 : umap (mem s1) d (PDX va) (PTX va) = Some v).
  { rewrite Hoth1; [exact Hum | exact (re_dir _ _ _ _ _ Hr) | exact Hi | exact Hj | congruence]. }
  destruct (has (cow_perm v) PTE_COW) eqn:Ecow.
  2:{ right. exists s1, rl1. split_and!; try done. constructor; [done | |].
      - rewrite Hum1. simpl. by rewrite HU, Ecow.
      - intros. by apply Hoth1. }
  pose proof (re_user _ _ _ _ _ Hr) as Hu0. pose proof (re_user _ _ _ _ _ Hr1) as Hu1.
  pose proof (ucount_one_more dirs s s1 d' (PDX va) (PTX va) (v / PGSIZE) _ _ _ _
    (si_vm _ _ _ (iu_sys _ _ _ _ Hu0)) (si_vm _ _ _ (iu_sys _ _ _ _ Hu1)) Hd' Hi Hj Hoth1) as Hc1.
  destruct (remap_run s1 c dirs rl1 d va v 0 c d (cow_perm v) Hr1 (names_self _ _ _ _ Hu1) (re_dir _ _ _ _ _ Hr1)
    (re_pgdir _ _ _ _ _ Hr1) ltac:(lia) Hva Hm (proj1 Hpr) Hbp Hum1 HW' (or_intror eq_refl) ltac:(lia))
    as [(s2 & Hrun2 & Hu2 & Hnf) | (s2 & rl2 & Hrun2 & Hr2 & Ha2 & Hrs2 & Hnew2 & Hoth2)];
    rewrite (lbind_run _ _ _ _ _ Hrun2); [left; by exists "duppage: %e"%string, s2, rl1|].
  right. exists s2, rl2. split; [done|]. split; [done|]. split; [by transitivity s1|]. split; [by transitivity rl1|].
  constructor.
  - rewrite Hoth2; [exact Hch | exact Hd' | exact Hi | exact Hj | congruence].
  - rewrite Hnew2. simpl. by rewrite HU, Ecow.
  - intros d0 i0 j0 Hd0 Hi0 Hj0 Hx Hy. rewrite Hoth2, Hoth1; done.
Qed.
End fork.
