(* ===== verification/UserPage.v ===== *)
(** * Pages made at one address and moved to another

    A page that a program fills goes through a temporary mapping: [sys_page_alloc] there,
    stores, [sys_page_map] to its place, [sys_page_unmap].  The page-fault handler does it
    within one address space, [spawn] from the parent's to the child's. *)

From S2P Require Import Prelude Mem CString Mmu KState Printf Pmap VmInv VmSpec VmLife Environ Sched Syscall Trap EnvInv EnvFree SchedSpec UserMem SysSpec User UserSpec UserVm UserEnv Fork ForkSpec.

(** Two pages of the address space have different slots. *)
Lemma slot_ne va vb : 0 <= va < UTOP -> 0 <= vb < UTOP -> va mod PGSIZE = 0 -> vb mod PGSIZE = 0 -> va <> vb ->
  (PDX va, PTX va) <> (PDX vb, PTX vb).
Proof.
  change UTOP with 4005560320. intros Ha Hb Ma Mb Hne. rewrite !PDX_div, !PTX_div by lia.
  change PTSIZE with 4194304. unfold PGSIZE, NPTENTRIES in *. intros [= E1 E2]. apply Hne. zlia.
Qed.
Lemma aligned_ok va : 0 <= va < UTOP -> va mod PGSIZE = 0 -> bad_va va = false.
Proof. intros Hva Hm. unfold bad_va. rewrite Hm, Z.geb_leb, (proj2 (Z.leb_gt _ _)) by lia. done. Qed.

(** The permissions of a page that is being filled. *)
Definition private_perm : Z := Z.lor (Z.lor PTE_U PTE_W) PTE_P.

Lemma mkpte_facts pp perm : 0 <= pp -> 0 <= perm < PGSIZE -> mkpte (pp * PGSIZE) perm / PGSIZE = pp /\
  (has perm PTE_U = true -> has (mkpte (pp * PGSIZE) perm) PTE_U = true) /\
  (has perm PTE_W = true -> has (mkpte (pp * PGSIZE) perm) PTE_W = true).
Proof.
  intros Hpp Hp. pose proof (ent_mkpte pp perm Hp Hpp) as [_ He]%ent_Some. split; [by symmetry|].
  assert (Hm : pp * PGSIZE mod PGSIZE = 0) by (by apply Z.mod_mul).
  pose proof (has_mkpte (pp * PGSIZE) perm 2 ltac:(lia) Hm) as E2. pose proof (has_mkpte (pp * PGSIZE) perm 1 ltac:(lia) Hm) as E1.
  change (2 ^ 2) with PTE_U in E2. change (2 ^ 1) with PTE_W in E1. rewrite E1, E2. by split; intros ->.
Qed.

(** Only page [pp] changed. *)
Definition page_only (pp : Z) (m m' : memory) : Prop :=
  forall q k, q <> pp -> 0 <= k < 1024 -> word m' q k = word m q k.

Lemma page_only_refl pp m : page_only pp m m.
Proof. done. Qed.
Lemma page_only_trans pp m1 m2 m3 : page_only pp m1 m2 -> page_only pp m2 m3 -> page_only pp m1 m3.
Proof. intros H1 H2 q k Hq Hk. by rewrite H2, H1. Qed.
Lemma page_only_user pp rl m m' : page_only pp m m' -> rl pp = RUser -> user_words rl m m'.
Proof. intros Ho Hr q k Hq Hk. apply Ho; [|done]. by intros ->. Qed.
Lemma page_only_st8 pp m o c : 0 <= o < PGSIZE -> page_only pp m (st8 m (kva pp + o) c).
Proof.
  unfold PGSIZE. intros Ho q k Hq Hk. unfold word, ld32, kva, PGSIZE. by rewrite !ld8_st8_ne by lia.
Qed.
Lemma page_only_st32 pp m o c : 0 <= o <= PGSIZE - 4 -> page_only pp m (st32 m (kva pp + o) c).
Proof. unfold PGSIZE. intros Ho q k Hq Hk. unfold word, kva, PGSIZE. apply ld32_st32_ne. lia. Qed.

Lemma page_only_umap pp s m' c dirs rl d i j x :
  owns c dirs rl d s -> rl pp = RUser -> page_only pp (mem s) m' -> 0 <= i < NUPDE -> 0 <= j < NPTENTRIES ->
  x ∈ dirs -> umap m' x i j = umap (mem s) x i j.
Proof. intros Ho Hp Hw Hi Hj. apply (owns_umap c dirs rl d s m' i j Ho (page_only_user _ _ _ _ Hw Hp) Hi Hj). Qed.

Section page.
Context `{Devices} `{TrapDevices} `{Program} (Hcs : Z.land (tf_cs saved_regs) 3 = 3).

Lemma ready_owns s c dirs rl d : ready s c dirs rl d -> owns c dirs rl d s.
Proof. intros [Hu Hd He Hp Hs]. by constructor. Qed.

Lemma ready_ustep s s' c dirs rl0 rl rl' d :
  ready s c dirs rl d -> in_user s' c dirs rl' -> ustep dirs rl0 c s s' -> ready s' c dirs rl' d.
Proof.
  intros [Hu Hd He Hp Hs] Hu' [F D K P]. constructor; [done | done | | auto | by eapply selfmap_keep].
  by rewrite (proj1 (uframe_env _ _ _ c F)).
Qed.

Lemma ready_words s m' c dirs rl d :
  ready s c dirs rl d -> user_words rl (mem s) m' -> ready (s <| mem := m' |>) c dirs rl d.
Proof.
  intros Hr Hw. destruct (owns_words c dirs rl d s m' (ready_owns _ _ _ _ _ Hr) Hw) as [Hu He Hp].
  pose proof (re_dir _ _ _ _ _ Hr) as Hd. constructor; [done | done | done | done |].
  change (word m' d (PDX UVPT) = Z.lor (Z.lor (d * PGSIZE) PTE_P) PTE_U). rewrite Hw; [exact (re_self _ _ _ _ _ Hr) | | done].
  apply (vi_dirs _ _ _ _ (si_vm _ _ _ (iu_sys _ _ _ _ (re_user _ _ _ _ _ Hr)))) in Hd. by rewrite Hd.
Qed.

(** ** The temporary mapping *)

Section staging.
Context (s : kst) (c : Z) (dirs : list Z) (rl : Z -> role) (d tmp : Z) (Hr : ready s c dirs rl d).
Context (Ht : 0 <= tmp < UTOP) (Mt : tmp mod PGSIZE = 0).

(** Since [s], the zeroed page [pp] was put at [tmp]. *)
Record staged (pp : Z) (s1 : kst) (rl1 : Z -> role) : Prop := {
  sg_user : in_user s1 c dirs rl1;
  sg_step : ustep dirs rl c s s1;
  sg_free : rl pp = RFree;
  sg_page : umap (mem s1) d (PDX tmp) (PTX tmp) = Some (mkpte (pp * PGSIZE) private_perm);
  sg_maps : same_umap_but dirs s s1 (d, PDX tmp, PTX tmp);
  sg_zero : forall k, 0 <= k < 1024 -> word (mem s1) pp k = 0 }.

(** Since [s], nothing happened that any program can see. *)
Record refused (s1 : kst) (rl1 : Z -> role) : Prop := {
  rf_ready : ready s1 c dirs rl1 d;
  rf_env : uframe s s1 c;
  rf_maps : forall x i j, x ∈ dirs -> 0 <= i < NUPDE -> 0 <= j < NPTENTRIES -> umap (mem s1) x i j = umap (mem s) x i j;
  rf_data : forall p k, mapped dirs s p -> 0 <= k < 1024 -> word (mem s1) p k = word (mem s) p k }.

Lemma was_user p : mapped dirs s p -> rl p = RUser.
Proof. apply (mapped_user s dirs rl None). apply (iu_sys _ _ _ _ (re_user _ _ _ _ _ Hr)). Qed.

Lemma stage_run :
  (exists s1 rl1, sys_page_alloc 0 tmp private_perm s = Ret (inl (- E_NO_MEM)) s1 /\ refused s1 rl1 /\ nearly_full s1) \/
  (exists pp s1 rl1, sys_page_alloc 0 tmp private_perm s = Ret (inl 0) s1 /\ staged pp s1 rl1).
Proof.
  pose proof (re_user _ _ _ _ _ Hr) as Hu. pose proof (re_dir _ _ _ _ _ Hr) as Hd.
  destruct (u_page_alloc Hcs s c dirs rl 0 c d tmp private_perm Hu (names_self _ _ _ _ Hu) Hd (re_pgdir _ _ _ _ _ Hr)
    ltac:(lia) (proj1 Ht) ltac:(done) (aligned_ok tmp Ht Mt) eq_refl)
    as (r & s1 & rl1 & Hrun & Hu1 & Hs1 & [(-> & Hnf & Hm) | (-> & pp & Hpp & Hnew & Hz & Hoth)]).
  - left. exists s1, rl1. split; [done|]. split; [|done]. constructor; [| apply Hs1 | done |].
    + exact (ready_ustep _ _ _ _ _ _ _ _ Hr Hu1 Hs1).
    + intros p k Hp Hk. apply (us_data _ _ _ _ _ Hs1); [left; by apply was_user | done].
  - right. by exists pp, s1, rl1.
Qed.

Section filled.
Context (pp : Z) (s1 : kst) (rl1 : Z -> role) (Hg : staged pp s1 rl1).

Lemma staged_range : 0 <= pp < npages s.
Proof.
  apply (vi_range _ _ _ _ (si_vm _ _ _ (iu_sys _ _ _ _ (re_user _ _ _ _ _ Hr)))).
  by rewrite (sg_free _ _ _ Hg).
Qed.
Lemma staged_pte : mkpte (pp * PGSIZE) private_perm / PGSIZE = pp /\
  has (mkpte (pp * PGSIZE) private_perm) PTE_U = true /\ has (mkpte (pp * PGSIZE) private_perm) PTE_W = true.
Proof.
  destruct (mkpte_facts pp private_perm (proj1 staged_range) ltac:(done)) as (E & HU & HW). auto.
Qed.
Lemma staged_fresh : ~ mapped dirs s pp.
Proof.
  intros Hm. pose proof (mapped_user _ _ _ _ _ (si_vm _ _ _ (iu_sys _ _ _ _ (re_user _ _ _ _ _ Hr))) Hm) as Hp.
  by rewrite (sg_free _ _ _ Hg) in Hp.
Qed.
Lemma staged_ready : ready s1 c dirs rl1 d.
Proof. exact (ready_ustep _ _ _ _ _ _ _ _ Hr (sg_user _ _ _ Hg) (sg_step _ _ _ Hg)). Qed.
Lemma staged_role : rl1 pp = RUser.
Proof.
  pose proof (owns_role c dirs rl1 d (re_dir _ _ _ _ _ Hr) s1 tmp _ (ready_owns _ _ _ _ _ staged_ready) Ht
    (sg_page _ _ _ Hg)) as Hp.
  by rewrite (proj1 staged_pte) in Hp.
Qed.

(** The new page has one mapping. *)
Lemma staged_ref : pp_ref (pages s1 !!! pp) + 1 < 2 ^ 16.
Proof.
  pose proof (si_vm _ _ _ (iu_sys _ _ _ _ (re_user _ _ _ _ _ Hr))) as Hvm.
  pose proof (si_vm _ _ _ (iu_sys _ _ _ _ (sg_user _ _ _ Hg))) as Hvm1.
  destruct (vi_user_ref _ _ _ _ Hvm1 pp staged_role) as [-> _].
  pose proof (ucount_one_more dirs s s1 d (PDX tmp) (PTX tmp) pp _ _ _ _ Hvm Hvm1 (re_dir _ _ _ _ _ Hr)
    (PDX_user tmp Ht) (PTX_range tmp) (sg_maps _ _ _ Hg)) as Hle.
  assert (ucount (mem s) dirs pp = 0) as Hz; [|lia]. apply ucount_zero. intros x i j Hx Hxi Hxj Hup.
  rewrite upage_umap in Hup. destruct (umap (mem s) x i j) as [w|] eqn:Ew; [|done]. injection Hup as Hup.
  apply staged_fresh. exists x, i, j, w. by rewrite Hup.
Qed.

(** ** Filled and handed over *)

Context (m2 : memory) (Ho : page_only pp (mem s1) m2).
Let s2 : kst := s1 <| mem := m2 |>.

Lemma filled_ready : ready s2 c dirs rl1 d.
Proof. apply (ready_words s1 m2 c dirs rl1 d staged_ready). exact (page_only_user _ _ _ _ Ho staged_role). Qed.

Lemma filled_umap x i j : x ∈ dirs -> 0 <= i < NUPDE -> 0 <= j < NPTENTRIES -> umap m2 x i j = umap (mem s1) x i j.
Proof.
  intros Hx Hi Hj. exact (page_only_umap pp s1 m2 c dirs rl1 d i j x (ready_owns _ _ _ _ _ staged_ready) staged_role Ho Hi Hj Hx).
Qed.

(** Every page that was mapped has its contents, whichever state it is mapped in. *)
Lemma filled_data p k : mapped dirs s p -> p <> pp -> 0 <= k < 1024 -> word m2 p k = word (mem s) p k.
Proof.
  intros Hp Hne Hk. rewrite Ho by done. apply (us_data _ _ _ _ _ (sg_step _ _ _ Hg)); [left | done].
  by eapply mapped_user; [apply (iu_sys _ _ _ _ (re_user _ _ _ _ _ Hr))|].
Qed.

(** [pp] is at [va] of directory [dd] and nowhere else that is new. *)
Record handed (dd va perm : Z) (s' : kst) : Prop := {
  hd_env : uframe s s' c;
  hd_fresh : ~ mapped dirs s pp;
  hd_page : umap (mem s') dd (PDX va) (PTX va) = Some (mkpte (pp * PGSIZE) perm);
  hd_temp : umap (mem s') d (PDX tmp) (PTX tmp) = None;
  hd_maps : forall x i j, x ∈ dirs -> 0 <= i < NUPDE -> 0 <= j < NPTENTRIES ->
    (x, i, j) <> (dd, PDX va, PTX va) -> (x, i, j) <> (d, PDX tmp, PTX tmp) ->
    umap (mem s') x i j = umap (mem s) x i j;
  hd_data : forall p k, mapped dirs s' p -> p <> pp -> 0 <= k < 1024 -> word (mem s') p k = word (mem s) p k }.

Context (denv e dd va perm : Z) (Hn : names s c denv true e) (Wd : 0 <= denv < 2 ^ 31).
Context (Hdd : dd ∈ dirs) (Hed : env_pgdir (envs s !!! e) = kva dd).
Context (Hva : 0 <= va < UTOP) (Mva : va mod PGSIZE = 0) (Hne : (dd, PDX va, PTX va) <> (d, PDX tmp, PTX tmp)).
Context (Hp0 : 0 <= perm) (Hbp : bad_perm perm = false).

Lemma filled_names : names s2 c denv true e /\ env_pgdir (envs s2 !!! e) = kva dd.
Proof.
  pose proof (us_frame _ _ _ _ _ (sg_step _ _ _ Hg)) as Hf. split.
  - by apply (uframe_names _ _ _ _ _ _ Hf).
  - change (env_pgdir (envs s1 !!! e) = kva dd). by rewrite (proj1 (uframe_env _ _ _ e Hf)).
Qed.

Lemma handed_data s3 s4 rl3 : in_user s3 c dirs rl3 ->
  keeps_data rl1 s2 s3 -> same_umap_but dirs s2 s3 (dd, PDX va, PTX va) ->
  keeps_data rl3 s3 s4 -> same_umap_but dirs s3 s4 (d, PDX tmp, PTX tmp) ->
  umap (mem s4) d (PDX tmp) (PTX tmp) = None -> umap (mem s4) dd (PDX va) (PTX va) = Some (mkpte (pp * PGSIZE) perm) ->
  (forall p k, mapped dirs s4 p -> p <> pp -> 0 <= k < 1024 -> word (mem s4) p k = word (mem s) p k) /\
  forall k, 0 <= k < 1024 -> word (mem s4) pp k = word m2 pp k.
Proof.
  intros Hu3 D3 O3 D4 O4 Hn4 Hp4. destruct (bad_perm_range perm Hp0 Hbp) as [Hpr _].
  destruct (mkpte_facts pp perm (proj1 staged_range) Hpr) as (Epp & _).
  assert (Hrole : forall t r x i j v, in_user t c dirs r -> x ∈ dirs -> 0 <= i < NUPDE -> 0 <= j < NPTENTRIES ->
    umap (mem t) x i j = Some v -> r (v / PGSIZE) = RUser).
  { intros t r x i j v Hu Hx Hi Hj Et. eapply mapped_user; [apply (iu_sys _ _ _ _ Hu)|]. by exists x, i, j, v. }
  pose proof (re_user _ _ _ _ _ filled_ready) as Hu2. split.
  - intros p k (x & i & j & v0 & Hx & Hi & Hj & Hum & ->) Hpp Hk.
    assert (Hne1 : (x, i, j) <> (d, PDX tmp, PTX tmp)) by (intros [= -> -> ->]; congruence).
    assert (Hne2 : (x, i, j) <> (dd, PDX va, PTX va)).
    { intros [= -> -> ->]. rewrite Hum in Hp4. injection Hp4 as ->. done. }
    rewrite (O4 _ _ _ Hx Hi Hj Hne1) in Hum.
    rewrite (D4 _ k (or_introl (Hrole s3 rl3 x i j v0 Hu3 Hx Hi Hj Hum)) Hk).
    rewrite (O3 _ _ _ Hx Hi Hj Hne2) in Hum.
    rewrite (D3 _ k (or_introl (Hrole s2 rl1 x i j v0 Hu2 Hx Hi Hj Hum)) Hk).
    apply filled_data; [|done..]. exists x, i, j, v0. split_and!; try done; try lia.
    rewrite <- (sg_maps _ _ _ Hg) by done. rewrite <- filled_umap by done. exact Hum.
  - intros k Hk. pose proof (PDX_user va Hva) as Hi. pose proof (PTX_range va) as Hj.
    rewrite D4, D3; [done | by left; apply staged_role | done | | done].
    left. rewrite (O4 _ _ _ Hdd Hi Hj Hne) in Hp4.
    pose proof (Hrole s3 rl3 _ _ _ _ Hu3 Hdd Hi Hj Hp4) as Hro. by rewrite Epp in Hro.
Qed.

(** The page is mapped at its place and taken from the temporary one, or there is no
    memory for a page table. *)
Lemma hand_over :
  (exists s3, sys_page_map 0 tmp denv va perm s2 = Ret (inl (- E_NO_MEM)) s3 /\ in_user s3 c dirs rl1 /\
     ustep dirs rl1 c s2 s3 /\ mem s3 = m2 /\ nearly_full s3) \/
  (exists s3 s4 rl4, sys_page_map 0 tmp denv va perm s2 = Ret (inl 0) s3 /\ sys_page_unmap 0 tmp s3 = Ret (inl 0) s4 /\
     ready s4 c dirs rl4 d /\ handed dd va perm s4 /\ forall k, 0 <= k < 1024 -> word (mem s4) pp k = word m2 pp k).
Proof.
  pose proof (re_dir _ _ _ _ _ Hr) as Hd. pose proof filled_ready as Hr2. pose proof (re_user _ _ _ _ _ Hr2) as Hu2.
  destruct filled_names as [Hn2 Hed2]. destruct staged_pte as (Epp & HU & HW).
  pose proof (aligned_ok tmp Ht Mt) as Bt. pose proof (aligned_ok va Hva Mva) as Bva.
  pose proof (PDX_user tmp Ht) as Hti. pose proof (PTX_range tmp) as Htj.
  pose proof (PDX_user va Hva) as Hi. pose proof (PTX_range va) as Hj.
  assert (Hnew2 : umap (mem s2) d (PDX tmp) (PTX tmp) = Some (mkpte (pp * PGSIZE) private_perm))
    by (etransitivity; [by apply filled_umap | exact (sg_page _ _ _ Hg)]).
  destruct (u_page_map Hcs s2 c dirs rl1 0 c d tmp _ denv e dd va perm Hu2 (names_self _ _ _ _ Hu2) Hn2 Hd Hdd
    (re_pgdir _ _ _ _ _ Hr2) Hed2 ltac:(lia) Wd (proj1 Ht) (proj1 Hva) Hp0 Bt Bva Hbp Hnew2 (fun _ => HW)
    ltac:(rewrite Epp; exact staged_ref))
    as [(s3 & Hrun3 & Hu3 & Hnf & Hs3 & Hm3) | (s3 & rl3 & Hrun3 & Hu3 & Hs3 & _ & Hnew3 & Ho3)].
  { left. by exists s3. }
  right. rewrite Epp in Hnew3. pose proof (ready_ustep _ _ _ _ _ _ _ _ Hr2 Hu3 Hs3) as Hr3.
  destruct (u_page_unmap Hcs s3 c dirs rl3 0 c d tmp Hu3 (names_self _ _ _ _ Hu3) Hd (re_pgdir _ _ _ _ _ Hr3)
    ltac:(lia) (proj1 Ht) Bt) as (s4 & rl4 & Hrun4 & Hu4 & Hs4 & _ & Hgone & Ho4).
  assert (Hlast : umap (mem s4) dd (PDX va) (PTX va) = Some (mkpte (pp * PGSIZE) perm))
    by (rewrite (Ho4 _ _ _ Hdd Hi Hj Hne); exact Hnew3).
  destruct (handed_data s3 s4 rl3 Hu3 (us_data _ _ _ _ _ Hs3) Ho3 (us_data _ _ _ _ _ Hs4) Ho4 Hgone Hlast) as [Hdata Hpage].
  exists s3, s4, rl4. split; [done|]. split; [done|]. split; [exact (ready_ustep _ _ _ _ _ _ _ _ Hr3 Hu4 Hs4)|].
  split; [|exact Hpage]. constructor; [| exact staged_fresh | exact Hlast | exact Hgone | | exact Hdata].
  - eapply uframe_trans; [exact (us_frame _ _ _ _ _ (sg_step _ _ _ Hg))|].
    eapply uframe_trans; [|exact (us_frame _ _ _ _ _ Hs4)].
    eapply uframe_trans; [|exact (us_frame _ _ _ _ _ Hs3)]. by constructor.
  - intros x i j Hx Hxi Hxj Hxv Hxt.
    rewrite (Ho4 x i j Hx Hxi Hxj Hxt), (Ho3 x i j Hx Hxi Hxj Hxv), <- (sg_maps _ _ _ Hg) by done.
    by apply filled_umap.
Qed.
(** When it cannot be mapped, the page is given back. *)
Lemma taken_back s3 : umap (mem s) d (PDX tmp) (PTX tmp) = None -> in_user s3 c dirs rl1 -> ustep dirs rl1 c s2 s3 -> mem s3 = m2 ->
  exists s4 rl4, sys_page_unmap 0 tmp s3 = Ret (inl 0) s4 /\ refused s4 rl4.
Proof.
  intros Hempty Hu3 Hs3 Hm3. pose proof (re_dir _ _ _ _ _ Hr) as Hd.
  pose proof (ready_ustep _ _ _ _ _ _ _ _ filled_ready Hu3 Hs3) as Hr3.
  destruct (u_page_unmap Hcs s3 c dirs rl1 0 c d tmp Hu3 (names_self _ _ _ _ Hu3) Hd (re_pgdir _ _ _ _ _ Hr3)
    ltac:(lia) (proj1 Ht) (aligned_ok tmp Ht Mt)) as (s4 & rl4 & Hrun4 & Hu4 & Hs4 & _ & Hgone & Ho4).
  exists s4, rl4. split; [done|].
  assert (Hmap : forall x i j, x ∈ dirs -> 0 <= i < NUPDE -> 0 <= j < NPTENTRIES ->
    (x, i, j) <> (d, PDX tmp, PTX tmp) -> umap (mem s4) x i j = umap (mem s) x i j /\ umap (mem s1) x i j = umap (mem s) x i j).
  { intros x i j Hx Hi Hj Hne'. pose proof (sg_maps _ _ _ Hg x i j Hx Hi Hj Hne') as E1. split; [|exact E1].
    rewrite (Ho4 x i j Hx Hi Hj Hne'), Hm3, filled_umap by done. exact E1. }
  constructor.
  - exact (ready_ustep _ _ _ _ _ _ _ _ Hr3 Hu4 Hs4).
  - eapply uframe_trans; [exact (us_frame _ _ _ _ _ (sg_step _ _ _ Hg))|].
    eapply uframe_trans; [|exact (us_frame _ _ _ _ _ Hs4)].
    eapply uframe_trans; [|exact (us_frame _ _ _ _ _ Hs3)]. by constructor.
  - intros x i j Hx Hi Hj. destruct (decide ((x, i, j) = (d, PDX tmp, PTX tmp))) as [[= -> -> ->] | Hne']; [congruence|].
    by apply Hmap.
  - intros p k Hp Hk. assert (Hpp : p <> pp) by (intros ->; by apply staged_fresh).
    rewrite (us_data _ _ _ _ _ Hs4), Hm3; [by apply filled_data | | done]. left.
    destruct Hp as (x & i & j & v & Hx & Hi & Hj & Hum & ->).
    assert (Hne' : (x, i, j) <> (d, PDX tmp, PTX tmp)) by (intros [= -> -> ->]; congruence).
    eapply mapped_user; [apply (iu_sys _ _ _ _ (sg_user _ _ _ Hg))|]. exists x, i, j, v.
    split_and!; try done; try lia. by rewrite (proj2 (Hmap x i j Hx Hi Hj Hne')).
Qed.
End filled.
End staging.
End page.
