(* ===== verification/Pgfault.v ===== *)
(** * The page-fault handler of copy-on-write programs

    [set_pgfault_handler] gives the program an exception stack and an upcall; [pgfault]
    replaces a copy-on-write page by a private copy. *)

From S2P Require Import Prelude Mem CString Mmu KState Printf Pmap VmInv VmSpec VmLife Environ Sched Syscall Trap EnvInv EnvFree SchedSpec UserMem SysSpec User UserSpec UserVm UserEnv Fork ForkSpec UserPage.

Lemma PFTEMP_va : 0 <= PFTEMP < UTOP /\ PFTEMP mod PGSIZE = 0 /\ bad_va PFTEMP = false.
Proof. by vm_compute. Qed.
Lemma UXSTACK_va : 0 <= UXSTACK < UTOP /\ UXSTACK mod PGSIZE = 0 /\ bad_va UXSTACK = false.
Proof. by vm_compute. Qed.

Section handler.
Context `{Devices} `{TrapDevices} `{Program} (Hcs : Z.land (tf_cs saved_regs) 3 = 3).

(** ** [pgfault] *)

(** Page [va] of directory [d], which held [v], is now the private page [pp]. *)
Record unshared (dirs : list Z) (c d va v pp : Z) (s s' : kst) : Prop := {
  un_page : handed s c dirs d PFTEMP pp d va private_perm s';
  un_copy : forall k, 0 <= k < 1024 -> word (mem s') pp k = word (mem s) (v / PGSIZE) k }.

(** The copy of the old page into the fresh one. *)
Lemma copy_staged s s1 c dirs rl rl1 d va v pp :
  ready s c dirs rl d -> staged s c dirs rl d PFTEMP pp s1 rl1 -> 0 <= va < UTOP -> va mod PGSIZE = 0 -> va <> PFTEMP ->
  umap (mem s) d (PDX va) (PTX va) = Some v -> has v PTE_U = true ->
  exists m2, umemmove PFTEMP va PGSIZE s1 = Ret (inl tt) (s1 <| mem := m2 |>) /\ page_only pp (mem s1) m2 /\
    forall k, 0 <= k < 1024 -> word m2 pp k = word (mem s) (v / PGSIZE) k.
Proof.
  intros Hr Hg Hva Mva Hnt Hum HU. destruct PFTEMP_va as (Ht & Mt & _). pose proof (re_dir _ _ _ _ _ Hr) as Hd.
  pose proof (slot_ne va PFTEMP Hva Ht Mva Mt Hnt) as Hslot.
  destruct (staged_pte s c dirs rl d PFTEMP Hr pp s1 rl1 Hg) as (Epp & HpU & HpW).
  assert (Hum1 : umap (mem s1) d (PDX va) (PTX va) = Some v).
  { rewrite (sg_maps _ _ _ _ _ _ _ _ _ Hg); [exact Hum | exact Hd | by apply PDX_user | apply PTX_range |].
    intros [= E1 E2]. apply Hslot. by rewrite E1, E2. }
  pose proof (mapped_va dirs s d va v Hd Hva Hum) as Hmv.
  assert (Hvp : v / PGSIZE <> pp).
  { intros Heq. apply (staged_fresh s c dirs rl d PFTEMP Hr pp s1 rl1 Hg). by rewrite <- Heq. }
  destruct (umemmove_page c dirs rl1 d Hd PFTEMP va _ v Ht Hva Mt Mva s1
    (ready_owns _ _ _ _ _ (staged_ready s c dirs rl d PFTEMP Hr pp s1 rl1 Hg)) Hum1 HU (sg_page _ _ _ _ _ _ _ _ _ Hg)
    HpU HpW ltac:(by rewrite Epp)) as (m2 & Hrun2 & Hc). rewrite Epp in Hc.
  exists m2. split; [exact Hrun2|]. split.
  - intros q k Hq Hk. rewrite Hc by done. by rewrite (proj2 (Z.eqb_neq q pp) Hq).
  - intros k Hk. rewrite Hc by done. rewrite Z.eqb_refl, (proj2 (Z.ltb_lt k 1024)) by lia. cbn [andb].
    apply (us_data _ _ _ _ _ (sg_step _ _ _ _ _ _ _ _ _ Hg)); [left | exact Hk].
    eapply mapped_user; [apply (iu_sys _ _ _ _ (re_user _ _ _ _ _ Hr)) | exact Hmv].
Qed.

(** Once there is a fresh page at [PFTEMP]: the copy, and the page moved to its place. *)
Lemma unshare_run s s1 c dirs rl rl1 d va v pp :
  ready s c dirs rl d -> staged s c dirs rl d PFTEMP pp s1 rl1 -> 0 <= va < UTOP -> va mod PGSIZE = 0 -> va <> PFTEMP ->
  umap (mem s) d (PDX va) (PTX va) = Some v -> has v PTE_U = true ->
  let m := umemmove PFTEMP va PGSIZE;;
    r ← sys_page_map 0 PFTEMP 0 va private_perm;
    if r <? 0 then user_panic "pgfault: page map failed: %e"
    else
      r ← sys_page_unmap 0 PFTEMP;
      if r <? 0 then user_panic "pgfault: page unmap failed: %e" else mret tt in
  out_of_memory m s1 c dirs \/
  exists s' rl', m s1 = Ret (inl tt) s' /\ in_user s' c dirs rl' /\ unshared dirs c d va v pp s s'.
Proof.
  intros Hr Hg Hva Mva Hnt Hum HU m. unfold m, out_of_memory. clear m. destruct PFTEMP_va as (Ht & Mt & _).
  destruct (copy_staged s s1 c dirs rl rl1 d va v pp Hr Hg Hva Mva Hnt Hum HU) as (m2 & Hrun2 & Ho & Hc).
  rewrite (lbind_run _ _ _ _ _ Hrun2).
  assert (Hne : (d, PDX va, PTX va) <> (d, PDX PFTEMP, PTX PFTEMP)).
  { intros [= E1 E2]. apply (slot_ne va PFTEMP Hva Ht Mva Mt Hnt). by rewrite E1, E2. }
  pose proof (re_user _ _ _ _ _ Hr) as Hu.
  destruct (hand_over Hcs s c dirs rl d PFTEMP Hr Ht Mt pp s1 rl1 Hg m2 Ho 0 c d va private_perm (names_self _ _ _ _ Hu)
    ltac:(lia) (re_dir _ _ _ _ _ Hr) (re_pgdir _ _ _ _ _ Hr) Hva Mva Hne ltac:(done) eq_refl)
    as [(s3 & Hrun3 & Hu3 & _ & _ & Hnf) | (s3 & s4 & rl4 & Hrun3 & Hrun4 & Hr4 & Hh & Hp)];
    rewrite (lbind_run _ _ _ _ _ Hrun3); [left; by eexists _, s3, rl1|].
  right. change (0 <? 0) with false. cbv iota. rewrite (lbind_run _ _ _ _ _ Hrun4). exists s4, rl4.
  split; [done|]. split; [exact (re_user _ _ _ _ _ Hr4)|]. constructor; [exact Hh|].
  intros k Hk. rewrite Hp by done. by apply Hc.
Qed.

(** A copy-on-write fault: the page becomes private, or there is no memory. *)
Lemma pgfault_run s c dirs rl d addr err v :
  ready s c dirs rl d -> 0 <= addr < UTOP -> let va := addr - addr mod PGSIZE in va <> PFTEMP ->
  umap (mem s) d (PDX va) (PTX va) = Some v -> has v PTE_U = true -> has v PTE_COW = true -> Z.land err FEC_WR <> 0 ->
  out_of_memory (pgfault addr err) s c dirs \/
  exists s' rl' pp, pgfault addr err s = Ret (inl tt) s' /\ in_user s' c dirs rl' /\ unshared dirs c d va v pp s s'.
Proof.
  intros Hr Haddr va Hnt Hum HU HC Herr. destruct PFTEMP_va as (Ht & Mt & Bt).
  assert (Hva : 0 <= va < UTOP /\ va mod PGSIZE = 0 /\ ROUNDDOWN addr PGSIZE = va).
  { unfold va. change UTOP with 4005560320 in *. rewrite ROUNDDOWN_spec by (unfold PGSIZE; lia).
    unfold PGSIZE in *. zlia. }
  destruct Hva as (Hva & Mva & Erd). pose proof (aligned_ok va Hva Mva) as Bva.
  pose proof (slot_ne va PFTEMP Hva Ht Mva Mt Hnt) as Hslot.
  assert (Hpn : PDX addr = PDX va /\ PTX addr = PTX va).
  { destruct (va_plus va (addr mod PGSIZE) Hva Mva ltac:(unfold PGSIZE; zlia)) as (_ & E1 & E2 & _).
    unfold va in E1, E2 at 1. by rewrite Z.sub_add in E1, E2. }
  destruct Hpn as [EX ET]. rewrite <- EX, <- ET in Hum.
  pose proof (uvpt_ready s c dirs rl d addr v Hr Haddr Hum) as Hld. rewrite EX, ET in Hum.
  pose proof (re_user _ _ _ _ _ Hr) as Hu. pose proof (re_dir _ _ _ _ _ Hr) as Hd.
  assert (Hopen : pgfault addr err s = (r ← sys_page_alloc 0 PFTEMP private_perm;
    if r <? 0 then user_panic "pgfault: page alloc failed: %e"
    else
      umemmove PFTEMP va PGSIZE;;
      r ← sys_page_map 0 PFTEMP 0 va private_perm;
      if r <? 0 then user_panic "pgfault: page map failed: %e"
      else
        r ← sys_page_unmap 0 PFTEMP;
        if r <? 0 then user_panic "pgfault: page unmap failed: %e" else mret tt) s).
  { unfold pgfault. rewrite (proj2 (Z.eqb_neq _ _) Herr), Erd, lbind_assoc. lrw Hld. lb. by rewrite HC. }
  unfold out_of_memory. rewrite Hopen. clear Hopen.
  destruct (stage_run Hcs s c dirs rl d PFTEMP Hr Ht Mt) as [(s1 & rl1 & Hrun & Hrf & Hnf) | (pp & s1 & rl1 & Hrun & Hg)];
    rewrite (lbind_run _ _ _ _ _ Hrun).
  { left. eexists _, s1, rl1. split; [done|]. split; [|exact Hnf]. apply (rf_ready _ _ _ _ _ _ Hrf). }
  change (0 <? 0) with false. cbv iota.
  destruct (unshare_run s s1 c dirs rl rl1 d va v pp Hr Hg Hva Mva Hnt Hum HU)
    as [Hoom | (s' & rl' & Hrun' & Hu' & Hun)]; [left; exact Hoom|].
  right. exists s', rl', pp. split; [exact Hrun'|]. split; [exact Hu' | exact Hun].
Qed.

(** ** [set_pgfault_handler] *)

(** The variable [_pgfault_handler]: word [hk] of the page at [hp], mapped by [vh]. *)
Record has_var (s : kst) (d hp hk vh : Z) : Prop := {
  hv_addr : handler_var = hp + 4 * hk;
  hv_page : 0 <= hp < UTOP /\ hp mod PGSIZE = 0 /\ 0 <= hk < 1024;
  hv_slot : hp <> UXSTACK;
  hv_map : umap (mem s) d (PDX hp) (PTX hp) = Some vh;
  hv_user : has vh PTE_U = true;
  hv_write : has vh PTE_W = true }.

(** The first time, the exception stack [pp] is made and the upcall set; every time, the
    variable is assigned. *)
Record handler_set (dirs : list Z) (c d hk vh handler : Z) (s s' : kst) : Prop := {
  hs_var : word (mem s') (vh / PGSIZE) hk = handler;
  hs_data : forall p k, mapped dirs s p -> mapped dirs s' p -> (p, k) <> (vh / PGSIZE, hk) -> 0 <= k < 1024 ->
    word (mem s') p k = word (mem s) p k;
  hs_others : forall x, x <> c -> envs s' !!! x = envs s !!! x;
  hs_maps : same_umap_but dirs s s' (d, PDX UXSTACK, PTX UXSTACK);
  hs_stack : if word (mem s) (vh / PGSIZE) hk =? 0 then
      (exists pp, ~ mapped dirs s pp /\ (forall k, 0 <= k < 1024 -> word (mem s') pp k = 0) /\
        umap (mem s') d (PDX UXSTACK) (PTX UXSTACK) = Some (mkpte (pp * PGSIZE) (Z.lor (Z.lor PTE_AVAIL PTE_U) PTE_W))) /\
      same_env ((envs s !!! c) <| env_pgfault_upcall := upcall_fn |>) (envs s' !!! c)
    else umap (mem s') d (PDX UXSTACK) (PTX UXSTACK) = umap (mem s) d (PDX UXSTACK) (PTX UXSTACK) /\
      envs s' !!! c = envs s !!! c }.

Lemma store_var s c dirs rl d hp hk vh w :
  ready s c dirs rl d -> has_var s d hp hk vh -> word32 w ->
  exists m', ustore32 handler_var w s = Ret (inl tt) (s <| mem := m' |>) /\ ready (s <| mem := m' |>) c dirs rl d /\
    (forall q k, 0 <= k < 1024 -> word m' q k = if (q =? vh / PGSIZE) && (k =? hk) then w else word (mem s) q k) /\
    user_words rl (mem s) m'.
Proof.
  intros Hr [Hv (Hp & Hm & Hk) _ Hum HU HW] Ww. pose proof (ready_owns _ _ _ _ _ Hr) as Ho.
  pose proof (re_dir _ _ _ _ _ Hr) as Hd. pose proof (owns_role c dirs rl d Hd s hp vh Ho Hp Hum) as Hrole.
  exists (st32 (mem s) (kva (vh / PGSIZE) + 4 * hk) w). rewrite Hv.
  split; [exact (ustore_run c dirs rl d Hd s hp vh hk w Ho Hp Hm Hk Hum HU HW)|].
  pose proof (st32_user rl _ hk w (mem s) Hrole Hk) as Hw.
  split; [by apply ready_words|]. split; [|exact Hw]. intros q k Hkr. rewrite word_st32 by done.
  by rewrite (w32_small w) by done.
Qed.

Lemma load_var s c dirs rl d hp hk vh :
  ready s c dirs rl d -> has_var s d hp hk vh ->
  uload32 handler_var s = Ret (inl (word (mem s) (vh / PGSIZE) hk)) s.
Proof.
  intros Hr [Hv (Hp & Hm & Hk) _ Hum HU HW]. rewrite Hv.
  exact (uload_run c dirs rl d (re_dir _ _ _ _ _ Hr) s hp vh hk (ready_owns _ _ _ _ _ Hr) Hp Hm Hk Hum HU).
Qed.

(** The exception stack and the upcall, made the first time. *)
Lemma make_stack_run s c dirs rl d :
  ready s c dirs rl d -> word32 upcall_fn ->
  let m := r ← sys_page_alloc 0 UXSTACK (Z.lor (Z.lor PTE_AVAIL PTE_U) PTE_W);
    if r <? 0 then user_panic "set_pgfault_handler: %e"
    else r ← sys_env_set_pgfault_upcall 0 upcall_fn;
         if r <? 0 then user_panic "set_pgfault_handler: %e" else mret tt in
  out_of_memory m s c dirs \/
  exists s' rl' pp, m s = Ret (inl tt) s' /\ ready s' c dirs rl' d /\ keeps_data rl s s' /\ rl pp = RFree /\
    (forall x, x <> c -> envs s' !!! x = envs s !!! x) /\
    same_env ((envs s !!! c) <| env_pgfault_upcall := upcall_fn |>) (envs s' !!! c) /\
    same_umap_but dirs s s' (d, PDX UXSTACK, PTX UXSTACK) /\
    umap (mem s') d (PDX UXSTACK) (PTX UXSTACK) = Some (mkpte (pp * PGSIZE) (Z.lor (Z.lor PTE_AVAIL PTE_U) PTE_W)) /\
    (forall k, 0 <= k < 1024 -> word (mem s') pp k = 0).
Proof.
  intros Hr Wup m. unfold m, out_of_memory. clear m. destruct UXSTACK_va as (Hx & _ & Hbv).
  pose proof (re_user _ _ _ _ _ Hr) as Hu. pose proof (re_dir _ _ _ _ _ Hr) as Hd.
  destruct (u_page_alloc Hcs s c dirs rl 0 c d UXSTACK (Z.lor (Z.lor PTE_AVAIL PTE_U) PTE_W) Hu (names_self _ _ _ _ Hu) Hd
    (re_pgdir _ _ _ _ _ Hr) ltac:(lia) (proj1 Hx) ltac:(done) Hbv eq_refl)
    as (r & s1 & rl1 & Hrun & Hu1 & Hs1 & [(-> & Hnf & _) | (-> & pp & Hpp & Hnew & Hz & Hoth)]);
    rewrite (lbind_run _ _ _ _ _ Hrun).
  { left. by eexists _, s1, rl1. }
  right. change (0 <? 0) with false. cbv iota. pose proof (ready_ustep _ _ _ _ _ _ _ _ Hr Hu1 Hs1) as Hr1.
  destruct (u_set_upcall Hcs s1 c dirs rl1 0 c upcall_fn Hu1 (names_self _ _ _ _ Hu1) ltac:(lia) Wup)
    as (s2 & Hrun2 & Hu2 & F2 & M2 & _).
  rewrite (lbind_run _ _ _ _ _ Hrun2). change (0 <? 0) with false. cbv iota.
  assert (Hself : same_env ((envs s1 !!! c) <| env_pgfault_upcall := upcall_fn |>) (envs s2 !!! c)).
  { pose proof (uf_self _ _ _ F2) as Hs. simpl in Hs. by rewrite lookup_total_insert_eq in Hs. }
  exists s2, rl1, pp. split; [done|]. unfold same_umap_but, keeps_data. rewrite M2. split; [|split_and!; try done].
  - destruct Hr1 as [_ _ He Hp Hself1]. constructor; try done.
    + by rewrite (proj1 (same_env_fields _ _ Hself)).
    + intros x i. rewrite M2. apply Hp.
    + unfold selfmap. by rewrite M2.
  - exact (us_data _ _ _ _ _ Hs1).
  - intros x Hne. rewrite (with_env_off _ _ _ _ _ x F2 Hne Hne). by rewrite (uf_other _ _ _ (us_frame _ _ _ _ _ Hs1)).
  - etransitivity; [|exact Hself]. destruct (uf_self _ _ _ (us_frame _ _ _ _ _ Hs1)) as (tf & r & n & ->).
    by exists tf, r, n.
Qed.

Lemma set_handler_run s c dirs rl d hp hk vh handler :
  ready s c dirs rl d -> has_var s d hp hk vh -> word32 handler -> word32 upcall_fn ->
  out_of_memory (set_pgfault_handler handler) s c dirs \/
  exists s' rl', set_pgfault_handler handler s = Ret (inl tt) s' /\ ready s' c dirs rl' d /\
    handler_set dirs c d hk vh handler s s'.
Proof.
  intros Hr Hv Wh Wup. unfold set_pgfault_handler, out_of_memory.
  rewrite (lbind_run _ _ _ _ _ (load_var _ _ _ _ _ _ _ _ Hr Hv)).
  destruct (hv_page _ _ _ _ _ Hv) as (Hp & Hm & Hk). pose proof (re_dir _ _ _ _ _ Hr) as Hd.
  pose proof (re_user _ _ _ _ _ Hr) as Hu. destruct UXSTACK_va as (Hx & Mx & _).
  destruct (word (mem s) (vh / PGSIZE) hk =? 0) eqn:Eh.
  - destruct (make_stack_run s c dirs rl d Hr Wup) as [Hoom | (s1 & rl1 & pp & Hrun & Hr1 & D1 & Hpp & He & Hse & Ho & Hst & Hz)].
    { left. by apply oom_bind. }
    rewrite (lbind_run _ _ _ _ _ Hrun). right.
    assert (Hv1 : has_var s1 d hp hk vh).
    { destruct Hv. constructor; try done. rewrite Ho; [done | done | by apply PDX_user | apply PTX_range |].
      intros [= E1 E2]. apply (slot_ne hp UXSTACK Hp Hx Hm Mx hv_slot0). by rewrite E1, E2. }
    destruct (store_var s1 c dirs rl1 d hp hk vh handler Hr1 Hv1 Wh) as (m2 & Hrun2 & Hr2 & Hw & Huw).
    assert (Htab : forall x i j, x ∈ dirs -> 0 <= i < NUPDE -> 0 <= j < NPTENTRIES -> umap m2 x i j = umap (mem s1) x i j).
    { intros x i j Hxd Hi Hj. exact (owns_umap c dirs rl1 d s1 m2 i j (ready_owns _ _ _ _ _ Hr1) Huw Hi Hj x Hxd). }
    assert (Hfr : ~ mapped dirs s pp).
    { intros Hmp. pose proof (mapped_user _ _ _ _ _ (si_vm _ _ _ (iu_sys _ _ _ _ Hu)) Hmp). congruence. }
    assert (Hvp : mapped dirs s (vh / PGSIZE)) by (by eapply mapped_va, Hv).
    exists (s1 <| mem := m2 |>), rl1. split; [exact Hrun2|]. split; [exact Hr2|].
    constructor; simpl; try done.
    + rewrite Hw by done. by rewrite !Z.eqb_refl.
    + intros p k Hmp _ Hne Hkr. rewrite Hw by done.
      replace ((p =? vh / PGSIZE) && (k =? hk)) with false.
      * apply D1; [left; by eapply mapped_user; [apply (iu_sys _ _ _ _ Hu)|] | done].
      * symmetry. apply not_true_iff_false. rewrite andb_true_iff, !Z.eqb_eq. intros [-> ->]. done.
    + intros x i j Hxd Hi Hj Hne. simpl. rewrite Htab by done. by apply Ho.
    + rewrite Eh. split; [|exact Hse]. exists pp. split; [exact Hfr|]. split.
      * intros k Hkr. rewrite Hw by done. rewrite (proj2 (Z.eqb_neq pp (vh / PGSIZE))) by (intros ->; done). by apply Hz.
      * rewrite Htab; [exact Hst | exact Hd | by apply PDX_user | apply PTX_range].
  - right. rewrite lbind_ret.
    destruct (store_var s c dirs rl d hp hk vh handler Hr Hv Wh) as (m2 & Hrun2 & Hr2 & Hw & Huw).
    assert (Htab : forall x i j, x ∈ dirs -> 0 <= i < NUPDE -> 0 <= j < NPTENTRIES -> umap m2 x i j = umap (mem s) x i j).
    { intros x i j Hxd Hi Hj. exact (owns_umap c dirs rl d s m2 i j (ready_owns _ _ _ _ _ Hr) Huw Hi Hj x Hxd). }
    exists (s <| mem := m2 |>), rl. split; [exact Hrun2|]. split; [exact Hr2|]. constructor; simpl; try done.
    + rewrite Hw by done. by rewrite !Z.eqb_refl.
    + intros p k _ _ Hne Hkr. rewrite Hw by done.
      replace ((p =? vh / PGSIZE) && (k =? hk)) with false; [done|].
      symmetry. apply not_true_iff_false. rewrite andb_true_iff, !Z.eqb_eq. intros [-> ->]. done.
    + intros x i j Hxd Hi Hj Hne. simpl. by apply Htab.
    + rewrite Eh. split; [|done]. by apply Htab; [| apply PDX_user | apply PTX_range].
Qed.
End handler.
