(* ===== verification/ForkRun.v ===== *)
(** * What [fork] does

    The loop over the pages of the parent, and then the whole of [fork]. *)

From S2P Require Import Prelude Mem CString Mmu KState Printf Pmap VmInv VmSpec VmLife Environ Sched Syscall Trap EnvInv EnvFree SchedSpec UserMem SysSpec User UserSpec UserVm UserEnv Fork ForkSpec UserPage Pgfault.

(** ** The loop of [fork] over the pages of the parent

    The invariant of the loop: below the current address every page has been duplicated,
    above it the two address spaces are as they were. *)

(** The address of page [j] of slot [i]. *)
Definition page_addr (i j : Z) : Z := i * PTSIZE + j * PGSIZE.

Lemma page_addr_va va : 0 <= va < UTOP -> va mod PGSIZE = 0 -> page_addr (PDX va) (PTX va) = va.
Proof.
  change UTOP with 4005560320. intros Hva Hm. rewrite PDX_div, PTX_div by lia. unfold page_addr.
  change PTSIZE with 4194304. unfold PGSIZE, NPTENTRIES in *. zlia.
Qed.
Lemma page_addr_inj va i j : 0 <= va < UTOP -> va mod PGSIZE = 0 -> 0 <= i < NUPDE -> 0 <= j < NPTENTRIES ->
  page_addr i j = va -> i = PDX va /\ j = PTX va.
Proof.
  change UTOP with 4005560320. rewrite NUPDE_val. intros Hva Hm Hi Hj He. rewrite PDX_div, PTX_div by lia.
  unfold page_addr in He. change PTSIZE with 4194304 in *. unfold PGSIZE, NPTENTRIES in *. zlia.
Qed.
Lemma page_addr_range i j : 0 <= i < NUPDE -> 0 <= j < NPTENTRIES ->
  0 <= page_addr i j < UTOP /\ page_addr i j mod PGSIZE = 0.
Proof.
  change UTOP with 4005560320. rewrite NUPDE_val. unfold page_addr, PGSIZE, NPTENTRIES.
  change PTSIZE with 4194304. intros. zlia.
Qed.

(** The loop has passed page [j] of slot [i] when it is at [a]. *)
Definition passed (a i j : Z) : bool := (page_addr i j <? a) && negb (page_addr i j =? UXSTACK).

Lemma passed_next a i j : 0 <= a < UTOP -> a mod PGSIZE = 0 -> 0 <= i < NUPDE -> 0 <= j < NPTENTRIES ->
  passed (a + PGSIZE) i j = passed a i j || (page_addr i j =? a) && negb (a =? UXSTACK).
Proof.
  intros Ha Hm Hi Hj. destruct (page_addr_range i j Hi Hj) as [Hr Hp]. unfold passed.
  destruct (Z.eqb_spec (page_addr i j) a) as [-> | Hne].
  - rewrite (proj2 (Z.ltb_lt a (a + PGSIZE))) by (unfold PGSIZE; lia). rewrite Z.ltb_irrefl. done.
  - rewrite orb_false_r. f_equal. unfold PGSIZE in *.
    destruct (Z.ltb_spec (page_addr i j) (a + 4096)), (Z.ltb_spec (page_addr i j) a); (done || zlia).
Qed.

Lemma umap_bound m d i j v : umap m d i j = Some v -> 0 <= v.
Proof.
  unfold umap, upte. destruct (pt_of m d i) as [t|]; [|done]. case_match; [|done]. intros [= <-]. apply word_bound.
Qed.
Lemma umap_present m d i j v : umap m d i j = Some v -> has v PTE_P = true.
Proof. unfold umap. destruct (upte m d i j) as [w|]; [|done]. destruct (has w PTE_P) eqn:E; [|done]. by intros [= <-]. Qed.

Lemma cow_pte_page v : 0 <= v -> cow_pte v / PGSIZE = v / PGSIZE.
Proof.
  intros Hv. destruct (cow_perm_facts v) as (Hp & _).
  assert (0 <= v / PGSIZE) by (apply Z.div_pos; [done | unfold PGSIZE; lia]).
  pose proof (ent_mkpte (v / PGSIZE) (cow_perm v) Hp ltac:(lia)) as [_ He]%ent_Some. by symmetry.
Qed.

Section loop.
Context `{Devices} `{TrapDevices} `{Program} (Hcs : Z.land (tf_cs saved_regs) 3 = 3).
Context (b : kst) (c : Z) (dirs0 : list Z) (d e d' envid : Z).
Let dirs := d' :: dirs0.
Context (Hd0 : d ∈ dirs0) (Hnd : d' ∉ dirs0) (Hn : names b c envid true e) (Hed : env_pgdir (envs b !!! e) = kva d').
Context (Wid : 0 <= envid < 2 ^ 31).
Context (Hempty : forall i j, 0 <= i < NUPDE -> 0 <= j < NPTENTRIES -> umap (mem b) d' i j = None).
Context (Hcnt : forall p, 2 * ucount (mem b) dirs0 p + 2 < 2 ^ 16).

Record loop_inv (a : Z) (s : kst) : Prop := {
  li_ready : exists rl, ready s c dirs rl d;
  li_step : astep dirs c b s;
  li_child : forall i j, 0 <= i < NUPDE -> 0 <= j < NPTENTRIES ->
    umap (mem s) d' i j = if passed a i j then child_pte (umap (mem b) d i j) else None;
  li_parent : forall i j, 0 <= i < NUPDE -> 0 <= j < NPTENTRIES ->
    umap (mem s) d i j = if passed a i j then parent_pte (umap (mem b) d i j) else umap (mem b) d i j;
  li_other : forall x i j, x ∈ dirs0 -> x <> d -> 0 <= i < NUPDE -> 0 <= j < NPTENTRIES ->
    umap (mem s) x i j = umap (mem b) x i j }.

Lemma loop_start rl : ready b c dirs rl d -> loop_inv 0 b.
Proof.
  intros Hr. assert (Hnot : forall i j, 0 <= i < NUPDE -> 0 <= j < NPTENTRIES -> passed 0 i j = false).
  { intros i j Hi Hj. destruct (page_addr_range i j Hi Hj). unfold passed.
    by rewrite (proj2 (Z.ltb_ge _ _)) by lia. }
  constructor; [by exists rl | done | | | done]; intros i j Hi Hj; rewrite Hnot by done; [by apply Hempty | done].
Qed.

(** Duplicating pages at most doubles the mappings of each. *)
Lemma loop_counts a s p : loop_inv a s -> ucount (mem s) dirs p + 2 < 2 ^ 16.
Proof.
  intros [_ _ Hch Hpa Hot]. unfold dirs. change (d' :: dirs0) with ([d'] ++ dirs0). rewrite ucount_app.
  assert (H1' : ucount (mem s) [d'] p <= ucount (mem b) [d] p).
  { apply ucount_sub. intros i j Hi Hj. rewrite !upage_umap, Hch by done.
    destruct (passed a i j); [|done]. destruct (umap (mem b) d i j) as [v|] eqn:Ev; [|done]. simpl.
    destruct (has v PTE_U); [|done]. simpl. by rewrite cow_pte_page by (by eapply umap_bound). }
  assert (H2' : ucount (mem s) dirs0 p = ucount (mem b) dirs0 p).
  { apply ucount_ext. intros x i j Hx Hi Hj. rewrite !upage_umap.
    destruct (decide (x = d)) as [-> | Hne]; [|by rewrite Hot].
    rewrite Hpa by done. destruct (passed a i j); [|done].
    destruct (umap (mem b) d i j) as [v|] eqn:Ev; [|done]. simpl.
    destruct (has v PTE_U && has (cow_perm v) PTE_COW); [|done].
    simpl. by rewrite cow_pte_page by (by eapply umap_bound). }
  pose proof (ucount_in (mem b) dirs0 d p Hd0). specialize (Hcnt p). lia.
Qed.

Lemma user_page_run s rl va :
  ready s c dirs rl d -> 0 <= va < UTOP ->
  user_page va s = Ret (inl (match umap (mem s) d (PDX va) (PTX va) with Some v => has v PTE_U | None => false end)) s.
Proof.
  intros [Hu Hd He Hp Hs] Hva. unfold user_page.
  lrw (uvpd_run s c dirs rl Hu d Hd He Hs va Hva).
  destruct (has (word (mem s) d (PDX va)) PTE_P) eqn:EP; cbn [negb].
  2:{ unfold umap, upte, pt_of, ent. by rewrite EP. }
  assert (Ht : pt_of (mem s) d (PDX va) = Some (word (mem s) d (PDX va) / PGSIZE)) by (unfold pt_of, ent; by rewrite EP).
  pose proof (uvpt_run s c dirs rl Hu d Hd He Hp Hs va _ Hva Ht) as Hld. lrw Hld.
  unfold umap, upte. rewrite Ht.
  destruct (has (word (mem s) (word (mem s) d (PDX va) / PGSIZE) (PTX va)) PTE_P); cbn [negb]; [|done].
  by lrw Hld.
Qed.

Lemma d_in : d ∈ dirs.
Proof. by right. Qed.
Lemma d'_in : d' ∈ dirs.
Proof. by left. Qed.
Lemma d_ne : d <> d'.
Proof. congruence. Qed.

(** Nothing to do at [a]. *)
Lemma loop_skip a s : loop_inv a s -> 0 <= a < UTOP -> a mod PGSIZE = 0 ->
  a = UXSTACK \/ match umap (mem b) d (PDX a) (PTX a) with Some v => has v PTE_U | None => false end = false ->
  loop_inv (a + PGSIZE) s.
Proof.
  intros [Hr Hst Hch Hpa Hot] Ha Hm Hno.
  assert (Hsame : forall i j, 0 <= i < NUPDE -> 0 <= j < NPTENTRIES ->
    passed (a + PGSIZE) i j = passed a i j \/
    passed a i j = false /\ child_pte (umap (mem b) d i j) = None /\
      parent_pte (umap (mem b) d i j) = umap (mem b) d i j).
  { intros i j Hi Hj. rewrite passed_next by done.
    destruct (Z.eqb_spec (page_addr i j) a) as [He | _]; [|left; by rewrite orb_false_r].
    destruct Hno as [-> | Hno]; [left; by rewrite Z.eqb_refl, andb_false_r, orb_false_r|].
    destruct (page_addr_inj a i j Ha Hm Hi Hj He) as [-> ->]. right. split.
    - unfold passed. rewrite He. by rewrite Z.ltb_irrefl.
    - unfold child_pte, parent_pte. destruct (umap (mem b) d (PDX a) (PTX a)); [|done]. by rewrite Hno. }
  constructor; try done; intros i j Hi Hj.
  - rewrite Hch by done. destruct (Hsame i j Hi Hj) as [-> | (-> & -> & _)]; [done|]. by destruct (passed _ i j).
  - rewrite Hpa by done. destruct (Hsame i j Hi Hj) as [-> | (-> & _ & ->)]; [done|]. by destruct (passed _ i j).
Qed.

(** The page at [a] was duplicated. *)
Lemma loop_dup a s s' rl' v : loop_inv a s -> 0 <= a < UTOP -> a mod PGSIZE = 0 -> a <> UXSTACK ->
  umap (mem b) d (PDX a) (PTX a) = Some v -> ready s' c dirs rl' d -> astep dirs c s s' ->
  duplicated dirs d d' s s' (PDX a) (PTX a) v -> loop_inv (a + PGSIZE) s'.
Proof.
  intros [Hr Hst Hch Hpa Hot] Ha Hm Hx Hv Hr' Ha' [Dc Dp Do].
  assert (Hat : forall i j, 0 <= i < NUPDE -> 0 <= j < NPTENTRIES ->
    (i = PDX a /\ j = PTX a /\ passed (a + PGSIZE) i j = true) \/
    ((i, j) <> (PDX a, PTX a) /\ passed (a + PGSIZE) i j = passed a i j)).
  { intros i j Hi Hj. rewrite passed_next by done. rewrite (proj2 (Z.eqb_neq a UXSTACK) Hx), andb_true_r.
    destruct (Z.eqb_spec (page_addr i j) a) as [He | Hne].
    - left. destruct (page_addr_inj a i j Ha Hm Hi Hj He). by rewrite orb_true_r.
    - right. split; [|by rewrite orb_false_r]. intros [= -> ->]. apply Hne. by apply page_addr_va. }
  constructor.
  - by exists rl'.
  - by transitivity s.
  - intros i j Hi Hj. destruct (Hat i j Hi Hj) as [(-> & -> & ->) | (Hne & ->)]; [by rewrite Dc, Hv|].
    rewrite <- Hch by done. pose proof d_ne. apply Do; [apply d'_in | done | done | congruence | congruence].
  - intros i j Hi Hj. destruct (Hat i j Hi Hj) as [(-> & -> & ->) | (Hne & ->)]; [by rewrite Dp, Hv|].
    rewrite <- Hpa by done. apply Do; [apply d_in | done | done | congruence | congruence].
  - intros x i j Hxin Hxd Hi Hj. rewrite <- Hot by done. destruct (decide (x = d')) as [-> | Hxd'].
    + by destruct Hnd.
    + apply Do; [by right | done | done | congruence | congruence].
Qed.

(** The body of the loop in [fork]. *)
Definition dup_body (addr : Z) : L unit :=
  r ← duppage envid (PGNUM addr); if r <? 0 then user_panic "fork: duppage: %e" else mret tt.

Lemma loop_body a s : loop_inv a s -> 0 <= a < UTOP -> a mod PGSIZE = 0 ->
  let body := (if a =? UXSTACK then mret tt
               else ok ← user_page a; if (ok : bool) then dup_body a else mret tt) : L unit in
  out_of_memory body s c dirs \/
  exists s', body s = Ret (inl tt) s' /\ loop_inv (a + PGSIZE) s'.
Proof.
  intros Hi Ha Hm body. unfold body. clear body.
  destruct (Z.eqb_spec a UXSTACK) as [Hx | Hx]; [right; exists s; split; [done | by apply loop_skip; auto]|].
  destruct (li_ready _ _ Hi) as [rl Hr]. pose proof (user_page_run s rl a Hr Ha) as Hup.
  assert (Hat : umap (mem s) d (PDX a) (PTX a) = umap (mem b) d (PDX a) (PTX a) /\
    umap (mem s) d' (PDX a) (PTX a) = None).
  { pose proof (PDX_user a Ha) as Hpi. pose proof (PTX_range a) as Hpj.
    assert (Hnp : passed a (PDX a) (PTX a) = false).
    { unfold passed. rewrite page_addr_va, Z.ltb_irrefl by assumption. reflexivity. }
    pose proof (li_parent _ _ Hi _ _ Hpi Hpj) as E1. pose proof (li_child _ _ Hi _ _ Hpi Hpj) as E2.
    rewrite Hnp in E1, E2. exact (conj E1 E2). }
  destruct Hat as [Hpa Hch]. rewrite Hpa in Hup. rewrite (lbind_run _ _ _ _ _ Hup). unfold out_of_memory.
  rewrite (lbind_run _ _ _ _ _ Hup).
  destruct (umap (mem b) d (PDX a) (PTX a)) as [v|] eqn:Ev.
  2:{ right. exists s. split; [done|]. apply loop_skip; try done. right. by rewrite Ev. }
  destruct (has v PTE_U) eqn:EU.
  2:{ right. exists s. split; [done|]. apply loop_skip; try done. right. by rewrite Ev. }
  pose proof (as_frame _ _ _ _ (li_step _ _ Hi)) as Hf.
  destruct (duppage_run Hcs s c dirs rl d envid e d' a v) as [Hoom | (s' & rl' & Hrun & Hr' & Ha' & _ & Hdup)]; try done.
  - by apply (uframe_names _ _ _ _ _ _ Hf).
  - apply d'_in.
  - apply d_ne.
  - destruct (uframe_env _ _ _ e Hf) as (-> & _). exact Hed.
  - by eapply loop_counts.
  - left. by apply oom_bind.
  - right. exists s'. unfold dup_body. rewrite (lbind_run _ _ _ _ _ Hrun). split; [done|].
    by eapply loop_dup.
Qed.

Lemma lloop_oom {St R} n (body : St -> L (St + R)) st s s1 st1 :
  body st s = Ret (inl (inl st1)) s1 -> out_of_memory (lloop n body st1) s1 c dirs ->
  out_of_memory (lloop (S n) body st) s c dirs.
Proof. intros Hb (msg & s2 & rl & Hl & Hrest). exists msg, s2, rl. split; [by erewrite lloop_next by exact Hb | exact Hrest]. Qed.

(** The whole loop: it stops when the memory runs out, or at [UTOP]. *)
Lemma each_page_from n a s : loop_inv a s -> 0 <= a <= UTOP -> a mod PGSIZE = 0 -> UTOP - a < PGSIZE * Z.of_nat n ->
  let body := fun addr =>
    (if addr <? UTOP then
      (if addr =? UXSTACK then mret tt
       else ok ← user_page addr; if (ok : bool) then dup_body addr else mret tt);;
      mret (inl (w32 (addr + PGSIZE)))
    else mret (inr tt)) : L (Z + unit) in
  out_of_memory (lloop n body a) s c dirs \/
  exists s', lloop n body a s = Ret (inl tt) s' /\ loop_inv UTOP s'.
Proof.
  intros Hi Ha Hm Hfuel body. revert a s Hi Ha Hm Hfuel.
  induction n as [|n IH]; intros a s Hi Ha Hm Hfuel; [exfalso; unfold PGSIZE in *; lia|].
  destruct (Z.ltb_spec a UTOP) as [Hlt | Hge].
  2:{ right. exists s. assert (a = UTOP) as -> by lia. split; [|exact Hi].
      apply lloop_done. unfold body. by rewrite Z.ltb_irrefl. }
  assert (Hnext : w32 (a + PGSIZE) = a + PGSIZE /\ a + PGSIZE <= UTOP /\ (a + PGSIZE) mod PGSIZE = 0).
  { change UTOP with 4005560320 in *. rewrite w32_small by (unfold PGSIZE; lia). unfold PGSIZE in *. zlia. }
  destruct Hnext as (Hw & Hle & Hmod).
  destruct (loop_body a s Hi (conj (proj1 Ha) Hlt) Hm) as [Hoom | (s1 & Hrun & Hi1)].
  - left. destruct Hoom as (msg & s1 & rl1 & Hrun & Hrest). exists msg, s1, rl1. split; [|exact Hrest].
    apply lloop_stop. unfold body. rewrite (proj2 (Z.ltb_lt _ _) Hlt). unfold mbind, L_bind in Hrun |- *. by rewrite Hrun.
  - assert (Hb : body a s = Ret (inl (inl (a + PGSIZE))) s1).
    { unfold body. rewrite (proj2 (Z.ltb_lt _ _) Hlt), (lbind_run _ _ _ _ _ Hrun), Hw. reflexivity. }
    destruct (IH (a + PGSIZE) s1 Hi1) as [Hoom | (s2 & Hrun2 & Hi2)].
    + unfold PGSIZE in *. lia.
    + exact Hmod.
    + unfold PGSIZE in *. lia.
    + left. exact (lloop_oom _ _ _ _ _ _ Hb Hoom).
    + right. exists s2. split; [|exact Hi2]. by rewrite (lloop_next _ _ _ _ _ _ Hb).
Qed.

Lemma each_page_run s : loop_inv 0 s ->
  out_of_memory (each_page dup_body) s c dirs \/
  exists s', each_page dup_body s = Ret (inl tt) s' /\ loop_inv UTOP s'.
Proof.
  intros Hi. apply (each_page_from page_fuel 0 s Hi); [split; [lia | by vm_compute] | done |].
  unfold page_fuel. rewrite Z2Nat.id by done. by vm_compute.
Qed.
End loop.

(** ** What [fork] does

    The whole of [fork], from the system call that makes the child to the one that lets it
    run, and what both address spaces are afterwards. *)

Lemma at_UXSTACK i j : 0 <= i < NUPDE -> 0 <= j < NPTENTRIES ->
  (page_addr i j =? UXSTACK) = bool_decide ((i, j) = (PDX UXSTACK, PTX UXSTACK)).
Proof.
  intros Hi Hj. destruct UXSTACK_va as (Hr & Hm & _). symmetry. destruct (Z.eqb_spec (page_addr i j) UXSTACK) as [He | Hne].
  - apply bool_decide_true. by destruct (page_addr_inj UXSTACK i j Hr Hm Hi Hj He) as [-> ->].
  - apply bool_decide_false. intros [= -> ->]. apply Hne. by apply page_addr_va.
Qed.

Section fork.
Context `{Devices} `{TrapDevices} `{Program} (Hcs : Z.land (tf_cs saved_regs) 3 = 3) (Wup : word32 upcall_fn).

(** ** [start_child] *)

(** The child [e] was given a zeroed exception stack [pp] and set running. *)
Record started (dirs : list Z) (c : Z) (s s' : kst) (e d' pp : Z) : Prop := {
  st_umap : umap (mem s') d' (PDX UXSTACK) (PTX UXSTACK) = Some (mkpte (pp * PGSIZE) (Z.lor PTE_U PTE_W));
  st_other : same_umap_but dirs s s' (d', PDX UXSTACK, PTX UXSTACK);
  st_zero : forall k, 0 <= k < 1024 -> word (mem s') pp k = 0;
  st_fresh : ~ mapped dirs s pp;
  st_data : forall p k, mapped dirs s p -> 0 <= k < 1024 -> word (mem s') p k = word (mem s) p k;
  st_child : envs s' !!! e = (envs s !!! e) <| env_pgfault_upcall := upcall_fn |> <| env_status := ENV_RUNNABLE |>;
  st_self : same_env (envs s !!! c) (envs s' !!! c);
  st_envs : forall x, x <> c -> x <> e -> envs s' !!! x = envs s !!! x }.

Lemma start_child_run s c dirs rl d envid e d' :
  ready s c dirs rl d -> names s c envid true e -> 0 < envid < 2 ^ 31 -> e <> c -> d' ∈ dirs ->
  env_pgdir (envs s !!! e) = kva d' ->
  out_of_memory (start_child envid) s c dirs \/
  exists s' rl' pp, start_child envid s = Ret (inl envid) s' /\ in_user s' c dirs rl' /\ started dirs c s s' e d' pp.
Proof.
  intros Hr Hn Wid Hec Hd' Hed. destruct UXSTACK_va as (Hx & _ & Hbv). unfold start_child, out_of_memory.
  pose proof (re_user _ _ _ _ _ Hr) as Hu. pose proof (si_vm _ _ _ (iu_sys _ _ _ _ Hu)) as Hvm.
  destruct (u_page_alloc Hcs s c dirs rl envid e d' UXSTACK (Z.lor PTE_U PTE_W) Hu Hn Hd' Hed ltac:(lia) (proj1 Hx)
    ltac:(done) Hbv eq_refl) as (r & s1 & rl1 & Hrun & Hu1 & [F1 D1 _ _] & [(-> & Hnf & _) | (-> & pp & Hpp & Hnew & Hz & Hoth)]);
    rewrite (lbind_run _ _ _ _ _ Hrun).
  { left. by eexists _, s1, rl1. }
  right. change (0 <? 0) with false. cbv iota.
  apply (uframe_names _ _ _ _ _ _ F1) in Hn.
  destruct (u_set_upcall Hcs s1 c dirs rl1 envid e upcall_fn Hu1 Hn ltac:(lia) Wup) as (s2 & Hrun2 & Hu2 & F2 & M2 & _).
  rewrite (lbind_run _ _ _ _ _ Hrun2). change (0 <? 0) with false. cbv iota.
  assert (Hn2 : names s2 c envid true e).
  { apply (uframe_names _ _ _ _ _ _ F2). apply names_with_env; try done; lia. }
  destruct (u_set_status Hcs s2 c dirs rl1 envid e ENV_RUNNABLE Hu2 Hn2 ltac:(lia) Hec ltac:(by left)) as (s3 & Hrun3 & Hu3 & F3 & M3 & _).
  rewrite (lbind_run _ _ _ _ _ Hrun3). change (0 <? 0) with false. cbv iota.
  exists s3, rl1, pp. split; [done|]. split; [exact Hu3|].
  assert (Hm : mem s3 = mem s1) by congruence.
  constructor; unfold same_umap_but; rewrite ?Hm; try done.
  - intros (x & i & j & v & Hxd & Hi & Hj & Hum & ->).
    rewrite (vi_user _ _ _ _ Hvm x i j _ Hxd Hi Hj) in Hpp; [done|]. by rewrite upage_umap, Hum.
  - intros p k Hp Hk. apply D1; [left; by eapply mapped_user | done].
  - rewrite (with_env_at _ _ _ _ _ F3 Hec), (with_env_at _ _ _ _ _ F2 Hec). by rewrite (uf_other _ _ _ F1).
  - etransitivity; [exact (uf_self _ _ _ F1)|]. etransitivity; [exact (with_env_self _ _ _ _ _ F2 Hec)|].
    exact (with_env_self _ _ _ _ _ F3 Hec).
  - intros x Hxc Hxe. rewrite (with_env_off _ _ _ _ _ x F3), (with_env_off _ _ _ _ _ x F2) by done.
    by rewrite (uf_other _ _ _ F1).
Qed.

(** ** After [sys_exofork] *)

Section made.
Context (s s1 : kst) (c : Z) (dirs : list Z) (rl : Z -> role) (d e d' envid : Z).
Context (Hr : ready s c dirs rl d) (Hm : child_made dirs rl c s s1 e d' envid).

Let Hvm : vm_inv s dirs rl None := si_vm _ _ _ (iu_sys _ _ _ _ (re_user _ _ _ _ _ Hr)).

Lemma made_notin : d' ∉ dirs.
Proof. intros Hin. apply (vi_dirs _ _ _ _ Hvm) in Hin. by rewrite (cm_dir _ _ _ _ _ _ _ _ Hm) in Hin. Qed.

Lemma made_tables q k : (rl q = RDir \/ exists x i, rl q = RPT x i) -> 0 <= k < 1024 -> word (mem s1) q k = word (mem s) q k.
Proof.
  intros Hq Hk. apply (cm_words _ _ _ _ _ _ _ _ Hm); [|done]. intros ->.
  rewrite (cm_dir _ _ _ _ _ _ _ _ Hm) in Hq. destruct Hq as [? | (? & ? & ?)]; done.
Qed.
Lemma made_umap x i j : x ∈ dirs -> 0 <= i < NUPDE -> 0 <= j < NPTENTRIES -> umap (mem s1) x i j = umap (mem s) x i j.
Proof. by apply (same_umap s (mem s1) dirs rl None Hvm made_tables). Qed.
Lemma made_ucount p : ucount (mem s1) dirs p = ucount (mem s) dirs p.
Proof. by apply (same_ucount s (mem s1) dirs rl None Hvm made_tables). Qed.
Lemma made_umap_new i j : 0 <= i < NUPDE -> 0 <= j < NPTENTRIES -> umap (mem s1) d' i j = None.
Proof. intros Hi Hj. unfold umap, upte. by rewrite (cm_empty _ _ _ _ _ _ _ _ Hm). Qed.

Lemma made_mapped p : mapped dirs s p -> mapped (d' :: dirs) s1 p.
Proof.
  intros (x & i & j & v & Hx & Hi & Hj & Hu & ->). exists x, i, j, v.
  split; [by right|]. split; [done|]. split; [done|]. split; [|done]. by rewrite made_umap.
Qed.
Lemma made_data p k : mapped dirs s p -> 0 <= k < 1024 -> word (mem s1) p k = word (mem s) p k.
Proof.
  intros Hp Hk. apply (cm_words _ _ _ _ _ _ _ _ Hm); [|done]. intros ->.
  pose proof (mapped_user _ _ _ _ _ Hvm Hp) as Hu. by rewrite (cm_dir _ _ _ _ _ _ _ _ Hm) in Hu.
Qed.

Lemma made_ready : ready s1 c (d' :: dirs) (set_role rl d' RDir) d.
Proof.
  destruct Hr as [Hu Hd Hed Hp Hs]. constructor.
  - exact (cm_user _ _ _ _ _ _ _ _ Hm).
  - by right.
  - by rewrite (proj1 (same_env_fields _ _ (cm_self _ _ _ _ _ _ _ _ Hm))).
  - intros x i [-> | Hx]%elem_of_cons Hi HP.
    + pose proof (cm_empty _ _ _ _ _ _ _ _ Hm i Hi) as He. unfold pt_of, ent in He. by rewrite HP in He.
    + assert (Hw : word (mem s1) x i = word (mem s) x i).
      { apply made_tables; [left; by apply (vi_dirs _ _ _ _ Hvm) | rewrite NUPDE_val in Hi; lia]. }
      rewrite Hw in *. by apply Hp.
  - unfold selfmap. rewrite made_tables; [exact Hs | left; by apply (vi_dirs _ _ _ _ Hvm) | done].
Qed.

Lemma made_pgdir : env_pgdir (envs s1 !!! e) = kva d'.
Proof. by rewrite (cm_env _ _ _ _ _ _ _ _ Hm). Qed.
End made.

(** ** The whole of [fork] *)

(** [fork] by environment [c] in directory [d] made the child [e] with directory [d'] and
    exception stack [pp]; [s] is the state in which the page-fault handler is set. *)
Record forked_ok (dirs : list Z) (c d : Z) (s s' : kst) (e d' envid pp : Z) : Prop := {
  fd_new : ~ live s e /\ d' ∉ dirs /\ ~ mapped dirs s pp;
  fd_child : envs s' !!! e = forked (entered s c exofork_frame) c e d'
    <| env_pgfault_upcall := upcall_fn |> <| env_status := ENV_RUNNABLE |>;
  fd_envid : env_id (envs s' !!! e) = envid /\ 0 < envid;
  fd_parent : same_env (envs s !!! c) (envs s' !!! c);
  fd_others : forall x, x <> c -> x <> e -> envs s' !!! x = envs s !!! x;
  fd_child_map : forall i j, 0 <= i < NUPDE -> 0 <= j < NPTENTRIES ->
    umap (mem s') d' i j = if page_addr i j =? UXSTACK then Some (mkpte (pp * PGSIZE) (Z.lor PTE_U PTE_W))
                           else child_pte (umap (mem s) d i j);
  fd_parent_map : forall i j, 0 <= i < NUPDE -> 0 <= j < NPTENTRIES ->
    umap (mem s') d i j = if page_addr i j =? UXSTACK then umap (mem s) d i j else parent_pte (umap (mem s) d i j);
  fd_other_maps : forall x i j, x ∈ dirs -> x <> d -> 0 <= i < NUPDE -> 0 <= j < NPTENTRIES ->
    umap (mem s') x i j = umap (mem s) x i j;
  fd_private : forall i j v, 0 <= i < NUPDE -> 0 <= j < NPTENTRIES -> page_addr i j <> UXSTACK ->
    umap (mem s') d' i j = Some v \/ umap (mem s') d i j = Some v ->
    has v PTE_U = true -> has v PTE_W = true -> has v PTE_SHARE = true;
  fd_data : forall p k, mapped dirs s p -> 0 <= k < 1024 -> word (mem s') p k = word (mem s) p k;
  fd_zero : forall k, 0 <= k < 1024 -> word (mem s') pp k = 0 }.

(** What is left writable is meant to be shared. *)
Lemma cow_pte_private w v : 0 <= w -> child_pte (Some w) = Some v \/ parent_pte (Some w) = Some v ->
  has v PTE_U = true -> has v PTE_W = true -> has v PTE_SHARE = true.
Proof.
  intros Hw0 Hv HU HW. destruct (cow_perm_facts w) as (Hr & _ & HpW & HpU & Hcow).
  assert (Hm : w / PGSIZE * PGSIZE mod PGSIZE = 0) by (by apply Z.mod_mul).
  pose proof (has_mkpte _ (cow_perm w) 1 ltac:(lia) Hm) as E1. pose proof (has_mkpte _ (cow_perm w) 10 ltac:(lia) Hm) as E10.
  change (2 ^ 1) with PTE_W in E1. change (2 ^ 10) with PTE_SHARE in E10. fold (cow_pte w) in E1, E10.
  rewrite orb_false_r in E1, E10.
  assert (Hc : v = cow_pte w -> has v PTE_SHARE = true).
  { intros ->. rewrite E1 in HW. rewrite E10. destruct (HpW HW) as [_ Hs]. unfold cow_perm. rewrite Hs.
    change PTE_SHARE with (2 ^ 10). rewrite has_pow2, Z.lor_spec by lia. by rewrite orb_true_r. }
  destruct Hv as [Hv | Hv]; simpl in Hv.
  - destruct (has w PTE_U); [|done]. injection Hv as <-. by apply Hc.
  - destruct (has w PTE_U && has (cow_perm w) PTE_COW) eqn:E; injection Hv as <-; [by apply Hc|].
    rewrite HU in E. cbn [andb] in E. destruct (has w PTE_SHARE) eqn:Es; [done|].
    rewrite (Hcow eq_refl), HW, orb_true_r in E. done.
Qed.

Lemma loop_to_started s s1 s2 s3 c dirs rl d e d' envid pp :
  ready s c dirs rl d -> child_made dirs rl c s s1 e d' envid -> loop_inv s1 c dirs d d' UTOP s2 ->
  started (d' :: dirs) c s2 s3 e d' pp -> forked_ok dirs c d s s3 e d' envid pp.
Proof.
  intros Hr Hm Hl Hst. pose proof (made_notin _ _ _ _ _ _ _ _ _ Hr Hm) as Hnd.
  pose proof (li_step _ _ _ _ _ _ _ Hl) as Ha. pose proof (as_frame _ _ _ _ Ha) as Hf.
  assert (Hpass : forall i j, 0 <= i < NUPDE -> 0 <= j < NPTENTRIES -> passed UTOP i j = negb (page_addr i j =? UXSTACK)).
  { intros i j Hi Hj. unfold passed. by rewrite (proj2 (Z.ltb_lt _ _)) by (by apply page_addr_range). }
  assert (Hslot : forall x i j, x ∈ d' :: dirs -> 0 <= i < NUPDE -> 0 <= j < NPTENTRIES ->
    x <> d' \/ page_addr i j =? UXSTACK = false -> umap (mem s3) x i j = umap (mem s2) x i j).
  { intros x i j Hx Hi Hj Hne. apply (st_other _ _ _ _ _ _ _ Hst); try done. intros [= -> -> ->].
    destruct Hne as [? | Hne]; [done|]. rewrite at_UXSTACK in Hne by done. by rewrite bool_decide_true in Hne. }
  assert (Hdd : forall x, x ∈ dirs -> x <> d') by (intros x Hx ->; done).
  pose proof (re_dir _ _ _ _ _ Hr) as Hd.
  assert (Hcm : forall i j, 0 <= i < NUPDE -> 0 <= j < NPTENTRIES ->
    umap (mem s3) d' i j = if page_addr i j =? UXSTACK then Some (mkpte (pp * PGSIZE) (Z.lor PTE_U PTE_W))
                           else child_pte (umap (mem s) d i j)).
  { intros i j Hi Hj. destruct (page_addr i j =? UXSTACK) eqn:E.
    + rewrite at_UXSTACK in E by done. apply bool_decide_eq_true in E as [= -> ->]. exact (st_umap _ _ _ _ _ _ _ Hst).
    + rewrite (Hslot d' i j (list_elem_of_here _ _) Hi Hj (or_intror E)). rewrite (li_child _ _ _ _ _ _ _ Hl), Hpass, E by done.
      by rewrite (made_umap _ _ _ _ _ _ _ _ _ Hr Hm). }
  assert (Hpm : forall i j, 0 <= i < NUPDE -> 0 <= j < NPTENTRIES ->
    umap (mem s3) d i j = if page_addr i j =? UXSTACK then umap (mem s) d i j else parent_pte (umap (mem s) d i j)).
  { intros i j Hi Hj. rewrite (Hslot d i j (list_elem_of_further _ _ _ Hd) Hi Hj (or_introl (Hdd d Hd))).
    rewrite (li_parent _ _ _ _ _ _ _ Hl), Hpass by done. rewrite (made_umap _ _ _ _ _ _ _ _ _ Hr Hm) by done.
    by destruct (page_addr i j =? UXSTACK). }
  constructor; [| | | | | exact Hcm | exact Hpm | | | |].
  - split; [exact (cm_new _ _ _ _ _ _ _ _ Hm)|]. split; [exact Hnd|]. intros Hp.
    apply (st_fresh _ _ _ _ _ _ _ Hst). apply (as_mapped _ _ _ _ Ha). by eapply made_mapped.
  - rewrite (st_child _ _ _ _ _ _ _ Hst), (uf_other _ _ _ Hf) by exact (cm_ne _ _ _ _ _ _ _ _ Hm).
    by rewrite (cm_env _ _ _ _ _ _ _ _ Hm).
  - split; [|exact (proj1 (cm_id _ _ _ _ _ _ _ _ Hm))].
    rewrite (st_child _ _ _ _ _ _ _ Hst), (uf_other _ _ _ Hf) by exact (cm_ne _ _ _ _ _ _ _ _ Hm).
    destruct (cm_names _ _ _ _ _ _ _ _ Hm) as [_ Hn].
    rewrite (proj2 (Z.eqb_neq envid 0)) in Hn by (destruct (cm_id _ _ _ _ _ _ _ _ Hm); lia). exact (proj1 Hn).
  - etransitivity; [exact (cm_self _ _ _ _ _ _ _ _ Hm)|]. etransitivity; [exact (uf_self _ _ _ Hf)|].
    exact (st_self _ _ _ _ _ _ _ Hst).
  - intros x Hxc Hxe. rewrite (st_envs _ _ _ _ _ _ _ Hst), (uf_other _ _ _ Hf) by done.
    by apply (cm_other _ _ _ _ _ _ _ _ Hm).
  - intros x i j Hx Hxd Hi Hj. rewrite (Hslot x i j (list_elem_of_further _ _ _ Hx) Hi Hj (or_introl (Hdd x Hx))).
    rewrite (li_other _ _ _ _ _ _ _ Hl) by done. by rewrite (made_umap _ _ _ _ _ _ _ _ _ Hr Hm).
  - intros i j v Hi Hj Hx Hv. apply Z.eqb_neq in Hx. rewrite Hcm, Hpm, Hx in Hv by done.
    destruct (umap (mem s) d i j) as [w|] eqn:Ew; [|by destruct Hv].
    apply (cow_pte_private w v); [|exact Hv]. by eapply umap_bound.
  - intros p k Hp Hk. pose proof (made_mapped _ _ _ _ _ _ _ _ _ Hr Hm p Hp) as Hp1.
    rewrite (st_data _ _ _ _ _ _ _ Hst), (as_pages _ _ _ _ Ha) by (done || by apply (as_mapped _ _ _ _ Ha)).
    by apply (made_data _ _ _ _ _ _ _ _ _ Hr Hm).
  - exact (st_zero _ _ _ _ _ _ _ Hst).
Qed.

(** The outcome of a program that stops for want of a free environment or page. *)
Definition no_room {A} (m : L A) (s : kst) (c : Z) : Prop :=
  exists msg s' dirs' rl', m s = Ret (inr (UPanic msg)) s' /\ in_user s' c dirs' rl' /\
    (env_free_list s' = None \/ nearly_full s').

Lemma oom_no_room {A} (m : L A) s c dirs : out_of_memory m s c dirs -> no_room m s c.
Proof. intros (msg & s' & rl' & Hrun & Hu & Hnf). exists msg, s', dirs, rl'. auto. Qed.
Lemma no_room_bind {A B} (m : L A) (f : A -> L B) s a s' c : m s = Ret (inl a) s' -> no_room (f a) s' c -> no_room (m ≫= f) s c.
Proof. intros Hrun (msg & s1 & ds & rl' & Hr & Hrest). exists msg, s1, ds, rl'. by rewrite (lbind_run _ _ _ _ _ Hrun). Qed.

Lemma fork_from s c dirs rl d :
  ready s c dirs rl d -> (forall p, 2 * ucount (mem s) dirs p + 2 < 2 ^ 16) ->
  let m := envid ← sys_exofork;
    if envid <? 0 then user_panic "fork: %e"
    else if envid =? 0 then mret 0
    else each_page (dup_body envid);; start_child envid in
  no_room m s c \/
  exists envid s' e d' pp rl', m s = Ret (inl envid) s' /\ in_user s' c (d' :: dirs) rl' /\
    forked_ok dirs c d s s' e d' envid pp.
Proof.
  intros Hr Hcnt m. unfold m. clear m. pose proof (re_user _ _ _ _ _ Hr) as Hu.
  destruct (u_exofork Hcs s c dirs rl Hu) as [(r & s1 & Hrun & Hneg & Hu1 & Hf & (_ & Hps & Hfl) & Hno) | (e & d' & envid & s1 & Hrun & Hm)].
  { left. eapply no_room_bind; [exact Hrun|]. rewrite (proj2 (Z.ltb_lt r 0)) by done.
    eexists _, s1, dirs, rl. split; [done|]. split; [done|]. rewrite (uf_free _ _ _ Hf). unfold nearly_full.
    rewrite Hfl. destruct Hno as [-> | ->]; auto. }
  pose proof (cm_id _ _ _ _ _ _ _ _ Hm) as Hid. pose proof (made_ready _ _ _ _ _ _ _ _ _ Hr Hm) as Hr1.
  pose proof (made_notin _ _ _ _ _ _ _ _ _ Hr Hm) as Hnd.
  assert (Hgo : forall (A : Type) (x y z : A), (if envid <? 0 then x else if envid =? 0 then y else z) = z).
  { intros. rewrite (proj2 (Z.ltb_ge envid 0)), (proj2 (Z.eqb_neq envid 0)) by lia. done. }
  rewrite (lbind_run _ _ _ _ _ Hrun), Hgo.
  assert (Hi0 : loop_inv s1 c dirs d d' 0 s1).
  { eapply loop_start; [|exact Hr1]. by eapply made_umap_new. }
  destruct (each_page_run Hcs s1 c dirs d e d' envid (re_dir _ _ _ _ _ Hr) Hnd (cm_names _ _ _ _ _ _ _ _ Hm)
    (made_pgdir _ _ _ _ _ _ _ _ Hm) ltac:(lia)
    (fun p => ltac:(rewrite (made_ucount _ _ _ _ _ _ _ _ _ Hr Hm); exact (Hcnt p))) s1 Hi0)
    as [Hoom | (s2 & Hrun2 & Hl)].
  { left. eapply no_room_bind; [exact Hrun|]. rewrite Hgo. by eapply oom_no_room, oom_bind. }
  rewrite (lbind_run _ _ _ _ _ Hrun2). destruct (li_ready _ _ _ _ _ _ _ Hl) as [rl2 Hr2].
  pose proof (as_frame _ _ _ _ (li_step _ _ _ _ _ _ _ Hl)) as Hf.
  destruct (start_child_run s2 c (d' :: dirs) rl2 d envid e d') as [Hoom | (s3 & rl3 & pp & Hrun3 & Hu3 & Hst)]; try done.
  - apply (uframe_names _ _ _ _ _ _ Hf). exact (cm_names _ _ _ _ _ _ _ _ Hm).
  - exact (cm_ne _ _ _ _ _ _ _ _ Hm).
  - by left.
  - rewrite (proj1 (uframe_env _ _ _ e Hf)). exact (made_pgdir _ _ _ _ _ _ _ _ Hm).
  - left. eapply no_room_bind; [exact Hrun|]. rewrite Hgo. eapply no_room_bind; [exact Hrun2|]. by eapply oom_no_room.
  - right. exists envid, s3, e, d', pp, rl3. split; [exact Hrun3|]. split; [exact Hu3|].
    by eapply loop_to_started.
Qed.

(** [fork] from the start: the handler is set, and the rest follows. *)
Lemma fork_run s c dirs rl d hp hk vh :
  ready s c dirs rl d -> has_var s d hp hk vh -> word32 pgfault_fn ->
  (forall p, 2 * ucount (mem s) dirs p + 4 < 2 ^ 16) ->
  no_room fork s c \/
  exists s1 envid s' e d' pp rl', fork s = Ret (inl envid) s' /\ in_user s' c (d' :: dirs) rl' /\
    handler_set dirs c d hk vh pgfault_fn s s1 /\ forked_ok dirs c d s1 s' e d' envid pp.
Proof.
  intros Hr Hv Wf Hcnt. unfold fork.
  destruct (set_handler_run Hcs s c dirs rl d hp hk vh pgfault_fn Hr Hv Wf Wup) as [Hoom | (s1 & rl1 & Hrun & Hr1 & Hh)].
  { left. by eapply oom_no_room, oom_bind. }
  destruct UXSTACK_va as (Hx & _ & _).
  assert (Hcnt1 : forall p, 2 * ucount (mem s1) dirs p + 2 < 2 ^ 16).
  { intros p. pose proof (ucount_one_more dirs s s1 d (PDX UXSTACK) (PTX UXSTACK) p _ _ _ _
      (si_vm _ _ _ (iu_sys _ _ _ _ (re_user _ _ _ _ _ Hr))) (si_vm _ _ _ (iu_sys _ _ _ _ (re_user _ _ _ _ _ Hr1)))
      (re_dir _ _ _ _ _ Hr) (PDX_user _ Hx) (PTX_range _) (hs_maps _ _ _ _ _ _ _ _ Hh)). specialize (Hcnt p). lia. }
  destruct (fork_from s1 c dirs rl1 d Hr1 Hcnt1) as [Hno | (envid & s' & e & d' & pp & rl' & Hrun' & Hu' & Hok)].
  - left. by eapply no_room_bind.
  - right. exists s1, envid, s', e, d', pp, rl'. rewrite (lbind_run _ _ _ _ _ Hrun). split; [exact Hrun'|]. by split.
Qed.
End fork.
