(* ===== verification/ForkThms.v ===== *)
(** * Fork: sample programs and theorems

    Programs in user mode for the instances, and the theorems about [fork] and [pgfault]. *)

From S2P Require Import Prelude Mem CString Mmu KState Printf Pmap VmInv VmSpec VmLife Environ Sched Syscall Trap EnvInv EnvFree SchedSpec UserMem SysSpec Samples User UserSpec UserVm UserEnv Fork ForkSpec UserPage Pgfault ForkRun.

(** ** A small machine in user mode

    Environment 1 runs with a page for its variables and a copy-on-write page; the system
    calls of the samples are executed by the kernel of the model. *)

Definition no_traps : TrapDevices :=
  {| monitor := fun _ => mret tt; kbd_intr := mret tt; serial_intr := mret tt |}.
Definition sample_program : Program :=
  {| saved_regs := env_alloc_tf; trapframe_at := 0xEFFFFFBC; handler_var := 0x800004;
     upcall_fn := 0x800020; pgfault_fn := 0x800100 |}.
#[export] Existing Instance no_devices.
#[export] Existing Instance no_traps.
#[export] Existing Instance sample_program.

Lemma sample_cs : Z.land (tf_cs saved_regs) 3 = 3.
Proof. vm_compute. reflexivity. Qed.

Definition sample_user : kst := running (demote sample2) 1 3.
Lemma sample_user_in : in_user sample_user 1 [3; 2] (set_role sample_role 3 RDir).
Proof.
  destruct sample2_in_kernel as [Hk Hl].
  pose proof (demote_inv sample2 _ _ (ik_sys _ _ _ _ Hk) ltac:(by eapply ik_cur_ok)) as Hs.
  assert (Hl1 : live (demote sample2) 1) by (split; [done | vm_compute; done]).
  destruct (running_inv (demote sample2) _ _ 1 Hs Hl1) as [Hs2 (_ & Hc2 & Hl2 & Hr2 & Hk2 & Hcr2)].
  assert (Hd : dir_page (demote sample2) 1 = 3) by (vm_compute; reflexivity).
  rewrite Hd in Hs2, Hc2, Hl2, Hr2, Hk2, Hcr2.
  constructor; [exact Hs2 | exact Hc2 | exact Hl2 | exact Hr2 | exact Hk2 | | exact Hcr2].
  intros Hh. vm_compute in Hh. discriminate Hh.
Qed.

(** Its directory maps itself, and no user slot yet. *)
Lemma sample_user_ready : ready sample_user 1 [3; 2] (set_role sample_role 3 RDir) 3.
Proof.
  constructor.
  - exact sample_user_in.
  - by left.
  - vm_compute. reflexivity.
  - intros d i Hd Hi HP. exfalso. apply list_elem_of_In in Hd.
    assert (Hall : forallb (fun d => forallb (fun i => negb (has (word (mem sample_user) d i) PTE_P)) (seqZ 0 955)) [3; 2] = true)
      by (vm_compute; reflexivity).
    rewrite forallb_forall in Hall. specialize (Hall d Hd).
    rewrite NUPDE_val in Hi. pose proof (forallb_seqZ _ _ _ Hall Hi) as Hw. cbv beta in Hw. by rewrite HP in Hw.
  - vm_compute. reflexivity.
Qed.

(** A page the program allocates for itself. *)
Definition user_alloc (va perm : Z) (s : kst) : kst :=
  match sys_page_alloc 0 va perm s with Ret _ s' => s' | _ => s end.
Lemma user_alloc_ready s c dirs rl d va perm :
  ready s c dirs rl d -> 0 <= va -> 0 <= perm -> bad_va va = false -> bad_perm perm = false ->
  exists rl', ready (user_alloc va perm s) c dirs rl' d.
Proof.
  intros Hr Hv Hp Hbv Hbp. pose proof (re_user _ _ _ _ _ Hr) as Hu.
  destruct (u_page_alloc sample_cs s c dirs rl 0 c d va perm Hu (names_self _ _ _ _ Hu) (re_dir _ _ _ _ _ Hr)
    (re_pgdir _ _ _ _ _ Hr) ltac:(lia) Hv Hp Hbv Hbp) as (r & s' & rl' & Hrun & Hu' & Hst & _).
  exists rl'. unfold user_alloc. rewrite Hrun. exact (ready_ustep _ _ _ _ _ _ _ _ Hr Hu' Hst).
Qed.

(** Two pages: one writable, with the variables, the other copy-on-write. *)
Definition sample_vars : kst := user_alloc 0x801000 (Z.lor PTE_U PTE_COW) (user_alloc 0x800000 (Z.lor PTE_U PTE_W) sample_user).
Lemma sample_vars_ready : exists rl, ready sample_vars 1 [3; 2] rl 3.
Proof.
  destruct (user_alloc_ready _ _ _ _ _ 0x800000 (Z.lor PTE_U PTE_W) sample_user_ready) as [rl Hr]; try done.
  by apply (user_alloc_ready _ _ _ _ _ 0x801000 (Z.lor PTE_U PTE_COW) Hr).
Qed.
Lemma sample_vars_var : has_var sample_vars 3 0x800000 1 (mkpte (4 * PGSIZE) (Z.lor PTE_U PTE_W)).
Proof.
  constructor.
  - reflexivity.
  - vm_compute. repeat split; congruence.
  - vm_compute. congruence.
  - vm_compute. reflexivity.
  - reflexivity.
  - reflexivity.
Qed.

(** No page has more mappings than its count says, and every count is small. *)
Lemma ucount_check s c dirs rl d n :
  ready s c dirs rl d -> 0 <= n ->
  forallb (fun x => pp_ref (snd x) <=? n) (map_to_list (pages s)) = true -> forall p, ucount (mem s) dirs p <= n.
Proof.
  intros Hr Hn Hall p. pose proof (si_vm _ _ _ (iu_sys _ _ _ _ (re_user _ _ _ _ _ Hr))) as Hvm.
  destruct (decide (rl p = RUser)) as [Hp | Hp].
  - destruct (vi_user_ref _ _ _ _ Hvm p Hp) as [<- _]. rewrite lookup_total_alt.
    destruct (pages s !! p) as [v|] eqn:E; [|exact Hn]. simpl. rewrite forallb_forall in Hall.
    apply (Z.leb_le _ n), (Hall (p, v)). apply list_elem_of_In, elem_of_map_to_list. done.
  - rewrite ucount_zero; [exact Hn|]. intros x i j Hx Hi Hj Hup. apply Hp.
    exact (vi_user _ _ _ _ Hvm x i j p Hx Hi Hj Hup).
Qed.

(** ** Copy-on-write fork: the theorems

    A system call made in user mode and its return, the page-fault handler, and [fork]:
    two address spaces that hold the same and share nothing writable. *)

(** C3. [fork] on a program whose handler variable is in a page of its own that it may write:
    it stops with a panic for want of a page or of an environment, in a good state; or it
    returns the identifier of a new, runnable environment that is a copy of the caller.  The
    child starts where [sys_exofork] returns, with 0 in [eax]; its address space has every
    user page of the parent, copy-on-write where it was writable (with the parent's own
    mapping made copy-on-write too) and as it was where it was shared or read-only, except
    a zeroed exception stack of its own.  After that, what either can still write is
    marked as shared; no mapped page changed, and nothing happened to the other environments
    and their address spaces. *)
Theorem fork_correct `{Devices} `{TrapDevices} `{Program} s c dirs rl d hp hk vh :
  Z.land (tf_cs saved_regs) 3 = 3 -> word32 upcall_fn -> word32 pgfault_fn ->
  ready s c dirs rl d -> has_var s d hp hk vh -> (forall p, 2 * ucount (mem s) dirs p + 4 < 2 ^ 16) ->
  no_room fork s c \/
  exists s1 envid s' e d' pp rl', fork s = Ret (inl envid) s' /\ in_user s' c (d' :: dirs) rl' /\
    handler_set dirs c d hk vh pgfault_fn s s1 /\ forked_ok dirs c d s1 s' e d' envid pp.
Proof. intros Hcs Wup Wf Hr Hv Hc. exact (fork_run Hcs Wup s c dirs rl d hp hk vh Hr Hv Wf Hc). Qed.

Lemma sample_counts p : 2 * ucount (mem sample_vars) [3; 2] p + 4 < 2 ^ 16.
Proof.
  destruct sample_vars_ready as [rl Hr].
  pose proof (ucount_check sample_vars 1 [3; 2] rl 3 1 Hr ltac:(lia) ltac:(vm_compute; reflexivity) p). lia.
Qed.

Lemma fork_correct_witness :
  no_room fork sample_vars 1 \/
  exists s1 envid s' e d' pp rl', fork sample_vars = Ret (inl envid) s' /\ in_user s' 1 [d'; 3; 2] rl' /\
    handler_set [3; 2] 1 3 1 (mkpte (4 * PGSIZE) (Z.lor PTE_U PTE_W)) pgfault_fn sample_vars s1 /\
    forked_ok [3; 2] 1 3 s1 s' e d' envid pp.
Proof.
  destruct sample_vars_ready as [rl Hr].
  apply (fork_correct sample_vars 1 [3; 2] rl 3 0x800000 1).
  - exact sample_cs.
  - split; [discriminate | reflexivity].
  - split; [discriminate | reflexivity].
  - exact Hr.
  - exact sample_vars_var.
  - exact sample_counts.
Defined.

(** C4. A write to a copy-on-write page: [pgfault] panics for want of a page, or the page of
    the faulting address becomes a fresh writable one with the contents the old one had.
    Every other mapping of every environment stays, every page still mapped keeps its
    contents, the temporary mapping is gone. *)
Theorem pgfault_correct `{Devices} `{TrapDevices} `{Program} s c dirs rl d addr err v :
  Z.land (tf_cs saved_regs) 3 = 3 -> ready s c dirs rl d -> 0 <= addr < UTOP ->
  let va := addr - addr mod PGSIZE in va <> PFTEMP ->
  umap (mem s) d (PDX va) (PTX va) = Some v -> has v PTE_U = true -> has v PTE_COW = true -> Z.land err FEC_WR <> 0 ->
  out_of_memory (pgfault addr err) s c dirs \/
  exists s' rl' pp, pgfault addr err s = Ret (inl tt) s' /\ in_user s' c dirs rl' /\ unshared dirs c d va v pp s s'.
Proof. intros Hcs. exact (pgfault_run Hcs s c dirs rl d addr err v). Qed.

Lemma pgfault_correct_witness :
  let v := mkpte (6 * PGSIZE) (Z.lor PTE_U PTE_COW) in
  out_of_memory (pgfault 0x801004 7) sample_vars 1 [3; 2] \/
  exists s' rl' pp, pgfault 0x801004 7 sample_vars = Ret (inl tt) s' /\ in_user s' 1 [3; 2] rl' /\
    unshared [3; 2] 1 3 0x801000 v pp sample_vars s'.
Proof.
  destruct sample_vars_ready as [rl Hr].
  apply (pgfault_correct sample_vars 1 [3; 2] rl 3 0x801004 7).
  - exact sample_cs.
  - exact Hr.
  - split; [discriminate | reflexivity].
  - discriminate.
  - vm_compute. reflexivity.
  - reflexivity.
  - reflexivity.
  - discriminate.
Defined.
