(* ===== verification/Spawn.v ===== *)
(** * Starting programs ([lib/spawn.c])

    [spawn] builds a child out of system calls on its own pages and the child's.  The file
    operations are those of the descriptor layer (Client), which has a state of its own;
    here they are the operations of a class. *)

From S2P Require Import Prelude Mem CString Mmu KState Printf Pmap Environ Sched Syscall Trap User.

Definition UTEXT : Z := 2 * PTSIZE.
Definition UTEMP2USTACK (addr : Z) : Z := w32 (addr + (USTACKTOP - PGSIZE) - UTEMP).
Definition ELF_PROG_FLAG_WRITE : Z := 2.
Definition O_RDONLY : Z := 0.

Class Library := {
  l_open : Z -> Z -> L Z;
  l_readn : Z -> Z -> Z -> L Z;
  l_seek : Z -> Z -> L Z;
  l_close : Z -> L Z;
  l_print : string -> L unit;
}.

(** The user-mode view of [envs[e]], mapped read-only at [UENVS]. *)
Definition uenv (e : Z) : L Env := fun s => Ret (inl (envs s !!! e)) s.

(** The words of a [struct Trapframe], which [bytes_trapframe] reads back. *)
Definition trapframe_words (tf : Trapframe) : list Z :=
  let r := tf_regs tf in
  [reg_edi r; reg_esi r; reg_ebp r; reg_oesp r; reg_ebx r; reg_edx r; reg_ecx r; reg_eax r;
   tf_es tf; tf_ds tf; tf_trapno tf; tf_err tf; tf_eip tf; tf_cs tf; tf_eflags tf; tf_esp tf; tf_ss tf].
Fixpoint ustore_words (a : Z) (ws : list Z) : L unit :=
  match ws with
  | [] => mret tt
  | w :: ws' => ustore32 a w;; ustore_words (w32 (a + 4)) ws'
  end.
Definition uload16 (va : Z) : L Z := lo ← uload8 va; hi ← uload8 (w32 (va + 1)); mret (lo + 256 * hi).

Section spawn.
Context `{Devices} `{TrapDevices} `{Program} (fuel : nat).

(** [strlen] and [strcpy] of [lib/string.c] on the program's memory; [fuel] bounds the
    length of a string and the number of arguments. *)
Definition ustrlen (s : Z) : L Z :=
  lloop fuel (fun '(s, n) =>
    c ← uload8 s;
    if negb (c =? 0) then mret (inl (w32 (s + 1), n + 1)) else mret (inr n)) (s, 0).
Definition ustrcpy (dst src : Z) : L unit :=
  lloop fuel (fun '(dst, src) =>
    c ← uload8 src;
    ustore8 dst c;;
    if negb (c =? 0) then mret (inl (w32 (dst + 1), w32 (src + 1))) else mret (inr tt)) (dst, src).

(** [argc] and [string_size]. *)
Definition count_args (argv : Z) : L (Z * Z) :=
  lloop fuel (fun '(argc, string_size) =>
    p ← uload32 (w32 (argv + 4 * argc));
    if p =? 0 then mret (inr (argc, string_size))
    else
      p ← uload32 (w32 (argv + 4 * argc));
      n ← ustrlen p;
      mret (inl (argc + 1, w32 (string_size + n + 1)))) (0, 0).

(** The loop that fills the page; it returns the final [string_store]. *)
Definition copy_args (argc argv argv_store string_store : Z) : L Z :=
  lloop fuel (fun '(i, string_store) =>
    if i <? argc then
      ustore32 (w32 (argv_store + 4 * i)) (UTEMP2USTACK string_store);;
      p ← uload32 (w32 (argv + 4 * i));
      ustrcpy string_store p;;
      p ← uload32 (w32 (argv + 4 * i));
      n ← ustrlen p;
      mret (inl (i + 1, w32 (string_store + n + 1)))
    else mret (inr string_store)) (0, string_store).

(** Returns the result and [*init_esp], if that was assigned. *)
Definition init_stack (child argv : Z) : L (Z * option Z) :=
  '(argc, string_size) ← count_args argv;
  let string_store := w32 (UTEMP + PGSIZE - string_size) in
  let argv_store := w32 (ROUNDDOWN string_store 4 - 4 * (argc + 1)) in
  if w32 (argv_store - 8) <? UTEMP then mret (- E_NO_MEM, None)
  else
    r ← sys_page_alloc 0 UTEMP (Z.lor (Z.lor PTE_P PTE_U) PTE_W);
    if r <? 0 then mret (r, None)
    else
      string_store ← copy_args argc argv argv_store string_store;
      ustore32 (w32 (argv_store + 4 * argc)) 0;;
      if negb (string_store =? UTEMP + PGSIZE)
      then user_panic "assertion failed: string_store == (char*)UTEMP + PGSIZE"
      else
        ustore32 (w32 (argv_store - 4)) (UTEMP2USTACK argv_store);;
        ustore32 (w32 (argv_store - 8)) argc;;
        let init_esp := UTEMP2USTACK (w32 (argv_store - 8)) in
        r ← sys_page_map 0 UTEMP child (USTACKTOP - PGSIZE) (Z.lor (Z.lor PTE_P PTE_U) PTE_W);
        if r <? 0 then sys_page_unmap 0 UTEMP;; mret (r, Some init_esp)
        else
          r ← sys_page_unmap 0 UTEMP;
          if r <? 0 then sys_page_unmap 0 UTEMP;; mret (r, Some init_esp)
          else mret (0, Some init_esp).

(** The page at [addr] is shared, as the entries at [uvpd] and [uvpt] say. *)
Definition shared_page (addr : Z) : L bool :=
  pde ← uvpd (PDX addr);
  if negb (has pde PTE_P) then mret false
  else
    v ← uvpt (PGNUM addr);
    if negb (has v PTE_P) then mret false
    else
      v ← uvpt (PGNUM addr);
      if negb (has v PTE_U) then mret false
      else v ← uvpt (PGNUM addr); mret (has v PTE_SHARE).

Definition copy_shared_pages (child : Z) : L Z :=
  lloop page_fuel (fun addr =>
    if addr <? USTACKTOP then
      shared ← shared_page addr;
      if (shared : bool) then
        v ← uvpt (PGNUM addr);
        w ← uvpt (PGNUM addr);
        r ← sys_page_map 0 addr child addr (Z.lor (Z.land v PTE_SYSCALL) (Z.land w PTE_SHARE));
        if r <? 0 then mret (inr r) else mret (inl (w32 (addr + PGSIZE)))
      else mret (inl (w32 (addr + PGSIZE)))
    else mret (inr 0)) UTEXT.

Context `{Library}.

(** Returns the result and [*blk]. *)
Definition read_map (fd offset : Z) : L (Z * option Z) :=
  r ← l_seek fd (s32 offset);
  if r <? 0 then mret (r, None)
  else
    r ← sys_page_alloc 0 UTEMP (Z.lor (Z.lor PTE_P PTE_U) PTE_W);
    if r <? 0 then mret (r, None)
    else
      r ← l_readn fd UTEMP PGSIZE;
      if r <? 0 then mret (r, None) else mret (0, Some UTEMP).

Definition map_segment (child va memsz fd filesz fileoffset perm : Z) : L Z :=
  let i := PGOFF va in
  let va := w32 (va - i) in
  let memsz := w32 (memsz + i) in
  let filesz := w32 (filesz + i) in
  let fileoffset := s32 (fileoffset - i) in
  lloop page_fuel (fun i =>
    if i <? memsz then
      if i >=? filesz then
        r ← sys_page_alloc child (w32 (va + i)) perm;
        if r <? 0 then mret (inr r) else mret (inl (w32 (i + PGSIZE)))
      else
        r ← sys_page_alloc 0 UTEMP (Z.lor (Z.lor PTE_P PTE_U) PTE_W);
        if r <? 0 then mret (inr r)
        else
          r ← l_seek fd (s32 (fileoffset + i));
          if r <? 0 then mret (inr r)
          else
            r ← l_readn fd UTEMP (MIN PGSIZE (w32 (filesz - i)));
            if r <? 0 then mret (inr r)
            else
              r ← sys_page_map 0 UTEMP child (w32 (va + i)) perm;
              if r <? 0 then user_panic "spawn: sys_page_map data: %e"
              else sys_page_unmap 0 UTEMP;; mret (inl (w32 (i + PGSIZE)))
    else mret (inr 0)) 0.

(** The pages of a read-only segment: read at [UTEMP] and mapped in the child. *)
Definition map_text (child va memsz fd offset perm : Z) : L Z :=
  let delta := PGOFF va in
  let seg_va := w32 (va - delta) in
  let seg_memsz := w32 (memsz + delta) in
  let seg_offset := s32 (offset - delta) in
  lloop page_fuel (fun j =>
    if j <? seg_memsz then
      '(r, blk) ← read_map fd (w32 (seg_offset + j));
      if r <? 0 then mret (inr r)
      else
        r ← sys_page_map 0 (default 0 blk) child (w32 (seg_va + j)) perm;
        if r <? 0 then mret (inr r)
        else
          r ← sys_page_unmap 0 UTEMP;
          if r <? 0 then mret (inr r) else mret (inl (w32 (j + PGSIZE)))
    else mret (inr 0)) 0.

(** The segments of the program, by the headers at [ph]. *)
Definition load_segments (child fd ph phnum : Z) : L Z :=
  lloop (S (Z.to_nat phnum)) (fun '(i, ph) =>
    if i <? phnum then
      type ← uload32 ph;
      if negb (type =? ELF_PROG_LOAD) then mret (inl (i + 1, w32 (ph + sizeof_Proghdr)))
      else
        flags ← uload32 (w32 (ph + 24));
        offset ← uload32 (w32 (ph + 4));
        va ← uload32 (w32 (ph + 8));
        filesz ← uload32 (w32 (ph + 16));
        memsz ← uload32 (w32 (ph + 20));
        r ← (if has flags ELF_PROG_FLAG_WRITE
             then map_segment child va memsz fd filesz (s32 offset) (Z.lor (Z.lor PTE_P PTE_U) PTE_W)
             else map_text child va memsz fd (s32 offset) (Z.lor (Z.lor PTE_P PTE_U) PTE_SHARE));
        if r <? 0 then mret (inr r) else mret (inl (i + 1, w32 (ph + sizeof_Proghdr)))
    else mret (inr 0)) (0, ph).

(** The locals [elf_buf] and [child_tf] of [spawn] are on the stack, at addresses the
    compiler chose.  This is [spawn] from [sys_exofork] to [init_stack]: the result to
    return at once, or the child. *)
Definition new_child (elf_buf child_tf argv : Z) : L (Z + Z) :=
  r ← sys_exofork;
  if r <? 0 then mret (inl r)
  else
    let child := r in
    e ← uenv (ENVX child);
    entry ← uload32 (w32 (elf_buf + 24));
    ustore_words child_tf (trapframe_words (env_tf e <| tf_eip := entry |>));;
    r ← copy_shared_pages child;
    if r <? 0 then user_panic "copy_shared_pages: %e"
    else
      '(r, esp) ← init_stack child argv;
      if r <? 0 then mret (inl r)
      else ustore32 (w32 (child_tf + 60)) (default 0 esp);; mret (inr child).

(** The rest: the segments, and the child set running. *)
Definition load_child (elf_buf child_tf prog child : Z) : L Z :=
  let fail (fd r : Z) : L Z := sys_env_destroy child;; l_close fd;; mret r in
  r ← l_open prog O_RDONLY;
  if r <? 0 then fail (-1) r
  else
    let fd := r in
    phoff ← uload32 (w32 (elf_buf + 28));
    phnum ← uload16 (w32 (elf_buf + 44));
    r ← load_segments child fd (w32 (elf_buf + phoff)) phnum;
    if r <? 0 then fail fd r
    else
      l_close fd;;
      r ← sys_env_set_trapframe child child_tf;
      if r <? 0 then user_panic "sys_env_set_trapframe: %e"
      else
        r ← sys_env_set_status child ENV_RUNNABLE;
        if r <? 0 then user_panic "sys_env_set_status: %e" else mret child.

Definition spawn (elf_buf child_tf prog argv : Z) : L Z :=
  r ← l_open prog O_RDONLY;
  if r <? 0 then mret r
  else
    let fd := r in
    r ← l_readn fd elf_buf 512;
    bad ← (if negb (r =? 512) then mret true else m ← uload32 elf_buf; mret (negb (m =? ELF_MAGIC)));
    if (bad : bool) then
      l_close fd;;
      uload32 elf_buf;;
      l_print "elf magic %08x want %08x";;
      mret (- E_NOT_EXEC)
    else
      l_close fd;;
      x ← new_child elf_buf child_tf argv;
      match x with
      | inl r => mret r
      | inr child => load_child elf_buf child_tf prog child
      end.
End spawn.
