(* ===== verification/SpawnStack.v ===== *)
(** * Argument arrays and the stack of a new program

    What a program reads at an address, an argument array as both the parent and the child
    of [spawn] see it, and the page that [init_stack] fills. *)

From S2P Require Import Prelude Mem CString Mmu KState Printf Pmap VmInv VmSpec VmLife Environ Sched Syscall Trap EnvInv EnvFree SchedSpec UserMem SysSpec User UserSpec UserVm UserEnv Fork ForkSpec UserPage Spawn.

(** ** Argument arrays

    What a program reads at an address, and an argument array as both the parent and the
    child of [spawn] see it. *)

(** ** What a program reads

    A view of memory gives the byte at an address, if there is one to read. *)

Definition view : Type := Z -> option Z.

(** The view through directory [d], and the parts of it that are not on page [p], and that
    are. *)
Definition ubyte (m : memory) (d : Z) : view := fun va =>
  match umap m d (PDX va) (PTX va) with
  | Some v => if has v PTE_U then Some (ld8 m (kva (v / PGSIZE) + PGOFF va)) else None
  | None => None
  end.
Definition hide (p : Z) (m : memory) (d : Z) : view := fun va =>
  match umap m d (PDX va) (PTX va) with
  | Some v => if v / PGSIZE =? p then None else ubyte m d va
  | None => None
  end.
Definition on (p : Z) (m : memory) (d : Z) : view := fun va =>
  match umap m d (PDX va) (PTX va) with
  | Some v => if v / PGSIZE =? p then ubyte m d va else None
  | None => None
  end.

Definition vword (g : view) (va : Z) : option Z :=
  match g va, g (va + 1), g (va + 2), g (va + 3) with
  | Some b0, Some b1, Some b2, Some b3 => Some (b0 + 256 * b1 + 65536 * b2 + 16777216 * b3)
  | _, _, _, _ => None
  end.

(** The string [l] at [va]. *)
Fixpoint vstring (g : view) (va : Z) (l : list Z) : Prop :=
  match l with
  | [] => g va = Some 0
  | c :: l' => c <> 0 /\ g va = Some c /\ vstring g (va + 1) l'
  end.

(** The null-terminated array [argv] points to the strings [args]. *)
Record args_at (g : view) (argv : Z) (args : list (list Z)) : Prop := {
  aa_align : argv mod 4 = 0;
  aa_range : 0 <= argv /\ argv + 4 * (Z.of_nat (length args) + 1) <= UTOP;
  aa_end : vword g (argv + 4 * Z.of_nat (length args)) = Some 0;
  aa_arg : forall i l, args !! i = Some l -> exists p, 0 < p /\ p + Z.of_nat (length l) < UTOP /\
    vword g (argv + 4 * Z.of_nat i) = Some p /\ vstring g p l }.

(** What one view shows, the other one does. *)
Definition within (g g' : view) : Prop := forall va b, 0 <= va < UTOP -> g va = Some b -> g' va = Some b.

Lemma within_word g g' va w : within g g' -> 0 <= va -> va + 4 <= UTOP -> vword g va = Some w -> vword g' va = Some w.
Proof.
  intros Hg H0 H1. unfold vword.
  destruct (g va) as [b0|] eqn:E0, (g (va + 1)) as [b1|] eqn:E1, (g (va + 2)) as [b2|] eqn:E2, (g (va + 3)) as [b3|] eqn:E3; try done.
  by rewrite (Hg va b0 ltac:(lia) E0), (Hg (va + 1) b1 ltac:(lia) E1), (Hg (va + 2) b2 ltac:(lia) E2), (Hg (va + 3) b3 ltac:(lia) E3).
Qed.
Lemma within_string g g' p l : within g g' -> 0 <= p -> p + Z.of_nat (length l) < UTOP -> vstring g p l -> vstring g' p l.
Proof.
  intros Hg. revert p. induction l as [|c l IH]; intros p Hp Hl; cbn [vstring length] in *.
  - apply Hg. lia.
  - intros (Hc & Hb & Hr). split; [done|]. split; [apply Hg; [lia | done] | apply IH; [lia | lia | done]].
Qed.
Lemma within_args g g' argv args : within g g' -> args_at g argv args -> args_at g' argv args.
Proof.
  intros Hg [Ha [H0 H1] He Hargs]. constructor; [done | done | |].
  - apply (within_word g); [done | lia | lia | done].
  - intros i l Hi. destruct (Hargs i l Hi) as (p & Hp & Hpl & Hw & Hst). pose proof (lookup_lt_Some _ _ _ Hi).
    exists p. split; [done|]. split; [done|]. split; [apply (within_word g); [done | lia | lia | done]|].
    apply (within_string g); [done | lia | done | done].
Qed.

(** A page with the same words has the same bytes. *)
Lemma page_byte m m' p p' o : 0 <= o < PGSIZE -> (forall k, 0 <= k < 1024 -> word m' p' k = word m p k) ->
  ld8 m' (kva p' + o) = ld8 m (kva p + o).
Proof.
  unfold PGSIZE. intros Ho Hw.
  assert (Hb : forall m p, ld8 m (kva p + o) = (word m p (o / 4) / 2 ^ (8 * (o mod 4))) mod 256).
  { intros m0 p0. unfold word. rewrite ld8_ld32 by zlia. f_equal. zlia. }
  rewrite !Hb, Hw by zlia. done.
Qed.

Lemma PGOFF_range va : 0 <= va < UTOP -> 0 <= PGOFF va < PGSIZE.
Proof. change UTOP with 4005560320. intros Hva. rewrite PGOFF_mod by lia. unfold PGSIZE. zlia. Qed.

(** What is mapped in [m] is mapped in [m'], with the same contents unless on page [p]. *)
Lemma hide_within p d m m' :
  (forall i j v, 0 <= i < NUPDE -> 0 <= j < NPTENTRIES -> umap m d i j = Some v -> umap m' d i j = Some v /\
     (v / PGSIZE <> p -> forall k, 0 <= k < 1024 -> word m' (v / PGSIZE) k = word m (v / PGSIZE) k)) ->
  within (hide p m d) (hide p m' d).
Proof.
  intros Hs va b Hva. unfold hide, ubyte. destruct (umap m d (PDX va) (PTX va)) as [v|] eqn:Ev; [|done].
  destruct (Hs _ _ _ (PDX_user va Hva) (PTX_range va) Ev) as [-> Hw]. destruct (Z.eqb_spec (v / PGSIZE) p); [done|].
  destruct (has v PTE_U); [|done]. intros <-. f_equal. apply page_byte; [by apply PGOFF_range | by apply Hw].
Qed.
Lemma hide_sub p m d : within (hide p m d) (ubyte m d).
Proof. intros va b _. unfold hide. destruct (umap m d (PDX va) (PTX va)) as [v|]; [|done]. by destruct (v / PGSIZE =? p). Qed.
Lemma on_within p d m m' :
  (forall i j v, 0 <= i < NUPDE -> 0 <= j < NPTENTRIES -> umap m d i j = Some v -> umap m' d i j = Some v) ->
  (forall k, 0 <= k < 1024 -> word m' p k = word m p k) -> within (on p m d) (on p m' d).
Proof.
  intros Hs Hw va b Hva. unfold on, ubyte. destruct (umap m d (PDX va) (PTX va)) as [v|] eqn:Ev; [|done].
  rewrite (Hs _ _ _ (PDX_user va Hva) (PTX_range va) Ev). destruct (Z.eqb_spec (v / PGSIZE) p) as [-> | ?]; [|done].
  destruct (has v PTE_U); [|done]. intros <-. f_equal. apply page_byte; [by apply PGOFF_range | exact Hw].
Qed.
Lemma on_sub p m d : within (on p m d) (ubyte m d).
Proof. intros va b _. unfold on. destruct (umap m d (PDX va) (PTX va)) as [v|]; [|done]. by destruct (v / PGSIZE =? p). Qed.
Lemma ubyte_within d m m' :
  (forall i j v, 0 <= i < NUPDE -> 0 <= j < NPTENTRIES -> umap m d i j = Some v -> umap m' d i j = Some v /\
     forall k, 0 <= k < 1024 -> word m' (v / PGSIZE) k = word m (v / PGSIZE) k) ->
  within (ubyte m d) (ubyte m' d).
Proof.
  intros Hs va b Hva. unfold ubyte. destruct (umap m d (PDX va) (PTX va)) as [v|] eqn:Ev; [|done].
  destruct (Hs _ _ _ (PDX_user va Hva) (PTX_range va) Ev) as [-> Hw].
  destruct (has v PTE_U); [|done]. intros <-. f_equal. apply page_byte; [by apply PGOFF_range | exact Hw].
Qed.

(** The bytes of an aligned word are on one page. *)
Lemma near va i : 0 <= va < UTOP -> va mod 4 = 0 -> 0 <= i < 4 ->
  PDX (va + i) = PDX va /\ PTX (va + i) = PTX va /\ PGOFF (va + i) = PGOFF va + i.
Proof.
  intros Hva Hm Hi. set (pg := va - va mod PGSIZE).
  assert (Hpg : 0 <= pg < UTOP /\ pg mod PGSIZE = 0 /\ 0 <= va mod PGSIZE /\ va mod PGSIZE + i < PGSIZE).
  { change UTOP with 4005560320 in *. unfold pg, PGSIZE. zlia. }
  destruct Hpg as (Hr & Hp & Ho & Hoi). unfold PGSIZE in Hoi.
  destruct (va_plus pg (va mod PGSIZE) Hr Hp ltac:(unfold PGSIZE in *; lia)) as (_ & X0 & T0 & O0).
  destruct (va_plus pg (va mod PGSIZE + i) Hr Hp ltac:(unfold PGSIZE in *; lia)) as (_ & X1 & T1 & O1).
  replace (pg + va mod PGSIZE) with va in X0, T0, O0 by (unfold pg; lia).
  replace (pg + (va mod PGSIZE + i)) with (va + i) in X1, T1, O1 by (unfold pg; lia).
  by rewrite X1, T1, O1, X0, T0, O0.
Qed.
Lemma ubyte_word m d va w : 0 <= va < UTOP -> va mod 4 = 0 -> vword (ubyte m d) va = Some w ->
  exists v, umap m d (PDX va) (PTX va) = Some v /\ has v PTE_U = true /\ w = ld32 m (kva (v / PGSIZE) + PGOFF va).
Proof.
  intros Hva Hm. unfold vword, ubyte.
  destruct (near va 1 Hva Hm ltac:(lia)) as (-> & -> & ->). destruct (near va 2 Hva Hm ltac:(lia)) as (-> & -> & ->).
  destruct (near va 3 Hva Hm ltac:(lia)) as (-> & -> & ->).
  destruct (umap m d (PDX va) (PTX va)) as [v|]; [|done]. destruct (has v PTE_U) eqn:EU; [|done].
  intros [= <-]. exists v. unfold ld32. by rewrite !Z.add_assoc.
Qed.

(** ** Sizes *)

Definition args_size (args : list (list Z)) : Z := foldr (fun l z => Z.of_nat (length l) + 1 + z) 0 args.
(** Offsets in the stack page: of the first string, and of the array. *)
Definition strings_off (args : list (list Z)) : Z := PGSIZE - args_size args.
Definition argv_off (args : list (list Z)) : Z :=
  strings_off args - strings_off args mod 4 - 4 * (Z.of_nat (length args) + 1).

Lemma args_size_nonneg args : 0 <= args_size args.
Proof. induction args as [|l args IH]; simpl; lia. Qed.
Lemma args_size_app a b : args_size (a ++ b) = args_size a + args_size b.
Proof. induction a as [|l a IH]; simpl; [done|]. rewrite IH. lia. Qed.

Lemma off_facts args : 8 <= argv_off args ->
  argv_off args mod 4 = 0 /\ argv_off args + 4 * (Z.of_nat (length args) + 1) <= strings_off args /\
  0 <= strings_off args /\ strings_off args + args_size args = PGSIZE.
Proof. intros Hfit. unfold argv_off, strings_off in *. pose proof (args_size_nonneg args). unfold PGSIZE in *. zlia. Qed.

Section reading.
Context (c : Z) (dirs : list Z) (rl : Z -> role) (d : Z) (Hd : d ∈ dirs) (s : kst) (Ho : owns c dirs rl d s).
Context (fuel : nat).

Lemma uload8_run va b : 0 <= va < UTOP -> ubyte (mem s) d va = Some b -> uload8 va s = Ret (inl b) s.
Proof.
  intros Hva. unfold ubyte. destruct (umap (mem s) d (PDX va) (PTX va)) as [v|] eqn:Ev; [|done].
  destruct (has v PTE_U) eqn:EU; [|done]. intros [= <-]. destruct Ho as [Hu He Hp]. unfold uload8.
  by lrw (utrans_run s c dirs rl Hu d Hd He Hp va v false Hva Ev EU ltac:(done)).
Qed.
Lemma uload32_run va w : 0 <= va < UTOP -> va mod 4 = 0 -> vword (ubyte (mem s) d) va = Some w -> uload32 va s = Ret (inl w) s.
Proof.
  intros Hva Hm Hw. destruct (ubyte_word _ _ _ _ Hva Hm Hw) as (v & Ev & EU & ->). destruct Ho as [Hu He Hp]. unfold uload32.
  rewrite (proj2 (Z.leb_le _ _)).
  2:{ change UTOP with 4005560320 in Hva. rewrite PGOFF_mod by lia. unfold PGSIZE. zlia. }
  by lrw (utrans_run s c dirs rl Hu d Hd He Hp va v false Hva Ev EU ltac:(done)).
Qed.

Lemma ustrlen_run p l : 0 <= p -> p + Z.of_nat (length l) < UTOP -> (length l < fuel)%nat ->
  vstring (ubyte (mem s) d) p l -> ustrlen fuel p s = Ret (inl (Z.of_nat (length l))) s.
Proof.
  change UTOP with 4005560320. intros Hp Hl Hf Hst. unfold ustrlen.
  enough (Hg : forall n, lloop fuel (fun '(s, n) => c ← uload8 s;
    if negb (c =? 0) then mret (inl (w32 (s + 1), n + 1)) else mret (inr n)) (p, n) s =
    Ret (inl (n + Z.of_nat (length l))) s) by apply (Hg 0).
  revert p Hp Hl Hf Hst. revert fuel.
  induction l as [|ch l IH]; intros [|f] p Hp Hl Hf Hst n; cbn [vstring length] in *; try lia.
  - assert (Hb : uload8 p s = Ret (inl 0) s) by (apply uload8_run; [change UTOP with 4005560320; lia | done]).
    apply lloop_done. lrw Hb. repeat f_equal. rewrite Z.add_0_r. reflexivity.
  - destruct Hst as (Hc & Hb & Hst).
    assert (Hb' : uload8 p s = Ret (inl ch) s) by (apply uload8_run; [change UTOP with 4005560320; lia | done]).
    erewrite lloop_next.
    2:{ lrw Hb'. rewrite (proj2 (Z.eqb_neq ch 0) Hc). cbn [negb]. rewrite w32_small by lia. reflexivity. }
    rewrite IH; [do 2 f_equal; lia | lia | lia | lia | done].
Qed.

Lemma count_args_run argv args : args_at (ubyte (mem s) d) argv args -> (length args < fuel)%nat ->
  Forall (fun l => (length l < fuel)%nat) args -> args_size args < 2 ^ 32 ->
  count_args fuel argv s = Ret (inl (Z.of_nat (length args), args_size args)) s.
Proof.
  intros Ha Hf Hls Hsz. pose proof Ha as [Hal [H0 H1] He Harg]. change UTOP with 4005560320 in H1.
  assert (Hg : forall rem pre f, args = pre ++ rem -> (length rem < f)%nat ->
    lloop f (fun '(argc, string_size) =>
      p ← uload32 (w32 (argv + 4 * argc));
      if p =? 0 then mret (inr (argc, string_size))
      else p ← uload32 (w32 (argv + 4 * argc)); n ← ustrlen fuel p; mret (inl (argc + 1, w32 (string_size + n + 1))))
      (Z.of_nat (length pre), args_size pre) s = Ret (inl (Z.of_nat (length args), args_size args)) s).
  { induction rem as [|l rem IH]; intros pre [|f] -> Hrf; simpl in Hrf; try lia.
    - rewrite app_nil_r in *. apply lloop_done. rewrite w32_small by lia.
      lrw (uload32_run (argv + 4 * Z.of_nat (length pre)) 0 ltac:(change UTOP with 4005560320; lia) ltac:(zlia) He). reflexivity.
    - destruct (Harg (length pre) l) as (p & Hp & Hpl & Hw & Hst); [by apply list_lookup_middle|].
      rewrite length_app in H1. cbn [length] in H1. rewrite args_size_app in Hsz. cbn [args_size foldr] in Hsz.
      pose proof (args_size_nonneg rem) as Hn1. pose proof (args_size_nonneg pre) as Hn2.
      fold (args_size rem) in Hsz. apply Forall_app in Hls as [_ Hls]. apply Forall_cons in Hls as [Hl _].
      erewrite lloop_next.
      2:{ rewrite !(w32_small (argv + _)) by lia.
          assert (Hld : uload32 (argv + 4 * Z.of_nat (length pre)) s = Ret (inl p) s)
            by (apply uload32_run; [change UTOP with 4005560320; lia | zlia | done]).
          lrw Hld. rewrite (proj2 (Z.eqb_neq p 0)) by lia. lrw Hld.
          lrw (ustrlen_run p l ltac:(lia) Hpl Hl Hst). rewrite w32_small by lia. reflexivity. }
      specialize (IH (pre ++ [l]) f). rewrite length_app, args_size_app in IH. cbn [length args_size foldr] in IH.
      replace (Z.of_nat (length pre + 1)) with (Z.of_nat (length pre) + 1) in IH by lia.
      replace (args_size pre + (Z.of_nat (length l) + 1 + 0)) with (args_size pre + Z.of_nat (length l) + 1) in IH by lia.
      apply IH; [by rewrite <- app_assoc | lia]. }
  exact (Hg args [] fuel eq_refl Hf).
Qed.
End reading.

(** ** The stack of a new program

    The page that [init_stack] fills at [UTEMP], and what the child finds in it. *)

Lemma UTEMP_va : 0 <= UTEMP < UTOP /\ UTEMP mod PGSIZE = 0.
Proof. by vm_compute. Qed.

Definition USTACK : Z := USTACKTOP - PGSIZE.
Lemma USTACK_va : 0 <= USTACK < UTOP /\ USTACK mod PGSIZE = 0.
Proof. by vm_compute. Qed.
Lemma to_stack o : 0 <= o < PGSIZE -> UTEMP2USTACK (UTEMP + o) = USTACK + o.
Proof.
  unfold PGSIZE. intros Ho. unfold UTEMP2USTACK. fold USTACK. change USTACK with 4005548032. change UTEMP with 4194304.
  rewrite w32_small by lia. lia.
Qed.

Lemma ld32_same m m' a : (forall x, a <= x < a + 4 -> ld8 m' x = ld8 m x) -> ld32 m' a = ld32 m a.
Proof. intros Hx. unfold ld32. by rewrite !Hx by lia. Qed.

(** The pointers from offset [a] on, to the strings from offset [o] on, of the page at [b]. *)
Fixpoint placed (m : memory) (b a o : Z) (args : list (list Z)) : Prop :=
  match args with
  | [] => True
  | l :: args' => ld32 m (b + a) = USTACK + o /\ cstr m (b + o) l /\
      placed m b (a + 4) (o + Z.of_nat (length l) + 1) args'
  end.

(** Two ranges of the page: the pointers still to be written, and the strings. *)
Definition outside (b a n o : Z) (m m' : memory) : Prop :=
  forall x, ~ b + a <= x < b + a + 4 * n -> ~ b + o <= x < b + PGSIZE -> ld8 m' x = ld8 m x.

Lemma placed_keep m m' b a o args :
  (forall x, b + a <= x < b + a + 4 * Z.of_nat (length args) \/ b + o <= x < b + o + args_size args -> ld8 m' x = ld8 m x) ->
  placed m b a o args -> placed m' b a o args.
Proof.
  revert a o. induction args as [|l args IH]; intros a o Hx; [done|]. cbn [placed length args_size foldr] in *.
  fold (args_size args) in Hx. pose proof (args_size_nonneg args) as Hn.
  intros (Hp & Hs & Hr). split; [rewrite <- Hp; apply ld32_same; intros; apply Hx; lia|]. split.
  - revert Hs. apply cstr_frame. intros x Hr'. apply Hx. lia.
  - revert Hr. apply IH. intros x Hr'. apply Hx. lia.
Qed.

Lemma placed_lookup m b a o args i l : placed m b a o args -> args !! i = Some l ->
  exists o', ld32 m (b + a + 4 * Z.of_nat i) = USTACK + o' /\ cstr m (b + o') l /\
    o <= o' /\ o' + Z.of_nat (length l) + 1 <= o + args_size args.
Proof.
  revert a o i. induction args as [|l0 args IH]; intros a o [|i] Hp Hi; [done | done | |];
    cbn [placed args_size foldr] in *; fold (args_size args); destruct Hp as (Hw & Hs & Hr).
  - injection Hi as <-. exists o. pose proof (args_size_nonneg args). rewrite Z.add_0_r. split_and!; [done | done | lia | lia].
  - destruct (IH _ _ i Hr Hi) as (o' & Hw' & Hs' & Hlo & Hhi). exists o'.
    replace (b + a + 4 * Z.of_nat (S i)) with (b + (a + 4) + 4 * Z.of_nat i) by lia.
    split_and!; [done | done | lia | lia].
Qed.

(** ** Writing the page *)

Section fill.
Context `{Devices} `{TrapDevices} `{Program} (Hcs : Z.land (tf_cs saved_regs) 3 = 3) (fuel : nat).
Context (s : kst) (c : Z) (dirs : list Z) (rl : Z -> role) (d : Z) (Hr : ready s c dirs rl d).
Context (Hempty : umap (mem s) d (PDX UTEMP) (PTX UTEMP) = None).
Context (pp : Z) (s1 : kst) (rl1 : Z -> role) (Hg : staged s c dirs rl d UTEMP pp s1 rl1).

Let b : Z := kva pp.
Let at_ (m : memory) : kst := s1 <| mem := m |>.

Lemma fill_owns m : page_only pp (mem s1) m -> owns c dirs rl1 d (at_ m).
Proof.
  intros Ho. apply ready_owns. apply (filled_ready s c dirs rl d UTEMP Hr (proj1 UTEMP_va) pp s1 rl1 Hg m Ho).
Qed.

(** The arguments stay what they were while the page is filled. *)
Lemma fill_sees m : page_only pp (mem s1) m -> within (ubyte (mem s) d) (ubyte m d).
Proof.
  intros Ho. apply ubyte_within. intros i j v Hi Hj Hum. pose proof (re_dir _ _ _ _ _ Hr) as Hd. destruct UTEMP_va as [Ht _]. split.
  - rewrite (filled_umap s c dirs rl d UTEMP Hr Ht pp s1 rl1 Hg m Ho d i j Hd Hi Hj), (sg_maps _ _ _ _ _ _ _ _ _ Hg); try done.
    intros [= -> ->]. congruence.
  - assert (Hm : mapped dirs s (v / PGSIZE)) by (by exists d, i, j, v). intros k Hk.
    apply (filled_data s c dirs rl d UTEMP Hr pp s1 rl1 Hg m Ho); [done | | done].
    intros He. apply (staged_fresh s c dirs rl d UTEMP Hr pp s1 rl1 Hg). by rewrite <- He.
Qed.

Lemma fill_trans m o : page_only pp (mem s1) m -> 0 <= o < PGSIZE -> utrans (UTEMP + o) true (at_ m) = Ret (inl (b + o)) (at_ m).
Proof.
  intros Ho Hr'. destruct UTEMP_va as [Ht Mt]. destruct (va_plus UTEMP o Ht Mt Hr') as (Hva & Hx & Hy & Hz).
  pose proof (re_dir _ _ _ _ _ Hr) as Hd. destruct (fill_owns m Ho) as [Hu He Hp].
  destruct (staged_pte s c dirs rl d UTEMP Hr pp s1 rl1 Hg) as (Epp & HU & HW).
  rewrite (utrans_run (at_ m) c dirs rl1 Hu d Hd He Hp (UTEMP + o) (mkpte (pp * PGSIZE) private_perm) true Hva); [| |done|done].
  - by rewrite Epp, Hz.
  - rewrite Hx, Hy. etransitivity; [|exact (sg_page _ _ _ _ _ _ _ _ _ Hg)].
    apply (filled_umap s c dirs rl d UTEMP Hr Ht pp s1 rl1 Hg m Ho); [done | by apply PDX_user | apply PTX_range].
Qed.

Lemma fill8 m o v : page_only pp (mem s1) m -> 0 <= o < PGSIZE ->
  ustore8 (UTEMP + o) v (at_ m) = Ret (inl tt) (at_ (st8 m (b + o) v)) /\ page_only pp (mem s1) (st8 m (b + o) v).
Proof.
  intros Ho Hr'. split; [unfold ustore8; by lrw (fill_trans m o Ho Hr')|].
  eapply page_only_trans; [exact Ho | by apply page_only_st8].
Qed.
Lemma fill32 m o v : page_only pp (mem s1) m -> 0 <= o <= PGSIZE - 4 ->
  ustore32 (UTEMP + o) v (at_ m) = Ret (inl tt) (at_ (st32 m (b + o) v)) /\ page_only pp (mem s1) (st32 m (b + o) v).
Proof.
  intros Ho Hr'. split.
  - destruct UTEMP_va as [Ht Mt]. destruct (va_plus UTEMP o Ht Mt ltac:(unfold PGSIZE in *; lia)) as (_ & _ & _ & Hz).
    unfold ustore32. rewrite Hz, (proj2 (Z.leb_le _ _)) by lia.
    by lrw (fill_trans m o Ho ltac:(unfold PGSIZE in *; lia)).
  - eapply page_only_trans; [exact Ho | by apply page_only_st32].
Qed.

(** [strcpy] of an argument to offset [o]. *)
Lemma ustrcpy_run p l o m : page_only pp (mem s1) m -> 0 < p -> p + Z.of_nat (length l) < UTOP -> vstring (ubyte (mem s) d) p l ->
  (length l < fuel)%nat -> 0 <= o -> o + Z.of_nat (length l) < PGSIZE ->
  exists m', ustrcpy fuel (UTEMP + o) p (at_ m) = Ret (inl tt) (at_ m') /\ page_only pp (mem s1) m' /\
    cstr m' (b + o) l /\ forall x, ~ b + o <= x <= b + o + Z.of_nat (length l) -> ld8 m' x = ld8 m x.
Proof.
  change UTOP with 4005560320. unfold ustrcpy. revert fuel p o m.
  induction l as [|ch l IH]; intros [|f] p o m Ho Hp Hpl Hst Hf Ho0 Hl; cbn [length vstring] in *; try lia.
  - assert (Hld : uload8 p (at_ m) = Ret (inl 0) (at_ m)).
    { apply (uload8_run c dirs rl1 d (re_dir _ _ _ _ _ Hr) _ (fill_owns m Ho)); [change UTOP with 4005560320; lia|].
      apply (fill_sees m Ho); [change UTOP with 4005560320; lia | done]. }
    destruct (fill8 m o 0 Ho ltac:(lia)) as [Hst8 Ho'].
    exists (st8 m (b + o) 0). split; [|split; [exact Ho'|split]].
    + apply lloop_done. lrw Hld. lrw Hst8. reflexivity.
    + cbn [cstr]. apply ld8_st8_eq.
    + intros x Hx. apply ld8_st8_ne. lia.
  - destruct Hst as (Hc & Hb & Hst).
    assert (Hld : uload8 p (at_ m) = Ret (inl ch) (at_ m)).
    { apply (uload8_run c dirs rl1 d (re_dir _ _ _ _ _ Hr) _ (fill_owns m Ho)); [change UTOP with 4005560320; lia|].
      apply (fill_sees m Ho); [change UTOP with 4005560320; lia | done]. }
    assert (Hch : ch mod 256 = ch).
    { unfold ubyte in Hb. repeat case_match; simplify_eq. apply ld8_mod. }
    destruct (fill8 m o ch Ho ltac:(lia)) as [Hst8 Ho'].
    destruct (IH f (p + 1) (o + 1) (st8 m (b + o) ch) Ho') as (m' & Hrun & Hom & Hcs' & Hfr); [lia | lia | done | lia | lia | lia|].
    exists m'. split; [|split; [exact Hom|split]].
    + rewrite <- Hrun. apply lloop_next. lrw Hld. lrw Hst8. rewrite (proj2 (Z.eqb_neq ch 0) Hc). cbn [negb].
      change UTEMP with 4194304. unfold PGSIZE in Hl. rewrite !w32_small by lia.
      replace (4194304 + (o + 1)) with (4194304 + o + 1) by lia. reflexivity.
    + cbn [cstr]. split; [done|]. split; [rewrite Hfr by lia; by rewrite ld8_st8_eq|].
      replace (b + o + 1) with (b + (o + 1)) by lia. exact Hcs'.
    + intros x Hx. rewrite Hfr by lia. apply ld8_st8_ne. lia.
Qed.

(** ** The arguments copied *)

Context (argv : Z) (args : list (list Z)) (Ha : args_at (ubyte (mem s) d) argv args).
Context (Hlen : Forall (fun l => (length l < fuel)%nat) args) (Hfit : 8 <= argv_off args).

(** Pointer [i] of the array, and the string it points to. *)
Lemma argument_run i l m : args !! i = Some l -> page_only pp (mem s1) m ->
  exists p, 0 < p /\ p + Z.of_nat (length l) < UTOP /\ vstring (ubyte (mem s) d) p l /\
    uload32 (w32 (argv + 4 * Z.of_nat i)) (at_ m) = Ret (inl p) (at_ m) /\
    ustrlen fuel p (at_ m) = Ret (inl (Z.of_nat (length l))) (at_ m).
Proof.
  intros Hi Ho. pose proof (fill_sees m Ho) as Hsee. pose proof Ha as [Hal [Hr0 Hr1] _ Harg0].
  destruct (Harg0 i l Hi) as (p & Hp & Hpl & Hw0 & Hst).
  assert (Hin : Z.of_nat i < Z.of_nat (length args)) by (apply lookup_lt_Some in Hi; lia).
  assert (Hva : 0 <= argv + 4 * Z.of_nat i < UTOP) by lia. pose proof (re_dir _ _ _ _ _ Hr) as Hd.
  exists p. split_and!; [done | done | done | |].
  - rewrite w32_small by (change UTOP with 4005560320 in *; lia).
    apply (uload32_run c dirs rl1 d Hd _ (fill_owns m Ho)); [exact Hva | zlia |].
    apply (within_word (ubyte (mem s) d)); [done | lia | lia | done].
  - apply (ustrlen_run c dirs rl1 d Hd _ (fill_owns m Ho)); [lia | done | |].
    + by eapply (Forall_lookup_1 _ _ _ _ Hlen).
    + apply (within_string (ubyte (mem s) d)); [done | lia | done | done].
Qed.

Lemma args_loop rem pre f m : args = pre ++ rem -> (length rem < f)%nat -> page_only pp (mem s1) m ->
  let a := argv_off args + 4 * Z.of_nat (length pre) in let o := strings_off args + args_size pre in
  exists m', lloop f (fun '(i, string_store) =>
      if i <? Z.of_nat (length args) then
        ustore32 (w32 (UTEMP + argv_off args + 4 * i)) (UTEMP2USTACK string_store);;
        p ← uload32 (w32 (argv + 4 * i));
        ustrcpy fuel string_store p;;
        p ← uload32 (w32 (argv + 4 * i));
        n ← ustrlen fuel p;
        mret (inl (i + 1, w32 (string_store + n + 1)))
      else mret (inr string_store)) (Z.of_nat (length pre), UTEMP + o) (at_ m) = Ret (inl (UTEMP + PGSIZE)) (at_ m') /\
    page_only pp (mem s1) m' /\ placed m' b a o rem /\ outside b a (Z.of_nat (length rem)) o m m'.
Proof.
  destruct (off_facts args Hfit) as (Hmod & Hle & Hs0 & Hend). revert pre f m. induction rem as [|l rem IH]; intros pre [|f] m Hargs Hf Ho;
    cbn [length] in *; try lia; cbv zeta in *.
  - rewrite app_nil_r in Hargs. subst pre. exists m. split; [|by split_and!].
    rewrite Hend. apply lloop_done. by rewrite Z.ltb_irrefl.
  - assert (Hi : args !! length pre = Some l) by (rewrite Hargs; by apply list_lookup_middle).
    pose proof Hargs as Hl%(f_equal length). rewrite length_app in Hl. cbn [length] in Hl.
    pose proof Hargs as Hsz%(f_equal args_size). rewrite args_size_app in Hsz. cbn [args_size foldr] in Hsz.
    fold (args_size rem) in Hsz. pose proof (args_size_nonneg pre) as Hn1. pose proof (args_size_nonneg rem) as Hn2.
    set (a := argv_off args + 4 * Z.of_nat (length pre)). set (o := strings_off args + args_size pre).
    assert (Har : 0 <= a <= PGSIZE - 4 /\ a + 4 * (Z.of_nat (length rem) + 1) <= o /\ 0 <= o < PGSIZE /\
      o + Z.of_nat (length l) + 1 + args_size rem = PGSIZE) by (unfold a, o; lia).
    destruct Har as (Ha1 & Ha2 & Ho1 & Ho2).
    destruct (fill32 m a (USTACK + o) Ho Ha1) as [Hst32 Ho32]. set (m1 := st32 m (b + a) (USTACK + o)) in *.
    destruct (argument_run (length pre) l m1 Hi Ho32) as (p & Hp & Hpl & Hst & Hld & _).
    destruct (ustrcpy_run p l o m1 Ho32 Hp Hpl Hst) as (m2 & Hcpy & Hom2 & Hcs2 & Hfr2);
      [by eapply (Forall_lookup_1 _ _ _ _ Hlen) | lia | lia |].
    destruct (argument_run (length pre) l m2 Hi Hom2) as (p' & _ & _ & Hst' & Hld' & Hln').
    destruct (IH (pre ++ [l]) f m2) as (m3 & Hrun & Hom3 & Hpl3 & Hout3);
      [by rewrite <- app_assoc | lia | done |].
    rewrite length_app, args_size_app in Hrun, Hpl3, Hout3. cbn [length args_size foldr] in Hrun, Hpl3, Hout3.
    replace (Z.of_nat (length pre + 1)) with (Z.of_nat (length pre) + 1) in Hrun by lia.
    replace (argv_off args + 4 * Z.of_nat (length pre + 1)) with (a + 4) in Hpl3, Hout3 by (unfold a; lia).
    replace (strings_off args + (args_size pre + (Z.of_nat (length l) + 1 + 0))) with (o + Z.of_nat (length l) + 1) in Hrun, Hpl3, Hout3
      by (unfold o; lia).
    exists m3. split; [|split; [exact Hom3|split]].
    + rewrite <- Hrun. apply lloop_next. rewrite (proj2 (Z.ltb_lt _ _)) by lia. rewrite to_stack by done.
      rewrite (w32_small (UTEMP + _ + _)) by (change UTEMP with 4194304; unfold PGSIZE in *; lia).
      replace (UTEMP + argv_off args + 4 * Z.of_nat (length pre)) with (UTEMP + a) by (unfold a; lia).
      lrw Hst32. lrw Hld. lrw Hcpy. lrw Hld'. lrw Hln'.
      rewrite w32_small by (change UTEMP with 4194304; unfold PGSIZE in *; lia).
      replace (UTEMP + o + Z.of_nat (length l) + 1) with (UTEMP + (o + Z.of_nat (length l) + 1)) by lia. reflexivity.
    + cbn [placed]. split; [|split; [|exact Hpl3]].
      * rewrite (ld32_same m1) by (intros x Hx; rewrite Hout3 by lia; apply Hfr2; lia).
        unfold m1. rewrite ld32_st32_eq. apply w32_small. unfold USTACK. change (USTACKTOP - PGSIZE) with 4005548032.
        unfold PGSIZE in *. lia.
      * revert Hcs2. apply cstr_frame. intros x Hx. apply Hout3; lia.
    + intros x Hx1 Hx2. rewrite Hout3, Hfr2 by lia. unfold m1. rewrite ld8_st32.
      destruct ((b + a <=? x) && (x <? b + a + 4)) eqn:E; [zbool; lia | done].
Qed.
End fill.

(** ** What the child finds in the page *)

Section child.
Context (m m' : memory) (d' pp : Z) (Hpp : 0 <= pp).
Context (Hum : umap m' d' (PDX USTACK) (PTX USTACK) = Some (mkpte (pp * PGSIZE) private_perm)).
Context (Hw : forall k, 0 <= k < 1024 -> word m' pp k = word m pp k).

Lemma child_slot o : 0 <= o < PGSIZE -> umap m' d' (PDX (USTACK + o)) (PTX (USTACK + o)) = Some (mkpte (pp * PGSIZE) private_perm) /\
  PGOFF (USTACK + o) = o /\ mkpte (pp * PGSIZE) private_perm / PGSIZE = pp /\ has (mkpte (pp * PGSIZE) private_perm) PTE_U = true.
Proof.
  intros Ho. destruct USTACK_va as [Hr Hm]. destruct (va_plus USTACK o Hr Hm Ho) as (_ & -> & -> & ->).
  destruct (mkpte_facts pp private_perm Hpp ltac:(done)) as (E & HU & _). auto.
Qed.
Lemma child_byte o : 0 <= o < PGSIZE -> on pp m' d' (USTACK + o) = Some (ld8 m (kva pp + o)).
Proof.
  intros Ho. destruct (child_slot o Ho) as (E1 & E2 & E3 & E4). unfold on, ubyte. rewrite E1, E4, E2, E3, Z.eqb_refl. f_equal. by apply page_byte.
Qed.
Lemma child_word o : 0 <= o -> o + 4 <= PGSIZE -> vword (on pp m' d') (USTACK + o) = Some (ld32 m (kva pp + o)).
Proof.
  intros Ho Hl. unfold vword, ld32. rewrite <- !Z.add_assoc, !child_byte by lia. by rewrite !Z.add_assoc.
Qed.
Lemma child_string o l : 0 <= o -> o + Z.of_nat (length l) < PGSIZE -> cstr m (kva pp + o) l -> vstring (on pp m' d') (USTACK + o) l.
Proof.
  revert o. induction l as [|c l IH]; intros o Ho Hl; cbn [cstr vstring length] in *.
  - intros Hc. by rewrite child_byte, Hc by lia.
  - intros (Hc & Hb & Hs). split; [done|]. split; [by rewrite child_byte, Hb by lia|].
    replace (USTACK + o + 1) with (USTACK + (o + 1)) by lia. apply IH; [lia | lia |].
    by replace (kva pp + (o + 1)) with (kva pp + o + 1) by lia.
Qed.

Lemma child_args args a o : placed m (kva pp) a o args -> ld32 m (kva pp + a + 4 * Z.of_nat (length args)) = 0 ->
  a mod 4 = 0 -> 0 <= a -> a + 4 * (Z.of_nat (length args) + 1) <= PGSIZE -> 0 <= o -> o + args_size args <= PGSIZE ->
  args_at (on pp m' d') (USTACK + a) args.
Proof.
  intros Hpl Hend Hm Ha Hal Ho Hol. destruct USTACK_va as [Hr Hmu]. unfold PGSIZE in Hal, Hol, Hmu. constructor.
  - zlia.
  - change UTOP with 4005560320. change USTACK with 4005548032 in *. lia.
  - rewrite <- Z.add_assoc, child_word by (unfold PGSIZE; lia). rewrite <- Hend. do 2 f_equal. lia.
  - intros i l Hi. destruct (placed_lookup _ _ _ _ _ _ _ Hpl Hi) as (o' & Hp & Hs & Hlo & Hhi).
    pose proof (lookup_lt_Some _ _ _ Hi). exists (USTACK + o'). change USTACK with 4005548032. split; [lia|].
    split; [change UTOP with 4005560320; lia|]. change 4005548032 with USTACK. split.
    + rewrite <- Z.add_assoc, child_word by (unfold PGSIZE; lia). rewrite Z.add_assoc. by rewrite Hp.
    + apply child_string; [lia | unfold PGSIZE; lia | done].
Qed.
End child.

(** ** [init_stack] *)

Section init_stack.
Context `{Devices} `{TrapDevices} `{Program} (Hcs : Z.land (tf_cs saved_regs) 3 = 3) (fuel : nat).
Context (s : kst) (c : Z) (dirs : list Z) (rl : Z -> role) (d : Z) (Hr : ready s c dirs rl d).
Context (Hempty : umap (mem s) d (PDX UTEMP) (PTX UTEMP) = None).
Context (argv : Z) (args : list (list Z)) (Ha : args_at (ubyte (mem s) d) argv args).
Context (Hlen : Forall (fun l => (length l < fuel)%nat) args) (Hn : (length args < fuel)%nat).

(** The page [pp] in memory [m] is the stack that the arguments make. *)
Record page_built (pp : Z) (m : memory) : Prop := {
  pb_argc : ld32 m (kva pp + (argv_off args - 8)) = Z.of_nat (length args);
  pb_argv : ld32 m (kva pp + (argv_off args - 4)) = USTACK + argv_off args;
  pb_args : placed m (kva pp) (argv_off args) (strings_off args) args;
  pb_end : ld32 m (kva pp + (argv_off args + 4 * Z.of_nat (length args))) = 0 }.

Lemma ld32_skip m a v x : x + 4 <= a \/ a + 4 <= x -> ld32 (st32 m a v) x = ld32 m x.
Proof. apply ld32_st32_ne. Qed.

Lemma fill_page pp s1 rl1 : staged s c dirs rl d UTEMP pp s1 rl1 -> 8 <= argv_off args ->
  exists m', (forall A (k : L A), (string_store ← copy_args fuel (Z.of_nat (length args)) argv (UTEMP + argv_off args) (UTEMP + strings_off args);
      ustore32 (w32 (UTEMP + argv_off args + 4 * Z.of_nat (length args))) 0;;
      if negb (string_store =? UTEMP + PGSIZE)
      then user_panic "assertion failed: string_store == (char*)UTEMP + PGSIZE"
      else
        ustore32 (w32 (UTEMP + argv_off args - 4)) (UTEMP2USTACK (UTEMP + argv_off args));;
        ustore32 (UTEMP + argv_off args - 8) (Z.of_nat (length args));;
        k) s1 = k (s1 <| mem := m' |>)) /\ page_only pp (mem s1) m' /\ page_built pp m'.
Proof.
  intros Hg Hfit. destruct (off_facts args Hfit) as (Hmod & Hle & Hs0 & Hend).
  set (a := argv_off args) in *. set (n := Z.of_nat (length args)) in *. pose proof (args_size_nonneg args) as Hsz.
  assert (Hs1 : s1 <| mem := mem s1 |> = s1) by (by destruct s1).
  destruct (args_loop fuel s c dirs rl d Hr Hempty pp s1 rl1 Hg argv args Ha Hlen Hfit args [] fuel (mem s1) eq_refl Hn
    (page_only_refl pp (mem s1))) as (m1 & Hrun & Ho1 & Hp1 & _).
  fold a n in Hrun, Hp1. cbn [length args_size foldr] in Hrun, Hp1. change (Z.of_nat 0) with 0 in Hrun, Hp1.
  rewrite ?Z.mul_0_r, ?Z.add_0_r in Hrun. rewrite ?Z.mul_0_r, ?Z.add_0_r in Hp1. rewrite Hs1 in Hrun.
  destruct (fill32 s c dirs rl d Hr pp s1 rl1 Hg m1 (a + 4 * n) 0 Ho1 ltac:(unfold PGSIZE in *; lia)) as [Hr2 Ho2].
  set (m2 := st32 m1 (kva pp + (a + 4 * n)) 0) in *.
  destruct (fill32 s c dirs rl d Hr pp s1 rl1 Hg m2 (a - 4) (USTACK + a) Ho2 ltac:(unfold PGSIZE in *; lia)) as [Hr3 Ho3].
  set (m3 := st32 m2 (kva pp + (a - 4)) (USTACK + a)) in *.
  destruct (fill32 s c dirs rl d Hr pp s1 rl1 Hg m3 (a - 8) n Ho3 ltac:(unfold PGSIZE in *; lia)) as [Hr4 Ho4].
  set (m4 := st32 m3 (kva pp + (a - 8)) n) in *.
  exists m4. split; [|split; [exact Ho4|]].
  - intros A k. unfold PGSIZE in Hend. rewrite !w32_small by (change UTEMP with 4194304; lia).
    replace (UTEMP + a + 4 * n) with (UTEMP + (a + 4 * n)) by lia. replace (UTEMP + a - 4) with (UTEMP + (a - 4)) by lia.
    replace (UTEMP + a - 8) with (UTEMP + (a - 8)) by lia. rewrite to_stack by (unfold PGSIZE; lia).
    unfold copy_args. lrw Hrun. lrw Hr2. rewrite Z.eqb_refl. cbn [negb]. lrw Hr3. by lrw Hr4.
  - assert (Hout : forall x, x < kva pp + (a - 8) \/ kva pp + a <= x < kva pp + a + 4 * n \/ kva pp + a + 4 * n + 4 <= x -> ld8 m4 x = ld8 m1 x).
    { intros x Hx. unfold m4, m3, m2. rewrite !ld8_st32.
      repeat match goal with |- context [if ?t then _ else _] => let E := fresh "E" in destruct t eqn:E; [zbool; lia|] end. done. }
    constructor; fold a n.
    + unfold m4. rewrite ld32_st32_eq. apply w32_small. unfold PGSIZE in *. lia.
    + unfold m4. rewrite ld32_skip by lia. unfold m3. rewrite ld32_st32_eq. apply w32_small.
      change USTACK with 4005548032. unfold PGSIZE in *. lia.
    + revert Hp1. apply placed_keep. intros x Hx. fold n in Hx. apply Hout. lia.
    + unfold m4. rewrite ld32_skip by lia. unfold m3. rewrite ld32_skip by lia. apply ld32_st32_eq.
Qed.

(** The child [d'] was given the page [pp] as its stack, with [argc] and [argv] at [esp]
    and the arguments behind them. *)
Record stack_given (d' pp esp : Z) (s' : kst) : Prop := {
  sv_page : handed s c dirs d UTEMP pp d' USTACK private_perm s';
  sv_argc : vword (on pp (mem s') d') esp = Some (Z.of_nat (length args));
  sv_argv : vword (on pp (mem s') d') (esp + 4) = Some (esp + 8);
  sv_args : args_at (on pp (mem s') d') (esp + 8) args }.

Definition stack_top : Z := USTACK + argv_off args - 8.

(** At most one page is free, or was before the page at [UTEMP] was given back. *)
Definition short_of_memory (s' : kst) : Prop :=
  nearly_full s' \/ exists s0, nearly_full s0 /\ sys_page_unmap 0 UTEMP s0 = Ret (inl 0) s'.

Lemma init_stack_run child e d' :
  names s c child true e -> 0 <= child < 2 ^ 31 -> d' ∈ dirs -> d' <> d -> env_pgdir (envs s !!! e) = kva d' ->
  0 <= UTEMP + argv_off args - 8 ->
  if argv_off args <? 8 then init_stack fuel child argv s = Ret (inl (- E_NO_MEM, None)) s
  else (exists o s' rl', init_stack fuel child argv s = Ret (inl (- E_NO_MEM, o)) s' /\ refused s c dirs d s' rl' /\ short_of_memory s') \/
       (exists pp s' rl', init_stack fuel child argv s = Ret (inl (0, Some stack_top)) s' /\ ready s' c dirs rl' d /\
          stack_given d' pp stack_top s').
Proof.
  intros Hch Wch Hd' Hdd Hed Hwrap. pose proof (args_size_nonneg args) as Hsz. destruct UTEMP_va as [Ht Mt].
  pose proof (re_dir _ _ _ _ _ Hr) as Hd. pose proof USTACK_va as [Hv Mv].
  assert (Hso : strings_off args mod 4 = args_size args * 3 mod 4) by (unfold strings_off, PGSIZE; zlia).
  assert (Hbig : args_size args < 2 ^ 32) by (unfold argv_off, strings_off in Hwrap; change UTEMP with 4194304 in Hwrap; unfold PGSIZE in *; zlia).
  unfold init_stack.
  lrw (count_args_run c dirs rl d Hd s (ready_owns _ _ _ _ _ Hr) fuel argv args Ha Hn Hlen Hbig).
  assert (Has : w32 (ROUNDDOWN (w32 (UTEMP + PGSIZE - args_size args)) 4 - 4 * (Z.of_nat (length args) + 1)) = UTEMP + argv_off args /\
    w32 (UTEMP + PGSIZE - args_size args) = UTEMP + strings_off args).
  { unfold argv_off in *. unfold strings_off in *. change UTEMP with 4194304 in *. unfold PGSIZE in *.
    rewrite (w32_small (4194304 + 4096 - _)) by zlia. rewrite ROUNDDOWN_spec by zlia. split; [|lia].
    rewrite w32_small by zlia. zlia. }
  destruct Has as [-> ->]. rewrite (w32_small (UTEMP + argv_off args - 8)).
  2:{ split; [exact Hwrap|]. unfold argv_off, strings_off, PGSIZE. change UTEMP with 4194304. zlia. }
  destruct (Z.ltb_spec (argv_off args) 8) as [Hlt | Hfit]; [by rewrite (proj2 (Z.ltb_lt _ _)) by lia|].
  rewrite (proj2 (Z.ltb_ge _ _)) by lia. change (Z.lor (Z.lor PTE_P PTE_U) PTE_W) with private_perm.
  destruct (stage_run Hcs s c dirs rl d UTEMP Hr Ht Mt) as [(s1 & rl1 & Hrun & Hrf & Hnf) | (pp & s1 & rl1 & Hrun & Hg)];
    rewrite (lbind_run _ _ _ _ _ Hrun).
  { left. exists None, s1, rl1. split; [done|]. split; [done | by left]. }
  change (0 <? 0) with false. cbv iota.
  destruct (off_facts args Hfit) as (Hmod & Hle & Hs0 & Hend).
  destruct (fill_page pp s1 rl1 Hg Hfit) as (m2 & Hfill & Ho & Hb). rewrite Hfill. clear Hfill.
  assert (Hesp : UTEMP2USTACK (UTEMP + argv_off args - 8) = stack_top).
  { replace (UTEMP + argv_off args - 8) with (UTEMP + (argv_off args - 8)) by lia.
    rewrite to_stack by (unfold PGSIZE in *; lia). unfold stack_top. lia. }
  rewrite Hesp.
  assert (Hne : (d', PDX USTACK, PTX USTACK) <> (d, PDX UTEMP, PTX UTEMP)) by (intros [= E]; by destruct Hdd).
  destruct (hand_over Hcs s c dirs rl d UTEMP Hr Ht Mt pp s1 rl1 Hg m2 Ho child e d' USTACK private_perm Hch Wch Hd' Hed
    Hv Mv Hne ltac:(done) eq_refl)
    as [(s3 & Hrun3 & Hu3 & Hs3 & Hm3 & Hnf) | (s3 & s4 & rl4 & Hrun3 & Hrun4 & Hr4 & Hh & Hp)];
    change (USTACKTOP - PGSIZE) with USTACK; rewrite (lbind_run _ _ _ _ _ Hrun3).
  - left. destruct (taken_back Hcs s c dirs rl d UTEMP Hr Ht Mt pp s1 rl1 Hg m2 Ho s3 Hempty Hu3 Hs3 Hm3) as (s4 & rl4 & Hrun4 & Hrf).
    exists (Some stack_top), s4, rl4. split; [|split; [done | right; by exists s3]].
    rewrite (proj2 (Z.ltb_lt (- E_NO_MEM) 0)) by done. by lrw Hrun4.
  - right. exists pp, s4, rl4. change (0 <? 0) with false. cbv iota. split; [by lrw Hrun4|]. split; [exact Hr4|].
    pose proof (staged_range s c dirs rl d UTEMP Hr pp s1 rl1 Hg) as [Hpp _]. pose proof (hd_page _ _ _ _ _ _ _ _ _ _ Hh) as Hpg.
    destruct Hb as [B1 B2 B3 B4]. unfold PGSIZE in Hend. unfold stack_top. constructor; [exact Hh | | |].
    + replace (USTACK + argv_off args - 8) with (USTACK + (argv_off args - 8)) by lia.
      rewrite (child_word m2 (mem s4) d' pp Hpp Hpg Hp) by (unfold PGSIZE; lia). by rewrite B1.
    + replace (USTACK + argv_off args - 8 + 4) with (USTACK + (argv_off args - 4)) by lia.
      rewrite (child_word m2 (mem s4) d' pp Hpp Hpg Hp) by (unfold PGSIZE; lia). rewrite B2. f_equal. lia.
    + replace (USTACK + argv_off args - 8 + 8) with (USTACK + argv_off args) by lia.
      apply (child_args m2 (mem s4) d' pp Hpp Hpg Hp args _ _ B3); [by rewrite <- Z.add_assoc | done | lia | unfold PGSIZE; lia | done | unfold PGSIZE; lia].
Qed.
End init_stack.
