(* ===== verification/SpawnRun.v ===== *)
(** * The new child

    [copy_shared_pages], and then [new_child], the part of [spawn] that does no file input. *)

From S2P Require Import Prelude Mem CString Mmu KState Printf Pmap VmInv VmSpec VmLife Environ Sched Syscall Trap EnvInv EnvFree SchedSpec UserMem SysSpec User UserSpec UserVm UserEnv Fork ForkSpec UserPage Pgfault ForkRun Spawn SpawnStack.

(** ** Shared pages of a new program

    [copy_shared_pages]: the loop over the parent's pages, and the child's address space
    after it. *)

(** What the child gets for an entry of the parent. *)
Definition shared_pte (o : option Z) : option Z :=
  match o with
  | Some v => if has v PTE_U && has v PTE_SHARE then Some (cow_pte v) else None
  | None => None
  end.

Lemma share_perm v : has v PTE_SHARE = true -> Z.lor (Z.land v PTE_SYSCALL) (Z.land v PTE_SHARE) = cow_perm v.
Proof.
  intros Hs. unfold cow_perm. rewrite Hs. f_equal. change PTE_SHARE with (2 ^ 10) in *. rewrite has_pow2 in Hs by lia.
  apply Z.bits_inj'. intros i Hi. rewrite Z.land_spec, Z.pow2_bits_eqb by lia.
  destruct (Z.eqb_spec 10 i) as [<- | ?]; [by rewrite Hs | by rewrite andb_false_r].
Qed.

(** The pages that the loop has passed when it is at [a]. *)
Definition covered (a i j : Z) : bool := (UTEXT <=? page_addr i j) && (page_addr i j <? a).

Lemma covered_next a i j : UTEXT <= a < UTOP -> a mod PGSIZE = 0 -> 0 <= i < NUPDE -> 0 <= j < NPTENTRIES ->
  covered (a + PGSIZE) i j = covered a i j || (page_addr i j =? a).
Proof.
  intros Ha Hm Hi Hj. destruct (page_addr_range i j Hi Hj) as [Hr Hp]. unfold covered, PGSIZE in *.
  destruct (Z.eqb_spec (page_addr i j) a), (Z.leb_spec UTEXT (page_addr i j)), (Z.ltb_spec (page_addr i j) (a + 4096)),
    (Z.ltb_spec (page_addr i j) a); (done || zlia).
Qed.

Section share.
Context `{Devices} `{TrapDevices} `{Program} (Hcs : Z.land (tf_cs saved_regs) 3 = 3).
Context (b : kst) (c : Z) (dirs0 : list Z) (d e d' child : Z).
Let dirs := d' :: dirs0.
Context (Hd0 : d ∈ dirs0) (Hnd : d' ∉ dirs0) (Hn : names b c child true e) (Hed : env_pgdir (envs b !!! e) = kva d').
Context (Wid : 0 <= child < 2 ^ 31).
Context (Hempty : forall i j, 0 <= i < NUPDE -> 0 <= j < NPTENTRIES -> umap (mem b) d' i j = None).
Context (Hcnt : forall p, 2 * ucount (mem b) dirs0 p + 1 < 2 ^ 16).

Record share_inv (a : Z) (s : kst) : Prop := {
  sh_ready : exists rl, ready s c dirs rl d;
  sh_step : astep dirs c b s;
  sh_child : forall i j, 0 <= i < NUPDE -> 0 <= j < NPTENTRIES ->
    umap (mem s) d' i j = if covered a i j then shared_pte (umap (mem b) d i j) else None;
  sh_other : forall x i j, x ∈ dirs0 -> 0 <= i < NUPDE -> 0 <= j < NPTENTRIES ->
    umap (mem s) x i j = umap (mem b) x i j }.

Lemma share_start rl : ready b c dirs rl d -> share_inv UTEXT b.
Proof.
  intros Hr. constructor; [by exists rl | done | | done]. intros i j Hi Hj. rewrite Hempty by done.
  unfold covered. destruct (Z.leb_spec UTEXT (page_addr i j)), (Z.ltb_spec (page_addr i j) UTEXT); (done || lia).
Qed.

Lemma share_counts a s p : share_inv a s -> ucount (mem s) dirs p + 1 < 2 ^ 16.
Proof.
  intros [_ _ Hch Hot]. unfold dirs. change (d' :: dirs0) with ([d'] ++ dirs0). rewrite ucount_app.
  assert (H1' : ucount (mem s) [d'] p <= ucount (mem b) [d] p).
  { apply ucount_sub. intros i j Hi Hj. rewrite !upage_umap, Hch by done.
    destruct (covered a i j); [|done]. destruct (umap (mem b) d i j) as [v|] eqn:Ev; [|done]. simpl.
    destruct (has v PTE_U && has v PTE_SHARE); [|done]. simpl. by rewrite cow_pte_page by (by eapply umap_bound). }
  assert (H2' : ucount (mem s) dirs0 p = ucount (mem b) dirs0 p).
  { apply ucount_ext. intros x i j Hx Hi Hj. by rewrite !upage_umap, Hot. }
  pose proof (ucount_in (mem b) dirs0 d p Hd0). specialize (Hcnt p). lia.
Qed.

Lemma shared_page_run s rl va : ready s c dirs rl d -> 0 <= va < UTOP ->
  shared_page va s = Ret (inl (match umap (mem s) d (PDX va) (PTX va) with
    Some v => has v PTE_U && has v PTE_SHARE | None => false end)) s.
Proof.
  intros [Hu Hd He Hp Hs] Hva. unfold shared_page. lrw (uvpd_run s c dirs rl Hu d Hd He Hs va Hva).
  destruct (has (word (mem s) d (PDX va)) PTE_P) eqn:EP; cbn [negb].
  2:{ unfold umap, upte, pt_of, ent. by rewrite EP. }
  assert (Ht : pt_of (mem s) d (PDX va) = Some (word (mem s) d (PDX va) / PGSIZE)) by (unfold pt_of, ent; by rewrite EP).
  pose proof (uvpt_run s c dirs rl Hu d Hd He Hp Hs va _ Hva Ht) as Hld. lrw Hld.
  unfold umap, upte. rewrite Ht.
  destruct (has (word (mem s) (word (mem s) d (PDX va) / PGSIZE) (PTX va)) PTE_P); cbn [negb]; [|done]. lrw Hld.
  destruct (has (word (mem s) (word (mem s) d (PDX va) / PGSIZE) (PTX va)) PTE_U); cbn [negb andb]; [|done]. by lrw Hld.
Qed.

Lemma share_at a i j : UTEXT <= a < UTOP -> a mod PGSIZE = 0 -> 0 <= i < NUPDE -> 0 <= j < NPTENTRIES ->
  (i = PDX a /\ j = PTX a /\ covered (a + PGSIZE) i j = true /\ covered a i j = false) \/
  ((i, j) <> (PDX a, PTX a) /\ covered (a + PGSIZE) i j = covered a i j).
Proof.
  intros Ha Hm Hi Hj. assert (Har : 0 <= a < UTOP) by (change UTEXT with 8388608 in Ha; lia).
  rewrite covered_next by done. destruct (Z.eqb_spec (page_addr i j) a) as [He | Hne].
  - left. destruct (page_addr_inj a i j Har Hm Hi Hj He). rewrite orb_true_r. split_and!; try done.
    unfold covered. rewrite He, Z.ltb_irrefl. apply andb_false_r.
  - right. split; [|by rewrite orb_false_r]. intros [= -> ->]. apply Hne. by apply page_addr_va.
Qed.

(** One page: passed over, or mapped in the child. *)
Lemma share_skip a s : share_inv a s -> UTEXT <= a < UTOP -> a mod PGSIZE = 0 ->
  shared_pte (umap (mem b) d (PDX a) (PTX a)) = None -> share_inv (a + PGSIZE) s.
Proof.
  intros [Hr Hst Hch Hot] Ha Hm Hno. constructor; [done | done | | done]. intros i j Hi Hj. rewrite Hch by done.
  destruct (share_at a i j Ha Hm Hi Hj) as [(-> & -> & -> & ->) | [_ ->]]; [by rewrite Hno | done].
Qed.

Lemma share_map a s s' rl' v : share_inv a s -> UTEXT <= a < UTOP -> a mod PGSIZE = 0 ->
  umap (mem b) d (PDX a) (PTX a) = Some v -> has v PTE_U && has v PTE_SHARE = true ->
  ready s' c dirs rl' d -> astep dirs c s s' -> umap (mem s') d' (PDX a) (PTX a) = Some (cow_pte v) ->
  same_umap_but dirs s s' (d', PDX a, PTX a) -> share_inv (a + PGSIZE) s'.
Proof.
  intros [Hr Hst Hch Hot] Ha Hm Hv HU Hr' Ha' Hnew Ho. constructor.
  - by exists rl'.
  - by transitivity s.
  - intros i j Hi Hj. destruct (share_at a i j Ha Hm Hi Hj) as [(-> & -> & -> & _) | [Hne ->]].
    + by rewrite Hnew, Hv; simpl; rewrite HU.
    + rewrite <- Hch by done. apply Ho; [by left | done | done | congruence].
  - intros x i j Hx Hi Hj. rewrite <- Hot by done. apply Ho; [by right | done | done |]. intros [= -> -> ->]. done.
Qed.

(** The memory for a page table ran out. *)
Definition no_table (m : L Z) (s : kst) : Prop :=
  exists s' rl', m s = Ret (inl (- E_NO_MEM)) s' /\ in_user s' c dirs rl' /\ nearly_full s'.

Lemma share_body a s n : share_inv a s -> UTEXT <= a < USTACKTOP -> a mod PGSIZE = 0 ->
  let body := fun addr =>
    (if addr <? USTACKTOP then
      shared ← shared_page addr;
      if (shared : bool) then
        v ← uvpt (PGNUM addr);
        w ← uvpt (PGNUM addr);
        r ← sys_page_map 0 addr child addr (Z.lor (Z.land v PTE_SYSCALL) (Z.land w PTE_SHARE));
        if r <? 0 then mret (inr r) else mret (inl (w32 (addr + PGSIZE)))
      else mret (inl (w32 (addr + PGSIZE)))
    else mret (inr 0)) : L (Z + Z) in
  no_table (lloop (S n) body a) s \/
  exists s', lloop (S n) body a s = lloop n body (a + PGSIZE) s' /\ share_inv (a + PGSIZE) s'.
Proof.
  intros Hi Ha Hm body. change UTEXT with 8388608 in Ha. change USTACKTOP with 4005552128 in Ha.
  assert (Hau : UTEXT <= a < UTOP) by (change UTEXT with 8388608; change UTOP with 4005560320; lia).
  assert (Har : 0 <= a < UTOP) by (change UTOP with 4005560320; lia).
  assert (Hw : w32 (a + PGSIZE) = a + PGSIZE) by (apply w32_small; unfold PGSIZE; lia).
  destruct (sh_ready _ _ Hi) as [rl Hr]. pose proof (shared_page_run s rl a Hr Har) as Hsp.
  pose proof (PDX_user a Har) as Hpi. pose proof (PTX_range a) as Hpj.
  rewrite (sh_other _ _ Hi d _ _ Hd0 Hpi Hpj) in Hsp.
  assert (Hopen : body a s = (if (match umap (mem b) d (PDX a) (PTX a) with Some v => has v PTE_U && has v PTE_SHARE | None => false end)
    then v ← uvpt (PGNUM a);
        w ← uvpt (PGNUM a);
        r ← sys_page_map 0 a child a (Z.lor (Z.land v PTE_SYSCALL) (Z.land w PTE_SHARE));
        if r <? 0 then mret (inr r) else mret (inl (w32 (a + PGSIZE)))
    else mret (inl (w32 (a + PGSIZE)))) s).
  { unfold body. change USTACKTOP with 4005552128. rewrite (proj2 (Z.ltb_lt a _)) by lia. by rewrite (lbind_run _ _ _ _ _ Hsp). }
  destruct (umap (mem b) d (PDX a) (PTX a)) as [v|] eqn:Ev.
  2:{ right. exists s. split; [apply lloop_next; by rewrite Hopen, Hw | apply share_skip; [done..|]]. by rewrite Ev. }
  destruct (has v PTE_U && has v PTE_SHARE) eqn:EU.
  2:{ right. exists s. split; [apply lloop_next; by rewrite Hopen, Hw | apply share_skip; [done..|]]. rewrite Ev. simpl. by rewrite EU. }
  pose proof EU as [HU HS]%andb_true_iff. destruct (cow_perm_facts v) as (Hpr & Hbp & HW & _).
  pose proof (as_frame _ _ _ _ (sh_step _ _ Hi)) as Hf.
  assert (Hum : umap (mem s) d (PDX a) (PTX a) = Some v) by (rewrite (sh_other _ _ Hi d _ _ Hd0 Hpi Hpj); exact Ev).
  assert (Hno : umap (mem s) d' (PDX a) (PTX a) = None).
  { rewrite (sh_child _ _ Hi _ _ Hpi Hpj). unfold covered. rewrite page_addr_va by done. by rewrite Z.ltb_irrefl, andb_false_r. }
  pose proof (uvpt_ready s c dirs rl d a v Hr Har Hum) as Hld.
  do 2 rewrite (lbind_run _ _ _ _ _ Hld) in Hopen. rewrite share_perm in Hopen by done.
  destruct (remap_run Hcs s c dirs rl d a v child e d' (cow_perm v) Hr) as [(s1 & Hrun & Hu1 & Hnf) | (s1 & rl1 & Hrun & Hr1 & Ha1 & _ & Hnew & Hoth)];
    try done; try lia; [by apply (uframe_names _ _ _ _ _ _ Hf) | by left | by rewrite (proj1 (uframe_env _ _ _ e Hf)) |
      by apply Hbp | by apply HW | by left | by eapply share_counts | |];
    rewrite (lbind_run _ _ _ _ _ Hrun) in Hopen.
  - left. exists s1, rl. split; [|by split]. by apply lloop_done.
  - right. exists s1. change (0 <? 0) with false in Hopen. cbv iota in Hopen. rewrite Hw in Hopen.
    split; [by apply lloop_next | by eapply share_map].
Qed.

(** The whole loop. *)
Lemma share_run rl : ready b c dirs rl d ->
  no_table (copy_shared_pages child) b \/
  exists s', copy_shared_pages child b = Ret (inl 0) s' /\ share_inv USTACKTOP s'.
Proof.
  intros Hr. pose proof (share_start rl Hr) as Hi. unfold copy_shared_pages.
  assert (Hg : forall n a s, share_inv a s -> UTEXT <= a <= USTACKTOP -> a mod PGSIZE = 0 -> USTACKTOP - a < PGSIZE * Z.of_nat n ->
    let m := lloop n (fun addr =>
      if addr <? USTACKTOP then
        shared ← shared_page addr;
        if (shared : bool) then
          v ← uvpt (PGNUM addr);
          w ← uvpt (PGNUM addr);
          r ← sys_page_map 0 addr child addr (Z.lor (Z.land v PTE_SYSCALL) (Z.land w PTE_SHARE));
          if r <? 0 then mret (inr r) else mret (inl (w32 (addr + PGSIZE)))
        else mret (inl (w32 (addr + PGSIZE)))
      else mret (inr 0)) a in
    no_table m s \/ exists s', m s = Ret (inl 0) s' /\ share_inv USTACKTOP s').
  { induction n as [|n IH]; intros a s Hs Ha Hm Hf; [unfold PGSIZE in *; lia|]. cbv zeta.
    destruct (Z.ltb_spec a USTACKTOP) as [Hlt | Hge].
    - destruct (share_body a s n Hs ltac:(lia) Hm) as [Hno | (s1 & Hrun & Hs1)]; [by left|]. cbv zeta in Hrun.
      unfold no_table. rewrite Hrun.
      assert (Hnext : (a + PGSIZE) mod PGSIZE = 0 /\ a + PGSIZE <= USTACKTOP).
      { change USTACKTOP with 4005552128 in *. unfold PGSIZE in *. zlia. }
      apply (IH (a + PGSIZE) s1 Hs1); [unfold PGSIZE in *; lia | by destruct Hnext | unfold PGSIZE in *; lia].
    - right. exists s. assert (a = USTACKTOP) as -> by lia. split; [|done]. apply lloop_done. by rewrite Z.ltb_irrefl. }
  apply (Hg page_fuel UTEXT b Hi); [by vm_compute | done |].
  unfold page_fuel. rewrite Z2Nat.id by done. by vm_compute.
Qed.
End share.

(** ** The new child

    [new_child], the part of [spawn] that does no file input: the child made, its trap frame
    laid out, the shared pages and the arguments given to it. *)

(** ** A structure of words in the program's memory *)

Section words.
Context (c : Z) (dirs : list Z) (rl : Z -> role) (d : Z) (Hd : d ∈ dirs) (tp v : Z).
Context (Htp : 0 <= tp < UTOP) (Mtp : tp mod PGSIZE = 0) (HU : has v PTE_U = true) (HW : has v PTE_W = true).

Lemma ustore_words_run ws k s : owns c dirs rl d s -> umap (mem s) d (PDX tp) (PTX tp) = Some v ->
  0 <= k -> k + Z.of_nat (length ws) <= 1024 ->
  exists m', ustore_words (tp + 4 * k) ws s = Ret (inl tt) (s <| mem := m' |>) /\ page_only (v / PGSIZE) (mem s) m' /\
    (forall i w, ws !! i = Some w -> word m' (v / PGSIZE) (k + Z.of_nat i) = w32 w) /\
    forall j, 0 <= j < 1024 -> j < k \/ k + Z.of_nat (length ws) <= j -> word m' (v / PGSIZE) j = word (mem s) (v / PGSIZE) j.
Proof.
  revert k s. induction ws as [|w ws IH]; intros k s Ho Hum Hk Hl; cbn [length ustore_words] in *.
  { exists (mem s). by destruct s. }
  pose proof (ustore_run c dirs rl d Hd s tp v k w Ho Htp Mtp ltac:(lia) Hum HU HW) as Hst.
  pose proof (owns_role c dirs rl d Hd s tp v Ho Htp Hum) as Hro.
  set (m1 := st32 (mem s) (kva (v / PGSIZE) + 4 * k) w) in *.
  assert (Hw : user_words rl (mem s) m1) by (by apply st32_user; [|lia]).
  pose proof (owns_words c dirs rl d s m1 Ho Hw) as Ho1.
  assert (Hum1 : umap (mem (s <| mem := m1 |>)) d (PDX tp) (PTX tp) = Some v).
  { etransitivity; [|exact Hum]. apply (owns_umap c dirs rl d s m1 _ _ Ho Hw); [by apply PDX_user | apply PTX_range | done]. }
  destruct (IH (k + 1) (s <| mem := m1 |>) Ho1 Hum1 ltac:(lia) ltac:(lia)) as (m' & Hrun & Hpo & Hin & Hout). cbn [mem] in Hpo, Hout.
  assert (Hm1 : forall j, 0 <= j < 1024 -> word m1 (v / PGSIZE) j = if j =? k then w32 w else word (mem s) (v / PGSIZE) j).
  { intros j Hj. unfold m1. rewrite word_st32 by lia. by rewrite Z.eqb_refl. }
  exists m'. split; [|split; [|split]].
  - rewrite (lbind_run _ _ _ _ _ Hst). replace (w32 (tp + 4 * k + 4)) with (tp + 4 * (k + 1)); [exact Hrun|].
    change UTOP with 4005560320 in Htp. rewrite w32_small by lia. lia.
  - eapply page_only_trans; [|exact Hpo]. apply page_only_st32. unfold PGSIZE. lia.
  - intros [|i] x Hi; cbn [lookup list_lookup] in Hi.
    + injection Hi as <-. rewrite Z.add_0_r. etransitivity; [apply Hout; lia|].
      etransitivity; [apply Hm1; lia|]. by rewrite Z.eqb_refl.
    + rewrite <- (Hin i x Hi). f_equal. lia.
  - intros j Hj Hne. etransitivity; [apply Hout; lia|]. etransitivity; [apply Hm1; lia|].
    by rewrite (proj2 (Z.eqb_neq j k)) by lia.
Qed.
End words.

(** The words [w] of a trap frame at word [k] of page [p]. *)
Definition frame_at (m : memory) (p k : Z) (tf : Trapframe) : Prop :=
  forall i w, trapframe_words tf !! i = Some w -> word m p (k + Z.of_nat i) = w32 w.

Section new_child.
Context `{Devices} `{TrapDevices} `{Program} (Hcs : Z.land (tf_cs saved_regs) 3 = 3) (fuel : nat).
Context (s : kst) (c : Z) (dirs : list Z) (rl : Z -> role) (d : Z) (Hr : ready s c dirs rl d).
Context (Hempty : umap (mem s) d (PDX UTEMP) (PTX UTEMP) = None).
Context (tp tk v : Z) (Htp : 0 <= tp < UTOP) (Mtp : tp mod PGSIZE = 0) (Htk : 0 <= tk /\ tk + 17 <= 1024).
Context (Htv : umap (mem s) d (PDX tp) (PTX tp) = Some v) (HU : has v PTE_U = true) (HW : has v PTE_W = true).
Let p : Z := v / PGSIZE.
Context (elf_buf entry : Z) (Helf : 0 <= elf_buf + 24 /\ elf_buf + 28 <= UTOP) (Melf : elf_buf mod 4 = 0).
Context (Hentry : vword (ubyte (mem s) d) (elf_buf + 24) = Some entry).
Context (argv : Z) (args : list (list Z)) (Ha : args_at (hide p (mem s) d) argv args).
Context (Hlen : Forall (fun l => (length l < fuel)%nat) args) (Hn : (length args < fuel)%nat).
Context (Hwrap : 0 <= UTEMP + argv_off args - 8) (Hcnt : forall q, 2 * ucount (mem s) dirs q + 1 < 2 ^ 16).

(** What holds from the time the child [e] exists: what the other programs see is as it
    was, and so is what this one sees, the page of [child_tf] excepted. *)
Record with_child (child e d' : Z) (s' : kst) : Prop := {
  wc_ready : exists rl', ready s' c (d' :: dirs) rl' d;
  wc_names : names s' c child true e;
  wc_child : envs s' !!! e = forked (entered s c exofork_frame) c e d';
  wc_self : same_env (envs s !!! c) (envs s' !!! c);
  wc_envs : forall x, x <> c -> x <> e -> envs s' !!! x = envs s !!! x;
  wc_maps : forall x i j, x ∈ dirs -> 0 <= i < NUPDE -> 0 <= j < NPTENTRIES -> umap (mem s') x i j = umap (mem s) x i j;
  wc_data : forall q k, mapped dirs s q -> q <> p -> 0 <= k < 1024 -> word (mem s') q k = word (mem s) q k }.

Lemma with_child_step child e d' s1 s2 : e <> c -> with_child child e d' s1 -> uframe s1 s2 c ->
  (exists rl', ready s2 c (d' :: dirs) rl' d) ->
  (forall x i j, x ∈ dirs -> 0 <= i < NUPDE -> 0 <= j < NPTENTRIES -> umap (mem s2) x i j = umap (mem s1) x i j) ->
  (forall q k, mapped dirs s q -> q <> p -> 0 <= k < 1024 -> word (mem s2) q k = word (mem s1) q k) ->
  with_child child e d' s2.
Proof.
  intros Hec [_ W2 W3 W4 W5 W6 W7] Hf Hr2 Hm Hd. constructor; [done | | | | | |].
  - by apply (uframe_names _ _ _ _ _ _ Hf).
  - by rewrite (uf_other _ _ _ Hf).
  - etransitivity; [exact W4 | apply Hf].
  - intros x Hx Hxe. rewrite (uf_other _ _ _ Hf) by done. by apply W5.
  - intros x i j Hx Hi Hj. rewrite Hm by done. by apply W6.
  - intros q k Hq Hne Hk. rewrite Hd by done. by apply W7.
Qed.

(** Whoever was mapped still is, at the same place. *)
Lemma with_child_mapped child e d' s' q : with_child child e d' s' -> mapped dirs s q -> mapped (d' :: dirs) s' q.
Proof.
  intros W (x & i & j & w & Hx & Hi & Hj & Hum & ->). exists x, i, j, w.
  split; [by right|]. split; [done|]. split; [done|]. split; [by rewrite (wc_maps _ _ _ _ W) | done].
Qed.

(** The trap frame of the child, as [spawn] first lays it out. *)
Definition first_frame (e d' : Z) : Trapframe := env_tf (forked (entered s c exofork_frame) c e d') <| tf_eip := entry |>.

(** The child [e], ready but for its segments: its address space is the shared pages of its
    parent and the stack page [pp]. *)
Record spawned (child e d' pp : Z) (s' : kst) : Prop := {
  sp_with : with_child child e d' s';
  sp_new : ~ live s e /\ d' ∉ dirs /\ ~ mapped dirs s pp;
  sp_maps : forall i j, 0 <= i < NUPDE -> 0 <= j < NPTENTRIES ->
    umap (mem s') d' i j =
      if bool_decide ((i, j) = (PDX USTACK, PTX USTACK)) then Some (mkpte (pp * PGSIZE) private_perm)
      else if covered USTACKTOP i j then shared_pte (umap (mem s) d i j) else None;
  sp_argc : vword (on pp (mem s') d') (stack_top args) = Some (Z.of_nat (length args));
  sp_argv : vword (on pp (mem s') d') (stack_top args + 4) = Some (stack_top args + 8);
  sp_args : args_at (on pp (mem s') d') (stack_top args + 8) args;
  sp_frame : frame_at (mem s') p tk (first_frame e d' <| tf_esp := stack_top args |>) }.

Section made.
Context (s1 : kst) (e d' child : Z) (Hm : child_made dirs rl c s s1 e d' child).

Lemma made_with_child : with_child child e d' s1.
Proof.
  constructor.
  - eexists. by eapply made_ready.
  - apply Hm.
  - apply Hm.
  - apply Hm.
  - apply (cm_other _ _ _ _ _ _ _ _ Hm).
  - intros x i j. by eapply made_umap.
  - intros q k Hq _. by eapply made_data.
Qed.

Lemma frame_run {A} (k : L A) : exists m2,
  (ev ← uenv (ENVX child);
   entry ← uload32 (w32 (elf_buf + 24));
   ustore_words (tp + 4 * tk) (trapframe_words (env_tf ev <| tf_eip := entry |>));; k) s1 = k (s1 <| mem := m2 |>) /\
  page_only p (mem s1) m2 /\ frame_at m2 p tk (first_frame e d').
Proof.
  pose proof made_with_child as [[rl1 Hr1] Hnm He _ _ Hmap Hdat]. pose proof (re_user _ _ _ _ _ Hr1) as Hu1.
  pose proof (re_dir _ _ _ _ _ Hr1) as Hd1. pose proof (re_dir _ _ _ _ _ Hr) as Hd.
  assert (Hx : ENVX child = e).
  { destruct (si_idx _ _ _ (iu_sys _ _ _ _ Hu1) e (proj1 Hnm)) as [_ <-]. f_equal. destruct Hnm as [_ Hnm].
    rewrite (proj2 (Z.eqb_neq child 0)) in Hnm by (destruct (cm_id _ _ _ _ _ _ _ _ Hm); lia). symmetry. exact (proj1 Hnm). }
  assert (Hld : uload32 (w32 (elf_buf + 24)) s1 = Ret (inl entry) s1).
  { rewrite w32_small by (change UTOP with 4005560320 in Helf; lia).
    apply (uload32_run c (d' :: dirs) rl1 d Hd1 s1 (ready_owns _ _ _ _ _ Hr1)); [lia | zlia |].
    apply (within_word (ubyte (mem s) d)); [|lia | lia | done]. apply ubyte_within.
    intros i j w Hi Hj Hum. split; [by rewrite Hmap|]. intros k0 Hk. eapply made_data; [done | done | | done].
    by exists d, i, j, w. }
  destruct (ustore_words_run c (d' :: dirs) rl1 d Hd1 tp v Htp Mtp HU HW (trapframe_words (first_frame e d')) tk s1
    (ready_owns _ _ _ _ _ Hr1)) as (m2 & Hrun & Hpo & Hin & _).
  { rewrite Hmap; [done | done | by apply PDX_user | apply PTX_range]. }
  { lia. }
  { cbn [trapframe_words length]. lia. }
  exists m2. split; [|by split]. rewrite Hx.
  assert (Hev : uenv e s1 = Ret (inl (envs s1 !!! e)) s1) by done. lrw Hev. lrw Hld. rewrite He. by lrw Hrun.
Qed.

(** [s2]: the trap frame laid out in memory [m2]. *)
Section laid.
Context (m2 : memory) (Hpo : page_only p (mem s1) m2).
Let s2 : kst := s1 <| mem := m2 |>.

Lemma var_mapped : mapped dirs s p.
Proof. exact (mapped_va dirs s d tp v (re_dir _ _ _ _ _ Hr) Htp Htv). Qed.

Lemma laid_umap x i j : x ∈ d' :: dirs -> 0 <= i < NUPDE -> 0 <= j < NPTENTRIES -> umap m2 x i j = umap (mem s1) x i j.
Proof.
  intros Hx Hi Hj. pose proof made_with_child as W. destruct (wc_ready _ _ _ _ W) as [rl1 Hr1].
  apply (page_only_umap p s1 m2 c (d' :: dirs) rl1 d i j x (ready_owns _ _ _ _ _ Hr1)); try done.
  eapply mapped_user; [apply (iu_sys _ _ _ _ (re_user _ _ _ _ _ Hr1))|].
  exact (with_child_mapped _ _ _ _ _ W var_mapped).
Qed.

Lemma laid_with_child : with_child child e d' s2.
Proof.
  pose proof made_with_child as W. apply (with_child_step child e d' s1); [apply Hm | done | by constructor | | |].
  - destruct (wc_ready _ _ _ _ W) as [rl1 Hr1]. exists rl1. apply (ready_words s1 m2 c _ rl1 d Hr1).
    apply (page_only_user p); [exact Hpo|].
    eapply mapped_user; [apply (iu_sys _ _ _ _ (re_user _ _ _ _ _ Hr1))|].
    exact (with_child_mapped _ _ _ _ _ W var_mapped).
  - intros x i j Hx. apply laid_umap. by right.
  - intros q k _ Hne Hk. by apply Hpo.
Qed.

Lemma laid_share : no_table c dirs d' (copy_shared_pages child) s2 \/
  exists s3, copy_shared_pages child s2 = Ret (inl 0) s3 /\ share_inv s2 c dirs d d' USTACKTOP s3.
Proof.
  pose proof laid_with_child as W. destruct (wc_ready _ _ _ _ W) as [rl2 Hr2]. pose proof (re_dir _ _ _ _ _ Hr) as Hd.
  apply (share_run Hcs s2 c dirs d e d' child Hd (made_notin _ _ _ _ _ _ _ _ _ Hr Hm) (wc_names _ _ _ _ W)) with (rl := rl2);
    [| | | | exact Hr2].
  - by rewrite (wc_child _ _ _ _ W).
  - destruct (cm_id _ _ _ _ _ _ _ _ Hm). lia.
  - intros i j Hi Hj. change (mem s2) with m2. rewrite laid_umap by (done || by left). by eapply made_umap_new.
  - intros q. enough (ucount (mem s2) dirs q = ucount (mem s) dirs q) as -> by apply Hcnt.
    apply ucount_ext. intros x i j Hx Hi Hj. by rewrite !upage_umap, (wc_maps _ _ _ _ W).
Qed.

Section shared.
Context (s3 : kst) (Hs3 : share_inv s2 c dirs d d' USTACKTOP s3).

Lemma shared_with_child : with_child child e d' s3.
Proof.
  pose proof laid_with_child as W. apply (with_child_step child e d' s2); [apply Hm | done | | | |].
  - apply (as_frame _ _ _ _ (sh_step _ _ _ _ _ _ _ Hs3)).
  - apply (sh_ready _ _ _ _ _ _ _ Hs3).
  - apply (sh_other _ _ _ _ _ _ _ Hs3).
  - intros q k Hq _ Hk. apply (as_pages _ _ _ _ (sh_step _ _ _ _ _ _ _ Hs3)); [|done].
    by apply (with_child_mapped child e).
Qed.

Lemma shared_frame k : 0 <= k < 1024 -> word (mem s3) p k = word m2 p k.
Proof.
  intros Hk. apply (as_pages _ _ _ _ (sh_step _ _ _ _ _ _ _ Hs3)); [|done].
  apply (with_child_mapped child e); [exact laid_with_child | exact var_mapped].
Qed.

Lemma shared_args : args_at (ubyte (mem s3) d) argv args.
Proof.
  pose proof shared_with_child as W. pose proof (re_dir _ _ _ _ _ Hr) as Hd.
  apply (within_args (hide p (mem s) d)); [|exact Ha]. intros va b Hva Hb. apply (hide_sub p (mem s3) d va b Hva).
  revert va b Hva Hb. apply (hide_within p d (mem s) (mem s3)). intros i j w Hi Hj Hum. split; [by rewrite (wc_maps _ _ _ _ W)|].
  intros Hne k Hk. apply (wc_data _ _ _ _ W); [|done | done]. by exists d, i, j, w.
Qed.

Lemma shared_map i j : 0 <= i < NUPDE -> 0 <= j < NPTENTRIES ->
  umap (mem s3) d' i j = if covered USTACKTOP i j then shared_pte (umap (mem s) d i j) else None.
Proof.
  intros Hi Hj. rewrite (sh_child _ _ _ _ _ _ _ Hs3) by done. destruct (covered USTACKTOP i j); [|done].
  by rewrite (wc_maps _ _ _ _ laid_with_child d i j (re_dir _ _ _ _ _ Hr) Hi Hj).
Qed.

(** ** The arguments, and the stack pointer in the trap frame *)

Context (Hfr : frame_at m2 p tk (first_frame e d')) (Hfit : 8 <= argv_off args).

Lemma shared_pgdir : env_pgdir (envs s3 !!! e) = kva d' /\ d' <> d.
Proof.
  pose proof shared_with_child as W. rewrite (wc_child _ _ _ _ W). split; [done|]. intros He.
  apply (made_notin _ _ _ _ _ _ _ _ _ Hr Hm). rewrite He. exact (re_dir _ _ _ _ _ Hr).
Qed.

Lemma esp_word (tf : Trapframe) x : trapframe_words (tf <| tf_esp := x |>) = <[15%nat := x]> (trapframe_words tf).
Proof. by destruct tf. Qed.

(** The stack given to the child touches nobody else. *)
Lemma given_with_child pp s4 rl4 : ready s4 c (d' :: dirs) rl4 d -> handed s3 c (d' :: dirs) d UTEMP pp d' USTACK private_perm s4 ->
  with_child child e d' s4 /\ forall q, mapped dirs s q -> mapped (d' :: dirs) s4 q /\ q <> pp.
Proof.
  intros Hr4 Hh. pose proof shared_with_child as W. destruct shared_pgdir as [_ Hdd].
  pose proof (made_notin _ _ _ _ _ _ _ _ _ Hr Hm) as Hnd.
  assert (Hold : forall x i j, x ∈ dirs -> 0 <= i < NUPDE -> 0 <= j < NPTENTRIES -> umap (mem s4) x i j = umap (mem s) x i j).
  { intros x i j Hx Hi Hj. destruct (decide ((x, i, j) = (d, PDX UTEMP, PTX UTEMP))) as [[= -> -> ->] | Hne].
    - by rewrite (hd_temp _ _ _ _ _ _ _ _ _ _ Hh).
    - rewrite (hd_maps _ _ _ _ _ _ _ _ _ _ Hh); [by apply (wc_maps _ _ _ _ W) | by right | done | done | | done].
      intros [= -> _ _]. done. }
  assert (Hmap4 : forall q, mapped dirs s q -> mapped (d' :: dirs) s4 q /\ q <> pp).
  { intros q Hq. split.
    - destruct Hq as (x & i & j & w & Hx & Hi & Hj & Hum & ->). exists x, i, j, w.
      split; [by right|]. split; [done|]. split; [done|]. split; [by rewrite Hold | done].
    - intros ->. apply (hd_fresh _ _ _ _ _ _ _ _ _ _ Hh). by eapply with_child_mapped. }
  split; [|exact Hmap4]. apply (with_child_step child e d' s3); [apply Hm | done | apply Hh | by exists rl4 | |].
  - intros x i j Hx Hi Hj. rewrite Hold by done. symmetry. by apply (wc_maps _ _ _ _ W).
  - intros q k Hq _ Hk. destruct (Hmap4 q Hq). by apply (hd_data _ _ _ _ _ _ _ _ _ _ Hh).
Qed.

(** The last store: the stack pointer in the trap frame. *)
Lemma spawned_intro pp s4 rl4 : ready s4 c (d' :: dirs) rl4 d ->
  stack_given s3 c (d' :: dirs) d args d' pp (stack_top args) s4 ->
  exists s5, ustore32 (w32 (tp + 4 * tk + 60)) (stack_top args) s4 = Ret (inl tt) s5 /\ spawned child e d' pp s5.
Proof.
  intros Hr4 [Hh Hargc Hargv Hargs]. pose proof (made_notin _ _ _ _ _ _ _ _ _ Hr Hm) as Hnd.
  destruct (given_with_child pp s4 rl4 Hr4 Hh) as [W4 Hmap4]. destruct shared_pgdir as [_ Hdd].
  pose proof (ready_owns _ _ _ _ _ Hr4) as Ho4. pose proof (re_dir _ _ _ _ _ Hr4) as Hd4.
  assert (Hum4 : umap (mem s4) d (PDX tp) (PTX tp) = Some v) by (rewrite (wc_maps _ _ _ _ W4); [done | exact (re_dir _ _ _ _ _ Hr) | by apply PDX_user | apply PTX_range]).
  pose proof (ustore_run c _ rl4 d Hd4 s4 tp v (tk + 15) (stack_top args) Ho4 Htp Mtp ltac:(lia) Hum4 HU HW) as Hst.
  fold p in Hst. set (m5 := st32 (mem s4) (kva p + 4 * (tk + 15)) (stack_top args)) in *.
  destruct (Hmap4 p var_mapped) as [Hp4 Hpp].
  assert (Hpo5 : page_only p (mem s4) m5) by (apply page_only_st32; unfold PGSIZE; lia).
  assert (Hum5 : forall x i j, x ∈ d' :: dirs -> 0 <= i < NUPDE -> 0 <= j < NPTENTRIES -> umap m5 x i j = umap (mem s4) x i j).
  { intros x i j Hx Hi Hj. apply (page_only_umap p s4 m5 c _ rl4 d i j x Ho4); try done.
    eapply mapped_user; [apply (iu_sys _ _ _ _ (re_user _ _ _ _ _ Hr4)) | exact Hp4]. }
  assert (Hon : within (on pp (mem s4) d') (on pp m5 d')).
  { apply on_within; [intros i j w Hi Hj Hw; rewrite Hum5; [done | by left | done | done] | intros k Hk; by apply Hpo5]. }
  exists (s4 <| mem := m5 |>). split.
  { replace (w32 (tp + 4 * tk + 60)) with (tp + 4 * (tk + 15)); [exact Hst|].
    change UTOP with 4005560320 in Htp. rewrite w32_small by lia. lia. }
  assert (Htop : 0 <= stack_top args /\ stack_top args + 4 <= UTOP /\ 0 <= stack_top args + 4 /\ stack_top args + 4 + 4 <= UTOP).
  { destruct (off_facts args Hfit) as (_ & H1' & H2' & H3'). pose proof (args_size_nonneg args).
    unfold stack_top. change USTACK with 4005548032. change UTOP with 4005560320. unfold PGSIZE in *. lia. }
  constructor.
  - apply (with_child_step child e d' s4); [apply Hm | done | by constructor | | |].
    + exists rl4. apply (ready_words s4 m5 c _ rl4 d Hr4), (page_only_user p); [exact Hpo5|].
      eapply mapped_user; [apply (iu_sys _ _ _ _ (re_user _ _ _ _ _ Hr4)) | exact Hp4].
    + intros x i j Hx Hi Hj. apply Hum5; [by right | done | done].
    + intros q k _ Hne Hk. by apply Hpo5.
  - split; [apply Hm|]. split; [done|]. intros Hq. by destruct (Hmap4 pp Hq).
  - intros i j Hi Hj. change (mem (s4 <| mem := m5 |>)) with m5. rewrite Hum5 by (done || by left).
    case_bool_decide as Hij; [injection Hij as -> ->; apply (hd_page _ _ _ _ _ _ _ _ _ _ Hh)|].
    rewrite (hd_maps _ _ _ _ _ _ _ _ _ _ Hh); [by apply shared_map | by left | done | done | congruence | congruence].
  - by apply (within_word (on pp (mem s4) d')); [| apply Htop | apply Htop |].
  - by apply (within_word (on pp (mem s4) d')); [| apply Htop | apply Htop |].
  - by apply (within_args (on pp (mem s4) d')).
  - intros i w Hi. rewrite esp_word in Hi. change (mem (s4 <| mem := m5 |>)) with m5.
    assert (Hi' : (i < 17)%nat) by (apply lookup_lt_Some in Hi; by rewrite length_insert in Hi).
    unfold m5. rewrite word_st32, Z.eqb_refl by lia. cbn [andb].
    destruct (decide (i = 15%nat)) as [-> | Hne].
    + rewrite list_lookup_insert_eq in Hi by done. injection Hi as <-. by rewrite Z.eqb_refl.
    + rewrite list_lookup_insert_ne in Hi by done. rewrite (proj2 (Z.eqb_neq _ _)) by lia.
      rewrite (hd_data _ _ _ _ _ _ _ _ _ _ Hh) by (done || lia). rewrite shared_frame by lia. by apply Hfr.
Qed.
End shared.
End laid.
End made.

(** The ways [new_child] can end: a panic with at most one page free, once there is a child;
    an error with nothing done, when there is no environment or no page; an error that leaves
    the child behind, when the arguments do not fit or at most one page was free; and the
    child. *)
Definition new_child_outcome (m : L (Z + Z)) : Prop :=
  (exists d', out_of_memory m s c (d' :: dirs)) \/
  (exists r s', m s = Ret (inl (inl r)) s' /\ r < 0 /\ in_user s' c dirs rl /\ uframe s s' c /\ same_pages s s' /\
     (env_free_list s = None \/ page_free_list s = None)) \/
  (exists child e d' s', m s = Ret (inl (inl (- E_NO_MEM))) s' /\ ~ live s e /\ with_child child e d' s' /\
     (argv_off args < 8 \/ short_of_memory s')) \/
  (8 <= argv_off args /\ exists child e d' pp s', m s = Ret (inl (inr child)) s' /\ spawned child e d' pp s').

Lemma new_child_run : new_child_outcome (new_child fuel elf_buf (tp + 4 * tk) argv).
Proof.
  unfold new_child_outcome, out_of_memory, new_child. pose proof (re_user _ _ _ _ _ Hr) as Hu.
  destruct (u_exofork Hcs s c dirs rl Hu) as [(r & s1 & Hrun & Hneg & Hu1 & Hf & Hps & Hno) | (e & d' & child & s1 & Hrun & Hm)];
    rewrite (lbind_run _ _ _ _ _ Hrun).
  { right. left. exists r, s1. by rewrite (proj2 (Z.ltb_lt r 0)) by done. }
  pose proof (cm_id _ _ _ _ _ _ _ _ Hm) as Hid. rewrite (proj2 (Z.ltb_ge child 0)) by lia. cbv zeta.
  assert (Hgo : forall A (k : L A), exists m2, (ev ← uenv (ENVX child);
     entry ← uload32 (w32 (elf_buf + 24));
     ustore_words (tp + 4 * tk) (trapframe_words (env_tf ev <| tf_eip := entry |>));; k) s1 = k (s1 <| mem := m2 |>) /\
    page_only p (mem s1) m2 /\ frame_at m2 p tk (first_frame e d')) by (intros A k; by eapply frame_run).
  edestruct (Hgo (Z + Z)%type) as (m2 & Hlay & Hpo & Hfr). rewrite Hlay. clear Hlay Hgo.
  set (s2 := s1 <| mem := m2 |>).
  destruct (laid_share s1 e d' child Hm m2 Hpo) as [(s3 & rl3 & Hrun3 & Hu3 & Hnf) | (s3 & Hrun3 & Hs3)]; fold s2 in Hrun3;
    rewrite (lbind_run _ _ _ _ _ Hrun3).
  { left. exists d'. eexists _, s3, rl3. split; [done|]. split; [exact Hu3 | exact Hnf]. }
  change (0 <? 0) with false. cbv iota.
  pose proof (shared_with_child s1 e d' child Hm m2 Hpo s3 Hs3) as W3. destruct (wc_ready _ _ _ _ W3) as [rl3 Hr3].
  destruct (shared_pgdir s1 e d' child Hm m2 Hpo s3 Hs3) as [Hpg Hdd]. destruct UTEMP_va as [Ht _].
  pose proof (init_stack_run Hcs fuel s3 c (d' :: dirs) rl3 d Hr3) as His.
  specialize (His ltac:(rewrite (wc_maps _ _ _ _ W3); [exact Hempty | exact (re_dir _ _ _ _ _ Hr) | by apply PDX_user | apply PTX_range])
    argv args (shared_args s1 e d' child Hm m2 Hpo s3 Hs3) Hlen Hn child e d' (wc_names _ _ _ _ W3) ltac:(lia)
    ltac:(by left) Hdd Hpg Hwrap).
  destruct (Z.ltb_spec (argv_off args) 8) as [Hlt | Hfit].
  { right. right. left. exists child, e, d', s3. rewrite (lbind_run _ _ _ _ _ His). split; [done|].
    split; [apply Hm|]. split; [exact W3 | by left]. }
  destruct His as [(o & s4 & rl4 & His & Hrf & Hsh) | (pp & s4 & rl4 & His & Hr4 & Hst)]; rewrite (lbind_run _ _ _ _ _ His).
  - right. right. left. exists child, e, d', s4. split; [done|]. split; [apply Hm|]. split; [|by right].
    apply (with_child_step child e d' s3); [apply Hm | exact W3 | apply Hrf | exists rl4; apply Hrf | |].
    + intros x i j Hx. apply (rf_maps _ _ _ _ _ _ Hrf). by right.
    + intros q k Hq _ Hk. apply (rf_data _ _ _ _ _ _ Hrf); [|done]. by eapply with_child_mapped.
  - right. right. right. split; [done|]. exists child, e, d', pp. change (0 <? 0) with false. cbv iota. cbn [default].
    destruct (spawned_intro s1 e d' child Hm m2 Hpo s3 Hs3 Hfr Hfit pp s4 rl4 Hr4 Hst) as (s5 & Hrun5 & Hsp).
    exists s5. split; [by lrw Hrun5 | exact Hsp].
Qed.
End new_child.
