(* ===== verification/SpawnThms.v ===== *)
(** * Spawning: the theorems

    The child that [spawn] makes, before its segments are loaded: its address space, its
    arguments and its registers, on the kernel of the model. *)

From S2P Require Import Prelude Mem CString Mmu KState Printf Pmap VmInv VmSpec VmLife Environ Sched Syscall Trap EnvInv EnvFree SchedSpec UserMem SysSpec Samples User UserSpec UserVm UserEnv Fork ForkSpec UserPage Pgfault ForkRun ForkThms Spawn SpawnStack SpawnRun.

(** C5. [new_child], that is [spawn] from [sys_exofork] to [init_stack], by a program whose
    trap frame buffer is in a page it may write and whose arguments are elsewhere.  It
    returns the error of [sys_exofork], with nothing done, when there is no free environment
    or no free page; or, when the arguments do not fit in a page or at most one page was
    free, it returns [- E_NO_MEM] and the child stays behind, not runnable and never freed;
    or it panics, with the child made and at most one page free, for want of memory
    for a page table; or the arguments fit and there is a new child.  Its address space is
    the shared pages of its parent and one fresh stack page.  On that page it finds, at the
    stack pointer that was put in the trap frame buffer, the number of arguments, the array,
    and all the strings.  Unless it panics the other environments and all address spaces
    are as they were, and so are all pages but that of the buffer.  (The page at [UTEMP] is
    free to use, the arguments take less than four megabytes, and no page is mapped so often
    that its count would overflow.) *)
Theorem new_child_correct `{Devices} `{TrapDevices} `{Program} fuel s c dirs rl d tp tk v elf_buf entry argv args :
  Z.land (tf_cs saved_regs) 3 = 3 -> ready s c dirs rl d -> umap (mem s) d (PDX UTEMP) (PTX UTEMP) = None ->
  0 <= tp < UTOP -> tp mod PGSIZE = 0 -> 0 <= tk /\ tk + 17 <= 1024 ->
  umap (mem s) d (PDX tp) (PTX tp) = Some v -> has v PTE_U = true -> has v PTE_W = true ->
  0 <= elf_buf + 24 /\ elf_buf + 28 <= UTOP -> elf_buf mod 4 = 0 ->
  vword (ubyte (mem s) d) (elf_buf + 24) = Some entry ->
  args_at (hide (v / PGSIZE) (mem s) d) argv args ->
  Forall (fun l => (length l < fuel)%nat) args -> (length args < fuel)%nat ->
  0 <= UTEMP + argv_off args - 8 -> (forall q, 2 * ucount (mem s) dirs q + 1 < 2 ^ 16) ->
  new_child_outcome s c dirs rl d tk v entry args (new_child fuel elf_buf (tp + 4 * tk) argv).
Proof. intros. by apply (new_child_run ltac:(done)). Qed.

(** ** A program with arguments *)

(** A third page: the array of two pointers, and the strings [sh] and [-x]. *)
Definition sample_words : list Z := [0x802010; 0x802014; 0; 0; 0x6873; 0x782D].
Definition sample_paged : kst := user_alloc 0x802000 (Z.lor PTE_U PTE_W) sample_vars.
Definition sample_args : kst :=
  match ustore_words (0x802000 + 4 * 0) sample_words sample_paged with Ret _ s' => s' | _ => sample_paged end.

Lemma sample_paged_ready : exists rl, ready sample_paged 1 [3; 2] rl 3.
Proof.
  destruct sample_vars_ready as [rl Hr]. by apply (user_alloc_ready _ _ _ _ _ 0x802000 (Z.lor PTE_U PTE_W) Hr).
Qed.

Definition sample_pte : Z := default 0 (umap (mem sample_paged) 3 (PDX 0x802000) (PTX 0x802000)).
Lemma sample_paged_map : umap (mem sample_paged) 3 (PDX 0x802000) (PTX 0x802000) = Some sample_pte.
Proof. vm_compute. reflexivity. Qed.
Lemma sample_pte_perm : has sample_pte PTE_U = true /\ has sample_pte PTE_W = true.
Proof. by vm_compute. Qed.
Lemma sample_va : 0 <= 0x802000 < UTOP /\ 0x802000 mod PGSIZE = 0.
Proof. by vm_compute. Qed.

Lemma sample_args_ready : exists rl, ready sample_args 1 [3; 2] rl 3.
Proof.
  destruct sample_paged_ready as [rl Hr]. exists rl. destruct sample_pte_perm as [HU HW]. destruct sample_va as [Hva Mva].
  pose proof (ready_owns _ _ _ _ _ Hr) as Ho. pose proof (re_dir _ _ _ _ _ Hr) as Hd.
  destruct (ustore_words_run 1 [3; 2] rl 3 Hd 0x802000 sample_pte Hva Mva HU HW sample_words 0 sample_paged Ho sample_paged_map
    ltac:(lia) ltac:(by vm_compute)) as (m' & Hrun & Hpo & _).
  pose proof (owns_role 1 [3; 2] rl 3 Hd sample_paged 0x802000 sample_pte Ho Hva sample_paged_map) as Hro.
  unfold sample_args. rewrite Hrun. exact (ready_words _ m' _ _ _ _ Hr (page_only_user _ _ _ _ Hpo Hro)).
Qed.

Definition two_args : list (list Z) := [[115; 104]; [45; 120]].

Lemma sample_args_at : args_at (hide 4 (mem sample_args) 3) 0x802000 two_args.
Proof.
  constructor; [reflexivity | by vm_compute | vm_compute; reflexivity |].
  intros [|[|i]] l Hi; [injection Hi as <- | injection Hi as <- | done].
  - exists 0x802010. by vm_compute.
  - exists 0x802014. by vm_compute.
Qed.

Lemma sample_args_counts q : 2 * ucount (mem sample_args) [3; 2] q + 1 < 2 ^ 16.
Proof.
  destruct sample_args_ready as [rl Hr].
  pose proof (ucount_check sample_args 1 [3; 2] rl 3 1 Hr ltac:(lia) ltac:(vm_compute; reflexivity) q). lia.
Qed.

Lemma new_child_correct_witness : exists rl,
  new_child_outcome sample_args 1 [3; 2] rl 3 64 (mkpte (4 * PGSIZE) (Z.lor PTE_U PTE_W)) 0 two_args
    (new_child 8 0x800800 (0x800000 + 4 * 64) 0x802000).
Proof.
  destruct sample_args_ready as [rl Hr]. exists rl.
  apply (new_child_correct 8 sample_args 1 [3; 2] rl 3 0x800000 64 (mkpte (4 * PGSIZE) (Z.lor PTE_U PTE_W)) 0x800800 0).
  - exact sample_cs.
  - exact Hr.
  - vm_compute. reflexivity.
  - split; [discriminate | reflexivity].
  - reflexivity.
  - split; [discriminate | discriminate].
  - vm_compute. reflexivity.
  - reflexivity.
  - reflexivity.
  - split; discriminate.
  - reflexivity.
  - vm_compute. reflexivity.
  - exact sample_args_at.
  - repeat constructor.
  - repeat constructor.
  - discriminate.
  - exact sample_args_counts.
Defined.
