(* ===== verification/UState.v ===== *)
(** * The monad of user-level programs

    The file server and the user library run in their own address spaces.  A
    piece of such a program is a function of its state that returns, panics
    (which exits the environment), or runs into a fault or out of fuel. *)

From S2P Require Import Prelude.

Inductive stop := Fault (va : Z) | Fuel.

Inductive result (S A : Type) :=
  | Ok (a : A) (s : S)
  | Panics (msg : string) (s : S)
  | Stops (x : stop) (s : S).
Arguments Ok {S A} a s.
Arguments Panics {S A} msg s.
Arguments Stops {S A} x s.

Definition U (S A : Type) : Type := S -> result S A.

Section monad.
Context {S : Type}.

#[export] Instance U_ret : MRet (U S) := fun A a s => Ok a s.
#[export] Instance U_bind : MBind (U S) := fun A B f m s =>
  match m s with
  | Ok a s' => f a s'
  | Panics msg s' => Panics msg s'
  | Stops x s' => Stops x s'
  end.

Definition uget {A} (f : S -> A) : U S A := fun s => Ok (f s) s.
Definition uput (f : S -> S) : U S unit := fun s => Ok tt (f s).
Definition upanic {A} (msg : string) : U S A := fun s => Panics msg s.
Definition ustop {A} (x : stop) : U S A := fun s => Stops x s.

(** A loop under fuel. *)
Fixpoint uloop {St R : Type} (fuel : nat) (body : St -> U S (St + R)) (st : St) : U S R :=
  match fuel with
  | O => ustop Fuel
  | Datatypes.S fuel' =>
      x ← body st;
      match x with
      | inl st' => uloop fuel' body st'
      | inr r => mret r
      end
  end.

(** ** Running a program step by step *)

Lemma uloop_succ {St R} fuel (body : St -> U S (St + R)) st s :
  uloop (Datatypes.S fuel) body st s =
  (x ← body st; match x with inl st' => uloop fuel body st' | inr r => mret r end) s.
Proof. done. Qed.

Lemma ubind_run {A B} (m : U S A) (f : A -> U S B) s a s' : m s = Ok a s' -> (m ≫= f) s = f a s'.
Proof. unfold mbind, U_bind. intros ->. done. Qed.
Lemma ubind_ret {A B} (a : A) (f : A -> U S B) s : (mret a ≫= f) s = f a s.
Proof. done. Qed.
Lemma ubind_get {A B} (g : S -> A) (f : A -> U S B) s : (uget g ≫= f) s = f (g s) s.
Proof. done. Qed.
Lemma ubind_put {B} g (f : unit -> U S B) s : (uput g ≫= f) s = f tt (g s).
Proof. done. Qed.
Lemma ubind_assoc {A B C} (m : U S A) (f : A -> U S B) (g : B -> U S C) s :
  ((m ≫= f) ≫= g) s = (m ≫= (fun a => f a ≫= g)) s.
Proof. unfold mbind, U_bind. destruct (m s); done. Qed.

(** ** Weakest preconditions

    [uwp m Q s]: started in [s], [m] returns, and its value and final state satisfy
    [Q]; a panic, a fault or running out of fuel is excluded. *)

Definition uwp {A} (m : U S A) (Q : A -> S -> Prop) (s : S) : Prop :=
  match m s with Ok a s' => Q a s' | _ => False end.

Lemma uwp_ret {A} (a : A) Q s : Q a s -> uwp (mret a) Q s.
Proof. done. Qed.
Lemma uwp_bind {A B} (m : U S A) (f : A -> U S B) Q s :
  uwp m (fun a => uwp (f a) Q) s -> uwp (m ≫= f) Q s.
Proof. unfold uwp, mbind, U_bind. destruct (m s); done. Qed.
Lemma ubind_assoc_uwp {A B C} (m : U S A) (f : A -> U S B) (g : B -> U S C) Q s :
  uwp ((m ≫= f) ≫= g) Q s <-> uwp (m ≫= (fun a => f a ≫= g)) Q s.
Proof. unfold uwp. by rewrite ubind_assoc. Qed.
Lemma uwp_mono {A} (m : U S A) (Q Q' : A -> S -> Prop) s :
  uwp m Q s -> (forall a s', Q a s' -> Q' a s') -> uwp m Q' s.
Proof. unfold uwp. destruct (m s); auto. Qed.
Lemma uwp_get {A} (f : S -> A) Q s : Q (f s) s -> uwp (uget f) Q s.
Proof. done. Qed.
Lemma uwp_put f Q s : Q tt (f s) -> uwp (uput f) Q s.
Proof. done. Qed.
Lemma uwp_elim {A} (m : U S A) Q s : uwp m Q s -> exists a s', m s = Ok a s' /\ Q a s'.
Proof. unfold uwp. destruct (m s); [eauto | done | done]. Qed.
Lemma uwp_intro {A} (m : U S A) Q s a s' : m s = Ok a s' -> Q a s' -> uwp m Q s.
Proof. unfold uwp. intros ->. done. Qed.

(** An invariant and a measure for a loop: enough fuel makes it return. *)
Lemma uwp_loop {St R} (body : St -> U S (St + R)) (I : St -> S -> Prop) (mu : St -> nat) Q :
  (forall st s, I st s ->
     uwp (body st) (fun x s' =>
       match x with inl st' => I st' s' /\ (mu st' < mu st)%nat | inr r => Q r s' end) s) ->
  forall fuel st s, I st s -> (mu st < fuel)%nat -> uwp (uloop fuel body st) Q s.
Proof.
  intros Hb. induction fuel as [|fuel IH]; intros st s HI Hmu; [lia|].
  cbn [uloop]. apply uwp_bind. eapply uwp_mono; [by apply Hb|].
  intros [st' | r] s' Hs'; [|by apply uwp_ret]. destruct Hs'. apply IH; [done | lia].
Qed.

(** The same with a measure of the state, for a loop whose variable is in the state. *)
Lemma uwp_loop_state {St R} (body : St -> U S (St + R)) (I : St -> S -> Prop) (mu : St -> S -> nat) Q :
  (forall st s, I st s ->
     uwp (body st) (fun x s' =>
       match x with inl st' => I st' s' /\ (mu st' s' < mu st s)%nat | inr r => Q r s' end) s) ->
  forall fuel st s, I st s -> (mu st s < fuel)%nat -> uwp (uloop fuel body st) Q s.
Proof.
  intros Hb. induction fuel as [|fuel IH]; intros st s HI Hmu; [lia|].
  cbn [uloop]. apply uwp_bind. eapply uwp_mono; [by apply Hb|].
  intros [st' | r] s' Hs'; [|by apply uwp_ret]. destruct Hs'. apply IH; [done | lia].
Qed.

(** A loop that stops in its first round. *)
Lemma uloop_stop {St R} f (body : St -> U S (St + R)) st s r s' :
  body st s = Ok (inr r) s' -> uloop (Datatypes.S f) body st s = Ok r s'.
Proof. intros H. rewrite uloop_succ. unfold mbind, U_bind. by rewrite H. Qed.
End monad.

Create HintDb user.
#[export] Hint Resolve uwp_ret uwp_get uwp_put : user.

Ltac ub :=
  first [ rewrite ubind_ret | rewrite ubind_get | rewrite ubind_put | rewrite ubind_assoc ];
  cbv beta iota.
Ltac urw H := erewrite ubind_run by (exact H); cbv beta iota.
