(* ===== verification/Fs.v ===== *)
(** * The file server's blocks and files ([fs/bc.c], [fs/fs.c], [inc/fs.h])

    The disk is mapped at [DISKMAP]; a block is read in when it is first touched.
    A [struct File *] is an address in that map.  The disk itself (the sectors
    the IDE driver reads) is an interface; nothing is ever written back. *)

From S2P Require Import Prelude Mem CString Mmu KState UState.

(** ** Constants and layout ([inc/fs.h], [fs/fs.h]) *)

Definition BLKSIZE : Z := PGSIZE.
Definition BLKBITSIZE : Z := BLKSIZE * 8.
Definition MAXNAMELEN : Z := 128.
Definition NDIRECT : Z := 10.
Definition NINDIRECT : Z := BLKSIZE / 4.
Definition SECTSIZE : Z := 512.
Definition BLKSECTS : Z := BLKSIZE / SECTSIZE.
Definition DISKMAP : Z := 0x10000000.
Definition DISKSIZE : Z := 0xC0000000.
Definition FTYPE_REG : Z := 0.
Definition FTYPE_DIR : Z := 1.
Definition FS_MAGIC : Z := 0x4A0530AE.

(** Offsets in [struct File] and [struct Super]. *)
Definition sizeof_File : Z := 256.
Definition BLKFILES : Z := BLKSIZE / sizeof_File.
Definition f_name (f : Z) : Z := f.
Definition f_size (f : Z) : Z := f + MAXNAMELEN.
Definition f_type (f : Z) : Z := f + MAXNAMELEN + 4.
Definition f_direct (f i : Z) : Z := f + MAXNAMELEN + 8 + 4 * i.
Definition f_indirect (f : Z) : Z := f + MAXNAMELEN + 8 + 4 * NDIRECT.
Definition s_magic (super : Z) : Z := super.
Definition s_nblocks (super : Z) : Z := super + 4.
Definition s_root (super : Z) : Z := super + 8.

(** What [ide_probe_disk1] and [ide_read] answer: whether disk 1 exists; the result
    of reading a sector and its bytes. *)
Class Disk := {
  disk1_present : bool;
  sector_status : Z -> Z;
  disk_byte : Z -> Z }.

(** ** State: the block cache and the globals of [fs.h] *)

Record fsst := mkFsst {
  fmem : memory;            (* the server's memory, the disk map in particular *)
  cached : gset Z;          (* blocks that are mapped *)
  super : option Z;         (* struct Super *super; NULL is None *)
  bitmap : Z;               (* uint32_t *bitmap *)
  pages_left : Z            (* how many more pages sys_page_alloc can give *)
}.
#[export] Instance fsst_eta : Eta fsst :=
  fun s => mkFsst (fmem s) (cached s) (super s) (bitmap s) (pages_left s).

Notation F := (U fsst).

Section fs.
Context `{Disk}.

(** ** [fs/bc.c] *)

(** [super->s_nblocks], read without a fault: the super block is in the cache
    whenever [super] is set. *)
Definition super_nblocks : F Z :=
  sp ← uget super;
  match sp with
  | None => ustop (Fault 4)
  | Some sp =>
      c ← uget cached;
      if bool_decide (((sp - DISKMAP) / BLKSIZE) ∈ c)
      then uget (fun s => ld32 (fmem s) (s_nblocks sp)) else ustop (Fault (s_nblocks sp))
  end.

Definition diskaddr (blockno : Z) : F Z :=
  sp ← uget super;
  bad ← (if blockno =? 0 then mret true
         else match sp with
              | None => mret false
              | Some _ => n ← super_nblocks; mret (blockno >=? n)
              end);
  if (bad : bool) then upanic "bad block number in diskaddr"
  else mret (w32 (DISKMAP + blockno * BLKSIZE)).

(** [ide_read] of [nsecs] sectors: it stops at the first error. *)
Fixpoint ide_read (nsecs : nat) (secno dst : Z) : F Z :=
  match nsecs with
  | O => mret 0
  | S n =>
      if sector_status secno <? 0 then mret (sector_status secno)
      else
        uput (fun s => s <| fmem := stbytes (fmem s) dst
          (map (fun i => disk_byte (secno * SECTSIZE + i)) (seqZ 0 SECTSIZE)) |>);;
        ide_read n (secno + 1) (dst + SECTSIZE)
  end.

(** The page fault handler of the server. *)
Definition bc_pgfault (fault_va : Z) : F unit :=
  let addr := fault_va in
  let blockno := w32 (addr - DISKMAP) / BLKSIZE in
  if (addr <? DISKMAP) || (addr >=? w32 (DISKMAP + DISKSIZE)) then upanic "page fault in FS"
  else
    sp ← uget super;
    bad ← match sp with
          | None => mret false
          | Some _ => n ← super_nblocks; mret (blockno >=? n)
          end;
    if (bad : bool) then upanic "reading non-existent block"
    else
      let addr := ROUNDDOWN addr PGSIZE in
      left ← uget pages_left;
      if left <=? 0 then upanic "bc_pgfault: page alloc failed"
      else
        uput (fun s => s <| pages_left := left - 1 |> <| cached := {[ blockno ]} ∪ cached s |>
                         <| fmem := memset (fmem s) addr 0 PGSIZE |>);;
        r ← ide_read (Z.to_nat BLKSECTS) (w32 (blockno * BLKSECTS)) addr;
        if r <? 0 then upanic "bc_pgfault: ide_read failed" else mret tt.

(** An access to the map faults first if its block is not there. *)
Definition touch (a : Z) : F unit :=
  c ← uget cached;
  if bool_decide (((a - DISKMAP) / BLKSIZE) ∈ c) then mret tt else bc_pgfault a.
Definition fld8 (a : Z) : F Z := touch a;; uget (fun s => ld8 (fmem s) a).
Definition fld32 (a : Z) : F Z := touch a;; uget (fun s => ld32 (fmem s) a).
Definition fst32 (a v : Z) : F unit :=
  touch a;; uput (fun s => s <| fmem := st32 (fmem s) a v |>).
Definition fzero (blk : Z) : F unit :=
  touch blk;; uput (fun s => s <| fmem := memset (fmem s) blk 0 BLKSIZE |>).

(** [set_pgfault_handler] installs [bc_pgfault]; the read of the super block only
    brings it in. *)
Definition bc_init : F unit := a ← diskaddr 1; touch a.

(** ** [fs/fs.c] *)

Definition check_super : F unit :=
  sp ← uget super;
  match sp with
  | None => ustop (Fault 0)
  | Some sp =>
      magic ← fld32 (s_magic sp);
      if negb (magic =? FS_MAGIC) then upanic "bad file system magic number"
      else
        n ← fld32 (s_nblocks sp);
        if n >? DISKSIZE / BLKSIZE then upanic "file system is too large" else mret tt
  end.

(** Returns the disk chosen ([ide_set_disk]). *)
Definition fs_init : F Z :=
  let disk := if disk1_present then 1 else 0 in
  bc_init;;
  a ← diskaddr 1; uput (fun s => s <| super := Some a |>);;
  a ← diskaddr 2; uput (fun s => s <| bitmap := a |>);;
  check_super;;
  mret disk.

Definition block_is_free (blockno : Z) : F bool :=
  sp ← uget super;
  match sp with
  | None => upanic "block_is_free: super not set"
  | Some sp =>
      n ← fld32 (s_nblocks sp);
      if blockno >=? n then upanic "block_is_free: block out of range"
      else
        bm ← uget bitmap;
        w ← fld32 (bm + 4 * (blockno / 32));
        mret (Z.land w (w32 (Z.shiftl 1 (blockno mod 32))) =? 0)
  end.

Definition alloc_block : F Z :=
  uloop (S (Z.to_nat (DISKSIZE / BLKSIZE))) (fun blockno =>
    sp ← uget super;
    match sp with
    | None => ustop (Fault 4)
    | Some sp =>
        n ← fld32 (s_nblocks sp);
        if blockno <? n then
          free ← block_is_free blockno;
          if (free : bool) then
            bm ← uget bitmap;
            w ← fld32 (bm + 4 * (blockno / 32));
            fst32 (bm + 4 * (blockno / 32)) (Z.lor w (w32 (Z.shiftl 1 (blockno mod 32))));;
            mret (inr blockno)
          else mret (inl (blockno + 1))
        else mret (inr (- E_NO_DISK))
    end) 2.

(** Returns the code and [*ppdiskbno]. *)
Definition file_block_walk (f filebno : Z) (alloc : bool) : F (Z * Z) :=
  if filebno <? NDIRECT then mret (0, f_direct f filebno)
  else if filebno <? NDIRECT + NINDIRECT then
    ind ← fld32 (f_indirect f);
    r ← (if ind =? 0 then
           if negb alloc then mret (- E_NOT_FOUND)
           else
             r ← alloc_block;
             if r <? 0 then mret (- E_NO_DISK)
             else
               fst32 (f_indirect f) r;;
               blk ← diskaddr r;
               fzero blk;;
               mret 0
         else mret 0);
    if r <? 0 then mret (r, 0)
    else
      ind ← fld32 (f_indirect f);
      a ← diskaddr ind;
      mret (0, a + 4 * (filebno - NDIRECT))
  else mret (- E_INVAL, 0).

(** Returns the code and [*blk]. *)
Definition file_get_block (f filebno : Z) : F (Z * Z) :=
  '(r, ptr) ← file_block_walk f filebno true;
  if r <? 0 then mret (r, 0)
  else
    b ← fld32 ptr;
    r ← (if b =? 0 then
           r ← alloc_block;
           if r <? 0 then mret r
           else
             fst32 ptr r;;
             a ← diskaddr r;
             fzero a;;
             mret 0
         else mret 0);
    if r <? 0 then mret (r, 0)
    else
      b ← fld32 ptr;
      a ← diskaddr b;
      mret (0, a).

(** [strcmp(p, name)] for a name in the server's own memory, given by its bytes
    without the NUL. *)
Definition strcmp_name (p : Z) (name : list Z) : F Z :=
  uloop (S (length name)) (fun i =>
    c ← fld8 (p + i);
    let d := nth (Z.to_nat i) name 0 in
    if negb (c =? 0) && (c =? d) then mret (inl (i + 1)) else mret (inr (c - d))) 0.

(** Returns the code and [*file]. *)
Definition dir_lookup (dir : Z) (name : list Z) : F (Z * Z) :=
  size ← fld32 (f_size dir);
  if negb (Z.rem (s32 size) BLKSIZE =? 0) then upanic "assertion failed: (dir->f_size % BLKSIZE) == 0"
  else
    let nblock := w32 (Z.quot (s32 size) BLKSIZE) in
    uloop (S (Z.to_nat (2 ^ 20))) (fun i =>
      if i <? nblock then
        '(r, blk) ← file_get_block dir i;
        if r <? 0 then mret (inr (r, 0))
        else
          x ← uloop (S (Z.to_nat BLKFILES)) (fun j =>
                if j <? BLKFILES then
                  let f := blk + j * sizeof_File in
                  c ← strcmp_name (f_name f) name;
                  if c =? 0 then mret (inr (Some f)) else mret (inl (j + 1))
                else mret (inr None)) 0;
          match x with
          | Some f => mret (inr (0, f))
          | None => mret (inl (i + 1))
          end
      else mret (inr (- E_NOT_FOUND, 0))) 0.

(** Paths are lists of bytes, without the NUL. *)
Definition slash : Z := 47.
Fixpoint skip_slash (p : list Z) : list Z :=
  match p with
  | c :: p' => if c =? slash then skip_slash p' else p
  | [] => []
  end.

(** [while ( *path != '/' && *path != '\0') path++]: the element and what follows. *)
Fixpoint path_elem (p : list Z) : list Z * list Z :=
  match p with
  | c :: p' => if c =? slash then ([], p) else let '(e, r) := path_elem p' in (c :: e, r)
  | [] => ([], [])
  end.

(** The result of a walk: the code, [*pdir], [*pf] and [lastelem]. *)
Record walked := mkWalked { w_code : Z; w_dir : option Z; w_file : option Z; w_last : option (list Z) }.

Definition walk_path (path : list Z) : F walked :=
  let path := skip_slash path in
  sp ← uget super;
  match sp with
  | None => ustop (Fault 8)
  | Some sp =>
      uloop (S (length path)) (fun '(path, dir, f) =>
        match path with
        | [] => mret (inr (mkWalked 0 dir (Some f) None))
        | _ =>
            let dir := f in
            let '(name, path) := path_elem path in
            if Z.of_nat (length name) >=? MAXNAMELEN then mret (inr (mkWalked (- E_BAD_PATH) None None None))
            else
              let path := skip_slash path in
              ty ← fld32 (f_type dir);
              if negb (ty =? FTYPE_DIR) then mret (inr (mkWalked (- E_NOT_FOUND) None None None))
              else
                '(r, f) ← dir_lookup dir name;
                if r <? 0 then
                  if (r =? - E_NOT_FOUND) && bool_decide (path = [])
                  then mret (inr (mkWalked r (Some dir) None (Some name)))
                  else mret (inr (mkWalked r None None None))
                else mret (inl (path, Some dir, f))
        end) (path, None, s_root sp)
  end.

Definition file_open (path : list Z) : F (Z * option Z) :=
  w ← walk_path path; mret (w_code w, w_file w).

(** Returns the code or count, and the bytes stored in [buf].  [offset], [pos] and
    [f_size] are [off_t] (signed), [count] is [size_t]: where they meet C compares and
    computes unsigned. *)
Definition file_read (f count offset : Z) : F (Z * list Z) :=
  size ← fld32 (f_size f);
  if offset >=? s32 size then mret (0, [])
  else
    let count := Z.min count (w32 (s32 size - offset)) in
    uloop (S (S (Z.to_nat (2 ^ 32 / BLKSIZE)))) (fun '(pos, buf) =>
      if w32 pos <? w32 (offset + count) then
        '(r, blk) ← file_get_block f (w32 (Z.quot pos BLKSIZE));
        if r <? 0 then mret (inr (r, buf))
        else
          let bn := s32 (Z.min (w32 (BLKSIZE - Z.rem pos BLKSIZE)) (w32 (offset + count - pos))) in
          touch (blk + Z.rem pos BLKSIZE);;
          bs ← uget (fun s => ldbytes (fmem s) (blk + Z.rem pos BLKSIZE) (Z.to_nat bn));
          mret (inl (s32 (pos + bn), buf ++ bs))
      else mret (inr (s32 count, buf))) (offset, []).
End fs.
