(* ===== verification/FsInv.v ===== *)
(** * The disk as the file server sees it

    The block cache is transparent: reads and writes through the page-fault
    handler act on the contents of the whole disk, whatever is cached.  The lemmas
    here replace the server's state by that contents, a function from addresses of
    the disk map to bytes. *)

From S2P Require Import Prelude Mem CString Mmu KState UState Fs.

Definition contents : Type := Z -> Z.

(** Words of the disk. *)
Definition v32 (v : contents) (a : Z) : Z :=
  v a + 256 * v (a + 1) + 65536 * v (a + 2) + 16777216 * v (a + 3).
Definition vst32 (v : contents) (a x : Z) : contents := fun b =>
  if (a <=? b) && (b <? a + 4) then (w32 x / 2 ^ (8 * (b - a))) mod 256 else v b.
Definition vzero (v : contents) (a : Z) : contents := fun b =>
  if (a <=? b) && (b <? a + BLKSIZE) then 0 else v b.

Definition blk (a : Z) : Z := (a - DISKMAP) / BLKSIZE.
Definition baddr (b : Z) : Z := DISKMAP + b * BLKSIZE.
Definition SB : Z := baddr 1.

(** An address in the map of a disk of [n] blocks. *)
Definition on_disk (n a : Z) : Prop := baddr 0 <= a < baddr n.

Section fsinv.
Context `{Disk}.

Definition view (s : fsst) : contents := fun a =>
  if bool_decide (blk a ∈ cached s) then ld8 (fmem s) a else disk_byte (a - DISKMAP) mod 256.

(** A server that works on a disk of [n] blocks with contents [v]: the super block and
    the bitmap are where [fs_init] puts them, the disk can be read, and there is a
    page for every block that is not cached. *)
Record sees (s : fsst) (v : contents) (n : Z) : Prop := {
  se_super : super s = Some SB;
  se_bitmap : bitmap s = baddr 2;
  se_one : 1 ∈ cached s;
  se_n : 3 <= n <= DISKSIZE / BLKSIZE;
  se_nblocks : v32 v (s_nblocks SB) = n;
  se_view : forall a, on_disk n a -> view s a = v a;
  se_cached : forall b, b ∈ cached s -> 0 <= b < n;
  se_disk : forall sec, 0 <= sec < n * BLKSECTS -> 0 <= sector_status sec;
  se_pages : n <= pages_left s + Z.of_nat (size (cached s)) }.

Lemma blk_range n a : on_disk n a -> 0 <= blk a < n.
Proof. unfold on_disk, baddr, blk, BLKSIZE, PGSIZE. intros. zlia. Qed.
Lemma blk_baddr b i : 0 <= i < BLKSIZE -> blk (baddr b + i) = b.
Proof. unfold baddr, blk, BLKSIZE, PGSIZE. intros. zlia. Qed.

Lemma view_byte s a : 0 <= view s a < 256.
Proof. unfold view. case_bool_decide; [apply ld8_bound | apply Z.mod_pos_bound; lia]. Qed.
Lemma sees_byte s v n a : sees s v n -> on_disk n a -> 0 <= v a < 256.
Proof. intros Hs Ha. rewrite <- (se_view _ _ _ Hs a Ha). apply view_byte. Qed.

(** Contents that agree on the disk are the same. *)
Lemma sees_ext s v v' n : sees s v n -> (forall a, on_disk n a -> v' a = v a) -> sees s v' n.
Proof.
  intros Hs Hv. pose proof (se_n _ _ _ Hs). destruct Hs. constructor; try done.
  - rewrite <- se_nblocks0. unfold v32. unfold SB, s_nblocks, on_disk, baddr, BLKSIZE, PGSIZE in *.
    by rewrite !Hv by lia.
  - intros a Ha. rewrite Hv by done. auto.
Qed.

(** ** Reading a block in *)

Lemma ide_read_run k secno dst s :
  (forall i, 0 <= i < Z.of_nat k -> 0 <= sector_status (secno + i)) ->
  exists m', ide_read k secno dst s = Ok 0 (s <| fmem := m' |>) /\
    forall a, ld8 m' a =
      if (dst <=? a) && (a <? dst + SECTSIZE * Z.of_nat k)
      then disk_byte (secno * SECTSIZE + (a - dst)) mod 256 else ld8 (fmem s) a.
Proof.
  revert secno dst s. induction k as [|k IH]; intros secno dst s Hok; cbn [ide_read].
  - exists (fmem s). split; [by destruct s|]. intros a.
    destruct (Z.leb_spec dst a), (Z.ltb_spec a (dst + SECTSIZE * Z.of_nat 0)); try done. lia.
  - pose proof (Hok 0 ltac:(lia)) as H0. rewrite Z.add_0_r in H0.
    destruct (Z.ltb_spec (sector_status secno) 0); [lia|]. rewrite ubind_put.
    set (l := map (fun i => disk_byte (secno * SECTSIZE + i)) (seqZ 0 SECTSIZE)).
    set (s1 := s <| fmem := stbytes (fmem s) dst l |>).
    destruct (IH (secno + 1) (dst + SECTSIZE) s1) as (m' & Hrun & Hm').
    { intros i Hi. replace (secno + 1 + i) with (secno + (i + 1)) by lia. apply Hok. lia. }
    exists m'. rewrite Hrun. split; [done|]. intros a. rewrite Hm'.
    assert (Hl : length l = 512%nat) by (unfold l; by rewrite List.length_map, length_seqZ).
    assert (Hlk : forall i, 0 <= i < 512 -> ld8 (stbytes (fmem s) dst l) (dst + i) =
      disk_byte (secno * SECTSIZE + i) mod 256).
    { intros i Hi. rewrite <- (Z2Nat.id i) at 1 by lia. rewrite (ld8_stbytes_in _ _ _ _ (disk_byte (secno * SECTSIZE + i))); [done|].
      unfold l. change (map ?f ?x) with (f <$> x). rewrite list_lookup_fmap, lookup_seqZ_lt by (rewrite ?Z2Nat.id; unfold SECTSIZE; lia).
      simpl. do 2 f_equal. lia. }
    change (fmem s1) with (stbytes (fmem s) dst l). clearbody l s1. unfold SECTSIZE in *.
    destruct (Z.leb_spec (dst + 512) a), (Z.ltb_spec a (dst + 512 + 512 * Z.of_nat k)); cbn [andb].
    + destruct (Z.leb_spec dst a), (Z.ltb_spec a (dst + 512 * Z.of_nat (S k))); try lia. cbn [andb].
      do 2 f_equal. lia.
    + destruct (Z.leb_spec dst a), (Z.ltb_spec a (dst + 512 * Z.of_nat (S k))); try lia. cbn [andb].
      apply ld8_stbytes_out. rewrite Hl. lia.
    + destruct (Z.leb_spec dst a), (Z.ltb_spec a (dst + 512 * Z.of_nat (S k))); try lia; cbn [andb].
      * rewrite <- (Hlk (a - dst)) by lia. f_equal. lia.
      * apply ld8_stbytes_out. rewrite Hl. lia.
    + lia.
Qed.

(** A word of a cached block is the word of the contents. *)
Lemma same_block a i : a mod 4 = 0 -> 0 <= i < 4 -> blk (a + i) = blk a.
Proof. unfold blk, DISKMAP, BLKSIZE, PGSIZE. intros. zlia. Qed.
Lemma on_disk_word n a i : on_disk n a -> a mod 4 = 0 -> 0 <= i < 4 -> on_disk n (a + i).
Proof. unfold on_disk, baddr, DISKMAP, BLKSIZE, PGSIZE. intros. zlia. Qed.

Lemma cached_byte s v n a : sees s v n -> on_disk n a -> blk a ∈ cached s -> ld8 (fmem s) a = v a.
Proof.
  intros Hs Ha Hc. rewrite <- (se_view _ _ _ Hs a Ha). unfold view. by rewrite bool_decide_eq_true_2.
Qed.
Lemma cached_word s v n a :
  sees s v n -> on_disk n a -> a mod 4 = 0 -> blk a ∈ cached s -> ld32 (fmem s) a = v32 v a.
Proof.
  intros Hs Ha Ha4 Hc. unfold ld32, v32.
  rewrite (cached_byte s v n a) by done.
  rewrite !(cached_byte s v n) by
    (done || (apply on_disk_word; lia || done) || (rewrite same_block by lia; done)). done.
Qed.

Lemma SB_on_disk n : 3 <= n -> on_disk n (s_nblocks SB) /\ s_nblocks SB mod 4 = 0 /\ blk (s_nblocks SB) = 1.
Proof. intros. unfold on_disk, s_nblocks, SB, baddr, blk, DISKMAP, BLKSIZE, PGSIZE. split; [lia|]. done. Qed.

Lemma super_nblocks_run s v n : sees s v n -> super_nblocks s = Ok n s.
Proof.
  intros Hs. unfold super_nblocks. ub. rewrite (se_super _ _ _ Hs). ub.
  change ((SB - DISKMAP) / BLKSIZE) with 1. rewrite bool_decide_eq_true_2 by apply (se_one _ _ _ Hs).
  unfold uget. f_equal. pose proof (se_n _ _ _ Hs).
  destruct (SB_on_disk n ltac:(lia)) as (H1 & H2 & H3).
  rewrite (cached_word s v n) by (done || (rewrite H3; apply Hs)). apply Hs.
Qed.

Lemma diskaddr_run s v n b :
  sees s v n -> 0 < b < n -> diskaddr b s = Ok (baddr b) s.
Proof.
  intros Hs Hb. pose proof (se_n _ _ _ Hs) as Hn. unfold diskaddr. ub. rewrite (se_super _ _ _ Hs).
  destruct (Z.eqb_spec b 0); [lia|]. rewrite ubind_assoc. urw (super_nblocks_run s v n Hs). ub.
  destruct (Z.geb_spec b n); [lia|]. unfold mret, U_ret. f_equal. unfold baddr.
  apply w32_small. unfold DISKMAP, BLKSIZE, PGSIZE, DISKSIZE in *. zlia.
Qed.
Lemma diskaddr_bad s v n b :
  sees s v n -> ~ 0 < b < n -> 0 <= b -> diskaddr b s = Panics "bad block number in diskaddr" s.
Proof.
  intros Hs Hb Hb0. unfold diskaddr. ub. rewrite (se_super _ _ _ Hs).
  destruct (Z.eqb_spec b 0); [done|]. rewrite ubind_assoc. urw (super_nblocks_run s v n Hs). ub.
  destruct (Z.geb_spec b n); [done | lia].
Qed.

(** Blocks not cached leave pages. *)
Lemma cached_size s v n b :
  sees s v n -> 0 <= b < n -> b ∉ cached s -> Z.of_nat (size (cached s)) < n.
Proof.
  intros Hs Hb Hc. pose proof (se_n _ _ _ Hs).
  assert (Hsub : {[b]} ∪ cached s ⊆ list_to_set (seqZ 0 n)).
  { intros x [->%elem_of_singleton | Hx]%elem_of_union; apply elem_of_list_to_set, elem_of_seqZ; [lia|].
    pose proof (se_cached _ _ _ Hs x Hx). lia. }
  apply subseteq_size in Hsub. rewrite size_union in Hsub by set_solver.
  rewrite size_singleton, size_list_to_set, length_seqZ in Hsub by apply NoDup_seqZ. lia.
Qed.

(** Bringing a block in changes nothing one can see. *)
Lemma touch_spec s v n a :
  sees s v n -> on_disk n a ->
  exists s', touch a s = Ok tt s' /\ sees s' v n /\ blk a ∈ cached s'.
Proof.
  intros Hs Ha. unfold touch. ub. fold (blk a). case_bool_decide as Hc; [by exists s|].
  pose proof (se_n _ _ _ Hs) as Hn. pose proof (blk_range n a Ha) as Hb.
  unfold bc_pgfault. cbv zeta.
  assert (Hr : 0 <= a - DISKMAP < 2 ^ 32 /\ DISKMAP <= a < 0xD0000000).
  { unfold on_disk, baddr, DISKMAP, BLKSIZE, PGSIZE, DISKSIZE in *. zlia. }
  rewrite (w32_small (a - DISKMAP)) by lia. fold (blk a).
  change (w32 (DISKMAP + DISKSIZE)) with 0xD0000000.
  destruct (Z.ltb_spec a DISKMAP); [lia|]. destruct (Z.geb_spec a 0xD0000000); [lia|]. cbn [orb].
  ub. rewrite (se_super _ _ _ Hs). rewrite ubind_assoc. urw (super_nblocks_run s v n Hs). ub.
  destruct (Z.geb_spec (blk a) n); [lia|]. ub.
  pose proof (cached_size s v n (blk a) Hs Hb Hc) as Hsz. pose proof (se_pages _ _ _ Hs) as Hpg.
  destruct (Z.leb_spec (pages_left s) 0); [lia|]. ub.
  assert (Hrd : ROUNDDOWN a PGSIZE = baddr (blk a)).
  { rewrite ROUNDDOWN_spec by (unfold PGSIZE, DISKMAP in *; lia). unfold baddr, blk, DISKMAP, BLKSIZE, PGSIZE. zlia. }
  rewrite Hrd, (w32_small (blk a * BLKSECTS)) by (change BLKSECTS with 8; change (DISKSIZE / BLKSIZE) with 786432 in Hn; lia).
  set (s1 := s <| pages_left := _ |> <| cached := _ |> <| fmem := _ |>).
  destruct (ide_read_run (Z.to_nat BLKSECTS) (blk a * BLKSECTS) (baddr (blk a)) s1) as (m' & Hrun & Hm').
  { intros i Hi. apply (se_disk _ _ _ Hs). change BLKSECTS with 8 in *. lia. }
  urw Hrun. destruct (Z.ltb_spec 0 0); [lia|]. exists (s1 <| fmem := m' |>). split; [done|].
  assert (Hm1 : forall x, blk x = blk a -> ld8 m' x = disk_byte (x - DISKMAP) mod 256).
  { intros x Hx. rewrite Hm'. change (SECTSIZE * Z.of_nat (Z.to_nat BLKSECTS)) with 4096.
    change BLKSECTS with 8. unfold SECTSIZE, baddr, blk, BLKSIZE, PGSIZE in *.
    destruct (Z.leb_spec (DISKMAP + (a - DISKMAP) / 4096 * 4096) x),
      (Z.ltb_spec x (DISKMAP + (a - DISKMAP) / 4096 * 4096 + 4096)); cbn [andb]; try zlia.
    do 2 f_equal. lia. }
  assert (Hm2 : forall x, blk x <> blk a -> ld8 m' x = ld8 (fmem s) x).
  { intros x Hx. rewrite Hm'. change (SECTSIZE * Z.of_nat (Z.to_nat BLKSECTS)) with 4096.
    change (fmem s1) with (memset (fmem s) (baddr (blk a)) 0 PGSIZE).
    rewrite memset_spec by (unfold PGSIZE; lia). unfold baddr, blk, BLKSIZE, PGSIZE in *.
    destruct (Z.leb_spec (DISKMAP + (a - DISKMAP) / 4096 * 4096) x),
      (Z.ltb_spec x (DISKMAP + (a - DISKMAP) / 4096 * 4096 + 4096)); cbn [andb]; done || zlia. }
  set (s2 := s1 <| fmem := m' |>).
  assert (Hin : forall x, x ∈ cached s2 <-> x = blk a \/ x ∈ cached s).
  { intros x. change (cached s2) with ({[blk a]} ∪ cached s). by rewrite elem_of_union, elem_of_singleton. }
  assert (Hszu : size (cached s2) = S (size (cached s))).
  { change (cached s2) with ({[blk a]} ∪ cached s). rewrite size_union by (by apply disjoint_singleton_l).
    by rewrite size_singleton. }
  assert (Hpl : pages_left s2 = pages_left s - 1) by done.
  assert (Hm : fmem s2 = m') by done.
  assert (Hsb : super s2 = super s /\ bitmap s2 = bitmap s) by done.
  clearbody s2. clear Hrun Hm'. clear s1. destruct Hsb as [Hsup Hbm].
  split; [|apply Hin; by left]. constructor; try apply Hs.
  - rewrite Hsup. apply Hs.
  - rewrite Hbm. apply Hs.
  - apply Hin. right. apply Hs.
  - intros x Hx. rewrite <- (se_view _ _ _ Hs x Hx). unfold view. rewrite Hm.
    destruct (decide (blk x = blk a)) as [Heq | Hne].
    + rewrite (bool_decide_eq_true_2 _ (proj2 (Hin (blk x)) (or_introl Heq))), Hm1 by exact Heq.
      rewrite bool_decide_eq_false_2; [reflexivity | rewrite Heq; exact Hc].
    + rewrite Hm2 by exact Hne. destruct (decide (blk x ∈ cached s)) as [Hx' | Hx'].
      * rewrite (bool_decide_eq_true_2 _ (proj2 (Hin (blk x)) (or_intror Hx'))).
        by rewrite (bool_decide_eq_true_2 _ Hx').
      * rewrite (bool_decide_eq_false_2 _ Hx'). rewrite bool_decide_eq_false_2; [reflexivity|].
        rewrite Hin. intros [? | ?]; contradiction.
  - intros b Hx. apply Hin in Hx as [-> | Hx]; [exact Hb | by apply Hs].
  - rewrite Hszu, Hpl. lia.
Qed.

(** ** Reads and writes *)

Lemma fld8_run s v n a :
  sees s v n -> on_disk n a -> exists s', fld8 a s = Ok (v a) s' /\ sees s' v n.
Proof.
  intros Hs Ha. destruct (touch_spec s v n a Hs Ha) as (s' & Hrun & Hs' & Hc).
  exists s'. unfold fld8. urw Hrun. split; [|done]. unfold uget. f_equal. by apply (cached_byte s' v n).
Qed.
Lemma fld32_run s v n a :
  sees s v n -> on_disk n a -> a mod 4 = 0 -> exists s', fld32 a s = Ok (v32 v a) s' /\ sees s' v n.
Proof.
  intros Hs Ha Ha4. destruct (touch_spec s v n a Hs Ha) as (s' & Hrun & Hs' & Hc).
  exists s'. unfold fld32. urw Hrun. split; [|done]. unfold uget. f_equal. by apply (cached_word s' v n).
Qed.

Lemma ldbytes_run s v n a k :
  sees s v n -> on_disk n a -> (forall i, 0 <= i < Z.of_nat k -> blk (a + i) = blk a) ->
  exists s', (touch a;; uget (fun s => ldbytes (fmem s) a k)) s =
    Ok (map (fun i => v (a + i)) (seqZ 0 (Z.of_nat k))) s' /\ sees s' v n.
Proof.
  intros Hs Ha Hk. destruct (touch_spec s v n a Hs Ha) as (s' & Hrun & Hs' & Hc).
  exists s'. urw Hrun. split; [|done]. unfold uget. f_equal. apply list_eq. intros i.
  change (map ?f ?x) with (f <$> x). rewrite list_lookup_fmap.
  destruct (decide (i < k)%nat) as [Hi | Hi].
  - rewrite ldbytes_lookup by done. rewrite lookup_seqZ_lt by lia. simpl. f_equal.
    rewrite Z.add_0_l. pose proof (Hk (Z.of_nat i) ltac:(lia)) as Hb.
    apply (cached_byte s' v n); [done | | by rewrite Hb].
    pose proof (blk_range n a Ha). unfold blk, on_disk, baddr, BLKSIZE, PGSIZE in *. zlia.
  - rewrite lookup_ge_None_2 by (rewrite ldbytes_length; lia).
    by rewrite lookup_seqZ_ge by lia.
Qed.

(** A change of cached bytes is a change of the contents. *)
Lemma sees_store s v n m' v' :
  sees s v n -> (forall a, on_disk n a -> v' a = if bool_decide (blk a ∈ cached s) then ld8 m' a else v a) ->
  v32 v' (s_nblocks SB) = n -> sees (s <| fmem := m' |>) v' n.
Proof.
  intros Hs Hv Hn. constructor; try apply Hs; [done|]. intros a Ha. rewrite Hv by done.
  rewrite <- (se_view _ _ _ Hs a Ha). unfold view. simpl. case_bool_decide; done.
Qed.

Lemma fst32_run s v n a x :
  sees s v n -> on_disk n a -> a mod 4 = 0 -> a <> s_nblocks SB ->
  exists s', fst32 a x s = Ok tt s' /\ sees s' (vst32 v a x) n.
Proof.
  intros Hs Ha Ha4 Hne. destruct (touch_spec s v n a Hs Ha) as (s' & Hrun & Hs' & Hc).
  unfold fst32. urw Hrun. eexists. split; [done|]. apply (sees_store s' v n); [done | |].
  - intros b Hb. unfold vst32. rewrite ld8_st32.
    destruct ((a <=? b) && (b <? a + 4)) eqn:E.
    + zbool. rewrite bool_decide_eq_true_2.
      * unfold w32. replace (x mod 2 ^ 32 / 2 ^ (8 * (b - a))) with ((x / 2 ^ (8 * (b - a))) mod 2 ^ (32 - 8 * (b - a))).
        { assert (Hi : b - a = 0 \/ b - a = 1 \/ b - a = 2 \/ b - a = 3) by lia.
          destruct Hi as [-> | [-> | [-> | ->]]]; zlia. }
        assert (Hi : b - a = 0 \/ b - a = 1 \/ b - a = 2 \/ b - a = 3) by lia.
        destruct Hi as [-> | [-> | [-> | ->]]]; zlia.
      * replace b with (a + (b - a)) by lia. by rewrite same_block by lia.
    + case_bool_decide; [|done]. by rewrite (cached_byte s' v n).
  - rewrite <- (se_nblocks _ _ _ Hs). unfold v32, vst32.
    assert (s_nblocks SB mod 4 = 0) by done.
    assert (Hd : s_nblocks SB + 4 <= a \/ a + 4 <= s_nblocks SB) by zlia.
    repeat match goal with |- context [(a <=? ?b) && (?b <? a + 4)] =>
      destruct (Z.leb_spec a b), (Z.ltb_spec b (a + 4)); try lia; cbn [andb] end; reflexivity.
Qed.

Lemma fzero_run s v n b :
  sees s v n -> 1 < b < n ->
  exists s', fzero (baddr b) s = Ok tt s' /\ sees s' (vzero v (baddr b)) n.
Proof.
  intros Hs Hb.
  assert (Ha : on_disk n (baddr b)) by (unfold on_disk, baddr, BLKSIZE, PGSIZE in *; lia).
  assert (Hbb : blk (baddr b) = b) by (rewrite <- (Z.add_0_r (baddr b)); apply blk_baddr; done).
  destruct (touch_spec s v n _ Hs Ha) as (s' & Hrun & Hs' & Hc).
  unfold fzero. urw Hrun. eexists. split; [done|]. apply (sees_store s' v n); [done | |].
  - intros a Ha'. unfold vzero. rewrite memset_spec by (unfold BLKSIZE, PGSIZE; lia).
    destruct ((baddr b <=? a) && (a <? baddr b + BLKSIZE)) eqn:E.
    + zbool. rewrite bool_decide_eq_true_2; [done|]. replace a with (baddr b + (a - baddr b)) by lia.
      rewrite blk_baddr by lia. by rewrite Hbb in Hc.
    + case_bool_decide; [|done]. by rewrite (cached_byte s' v n).
  - rewrite <- (se_nblocks _ _ _ Hs). unfold v32, vzero, s_nblocks, SB, baddr, BLKSIZE, PGSIZE in *.
    repeat match goal with |- context [(?x <=? ?y) && (?y <? ?z)] =>
      destruct (Z.leb_spec x y), (Z.ltb_spec y z); try lia; cbn [andb] end; reflexivity.
Qed.
End fsinv.
