(* ===== verification/FsSpec.v ===== *)
(** * What the file system's operations do

    Each operation of [fs/fs.c] as a function of the contents of the disk. *)

From S2P Require Import Prelude Mem CString Mmu KState UState Fs FsInv.

(** ** The bitmap *)

Definition bm (b : Z) : Z := baddr 2 + 4 * (b / 32).
Definition is_free (v : contents) (b : Z) : bool := negb (Z.testbit (v32 v (bm b)) (b mod 32)).
Definition mark (v : contents) (b : Z) : contents :=
  vst32 v (bm b) (Z.lor (v32 v (bm b)) (w32 (Z.shiftl 1 (b mod 32)))).

(** The first free block, in the order the search looks at them. *)
Definition first_free (v : contents) (n : Z) : option Z := List.find (is_free v) (seqZ 2 (n - 2)).

Lemma v32_vst32_eq v a x : v32 (vst32 v a x) a = w32 x.
Proof.
  unfold v32, vst32. pose proof (w32_bound x).
  repeat match goal with |- context [(?p <=? ?b) && (?b <? ?q)] =>
    destruct (Z.leb_spec p b), (Z.ltb_spec b q); try lia; cbn [andb] end.
  rewrite Z.sub_diag. replace (a + 1 - a) with 1 by lia. replace (a + 2 - a) with 2 by lia.
  replace (a + 3 - a) with 3 by lia. zlia.
Qed.
Lemma v32_vst32_ne v a x b : a + 4 <= b \/ b + 4 <= a -> v32 (vst32 v a x) b = v32 v b.
Proof.
  intros. unfold v32, vst32.
  repeat match goal with |- context [(?p <=? ?c) && (?c <? ?q)] =>
    destruct (Z.leb_spec p c), (Z.ltb_spec c q); try lia; cbn [andb] end; reflexivity.
Qed.
Lemma v32_vzero_in v a b : a <= b -> b + 4 <= a + BLKSIZE -> v32 (vzero v a) b = 0.
Proof.
  intros. unfold v32, vzero.
  repeat match goal with |- context [(?p <=? ?c) && (?c <? ?q)] =>
    destruct (Z.leb_spec p c), (Z.ltb_spec c q); try lia; cbn [andb] end; reflexivity.
Qed.
Lemma v32_vzero_out v a b : b + 4 <= a \/ a + BLKSIZE <= b -> v32 (vzero v a) b = v32 v b.
Proof.
  intros. unfold v32, vzero.
  repeat match goal with |- context [(?p <=? ?c) && (?c <? ?q)] =>
    destruct (Z.leb_spec p c), (Z.ltb_spec c q); try lia; cbn [andb] end; reflexivity.
Qed.

Lemma bit_test w k : 0 <= k < 32 -> (Z.land w (w32 (Z.shiftl 1 k)) =? 0) = negb (Z.testbit w k).
Proof.
  intros Hk. rewrite Z.shiftl_1_l, w32_small by (split; [lia | apply Z.pow_lt_mono_r; lia]).
  pose proof (has_pow2 w k ltac:(lia)) as Hh. unfold has in Hh.
  rewrite <- Hh. by rewrite negb_involutive.
Qed.

Section fsspec.
Context `{Disk}.

Lemma v32_range s v n a : sees s v n -> on_disk n a -> a mod 4 = 0 -> 0 <= v32 v a < 2 ^ 32.
Proof.
  intros Hs Ha Ha4. unfold v32.
  pose proof (sees_byte s v n a Hs Ha).
  pose proof (sees_byte s v n (a + 1) Hs ltac:(apply on_disk_word; done || lia)).
  pose proof (sees_byte s v n (a + 2) Hs ltac:(apply on_disk_word; done || lia)).
  pose proof (sees_byte s v n (a + 3) Hs ltac:(apply on_disk_word; done || lia)). lia.
Qed.

Lemma bm_on_disk n b : 3 <= n -> 0 <= b < n -> on_disk n (bm b) /\ bm b mod 4 = 0.
Proof. unfold on_disk, bm, baddr, DISKMAP, BLKSIZE, PGSIZE. intros. zlia. Qed.

Lemma bm_not_super b : 0 <= b -> s_nblocks SB + 4 <= bm b.
Proof. unfold bm, s_nblocks, SB, baddr, BLKSIZE, PGSIZE. intros. zlia. Qed.

Lemma is_free_mark s v n b b' :
  sees s v n -> 0 <= b < n -> 0 <= b' < n ->
  is_free (mark v b) b' = negb (b' =? b) && is_free v b'.
Proof.
  intros Hs Hb Hb'. pose proof (se_n _ _ _ Hs) as Hn.
  destruct (bm_on_disk n b ltac:(lia) Hb) as [Hd Hd4]. pose proof (v32_range s v n _ Hs Hd Hd4) as Hr.
  unfold is_free, mark. pose proof (Z.mod_pos_bound b 32 ltac:(lia)).
  pose proof (Z.mod_pos_bound b' 32 ltac:(lia)).
  destruct (Z.eq_dec (b / 32) (b' / 32)) as [Hq | Hq].
  - assert (Hbm : bm b' = bm b) by (unfold bm; by rewrite Hq). rewrite Hbm, v32_vst32_eq.
    rewrite Z.shiftl_1_l, (w32_small (2 ^ _)) by (split; [lia | apply Z.pow_lt_mono_r; lia]).
    rewrite w32_small.
    2:{ apply lor_bound; [lia | exact Hr |]. split; [lia | apply Z.pow_lt_mono_r; lia]. }
    rewrite Z.lor_spec, Z.pow2_bits_eqb by lia.
    destruct (Z.eqb_spec b' b) as [-> | Hne]; cbn [negb andb].
    + rewrite Z.eqb_refl, orb_true_r. done.
    + destruct (Z.eqb_spec (b mod 32) (b' mod 32)); [exfalso; zlia|]. by rewrite orb_false_r.
  - rewrite v32_vst32_ne by (unfold bm; lia).
    destruct (Z.eqb_spec b' b) as [-> | Hne]; [done|]. done.
Qed.

Lemma block_is_free_run s v n b :
  sees s v n -> 0 <= b < n ->
  exists s', block_is_free b s = Ok (is_free v b) s' /\ sees s' v n.
Proof.
  intros Hs Hb. pose proof (se_n _ _ _ Hs) as Hn. unfold block_is_free. ub. rewrite (se_super _ _ _ Hs).
  destruct (SB_on_disk n ltac:(lia)) as (Hd & Hd4 & _).
  destruct (fld32_run s v n _ Hs Hd Hd4) as (s1 & R1 & Hs1). urw R1. rewrite (se_nblocks _ _ _ Hs).
  destruct (Z.geb_spec b n); [lia|]. ub. rewrite (se_bitmap _ _ _ Hs1).
  destruct (bm_on_disk n b ltac:(lia) Hb) as [Hm Hm4].
  destruct (fld32_run s1 v n _ Hs1 Hm Hm4) as (s2 & R2 & Hs2). fold (bm b). urw R2.
  exists s2. split; [|done]. unfold mret, U_ret. f_equal.
  apply bit_test. apply Z.mod_pos_bound. lia.
Qed.

Lemma block_is_free_bad s v n b :
  sees s v n -> n <= b -> exists s', block_is_free b s = Panics "block_is_free: block out of range" s'.
Proof.
  intros Hs Hb. pose proof (se_n _ _ _ Hs) as Hn. unfold block_is_free. ub. rewrite (se_super _ _ _ Hs).
  destruct (SB_on_disk n ltac:(lia)) as (Hd & Hd4 & _).
  destruct (fld32_run s v n _ Hs Hd Hd4) as (s1 & R1 & Hs1). urw R1. rewrite (se_nblocks _ _ _ Hs).
  destruct (Z.geb_spec b n); [|lia]. by exists s1.
Qed.

(** The search for a free block, from [i] on. *)
Lemma alloc_block_from fuel i k s v n :
  sees s v n -> 2 <= i <= n -> n - i = Z.of_nat k -> (k < fuel)%nat ->
  exists s',
    uloop fuel (fun blockno =>
      sp ← uget super;
      match sp with
      | None => ustop (Fault 4)
      | Some sp =>
          n ← fld32 (s_nblocks sp);
          if blockno <? n then
            free ← block_is_free blockno;
            if (free : bool) then
              bm ← uget bitmap;
              w ← fld32 (bm + 4 * (blockno / 32));
              fst32 (bm + 4 * (blockno / 32)) (Z.lor w (w32 (Z.shiftl 1 (blockno mod 32))));;
              mret (inr blockno)
            else mret (inl (blockno + 1))
          else mret (inr (- E_NO_DISK))
      end) i s =
    Ok (match List.find (is_free v) (seqZ i (Z.of_nat k)) with Some b => b | None => - E_NO_DISK end) s' /\
    sees s' (match List.find (is_free v) (seqZ i (Z.of_nat k)) with Some b => mark v b | None => v end) n.
Proof.
  revert i k s. induction fuel as [|fuel IH]; intros i k s Hs Hi Hk Hf; [lia|].
  pose proof (se_n _ _ _ Hs) as Hn. cbn [uloop]. rewrite ubind_assoc. ub. rewrite (se_super _ _ _ Hs).
  destruct (SB_on_disk n ltac:(lia)) as (Hd & Hd4 & _). rewrite ubind_assoc.
  destruct (fld32_run s v n _ Hs Hd Hd4) as (s1 & R1 & Hs1). urw R1. rewrite (se_nblocks _ _ _ Hs).
  destruct (Z.ltb_spec i n) as [Hlt | Hge].
  2:{ assert (k = 0%nat) as -> by lia. exists s1. done. }
  destruct k as [|k]; [lia|]. rewrite seqZ_cons by lia. cbn [List.find].
  destruct (block_is_free_run s1 v n i Hs1 ltac:(lia)) as (s2 & R2 & Hs2). rewrite ubind_assoc. urw R2.
  destruct (is_free v i).
  - rewrite ubind_assoc. ub. rewrite (se_bitmap _ _ _ Hs2). fold (bm i).
    destruct (bm_on_disk n i ltac:(lia) ltac:(lia)) as [Hm Hm4]. rewrite ubind_assoc.
    destruct (fld32_run s2 v n _ Hs2 Hm Hm4) as (s3 & R3 & Hs3). urw R3. rewrite ubind_assoc.
    destruct (fst32_run s3 v n (bm i) (Z.lor (v32 v (bm i)) (w32 (Z.shiftl 1 (i mod 32)))) Hs3 Hm Hm4)
      as (s4 & R4 & Hs4); [pose proof (bm_not_super i ltac:(lia)); lia|].
    urw R4. exists s4. split; [done | exact Hs4].
  - ub. replace (Z.pred (Z.of_nat (S k))) with (Z.of_nat k) by lia.
    apply (IH (i + 1) k s2 Hs2); lia.
Qed.

(** [alloc_block] takes the first free block from block 2 on, marks it and nothing else
    in use, and reports [-E_NO_DISK], changing nothing, exactly when no block is free. *)
Lemma alloc_block_run s v n :
  sees s v n ->
  exists s', match first_free v n with
    | Some b => alloc_block s = Ok b s' /\ sees s' (mark v b) n
    | None => alloc_block s = Ok (- E_NO_DISK) s' /\ sees s' v n
    end.
Proof.
  intros Hs. pose proof (se_n _ _ _ Hs) as Hn. change (DISKSIZE / BLKSIZE) with 786432 in Hn.
  destruct (alloc_block_from (S (Z.to_nat (DISKSIZE / BLKSIZE))) 2 (Z.to_nat (n - 2)) s v n Hs)
    as (s' & Hrun & Hs').
  - lia.
  - lia.
  - change (DISKSIZE / BLKSIZE) with 786432. lia.
  - rewrite Z2Nat.id in Hrun, Hs' by lia. exists s'. unfold first_free.
    destruct (List.find (is_free v) (seqZ 2 (n - 2))); split; done.
Qed.

Lemma first_free_some v n b : first_free v n = Some b -> 2 <= b < n /\ is_free v b = true.
Proof.
  unfold first_free. intros Hf. apply find_some in Hf as [Hi Hb].
  apply list_elem_of_In, elem_of_seqZ in Hi. split; [lia | done].
Qed.
Lemma first_free_least v n b b' : first_free v n = Some b -> 2 <= b' < b -> is_free v b' = false.
Proof.
  unfold first_free. intros Hf Hb'.
  assert (Hgen : forall k i, 2 <= i -> List.find (is_free v) (seqZ i (Z.of_nat k)) = Some b ->
    i <= b' -> is_free v b' = false).
  { induction k as [|k IH]; intros i Hi; [done|]. rewrite seqZ_cons by lia. cbn [List.find].
    destruct (is_free v i) eqn:E; [intros [= ->]; lia|]. intros Hfi Hib.
    destruct (decide (i = b')) as [-> |]; [done|].
    replace (Z.pred (Z.of_nat (S k))) with (Z.of_nat k) in Hfi by lia. apply (IH (Z.succ i)); [lia | done | lia]. }
  destruct (Z.le_gt_cases 0 (n - 2)).
  - apply (Hgen (Z.to_nat (n - 2)) 2); [lia | by rewrite Z2Nat.id by lia | lia].
  - unfold seqZ in Hf. replace (Z.to_nat (n - 2)) with 0%nat in Hf by lia. done.
Qed.
Lemma first_free_none v n b : first_free v n = None -> 2 <= b < n -> is_free v b = false.
Proof.
  unfold first_free. intros Hf Hb. eapply find_none in Hf; [exact Hf|].
  apply list_elem_of_In, elem_of_seqZ. lia.
Qed.

(** ** Giving a block to a slot *)

(** A block that the search for free blocks will not hand out. *)
Definition used (v : contents) (b : Z) : Prop := b = 1 \/ is_free v b = false.
(** The blocks that hold the bitmap are marked in it. *)
Definition bitmap_used (v : contents) (n : Z) : Prop := forall b, 0 <= b < n -> used v (blk (bm b)).

(** An address where a block number is kept. *)
Record slot_ok (v : contents) (n a : Z) : Prop := {
  sl_disk : on_disk n a;
  sl_align : a mod 4 = 0;
  sl_super : SB + 8 <= a;
  sl_used : used v (blk a) }.

(** Block [b], marked, zeroed, and entered at [a]. *)
Definition fill (v : contents) (a b : Z) : contents := vzero (vst32 (mark v b) a b) (baddr b).

Lemma alloc_fill_run (g : Z -> Z) s v n a :
  sees s v n -> slot_ok v n a ->
  exists s', match first_free v n with
  | Some b => (r ← alloc_block; if r <? 0 then mret (g r) else
                fst32 a r;; x ← diskaddr r; fzero x;; mret 0) s = Ok 0 s' /\ sees s' (fill v a b) n
  | None => (r ← alloc_block; if r <? 0 then mret (g r) else
                fst32 a r;; x ← diskaddr r; fzero x;; mret 0) s = Ok (g (- E_NO_DISK)) s' /\ sees s' v n
  end.
Proof.
  intros Hs [Hd Ha4 Hsup _]. destruct (alloc_block_run s v n Hs) as (s1 & H1).
  destruct (first_free v n) as [b|] eqn:Ef; destruct H1 as [R1 Hs1]; urw R1.
  2:{ by exists s1. }
  destruct (first_free_some _ _ _ Ef) as [Hb _]. destruct (Z.ltb_spec b 0); [lia|].
  destruct (fst32_run s1 (mark v b) n a b Hs1 Hd Ha4) as (s2 & R2 & Hs2).
  { unfold s_nblocks. lia. }
  urw R2. urw (diskaddr_run s2 _ n b Hs2 ltac:(lia)).
  destruct (fzero_run s2 _ n b Hs2 ltac:(lia)) as (s3 & R3 & Hs3). urw R3. by exists s3.
Qed.

Lemma blk_bounds a : baddr (blk a) <= a < baddr (blk a) + BLKSIZE.
Proof. unfold baddr, blk, BLKSIZE, PGSIZE. zlia. Qed.

Lemma fill_slot s v n a b :
  sees s v n -> slot_ok v n a -> first_free v n = Some b -> v32 (fill v a b) a = b.
Proof.
  intros Hs [Hd Ha4 Hsup Hu] Hf. destruct (first_free_some _ _ _ Hf) as [Hb Hfree].
  pose proof (se_n _ _ _ Hs) as Hn. change (DISKSIZE / BLKSIZE) with 786432 in Hn.
  assert (Hne : blk a <> b) by (intros Heq; destruct Hu as [Hu | Hu]; [lia | congruence]).
  unfold fill. pose proof (blk_bounds a). rewrite v32_vzero_out.
  - rewrite v32_vst32_eq. apply w32_small. lia.
  - unfold baddr, DISKMAP, BLKSIZE, PGSIZE in *. zlia.
Qed.

(** Any other word outside the new block and the bitmap is what it was. *)
Lemma fill_other v a b x :
  x mod 4 = 0 -> a mod 4 = 0 -> x <> a -> x <> bm b -> blk x <> b ->
  v32 (fill v a b) x = v32 v x.
Proof.
  intros Hx Ha Hxa Hxb Hne. unfold fill, mark. pose proof (blk_bounds x).
  assert (bm b mod 4 = 0) by (unfold bm, baddr, DISKMAP, BLKSIZE, PGSIZE; zlia).
  rewrite v32_vzero_out by (unfold baddr, DISKMAP, BLKSIZE, PGSIZE in *; zlia).
  rewrite !v32_vst32_ne by zlia. done.
Qed.

(** The new block holds only zero bytes. *)
Lemma fill_zero v a b i : 0 <= i < BLKSIZE -> fill v a b (baddr b + i) = 0.
Proof.
  intros Hi. unfold fill, vzero.
  destruct (Z.leb_spec (baddr b) (baddr b + i)), (Z.ltb_spec (baddr b + i) (baddr b + BLKSIZE)); lia || done.
Qed.

(** Every byte but those of the new block, the slot and one bitmap word. *)
Lemma fill_byte v a b x :
  ~ (a <= x < a + 4) -> ~ (bm b <= x < bm b + 4) -> blk x <> b -> fill v a b x = v x.
Proof.
  intros H1 H2 H3. unfold fill, mark, vzero, vst32. pose proof (blk_bounds x).
  destruct (Z.leb_spec (baddr b) x), (Z.ltb_spec x (baddr b + BLKSIZE)); cbn [andb];
    try (exfalso; unfold baddr, BLKSIZE, PGSIZE in *; zlia);
    destruct (Z.leb_spec a x), (Z.ltb_spec x (a + 4)); try lia; cbn [andb];
    destruct (Z.leb_spec (bm b) x), (Z.ltb_spec x (bm b + 4)); try lia; done.
Qed.

(** The blocks of the bitmap. *)
Definition bitmap_block (n b : Z) : Prop := exists b', 0 <= b' < n /\ b = blk (bm b').

Lemma is_free_fill s v n a b b' :
  sees s v n -> first_free v n = Some b -> 0 <= b' < n -> a mod 4 = 0 ->
  ~ bitmap_block n (blk a) -> bitmap_used v n ->
  is_free (fill v a b) b' = negb (b' =? b) && is_free v b'.
Proof.
  intros Hs Hf Hb' Ha4 Hna Hbu. destruct (first_free_some _ _ _ Hf) as [Hb Hfree].
  rewrite <- (is_free_mark s v n b b' Hs ltac:(lia) Hb'). unfold is_free. f_equal. f_equal.
  pose proof (se_n _ _ _ Hs). destruct (bm_on_disk n b' ltac:(lia) Hb') as [_ Hm4].
  assert (Hx1 : bm b' <> a) by (intros <-; apply Hna; by exists b').
  assert (Hx2 : blk (bm b') <> b).
  { intros Heq. destruct (Hbu b' Hb') as [Hu | Hu]; rewrite Heq in Hu; [lia | congruence]. }
  unfold fill. pose proof (blk_bounds (bm b')).
  rewrite v32_vzero_out by (unfold baddr, DISKMAP, BLKSIZE, PGSIZE in *; zlia).
  rewrite v32_vst32_ne by zlia. done.
Qed.

(** ** Files *)

(** The pointer to block [k] of file [f]: 0 when it has none. *)
Definition slot_val (v : contents) (f k : Z) : Z :=
  if k <? NDIRECT then v32 v (f_direct f k)
  else if v32 v (f_indirect f) =? 0 then 0
  else v32 v (baddr (v32 v (f_indirect f)) + 4 * (k - NDIRECT)).

(** A block that is in use and holds neither the bitmap nor the file itself. *)
Definition owned (v : contents) (n f b : Z) : Prop :=
  2 <= b < n /\ is_free v b = false /\ ~ bitmap_block n b /\ b <> blk f.

(** A file: inside one block in use, with pointers to blocks it owns.  Its indirect
    block is none of its data blocks. *)
Record file_ok (v : contents) (n f : Z) : Prop := {
  fo_align : f mod 4 = 0;
  fo_disk : on_disk n f;
  fo_block : f mod BLKSIZE + sizeof_File <= BLKSIZE;
  fo_super : SB + 8 <= f;
  fo_used : used v (blk f);
  fo_nobm : ~ bitmap_block n (blk f);
  fo_bitmap : bitmap_used v n;
  fo_ind : v32 v (f_indirect f) <> 0 -> owned v n f (v32 v (f_indirect f));
  fo_ptr : forall k, 0 <= k < NDIRECT + NINDIRECT -> slot_val v f k <> 0 ->
    owned v n f (slot_val v f k) /\ slot_val v f k <> v32 v (f_indirect f) }.

(** Fields of a file are in its block. *)
Lemma field_ok v n f o :
  file_ok v n f -> 0 <= o -> o + 4 <= sizeof_File -> o mod 4 = 0 ->
  slot_ok v n (f + o) /\ blk (f + o) = blk f.
Proof.
  intros [Ha Hd Hb Hs Hu _ _ _ _] H0 H1 H4. unfold sizeof_File in *.
  assert (Hbl : blk (f + o) = blk f).
  { unfold blk, DISKMAP, BLKSIZE, PGSIZE in *. zlia. }
  split; [|done]. constructor; [ | zlia | lia | by rewrite Hbl].
  unfold on_disk, blk, baddr, DISKMAP, BLKSIZE, PGSIZE in *. zlia.
Qed.

Lemma indirect_field v n f :
  file_ok v n f -> f_indirect f = f + 176 /\ slot_ok v n (f_indirect f) /\ blk (f_indirect f) = blk f.
Proof.
  intros Hf. unfold f_indirect, MAXNAMELEN, NDIRECT. replace (f + 128 + 8 + 4 * 10) with (f + 176) by lia.
  split; [done|]. by apply field_ok.
Qed.
Lemma direct_field v n f k :
  file_ok v n f -> 0 <= k < NDIRECT ->
  f_direct f k = f + (136 + 4 * k) /\ slot_ok v n (f_direct f k) /\ blk (f_direct f k) = blk f.
Proof.
  intros Hf Hk. unfold f_direct, MAXNAMELEN. replace (f + 128 + 8 + 4 * k) with (f + (136 + 4 * k)) by lia.
  split; [done|]. unfold NDIRECT in Hk. apply field_ok; [done | lia | unfold sizeof_File; lia | zlia].
Qed.

(** What one slot is given, on contents. *)
Definition ensure (v : contents) (n a : Z) : Z * contents :=
  if v32 v a =? 0 then
    match first_free v n with
    | Some b => (0, fill v a b)
    | None => (- E_NO_DISK, v)
    end
  else (0, v).

Definition walk_ref (v : contents) (n f k : Z) : Z * Z * contents :=
  if k <? NDIRECT then (0, f_direct f k, v)
  else if k <? NDIRECT + NINDIRECT then
    let '(r, v') := ensure v n (f_indirect f) in
    if r <? 0 then (r, 0, v')
    else (0, baddr (v32 v' (f_indirect f)) + 4 * (k - NDIRECT), v')
  else (- E_INVAL, 0, v).

Definition get_block_ref (v : contents) (n f k : Z) : Z * Z * contents :=
  let '(r, a, v1) := walk_ref v n f k in
  if r <? 0 then (r, 0, v1)
  else
    let '(r, v2) := ensure v1 n a in
    (r, if r <? 0 then 0 else baddr (v32 v2 a), v2).

Lemma ensure_run (g : Z -> Z) s v n a :
  sees s v n -> slot_ok v n a -> g (- E_NO_DISK) = - E_NO_DISK ->
  exists s', (b ← fld32 a;
     (if b =? 0 then
        r ← alloc_block;
        if r <? 0 then mret (g r) else fst32 a r;; x ← diskaddr r; fzero x;; mret 0
      else mret 0)) s = Ok (fst (ensure v n a)) s' /\
    sees s' (snd (ensure v n a)) n.
Proof.
  intros Hs Ha Hg. pose proof Ha as [Hd Ha4 _ _].
  destruct (fld32_run s v n a Hs Hd Ha4) as (s1 & R1 & Hs1). urw R1.
  unfold ensure. destruct (v32 v a =? 0); [|by exists s1].
  destruct (alloc_fill_run g s1 v n a Hs1 Ha) as (s2 & H2).
  destruct (first_free v n); destruct H2 as [R2 Hs2]; exists s2; rewrite R2, ?Hg; done.
Qed.

(** The slot the walk arrives at. *)
Lemma walk_slot s v n f k :
  sees s v n -> file_ok v n f -> 0 <= k ->
  let '(r, a, v1) := walk_ref v n f k in
  r < 0 \/ slot_ok v1 n a /\ (r = 0 /\ k < NDIRECT + NINDIRECT) /\
    (k < NDIRECT /\ a = f_direct f k /\ v1 = v \/
     NDIRECT <= k /\ 0 < v32 v1 (f_indirect f) < n /\
       a = baddr (v32 v1 (f_indirect f)) + 4 * (k - NDIRECT) /\
       (v1 = v /\ v32 v (f_indirect f) <> 0 \/
        v32 v (f_indirect f) = 0 /\ exists b, first_free v n = Some b /\
          v1 = fill v (f_indirect f) b /\ v32 v1 (f_indirect f) = b)).
Proof.
  intros Hs Hf Hk. unfold walk_ref, ensure. pose proof (se_n _ _ _ Hs) as Hn.
  assert (Hfi : slot_ok v n (f_indirect f) /\ blk (f_indirect f) = blk f).
  { unfold f_indirect, MAXNAMELEN, NDIRECT. replace (f + 128 + 8 + 4 * 10) with (f + 176) by lia.
    by apply field_ok. }
  destruct Hfi as [Hfi Hfb].
  assert (Hind : forall i, 2 <= i < n -> on_disk n (baddr i + 4 * (k - NDIRECT)) \/ k >= NDIRECT + NINDIRECT \/ k < NDIRECT).
  { intros i Hi. unfold NINDIRECT, NDIRECT, on_disk, baddr, DISKMAP, BLKSIZE, PGSIZE.
    change (4096 / 4) with 1024. lia. }
  assert (Hblk : forall i, NDIRECT <= k < NDIRECT + NINDIRECT -> blk (baddr i + 4 * (k - NDIRECT)) = i).
  { intros i Hki. apply blk_baddr. unfold NINDIRECT, NDIRECT, BLKSIZE, PGSIZE in *.
    change (4096 / 4) with 1024 in *. lia. }
  destruct (Z.ltb_spec k NDIRECT) as [Hkd | Hkd].
  { right. split.
    - unfold f_direct, MAXNAMELEN. replace (f + 128 + 8 + 4 * k) with (f + (136 + 4 * k)) by lia.
      unfold NDIRECT in Hkd. apply field_ok; [done | lia | unfold sizeof_File; lia | zlia].
    - split; [split; [done | unfold NINDIRECT, BLKSIZE, PGSIZE; change (4096 / 4) with 1024; lia]|].
      left. done. }
  destruct (Z.ltb_spec k (NDIRECT + NINDIRECT)) as [Hki | Hki]; [|left; done].
  assert (Hal : forall i, (baddr i + 4 * (k - NDIRECT)) mod 4 = 0).
  { intros i. unfold baddr, DISKMAP, BLKSIZE, PGSIZE. zlia. }
  assert (Hsb : forall i, 2 <= i -> SB + 8 <= baddr i + 4 * (k - NDIRECT)).
  { intros i Hi. unfold SB, baddr, BLKSIZE, PGSIZE. lia. }
  destruct (Z.eqb_spec (v32 v (f_indirect f)) 0) as [Hz | Hnz].
  - destruct (first_free v n) as [b|] eqn:Ef; [|left; done]. right.
    destruct (first_free_some _ _ _ Ef) as [Hb Hfree].
    rewrite (fill_slot s v n _ b Hs Hfi Ef). simpl. split.
    + constructor; [destruct (Hind b Hb) as [? | [? | ?]]; [done | lia | lia] | apply Hal | apply Hsb; lia|].
      rewrite Hblk by lia. right.
      rewrite (is_free_fill s v n _ b b Hs Ef ltac:(lia) (sl_align _ _ _ Hfi)); [by rewrite Z.eqb_refl| |apply Hf].
      rewrite Hfb. apply Hf.
    + split; [done|]. right. split; [done|].
      assert (Hfs := fill_slot s v n _ b Hs Hfi Ef). split; [lia|]. split; [done|]. right.
      split; [done|]. by exists b.
  - destruct (fo_ind _ _ _ Hf Hnz) as (Hi & Hiu & _). simpl. right. split.
    + constructor; [destruct (Hind _ Hi) as [? | [? | ?]]; [done | lia | lia] | apply Hal | apply Hsb; lia|].
      rewrite Hblk by lia. by right.
    + split; [done|]. right. split; [done|]. split; [lia|]. split; [done|]. by left.
Qed.

Lemma file_block_walk_run s v n f k :
  sees s v n -> file_ok v n f -> 0 <= k ->
  let '(r, a, v1) := walk_ref v n f k in
  exists s', file_block_walk f k true s = Ok (r, a) s' /\ sees s' v1 n.
Proof.
  intros Hs Hf Hk. pose proof (walk_slot s v n f k Hs Hf Hk) as Hw. unfold walk_ref in *.
  unfold file_block_walk. destruct (Z.ltb_spec k NDIRECT); [by exists s|].
  destruct (k <? NDIRECT + NINDIRECT); [|by exists s].
  assert (Hfi : slot_ok v n (f_indirect f)).
  { unfold f_indirect, MAXNAMELEN, NDIRECT. replace (f + 128 + 8 + 4 * 10) with (f + 176) by lia.
    by apply field_ok. }
  destruct (ensure_run (fun _ => - E_NO_DISK) s v n _ Hs Hfi eq_refl) as (s1 & R1 & Hs1).
  rewrite <- ubind_assoc. cbn [negb]. urw R1.
  destruct (ensure v n (f_indirect f)) as [r v1] eqn:Ee. cbn [fst snd] in *.
  destruct (Z.ltb_spec r 0); [by exists s1|].
  destruct Hw as [Hw | (_ & _ & [(? & _) | (_ & Hr & _)])]; [lia | lia |].
  destruct (fld32_run s1 v1 n (f_indirect f) Hs1 (sl_disk _ _ _ Hfi) (sl_align _ _ _ Hfi)) as (s2 & R2 & Hs2).
  urw R2. urw (diskaddr_run s2 v1 n _ Hs2 Hr). by exists s2.
Qed.

Lemma slot_val_walk s v n f k :
  sees s v n -> file_ok v n f -> 0 <= k ->
  let '(r, a, v1) := walk_ref v n f k in
  0 <= r -> v32 v1 a = slot_val v f k.
Proof.
  intros Hs Hf Hk. pose proof (walk_slot s v n f k Hs Hf Hk) as Hw.
  destruct (walk_ref v n f k) as [[r a] v1]. intros Hr.
  destruct Hw as [? | (_ & [_ Hki] & Hw)]; [lia|]. unfold slot_val.
  destruct Hw as [(Hlt & -> & ->) | (Hge & Hi & -> & Hw)].
  - by rewrite (proj2 (Z.ltb_lt _ _) Hlt).
  - rewrite (proj2 (Z.ltb_ge _ _) Hge). destruct Hw as [[-> Hnz] | (Hz & b & Hfb & -> & Hb)].
    + by rewrite (proj2 (Z.eqb_neq _ _) Hnz).
    + rewrite Hz, Hb. simpl. unfold fill. apply v32_vzero_in;
        unfold NINDIRECT, NDIRECT, BLKSIZE, PGSIZE in *; change (4096 / 4) with 1024 in *; lia.
Qed.

Lemma file_get_block_run s v n f k :
  sees s v n -> file_ok v n f -> 0 <= k ->
  let '(r, a, v') := get_block_ref v n f k in
  exists s', file_get_block f k s = Ok (r, a) s' /\ sees s' v' n.
Proof.
  intros Hs Hf Hk. pose proof (file_block_walk_run s v n f k Hs Hf Hk) as Hrun.
  pose proof (walk_slot s v n f k Hs Hf Hk) as Hw.
  pose proof (slot_val_walk s v n f k Hs Hf Hk) as Hval. unfold get_block_ref.
  destruct (walk_ref v n f k) as [[r a] v1]. destruct Hrun as (s1 & R1 & Hs1).
  unfold file_get_block. urw R1. destruct (Z.ltb_spec r 0); [by exists s1|].
  destruct Hw as [? | (Hsl & [_ Hki] & _)]; [lia|]. specialize (Hval ltac:(lia)).
  destruct (ensure_run (fun r => r) s1 v1 n a Hs1 Hsl eq_refl) as (s2 & R2 & Hs2).
  rewrite <- ubind_assoc. urw R2. unfold ensure in *. rewrite Hval in *.
  destruct (Z.eqb_spec (slot_val v f k) 0) as [Hz | Hnz].
  - destruct (first_free v1 n) as [b|] eqn:Ef; cbn [fst snd] in *; [|by exists s2].
    change (0 <? 0) with false. cbv iota.
    destruct (fld32_run s2 _ n a Hs2 (sl_disk _ _ _ Hsl) (sl_align _ _ _ Hsl)) as (s3 & R3 & Hs3).
    urw R3. rewrite (fill_slot s1 v1 n a b Hs1 Hsl Ef). destruct (first_free_some _ _ _ Ef) as [Hb _].
    urw (diskaddr_run s3 _ n b Hs3 ltac:(lia)). by exists s3.
  - cbn [fst snd] in *. change (0 <? 0) with false. cbv iota.
    destruct (fld32_run s2 _ n a Hs2 (sl_disk _ _ _ Hsl) (sl_align _ _ _ Hsl)) as (s3 & R3 & Hs3).
    urw R3. rewrite Hval. destruct (fo_ptr _ _ _ Hf k ltac:(lia) Hnz) as [(? & _) _].
    urw (diskaddr_run s3 _ n (slot_val v f k) Hs3 ltac:(lia)). by exists s3.
Qed.

(** ** Files stay well formed *)

Lemma not_free_used v b : 2 <= b -> is_free v b = true -> ~ used v b.
Proof. intros Hb Hf [Hu | Hu]; [lia | congruence]. Qed.

Lemma word_kept s v n a b x :
  sees s v n -> first_free v n = Some b -> a mod 4 = 0 -> x mod 4 = 0 -> x <> a ->
  used v (blk x) -> ~ bitmap_block n (blk x) -> v32 (fill v a b) x = v32 v x.
Proof.
  intros Hs Hf Ha Hx Hne Hu Hnb. destruct (first_free_some _ _ _ Hf) as [Hb Hfr].
  apply fill_other; try done.
  - intros ->. apply Hnb. exists b. split; [lia | done].
  - intros Heq. rewrite Heq in Hu. exact (not_free_used v b ltac:(lia) Hfr Hu).
Qed.

Section file.
Context (s : fsst) (v : contents) (n f a b : Z).
Context (Hs : sees s v n) (Hf : file_ok v n f) (Hfree : first_free v n = Some b).
Context (Ha4 : a mod 4 = 0) (Hab : ~ bitmap_block n (blk a)).
Let v' := fill v a b.

Lemma indirect_kept : a <> f_indirect f -> v32 v' (f_indirect f) = v32 v (f_indirect f).
Proof.
  intros Hne. destruct (indirect_field v n f Hf) as (_ & Hsl & Hb). eapply word_kept; eauto.
  - apply Hsl.
  - rewrite Hb. apply Hf.
  - rewrite Hb. apply Hf.
Qed.

(** Slots other than the one filled keep their pointer. *)
Lemma slot_kept k :
  0 <= k < NDIRECT + NINDIRECT -> a <> f_indirect f ->
  (k < NDIRECT -> a <> f_direct f k) ->
  (NDIRECT <= k -> v32 v (f_indirect f) <> 0 -> a <> baddr (v32 v (f_indirect f)) + 4 * (k - NDIRECT)) ->
  slot_val v' f k = slot_val v f k.
Proof.
  intros Hk Hni Hnd Hns. unfold slot_val. rewrite indirect_kept by done.
  destruct (Z.ltb_spec k NDIRECT) as [Hlt | Hge].
  - destruct (direct_field v n f k Hf ltac:(lia)) as (_ & Hsl & Hb). eapply word_kept; eauto.
    + apply Hsl.
    + intros Heq. by apply Hnd.
    + rewrite Hb. apply Hf.
    + rewrite Hb. apply Hf.
  - destruct (Z.eqb_spec (v32 v (f_indirect f)) 0) as [|Hnz]; [done|].
    destruct (fo_ind _ _ _ Hf Hnz) as (Hi & Hiu & Hinb & _).
    assert (Hblk : blk (baddr (v32 v (f_indirect f)) + 4 * (k - NDIRECT)) = v32 v (f_indirect f)).
    { apply blk_baddr. unfold NINDIRECT, NDIRECT, BLKSIZE, PGSIZE in *.
      change (4096 / 4) with 1024 in *. lia. }
    eapply word_kept; eauto.
    + unfold baddr, DISKMAP, BLKSIZE, PGSIZE. zlia.
    + intros Heq. by apply Hns.
    + rewrite Hblk. by right.
    + by rewrite Hblk.
Qed.

Lemma owned_fill p : owned v n f p -> owned v' n f p.
Proof.
  intros (H1 & H2 & H3 & H4). split; [done|]. split; [|done]. unfold v'.
  rewrite (is_free_fill s v n a b p) by (done || lia || apply Hf). by rewrite H2, andb_false_r.
Qed.
Lemma owned_new : owned v' n f b.
Proof.
  destruct (first_free_some _ _ _ Hfree) as [Hb Hfr].
  split; [done|]. split; [|split].
  - unfold v'. rewrite (is_free_fill s v n a b b) by (done || lia || apply Hf). by rewrite Z.eqb_refl.
  - intros (b' & Hb' & Heq). pose proof (fo_bitmap _ _ _ Hf b' Hb') as Hu. rewrite <- Heq in Hu.
    exact (not_free_used v b ltac:(lia) Hfr Hu).
  - intros Heq. pose proof (fo_used _ _ _ Hf) as Hu. rewrite <- Heq in Hu.
    exact (not_free_used v b ltac:(lia) Hfr Hu).
Qed.
Lemma owned_not_new p : owned v n f p -> p <> b.
Proof. intros (_ & Hp & _) ->. destruct (first_free_some _ _ _ Hfree). congruence. Qed.

Lemma file_ok_fill :
  (v32 v' (f_indirect f) = v32 v (f_indirect f) /\
   forall k, 0 <= k < NDIRECT + NINDIRECT -> slot_val v' f k = slot_val v f k \/ slot_val v' f k = b) \/
  (v32 v' (f_indirect f) = b /\
   forall k, 0 <= k < NDIRECT + NINDIRECT -> slot_val v' f k = slot_val v f k) ->
  file_ok v' n f.
Proof.
  intros Hi. pose proof (se_n _ _ _ Hs) as Hn. destruct (first_free_some _ _ _ Hfree) as [Hb Hfr].
  assert (Hused : forall x, 0 <= x < n -> used v x -> used v' x).
  { intros x Hx [-> | Hu]; [by left|]. right. unfold v'.
    rewrite (is_free_fill s v n a b x) by (done || apply Hf). rewrite Hu. by rewrite andb_false_r. }
  constructor; try apply Hf.
  - apply Hused; [|apply Hf]. apply blk_range, Hf.
  - intros b' Hb'. apply Hused; [|by apply Hf]. apply blk_range.
    apply (bm_on_disk n b'); lia.
  - destruct Hi as [[Hi _] | [Hi _]]; rewrite Hi; intros Hnz; [|exact owned_new].
    by apply owned_fill, Hf.
  - intros k Hk. destruct Hi as [[Hi Hp] | [Hi Hp]]; rewrite Hi.
    + destruct (Hp k Hk) as [Heq | Heq]; rewrite Heq; intros Hnz.
      * destruct (fo_ptr _ _ _ Hf k Hk Hnz) as [Ho Hne]. split; [by apply owned_fill | done].
      * split; [exact owned_new|]. intros Heq'. destruct (Z.eq_dec (v32 v (f_indirect f)) 0); [congruence|].
        by apply (owned_not_new (v32 v (f_indirect f))), eq_sym; [apply Hf|].
    + rewrite Hp by done. intros Hnz. destruct (fo_ptr _ _ _ Hf k Hk Hnz) as [Ho Hne].
      split; [by apply owned_fill | by apply owned_not_new].
Qed.
End file.
End fsspec.
