(* ===== verification/FsFile.v ===== *)
(** * Files: their blocks, and what is read from them

    What [file_get_block] does to a file, in terms of the blocks the file has, and
    [file_read] against the bytes of the file. *)

From S2P Require Import Prelude Mem CString Mmu KState UState Fs FsInv FsSpec.

(** Where the pointer to block [k] is kept. *)
Definition slot_addr (v : contents) (f k : Z) : Z :=
  if k <? NDIRECT then f_direct f k else baddr (v32 v (f_indirect f)) + 4 * (k - NDIRECT).

(** Byte [i] of file [f]; a block the file does not have reads as zero. *)
Definition fbyte (v : contents) (f i : Z) : Z :=
  let p := slot_val v f (i / BLKSIZE) in
  if p =? 0 then 0 else v (baddr p + i mod BLKSIZE).

(** The contents have the same file at [f]: it is well formed, with the same size, type
    and bytes. *)
Record same_file (v v' : contents) (n f : Z) : Prop := {
  sf_ok : file_ok v' n f;
  sf_size : v32 v' (f_size f) = v32 v (f_size f);
  sf_type : v32 v' (f_type f) = v32 v (f_type f);
  sf_byte : forall i, 0 <= i < (NDIRECT + NINDIRECT) * BLKSIZE -> fbyte v' f i = fbyte v f i }.

Lemma same_file_refl v n f : file_ok v n f -> same_file v v n f.
Proof. by constructor. Qed.
Lemma same_file_trans v1 v2 v3 n f : same_file v1 v2 n f -> same_file v2 v3 n f -> same_file v1 v3 n f.
Proof. intros [? ? ? H1] [? ? ? H2]. constructor; try congruence. intros i Hi. by rewrite H2, H1. Qed.

Section fsfile.
Context `{Disk}.

Lemma indirect_word v n k :
  2 <= v < n -> NDIRECT <= k < NDIRECT + NINDIRECT ->
  let a := baddr v + 4 * (k - NDIRECT) in
  blk a = v /\ on_disk n a /\ a mod 4 = 0 /\ SB + 8 <= a.
Proof.
  intros Hi Hk. unfold NINDIRECT, NDIRECT, BLKSIZE, PGSIZE in Hk. change (4096 / 4) with 1024 in Hk. cbv zeta.
  split; [apply blk_baddr; unfold NDIRECT, BLKSIZE, PGSIZE; lia|].
  unfold NDIRECT, on_disk, SB, baddr, DISKMAP, BLKSIZE, PGSIZE. split; [lia|]. split; [zlia | lia].
Qed.

Lemma data_slot v n f k :
  file_ok v n f -> 0 <= k < NDIRECT + NINDIRECT ->
  (NDIRECT <= k -> v32 v (f_indirect f) <> 0) ->
  slot_ok v n (slot_addr v f k) /\ slot_val v f k = v32 v (slot_addr v f k) /\
  ~ bitmap_block n (blk (slot_addr v f k)) /\ slot_addr v f k <> f_indirect f.
Proof.
  intros Hf Hk Hnz. unfold slot_addr, slot_val.
  destruct (Z.ltb_spec k NDIRECT) as [Hlt | Hge].
  - destruct (direct_field v n f k Hf ltac:(lia)) as (_ & Hsl & Hb).
    split; [done|]. split; [done|]. rewrite Hb. split; [apply Hf|].
    unfold f_direct, f_indirect, NDIRECT in *. lia.
  - specialize (Hnz Hge). destruct (fo_ind _ _ _ Hf Hnz) as (Hi & Hiu & Hinb & Hne).
    rewrite (proj2 (Z.eqb_neq _ _) Hnz).
    destruct (indirect_word _ n k Hi ltac:(lia)) as (Hblk & Hd & H4 & Hsb).
    rewrite Hblk. split; [|split; [done|split; [done|]]].
    + constructor; [done..|]. rewrite Hblk. by right.
    + intros Heq. destruct (indirect_field v n f Hf) as (_ & _ & Hbi). by rewrite <- Heq, Hblk in Hbi.
Qed.

(** Slots of different blocks are different words. *)
Lemma slot_addr_inj v n f k k' :
  file_ok v n f -> 0 <= k < NDIRECT + NINDIRECT -> 0 <= k' < NDIRECT + NINDIRECT ->
  v32 v (f_indirect f) <> 0 -> slot_addr v f k = slot_addr v f k' -> k = k'.
Proof.
  intros Hf Hk Hk' Hnz. destruct (fo_ind _ _ _ Hf Hnz) as (Hi & _ & _ & Hne). unfold slot_addr.
  assert (Hx : forall j j', 0 <= j < NDIRECT -> NDIRECT <= j' < NDIRECT + NINDIRECT ->
    f_direct f j <> baddr (v32 v (f_indirect f)) + 4 * (j' - NDIRECT)).
  { intros j j' Hj Hj' Heq. destruct (indirect_word _ n j' Hi Hj') as (Hb & _).
    destruct (direct_field v n f j Hf Hj) as (_ & _ & Hbj). rewrite Heq, Hb in Hbj. done. }
  destruct (Z.ltb_spec k NDIRECT), (Z.ltb_spec k' NDIRECT); intros Heq.
  - unfold f_direct in Heq. lia.
  - by destruct (Hx k k' ltac:(lia) ltac:(lia)).
  - by destruct (Hx k' k ltac:(lia) ltac:(lia)).
  - lia.
Qed.

(** ** One block is added *)

Lemma data_step s v n f k b :
  sees s v n -> file_ok v n f -> 0 <= k < NDIRECT + NINDIRECT ->
  (NDIRECT <= k -> v32 v (f_indirect f) <> 0) -> first_free v n = Some b ->
  let v' := fill v (slot_addr v f k) b in
  file_ok v' n f /\ slot_val v' f k = b /\
  (forall k', 0 <= k' < NDIRECT + NINDIRECT -> k' <> k -> slot_val v' f k' = slot_val v f k') /\
  v32 v' (f_indirect f) = v32 v (f_indirect f).
Proof.
  intros Hs Hf Hk Hnz Hfr v'. destruct (data_slot v n f k Hf Hk Hnz) as (Hsl & Hval & Hnb & Hni).
  pose proof (sl_align _ _ _ Hsl) as Ha4.
  assert (Hi : v32 v' (f_indirect f) = v32 v (f_indirect f)) by exact (indirect_kept s v n f _ b Hs Hf Hfr Ha4 Hni).
  assert (Hoth : forall k', 0 <= k' < NDIRECT + NINDIRECT -> k' <> k -> slot_val v' f k' = slot_val v f k').
  { intros k' Hk' Hne. apply (slot_kept s v n f _ b Hs Hf Hfr Ha4 k' Hk' Hni).
    - intros Hlt Heq. apply Hne. symmetry. destruct (Z.ltb_spec k NDIRECT) as [Hkd | Hkd].
      + unfold slot_addr, f_direct in Heq. rewrite (proj2 (Z.ltb_lt _ _) Hkd) in Heq. lia.
      + apply (slot_addr_inj v n f k k' Hf Hk Hk' (Hnz Hkd)). rewrite Heq. unfold slot_addr.
        by rewrite (proj2 (Z.ltb_lt _ _) Hlt).
    - intros Hge Hz Heq. apply Hne. symmetry. apply (slot_addr_inj v n f k k' Hf Hk Hk' Hz). rewrite Heq.
      unfold slot_addr. by rewrite (proj2 (Z.ltb_ge _ _) Hge). }
  assert (Hnew : slot_val v' f k = b).
  { pose proof (fill_slot s v n _ b Hs Hsl Hfr) as Hfs. fold v' in Hfs. revert Hfs.
    unfold slot_addr, slot_val. rewrite Hi. destruct (Z.ltb_spec k NDIRECT); [done|].
    by rewrite (proj2 (Z.eqb_neq _ _) (Hnz ltac:(lia))). }
  split; [|done]. apply (file_ok_fill s v n f _ b Hs Hf Hfr Ha4 Hnb). left. split; [done|].
  intros k' Hk'. destruct (decide (k' = k)) as [-> |]; [by right | left; by apply Hoth].
Qed.

Lemma indirect_step s v n f b :
  sees s v n -> file_ok v n f -> v32 v (f_indirect f) = 0 -> first_free v n = Some b ->
  let v' := fill v (f_indirect f) b in
  file_ok v' n f /\ v32 v' (f_indirect f) = b /\
  (forall k, 0 <= k < NDIRECT + NINDIRECT -> slot_val v' f k = slot_val v f k).
Proof.
  intros Hs Hf Hz Hfr v'. destruct (indirect_field v n f Hf) as (Hfi & Hsl & Hblk).
  pose proof (sl_align _ _ _ Hsl) as Ha4.
  assert (Hi : v32 v' (f_indirect f) = b) by exact (fill_slot s v n _ b Hs Hsl Hfr).
  destruct (first_free_some _ _ _ Hfr) as [Hb Hfree].
  assert (Hnb : ~ bitmap_block n (blk (f_indirect f))) by (rewrite Hblk; apply Hf).
  assert (Hoth : forall k, 0 <= k < NDIRECT + NINDIRECT -> slot_val v' f k = slot_val v f k).
  { intros k Hk. unfold slot_val. rewrite Hi, Hz. destruct (Z.ltb_spec k NDIRECT) as [Hlt | Hge].
    - destruct (direct_field v n f k Hf ltac:(lia)) as (Hd & Hdl & Hbd).
      apply (word_kept s v n _ b _ Hs Hfr Ha4 (sl_align _ _ _ Hdl)); [|rewrite Hbd; apply Hf..].
      rewrite Hd, Hfi. unfold NDIRECT in *. lia.
    - destruct (Z.eqb_spec b 0); [lia|]. simpl.
      apply v32_vzero_in; unfold NINDIRECT, NDIRECT, BLKSIZE, PGSIZE in *; change (4096 / 4) with 1024 in *; lia. }
  split; [|done]. apply (file_ok_fill s v n f _ b Hs Hf Hfr Ha4 Hnb). by right.
Qed.

(** ** The file's bytes stay *)

(** Where a file keeps its pointers. *)
Definition pointer_word (v : contents) (f a : Z) : Prop :=
  a mod 4 = 0 /\
  (f_direct f 0 <= a /\ blk a = blk f \/ v32 v (f_indirect f) <> 0 /\ blk a = v32 v (f_indirect f)).

Lemma pointer_indirect v n f : file_ok v n f -> pointer_word v f (f_indirect f).
Proof.
  intros Hf. destruct (indirect_field v n f Hf) as (_ & Hsl & Hb). split; [apply Hsl|]. left.
  split; [|done]. unfold f_indirect, f_direct, NDIRECT. lia.
Qed.
Lemma pointer_slot v n f k :
  file_ok v n f -> 0 <= k < NDIRECT + NINDIRECT -> (NDIRECT <= k -> v32 v (f_indirect f) <> 0) ->
  pointer_word v f (slot_addr v f k).
Proof.
  intros Hf Hk Hnz. unfold slot_addr. destruct (Z.ltb_spec k NDIRECT) as [Hlt | Hge].
  - destruct (direct_field v n f k Hf ltac:(lia)) as (_ & Hsl & Hb). split; [apply Hsl|]. left.
    split; [unfold f_direct; lia | done].
  - specialize (Hnz Hge). destruct (fo_ind _ _ _ Hf Hnz) as (Hi & _).
    destruct (indirect_word _ n k Hi ltac:(lia)) as (Hblk & _ & H4 & _). split; [done|]. by right.
Qed.

Lemma pointer_not_bitmap v n f a : file_ok v n f -> pointer_word v f a -> ~ bitmap_block n (blk a).
Proof. intros Hf (_ & [[_ ->] | [Hnz ->]]); [apply Hf | by apply (fo_ind _ _ _ Hf)]. Qed.

Lemma owned_byte v n f a b p i :
  file_ok v n f -> pointer_word v f a -> first_free v n = Some b ->
  owned v n f p -> p <> v32 v (f_indirect f) -> 0 <= i < BLKSIZE ->
  fill v a b (baddr p + i) = v (baddr p + i).
Proof.
  intros Hf [Ha4 Ha] Hfr (Hp & Hpf & Hpb & Hpo) Hpi Hi. destruct (first_free_some _ _ _ Hfr) as [Hb Hfree].
  pose proof (blk_baddr p i Hi) as Hblk. apply fill_byte.
  - intros Hx. pose proof (same_block a (baddr p + i - a) Ha4 ltac:(lia)) as Hs.
    replace (a + (baddr p + i - a)) with (baddr p + i) in Hs by lia. rewrite Hblk in Hs.
    destruct Ha as [[_ Ha] | [_ Ha]]; congruence.
  - intros Hx. apply Hpb. exists b. split; [lia|]. rewrite <- Hblk.
    assert (bm b mod 4 = 0) by (unfold bm, baddr, DISKMAP, BLKSIZE, PGSIZE; zlia).
    rewrite <- (same_block (bm b) (baddr p + i - bm b)) by lia. f_equal. lia.
  - rewrite Hblk. congruence.
Qed.

(** The fields before the pointers. *)
Lemma header_kept s v n f a b o :
  sees s v n -> file_ok v n f -> pointer_word v f a -> first_free v n = Some b ->
  0 <= o < MAXNAMELEN + 8 -> o mod 4 = 0 -> v32 (fill v a b) (f + o) = v32 v (f + o).
Proof.
  intros Hs Hf [Ha4 Ha] Hfr Ho Ho4. unfold MAXNAMELEN in Ho.
  destruct (field_ok v n f o Hf ltac:(lia) ltac:(unfold sizeof_File; lia) Ho4) as [Hsl Hb].
  apply (word_kept s v n a b _ Hs Hfr Ha4 (sl_align _ _ _ Hsl)); [|rewrite Hb; apply Hf..].
  intros <-. destruct Ha as [[Ha _] | [Hnz Ha]].
  - unfold f_direct, MAXNAMELEN in Ha. lia.
  - destruct (fo_ind _ _ _ Hf Hnz) as (_ & _ & _ & Hne). congruence.
Qed.

(** Filling a hole leaves the file as it reads. *)
Lemma same_file_fill s v n f a b :
  sees s v n -> file_ok v n f -> pointer_word v f a -> first_free v n = Some b ->
  file_ok (fill v a b) n f ->
  (forall k, 0 <= k < NDIRECT + NINDIRECT -> slot_val (fill v a b) f k = slot_val v f k \/
     slot_val v f k = 0 /\ slot_val (fill v a b) f k = b) ->
  same_file v (fill v a b) n f.
Proof.
  intros Hs Hf Ha Hfr Hf' Hk. constructor; [done | | |].
  - apply (header_kept s v n f a b MAXNAMELEN); done.
  - unfold f_type. rewrite <- Z.add_assoc. apply (header_kept s v n f a b); done.
  - intros i Hi. unfold fbyte.
    assert (Hib : 0 <= i / BLKSIZE < NDIRECT + NINDIRECT) by (unfold BLKSIZE, PGSIZE in *; zlia).
    pose proof (Z.mod_pos_bound i BLKSIZE ltac:(done)) as Hm.
    destruct (Hk _ Hib) as [Heq | [Hz Heq]]; rewrite Heq.
    + destruct (Z.eqb_spec (slot_val v f (i / BLKSIZE)) 0) as [|Hnz]; [done|].
      destruct (fo_ptr _ _ _ Hf _ Hib Hnz) as [Ho Hne]. by apply (owned_byte v n f a b).
    + rewrite Hz. destruct (first_free_some _ _ _ Hfr) as [Hb _].
      destruct (Z.eqb_spec b 0); [done|]. by apply fill_zero.
Qed.

(** ** [file_get_block] *)

(** What [file_get_block] gives for block [k]. *)
Definition block_got (v v' : contents) (n f k r a : Z) : Prop :=
  same_file v v' n f /\
  (slot_val v f k <> 0 -> r = 0 /\ v' = v) /\
  (r = 0 /\ a = baddr (slot_val v' f k) /\ slot_val v' f k <> 0 /\
     (forall k', 0 <= k' < NDIRECT + NINDIRECT -> k' <> k -> slot_val v' f k' = slot_val v f k') \/
   r = - E_NO_DISK /\ first_free v' n = None /\
     (forall k', 0 <= k' < NDIRECT + NINDIRECT -> slot_val v' f k' = slot_val v f k')).

Lemma get_data_block s v n f k :
  sees s v n -> file_ok v n f -> 0 <= k < NDIRECT + NINDIRECT ->
  (NDIRECT <= k -> v32 v (f_indirect f) <> 0) ->
  let '(r, v') := ensure v n (slot_addr v f k) in
  block_got v v' n f k r (if r <? 0 then 0 else baddr (v32 v' (slot_addr v f k))).
Proof.
  intros Hs Hf Hk Hnz. destruct (data_slot v n f k Hf Hk Hnz) as (Hsl & Hval & Hnb & Hni).
  unfold ensure. rewrite <- Hval. destruct (Z.eqb_spec (slot_val v f k) 0) as [Hz | Hnz'].
  - destruct (first_free v n) as [b|] eqn:Efr; cbv iota.
    + destruct (data_step s v n f k b Hs Hf Hk Hnz Efr) as (Hf' & Hnew & Hoth & Hi). destruct (first_free_some _ _ _ Efr).
      split; [|split; [done|]].
      * apply (same_file_fill s v n f _ b Hs Hf); [by eapply pointer_slot | done | done |].
        intros k' Hk'. destruct (decide (k' = k)) as [-> |]; [by right | left; by apply Hoth].
      * left. change (0 <? 0) with false. cbv iota.
        rewrite (fill_slot s v n _ b Hs Hsl Efr), Hnew. split; [done|]. split; [done|]. split; [lia | done].
    + split; [by apply same_file_refl|]. split; [done|]. by right.
  - split; [by apply same_file_refl|]. split; [done|]. left. change (0 <? 0) with false. cbv iota.
    by rewrite <- Hval.
Qed.

Lemma get_block_got s v n f k :
  sees s v n -> file_ok v n f -> 0 <= k < NDIRECT + NINDIRECT ->
  let '(r, a, v') := get_block_ref v n f k in block_got v v' n f k r a.
Proof.
  intros Hs Hf Hk. unfold get_block_ref.
  pose proof (file_block_walk_run s v n f k Hs Hf ltac:(lia)) as Hw. unfold walk_ref in *.
  destruct (Z.ltb_spec k NDIRECT) as [Hlt | Hge].
  { change (0 <? 0) with false. cbv iota.
    pose proof (get_data_block s v n f k Hs Hf Hk ltac:(lia)) as Hd. unfold slot_addr in Hd.
    rewrite (proj2 (Z.ltb_lt _ _) Hlt) in Hd. destruct (ensure v n (f_direct f k)) as [r v'].
    exact Hd. }
  destruct (Z.ltb_spec k (NDIRECT + NINDIRECT)); [|lia].
  destruct (Z.eq_dec (v32 v (f_indirect f)) 0) as [Hz | Hnz].
  - unfold ensure in Hw at 1 |- * at 1. rewrite Hz in *. cbv iota in Hw. change (0 =? 0) with true in *. cbv iota in *.
    destruct (first_free v n) as [b|] eqn:Efr.
    2:{ split; [by apply same_file_refl|]. split; [|by right].
        intros Hs0. exfalso. apply Hs0. unfold slot_val. rewrite (proj2 (Z.ltb_ge _ _) Hge), Hz. done. }
    change (0 <? 0) with false in *. cbv iota in *. destruct Hw as (s1 & _ & Hs1).
    destruct (indirect_step s v n f b Hs Hf Hz Efr) as (Hf1 & Hi1 & Hoth1).
    set (v1 := fill v (f_indirect f) b) in *. destruct (first_free_some _ _ _ Efr) as [Hb _].
    assert (Hsf : same_file v v1 n f).
    { apply (same_file_fill s v n f _ b Hs Hf); [by eapply pointer_indirect | done | done |].
      intros k' Hk'. left. by apply Hoth1. }
    pose proof (get_data_block s1 v1 n f k Hs1 Hf1 Hk ltac:(lia)) as Hd. unfold slot_addr in Hd.
    rewrite (proj2 (Z.ltb_ge _ _) Hge) in Hd.
    destruct (ensure v1 n (baddr (v32 v1 (f_indirect f)) + 4 * (k - NDIRECT))) as [r v'].
    destruct Hd as (Hsf2 & Hnz2 & Hd).
    assert (Hbg : block_got v v' n f k r (if r <? 0 then 0 else baddr (v32 v' (baddr (v32 v1 (f_indirect f)) + 4 * (k - NDIRECT))))).
    { split; [by eapply same_file_trans|]. split.
      { intros Hs0. exfalso. apply Hs0. unfold slot_val. rewrite (proj2 (Z.ltb_ge _ _) Hge), Hz. done. }
      destruct Hd as [(Hr & Ha & Hnv & Hoth) | (Hr & Hn & Hoth)]; [left | right].
      - split; [done|]. split; [done|]. split; [done|]. intros k' Hk' Hne. by rewrite Hoth, Hoth1.
      - split; [done|]. split; [done|]. intros k' Hk'. by rewrite Hoth, Hoth1. }
    exact Hbg.
  - unfold ensure at 1. rewrite (proj2 (Z.eqb_neq _ _) Hnz). change (0 <? 0) with false. cbv iota.
    pose proof (get_data_block s v n f k Hs Hf Hk ltac:(lia)) as Hd. unfold slot_addr in Hd.
    rewrite (proj2 (Z.ltb_ge _ _) Hge) in Hd.
    destruct (ensure v n (baddr (v32 v (f_indirect f)) + 4 * (k - NDIRECT))) as [r v'].
    exact Hd.
Qed.

(** ** Blocks that are there *)

(** A [struct File] at [f], inside one block. *)
Record file_at (n f : Z) : Prop := {
  fa_align : f mod 4 = 0;
  fa_disk : on_disk n f;
  fa_block : f mod BLKSIZE + sizeof_File <= BLKSIZE }.

(** Block [k] of the file is there, whatever else is in the file. *)
Definition has_block (v : contents) (n f k : Z) : Prop :=
  0 <= k < NDIRECT + NINDIRECT /\ 0 < slot_val v f k < n /\
  (NDIRECT <= k -> 2 <= v32 v (f_indirect f) < n).

Lemma file_ok_at v n f : file_ok v n f -> file_at n f.
Proof. intros Hf. constructor; apply Hf. Qed.

Lemma file_ok_block v n f k :
  file_ok v n f -> 0 <= k < NDIRECT + NINDIRECT -> slot_val v f k <> 0 -> has_block v n f k.
Proof.
  intros Hf Hk Hnz. destruct (fo_ptr _ _ _ Hf k Hk Hnz) as [(Hp & _) _]. split; [done|]. split; [lia|].
  intros Hge. apply (fo_ind _ _ _ Hf). intros Hz. apply Hnz. unfold slot_val.
  by rewrite (proj2 (Z.ltb_ge _ _) Hge), Hz.
Qed.

Lemma file_word n f o :
  file_at n f -> 0 <= o -> o + 4 <= sizeof_File -> o mod 4 = 0 -> on_disk n (f + o) /\ (f + o) mod 4 = 0.
Proof.
  intros [Ha Hd Hb] H0 H1 H4. unfold sizeof_File, on_disk, baddr, DISKMAP, BLKSIZE, PGSIZE in *. zlia.
Qed.

(** Nothing is allocated for them. *)
Lemma get_block_present s v n f k :
  sees s v n -> file_at n f -> has_block v n f k ->
  exists s', file_get_block f k s = Ok (0, baddr (slot_val v f k)) s' /\ sees s' v n.
Proof.
  intros Hs Hf (Hk & Hp & Hi).
  assert (Hwalk : exists a s1, file_block_walk f k true s = Ok (0, a) s1 /\ sees s1 v n /\ on_disk n a /\
    a mod 4 = 0 /\ v32 v a = slot_val v f k).
  { unfold file_block_walk, slot_val. destruct (Z.ltb_spec k NDIRECT) as [Hlt | Hge].
    - assert (Hd : f_direct f k = f + (136 + 4 * k)) by (unfold f_direct, MAXNAMELEN; lia).
      exists (f_direct f k), s. split; [done|]. split; [done|]. rewrite Hd. unfold NDIRECT in Hlt.
      destruct (file_word n f (136 + 4 * k) Hf ltac:(lia) ltac:(unfold sizeof_File; lia) ltac:(zlia)). done.
    - destruct (Z.ltb_spec k (NDIRECT + NINDIRECT)); [|lia]. specialize (Hi Hge).
      destruct (file_word n f 176 Hf ltac:(lia) ltac:(done) ltac:(done)) as [Hd H4].
      replace (f + 176) with (f_indirect f) in Hd, H4 by (unfold f_indirect, MAXNAMELEN, NDIRECT; lia).
      destruct (fld32_run s v n _ Hs Hd H4) as (s1 & R1 & Hs1). urw R1.
      destruct (Z.eqb_spec (v32 v (f_indirect f)) 0); [lia|]. ub. change (0 <? 0) with false. cbv iota.
      destruct (fld32_run s1 v n _ Hs1 Hd H4) as (s2 & R2 & Hs2). urw R2.
      urw (diskaddr_run s2 v n (v32 v (f_indirect f)) Hs2 ltac:(lia)).
      destruct (indirect_word _ n k Hi ltac:(lia)) as (_ & Hwd & Hw4 & _).
      eexists _, s2. split; [done|]. split; [done|]. split; [exact Hwd|]. split; [exact Hw4 | done]. }
  destruct Hwalk as (a & s1 & R1 & Hs1 & Hd & H4 & Hva). unfold file_get_block. urw R1.
  change (0 <? 0) with false. cbv iota.
  destruct (fld32_run s1 v n a Hs1 Hd H4) as (s2 & R2 & Hs2). urw R2. rewrite Hva.
  destruct (Z.eqb_spec (slot_val v f k) 0); [lia|]. ub. change (0 <? 0) with false. cbv iota.
  destruct (fld32_run s2 v n a Hs2 Hd H4) as (s3 & R3 & Hs3). urw R3. rewrite Hva.
  urw (diskaddr_run s3 v n _ Hs3 Hp). by exists s3.
Qed.
End fsfile.
