(* ===== verification/FsRead.v ===== *)
(** * Reading a file

    [file_read] returns the bytes of the file, holes included. *)

From S2P Require Import Prelude Mem CString Mmu KState UState Fs FsInv FsSpec FsFile.

(** The bytes [i, i + m) of a file. *)
Definition fbytes (v : contents) (f i m : Z) : list Z := map (fbyte v f) (seqZ i m).

Lemma fbytes_app v f i m m' : 0 <= m -> 0 <= m' -> fbytes v f i (m + m') = fbytes v f i m ++ fbytes v f (i + m) m'.
Proof. intros. unfold fbytes. rewrite seqZ_app by done. apply List.map_app. Qed.
Lemma fbytes_same v v' n f i m :
  same_file v v' n f -> 0 <= i -> i + m <= (NDIRECT + NINDIRECT) * BLKSIZE -> fbytes v' f i m = fbytes v f i m.
Proof.
  intros Hsf Hi Hm. unfold fbytes. apply List.map_ext_in. intros j Hj.
  apply list_elem_of_In, elem_of_seqZ in Hj. apply (sf_byte _ _ _ _ Hsf). lia.
Qed.

(** Part of one block. *)
Lemma fbytes_block v f pos bn :
  0 <= pos -> 0 <= bn <= BLKSIZE - pos mod BLKSIZE -> slot_val v f (pos / BLKSIZE) <> 0 ->
  map (fun i => v (baddr (slot_val v f (pos / BLKSIZE)) + pos mod BLKSIZE + i)) (seqZ 0 bn) = fbytes v f pos bn.
Proof.
  intros Hpos Hbn Hnz. unfold fbytes. 
  assert (Hsq : seqZ pos bn = Z.add pos <$> seqZ 0 bn) by (rewrite fmap_add_seqZ; f_equal; lia). rewrite Hsq.
  change (map ?g ?l) with (g <$> l). rewrite <- list_fmap_compose. apply list_fmap_ext.
  intros i x Hx. apply lookup_seqZ in Hx as [-> Hi]. unfold compose, fbyte.
  assert (Hq : (pos + (0 + Z.of_nat i)) / BLKSIZE = pos / BLKSIZE) by (unfold BLKSIZE, PGSIZE in *; zlia).
  rewrite Hq, (proj2 (Z.eqb_neq _ _) Hnz). f_equal. unfold BLKSIZE, PGSIZE in *. zlia.
Qed.

Lemma max_file : (NDIRECT + NINDIRECT) * BLKSIZE = 4235264.
Proof. done. Qed.

(** The loop of [file_read] over the bytes [offset, e) of file [f], whatever its blocks
    come from: getting a block keeps [Keep], or stops with [-E_NO_DISK] and [Stop]. *)
Section fsread.
Context `{Disk} (n f : Z) (v0 : contents) (offset e : Z).
Context (Hoff : 0 <= offset) (He : offset <= e) (Hmax : e < 2 ^ 31).
Context (Keep : contents -> Prop) (Stop : contents -> Z -> Prop).
Context (Hkeep : forall v i, Keep v -> offset <= i < e -> fbyte v f i = fbyte v0 f i).
Context (Hget : forall s v k, sees s v n -> Keep v -> offset < e -> offset / BLKSIZE <= k -> k * BLKSIZE < e ->
  exists r a s' v', file_get_block f k s = Ok (r, a) s' /\ sees s' v' n /\ Keep v' /\
    (r = 0 /\ a = baddr (slot_val v' f k) /\ 0 < slot_val v' f k < n \/ r = - E_NO_DISK /\ Stop v' k)).

(** Where the loop stands. *)
Definition reading (st : Z * list Z) (s : fsst) : Prop :=
  offset <= fst st <= e /\ snd st = fbytes v0 f offset (fst st - offset) /\
  exists v, sees s v n /\ Keep v.

Definition read_done (x : Z * list Z) (s : fsst) : Prop := exists v,
  sees s v n /\ Keep v /\
  (x = (e - offset, fbytes v0 f offset (e - offset)) \/
   exists m, 0 <= m < e - offset /\ x = (- E_NO_DISK, fbytes v0 f offset m) /\ Stop v ((offset + m) / BLKSIZE)).

Definition blocks_left (st : Z * list Z) : nat :=
  if fst st <? e then Z.to_nat ((e - 1) / BLKSIZE - fst st / BLKSIZE + 1) else O.

(** How far one turn of the loop goes. *)
Definition step_len (pos : Z) : Z := Z.min (BLKSIZE - pos mod BLKSIZE) (e - pos).

Lemma step_len_range pos : pos < e -> 0 < step_len pos <= BLKSIZE - pos mod BLKSIZE /\ step_len pos <= e - pos.
Proof.
  intros. pose proof (Z.mod_pos_bound pos BLKSIZE ltac:(done)). unfold step_len, BLKSIZE, PGSIZE in *. lia.
Qed.
Lemma step_left (pos : Z) (buf buf' : list Z) :
  offset <= pos -> pos < e -> (blocks_left ((pos + step_len pos)%Z, buf') < blocks_left (pos, buf))%nat.
Proof.
  intros Hp Hlt. pose proof (step_len_range pos Hlt). unfold blocks_left. cbn [fst]. rewrite (proj2 (Z.ltb_lt _ _) Hlt).
  destruct (Z.ltb_spec (pos + step_len pos) e); [|unfold BLKSIZE, PGSIZE in *; zlia].
  assert (Hb : pos + step_len pos = (pos / BLKSIZE + 1) * BLKSIZE) by (unfold step_len, BLKSIZE, PGSIZE in *; zlia).
  rewrite Hb, Z.div_mul by done. unfold BLKSIZE, PGSIZE in *. zlia.
Qed.

(** The copy out of the block found. *)
Lemma read_copy pos buf s v :
  reading (pos, buf) s -> sees s v n -> Keep v -> pos < e -> 0 < slot_val v f (pos / BLKSIZE) < n ->
  let a := baddr (slot_val v f (pos / BLKSIZE)) + pos mod BLKSIZE in
  exists bs s', (touch a;; uget (fun s => ldbytes (fmem s) a (Z.to_nat (step_len pos)))) s = Ok bs s' /\
    reading (pos + step_len pos, buf ++ bs) s'.
Proof.
  intros (Hpos & Hbuf & _) Hs HK Hlt Hp a. cbn [fst snd] in *. pose proof (step_len_range pos Hlt) as Hbn.
  pose proof (Z.mod_pos_bound pos BLKSIZE ltac:(done)) as Hmod.
  assert (Hd : on_disk n a) by (unfold a, on_disk, baddr, BLKSIZE, PGSIZE in *; lia).
  destruct (ldbytes_run s v n a (Z.to_nat (step_len pos)) Hs Hd) as (s2 & R2 & Hs2).
  { intros i Hi. unfold a. rewrite <- Z.add_assoc, !blk_baddr by lia. done. }
  eexists _, s2. split; [exact R2|]. split; [cbn [fst]; lia|]. split; [|by exists v]. cbn [fst snd].
  replace (pos + step_len pos - offset) with (pos - offset + step_len pos) by lia.
  rewrite fbytes_app, <- Hbuf, Z2Nat.id by lia. f_equal. replace (offset + (pos - offset)) with pos by lia.
  unfold a. rewrite (fbytes_block v f pos (step_len pos)) by lia. unfold fbytes. apply List.map_ext_in.
  intros j Hj. apply list_elem_of_In, elem_of_seqZ in Hj. apply Hkeep; [done | lia].
Qed.

Lemma read_step st s :
  reading st s ->
  uwp ((fun '(pos, buf) =>
      if w32 pos <? w32 e then
        '(r, blk) ← file_get_block f (w32 (Z.quot pos BLKSIZE));
        if r <? 0 then mret (inr (r, buf))
        else
          let bn := s32 (Z.min (w32 (BLKSIZE - Z.rem pos BLKSIZE)) (w32 (e - pos))) in
          touch (blk + Z.rem pos BLKSIZE);;
          bs ← uget (fun s => ldbytes (fmem s) (blk + Z.rem pos BLKSIZE) (Z.to_nat bn));
          mret (inl (s32 (pos + bn), buf ++ bs))
      else mret (inr (s32 (e - offset), buf))) st)
    (fun x s' => match x with
      | inl st' => reading st' s' /\ (blocks_left st' < blocks_left st)%nat
      | inr r => read_done r s' end) s.
Proof.
  destruct st as [pos buf]. intros Hr. pose proof Hr as (Hpos & Hbuf & v & Hs & HK). cbn [fst snd] in *.
  rewrite !(w32_small pos), (w32_small e), Z.quot_div_nonneg, Z.rem_mod_nonneg by (done || lia).
  destruct (Z.ltb_spec pos e) as [Hlt | Hge].
  2:{ apply uwp_ret. exists v. split; [done|]. split; [done|]. left.
      rewrite s32_small by lia. replace pos with e in Hbuf by lia. by rewrite Hbuf. }
  rewrite (w32_small (pos / BLKSIZE)) by (unfold BLKSIZE, PGSIZE in *; zlia).
  destruct (Hget s v (pos / BLKSIZE) Hs HK) as (r & a & s1 & v' & R1 & Hs1 & HK1 & Hgot);
    [lia | unfold BLKSIZE, PGSIZE in *; zlia..|].
  apply uwp_bind. eapply uwp_intro; [exact R1|]. cbv beta iota.
  destruct Hgot as [(-> & -> & Hp) | (-> & Hst)].
  2:{ change (- E_NO_DISK <? 0) with true. cbv iota. apply uwp_ret. exists v'. split; [done|]. split; [done|].
      right. exists (pos - offset). split; [lia|]. split; [by rewrite Hbuf|].
      by replace (offset + (pos - offset)) with pos by lia. }
  change (0 <? 0) with false. cbv iota zeta. pose proof (step_len_range pos Hlt) as Hbn.
  pose proof (Z.mod_pos_bound pos BLKSIZE ltac:(done)) as Hmod.
  rewrite (w32_small (BLKSIZE - _)), (w32_small (e - pos)) by (unfold BLKSIZE, PGSIZE in *; lia).
  fold (step_len pos). rewrite (s32_small (step_len pos)) by (unfold BLKSIZE, PGSIZE in *; lia).
  assert (Hr1 : reading (pos, buf) s1) by (split; [done|]; split; [done|]; by exists v').
  destruct (read_copy pos buf s1 v' Hr1 Hs1 HK1 Hlt Hp) as (bs & s2 & R2 & Hr2).
  rewrite <- ubind_assoc_uwp. apply uwp_bind. eapply uwp_intro; [exact R2|]. cbv beta. apply uwp_ret.
  rewrite s32_small by lia. split; [exact Hr2 | apply step_left; lia].
Qed.

(** The whole of [file_read], when the size of the file lets it get to [e]. *)
Lemma read_loop count s v :
  sees s v n -> Keep v -> file_at n f -> 0 <= count < 2 ^ 32 ->
  e = offset + Z.max 0 (Z.min count (s32 (v32 v (f_size f)) - offset)) ->
  uwp (file_read f count offset) read_done s.
Proof.
  intros Hs HK Hf Hc Hee. unfold file_read.
  destruct (file_word n f MAXNAMELEN Hf ltac:(done) ltac:(done) ltac:(done)) as [Hd H4].
  destruct (fld32_run s v n (f_size f) Hs Hd H4) as (s1 & R1 & Hs1).
  apply uwp_bind. eapply uwp_intro; [exact R1|]. cbv beta.
  set (size := s32 (v32 v (f_size f))) in *.
  destruct (Z.geb_spec offset size) as [Hge | Hlt].
  - replace (Z.max 0 (Z.min count (size - offset))) with 0 in Hee by lia. apply uwp_ret. exists v.
    split; [done|]. split; [done|]. left. by rewrite Hee, Z.add_0_r, Z.sub_diag.
  - pose proof (s32_bound (v32 v (f_size f))) as Hsz. fold size in Hsz.
    rewrite (w32_small (size - offset)) by lia.
    replace (Z.max 0 (Z.min count (size - offset))) with (Z.min count (size - offset)) in Hee by lia.
    rewrite <- Hee. replace (Z.min count (size - offset)) with (e - offset) by lia. cbv zeta.
    refine (uwp_loop _ reading blocks_left _ _ _ _ _ _ _).
    + intros st s'. apply read_step.
    + split; [cbn [fst]; lia|]. split; [cbn [fst snd]; by rewrite Z.sub_diag | by exists v].
    + unfold blocks_left. cbn [fst]. change (2 ^ 32 / BLKSIZE) with 1048576.
      destruct (Z.ltb_spec offset e); unfold BLKSIZE, PGSIZE; zlia.
Qed.
End fsread.

Section fsread_run.
Context `{Disk}.

(** What a read of [count] bytes at [offset] may return. *)
Definition read_count (v : contents) (f count offset : Z) : Z :=
  Z.max 0 (Z.min count (s32 (v32 v (f_size f)) - offset)).

Lemma read_count_end v f count offset :
  offset + read_count v f count offset <= Z.max offset (s32 (v32 v (f_size f))).
Proof. unfold read_count. lia. Qed.

(** A file that may have holes. *)
Lemma file_read_holes s v n f count offset :
  sees s v n -> file_ok v n f -> s32 (v32 v (f_size f)) <= (NDIRECT + NINDIRECT) * BLKSIZE ->
  0 <= offset < 2 ^ 31 -> 0 <= count < 2 ^ 32 ->
  uwp (file_read f count offset)
    (read_done n f v offset (offset + read_count v f count offset) (fun v' => same_file v v' n f)
       (fun v' k => first_free v' n = None)) s.
Proof.
  intros Hs Hf Hsz Hoff Hc. pose proof (read_count_end v f count offset) as He. rewrite max_file in Hsz.
  pose proof (s32_bound (v32 v (f_size f))).
  apply (read_loop n f v offset (offset + read_count v f count offset)) with v; try done; try (by apply same_file_refl).
  - lia.
  - unfold read_count. lia.
  - lia.
  - intros v' i Hsf Hi. apply (sf_byte _ _ _ _ Hsf). rewrite max_file. lia.
  - intros s' v' k Hs' Hsf Hlt Hk1 Hk2.
    assert (Hk : 0 <= k < NDIRECT + NINDIRECT).
    { change (NDIRECT + NINDIRECT) with 1034. revert Hlt Hk1 Hk2 He. generalize (read_count v f count offset). intros c. unfold BLKSIZE, PGSIZE. zlia. }
    pose proof (file_get_block_run s' v' n f k Hs' (sf_ok _ _ _ _ Hsf) ltac:(lia)) as Hrun.
    pose proof (get_block_got s' v' n f k Hs' (sf_ok _ _ _ _ Hsf) Hk) as Hgot.
    destruct (get_block_ref v' n f k) as [[r a] v2]. destruct Hrun as (s1 & R1 & Hs1).
    destruct Hgot as (Hsf' & _ & Hgot). exists r, a, s1, v2. do 2 (split; [done|]).
    split; [by eapply same_file_trans|]. destruct Hgot as [(-> & -> & Hnz & _) | (-> & Hff & _)]; [left | by right].
    split; [done|]. split; [done|]. destruct (fo_ptr _ _ _ (sf_ok _ _ _ _ Hsf') k Hk Hnz) as [(Hp & _) _]. lia.
  - by eapply file_ok_at.
Qed.

(** A file with all the blocks asked for: nothing is allocated. *)
Lemma file_read_full s v n f count offset :
  sees s v n -> file_at n f -> 0 <= offset < 2 ^ 31 -> 0 <= count < 2 ^ 32 ->
  (forall k, 0 < read_count v f count offset -> offset / BLKSIZE <= k ->
     k * BLKSIZE < offset + read_count v f count offset -> has_block v n f k) ->
  exists s', file_read f count offset s =
    Ok (read_count v f count offset, fbytes v f offset (read_count v f count offset)) s' /\ sees s' v n.
Proof.
  intros Hs Hf Hoff Hc Hful. pose proof (read_count_end v f count offset) as He.
  pose proof (s32_bound (v32 v (f_size f))). set (e := offset + read_count v f count offset) in *.
  assert (Hrun : uwp (file_read f count offset) (read_done n f v offset e (fun v' => v' = v) (fun _ _ => False)) s).
  { apply read_loop with v; try done.
    - lia.
    - unfold e, read_count. lia.
    - lia.
    - by intros v' i ->.
    - intros s' v' k Hs' -> Hlt Hk1 Hk2. pose proof (Hful k ltac:(unfold e in Hlt; lia) Hk1 Hk2) as Hb.
      destruct (get_block_present s' v n f k Hs' Hf Hb) as (s1 & R1 & Hs1). eexists _, _, s1, v.
      split; [exact R1|]. split; [done|]. split; [done|]. left. split; [done|]. split; [done | apply Hb]. }
  destruct (uwp_elim _ _ _ Hrun) as (x & s' & R & v' & Hs' & -> & Hx). exists s'. split; [|done].
  rewrite R. destruct Hx as [-> | (m & _ & _ & [])].
  by replace (e - offset) with (read_count v f count offset) by (unfold e; lia).
Qed.
End fsread_run.
