(* ===== verification/FsDir.v ===== *)
(** * Mounting the disk, directories and paths

    [dir_lookup] and [walk_path] against the contents of the disk, and [fs_init]. *)

From S2P Require Import Prelude Mem CString Mmu KState UState Fs FsInv FsSpec FsFile.

(** ** Directories and paths

    [dir_lookup] against the entries of a directory, [walk_path] against the
    elements of the path. *)

(** ** Names and entries *)

(** The name kept at [a] is [name], bytes without the NUL. *)
Definition name_at (v : contents) (a : Z) (name : list Z) : bool :=
  bool_decide (map (fun i => v (a + i)) (seqZ 0 (Z.of_nat (length name) + 1)) = name ++ [0]).

(** Entry [j] of a directory with all its blocks. *)
Definition entry_addr (v : contents) (d j : Z) : Z :=
  baddr (slot_val v d (j / BLKFILES)) + j mod BLKFILES * sizeof_File.
Definition entries (v : contents) (d : Z) : Z := s32 (v32 v (f_size d)) / sizeof_File.
Definition lookup_ref (v : contents) (d : Z) (name : list Z) : option Z :=
  entry_addr v d <$> List.find (fun j => name_at v (entry_addr v d j) name) (seqZ 0 (entries v d)).

(** A directory the server can search: whole blocks, all of them there. *)
Record dir_ok (v : contents) (n d : Z) : Prop := {
  do_file : file_at n d;
  do_size : 0 <= s32 (v32 v (f_size d)) <= (NDIRECT + NINDIRECT) * BLKSIZE;
  do_whole : s32 (v32 v (f_size d)) mod BLKSIZE = 0;
  do_full : forall k, 0 <= k < s32 (v32 v (f_size d)) / BLKSIZE -> has_block v n d k }.

(** ** Paths *)

(** The elements of a path: what lies between slashes, empty elements left out. *)
Fixpoint split_slash (p : list Z) : list (list Z) :=
  match p with
  | [] => [[]]
  | c :: p' =>
      if c =? slash then [] :: split_slash p'
      else match split_slash p' with
           | w :: ws => (c :: w) :: ws
           | [] => [[c]]
           end
  end.
Definition elements (p : list Z) : list (list Z) := filter (fun w => w <> []) (split_slash p).

(** Following the elements from file [f] in directory [dir]. *)
Fixpoint resolve (v : contents) (dir : option Z) (f : Z) (ws : list (list Z)) : walked :=
  match ws with
  | [] => mkWalked 0 dir (Some f) None
  | w :: ws' =>
      if Z.of_nat (length w) >=? MAXNAMELEN then mkWalked (- E_BAD_PATH) None None None
      else if negb (v32 v (f_type f) =? FTYPE_DIR) then mkWalked (- E_NOT_FOUND) None None None
      else match lookup_ref v f w with
           | Some f' => resolve v (Some f) f' ws'
           | None => match ws' with
                     | [] => mkWalked (- E_NOT_FOUND) (Some f) None (Some w)
                     | _ => mkWalked (- E_NOT_FOUND) None None None
                     end
           end
  end.

Lemma split_slash_nil p : split_slash p <> [].
Proof. destruct p as [|c p]; simpl; [done|]. destruct (c =? slash); [done|]. by destruct (split_slash p). Qed.

Lemma elements_skip p : elements (skip_slash p) = elements p.
Proof.
  induction p as [|c p IH]; [done|]. cbn [skip_slash]. destruct (c =? slash) eqn:E; [|done].
  rewrite IH. unfold elements. cbn [split_slash]. rewrite E. by rewrite filter_cons_False by (intros []; done).
Qed.

Lemma skip_slash_head p : match skip_slash p with c :: _ => (c =? slash) = false | [] => True end.
Proof. induction p as [|c p IH]; [done|]. cbn [skip_slash]. destruct (c =? slash) eqn:E; [done|]. done. Qed.

(** The element a path starts with, and what follows. *)
Lemma elements_elem p :
  match p with c :: _ => (c =? slash) = false | [] => False end ->
  elements p = fst (path_elem p) :: elements (snd (path_elem p)) /\ fst (path_elem p) <> [].
Proof.
  assert (Hgen : forall p, split_slash p =
    fst (path_elem p) :: match snd (path_elem p) with [] => [] | _ :: r => split_slash r end).
  { clear p. induction p as [|c p IH]; [done|]. cbn [split_slash path_elem].
    destruct (c =? slash); [done|]. rewrite IH. by destruct (path_elem p). }
  assert (Hhead : forall p, match snd (path_elem p) with c :: _ => (c =? slash) = true | [] => True end).
  { clear p. induction p as [|c p IH]; [done|]. cbn [path_elem]. destruct (c =? slash) eqn:E; [done|].
    by destruct (path_elem p). }
  intros Hp. assert (Hne : fst (path_elem p) <> []).
  { destruct p as [|c p]; [done|]. cbn [path_elem]. rewrite Hp. by destruct (path_elem p). }
  split; [|done]. unfold elements at 1. rewrite Hgen, filter_cons_True by done. f_equal.
  specialize (Hhead p). destruct (snd (path_elem p)) as [|c r]; [done|].
  unfold elements. cbn [split_slash]. by rewrite Hhead, filter_cons_False by (intros []; done).
Qed.
Lemma path_elem_shorter p :
  match p with c :: _ => (c =? slash) = false | [] => False end ->
  (length (snd (path_elem p)) < length p)%nat.
Proof.
  assert (Hle : forall p, (length (snd (path_elem p)) <= length p)%nat).
  { clear p. induction p as [|c p IH]; [done|]. cbn [path_elem]. destruct (c =? slash); [done|].
    destruct (path_elem p). simpl in *. lia. }
  destruct p as [|c p]; [done|]. intros Hc. cbn [path_elem]. rewrite Hc. specialize (Hle p).
  destruct (path_elem p). simpl in *. lia.
Qed.
Lemma skip_slash_shorter p : (length (skip_slash p) <= length p)%nat.
Proof. induction p as [|c p IH]; [done|]. cbn [skip_slash]. destruct (c =? slash); simpl in *; lia. Qed.

Section fsdir.
Context `{Disk}.

(** ** Comparing a name *)

Lemma strcmp_from name s v n a k i :
  sees s v n -> 0 <= i -> (Z.to_nat i + k)%nat = length name -> Forall (fun c => 0 < c < 256) name ->
  (forall j, 0 <= j <= Z.of_nat (length name) -> on_disk n (a + j)) ->
  exists r s', uloop (S k) (fun i =>
      c ← fld8 (a + i);
      let d := nth (Z.to_nat i) name 0 in
      if negb (c =? 0) && (c =? d) then mret (inl (i + 1)) else mret (inr (c - d))) i s = Ok r s' /\
    sees s' v n /\
    (r = 0 <-> map (fun j => v (a + j)) (seqZ i (Z.of_nat k + 1)) = drop (Z.to_nat i) name ++ [0]).
Proof.
  intros Hs Hi Hk Hn Hd. revert s i Hs Hi Hk. induction k as [|k IH]; intros s i Hs Hi Hk.
  - cbn [uloop]. rewrite ubind_assoc. destruct (fld8_run s v n (a + i) Hs (Hd i ltac:(lia))) as (s1 & R1 & Hs1). urw R1.
    rewrite nth_overflow, drop_ge by lia. rewrite seqZ_cons by lia. change (seqZ (Z.succ i) (Z.pred (Z.of_nat 0 + 1))) with (@nil Z). cbn [map app].
    replace (negb (v (a + i) =? 0) && (v (a + i) =? 0)) with false by (by destruct (v (a + i) =? 0)).
    ub. eexists _, s1. split; [done|]. split; [done|]. rewrite Z.sub_0_r. split; [by intros -> | by intros [= ->]].
  - cbn [uloop]. rewrite ubind_assoc. destruct (fld8_run s v n (a + i) Hs (Hd i ltac:(lia))) as (s1 & R1 & Hs1). urw R1.
    destruct (lookup_lt_is_Some_2 name (Z.to_nat i) ltac:(lia)) as [d Hlk].
    rewrite (nth_lookup_Some _ _ _ _ Hlk), (drop_S _ _ _ Hlk), seqZ_cons by lia. cbn [map app].
    assert (Hdb : 0 < d < 256) by (by apply (Forall_lookup_1 _ _ _ _ Hn Hlk)).
    replace (Z.pred (Z.of_nat (S k) + 1)) with (Z.of_nat k + 1) by lia. change (Z.succ i) with (i + 1).
    destruct (Z.eqb_spec (v (a + i)) d) as [-> | Hne].
    + replace (d =? 0) with false by lia. cbn [negb andb]. ub.
      destruct (IH s1 (i + 1) Hs1 ltac:(lia) ltac:(lia)) as (r & s2 & R2 & Hs2 & Hr). exists r, s2.
      rewrite Z2Nat.inj_add in Hr by lia. change (Z.to_nat 1) with 1%nat in Hr. rewrite Nat.add_1_r in Hr.
      split; [exact R2|]. split; [done|]. rewrite Hr. split; [by intros -> | by intros [= ->]].
    + rewrite andb_false_r. ub. eexists _, s1. split; [done|]. split; [done|].
      split; [lia | intros [= ? _]; done].
Qed.

Lemma strcmp_name_run name s v n a :
  sees s v n -> Forall (fun c => 0 < c < 256) name ->
  (forall j, 0 <= j <= Z.of_nat (length name) -> on_disk n (a + j)) ->
  exists r s', strcmp_name a name s = Ok r s' /\ sees s' v n /\ (r =? 0) = name_at v a name.
Proof.
  intros Hs Hn Hd. destruct (strcmp_from name s v n a (length name) 0 Hs ltac:(lia) ltac:(lia) Hn Hd)
    as (r & s' & R & Hs' & Hr).
  exists r, s'. split; [exact R|]. split; [done|]. unfold name_at. change (Z.to_nat 0) with 0%nat in Hr.
  rewrite drop_0 in Hr. case_bool_decide as E; destruct (Z.eqb_spec r 0); tauto.
Qed.

(** ** The entries of one block *)

Lemma scan_block name s v n b m j :
  sees s v n -> Forall (fun c => 0 < c < 256) name -> Z.of_nat (length name) < MAXNAMELEN ->
  0 < b < n -> 0 <= j -> j + Z.of_nat m = BLKFILES ->
  exists s', uloop (S m) (fun j =>
      if j <? BLKFILES then
        let f := baddr b + j * sizeof_File in
        c ← strcmp_name (f_name f) name;
        if c =? 0 then mret (inr (Some f)) else mret (inl (j + 1))
      else mret (inr None)) j s =
    Ok ((fun j => baddr b + j * sizeof_File) <$>
        List.find (fun j => name_at v (baddr b + j * sizeof_File) name) (seqZ j (Z.of_nat m))) s' /\ sees s' v n.
Proof.
  intros Hs Hn Hl Hb. revert s j Hs. induction m as [|m IH]; intros s j Hs Hj Hm; cbn [uloop].
  - destruct (Z.ltb_spec j BLKFILES); [lia|]. ub. by exists s.
  - destruct (Z.ltb_spec j BLKFILES); [|lia]. cbv zeta. rewrite ubind_assoc. unfold f_name.
    destruct (strcmp_name_run name s v n (baddr b + j * sizeof_File) Hs Hn) as (r & s1 & R1 & Hs1 & Hr).
    { intros i Hi. change BLKFILES with 16 in *. unfold on_disk, baddr, sizeof_File, MAXNAMELEN, BLKSIZE, PGSIZE in *. lia. }
    urw R1. rewrite Hr, seqZ_cons by lia. cbn [List.find]. change (Z.succ j) with (j + 1).
    replace (Z.pred (Z.of_nat (S m))) with (Z.of_nat m) by lia.
    destruct (name_at v (baddr b + j * sizeof_File) name); ub; [by exists s1|].
    apply (IH s1 (j + 1) Hs1); lia.
Qed.

(** ** [dir_lookup] *)

(** The entries of block [i]. *)
Lemma find_block v d name i :
  0 <= i ->
  entry_addr v d <$> List.find (fun j => name_at v (entry_addr v d j) name) (seqZ (i * BLKFILES) BLKFILES) =
  (fun j => baddr (slot_val v d i) + j * sizeof_File) <$>
    List.find (fun j => name_at v (baddr (slot_val v d i) + j * sizeof_File) name) (seqZ 0 BLKFILES).
Proof.
  intros Hi. assert (Hsq : seqZ (i * BLKFILES) BLKFILES = Z.add (i * BLKFILES) <$> seqZ 0 BLKFILES) by
    (rewrite fmap_add_seqZ; f_equal; lia).
  rewrite Hsq, find_fmap, <- option_fmap_compose. apply find_fmap_ext. intros j Hj.
  apply elem_of_seqZ in Hj. change BLKFILES with 16 in *. unfold compose, entry_addr. change BLKFILES with 16.
  replace ((i * 16 + j) / 16) with i by zlia. replace ((i * 16 + j) mod 16) with j by zlia. done.
Qed.

Lemma dir_scan name s v n d m i fuel :
  sees s v n -> dir_ok v n d -> Forall (fun c => 0 < c < 256) name -> Z.of_nat (length name) < MAXNAMELEN ->
  let nblock := s32 (v32 v (f_size d)) / BLKSIZE in
  0 <= i -> i + Z.of_nat m = nblock -> (m < fuel)%nat ->
  exists s', uloop fuel (fun i =>
      if i <? nblock then
        '(r, blk) ← file_get_block d i;
        if r <? 0 then mret (inr (r, 0))
        else
          x ← uloop (S (Z.to_nat BLKFILES)) (fun j =>
                if j <? BLKFILES then
                  let f := blk + j * sizeof_File in
                  c ← strcmp_name (f_name f) name;
                  if c =? 0 then mret (inr (Some f)) else mret (inl (j + 1))
                else mret (inr None)) 0;
          match x with
          | Some f => mret (inr (0, f))
          | None => mret (inl (i + 1))
          end
      else mret (inr (- E_NOT_FOUND, 0))) i s =
    Ok (match entry_addr v d <$> List.find (fun j => name_at v (entry_addr v d j) name)
                (seqZ (i * BLKFILES) (Z.of_nat m * BLKFILES)) with
        | Some f => (0, f) | None => (- E_NOT_FOUND, 0) end) s' /\ sees s' v n.
Proof.
  intros Hs Hd Hn Hl nblock. destruct Hd as [Hf Hsz Hwh Hfull].
  assert (Hnb : nblock <= NDIRECT + NINDIRECT).
  { unfold nblock. change (NDIRECT + NINDIRECT) with 1034 in *. unfold BLKSIZE, PGSIZE in *. zlia. }
  fold nblock in Hfull. clearbody nblock.
  revert s i fuel Hs. induction m as [|m IH]; intros s i fuel Hs Hi Hm Hfu; (destruct fuel as [|fuel]; [lia|]);
    cbn [uloop].
  - destruct (Z.ltb_spec i nblock); [lia|]. ub. by exists s.
  - destruct (Z.ltb_spec i nblock); [|lia]. rewrite ubind_assoc.
    pose proof (Hfull i ltac:(lia)) as Hb. destruct (get_block_present s v n d i Hs Hf Hb) as (s1 & R1 & Hs1).
    urw R1. destruct Hb as (_ & Hb & _). change (0 <? 0) with false. cbv iota. rewrite ubind_assoc.
    destruct (scan_block name s1 v n (slot_val v d i) (Z.to_nat BLKFILES) 0 Hs1 Hn Hl Hb ltac:(lia) eq_refl)
      as (s2 & R2 & Hs2). urw R2.
    rewrite Z2Nat.id, <- find_block by (done || lia).
    replace (Z.of_nat (S m) * BLKFILES) with (BLKFILES + Z.of_nat m * BLKFILES) by lia.
    rewrite seqZ_app, find_app by (change BLKFILES with 16; lia).
    destruct (List.find _ (seqZ (i * BLKFILES) BLKFILES)) as [j|]; cbn [fmap option_fmap option_map]; ub; [by exists s2|].
    replace (i * BLKFILES + BLKFILES) with ((i + 1) * BLKFILES) by lia.
    apply (IH s2 (i + 1) fuel Hs2); lia.
Qed.

Lemma dir_lookup_run name s v n d :
  sees s v n -> dir_ok v n d -> Forall (fun c => 0 < c < 256) name -> Z.of_nat (length name) < MAXNAMELEN ->
  exists s', dir_lookup d name s =
    Ok (match lookup_ref v d name with Some f => (0, f) | None => (- E_NOT_FOUND, 0) end) s' /\ sees s' v n.
Proof.
  intros Hs Hd Hn Hl. pose proof Hd as [Hf Hsz Hwh _]. unfold dir_lookup.
  destruct (file_word n d MAXNAMELEN Hf ltac:(done) ltac:(done) ltac:(done)) as [Hsd Hs4].
  destruct (fld32_run s v n (f_size d) Hs Hsd Hs4) as (s1 & R1 & Hs1). urw R1.
  change ((NDIRECT + NINDIRECT) * BLKSIZE) with 4235264 in Hsz.
  rewrite Z.rem_mod_nonneg, Hwh by (done || lia). cbn [negb Z.eqb]. cbv zeta.
  rewrite Z.quot_div_nonneg, w32_small by (done || lia || (unfold BLKSIZE, PGSIZE; zlia)).
  destruct (dir_scan name s1 v n d (Z.to_nat (s32 (v32 v (f_size d)) / BLKSIZE)) 0 (S (Z.to_nat (2 ^ 20))) Hs1 Hd Hn Hl)
    as (s2 & R2 & Hs2).
  - lia.
  - unfold BLKSIZE, PGSIZE in *. zlia.
  - unfold BLKSIZE, PGSIZE in *. zpow. zlia.
  - exists s2. split; [|done]. etrans; [exact R2|]. f_equal. unfold lookup_ref.
    replace (Z.of_nat (Z.to_nat (s32 (v32 v (f_size d)) / BLKSIZE)) * BLKFILES) with (entries v d); [done|].
    unfold entries. change BLKFILES with 16. unfold sizeof_File, BLKSIZE, PGSIZE in *. zlia.
Qed.

(** ** [walk_path] *)

(** A set of files closed under looking names up, in which every directory can be
    searched. *)
Record tree_ok (v : contents) (n : Z) (T : Z -> Prop) : Prop := {
  tr_root : T (s_root SB);
  tr_type : forall f, T f -> on_disk n (f_type f) /\ f_type f mod 4 = 0;
  tr_dir : forall f, T f -> v32 v (f_type f) = FTYPE_DIR -> dir_ok v n f;
  tr_closed : forall f name f', T f -> v32 v (f_type f) = FTYPE_DIR -> lookup_ref v f name = Some f' -> T f' }.

Definition plain (p : list Z) : Prop := match p with c :: _ => (c =? slash) = false | [] => True end.

Lemma Forall_path_elem (P : Z -> Prop) p :
  Forall P p -> Forall P (fst (path_elem p)) /\ Forall P (snd (path_elem p)).
Proof.
  induction 1 as [|c p Hc Hp IH]; [done|]. cbn [path_elem]. destruct (c =? slash); [by split; [|constructor]|].
  destruct (path_elem p). simpl in *. split; [constructor|]; tauto.
Qed.
Lemma Forall_skip_slash (P : Z -> Prop) p : Forall P p -> Forall P (skip_slash p).
Proof. induction 1 as [|c p Hc Hp IH]; [done|]. cbn [skip_slash]. destruct (c =? slash); [done | by constructor]. Qed.

Lemma elements_nil p : plain p -> elements p = [] <-> p = [].
Proof.
  intros Hp. split; [|by intros ->]. destruct p as [|c p]; [done|].
  destruct (elements_elem (c :: p) Hp) as [-> _]. done.
Qed.

Lemma walk_loop T v n fuel s path dir f :
  sees s v n -> tree_ok v n T -> T f -> plain path -> Forall (fun c => 0 < c < 256) path ->
  (length path < fuel)%nat ->
  exists s', uloop fuel (fun '(path, dir, f) =>
        match path with
        | [] => mret (inr (mkWalked 0 dir (Some f) None))
        | _ =>
            let dir := f in
            let '(name, path) := path_elem path in
            if Z.of_nat (length name) >=? MAXNAMELEN then mret (inr (mkWalked (- E_BAD_PATH) None None None))
            else
              let path := skip_slash path in
              ty ← fld32 (f_type dir);
              if negb (ty =? FTYPE_DIR) then mret (inr (mkWalked (- E_NOT_FOUND) None None None))
              else
                '(r, f) ← dir_lookup dir name;
                if r <? 0 then
                  if (r =? - E_NOT_FOUND) && bool_decide (path = [])
                  then mret (inr (mkWalked r (Some dir) None (Some name)))
                  else mret (inr (mkWalked r None None None))
                else mret (inl (path, Some dir, f))
        end) (path, dir, f) s = Ok (resolve v dir f (elements path)) s' /\ sees s' v n.
Proof.
  intros Hs HT. revert s path dir f Hs. induction fuel as [|fuel IH]; intros s path dir f Hs Hf Hp Hb Hfu; [lia|].
  cbn [uloop]. destruct path as [|c path]; [by exists s|].
  destruct (elements_elem (c :: path) Hp) as [-> Hne]. pose proof (path_elem_shorter (c :: path) Hp) as Hlt.
  destruct (Forall_path_elem _ _ Hb) as [Hbn Hbp].
  destruct (path_elem (c :: path)) as [name rest]. cbn [fst snd] in *. cbv zeta. cbn [resolve].
  destruct (Z.geb_spec (Z.of_nat (length name)) MAXNAMELEN) as [|Hlen]; [by exists s|].
  destruct (tr_type _ _ _ HT f Hf) as [Hd H4]. rewrite ubind_assoc.
  destruct (fld32_run s v n _ Hs Hd H4) as (s1 & R1 & Hs1). urw R1.
  destruct (Z.eqb_spec (v32 v (f_type f)) FTYPE_DIR) as [Hty | Hty]; cbn [negb]; [|by exists s1].
  destruct (dir_lookup_run name s1 v n f Hs1 (tr_dir _ _ _ HT f Hf Hty) Hbn Hlen) as (s2 & R2 & Hs2).
  rewrite ubind_assoc. urw R2. pose proof (skip_slash_head rest) as Hh.
  assert (He : elements rest = elements (skip_slash rest)) by (by rewrite elements_skip).
  destruct (lookup_ref v f name) as [f'|] eqn:El.
  - change (0 <? 0) with false. cbv iota. ub. rewrite He.
    apply (IH s2); [done | by eapply tr_closed | exact Hh | by apply Forall_skip_slash |].
    pose proof (skip_slash_shorter rest). lia.
  - change (- E_NOT_FOUND <? 0) with true. rewrite Z.eqb_refl. cbv iota. cbn [andb].
    exists s2. split; [|done]. rewrite He. case_bool_decide as Hnil; [by rewrite Hnil|].
    destruct (elements (skip_slash rest)) eqn:Ee; [|done]. apply elements_nil in Ee; [done | exact Hh].
Qed.

Lemma walk_path_run T v n s path :
  sees s v n -> tree_ok v n T -> Forall (fun c => 0 < c < 256) path ->
  exists s', walk_path path s = Ok (resolve v None (s_root SB) (elements path)) s' /\ sees s' v n.
Proof.
  intros Hs HT Hb. unfold walk_path. cbv zeta. ub. rewrite (se_super _ _ _ Hs).
  rewrite <- (elements_skip path). apply (walk_loop T); [done | done | apply HT | apply skip_slash_head | by apply Forall_skip_slash | lia].
Qed.
End fsdir.

(** ** Mounting the disk ([bc_init], [check_super], [fs_init])

    From an empty cache, [fs_init] reads the super block and checks it; on a good
    disk the server then sees exactly what is on it. *)

Section fsinit.
Context `{Disk}.

(** The disk as it is. *)
Definition raw : contents := fun a => disk_byte (a - DISKMAP) mod 256.

(** The server before [fs_init]: nothing is cached. *)
Record unmounted (s : fsst) : Prop := {
  um_super : super s = None;
  um_cached : cached s = ∅;
  um_pages : 0 < pages_left s;
  um_sectors : forall i, 8 <= i < 16 -> 0 <= sector_status i }.

Definition mounted (s : fsst) : Prop :=
  super s = Some SB /\ bitmap s = baddr 2 /\ cached s = {[1]} /\ forall a, view s a = raw a.

Lemma view_word s a :
  (forall b, view s b = raw b) -> a mod 4 = 0 -> blk a ∈ cached s -> ld32 (fmem s) a = v32 raw a.
Proof.
  intros Hv Ha Hc. unfold ld32, v32. rewrite <- !Hv. unfold view.
  rewrite !(same_block a) by (done || lia). rewrite !bool_decide_eq_true_2 by done. done.
Qed.
Lemma touch_cached s a : blk a ∈ cached s -> touch a s = Ok tt s.
Proof. intros Hc. unfold touch. ub. by rewrite bool_decide_eq_true_2. Qed.
Lemma fld32_cached s a :
  (forall b, view s b = raw b) -> a mod 4 = 0 -> blk a ∈ cached s -> fld32 a s = Ok (v32 raw a) s.
Proof. intros Hv Ha Hc. unfold fld32. urw (touch_cached s a Hc). unfold uget. by rewrite view_word. Qed.

Lemma bc_init_run s :
  unmounted s -> exists s', bc_init s = Ok tt s' /\ super s' = None /\ bitmap s' = bitmap s /\
    cached s' = {[1]} /\ pages_left s' = pages_left s - 1 /\ forall a, view s' a = raw a.
Proof.
  intros [Hsup Hc Hpg Hsec]. unfold bc_init.
  assert (Hda : diskaddr 1 s = Ok SB s) by (unfold diskaddr; ub; rewrite Hsup; done). urw Hda.
  unfold touch. ub. change ((SB - DISKMAP) / BLKSIZE) with 1.
  rewrite bool_decide_eq_false_2 by (rewrite Hc; apply not_elem_of_empty).
  unfold bc_pgfault. change (w32 (SB - DISKMAP) / BLKSIZE) with 1.
  change ((SB <? DISKMAP) || (SB >=? w32 (DISKMAP + DISKSIZE))) with false. cbv iota zeta.
  change (ROUNDDOWN SB PGSIZE) with SB. ub. rewrite Hsup. ub. ub.
  destruct (Z.leb_spec (pages_left s) 0); [lia|]. ub.
  set (s1 := s <| pages_left := _ |> <| cached := _ |> <| fmem := _ |>).
  change (w32 (1 * BLKSECTS)) with 8.
  destruct (ide_read_run (Z.to_nat BLKSECTS) 8 SB s1) as (m' & Hrun & Hm').
  { intros i Hi. apply Hsec. change BLKSECTS with 8 in Hi. lia. }
  urw Hrun. destruct (Z.ltb_spec 0 0); [lia|]. exists (s1 <| fmem := m' |>). split; [done|].
  split; [exact Hsup|]. split; [done|]. split.
  { change (cached (s1 <| fmem := m' |>)) with ({[1]} ∪ cached s). rewrite Hc. set_solver. }
  split; [done|]. intros a. unfold view. change (cached (s1 <| fmem := m' |>)) with ({[1]} ∪ cached s).
  change (fmem (s1 <| fmem := m' |>)) with m'. case_bool_decide as Hin; [|done].
  rewrite Hc, union_empty_r_L in Hin. apply elem_of_singleton in Hin.
  rewrite Hm'. change (SECTSIZE * Z.of_nat (Z.to_nat BLKSECTS)) with 4096.
  unfold blk, SB, baddr, SECTSIZE, BLKSIZE, PGSIZE, raw in *.
  destruct (Z.leb_spec (DISKMAP + 1 * 4096) a), (Z.ltb_spec a (DISKMAP + 1 * 4096 + 4096)); cbn [andb]; try zlia.
  do 2 f_equal. lia.
Qed.

(** [fs_init] accepts a disk exactly when its super block has the magic number and
    between three and 786,432 blocks; it then sees the disk as it is. *)
Lemma fs_init_run s :
  unmounted s ->
  let n := v32 raw (s_nblocks SB) in
  if n <=? 2 then exists s', fs_init s = Panics "bad block number in diskaddr" s'
  else if negb (v32 raw (s_magic SB) =? FS_MAGIC) then exists s', fs_init s = Panics "bad file system magic number" s'
  else if n >? DISKSIZE / BLKSIZE then exists s', fs_init s = Panics "file system is too large" s'
  else exists s', fs_init s = Ok (if disk1_present then 1 else 0) s' /\ mounted s' /\ pages_left s' = pages_left s - 1.
Proof.
  intros Hu n. destruct (bc_init_run s Hu) as (s1 & R1 & Hsup & Hbm & Hc & Hpg & Hv).
  unfold fs_init. cbv zeta.
  assert (Hda : diskaddr 1 s1 = Ok SB s1) by (unfold diskaddr; ub; rewrite Hsup; done).
  set (s2 := s1 <| super := Some SB |>).
  assert (Hn1 : blk (s_nblocks SB) = 1 /\ blk (s_magic SB) = 1) by done. destruct Hn1 as [Hn1 Hm1].
  assert (Hw : ld32 (fmem s1) (s_nblocks SB) = n) by (apply view_word; [done.. | by rewrite Hn1, Hc, elem_of_singleton]).
  assert (Hd2 : diskaddr 2 s2 = if n <=? 2 then Panics "bad block number in diskaddr" s2 else Ok (baddr 2) s2).
  { unfold diskaddr. ub. change (super s2) with (Some SB). cbv iota. change (2 =? 0) with false. cbv iota.
    rewrite ubind_assoc. unfold super_nblocks. rewrite ubind_assoc. ub. change (super s2) with (Some SB). cbv iota.
    rewrite ubind_assoc. ub. change ((SB - DISKMAP) / BLKSIZE) with 1. change (cached s2) with (cached s1).
    rewrite bool_decide_eq_true_2 by (by rewrite Hc, elem_of_singleton). ub. ub.
    change (fmem s2) with (fmem s1). rewrite Hw. destruct (Z.geb_spec 2 n), (Z.leb_spec n 2); done || lia. }
  rewrite (ubind_run bc_init _ s _ s1 R1), (ubind_run (diskaddr 1) _ s1 _ s1 Hda). ub. fold s2.
  destruct (n <=? 2); [unfold mbind at 1, U_bind; rewrite Hd2; by exists s2|].
  rewrite (ubind_run (diskaddr 2) _ s2 _ s2 Hd2). ub.
  set (s3 := s2 <| bitmap := baddr 2 |>).
  assert (Hm : mounted s3) by (split; [done|]; split; [done|]; split; [done | exact Hv]).
  assert (Hp : pages_left s3 = pages_left s - 1) by exact Hpg.
  clearbody s3. clear s2 Hd2. pose proof Hm as (Hsup3 & _ & Hc3 & Hv3).
  unfold check_super. rewrite ubind_assoc. ub. rewrite Hsup3. rewrite ubind_assoc.
  assert (Hin : 1 ∈ cached s3) by (by rewrite Hc3, elem_of_singleton).
  urw (fld32_cached s3 (s_magic SB) Hv3 eq_refl ltac:(by rewrite Hm1)).
  destruct (v32 raw (s_magic SB) =? FS_MAGIC); cbn [negb]; [|by exists s3].
  rewrite ubind_assoc. urw (fld32_cached s3 (s_nblocks SB) Hv3 eq_refl ltac:(by rewrite Hn1)). fold n.
  destruct (n >? DISKSIZE / BLKSIZE); [by exists s3|]. ub. by exists s3.
Qed.

Lemma mounted_sees s n :
  mounted s -> v32 raw (s_nblocks SB) = n -> 3 <= n <= DISKSIZE / BLKSIZE -> n <= pages_left s + 1 ->
  (forall sec, 0 <= sec < n * BLKSECTS -> 0 <= sector_status sec) -> sees s raw n.
Proof.
  intros (H1 & H2 & H3 & H4) Hn Hr Hp Hd. constructor; try done.
  - by rewrite H3, elem_of_singleton.
  - intros b. rewrite H3, elem_of_singleton. intros ->. lia.
  - rewrite H3, size_singleton. lia.
Qed.
End fsinit.
