(* ===== verification/FsFrame.v ===== *)
(** * More memory never changes what the file server answers

    An operation of the block cache and file system that returns does the same when more
    pages are left to allocate, and leaves the extra pages untouched: what [sys_page_alloc]
    can still give is framed. *)

From S2P Require Import Prelude Mem CString Mmu KState UState Fs FsInv FsSpec.

Definition extra (k : Z) (s : fsst) : fsst := s <| pages_left := pages_left s + k |>.

Lemma extra_extra k k' s : extra k (extra k' s) = extra (k + k') s.
Proof. unfold extra. destruct s. simpl. f_equal. lia. Qed.
Lemma extra_0 s : extra 0 s = s.
Proof. unfold extra. destruct s. simpl. f_equal. lia. Qed.

Class Framed {A} (m : F A) : Prop :=
  framed : forall k s a s', 0 <= k -> m s = Ok a s' -> m (extra k s) = Ok a (extra k s').

Section rules.
#[export] Instance framed_ret {A} (a : A) : Framed (mret a).
Proof. intros k s a' s' _. by intros [= <- <-]. Qed.
#[export] Instance framed_bind {A B} (m : F A) (f : A -> F B) : Framed m -> (forall a, Framed (f a)) -> Framed (m ≫= f).
Proof.
  intros Hm Hf k s b s'. unfold mbind, U_bind. intros Hk. destruct (m s) as [a s1| |] eqn:E; [|done|done].
  intros Hb. rewrite (Hm k s a s1 Hk E). by apply Hf.
Qed.
#[export] Instance framed_if {A} (b : bool) (m1 m2 : F A) : Framed m1 -> Framed m2 -> Framed (if b then m1 else m2).
Proof. by destruct b. Qed.
#[export] Instance framed_option {A B} (o : option B) (f : B -> F A) (m : F A) :
  (forall b, Framed (f b)) -> Framed m -> Framed (match o with Some b => f b | None => m end).
Proof. intros. by destruct o. Qed.
#[export] Instance framed_option' {A B} (o : option B) (f : B -> F A) (m : F A) :
  (forall b, Framed (f b)) -> Framed m -> Framed (match o with None => m | Some b => f b end).
Proof. intros. by destruct o. Qed.
#[export] Instance framed_pair {A B C} (x : B * C) (f : B -> C -> F A) :
  (forall b c, Framed (f b c)) -> Framed (let '(b, c) := x in f b c).
Proof. intros. by destruct x. Qed.
#[export] Instance framed_triple {A B C D} (x : B * C * D) (f : B -> C -> D -> F A) :
  (forall b c d, Framed (f b c d)) -> Framed (let '(b, c, d) := x in f b c d).
Proof. intros. by destruct x as [[b c] d]. Qed.
#[export] Instance framed_list {A B} (l : list B) (f : B -> list B -> F A) (m : F A) :
  (forall b l, Framed (f b l)) -> Framed m -> Framed (match l with [] => m | b :: l => f b l end).
Proof. intros. by destruct l. Qed.
#[export] Instance framed_panic {A} msg : Framed (@upanic fsst A msg).
Proof. done. Qed.
#[export] Instance framed_stop {A} x : Framed (@ustop fsst A x).
Proof. done. Qed.
#[export] Instance framed_loop {St R} fuel (body : St -> F (St + R)) st : (forall st, Framed (body st)) -> Framed (uloop fuel body st).
Proof.
  intros Hb. revert st. induction fuel as [|fuel IH]; intros st; cbn [uloop]; [apply _|].
  apply framed_bind; [apply Hb|]. intros [st' | r]; [apply IH | apply _].
Qed.
Lemma framed_get {A} (f : fsst -> A) : (forall k s, f (extra k s) = f s) -> Framed (uget f).
Proof. intros Hf k s a s' _. unfold uget. intros [= <- <-]. by rewrite Hf. Qed.
Lemma framed_put f : (forall k s, f (extra k s) = extra k (f s)) -> Framed (uput f).
Proof. intros Hf k s a s' _. unfold uput. intros [= <- <-]. by rewrite Hf. Qed.
(** A page is taken. *)
Lemma framed_take {A} msg (g : fsst -> fsst) (rest : F A) :
  (forall k s, g (extra k s) = extra k (g s)) -> (forall s, pages_left (g s) = pages_left s) -> Framed rest ->
  Framed (left ← uget pages_left;
    if left <=? 0 then upanic msg else uput (fun s => g (s <| pages_left := left - 1 |>));; rest).
Proof.
  intros Hg Hp Hr k s a s' Hk. unfold mbind, U_bind, uget, uput.
  change (pages_left (extra k s)) with (pages_left s + k).
  destruct (Z.leb_spec (pages_left s) 0) as [|Hpos]; [done|]. rewrite (proj2 (Z.leb_gt _ _)) by lia.
  intros Hrun. apply (Hr k) in Hrun; [|exact Hk]. rewrite <- Hg in Hrun.
  replace (extra k (s <| pages_left := pages_left s - 1 |>))
    with (extra k s <| pages_left := pages_left s + k - 1 |>) in Hrun; [exact Hrun|].
  unfold extra. destruct s. simpl. f_equal. lia.
Qed.
End rules.

#[export] Hint Extern 1 (Framed (uget _)) => apply framed_get; intros; reflexivity : typeclass_instances.
#[export] Hint Extern 1 (Framed (uput _)) => apply framed_put; intros; reflexivity : typeclass_instances.

Section frame.
Context `{Disk}.

#[export] Instance super_nblocks_framed : Framed super_nblocks.
Proof. unfold super_nblocks. apply _. Qed.
#[export] Instance diskaddr_framed b : Framed (diskaddr b).
Proof. unfold diskaddr. apply _. Qed.
#[export] Instance ide_read_framed nsecs secno dst : Framed (ide_read nsecs secno dst).
Proof. revert secno dst. induction nsecs; intros; cbn [ide_read]; apply _. Qed.

(** The one place that looks at how much memory is left. *)
#[export] Instance bc_pgfault_framed va : Framed (bc_pgfault va).
Proof.
  unfold bc_pgfault. cbv zeta. apply framed_if; [apply _|]. apply framed_bind; [apply _|]. intros sp.
  apply framed_bind; [apply _|]. intros bad. apply framed_if; [apply _|].
  apply (framed_take "bc_pgfault: page alloc failed" (fun s => s <| cached := {[ w32 (va - DISKMAP) / BLKSIZE ]} ∪ cached s |>
    <| fmem := memset (fmem s) (ROUNDDOWN va PGSIZE) 0 PGSIZE |>)); [done | done | apply _].
Qed.

#[export] Instance touch_framed a : Framed (touch a).
Proof. unfold touch. apply _. Qed.
#[export] Instance fld8_framed a : Framed (fld8 a).
Proof. unfold fld8. apply _. Qed.
#[export] Instance fld32_framed a : Framed (fld32 a).
Proof. unfold fld32. apply _. Qed.
#[export] Instance fst32_framed a x : Framed (fst32 a x).
Proof. unfold fst32. apply _. Qed.
#[export] Instance fzero_framed a : Framed (fzero a).
Proof. unfold fzero. apply _. Qed.
#[export] Instance block_is_free_framed b : Framed (block_is_free b).
Proof. unfold block_is_free. apply _. Qed.
#[export] Instance alloc_block_framed : Framed alloc_block.
Proof. unfold alloc_block. apply _. Qed.
#[export] Instance file_block_walk_framed f k al : Framed (file_block_walk f k al).
Proof. unfold file_block_walk. apply _. Qed.
#[export] Instance file_get_block_framed f k : Framed (file_get_block f k).
Proof. unfold file_get_block. apply _. Qed.
#[export] Instance strcmp_name_framed p name : Framed (strcmp_name p name).
Proof. unfold strcmp_name. apply _. Qed.
#[export] Instance dir_lookup_framed d name : Framed (dir_lookup d name).
Proof. unfold dir_lookup. apply _. Qed.
#[export] Instance walk_path_framed path : Framed (walk_path path).
Proof. unfold walk_path. apply _. Qed.
#[export] Instance file_open_framed path : Framed (file_open path).
Proof. unfold file_open. apply _. Qed.
#[export] Instance file_read_framed f count offset : Framed (file_read f count offset).
Proof. unfold file_read. apply _. Qed.
End frame.

(** Room for [r] more pages, besides those the cache may need. *)
Section room.
Context `{Disk} (v : contents) (n r : Z) (Hr : 0 <= r).

Record roomy (s : fsst) : Prop := {
  ro_sees : sees s v n;
  ro_room : r + n <= pages_left s + Z.of_nat (size (cached s)) }.

Lemma roomy_extra s : sees s v n -> roomy (extra r s).
Proof.
  intros Hs. constructor; [|change (r + n <= pages_left s + r + Z.of_nat (size (cached s))); pose proof (se_pages _ _ _ Hs); lia].
  destruct Hs. constructor; try done. change (n <= pages_left s + r + Z.of_nat (size (cached s))). lia.
Qed.
Lemma roomy_less s : roomy s -> sees (extra (- r) s) v n.
Proof.
  intros [Hs Hroom]. destruct Hs. constructor; try done.
  change (n <= pages_left s + - r + Z.of_nat (size (cached s))). lia.
Qed.

(** What returns on every state that sees the disk keeps the room. *)
Lemma roomy_run {A} (m : F A) a s : Framed m ->
  (forall s, sees s v n -> exists s', m s = Ok a s' /\ sees s' v n) ->
  roomy s -> exists s', m s = Ok a s' /\ roomy s'.
Proof.
  intros Hm Hrun Hs. destruct (Hrun (extra (- r) s) (roomy_less s Hs)) as (s' & Hr' & Hs').
  apply (Hm r) in Hr'; [|exact Hr]. rewrite extra_extra in Hr'. replace (r + - r) with 0 in Hr' by lia.
  rewrite extra_0 in Hr'. exists (extra r s'). split; [exact Hr' | by apply roomy_extra].
Qed.
End room.
