(* ===== verification/FsSample.v ===== *)
(** * A small disk

    A concrete disk of eight blocks, with a root directory, a file, and a file with
    holes, on which the theorems about the file server are instantiated. *)

From S2P Require Import Prelude Mem CString Mmu KState UState Fs FsInv FsSpec FsFile FsRead FsDir.

(** ** Deciding that a file is well formed *)

Definition bitmap_blockb (n b : Z) : bool := existsb (fun b' => b =? blk (bm b')) (seqZ 0 n).
Definition usedb (v : contents) (b : Z) : bool := (b =? 1) || negb (is_free v b).
Definition ownedb (v : contents) (n f b : Z) : bool :=
  (2 <=? b) && (b <? n) && negb (is_free v b) && negb (bitmap_blockb n b) && negb (b =? blk f).
Definition file_okb (v : contents) (n f : Z) : bool :=
  (f mod 4 =? 0) && (baddr 0 <=? f) && (f <? baddr n) && (f mod BLKSIZE + sizeof_File <=? BLKSIZE) &&
  (SB + 8 <=? f) && usedb v (blk f) && negb (bitmap_blockb n (blk f)) &&
  forallb (fun b => usedb v (blk (bm b))) (seqZ 0 n) &&
  ((v32 v (f_indirect f) =? 0) || ownedb v n f (v32 v (f_indirect f))) &&
  forallb (fun k => (slot_val v f k =? 0) ||
    (ownedb v n f (slot_val v f k) && negb (slot_val v f k =? v32 v (f_indirect f)))) (seqZ 0 (NDIRECT + NINDIRECT)).

Lemma forallb_range p m n : forallb p (seqZ m n) = true -> forall i, m <= i < m + n -> p i = true.
Proof. rewrite forallb_forall. intros Hp i Hi. apply Hp, list_elem_of_In, elem_of_seqZ. lia. Qed.
Lemma bitmap_blockb_ok n b : bitmap_blockb n b = false -> ~ bitmap_block n b.
Proof.
  intros Hb (b' & Hb' & Heq). apply not_true_iff_false in Hb. apply Hb. apply existsb_exists.
  exists b'. split; [apply list_elem_of_In, elem_of_seqZ; lia | by apply Z.eqb_eq].
Qed.
Lemma usedb_ok v b : usedb v b = true -> used v b.
Proof. unfold usedb, used. intros [Hb | Hb]%orb_true_iff; [left; lia | right; by apply negb_true_iff]. Qed.
Lemma ownedb_ok v n f b : ownedb v n f b = true -> owned v n f b.
Proof.
  unfold ownedb. rewrite !andb_true_iff, !negb_true_iff. intros ((((H1 & H2) & H3) & H4) & H5).
  split; [lia|]. split; [done|]. split; [by apply bitmap_blockb_ok | lia].
Qed.
Lemma file_okb_ok v n f : file_okb v n f = true -> file_ok v n f.
Proof.
  unfold file_okb. rewrite !andb_true_iff, !negb_true_iff.
  intros (((((((((H1 & H2) & H3) & H4) & H5) & H6) & H7) & H8) & H9) & H10). constructor.
  - lia.
  - split; lia.
  - lia.
  - lia.
  - by apply usedb_ok.
  - by apply bitmap_blockb_ok.
  - intros b Hb. apply usedb_ok. exact (forallb_range _ _ _ H8 b ltac:(lia)).
  - intros Hnz. apply orb_true_iff in H9 as [H9 | H9]; [lia | by apply ownedb_ok].
  - intros k Hk Hnz. pose proof (forallb_range _ _ _ H10 k ltac:(lia)) as Hp. cbv beta in Hp.
    apply orb_true_iff in Hp as [Hp | Hp]; [lia|]. apply andb_true_iff in Hp as [Hp1 Hp2].
    split; [by apply ownedb_ok | by apply negb_true_iff, Z.eqb_neq in Hp2].
Qed.

(** ** The disk *)

Definition chars (s : string) : list Z := map (fun c => Z.of_nat (Ascii.nat_of_ascii c)) (String.list_ascii_of_string s).

(** A [struct File] at byte [o] of the disk. *)
Definition put_file (o : Z) (name : string) (size type : Z) (blocks : list Z) (m : memory) : memory :=
  st32 (st32 (fold_left (fun m '(i, b) => st32 m (f_direct o (Z.of_nat i)) b)
    (imap pair blocks) (stbytes m o (chars name))) (f_size o) size) (f_type o) type.

Definition sample_img : memory :=
  put_file (1 * 4096 + 8) "/" 4096 FTYPE_DIR [3] (
  put_file (3 * 4096) "motd" 11 FTYPE_REG [4] (
  put_file (3 * 4096 + 256) "big" 12288 FTYPE_REG [5] (
  stbytes (stbytes (st32 (st32 (st32 ∅ 4096 FS_MAGIC) (4096 + 4) 8) (2 * 4096) 0x3F)
    (4 * 4096) (chars "hello world")) (5 * 4096) (chars "start")))).

Definition sample_disk : Disk :=
  {| disk1_present := true; sector_status := fun _ => 0; disk_byte := ld8 sample_img |}.
#[local] Existing Instance sample_disk.

Definition sample_fs0 : fsst := mkFsst ∅ ∅ None 0 100.
Definition sample_v : contents := raw.
Definition sample_root : Z := s_root SB.
Definition sample_motd : Z := baddr 3.
Definition sample_big : Z := baddr 3 + 256.

Lemma sample_unmounted : unmounted sample_fs0.
Proof. constructor; done. Qed.
Lemma sample_sees : exists s, sees s sample_v 8.
Proof.
  pose proof (fs_init_run sample_fs0 sample_unmounted) as Hi. cbv zeta in Hi.
  assert (Hn : v32 raw (s_nblocks SB) = 8) by (vm_compute; reflexivity). rewrite Hn in Hi.
  assert (Hm : v32 raw (s_magic SB) = FS_MAGIC) by (vm_compute; reflexivity). rewrite Hm in Hi.
  change (8 <=? 2) with false in Hi. rewrite Z.eqb_refl in Hi. cbn [negb] in Hi.
  change (8 >? DISKSIZE / BLKSIZE) with false in Hi. cbv iota in Hi. destruct Hi as (s & _ & Hs & Hp).
  exists s. apply mounted_sees; [exact Hs | exact Hn | by split | rewrite Hp; done | done].
Qed.
Lemma sample_root_ok : file_ok sample_v 8 sample_root.
Proof. apply file_okb_ok. vm_compute. reflexivity. Qed.
Lemma sample_motd_ok : file_ok sample_v 8 sample_motd.
Proof. apply file_okb_ok. vm_compute. reflexivity. Qed.
Lemma sample_big_ok : file_ok sample_v 8 sample_big.
Proof. apply file_okb_ok. vm_compute. reflexivity. Qed.
Lemma sample_root_dir : dir_ok sample_v 8 sample_root.
Proof.
  assert (Hsz : s32 (v32 sample_v (f_size sample_root)) = 4096) by (vm_compute; reflexivity).
  pose proof (file_ok_at _ _ _ sample_root_ok) as Hat.
  assert (Hb : has_block sample_v 8 sample_root 0).
  { apply (file_ok_block sample_v 8 sample_root 0 sample_root_ok); [by split | vm_compute; discriminate]. }
  constructor; [exact Hat | rewrite Hsz; by split | rewrite Hsz; done | rewrite Hsz].
  intros k Hk. change (4096 / BLKSIZE) with 1 in Hk. assert (k = 0) as -> by lia. exact Hb.
Qed.

(** ** A disk whose root directory is one block of files *)

(** The root and the entries in it. *)
Definition flat_tree (v : contents) (f : Z) : Prop :=
  f = s_root SB \/ exists j, 0 <= j < 16 /\ f = entry_addr v (s_root SB) j.

Lemma flat_tree_ok v n : n <= DISKSIZE / BLKSIZE ->
  slot_val v (s_root SB) 0 = 3 -> entries v (s_root SB) = 16 -> dir_ok v n (s_root SB) -> 3 < n ->
  forallb (fun j => negb (v32 v (f_type (baddr 3 + j * 256)) =? FTYPE_DIR)) (seqZ 0 16) = true ->
  tree_ok v n (flat_tree v) /\ forall f, flat_tree v f -> f = s_root SB \/ exists j, 0 <= j < 16 /\ f = baddr 3 + j * 256.
Proof.
  intros Hmax Hs Hen Hdir Hn Hall.
  assert (He : forall j, 0 <= j < 16 -> entry_addr v (s_root SB) j = baddr 3 + j * 256).
  { intros j Hj. unfold entry_addr. change BLKFILES with 16. replace (j / 16) with 0 by zlia.
    replace (j mod 16) with j by zlia. rewrite Hs. done. }
  assert (Hreg : forall j, 0 <= j < 16 -> v32 v (f_type (entry_addr v (s_root SB) j)) <> FTYPE_DIR).
  { intros j Hj. rewrite (He j Hj). pose proof (forallb_range _ _ _ Hall j ltac:(lia)) as Hp. by apply negb_true_iff, Z.eqb_neq in Hp. }
  split; [constructor|].
  - by left.
  - intros f [-> | (j & Hj & ->)]; [|rewrite (He j Hj)].
    + unfold on_disk, f_type, s_root, SB, baddr, MAXNAMELEN, DISKMAP, BLKSIZE, PGSIZE. split; [lia | done].
    + unfold on_disk, f_type, baddr, MAXNAMELEN, DISKMAP, BLKSIZE, PGSIZE. split; [lia | zlia].
  - intros f [-> | (j & Hj & ->)] Hty; [exact Hdir | by destruct (Hreg j Hj)].
  - intros f name f' [-> | (j & Hj & ->)] Hty Hl; [|by destruct (Hreg j Hj)].
    unfold lookup_ref in Hl. apply fmap_Some in Hl as (j & Hf & ->). apply find_some in Hf as [Hin _].
    apply list_elem_of_In, elem_of_seqZ in Hin. right. exists j. split; [lia | done].
  - intros f [-> | (j & Hj & ->)]; [by left|]. right. exists j. split; [done | by apply He].
Qed.

Definition sample_tree (f : Z) : Prop := flat_tree sample_v f.
Lemma sample_tree_ok : tree_ok sample_v 8 sample_tree.
Proof. apply flat_tree_ok; [done | by vm_compute | by vm_compute | exact sample_root_dir | done | by vm_compute]. Qed.
