(* ===== verification/FsThms.v ===== *)
(** * The file server: the theorems ([fs/bc.c], [fs/fs.c])

    The block cache, the allocator, the block map of a file, reading and path
    lookup, each with an instance on the sample disk. *)

From S2P Require Import Prelude Mem CString Mmu KState UState Fs FsInv FsSpec FsFile FsRead FsDir FsSample.

(** Mounting: from an empty cache [fs_init] accepts a disk exactly when the super
    block has the magic number and between 3 and [DISKSIZE / BLKSIZE] blocks, and panics
    otherwise; the mounted server sees what is on the disk. *)
Theorem fs_init_correct `{Disk} s n :
  unmounted s -> n = v32 raw (s_nblocks SB) -> n <= pages_left s ->
  (forall sec, 0 <= sec < n * BLKSECTS -> 0 <= sector_status sec) ->
  if (v32 raw (s_magic SB) =? FS_MAGIC) && (3 <=? n) && (n <=? DISKSIZE / BLKSIZE)
  then exists s', fs_init s = Ok (if disk1_present then 1 else 0) s' /\ sees s' raw n
  else exists msg s', fs_init s = Panics msg s'.
Proof.
  intros Hu -> Hp Hd. pose proof (fs_init_run s Hu) as Hi. cbv zeta in Hi.
  set (n := v32 raw (s_nblocks SB)) in *.
  destruct (Z.leb_spec n 2), (v32 raw (s_magic SB) =? FS_MAGIC), (Z.leb_spec 3 n), (Z.leb_spec n (DISKSIZE / BLKSIZE)),
    (Z.gtb_spec n (DISKSIZE / BLKSIZE)); try lia; cbn [negb andb] in *; try (destruct Hi as (s' & Hi); by eexists _, s').
  destruct Hi as (s' & Hi & Hm & Hpl). exists s'. split; [exact Hi|].
  apply mounted_sees; [exact Hm | reflexivity | lia | lia | exact Hd].
Qed.

Lemma fs_init_correct_witness :
  unmounted (H := sample_disk) sample_fs0 /\
  exists s', fs_init (H := sample_disk) sample_fs0 = Ok 1 s' /\ sees (H := sample_disk) s' sample_v 8.
Proof.
  split; [exact sample_unmounted|].
  exact (fs_init_correct (H := sample_disk) sample_fs0 8 sample_unmounted eq_refl ltac:(done) ltac:(done)).
Defined.

(** C33. The block cache is transparent: whatever is cached, a load through the disk map
    returns the byte the disk has there and changes nothing one can see, a store of a
    word changes that word of the disk and nothing else, and a fault outside the map or
    past the end of the disk panics. *)
Theorem block_cache_transparent `{Disk} s v n a :
  sees s v n ->
  (on_disk n a -> exists s', fld8 a s = Ok (v a) s' /\ sees s' v n) /\
  (forall x, on_disk n a -> a mod 4 = 0 -> a <> s_nblocks SB ->
     exists s', fst32 a x s = Ok tt s' /\ sees s' (vst32 v a x) n) /\
  (0 <= a < 2 ^ 32 -> ~ on_disk n a -> exists msg, bc_pgfault a s = Panics msg s).
Proof.
  intros Hs. split; [by apply fld8_run|]. split; [intros x; by apply fst32_run|]. intros Ha Hd.
  unfold bc_pgfault. cbv zeta. change (w32 (DISKMAP + DISKSIZE)) with 0xD0000000.
  destruct (Z.ltb_spec a DISKMAP) as [|Hge]; [by eexists|].
  destruct (Z.geb_spec a 0xD0000000) as [|Hlt]; [by eexists|]. cbn [orb]. ub. rewrite (se_super _ _ _ Hs), ubind_assoc.
  urw (super_nblocks_run s v n Hs). ub. rewrite w32_small by (unfold DISKMAP in *; lia).
  destruct (Z.geb_spec ((a - DISKMAP) / BLKSIZE) n) as [|Hb]; [by eexists|].
  exfalso. apply Hd. pose proof (se_n _ _ _ Hs). unfold on_disk, baddr, BLKSIZE, PGSIZE in *. zlia.
Qed.

Lemma block_cache_transparent_witness :
  exists s s', sees (H := sample_disk) s sample_v 8 /\ fld8 (H := sample_disk) (baddr 4) s = Ok 104 s' /\
    sees (H := sample_disk) s' sample_v 8.
Proof.
  destruct sample_sees as (s & Hs). exists s.
  destruct (block_cache_transparent (H := sample_disk) s sample_v 8 (baddr 4) Hs) as (Hr & _ & _).
  destruct (Hr ltac:(split; [by vm_compute | done])) as (s' & R & Hs'). exists s'. split; [exact Hs|]. split; [exact R | exact Hs'].
Defined.

(** [alloc_block] returns the first block from block 2 on whose bit is clear and sets
    that bit, leaving every other block's bit as it was; it returns [-E_NO_DISK] with the
    disk unchanged exactly when every block is in use. *)
Theorem alloc_block_correct `{Disk} s v n :
  sees s v n ->
  (exists b s', alloc_block s = Ok b s' /\ sees s' (mark v b) n /\ 2 <= b < n /\ is_free v b = true /\
     (forall b', 2 <= b' < b -> is_free v b' = false) /\
     (forall b', 0 <= b' < n -> is_free (mark v b) b' = negb (b' =? b) && is_free v b')) \/
  (exists s', alloc_block s = Ok (- E_NO_DISK) s' /\ sees s' v n /\ forall b, 2 <= b < n -> is_free v b = false).
Proof.
  intros Hs. destruct (alloc_block_run s v n Hs) as (s' & Ha). destruct (first_free v n) as [b|] eqn:Ef.
  - left. destruct Ha as [Ha Hs']. destruct (first_free_some _ _ _ Ef) as [Hb Hf]. exists b, s'.
    split; [done|]. split; [done|]. split; [done|]. split; [done|]. split.
    + intros b'. by apply (first_free_least v n).
    + intros b' Hb'. apply (is_free_mark s v n); [done | lia | done].
  - right. destruct Ha as [Ha Hs']. exists s'. split; [done|]. split; [done|]. intros b. by apply (first_free_none v n).
Qed.

Lemma alloc_block_correct_witness :
  exists s, sees (H := sample_disk) s sample_v 8 /\
  ((exists b s', alloc_block (H := sample_disk) s = Ok b s' /\ sees (H := sample_disk) s' (mark sample_v b) 8 /\
     2 <= b < 8 /\ is_free sample_v b = true /\ (forall b', 2 <= b' < b -> is_free sample_v b' = false) /\
     (forall b', 0 <= b' < 8 -> is_free (mark sample_v b) b' = negb (b' =? b) && is_free sample_v b')) \/
  (exists s', alloc_block (H := sample_disk) s = Ok (- E_NO_DISK) s' /\ sees (H := sample_disk) s' sample_v 8 /\
     forall b, 2 <= b < 8 -> is_free sample_v b = false)).
Proof. destruct sample_sees as (s & Hs). exists s. split; [exact Hs|]. exact (alloc_block_correct s sample_v 8 Hs). Defined.

(** C31. [file_get_block] of a well-formed file: a block number past the end is refused
    with [-E_INVAL]; a block the file has is returned and the disk is unchanged; a hole
    gets a fresh block, entered in the file's block map where every other entry stays, or
    [-E_NO_DISK] when no block is free. In every case the file remains well formed and reads
    as before. *)
Theorem file_get_block_correct `{Disk} s v n f k :
  sees s v n -> file_ok v n f -> 0 <= k ->
  (NDIRECT + NINDIRECT <= k /\ exists s', file_get_block f k s = Ok (- E_INVAL, 0) s' /\ sees s' v n) \/
  (k < NDIRECT + NINDIRECT /\ exists r a s' v', file_get_block f k s = Ok (r, a) s' /\ sees s' v' n /\
     same_file v v' n f /\ (slot_val v f k <> 0 -> r = 0 /\ v' = v) /\
     (r = 0 /\ a = baddr (slot_val v' f k) /\ slot_val v' f k <> 0 /\
        (forall k', 0 <= k' < NDIRECT + NINDIRECT -> k' <> k -> slot_val v' f k' = slot_val v f k') \/
      r = - E_NO_DISK /\ (forall b, 2 <= b < n -> is_free v' b = false) /\
        (forall k', 0 <= k' < NDIRECT + NINDIRECT -> slot_val v' f k' = slot_val v f k'))).
Proof.
  intros Hs Hf Hk. pose proof (file_get_block_run s v n f k Hs Hf Hk) as Hr.
  destruct (Z.le_gt_cases (NDIRECT + NINDIRECT) k) as [Hge | Hlt].
  - left. split; [done|]. unfold get_block_ref, walk_ref in Hr.
    rewrite (proj2 (Z.ltb_ge k NDIRECT)), (proj2 (Z.ltb_ge _ _) Hge) in Hr.
    + exact Hr.
    + change (NDIRECT + NINDIRECT) with 1034 in Hge. unfold NDIRECT. lia.
  - right. split; [done|]. pose proof (get_block_got s v n f k Hs Hf (conj Hk Hlt)) as Hg.
    destruct (get_block_ref v n f k) as [[r a] v']. destruct Hr as (s' & Hr & Hs').
    destruct Hg as (Hsf & Hold & Hg). exists r, a, s', v'. do 4 (split; [done|]).
    destruct Hg as [Hg | (-> & Hff & Hoth)]; [by left | right]. split; [done|]. split; [|done].
    intros b. by apply (first_free_none v' n).
Qed.

Lemma file_get_block_correct_witness :
  exists s, sees (H := sample_disk) s sample_v 8 /\ file_ok sample_v 8 sample_motd /\
    exists s', file_get_block (H := sample_disk) sample_motd 1034 s = Ok (- E_INVAL, 0) s' /\
      sees (H := sample_disk) s' sample_v 8.
Proof.
  destruct sample_sees as (s & Hs). exists s. split; [exact Hs|]. split; [exact sample_motd_ok|].
  destruct (file_get_block_correct (H := sample_disk) s sample_v 8 sample_motd 1034 Hs sample_motd_ok ltac:(done))
    as [[_ Hr] | [Hk _]]; [exact Hr | discriminate Hk].
Defined.

(** C30. [file_read] returns, and with it the bytes of the file from [offset] on, as many as
    were asked for and the file has (none past its end), a hole reading as zero bytes; or,
    when a hole needs a block and the disk is full, [-E_NO_DISK] after the bytes before it.
    The file still reads the same. *)
Theorem file_read_correct `{Disk} s v n f count offset :
  sees s v n -> file_ok v n f -> s32 (v32 v (f_size f)) <= (NDIRECT + NINDIRECT) * BLKSIZE ->
  0 <= offset < 2 ^ 31 -> 0 <= count < 2 ^ 32 ->
  let c := read_count v f count offset in
  exists r buf s' v', file_read f count offset s = Ok (r, buf) s' /\ sees s' v' n /\ same_file v v' n f /\
    (r = c /\ buf = fbytes v f offset c \/
     r = - E_NO_DISK /\ (forall b, 2 <= b < n -> is_free v' b = false) /\
       exists m, 0 <= m < c /\ buf = fbytes v f offset m).
Proof.
  intros Hs Hf Hmax Hoff Hc c.
  destruct (uwp_elim _ _ _ (file_read_holes s v n f count offset Hs Hf Hmax Hoff Hc)) as ([r buf] & s' & Hr & v' & Hs' & Hsf & Hd).
  fold c in Hd. replace (offset + c - offset) with c in Hd by lia. exists r, buf, s', v'. do 3 (split; [done|]).
  destruct Hd as [[= -> ->] | (m & Hm & [= -> ->] & Hff)]; [by left | right].
  split; [done|]. split; [intros b; by apply (first_free_none v' n) | by exists m].
Qed.

Lemma file_read_correct_witness :
  exists s, sees (H := sample_disk) s sample_v 8 /\
    exists r buf s' v', file_read (H := sample_disk) sample_big 100 4094 s = Ok (r, buf) s' /\
      sees (H := sample_disk) s' v' 8 /\ same_file sample_v v' 8 sample_big /\
      (r = 100 /\ buf = repeat 0 100 \/
       r = - E_NO_DISK /\ (forall b, 2 <= b < 8 -> is_free v' b = false) /\
         exists m, 0 <= m < 100 /\ buf = fbytes sample_v sample_big 4094 m).
Proof.
  destruct sample_sees as (s & Hs). exists s. split; [exact Hs|].
  pose proof (file_read_correct (H := sample_disk) s sample_v 8 sample_big 100 4094 Hs sample_big_ok ltac:(vm_compute; discriminate)
    ltac:(done) ltac:(done)) as Hr. cbv zeta in Hr.
  assert (Hc : read_count sample_v sample_big 100 4094 = 100) by (vm_compute; reflexivity). rewrite Hc in Hr.
  assert (Hb : fbytes sample_v sample_big 4094 100 = repeat 0 100) by (vm_compute; reflexivity). rewrite Hb in Hr.
  exact Hr.
Defined.

(** C32. [walk_path] always returns, and follows the elements of the path (what stands
    between slashes, empty ones left out) from the root, each looked up among the entries
    of the directory reached so far: it answers with the file found and its directory, or
    with the error of the first element that is too long, not in a directory, or missing;
    when only the last one is missing it also gives the directory and the name. The disk
    is unchanged. *)
Theorem walk_path_correct `{Disk} s v n T path :
  sees s v n -> tree_ok v n T -> Forall (fun c => 0 < c < 256) path ->
  exists s', walk_path path s = Ok (resolve v None (s_root SB) (elements path)) s' /\ sees s' v n.
Proof. apply walk_path_run. Qed.

Lemma walk_path_correct_witness :
  exists s s', sees (H := sample_disk) s sample_v 8 /\
    walk_path (H := sample_disk) (chars "//big/") s = Ok (mkWalked 0 (Some sample_root) (Some sample_big) None) s'.
Proof.
  destruct sample_sees as (s & Hs). exists s.
  destruct (walk_path_correct (H := sample_disk) s sample_v 8 sample_tree (chars "//big/") Hs sample_tree_ok
    ltac:(repeat constructor)) as (s' & Hr & _).
  exists s'. split; [exact Hs|]. rewrite Hr.
  assert (Hv : resolve sample_v None (s_root SB) (elements (chars "//big/")) =
    mkWalked 0 (Some sample_root) (Some sample_big) None) by (vm_compute; reflexivity).
  rewrite Hv. reflexivity.
Defined.
