(* ===== verification/Fsformat.v ===== *)
(** * Making a disk image ([fs/fsformat.c])

    The host program that lays files out on a disk.  Host memory is one [memory]: the
    image is mapped at [diskmap], the directory entries being collected are at [ents];
    both addresses, and what [malloc] left at [ents], are the host's choice.  Files of
    the host are given by name and contents; opening and reading them succeeds. *)

From S2P Require Import Prelude Mem CString Mmu KState UState Fs.

Definition MAX_DIR_ENTS : Z := 128.
Definition MAXFILESIZE : Z := (NDIRECT + NINDIRECT) * BLKSIZE.

(** [ROUNDUP] of this file, on [uint32_t] and on [int]. *)
Definition ROUNDUPu (n v : Z) : Z := w32 (w32 (n - 1) + v - w32 (n - 1) mod v).
Definition ROUNDUPi (n v : Z) : Z := n - 1 + v - Z.rem (n - 1) v.

(** The globals [nblocks] and [diskpos], the entries [d->n] of the one directory, and
    memory. *)
Record fmtst := mkFmtst { hmem : memory; nblocks : Z; diskpos : Z; dir_n : Z }.
#[export] Instance fmtst_eta : Eta fmtst := fun s => mkFmtst (hmem s) (nblocks s) (diskpos s) (dir_n s).

Notation Host := (U fmtst).

(** A [for] loop that runs [n] times, its variable counting up from [i]. *)
Fixpoint ufor {S : Type} (n : nat) (i : Z) (body : Z -> U S unit) : U S unit :=
  match n with
  | O => mret tt
  | Datatypes.S n' => body i;; ufor n' (i + 1) body
  end.

Section fsformat.
Context (diskmap ents : Z).

Definition hst32 (a v : Z) : Host unit := uput (fun s => s <| hmem := st32 (hmem s) a v |>).
Definition hstbytes (a : Z) (l : list Z) : Host unit := uput (fun s => s <| hmem := stbytes (hmem s) a l |>).

Definition blockof (pos : Z) : Z := w32 ((pos - diskmap) / BLKSIZE).

Definition alloc (bytes : Z) : Host Z :=
  start ← uget diskpos;
  uput (fun s => s <| diskpos := start + ROUNDUPu bytes BLKSIZE |>);;
  pos ← uget diskpos;
  nb ← uget nblocks;
  if blockof pos >=? nb then upanic "out of disk blocks" else mret start.

(** [opendisk], from the mapping of the empty image on; returns [super] and [bitmap]. *)
Definition opendisk : Host (Z * Z) :=
  nb ← uget nblocks;
  uput (fun s => s <| diskpos := diskmap |>);;
  alloc BLKSIZE;;
  super ← alloc BLKSIZE;
  hst32 (s_magic super) FS_MAGIC;;
  hst32 (s_nblocks super) nb;;
  hst32 (f_type (s_root super)) FTYPE_DIR;;
  hstbytes (f_name (s_root super)) [slash; 0];;
  let nbitblocks := w32 (nb + BLKBITSIZE - 1) / BLKBITSIZE in
  bitmap ← alloc (nbitblocks * BLKSIZE);
  hstbytes bitmap (repeat 0xFF (Z.to_nat (nbitblocks * BLKSIZE)));;
  mret (super, bitmap).

Definition finishdisk (bitmap : Z) : Host unit :=
  pos ← uget diskpos;
  ufor (Z.to_nat (blockof pos)) 0 (fun i =>
    w ← uget (fun s => ld32 (hmem s) (bitmap + 4 * (i / 32)));
    hst32 (bitmap + 4 * (i / 32)) (Z.land w (Z.lnot (w32 (Z.shiftl 1 (i mod 32)))))).

Definition finishfile (f start len : Z) : Host unit :=
  hst32 (f_size f) len;;
  let len := ROUNDUPu len BLKSIZE in
  let i := Z.min (len / BLKSIZE) NDIRECT in
  ufor (Z.to_nat i) 0 (fun i => hst32 (f_direct f i) (start + i));;
  if i =? NDIRECT then
    ind ← alloc BLKSIZE;
    hst32 (f_indirect f) (blockof ind);;
    ufor (Z.to_nat (len / BLKSIZE - i)) i (fun i => hst32 (ind + 4 * (i - NDIRECT)) (start + i))
  else mret tt.

(** Nothing is written at [ents]. *)
Definition startdir : Host unit := uput (fun s => s <| dir_n := 0 |>).

(** [strcpy] copies the whole name, however long it is. *)
Definition diradd (type : Z) (name : list Z) : Host Z :=
  n ← uget dir_n;
  let out := ents + n * sizeof_File in
  uput (fun s => s <| dir_n := n + 1 |>);;
  if n + 1 >? MAX_DIR_ENTS then upanic "too many directory entries"
  else
    hstbytes (f_name out) (name ++ [0]);;
    hst32 (f_type out) type;;
    mret out.

Definition finishdir (f : Z) : Host unit :=
  n ← uget dir_n;
  let size := n * sizeof_File in
  start ← alloc size;
  bs ← uget (fun s => ldbytes (hmem s) ents (Z.to_nat size));
  hstbytes start bs;;
  finishfile f (blockof start) (ROUNDUPi size BLKSIZE).

(** What follows the last slash. *)
Definition basename (name : list Z) : list Z :=
  fold_left (fun last c => if c =? slash then [] else last ++ [c]) name [].

Definition writefile (name data : list Z) : Host unit :=
  let size := Z.of_nat (length data) in
  if size >=? MAXFILESIZE then upanic "too large"
  else
    f ← diradd FTYPE_REG (basename name);
    start ← alloc size;
    hstbytes start data;;
    finishfile f (blockof start) size.

Fixpoint writefiles (files : list (list Z * list Z)) : Host unit :=
  match files with
  | [] => mret tt
  | (name, data) :: files' => writefile name data;; writefiles files'
  end.

(** [main], for the block count and the files of the command line. *)
Definition fsformat (nb : Z) (files : list (list Z * list Z)) : Host unit :=
  if (nb <? 2) || (nb >? 1024) then upanic "usage"
  else
    uput (fun s => s <| nblocks := nb |>);;
    '(super, bitmap) ← opendisk;
    startdir;;
    writefiles files;;
    finishdir (s_root super);;
    finishdisk bitmap.
End fsformat.
