(* ===== verification/FsformatSpec.v ===== *)
(** * What [fsformat] writes

    Each step of the disk image builder as a change of host memory, and the files it lays
    out. *)

From S2P Require Import Prelude Mem CString Mmu KState UState Fs Fsformat.

(** ** What [fsformat] writes

    Each step of the disk image builder as a change of host memory: what it writes,
    and that it writes nothing else. *)

(** ** Memory that changes only in places *)

Definition same_but (P : Z -> Prop) (m m' : memory) : Prop := forall a, ~ P a -> ld8 m' a = ld8 m a.
Definition between (lo hi a : Z) : Prop := lo <= a < hi.

Lemma same_but_refl P m : same_but P m m.
Proof. done. Qed.
Lemma same_but_trans P Q m1 m2 m3 :
  same_but P m1 m2 -> same_but Q m2 m3 -> same_but (fun a => P a \/ Q a) m1 m3.
Proof. intros H1 H2 a Ha. rewrite H2, H1; tauto. Qed.
Lemma same_but_mono (P Q : Z -> Prop) m m' : same_but P m m' -> (forall a, P a -> Q a) -> same_but Q m m'.
Proof. intros H1 H2 a Ha. apply H1. auto. Qed.
Lemma same_but_st32 m a v : same_but (between a (a + 4)) m (st32 m a v).
Proof.
  intros b Hb. rewrite ld8_st32. unfold between in Hb.
  destruct (Z.leb_spec a b), (Z.ltb_spec b (a + 4)); done || lia.
Qed.
Lemma same_but_stbytes m a l : same_but (between a (a + Z.of_nat (length l))) m (stbytes m a l).
Proof. intros b Hb. apply ld8_stbytes_out. unfold between in Hb. lia. Qed.

Lemma word_same m m' a a' : (forall i, 0 <= i < 4 -> ld8 m' (a' + i) = ld8 m (a + i)) -> ld32 m' a' = ld32 m a.
Proof.
  intros Hi. unfold ld32. pose proof (Hi 0 ltac:(lia)) as H0. rewrite !Z.add_0_r in H0.
  by rewrite H0, !Hi by lia.
Qed.
Lemma bytes_same m m' a a' n :
  (forall i, 0 <= i < Z.of_nat n -> ld8 m' (a' + i) = ld8 m (a + i)) -> ldbytes m' a' n = ldbytes m a n.
Proof.
  revert a a'. induction n as [|n IH]; intros a a' Hi; [done|]. cbn [ldbytes]. f_equal.
  - pose proof (Hi 0 ltac:(lia)) as H0. by rewrite !Z.add_0_r in H0.
  - apply IH. intros i Hn. rewrite <- !Z.add_assoc. apply Hi. lia.
Qed.

(** ** Loops *)

Lemma ufor_run {S} (I : Z -> S -> Prop) (body : Z -> U S unit) n i s :
  (forall j s, i <= j < i + Z.of_nat n -> I j s -> exists s', body j s = Ok tt s' /\ I (j + 1) s') -> I i s ->
  exists s', ufor n i body s = Ok tt s' /\ I (i + Z.of_nat n) s'.
Proof.
  revert i s. induction n as [|n IH]; intros i s Hb HI; cbn [ufor].
  - exists s. split; [done|]. by rewrite Z.add_0_r.
  - destruct (Hb i s ltac:(lia) HI) as (s1 & R1 & HI1). urw R1.
    destruct (IH (i + 1) s1) as (s2 & R2 & HI2); [intros j s' Hj; apply Hb; lia | done|].
    exists s2. split; [done|]. by replace (i + Z.of_nat (Datatypes.S n)) with (i + 1 + Z.of_nat n) by lia.
Qed.

Lemma bind_hst32 {B} a v (f : unit -> Host B) s : (hst32 a v ≫= f) s = f tt (s <| hmem := st32 (hmem s) a v |>).
Proof. done. Qed.
Lemma bind_hstbytes {B} a l (f : unit -> Host B) s :
  (hstbytes a l ≫= f) s = f tt (s <| hmem := stbytes (hmem s) a l |>).
Proof. done. Qed.
Ltac uh := first [ rewrite bind_hst32 | rewrite bind_hstbytes ]; cbv beta iota.

(** ** Blocks *)

Definition nblks (len : Z) : Z := (len + BLKSIZE - 1) / BLKSIZE.

Lemma nblks_nonneg len : 0 <= len -> 0 <= nblks len.
Proof. unfold nblks, BLKSIZE, PGSIZE. intros. zlia. Qed.
Lemma nblks_bound len : 0 <= len -> len <= nblks len * BLKSIZE.
Proof. unfold nblks, BLKSIZE, PGSIZE. intros. zlia. Qed.
Lemma nblks_max len : len < MAXFILESIZE -> nblks len <= 1034.
Proof.
  unfold MAXFILESIZE, nblks. change (NDIRECT + NINDIRECT) with 1034. unfold BLKSIZE, PGSIZE. intros. zlia.
Qed.
Lemma ROUNDUPu_nblks len : 0 <= len < 2 ^ 31 -> ROUNDUPu len BLKSIZE = nblks len * BLKSIZE.
Proof.
  intros Hl. unfold ROUNDUPu, nblks, BLKSIZE, PGSIZE. unfold w32. zlia.
Qed.

Section spec.
Context (D E nb : Z).
Context (Hnb : 4 <= nb <= 1024).

(** [diskpos] is at block [L]. *)
Definition at_block (s : fmtst) (L : Z) : Prop :=
  diskpos s = D + L * BLKSIZE /\ nblocks s = nb /\ 0 <= L < nb.

Lemma blockof_at L : 0 <= L < 2 ^ 20 -> blockof D (D + L * BLKSIZE) = L.
Proof.
  intros HL. unfold blockof. replace (D + L * BLKSIZE - D) with (L * BLKSIZE) by lia.
  rewrite Z.div_mul by done. apply w32_small. lia.
Qed.

Lemma alloc_run s L bytes :
  at_block s L -> 0 <= bytes < 2 ^ 31 -> L + nblks bytes < nb ->
  exists s', alloc D bytes s = Ok (D + L * BLKSIZE) s' /\ at_block s' (L + nblks bytes) /\
    hmem s' = hmem s /\ dir_n s' = dir_n s.
Proof.
  intros (Hp & Hn & HL) Hb Hfit. unfold alloc. ub. ub. ub. ub.
  set (s1 := s <| diskpos := _ |>). pose proof (nblks_nonneg bytes ltac:(lia)).
  assert (Hp1 : diskpos s1 = D + (L + nblks bytes) * BLKSIZE).
  { change (diskpos s1) with (diskpos s + ROUNDUPu bytes BLKSIZE). rewrite Hp, ROUNDUPu_nblks by done. lia. }
  rewrite Hp1, blockof_at by lia. change (nblocks s1) with (nblocks s). rewrite Hn.
  destruct (Z.geb_spec (L + nblks bytes) nb); [lia|]. exists s1. rewrite Hp. split; [done|]. split; [|done].
  split; [done|]. split; [done | lia].
Qed.

(** The block map of a [struct File] at host address [x]: [len] bytes in the blocks from
    [st] on, the indirect block, if there is one, being [ind]. *)
Record block_map (m : memory) (x len st ind : Z) : Prop := {
  bm_size : ld32 m (f_size x) = len;
  bm_direct : forall k, 0 <= k < nblks len -> k < NDIRECT -> ld32 m (f_direct x k) = st + k;
  bm_indirect : NDIRECT <= nblks len -> ld32 m (f_indirect x) = ind;
  bm_word : forall k, NDIRECT <= k < nblks len -> ld32 m (D + ind * BLKSIZE + 4 * (k - NDIRECT)) = st + k }.

(** The blocks [finishfile] takes itself. *)
Definition nind (len : Z) : Z := if nblks len <? NDIRECT then 0 else 1.

Lemma direct_loop x st s n :
  0 <= st -> st + Z.of_nat n < 2 ^ 32 ->
  exists s', ufor n 0 (fun i => hst32 (f_direct x i) (st + i)) s = Ok tt s' /\
    diskpos s' = diskpos s /\ nblocks s' = nblocks s /\ dir_n s' = dir_n s /\
    same_but (between (f_direct x 0) (f_direct x (Z.of_nat n))) (hmem s) (hmem s') /\
    forall k, 0 <= k < Z.of_nat n -> ld32 (hmem s') (f_direct x k) = st + k.
Proof.
  intros Hst Hn.
  destruct (ufor_run (fun i s' => diskpos s' = diskpos s /\ nblocks s' = nblocks s /\ dir_n s' = dir_n s /\
    same_but (between (f_direct x 0) (f_direct x i)) (hmem s) (hmem s') /\
    forall k, 0 <= k < i -> ld32 (hmem s') (f_direct x k) = st + k)
    (fun i => hst32 (f_direct x i) (st + i)) n 0 s) as (s' & R & HI).
  - intros j s1 Hj (H1 & H2 & H3 & H4 & H5). eexists. split; [done|]. cbn [diskpos nblocks dir_n hmem].
    split; [done|]. split; [done|]. split; [done|]. split.
    + eapply same_but_mono; [exact (same_but_trans _ _ _ _ _ H4 (same_but_st32 _ _ _))|].
      unfold between, f_direct. lia.
    + intros k Hk. change (hmem (s1 <| hmem := ?m |>)) with m.
      destruct (decide (k = j)) as [-> | Hne]; [rewrite ld32_st32_eq; apply w32_small; lia|].
      rewrite ld32_st32_ne by (unfold f_direct; lia). apply H5. lia.
  - do 3 (split; [done|]). split; [apply same_but_refl | intros k Hk; lia].
  - exists s'. exact (conj R HI).
Qed.

Lemma indirect_loop a st s n i :
  0 <= st -> st + i + Z.of_nat n < 2 ^ 32 -> NDIRECT <= i ->
  exists s', ufor n i (fun i => hst32 (a + 4 * (i - NDIRECT)) (st + i)) s = Ok tt s' /\
    diskpos s' = diskpos s /\ nblocks s' = nblocks s /\ dir_n s' = dir_n s /\
    same_but (between (a + 4 * (i - NDIRECT)) (a + 4 * (i + Z.of_nat n - NDIRECT))) (hmem s) (hmem s') /\
    forall k, i <= k < i + Z.of_nat n -> ld32 (hmem s') (a + 4 * (k - NDIRECT)) = st + k.
Proof.
  intros Hst Hn Hi. assert (0 <= i) by (unfold NDIRECT in Hi; lia).
  destruct (ufor_run (fun j s' => diskpos s' = diskpos s /\ nblocks s' = nblocks s /\ dir_n s' = dir_n s /\
    same_but (between (a + 4 * (i - NDIRECT)) (a + 4 * (j - NDIRECT))) (hmem s) (hmem s') /\
    (forall k, i <= k < j -> ld32 (hmem s') (a + 4 * (k - NDIRECT)) = st + k) /\ i <= j)
    (fun i => hst32 (a + 4 * (i - NDIRECT)) (st + i)) n i s) as (s' & R & H1 & H2 & H3 & H4 & H5 & _).
  - intros j s1 Hj (H1 & H2 & H3 & H4 & H5 & H6). eexists. split; [done|]. cbn [diskpos nblocks dir_n hmem].
    split; [done|]. split; [done|]. split; [done|]. split; [|split; [|lia]].
    + eapply same_but_mono; [exact (same_but_trans _ _ _ _ _ H4 (same_but_st32 _ _ _))|].
      unfold between. lia.
    + intros k Hk. change (hmem (s1 <| hmem := ?m |>)) with m.
      destruct (decide (k = j)) as [-> | Hne]; [rewrite ld32_st32_eq; apply w32_small; lia|].
      rewrite ld32_st32_ne by lia. apply H5. lia.
  - do 3 (split; [done|]). split; [apply same_but_refl|]. split; [intros k Hk; lia | lia].
  - exists s'. done.
Qed.

(** [finishfile] enters the blocks from [st] on, taking block [L] for an indirect block
    when more than nine are needed. *)
Lemma finishfile_run s L x st len :
  at_block s L -> 0 <= len <= MAXFILESIZE -> 0 <= st -> st + nblks len <= nb -> L + nind len < nb -> 0 < L ->
  (forall o, 0 <= o < sizeof_File -> ~ between (D + L * BLKSIZE) (D + nb * BLKSIZE) (x + o)) ->
  exists s', finishfile D x st len s = Ok tt s' /\ at_block s' (L + nind len) /\ dir_n s' = dir_n s /\
    same_but (fun a => between (f_size x) (f_size x + 4) a \/ between (f_direct x 0) (f_indirect x + 4) a \/
      between (D + L * BLKSIZE) (D + (L + nind len) * BLKSIZE) a) (hmem s) (hmem s') /\
    block_map (hmem s') x len st L.
Proof.
  intros Hat Hlen Hst Hend Hfit HL Hx. unfold finishfile. assert (HLn : 0 <= L < nb) by apply Hat.
  assert (Hl31 : 0 <= len < 2 ^ 31) by (unfold MAXFILESIZE in Hlen; change (NDIRECT + NINDIRECT) with 1034 in Hlen; unfold BLKSIZE, PGSIZE in Hlen; lia).
  assert (Hnn : 0 <= nblks len <= 1034).
  { unfold MAXFILESIZE in Hlen. change (NDIRECT + NINDIRECT) with 1034 in Hlen.
    unfold nblks, BLKSIZE, PGSIZE in *. zlia. }
  uh. cbv zeta. rewrite ROUNDUPu_nblks, Z.div_mul by done.
  set (s1 := s <| hmem := st32 (hmem s) (f_size x) len |>).
  destruct (direct_loop x st s1 (Z.to_nat (Z.min (nblks len) NDIRECT)) Hst ltac:(unfold NDIRECT; lia))
    as (s2 & R2 & Hp2 & Hn2 & Hd2 & Hs2 & Hw2). urw R2.
  rewrite Z2Nat.id in Hs2, Hw2 by (unfold NDIRECT; lia).
  assert (Hs02 : same_but (fun a => between (f_size x) (f_size x + 4) a \/
    between (f_direct x 0) (f_direct x (Z.min (nblks len) NDIRECT)) a) (hmem s) (hmem s2)).
  { exact (same_but_trans _ _ _ _ _ (same_but_st32 _ _ _) Hs2). }
  assert (Hsz2 : ld32 (hmem s2) (f_size x) = len).
  { rewrite (word_same (hmem s1) (hmem s2) (f_size x) (f_size x)).
    - change (hmem s1) with (st32 (hmem s) (f_size x) len). rewrite ld32_st32_eq. apply w32_small. lia.
    - intros i Hi. apply Hs2. unfold between, f_direct, f_size. lia. }
  assert (Hat2 : at_block s2 L) by (destruct Hat as (H1 & H2 & H3); split; [by rewrite Hp2 | split; [by rewrite Hn2 | done]]).
  unfold nind in *. destruct (Z.ltb_spec (nblks len) NDIRECT) as [Hlt | Hge].
  - destruct (Z.eqb_spec (Z.min (nblks len) NDIRECT) NDIRECT); [lia|]. exists s2. split; [done|].
    rewrite !Z.add_0_r in *. split; [done|]. split; [by rewrite Hd2|]. split.
    + eapply same_but_mono; [exact Hs02|]. unfold between, f_direct, f_indirect, NDIRECT in *. lia.
    + constructor; [done | intros k Hk1 Hk2; apply Hw2; lia | lia | intros k Hk; lia].
  - replace (Z.min (nblks len) NDIRECT) with NDIRECT in * by lia. rewrite Z.eqb_refl.
    assert (Hb1 : nblks BLKSIZE = 1) by done.
    destruct (alloc_run s2 L BLKSIZE Hat2 ltac:(done) ltac:(lia)) as (s3 & R3 & Hat3 & Hm3 & Hd3). urw R3.
    rewrite Hb1 in Hat3. uh. rewrite blockof_at by lia.
    set (s4 := s3 <| hmem := st32 (hmem s3) (f_indirect x) L |>).
    destruct (indirect_loop (D + L * BLKSIZE) st s4 (Z.to_nat (nblks len - NDIRECT)) NDIRECT Hst ltac:(unfold NDIRECT in *; lia) ltac:(lia))
      as (s5 & R5 & Hp5 & Hn5 & Hd5 & Hs5 & Hw5).
    rewrite Z2Nat.id in Hs5, Hw5 by lia. replace (NDIRECT + (nblks len - NDIRECT)) with (nblks len) in * by lia.
    exists s5. split; [exact R5|]. split.
    { destruct Hat3 as (H1 & H2 & H3). split; [by rewrite Hp5|]. split; [by rewrite Hn5 | done]. }
    split; [by rewrite Hd5; cbn; rewrite Hd3|].
    assert (Hs24 : same_but (between (f_indirect x) (f_indirect x + 4)) (hmem s2) (hmem s4)).
    { rewrite <- Hm3. apply same_but_st32. }
    assert (Hdisk : forall b, between (D + L * BLKSIZE + 4 * (NDIRECT - NDIRECT)) (D + L * BLKSIZE + 4 * (nblks len - NDIRECT)) b ->
      between (D + L * BLKSIZE) (D + (L + 1) * BLKSIZE) b).
    { unfold between, NDIRECT, BLKSIZE, PGSIZE in *. lia. }
    assert (Hout : forall o, 0 <= o < sizeof_File ->
      ~ between (D + L * BLKSIZE + 4 * (NDIRECT - NDIRECT)) (D + L * BLKSIZE + 4 * (nblks len - NDIRECT)) (x + o)).
    { intros o Ho Hb. apply Hdisk in Hb. apply (Hx o Ho). unfold between, BLKSIZE, PGSIZE in *. lia. }
    assert (Hkeep : forall o, 0 <= o -> o + 4 <= sizeof_File -> (o + 4 <= 176 \/ 180 <= o) ->
      ld32 (hmem s5) (x + o) = ld32 (hmem s2) (x + o)).
    { intros o Ho1 Ho2 Ho3. apply word_same. intros i Hi. rewrite Hs5 by (replace (x + o + i) with (x + (o + i)) by lia; apply Hout; lia).
      apply Hs24. unfold between, f_indirect, MAXNAMELEN, NDIRECT. lia. }
    split.
    + eapply same_but_mono; [exact (same_but_trans _ _ _ _ _ (same_but_trans _ _ _ _ _ Hs02 Hs24) Hs5)|].
      intros b [[[H1 | H1] | H1] | H1]; [by left | right; left | right; left | right; right; by apply Hdisk];
        unfold between, f_direct, f_indirect, NDIRECT in *; lia.
    + constructor.
      * rewrite <- Hsz2. apply (Hkeep 128); unfold sizeof_File; lia.
      * intros k Hk1 Hk2. rewrite <- Hw2 by lia. unfold f_direct, MAXNAMELEN, NDIRECT in *.
        replace (x + 128 + 8 + 4 * k) with (x + (136 + 4 * k)) by lia. apply Hkeep; unfold sizeof_File; lia.
      * intros _. rewrite (word_same (hmem s4) (hmem s5) (f_indirect x) (f_indirect x)).
        { change (hmem s4) with (st32 (hmem s3) (f_indirect x) L). rewrite ld32_st32_eq. apply w32_small. lia. }
        intros i Hi. apply Hs5. replace (f_indirect x + i) with (x + (176 + i)) by (unfold f_indirect, MAXNAMELEN, NDIRECT; lia).
        apply Hout. unfold sizeof_File. lia.
      * intros k Hk. apply Hw5. lia.
Qed.
End spec.

(** ** The files [fsformat] lays out

    The entry and the blocks of each file written, and that later ones leave them
    alone. *)

(** A host file the image can hold: its base name fits an entry and is not empty, its
    contents are bytes and fit the block map. *)
Record file_fits (f : list Z * list Z) : Prop := {
  ff_name : Forall (fun c => 0 < c < 256) (basename (fst f));
  ff_nonempty : basename (fst f) <> [];
  ff_short : Z.of_nat (length (basename (fst f))) < MAXNAMELEN;
  ff_data : Forall (fun c => 0 <= c < 256) (snd f);
  ff_size : Z.of_nat (length (snd f)) < MAXFILESIZE }.

(** Where a file is put: its name and contents, first block, and the block after. *)
Record placed := mkPlaced { pl_name : list Z; pl_data : list Z; pl_start : Z }.
Definition pl_len (p : placed) : Z := Z.of_nat (length (pl_data p)).
Definition pl_ind (p : placed) : Z := pl_start p + nblks (pl_len p).
Definition pl_end (p : placed) : Z := pl_ind p + nind (pl_len p).

Fixpoint layout (L : Z) (files : list (list Z * list Z)) : list placed :=
  match files with
  | [] => []
  | (name, data) :: files' => let p := mkPlaced (basename name) data L in p :: layout (pl_end p) files'
  end.
Fixpoint layout_end (L : Z) (files : list (list Z * list Z)) : Z :=
  match files with
  | [] => L
  | (name, data) :: files' => layout_end (pl_end (mkPlaced (basename name) data L)) files'
  end.

Lemma pl_end_le p : pl_start p <= pl_start p + nblks (pl_len p) <= pl_end p /\ 0 <= nind (pl_len p) <= 1.
Proof.
  pose proof (nblks_nonneg (pl_len p) ltac:(unfold pl_len; lia)). unfold pl_end, pl_ind, nind.
  destruct (nblks (pl_len p) <? NDIRECT); lia.
Qed.
Lemma layout_end_le L files : L <= layout_end L files.
Proof.
  revert L. induction files as [|[name data] files IH]; intros L; cbn [layout_end]; [lia|].
  pose proof (pl_end_le (mkPlaced (basename name) data L)) as Hp. cbn [pl_start] in Hp.
  specialize (IH (pl_end (mkPlaced (basename name) data L))). lia.
Qed.
Lemma layout_range L files p : p ∈ layout L files -> L <= pl_start p /\ pl_end p <= layout_end L files.
Proof.
  revert L. induction files as [|[name data] files IH]; intros L; cbn [layout layout_end]; [by intros ?%elem_of_nil|].
  pose proof (pl_end_le (mkPlaced (basename name) data L)) as Hp. cbn [pl_start] in Hp.
  intros [-> | Hin]%elem_of_cons.
  - cbn [pl_start]. pose proof (layout_end_le (pl_end (mkPlaced (basename name) data L)) files). lia.
  - destruct (IH _ Hin). lia.
Qed.
Lemma layout_length L files : length (layout L files) = length files.
Proof. revert L. induction files as [|[name data] files IH]; intros L; simpl; auto. Qed.
Lemma layout_lookup L files i p :
  layout L files !! i = Some p -> exists name, files !! i = Some (name, pl_data p) /\ pl_name p = basename name.
Proof.
  revert L i. induction files as [|[name data] files IH]; intros L i; [done|]. cbn [layout].
  destruct i as [|i]; [intros [= <-]; by exists name | apply IH].
Qed.

Definition pl_ok (p : placed) : Prop := Z.of_nat (length (pl_name p)) < MAXNAMELEN /\ pl_len p < MAXFILESIZE.

Section files.
Context (D E nb : Z).
Context (Hnb : 4 <= nb <= 1024).
Context (HDE : E + MAX_DIR_ENTS * sizeof_File <= D \/ D + nb * BLKSIZE <= E).

(** The entry of [p] at host address [x], with its blocks on the disk. *)
Record entry (m : memory) (x : Z) (p : placed) : Prop := {
  en_name : ldbytes m x (S (length (pl_name p))) = pl_name p ++ [0];
  en_type : ld32 m (f_type x) = FTYPE_REG;
  en_map : block_map D m x (pl_len p) (pl_start p) (pl_ind p);
  en_data : ldbytes m (D + pl_start p * BLKSIZE) (length (pl_data p)) = pl_data p }.

(** An entry is known by its own bytes and those of its blocks. *)
Lemma entry_move m m' x x' p :
  pl_ok p ->
  (forall o, 0 <= o < sizeof_File -> ld8 m' (x' + o) = ld8 m (x + o)) ->
  (forall a, between (D + pl_start p * BLKSIZE) (D + pl_end p * BLKSIZE) a -> ld8 m' a = ld8 m a) ->
  entry m x p -> entry m' x' p.
Proof.
  intros [Hl Hs] Hx Hb [H1 H2 [H3 H4 H5 H6] H7]. unfold MAXNAMELEN in Hl.
  assert (Hw : forall o, 0 <= o -> o + 4 <= sizeof_File -> ld32 m' (x' + o) = ld32 m (x + o)).
  { intros o H0 H0'. apply word_same. intros i Hi. rewrite <- !Z.add_assoc. apply Hx. lia. }
  pose proof (pl_end_le p) as Hpe.
  assert (Hi : NDIRECT <= nblks (pl_len p) -> pl_end p = pl_ind p + 1).
  { intros Hge. unfold pl_end, nind. by rewrite (proj2 (Z.ltb_ge _ _) Hge). }
  unfold sizeof_File in *. constructor; [| |constructor|].
  - rewrite <- H1. apply bytes_same. intros i Hin. apply Hx. lia.
  - rewrite <- H2. unfold f_type, MAXNAMELEN. rewrite <- !Z.add_assoc. apply Hw; lia.
  - rewrite <- H3. apply (Hw 128); lia.
  - intros k Hk1 Hk2. rewrite <- H4 by done. unfold f_direct, MAXNAMELEN, NDIRECT in *.
    rewrite <- !Z.add_assoc. apply Hw; lia.
  - intros Hk. rewrite <- H5 by done. unfold f_indirect, MAXNAMELEN, NDIRECT. rewrite <- !Z.add_assoc. apply Hw; lia.
  - intros k Hk. rewrite <- H6 by done. apply word_same. intros i Hin. apply Hb.
    specialize (Hi ltac:(lia)). pose proof (nblks_max _ Hs).
    unfold between, pl_ind, NDIRECT, BLKSIZE, PGSIZE in *. lia.
  - etrans; [|exact H7]. apply bytes_same. intros i Hin. apply Hb.
    pose proof (nblks_bound (pl_len p) ltac:(unfold pl_len; lia)) as Hn. unfold pl_len in Hn.
    unfold between, pl_end, pl_ind, pl_len, BLKSIZE, PGSIZE in *. lia.
Qed.

Lemma sized_nblks f : file_fits f -> 0 <= nblks (Z.of_nat (length (snd f))) <= 1034.
Proof.
  intros Hf. split; [apply nblks_nonneg; lia | apply nblks_max, Hf].
Qed.

(** Outside the entries being collected from [n] on and the blocks from [L] on. *)
Definition written (n n' L L' a : Z) : Prop :=
  between (E + n * sizeof_File) (E + n' * sizeof_File) a \/ between (D + L * BLKSIZE) (D + L' * BLKSIZE) a.

(** The entry that [diradd], the copy of the data and [finishfile] leave together: none of
    them writes what the ones before it wrote. *)
Lemma entry_written m m1 m2 m3 m4 x p :
  let nm := pl_name p ++ [0] in
  let data := pl_data p in
  let L := pl_start p in
  m1 = st32 (stbytes m (f_name x) nm) (f_type x) FTYPE_REG -> m2 = m1 -> m3 = stbytes m2 (D + L * BLKSIZE) data ->
  Forall (fun c => 0 < c < 256) (pl_name p) -> Z.of_nat (length (pl_name p)) < MAXNAMELEN ->
  Forall (fun c => 0 <= c < 256) data -> 0 < L -> pl_end p < nb ->
  (forall o, 0 <= o < sizeof_File -> forall lo hi, 0 <= lo -> hi <= nb ->
     ~ between (D + lo * BLKSIZE) (D + hi * BLKSIZE) (x + o)) ->
  same_but (fun a => between (f_size x) (f_size x + 4) a \/ between (f_direct x 0) (f_indirect x + 4) a \/
    between (D + pl_ind p * BLKSIZE) (D + pl_end p * BLKSIZE) a) m3 m4 ->
  block_map D m4 x (pl_len p) L (pl_ind p) -> entry m4 x p.
Proof.
  intros nm data L Hm1 Hm2 Hm3 Hfn Hfl Hfd HL Hend Hx Hs4 Hbm. pose proof (pl_end_le p) as Hpe.
  assert (Hpi : pl_ind p = L + nblks (pl_len p)) by done.
  assert (Hpx : pl_end p = L + nblks (pl_len p) + nind (pl_len p)) by done.
  assert (Hpl : pl_len p = Z.of_nat (length data)) by done.
  pose proof (nblks_bound (pl_len p) ltac:(lia)) as Hnb'.
  assert (Hk4 : forall o, 0 <= o < sizeof_File -> (o < 128 \/ 132 <= o < 136) -> ld8 m4 (x + o) = ld8 m3 (x + o)).
  { intros o Ho Ho'. apply Hs4. intros [Ha | [Ha | Ha]].
    - unfold between, f_size, MAXNAMELEN in Ha. lia.
    - unfold between, f_direct, f_indirect, MAXNAMELEN, NDIRECT in Ha. lia.
    - apply (Hx o Ho (L + nblks (pl_len p)) (L + nblks (pl_len p) + nind (pl_len p))); [lia.. | exact Ha]. }
  assert (Hk3 : forall o, 0 <= o < sizeof_File -> ld8 m3 (x + o) = ld8 m1 (x + o)).
  { intros o Ho. rewrite Hm3, Hm2.
    apply (same_but_stbytes m1). intros Ha.
    apply (Hx o Ho L (L + nblks (pl_len p))); [lia.. |]. unfold between in *. lia. }
  constructor; fold data; fold L; fold nm.
  - assert (Hnn : ldbytes m1 x (length nm) = nm).
    { rewrite Hm1. etrans; [|apply (ldbytes_stbytes m x nm)].
      - apply bytes_same. intros i Hi. apply same_but_st32. unfold between, f_type, nm, MAXNAMELEN in *.
        rewrite length_app in Hi. simpl in Hi. lia.
      - apply Forall_app. split; [|repeat constructor; done]. eapply Forall_impl; [exact Hfn|]. simpl. lia. }
    unfold nm in Hnn at 1. rewrite length_app, Nat.add_1_r in Hnn. fold nm. rewrite <- Hnn. apply bytes_same.
    intros i Hi. unfold MAXNAMELEN in Hfl. rewrite Hk4, Hk3 by (unfold sizeof_File; lia). done.
  - rewrite (word_same m1 m4 (f_type x) (f_type x)).
    + rewrite Hm1, ld32_st32_eq. done.
    + intros i Hi. unfold f_type, MAXNAMELEN. rewrite <- !Z.add_assoc. rewrite Hk4, Hk3 by (unfold sizeof_File; lia). done.
  - exact Hbm.
  - etrans; [|apply (ldbytes_stbytes m2 (D + L * BLKSIZE) data Hfd)]. apply bytes_same. intros i Hi.
    rewrite <- Hm3. apply Hs4.
    assert (Hin : forall o, 0 <= o < sizeof_File -> x + o <> D + L * BLKSIZE + i).
    { intros o Ho Heq. apply (Hx o Ho L (L + nblks (pl_len p))); [lia.. |]. unfold between. lia. }
    intros [Ha | [Ha | Ha]].
    + apply (Hin (D + L * BLKSIZE + i - x)); unfold between, f_size, MAXNAMELEN, sizeof_File in *; lia.
    + apply (Hin (D + L * BLKSIZE + i - x)); unfold between, f_direct, f_indirect, MAXNAMELEN, NDIRECT, sizeof_File in *; lia.
    + unfold between in Ha. lia.
Qed.

Lemma writefile_run s L n name data :
  at_block D nb s L -> dir_n s = n -> 0 <= n < MAX_DIR_ENTS -> 0 < L -> file_fits (name, data) ->
  let p := mkPlaced (basename name) data L in
  pl_end p < nb ->
  exists s', writefile D E name data s = Ok tt s' /\ at_block D nb s' (pl_end p) /\ dir_n s' = n + 1 /\
    same_but (written n (n + 1) L (pl_end p)) (hmem s) (hmem s') /\ entry (hmem s') (E + n * sizeof_File) p.
Proof.
  intros Hat Hn Hnr HL Hf p Hend.
  assert (Hp : pl_start p = L /\ pl_name p = basename name /\ pl_data p = data /\
    pl_len p = Z.of_nat (length data) /\ pl_ind p = L + nblks (pl_len p) /\
    pl_end p = L + nblks (pl_len p) + nind (pl_len p)) by done.
  clearbody p. destruct Hp as (Hps & Hpn & Hpd & Hpl & Hpi & Hpx). unfold writefile. destruct Hf as [Hfn _ Hfl Hfd Hfs]. cbn [fst snd] in *.
  destruct (Z.geb_spec (Z.of_nat (length data)) MAXFILESIZE); [lia|]. unfold diradd. rewrite ubind_assoc. ub.
  rewrite ubind_assoc. ub. rewrite Hn. destruct (Z.gtb_spec (n + 1) MAX_DIR_ENTS); [lia|].
  rewrite ubind_assoc. uh. rewrite ubind_assoc. uh. ub.
  set (x := E + n * sizeof_File). set (nm := basename name ++ [0]).
  set (s1 := _ <| hmem := _ |>).
  assert (Hs1 : diskpos s1 = diskpos s /\ nblocks s1 = nblocks s /\ dir_n s1 = n + 1 /\
    hmem s1 = st32 (stbytes (hmem s) (f_name x) nm) (f_type x) FTYPE_REG) by done.
  clearbody s1. destruct Hs1 as (Hp1 & Hn1 & Hd1 & Hm1).
  assert (Hat1 : at_block D nb s1 L) by (destruct Hat as (H1 & H2 & H3); split; [by rewrite Hp1 | split; [by rewrite Hn1 | done]]).
  pose proof (pl_end_le p) as Hpe.
  assert (Hlen : 0 <= pl_len p < MAXFILESIZE) by lia.
  assert (Hl31 : pl_len p < 2 ^ 31) by (unfold MAXFILESIZE in Hlen; change (NDIRECT + NINDIRECT) with 1034 in Hlen; unfold BLKSIZE, PGSIZE in Hlen; lia).
  destruct (alloc_run D nb Hnb s1 L (pl_len p) Hat1 ltac:(lia) ltac:(lia))
    as (s2 & R2 & Hat2 & Hm2 & Hd2). rewrite <- Hpl. urw R2. uh.
  set (s3 := s2 <| hmem := stbytes (hmem s2) (D + L * BLKSIZE) data |>).
  assert (Hat3 : at_block D nb s3 (L + nblks (pl_len p))) by exact Hat2.
  rewrite blockof_at by (destruct Hat as (_ & _ & HLn); lia).
  assert (Hx : forall o, 0 <= o < sizeof_File -> forall lo hi, 0 <= lo -> hi <= nb ->
    ~ between (D + lo * BLKSIZE) (D + hi * BLKSIZE) (x + o)).
  { intros o Ho lo hi Hlo Hhi. unfold between, x, MAX_DIR_ENTS, sizeof_File, BLKSIZE, PGSIZE in *. lia. }
  destruct (finishfile_run D nb Hnb s3 (L + nblks (pl_len p)) x L (pl_len p) Hat3) as (s4 & R4 & Hat4 & Hd4 & Hs4 & Hbm).
  { lia. } { lia. } { lia. }
  { lia. } { lia. }
  { intros o Ho. apply Hx; lia. }
  exists s4. split; [exact R4|]. split; [by rewrite Hpx|]. split; [by rewrite Hd4; cbn; rewrite Hd2|].
  assert (Hs13 : same_but (fun a => between x (x + MAXNAMELEN) a \/ between (f_type x) (f_type x + 4) a \/
    between (D + L * BLKSIZE) (D + (L + nblks (pl_len p)) * BLKSIZE) a) (hmem s) (hmem s3)).
  { assert (Hnl : Z.of_nat (length nm) <= MAXNAMELEN) by (unfold nm; rewrite length_app; simpl; lia).
    pose proof (nblks_bound (pl_len p) ltac:(lia)) as Hnb'.
    change (hmem s3) with (stbytes (hmem s2) (D + L * BLKSIZE) data). rewrite Hm2, Hm1.
    eapply same_but_mono; [exact (same_but_trans _ _ _ _ _ (same_but_trans _ _ _ _ _ (same_but_stbytes _ _ _)
      (same_but_st32 _ _ _)) (same_but_stbytes _ _ _))|].
    intros a [[Ha | Ha] | Ha]; [left | right; left | right; right]; unfold between, f_name in *; lia. }
  split.
  { eapply same_but_mono; [exact (same_but_trans _ _ _ _ _ Hs13 Hs4)|]. fold x. unfold written, between.
    replace (E + (n + 1) * sizeof_File) with (x + 256) by (unfold x, sizeof_File; lia).
    unfold f_type, f_size, f_direct, f_indirect, MAXNAMELEN, NDIRECT, BLKSIZE, PGSIZE. intros a Ha. lia. }
  apply (entry_written (hmem s) (hmem s1) (hmem s2) (hmem s3)); rewrite ?Hpn, ?Hpd, ?Hps; try done.
  - rewrite Hpi, Hpx. exact Hs4.
  - rewrite Hpi. exact Hbm.
Qed.

Lemma writefiles_run files s L n :
  at_block D nb s L -> dir_n s = n -> 0 <= n -> n + Z.of_nat (length files) <= MAX_DIR_ENTS -> 0 < L ->
  Forall file_fits files -> layout_end L files < nb ->
  exists s', writefiles D E files s = Ok tt s' /\ at_block D nb s' (layout_end L files) /\
    dir_n s' = n + Z.of_nat (length files) /\
    same_but (written n (n + Z.of_nat (length files)) L (layout_end L files)) (hmem s) (hmem s') /\
    forall i p, layout L files !! i = Some p -> entry (hmem s') (E + (n + Z.of_nat i) * sizeof_File) p.
Proof.
  revert s L n. induction files as [|[name data] files IH]; intros s L n Hat Hn Hn0 Hmax HL Hf Hend.
  - exists s. split; [done|]. split; [exact Hat|]. split; [simpl; lia|]. split; [apply same_but_refl|].
    intros i p. done.
  - apply Forall_cons in Hf as [Hf Hfs]. cbn [writefiles layout layout_end length] in *. cbv zeta.
    set (p := mkPlaced (basename name) data L) in *.
    pose proof (pl_end_le p) as Hpe. change (pl_start p) with L in Hpe.
    pose proof (layout_end_le (pl_end p) files) as Hle. rewrite Nat2Z.inj_succ in Hmax.
    destruct (writefile_run s L n name data Hat Hn ltac:(lia) HL Hf ltac:(fold p; lia)) as (s1 & R1 & Hat1 & Hn1 & Hs1 & He1).
    fold p in Hat1, Hs1, He1. urw R1.
    destruct (IH s1 (pl_end p) (n + 1) Hat1 Hn1 ltac:(lia) ltac:(lia) ltac:(lia) Hfs Hend) as (s2 & R2 & Hat2 & Hn2 & Hs2 & He2).
    assert (Hok : pl_ok p) by (split; [apply Hf | apply Hf]).
    assert (Hnx : 0 <= pl_start p /\ pl_end p < nb) by (change (pl_start p) with L; lia).
    exists s2. split; [exact R2|]. split; [exact Hat2|]. split; [lia|]. split.
    + eapply same_but_mono; [exact (same_but_trans _ _ _ _ _ Hs1 Hs2)|]. clearbody p. clear -Hpe Hle.
      unfold written, between, sizeof_File, BLKSIZE, PGSIZE. lia.
    + intros i q Hi. destruct i as [|i]; [|replace (n + Z.of_nat (S i)) with (n + 1 + Z.of_nat i) by lia; by apply He2].
      injection Hi as <-. rewrite Z.add_0_r. apply (entry_move (hmem s1) (hmem s2) (E + n * sizeof_File) (E + n * sizeof_File) p Hok); [| |exact He1].
      * intros o Ho. apply Hs2. clearbody p. clear -Ho Hle HL Hpe HDE Hn0 Hmax Hend. unfold written, between, MAX_DIR_ENTS, sizeof_File, BLKSIZE, PGSIZE in *. lia.
      * intros a Ha. apply Hs2. clearbody p. clear -Ha Hnx HDE Hn0 Hmax. unfold written, between, MAX_DIR_ENTS, sizeof_File, BLKSIZE, PGSIZE in *. lia.
Qed.
End files.
