(* ===== verification/FsformatImage.v ===== *)
(** * The whole image

    The super block, the root directory, the bitmap and the files, as [fsformat] leaves
    them. *)

From S2P Require Import Prelude Mem CString Mmu KState UState Fs Fsformat FsformatSpec.

Section image.
Context (D E nb : Z).
Context (Hnb : 4 <= nb <= 1024).
Context (HDE : E + MAX_DIR_ENTS * sizeof_File <= D \/ D + nb * BLKSIZE <= E).

(** The addresses of the super block, the root directory's file and the bitmap. *)
Definition hsuper : Z := D + 1 * BLKSIZE.
Definition hroot : Z := s_root hsuper.
Definition hbitmap : Z := D + 2 * BLKSIZE.

(** ** [opendisk] *)

Record opened (m : memory) : Prop := {
  op_magic : ld32 m (s_magic hsuper) = FS_MAGIC;
  op_nblocks : ld32 m (s_nblocks hsuper) = nb;
  op_type : ld32 m (f_type hroot) = FTYPE_DIR;
  op_bits : forall a, between hbitmap (hbitmap + BLKSIZE) a -> ld8 m a = 255 }.

Lemma bitmap_len : Z.to_nat (w32 (nb + BLKBITSIZE - 1) / BLKBITSIZE * BLKSIZE) = 4096%nat.
Proof. unfold BLKBITSIZE, BLKSIZE, PGSIZE. rewrite w32_small by lia. replace ((nb + 4096 * 8 - 1) / (4096 * 8)) with 1 by zlia. done. Qed.

Lemma opendisk_run s :
  nblocks s = nb ->
  exists s', opendisk D s = Ok (hsuper, hbitmap) s' /\ at_block D nb s' 3 /\ dir_n s' = dir_n s /\
    same_but (between hsuper (hbitmap + BLKSIZE)) (hmem s) (hmem s') /\ opened (hmem s').
Proof.
  intros Hn. unfold opendisk. ub. ub. rewrite Hn.
  set (s0 := s <| diskpos := D |>).
  assert (Hat0 : at_block D nb s0 0) by (split; [cbn; lia | split; [exact Hn | lia]]).
  assert (Hb1 : nblks BLKSIZE = 1) by done.
  destruct (alloc_run D nb Hnb s0 0 BLKSIZE Hat0 ltac:(done) ltac:(lia)) as (s1 & R1 & Hat1 & Hm1 & Hd1). urw R1.
  destruct (alloc_run D nb Hnb s1 1 BLKSIZE Hat1 ltac:(done) ltac:(lia)) as (s2 & R2 & Hat2 & Hm2 & Hd2). urw R2.
  fold hsuper. uh. uh. uh. uh. fold hroot. cbv zeta.
  set (s3 := _ <| hmem := _ |>).
  assert (Hm3 : hmem s3 = stbytes (st32 (st32 (st32 (hmem s) (s_magic hsuper) FS_MAGIC) (s_nblocks hsuper) nb)
    (f_type hroot) FTYPE_DIR) hroot [slash; 0]) by (unfold s3; cbn [hmem]; rewrite Hm2, Hm1; done).
  assert (Hat3 : at_block D nb s3 2) by exact Hat2. assert (Hd3 : dir_n s3 = dir_n s) by (cbn; rewrite Hd2, Hd1; done).
  clearbody s3. clear Hm2 Hm1 Hat2 Hat1 Hat0 Hd2 Hd1 R1 R2.
  assert (Hbl : nblks (w32 (nb + BLKBITSIZE - 1) / BLKBITSIZE * BLKSIZE) = 1).
  { unfold nblks, BLKBITSIZE, BLKSIZE, PGSIZE. rewrite w32_small by lia.
    replace ((nb + 4096 * 8 - 1) / (4096 * 8)) with 1 by zlia. done. }
  destruct (alloc_run D nb Hnb s3 2 (w32 (nb + BLKBITSIZE - 1) / BLKBITSIZE * BLKSIZE) Hat3) as (s4 & R4 & Hat4 & Hm4 & Hd4).
  { unfold BLKBITSIZE, BLKSIZE, PGSIZE. rewrite w32_small by lia. zlia. }
  { lia. }
  urw R4. fold hbitmap. uh. rewrite bitmap_len.
  eexists. split; [reflexivity|]. split; [rewrite Hbl in Hat4; exact Hat4|]. split; [cbn; by rewrite Hd4|].
  cbn [hmem]. rewrite Hm4, Hm3. set (m := stbytes (st32 _ _ _) hroot [slash; 0]).
  assert (Hsm : same_but (between hsuper (hsuper + 4096)) (hmem s) m).
  { unfold m. eapply same_but_mono; [exact (same_but_trans _ _ _ _ _ (same_but_trans _ _ _ _ _ (same_but_trans _ _ _ _ _
      (same_but_st32 _ _ _) (same_but_st32 _ _ _)) (same_but_st32 _ _ _)) (same_but_stbytes _ _ _))|].
    unfold between, s_magic, s_nblocks, f_type, hroot, s_root, MAXNAMELEN. simpl. lia. }
  assert (Hsb : same_but (between hbitmap (hbitmap + BLKSIZE)) m (stbytes m hbitmap (repeat 255 4096))).
  { eapply same_but_mono; [apply same_but_stbytes|]. rewrite repeat_length. done. }
  assert (Hlow : forall a v, hsuper <= a < hsuper + 4000 -> ld32 m a = v -> ld32 (stbytes m hbitmap (repeat 255 4096)) a = v).
  { intros a v Ha <-. apply word_same. intros i Hi. apply Hsb. unfold between, hbitmap, hsuper, BLKSIZE, PGSIZE in *. lia. }
  assert (Hw : forall a v, hsuper <= a -> a + 4 <= hroot \/ hroot + 2 <= a -> a + 4 <= hsuper + 4096 ->
    ld32 (st32 (st32 (st32 (hmem s) (s_magic hsuper) FS_MAGIC) (s_nblocks hsuper) nb) (f_type hroot) FTYPE_DIR) a = v ->
    ld32 m a = v).
  { intros a v H1 H2 H3 <-. apply word_same. intros i Hi. apply same_but_stbytes. unfold between. simpl. lia. }
  split; [|constructor].
  - eapply same_but_mono; [exact (same_but_trans _ _ _ _ _ Hsm Hsb)|].
    unfold between, hbitmap, hsuper, BLKSIZE, PGSIZE. lia.
  - apply Hlow; [unfold s_magic; lia|]. apply Hw; [unfold hroot, s_root, s_magic; lia..|].
    rewrite !ld32_st32_ne by (unfold s_magic, s_nblocks, f_type, hroot, s_root, MAXNAMELEN; lia). by rewrite ld32_st32_eq.
  - apply Hlow; [unfold s_nblocks; lia|]. apply Hw; [unfold hroot, s_root, s_nblocks; lia..|].
    rewrite ld32_st32_ne by (unfold s_magic, s_nblocks, f_type, hroot, s_root, MAXNAMELEN; lia).
    rewrite ld32_st32_eq. apply w32_small. lia.
  - apply Hlow; [unfold f_type, hroot, s_root, MAXNAMELEN; lia|]. apply Hw; [unfold f_type, hroot, s_root, MAXNAMELEN; lia..|].
    by rewrite ld32_st32_eq.
  - intros a Ha. unfold between in Ha. replace a with (hbitmap + Z.of_nat (Z.to_nat (a - hbitmap))) by lia.
    change (hmem (s4 <| hmem := ?x |>)) with x. rewrite (ld8_stbytes_in _ _ _ _ 255); [done|].
    apply lookup_repeat. unfold BLKSIZE, PGSIZE in Ha. lia.
Qed.

(** ** [finishdir] *)

(** The size of the root directory: whole blocks, one even when there is no file. *)
Definition dir_len (n : Z) : Z := ROUNDUPi (n * sizeof_File) BLKSIZE.
Lemma dir_len_val n : 0 <= n <= MAX_DIR_ENTS ->
  dir_len n = Z.max 1 (nblks (n * sizeof_File)) * BLKSIZE /\ nblks (dir_len n) = Z.max 1 (nblks (n * sizeof_File)) /\
  0 <= nblks (n * sizeof_File) <= 8 /\ (n = 0 -> nblks (n * sizeof_File) = 0) /\ nind (dir_len n) = 0.
Proof.
  intros Hn. unfold MAX_DIR_ENTS in Hn.
  assert (H1 : dir_len n = Z.max 1 (nblks (n * sizeof_File)) * BLKSIZE).
  { unfold dir_len, ROUNDUPi, nblks, sizeof_File, BLKSIZE, PGSIZE.
    destruct (Z.eq_dec n 0) as [-> | Hz]; [done|]. rewrite Z.rem_mod_nonneg by lia. zlia. }
  assert (H2 : 0 <= nblks (n * sizeof_File) <= 8) by (unfold nblks, sizeof_File, BLKSIZE, PGSIZE; zlia).
  assert (H3 : nblks (dir_len n) = Z.max 1 (nblks (n * sizeof_File))).
  { rewrite H1. generalize dependent (nblks (n * sizeof_File)). intros k _ Hk. unfold nblks, BLKSIZE, PGSIZE. zlia. }
  split; [exact H1|]. split; [exact H3|]. split; [exact H2|]. split; [by intros ->|].
  unfold nind. rewrite H3. unfold NDIRECT. destruct (Z.ltb_spec (Z.max 1 (nblks (n * sizeof_File))) 10); [done | lia].
Qed.

Lemma finishdir_run s L n :
  at_block D nb s L -> dir_n s = n -> 0 <= n <= MAX_DIR_ENTS -> 3 <= L -> L + nblks (n * sizeof_File) < nb ->
  exists s', finishdir D E hroot s = Ok tt s' /\ at_block D nb s' (L + nblks (n * sizeof_File)) /\
    same_but (fun a => between hsuper (hsuper + BLKSIZE) a /\ ~ between (f_type hroot) (f_type hroot + 4) a /\
        ~ between hsuper (hsuper + 8) a \/
      between (D + L * BLKSIZE) (D + L * BLKSIZE + n * sizeof_File) a) (hmem s) (hmem s') /\
    block_map D (hmem s') hroot (dir_len n) L (L + nblks (n * sizeof_File)) /\
    (forall o, 0 <= o < n * sizeof_File -> ld8 (hmem s') (D + L * BLKSIZE + o) = ld8 (hmem s) (E + o)).
Proof.
  intros Hat Hn Hnr HL Hfit. destruct (dir_len_val n Hnr) as (Hdl & Hdn & Hk8 & _ & Hni).
  assert (Hsz : 0 <= n * sizeof_File <= 32768) by (unfold MAX_DIR_ENTS, sizeof_File in *; lia).
  unfold finishdir. ub. rewrite Hn.
  destruct (alloc_run D nb Hnb s L (n * sizeof_File) Hat ltac:(lia) Hfit) as (s1 & R1 & Hat1 & Hm1 & Hd1).
  cbv zeta. urw R1. ub. uh. fold (dir_len n). rewrite blockof_at by (destruct Hat as (_ & _ & HLn); lia).
  set (bs := ldbytes (hmem s1) E (Z.to_nat (n * sizeof_File))).
  assert (Hbl : Z.of_nat (length bs) = n * sizeof_File) by (unfold bs; rewrite ldbytes_length; lia).
  set (s2 := s1 <| hmem := stbytes (hmem s1) (D + L * BLKSIZE) bs |>).
  assert (Hat2 : at_block D nb s2 (L + nblks (n * sizeof_File))) by exact Hat1.
  destruct (finishfile_run D nb Hnb s2 (L + nblks (n * sizeof_File)) hroot L (dir_len n) Hat2) as (s3 & R3 & Hat3 & _ & Hs3 & Hbm).
  { rewrite Hdl. unfold MAXFILESIZE. change (NDIRECT + NINDIRECT) with 1034. unfold BLKSIZE, PGSIZE. lia. }
  { lia. } { lia. } { lia. } { lia. }
  { intros o Ho. unfold between, hroot, s_root, hsuper, sizeof_File, BLKSIZE, PGSIZE in *. lia. }
  rewrite Hni, Z.add_0_r in *.
  assert (Hs12 : same_but (between (D + L * BLKSIZE) (D + L * BLKSIZE + n * sizeof_File)) (hmem s) (hmem s2)).
  { change (hmem s2) with (stbytes (hmem s1) (D + L * BLKSIZE) bs). rewrite <- Hm1, <- Hbl. apply same_but_stbytes. }
  assert (Hs3' : same_but (fun a => between hsuper (hsuper + BLKSIZE) a /\ ~ between (f_type hroot) (f_type hroot + 4) a /\
        ~ between hsuper (hsuper + 8) a) (hmem s2) (hmem s3)).
  { eapply same_but_mono; [exact Hs3|]. unfold between, f_size, f_direct, f_indirect, f_type, hroot, s_root, NDIRECT, MAXNAMELEN, BLKSIZE, PGSIZE. lia. }
  exists s3. split; [exact R3|]. split; [exact Hat3|]. split; [|split; [exact Hbm|]].
  - eapply same_but_mono; [exact (same_but_trans _ _ _ _ _ Hs12 Hs3')|]. tauto.
  - intros o Ho. rewrite Hs3' by (unfold between, hsuper, BLKSIZE, PGSIZE in *; lia).
    change (hmem s2) with (stbytes (hmem s1) (D + L * BLKSIZE) bs). rewrite <- Hm1.
    replace o with (Z.of_nat (Z.to_nat o)) at 1 by lia.
    rewrite (ld8_stbytes_in _ _ _ _ (ld8 (hmem s1) (E + Z.of_nat (Z.to_nat o)))).
    + rewrite ld8_mod. by rewrite Z2Nat.id by lia.
    + unfold bs. apply ldbytes_lookup. lia.
Qed.

(** ** [finishdisk] *)

(** The bit of block [b]. *)
Definition bit (m : memory) (b : Z) : bool := Z.testbit (ld32 m (hbitmap + 4 * (b / 32))) (b mod 32).

Lemma bit_cleared m j b :
  0 <= j < 1024 -> 0 <= b < 1024 ->
  bit (st32 m (hbitmap + 4 * (j / 32)) (Z.land (ld32 m (hbitmap + 4 * (j / 32))) (Z.lnot (w32 (Z.shiftl 1 (j mod 32)))))) b =
  negb (b =? j) && bit m b.
Proof.
  intros Hj Hb. unfold bit. pose proof (Z.mod_pos_bound b 32 ltac:(lia)) as Hmb. pose proof (Z.mod_pos_bound j 32 ltac:(lia)) as Hmj.
  destruct (Z.eq_dec (j / 32) (b / 32)) as [Hq | Hq].
  - rewrite <- Hq, ld32_st32_eq. unfold w32 at 1. rewrite Z.mod_pow2_bits_low by lia.
    rewrite Z.land_spec, Z.lnot_spec by lia.
    rewrite Z.shiftl_1_l, w32_small by (split; [lia | apply Z.pow_lt_mono_r; lia]).
    rewrite Z.pow2_bits_eqb by lia.
    destruct (Z.eqb_spec b j) as [-> | Hne]; [rewrite Z.eqb_refl; apply andb_false_r|].
    destruct (Z.eqb_spec (j mod 32) (b mod 32)); [exfalso; zlia|]. by rewrite andb_true_r.
  - rewrite ld32_st32_ne by lia. destruct (Z.eqb_spec b j) as [-> | Hne]; [done | done].
Qed.

Lemma finishdisk_run s L :
  at_block D nb s L -> (forall a, between hbitmap (hbitmap + BLKSIZE) a -> ld8 (hmem s) a = 255) ->
  exists s', finishdisk D hbitmap s = Ok tt s' /\
    same_but (between hbitmap (hbitmap + BLKSIZE)) (hmem s) (hmem s') /\
    forall b, 0 <= b < 1024 -> bit (hmem s') b = (L <=? b).
Proof.
  intros (Hp & _ & HL) Hones. unfold finishdisk. ub. rewrite Hp, blockof_at by lia.
  destruct (ufor_run (fun i s' => same_but (between hbitmap (hbitmap + BLKSIZE)) (hmem s) (hmem s') /\
    forall b, 0 <= b < 1024 -> bit (hmem s') b = (i <=? b))
    (fun i => w ← uget (fun s => ld32 (hmem s) (hbitmap + 4 * (i / 32)));
       hst32 (hbitmap + 4 * (i / 32)) (Z.land w (Z.lnot (w32 (Z.shiftl 1 (i mod 32)))))) (Z.to_nat L) 0 s)
    as (s' & R & Hs' & Hb').
  - intros j s1 Hj [Hs1 Hb1]. eexists. split; [reflexivity|]. cbn [hmem]. split.
    + eapply same_but_mono; [exact (same_but_trans _ _ _ _ _ Hs1 (same_but_st32 _ _ _))|].
      unfold between, BLKSIZE, PGSIZE. intros a. zlia.
    + intros b Hb. change (hmem (s1 <| hmem := ?x |>)) with x. rewrite bit_cleared by lia. rewrite Hb1 by done.
      destruct (Z.eqb_spec b j), (Z.leb_spec j b), (Z.leb_spec (j + 1) b); done || lia.
  - split; [apply same_but_refl|]. intros b Hb. unfold bit.
    assert (Hw : ld32 (hmem s) (hbitmap + 4 * (b / 32)) = 2 ^ 32 - 1).
    { unfold ld32. rewrite !Hones by (unfold between, BLKSIZE, PGSIZE; zlia). done. }
    rewrite Hw. replace (2 ^ 32 - 1) with (Z.ones 32) by done.
    rewrite Z.ones_spec_low by (pose proof (Z.mod_pos_bound b 32 ltac:(lia)); lia). symmetry. apply Z.leb_le. lia.
  - exists s'. split; [exact R|]. split; [exact Hs'|]. intros b Hb. rewrite Hb' by done. by rewrite Z2Nat.id by lia.
Qed.

(** ** [fsformat] *)

Definition dir_start (files : list (list Z * list Z)) : Z := layout_end 3 files.
Definition image_end (files : list (list Z * list Z)) : Z :=
  dir_start files + nblks (Z.of_nat (length files) * sizeof_File).

(** The files go on the disk. *)
Record files_fit (files : list (list Z * list Z)) : Prop := {
  fit_each : Forall file_fits files;
  fit_count : Z.of_nat (length files) <= MAX_DIR_ENTS;
  fit_blocks : image_end files < nb }.

(** The image of [files]. *)
Record image (m : memory) (files : list (list Z * list Z)) : Prop := {
  im_magic : ld32 m (s_magic hsuper) = FS_MAGIC;
  im_nblocks : ld32 m (s_nblocks hsuper) = nb;
  im_type : ld32 m (f_type hroot) = FTYPE_DIR;
  im_root : block_map D m hroot (dir_len (Z.of_nat (length files))) (dir_start files) (image_end files);
  im_files : forall i p, layout 3 files !! i = Some p ->
    entry D m (D + dir_start files * BLKSIZE + Z.of_nat i * sizeof_File) p;
  im_rest : forall o, Z.of_nat (length files) * sizeof_File <= o < dir_len (Z.of_nat (length files)) ->
    ld8 m (D + dir_start files * BLKSIZE + o) = 0;
  im_bits : forall b, 0 <= b < 1024 -> bit m b = (image_end files <=? b) }.

Lemma word_keep (P : Z -> Prop) m m' a : same_but P m m' -> (forall b, a <= b < a + 4 -> ~ P b) -> ld32 m' a = ld32 m a.
Proof. intros Hs Hp. apply word_same. intros i Hi. apply Hs, Hp. lia. Qed.

Lemma block_map_keep (P : Z -> Prop) m m' x len st ind :
  same_but P m m' -> block_map D m x len st ind -> nblks len <= NDIRECT - 1 ->
  (forall b, x <= b < x + sizeof_File -> ~ P b) -> block_map D m' x len st ind.
Proof.
  intros Hs [H1 H2 H3 H4] Hn Hp. unfold sizeof_File in Hp.
  constructor; [ | | lia | intros; lia].
  - rewrite <- H1. apply (word_keep P m); [done|]. intros b Hb. apply Hp. unfold f_size, MAXNAMELEN in Hb. lia.
  - intros k Hk1 Hk2. rewrite <- H2 by done. apply (word_keep P m); [done|]. intros b Hb. apply Hp.
    unfold f_direct, MAXNAMELEN, NDIRECT in *. lia.
Qed.

Lemma placed_ok files p : Forall file_fits files -> p ∈ layout 3 files -> pl_ok p.
Proof.
  intros Hf Hin. apply list_elem_of_lookup in Hin as [i Hi]. destruct (layout_lookup _ _ _ _ Hi) as (name & Hlk & Hn).
  destruct (Forall_lookup_1 _ _ _ _ Hf Hlk) as [_ _ Hs _ Hd]. cbn [fst snd] in *.
  split; [by rewrite Hn | exact Hd].
Qed.

(** The directory, its blocks not yet marked in the bitmap. *)
Lemma directory_written m1 m2 m3 files :
  Forall file_fits files -> Z.of_nat (length files) <= MAX_DIR_ENTS -> image_end files < nb ->
  (forall a, between D (D + nb * BLKSIZE) a -> ~ between hsuper (hbitmap + BLKSIZE) a -> ld8 m1 a = 0) ->
  same_but (written D E 0 (Z.of_nat (length files)) 3 (dir_start files)) m1 m2 ->
  (forall i p, layout 3 files !! i = Some p -> entry D m2 (E + Z.of_nat i * sizeof_File) p) ->
  same_but (fun a => between hsuper (hsuper + BLKSIZE) a /\ ~ between (f_type hroot) (f_type hroot + 4) a /\
        ~ between hsuper (hsuper + 8) a \/
      between (D + dir_start files * BLKSIZE) (D + dir_start files * BLKSIZE + Z.of_nat (length files) * sizeof_File) a) m2 m3 ->
  (forall o, 0 <= o < Z.of_nat (length files) * sizeof_File ->
     ld8 m3 (D + dir_start files * BLKSIZE + o) = ld8 m2 (E + o)) ->
  (forall i p, layout 3 files !! i = Some p ->
     entry D m3 (D + dir_start files * BLKSIZE + Z.of_nat i * sizeof_File) p) /\
  (forall o, Z.of_nat (length files) * sizeof_File <= o < dir_len (Z.of_nat (length files)) ->
     ld8 m3 (D + dir_start files * BLKSIZE + o) = 0).
Proof.
  intros Hf Hc Hend Hz Hs2 He Hs3 Hmv. set (n := Z.of_nat (length files)) in *. set (L := dir_start files) in *.
  assert (HL : 3 <= L) by apply layout_end_le.
  destruct (dir_len_val n ltac:(lia)) as (Hdl & _ & Hk8 & Hk0 & _). unfold image_end in Hend. fold L n in Hend.
  split.
  - intros i p Hi. pose proof (list_elem_of_lookup_2 _ _ _ Hi) as Hin.
    pose proof (layout_range 3 files p Hin) as Hr. fold (dir_start files) in Hr. fold L in Hr.
    assert (Hi' : Z.of_nat i < n) by (apply lookup_lt_Some in Hi; rewrite layout_length in Hi; lia).
    apply (entry_move D m2 m3 (E + Z.of_nat i * sizeof_File) _ p (placed_ok files p Hf Hin)); [| |by apply He].
    + intros o Ho. rewrite <- (Z.add_assoc E), <- (Z.add_assoc (D + L * BLKSIZE)). apply Hmv.
      unfold sizeof_File in *. lia.
    + intros a Ha. apply Hs3. clear -Ha Hr HL. unfold between, hsuper, BLKSIZE, PGSIZE, sizeof_File in *. lia.
  - intros o Ho. assert (Hn0 : 0 <= n) by lia. rewrite Hs3.
    + rewrite Hs2.
      * apply Hz; clear -Hn0 Ho Hdl HL Hend Hk8 Hk0 Hc; destruct (Z.eq_dec n 0) as [H0 | H0];
          unfold between, hsuper, hbitmap, sizeof_File, BLKSIZE, PGSIZE in *; lia.
      * unfold written. clear -Hn0 Ho Hdl HL Hend Hk8 Hk0 Hc HDE Hnb.
        unfold between, MAX_DIR_ENTS, sizeof_File, BLKSIZE, PGSIZE in *. lia.
    + clear -Hn0 Ho HL. unfold between, hsuper, sizeof_File, BLKSIZE, PGSIZE in *. lia.
Qed.

Lemma fsformat_run s files :
  files_fit files -> (forall a, between D (D + nb * BLKSIZE) a -> ld8 (hmem s) a = 0) ->
  exists s', fsformat D E nb files s = Ok tt s' /\ image (hmem s') files.
Proof.
  intros [Hf Hc Hend] Hz. unfold fsformat.
  destruct (Z.ltb_spec nb 2); [lia|]. destruct (Z.gtb_spec nb 1024); [lia|]. cbn [orb]. ub.
  set (n := Z.of_nat (length files)) in *.
  assert (HL : 3 <= dir_start files) by apply layout_end_le.
  destruct (dir_len_val n ltac:(lia)) as (Hdl & Hdn & Hk8 & Hk0 & _).
  destruct (opendisk_run (s <| nblocks := nb |>) ltac:(done)) as (s1 & R1 & Hat1 & _ & Hs1 & Hop). urw R1.
  unfold startdir. ub. set (s2 := s1 <| dir_n := 0 |>).
  assert (Hat2 : at_block D nb s2 3) by exact Hat1.
  unfold image_end in Hend. fold n in Hend.
  destruct (writefiles_run D E nb Hnb HDE files s2 3 0 Hat2 eq_refl ltac:(lia) ltac:(lia) ltac:(lia) Hf
    ltac:(fold (dir_start files); lia)) as (s3 & R3 & Hat3 & Hn3 & Hs3 & He3).
  urw R3. fold (dir_start files) in Hat3, Hs3. fold n in Hn3, Hs3. rewrite Z.add_0_l in Hn3, Hs3. fold hroot.
  destruct (finishdir_run s3 (dir_start files) n Hat3 Hn3 ltac:(lia) HL Hend) as (s4 & R4 & Hat4 & Hs4 & Hbm4 & Hmv4).
  urw R4. fold (image_end files) in Hat4. 
  assert (Hones : forall a, between hbitmap (hbitmap + BLKSIZE) a -> ld8 (hmem s4) a = 255).
  { intros a Ha. rewrite Hs4, Hs3; [by apply Hop| |].
    - unfold written, between, hbitmap, MAX_DIR_ENTS, sizeof_File, BLKSIZE, PGSIZE in *. lia.
    - unfold between, hbitmap, hsuper, sizeof_File, BLKSIZE, PGSIZE in *. lia. }
  destruct (finishdisk_run s4 (image_end files) Hat4 Hones) as (s5 & R5 & Hs5 & Hbits).
  exists s5. split; [exact R5|].
  destruct (directory_written (hmem s1) (hmem s3) (hmem s4) files Hf Hc Hend) as [Hde Hdr].
  - intros a Ha Hb. rewrite (Hs1 a Hb). by apply Hz.
  - exact Hs3.
  - intros i p Hi. apply (He3 i p Hi).
  - exact Hs4.
  - exact Hmv4.
  - fold n in Hdr.
    assert (Hw : forall a, hsuper <= a -> a + 4 <= hsuper + BLKSIZE ->
      (forall b, a <= b < a + 4 -> between (f_type hroot) (f_type hroot + 4) b \/ between hsuper (hsuper + 8) b) ->
      ld32 (hmem s5) a = ld32 (hmem s1) a).
    { intros a Ha1 Ha2 Hab. rewrite (word_keep _ _ _ a Hs5), (word_keep _ _ _ a Hs4), (word_keep _ _ _ a Hs3).
      - done.
      - intros b Hb. clear -Ha1 Ha2 Hb HDE HL Hnb Hc. unfold written, between, hsuper, MAX_DIR_ENTS, sizeof_File, BLKSIZE, PGSIZE in *. lia.
      - intros b Hb [(_ & Hn1 & Hn2) | Hb2]; [destruct (Hab b Hb); done|]. clear -Ha1 Ha2 Hb Hb2 HL.
        unfold between, hsuper, BLKSIZE, PGSIZE in *. lia.
      - intros b Hb. unfold between, hbitmap, hsuper, BLKSIZE, PGSIZE in *. lia. }
    assert (Hk5 : forall o, ld8 (hmem s5) (D + dir_start files * BLKSIZE + o) = ld8 (hmem s4) (D + dir_start files * BLKSIZE + o) \/ o < 0).
    { intros o. destruct (Z.lt_ge_cases o 0); [by right | left]. apply Hs5.
      unfold between, hbitmap, BLKSIZE, PGSIZE. lia. }
    constructor.
    + rewrite Hw; [apply Hop | unfold s_magic; lia | unfold s_magic, BLKSIZE, PGSIZE; lia |].
      intros b Hb. right. unfold between, s_magic in *. lia.
    + rewrite Hw; [apply Hop | unfold s_nblocks; lia | unfold s_nblocks, BLKSIZE, PGSIZE; lia |].
      intros b Hb. right. unfold between, s_nblocks in *. lia.
    + rewrite Hw; [apply Hop | unfold f_type, hroot, s_root, MAXNAMELEN; lia | unfold f_type, hroot, s_root, MAXNAMELEN, BLKSIZE, PGSIZE; lia |].
      intros b Hb. left. exact Hb.
    + apply (block_map_keep _ (hmem s4) _ _ _ _ _ Hs5 Hbm4); [fold n; rewrite Hdn; unfold NDIRECT; lia|].
      intros b Hb. unfold between, hbitmap, hroot, s_root, hsuper, sizeof_File, BLKSIZE, PGSIZE in *. lia.
    + intros i p Hi. pose proof (list_elem_of_lookup_2 _ _ _ Hi) as Hin.
      pose proof (layout_range 3 files p Hin) as Hr. fold (dir_start files) in Hr.
      apply (entry_move D (hmem s4) (hmem s5) (D + dir_start files * BLKSIZE + Z.of_nat i * sizeof_File) _ p (placed_ok files p Hf Hin)); [| |by apply Hde].
      * intros o Ho. rewrite <- !(Z.add_assoc (D + _)). destruct (Hk5 (Z.of_nat i * sizeof_File + o)) as [Hk | Hk]; [exact Hk|].
        unfold sizeof_File in *. lia.
      * intros a Ha. apply Hs5. clear -Ha Hr. unfold between, hbitmap, BLKSIZE, PGSIZE in *. lia.
    + intros o Ho. fold n in Ho. destruct (Hk5 o) as [-> | Hk]; [by apply Hdr|]. unfold sizeof_File in *. lia.
    + exact Hbits.
Qed.
End image.
