(* ===== verification/FsformatView.v ===== *)
(** * A formatted disk as the file server sees it

    The image of [fsformat], read back through the definitions of [fs/fs.c]: its super
    block mounts, its root directory can be searched, each file is found by its name
    and has its blocks and its bytes. *)

From S2P Require Import Prelude Mem CString Mmu KState UState Fs FsInv FsSpec FsFile FsRead FsDir Fsformat FsformatSpec FsformatImage.

(** ** Lists *)

Lemma find_seqZ (p : Z -> bool) k n i :
  0 <= i -> i < k -> n = 0 -> p i = true -> (forall j, 0 <= j < i -> p j = false) ->
  List.find p (seqZ n k) = Some i.
Proof.
  intros H0 Hk -> Hi Hj.
  assert (Hgen : forall m a, 0 <= a -> a + Z.of_nat m = k -> a <= i -> List.find p (seqZ a (Z.of_nat m)) = Some i).
  { induction m as [|m IH]; intros a Ha Hm Hai; [lia|]. rewrite seqZ_cons by lia. cbn [List.find].
    destruct (Z.eq_dec a i) as [-> | Hne]; [by rewrite Hi|]. rewrite Hj by lia.
    replace (Z.pred (Z.of_nat (S m))) with (Z.of_nat m) by lia. apply IH; lia. }
  rewrite <- (Z2Nat.id k) by lia. apply Hgen; lia.
Qed.

(** A NUL-terminated name is determined by the bytes it starts. *)
Lemma name_unique m x p q :
  Forall (fun c => 0 < c) p -> Forall (fun c => 0 < c) q ->
  ldbytes m x (S (length p)) = p ++ [0] -> ldbytes m x (S (length q)) = q ++ [0] -> p = q.
Proof.
  assert (Hle : forall p q, Forall (fun c => 0 < c) p -> ldbytes m x (S (length p)) = p ++ [0] ->
    ldbytes m x (S (length q)) = q ++ [0] -> (length p <= length q)%nat).
  { clear p q. intros p q Hp Hmp Hmq. destruct (decide (length p <= length q)%nat) as [|Hgt]; [done|]. exfalso.
    assert (H1 : ldbytes m x (S (length p)) !! length q = Some (ld8 m (x + Z.of_nat (length q)))) by (apply ldbytes_lookup; lia).
    assert (H2 : ldbytes m x (S (length q)) !! length q = Some (ld8 m (x + Z.of_nat (length q)))) by (apply ldbytes_lookup; lia).
    rewrite Hmq, lookup_app_r, Nat.sub_diag in H2 by lia. injection H2 as H2.
    rewrite Hmp, <- H2, lookup_app_l in H1 by lia. pose proof (Forall_lookup_1 _ _ _ _ Hp H1). simpl in *. lia. }
  intros Hp Hq Hmp Hmq. pose proof (Hle p q Hp Hmp Hmq). pose proof (Hle q p Hq Hmq Hmp).
  assert (Hl : length p = length q) by lia. rewrite Hl in Hmp. rewrite Hmp in Hmq. by apply app_inj_2 in Hmq as [-> _].
Qed.

(** A base name has no slash, so it is one path element. *)
Lemma basename_plain name : Forall (fun c => (c =? slash) = false) (basename name).
Proof.
  unfold basename. assert (Hgen : forall l acc, Forall (fun c => (c =? slash) = false) acc ->
    Forall (fun c => (c =? slash) = false) (fold_left (fun last c => if c =? slash then [] else last ++ [c]) l acc)).
  { induction l as [|c l IH]; intros acc Ha; [done|]. cbn [fold_left]. apply IH. destruct (c =? slash) eqn:E; [done|].
    apply Forall_app. by repeat constructor. }
  by apply Hgen.
Qed.
Lemma elements_plain w : w <> [] -> Forall (fun c => (c =? slash) = false) w -> elements w = [w].
Proof.
  intros Hne Hw. assert (Hs : split_slash w = [w]).
  { clear Hne. induction Hw as [|c w Hc Hw IH]; [done|]. cbn [split_slash]. by rewrite Hc, IH. }
  unfold elements. rewrite Hs. by rewrite filter_cons_True.
Qed.

Section view.
Context (D E nb : Z).
Context (Hnb : 4 <= nb <= 1024).
Context (m : memory) (files : list (list Z * list Z)).
Context (Hfit : files_fit nb files) (Him : image D nb m files).
Context `{Disk}.
Context (Hdisk : forall o, 0 <= o < nb * BLKSIZE -> disk_byte o mod 256 = ld8 m (D + o)).

Let n := Z.of_nat (length files).
Let L := dir_start files.
Let root := s_root SB.

Lemma raw_byte o : 0 <= o < nb * BLKSIZE -> raw (DISKMAP + o) = ld8 m (D + o).
Proof. intros Ho. unfold raw. replace (DISKMAP + o - DISKMAP) with o by lia. by apply Hdisk. Qed.
Lemma raw_word o : 0 <= o -> o + 4 <= nb * BLKSIZE -> v32 raw (DISKMAP + o) = ld32 m (D + o).
Proof. intros H0 H4. unfold v32, ld32. rewrite <- !Z.add_assoc. rewrite !raw_byte by lia. done. Qed.

Lemma raw_bytes o k : 0 <= o -> o + Z.of_nat k <= nb * BLKSIZE ->
  map (fun i => raw (DISKMAP + o + i)) (seqZ 0 (Z.of_nat k)) = ldbytes m (D + o) k.
Proof.
  intros H0 Hk. apply list_eq. intros i. change (map ?g ?x) with (g <$> x). rewrite list_lookup_fmap.
  destruct (decide (i < k)%nat) as [Hi | Hi].
  - rewrite ldbytes_lookup by done. rewrite lookup_seqZ_lt by lia. simpl. f_equal.
    rewrite <- !Z.add_assoc, Z.add_0_l. apply raw_byte. lia.
  - rewrite lookup_seqZ_ge by lia. symmetry. apply lookup_ge_None_2. rewrite ldbytes_length. lia.
Qed.

Lemma view_facts : 3 <= L /\ 0 <= n <= MAX_DIR_ENTS /\ 0 <= nblks (n * sizeof_File) <= 8 /\
  (n = 0 -> nblks (n * sizeof_File) = 0) /\ n * sizeof_File <= nblks (n * sizeof_File) * BLKSIZE /\
  L + nblks (n * sizeof_File) < nb /\
  dir_len n = Z.max 1 (nblks (n * sizeof_File)) * BLKSIZE /\ nblks (dir_len n) = Z.max 1 (nblks (n * sizeof_File)).
Proof.
  destruct Hfit as [_ Hc Hb]. fold n in Hc. assert (Hn : 0 <= n <= MAX_DIR_ENTS) by lia.
  destruct (dir_len_val n Hn) as (H1 & H2 & H3 & H4 & _). unfold image_end in Hb. fold n in Hb. fold L in Hb.
  split; [apply layout_end_le|]. do 3 (split; [done|]). split; [|done]. apply nblks_bound. unfold sizeof_File. lia.
Qed.

Lemma mount_facts : v32 raw (s_magic SB) = FS_MAGIC /\ v32 raw (s_nblocks SB) = nb.
Proof.
  split; [etrans; [|exact (im_magic _ _ _ _ Him)] | etrans; [|exact (im_nblocks _ _ _ _ Him)]].
  - unfold s_magic, SB, baddr. rewrite raw_word by (unfold BLKSIZE, PGSIZE; lia). done.
  - unfold s_nblocks, SB, baddr. rewrite <- Z.add_assoc, raw_word by (unfold BLKSIZE, PGSIZE; lia).
    f_equal. unfold hsuper. lia.
Qed.

(** A word of the [struct File] at offset [o]. *)
Lemma root_word o : 0 <= o -> o + 4 <= sizeof_File -> v32 raw (root + o) = ld32 m (hroot D + o).
Proof.
  intros H0 H4. unfold sizeof_File in H4. replace (root + o) with (DISKMAP + (4104 + o)).
  - rewrite raw_word by (unfold BLKSIZE, PGSIZE; lia). f_equal. unfold hroot, s_root, hsuper, BLKSIZE, PGSIZE. lia.
  - unfold root, s_root, SB, baddr, BLKSIZE, PGSIZE. lia.
Qed.

Lemma root_slot k : 0 <= k < Z.max 1 (nblks (n * sizeof_File)) -> slot_val raw root k = L + k /\ 0 < L + k < nb.
Proof.
  intros Hk. destruct view_facts as (HL & Hn & Hk8 & Hk0 & _ & Hend & Hdl & Hdn). split; [|lia].
  unfold slot_val. rewrite (proj2 (Z.ltb_lt _ _)) by (unfold NDIRECT; lia).
  destruct (im_root _ _ _ _ Him) as [_ Hd _ _]. fold n in Hd. rewrite Hdn in Hd. fold L in Hd.
  rewrite <- (Hd k) by (unfold NDIRECT; lia). unfold f_direct, MAXNAMELEN.
  replace (root + 128 + 8 + 4 * k) with (root + (136 + 4 * k)) by lia.
  rewrite root_word by (unfold sizeof_File; lia). f_equal. lia.
Qed.

Lemma root_size : s32 (v32 raw (f_size root)) = dir_len n.
Proof.
  destruct view_facts as (HL & Hn & Hk8 & Hk0 & _ & Hend & Hdl & Hdn).
  unfold f_size. rewrite root_word by (unfold MAXNAMELEN, sizeof_File; lia).
  fold (f_size (hroot D)). rewrite (bm_size _ _ _ _ _ _ (im_root _ _ _ _ Him)). fold n. apply s32_small.
  unfold BLKSIZE, PGSIZE in *. lia.
Qed.

Lemma root_dir : dir_ok raw nb root.
Proof.
  destruct view_facts as (HL & Hn & Hk8 & Hk0 & _ & Hend & Hdl & Hdn).
  constructor; rewrite ?root_size, ?Hdl.
  - constructor; [done | | done]. unfold on_disk, root, s_root, SB, baddr, BLKSIZE, PGSIZE. lia.
  - change (NDIRECT + NINDIRECT) with 1034. unfold BLKSIZE, PGSIZE. lia.
  - by rewrite Z.mod_mul.
  - intros k Hk. rewrite Z.div_mul in Hk by done. destruct (root_slot k Hk) as [Hs Hr]. split; [|split].
    + change (NDIRECT + NINDIRECT) with 1034. lia.
    + by rewrite Hs.
    + unfold NDIRECT. lia.
Qed.

(** Entry [j] of the directory. *)
Lemma root_entry j : 0 <= j < Z.max 1 (nblks (n * sizeof_File)) * BLKFILES ->
  entry_addr raw root j = DISKMAP + (L * BLKSIZE + j * sizeof_File).
Proof.
  intros Hj. change BLKFILES with 16 in Hj. unfold entry_addr. change BLKFILES with 16.
  destruct (root_slot (j / 16) ltac:(zlia)) as [-> _]. unfold baddr, sizeof_File, BLKSIZE, PGSIZE. zlia.
Qed.
Lemma root_entries : entries raw root = Z.max 1 (nblks (n * sizeof_File)) * BLKFILES.
Proof.
  destruct view_facts as (_ & _ & _ & _ & _ & _ & Hdl & _). unfold entries. rewrite root_size, Hdl.
  change BLKFILES with 16. unfold sizeof_File, BLKSIZE, PGSIZE. zlia.
Qed.

(** ** The files *)

Definition file_addr (i : nat) : Z := DISKMAP + (L * BLKSIZE + Z.of_nat i * sizeof_File).

Lemma file_index i p : layout 3 files !! i = Some p ->
  Z.of_nat i < n /\ Z.of_nat i < Z.max 1 (nblks (n * sizeof_File)) * BLKFILES /\ file_addr i = entry_addr raw root (Z.of_nat i).
Proof.
  intros Hi. apply lookup_lt_Some in Hi. rewrite layout_length in Hi.
  destruct view_facts as (_ & Hn & _ & _ & Hb & _). assert (Hin : Z.of_nat i < n) by (unfold n; lia).
  assert (Hib : Z.of_nat i < Z.max 1 (nblks (n * sizeof_File)) * BLKFILES).
  { change BLKFILES with 16. unfold sizeof_File, BLKSIZE, PGSIZE in *. lia. }
  split; [done|]. split; [done|]. unfold file_addr. by rewrite root_entry by lia.
Qed.

(** The directory lies on the disk. *)
Lemma dir_inside j o : 0 <= j < Z.max 1 (nblks (n * sizeof_File)) * BLKFILES -> 0 <= o < sizeof_File ->
  0 <= L * BLKSIZE + j * sizeof_File + o < nb * BLKSIZE.
Proof.
  intros Hj Ho. destruct view_facts as (HL & Hn & Hk & Hk0 & Hb & Hend & _). change BLKFILES with 16 in Hj.
  unfold sizeof_File, BLKSIZE, PGSIZE in *. lia.
Qed.

Lemma file_word_at i p o : layout 3 files !! i = Some p -> 0 <= o -> o + 4 <= sizeof_File ->
  v32 raw (file_addr i + o) = ld32 m (D + L * BLKSIZE + Z.of_nat i * sizeof_File + o).
Proof.
  intros Hi H0 H4. destruct (file_index i p Hi) as (_ & Hib & _).
  pose proof (dir_inside (Z.of_nat i) o ltac:(lia) ltac:(lia)). pose proof (dir_inside (Z.of_nat i) (o + 3) ltac:(lia) ltac:(lia)).
  unfold file_addr. rewrite <- (Z.add_assoc DISKMAP). rewrite raw_word by lia. f_equal. lia.
Qed.

Lemma placed_name i p : layout 3 files !! i = Some p ->
  Forall (fun c => 0 < c < 256) (pl_name p) /\ pl_name p <> [] /\ pl_ok p /\ Forall (fun c => 0 <= c < 256) (pl_data p) /\
  3 <= pl_start p /\ pl_end p <= L /\ nblks (pl_len p) <= 1034.
Proof.
  intros Hi. destruct (layout_lookup _ _ _ _ Hi) as (name & Hlk & Hn).
  destruct (Forall_lookup_1 _ _ _ _ (fit_each _ _ Hfit) Hlk) as [H1 H2 H3 H4 H5]. cbn [fst snd] in *.
  rewrite <- Hn in H1, H2, H3. destruct (layout_range 3 files p (list_elem_of_lookup_2 _ _ _ Hi)) as [Hr1 Hr2].
  split; [done|]. split; [done|]. split; [by split|]. split; [done|]. split; [done|]. split; [done | by apply nblks_max].
Qed.

Lemma name_view i p q : layout 3 files !! i = Some p -> Forall (fun c => 0 < c < 256) q -> Z.of_nat (length q) < MAXNAMELEN ->
  name_at raw (file_addr i) q = bool_decide (q = pl_name p).
Proof.
  intros Hi Hq Hl. destruct (file_index i p Hi) as (_ & Hib & _). destruct (placed_name i p Hi) as (Hpn & _ & [Hpl _] & _).
  assert (Hby : forall k, Z.of_nat k <= MAXNAMELEN -> map (fun j => raw (file_addr i + j)) (seqZ 0 (Z.of_nat k)) =
    ldbytes m (D + L * BLKSIZE + Z.of_nat i * sizeof_File) k).
  { intros k Hk. unfold MAXNAMELEN in Hk. pose proof (dir_inside (Z.of_nat i) 0 ltac:(lia) ltac:(done)).
    pose proof (dir_inside (Z.of_nat i) 255 ltac:(lia) ltac:(done)). unfold file_addr. rewrite raw_bytes by lia. f_equal. lia. }
  pose proof (en_name _ _ _ _ (im_files _ _ _ _ Him i p Hi)) as He. fold L in He.
  unfold name_at. replace (Z.of_nat (length q) + 1) with (Z.of_nat (S (length q))) by lia. rewrite Hby by lia.
  apply bool_decide_ext. split; [|by intros ->]. intros Heq. symmetry.
  refine (name_unique m _ (pl_name p) q _ _ He Heq); eapply Forall_impl; [exact Hpn | | exact Hq | ]; simpl; lia.
Qed.

(** The entry of a file that is the first of its base name is the one a search finds. *)
Definition first_placed (i : nat) (p : placed) : Prop :=
  layout 3 files !! i = Some p /\ forall j q, (j < i)%nat -> layout 3 files !! j = Some q -> pl_name q <> pl_name p.

Lemma lookup_view i p : first_placed i p ->
  lookup_ref raw root (pl_name p) = Some (file_addr i).
Proof.
  intros [Hi Hnd]. destruct (file_index i p Hi) as (Hin & Hib & Haddr). destruct (placed_name i p Hi) as (Hpn & _ & [Hpl _] & _).
  unfold lookup_ref. rewrite root_entries. rewrite (find_seqZ _ _ 0 (Z.of_nat i)).
  - simpl. by rewrite Haddr.
  - lia.
  - lia.
  - done.
  - rewrite <- Haddr, (name_view i p) by done. by apply bool_decide_eq_true_2.
  - intros j Hj. destruct (lookup_lt_is_Some_2 (layout 3 files) (Z.to_nat j)) as [q Hq].
    { rewrite layout_length. unfold n in Hin. lia. }
    destruct (file_index _ q Hq) as (_ & _ & Hqa). rewrite Z2Nat.id in Hqa by lia. rewrite <- Hqa, (name_view _ q) by done.
    apply bool_decide_eq_false_2. intros Heq. by apply (Hnd (Z.to_nat j) q ltac:(lia) Hq).
Qed.

(** ** Their blocks and bytes *)

Lemma file_at_view i p : layout 3 files !! i = Some p -> file_at nb (file_addr i).
Proof.
  intros Hi. destruct (file_index i p Hi) as (_ & Hib & _). pose proof (dir_inside (Z.of_nat i) 0 ltac:(lia) ltac:(done)).
  unfold file_addr, sizeof_File in *. constructor.
  - unfold DISKMAP, BLKSIZE, PGSIZE. zlia.
  - unfold on_disk, baddr. lia.
  - unfold sizeof_File, DISKMAP, BLKSIZE, PGSIZE. zlia.
Qed.

Lemma file_size_view i p : layout 3 files !! i = Some p -> s32 (v32 raw (f_size (file_addr i))) = pl_len p.
Proof.
  intros Hi. unfold f_size. rewrite (file_word_at i p) by (done || (unfold MAXNAMELEN, sizeof_File; lia)).
  etrans; [apply f_equal, (bm_size _ _ _ _ _ _ (en_map _ _ _ _ (im_files _ _ _ _ Him i p Hi)))|].
  destruct (placed_name i p Hi) as (_ & _ & [_ Hs] & _). apply s32_small.
  unfold MAXFILESIZE in Hs. change (NDIRECT + NINDIRECT) with 1034 in Hs. unfold pl_len, BLKSIZE, PGSIZE in *. lia.
Qed.

Lemma file_block_view i p k : layout 3 files !! i = Some p -> 0 <= k < nblks (pl_len p) ->
  slot_val raw (file_addr i) k = pl_start p + k /\ has_block raw nb (file_addr i) k.
Proof.
  intros Hi Hk. destruct (placed_name i p Hi) as (_ & _ & _ & _ & Hst & Hend & Hmax).
  destruct view_facts as (HL & _ & Hk8 & _ & _ & Hfitn & _).
  pose proof (pl_end_le p) as Hpe. destruct (en_map _ _ _ _ (im_files _ _ _ _ Him i p Hi)) as [_ Hd Hind Hw]. fold L in Hd, Hind.
  assert (Hi32 : NDIRECT <= k -> v32 raw (f_indirect (file_addr i)) = pl_ind p).
  { intros Hge. rewrite <- Hind by lia. unfold f_indirect, MAXNAMELEN, NDIRECT.
    replace (file_addr i + 128 + 8 + 4 * 10) with (file_addr i + 176) by lia.
    rewrite (file_word_at i p) by (done || (unfold sizeof_File; lia)). f_equal. lia. }
  assert (Hpi : NDIRECT <= k -> pl_ind p < L).
  { intros Hge. unfold pl_end, nind in Hend. rewrite (proj2 (Z.ltb_ge _ _)) in Hend by lia. lia. }
  assert (Hpi2 : 3 <= pl_ind p) by (unfold pl_ind; lia).
  assert (Hs : slot_val raw (file_addr i) k = pl_start p + k).
  { unfold slot_val. destruct (Z.ltb_spec k NDIRECT) as [Hlt | Hge].
    - rewrite <- Hd by lia. unfold f_direct, MAXNAMELEN, NDIRECT in *.
      replace (file_addr i + 128 + 8 + 4 * k) with (file_addr i + (136 + 4 * k)) by lia.
      rewrite (file_word_at i p) by (done || (unfold sizeof_File; lia)). f_equal. lia.
    - rewrite (Hi32 Hge). specialize (Hpi Hge). destruct (Z.eqb_spec (pl_ind p) 0); [lia|]. rewrite <- Hw by lia. unfold baddr.
      rewrite <- Z.add_assoc, raw_word; [f_equal; lia | unfold NDIRECT, BLKSIZE, PGSIZE in *; lia..]. }
  split; [exact Hs|]. split; [change (NDIRECT + NINDIRECT) with 1034; lia|]. split; [rewrite Hs; unfold pl_ind in *; lia|].
  intros Hge. rewrite (Hi32 Hge). specialize (Hpi Hge). lia.
Qed.

Lemma file_bytes_view i p o c : layout 3 files !! i = Some p -> 0 <= o -> 0 <= c -> o + c <= pl_len p ->
  fbytes raw (file_addr i) o c = take (Z.to_nat c) (drop (Z.to_nat o) (pl_data p)).
Proof.
  intros Hi Ho Hc Hle. pose proof (en_data _ _ _ _ (im_files _ _ _ _ Him i p Hi)) as He.
  destruct (placed_name i p Hi) as (_ & _ & _ & _ & Hst & Hend & _). destruct view_facts as (_ & _ & Hk8 & _ & _ & Hfitn & _).
  pose proof (pl_end_le p) as Hpe. pose proof (nblks_bound (pl_len p) ltac:(unfold pl_len; lia)) as Hnbb.
  apply list_eq. intros j. unfold fbytes. change (map ?g ?x) with (g <$> x). rewrite list_lookup_fmap.
  destruct (decide (j < Z.to_nat c)%nat) as [Hj | Hj].
  - rewrite lookup_seqZ_lt, lookup_take_lt, lookup_drop by lia. simpl.
    set (b := o + Z.of_nat j). assert (Hb : 0 <= b < pl_len p) by (unfold b; lia).
    assert (Hkb : 0 <= b / BLKSIZE < nblks (pl_len p)) by (unfold nblks, BLKSIZE, PGSIZE in *; zlia).
    unfold fbyte. destruct (file_block_view i p (b / BLKSIZE) Hi Hkb) as [-> _].
    destruct (Z.eqb_spec (pl_start p + b / BLKSIZE) 0); [lia|].
    replace (Z.to_nat o + j)%nat with (Z.to_nat b) by lia. rewrite <- He.
    rewrite ldbytes_lookup by (unfold pl_len in Hb; lia). f_equal. rewrite Z2Nat.id by lia. unfold baddr.
    rewrite <- Z.add_assoc, raw_byte by (unfold BLKSIZE, PGSIZE in *; zlia). f_equal. unfold BLKSIZE, PGSIZE. zlia.
  - rewrite lookup_seqZ_ge by lia. rewrite lookup_take_ge by lia. done.
Qed.

(** ** The tree, and the bitmap *)

Definition image_tree (f : Z) : Prop :=
  f = root \/ exists j, 0 <= j < Z.max 1 (nblks (n * sizeof_File)) * BLKFILES /\ f = entry_addr raw root j.

(** No entry is a directory: those of the files are regular, the rest are zero. *)
Lemma entry_regular j : 0 <= j < Z.max 1 (nblks (n * sizeof_File)) * BLKFILES ->
  v32 raw (f_type (entry_addr raw root j)) = FTYPE_REG.
Proof.
  intros Hj. pose proof (dir_inside j 132 Hj ltac:(done)) as Hi1. pose proof (dir_inside j 135 Hj ltac:(done)) as Hi2.
  destruct view_facts as (_ & Hn & _ & _ & _ & _ & Hdl & _).
  rewrite root_entry by done. unfold f_type, MAXNAMELEN.
  replace (DISKMAP + (L * BLKSIZE + j * sizeof_File) + 128 + 4) with (DISKMAP + (L * BLKSIZE + j * sizeof_File + 132)) by lia.
  rewrite raw_word by lia. replace (D + (L * BLKSIZE + j * sizeof_File + 132)) with (D + L * BLKSIZE + (j * sizeof_File + 132)) by lia.
  destruct (Z.lt_ge_cases j n) as [Hlt | Hge].
  - destruct (lookup_lt_is_Some_2 (layout 3 files) (Z.to_nat j)) as [p Hp]; [rewrite layout_length; unfold n in Hlt; lia|].
    rewrite <- (en_type _ _ _ _ (im_files _ _ _ _ Him _ p Hp)). rewrite Z2Nat.id by lia. fold L.
    unfold f_type, MAXNAMELEN. f_equal. lia.
  - unfold ld32. change BLKFILES with 16 in Hj. pose proof (im_rest _ _ _ _ Him) as Hr. fold L n in Hr. rewrite Hdl in Hr.
    rewrite <- !(Z.add_assoc (D + L * BLKSIZE)). unfold sizeof_File, BLKSIZE, PGSIZE in *. rewrite !Hr by lia. done.
Qed.

Lemma image_tree_ok : tree_ok raw nb image_tree.
Proof.
  constructor.
  - by left.
  - intros f [-> | (j & Hj & ->)].
    + unfold on_disk, f_type, root, s_root, SB, baddr, MAXNAMELEN, BLKSIZE, PGSIZE. split; [lia | done].
    + rewrite root_entry by done. pose proof (dir_inside j 132 Hj ltac:(done)). unfold f_type, MAXNAMELEN, on_disk, baddr.
      split; [unfold sizeof_File in *; lia | unfold sizeof_File, DISKMAP, BLKSIZE, PGSIZE; zlia].
  - intros f [-> | (j & Hj & ->)] Hty; [exact root_dir | by rewrite entry_regular in Hty].
  - intros f name f' [-> | (j & Hj & ->)] Hty Hl; [|by rewrite entry_regular in Hty].
    unfold lookup_ref in Hl. apply fmap_Some in Hl as (j & Hf & ->). apply find_some in Hf as [Hin _].
    apply list_elem_of_In, elem_of_seqZ in Hin. rewrite root_entries in Hin. right. exists j. split; [lia | done].
Qed.

Lemma is_free_view b : 0 <= b < nb -> is_free raw b = (b <? image_end files).
Proof.
  intros Hb. pose proof (im_bits _ _ _ _ Him b ltac:(lia)) as Hbit. unfold bit in Hbit. unfold is_free, bm, baddr.
  rewrite <- Z.add_assoc, raw_word by (unfold BLKSIZE, PGSIZE; zlia).
  replace (D + (2 * BLKSIZE + 4 * (b / 32))) with (hbitmap D + 4 * (b / 32)) by (unfold hbitmap; lia).
  rewrite Hbit. destruct (Z.leb_spec (image_end files) b), (Z.ltb_spec b (image_end files)); done || lia.
Qed.

(** Opening a file by its base name, and reading it. *)
Lemma open_view st i p : sees st raw nb -> first_placed i p ->
  exists st', file_open (pl_name p) st = Ok (0, Some (file_addr i)) st' /\ sees st' raw nb.
Proof.
  intros Hst Hf. pose proof Hf as [Hi _]. destruct (placed_name i p Hi) as (Hpn & Hne & [Hpl _] & _). destruct (layout_lookup _ _ _ _ Hi) as (name & _ & Hbn).
  destruct (walk_path_run image_tree raw nb st (pl_name p) Hst image_tree_ok Hpn) as (st' & R & Hst').
  exists st'. split; [|exact Hst']. unfold file_open. urw R.
  rewrite elements_plain by (done || (rewrite Hbn; apply basename_plain)). cbn [resolve]. fold root.
  destruct (Z.geb_spec (Z.of_nat (length (pl_name p))) MAXNAMELEN); [lia|].
  replace (v32 raw (f_type root)) with FTYPE_DIR.
  - rewrite Z.eqb_refl. cbn [negb]. by rewrite (lookup_view i p Hf).
  - unfold f_type. rewrite <- Z.add_assoc, root_word by (unfold MAXNAMELEN, sizeof_File; lia).
    rewrite Z.add_assoc. symmetry. apply (im_type _ _ _ _ Him).
Qed.

Lemma read_view st i p count offset : sees st raw nb -> layout 3 files !! i = Some p ->
  0 <= offset < 2 ^ 31 -> 0 <= count < 2 ^ 32 ->
  let c := Z.max 0 (Z.min count (pl_len p - offset)) in
  exists st', file_read (file_addr i) count offset st =
    Ok (c, take (Z.to_nat c) (drop (Z.to_nat offset) (pl_data p))) st' /\ sees st' raw nb.
Proof.
  intros Hst Hi Hoff Hc c. assert (Hcc : read_count raw (file_addr i) count offset = c).
  { unfold read_count. by rewrite (file_size_view i p Hi). }
  destruct (file_read_full st raw nb (file_addr i) count offset Hst (file_at_view i p Hi) Hoff Hc) as (st' & R & Hst').
  - rewrite Hcc. intros k Hpos Hk1 Hk2. apply (file_block_view i p k Hi).
    assert (Hle : offset + c <= pl_len p) by (unfold c in *; lia). clearbody c. clear Hcc.
    unfold nblks, BLKSIZE, PGSIZE in *. zlia.
  - exists st'. split; [|exact Hst']. rewrite R, Hcc. do 2 f_equal.
    destruct (Z.le_gt_cases c 0) as [Hc0 | Hc0].
    + replace c with 0 by (unfold c in *; lia). done.
    + apply (file_bytes_view i p); [done | lia | lia | unfold c in *; lia].
Qed.
End view.
