(* ===== verification/FsformatThms.v ===== *)
(** * Formatting and serving: the theorems ([fs/fsformat.c] with [fs/fs.c])

    What [fsformat] puts on a disk the file server finds there; and the two programs
    do not agree on what a bit of the bitmap means. *)

From S2P Require Import Prelude Mem CString Mmu KState UState Fs FsInv FsSpec FsFile FsRead FsDir FsSample Fsformat FsformatSpec FsformatImage FsformatView.

(** The file a base name stands for: the first one on the command line that has it. *)
Definition file_named (b : list Z) (files : list (list Z * list Z)) : option (list Z * list Z) :=
  List.find (fun f => bool_decide (basename (fst f) = b)) files.

Lemma layout_first L files b name data : file_named b files = Some (name, data) ->
  exists i p, layout L files !! i = Some p /\ pl_name p = b /\ pl_data p = data /\
    forall j q, (j < i)%nat -> layout L files !! j = Some q -> pl_name q <> pl_name p.
Proof.
  unfold file_named. revert L. induction files as [|[nm dt] files IH]; intros L; [done|]. cbn [List.find layout fst].
  destruct (bool_decide_reflect (basename nm = b)) as [<- | Hne].
  - intros [= -> ->]. exists 0%nat. eexists. split; [done|]. split; [done|]. split; [done | lia].
  - intros Hf. destruct (IH (pl_end (mkPlaced (basename nm) dt L)) Hf) as (i & p & Hp & Hn & Hd & Hfirst). exists (S i), p. do 3 (split; [done|]).
    intros [|j] q Hj Hq; [injection Hq as <-; simpl; congruence | apply (Hfirst j q); [lia | done]].
Qed.

(** A disk with the image in [m] at [D]. *)
Definition holds_image (d : Disk) (D nb : Z) (m : memory) : Prop :=
  (forall o, 0 <= o < nb * BLKSIZE -> disk_byte o mod 256 = ld8 m (D + o)) /\
  (forall sec, 0 <= sec < nb * BLKSECTS -> 0 <= sector_status sec).

(** C2. Round trip from the host to the file server: whenever the files fit (names shorter
    than an entry holds, sizes within a block map, at most 128 of them, enough blocks)
    [fsformat] succeeds, and a server given that disk mounts it, opens under each base name
    the first file that has it, and reads from it at any offset exactly the bytes that
    file had on the host.  (The disk has 4 to 1024 blocks, its image starts as zeros, and
    the table of entries that [fsformat] keeps in memory is apart from it.) *)
Theorem fsformat_roundtrip D E nb s files :
  4 <= nb <= 1024 -> (E + MAX_DIR_ENTS * sizeof_File <= D \/ D + nb * BLKSIZE <= E) ->
  (forall a, between D (D + nb * BLKSIZE) a -> ld8 (hmem s) a = 0) ->
  files_fit nb files ->
  exists s', fsformat D E nb files s = Ok tt s' /\
  forall d : Disk, holds_image d D nb (hmem s') ->
    (forall st0, unmounted st0 -> nb <= pages_left st0 ->
       exists st, fs_init st0 = Ok (if disk1_present then 1 else 0) st /\ sees st raw nb) /\
    forall st b name data count offset, sees st raw nb -> file_named b files = Some (name, data) ->
      0 <= offset < 2 ^ 31 -> 0 <= count < 2 ^ 32 ->
      let c := Z.max 0 (Z.min count (Z.of_nat (length data) - offset)) in
      exists f st1 st2, file_open b st = Ok (0, Some f) st1 /\
        file_read f count offset st1 = Ok (c, take (Z.to_nat c) (drop (Z.to_nat offset) data)) st2 /\ sees st2 raw nb.
Proof.
  intros Hnb HDE Hz Hfit. destruct (fsformat_run D E nb Hnb HDE s files Hfit Hz) as (s' & R & Him).
  exists s'. split; [exact R|]. intros d [Hd Hsec]. split.
  - intros st0 Hu Hpg. destruct (mount_facts D nb Hnb (hmem s') files Him Hd) as [Hm Hn].
    pose proof (fs_init_run st0 Hu) as Hi. cbv zeta in Hi. rewrite Hm, Hn, Z.eqb_refl in Hi. cbn [negb] in Hi.
    change (DISKSIZE / BLKSIZE) with 786432 in Hi.
    destruct (Z.leb_spec nb 2); [lia|]. destruct (Z.gtb_spec nb 786432); [lia|]. destruct Hi as (st & Ri & Hmt & Hp).
    exists st. split; [exact Ri|]. apply mounted_sees; [exact Hmt | exact Hn | change (DISKSIZE / BLKSIZE) with 786432; lia | lia | exact Hsec].
  - intros st b name data count offset Hst Hin Hoff Hc.
    destruct (layout_first 3 files b name data Hin) as (i & p & Hp & Hpn & Hpd & Hfirst).
    destruct (open_view D nb Hnb (hmem s') files Hfit Him Hd st i p Hst (conj Hp Hfirst)) as (st1 & R1 & Hst1).
    destruct (read_view D nb Hnb (hmem s') files Hfit Him Hd st1 i p count offset Hst1 Hp Hoff Hc) as (st2 & R2 & Hst2).
    unfold pl_len in R2. rewrite Hpd in R2. rewrite Hpn in R1. cbv zeta in R2. eexists _, st1, st2.
    split; [exact R1|]. split; [exact R2 | exact Hst2].
Qed.

Definition sample_files : list (list Z * list Z) :=
  [(chars "user/motd", chars "hello world"); (chars "lorem", repeat 7 100); (chars "a/empty", []); (chars "etc/motd", chars "second")].
Definition sample_host : fmtst := mkFmtst ∅ 0 0 0.

Lemma sample_files_fit : files_fit 16 sample_files.
Proof.
  constructor; [|by vm_compute | by vm_compute].
  repeat constructor; try (by vm_compute); cbn [fst snd];
    apply Forall_forall; intros c Hc; revert c Hc; apply Forall_forall;
    match goal with |- Forall _ ?l => let l' := eval vm_compute in l in change l with l'; repeat constructor; done end.
Qed.
Lemma fsformat_roundtrip_witness :
  files_fit 16 sample_files /\ exists s', fsformat 0x100000 0x10000 16 sample_files sample_host = Ok tt s'.
Proof.
  split; [exact sample_files_fit|].
  destruct (fsformat_roundtrip 0x100000 0x10000 16 sample_host sample_files) as (s' & R & _).
  - split; intros Hc; discriminate Hc.
  - left. intros Hc. discriminate Hc.
  - intros a _. reflexivity.
  - exact sample_files_fit.
  - exists s'. exact R.
Defined.

(** C39. The builder and the server disagree about the bitmap: [fsformat] clears the bits of
    the blocks in use, [block_is_free] takes a clear bit for a free block. On every disk
    that [fsformat] makes, the server takes exactly the blocks in use for free, and the
    first block it would allocate is block 2, which holds the bitmap. *)
Theorem fsformat_bitmap_inverted D E nb s files :
  4 <= nb <= 1024 -> (E + MAX_DIR_ENTS * sizeof_File <= D \/ D + nb * BLKSIZE <= E) ->
  (forall a, between D (D + nb * BLKSIZE) a -> ld8 (hmem s) a = 0) -> files_fit nb files ->
  exists s', fsformat D E nb files s = Ok tt s' /\
  forall d : Disk, holds_image d D nb (hmem s') -> forall st, sees st raw nb ->
    (forall b, 0 <= b < nb -> exists st', block_is_free b st = Ok (b <? image_end files) st') /\
    exists st', alloc_block st = Ok 2 st'.
Proof.
  intros Hnb HDE Hz Hfit. destruct (fsformat_run D E nb Hnb HDE s files Hfit Hz) as (s' & R & Him).
  exists s'. split; [exact R|]. intros d [Hd _] st Hst.
  pose proof (is_free_view D nb Hnb (hmem s') files Him Hd) as Hfree.
  pose proof (layout_end_le 3 files) as HL. pose proof (nblks_nonneg (Z.of_nat (length files) * sizeof_File) ltac:(unfold sizeof_File; lia)).
  assert (He : 3 <= image_end files) by (unfold image_end, dir_start; lia). split.
  - intros b Hb. destruct (block_is_free_run st raw nb b Hst Hb) as (st' & Rb & _). exists st'. rewrite Rb. by rewrite Hfree.
  - destruct (alloc_block_run st raw nb Hst) as (st' & Ra). unfold first_free in Ra.
    rewrite seqZ_cons in Ra by lia. cbn [List.find] in Ra. rewrite (Hfree 2) in Ra by lia.
    destruct (Z.ltb_spec 2 (image_end files)); [|lia]. exists st'. apply Ra.
Qed.

Lemma fsformat_bitmap_inverted_witness :
  files_fit 16 sample_files /\ exists s', fsformat 0x100000 0x10000 16 sample_files sample_host = Ok tt s' /\
  forall d : Disk, holds_image d 0x100000 16 (hmem s') -> forall st, sees st raw 16 -> exists st', alloc_block st = Ok 2 st'.
Proof.
  split; [exact sample_files_fit|].
  destruct (fsformat_bitmap_inverted 0x100000 0x10000 16 sample_host sample_files) as (s' & R & Hd).
  - split; intros Hc; discriminate Hc.
  - left. intros Hc. discriminate Hc.
  - intros a _. reflexivity.
  - exact sample_files_fit.
  - exists s'. split; [exact R|]. intros d Hi st Hst. exact (proj2 (Hd d Hi st Hst)).
Defined.
