(* ===== verification/Spinlock.v ===== *)
(** * The spin lock, one memory access at a time ([kern/spinlock.c])

    [Environ] models the big lock as the processor running the code sees it.  Here the
    processors run side by side: each step is one access to the lock's fields, in any
    order.  The lock protects whatever its holder does; misuse (locking twice,
    unlocking without the lock) is part of the model. *)

From S2P Require Import Prelude.

(** The fields of [struct spinlock]; a null [cpu] is [None]. *)
Record spinlock := mkSpinlock { locked : Z; cpu : option Z }.

(** Where a processor is in [spin_lock] or [spin_unlock], by its next access. *)
Inductive pc :=
  | Outside                (* does not hold the lock *)
  | LockHeld               (* spin_lock: holding reads locked *)
  | LockOwner              (* holding reads cpu *)
  | LockXchg               (* xchg(&lk->locked, 1) *)
  | LockRecord             (* lk->cpu = thiscpu *)
  | Inside                 (* holds the lock *)
  | UnlockHeld             (* spin_unlock: holding reads locked *)
  | UnlockOwner            (* holding reads cpu *)
  | UnlockClear            (* lk->cpu = 0 *)
  | UnlockXchg             (* xchg(&lk->locked, 0) *)
  | Panicked.
#[export] Instance pc_eq_dec : EqDecision pc.
Proof. solve_decision. Defined.

(** The lock and the processors.  [holder] is history: who took the lock last without
    giving it back.  No step depends on it. *)
Record mstate := mkMstate { lk : spinlock; pcs : Z -> pc; holder : option Z }.
Definition at_pc (s : mstate) (c : Z) (p : pc) : Z -> pc := fun c' => if decide (c' = c) then p else pcs s c'.

(** What processor [c] is asked to do when it is between calls, and otherwise its next
    access. *)
Inductive act := CallLock | CallUnlock | Go.

(** [__spin_initlock] *)
Definition spin_initlock : spinlock := mkSpinlock 0 None.
Definition initial : mstate := mkMstate spin_initlock (fun _ => Outside) None.

Definition xchg_locked (l : spinlock) (v : Z) : spinlock := mkSpinlock v (cpu l).
Definition set_cpu (l : spinlock) (o : option Z) : spinlock := mkSpinlock (locked l) o.

Definition goto (s : mstate) (c : Z) (l : spinlock) (p : pc) : mstate := mkMstate l (at_pc s c p) (holder s).

Definition step (c : Z) (a : act) (s : mstate) : mstate :=
  match pcs s c, a with
  | Outside, CallLock | Inside, CallLock => goto s c (lk s) LockHeld
  | Outside, CallUnlock | Inside, CallUnlock => goto s c (lk s) UnlockHeld
  (* if (holding(lk)) panic *)
  | LockHeld, Go => goto s c (lk s) (if locked (lk s) =? 0 then LockXchg else LockOwner)
  | LockOwner, Go => goto s c (lk s) (if bool_decide (cpu (lk s) = Some c) then Panicked else LockXchg)
  (* while (xchg(&lk->locked, 1) != 0) *)
  | LockXchg, Go =>
      let l := xchg_locked (lk s) 1 in
      if locked (lk s) =? 0 then mkMstate l (at_pc s c LockRecord) (Some c) else goto s c l LockXchg
  | LockRecord, Go => goto s c (set_cpu (lk s) (Some c)) Inside
  (* if (!holding(lk)) panic *)
  | UnlockHeld, Go => goto s c (lk s) (if locked (lk s) =? 0 then Panicked else UnlockOwner)
  | UnlockOwner, Go => goto s c (lk s) (if bool_decide (cpu (lk s) = Some c) then UnlockClear else Panicked)
  | UnlockClear, Go => goto s c (set_cpu (lk s) None) UnlockXchg
  | UnlockXchg, Go => mkMstate (xchg_locked (lk s) 0) (at_pc s c Outside) None
  | _, _ => s
  end.

(** The states some interleaving leads to. *)
Inductive reachable : mstate -> Prop :=
  | reach_initial : reachable initial
  | reach_step c a s : reachable s -> reachable (step c a s).

(** Between a successful exchange and the one that gives the lock back. *)
Definition in_section (p : pc) : bool :=
  match p with LockRecord | Inside | UnlockClear | UnlockXchg => true | _ => false end.

Record lock_inv (s : mstate) : Prop := {
  li_locked : locked (lk s) = match holder s with Some _ => 1 | None => 0 end;
  li_section : forall c, in_section (pcs s c) = true -> holder s = Some c;
  li_outside : forall c, pcs s c = Outside \/ pcs s c = LockXchg -> holder s <> Some c;
  li_cpu : forall c, cpu (lk s) = Some c <-> holder s = Some c /\ pcs s c <> LockRecord /\ pcs s c <> UnlockXchg }.

Lemma at_pc_eq s c p : at_pc s c p c = p.
Proof. unfold at_pc. by rewrite decide_True. Qed.
Lemma at_pc_ne s c p c' : c' <> c -> at_pc s c p c' = pcs s c'.
Proof. unfold at_pc. intros. by rewrite decide_False. Qed.

(** A step that leaves the lock alone, to a point that suits the holder. *)
Lemma goto_inv s c p :
  lock_inv s -> (in_section p = true -> holder s = Some c) -> (p = Outside \/ p = LockXchg -> holder s <> Some c) ->
  ((p <> LockRecord /\ p <> UnlockXchg) /\ (pcs s c <> LockRecord /\ pcs s c <> UnlockXchg)) ->
  lock_inv (goto s c (lk s) p).
Proof.
  intros [H1 H2 H3 H4] Hs Ho [Hp Hq]. constructor; cbn [goto lk holder pcs]; [done | | |].
  - intros c'. destruct (decide (c' = c)) as [-> | Hne]; [by rewrite at_pc_eq | rewrite at_pc_ne by done; apply H2].
  - intros c'. destruct (decide (c' = c)) as [-> | Hne]; [by rewrite at_pc_eq | rewrite at_pc_ne by done; apply H3].
  - intros c'. rewrite (H4 c'). destruct (decide (c' = c)) as [-> | Hne]; [rewrite at_pc_eq; tauto | by rewrite at_pc_ne].
Qed.

(** The steps of the holder on the lock's fields. *)
Ltac other_pc c :=
  let c' := fresh "c'" in
  intros c'; destruct (decide (c' = c)) as [-> | ?]; [rewrite ?at_pc_eq | rewrite ?at_pc_ne by done].

Lemma acquire_inv s c :
  lock_inv s -> pcs s c = LockXchg -> locked (lk s) = 0 ->
  lock_inv (mkMstate (xchg_locked (lk s) 1) (at_pc s c LockRecord) (Some c)).
Proof.
  intros [H1 H2 H3 H4] Hp Hl. assert (Hn : holder s = None) by (destruct (holder s); [lia | done]).
  constructor; cbn [lk holder pcs locked cpu xchg_locked]; [done | | |].
  - other_pc c; [done|]. intros Hs. specialize (H2 c' Hs). congruence.
  - other_pc c; [intros [? | ?]; done|]. congruence.
  - other_pc c; rewrite H4, Hn; [intuition congruence|]. split; [intros [? _]; done | intros [? _]; congruence].
Qed.
Lemma record_inv s c : lock_inv s -> pcs s c = LockRecord -> lock_inv (goto s c (set_cpu (lk s) (Some c)) Inside).
Proof.
  intros [H1 H2 H3 H4] Hp. pose proof (H2 c ltac:(by rewrite Hp)) as Hc.
  constructor; cbn [goto lk holder pcs locked cpu set_cpu]; [done | | |].
  - other_pc c; [done | apply H2].
  - other_pc c; [intros [? | ?]; done | apply H3].
  - other_pc c; [by split|]. rewrite Hc. split; [congruence | intros [? _]; congruence].
Qed.
Lemma clear_inv s c : lock_inv s -> pcs s c = UnlockClear -> lock_inv (goto s c (set_cpu (lk s) None) UnlockXchg).
Proof.
  intros [H1 H2 H3 H4] Hp. pose proof (H2 c ltac:(by rewrite Hp)) as Hc.
  constructor; cbn [goto lk holder pcs locked cpu set_cpu]; [done | | |].
  - other_pc c; [done | apply H2].
  - other_pc c; [intros [? | ?]; done | apply H3].
  - other_pc c; [split; [done | tauto]|]. rewrite Hc. split; [done | intros [? _]; congruence].
Qed.
Lemma release_inv s c :
  lock_inv s -> pcs s c = UnlockXchg -> lock_inv (mkMstate (xchg_locked (lk s) 0) (at_pc s c Outside) None).
Proof.
  intros [H1 H2 H3 H4] Hp. pose proof (H2 c ltac:(by rewrite Hp)) as Hc.
  assert (Hcpu : cpu (lk s) = None).
  { destruct (cpu (lk s)) as [x|] eqn:E; [|done]. destruct (proj1 (H4 x) eq_refl) as (Hx & _ & Hu).
    rewrite Hc in Hx. injection Hx as <-. done. }
  constructor; cbn [lk holder pcs locked cpu xchg_locked]; [done | | |].
  - other_pc c; [done|]. intros Hs. specialize (H2 c' Hs). congruence.
  - done.
  - intros c'. rewrite Hcpu. split; [done | intros [? _]; done].
Qed.

Lemma step_inv c a s : lock_inv s -> lock_inv (step c a s).
Proof.
  intros Hi. pose proof Hi as [H1 H2 H3 H4]. unfold step.
  pose proof (H2 c) as H2c. pose proof (H3 c) as H3c. pose proof (H4 c) as H4c.
  destruct (pcs s c) eqn:Ep, a; try exact Hi;
    try (apply goto_inv; [done | by intros | by intros [? | ?] | by rewrite Ep]).
  - apply goto_inv; [done | by destruct (_ =? _) | | by rewrite Ep; destruct (_ =? _)].
    destruct (Z.eqb_spec (locked (lk s)) 0) as [Hz |]; [|by intros [? | ?]]. intros _. destruct (holder s); [lia | done].
  - apply goto_inv; [done | by case_bool_decide | | by rewrite Ep; case_bool_decide].
    case_bool_decide as Hc; [by intros [? | ?]|]. intros _ Hh. apply Hc, H4c. done.
  - destruct (Z.eqb_spec (locked (lk s)) 0) as [Hz | Hnz]; [by apply acquire_inv|].
    replace (xchg_locked (lk s) 1) with (lk s).
    + apply goto_inv; [done | done | intros _; apply H3c; by right | by rewrite Ep].
    + unfold xchg_locked. assert (Hl : locked (lk s) = 1) by (destruct (holder s); lia). rewrite <- Hl. by destruct (lk s).
  - by apply record_inv.
  - apply goto_inv; [done | by destruct (_ =? _) | by destruct (_ =? _); intros [? | ?] | by rewrite Ep; destruct (_ =? _)].
  - apply goto_inv; [done | | by case_bool_decide; intros [? | ?] | by rewrite Ep; case_bool_decide].
    case_bool_decide as Hc; [|done]. intros _. by apply H4c.
  - by apply clear_inv.
  - by apply release_inv.
Qed.

Lemma reachable_inv s : reachable s -> lock_inv s.
Proof.
  induction 1 as [|c a s _ IH]; [|by apply step_inv].
  constructor; cbn [initial lk holder pcs locked cpu spin_initlock]; try done. intros c. split; [done | intros [? _]; done].
Qed.

(** C6. Under every interleaving of the processors' accesses: at most one of them is
    between taking the lock and giving it back; a processor that finds the lock free
    takes it; and although [holding] reads two fields in turn while others change them,
    it never errs, so that taking the lock twice and releasing a lock one does not hold
    are always caught by the panics, and correct use never runs into them. *)
Theorem spinlock_correct s c :
  reachable s ->
  (in_section (pcs s c) = true -> forall c', in_section (pcs s c') = true -> c' = c) /\
  (pcs s c = LockXchg -> holder s = None -> in_section (pcs (step c Go s) c) = true) /\
  (pcs s c = LockHeld -> pcs (step c Go s) c <> Panicked /\ (holder s = Some c -> pcs (step c Go s) c = LockOwner)) /\
  (pcs s c = LockOwner -> pcs (step c Go s) c = Panicked <-> holder s = Some c) /\
  (pcs s c = UnlockHeld -> holder s = Some c -> pcs (step c Go s) c = UnlockOwner) /\
  (pcs s c = UnlockOwner -> pcs (step c Go s) c = Panicked <-> holder s <> Some c).
Proof.
  intros Hr. pose proof (reachable_inv s Hr) as [H1 H2 H3 H4].
  split; [|split; [|split; [|split; [|split]]]].
  - intros Hc c' Hc'. apply H2 in Hc, Hc'. congruence.
  - intros Ep Hn. unfold step. rewrite Ep, H1, Hn. cbn [Z.eqb pcs]. by rewrite at_pc_eq.
  - intros Ep. unfold step. rewrite Ep. cbn [goto pcs]. rewrite at_pc_eq, H1. by destruct (holder s).
  - intros Ep. unfold step. rewrite Ep. cbn [goto pcs]. rewrite at_pc_eq. case_bool_decide as Hc; rewrite H4, Ep in Hc.
    + tauto.
    + split; [done|]. intros Hh. exfalso. by apply Hc.
  - intros Ep Hh. unfold step. rewrite Ep. cbn [goto pcs]. by rewrite at_pc_eq, H1, Hh.
  - intros Ep. unfold step. rewrite Ep. cbn [goto pcs]. rewrite at_pc_eq. case_bool_decide as Hc; rewrite H4, Ep in Hc.
    + split; [done | tauto].
    + split; [|done]. intros _ Hh. by apply Hc.
Qed.

(** Processor 0 has the lock, processor 1 spins on it. *)
Definition run (l : list (Z * act)) : mstate := fold_left (fun s '(c, a) => step c a s) l initial.
Lemma run_reachable l : reachable (run l).
Proof.
  unfold run. assert (Hg : forall s, reachable s -> reachable (fold_left (fun s '(c, a) => step c a s) l s)).
  { induction l as [|[c a] l IH]; intros s Hs; [done|]. cbn [fold_left]. apply IH. by constructor. }
  apply Hg. constructor.
Qed.
Definition sample_contention : mstate :=
  run [(0, CallLock); (1, CallLock); (0, Go); (1, Go); (0, Go); (0, Go); (1, Go); (1, Go)].

Lemma spinlock_correct_witness :
  reachable sample_contention /\ pcs sample_contention 0 = Inside /\ pcs sample_contention 1 = LockXchg /\
  forall c', in_section (pcs sample_contention c') = true -> c' = 0.
Proof.
  assert (Hr : reachable sample_contention) by exact (run_reachable _).
  assert (H0 : pcs sample_contention 0 = Inside) by (vm_compute; reflexivity).
  split; [exact Hr|]. split; [exact H0|]. split; [vm_compute; reflexivity|].
  apply (proj1 (spinlock_correct sample_contention 0 Hr)). rewrite H0. reflexivity.
Defined.
