(* ===== verification/Pipe.v ===== *)
(** * Pipes ([lib/pipe.c])

    Reader and writer interleaved over the shared page, and what the reader gets. *)

From S2P Require Import Prelude.

(** ** Pipes ([lib/pipe.c])

    A reader and a writer in different environments share the page of a
    [struct Pipe] and are switched between at any instruction.  Each step is one access
    to the other side's position or to the buffer.  Whether the other side is gone, which
    [_pipeisclosed] finds out from reference counts, is the environment's choice at each
    call. *)

Definition PIPEBUFSIZ : Z := 32.

Record Pipe := mkPipe { p_rpos : Z; p_wpos : Z; p_buf : list Z }.

(** A page from [sys_page_alloc]. *)
Definition new_pipe : Pipe := mkPipe 0 0 (repeat 0 (Z.to_nat PIPEBUFSIZ)).

(** [devpipe_read]: the loop test (with the load of [p_wpos]), the call of
    [_pipeisclosed], the load of the byte, the increment. *)
Inductive rpc := RIdle | RTest | RClosed | RTake | RInc | RFault.
Inductive wpc := WIdle | WTest | WClosed | WStore | WInc | WFault.

(** A call in progress: its arguments and locals; [r_ret] and [w_ret] are what the last
    call returned. *)
Record reader := mkReader { r_pc : rpc; r_n : Z; r_buf : list Z; r_ret : option Z }.
Record writer := mkWriter { w_pc : wpc; w_data : list Z; w_i : nat; w_ret : option Z }.

(** [sent] and [recvd] are history: the bytes whose positions have been passed, and
    [r_from] how many there were when the read began. *)
Record psys := mkPsys {
  pipe : Pipe; rd : reader; wr : writer; sent : list Z; recvd : list Z; r_from : nat }.
#[export] Instance psys_eta : Eta psys := fun s => mkPsys (pipe s) (rd s) (wr s) (sent s) (recvd s) (r_from s).
#[export] Instance reader_eta : Eta reader := fun r => mkReader (r_pc r) (r_n r) (r_buf r) (r_ret r).
#[export] Instance writer_eta : Eta writer := fun w => mkWriter (w_pc w) (w_data w) (w_i w) (w_ret w).
#[export] Instance pipe_eta : Eta Pipe := fun p => mkPipe (p_rpos p) (p_wpos p) (p_buf p).

Definition pinitial : psys := mkPsys new_pipe (mkReader RIdle 0 [] None) (mkWriter WIdle [] 0 None) [] [] 0.

Definition r_goto (p : rpc) (s : psys) : psys := s <| rd := rd s <| r_pc := p |> |>.
Definition w_goto (p : wpc) (s : psys) : psys := s <| wr := wr s <| w_pc := p |> |>.
Definition r_return (v : Z) (s : psys) : psys := s <| rd := rd s <| r_pc := RIdle |> <| r_ret := Some v |> |>.
Definition w_return (v : Z) (s : psys) : psys := s <| wr := wr s <| w_pc := WIdle |> <| w_ret := Some v |> |>.

(** An index into [p_buf]; a negative one is outside it. *)
Definition index (pos : Z) : option nat :=
  let i := Z.rem pos PIPEBUFSIZ in if i <? 0 then None else Some (Z.to_nat i).

(** [closed] is what [_pipeisclosed] answers. *)
Definition devpipe_read (closed : bool) (s : psys) : psys :=
  let p := pipe s in
  let r := rd s in
  let i := Z.of_nat (length (r_buf r)) in
  match r_pc r with
  | RTest =>
      if negb (i <? r_n r) then r_return i s
      else if p_rpos p =? p_wpos p then
        if 0 <? i then r_return i s else r_goto RClosed s
      else r_goto RTake s
  | RClosed => if closed then r_return 0 s else r_goto RTest s
  | RTake =>
      match index (p_rpos p) with
      | Some k => s <| rd := r <| r_pc := RInc |> <| r_buf := r_buf r ++ [p_buf p !!! k] |> |>
      | None => r_goto RFault s
      end
  | RInc =>
      s <| pipe := p <| p_rpos := s32 (p_rpos p + 1) |> |> <| rd := r <| r_pc := RTest |> |>
        <| recvd := recvd s ++ [default 0 (last (r_buf r))] |>
  | RIdle | RFault => s
  end.

Definition devpipe_write (closed : bool) (s : psys) : psys :=
  let p := pipe s in
  let w := wr s in
  match w_pc w with
  | WTest =>
      if (w_i w <? length (w_data w))%nat then
        if w32 (p_wpos p) >=? w32 (w32 (p_rpos p) + PIPEBUFSIZ) then w_goto WClosed s else w_goto WStore s
      else w_return (Z.of_nat (w_i w)) s
  | WClosed => if closed then w_return 0 s else w_goto WTest s
  | WStore =>
      match index (p_wpos p) with
      | Some k => s <| pipe := p <| p_buf := <[k := w_data w !!! w_i w]> (p_buf p) |> |> <| wr := w <| w_pc := WInc |> |>
      | None => w_goto WFault s
      end
  | WInc =>
      s <| pipe := p <| p_wpos := s32 (p_wpos p + 1) |> |> <| wr := w <| w_pc := WTest |> <| w_i := S (w_i w) |> |>
        <| sent := sent s ++ [w_data w !!! w_i w] |>
  | WIdle | WFault => s
  end.

(** What happens next: a call begins (when none is in progress), or a call goes on. *)
Inductive event :=
  | RCall (n : Z)
  | RGo (closed : bool)
  | WCall (data : list Z)
  | WGo (closed : bool).

Definition pstep (e : event) (s : psys) : psys :=
  match e with
  | RCall n =>
      match r_pc (rd s) with
      | RIdle => s <| rd := mkReader RTest (w32 n) [] (r_ret (rd s)) |> <| r_from := length (recvd s) |>
      | _ => s
      end
  | RGo closed => devpipe_read closed s
  | WCall data =>
      match w_pc (wr s) with
      | WIdle => s <| wr := mkWriter WTest data 0 (w_ret (wr s)) |>
      | _ => s
      end
  | WGo closed => devpipe_write closed s
  end.

Inductive preachable : psys -> Prop :=
  | preach_initial : preachable pinitial
  | preach_step e s : preachable s -> preachable (pstep e s).

(** [devpipe_stat]: the bytes in flight. *)
Definition devpipe_stat (p : Pipe) : Z := s32 (p_wpos p - p_rpos p).

(** ** Pipes: the theorems *)

(** The slot of position [k]. *)
Definition slot (k : nat) : nat := (k mod 32)%nat.

(** What a read in progress has returned, or will: a count of the bytes it took, at most
    the count it was asked for. *)
Definition read_ok (r : reader) : Prop :=
  Z.of_nat (length (r_buf r)) <= r_n r /\
  match r_pc r with
  | RIdle => r_ret r = None \/ r_ret r = Some (Z.of_nat (length (r_buf r)))
  | RClosed => r_buf r = []
  | RTake => Z.of_nat (length (r_buf r)) < r_n r
  | _ => True
  end.

Record pinv (s : psys) : Prop := {
  pi_rpos : p_rpos (pipe s) = Z.of_nat (length (recvd s));
  pi_wpos : p_wpos (pipe s) = Z.of_nat (length (sent s));
  pi_len : length (p_buf (pipe s)) = 32%nat;
  pi_order : (length (recvd s) <= length (sent s) <= length (recvd s) + 32)%nat;
  pi_ring : forall k, (length (recvd s) <= k < length (sent s))%nat -> p_buf (pipe s) !! slot k = sent s !! k;
  pi_recvd : recvd s = take (length (recvd s)) (sent s);
  pi_from : (r_from s <= length (recvd s))%nat;
  pi_reader : match r_pc (rd s) with
    | RTake => (length (recvd s) < length (sent s))%nat /\ r_buf (rd s) = drop (r_from s) (recvd s)
    | RInc => exists x, sent s !! length (recvd s) = Some x /\ r_buf (rd s) = drop (r_from s) (recvd s) ++ [x]
    | RFault => False
    | _ => r_buf (rd s) = drop (r_from s) (recvd s)
    end;
  pi_ret : read_ok (rd s);
  pi_writer : match w_pc (wr s) with
    | WStore => (length (sent s) < length (recvd s) + 32)%nat /\ (w_i (wr s) < length (w_data (wr s)))%nat
    | WInc => (length (sent s) < length (recvd s) + 32)%nat /\ (w_i (wr s) < length (w_data (wr s)))%nat /\
        p_buf (pipe s) !! slot (length (sent s)) = w_data (wr s) !! w_i (wr s)
    | WFault => False
    | _ => True
    end }.

#[local] Ltac pcbn := cbn -[slot s32 take drop lookup insert app length Nat.add Z.add].

Lemma index_small k : (Z.of_nat k < 2 ^ 31) -> index (Z.of_nat k) = Some (slot k).
Proof.
  intros Hk. unfold index, slot, PIPEBUFSIZ. rewrite Z.rem_mod_nonneg by lia.
  destruct (Z.ltb_spec (Z.of_nat k mod 32) 0); [zlia|]. f_equal. rewrite Z2Nat.inj_mod by lia.
  by rewrite Nat2Z.id.
Qed.
Lemma slot_lt k : (slot k < 32)%nat.
Proof. apply Nat.mod_upper_bound. lia. Qed.
(** Positions less than a buffer apart have different slots. *)
Lemma slot_inj j k : (j < k < j + 32)%nat -> slot j <> slot k.
Proof.
  unfold slot. intros Hjk Heq. pose proof (Nat.div_mod_eq j 32). pose proof (Nat.div_mod_eq k 32). lia.
Qed.

Lemma sent_mono e s : (length (sent s) <= length (sent (pstep e s)))%nat.
Proof.
  destruct e as [n | c | d | c]; cbn [pstep].
  - by destruct (r_pc (rd s)).
  - unfold devpipe_read, r_return, r_goto. cbv zeta. destruct (r_pc (rd s)); repeat case_match; try done.
  - by destruct (w_pc (wr s)).
  - unfold devpipe_write, w_return, w_goto. cbv zeta. destruct (w_pc (wr s)); repeat case_match; try done.
    cbn. rewrite length_app. lia.
Qed.

(** Moves of the reader that touch only its own locals. *)
Lemma reader_local s r' : pinv s -> 
  match r_pc r' with
  | RTake => (length (recvd s) < length (sent s))%nat /\ r_buf r' = drop (r_from s) (recvd s)
  | RInc => exists x, sent s !! length (recvd s) = Some x /\ r_buf r' = drop (r_from s) (recvd s) ++ [x]
  | RFault => False
  | _ => r_buf r' = drop (r_from s) (recvd s)
  end -> read_ok r' -> pinv (s <| rd := r' |>).
Proof. intros [] Hr Hret. constructor; done. Qed.
Lemma writer_local s w' : pinv s ->
  match w_pc w' with
  | WStore => (length (sent s) < length (recvd s) + 32)%nat /\ (w_i w' < length (w_data w'))%nat
  | WInc => (length (sent s) < length (recvd s) + 32)%nat /\ (w_i w' < length (w_data w'))%nat /\
      p_buf (pipe s) !! slot (length (sent s)) = w_data w' !! w_i w'
  | WFault => False
  | _ => True
  end -> pinv (s <| wr := w' |>).
Proof. intros [] Hw. constructor; done. Qed.

Lemma reader_inv c s : pinv s -> Z.of_nat (length (sent s)) < 2 ^ 31 -> pinv (devpipe_read c s).
Proof.
  intros Hi Hsm. pose proof Hi as [H1 H2 H3 H4 H5 H6 H7 H8 Hret H9]. unfold devpipe_read. cbv zeta.
  unfold read_ok in Hret. destruct Hret as [Hn Hret].
  destruct (r_pc (rd s)) eqn:Ep; [done | | | | | done].
  - destruct (Z.ltb_spec (Z.of_nat (length (r_buf (rd s)))) (r_n (rd s))) as [Hlt|]; cbn [negb];
      [|apply reader_local; [done | done | split; [done | by right]]].
    rewrite H1, H2. destruct (Z.eqb_spec (Z.of_nat (length (recvd s))) (Z.of_nat (length (sent s)))).
    + destruct (Z.ltb_spec 0 (Z.of_nat (length (r_buf (rd s))))); apply reader_local; try done.
      * split; [done | by right].
      * split; [done|]. cbn. apply length_zero_iff_nil. lia.
    + apply reader_local; [done | | done]. cbn. split; [lia | done].
  - destruct c; apply reader_local; try done. split; [done|]. cbn. rewrite Hret. by right.
  - destruct H8 as [Hlt Hb]. rewrite H1, index_small by lia.
    destruct (lookup_lt_is_Some_2 (sent s) (length (recvd s)) Hlt) as [x Hx].
    apply reader_local; [done | |].
    + cbn. exists x. split; [done|]. rewrite Hb. do 2 f_equal.
      apply list_lookup_total_correct. etrans; [apply H5; lia | exact Hx].
    + split; [|done]. cbn. rewrite length_app. simpl. lia.
  - destruct H8 as (x & Hx & Hb). pose proof (lookup_lt_Some _ _ _ Hx) as Hlt.
    rewrite Hb, last_snoc. cbn [default id].
    assert (Hl : length (recvd s ++ [x]) = S (length (recvd s))) by (rewrite length_app; simpl; lia).
    constructor; pcbn; rewrite ?Hl; try done.
    + rewrite H1, s32_small by lia. lia.
    + lia.
    + intros k Hk. apply H5. lia.
    + rewrite H6 at 1. by rewrite (take_S_r _ _ _ Hx).
    + lia.
    + cbn. by rewrite Hb, drop_app_le by lia.
    + destruct (w_pc (wr s)); try done; [lia|]. destruct H9 as (? & ? & ?). split; [lia | done].
Qed.

Lemma writer_inv c s :
  pinv s -> Z.of_nat (length (sent (devpipe_write c s))) < 2 ^ 31 -> pinv (devpipe_write c s).
Proof.
  intros Hi Hsm. pose proof (sent_mono (WGo c) s) as Hmono. cbn [pstep] in Hmono. pose proof Hi as [H1 H2 H3 H4 H5 H6 H7 H8 Hret H9].
  unfold devpipe_write in *. cbv zeta in *. destruct (w_pc (wr s)) eqn:Ep; [done | | | | | done].
  - destruct (Nat.ltb_spec (w_i (wr s)) (length (w_data (wr s)))); [|by apply writer_local].
    assert (Hs0 : Z.of_nat (length (sent s)) < 2 ^ 31) by lia.
    assert (Hw1 : w32 (p_wpos (pipe s)) = p_wpos (pipe s)) by (rewrite w32_small; lia).
    assert (Hw2 : w32 (w32 (p_rpos (pipe s)) + PIPEBUFSIZ) = p_rpos (pipe s) + PIPEBUFSIZ)
      by (unfold PIPEBUFSIZ; rewrite !w32_small by (rewrite ?w32_small; lia); done).
    rewrite Hw1, Hw2. unfold PIPEBUFSIZ.
    destruct (p_wpos (pipe s) >=? p_rpos (pipe s) + 32) eqn:Hroom; [by apply writer_local|].
    rewrite Z.geb_leb in Hroom; apply Z.leb_gt in Hroom. apply writer_local; [done|]. cbn. split; [lia | done].
  - destruct c; by apply writer_local.
  - destruct H9 as [Hroom Hlt]. rewrite H2, index_small in * by lia.
    destruct (lookup_lt_is_Some_2 (w_data (wr s)) (w_i (wr s)) Hlt) as [x Hx].
    rewrite (list_lookup_total_correct _ _ _ Hx).
    constructor; pcbn; try done.
    + by rewrite length_insert.
    + intros k Hk. rewrite list_lookup_insert_ne; [by apply H5|]. apply not_eq_sym, slot_inj. lia.
    + cbn. split; [done|]. split; [done|]. rewrite list_lookup_insert_eq, Hx; [done|]. rewrite H3. apply slot_lt.
  - destruct H9 as (Hroom & Hlt & Hb).
    destruct (lookup_lt_is_Some_2 (w_data (wr s)) (w_i (wr s)) Hlt) as [x Hx].
    rewrite (list_lookup_total_correct _ _ _ Hx) in *. cbn in Hsm. rewrite length_app in Hsm. simpl in Hsm.
    assert (Hl : length (sent s ++ [x]) = S (length (sent s))) by (rewrite length_app; simpl; lia).
    constructor; pcbn; rewrite ?Hl; try done.
    + rewrite H2, s32_small by lia. lia.
    + lia.
    + intros k Hk. destruct (decide (k = length (sent s))) as [-> | Hne].
      * rewrite Hb, Hx, lookup_app_r, Nat.sub_diag by lia. done.
      * rewrite lookup_app_l by lia. apply H5. lia.
    + rewrite take_app_le by lia. exact H6.
    + destruct (r_pc (rd s)); try done.
      * destruct H8. split; [lia | done].
      * destruct H8 as (y & Hy & Hb'). exists y. split; [by apply lookup_app_l_Some | done].
Qed.

Lemma pinv_initial : pinv pinitial.
Proof. constructor; try done; try (simpl; lia). split; [done | by left]. Qed.

Lemma pstep_inv e s : pinv s -> Z.of_nat (length (sent (pstep e s))) < 2 ^ 31 -> pinv (pstep e s).
Proof.
  intros Hi Hsm. pose proof (sent_mono e s) as Hmono. destruct e as [n | c | d | c]; cbn [pstep] in *.
  - destruct (r_pc (rd s)) eqn:Ep; try done. pose proof Hi as [H1 H2 H3 H4 H5 H6 H7 H8 Hret H9].
    constructor; pcbn; try done; [by rewrite drop_all | split; [apply w32_bound | done]].
  - apply reader_inv; [done | lia].
  - destruct (w_pc (wr s)); try done. by apply writer_local.
  - by apply writer_inv.
Qed.

Lemma preachable_inv s : preachable s -> Z.of_nat (length (sent s)) < 2 ^ 31 -> pinv s.
Proof.
  induction 1 as [|e s Hr IH]; intros Hsm; [apply pinv_initial|].
  pose proof (sent_mono e s). apply pstep_inv; [apply IH; lia | done].
Qed.

(** C7. A pipe is a queue: whatever the interleaving of its reader and its writer (and
    whatever they are told about the other side being gone), as long as fewer than [2^31]
    bytes have passed through, the bytes received are the first of the bytes sent, in
    order, none lost, none twice; the ring holds exactly the rest, never more than
    [PIPEBUFSIZ]; no access falls outside the ring; and when [devpipe_read] returns, it
    returns how many bytes it took, at most what it was asked for, and its buffer holds
    the bytes received since it was called. *)
Theorem pipe_fifo s :
  preachable s -> Z.of_nat (length (sent s)) < 2 ^ 31 ->
  r_pc (rd s) <> RFault /\ w_pc (wr s) <> WFault /\
  (exists rest, sent s = recvd s ++ rest /\ Z.of_nat (length rest) <= PIPEBUFSIZ /\
    devpipe_stat (pipe s) = Z.of_nat (length rest) /\
    forall k x, rest !! k = Some x -> p_buf (pipe s) !! slot (length (recvd s) + k) = Some x) /\
  (r_pc (rd s) = RIdle ->
    r_buf (rd s) = drop (r_from s) (recvd s) /\ Z.of_nat (length (r_buf (rd s))) <= r_n (rd s) /\
    (r_ret (rd s) = None \/ r_ret (rd s) = Some (Z.of_nat (length (r_buf (rd s)))))).
Proof.
  intros Hr Hsm. destruct (preachable_inv s Hr Hsm) as [H1 H2 H3 H4 H5 H6 H7 H8 [Hn Hret] H9].
  split_and!.
  - intros E. by rewrite E in H8.
  - intros E. by rewrite E in H9.
  - exists (drop (length (recvd s)) (sent s)). rewrite length_drop. split_and!.
    + rewrite H6 at 1. by rewrite take_drop.
    + unfold PIPEBUFSIZ. lia.
    + unfold devpipe_stat. rewrite H1, H2, s32_small; lia.
    + intros k x Hk. rewrite lookup_drop in Hk. rewrite H5; [done|]. apply lookup_lt_Some in Hk. lia.
  - intros E. by rewrite E in H8, Hret.
Qed.

(** A write of three bytes and a read of two, interleaved. *)
Definition sample_schedule : list event :=
  [RCall 2; RGo false; RGo false; WCall [104; 105; 106]; WGo false; WGo false; WGo false; WGo false;
   RGo false; WGo false; RGo false; RGo false; WGo false; WGo false; RGo false; RGo false; RGo false;
   RGo false; WGo false].
Lemma preachable_run l s : preachable s -> preachable (foldl (fun s e => pstep e s) s l).
Proof. revert s. induction l as [|e l IH]; [done|]. intros s Hs. apply IH. by constructor. Qed.

Lemma pipe_fifo_witness :
  let s := foldl (fun s e => pstep e s) pinitial sample_schedule in
  r_ret (rd s) = Some 2 /\ r_buf (rd s) = [104; 105] /\ r_pc (rd s) <> RFault.
Proof.
  split; [vm_compute; reflexivity|]. split; [vm_compute; reflexivity|].
  apply (pipe_fifo (foldl (fun s e => pstep e s) pinitial sample_schedule)).
  - apply preachable_run. constructor.
  - vm_compute. reflexivity.
Defined.
