(* ===== verification/Serve.v ===== *)
(** * The file server's request loop ([fs/serv.c])

    The table of open files, the handlers, and one turn of the loop.  The page of a file
    descriptor is shared with the clients that have the file open: what they wrote there
    and how often it is mapped is state of the model. *)

From S2P Require Import Prelude Mem CString Mmu KState UState Fs.

Definition MAXOPEN : Z := 1024.
Definition FILEVA : Z := 0xD0000000.
Definition MAXPATHLEN : Z := 1024.
Definition O_ACCMODE : Z := 0x3.
Definition devfile_id : Z := 102.             (* 'f' *)

Definition FSREQ_OPEN : Z := 1.
Definition FSREQ_READ : Z := 3.
Definition FSREQ_STAT : Z := 5.
Definition FSREQ_FLUSH : Z := 6.
Definition NHANDLERS : Z := 7.

Record OpenFile := mkOpenFile {
  o_fileid : Z;
  o_file : Z;               (* struct File *, 0 is NULL *)
  o_mode : Z;
  o_fd : Z                  (* struct Fd * *)
}.
#[export] Instance OpenFile_eta : Eta OpenFile := fun o => mkOpenFile (o_fileid o) (o_file o) (o_mode o) (o_fd o).
#[export] Instance OpenFile_inh : Inhabited OpenFile := populate (mkOpenFile 0 0 0 0).

Record Fd := mkFd { fd_dev_id : Z; fd_offset : Z; fd_omode : Z; fd_file_id : Z }.
#[export] Instance Fd_eta : Eta Fd := fun d => mkFd (fd_dev_id d) (fd_offset d) (fd_omode d) (fd_file_id d).
#[export] Instance Fd_inh : Inhabited Fd := populate (mkFd 0 0 0 0).

(** [opentab] as it is initialised. *)
Definition opentab0 : gmap Z OpenFile := {[ 0 := mkOpenFile 0 0 1 0 ]}.

(** [fdpages] and [refs] are keyed by the address of the page in the server; [refs] is
    what [pageref] finds: how many mappings the page has, 0 when there is none. *)
Record servst := mkServ {
  sv_fs : fsst;
  opentab : gmap Z OpenFile;
  fdpages : gmap Z Fd;
  refs : gmap Z Z;
  fsreq : memory            (* the request page, by offset *)
}.
#[export] Instance servst_eta : Eta servst :=
  fun s => mkServ (sv_fs s) (opentab s) (fdpages s) (refs s) (fsreq s).

Notation V := (U servst).

Definition on_fs {A} (m : F A) : V A := fun s =>
  match m (sv_fs s) with
  | Ok a fs => Ok a (s <| sv_fs := fs |>)
  | Panics msg fs => Panics msg (s <| sv_fs := fs |>)
  | Stops x fs => Stops x (s <| sv_fs := fs |>)
  end.

(** Of the server's page [va] ([lib/pageref.c]). *)
Definition mappings (r : gmap Z Z) (va : Z) : Z := default 0 (r !! va).
Definition pageref (va : Z) : V Z := uget (fun s => mappings (refs s) va).

(** [sys_page_alloc] for a page of the server's own. *)
Definition page_alloc_fd (va : Z) : V Z := fun s =>
  if pages_left (sv_fs s) <=? 0 then Ok (- E_NO_MEM) s
  else Ok 0 (s <| sv_fs := sv_fs s <| pages_left := pages_left (sv_fs s) - 1 |> |>
               <| refs := <[va := 1]> (refs s) |> <| fdpages := <[va := mkFd 0 0 0 0]> (fdpages s) |>).

Section serve.
Context `{Disk}.

(** Reading a [struct Fd]: a page that is not there faults, like one of the disk map. *)
Definition fd_page (va : Z) : V Fd :=
  n ← pageref va;
  (if n =? 0 then on_fs (bc_pgfault va) else mret tt);;
  uget (fun s => fdpages s !!! va).

Definition opentab_set (i : Z) (f : OpenFile -> OpenFile) : V unit :=
  uput (fun s => s <| opentab := <[i := f (opentab s !!! i)]> (opentab s) |>).
Definition open_at (i : Z) : V OpenFile := uget (fun s => opentab s !!! i).

Fixpoint serve_init_from (n : nat) (i va : Z) : V unit :=
  match n with
  | O => mret tt
  | S n' =>
      opentab_set i (fun o => o <| o_fileid := i |> <| o_fd := va |>);;
      serve_init_from n' (i + 1) (w32 (va + PGSIZE))
  end.
Definition serve_init : V unit := serve_init_from (Z.to_nat MAXOPEN) 0 FILEVA.

(** The body of [case 1]: a new id, and the page cleared. *)
Definition openfile_take (i : Z) : V (Z * Z) :=
  opentab_set i (fun o => o <| o_fileid := w32 (o_fileid o + MAXOPEN) |>);;
  o ← open_at i;
  uput (fun s => s <| fdpages := <[o_fd o := mkFd 0 0 0 0]> (fdpages s) |>);;
  mret (s32 (o_fileid o), i).

(** The body of the [for] loop. *)
Definition openfile_try (i : Z) : V (Z + Z * Z) :=
  o ← open_at i;
  n ← pageref (o_fd o);
  if n =? 0 then
    r ← page_alloc_fd (o_fd o);
    if r <? 0 then mret (inr (r, 0)) else x ← openfile_take i; mret (inr x)
  else if n =? 1 then x ← openfile_take i; mret (inr x)
  else mret (inl (i + 1)).

(** Returns the code or file id, and [*o], an index of the table. *)
Definition openfile_alloc : V (Z * Z) :=
  uloop (S (Z.to_nat MAXOPEN)) (fun i =>
    if i <? MAXOPEN then openfile_try i else mret (inr (- E_MAX_OPEN, 0))) 0.

(** Returns the code and [*po]. *)
Definition openfile_lookup (fileid : Z) : V (Z * Z) :=
  let i := fileid mod MAXOPEN in
  o ← open_at i;
  n ← pageref (o_fd o);
  if (n =? 1) || negb (o_fileid o =? fileid) then mret (- E_INVAL, 0) else mret (0, i).

(** The string at the start of a path buffer whose last byte was set to 0. *)
Fixpoint path_at (n : nat) (m : memory) (a : Z) : list Z :=
  match n with
  | O => []
  | S n' => if ld8 m a =? 0 then [] else ld8 m a :: path_at n' m (a + 1)
  end.

(** The reply to a request: the code, and the page and permissions sent along. *)
Definition serve_open : V (Z * option Z * Z) :=
  req ← uget fsreq;
  let path := path_at (Z.to_nat (MAXPATHLEN - 1)) req 0 in
  '(r, i) ← openfile_alloc;
  if r <? 0 then mret (r, None, 0)
  else
    let omode := s32 (ld32 req MAXPATHLEN) in
    if negb (omode =? 0) then mret (- E_INVAL, None, 0)
    else
      '(r, f) ← on_fs (file_open path);
      if r <? 0 then mret (r, None, 0)
      else
        opentab_set i (fun o => o <| o_file := default 0 f |>);;
        o ← open_at i;
        uput (fun s => s <| fdpages := <[o_fd o := (fdpages s !!! o_fd o) <| fd_file_id := s32 (o_fileid o) |>
          <| fd_omode := Z.land omode O_ACCMODE |> <| fd_dev_id := devfile_id |>]> (fdpages s) |>);;
        opentab_set i (fun o => o <| o_mode := omode |>);;
        mret (0, Some (o_fd o), Z.lor (Z.lor (Z.lor PTE_P PTE_U) PTE_W) PTE_SHARE).

Definition serve_read : V Z :=
  req ← uget fsreq;
  '(r, i) ← openfile_lookup (ld32 req 0);
  if r <? 0 then mret r
  else
    o ← open_at i;
    d ← fd_page (o_fd o);
    '(r, buf) ← on_fs (file_read (o_file o) (Z.min (ld32 req 4) PGSIZE) (fd_offset d));
    uput (fun s => s <| fsreq := stbytes (fsreq s) 0 buf |>);;
    if r <? 0 then mret r
    else
      uput (fun s => s <| fdpages := <[o_fd o := (fdpages s !!! o_fd o)
        <| fd_offset := s32 (fd_offset (fdpages s !!! o_fd o) + r) |>]> (fdpages s) |>);;
      mret r.

(** [strcpy] from the disk map to the request page. *)
Definition strcpy_name (name : Z) : V unit :=
  uloop (Z.to_nat DISKSIZE) (fun i =>
    c ← on_fs (fld8 (name + i));
    uput (fun s => s <| fsreq := st8 (fsreq s) i c |>);;
    if c =? 0 then mret (inr tt) else mret (inl (i + 1))) 0.

Definition serve_stat : V Z :=
  req ← uget fsreq;
  '(r, i) ← openfile_lookup (ld32 req 0);
  if r <? 0 then mret r
  else
    o ← open_at i;
    strcpy_name (f_name (o_file o));;
    size ← on_fs (fld32 (f_size (o_file o)));
    uput (fun s => s <| fsreq := st32 (fsreq s) MAXNAMELEN size |>);;
    ty ← on_fs (fld32 (f_type (o_file o)));
    uput (fun s => s <| fsreq := st32 (fsreq s) (MAXNAMELEN + 4) (if ty =? FTYPE_DIR then 1 else 0) |>);;
    mret 0.

Definition serve_flush : V Z := mret 0.

(** What [serve] makes of a request received: nothing is sent back when it has no
    argument page. *)
Definition serve_one (req perm : Z) : V (option (Z * option Z * Z)) :=
  if negb (has perm PTE_P) then mret None
  else if req =? FSREQ_OPEN then
    '(r, pg, p) ← serve_open;
    mret (Some (r, pg, match pg with Some _ => p | None => perm end))
  else
    r ← (if req =? FSREQ_READ then serve_read
         else if req =? FSREQ_STAT then serve_stat
         else if req =? FSREQ_FLUSH then serve_flush
         else mret (- E_INVAL));
    mret (Some (r, None, perm)).

(** [ipc_send] ([lib/ipc.c]), given the kernel's answers to its successive
    [sys_ipc_try_send]s; [sys_yield] lets other programs run in between. *)
Definition ipc_send (fuel : nat) (answers : nat -> Z) : V unit :=
  uloop fuel (fun k =>
    let r := answers k in
    if r =? - E_IPC_NOT_RECV then mret (inl (S k))
    else if r <? 0 then upanic "ipc_send error: %e"
    else mret (inr tt)) O.

(** One turn of [serve], to the end of the reply; its value is what was sent. *)
Definition serve_turn (fuel : nat) (answers : nat -> Z) (req perm : Z) : V (option (Z * option Z * Z)) :=
  reply ← serve_one req perm;
  match reply with
  | None => mret None
  | Some _ => ipc_send fuel answers;; mret reply
  end.
End serve.
