(* ===== verification/ServeSpec.v ===== *)
(** * The open-file table: invariant and runs of the handlers

    The server on a disk [v] whose files [T] are complete: every mapped slot that a client
    shares has a file of the disk. *)

From S2P Require Import Prelude Mem CString Mmu KState UState Fs FsInv FsSpec FsFile FsRead FsDir FsFrame Serve.

Definition fdva (i : Z) : Z := FILEVA + i * PGSIZE.

(** A disk that can be served without ever changing: a tree of directories whose files
    have all their blocks and a NUL in their names. *)
Record served (v : contents) (n : Z) (T : Z -> Prop) : Prop := {
  sd_tree : tree_ok v n T;
  sd_file : forall f, T f -> file_at n f;
  sd_block : forall f k, T f -> 0 <= k -> k * BLKSIZE < s32 (v32 v (f_size f)) -> has_block v n f k;
  sd_disk : forall f o, T f -> 0 <= o < sizeof_File -> on_disk n (f + o);
  sd_size : forall f, T f -> f mod 4 = 0;
  sd_name : forall f, T f -> exists name, name_at v (f_name f) name = true /\ Z.of_nat (length name) < MAXNAMELEN /\
    Forall (fun c => 0 < c < 256) name }.

Lemma mappings_insert r va k va' : mappings (<[va := k]> r) va' = if decide (va = va') then k else mappings r va'.
Proof.
  unfold mappings. destruct (decide (va = va')) as [-> | Hne]; [by rewrite lookup_insert_eq | by rewrite lookup_insert_ne].
Qed.

(** Slots whose page has not been made yet. *)
Definition unmapped (r : gmap Z Z) : Z :=
  Z.of_nat (length (List.filter (fun i => mappings r (fdva i) =? 0) (seqZ 0 MAXOPEN))).

Lemma filter_drop_one {A} (f g : A -> bool) l x : NoDup l -> In x l -> f x = true -> g x = false ->
  (forall y, In y l -> y <> x -> g y = f y) -> (length (List.filter f l) = S (length (List.filter g l)))%nat.
Proof.
  induction 1 as [|y l Hy Hl IH]; [done|]. intros [-> | Hin] Hf Hg Hsame; cbn [List.filter].
  - rewrite Hf, Hg. cbn [length]. f_equal. f_equal. apply filter_ext_in. intros z Hz. symmetry. apply Hsame; [by right|].
    intros ->. apply Hy. by apply list_elem_of_In.
  - specialize (IH Hin Hf Hg ltac:(intros; apply Hsame; [by right | done])).
    rewrite (Hsame y) by ((by left) || (intros ->; apply Hy; by apply list_elem_of_In)).
    destruct (f y); cbn [length]; lia.
Qed.

Section spec.
Context `{Disk} (v : contents) (n : Z) (T : Z -> Prop) (Hserved : served v n T).

Record serv_inv (s : servst) : Prop := {
  vn_fs : roomy v n (unmapped (refs s)) (sv_fs s);
  vn_id : forall i, 0 <= i < MAXOPEN -> 0 <= o_fileid (opentab s !!! i) < 2 ^ 32 /\ o_fileid (opentab s !!! i) mod MAXOPEN = i;
  vn_fd : forall i, 0 <= i < MAXOPEN -> o_fd (opentab s !!! i) = fdva i;
  vn_refs : forall i, 0 <= i < MAXOPEN -> 0 <= mappings (refs s) (fdva i);
  vn_file : forall i, 0 <= i < MAXOPEN -> 2 <= mappings (refs s) (fdva i) -> T (o_file (opentab s !!! i));
  vn_null : forall i, 0 <= i < MAXOPEN -> mappings (refs s) (fdva i) = 0 -> o_file (opentab s !!! i) = 0 }.

Lemma fdva_inj i j : fdva i = fdva j -> i = j.
Proof. unfold fdva, PGSIZE. lia. Qed.

Lemma on_fs_run {A} (m : F A) s a fs : m (sv_fs s) = Ok a fs -> on_fs m s = Ok a (s <| sv_fs := fs |>).
Proof. unfold on_fs. by intros ->. Qed.

Lemma resolve_in f ws dir f' : T f -> w_file (resolve v dir f ws) = Some f' -> w_code (resolve v dir f ws) = 0 -> T f'.
Proof.
  revert f dir. induction ws as [|w ws IH]; intros f dir Hf; cbn [resolve].
  - by intros [= <-] _.
  - destruct (_ >=? _); [done|]. destruct (v32 v (f_type f) =? FTYPE_DIR) eqn:E; cbn [negb]; [|done].
    destruct (lookup_ref v f w) as [f1|] eqn:El.
    + intros H1 H2. eapply IH; [|exact H1 | exact H2].
      eapply (tr_closed _ _ _ (sd_tree _ _ _ Hserved)); [exact Hf | by apply Z.eqb_eq | exact El].
    + destruct ws; done.
Qed.

Lemma unmapped_nonneg r : 0 <= unmapped r.
Proof. unfold unmapped. apply Nat2Z.is_nonneg. Qed.

(** Only the disk cache moves. *)
Lemma serv_inv_fs s fs : serv_inv s -> roomy v n (unmapped (refs s)) fs -> serv_inv (s <| sv_fs := fs |>).
Proof. intros [_ I1 I2 I3 I4 I5] Hfs. constructor; assumption. Qed.

Lemma serve_fs_run {A} (m : F A) a s : serv_inv s -> Framed m ->
  (forall s, sees s v n -> exists s', m s = Ok a s' /\ sees s' v n) ->
  exists fs, on_fs m s = Ok a (s <| sv_fs := fs |>) /\ serv_inv (s <| sv_fs := fs |>).
Proof.
  intros Hi Hm Hrun. destruct (roomy_run v n (unmapped (refs s)) (unmapped_nonneg (refs s)) m a (sv_fs s) Hm Hrun (vn_fs _ Hi)) as (fs & Hr & Hfs).
  exists fs. split; [by apply on_fs_run | by apply serv_inv_fs].
Qed.

(** ** Slots that get a page *)

Lemma unmapped_fresh r i k : 0 <= i < MAXOPEN -> mappings r (fdva i) = 0 -> k <> 0 ->
  unmapped (<[fdva i := k]> r) = unmapped r - 1.
Proof.
  intros Hr E Hk. unfold unmapped. rewrite (filter_drop_one (fun j => mappings r (fdva j) =? 0)
    (fun j => mappings (<[fdva i := k]> r) (fdva j) =? 0) (seqZ 0 MAXOPEN) i).
  - rewrite Nat2Z.inj_succ. lia.
  - apply NoDup_seqZ.
  - apply list_elem_of_In, elem_of_seqZ. lia.
  - by rewrite E.
  - rewrite mappings_insert, decide_True by done. by apply Z.eqb_neq.
  - intros y _ Hy. rewrite mappings_insert, decide_False; [done|]. intros Hf. apply Hy. symmetry. by apply fdva_inj.
Qed.

Lemma unmapped_same r i k : mappings r (fdva i) <> 0 -> k <> 0 -> unmapped (<[fdva i := k]> r) = unmapped r.
Proof.
  intros E Hk. unfold unmapped. f_equal. f_equal. apply filter_ext. intros j.
  destruct (decide (i = j)) as [-> | Hj].
  - rewrite mappings_insert, decide_True by done. destruct (Z.eqb_spec k 0), (Z.eqb_spec (mappings r (fdva j)) 0); done.
  - rewrite mappings_insert, decide_False; [done|]. intros Hf. by apply Hj, fdva_inj.
Qed.

Lemma next_id x : 0 <= x < 2 ^ 32 -> w32 (x + MAXOPEN) mod MAXOPEN = x mod MAXOPEN.
Proof. intros Hx. unfold w32, MAXOPEN. zlia. Qed.

(** A change of one slot of the tables, the others staying. *)
Lemma serv_inv_slot s i fs o d k req :
  serv_inv s -> 0 <= i < MAXOPEN -> 1 <= k ->
  roomy v n (unmapped (<[fdva i := k]> (refs s))) fs ->
  0 <= o_fileid o < 2 ^ 32 /\ o_fileid o mod MAXOPEN = i -> o_fd o = fdva i -> (2 <= k -> T (o_file o)) ->
  serv_inv (mkServ fs (<[i := o]> (opentab s)) (<[fdva i := d]> (fdpages s)) (<[fdva i := k]> (refs s)) req).
Proof.
  intros [_ I1 I2 I3 I4 I5] Hi Hk Hfs Ho Hd Hf.
  constructor; cbn [sv_fs opentab fdpages refs fsreq]; [exact Hfs| | | | |]; intros j Hj.
  all: destruct (decide (i = j)) as [<- | Hne]; [rewrite ?mappings_insert, ?decide_True, ?lookup_total_insert_eq by done; first [done | lia]|].
  all: assert (Hne' : fdva i <> fdva j) by (intros E; by apply Hne, fdva_inj).
  all: rewrite ?mappings_insert, ?(decide_False _ _ Hne'), ?(lookup_total_insert_ne _ _ _ _ Hne); auto.
Qed.

Lemma serv_inv_req s req : serv_inv s -> serv_inv (s <| fsreq := req |>).
Proof. intros [I0 I1 I2 I3 I4 I5]. constructor; assumption. Qed.

(** ** [openfile_alloc] *)

(** The slot it takes: the first that no client shares. *)
Definition first_slot (s : servst) : option Z := List.find (fun i => mappings (refs s) (fdva i) <? 2) (seqZ 0 MAXOPEN).

(** Slot [i] taken: a new id, a page of its own that reads as zero. *)
Definition slot_taken (s : servst) (i : Z) : servst :=
  mkServ (if mappings (refs s) (fdva i) =? 0 then sv_fs s <| pages_left := pages_left (sv_fs s) - 1 |> else sv_fs s)
    (<[i := (opentab s !!! i) <| o_fileid := w32 (o_fileid (opentab s !!! i) + MAXOPEN) |>]> (opentab s))
    (<[fdva i := mkFd 0 0 0 0]> (fdpages s)) (<[fdva i := 1]> (refs s)) (fsreq s).

Lemma openfile_take_run s i : serv_inv s -> 0 <= i < MAXOPEN -> mappings (refs s) (fdva i) = 1 ->
  openfile_take i s = Ok (s32 (o_fileid (opentab s !!! i) + MAXOPEN), i) (slot_taken s i).
Proof.
  intros Hs Hi E. unfold openfile_take, opentab_set, open_at. ub. ub. ub.
  cbn [opentab]. change (opentab (?s <| opentab := ?x |>)) with x. rewrite lookup_total_insert_eq. cbn [o_fd o_fileid].
  change (o_fd (?o <| o_fileid := ?x |>)) with (o_fd o). change (o_fileid (?o <| o_fileid := ?x |>)) with x.
  rewrite (vn_fd _ Hs i Hi), s32_w32. unfold slot_taken. rewrite E. cbn [Z.eqb Pos.eqb].
  rewrite (insert_id (refs s)) by (unfold mappings in E; destruct (refs s !! fdva i); [by f_equal | done]). destruct s. reflexivity.
Qed.

Lemma slot_pages s i : serv_inv s -> 0 <= i < MAXOPEN -> mappings (refs s) (fdva i) = 0 -> 0 < pages_left (sv_fs s).
Proof.
  intros Hs Hi E. pose proof (vn_fs _ Hs) as [Hsee Hroom]. pose proof (unmapped_fresh (refs s) i 1 Hi E ltac:(done)) as Hu.
  pose proof (unmapped_nonneg (<[fdva i := 1]> (refs s))) as Hn.
  assert (Hsz : Z.of_nat (size (cached (sv_fs s))) <= n); [|lia].
  assert (Hsub : cached (sv_fs s) ⊆ list_to_set (seqZ 0 n)).
  { intros x Hx. apply elem_of_list_to_set, elem_of_seqZ. pose proof (se_cached _ _ _ Hsee x Hx). lia. }
  apply subseteq_size in Hsub. rewrite size_list_to_set, length_seqZ in Hsub by apply NoDup_seqZ.
  pose proof (se_n _ _ _ Hsee). lia.
Qed.

Lemma openfile_try_run s i : serv_inv s -> 0 <= i < MAXOPEN ->
  openfile_try i s = if mappings (refs s) (fdva i) <? 2
    then Ok (inr (s32 (o_fileid (opentab s !!! i) + MAXOPEN), i)) (slot_taken s i)
    else Ok (inl (i + 1)) s.
Proof.
  intros Hs Hi. unfold openfile_try, open_at, pageref. ub. ub. rewrite (vn_fd _ Hs i Hi).
  pose proof (vn_refs _ Hs i Hi) as H0.
  destruct (Z.eqb_spec (mappings (refs s) (fdva i)) 0) as [E | E]; [|destruct (Z.eqb_spec (mappings (refs s) (fdva i)) 1) as [E' | E']].
  - rewrite (proj2 (Z.ltb_lt _ 2)) by lia. pose proof (slot_pages s i Hs Hi E) as Hp.
    assert (Ha : page_alloc_fd (fdva i) s = Ok 0 (s <| sv_fs := sv_fs s <| pages_left := pages_left (sv_fs s) - 1 |> |>
      <| refs := <[fdva i := 1]> (refs s) |> <| fdpages := <[fdva i := mkFd 0 0 0 0]> (fdpages s) |>)).
    { unfold page_alloc_fd. by rewrite (proj2 (Z.leb_gt _ 0) Hp). }
    urw Ha. cbn [Z.ltb Z.compare]. unfold openfile_take, opentab_set, open_at. ub. ub. ub. ub.
    cbn [opentab]. change (opentab (?s <| opentab := ?x |>)) with x. rewrite lookup_total_insert_eq.
    change (o_fd (?o <| o_fileid := ?x |>)) with (o_fd o). change (o_fileid (?o <| o_fileid := ?x |>)) with x.
    cbn [opentab]. change (opentab (s <| sv_fs := ?a |> <| refs := ?b |> <| fdpages := ?c |>)) with (opentab s).
    rewrite (vn_fd _ Hs i Hi), s32_w32. ub. ub. unfold slot_taken. rewrite E. cbn [Z.eqb].
    unfold mret, U_ret. f_equal. destruct s. cbn. by rewrite insert_insert_eq.
  - rewrite (proj2 (Z.ltb_lt _ 2)) by lia. urw (openfile_take_run s i Hs Hi E'). done.
  - rewrite (proj2 (Z.ltb_ge _ 2)) by lia. done.
Qed.

Lemma openfile_alloc_loop s m i : serv_inv s -> i + Z.of_nat m = MAXOPEN -> 0 <= i ->
  uloop (S m) (fun i => if i <? MAXOPEN then openfile_try i else mret (inr (- E_MAX_OPEN, 0))) i s =
  match List.find (fun i => mappings (refs s) (fdva i) <? 2) (seqZ i (Z.of_nat m)) with
  | Some i => Ok (s32 (o_fileid (opentab s !!! i) + MAXOPEN), i) (slot_taken s i)
  | None => Ok (- E_MAX_OPEN, 0) s
  end.
Proof.
  intros Hs. revert i. induction m as [|m IH]; intros i Hm Hi; rewrite uloop_succ.
  - rewrite (proj2 (Z.ltb_ge i MAXOPEN)) by lia. done.
  - rewrite (proj2 (Z.ltb_lt i MAXOPEN)) by lia.
    rewrite seqZ_cons by lia. cbn [List.find]. pose proof (openfile_try_run s i Hs ltac:(lia)) as Ht.
    destruct (mappings (refs s) (fdva i) <? 2); urw Ht; [done|].
    rewrite IH by lia. replace (Z.pred (Z.of_nat (S m))) with (Z.of_nat m) by lia. by rewrite Z.add_1_r.
Qed.

Lemma openfile_alloc_run s : serv_inv s ->
  openfile_alloc s = match first_slot s with
    | Some i => Ok (s32 (o_fileid (opentab s !!! i) + MAXOPEN), i) (slot_taken s i)
    | None => Ok (- E_MAX_OPEN, 0) s
    end.
Proof. intros Hs. exact (openfile_alloc_loop s (Z.to_nat MAXOPEN) 0 Hs eq_refl ltac:(done)). Qed.

Lemma first_slot_range s i : first_slot s = Some i -> 0 <= i < MAXOPEN /\ mappings (refs s) (fdva i) < 2.
Proof.
  intros [Hin Hf]%find_some. apply list_elem_of_In, elem_of_seqZ in Hin. apply Z.ltb_lt in Hf. split; [exact Hin | exact Hf].
Qed.

Lemma slot_taken_inv s i : serv_inv s -> 0 <= i < MAXOPEN -> serv_inv (slot_taken s i).
Proof.
  intros Hs Hi. unfold slot_taken. destruct (vn_id _ Hs i Hi) as [Hid Hmod].
  apply serv_inv_slot; [exact Hs | exact Hi | done | | | exact (vn_fd _ Hs i Hi) | lia].
  - destruct (Z.eqb_spec (mappings (refs s) (fdva i)) 0) as [E | E].
    + pose proof (slot_pages s i Hs Hi E) as Hp. rewrite (unmapped_fresh _ i 1 Hi E) by done.
      destruct (vn_fs _ Hs) as [[] Hroom]. pose proof (unmapped_fresh (refs s) i 1 Hi E ltac:(done)) as Hu.
      pose proof (unmapped_nonneg (<[fdva i := 1]> (refs s))).
      assert (Hr : unmapped (refs s) - 1 + n <= pages_left (sv_fs s) - 1 + Z.of_nat (size (cached (sv_fs s)))) by lia.
      constructor; [constructor; try assumption|]; cbn [pages_left cached]; [|exact Hr].
      change (n <= pages_left (sv_fs s) - 1 + Z.of_nat (size (cached (sv_fs s)))). lia.
    + rewrite unmapped_same by done. exact (vn_fs _ Hs).
  - split; [apply w32_bound|]. change (o_fileid (?o <| o_fileid := ?x |>)) with x. by rewrite next_id.
Qed.
End spec.
