(* ===== verification/ServeRun.v ===== *)
(** * Runs of the file server's handlers

    What each handler of [fs/serv.c] answers and leaves behind, on a server that keeps
    [serv_inv]. *)

From S2P Require Import Prelude Mem CString Mmu KState UState Fs FsInv FsSpec FsFile FsRead FsDir FsFrame Serve ServeSpec.

(** Read through the updates of the records. *)
Ltac serve_simpl :=
  cbv [upd eta servst_eta OpenFile_eta Fd_eta];
  cbn [sv_fs opentab fdpages refs fsreq o_fileid o_file o_mode o_fd fd_dev_id fd_offset fd_omode fd_file_id].

Section run.
Context `{Disk} (v : contents) (n : Z) (T : Z -> Prop) (Hserved : served v n T).

Notation serv_inv := (serv_inv v n T).

Lemma openfile_lookup_run s fileid : serv_inv s ->
  let i := fileid mod MAXOPEN in
  openfile_lookup fileid s =
    Ok (if (mappings (refs s) (fdva i) =? 1) || negb (o_fileid (opentab s !!! i) =? fileid) then (- E_INVAL, 0) else (0, i)) s.
Proof.
  intros Hs i. unfold openfile_lookup, open_at, pageref. fold i. ub. ub.
  rewrite (vn_fd _ _ _ _ Hs i) by (apply Z.mod_pos_bound; done).
  by destruct (_ || _).
Qed.

Lemma resolve_code f dir ws : T f ->
  let w := resolve v dir f ws in
  w_code w < 0 \/ w_code w = 0 /\ exists f', w_file w = Some f' /\ T f'.
Proof.
  intros Hf. cbv zeta. revert f dir Hf. induction ws as [|w ws IH]; intros f dir Hf; cbn [resolve].
  - right. by eauto.
  - destruct (_ >=? _); [by left|]. destruct (v32 v (f_type f) =? FTYPE_DIR) eqn:E; cbn [negb]; [|by left].
    destruct (lookup_ref v f w) as [f1|] eqn:El; [|left; by destruct ws].
    apply IH. eapply (tr_closed _ _ _ (sd_tree _ _ _ Hserved)); [exact Hf | by apply Z.eqb_eq | exact El].
Qed.

Lemma path_at_bytes k m a : Forall (fun c => 0 < c < 256) (path_at k m a).
Proof.
  revert a. induction k as [|k IH]; intros a; cbn [path_at]; [constructor|].
  destruct (Z.eqb_spec (ld8 m a) 0); constructor; [|apply IH]. pose proof (ld8_bound m a). lia.
Qed.

(** ** [serve_open] *)

(** The path and mode of the request. *)
Definition req_path (req : memory) : list Z := path_at (Z.to_nat (MAXPATHLEN - 1)) req 0.
Definition req_omode (req : memory) : Z := s32 (ld32 req MAXPATHLEN).
Definition new_id (s : servst) (i : Z) : Z := w32 (o_fileid (opentab s !!! i) + MAXOPEN).

(** Slot [i] opened on file [f]. *)
Definition slot_opened (s : servst) (i f : Z) (fs : fsst) : servst :=
  mkServ fs (<[i := mkOpenFile (new_id s i) f 0 (fdva i)]> (opentab s))
    (<[fdva i := mkFd devfile_id 0 0 (s32 (new_id s i))]> (fdpages s)) (<[fdva i := 1]> (refs s)) (fsreq s).

Definition share_perm : Z := Z.lor (Z.lor (Z.lor PTE_P PTE_U) PTE_W) PTE_SHARE.

Lemma serve_open_run s : serv_inv s ->
  match first_slot s with
  | None => serve_open s = Ok (- E_MAX_OPEN, None, 0) s
  | Some i =>
      if s32 (new_id s i) <? 0 then serve_open s = Ok (s32 (new_id s i), None, 0) (slot_taken s i)
      else if negb (req_omode (fsreq s) =? 0) then serve_open s = Ok (- E_INVAL, None, 0) (slot_taken s i)
      else
        let w := resolve v None (s_root SB) (elements (req_path (fsreq s))) in
        exists fs, roomy v n (unmapped (<[fdva i := 1]> (refs s))) fs /\
        if w_code w <? 0 then serve_open s = Ok (w_code w, None, 0) (slot_taken s i <| sv_fs := fs |>)
        else exists f, w_file w = Some f /\ T f /\
             serve_open s = Ok (0, Some (fdva i), share_perm) (slot_opened s i f fs)
  end.
Proof.
  intros Hs. unfold serve_open. cbv zeta. rewrite ubind_get. cbv beta.
  pose proof (openfile_alloc_run v n T s Hs) as Ha. destruct (first_slot s) as [i|] eqn:Ei; [|by urw Ha].
  destruct (first_slot_range s i Ei) as [Hi _]. unfold new_id. rewrite s32_w32. urw Ha.
  destruct (Z.ltb_spec (s32 (o_fileid (opentab s !!! i) + MAXOPEN)) 0) as [|Hid]; [done|].
  fold (req_omode (fsreq s)) (req_path (fsreq s)).
  destruct (Z.eqb_spec (req_omode (fsreq s)) 0) as [Hom | Hom]; cbn [negb]; [|done].
  pose proof (slot_taken_inv v n T s i Hs Hi) as Ht.
  destruct (serve_fs_run v n T (file_open (req_path (fsreq s)))
    (w_code (resolve v None (s_root SB) (elements (req_path (fsreq s)))),
     w_file (resolve v None (s_root SB) (elements (req_path (fsreq s))))) (slot_taken s i) Ht _) as (fs & Hr & Hfs).
  { intros s0 Hs0. destruct (walk_path_run T v n s0 (req_path (fsreq s)) Hs0 (sd_tree _ _ _ Hserved)
      ltac:(apply path_at_bytes)) as (s1 & R & Hs1).
    exists s1. unfold file_open. split; [by urw R | exact Hs1]. }
  exists fs. split; [exact (vn_fs _ _ _ _ Hfs)|]. urw Hr.
  destruct (Z.ltb_spec (w_code (resolve v None (s_root SB) (elements (req_path (fsreq s))))) 0) as [|Hc]; [done|].
  destruct (resolve_code (s_root SB) None (elements (req_path (fsreq s))) (tr_root _ _ _ (sd_tree _ _ _ Hserved)))
    as [Hc' | (_ & f & Hf & HTf)]; [lia|].
  exists f. split; [exact Hf|]. split; [exact HTf|]. rewrite Hf. cbn [default from_option id].
  unfold opentab_set, open_at. ub. ub. ub. ub.
  pose proof (vn_fd _ _ _ _ Hs i Hi) as Hfd.
  unfold slot_taken, slot_opened, new_id. destruct s as [fs0 tab fds rs req]. cbn [sv_fs opentab fdpages refs fsreq] in *.
  serve_simpl. rewrite !lookup_total_insert_eq. serve_simpl. rewrite Hfd, lookup_total_insert_eq, !insert_insert_eq, Hom.
  reflexivity.
Qed.

Lemma slot_opened_inv s i f fs : serv_inv s -> 0 <= i < MAXOPEN -> roomy v n (unmapped (<[fdva i := 1]> (refs s))) fs ->
  serv_inv (slot_opened s i f fs).
Proof.
  intros Hs Hi Hfs. unfold slot_opened, new_id. destruct (vn_id _ _ _ _ Hs i Hi) as [Hid Hmod].
  apply serv_inv_slot; [exact Hs | exact Hi | done | exact Hfs | | reflexivity | lia].
  split; [apply w32_bound|]. cbn [o_fileid]. by rewrite next_id.
Qed.

(** ** [serve_read] *)

(** The slot a request names, when [openfile_lookup] accepts it. *)
Definition named (s : servst) (fileid : Z) : option Z :=
  let i := fileid mod MAXOPEN in
  if (mappings (refs s) (fdva i) =? 1) || negb (o_fileid (opentab s !!! i) =? fileid) then None else Some i.

Lemma named_range s fileid i : named s fileid = Some i ->
  0 <= i < MAXOPEN /\ i = fileid mod MAXOPEN /\ mappings (refs s) (fdva i) <> 1 /\ o_fileid (opentab s !!! i) = fileid.
Proof.
  unfold named. destruct (Z.eqb_spec (mappings (refs s) (fdva (fileid mod MAXOPEN))) 1) as [|E]; [done|].
  destruct (Z.eqb_spec (o_fileid (opentab s !!! (fileid mod MAXOPEN))) fileid) as [E'|]; [|done]. cbn [orb negb].
  intros [= <-]. split; [apply Z.mod_pos_bound; done|]. split; [reflexivity|]. split; [exact E | exact E'].
Qed.

Lemma openfile_lookup_named s fileid : serv_inv s ->
  openfile_lookup fileid s = Ok (match named s fileid with Some i => (0, i) | None => (- E_INVAL, 0) end) s.
Proof. intros Hs. rewrite openfile_lookup_run by exact Hs. unfold named. by destruct (_ || _). Qed.

Lemma fd_page_run s va : mappings (refs s) va <> 0 -> fd_page va s = Ok (fdpages s !!! va) s.
Proof. intros Hr. unfold fd_page, pageref. ub. by rewrite (proj2 (Z.eqb_neq _ 0) Hr). Qed.

(** The bytes [serve_read] sends from slot [i]. *)
Definition sent (s : servst) (i : Z) : Z :=
  read_count v (o_file (opentab s !!! i)) (Z.min (ld32 (fsreq s) 4) PGSIZE) (fd_offset (fdpages s !!! fdva i)).

Lemma serve_read_run s : serv_inv s ->
  match named s (ld32 (fsreq s) 0) with
  | None => serve_read s = Ok (- E_INVAL) s
  | Some i => let d := fdpages s !!! fdva i in
      mappings (refs s) (fdva i) <> 0 -> 0 <= fd_offset d < 2 ^ 31 ->
      exists fs, roomy v n (unmapped (refs s)) fs /\
        serve_read s = Ok (sent s i) (s <| sv_fs := fs |>
          <| fsreq := stbytes (fsreq s) 0 (fbytes v (o_file (opentab s !!! i)) (fd_offset d) (sent s i)) |>
          <| fdpages := <[fdva i := d <| fd_offset := s32 (fd_offset d + sent s i) |>]> (fdpages s) |>)
  end.
Proof.
  intros Hs. unfold serve_read. rewrite ubind_get. cbv beta.
  pose proof (openfile_lookup_named s (ld32 (fsreq s) 0) Hs) as Hl.
  destruct (named s (ld32 (fsreq s) 0)) as [i|] eqn:Ei; [|by urw Hl]. cbv zeta. intros Href Hoff. urw Hl.
  destruct (named_range _ _ _ Ei) as (Hi & _ & H1 & _). cbn [Z.ltb Z.compare].
  unfold open_at. ub. rewrite (vn_fd _ _ _ _ Hs i Hi). urw (fd_page_run s (fdva i) Href).
  pose proof (vn_refs _ _ _ _ Hs i Hi) as H0. pose proof (vn_file _ _ _ _ Hs i Hi ltac:(lia)) as HT.
  set (f := o_file (opentab s !!! i)) in *. set (off := fd_offset (fdpages s !!! fdva i)) in *.
  destruct (serve_fs_run v n T (file_read f (Z.min (ld32 (fsreq s) 4) PGSIZE) off)
    (sent s i, fbytes v f off (sent s i)) s Hs _) as (fs & Hr & Hfs).
  { intros s0 Hs0. apply file_read_full; [exact Hs0 | exact (sd_file _ _ _ Hserved f HT) | exact Hoff | |].
    - pose proof (ld32_bound (fsreq s) 4). unfold PGSIZE. lia.
    - intros k Hc Hk Hke. pose proof (read_count_end v f (Z.min (ld32 (fsreq s) 4) PGSIZE) off).
      apply (sd_block _ _ _ Hserved f k HT); unfold BLKSIZE, PGSIZE in *; zlia. }
  exists fs. split; [exact (vn_fs _ _ _ _ Hfs)|]. urw Hr. ub.
  assert (Hc : 0 <= sent s i) by (unfold sent, read_count; lia). rewrite (proj2 (Z.ltb_ge _ 0) Hc).
  ub. reflexivity.
Qed.

(** ** [serve_stat] *)

(** The bytes of the disk from [a] on are [l]. *)
Definition disk_bytes (a : Z) (l : list Z) : Prop :=
  forall k c, l !! k = Some c -> v (a + Z.of_nat k) = c /\ on_disk n (a + Z.of_nat k).

Lemma disk_bytes_cons a c l : disk_bytes a (c :: l) -> v a = c /\ on_disk n a /\ disk_bytes (a + 1) l.
Proof.
  intros Hb. destruct (Hb 0%nat c eq_refl) as [Hv Hd]. rewrite Z.add_0_r in Hv, Hd. split; [exact Hv|]. split; [exact Hd|].
  intros k c' Hk. specialize (Hb (S k) c' Hk). by replace (a + 1 + Z.of_nat k) with (a + Z.of_nat (S k)) by lia.
Qed.

Lemma strcpy_from f l s i fuel : serv_inv s -> (length l < fuel)%nat -> Forall (fun c => 0 < c < 256) l ->
  disk_bytes (f + i) (l ++ [0]) ->
  exists fs, roomy v n (unmapped (refs s)) fs /\
  uloop fuel (fun i =>
    c ← on_fs (fld8 (f + i));
    uput (fun s => s <| fsreq := st8 (fsreq s) i c |>);;
    if c =? 0 then mret (inr tt) else mret (inl (i + 1))) i s =
  Ok tt (s <| sv_fs := fs |> <| fsreq := stbytes (fsreq s) i (l ++ [0]) |>).
Proof.
  revert s i fuel. induction l as [|c l IH]; intros s i fuel Hs Hfu Hl Hb; (destruct fuel as [|fuel]; [cbn in Hfu; lia|]);
    rewrite uloop_succ, ubind_assoc; destruct (disk_bytes_cons _ _ _ Hb) as (Hv & Hd & Hb').
  all: destruct (serve_fs_run v n T (fld8 (f + i)) (v (f + i)) s Hs _ ltac:(intros s0 Hs0; by apply fld8_run)) as (fs & Hr & Hfs).
  all: urw Hr; ub; ub; rewrite Hv.
  - exists fs. split; [exact (vn_fs _ _ _ _ Hfs)|]. reflexivity.
  - inversion Hl as [|? ? Hc Hl']. subst. rewrite (proj2 (Z.eqb_neq _ 0)) by lia.
    destruct (IH (s <| sv_fs := fs |> <| fsreq := st8 (fsreq s) i (v (f + i)) |>) (i + 1) fuel) as (fs' & Hfs' & Hr').
    + apply serv_inv_req. exact Hfs.
    + cbn in Hfu. lia.
    + exact Hl'.
    + by rewrite Z.add_assoc.
    + exists fs'. split; [exact Hfs'|]. exact Hr'.
Qed.

Lemma name_bytes f name : T f -> name_at v (f_name f) name = true -> Z.of_nat (length name) < MAXNAMELEN ->
  disk_bytes f (name ++ [0]).
Proof.
  intros HT Hn%bool_decide_eq_true Hl k c Hk.
  pose proof (lookup_lt_Some _ _ _ Hk) as Hlt. rewrite length_app in Hlt. cbn [length] in Hlt.
  rewrite <- Hn in Hk. change (map ?h ?l) with (h <$> l) in Hk. apply list_lookup_fmap_Some in Hk as (j & -> & Hj). apply lookup_seqZ in Hj as [-> _].
  split; [done|]. apply (sd_disk _ _ _ Hserved f _ HT). unfold MAXNAMELEN, sizeof_File in *. lia.
Qed.

Lemma file_words f : T f -> forall a, a = f_size f \/ a = f_type f -> on_disk n a /\ a mod 4 = 0.
Proof.
  intros HT a Ha. pose proof (sd_size _ _ _ Hserved f HT) as Hm.
  assert (Ho : exists o, a = f + o /\ 0 <= o < sizeof_File /\ o mod 4 = 0).
  { destruct Ha as [-> | ->]; [exists 128 | exists 132]; unfold f_size, f_type, MAXNAMELEN, sizeof_File;
      (split; [lia | split; [lia | done]]). }
  destruct Ho as (o & -> & Ho & Ho4). split; [by apply (sd_disk _ _ _ Hserved)|]. zlia.
Qed.

(** The reply to [stat]: name, size, and whether it is a directory. *)
Definition stat_reply (req : memory) (f : Z) (name : list Z) : memory :=
  st32 (st32 (stbytes req 0 (name ++ [0])) MAXNAMELEN (v32 v (f_size f)))
    (MAXNAMELEN + 4) (if v32 v (f_type f) =? FTYPE_DIR then 1 else 0).

Lemma serve_stat_run s : serv_inv s ->
  match named s (ld32 (fsreq s) 0) with
  | None => serve_stat s = Ok (- E_INVAL) s
  | Some i =>
      mappings (refs s) (fdva i) <> 0 ->
      exists fs name, roomy v n (unmapped (refs s)) fs /\ name_at v (f_name (o_file (opentab s !!! i))) name = true /\
        Z.of_nat (length name) < MAXNAMELEN /\ Forall (fun c => 0 < c < 256) name /\
        serve_stat s = Ok 0 (s <| sv_fs := fs |> <| fsreq := stat_reply (fsreq s) (o_file (opentab s !!! i)) name |>)
  end.
Proof.
  intros Hs. unfold serve_stat. rewrite ubind_get. cbv beta.
  pose proof (openfile_lookup_named s (ld32 (fsreq s) 0) Hs) as Hl.
  destruct (named s (ld32 (fsreq s) 0)) as [i|] eqn:Ei; [|by urw Hl]. cbv zeta. intros Href. urw Hl.
  destruct (named_range _ _ _ Ei) as (Hi & _ & H1 & _). cbn [Z.ltb Z.compare]. unfold open_at. ub.
  pose proof (vn_refs _ _ _ _ Hs i Hi) as H0. pose proof (vn_file _ _ _ _ Hs i Hi ltac:(lia)) as HT.
  set (f := o_file (opentab s !!! i)) in *.
  destruct (sd_name _ _ _ Hserved f HT) as (name & Hname & Hlen & Hb).
  assert (Hat : disk_bytes (f + 0) (name ++ [0])).
  { rewrite Z.add_0_r. exact (name_bytes f name HT Hname Hlen). }
  destruct (strcpy_from f name s 0 (Z.to_nat DISKSIZE) Hs) as (fs1 & Hfs1 & Hr1);
    [unfold MAXNAMELEN, DISKSIZE in *; lia | exact Hb | exact Hat|].
  assert (Hs1 : serv_inv (s <| sv_fs := fs1 |> <| fsreq := stbytes (fsreq s) 0 (name ++ [0]) |>))
    by (apply serv_inv_req, serv_inv_fs; assumption).
  pose proof (file_words f HT) as Hword.
  destruct (serve_fs_run v n T (fld32 (f_size f)) (v32 v (f_size f)) _ Hs1 _
    ltac:(intros s0 Hs0; exact (fld32_run s0 v n _ Hs0 (proj1 (Hword _ (or_introl eq_refl))) (proj2 (Hword _ (or_introl eq_refl)))))) as (fs2 & Hr2 & Hs2).
  pose proof (serv_inv_req _ _ _ _ (st32 (stbytes (fsreq s) 0 (name ++ [0])) MAXNAMELEN (v32 v (f_size f))) Hs2) as Hs2'.
  destruct (serve_fs_run v n T (fld32 (f_type f)) (v32 v (f_type f)) _ Hs2' _
    ltac:(intros s0 Hs0; exact (fld32_run s0 v n _ Hs0 (proj1 (Hword _ (or_intror eq_refl))) (proj2 (Hword _ (or_intror eq_refl)))))) as (fs3 & Hr3 & Hs3).
  exists fs3, name. split; [exact (vn_fs _ _ _ _ Hs3)|]. split; [exact Hname|]. split; [exact Hlen|]. split; [exact Hb|].
  unfold strcpy_name. urw Hr1. urw Hr2. ub. urw Hr3. ub. reflexivity.
Qed.

(** ** [serve_init] *)

Lemma serve_init_loop k s i : 0 <= i -> i + Z.of_nat k = MAXOPEN ->
  exists tab, serve_init_from k i (fdva i) s = Ok tt (s <| opentab := tab |>) /\
  (forall j, i <= j < MAXOPEN -> tab !!! j = (opentab s !!! j) <| o_fileid := j |> <| o_fd := fdva j |>) /\
  (forall j, 0 <= j < i -> tab !!! j = opentab s !!! j).
Proof.
  revert s i. induction k as [|k IH]; intros s i Hi Hk; cbn [serve_init_from].
  - exists (opentab s). split; [by destruct s|]. split; [|done]. intros j Hj. exfalso. lia.
  - unfold opentab_set. rewrite ubind_put. cbv beta.
    replace (w32 (fdva i + PGSIZE)) with (fdva (i + 1)) by
      (rewrite w32_small; unfold fdva, FILEVA, PGSIZE, MAXOPEN in *; lia).
    destruct (IH (s <| opentab := <[i := (opentab s !!! i) <| o_fileid := i |> <| o_fd := fdva i |>]> (opentab s) |>)
      (i + 1) ltac:(lia) ltac:(lia)) as (tab & Hr & Hin & Hout).
    exists tab. split; [exact Hr|]. split; intros j Hj.
    + destruct (decide (i = j)) as [<- | Hne]; [|rewrite (Hin j) by lia; change (opentab (?s <| opentab := ?x |>)) with x; by rewrite lookup_total_insert_ne]. rewrite (Hout i) by lia.
      change (opentab (?s <| opentab := ?x |>)) with x. by rewrite lookup_total_insert_eq.
    + rewrite (Hout j) by lia. change (opentab (?s <| opentab := ?x |>)) with x. rewrite lookup_total_insert_ne; [done | lia].
Qed.

Lemma unmapped_none : unmapped ∅ = MAXOPEN.
Proof.
  unfold unmapped. rewrite List.forallb_filter_id; [by rewrite length_seqZ|].
  apply forallb_forall. intros i _. done.
Qed.

Lemma opentab0_file i : o_file (opentab0 !!! i) = 0.
Proof.
  unfold opentab0. destruct (decide (i = 0)) as [-> | Hi]; [by rewrite lookup_total_singleton|].
  by rewrite lookup_total_singleton_ne.
Qed.

(** Started without open files, on a mounted disk that fits in memory with a page for
    every slot. *)
Lemma serve_init_run fs req : roomy v n MAXOPEN fs ->
  exists s, serve_init (mkServ fs opentab0 ∅ ∅ req) = Ok tt s /\ serv_inv s /\ refs s = ∅ /\
    forall i, 0 <= i < MAXOPEN -> o_fileid (opentab s !!! i) = i.
Proof.
  intros Hfs. destruct (serve_init_loop (Z.to_nat MAXOPEN) (mkServ fs opentab0 ∅ ∅ req) 0 ltac:(done) eq_refl) as (tab' & Hr & Hin & _).
  exists (mkServ fs tab' ∅ ∅ req). split; [exact Hr|]. split; [|split; [reflexivity | intros i Hi; cbn [opentab]; by rewrite (Hin i Hi)]].
  constructor; cbn [sv_fs opentab fdpages refs fsreq]; [by rewrite unmapped_none | | | | |]; intros i Hi.
  - rewrite (Hin i Hi). cbn. split; [unfold MAXOPEN in *; lia | by apply Z.mod_small].
  - by rewrite (Hin i Hi).
  - exact (Z.le_refl 0).
  - intros H2. exfalso. change (2 <= 0) in H2. clear - H2. lia.
  - intros _. rewrite (Hin i Hi). apply opentab0_file.
Qed.
End run.
