(* ===== verification/ServeSample.v ===== *)
(** * A small disk for the file server's clients

    Eight blocks, a root directory with a file of one block and a file of two, every block
    of both in place, and the server mounted on it. *)

From S2P Require Import Prelude Mem CString Mmu KState UState Fs FsInv FsSpec FsFile FsRead FsDir FsFrame FsSample Serve ServeSpec.

Definition full_img : memory :=
  put_file (1 * 4096 + 8) "/" 4096 FTYPE_DIR [3] (
  put_file (3 * 4096) "motd" 11 FTYPE_REG [4] (
  put_file (3 * 4096 + 256) "big" 4100 FTYPE_REG [5; 6] (
  stbytes (stbytes (stbytes (st32 (st32 (st32 ∅ 4096 FS_MAGIC) (4096 + 4) 8) (2 * 4096) 0x7F)
    (4 * 4096) (chars "hello world")) (5 * 4096) (chars "start")) (6 * 4096) (chars "end!")))).

#[local] Instance full_disk : Disk :=
  {| disk1_present := true; sector_status := fun _ => 0; disk_byte := ld8 full_img |}.
Definition full_v : contents := raw.
Definition full_tree (f : Z) : Prop := flat_tree full_v f.
Definition full_fs0 : fsst := mkFsst ∅ ∅ None 0 1100.

(** ** Deciding what [served] asks of a file *)

Fixpoint cname (k : nat) (v : contents) (a : Z) : list Z :=
  match k with
  | O => []
  | S k => if v a =? 0 then [] else v a :: cname k v (a + 1)
  end.

Definition file_servedb (v : contents) (n f : Z) : bool :=
  (f mod 4 =? 0) && (baddr 0 <=? f) && (f + sizeof_File <=? baddr n) && (f mod BLKSIZE + sizeof_File <=? BLKSIZE) &&
  (s32 (v32 v (f_size f)) <=? NDIRECT * BLKSIZE) &&
  forallb (fun k => (s32 (v32 v (f_size f)) <=? k * BLKSIZE) || ((0 <? slot_val v f k) && (slot_val v f k <? n))) (seqZ 0 NDIRECT) &&
  name_at v (f_name f) (cname 127 v f) && (Z.of_nat (length (cname 127 v f)) <? MAXNAMELEN) &&
  forallb (fun c => (0 <? c) && (c <? 256)) (cname 127 v f).

Lemma file_servedb_ok v n f : file_servedb v n f = true ->
  file_at n f /\
  (forall k, 0 <= k -> k * BLKSIZE < s32 (v32 v (f_size f)) -> has_block v n f k) /\
  (forall o, 0 <= o < sizeof_File -> on_disk n (f + o)) /\ f mod 4 = 0 /\
  exists name, name_at v (f_name f) name = true /\ Z.of_nat (length name) < MAXNAMELEN /\ Forall (fun c => 0 < c < 256) name.
Proof.
  unfold file_servedb. rewrite !andb_true_iff, !Z.leb_le, Z.eqb_eq, Z.ltb_lt.
  intros ((((((((H1 & H2) & H3) & H4) & H5) & H6) & H7) & H8) & H9).
  assert (0 < sizeof_File) by done.
  split; [constructor; [done | split; lia | done]|]. split; [|split; [|split]].
  - intros k Hk Hs. assert (Hk' : 0 <= k < NDIRECT) by (unfold NDIRECT, BLKSIZE, PGSIZE in *; lia).
    pose proof (forallb_range _ _ _ H6 k ltac:(lia)) as Hb. cbv beta in Hb.
    apply orb_true_iff in Hb as [Hb%Z.leb_le | Hb]; [lia|]. apply andb_true_iff in Hb as [Hb1%Z.ltb_lt Hb2%Z.ltb_lt].
    split; [change (NDIRECT + NINDIRECT) with 1034; unfold NDIRECT in Hk'; lia|]. split; [done|]. intros Hn. lia.
  - intros o Ho. split; lia.
  - done.
  - exists (cname 127 v f). split; [done|]. split; [done|]. apply Forall_forall. intros c Hc.
    rewrite forallb_forall in H9. specialize (H9 c ltac:(by apply list_elem_of_In)). lia.
Qed.

Lemma full_served : served full_v 8 full_tree.
Proof.
  assert (Hroot : file_servedb full_v 8 (s_root SB) = true) by (vm_compute; reflexivity).
  assert (Hall : forallb (fun j => file_servedb full_v 8 (baddr 3 + j * 256)) (seqZ 0 16) = true) by (vm_compute; reflexivity).
  assert (Hsz : s32 (v32 full_v (f_size (s_root SB))) = 4096) by (vm_compute; reflexivity).
  destruct (file_servedb_ok _ _ _ Hroot) as (Hat & Hblk & _).
  assert (Hdir : dir_ok full_v 8 (s_root SB)).
  { constructor; [exact Hat | rewrite Hsz; by split | by rewrite Hsz | rewrite Hsz].
    intros k Hk. change (4096 / BLKSIZE) with 1 in Hk. assert (k = 0) as -> by lia. apply Hblk; [done | by rewrite Hsz]. }
  assert (Htree := flat_tree_ok full_v 8 ltac:(done) ltac:(by vm_compute) ltac:(by vm_compute) Hdir ltac:(done) ltac:(by vm_compute)).
  destruct Htree as [Htree Haddr].
  assert (Hok : forall f, full_tree f -> file_servedb full_v 8 f = true).
  { intros f Hf. destruct (Haddr f Hf) as [-> | (j & Hj & ->)]; [exact Hroot|]. exact (forallb_range _ _ _ Hall j ltac:(lia)). }
  constructor; [exact Htree | | | | |].
  - intros f Hf. apply (file_servedb_ok _ _ _ (Hok f Hf)).
  - intros f k Hf. apply (file_servedb_ok _ _ _ (Hok f Hf)).
  - intros f o Hf. apply (file_servedb_ok _ _ _ (Hok f Hf)).
  - intros f Hf. apply (file_servedb_ok _ _ _ (Hok f Hf)).
  - intros f Hf. apply (file_servedb_ok _ _ _ (Hok f Hf)).
Qed.

Lemma full_roomy : exists fs, roomy full_v 8 MAXOPEN fs.
Proof.
  assert (Hu : unmounted full_fs0) by (constructor; done).
  pose proof (fs_init_run full_fs0 Hu) as Hi. cbv zeta in Hi.
  assert (Hn : v32 raw (s_nblocks SB) = 8) by (vm_compute; reflexivity). rewrite Hn in Hi.
  assert (Hm : v32 raw (s_magic SB) = FS_MAGIC) by (vm_compute; reflexivity). rewrite Hm in Hi.
  change (8 <=? 2) with false in Hi. rewrite Z.eqb_refl in Hi. cbn [negb] in Hi.
  change (8 >? DISKSIZE / BLKSIZE) with false in Hi. cbv iota in Hi. destruct Hi as (s & _ & Hs & Hp).
  exists s. constructor; [apply mounted_sees; [exact Hs | exact Hn | by split | rewrite Hp; done | done]|].
  destruct Hs as (_ & _ & Hc & _). rewrite Hc, size_singleton, Hp. done.
Qed.
