(* ===== verification/ServeThms.v ===== *)
(** * The file server's request loop: the theorems ([fs/serv.c])

    Clients as steps interleaved with the server's turns, and what the server promises on
    every state they can reach. *)

From S2P Require Import Prelude Mem CString Mmu KState UState Fs FsInv FsSpec FsFile FsRead FsDir FsFrame FsSample Serve ServeSpec ServeRun ServeSample.

(** ** Clients and the server *)

(** The page of a reply is mapped by the client it is sent to, which may share it on or
    not want it: it ends up with [k] mappings. *)
Definition delivered (reply : option (Z * option Z * Z)) (k : Z) (s : servst) : servst :=
  match reply with
  | Some (_, Some pg, _) => s <| refs := <[pg := k]> (refs s) |>
  | _ => s
  end.

Section steps.
Context `{Disk}.

Inductive sstep : servst -> servst -> Prop :=
  (** A client that has the file open writes its [struct Fd] (keeping the offset in the
      range of a file). *)
  | step_seek s i d : 0 <= i < MAXOPEN -> 2 <= mappings (refs s) (fdva i) -> 0 <= fd_offset d < 2 ^ 31 ->
      sstep s (s <| fdpages := <[fdva i := d]> (fdpages s) |>)
  (** Clients map the page again ([dup], [fork], [spawn]) or unmap it ([close]). *)
  | step_share s i k : 0 <= i < MAXOPEN -> 2 <= mappings (refs s) (fdva i) -> 1 <= k ->
      sstep s (s <| refs := <[fdva i := k]> (refs s) |>)
  (** The server takes a turn, for any request and however often it has to try to send
      the reply. *)
  | step_serve s req perm m fuel answers reply s' k :
      serve_turn fuel answers req perm (s <| fsreq := m |>) = Ok reply s' -> 1 <= k ->
      sstep s (delivered reply k s').

Inductive sreach : servst -> servst -> Prop :=
  | sreach_refl s : sreach s s
  | sreach_step s s1 s2 : sreach s s1 -> sstep s1 s2 -> sreach s s2.

End steps.

Section thms.
Context `{Disk} (v : contents) (n : Z) (T : Z -> Prop) (Hserved : served v n T).

Notation serv_inv := (serv_inv v n T).

(** With clients: besides, the offset of every open file is one. *)
Record shared_inv (s : servst) : Prop := {
  sh_serv : serv_inv s;
  sh_offset : forall i, 0 <= i < MAXOPEN -> 2 <= mappings (refs s) (fdva i) -> 0 <= fd_offset (fdpages s !!! fdva i) < 2 ^ 31 }.

Lemma shared_share s i k : shared_inv s -> 0 <= i < MAXOPEN -> mappings (refs s) (fdva i) <> 0 -> 1 <= k ->
  (2 <= k -> T (o_file (opentab s !!! i)) /\ 0 <= fd_offset (fdpages s !!! fdva i) < 2 ^ 31) ->
  shared_inv (s <| refs := <[fdva i := k]> (refs s) |>).
Proof.
  intros [[I0 I1 I2 I3 I4 I5] Hoff] Hi Hm Hk Hnew.
  assert (Hmaps : forall j, mappings (refs (s <| refs := <[fdva i := k]> (refs s) |>)) (fdva j) =
    if decide (i = j) then k else mappings (refs s) (fdva j)).
  { intros j. change (refs (?s <| refs := ?x |>)) with x. rewrite mappings_insert.
    repeat case_decide; try done; [by destruct H1; apply fdva_inj | by subst]. }
  constructor; [constructor|].
  - change (roomy v n (unmapped (<[fdva i := k]> (refs s))) (sv_fs s)). rewrite unmapped_same; [exact I0 | exact Hm | lia].
  - exact I1.
  - exact I2.
  - intros j Hj. rewrite Hmaps. case_decide; [lia | by apply I3].
  - intros j Hj. rewrite Hmaps. case_decide as Hd; [|by apply I4]. intros H2. destruct Hd. exact (proj1 (Hnew H2)).
  - intros j Hj. rewrite Hmaps. case_decide; [lia | by apply I5].
  - intros j Hj. rewrite Hmaps. case_decide as Hd; [|by apply Hoff]. intros H2. destruct Hd. exact (proj2 (Hnew H2)).
Qed.

Lemma shared_seek s i d fds : fds = fdpages s -> shared_inv s -> 0 <= fd_offset d < 2 ^ 31 ->
  shared_inv (s <| fdpages := <[fdva i := d]> fds |>).
Proof.
  intros -> [[I0 I1 I2 I3 I4 I5] Hoff] Hd. constructor; [constructor; assumption|]. intros j Hj Hm.
  change (fdpages (?s <| fdpages := ?x |>)) with x. destruct (decide (fdva i = fdva j)) as [<- | Hne].
  - by rewrite lookup_total_insert_eq.
  - rewrite lookup_total_insert_ne by exact Hne. by apply Hoff.
Qed.

Lemma shared_fs s fs : shared_inv s -> roomy v n (unmapped (refs s)) fs -> shared_inv (s <| sv_fs := fs |>).
Proof. intros [Hs Hoff] Hfs. constructor; [by apply serv_inv_fs | exact Hoff]. Qed.
Lemma shared_req s req : shared_inv s -> shared_inv (s <| fsreq := req |>).
Proof. intros [Hs Hoff]. constructor; [by apply serv_inv_req | exact Hoff]. Qed.

(** What an open leaves in slot [i] is not shared yet. *)
Lemma shared_slot s s' i d : shared_inv s -> serv_inv s' ->
  fdpages s' = <[fdva i := d]> (fdpages s) -> refs s' = <[fdva i := 1]> (refs s) -> shared_inv s'.
Proof.
  intros [Hs Hoff] Hs' Hfd Hrefs. constructor; [exact Hs'|]. intros j Hj. rewrite Hfd, Hrefs, mappings_insert.
  case_decide as Hd; [lia|]. intros Hm. rewrite lookup_total_insert_ne by exact Hd. by apply Hoff.
Qed.

(** ** The handlers keep it *)

Lemma serve_open_keeps s : shared_inv s -> exists r pg p s', serve_open s = Ok (r, pg, p) s' /\
  forall k, 1 <= k -> shared_inv (delivered (Some (r, pg, match pg with Some _ => p | None => 0 end)) k s').
Proof.
  intros Hsh. pose proof (sh_serv _ Hsh) as Hs. pose proof (serve_open_run v n T Hserved s Hs) as Hr.
  destruct (first_slot s) as [i|] eqn:Ei; [|by exists (- E_MAX_OPEN), None, 0, s].
  destruct (first_slot_range s i Ei) as [Hi _].
  assert (Ht : shared_inv (slot_taken s i)) by (apply (shared_slot s _ i (mkFd 0 0 0 0)); [done | by apply slot_taken_inv | done | done]).
  destruct (_ <? 0); [by eexists _, None, 0, _|]. destruct (negb _); [by eexists _, None, 0, _|].
  cbv zeta in Hr. destruct Hr as (fs & Hfs & Hr). destruct (_ <? 0).
  - eexists _, None, 0, _. split; [exact Hr|]. intros k _. by apply shared_fs.
  - destruct Hr as (f & _ & HT & Hr). eexists _, (Some (fdva i)), share_perm, _. split; [exact Hr|]. intros k Hk.
    pose proof (slot_opened_inv v n T s i f fs Hs Hi Hfs) as Hop.
    apply shared_share; [|exact Hi | | exact Hk |].
    + apply (shared_slot s _ i (mkFd devfile_id 0 0 (s32 (new_id s i)))); [done | exact Hop | done | done].
    + unfold slot_opened. cbn [refs]. rewrite mappings_insert, decide_True by done. done.
    + intros _. unfold slot_opened. cbn [opentab fdpages]. rewrite !lookup_total_insert_eq. split; [exact HT | done].
Qed.

(** The slot the request names has the request's id, and never was opened. *)
Definition never_opened (s : servst) : Prop :=
  let i := ld32 (fsreq s) 0 mod MAXOPEN in
  mappings (refs s) (fdva i) = 0 /\ o_fileid (opentab s !!! i) = ld32 (fsreq s) 0.

Lemma named_opened s i : named s (ld32 (fsreq s) 0) = Some i -> ~ never_opened s -> mappings (refs s) (fdva i) <> 0.
Proof.
  intros Hn Hno E. destruct (named_range _ _ _ Hn) as (_ & Hi & _ & Hid). apply Hno. unfold never_opened. cbv zeta.
  rewrite <- Hi. split; [exact E | exact Hid].
Qed.

Lemma sent_end s i : 0 <= fd_offset (fdpages s !!! fdva i) < 2 ^ 31 ->
  0 <= fd_offset (fdpages s !!! fdva i) + sent v s i < 2 ^ 31.
Proof.
  intros Hoff. unfold sent. set (f := o_file _). set (off := fd_offset _) in *. set (c := Z.min _ _).
  pose proof (read_count_end v f c off) as He. pose proof (s32_bound (v32 v (f_size f))).
  assert (0 <= read_count v f c off) by (unfold read_count; lia). lia.
Qed.

Lemma serve_read_keeps s : shared_inv s -> ~ never_opened s -> exists r s', serve_read s = Ok r s' /\ shared_inv s'.
Proof.
  intros Hsh Ho. pose proof (sh_serv _ Hsh) as Hs. pose proof (serve_read_run v n T Hserved s Hs) as Hr.
  destruct (named s (ld32 (fsreq s) 0)) as [i|] eqn:Ei; [|by exists (- E_INVAL), s].
  destruct (named_range _ _ _ Ei) as (Hi & _ & H1 & _). apply (named_opened s i Ei) in Ho. cbv zeta in Hr.
  pose proof (vn_refs _ _ _ _ Hs i Hi) as H0. pose proof (sh_offset _ Hsh i Hi ltac:(clear - Ho H0 H1; lia)) as Hoff.
  destruct (Hr Ho Hoff) as (fs & Hfs & R). eexists _, _. split; [exact R|].
  apply shared_seek; [reflexivity | by apply shared_req, shared_fs|]. change (fd_offset (?d <| fd_offset := ?x |>)) with x.
  pose proof (sent_end s i Hoff). rewrite s32_small by (clear - H2; lia). exact H2.
Qed.

Lemma serve_stat_keeps s : shared_inv s -> ~ never_opened s -> exists r s', serve_stat s = Ok r s' /\ shared_inv s'.
Proof.
  intros Hsh Ho. pose proof (sh_serv _ Hsh) as Hs. pose proof (serve_stat_run v n T Hserved s Hs) as Hr.
  destruct (named s (ld32 (fsreq s) 0)) as [i|] eqn:Ei; [|by exists (- E_INVAL), s].
  apply (named_opened s i Ei) in Ho.
  destruct (Hr Ho) as (fs & name & Hfs & _ & _ & _ & R). eexists _, _. split; [exact R|]. by apply shared_req, shared_fs.
Qed.

Lemma on_fs_panic {A} (m : F A) s msg : m (sv_fs s) = Panics msg (sv_fs s) -> on_fs m s = Panics msg s.
Proof. unfold on_fs. intros ->. by destruct s. Qed.
Lemma ubind_panic {S A B} (m : U S A) (f : A -> U S B) s msg s' : m s = Panics msg s' -> (m ≫= f) s = Panics msg s'.
Proof. unfold mbind, U_bind. by intros ->. Qed.

Lemma fd_page_fault s i : 0 <= i < MAXOPEN -> mappings (refs s) (fdva i) = 0 -> fd_page (fdva i) s = Panics "page fault in FS" s.
Proof.
  intros Hi E. unfold fd_page, pageref. ub. rewrite E. cbn [Z.eqb]. apply ubind_panic, on_fs_panic. unfold bc_pgfault. cbv zeta.
  replace (fdva i >=? w32 (DISKMAP + DISKSIZE)) with true; [by rewrite orb_true_r|].
  symmetry. change (w32 (DISKMAP + DISKSIZE)) with 0xD0000000. rewrite Z.geb_leb. apply Z.leb_le. unfold fdva, FILEVA, PGSIZE. lia.
Qed.

Lemma null_fault s : sees (sv_fs s) v n -> on_fs (fld8 0) s = Panics "page fault in FS" s.
Proof.
  intros Hs. apply on_fs_panic. unfold fld8, touch. ub. ub. rewrite bool_decide_eq_false_2; [done|].
  intros Hc. pose proof (se_cached _ _ _ Hs _ Hc) as Hb. revert Hb. unfold DISKMAP, BLKSIZE, PGSIZE. clear. intros Hb. zlia.
Qed.

(** A slot never opened has no page and no file: the server faults. *)
Lemma never_opened_fault s : serv_inv s -> never_opened s ->
  serve_read s = Panics "page fault in FS" s /\ serve_stat s = Panics "page fault in FS" s.
Proof.
  intros Hs [E Hid]. set (i := ld32 (fsreq s) 0 mod MAXOPEN) in *.
  assert (Hi : 0 <= i < MAXOPEN) by (apply Z.mod_pos_bound; done).
  assert (Hn : named s (ld32 (fsreq s) 0) = Some i).
  { unfold named. fold i. rewrite E, Hid, Z.eqb_refl. done. }
  pose proof (openfile_lookup_named v n T s (ld32 (fsreq s) 0) Hs) as Hl. rewrite Hn in Hl.
  unfold serve_read, serve_stat. rewrite !ubind_get. cbv beta. rewrite !(ubind_run _ _ _ _ _ Hl). cbv beta iota.
  cbn [Z.ltb Z.compare]. unfold open_at. rewrite !ubind_get. cbv beta. rewrite (vn_fd _ _ _ _ Hs i Hi), (vn_null _ _ _ _ Hs i Hi E).
  split.
  - apply ubind_panic. by apply fd_page_fault.
  - apply ubind_panic. unfold strcpy_name.
    assert (Hsz : Z.to_nat DISKSIZE <> O) by (unfold DISKSIZE; clear; lia).
    destruct (Z.to_nat DISKSIZE) as [|k]; [by destruct Hsz|]. rewrite uloop_succ. apply ubind_panic, ubind_panic.
    exact (null_fault s (ro_sees _ _ _ _ (vn_fs _ _ _ _ Hs))).
Qed.

(** ** One turn *)

(** The requests that kill the server. *)
Definition crashes (s : servst) (req perm : Z) : Prop :=
  has perm PTE_P = true /\ (req = FSREQ_READ \/ req = FSREQ_STAT) /\ never_opened s.

#[export] Instance crashes_dec s req perm : Decision (crashes s req perm).
Proof. unfold crashes, never_opened. apply _. Defined.

Lemma serve_one_keeps s req perm : shared_inv s -> ~ crashes s req perm ->
  exists reply s', serve_one req perm s = Ok reply s' /\ (reply = None <-> has perm PTE_P = false) /\
    forall k, 1 <= k -> shared_inv (delivered reply k s').
Proof.
  intros Hs Hok. unfold serve_one, crashes in *. destruct (has perm PTE_P); cbn [negb]; [|by exists None, s].
  destruct (Z.eqb_spec req FSREQ_OPEN) as [-> | Ho].
  { destruct (serve_open_keeps s Hs) as (r & pg & p & s' & R & Hk). urw R.
    exists (Some (r, pg, match pg with Some _ => p | None => perm end)), s'. split; [done|]. split; [done|].
    intros k H1. specialize (Hk k H1). by destruct pg. }
  assert (Hh : exists r s', (if req =? FSREQ_READ then serve_read else if req =? FSREQ_STAT then serve_stat
      else if req =? FSREQ_FLUSH then serve_flush else mret (- E_INVAL)) s = Ok r s' /\ shared_inv s').
  { destruct (Z.eqb_spec req FSREQ_READ) as [E | E]; [apply serve_read_keeps; tauto|].
    destruct (Z.eqb_spec req FSREQ_STAT) as [E' | E']; [apply serve_stat_keeps; tauto|].
    destruct (req =? FSREQ_FLUSH); by eexists _, s. }
  destruct Hh as (r & s' & R & Hs'). urw R. exists (Some (r, None, perm)), s'. done.
Qed.

Lemma serve_one_crash s req perm : serv_inv s -> crashes s req perm -> serve_one req perm s = Panics "page fault in FS" s.
Proof.
  intros Hs (Hp & Hreq & Hno). destruct (never_opened_fault s Hs Hno) as [R1 R2]. unfold serve_one. rewrite Hp. cbn [negb].
  destruct Hreq as [-> | ->]; unfold FSREQ_OPEN, FSREQ_READ, FSREQ_STAT, FSREQ_FLUSH; cbn [Z.eqb Pos.eqb].
  all: by apply ubind_panic.
Qed.

(** ** The reply *)

(** [ipc_send] tries again until the kernel's answer is not that the client does not
    receive, and panics on any other error. *)
Lemma ipc_send_run fuel answers k s : (k < fuel)%nat -> answers k <> - E_IPC_NOT_RECV ->
  (forall j, (j < k)%nat -> answers j = - E_IPC_NOT_RECV) ->
  ipc_send fuel answers s = if answers k <? 0 then Panics "ipc_send error: %e" s else Ok tt s.
Proof.
  intros Hk Hne Hwait. unfold ipc_send.
  enough (Hg : forall d j fuel, (j + d = k)%nat -> (d < fuel)%nat -> uloop fuel (fun k =>
    let r := answers k in
    if r =? - E_IPC_NOT_RECV then mret (inl (S k))
    else if r <? 0 then upanic "ipc_send error: %e" else mret (inr tt)) j s =
    if answers k <? 0 then Panics "ipc_send error: %e" s else Ok tt s) by (apply (Hg k O fuel); [done | exact Hk]).
  clear fuel Hk. induction d as [|d IH]; intros j [|fuel] Hj Hf; try lia; rewrite uloop_succ; cbv zeta.
  - replace j with k by lia. rewrite (proj2 (Z.eqb_neq _ _) Hne). by destruct (answers k <? 0).
  - rewrite (Hwait j) by lia. rewrite Z.eqb_refl. ub. apply IH; lia.
Qed.
Lemma ipc_send_state fuel answers s x s' : ipc_send fuel answers s = Ok x s' -> s' = s.
Proof.
  unfold ipc_send. generalize O. revert s. induction fuel as [|fuel IH]; intros s j; [done|].
  rewrite uloop_succ. cbv zeta. destruct (answers j =? - E_IPC_NOT_RECV).
  - ub. apply IH.
  - destruct (answers j <? 0); [done|]. ub. by intros [= _ ->].
Qed.

Lemma serve_turn_one fuel answers req perm s reply s' : serve_turn fuel answers req perm s = Ok reply s' ->
  serve_one req perm s = Ok reply s'.
Proof.
  unfold serve_turn, mbind at 1, U_bind at 1. destruct (serve_one req perm s) as [[x|] s1 | | ]; [|done..].
  unfold mbind, U_bind. destruct (ipc_send fuel answers s1) as [u s2 | |] eqn:E; [|done..].
  apply ipc_send_state in E as ->. done.
Qed.
Lemma serve_turn_run fuel answers req perm s reply s' : serve_one req perm s = Ok reply s' ->
  (reply = None -> serve_turn fuel answers req perm s = Ok None s') /\
  forall k, reply <> None -> (k < fuel)%nat -> answers k <> - E_IPC_NOT_RECV ->
    (forall j, (j < k)%nat -> answers j = - E_IPC_NOT_RECV) ->
    serve_turn fuel answers req perm s = if answers k <? 0 then Panics "ipc_send error: %e" s' else Ok reply s'.
Proof.
  intros R. split.
  - intros ->. unfold serve_turn. by urw R.
  - intros k Hr Hk Hne Hw. unfold serve_turn. urw R. destruct reply as [x|]; [|done].
    pose proof (ipc_send_run fuel answers k s' Hk Hne Hw) as Hi. destruct (answers k <? 0).
    + by apply ubind_panic.
    + by urw Hi.
Qed.

Lemma sstep_keeps s s' : shared_inv s -> sstep s s' -> shared_inv s'.
Proof.
  intros Hs Hstep. revert Hs. destruct Hstep as [s i d Hi Hm Hd | s i k Hi Hm Hk | s req perm m fuel answers reply s1 k R Hk]; intros Hs.
  - by apply shared_seek.
  - apply shared_share; [done | done | lia | done|]. intros _.
    split; [exact (vn_file _ _ _ _ (sh_serv _ Hs) i Hi Hm) | exact (sh_offset _ Hs i Hi Hm)].
  - apply serve_turn_one in R. assert (Hs0 : shared_inv (s <| fsreq := m |>)) by by apply shared_req.
    destruct (decide (crashes (s <| fsreq := m |>) req perm)) as [Hc | Hc].
    + rewrite (serve_one_crash _ _ _ (sh_serv _ Hs0) Hc) in R. discriminate R.
    + destruct (serve_one_keeps _ req perm Hs0 Hc) as (reply' & s' & R' & _ & Hinv). rewrite R' in R. injection R as <- <-.
      by apply Hinv.
Qed.

Lemma sreach_keeps s s' : shared_inv s -> sreach s s' -> shared_inv s'.
Proof. intros Hs. induction 1 as [s | s s1 s2 _ IH Hstep]; [exact Hs|]. eapply sstep_keeps; [by apply IH | exact Hstep]. Qed.

Lemma shared_start fs req : roomy v n MAXOPEN fs ->
  exists s, serve_init (mkServ fs opentab0 ∅ ∅ req) = Ok tt s /\ shared_inv s /\ refs s = ∅ /\
    forall i, 0 <= i < MAXOPEN -> o_fileid (opentab s !!! i) = i.
Proof.
  intros Hfs. destruct (serve_init_run v n T fs req Hfs) as (s & R & Hs & Hr & Hid). exists s. split; [exact R|].
  split; [|split; [exact Hr | exact Hid]]. constructor; [exact Hs|]. intros i _. rewrite Hr. intros H2. exfalso. change (2 <= 0) in H2. clear - H2. lia.
Qed.
End thms.

(** ** Properties *)

(** C10. What stops the file server.  After [serve_init] on a mounted disk whose files are
    complete ([served]: all their blocks and a NUL in their names), with memory for the
    disk and for a page per slot ([roomy]), let it answer any requests while clients that
    have files open share and close them and write their offsets, which they keep from 0
    up (the request page is theirs again only after the reply).  Then it handles the next request (or drops it when it has no page) and sends the
    reply: it tries as long as the client does not receive, which may be for ever, and
    panics when the kernel refuses the reply for another reason, as it does when the client
    is gone.  Besides, only a READ or STAT of a slot that never was opened, named by the
    slot's current id, ends the server, with a page fault, and that one always does. *)
Theorem serve_safe `{Disk} v n T fs m0 s0 s : served v n T -> roomy v n MAXOPEN fs ->
  serve_init (mkServ fs opentab0 ∅ ∅ m0) = Ok tt s0 -> sreach s0 s ->
  forall req perm m fuel answers, let t := s <| fsreq := m |> in
  if decide (crashes t req perm) then serve_turn fuel answers req perm t = Panics "page fault in FS" t
  else exists reply s', serve_one req perm t = Ok reply s' /\ (reply = None <-> has perm PTE_P = false) /\
    (reply = None -> serve_turn fuel answers req perm t = Ok None s') /\
    forall k, reply <> None -> (k < fuel)%nat -> answers k <> - E_IPC_NOT_RECV ->
      (forall j, (j < k)%nat -> answers j = - E_IPC_NOT_RECV) ->
      serve_turn fuel answers req perm t = if answers k <? 0 then Panics "ipc_send error: %e" s' else Ok reply s'.
Proof.
  intros Hsv Hfs R0 Hreach req perm m fuel answers t. destruct (shared_start v n T fs m0 Hfs) as (s0' & R & Hs0 & _).
  rewrite R0 in R. injection R as <-. pose proof (sreach_keeps v n T Hsv s0 s Hs0 Hreach) as Hs.
  assert (Ht : shared_inv v n T t) by by apply shared_req. case_decide as Hc.
  - apply ubind_panic, (serve_one_crash v n T t req perm (sh_serv _ _ _ _ Ht) Hc).
  - destruct (serve_one_keeps v n T Hsv t req perm Ht Hc) as (reply & s' & R & Hn & _). exists reply, s'.
    split; [exact R|]. split; [exact Hn|]. by apply serve_turn_run.
Qed.

(** A request page that names file 5. *)
Definition ask5 : memory := st32 ∅ 0 5.

(** The client that sent the request receives at the third try. *)
Definition third_try (k : nat) : Z := if (k <? 2)%nat then - E_IPC_NOT_RECV else 0.

Lemma serve_safe_witness : exists fs s, served full_v 8 full_tree /\ roomy (H := full_disk) full_v 8 MAXOPEN fs /\
  serve_init (mkServ fs opentab0 ∅ ∅ ∅) = Ok tt s /\
  (exists reply s', serve_turn (H := full_disk) 3 third_try FSREQ_OPEN PTE_P (s <| fsreq := ask5 |>) = Ok reply s') /\
  serve_turn (H := full_disk) 3 third_try FSREQ_READ PTE_P (s <| fsreq := ask5 |>) = Panics "page fault in FS" (s <| fsreq := ask5 |>).
Proof.
  destruct full_roomy as (fs & Hfs). destruct (shared_start (H := full_disk) full_v 8 full_tree fs ∅ Hfs) as (s & R & Hs & Hrefs & Hids).
  exists fs, s. split; [exact full_served|]. split; [exact Hfs|]. split; [exact R|].
  pose proof (fun req => serve_safe (H := full_disk) full_v 8 full_tree fs ∅ s s full_served Hfs R (sreach_refl s) req PTE_P ask5 3 third_try) as Hsafe.
  split.
  - specialize (Hsafe FSREQ_OPEN). cbv zeta in Hsafe. rewrite decide_False in Hsafe by (intros (_ & [E | E] & _); discriminate E).
    destruct Hsafe as (reply & s' & Ho & Hn & _ & Hgo). exists reply, s'.
    specialize (Hgo 2%nat). apply Hgo.
    + intros E. apply Hn in E. discriminate E.
    + repeat constructor.
    + discriminate.
    + intros [|[|j]] Hj; [reflexivity | reflexivity | exfalso; lia].
  - specialize (Hsafe FSREQ_READ). cbv zeta in Hsafe. rewrite decide_True in Hsafe; [exact Hsafe|].
    split; [reflexivity|]. split; [by left|].
    assert (Hid : o_fileid (opentab s !!! 5) = 5) by (apply Hids; by split).
    assert (E5 : ld32 ask5 0 = 5) by (vm_compute; reflexivity). split.
    + change (mappings (refs s) (fdva (ld32 ask5 0 mod MAXOPEN)) = 0). rewrite Hrefs. reflexivity.
    + change (o_fileid (opentab s !!! (ld32 ask5 0 mod MAXOPEN)) = ld32 ask5 0). rewrite E5. exact Hid.
Defined.

Lemma first_slot_least s i : first_slot s = Some i -> forall j, 0 <= j < i -> 2 <= mappings (refs s) (fdva j).
Proof.
  intros Hf j Hj. destruct (first_slot_range s i Hf) as [Hi _].
  destruct (Z.le_gt_cases 2 (mappings (refs s) (fdva j))) as [|Hlt]; [done|]. exfalso.
  pose proof (find_app (fun i => mappings (refs s) (fdva i) <? 2) (seqZ 0 i) (seqZ i (MAXOPEN - i))) as Ha.
  assert (Hs : seqZ 0 MAXOPEN = seqZ 0 i ++ seqZ i (MAXOPEN - i)).
  { replace MAXOPEN with (i + (MAXOPEN - i)) at 1 by lia. rewrite seqZ_app by lia. by rewrite Z.add_0_l. }
  rewrite <- Hs in Ha.
  change (List.find _ (seqZ 0 MAXOPEN)) with (first_slot s) in Ha. rewrite Hf in Ha.
  destruct (List.find _ (seqZ 0 i)) as [i'|] eqn:E.
  - injection Ha as <-. apply find_some in E as [Hin _]. apply list_elem_of_In, elem_of_seqZ in Hin. lia.
  - pose proof (find_none _ _ E j ltac:(apply list_elem_of_In, elem_of_seqZ; lia)) as Hn. cbv beta in Hn. lia.
Qed.

(** [openfile_alloc] takes the first slot no client has mapped ([pageref] at most 1) and
    gives it a new id, congruent to the slot and different from the old one, so requests
    with the old id are refused; the page it shows then is zeroed and mapped by the server
    only, the other slots stay as they are, and a page never used before is allocated. When
    every slot is shared it returns [-E_MAX_OPEN] and changes nothing. *)
Theorem openfile_alloc_correct `{Disk} v n T s : serv_inv v n T s ->
  (exists i s', openfile_alloc s = Ok (s32 (new_id s i), i) s' /\ serv_inv v n T s' /\
     0 <= i < MAXOPEN /\ mappings (refs s) (fdva i) < 2 /\ (forall j, 0 <= j < i -> 2 <= mappings (refs s) (fdva j)) /\
     fdpages s' !!! fdva i = mkFd 0 0 0 0 /\ mappings (refs s') (fdva i) = 1 /\
     o_fileid (opentab s' !!! i) = new_id s i /\ new_id s i mod MAXOPEN = i /\ new_id s i <> o_fileid (opentab s !!! i) /\
     (forall j, 0 <= j < MAXOPEN -> j <> i -> opentab s' !!! j = opentab s !!! j /\
        fdpages s' !!! fdva j = fdpages s !!! fdva j /\ mappings (refs s') (fdva j) = mappings (refs s) (fdva j)) /\
     pages_left (sv_fs s') = pages_left (sv_fs s) - (if mappings (refs s) (fdva i) =? 0 then 1 else 0)) \/
  openfile_alloc s = Ok (- E_MAX_OPEN, 0) s /\ forall j, 0 <= j < MAXOPEN -> 2 <= mappings (refs s) (fdva j).
Proof.
  intros Hs. pose proof (openfile_alloc_run v n T s Hs) as Ha. destruct (first_slot s) as [i|] eqn:Ei.
  - left. destruct (first_slot_range s i Ei) as [Hi Hm]. destruct (vn_id _ _ _ _ Hs i Hi) as [Hid Hmod].
    exists i, (slot_taken s i). unfold new_id. rewrite s32_w32. split; [exact Ha|]. split; [by apply slot_taken_inv|].
    split; [exact Hi|]. split; [exact Hm|]. split; [by apply first_slot_least|]. unfold slot_taken. cbn [sv_fs opentab fdpages refs].
    rewrite !lookup_total_insert_eq, mappings_insert, decide_True by done. do 3 (split; [done|]).
    split; [by rewrite next_id|]. split.
    { unfold w32, MAXOPEN in *. clear - Hid. zlia. }
    split; [|destruct (_ =? 0); [done | by rewrite Z.sub_0_r]].
    intros j Hj Hne. assert (Hne' : fdva i <> fdva j) by (intros E; by apply Hne, fdva_inj).
    rewrite mappings_insert, decide_False, !lookup_total_insert_ne by (done || by apply not_eq_sym). done.
  - right. split; [exact Ha|]. intros j Hj. pose proof (find_none _ _ Ei j ltac:(by apply list_elem_of_In, elem_of_seqZ)) as Hn.
    cbv beta in Hn. by apply Z.ltb_ge in Hn.
Qed.

Lemma openfile_alloc_correct_witness : exists s, serv_inv (H := full_disk) full_v 8 full_tree s /\
  (exists i s', openfile_alloc s = Ok (s32 (new_id s i), i) s' /\ 0 <= i < MAXOPEN) \/
  exists s, openfile_alloc s = Ok (- E_MAX_OPEN, 0) s.
Proof.
  destruct full_roomy as (fs & Hfs). destruct (serve_init_run (H := full_disk) full_v 8 full_tree fs ∅ Hfs) as (s & R & Hs & _).
  exists s. destruct (openfile_alloc_correct (H := full_disk) full_v 8 full_tree s Hs) as [(i & s' & Ha & _ & Hi & _) | [Ha _]].
  - left. split; [exact Hs|]. exists i, s'. split; [exact Ha | exact Hi].
  - right. exists s. exact Ha.
Defined.
