(* ===== verification/Client.v ===== *)
(** * Files as a process sees them ([lib/fd.c], [lib/file.c])

    The file descriptors of one process, whose pages it shares with the file server, and
    the requests it makes.  A request and its reply are one turn of the server
    ([Serve.serve_one]): the kernel's IPC delivers both. *)

From S2P Require Import Prelude Mem CString Mmu KState UState Fs Serve.

Definition MAXFD : Z := 32.
Definition FDTABLE : Z := 0xD0000000.
Definition INDEX2FD (i : Z) : Z := w32 (FDTABLE + i * PGSIZE).
Definition O_RDONLY : Z := 0x0.
Definition O_WRONLY : Z := 0x1.

Record Stat := mkStat { st_name : list Z; st_size : Z; st_isdir : Z; st_dev : Z }.

(** [fdmap] gives, for an address of the process where a descriptor's page is mapped, the
    page: the address the server has it at. *)
Record clst := mkCl { server : servst; fdmap : gmap Z Z; fsipcbuf : memory }.
#[export] Instance clst_eta : Eta clst := fun s => mkCl (server s) (fdmap s) (fsipcbuf s).

Notation L := (U clst).

(** ** System calls *)

(** [sys_page_unmap(0, fd)]. *)
Definition unmap_fd (fd : Z) : L unit :=
  uput (fun s => match fdmap s !! fd with
    | None => s
    | Some p => s <| server := server s <| refs := <[p := mappings (refs (server s)) p - 1]> (refs (server s)) |> |>
                  <| fdmap := delete fd (fdmap s) |>
    end).

(** The kernel maps the page of a message where the receiver wants it. *)
Definition map_fd (fd p : Z) : L unit :=
  unmap_fd fd;;
  uput (fun s => s <| server := server s <| refs := <[p := mappings (refs (server s)) p + 1]> (refs (server s)) |> |>
                   <| fdmap := <[fd := p]> (fdmap s) |>).

(** What [uvpd] and [uvpt] tell. *)
Definition is_mapped (fd : Z) : L bool := uget (fun s => bool_decide (is_Some (fdmap s !! fd))).
(** The fields of a descriptor that is mapped. *)
Definition fd_get (fd : Z) : L Fd := uget (fun s => fdpages (server s) !!! (fdmap s !!! fd)).
Definition fd_put (fd : Z) (f : Fd -> Fd) : L unit :=
  uput (fun s => s <| server := server s <| fdpages := <[fdmap s !!! fd := f (fdpages (server s) !!! (fdmap s !!! fd))]>
    (fdpages (server s)) |> |>).

Section client.
Context `{Disk}.

(** ** Requests *)

(** [fsipcbuf] is the request page, shared while the server works; [dstva] 0 is NULL.  A
    server that never answers leaves the process waiting. *)
Definition fsipc (type dstva : Z) : L Z := fun s =>
  match serve_one type (Z.lor (Z.lor PTE_P PTE_W) PTE_U) (server s <| fsreq := fsipcbuf s |>) with
  | Ok reply srv =>
      let s := s <| server := srv |> <| fsipcbuf := fsreq srv |> in
      match reply with
      | None => Stops Fuel s
      | Some (r, Some p, _) => if dstva =? 0 then Ok (s32 r) s else (map_fd dstva p;; mret (s32 r)) s
      | Some (r, None, _) => Ok (s32 r) s
      end
  | Panics msg srv => Stops Fuel (s <| server := srv |>)
  | Stops x srv => Stops Fuel (s <| server := srv |>)
  end.

Definition put_word (o x : Z) : L unit := uput (fun s => s <| fsipcbuf := st32 (fsipcbuf s) o x |>).

Definition devfile_flush (fd : Z) : L Z :=
  d ← fd_get fd; put_word 0 (fd_file_id d);; fsipc FSREQ_FLUSH 0.

(** The code or count, and the bytes stored in [buf]. *)
Definition devfile_read (fd n : Z) : L (Z * list Z) :=
  d ← fd_get fd;
  put_word 0 (fd_file_id d);;
  put_word 4 n;;
  r ← fsipc FSREQ_READ 0;
  if r <? 0 then mret (r, [])
  else if n <? r then upanic "assertion failed: r <= n"
  else if PGSIZE <? r then upanic "assertion failed: r <= PGSIZE"
  else b ← uget fsipcbuf; mret (r, ldbytes b 0 (Z.to_nat r)).

(** [strcpy] out of the reply, which is one page. *)
Definition ret_name : L (list Z) := fun s =>
  let name := path_at (Z.to_nat PGSIZE) (fsipcbuf s) 0 in
  if Z.of_nat (length name) <? PGSIZE then Ok name s else Stops (Fault PGSIZE) s.

(** [stat] holds what the caller put there when the request fails. *)
Definition devfile_stat (fd : Z) (st : Stat) : L (Z * Stat) :=
  d ← fd_get fd;
  put_word 0 (fd_file_id d);;
  r ← fsipc FSREQ_STAT 0;
  if r <? 0 then mret (r, st)
  else
    name ← ret_name;
    b ← uget fsipcbuf;
    mret (0, mkStat name (s32 (ld32 b MAXNAMELEN)) (s32 (ld32 b (MAXNAMELEN + 4))) (st_dev st)).

(** ** Devices *)

Record Dev := mkDev {
  dev_id : Z;
  dev_read : option (Z -> Z -> L (Z * list Z));
  dev_write : option (Z -> list Z -> L Z);
  dev_close : option (Z -> L Z);
  dev_stat : option (Z -> Stat -> L (Z * Stat));
  dev_trunc : option (Z -> Z -> L Z)
}.

Definition devfile : Dev := mkDev devfile_id (Some devfile_read) None (Some devfile_flush) (Some devfile_stat) None.

(** The rest of [devtab], whatever these devices do. *)
Context (devsock devpipe devcons : Dev).
Definition devtab : list Dev := [devfile; devsock; devpipe; devcons].

Definition dev_lookup (id : Z) : L (Z * option Dev) :=
  mret (match List.find (fun d => dev_id d =? id) devtab with
        | Some d => (0, Some d)
        | None => (- E_INVAL, None)
        end).

(** ** File descriptors *)

Definition fd2num (fd : Z) : Z := w32 (fd - FDTABLE) / PGSIZE.

(** The code and [*fd_store]. *)
Definition fd_alloc : L (Z * Z) :=
  uloop (S (Z.to_nat MAXFD)) (fun i =>
    if i <? MAXFD then
      let fd := INDEX2FD i in
      m ← is_mapped fd;
      if negb m then mret (inr (0, fd)) else mret (inl (i + 1))
    else mret (inr (- E_MAX_OPEN, 0))) 0.

Definition fd_lookup (fdnum : Z) : L (Z * Z) :=
  if (fdnum <? 0) || (fdnum >=? MAXFD) then mret (- E_INVAL, 0)
  else
    let fd := INDEX2FD fdnum in
    m ← is_mapped fd;
    if negb m then mret (- E_INVAL, 0) else mret (0, fd).

Definition fd_close (fd : Z) (must_exist : bool) : L Z :=
  '(r, fd2) ← fd_lookup (fd2num fd);
  if (r <? 0) || negb (fd =? fd2) then mret (if must_exist then r else 0)
  else
    d ← fd_get fd;
    '(r, dev) ← dev_lookup (fd_dev_id d);
    r ← (match dev with
         | Some dev => match dev_close dev with Some f => f fd | None => mret 0 end
         | None => mret r
         end);
    unmap_fd fd;;
    mret r.

Definition close (fdnum : Z) : L Z :=
  '(r, fd) ← fd_lookup fdnum;
  if r <? 0 then mret r else fd_close fd true.

Fixpoint close_from (k : nat) (i : Z) : L unit :=
  match k with O => mret tt | S k' => close i;; close_from k' (i + 1) end.
Definition close_all : L unit := close_from (Z.to_nat MAXFD) 0.

(** [path] is the string without its NUL. *)
Definition open (path : list Z) (mode : Z) : L Z :=
  if Z.of_nat (length path) >=? MAXPATHLEN then mret (- E_BAD_PATH)
  else
    '(r, fd) ← fd_alloc;
    if r <? 0 then mret r
    else
      uput (fun s => s <| fsipcbuf := st32 (stbytes (fsipcbuf s) 0 (path ++ [0])) MAXPATHLEN mode |>);;
      r ← fsipc FSREQ_OPEN fd;
      if r <? 0 then fd_close fd false;; mret r else mret (fd2num fd).

(** [fd_lookup], then [dev_lookup], as the functions below start. *)
Definition fd_dev (fdnum : Z) : L (Z * Z * option Dev) :=
  '(r, fd) ← fd_lookup fdnum;
  if r <? 0 then mret (r, fd, None)
  else
    d ← fd_get fd;
    '(r, dev) ← dev_lookup (fd_dev_id d);
    mret (r, fd, dev).

Definition read (fdnum n : Z) : L (Z * list Z) :=
  '(r, fd, dev) ← fd_dev fdnum;
  match dev with
  | None => mret (r, [])
  | Some dev =>
      d ← fd_get fd;
      if Z.land (fd_omode d) O_ACCMODE =? O_WRONLY then mret (- E_INVAL, [])
      else match dev_read dev with None => mret (- E_NOT_SUPP, []) | Some f => f fd n end
  end.

(** Reads to the end or up to [n] bytes, when each call returns fewer. *)
Definition readn (fdnum n : Z) : L (Z * list Z) :=
  uloop (S (Z.to_nat n)) (fun '(tot, buf) =>
    if w32 tot <? n then
      '(m, bs) ← read fdnum (w32 (n - tot));
      if m <? 0 then mret (inr (m, buf ++ bs))
      else if m =? 0 then mret (inr (tot, buf))
      else mret (inl (s32 (tot + m), buf ++ bs))
    else mret (inr (tot, buf))) (0, []).

Definition write (fdnum : Z) (buf : list Z) : L Z :=
  '(r, fd, dev) ← fd_dev fdnum;
  match dev with
  | None => mret r
  | Some dev =>
      d ← fd_get fd;
      if Z.land (fd_omode d) O_ACCMODE =? O_RDONLY then mret (- E_INVAL)
      else match dev_write dev with None => mret (- E_NOT_SUPP) | Some f => f fd buf end
  end.

Definition seek (fdnum offset : Z) : L Z :=
  '(r, fd) ← fd_lookup fdnum;
  if r <? 0 then mret r else fd_put fd (fun d => d <| fd_offset := offset |>);; mret 0.

Definition ftruncate (fdnum newsize : Z) : L Z :=
  '(r, fd, dev) ← fd_dev fdnum;
  match dev with
  | None => mret r
  | Some dev =>
      d ← fd_get fd;
      if Z.land (fd_omode d) O_ACCMODE =? O_RDONLY then mret (- E_INVAL)
      else match dev_trunc dev with None => mret (- E_NOT_SUPP) | Some f => f fd newsize end
  end.

Definition fstat (fdnum : Z) (st : Stat) : L (Z * Stat) :=
  '(r, fd, dev) ← fd_dev fdnum;
  match dev with
  | None => mret (r, st)
  | Some dev =>
      match dev_stat dev with
      | None => mret (- E_NOT_SUPP, st)
      | Some f => f fd (mkStat [] 0 0 (dev_id dev))
      end
  end.

Definition stat (path : list Z) (st : Stat) : L (Z * Stat) :=
  fd ← open path O_RDONLY;
  if fd <? 0 then mret (fd, st)
  else
    '(r, st) ← fstat fd st;
    close fd;;
    mret (r, st).
End client.
