(* ===== verification/ClientSpec.v ===== *)
(** * A process and the file server: invariant and runs

    Every descriptor of the process shows the page of a slot the server has open on a
    file of the disk. *)

From S2P Require Import Prelude Mem CString Mmu KState UState Fs FsInv FsSpec FsFile FsRead FsDir FsFrame Serve ServeSpec ServeRun ServeThms Client.

(** ** Bytes of a reply *)

(** A string stored with its NUL reads back. *)
Lemma path_at_stbytes k m a l : Forall (fun c => 0 < c < 256) l -> (length l <= k)%nat ->
  (forall i c, (l ++ [0]) !! i = Some c -> ld8 m (a + Z.of_nat i) = c) -> path_at k m a = l.
Proof.
  intros Hl. revert k a. induction Hl as [|c l Hc Hl IH]; intros k a Hk Hm; (destruct k as [|k]; [done || (cbn in Hk; lia)|]); cbn [path_at].
  all: pose proof (Hm 0%nat) as H0; cbn [app lookup list_lookup] in H0; specialize (H0 _ eq_refl); rewrite Z.add_0_r in H0; rewrite H0.
  - done.
  - rewrite (proj2 (Z.eqb_neq c 0)) by lia. f_equal. apply IH; [cbn in Hk; lia|]. intros i c' Hi.
    specialize (Hm (S i) c' Hi). by replace (a + 1 + Z.of_nat i) with (a + Z.of_nat (S i)) by lia.
Qed.

Lemma length_fbytes v f off c : 0 <= c -> Z.to_nat c = length (fbytes v f off c).
Proof. intros Hc. unfold fbytes. by rewrite length_map, length_seqZ. Qed.

Lemma has_request_perm : has (Z.lor (Z.lor PTE_P PTE_W) PTE_U) PTE_P = true.
Proof. done. Qed.

Section spec.
Context `{Disk} (v : contents) (n : Z) (T : Z -> Prop) (Hserved : served v n T).

Lemma fbytes_bytes s f off c : sees s v n -> T f -> 0 <= off -> off + c <= Z.max off (s32 (v32 v (f_size f))) ->
  Forall (fun b => 0 <= b < 256) (fbytes v f off c).
Proof.
  intros Hs HT Hoff Hc. unfold fbytes. apply Forall_forall. intros b (i & -> & Hi)%list_elem_of_fmap. apply elem_of_seqZ in Hi.
  unfold fbyte. case_bool; [done|]. apply (sees_byte s v n); [exact Hs|].
  destruct (sd_block _ _ _ Hserved f (i / BLKSIZE) HT) as (_ & Hb & _); [unfold BLKSIZE, PGSIZE; zlia..|].
  unfold on_disk, baddr, BLKSIZE, PGSIZE in *. zlia.
Qed.

(** ** The invariant *)

(** A descriptor of slot [i]. *)
Record fd_ok (srv : servst) (i : Z) : Prop := {
  fo_slot : 0 <= i < MAXOPEN;
  fo_refs : 2 <= mappings (refs srv) (fdva i);
  fo_dev : fd_dev_id (fdpages srv !!! fdva i) = devfile_id;
  fo_mode : fd_omode (fdpages srv !!! fdva i) = O_RDONLY;
  fo_id : w32 (fd_file_id (fdpages srv !!! fdva i)) = o_fileid (opentab srv !!! i) }.

Record cl_inv (s : clst) : Prop := {
  ci_srv : shared_inv v n T (server s);
  ci_fd : forall fd p, fdmap s !! fd = Some p -> exists i, p = fdva i /\ fd_ok (server s) i;
  ci_inj : forall fd fd' p, fdmap s !! fd = Some p -> fdmap s !! fd' = Some p -> fd = fd' }.

(** The server's parts that an answer to READ or STAT leaves alone. *)
Definition same_slots (srv srv' : servst) : Prop := opentab srv' = opentab srv /\ refs srv' = refs srv.

Lemma fd_ok_named srv i req : fd_ok srv i -> ld32 req 0 = w32 (fd_file_id (fdpages srv !!! fdva i)) ->
  shared_inv v n T srv -> named (srv <| fsreq := req |>) (ld32 req 0) = Some i.
Proof.
  intros [Hi Hr _ _ Hid] Hreq Hs. rewrite Hreq, Hid. destruct (vn_id _ _ _ _ (sh_serv _ _ _ _ Hs) i Hi) as [_ Hmod].
  unfold named. rewrite Hmod. change (refs (?s <| fsreq := ?x |>)) with (refs s). change (opentab (?s <| fsreq := ?x |>)) with (opentab s).
  rewrite (proj2 (Z.eqb_neq _ 1)) by lia. by rewrite Z.eqb_refl.
Qed.

(** Only offsets and the cache moved. *)
Record moved (srv srv' : servst) : Prop := {
  mv_tab : opentab srv' = opentab srv;
  mv_refs : refs srv' = refs srv;
  mv_fd : forall j, (fdpages srv' !!! fdva j) <| fd_offset := 0 |> = (fdpages srv !!! fdva j) <| fd_offset := 0 |> }.

Lemma moved_refl srv srv' : opentab srv' = opentab srv -> refs srv' = refs srv -> fdpages srv' = fdpages srv -> moved srv srv'.
Proof. intros Ht Hr Hf. constructor; [exact Ht | exact Hr|]. intros j. by rewrite Hf. Qed.

Lemma moved_seek srv srv' i o : opentab srv' = opentab srv -> refs srv' = refs srv ->
  fdpages srv' = <[fdva i := (fdpages srv !!! fdva i) <| fd_offset := o |>]> (fdpages srv) -> moved srv srv'.
Proof.
  intros Ht Hr Hf. constructor; [exact Ht | exact Hr|]. intros j. rewrite Hf. destruct (decide (fdva i = fdva j)) as [-> | Hne].
  - by rewrite lookup_total_insert_eq.
  - by rewrite lookup_total_insert_ne.
Qed.

Lemma moved_fd_ok srv srv' i : moved srv srv' -> fd_ok srv i -> fd_ok srv' i.
Proof.
  intros [Ht Hr Hf] [H1 H2 H3 H4 H5]. specialize (Hf i).
  assert (Hd : fd_dev_id (fdpages srv' !!! fdva i) = fd_dev_id (fdpages srv !!! fdva i)) by exact (f_equal fd_dev_id Hf).
  assert (Hm : fd_omode (fdpages srv' !!! fdva i) = fd_omode (fdpages srv !!! fdva i)) by exact (f_equal fd_omode Hf).
  assert (Hi : fd_file_id (fdpages srv' !!! fdva i) = fd_file_id (fdpages srv !!! fdva i)) by exact (f_equal fd_file_id Hf).
  constructor; rewrite ?Ht, ?Hr, ?Hd, ?Hm, ?Hi; assumption.
Qed.

Lemma moved_inv s srv buf : cl_inv s -> shared_inv v n T srv -> moved (server s) srv -> cl_inv (mkCl srv (fdmap s) buf).
Proof.
  intros [_ Hfd Hinj] Hs Hm. constructor; [exact Hs | | exact Hinj]. intros fd p Hp.
  destruct (Hfd fd p Hp) as (i & -> & Hok). exists i. split; [done | by eapply moved_fd_ok].
Qed.

(** ** Requests *)

Lemma fsipc_answer type dst s srv0 r p srv : server s <| fsreq := fsipcbuf s |> = srv0 ->
  serve_one type (Z.lor (Z.lor PTE_P PTE_W) PTE_U) srv0 = Ok (Some (r, None, p)) srv ->
  fsipc type dst s = Ok (s32 r) (mkCl srv (fdmap s) (fsreq srv)).
Proof. intros <- R. unfold fsipc. by rewrite R. Qed.

Lemma fd_get_run s fd p : fdmap s !! fd = Some p -> fd_get fd s = Ok (fdpages (server s) !!! p) s.
Proof. intros Hp. unfold fd_get, uget. by rewrite (lookup_total_correct _ _ _ Hp). Qed.

(** The file, position and count of a read through slot [i]. *)
Definition slot_file (s : clst) (i : Z) : Z := o_file (opentab (server s) !!! i).
Definition slot_off (s : clst) (i : Z) : Z := fd_offset (fdpages (server s) !!! fdva i).

(** The request page of a read. *)
Definition read_req (s : clst) (i cnt : Z) : memory :=
  st32 (st32 (fsipcbuf s) 0 (fd_file_id (fdpages (server s) !!! fdva i))) 4 cnt.

Lemma read_req_words s i cnt : 0 <= cnt < 2 ^ 32 ->
  ld32 (read_req s i cnt) 0 = w32 (fd_file_id (fdpages (server s) !!! fdva i)) /\ ld32 (read_req s i cnt) 4 = cnt.
Proof.
  intros Hc. unfold read_req. rewrite ld32_st32_eq, ld32_st32_ne, ld32_st32_eq by lia. split; [done | by apply Z.mod_small].
Qed.

Lemma devfile_read_answer s fd i cnt c srv : fdmap s !! fd = Some (fdva i) -> 0 <= c <= PGSIZE -> c <= cnt ->
  serve_read (server s <| fsreq := read_req s i cnt |>) = Ok c srv ->
  devfile_read fd cnt s = Ok (c, ldbytes (fsreq srv) 0 (Z.to_nat c)) (mkCl srv (fdmap s) (fsreq srv)).
Proof.
  intros Hfd Hc Hcnt R. unfold devfile_read. rewrite (ubind_run _ _ _ _ _ (fd_get_run s fd _ Hfd)). unfold put_word. ub. ub.
  set (s1 := s <| fsipcbuf := read_req s i cnt |>). set (srv0 := server s <| fsreq := read_req s i cnt |>) in *.
  match goal with |- _ ?st = _ => change st with s1 end.
  assert (R1 : serve_one FSREQ_READ (Z.lor (Z.lor PTE_P PTE_W) PTE_U) srv0 =
    Ok (Some (c, None, Z.lor (Z.lor PTE_P PTE_W) PTE_U)) srv).
  { unfold serve_one. rewrite has_request_perm. change (FSREQ_READ =? FSREQ_OPEN) with false.
    change (FSREQ_READ =? FSREQ_READ) with true. cbn [negb]. by urw R. }
  urw (fsipc_answer FSREQ_READ 0 s1 srv0 c _ srv eq_refl R1).
  rewrite s32_small by (unfold PGSIZE in Hc; clear - Hc; lia).
  rewrite (proj2 (Z.ltb_ge c 0)), (proj2 (Z.ltb_ge cnt c)), (proj2 (Z.ltb_ge PGSIZE c)) by (clear - Hc Hcnt; lia).
  ub. done.
Qed.

Lemma devfile_read_run s fd i cnt : cl_inv s -> fdmap s !! fd = Some (fdva i) -> fd_ok (server s) i -> 0 <= cnt < 2 ^ 32 ->
  let c := read_count v (slot_file s i) (Z.min cnt PGSIZE) (slot_off s i) in
  exists s', devfile_read fd cnt s = Ok (c, fbytes v (slot_file s i) (slot_off s i) c) s' /\ cl_inv s' /\
    fdmap s' = fdmap s /\ opentab (server s') = opentab (server s) /\ refs (server s') = refs (server s) /\
    fdpages (server s') = <[fdva i := (fdpages (server s) !!! fdva i) <| fd_offset := slot_off s i + c |>]> (fdpages (server s)).
Proof.
  intros Hs Hfd Hok Hcnt. cbv zeta. pose proof (ci_srv _ Hs) as Hsh. unfold slot_file, slot_off.
  set (d := fdpages (server s) !!! fdva i). set (f := o_file (opentab (server s) !!! i)). set (c := read_count v f _ _).
  destruct (read_req_words s i cnt Hcnt) as [Hreq0 Hreq4]. set (req := read_req s i cnt) in *.
  set (srv := server s <| fsreq := req |>).
  assert (Hsrv : shared_inv v n T srv) by by apply shared_req.
  pose proof (serve_read_run v n T Hserved srv (sh_serv _ _ _ _ Hsrv)) as Hr.
  assert (Hnm : named srv (ld32 (fsreq srv) 0) = Some i) by exact (fd_ok_named (server s) i req Hok Hreq0 Hsh).
  rewrite Hnm in Hr.
  cbv zeta in Hr. pose proof (fo_refs _ _ Hok) as Href. pose proof (sh_offset _ _ _ _ Hsh i (fo_slot _ _ Hok) Href) as Hoff.
  assert (Hsent : sent v srv i = c).
  { unfold sent. change (fsreq srv) with req. rewrite Hreq4. reflexivity. }
  rewrite Hsent in Hr.
  destruct (Hr ltac:(change (mappings (refs (server s)) (fdva i) <> 0); lia) Hoff) as (fs & Hfs & R). clear Hr.
  change (o_file (opentab srv !!! i)) with f in R. change (fdpages srv !!! fdva i) with d in R.
  change (fsreq srv) with req in R.
  pose proof (sent_end v srv i Hoff) as Hend. rewrite Hsent in Hend. change (fdpages srv !!! fdva i) with d in Hend.
  rewrite (s32_small (fd_offset d + c)) in R by (clear - Hend; lia).
  set (srv' := srv <| sv_fs := fs |> <| fsreq := stbytes req 0 (fbytes v f (fd_offset d) c) |>
    <| fdpages := <[fdva i := d <| fd_offset := fd_offset d + c |>]> (fdpages srv) |>) in R.
  assert (Hc : 0 <= c <= PGSIZE /\ c <= cnt).
  { unfold c, read_count, PGSIZE. clear - Hcnt. lia. }
  exists (mkCl srv' (fdmap s) (fsreq srv')). split; [|split; [|split; [reflexivity | split; [reflexivity | split; reflexivity]]]].
  - rewrite (devfile_read_answer s fd i cnt c srv' Hfd (proj1 Hc) (proj2 Hc) R).
    change (fsreq srv') with (stbytes req 0 (fbytes v f (fd_offset d) c)).
    rewrite (length_fbytes v f (fd_offset d) c) by (clear - Hc; lia). rewrite ldbytes_stbytes; [done|].
    eapply fbytes_bytes; [exact (ro_sees _ _ _ _ (vn_fs _ _ _ _ (sh_serv _ _ _ _ Hsh))) | | exact (proj1 Hoff) | apply read_count_end].
    exact (vn_file _ _ _ _ (sh_serv _ _ _ _ Hsh) i (fo_slot _ _ Hok) Href).
  - refine (moved_inv _ srv' _ _ _ _); [exact Hs | | by eapply moved_seek].
    apply shared_seek; [reflexivity | by apply shared_req, shared_fs | exact Hend].
Qed.

(** ** Descriptors *)

Section fd.
Context (devsock devpipe devcons : Dev).

Definition open_fd (s : clst) (fdnum i : Z) : Prop :=
  0 <= fdnum < MAXFD /\ fdmap s !! INDEX2FD fdnum = Some (fdva i) /\ fd_ok (server s) i.

Lemma INDEX2FD_at i : 0 <= i < MAXFD -> INDEX2FD i = FDTABLE + i * PGSIZE.
Proof. intros Hi. unfold INDEX2FD. apply w32_small. unfold FDTABLE, PGSIZE, MAXFD in *. zlia. Qed.

Lemma fd2num_at i : 0 <= i < MAXFD -> fd2num (INDEX2FD i) = i.
Proof.
  intros Hi. unfold fd2num. rewrite INDEX2FD_at by exact Hi. rewrite w32_small by (unfold FDTABLE, PGSIZE, MAXFD in *; zlia).
  replace (FDTABLE + i * PGSIZE - FDTABLE) with (i * PGSIZE) by lia. by apply Z.div_mul.
Qed.

Lemma is_mapped_run fd s : is_mapped fd s = Ok (bool_decide (is_Some (fdmap s !! fd))) s.
Proof. done. Qed.

Lemma fd_lookup_open s fdnum i : open_fd s fdnum i -> fd_lookup fdnum s = Ok (0, INDEX2FD fdnum) s.
Proof.
  intros (Hn & Hm & _). unfold fd_lookup. rewrite (proj2 (Z.ltb_ge fdnum 0)), Z.geb_leb, (proj2 (Z.leb_gt MAXFD fdnum)) by lia.
  cbn [orb]. urw (is_mapped_run (INDEX2FD fdnum) s). rewrite Hm, bool_decide_eq_true_2 by done. done.
Qed.

Lemma fd_dev_open s fdnum i : open_fd s fdnum i ->
  fd_dev devsock devpipe devcons fdnum s = Ok (0, INDEX2FD fdnum, Some devfile) s.
Proof.
  intros Ho. unfold fd_dev. urw (fd_lookup_open s fdnum i Ho). destruct Ho as (_ & Hm & Hok). cbn [Z.ltb Z.compare].
  urw (fd_get_run s _ _ Hm). rewrite (fo_dev _ _ Hok). done.
Qed.

Lemma read_run s fdnum i cnt : cl_inv s -> open_fd s fdnum i -> 0 <= cnt < 2 ^ 32 ->
  let c := read_count v (slot_file s i) (Z.min cnt PGSIZE) (slot_off s i) in
  exists s', read devsock devpipe devcons fdnum cnt s = Ok (c, fbytes v (slot_file s i) (slot_off s i) c) s' /\ cl_inv s' /\
    open_fd s' fdnum i /\ slot_file s' i = slot_file s i /\ slot_off s' i = slot_off s i + c /\
    fdmap s' = fdmap s /\ refs (server s') = refs (server s).
Proof.
  intros Hs Ho Hc. cbv zeta. pose proof Ho as (Hn & Hm & Hok).
  destruct (devfile_read_run s _ i cnt Hs Hm Hok Hc) as (s' & R & Hs' & Hmap & Htab & Hrefs & Hfd). exists s'.
  split.
  { unfold read. urw (fd_dev_open s fdnum i Ho). urw (fd_get_run s _ _ Hm). rewrite (fo_mode _ _ Hok). exact R. }
  split; [exact Hs'|]. split.
  { split; [exact Hn|]. split; [by rewrite Hmap|]. eapply moved_fd_ok; [|exact Hok]. by eapply moved_seek. }
  split; [unfold slot_file; by rewrite Htab|]. split; [unfold slot_off; rewrite Hfd, lookup_total_insert_eq; done|]. done.
Qed.

(** Reading on until the count or the end of the file. *)
Record reading_on (s0 : clst) (fdnum i cnt : Z) (st : Z * list Z) (s : clst) : Prop := {
  rd_inv : cl_inv s;
  rd_open : open_fd s fdnum i;
  rd_file : slot_file s i = slot_file s0 i;
  rd_off : slot_off s i = slot_off s0 i + fst st;
  rd_buf : snd st = fbytes v (slot_file s0 i) (slot_off s0 i) (fst st);
  rd_tot : 0 <= fst st <= read_count v (slot_file s0 i) cnt (slot_off s0 i);
  rd_map : fdmap s = fdmap s0;
  rd_refs : refs (server s) = refs (server s0) }.

Lemma readn_run s fdnum i cnt : cl_inv s -> open_fd s fdnum i -> 0 <= cnt < 2 ^ 31 ->
  let c := read_count v (slot_file s i) cnt (slot_off s i) in
  exists s', readn devsock devpipe devcons fdnum cnt s = Ok (c, fbytes v (slot_file s i) (slot_off s i) c) s' /\ cl_inv s' /\
    open_fd s' fdnum i /\ slot_file s' i = slot_file s i /\ slot_off s' i = slot_off s i + c /\
    fdmap s' = fdmap s /\ refs (server s') = refs (server s).
Proof.
  intros Hs Ho Hc. cbv zeta. set (f := slot_file s i). set (off := slot_off s i). set (c := read_count v f cnt off).
  assert (Hoff : 0 <= off < 2 ^ 31).
  { destruct Ho as (_ & _ & Hok). apply (sh_offset _ _ _ _ (ci_srv _ Hs)); [exact (fo_slot _ _ Hok) | exact (fo_refs _ _ Hok)]. }
  assert (Hcc : 0 <= c <= cnt) by (unfold c, read_count; lia).
  assert (Hw : uwp (readn devsock devpipe devcons fdnum cnt)
    (fun x s' => x = (c, fbytes v f off c) /\ reading_on s fdnum i cnt x s') s).
  { apply (uwp_loop _ (reading_on s fdnum i cnt) (fun st => Z.to_nat (cnt - fst st))); [| |cbn [fst]; lia].
    2: { constructor; cbn [fst snd]; [exact Hs | exact Ho | done | fold off; lia | done | fold f off c; lia | done | done]. }
    intros [tot buf] s1 Hrd. pose proof Hrd as [H1 H2 H3 H4 H5 H6 H7 H8]. cbn [fst snd] in *. fold f off c in H3, H4, H5, H6.
    rewrite w32_small by (zpow; lia). destruct (Z.ltb_spec tot cnt) as [Hlt | Hge].
    - apply uwp_bind. rewrite (w32_small (cnt - tot)) by (zpow; lia).
      destruct (read_run s1 fdnum i (cnt - tot) H1 H2 ltac:(zpow; lia)) as (s2 & R & Hs2 & Ho2 & Hf2 & Hoff2 & Hm2 & Hr2).
      rewrite H3, H4 in R, Hoff2. fold f off in R, Hoff2.
      set (m := read_count v f (Z.min (cnt - tot) PGSIZE) (off + tot)) in *.
      assert (Hm : 0 <= m /\ tot + m <= c /\ (m = 0 -> tot = c)).
      { unfold m, c, read_count, PGSIZE in *. clear - Hlt H6 Hoff. lia. }
      apply (uwp_intro _ _ _ _ _ R). rewrite (proj2 (Z.ltb_ge m 0)) by lia.
      assert (Hrd2 : reading_on s fdnum i cnt (tot + m, buf ++ fbytes v f (off + tot) m) s2).
      { constructor; cbn [fst snd]; [exact Hs2 | exact Ho2 | by rewrite Hf2 | rewrite Hoff2; fold off; lia | | fold f off c; lia | by rewrite Hm2 | by rewrite Hr2].
        rewrite H5. fold f off. by rewrite fbytes_app by lia. }
      destruct (Z.eqb_spec m 0) as [E | E]; apply uwp_ret.
      + destruct Hm as (_ & _ & Hm). specialize (Hm E). rewrite E, Z.add_0_r in Hrd2. change (fbytes v f (off + tot) 0) with (@nil Z) in Hrd2.
        rewrite app_nil_r in Hrd2. split; [by rewrite H5, Hm | exact Hrd2].
      + cbn [fst]. rewrite s32_small by (zpow; lia). split; [exact Hrd2 | lia].
    - apply uwp_ret. assert (tot = c) as -> by lia. rewrite H5. split; [done|]. by rewrite <- H5. }
  destruct (uwp_elim _ _ _ Hw) as ([r bs] & s' & R & Hx & [H1 H2 H3 H4 _ _ H7 H8]). injection Hx as -> ->. cbn [fst] in H4.
  exists s'. split; [exact R|]. done.
Qed.

(** ** [close] *)

Lemma fd_close_run s fdnum i : cl_inv s -> open_fd s fdnum i -> forall must,
  exists s', fd_close devsock devpipe devcons (INDEX2FD fdnum) must s = Ok 0 s' /\ cl_inv s' /\
    fdmap s' = delete (INDEX2FD fdnum) (fdmap s) /\ opentab (server s') = opentab (server s) /\
    fdpages (server s') = fdpages (server s) /\
    refs (server s') = <[fdva i := mappings (refs (server s)) (fdva i) - 1]> (refs (server s)).
Proof.
  intros Hs Ho must. pose proof Ho as (Hn & Hm & Hok). pose proof (ci_srv _ Hs) as Hsh.
  unfold fd_close. rewrite fd2num_at by exact Hn. urw (fd_lookup_open s fdnum i Ho). rewrite Z.eqb_refl. cbn [Z.ltb Z.compare negb orb].
  urw (fd_get_run s _ _ Hm). rewrite (fo_dev _ _ Hok).
  change (dev_lookup devsock devpipe devcons devfile_id) with (mret (M := U clst) (0, Some devfile)). ub.
  cbn [dev_close devfile]. unfold devfile_flush. rewrite ubind_assoc. urw (fd_get_run s _ _ Hm). unfold put_word. ub. ub.
  set (s1 := s <| fsipcbuf := st32 (fsipcbuf s) 0 (fd_file_id (fdpages (server s) !!! fdva i)) |>).
  set (srv := server s <| fsreq := fsipcbuf s1 |>).
  assert (R : serve_one FSREQ_FLUSH (Z.lor (Z.lor PTE_P PTE_W) PTE_U) srv = Ok (Some (0, None, Z.lor (Z.lor PTE_P PTE_W) PTE_U)) srv) by done.
  urw (fsipc_answer FSREQ_FLUSH 0 s1 srv 0 _ srv eq_refl R). unfold unmap_fd. ub.
  set (r := mappings (refs (server s)) (fdva i) - 1).
  exists (mkCl (srv <| refs := <[fdva i := r]> (refs srv) |>) (delete (INDEX2FD fdnum) (fdmap s)) (fsreq srv)).
  pose proof (fo_refs _ _ Hok) as Hrefs. pose proof (fo_slot _ _ Hok) as Hi.
  split; [|split; [|done]].
  - change (fdmap (mkCl srv (fdmap s1) (fsreq srv))) with (fdmap s). rewrite Hm. done.
  - assert (Hsrv : shared_inv v n T srv) by by apply shared_req.
    constructor; cbn [server fdmap].
    + apply shared_share; [exact Hsrv | exact Hi | change (mappings (refs (server s)) (fdva i) <> 0); lia | unfold r; lia|].
      intros _. split; [exact (vn_file _ _ _ _ (sh_serv _ _ _ _ Hsh) i Hi Hrefs) | exact (sh_offset _ _ _ _ Hsh i Hi Hrefs)].
    + intros fd p [Hne Hp]%lookup_delete_Some. destruct (ci_fd _ Hs fd p Hp) as (j & -> & [H1 H2 H3 H4 H5]).
      exists j. split; [done|]. constructor; try assumption. change (refs (?x <| refs := ?y |>)) with y.
      rewrite mappings_insert. case_decide as Hd; [|exact H2]. apply fdva_inj in Hd. subst j.
      exfalso. apply Hne. exact (ci_inj _ Hs _ _ _ Hm Hp).
    + intros fd fd' p [_ Hp]%lookup_delete_Some [_ Hp']%lookup_delete_Some. exact (ci_inj _ Hs _ _ _ Hp Hp').
Qed.

Lemma close_run s fdnum i : cl_inv s -> open_fd s fdnum i ->
  exists s', close devsock devpipe devcons fdnum s = Ok 0 s' /\ cl_inv s' /\
    fdmap s' = delete (INDEX2FD fdnum) (fdmap s) /\ opentab (server s') = opentab (server s) /\
    fdpages (server s') = fdpages (server s) /\
    refs (server s') = <[fdva i := mappings (refs (server s)) (fdva i) - 1]> (refs (server s)).
Proof. intros Hs Ho. unfold close. urw (fd_lookup_open s fdnum i Ho). by apply fd_close_run. Qed.

(** ** [open] *)

(** The descriptor [fd_alloc] picks. *)
Definition first_fd (s : clst) : option Z :=
  List.find (fun i => negb (bool_decide (is_Some (fdmap s !! INDEX2FD i)))) (seqZ 0 MAXFD).

Lemma fd_alloc_run s : fd_alloc s = Ok (match first_fd s with Some i => (0, INDEX2FD i) | None => (- E_MAX_OPEN, 0) end) s.
Proof.
  unfold fd_alloc, first_fd.
  assert (Hl : forall m i, i + Z.of_nat m = MAXFD -> 0 <= i ->
    uloop (S m) (fun i => if i <? MAXFD then
      m ← is_mapped (INDEX2FD i); if negb m then mret (inr (0, INDEX2FD i)) else mret (inl (i + 1))
      else mret (inr (- E_MAX_OPEN, 0))) i s =
    Ok (match List.find (fun i => negb (bool_decide (is_Some (fdmap s !! INDEX2FD i)))) (seqZ i (Z.of_nat m)) with
        | Some i => (0, INDEX2FD i) | None => (- E_MAX_OPEN, 0) end) s).
  { induction m as [|m IH]; intros i Hm Hi; rewrite uloop_succ.
    - rewrite (proj2 (Z.ltb_ge i MAXFD)) by lia. done.
    - rewrite (proj2 (Z.ltb_lt i MAXFD)) by lia. rewrite seqZ_cons by lia. cbn [List.find].
      rewrite ubind_assoc. urw (is_mapped_run (INDEX2FD i) s). destruct (negb _); ub; [done|].
      rewrite IH by lia. replace (Z.pred (Z.of_nat (S m))) with (Z.of_nat m) by lia. by rewrite Z.add_1_r. }
  exact (Hl (Z.to_nat MAXFD) 0 eq_refl ltac:(done)).
Qed.

Lemma first_fd_free s j : first_fd s = Some j -> 0 <= j < MAXFD /\ fdmap s !! INDEX2FD j = None.
Proof.
  intros [Hin Hf]%find_some. apply list_elem_of_In, elem_of_seqZ in Hin. split; [exact Hin|].
  apply negb_true_iff, bool_decide_eq_false in Hf. by apply eq_None_not_Some.
Qed.

(** The server's slots other than [i] are as they were. *)
Definition other_slots (i : Z) (srv srv' : servst) : Prop := forall j, j <> i ->
  opentab srv' !!! j = opentab srv !!! j /\ fdpages srv' !!! fdva j = fdpages srv !!! fdva j /\
  mappings (refs srv') (fdva j) = mappings (refs srv) (fdva j).

Lemma other_inv s srv i buf : cl_inv s -> shared_inv v n T srv -> other_slots i (server s) srv ->
  mappings (refs (server s)) (fdva i) < 2 -> cl_inv (mkCl srv (fdmap s) buf).
Proof.
  intros [_ Hfd Hinj] Hs Ho Hi. constructor; [exact Hs | | exact Hinj]. intros fd p Hp.
  destruct (Hfd fd p Hp) as (j & -> & [H1 H2 H3 H4 H5]). exists j. split; [done|].
  destruct (Ho j) as (E1 & E2 & E3); [intros ->; lia|]. cbn [server]. constructor; rewrite ?E1, ?E2, ?E3; assumption.
Qed.

Lemma slot_taken_other srv i fs : other_slots i srv (slot_taken srv i <| sv_fs := fs |>).
Proof.
  intros j Hj. assert (Hne : fdva i <> fdva j) by (intros E; by apply Hj, eq_sym, fdva_inj).
  change (opentab (slot_taken srv i <| sv_fs := fs |>)) with (opentab (slot_taken srv i)).
  change (fdpages (slot_taken srv i <| sv_fs := fs |>)) with (fdpages (slot_taken srv i)).
  change (refs (slot_taken srv i <| sv_fs := fs |>)) with (refs (slot_taken srv i)).
  unfold slot_taken. cbn [opentab fdpages refs].
  rewrite mappings_insert, decide_False, !lookup_total_insert_ne by (done || by apply not_eq_sym). done.
Qed.

(** The request page of [open]. *)
Definition open_req (buf : memory) (path : list Z) (mode : Z) : memory := st32 (stbytes buf 0 (path ++ [0])) MAXPATHLEN mode.

Lemma open_req_path buf path mode : Forall (fun c => 0 < c < 256) path -> Z.of_nat (length path) < MAXPATHLEN ->
  req_path (open_req buf path mode) = path.
Proof.
  intros Hp Hl. unfold req_path, open_req. apply path_at_stbytes; [exact Hp | unfold MAXPATHLEN in *; lia|].
  intros i c Hi. pose proof (lookup_lt_Some _ _ _ Hi) as Hlt. rewrite length_app in Hlt. cbn [length] in Hlt.
  rewrite ld8_st32. rewrite (proj2 (Z.leb_gt MAXPATHLEN _)) by lia. cbn [andb].
  rewrite (ld8_stbytes_in buf 0 _ i c Hi). apply Z.mod_small.
  apply lookup_app_Some in Hi as [Hi | [_ Hi]].
  - pose proof (proj1 (Forall_lookup _ _) Hp i c Hi) as Hc. cbv beta in Hc. lia.
  - destruct (i - length path)%nat; [|done]. injection Hi as <-. done.
Qed.

Lemma fsipc_page type dst s srv0 r p perm srv : server s <| fsreq := fsipcbuf s |> = srv0 -> dst <> 0 -> fdmap s !! dst = None ->
  serve_one type (Z.lor (Z.lor PTE_P PTE_W) PTE_U) srv0 = Ok (Some (r, Some p, perm)) srv ->
  fsipc type dst s = Ok (s32 r) (mkCl (srv <| refs := <[p := mappings (refs srv) p + 1]> (refs srv) |>) (<[dst := p]> (fdmap s)) (fsreq srv)).
Proof.
  intros <- Hd Hm R. unfold fsipc. rewrite R, (proj2 (Z.eqb_neq dst 0) Hd). unfold map_fd, unmap_fd. rewrite ubind_assoc. ub.
  change (fdmap (s <| server := srv |> <| fsipcbuf := fsreq srv |>)) with (fdmap s). rewrite Hm. ub. done.
Qed.

Lemma INDEX2FD_nz j : 0 <= j < MAXFD -> INDEX2FD j <> 0.
Proof. intros Hj. rewrite INDEX2FD_at by exact Hj. unfold FDTABLE, PGSIZE. lia. Qed.

Lemma fd_close_gone s j : 0 <= j < MAXFD -> fdmap s !! INDEX2FD j = None ->
  fd_close devsock devpipe devcons (INDEX2FD j) false s = Ok 0 s.
Proof.
  intros Hj Hm. unfold fd_close. rewrite fd2num_at by exact Hj. unfold fd_lookup.
  rewrite (proj2 (Z.ltb_ge j 0)), Z.geb_leb, (proj2 (Z.leb_gt MAXFD j)) by lia. cbn [orb]. rewrite ubind_assoc.
  urw (is_mapped_run (INDEX2FD j) s). rewrite Hm. done.
Qed.

(** What the server makes of an open request for a slot it has. *)
Lemma serve_one_open srv i : shared_inv v n T srv -> first_slot srv = Some i -> 0 <= s32 (new_id srv i) ->
  req_omode (fsreq srv) = 0 -> forall perm, has perm PTE_P = true ->
  let w := resolve v None (s_root SB) (elements (req_path (fsreq srv))) in
  exists fs, roomy v n (unmapped (<[fdva i := 1]> (refs srv))) fs /\
  if w_code w <? 0 then serve_one FSREQ_OPEN perm srv = Ok (Some (w_code w, None, perm)) (slot_taken srv i <| sv_fs := fs |>)
  else exists f, w_file w = Some f /\ T f /\
       serve_one FSREQ_OPEN perm srv = Ok (Some (0, Some (fdva i), share_perm)) (slot_opened srv i f fs).
Proof.
  intros Hs Hi Hid Hom perm Hp. cbv zeta. pose proof (serve_open_run v n T Hserved srv (sh_serv _ _ _ _ Hs)) as Hr.
  rewrite Hi, (proj2 (Z.ltb_ge _ 0) Hid), Hom in Hr. cbn [Z.eqb negb] in Hr. cbv zeta in Hr.
  destruct Hr as (fs & Hfs & Hr). exists fs. split; [exact Hfs|].
  unfold serve_one. rewrite Hp. cbn [negb]. change (FSREQ_OPEN =? FSREQ_OPEN) with true. cbv iota.
  destruct (w_code _ <? 0).
  - by urw Hr.
  - destruct Hr as (f & Hf & HT & Hr). exists f. split; [exact Hf|]. split; [exact HT|]. by urw Hr.
Qed.

Lemma resolve_codes f dir ws : - 2 ^ 31 <= w_code (resolve v dir f ws) <= 0.
Proof.
  revert f dir. induction ws as [|w ws IH]; intros f dir; cbn [resolve]; [done|].
  destruct (_ >=? _); [done|]. destruct (negb _); [done|]. destruct (lookup_ref v f w); [apply IH | by destruct ws].
Qed.

Lemma opened_inv s i f fs j buf : cl_inv s -> first_slot (server s) = Some i -> first_fd s = Some j -> T f ->
  roomy v n (unmapped (<[fdva i := 1]> (refs (server s)))) fs ->
  let srv := slot_opened (server s) i f fs in
  let s' := mkCl (srv <| refs := <[fdva i := mappings (refs srv) (fdva i) + 1]> (refs srv) |>) (<[INDEX2FD j := fdva i]> (fdmap s)) buf in
  cl_inv s' /\ open_fd s' j i /\ slot_file s' i = f /\ slot_off s' i = 0.
Proof.
  intros Hs Hi Hj HT Hfs srv s'. pose proof (ci_srv _ Hs) as Hsh. destruct (first_slot_range _ i Hi) as [Hir Hi2].
  destruct (first_fd_free s j Hj) as [Hjr Hjm].
  assert (H1 : mappings (refs srv) (fdva i) = 1).
  { unfold srv, slot_opened. cbn [refs]. rewrite mappings_insert. by rewrite decide_True. }
  assert (Hsrv : shared_inv v n T srv).
  { apply (shared_slot v n T (server s) srv i (mkFd devfile_id 0 0 (s32 (new_id (server s) i)))); [exact Hsh | | done | done].
    apply slot_opened_inv; [exact (sh_serv _ _ _ _ Hsh) | exact Hir | exact Hfs]. }
  assert (Hsrv' : shared_inv v n T (server s')).
  { apply shared_share; [exact Hsrv | exact Hir | by rewrite H1 | rewrite H1; lia|]. intros _.
    unfold srv, slot_opened. cbn [opentab fdpages]. rewrite !lookup_total_insert_eq. cbn [o_file fd_offset]. done. }
  assert (Hother : other_slots i (server s) (server s')).
  { intros k Hk. assert (Hne : fdva i <> fdva k) by (intros E; by apply Hk, eq_sym, fdva_inj).
    unfold s', srv, slot_opened. cbn [server opentab fdpages].
    change (refs (?x <| refs := ?y |>)) with y. change (opentab (?x <| refs := ?y |>)) with (opentab x).
    change (fdpages (?x <| refs := ?y |>)) with (fdpages x). cbn [refs opentab fdpages].
    rewrite !mappings_insert, !decide_False, !lookup_total_insert_ne by (done || by apply not_eq_sym). done. }
  assert (Hok : fd_ok (server s') i).
  { constructor; [exact Hir | | | |]; unfold s', srv, slot_opened; cbn [server].
    1: change (refs (?x <| refs := ?y |>)) with y; rewrite mappings_insert, decide_True by done; fold (slot_opened (server s) i f fs); fold srv; rewrite H1; lia.
    all: change (opentab (?x <| refs := ?y |>)) with (opentab x); change (fdpages (?x <| refs := ?y |>)) with (fdpages x).
    all: cbn [fdpages opentab]; rewrite ?lookup_total_insert_eq; try done.
    cbn [fd_file_id o_fileid]. rewrite w32_s32. unfold new_id. by rewrite w32_idem. }
  pose proof (other_inv s (server s') i buf Hs Hsrv' Hother Hi2) as [_ Hfd Hinj]. cbn [fdmap server] in Hfd, Hinj.
  split; [constructor; [exact Hsrv' | |]; cbn [fdmap s']|].
  - intros fd p [[<- <-] | [_ Hp]]%lookup_insert_Some; [by exists i | by apply (Hfd fd)].
  - assert (Hno : forall fd, fdmap s !! fd = Some (fdva i) -> False).
    { intros fd Hp. destruct (ci_fd _ Hs fd _ Hp) as (k & E%fdva_inj & Hk). subst k. pose proof (fo_refs _ _ Hk). lia. }
    intros fd fd' p [[<- <-] | [_ Hp]]%lookup_insert_Some [[<- E'] | [_ Hp']]%lookup_insert_Some; try done.
    + by destruct (Hno fd').
    + subst p. by destruct (Hno fd).
    + exact (Hinj _ _ _ Hp Hp').
  - split; [|split].
    + split; [exact Hjr|]. split; [cbn [fdmap s']; apply lookup_insert_eq | exact Hok].
    + unfold slot_file, s', srv, slot_opened. cbn [server]. change (opentab (?x <| refs := ?y |>)) with (opentab x).
      cbn [opentab]. by rewrite lookup_total_insert_eq.
    + unfold slot_off, s', srv, slot_opened. cbn [server]. change (fdpages (?x <| refs := ?y |>)) with (fdpages x).
      cbn [fdpages]. by rewrite lookup_total_insert_eq.
Qed.

Lemma open_run s path i j : cl_inv s -> Forall (fun c => 0 < c < 256) path -> Z.of_nat (length path) < MAXPATHLEN ->
  first_fd s = Some j -> first_slot (server s) = Some i -> 0 <= s32 (new_id (server s) i) ->
  let w := resolve v None (s_root SB) (elements path) in
  exists s', cl_inv s' /\
  if w_code w <? 0 then open devsock devpipe devcons path O_RDONLY s = Ok (w_code w) s' /\ fdmap s' = fdmap s
  else open devsock devpipe devcons path O_RDONLY s = Ok j s' /\ open_fd s' j i /\ w_file w = Some (slot_file s' i) /\
       T (slot_file s' i) /\ slot_off s' i = 0 /\ fdmap s' = <[INDEX2FD j := fdva i]> (fdmap s) /\ mappings (refs (server s')) (fdva i) = 2.
Proof.
  intros Hs Hp Hl Hj Hi Hid. cbv zeta. pose proof (ci_srv _ Hs) as Hsh. destruct (first_fd_free s j Hj) as [Hjr Hjm].
  set (req := open_req (fsipcbuf s) path O_RDONLY). set (s1 := s <| fsipcbuf := req |>). set (srv := server s <| fsreq := req |>).
  assert (Hopen : open devsock devpipe devcons path O_RDONLY s =
    (r ← fsipc FSREQ_OPEN (INDEX2FD j);
     if r <? 0 then fd_close devsock devpipe devcons (INDEX2FD j) false;; mret r else mret (fd2num (INDEX2FD j))) s1).
  { unfold open. rewrite Z.geb_leb, (proj2 (Z.leb_gt MAXPATHLEN _) Hl). rewrite (ubind_run _ _ _ _ _ (fd_alloc_run s)), Hj. done. }
  assert (Hom : req_omode (fsreq srv) = 0).
  { change (fsreq srv) with req. unfold req, open_req, req_omode. by rewrite ld32_st32_eq. }
  destruct (serve_one_open srv i ltac:(by apply shared_req) Hi Hid Hom _ has_request_perm) as (fs & Hfs & Hr).
  assert (Hpath : req_path (fsreq srv) = path) by exact (open_req_path (fsipcbuf s) path O_RDONLY Hp Hl).
  rewrite Hpath in Hr.
  set (w := resolve v None (s_root SB) (elements path)) in *. pose proof (resolve_codes (s_root SB) None (elements path)) as Hcode. fold w in Hcode.
  destruct (Z.ltb_spec (w_code w) 0) as [Hneg | Hpos].
  - pose proof (fsipc_answer FSREQ_OPEN (INDEX2FD j) s1 srv _ _ _ eq_refl Hr) as Hf. rewrite s32_small in Hf by (clear - Hcode; zpow; lia).
    exists (mkCl (slot_taken srv i <| sv_fs := fs |>) (fdmap s) (fsreq (slot_taken srv i <| sv_fs := fs |>))). split; [|split].
    + apply (other_inv s _ i); [exact Hs | | exact (slot_taken_other srv i fs) | exact (proj2 (first_slot_range _ i Hi))].
      apply shared_fs; [|exact Hfs]. apply (shared_slot v n T srv _ i (mkFd 0 0 0 0)); [by apply shared_req | | done | done].
      apply slot_taken_inv; [exact (sh_serv _ _ _ _ (shared_req _ _ _ _ req Hsh)) | exact (proj1 (first_slot_range _ i Hi))].
    + rewrite Hopen. urw Hf. rewrite (proj2 (Z.ltb_lt _ 0) Hneg).
      urw (fd_close_gone (mkCl (slot_taken srv i <| sv_fs := fs |>) (fdmap s) (fsreq (slot_taken srv i <| sv_fs := fs |>))) j Hjr Hjm).
      done.
    + done.
  - destruct Hr as (f & Hf & HT & Hr).
    pose proof (fsipc_page FSREQ_OPEN (INDEX2FD j) s1 srv _ _ _ _ eq_refl (INDEX2FD_nz j Hjr) Hjm Hr) as R. change (s32 0) with 0 in R.
    assert (Hs1 : cl_inv (mkCl srv (fdmap s) (fsipcbuf s))).
    { apply moved_inv; [exact Hs | by apply shared_req | by apply moved_refl]. }
    destruct (opened_inv (mkCl srv (fdmap s) (fsipcbuf s)) i f fs j (fsreq (slot_opened srv i f fs)) Hs1 Hi Hj HT Hfs) as (Hinv & Hof & Hsf & Hso).
    eexists. split; [exact Hinv|]. split; [rewrite Hopen; urw R; by rewrite fd2num_at|]. split; [exact Hof|].
    rewrite Hsf, Hso. split; [exact Hf|]. split; [exact HT|]. split; [done|]. split; [done|].
    cbn [server]. change (refs (?x <| refs := ?y |>)) with y. unfold slot_opened. cbn [refs].
    rewrite !mappings_insert, !decide_True by done. done.
Qed.
End fd.
End spec.
