(* ===== verification/ClientThms.v ===== *)
(** * Files through the library: the theorems ([lib/file.c], [lib/fd.c], [fs/serv.c])

    What a process gets from [open], [readn], [seek] and [close], down to the disk. *)

From S2P Require Import Prelude Mem CString Mmu KState UState Fs FsInv FsSpec FsFile FsRead FsDir FsFrame FsSample Serve ServeSpec ServeRun ServeSample ServeThms Client ClientSpec.

(** ** A process on the sample disk *)

(** A device no descriptor here is for. *)
Definition no_dev : Dev := mkDev 0 None None None None None.

Lemma fresh_process fs : roomy (H := full_disk) full_v 8 MAXOPEN fs ->
  exists srv, serve_init (mkServ fs opentab0 ∅ ∅ ∅) = Ok tt srv /\ cl_inv (H := full_disk) full_v 8 full_tree (mkCl srv ∅ ∅) /\
    first_fd (mkCl srv ∅ ∅) = Some 0 /\ first_slot srv = Some 0 /\ s32 (new_id srv 0) = 1024.
Proof.
  intros Hfs. destruct (shared_start (H := full_disk) full_v 8 full_tree fs ∅ Hfs) as (srv & R & Hs & Hrefs & Hid).
  exists srv. split; [exact R|]. split; [|split; [|split]].
  - constructor; [exact Hs | |]; cbn [fdmap].
    + intros fd p. rewrite lookup_empty. intros Hp. discriminate Hp.
    + intros fd fd' p. rewrite lookup_empty. intros Hp. discriminate Hp.
  - vm_compute. reflexivity.
  - unfold first_slot. rewrite seqZ_cons by done. cbn [List.find]. rewrite Hrefs. done.
  - unfold new_id. rewrite (Hid 0) by done. done.
Qed.

(** ** Properties *)

(** [open] of a path: the least free descriptor, on the file the path leads to, at its
    start; or the code of the first element that is wrong, and the process has the
    descriptors it had. *)
Theorem open_correct `{Disk} v n T devsock devpipe devcons s path i j : served v n T -> cl_inv v n T s ->
  Forall (fun c => 0 < c < 256) path -> Z.of_nat (length path) < MAXPATHLEN ->
  first_fd s = Some j -> first_slot (server s) = Some i -> 0 <= s32 (new_id (server s) i) ->
  let w := resolve v None (s_root SB) (elements path) in
  exists s', cl_inv v n T s' /\
  if w_code w <? 0 then open devsock devpipe devcons path O_RDONLY s = Ok (w_code w) s' /\ fdmap s' = fdmap s
  else open devsock devpipe devcons path O_RDONLY s = Ok j s' /\ open_fd s' j i /\ w_file w = Some (slot_file s' i) /\
       T (slot_file s' i) /\ slot_off s' i = 0 /\ fdmap s' = <[INDEX2FD j := fdva i]> (fdmap s) /\ mappings (refs (server s')) (fdva i) = 2.
Proof. intros Hsv. by apply open_run. Qed.

Lemma open_correct_witness : exists s s', cl_inv (H := full_disk) full_v 8 full_tree s /\
  open (H := full_disk) no_dev no_dev no_dev (chars "/nothing") O_RDONLY s = Ok (- E_NOT_FOUND) s' /\ fdmap s' = fdmap s.
Proof.
  destruct full_roomy as (fs & Hfs). destruct (fresh_process fs Hfs) as (srv & _ & Hs & Hj & Hi & Hid).
  exists (mkCl srv ∅ ∅). assert (Hid0 : 0 <= s32 (new_id srv 0)) by (rewrite Hid; done).
  destruct (open_correct (H := full_disk) full_v 8 full_tree no_dev no_dev no_dev (mkCl srv ∅ ∅) (chars "/nothing") 0 0
    full_served Hs ltac:(repeat constructor) ltac:(done) Hj Hi Hid0) as (s' & _ & Ho).
  assert (Hw : resolve full_v None (s_root SB) (elements (chars "/nothing")) = mkWalked (- E_NOT_FOUND) (Some (s_root SB)) None (Some (chars "nothing")))
    by (vm_compute; reflexivity).
  rewrite Hw in Ho. cbn [w_code] in Ho. exists s'. split; [exact Hs | exact Ho].
Defined.

(** C11. The library and the server together give a process the files of the disk: [open] of
    a path that leads to [f], [readn] of [cnt] bytes, which the server sends a page at a
    time, and [close], return the descriptor, the first [cnt] bytes of [f] (all of it when
    it is shorter) and 0; afterwards the process has the descriptors it had and the server
    can give the slot to someone else. *)
Theorem read_whole_correct `{Disk} v n T devsock devpipe devcons s path i j f cnt : served v n T -> cl_inv v n T s ->
  Forall (fun c => 0 < c < 256) path -> Z.of_nat (length path) < MAXPATHLEN ->
  first_fd s = Some j -> first_slot (server s) = Some i -> 0 <= s32 (new_id (server s) i) ->
  w_code (resolve v None (s_root SB) (elements path)) = 0 -> w_file (resolve v None (s_root SB) (elements path)) = Some f ->
  0 <= cnt < 2 ^ 31 ->
  let c := Z.max 0 (Z.min cnt (s32 (v32 v (f_size f)))) in
  exists s1 s2 s3, open devsock devpipe devcons path O_RDONLY s = Ok j s1 /\
    readn devsock devpipe devcons j cnt s1 = Ok (c, fbytes v f 0 c) s2 /\
    close devsock devpipe devcons j s2 = Ok 0 s3 /\
    cl_inv v n T s3 /\ fdmap s3 = fdmap s /\ mappings (refs (server s3)) (fdva i) = 1.
Proof.
  intros Hsv Hs Hp Hl Hj Hi Hid Hc Hf Hcnt c.
  destruct (open_run v n T Hsv devsock devpipe devcons s path i j Hs Hp Hl Hj Hi Hid) as (s1 & Hs1 & Ho).
  rewrite Hc, Hf in Ho. cbn [Z.ltb Z.compare] in Ho. destruct Ho as (R1 & Ho1 & [= Hf1] & _ & Hoff & Hmap & Hrefs).
  destruct (readn_run v n T Hsv devsock devpipe devcons s1 j i cnt Hs1 Ho1 Hcnt) as (s2 & R2 & Hs2 & Ho2 & _ & _ & Hmap2 & Hrefs2).
  rewrite <- Hf1, Hoff in R2. replace (read_count v f cnt 0) with c in R2 by (unfold c, read_count; by rewrite Z.sub_0_r).
  destruct (close_run v n T devsock devpipe devcons s2 j i Hs2 Ho2) as (s3 & R3 & Hs3 & Hmap3 & _ & _ & Hrefs3).
  exists s1, s2, s3. do 3 (split; [done|]). split; [exact Hs3|]. split.
  - rewrite Hmap3, Hmap2, Hmap. apply delete_insert_id. apply (first_fd_free s j Hj).
  - rewrite Hrefs3, mappings_insert, decide_True by done. by rewrite Hrefs2, Hrefs.
Qed.

Lemma read_whole_correct_witness : exists s s1 s2, cl_inv (H := full_disk) full_v 8 full_tree s /\
  open (H := full_disk) no_dev no_dev no_dev (chars "motd") O_RDONLY s = Ok 0 s1 /\
  readn (H := full_disk) no_dev no_dev no_dev 0 100 s1 = Ok (11, chars "hello world") s2.
Proof.
  destruct full_roomy as (fs & Hfs). destruct (fresh_process fs Hfs) as (srv & _ & Hs & Hj & Hi & Hid).
  assert (Hid0 : 0 <= s32 (new_id srv 0)) by (rewrite Hid; done).
  assert (Hw : resolve full_v None (s_root SB) (elements (chars "motd")) = mkWalked 0 (Some (s_root SB)) (Some (baddr 3)) None)
    by (vm_compute; reflexivity).
  assert (Hch : Forall (fun c => 0 < c < 256) (chars "motd")) by repeat constructor.
  assert (Hlen : Z.of_nat (length (chars "motd")) < MAXPATHLEN) by reflexivity.
  assert (Hcnt : 0 <= 100 < 2 ^ 31) by (split; [discriminate | reflexivity]).
  destruct (read_whole_correct (H := full_disk) full_v 8 full_tree no_dev no_dev no_dev (mkCl srv ∅ ∅) (chars "motd") 0 0 (baddr 3) 100
    full_served Hs Hch Hlen Hj Hi Hid0 (f_equal w_code Hw) (f_equal w_file Hw) Hcnt)
    as (s1 & s2 & s3 & R1 & R2 & _).
  assert (Hsz : s32 (v32 full_v (f_size (baddr 3))) = 11) by (vm_compute; reflexivity). rewrite Hsz in R2.
  assert (Hb : fbytes full_v (baddr 3) 0 11 = chars "hello world") by (vm_compute; reflexivity).
  change (Z.max 0 (Z.min 100 11)) with 11 in R2. rewrite Hb in R2.
  exists (mkCl srv ∅ ∅), s1, s2. split; [exact Hs|]. split; [exact R1 | exact R2].
Defined.

(** ** Before the start of a file *)

Lemma file_read_before `{Disk} s v n f cnt k :
  sees s v n -> file_at n f -> 0 < k <= cnt -> k < 2 ^ 31 -> cnt < 2 ^ 31 -> 0 <= s32 (v32 v (f_size f)) ->
  exists s', file_read f cnt (- k) s = Ok (Z.min cnt (s32 (v32 v (f_size f)) + k), []) s' /\ sees s' v n.
Proof.
  intros Hs Hf Hk Hk31 Hc Hsz. pose proof (s32_bound (v32 v (f_size f))) as Hb. unfold file_read.
  destruct (file_word n f MAXNAMELEN Hf ltac:(done) ltac:(done) ltac:(done)) as [Hd H4].
  destruct (fld32_run s v n (f_size f) Hs Hd H4) as (s1 & R1 & Hs1). urw R1.
  set (size := s32 (v32 v (f_size f))) in *. rewrite Z.geb_leb, (proj2 (Z.leb_gt size (- k))) by lia. cbv zeta.
  rewrite (w32_small (size - - k)) by (zpow; lia). replace (size - - k) with (size + k) by lia.
  set (c := Z.min cnt (size + k)). assert (Hck : k <= c < 2 ^ 31) by (unfold c; lia). rewrite uloop_succ.
  assert (Hw : w32 (- k) = 2 ^ 32 - k).
  { unfold w32. rewrite <- (Z.mod_add (- k) 1) by done. rewrite Z.mod_small by (zpow; lia). lia. }
  rewrite Hw, (w32_small (- k + c)), (proj2 (Z.ltb_ge (2 ^ 32 - k) (- k + c))) by (zpow; lia). ub.
  exists s1. split; [|exact Hs1]. rewrite s32_small by (zpow; lia). reflexivity.
Qed.

Section before.
Context `{Disk} (v : contents) (n : Z) (T : Z -> Prop) (Hserved : served v n T) (devsock devpipe devcons : Dev).

Lemma serve_read_before srv i k : serv_inv v n T srv -> named srv (ld32 (fsreq srv) 0) = Some i ->
  2 <= mappings (refs srv) (fdva i) -> fd_offset (fdpages srv !!! fdva i) = - k ->
  let f := o_file (opentab srv !!! i) in let cnt := Z.min (ld32 (fsreq srv) 4) PGSIZE in
  0 < k <= cnt -> 0 <= s32 (v32 v (f_size f)) ->
  exists srv', serve_read srv = Ok (Z.min cnt (s32 (v32 v (f_size f)) + k)) srv' /\ fsreq srv' = fsreq srv.
Proof.
  intros Hs Hnm Hrefs Hoff f cnt Hk Hsz.
  destruct (named_range _ _ _ Hnm) as (Hi & _). pose proof (vn_file _ _ _ _ Hs i Hi Hrefs) as HT. fold f in HT.
  assert (Hcnt : cnt <= PGSIZE) by (unfold cnt; lia). set (c := Z.min cnt (s32 (v32 v (f_size f)) + k)).
  destruct (serve_fs_run v n T (file_read f cnt (- k)) (c, []) srv Hs _) as (fs & Hr & _).
  { intros s0 Hs0. apply file_read_before; [exact Hs0 | exact (sd_file _ _ _ Hserved f HT) | exact Hk | | | exact Hsz];
      unfold PGSIZE in Hcnt; clear - Hk Hcnt; zpow; lia. }
  unfold serve_read. rewrite ubind_get. cbv beta. pose proof (openfile_lookup_named v n T srv (ld32 (fsreq srv) 0) Hs) as Hl.
  rewrite Hnm in Hl. urw Hl. cbn [Z.ltb Z.compare]. unfold open_at. ub. rewrite (vn_fd _ _ _ _ Hs i Hi).
  urw (fd_page_run srv (fdva i) ltac:(clear - Hrefs; lia)). rewrite Hoff. fold f cnt. urw Hr. ub.
  rewrite (proj2 (Z.ltb_ge c 0)) by (unfold c; clear - Hk Hsz; lia). ub. eexists. split; reflexivity.
Qed.
End before.

(** C40. [seek] takes an offset before the start of the file, and [read] then claims to have
    read bytes it never stored: asked for [cnt] bytes from [k] before the start, with
    [k] at most [cnt], it returns a count of at least [k], and what the caller's buffer
    gets is the page of the request itself. *)
Theorem seek_before_start `{Disk} v n T devsock devpipe devcons s fdnum i k cnt : served v n T -> cl_inv v n T s ->
  open_fd s fdnum i -> 0 < k <= cnt -> cnt <= PGSIZE -> 0 <= s32 (v32 v (f_size (slot_file s i))) ->
  let c := Z.min cnt (s32 (v32 v (f_size (slot_file s i))) + k) in
  exists s1 s2, seek fdnum (- k) s = Ok 0 s1 /\ read devsock devpipe devcons fdnum cnt s1 = Ok (c, ldbytes (read_req s i cnt) 0 (Z.to_nat c)) s2.
Proof.
  intros Hsv Hs Ho Hk Hcnt Hsz c. pose proof (ci_srv _ _ _ _ Hs) as Hsh. pose proof Ho as (Hn & Hm & Hok).
  set (d := fdpages (server s) !!! fdva i) in *.
  set (s1 := s <| server := server s <| fdpages := <[fdva i := d <| fd_offset := - k |>]> (fdpages (server s)) |> |>).
  assert (R1 : seek fdnum (- k) s = Ok 0 s1).
  { unfold seek. urw (fd_lookup_open s fdnum i Ho). cbn [Z.ltb Z.compare]. unfold fd_put. ub.
    rewrite (lookup_total_correct _ _ _ Hm). reflexivity. }
  exists s1. assert (Hd1 : fdpages (server s1) !!! fdva i = d <| fd_offset := - k |>).
  { change (fdpages (server s1)) with (<[fdva i := d <| fd_offset := - k |>]> (fdpages (server s))). apply lookup_total_insert_eq. }
  assert (Hok1 : fd_ok (server s1) i) by (destruct Hok; constructor; rewrite ?Hd1; assumption).
  assert (Ho1 : open_fd s1 fdnum i) by done.
  assert (Hreq : read_req s1 i cnt = read_req s i cnt) by (unfold read_req; by rewrite Hd1).
  destruct (read_req_words s i cnt ltac:(clear - Hk Hcnt; unfold PGSIZE in *; zpow; lia)) as [Hr0 Hr4].
  set (req := read_req s i cnt) in *. set (srv := server s1 <| fsreq := req |>).
  assert (Hsrv : serv_inv v n T srv) by (destruct (sh_serv _ _ _ _ Hsh); constructor; assumption).
  assert (Hnm : named srv (ld32 (fsreq srv) 0) = Some i).
  { change (fsreq srv) with req. exact (fd_ok_named v n T (server s) i req Hok Hr0 Hsh). }
  assert (Hcm : Z.min (ld32 (fsreq srv) 4) PGSIZE = cnt) by (change (fsreq srv) with req; rewrite Hr4; clear - Hcnt; lia).
  destruct (serve_read_before v n T Hsv srv i k Hsrv Hnm (fo_refs _ _ Hok)) as (srv' & R & Hb).
  - change (fdpages srv) with (fdpages (server s1)). by rewrite Hd1.
  - by rewrite Hcm.
  - exact Hsz.
  - rewrite Hcm in R. change (s32 (v32 v (f_size (o_file (opentab srv !!! i))))) with (s32 (v32 v (f_size (slot_file s i)))) in R.
    fold c in R. exists (mkCl srv' (fdmap s1) (fsreq srv')). split; [exact R1|].
    unfold read. urw (fd_dev_open devsock devpipe devcons s1 fdnum i Ho1). urw (fd_get_run s1 _ _ Hm). rewrite (fo_mode _ _ Hok1).
    change (Z.land O_RDONLY O_ACCMODE =? O_WRONLY) with false. cbv iota. cbn [dev_read devfile].
    rewrite (devfile_read_answer s1 _ i cnt c srv' Hm); [by rewrite Hb | unfold c; clear - Hk Hcnt Hsz; lia | unfold c; lia|].
    rewrite Hreq. exact R.
Qed.

Lemma seek_before_start_witness : exists s s1 s2, cl_inv (H := full_disk) full_v 8 full_tree s /\ open_fd s 0 0 /\
  seek 0 (- 8) s = Ok 0 s1 /\
  read (H := full_disk) no_dev no_dev no_dev 0 8 s1 = Ok (8, ldbytes (read_req s 0 8) 0 8) s2.
Proof.
  destruct full_roomy as (fs & Hfs). destruct (fresh_process fs Hfs) as (srv & _ & Hs & Hj & Hi & Hid).
  assert (Hid0 : 0 <= s32 (new_id srv 0)) by (rewrite Hid; done).
  assert (Hw : resolve full_v None (s_root SB) (elements (chars "motd")) = mkWalked 0 (Some (s_root SB)) (Some (baddr 3)) None)
    by (vm_compute; reflexivity).
  assert (Hch : Forall (fun c => 0 < c < 256) (chars "motd")) by repeat constructor.
  assert (Hlen : Z.of_nat (length (chars "motd")) < MAXPATHLEN) by reflexivity.
  destruct (open_run (H := full_disk) full_v 8 full_tree full_served no_dev no_dev no_dev (mkCl srv ∅ ∅) (chars "motd") 0 0
    Hs Hch Hlen Hj Hi Hid0) as (s & Hs' & Ho).
  rewrite Hw in Ho. cbn [w_code w_file Z.ltb Z.compare] in Ho. destruct Ho as (_ & Ho & [= Hf] & _).
  assert (Hsz : s32 (v32 full_v (f_size (slot_file s 0))) = 11) by (rewrite <- Hf; vm_compute; reflexivity).
  assert (Hk : 0 < 8 <= 8) by (split; [reflexivity | discriminate]).
  assert (Hpg : 8 <= PGSIZE) by discriminate.
  assert (Hpos : 0 <= s32 (v32 full_v (f_size (slot_file s 0)))) by (rewrite Hsz; discriminate).
  destruct (seek_before_start (H := full_disk) full_v 8 full_tree no_dev no_dev no_dev s 0 0 8 8 full_served Hs' Ho Hk Hpg Hpos)
    as (s1 & s2 & R1 & R2).
  rewrite Hsz in R2. change (Z.min 8 (11 + 8)) with 8 in R2. exists s, s1, s2.
  split; [exact Hs'|]. split; [exact Ho|]. split; [exact R1 | exact R2].
Defined.
