(* ===== verification/Kdebug.v ===== *)
(** * Debug information ([kern/kdebug.c], [inc/stab.h])

    The binary search in the table of stabs and the search for what is known about an
    instruction address.  The tables are in memory and are read through the MMU: a table
    outside the mapped memory is a kernel page fault. *)

From S2P Require Import Prelude Mem CString Mmu KState Pmap.

Definition N_FUN : Z := 0x24.
Definition N_SLINE : Z := 0x44.
Definition N_SO : Z := 0x64.
Definition N_SOL : Z := 0x84.
Definition N_PSYM : Z := 0xa0.
Definition USTABDATA : Z := PTSIZE / 2.

(** Fields of [stabs[i]], a [struct Stab] of twelve bytes. *)
Definition sizeof_Stab : Z := 12.
Definition n_strx (stabs i : Z) : K Z := vload32 (w32 (stabs + 12 * i)).
Definition n_type (stabs i : Z) : K Z := vload8 (w32 (stabs + 12 * i + 4)).
Definition n_desc (stabs i : Z) : K Z :=
  b0 ← vload8 (w32 (stabs + 12 * i + 6)); b1 ← vload8 (w32 (stabs + 12 * i + 7)); mret (b0 + 256 * b1).
Definition n_value (stabs i : Z) : K Z := vload32 (w32 (stabs + 12 * i + 8)).

(** The earliest entry of the type looking down from [m], or [l - 1]. *)
Definition stab_scan (stabs type l m : Z) : K Z :=
  kloop (Z.to_nat (m - l + 2)) (fun m =>
    if m >=? l then
      t ← n_type stabs m;
      if negb (t =? type) then mret (inl (m - 1)) else mret (inr m)
    else mret (inr m)) m.

Record search := mkSearch {
  s_l : Z; s_r : Z; s_addr : Z; s_any : bool;
  s_left : Z; s_right : Z      (* [*region_left] and [*region_right] *)
}.

Definition stab_step (stabs type : Z) (st : search) : K (search + search) :=
  let '(mkSearch l r addr any rl rr) := st in
  if l <=? r then
    let true_m := Z.quot (s32 (l + r)) 2 in
    m ← stab_scan stabs type l true_m;
    if m <? l then mret (inl (mkSearch (true_m + 1) r addr any rl rr))
    else
      v ← n_value stabs m;
      if v <? addr then mret (inl (mkSearch (true_m + 1) r addr true m rr))
      else
        v ← n_value stabs m;
        if v >? addr then mret (inl (mkSearch l (m - 1) addr true rl (m - 1)))
        else mret (inl (mkSearch m r (w32 (addr + 1)) true m rr))
  else mret (inr st).

(** Down from the right end to an entry of the type, but not below the left one. *)
Definition stab_rightmost (stabs type rl rr : Z) : K Z :=
  kloop (Z.to_nat (rr - rl + 1) + 1) (fun l =>
    if l >? rl then
      t ← n_type stabs l;
      if negb (t =? type) then mret (inl (l - 1)) else mret (inr l)
    else mret (inr l)) rr.

(** Two rounds for each entry of the region. *)
Definition search_fuel (l r : Z) : nat := Z.to_nat (2 * (r - l + 1) + 1) + 1.

(** Returns [*region_left] and [*region_right]. *)
Definition stab_binsearch (stabs region_left region_right type addr : Z) : K (Z * Z) :=
  st ← kloop (search_fuel region_left region_right) (stab_step stabs type)
         (mkSearch region_left region_right addr false region_left region_right);
  let '(mkSearch _ _ _ any rl rr) := st in
  if negb any then mret (rl, rl - 1)
  else
    l ← stab_rightmost stabs type rl rr;
    mret (l, rr).

(** ** [debuginfo_eip] *)

(** Linker symbols of the kernel's tables, and the literal ["<unknown>"]. *)
Class StabSection := {
  STAB_BEGIN : Z; STAB_END : Z; STABSTR_BEGIN : Z; STABSTR_END : Z;
  unknown_str : Z
}.

Record Eipdebuginfo := mkEip {
  eip_file : Z;         (* Source code filename for EIP *)
  eip_line : Z;
  eip_fn_name : Z;      (* not null terminated *)
  eip_fn_namelen : Z;
  eip_fn_addr : Z;
  eip_fn_narg : Z;
}.
#[export] Instance eta_Eipdebuginfo : Eta Eipdebuginfo := fun i =>
  mkEip (eip_file i) (eip_line i) (eip_fn_name i) (eip_fn_namelen i) (eip_fn_addr i) (eip_fn_narg i).

(** [strfind] through the MMU. *)
Definition vstrfind (s c : Z) : K Z :=
  kwhile (fun s =>
    b ← vload8 s;
    if negb (b =? 0) then
      b ← vload8 s;
      if b =? c then mret (inr s) else mret (inl (w32 (s + 1)))
    else mret (inr s)) s.

(** [stab_end - stabs] and [stabstr_end - stabstr]: differences of pointers. *)
Definition stab_diff (p q : Z) : Z := Z.quot (s32 (p - q)) sizeof_Stab.
Definition str_diff (p q : Z) : Z := s32 (p - q).

Section eip.
Context `{StabSection}.

(** The tables for [addr]: [stabs], [stab_end], [stabstr], [stabstr_end]; or none that may
    be read. *)
Definition stab_tables (addr : Z) : K (option (Z * Z * Z * Z)) :=
  if addr >=? ULIM then mret (Some (STAB_BEGIN, STAB_END, STABSTR_BEGIN, STABSTR_END))
  else
    c ← gets curenv;
    match c with
    | None => leave Undefined
    | Some c =>
        r ← user_mem_check c USTABDATA 16 PTE_U;
        if r <? 0 then mret None
        else
          stabs ← vload32 USTABDATA;
          stab_end ← vload32 (USTABDATA + 4);
          stabstr ← vload32 (USTABDATA + 8);
          stabstr_end ← vload32 (USTABDATA + 12);
          r ← user_mem_check c stabs (w32 (stab_diff stab_end stabs)) PTE_U;
          if r <? 0 then mret None
          else
            r ← user_mem_check c stabstr (w32 (str_diff stabstr_end stabstr)) PTE_U;
            if r <? 0 then mret None else mret (Some (stabs, stab_end, stabstr, stabstr_end))
    end.

(** The file a line belongs to: down to an [N_SOL], or an [N_SO] that has a value. *)
Definition file_line (stabs lfile lline : Z) : K Z :=
  kloop (Z.to_nat (lline - lfile + 2)) (fun lline =>
    if lline >=? lfile then
      t ← n_type stabs lline;
      if negb (t =? N_SOL) then
        t ← n_type stabs lline;
        stop ← (if negb (t =? N_SO) then mret false
                else v ← n_value stabs lline; mret (negb (v =? 0)));
        if (stop : bool) then mret (inr lline) else mret (inl (lline - 1))
      else mret (inr lline)
    else mret (inr lline)) lline.

(** The parameters that follow the function's entry. *)
Definition fn_narg (stabs lfun rfun : Z) : K Z :=
  if lfun <? rfun then
    kloop (Z.to_nat (rfun - lfun + 1)) (fun '(lline, narg) =>
      if lline <? rfun then
        t ← n_type stabs lline;
        if t =? N_PSYM then mret (inl (lline + 1, narg + 1)) else mret (inr narg)
      else mret (inr narg)) (lfun + 1, 0)
  else mret 0.

Definition debuginfo_eip (addr : Z) : K (Z * Eipdebuginfo) :=
  let info := mkEip unknown_str 0 unknown_str 9 addr 0 in
  tables ← stab_tables addr;
  match tables with
  | None => mret (-1, info)
  | Some (stabs, stab_end, stabstr, stabstr_end) =>
      bad ← (if stabstr_end <=? stabstr then mret true
             else b ← vload8 (w32 (stabstr_end - 1)); mret (negb (b =? 0)));
      if (bad : bool) then mret (-1, info)
      else
        '(lfile, rfile) ← stab_binsearch stabs 0 (stab_diff stab_end stabs - 1) N_SO addr;
        if lfile =? 0 then mret (-1, info)
        else
          '(lfun, rfun) ← stab_binsearch stabs lfile rfile N_FUN addr;
          '(info, addr, lline, rline) ←
            (if lfun <=? rfun then
               x ← n_strx stabs lfun;
               info ← (if x <? w32 (str_diff stabstr_end stabstr)
                       then x ← n_strx stabs lfun; mret (info <| eip_fn_name := w32 (stabstr + x) |>)
                       else mret info);
               v ← n_value stabs lfun;
               mret (info <| eip_fn_addr := v |>, w32 (addr - v), lfun, rfun)
             else mret (info <| eip_fn_addr := addr |>, addr, lfile, rfile));
          colon ← vstrfind (eip_fn_name info) 58;
          let info := info <| eip_fn_namelen := s32 (colon - eip_fn_name info) |> in
          '(lline, rline) ← stab_binsearch stabs lline rline N_SLINE addr;
          if lline <=? rline then
            d ← n_desc stabs lline;
            let info := info <| eip_line := d |> in
            lline ← file_line stabs lfile lline;
            info ← (if lline >=? lfile then
                      x ← n_strx stabs lline;
                      if x <? w32 (str_diff stabstr_end stabstr)
                      then x ← n_strx stabs lline; mret (info <| eip_file := w32 (stabstr + x) |>)
                      else mret info
                    else mret info);
            narg ← fn_narg stabs lfun rfun;
            mret (0, info <| eip_fn_narg := narg |>)
          else mret (-1, info)
  end.
End eip.
