(* ===== verification/KdebugThms.v ===== *)
(** * The search in the table of stabs

    [stab_binsearch] always ends, reads only entries of the region it was given, and
    brackets the address, or one it has gone on to, on tables in increasing order. *)

From S2P Require Import Prelude Mem CString Mmu KState Printf Pmap VmInv VmSpec VmLife Environ Sched Syscall Trap EnvInv EnvFree SchedSpec UserMem SysSpec Samples Kdebug.

(** Entries [lo] to [hi] of the table can be read and hold [ty] and [val]. *)
Definition readable (stabs : Z) (ty val : Z -> Z) (lo hi : Z) (s : kst) : Prop :=
  forall i, lo <= i <= hi -> n_type stabs i s = Ret (ty i) s /\ n_value stabs i s = Ret (val i) s.

Section search.
Context (stabs type : Z) (ty val : Z -> Z) (L R : Z) (s : kst).
Context (HL : 0 <= L) (HR : R < 2 ^ 30).
Context (Hread : readable stabs ty val L R s).

Definition is_match (k : Z) : Prop := L <= k <= R /\ ty k = type.

Lemma scan_run l m : L <= l -> m <= R -> l - 1 <= m ->
  wp (stab_scan stabs type l m) (fun m' s' => s' = s /\ l - 1 <= m' <= m /\
    (l <= m' -> ty m' = type) /\ forall k, m' < k <= m -> ty k <> type) (fun _ _ => False) s.
Proof.
  intros Hl Hm Hlm. unfold stab_scan.
  apply (wp_kloop _ (fun x s' => s' = s /\ l - 1 <= x <= m /\ forall k, x < k <= m -> ty k <> type)
    (fun x => Z.to_nat (x - l + 1))); [|split; [done|]; split; [lia | intros; lia] | lia].
  intros x s' (-> & Hx & Hno). destruct (Z.geb_spec x l) as [Hge | Hlt].
  - destruct (Hread x ltac:(lia)) as [Ht _]. apply wp_bind. apply (wp_run _ _ _ _ _ _ Ht).
    destruct (Z.eqb_spec (ty x) type) as [He | Hne]; apply wp_ret.
    + split; [done|]. split; [lia|]. split; [done | exact Hno].
    + split; [|lia]. split; [done|]. split; [lia|]. intros k Hk.
      destruct (decide (k = x)) as [-> | ?]; [done | apply Hno; lia].
  - apply wp_ret. split; [done|]. split; [lia|]. split; [lia | exact Hno].
Qed.

Lemma rightmost_run lo hi : L <= lo -> hi <= R -> 
  wp (stab_rightmost stabs type lo hi) (fun m s' => s' = s /\
    (hi <= lo -> m = hi) /\ (lo < hi -> lo <= m <= hi /\ (lo < m -> ty m = type) /\ forall k, m < k <= hi -> ty k <> type))
    (fun _ _ => False) s.
Proof.
  intros Hlo Hhi. unfold stab_rightmost.
  apply (wp_kloop _ (fun x s' => s' = s /\ x <= hi /\ (x = hi \/ lo <= x) /\ forall k, x < k <= hi -> ty k <> type)
    (fun x => Z.to_nat (x - lo))); [| split; [done|]; split; [lia|]; split; [by left | intros; lia] | lia].
  intros x s' (-> & Hx & Hor & Hno). rewrite Z.gtb_ltb. destruct (Z.ltb_spec lo x) as [Hlt | Hge].
  - destruct (Hread x ltac:(lia)) as [Ht _]. apply wp_bind. apply (wp_run _ _ _ _ _ _ Ht).
    destruct (Z.eqb_spec (ty x) type) as [He | Hne]; apply wp_ret.
    + split; [done|]. split; [intros; lia|]. intros _. split; [lia|]. split; [done | exact Hno].
    + split; [|lia]. split; [done|]. split; [lia|]. split; [right; lia|]. intros k Hk.
      destruct (decide (k = x)) as [-> | ?]; [done | apply Hno; lia].
  - apply wp_ret. split; [done|]. split; [intros; lia|]. intros ?. split; [lia|]. split; [lia | exact Hno].
Qed.

(** ** Termination, on any table *)

Definition mu (st : search) : nat :=
  Z.to_nat (2 * (s_r st - s_l st + 1) +
    if (ty (s_l st) =? type) && (val (s_l st) =? s_addr st) then 1 else 0).

Definition in_region (st : search) : Prop :=
  L <= s_l st /\ s_r st <= R /\ L <= s_left st /\ s_right st <= R.

Lemma half_between l r : 0 <= l -> l <= r -> r < 2 ^ 30 -> l <= Z.quot (s32 (l + r)) 2 <= r.
Proof. intros. rewrite s32_small by lia. rewrite Z.quot_div_nonneg by lia. zlia. Qed.

(** One round of the search, given what it finds. *)
Lemma step_run st Q : in_region st ->
  (s_r st < s_l st -> Q (inr st)) ->
  (forall t m, s_l st <= t <= s_r st -> s_l st - 1 <= m <= t -> (s_l st <= m -> ty m = type) ->
     (forall k, m < k <= t -> ty k <> type) ->
     (m < s_l st -> Q (inl (mkSearch (t + 1) (s_r st) (s_addr st) (s_any st) (s_left st) (s_right st)))) /\
     (s_l st <= m -> val m < s_addr st -> Q (inl (mkSearch (t + 1) (s_r st) (s_addr st) true m (s_right st)))) /\
     (s_l st <= m -> val m > s_addr st -> Q (inl (mkSearch (s_l st) (m - 1) (s_addr st) true (s_left st) (m - 1)))) /\
     (s_l st <= m -> val m = s_addr st -> Q (inl (mkSearch m (s_r st) (w32 (s_addr st + 1)) true m (s_right st))))) ->
  wp (stab_step stabs type st) (fun x s' => s' = s /\ Q x) (fun _ _ => False) s.
Proof.
  destruct st as [l r addr any lo hi]. unfold in_region. simpl. intros (Hl & Hr & Hlo & Hhi) Hdone Hgo.
  destruct (Z.leb_spec l r) as [Hle | Hgt]; [|apply wp_ret; split; [done | by apply Hdone]].
  pose proof (half_between l r ltac:(lia) Hle ltac:(lia)) as Ht. set (t := Z.quot _ _) in *.
  apply wp_bind. eapply wp_mono; [apply (scan_run l t); lia | | done].
  intros m s' (-> & Hm & Hty & Hno). cbv beta. destruct (Hgo t m Ht Hm Hty Hno) as (G1 & G2 & G3 & G4).
  destruct (Z.ltb_spec m l) as [Hml | Hml]; [apply wp_ret; auto|].
  destruct (Hread m ltac:(lia)) as [_ Hv]. apply wp_bind. apply (wp_run _ _ _ _ _ _ Hv).
  destruct (Z.ltb_spec (val m) addr); [apply wp_ret; auto|].
  apply wp_bind. apply (wp_run _ _ _ _ _ _ Hv). rewrite Z.gtb_ltb.
  destruct (Z.ltb_spec addr (val m)); apply wp_ret; split; try done; [apply G3 | apply G4]; lia.
Qed.

Lemma w32_succ_ne a : w32 (a + 1) <> a.
Proof. unfold w32. intros He. pose proof (Z.mod_pos_bound (a + 1) (2 ^ 32) ltac:(lia)). zlia. Qed.

Lemma mu_exact l r addr any lo hi m t any' lo' hi' :
  l <= m <= t -> t <= r -> ty m = type -> val m = addr ->
  (mu (mkSearch m r (w32 (addr + 1)) any' lo' hi') < mu (mkSearch l r addr any lo hi))%nat.
Proof.
  intros Hm Ht Hty Hv. unfold mu. simpl. pose proof (w32_succ_ne addr) as Hne.
  destruct (decide (m = l)) as [-> | ?].
  - rewrite Hty, Hv, !Z.eqb_refl. rewrite (proj2 (Z.eqb_neq addr (w32 (addr + 1)))) by congruence. simpl. lia.
  - repeat case_bool; lia.
Qed.
Lemma mu_shrink l r addr any lo hi l' r' addr' any' lo' hi' :
  l <= r -> l <= l' -> r' <= r -> r' - l' < r - l -> 
  (mu (mkSearch l' r' addr' any' lo' hi') < mu (mkSearch l r addr any lo hi))%nat.
Proof. intros. unfold mu. simpl. repeat case_bool; lia. Qed.

(** Every outcome of a round that looked down from [t] and stopped at [m] keeps [I]. *)
Definition round_keeps (I : search -> Prop) : Prop :=
  forall st t m, I st -> s_l st <= t <= s_r st -> s_l st - 1 <= m <= t -> (s_l st <= m -> ty m = type) ->
     (forall k, m < k <= t -> ty k <> type) ->
     (m < s_l st -> I (mkSearch (t + 1) (s_r st) (s_addr st) (s_any st) (s_left st) (s_right st))) /\
     (s_l st <= m -> val m < s_addr st -> I (mkSearch (t + 1) (s_r st) (s_addr st) true m (s_right st))) /\
     (s_l st <= m -> val m > s_addr st -> I (mkSearch (s_l st) (m - 1) (s_addr st) true (s_left st) (m - 1))) /\
     (s_l st <= m -> val m = s_addr st -> I (mkSearch m (s_r st) (w32 (s_addr st + 1)) true m (s_right st))).

(** The loop, for an invariant that every outcome of a round keeps. *)
Lemma loop_run (I : search -> Prop) addr :
  (forall st, I st -> in_region st) -> I (mkSearch L R addr false L R) ->
  round_keeps I ->
  wp (kloop (search_fuel L R) (stab_step stabs type) (mkSearch L R addr false L R))
    (fun st s' => s' = s /\ I st /\ s_r st < s_l st) (fun _ _ => False) s.
Proof.
  intros Hin H0 Hgo. apply (wp_kloop _ (fun st s' => s' = s /\ I st) mu); [|done|].
  2:{ unfold search_fuel, mu. simpl. case_bool; lia. }
  intros st s' [-> Hi]. destruct st as [l r a any lo hi] eqn:Est. rewrite <- Est in Hi.
  assert (Hst : wp (stab_step stabs type st) (fun x s' => s' = s /\ match x with
      | inl st' => I st' /\ (mu st' < mu st)%nat | inr st' => I st' /\ s_r st' < s_l st' end) (fun _ _ => False) s).
  { apply step_run; [by apply Hin | done |]. intros t m Ht Hm Hty Hno.
    destruct (Hgo st t m Hi Ht Hm Hty Hno) as (G1 & G2 & G3 & G4). rewrite Est in *. simpl in *.
    split; [|split; [|split]].
    - intros ?. split; [auto|]. apply mu_shrink; lia.
    - intros ? ?. split; [auto|]. apply mu_shrink; lia.
    - intros ? ?. split; [auto|]. apply mu_shrink; lia.
    - intros ? ?. split; [auto|]. eapply (mu_exact _ _ _ _ _ _ m t); try lia; auto. }
  rewrite Est in Hst. eapply wp_mono; [exact Hst | | done].
  intros [st' | st'] s' (-> & Hx & Hy); [|done]. split; [by split | exact Hy].
Qed.

(** The whole search, for such an invariant. *)
Lemma binsearch_run (I : search -> Prop) addr :
  (forall st, I st -> in_region st) -> I (mkSearch L R addr false L R) ->
  round_keeps I ->
  exists st lo hi, stab_binsearch stabs L R type addr s = Ret (lo, hi) s /\ I st /\ s_r st < s_l st /\
    if s_any st then hi = s_right st /\ (hi <= s_left st -> lo = hi) /\
        (s_left st < hi -> s_left st <= lo <= hi /\ (s_left st < lo -> ty lo = type) /\ forall k, lo < k <= hi -> ty k <> type)
    else lo = s_left st /\ hi = s_left st - 1.
Proof.
  intros Hin H0 Hgo. pose proof (loop_run I addr Hin H0 Hgo) as Hl. apply wp_elim in Hl as (st & s' & Hrun & -> & Hi & Hlt).
  exists st. unfold stab_binsearch. rewrite (bind_run _ _ _ _ _ Hrun).
  pose proof (Hin st Hi) as (_ & _ & Hlo & Hhi). destruct st as [l r a any lo hi]. simpl in *.
  destruct any; simpl.
  - pose proof (rightmost_run lo hi Hlo Hhi) as Hr. apply wp_elim in Hr as (x & s' & Hrun' & -> & H1 & H2).
    rewrite (bind_run _ _ _ _ _ Hrun'). by exists x, hi.
  - by exists lo, (lo - 1).
Qed.

(** ** What it finds *)

(** [lo] and [hi] bracket [addr]: [hi] ends just before the first entry of the type above
    [addr], or at the end of the region; [lo] is the last entry of the type up to there. *)
Definition bracket (addr lo hi : Z) : Prop :=
  ((forall k, ~ is_match k) -> lo = L /\ hi = L - 1) /\
  ((exists k, is_match k) ->
    L - 1 <= hi <= R /\ (hi = R \/ is_match (hi + 1) /\ addr < val (hi + 1)) /\
    (forall k, is_match k -> k <= hi -> val k <= addr) /\
    ((exists k, is_match k /\ k <= hi) -> is_match lo /\ lo <= hi /\ forall k, is_match k -> k <= hi -> k <= lo) /\
    ((forall k, is_match k -> hi < k) -> lo = Z.min L hi)).

Definition increasing : Prop := forall i j, is_match i -> is_match j -> i < j -> val i <= val j.

(** Every address from [addr] to [b] is that of an entry of the type. *)
Definition run (addr b : Z) : Prop := forall x, addr <= x <= b -> exists k, is_match k /\ val k = x.

(** The run that starts at [addr] stays below the last address, and no address of it after
    [addr] is that of two entries. *)
Definition clear_run (addr : Z) : Prop := forall i, is_match i -> run addr (val i) ->
  val i < 2 ^ 32 - 1 /\ (addr < val i -> forall j, is_match j -> i < j -> val j <> val i).

(** A state of the search for [addr], which has gone on to [b]. *)
Record found (addr b : Z) (st : search) : Prop := {
  fo_region : in_region st;
  fo_right : s_right st = s_r st /\ L - 1 <= s_r st;
  fo_left : s_left st = L \/ is_match (s_left st) /\ s_left st <= s_r st /\ val (s_left st) <= b;
  fo_none : s_any st = false -> s_left st = L /\ s_r st = R /\ forall k, is_match k -> s_l st <= k;
  fo_any : s_any st = true -> exists k, is_match k;
  fo_below : forall k, is_match k -> k < s_l st -> val k <= b;
  fo_above : forall k, is_match k -> s_r st < k -> b < val k;
  fo_end : s_r st = R \/ is_match (s_r st + 1);
  fo_addr : s_addr st = addr /\ b = addr \/ s_addr st = b + 1 /\ addr <= b /\ run addr b }.

Lemma run_succ addr b k : run addr b -> is_match k -> val k = b + 1 -> run addr (b + 1).
Proof.
  intros Hrun Hk Hv x Hx. destruct (decide (x = b + 1)) as [-> |]; [by exists k | apply Hrun; lia].
Qed.
Lemma run_self addr k : is_match k -> val k = addr -> run addr addr.
Proof. intros Hk Hv x Hx. exists k. split; [done | lia]. Qed.

Lemma found_keeps addr : L <= R + 1 -> 0 <= addr -> increasing -> clear_run addr ->
  round_keeps (fun st => exists b, found addr b st).
Proof.
  intros HLR Ha Hinc Hclr st t m [b [Hreg [Hr1 Hr2] Hleft Hnone Hany Hbel Habv Hend Hadr]] Ht Hm Hty Hno.
  destruct st as [l r a any lo hi]. unfold in_region in Hreg. simpl in *. subst hi.
  assert (Hlast : forall k, is_match k -> k <= t -> k <= m).
  { intros k [Hk1 Hk2] Hkt. destruct (Z.le_gt_cases k m); [done|]. by destruct (Hno k ltac:(lia)). }
  assert (Hmm : l <= m -> is_match m) by (intros Hlm; split; [lia | auto]).
  assert (Hle : forall k, is_match k -> is_match m -> k <= m -> val k <= val m).
  { intros k Hk Hmt Hkm. destruct (decide (k = m)) as [-> |]; [lia|]. apply Hinc; auto; lia. }
  assert (Hge : forall k, is_match k -> is_match m -> m <= k -> val m <= val k).
  { intros k Hk Hmt Hkm. destruct (decide (k = m)) as [-> |]; [lia|]. apply Hinc; auto; lia. }
  split; [|split; [|split]].
  - intros Hml. exists b. constructor; unfold in_region; simpl; try done; try lia.
    + intros Hf. destruct (Hnone Hf) as (? & ? & Hn). split; [done|]. split; [done|]. intros k Hk.
      specialize (Hn k Hk). destruct (Z.le_gt_cases k t); [|lia]. specialize (Hlast k Hk). lia.
    + intros k Hk Hkt. apply Hbel; [done|]. specialize (Hlast k Hk). lia.
  - intros Hml Hv. specialize (Hmm Hml).
    assert (Hva : val m <= b) by (destruct Hadr as [[-> ->] | [-> _]]; lia).
    exists b. constructor; unfold in_region; simpl; try done; try lia.
    + right. split; [done|]. lia.
    + eauto.
    + intros k Hk Hkt. specialize (Hle k Hk Hmm (Hlast k Hk ltac:(lia))). lia.
  - intros Hml Hv. specialize (Hmm Hml).
    assert (Hva : b < val m) by (destruct Hadr as [[-> ->] | [-> _]]; lia).
    exists b. constructor; unfold in_region; simpl; try done; try lia.
    + destruct Hleft as [-> | (Hlm & Hlr & Hlv)]; [by left|]. right. split; [done|]. split; [|done].
      destruct (Z.le_gt_cases m lo) as [Hx |]; [|lia]. specialize (Hge lo Hlm Hmm Hx). lia.
    + eauto.
    + intros k Hk Hkm. specialize (Hge k Hk Hmm ltac:(lia)). lia.
    + right. by rewrite Z.sub_add.
  - intros Hml Hv. specialize (Hmm Hml).
    assert (Hrn : addr <= a /\ run addr a).
    { destruct Hadr as [[-> _] | (-> & Hab & Hr)]; (split; [lia|]); [by apply (run_self addr m) | by apply (run_succ _ _ m)]. }
    destruct Hrn as [Haa Hrn]. rewrite <- Hv in Hrn. destruct (Hclr m Hmm Hrn) as [Hmax Hdup]. rewrite Hv in *.
    assert (Hba : b <= a) by (destruct Hadr as [[-> ->] | (-> & _)]; lia).
    rewrite (w32_small (a + 1)) by lia. exists a. constructor; unfold in_region; simpl; try done; try lia.
    + right. split; [done|]. lia.
    + eauto.
    + intros k Hk Hkm. specialize (Hle k Hk Hmm ltac:(lia)). lia.
    + intros k Hk Hkr. specialize (Habv k Hk Hkr). destruct Hadr as [[-> ->] | (-> & Hab & _)]; [done|].
      specialize (Hdup ltac:(lia) k Hk ltac:(lia)). lia.
    + by right.
Qed.

Lemma found_bracket addr b st lo hi : found addr b st -> s_r st < s_l st ->
  (if s_any st then hi = s_right st /\ (hi <= s_left st -> lo = hi) /\
     (s_left st < hi -> s_left st <= lo <= hi /\ (s_left st < lo -> ty lo = type) /\ forall k, lo < k <= hi -> ty k <> type)
   else lo = s_left st /\ hi = s_left st - 1) -> bracket b lo hi.
Proof.
  intros [Hreg [Hr1 Hr2] Hleft Hnone Hany Hbel Habv Hend Hadr] Hlt Hres.
  destruct st as [l r a any left right]. unfold in_region in Hreg. simpl in *. subst right. split.
  - intros Hno. destruct any; [by destruct (Hany eq_refl) as (k & ?%Hno)|].
    destruct (Hnone eq_refl) as (-> & _). lia.
  - intros [k0 Hk0]. destruct any.
    2:{ destruct (Hnone eq_refl) as (_ & -> & Hn). specialize (Hn k0 Hk0). destruct Hk0. lia. }
    destruct Hres as (-> & H1 & H2).
    split; [lia|]. split.
    { destruct Hend as [? | Hm]; [by left | right]. split; [done|]. apply Habv; [done | lia]. }
    split; [intros k Hk Hkr; apply Hbel; [done | lia]|]. split.
    + intros (k & Hk & Hkr). destruct (Z.lt_ge_cases left r) as [Hlr | Hge].
      * destruct (H2 Hlr) as (Hb & Hty & Hno).
        assert (Hup : forall k', is_match k' -> k' <= r -> k' <= lo).
        { intros k' [Hk1 Hk2] Hkr'. destruct (Z.le_gt_cases k' lo); [done|]. by destruct (Hno k' ltac:(lia)). }
        assert (Hml : is_match lo); [|split; [done | split; [lia | exact Hup]]].
        split; [lia|]. destruct (decide (lo = left)) as [-> |]; [|apply Hty; lia].
        destruct Hleft as [-> | ([_ ?] & _)]; [|done]. specialize (Hup k Hk Hkr). destruct Hk as [Hk1 Hk2].
        by replace L with k by lia.
      * rewrite (H1 Hge). destruct Hleft as [Hle | (Hml & Hlr & _)].
        -- assert (k = r) as <- by (destruct Hk; lia). split; [done|]. split; [lia | auto].
        -- replace r with left by lia. split; [done|]. split; [lia | auto].
    + intros Hno. destruct Hleft as [-> | (Hml & Hlr & _)]; [|specialize (Hno left Hml); lia].
      destruct (Z.lt_ge_cases L r) as [Hlr | Hge]; [|rewrite H1 by done; lia].
      destruct (H2 Hlr) as (Hb & Hty & Hn). destruct (decide (lo = L)) as [-> |]; [lia|].
      specialize (Hno lo ltac:(split; [lia | apply Hty; lia])). lia.
Qed.
End search.

(** C34. [stab_binsearch] on any readable region, in whatever order its entries are: it ends,
    reads nothing else, changes nothing, and the bounds it returns are in the region or
    just before it. *)
Theorem stab_binsearch_terminates stabs type ty val L R addr s :
  0 <= L -> R < 2 ^ 30 -> L <= R + 1 -> readable stabs ty val L R s ->
  exists lo hi, stab_binsearch stabs L R type addr s = Ret (lo, hi) s /\ L - 1 <= lo <= R + 1 /\ L - 1 <= hi <= R.
Proof.
  intros HL HR HLR Hread.
  destruct (binsearch_run stabs type ty val L R s HL HR Hread
    (fun st => in_region L R st /\ s_left st <= R + 1 /\ L - 1 <= s_right st) addr) as (st & lo & hi & Hrun & ([H1 H2] & H3) & Hlt & Hres).
  - by intros st [? _].
  - unfold in_region. simpl. lia.
  - intros st t m [[H1 H2] H3] Ht Hm Hty Hno. unfold in_region. simpl. repeat split; intros; lia.
  - exists lo, hi. split; [exact Hrun|]. unfold in_region in *. destruct (s_any st).
    + destruct Hres as (-> & Ha & Hb). destruct (Z.lt_ge_cases (s_left st) (s_right st)); [specialize (Hb ltac:(done)) | rewrite Ha by done]; lia.
    + destruct Hres as (-> & ->). lia.
Qed.

(** C35. [stab_binsearch] on entries in increasing order brackets an address [b], [addr] or a
    later one up to which every address has an entry: the right bound is just before the
    first entry of the type above [b], the left one the last entry up to there; when all
    entries are above it the left bound is where the region starts (and the interval is not
    empty, which the comment on the function says it would be).  So [b] is [addr] when
    [addr] or [addr + 1] is the address of no entry.  The addresses in a run of consecutive
    ones from [addr] on are below the last one, and those after [addr] are each that of one
    entry. *)
Theorem stab_binsearch_correct stabs type ty val L R addr s :
  0 <= L -> R < 2 ^ 30 -> L <= R + 1 -> readable stabs ty val L R s -> 0 <= addr ->
  increasing type ty val L R -> clear_run type ty val L R addr ->
  exists b lo hi, stab_binsearch stabs L R type addr s = Ret (lo, hi) s /\ bracket type ty val L R b lo hi /\
    addr <= b /\ (b = addr \/ run type ty val L R addr b).
Proof.
  intros HL HR HLR Hread Ha Hinc Hclr.
  destruct (binsearch_run stabs type ty val L R s HL HR Hread (fun st => exists b, found type ty val L R addr b st) addr)
    as (st & lo & hi & Hrun & [b Hf] & Hlt & Hres).
  - intros st [b [Hreg _ _ _ _ _ _ _ _]]. exact Hreg.
  - exists addr. constructor; unfold in_region; simpl; try lia; try done.
    + intros _. split; [done|]. split; [done|]. intros k [? _]. lia.
    + intros k [? _]. lia.
    + intros k [? _]. lia.
  - by apply found_keeps.
  - exists b, lo, hi. split; [exact Hrun|]. split; [by eapply found_bracket|].
    destruct (fo_addr _ _ _ _ _ _ _ _ Hf) as [[_ ->] | (_ & ? & ?)]; [|by auto].
    split; [lia | by left].
Qed.

(** ** Instances *)

(** A table read through the MMU, checked entry by entry. *)
Definition peek8 (s : kst) (va : Z) : option Z := (fun a => ld8 (mem s) a) <$> mmu_kva s va false.
Lemma vload8_peek s va v : peek8 s va = Some v -> vload8 va s = Ret v s.
Proof. unfold peek8, vload8. destruct (mmu_kva s va false); [|done]. by intros [= <-]. Qed.

Definition entry_ok (s : kst) (stabs t v i : Z) : bool :=
  let at_ o := peek8 s (w32 (w32 (stabs + 12 * i + 8) + o)) in
  bool_decide (peek8 s (w32 (stabs + 12 * i + 4)) = Some t) &&
  match peek8 s (w32 (stabs + 12 * i + 8)), at_ 1, at_ 2, at_ 3 with
  | Some b0, Some b1, Some b2, Some b3 => b0 + 256 * b1 + 65536 * b2 + 16777216 * b3 =? v
  | _, _, _, _ => false
  end.
Lemma entry_run s stabs t v i : entry_ok s stabs t v i = true ->
  n_type stabs i s = Ret t s /\ n_value stabs i s = Ret v s.
Proof.
  unfold entry_ok. intros [Ht Hv]%andb_true_iff. apply bool_decide_eq_true in Ht.
  split; [exact (vload8_peek _ _ _ Ht)|]. unfold n_value, vload32.
  destruct (peek8 s (w32 (stabs + 12 * i + 8))) as [b0|] eqn:E0; [|done].
  destruct (peek8 s (w32 (w32 (stabs + 12 * i + 8) + 1))) as [b1|] eqn:E1; [|done].
  destruct (peek8 s (w32 (w32 (stabs + 12 * i + 8) + 2))) as [b2|] eqn:E2; [|done].
  destruct (peek8 s (w32 (w32 (stabs + 12 * i + 8) + 3))) as [b3|] eqn:E3; [|done].
  rewrite (bind_run _ _ _ _ _ (vload8_peek _ _ _ E0)), (bind_run _ _ _ _ _ (vload8_peek _ _ _ E1)),
    (bind_run _ _ _ _ _ (vload8_peek _ _ _ E2)), (bind_run _ _ _ _ _ (vload8_peek _ _ _ E3)).
  apply Z.eqb_eq in Hv as <-. done.
Qed.
Lemma readable_check stabs ty val n s :
  forallb (fun i => entry_ok s stabs (ty i) (val i) i) (seqZ 0 n) = true -> readable stabs ty val 0 (n - 1) s.
Proof.
  intros Hall i Hi. apply entry_run. assert (Hr : 0 <= i < n) by lia. exact (forallb_seqZ _ n i Hall Hr).
Qed.

(** A table on the page of the sample: the types and values of its entries. *)
Definition stab_bytes (l : list (Z * Z)) : list Z :=
  '(t, v) ← l; [0; 0; 0; 0; t; 0; 0; 0; v mod 256; v / 256 mod 256; v / 65536 mod 256; v / 16777216 mod 256].
Definition nth_type (l : list (Z * Z)) (i : Z) : Z := fst (default (0, 0) (l !! Z.to_nat i)).
Definition nth_value (l : list (Z * Z)) (i : Z) : Z := snd (default (0, 0) (l !! Z.to_nat i)).
Definition stab_table (l : list (Z * Z)) : kst := sample_text 0 (stab_bytes l).

(** The source files of the comment on [stab_binsearch], with other entries between. *)
Definition sample_stabs : list (Z * Z) :=
  [(N_SO, 0xf0100000); (N_FUN, 0xf0100000); (N_SO, 0xf0100040); (N_SLINE, 0x10); (N_SO, 0xf0100176);
   (N_SO, 0xf0100178); (N_FUN, 0xf0100180); (N_SLINE, 4); (N_SO, 0xf0100652); (N_SO, 0xf0100654); (N_SO, 0xf0100849)].
Lemma sample_stabs_readable :
  readable 0x800000 (nth_type sample_stabs) (nth_value sample_stabs) 0 10 (stab_table sample_stabs).
Proof. apply (readable_check _ _ _ 11). vm_compute. reflexivity. Qed.

Lemma stab_binsearch_terminates_witness :
  exists lo hi, stab_binsearch 0x800000 0 10 N_SLINE 7 (stab_table sample_stabs) = Ret (lo, hi) (stab_table sample_stabs) /\
    0 - 1 <= lo <= 10 + 1 /\ 0 - 1 <= hi <= 10.
Proof.
  apply (stab_binsearch_terminates 0x800000 N_SLINE (nth_type sample_stabs) (nth_value sample_stabs) 0 10 7).
  - lia.
  - reflexivity.
  - lia.
  - exact sample_stabs_readable.
Defined.

(** Finite instances of the conditions. *)
Definition matches (type : Z) (l : list (Z * Z)) : list Z :=
  List.filter (fun i => nth_type l i =? type) (seqZ 0 (Z.of_nat (length l))).
Lemma matches_in type l k : is_match type (nth_type l) 0 (Z.of_nat (length l) - 1) k -> In k (matches type l).
Proof.
  intros [Hk Ht]. apply filter_In. split; [|by apply Z.eqb_eq]. apply list_elem_of_In, elem_of_seqZ. lia.
Qed.
Lemma increasing_check type l :
  forallb (fun i => forallb (fun j => (j <=? i) || (nth_value l i <=? nth_value l j)) (matches type l)) (matches type l) = true ->
  increasing type (nth_type l) (nth_value l) 0 (Z.of_nat (length l) - 1).
Proof.
  intros Hall i j Hi%matches_in Hj%matches_in Hij. rewrite forallb_forall in Hall. specialize (Hall i Hi).
  rewrite forallb_forall in Hall. specialize (Hall j Hj). apply orb_true_iff in Hall as [? | ?]; lia.
Qed.
Lemma clear_run_check type l addr :
  forallb (fun i => (nth_value l i <? 2 ^ 32 - 1) &&
    forallb (fun j => (j <=? i) || negb (nth_value l j =? nth_value l i)) (matches type l)) (matches type l) = true ->
  clear_run type (nth_type l) (nth_value l) 0 (Z.of_nat (length l) - 1) addr.
Proof.
  intros Hall i Hi%matches_in _. rewrite forallb_forall in Hall. specialize (Hall i Hi).
  apply andb_true_iff in Hall as [Hm Hall]. split; [lia|]. intros _ j Hj%matches_in Hij.
  rewrite forallb_forall in Hall. specialize (Hall j Hj). apply orb_true_iff in Hall as [? | H]; [lia|].
  by apply negb_true_iff, Z.eqb_neq in H.
Qed.

(** The example of the comment, and entries at consecutive addresses. *)
Lemma stab_binsearch_correct_witness :
  (exists b lo hi, stab_binsearch 0x800000 0 10 N_SO 0xf0100184 (stab_table sample_stabs) = Ret (lo, hi) (stab_table sample_stabs) /\
    bracket N_SO (nth_type sample_stabs) (nth_value sample_stabs) 0 10 b lo hi /\
    0xf0100184 <= b /\ (b = 0xf0100184 \/ run N_SO (nth_type sample_stabs) (nth_value sample_stabs) 0 10 0xf0100184 b)) /\
  let l := [(N_SLINE, 100); (N_SLINE, 101)] in
  exists b lo hi, stab_binsearch 0x800000 0 1 N_SLINE 100 (stab_table l) = Ret (lo, hi) (stab_table l) /\
    bracket N_SLINE (nth_type l) (nth_value l) 0 1 b lo hi /\
    100 <= b /\ (b = 100 \/ run N_SLINE (nth_type l) (nth_value l) 0 1 100 b).
Proof.
  split; [|intros l].
  - apply (stab_binsearch_correct 0x800000 N_SO (nth_type sample_stabs) (nth_value sample_stabs) 0 10 0xf0100184).
    + lia.
    + reflexivity.
    + lia.
    + exact sample_stabs_readable.
    + lia.
    + apply (increasing_check N_SO sample_stabs). vm_compute. reflexivity.
    + apply (clear_run_check N_SO sample_stabs). vm_compute. reflexivity.
  - apply (stab_binsearch_correct 0x800000 N_SLINE (nth_type l) (nth_value l) 0 1 100).
    + lia.
    + reflexivity.
    + lia.
    + apply (readable_check _ _ _ 2). vm_compute. reflexivity.
    + lia.
    + apply (increasing_check N_SLINE l). vm_compute. reflexivity.
    + apply (clear_run_check N_SLINE l). vm_compute. reflexivity.
Defined.

(** ** Two defects *)

(** With two entries of the type at consecutive addresses, the search for the first
    address, which an entry matches exactly, finds the second one: after the exact match it
    goes on with the address after it, and takes that for an exact match as well. *)
Theorem stab_binsearch_neighbour :
  let l := [(N_SLINE, 100); (N_SLINE, 101)] in
  readable 0x800000 (nth_type l) (nth_value l) 0 1 (stab_table l) /\
  increasing N_SLINE (nth_type l) (nth_value l) 0 1 /\
  returns (stab_binsearch 0x800000 0 1 N_SLINE 100 (stab_table l)) = Some (1, 1).
Proof.
  intros l. split; [apply (readable_check _ _ _ 2); vm_compute; reflexivity|].
  split; [apply (increasing_check N_SLINE l); vm_compute; reflexivity|].
  vm_compute. reflexivity.
Qed.

(** A user program whose table of stabs begins at the end of its last page: the structure at
    [USTABDATA] says it has five entries. *)
Definition sample_eip : kst :=
  let s := alloc_step USTABDATA sample_mapped in
  s <| mem := stbytes (mem s) (kva 6) (concat (map word_bytes [0x800FF4; 0x800FF4 + 60; 0x800000; 0x800001])) |>.
#[export] Instance sample_section : StabSection :=
  {| STAB_BEGIN := 0; STAB_END := 0; STABSTR_BEGIN := 0; STABSTR_END := 0; unknown_str := 0 |}.

Lemma sample_eip_in_kernel : exists rl, in_kernel sample_eip 0 [3; 2] rl.
Proof.
  destruct sample_mapped_in_kernel as [rl Hk].
  destruct (page_alloc_at sample_mapped 0 [3; 2] rl 0 2 USTABDATA 7 Hk) as (r & s' & rl' & Hrun & Hk' & _).
  - apply list_elem_of_In. by right; left.
  - vm_compute. reflexivity.
  - vm_compute. split; congruence.
  - vm_compute. split; congruence.
  - assert (Hs : alloc_step USTABDATA sample_mapped = s').
    { unfold alloc_step. assert (Hr : sys_page_alloc 0 USTABDATA 7 sample_mapped = Ret r s'); [|by rewrite Hr].
      rewrite <- Hrun. reflexivity. }
    exists rl'. rewrite <- Hs in Hk'. refine (in_kernel_data _ _ 0 [3; 2] rl' Hk' _).
    assert (H6 : rl' 6 = RUser).
    { apply (vi_user _ _ _ _ (si_vm _ _ _ (ik_sys _ _ _ _ Hk')) 2 (PDX USTABDATA) (PTX USTABDATA)).
      - apply list_elem_of_In. by right; left.
      - vm_compute. split; congruence.
      - vm_compute. split; congruence.
      - vm_compute. reflexivity. }
    intros q k Hq Hkr.
    pose proof (word_stbytes_out (mem (alloc_step USTABDATA sample_mapped)) 6 0
      (concat (map word_bytes [0x800FF4; 0x800FF4 + 60; 0x800000; 0x800001])) q k) as Hw.
    rewrite Z.add_0_r in Hw. apply Hw; [done | vm_compute; congruence | congruence | exact Hkr].
Qed.

(** [debuginfo_eip] checks the user's table of stabs as if its entries were one byte long:
    in a good state of the kernel, a table that starts at the end of the last mapped page
    passes the check of its five entries, and the search faults in the kernel on the
    sixty bytes that [user_mem_check] would have refused. *)
Theorem debuginfo_eip_overread :
  exists s rl, in_kernel s 0 [3; 2] rl /\
    returns (user_mem_check 0 0x800FF4 (w32 (stab_diff (0x800FF4 + 60) 0x800FF4)) PTE_U s) = Some 0 /\
    returns (user_mem_check 0 0x800FF4 60 PTE_U s) = Some (- E_FAULT) /\
    ends (debuginfo_eip 0x800020 s) = Some (KernelFault 0x801010).
Proof.
  destruct sample_eip_in_kernel as [rl Hk]. exists sample_eip, rl. split; [exact Hk|].
  split; [vm_compute; reflexivity|]. split; vm_compute; reflexivity.
Qed.
