(* ===== verification/E1000.v ===== *)
(** * The network card's rings ([kern/e1000.c])

    The driver and the card share two rings of descriptors with their packet buffers, and
    a register file.  The kernel runs one call of the driver at a time; the card works at
    any moment in between, so a call is a sequence of steps, one for each access to what
    they share.  What the card does is its documented behaviour: it owns the descriptors
    from head to tail, and none when they are equal. *)

From S2P Require Import Prelude KState.

Definition ETH_PKT_SIZE : Z := 1518.
Definition TX_BUF_SIZE : Z := 1536.
Definition NTXDESC : Z := 64.
Definition RX_BUF_SIZE : Z := 2048.
Definition NRXDESC : Z := 128.
Definition E_TX_FULL : Z := 16.
Definition E_PKT_TOO_LARGE : Z := 17.
Definition E_RX_EMPTY : Z := 18.

(** Registers, by offset. *)
Definition E1000_RCTL : Z := 0x100.
Definition E1000_TCTL : Z := 0x400.
Definition E1000_TIPG : Z := 0x410.
Definition E1000_RDBAL : Z := 0x2800.
Definition E1000_RDBAH : Z := 0x2804.
Definition E1000_RDLEN : Z := 0x2808.
Definition E1000_RDH : Z := 0x2810.
Definition E1000_RDT : Z := 0x2818.
Definition E1000_TDBAL : Z := 0x3800.
Definition E1000_TDBAH : Z := 0x3804.
Definition E1000_TDLEN : Z := 0x3808.
Definition E1000_TDH : Z := 0x3810.
Definition E1000_TDT : Z := 0x3818.
Definition E1000_RAL : Z := 0x5400.
Definition E1000_RAH : Z := 0x5404.

Definition E1000_TCTL_EN : Z := 0x2.
Definition E1000_TCTL_PSP : Z := 0x8.
Definition E1000_TCTL_CT : Z := 0xff0.
Definition E1000_TCTL_COLD : Z := 0x3ff000.
Definition E1000_CT_SHIFT : Z := 4.
Definition E1000_COLD_SHIFT : Z := 12.
Definition E1000_COLLISION_THRESHOLD : Z := 0x10.
Definition E1000_COLLISION_DISTANCE : Z := 0x40.
Definition E1000_TIPG_IPGT_MASK : Z := 0x3ff.
Definition E1000_TIPG_IPGR1_MASK : Z := 0xffc00.
Definition E1000_TIPG_IPGR2_MASK : Z := 0x3ff00000.
Definition E1000_TIPG_IPGR1_SHIFT : Z := 10.
Definition E1000_TIPG_IPGR2_SHIFT : Z := 20.
Definition E1000_DEFAULT_TIPG_IPGT : Z := 10.
Definition E1000_DEFAULT_TIPG_IPGR1 : Z := 4.
Definition E1000_DEFAULT_TIPG_IPGR2 : Z := 6.
Definition E1000_RCTL_EN : Z := 0x2.
Definition E1000_RCTL_LBM : Z := 0xc0.
Definition E1000_RCTL_RDMTS : Z := 0x300.
Definition E1000_RCTL_SZ : Z := 0x30000.
Definition E1000_RCTL_SECRC : Z := 0x4000000.
Definition E1000_RCTL_BSEX : Z := 0x2000000.
Definition E1000_RAH_AV : Z := 0x80000000.
Definition JOS_DEFAULT_MAC_LOW : Z := 0x12005452.
Definition JOS_DEFAULT_MAC_HIGH : Z := 0x5634.
Definition E1000_TXD_CMD_EOP : Z := 0x1.
Definition E1000_TXD_CMD_RS : Z := 0x8.
Definition E1000_TXD_STAT_DD : Z := 0x1.
Definition E1000_RXD_STAT_DD : Z := 0x1.

Record e1000_tx_desc := mkTx { tx_addr : Z; tx_length : Z; tx_cmd : Z; tx_status : Z }.
Record e1000_rx_desc := mkRx { rx_addr : Z; rx_length : Z; rx_status : Z }.
#[export] Instance tx_eta : Eta e1000_tx_desc := fun d => mkTx (tx_addr d) (tx_length d) (tx_cmd d) (tx_status d).
#[export] Instance rx_eta : Eta e1000_rx_desc := fun d => mkRx (rx_addr d) (rx_length d) (rx_status d).
#[export] Instance tx_inh : Inhabited e1000_tx_desc := populate (mkTx 0 0 0 0).
#[export] Instance rx_inh : Inhabited e1000_rx_desc := populate (mkRx 0 0 0).

(** [x & ~m] on 32 bits. *)
Definition clear_bits (x m : Z) : Z := Z.land x (0xFFFFFFFF - m).

(** A call of [e1000_transmit] or [e1000_receive]: where it is, its arguments and locals,
    and what the last call returned. *)
Inductive tpc := TIdle | TCheck | TStatus | TCopy | TLength | TCmd | TTail.
Record tcall := mkTcall { t_pc : tpc; t_buf : list Z; t_tail : Z; t_ret : option Z }.
Inductive rxpc := RxIdle | RxCheck | RxLength | RxCopy | RxStatus | RxTail.
Record rcall := mkRcall { rc_pc : rxpc; rc_size : Z; rc_next : Z; rc_length : Z; rc_buf : list Z; rc_ret : option Z }.
#[export] Instance tcall_eta : Eta tcall := fun t => mkTcall (t_pc t) (t_buf t) (t_tail t) (t_ret t).
#[export] Instance rcall_eta : Eta rcall :=
  fun r => mkRcall (rc_pc r) (rc_size r) (rc_next r) (rc_length r) (rc_buf r) (rc_ret r).

(** [accepted], [wire], [arrived] and [taken] are history: the packets the driver put in the
    ring, those the card sent, those the card stored, and those the driver returned. *)
Record nic := mkNic {
  regs : gmap Z Z;
  tx_queue : list e1000_tx_desc;
  tx_buf : list (list Z);
  rx_queue : list e1000_rx_desc;
  rx_buf : list (list Z);
  tcal : tcall;
  rcal : rcall;
  accepted : list (list Z);
  wire : list (list Z);
  arrived : list (list Z);
  taken : list (list Z)
}.
#[export] Instance nic_eta : Eta nic := fun s => mkNic (regs s) (tx_queue s) (tx_buf s) (rx_queue s) (rx_buf s)
  (tcal s) (rcal s) (accepted s) (wire s) (arrived s) (taken s).

(** A register never written reads as zero. *)
Definition reg (s : nic) (r : Z) : Z := default 0 (regs s !! r).
Definition set_reg (r v : Z) (s : nic) : nic := s <| regs := <[r := w32 v]> (regs s) |>.

(** ** Initialisation *)

(** Physical addresses of the driver's arrays. *)
Class E1000Section := { tx_queue_pa : Z; tx_buf_pa : Z; rx_queue_pa : Z; rx_buf_pa : Z }.

Section init.
Context `{E1000Section}.

Definition e1000_tx_init (s : nic) : nic :=
  let s := s <| tx_queue := map (fun i => mkTx (tx_buf_pa + i * TX_BUF_SIZE) 0 0 0) (seqZ 0 NTXDESC) |> in
  let s := set_reg E1000_TDBAL tx_queue_pa s in
  let s := set_reg E1000_TDBAH 0 s in
  let s := set_reg E1000_TDLEN (NTXDESC * 16) s in
  let s := set_reg E1000_TDH 0 s in
  let s := set_reg E1000_TDT 0 s in
  let s := set_reg E1000_TCTL (clear_bits (reg s E1000_TCTL) (Z.lor E1000_TCTL_CT E1000_TCTL_COLD)) s in
  let s := set_reg E1000_TCTL (Z.lor (reg s E1000_TCTL) (Z.lor (Z.lor (Z.lor E1000_TCTL_EN E1000_TCTL_PSP)
    (Z.shiftl E1000_COLLISION_THRESHOLD E1000_CT_SHIFT)) (Z.shiftl E1000_COLLISION_DISTANCE E1000_COLD_SHIFT))) s in
  let s := set_reg E1000_TIPG (clear_bits (reg s E1000_TIPG)
    (Z.lor (Z.lor E1000_TIPG_IPGT_MASK E1000_TIPG_IPGR1_MASK) E1000_TIPG_IPGR2_MASK)) s in
  set_reg E1000_TIPG (Z.lor (reg s E1000_TIPG) (Z.lor (Z.lor E1000_DEFAULT_TIPG_IPGT
    (Z.shiftl E1000_DEFAULT_TIPG_IPGR1 E1000_TIPG_IPGR1_SHIFT)) (Z.shiftl E1000_DEFAULT_TIPG_IPGR2 E1000_TIPG_IPGR2_SHIFT))) s.

Definition e1000_rx_init (s : nic) : nic :=
  let s := s <| rx_queue := map (fun i => mkRx (rx_buf_pa + i * RX_BUF_SIZE) 0 0) (seqZ 0 NRXDESC) |> in
  let s := set_reg E1000_RAL JOS_DEFAULT_MAC_LOW s in
  let s := set_reg E1000_RAH (Z.lor JOS_DEFAULT_MAC_HIGH E1000_RAH_AV) s in
  let s := set_reg E1000_RDBAL rx_queue_pa s in
  let s := set_reg E1000_RDBAH 0 s in
  let s := set_reg E1000_RDLEN (NRXDESC * 16) s in
  let s := set_reg E1000_RDH 0 s in
  let s := set_reg E1000_RDT (NRXDESC - 1) s in
  let s := set_reg E1000_RCTL (clear_bits (reg s E1000_RCTL)
    (Z.lor (Z.lor (Z.lor E1000_RCTL_LBM E1000_RCTL_RDMTS) E1000_RCTL_SZ) E1000_RCTL_BSEX)) s in
  set_reg E1000_RCTL (Z.lor (reg s E1000_RCTL) (Z.lor E1000_RCTL_EN E1000_RCTL_SECRC)) s.

(** After [e1000_attach]; the buffers are in the kernel's bss. *)
Definition attached (regs : gmap Z Z) : nic :=
  e1000_rx_init (e1000_tx_init (mkNic regs [] (repeat (repeat 0 (Z.to_nat TX_BUF_SIZE)) (Z.to_nat NTXDESC)) []
    (repeat (repeat 0 (Z.to_nat RX_BUF_SIZE)) (Z.to_nat NRXDESC))
    (mkTcall TIdle [] 0 None) (mkRcall RxIdle 0 0 0 [] None) [] [] [] [])).
End init.

(** ** The driver *)

Definition tx_at (s : nic) (i : Z) : e1000_tx_desc := tx_queue s !!! Z.to_nat i.
Definition rx_at (s : nic) (i : Z) : e1000_rx_desc := rx_queue s !!! Z.to_nat i.
Definition tx_put (i : Z) (f : e1000_tx_desc -> e1000_tx_desc) (s : nic) : nic :=
  s <| tx_queue := alter f (Z.to_nat i) (tx_queue s) |>.
Definition rx_put (i : Z) (f : e1000_rx_desc -> e1000_rx_desc) (s : nic) : nic :=
  s <| rx_queue := alter f (Z.to_nat i) (rx_queue s) |>.

(** [memmove] into a packet buffer. *)
Definition overwrite (data old : list Z) : list Z := data ++ drop (length data) old.

Definition t_goto (p : tpc) (s : nic) : nic := s <| tcal := tcal s <| t_pc := p |> |>.
Definition t_return (v : Z) (s : nic) : nic := s <| tcal := tcal s <| t_pc := TIdle |> <| t_ret := Some v |> |>.
Definition rc_goto (p : rxpc) (s : nic) : nic := s <| rcal := rcal s <| rc_pc := p |> |>.
Definition rc_return (v : Z) (s : nic) : nic := s <| rcal := rcal s <| rc_pc := RxIdle |> <| rc_ret := Some v |> |>.

(** The start of a call: the tail register is read, and the size checked. *)
Definition transmit_call (buf : list Z) (s : nic) : nic :=
  let s := s <| tcal := mkTcall TCheck buf (s32 (reg s E1000_TDT)) (t_ret (tcal s)) |> in
  if Z.of_nat (length buf) >? ETH_PKT_SIZE then t_return (- E_PKT_TOO_LARGE) s else s.

Definition e1000_transmit (s : nic) : nic :=
  let t := tcal s in
  let tail := t_tail t in
  match t_pc t with
  | TIdle => s
  | TCheck =>
      if has (tx_cmd (tx_at s tail)) E1000_TXD_CMD_RS && negb (has (tx_status (tx_at s tail)) E1000_TXD_STAT_DD)
      then t_return (- E_TX_FULL) s else t_goto TStatus s
  | TStatus => t_goto TCopy (tx_put tail (fun d => d <| tx_status := Z.land (tx_status d) (0xFF - E1000_TXD_STAT_DD) |>) s)
  | TCopy => t_goto TLength (s <| tx_buf := alter (overwrite (t_buf t)) (Z.to_nat tail) (tx_buf s) |>)
  | TLength => t_goto TCmd (tx_put tail (fun d => d <| tx_length := Z.of_nat (length (t_buf t)) mod 2 ^ 16 |>) s)
  | TCmd => t_goto TTail (tx_put tail (fun d => d <| tx_cmd := Z.lor (tx_cmd d) (Z.lor E1000_TXD_CMD_RS E1000_TXD_CMD_EOP) |>) s)
  | TTail => t_return 0 (set_reg E1000_TDT (Z.rem (tail + 1) NTXDESC) s <| accepted := accepted s ++ [t_buf t] |>)
  end.

Definition receive_call (size : Z) (s : nic) : nic :=
  s <| rcal := mkRcall RxCheck size (Z.rem (s32 (reg s E1000_RDT) + 1) NRXDESC) 0 [] (rc_ret (rcal s)) |>.

Definition e1000_receive (s : nic) : nic :=
  let r := rcal s in
  let next := rc_next r in
  match rc_pc r with
  | RxIdle => s
  | RxCheck => if negb (has (rx_status (rx_at s next)) E1000_RXD_STAT_DD) then rc_return (- E_RX_EMPTY) s else rc_goto RxLength s
  | RxLength =>
      let length := rx_length (rx_at s next) in
      if length >? s32 (rc_size r) then rc_return (- E_PKT_TOO_LARGE) s
      else s <| rcal := r <| rc_pc := RxCopy |> <| rc_length := length |> |>
  | RxCopy => s <| rcal := r <| rc_pc := RxStatus |> <| rc_buf := take (Z.to_nat (rc_length r)) (rx_buf s !!! Z.to_nat next) |> |>
  | RxStatus => rc_goto RxTail (rx_put next (fun d => d <| rx_status := Z.land (rx_status d) (0xFF - E1000_RXD_STAT_DD) |>) s)
  | RxTail => rc_return (rc_length r) (set_reg E1000_RDT next s <| taken := taken s ++ [rc_buf r] |>)
  end.

(** ** The card *)

(** Sends the packet of the descriptor at the head. *)
Definition card_send (s : nic) : nic :=
  let h := reg s E1000_TDH in
  if reg s E1000_TDH =? reg s E1000_TDT then s
  else
    let d := tx_at s h in
    let s := if has (tx_cmd d) E1000_TXD_CMD_RS
      then tx_put h (fun d => d <| tx_status := Z.lor (tx_status d) E1000_TXD_STAT_DD |>) s else s in
    set_reg E1000_TDH (Z.rem (h + 1) NTXDESC) s <| wire := wire s ++ [take (Z.to_nat (tx_length d)) (tx_buf s !!! Z.to_nat h)] |>.

(** Stores a packet from the network, or drops it when it has no descriptor. *)
Definition card_store (pkt : list Z) (s : nic) : nic :=
  let h := reg s E1000_RDH in
  if (reg s E1000_RDH =? reg s E1000_RDT) || (Z.of_nat (length pkt) >? RX_BUF_SIZE) then s
  else
    let s := s <| rx_buf := alter (overwrite pkt) (Z.to_nat h) (rx_buf s) |> in
    let s := rx_put h (fun d => d <| rx_length := Z.of_nat (length pkt) |> <| rx_status := Z.lor (rx_status d) E1000_RXD_STAT_DD |>) s in
    set_reg E1000_RDH (Z.rem (h + 1) NRXDESC) s <| arrived := arrived s ++ [pkt] |>.

(** What happens next: a call begins (when none of either is in progress, under the kernel's
    lock), goes on, or the card moves. *)
Inductive nic_event := Transmit (buf : list Z) | TGo | Receive (size : Z) | RGo | Send | Store (pkt : list Z).

Definition nstep (e : nic_event) (s : nic) : nic :=
  match e with
  | Transmit buf => match t_pc (tcal s), rc_pc (rcal s) with TIdle, RxIdle => transmit_call buf s | _, _ => s end
  | TGo => e1000_transmit s
  | Receive size => match t_pc (tcal s), rc_pc (rcal s) with TIdle, RxIdle => receive_call size s | _, _ => s end
  | RGo => e1000_receive s
  | Send => card_send s
  | Store pkt => card_store pkt s
  end.

Definition nrun (es : list nic_event) (s : nic) : nic := fold_left (fun s e => nstep e s) es s.
