(* ===== verification/E1000Thms.v ===== *)
(** * The network card's rings: the theorems ([kern/e1000.c])

    Whatever the interleaving of driver and card, packets go out and come in unchanged, in
    order, each once; and a transmit ring that was filled without the card moving never
    empties. *)

From S2P Require Import Prelude KState E1000.

(** The slot of packet number [k] in a ring of [n]. *)
Definition ring_slot (n k : nat) : nat := (k mod n)%nat.

Lemma ring_slot_lt n k : n <> 0%nat -> (ring_slot n k < n)%nat.
Proof. intros Hn. by apply Nat.mod_upper_bound. Qed.
Lemma ring_slot_inj n j k : (j < k < j + n)%nat -> ring_slot n j <> ring_slot n k.
Proof.
  unfold ring_slot. intros Hjk Heq. assert (Hn : n <> 0%nat) by lia.
  pose proof (Nat.div_mod_eq j n). pose proof (Nat.div_mod_eq k n). rewrite Heq in *.
  assert (Hd : (k - j = n * (k / n - j / n))%nat) by nia.
  destruct (k / n - j / n)%nat; nia.
Qed.
Lemma ring_slot_wrap n k : n <> 0%nat -> ring_slot n (k + n) = ring_slot n k.
Proof. intros Hn. unfold ring_slot. rewrite <- (Nat.mul_1_l n) at 1. by rewrite Nat.Div0.mod_add. Qed.
Lemma ring_slot_next n k : n <> 0%nat -> Z.rem (Z.of_nat (ring_slot n k) + 1) (Z.of_nat n) = Z.of_nat (ring_slot n (S k)).
Proof.
  intros Hn. rewrite Z.rem_mod_nonneg by lia. unfold ring_slot. rewrite !Nat2Z.inj_mod, Zplus_mod_idemp_l. f_equal. lia.
Qed.

#[local] Opaque ring_slot.

(** ** What each side owns *)

Definition has_rs (d : e1000_tx_desc) : bool := has (tx_cmd d) E1000_TXD_CMD_RS.
Definition tx_done (d : e1000_tx_desc) : bool := has (tx_status d) E1000_TXD_STAT_DD.
Definition rx_done (d : e1000_rx_desc) : bool := has (rx_status d) E1000_RXD_STAT_DD.

(** Packet [p] is in the buffer, [b]. *)
Definition holds (p b : list Z) : Prop := take (length p) b = p.

Definition tx_parts (s : nic) := (reg s E1000_TDH, reg s E1000_TDT, tx_queue s, tx_buf s, tcal s, accepted s, wire s).
Definition rx_parts (s : nic) := (reg s E1000_RDH, reg s E1000_RDT, rx_queue s, rx_buf s, rcal s, arrived s, taken s).

(** Slot [j] of the transmit ring carries the packet. *)
Definition tx_carries (s : nic) (j : nat) (p : list Z) : Prop := exists d b,
  tx_queue s !! j = Some d /\ tx_buf s !! j = Some b /\ has_rs d = true /\ tx_done d = false /\
  tx_length d = Z.of_nat (length p) /\ holds p b.

Definition nout (s : nic) : nat := length (accepted s).
Definition nsent (s : nic) : nat := length (wire s).

(** How far the descriptor at the tail is filled in. *)
Definition tx_filled (pc : tpc) (buf : list Z) (d : e1000_tx_desc) (b : list Z) : Prop :=
  match pc with
  | TIdle | TCheck | TStatus => True
  | TCopy => tx_done d = false
  | TLength => tx_done d = false /\ holds buf b
  | TCmd => tx_done d = false /\ holds buf b /\ tx_length d = Z.of_nat (length buf)
  | TTail => tx_done d = false /\ holds buf b /\ tx_length d = Z.of_nat (length buf) /\ has_rs d = true
  end.

Record tx_inv (s : nic) : Prop := {
  ti_len : length (tx_queue s) = 64%nat;
  ti_bufs : length (tx_buf s) = 64%nat;
  ti_head : reg s E1000_TDH = Z.of_nat (ring_slot 64 (nsent s));
  ti_tail : reg s E1000_TDT = Z.of_nat (ring_slot 64 (nout s));
  ti_order : (nsent s <= nout s <= nsent s + 64)%nat;
  ti_wire : wire s = take (nsent s) (accepted s);
  ti_pending : forall k p, (nsent s <= k)%nat -> accepted s !! k = Some p -> tx_carries s (ring_slot 64 k) p;
  ti_call : t_pc (tcal s) <> TIdle ->
    t_tail (tcal s) = Z.of_nat (ring_slot 64 (nout s)) /\ Z.of_nat (length (t_buf (tcal s))) <= ETH_PKT_SIZE /\
    (t_pc (tcal s) <> TCheck -> (nout s < nsent s + 64)%nat) /\
    (forall d b, tx_queue s !! ring_slot 64 (nout s) = Some d -> tx_buf s !! ring_slot 64 (nout s) = Some b ->
       tx_filled (t_pc (tcal s)) (t_buf (tcal s)) d b) }.

Lemma tx_inv_same s s' : tx_parts s' = tx_parts s -> tx_inv s -> tx_inv s'.
Proof.
  unfold tx_parts. intros E [H1 H2 H3 H4 H5 H6 H7 H8]. injection E as E1 E2 E3 E4 E5 E6 E7.
  constructor; unfold nout, nsent, tx_carries in *; rewrite ?E1, ?E2, ?E3, ?E4, ?E5, ?E6, ?E7; assumption.
Qed.

Lemma set_reg_eq r v s : 0 <= v < 2 ^ 32 -> reg (set_reg r v s) r = v.
Proof. intros Hv. unfold reg, set_reg. cbn. rewrite lookup_insert_eq. cbn. by apply w32_small. Qed.
Lemma set_reg_ne r r' v s : r <> r' -> reg (set_reg r v s) r' = reg s r'.
Proof. intros Hr. unfold reg, set_reg. cbn. by rewrite lookup_insert_ne. Qed.

Lemma holds_overwrite p b : holds p (overwrite p b).
Proof. unfold holds, overwrite. apply take_app_length. Qed.

Lemma slot64 k : 0 <= Z.of_nat (ring_slot 64 k) < 64.
Proof. pose proof (ring_slot_lt 64 k ltac:(lia)). lia. Qed.
Lemma slot128 k : 0 <= Z.of_nat (ring_slot 128 k) < 128.
Proof. pose proof (ring_slot_lt 128 k ltac:(lia)). lia. Qed.

(** The tail's slot carries no packet while there is room. *)
Lemma tail_free s k p : tx_inv s -> (nout s < nsent s + 64)%nat -> (nsent s <= k)%nat -> accepted s !! k = Some p ->
  ring_slot 64 k <> ring_slot 64 (nout s).
Proof. intros [] Hroom Hk Hp. apply lookup_lt_Some in Hp. apply ring_slot_inj. unfold nout in *. lia. Qed.

(** Changes of the descriptor or buffer at the tail, and of the locals of the call. *)
Lemma tx_inv_tail s s' f g : tx_inv s -> (nout s < nsent s + 64)%nat ->
  tx_parts s' = (reg s E1000_TDH, reg s E1000_TDT, alter f (ring_slot 64 (nout s)) (tx_queue s),
    alter g (ring_slot 64 (nout s)) (tx_buf s), tcal s', accepted s, wire s) ->
  t_tail (tcal s') = Z.of_nat (ring_slot 64 (nout s)) -> Z.of_nat (length (t_buf (tcal s'))) <= ETH_PKT_SIZE ->
  (forall d b, tx_queue s !! ring_slot 64 (nout s) = Some d -> tx_buf s !! ring_slot 64 (nout s) = Some b ->
     tx_filled (t_pc (tcal s')) (t_buf (tcal s')) (f d) (g b)) ->
  tx_inv s'.
Proof.
  intros Hs Hroom E Ht Hl Hf. pose proof Hs as [H1 H2 H3 H4 H5 H6 H7 H8]. unfold tx_parts in E. injection E as E1 E2 E3 E4 E6 E7.
  constructor; unfold nout, nsent in *; rewrite ?E1, ?E2, ?E3, ?E4, ?E6, ?E7, ?length_alter; try assumption.
  - intros k p Hk Hp. unfold tx_carries. rewrite E3, E4.
    rewrite !list_lookup_alter_ne by (apply not_eq_sym; by eapply tail_free). by apply H7.
  - intros _. split; [exact Ht|]. split; [exact Hl|]. split; [done|]. intros d b Hd Hb.
    rewrite list_lookup_alter_eq in Hd. rewrite list_lookup_alter_eq in Hb.
    apply fmap_Some in Hd as (d0 & Hd0 & ->). apply fmap_Some in Hb as (b0 & Hb0 & ->). by apply Hf.
Qed.

Lemma tx_inv_call s t : tx_inv s ->
  (t_pc t <> TIdle ->
    t_tail t = Z.of_nat (ring_slot 64 (nout s)) /\ Z.of_nat (length (t_buf t)) <= ETH_PKT_SIZE /\
    (t_pc t <> TCheck -> (nout s < nsent s + 64)%nat) /\
    (forall d b, tx_queue s !! ring_slot 64 (nout s) = Some d -> tx_buf s !! ring_slot 64 (nout s) = Some b ->
       tx_filled (t_pc t) (t_buf t) d b)) ->
  tx_inv (s <| tcal := t |>).
Proof. intros [H1 H2 H3 H4 H5 H6 H7 H8] Ht. constructor; assumption. Qed.

Lemma ring_lookup {A} (l : list A) n k : length l = n -> n <> 0%nat -> exists x, l !! ring_slot n k = Some x.
Proof. intros <- Hn. apply lookup_lt_is_Some_2, ring_slot_lt, Hn. Qed.

Lemma tx_at_slot s k d : tx_queue s !! ring_slot 64 k = Some d -> tx_at s (Z.of_nat (ring_slot 64 k)) = d.
Proof. intros Hd. unfold tx_at. rewrite Nat2Z.id. by apply list_lookup_total_correct. Qed.

(** A full ring's tail has a packet the card has not sent. *)
Lemma full_tail_busy s d : tx_inv s -> nout s = (nsent s + 64)%nat -> tx_queue s !! ring_slot 64 (nout s) = Some d ->
  has_rs d = true /\ tx_done d = false.
Proof.
  intros Hs Hfull Hd. assert (Hlt : (nsent s < length (accepted s))%nat) by (unfold nout in Hfull; lia).
  destruct (lookup_lt_is_Some_2 _ _ Hlt) as [p Hp].
  destruct (ti_pending _ Hs (nsent s) p ltac:(lia) Hp) as (d' & b & Hd' & _ & Hrs & Hdd & _).
  rewrite Hfull, ring_slot_wrap in Hd by lia. rewrite Hd in Hd'. injection Hd' as <-. done.
Qed.

Lemma clear_dd x : has (Z.land x (0xFF - E1000_TXD_STAT_DD)) E1000_TXD_STAT_DD = false.
Proof.
  unfold has. apply negb_false_iff, Z.eqb_eq. rewrite <- Z.land_assoc. change (Z.land (0xFF - E1000_TXD_STAT_DD) E1000_TXD_STAT_DD) with 0.
  apply Z.land_0_r.
Qed.
Lemma set_flag x f : f <> 0 -> has (Z.lor x f) f = true.
Proof.
  intros Hf. unfold has. apply negb_true_iff, Z.eqb_neq. rewrite Z.land_comm, Z.land_lor_distr_r, Z.land_diag.
  intros E. apply Z.lor_eq_0_iff in E as [_ E]. done.
Qed.

Lemma tx_parts_set_tail s v t a : 0 <= v < 2 ^ 32 ->
  tx_parts (set_reg E1000_TDT v s <| accepted := a |> <| tcal := t |>) =
  (reg s E1000_TDH, v, tx_queue s, tx_buf s, t, a, wire s).
Proof.
  intros Hv. unfold tx_parts.
  change (reg (set_reg E1000_TDT v s <| accepted := a |> <| tcal := t |>)) with (reg (set_reg E1000_TDT v s)).
  by rewrite set_reg_eq, set_reg_ne.
Qed.

Lemma transmit_keeps s : tx_inv s -> tx_inv (e1000_transmit s).
Proof.
  intros Hs. pose proof Hs as [H1 H2 H3 H4 H5 H6 H7 H8]. unfold e1000_transmit. cbv zeta.
  destruct (t_pc (tcal s)) eqn:Epc; [done| | | | | |]; destruct (H8 ltac:(discriminate)) as (Ht & Hl & Hroom & Hfill).
  1: { destruct (ring_lookup (tx_queue s) 64 (nout s) H1 ltac:(lia)) as [d Hd]. rewrite Ht, (tx_at_slot s (nout s) d Hd).
    destruct (has (tx_cmd d) E1000_TXD_CMD_RS && negb (has (tx_status d) E1000_TXD_STAT_DD)) eqn:Efull.
    - by apply tx_inv_call.
    - apply tx_inv_call; [done|]. cbn. intros _. split; [exact Ht|]. split; [exact Hl|]. split; [|done].
      intros _. destruct (decide (nout s = (nsent s + 64)%nat)) as [E|]; [|unfold nout, nsent in *; lia].
      destruct (full_tail_busy s d Hs E Hd) as [Hrs Hdd]. unfold has_rs, tx_done in *. by rewrite Hrs, Hdd in Efull. }
  all: specialize (Hroom ltac:(discriminate)).
  - apply (tx_inv_tail s _ (fun d => d <| tx_status := Z.land (tx_status d) (0xFF - E1000_TXD_STAT_DD) |>) (fun b => b)); try done.
    + unfold tx_parts, t_goto, tx_put. rewrite Ht, Nat2Z.id, (list_alter_id (fun b => b)) by done. reflexivity.
    + intros d b Hd Hb. apply clear_dd.
  - apply (tx_inv_tail s _ (fun d => d) (overwrite (t_buf (tcal s)))); try done.
    + unfold tx_parts, t_goto. rewrite Ht, Nat2Z.id, (list_alter_id (fun d => d)) by done. reflexivity.
    + intros d b Hd Hb. split; [exact (Hfill d b Hd Hb) | apply holds_overwrite].
  - apply (tx_inv_tail s _ (fun d => d <| tx_length := Z.of_nat (length (t_buf (tcal s))) mod 2 ^ 16 |>) (fun b => b)); try done.
    + unfold tx_parts, t_goto, tx_put. rewrite Ht, Nat2Z.id, (list_alter_id (fun b => b)) by done. reflexivity.
    + intros d b Hd Hb. destruct (Hfill d b Hd Hb) as [Hdd Hh]. split; [exact Hdd|]. split; [exact Hh|].
      change (Z.of_nat (length (t_buf (tcal s))) mod 2 ^ 16 = Z.of_nat (length (t_buf (tcal s)))).
      apply Z.mod_small. unfold ETH_PKT_SIZE in Hl. zpow. lia.
  - apply (tx_inv_tail s _ (fun d => d <| tx_cmd := Z.lor (tx_cmd d) (Z.lor E1000_TXD_CMD_RS E1000_TXD_CMD_EOP) |>) (fun b => b)); try done.
    + unfold tx_parts, t_goto, tx_put. rewrite Ht, Nat2Z.id, (list_alter_id (fun b => b)) by done. reflexivity.
    + intros d b Hd Hb. destruct (Hfill d b Hd Hb) as (Hdd & Hh & Hlen). split; [exact Hdd|]. split; [exact Hh|].
      split; [exact Hlen|]. unfold has_rs. cbn [tx_cmd upd eta tx_eta]. rewrite (Z.lor_comm E1000_TXD_CMD_RS), Z.lor_assoc.
      by apply set_flag.
  - set (n := nout s) in *. assert (Hrem : Z.rem (t_tail (tcal s) + 1) NTXDESC = Z.of_nat (ring_slot 64 (S n))).
    { rewrite Ht. exact (ring_slot_next 64 n ltac:(lia)). }
    unfold t_return. rewrite Hrem. pose proof (slot64 (S n)) as Hb.
    set (s' := set_reg E1000_TDT _ s <| accepted := accepted s ++ [t_buf (tcal s)] |> <| tcal := _ |>).
    assert (E : tx_parts s' = (reg s E1000_TDH, Z.of_nat (ring_slot 64 (S n)), tx_queue s, tx_buf s, tcal s', accepted s ++ [t_buf (tcal s)], wire s)).
    { apply tx_parts_set_tail. zpow. lia. }
    assert (Hidle : t_pc (tcal s') = TIdle) by done. clearbody s'.
    unfold tx_parts in E. injection E as E1 E2 E3 E4 E6 E7.
    assert (Hn : nout s' = S n) by (unfold nout; rewrite E6, length_app; cbn; unfold n, nout; lia).
    constructor; unfold nsent in *; rewrite ?E1, ?E2, ?E3, ?E4, ?E7; rewrite ?Hn; try done.
    + lia.
    + rewrite E6, take_app_le; [exact H6 | unfold n, nout in H5; lia].
    + intros k p Hk. rewrite E6. intros Hp. unfold tx_carries. rewrite E3, E4.
      apply lookup_app_Some in Hp as [Hp | [Hge Hp]]; [by apply H7|].
      apply list_lookup_singleton_Some in Hp as [Hk0 Hp0]. subst p.
      assert (k = n) as -> by (unfold n, nout in *; lia).
      destruct (ring_lookup (tx_queue s) 64 n H1 ltac:(lia)) as [d Hd]. destruct (ring_lookup (tx_buf s) 64 n H2 ltac:(lia)) as [b Hb'].
      destruct (Hfill d b Hd Hb') as (F1 & F2 & F3 & F4). exists d, b. done.
Qed.

Lemma transmit_call_keeps buf s : tx_inv s -> tx_inv (transmit_call buf s).
Proof.
  intros Hs. unfold transmit_call. cbv zeta.
  assert (Ht : s32 (reg s E1000_TDT) = Z.of_nat (ring_slot 64 (nout s))).
  { rewrite (ti_tail _ Hs). pose proof (slot64 (nout s)). apply s32_small. zpow. lia. }
  rewrite Ht. set (t := mkTcall TCheck buf (Z.of_nat (ring_slot 64 (nout s))) (t_ret (tcal s))).
  destruct (Z.gtb_spec (Z.of_nat (length buf)) ETH_PKT_SIZE) as [|Hle].
  - apply (tx_inv_call s (t <| t_pc := TIdle |> <| t_ret := Some (- E_PKT_TOO_LARGE) |>)); [exact Hs | done].
  - apply tx_inv_call; [exact Hs|]. done.
Qed.

(** The card sends the oldest packet in the ring, when it sees one. *)
Lemma card_send_keeps s : tx_inv s -> tx_inv (card_send s).
Proof.
  intros Hs. pose proof Hs as [H1 H2 H3 H4 H5 H6 H7 H8]. unfold card_send. cbv zeta.
  destruct (Z.eqb_spec (reg s E1000_TDH) (reg s E1000_TDT)) as [|Hne]; [done|]. rewrite H3, H4 in Hne. rewrite H3.
  assert (Hlt : (nsent s < nout s)%nat) by (destruct (decide (nsent s = nout s)) as [E|]; [by rewrite E in Hne | lia]).
  assert (Hroom : (nout s < nsent s + 64)%nat).
  { destruct (decide (nout s = (nsent s + 64)%nat)) as [E|]; [|lia]. by rewrite E, ring_slot_wrap in Hne. }
  destruct (lookup_lt_is_Some_2 (accepted s) (nsent s) Hlt) as [p Hp].
  destruct (H7 (nsent s) p ltac:(lia) Hp) as (d & b & Hd & Hb & Hrs & Hdd & Hl & Hh).
  rewrite (tx_at_slot s (nsent s) d Hd). unfold has_rs in Hrs. rewrite Hrs, Nat2Z.id.
  change (tx_buf (tx_put ?i ?f ?s)) with (tx_buf s). rewrite (list_lookup_total_correct _ _ _ Hb), Hl, Nat2Z.id, Hh.
  change NTXDESC with (Z.of_nat 64). rewrite (ring_slot_next 64 (nsent s)) by lia. pose proof (slot64 (S (nsent s))) as Hb64.
  set (s' := set_reg E1000_TDH _ _ <| wire := _ |>).
  assert (E : tx_parts s' = (Z.of_nat (ring_slot 64 (S (nsent s))), reg s E1000_TDT,
    alter (fun d => d <| tx_status := Z.lor (tx_status d) E1000_TXD_STAT_DD |>) (ring_slot 64 (nsent s)) (tx_queue s),
    tx_buf s, tcal s, accepted s, wire s ++ [p])).
  { unfold tx_parts, s'. change (reg (?x <| wire := ?w |>)) with (reg x). rewrite set_reg_eq, set_reg_ne by (done || (zpow; lia)).
    unfold tx_put. rewrite Nat2Z.id. reflexivity. }
  clearbody s'. unfold tx_parts in E. injection E as E1 E2 E3 E4 E5 E6 E7.
  assert (Hns : nsent s' = S (nsent s)) by (unfold nsent; rewrite E7, length_app; cbn; lia).
  assert (Hno : nout s' = nout s) by (unfold nout; by rewrite E6).
  constructor; rewrite ?Hns, ?Hno, ?E1, ?E2, ?E3, ?E4, ?E5, ?E6, ?E7, ?length_alter; try done.
  - lia.
  - rewrite H6 at 1. symmetry. by apply take_S_r.
  - intros k q Hk Hq. unfold tx_carries. rewrite E3, E4. pose proof (lookup_lt_Some _ _ _ Hq) as Hkl.
    rewrite list_lookup_alter_ne by (apply ring_slot_inj; unfold nout in *; lia). apply H7; [lia | done].
  - intros Hpc. destruct (H8 Hpc) as (F1 & F2 & F3 & F4). split; [done|]. split; [done|]. split; [intros Hc; specialize (F3 Hc); lia|].
    intros d' b'. rewrite list_lookup_alter_ne by (apply ring_slot_inj; lia). apply F4.
Qed.

(** ** Receiving *)

Definition nin (s : nic) : nat := length (arrived s).
Definition ntaken (s : nic) : nat := length (taken s).

(** Slot [j] of the receive ring has the packet. *)
Definition rx_carries (s : nic) (j : nat) (p : list Z) (done : bool -> Prop) : Prop := exists d b,
  rx_queue s !! j = Some d /\ rx_buf s !! j = Some b /\ rx_length d = Z.of_nat (length p) /\ holds p b /\ done (rx_done d).

(** What a call has read of the packet. *)
Definition rx_got (r : rcall) (p : list Z) : Prop :=
  match rc_pc r with
  | RxIdle | RxCheck | RxLength => True
  | RxCopy => rc_length r = Z.of_nat (length p)
  | RxStatus | RxTail => rc_length r = Z.of_nat (length p) /\ rc_buf r = p
  end.

Record rx_inv (s : nic) : Prop := {
  ri_len : length (rx_queue s) = 128%nat;
  ri_bufs : length (rx_buf s) = 128%nat;
  ri_head : reg s E1000_RDH = Z.of_nat (ring_slot 128 (nin s));
  ri_tail : reg s E1000_RDT = Z.of_nat (ring_slot 128 (ntaken s + 127));
  ri_order : (ntaken s <= nin s <= ntaken s + 127)%nat;
  ri_taken : taken s = take (ntaken s) (arrived s);
  ri_full : forall k p, (ntaken s <= k)%nat -> arrived s !! k = Some p ->
    rx_carries s (ring_slot 128 k) p (fun b => b = true \/ k = ntaken s /\ rc_pc (rcal s) = RxTail);
  ri_free : forall j d, rx_queue s !! j = Some d -> rx_done d = true ->
    exists k, (ntaken s <= k < nin s)%nat /\ j = ring_slot 128 k /\ (rc_pc (rcal s) = RxTail -> k <> ntaken s);
  ri_call : rc_pc (rcal s) <> RxIdle ->
    rc_next (rcal s) = Z.of_nat (ring_slot 128 (ntaken s)) /\
    (rc_pc (rcal s) <> RxCheck -> exists p, arrived s !! ntaken s = Some p /\ rx_got (rcal s) p) }.

Lemma rx_inv_same s s' : rx_parts s' = rx_parts s -> rx_inv s -> rx_inv s'.
Proof.
  unfold rx_parts. intros E [H1 H2 H3 H4 H5 H6 H7 H8 H9]. injection E as E1 E2 E3 E4 E5 E6 E7.
  constructor; unfold nin, ntaken, rx_carries in *; rewrite ?E1, ?E2, ?E3, ?E4, ?E5, ?E6, ?E7; assumption.
Qed.

(** Only the locals of the call change. *)
Lemma rx_inv_call s r : rx_inv s -> rc_pc (rcal s) <> RxTail -> rc_pc r <> RxTail ->
  (rc_pc r <> RxIdle -> rc_next r = Z.of_nat (ring_slot 128 (ntaken s)) /\
    (rc_pc r <> RxCheck -> exists p, arrived s !! ntaken s = Some p /\ rx_got r p)) ->
  rx_inv (s <| rcal := r |>).
Proof.
  intros [H1 H2 H3 H4 H5 H6 H7 H8 H9] Hpc Hpc' Hr. constructor; try assumption.
  - intros k p Hk Hp. destruct (H7 k p Hk Hp) as (d & b & F1 & F2 & F3 & F4 & F5). exists d, b.
    do 4 (split; [assumption|]). left. destruct F5 as [F5 | [_ F5]]; [exact F5 | done].
  - intros j d Hd Hdd. destruct (H8 j d Hd Hdd) as (k & Hk & Hj & _). by exists k.
Qed.

Lemma rx_at_slot s k d : rx_queue s !! ring_slot 128 k = Some d -> rx_at s (Z.of_nat (ring_slot 128 k)) = d.
Proof. intros Hd. unfold rx_at. rewrite Nat2Z.id. by apply list_lookup_total_correct. Qed.

Lemma receive_call_keeps size s : rx_inv s -> rc_pc (rcal s) = RxIdle -> rx_inv (receive_call size s).
Proof.
  intros Hs Hpc. apply rx_inv_call; [done | by rewrite Hpc | done|]. intros _. split; [|done]. cbn [rc_next].
  rewrite (ri_tail _ Hs). pose proof (slot128 (ntaken s + 127)). rewrite s32_small by (zpow; lia).
  change NRXDESC with (Z.of_nat 128). rewrite ring_slot_next by lia.
  replace (S (ntaken s + 127)) with (ntaken s + 128)%nat by lia. by rewrite ring_slot_wrap.
Qed.

Lemma receive_keeps s : rx_inv s -> rx_inv (e1000_receive s).
Proof.
  intros Hs. pose proof Hs as [H1 H2 H3 H4 H5 H6 H7 H8 H9]. unfold e1000_receive. cbv zeta.
  destruct (rc_pc (rcal s)) eqn:Epc; [done| | | | |]; destruct (H9 ltac:(discriminate)) as (Hn & Hgot); rewrite Hn.
  - destruct (ring_lookup (rx_queue s) 128 (ntaken s) H1 ltac:(lia)) as [d Hd]. rewrite (rx_at_slot s _ d Hd).
    fold (rx_done d). destruct (rx_done d) eqn:Edd; cbn [negb]; (apply rx_inv_call; [done | by rewrite Epc | done|]); [|done].
    cbn [rc_pc rc_next]. intros _. split; [exact Hn|]. intros _.
    destruct (H8 _ d Hd Edd) as (k & Hk & Hslot & _).
    assert (k = ntaken s) as ->.
    { destruct (decide (k = ntaken s)) as [|Hne]; [done|]. destruct (ring_slot_inj 128 (ntaken s) k); [lia | done]. }
    destruct (lookup_lt_is_Some_2 (arrived s) (ntaken s)) as [p Hp]; [unfold nin in Hk; lia|]. by exists p.
  - destruct (Hgot ltac:(discriminate)) as (p & Hp & _). destruct (H7 (ntaken s) p ltac:(lia) Hp) as (d & b & Hd & Hb & Hl & Hh & _).
    rewrite (rx_at_slot s _ d Hd). destruct (_ >? _).
    + apply rx_inv_call; [done | by rewrite Epc | done | done].
    + apply rx_inv_call; [done | by rewrite Epc | done|]. cbn [rc_pc rc_next]. intros _. split; [exact Hn|]. intros _. by exists p.
  - destruct (Hgot ltac:(discriminate)) as (p & Hp & Hlen). unfold rx_got in Hlen. rewrite Epc in Hlen.
    destruct (H7 (ntaken s) p ltac:(lia) Hp) as (d & b & Hd & Hb & Hl & Hh & _).
    rewrite Nat2Z.id, (list_lookup_total_correct _ _ _ Hb), Hlen, Nat2Z.id, Hh.
    apply rx_inv_call; [done | by rewrite Epc | done|]. cbn [rc_pc rc_next]. intros _. split; [exact Hn|]. intros _. exists p. split; [done|].
    split; [exact Hlen | done].
  - destruct (Hgot ltac:(discriminate)) as (p & Hp & Hrd). unfold rx_got in Hrd. rewrite Epc in Hrd.
    set (s' := rc_goto RxTail _).
    assert (E : rx_parts s' = (reg s E1000_RDH, reg s E1000_RDT,
      alter (fun d => d <| rx_status := Z.land (rx_status d) (0xFF - E1000_RXD_STAT_DD) |>) (ring_slot 128 (ntaken s)) (rx_queue s),
      rx_buf s, rcal s <| rc_pc := RxTail |>, arrived s, taken s)) by (unfold rx_parts, s', rx_put; by rewrite Nat2Z.id).
    clearbody s'. unfold rx_parts in E. injection E as E1 E2 E3 E4 E5 E6 E7.
    constructor; unfold nin, ntaken in *; rewrite ?E1, ?E2, ?E3, ?E4, ?E5, ?E6, ?E7, ?length_alter; try done.
    + intros k q Hk Hq. destruct (H7 k q Hk Hq) as (d & b & F1 & F2 & F3 & F4 & F5). unfold rx_carries. rewrite E3, E4.
      destruct (decide (k = length (taken s))) as [-> | Hne].
      * eexists _, b. split; [rewrite list_lookup_alter_eq, F1; reflexivity|]. split; [done|]. split; [done|]. split; [done|].
        right. by split.
      * rewrite list_lookup_alter_ne; [|apply ring_slot_inj; pose proof (lookup_lt_Some _ _ _ Hq); lia].
        exists d, b. do 4 (split; [assumption|]). left. destruct F5 as [F5 | [F5 _]]; [exact F5 | done].
    + intros j d. destruct (decide (ring_slot 128 (length (taken s)) = j)) as [<- | Hne].
      * rewrite list_lookup_alter_eq. intros (d0 & _ & ->)%fmap_Some Hdd. exfalso. unfold rx_done in Hdd.
        cbn [rx_status upd eta rx_eta] in Hdd. pose proof (clear_dd (rx_status d0)) as Hc. change E1000_TXD_STAT_DD with E1000_RXD_STAT_DD in Hc.
        by rewrite Hc in Hdd.
      * rewrite list_lookup_alter_ne by done. intros Hd Hdd. destruct (H8 j d Hd Hdd) as (k & Hk & Hj & _). exists k.
        split; [done|]. split; [done|]. intros _ ->. by apply Hne.
    + intros _. split; [exact Hn|]. intros _. exists p. split; [done|]. exact Hrd.
  - destruct (Hgot ltac:(discriminate)) as (p & Hp & Hrd). unfold rx_got in Hrd. rewrite Epc in Hrd. destruct Hrd as [Hrl Hrb].
    pose proof (slot128 (ntaken s)) as Hb. rewrite Hrb. unfold rc_return.
    set (s' := set_reg E1000_RDT _ s <| taken := taken s ++ [p] |> <| rcal := _ |>).
    assert (E : rx_parts s' = (reg s E1000_RDH, Z.of_nat (ring_slot 128 (ntaken s)), rx_queue s, rx_buf s, rcal s', arrived s, taken s ++ [p])).
    { unfold rx_parts, s'. change (reg (?x <| taken := ?t |> <| rcal := ?c |>)) with (reg x).
      rewrite set_reg_eq, set_reg_ne by (done || (zpow; lia)). reflexivity. }
    assert (Hidle : rc_pc (rcal s') = RxIdle) by done. clearbody s'.
    unfold rx_parts in E. injection E as E1 E2 E3 E4 E6 E7.
    assert (Hnt : ntaken s' = S (ntaken s)) by (unfold ntaken; rewrite E7, length_app; cbn; lia).
    assert (Hni : nin s' = nin s) by (unfold nin; by rewrite E6).
    assert (Hlt : (ntaken s < nin s)%nat) by (unfold nin; by apply lookup_lt_Some in Hp).
    constructor; rewrite ?Hnt, ?Hni, ?E1, ?E2, ?E3, ?E4, ?E6, ?E7; try done.
    + replace (S (ntaken s) + 127)%nat with (ntaken s + 128)%nat by lia. by rewrite ring_slot_wrap.
    + lia.
    + rewrite H6 at 1. symmetry. by apply take_S_r.
    + intros k q Hk Hq. destruct (H7 k q ltac:(lia) Hq) as (d & b & F1 & F2 & F3 & F4 & F5). unfold rx_carries. rewrite E3, E4.
      exists d, b. do 4 (split; [assumption|]). left. destruct F5 as [F5 | [F5 _]]; [exact F5 | lia].
    + intros j d Hd Hdd. destruct (H8 j d Hd Hdd) as (k & Hk & Hj & Hne). exists k. specialize (Hne eq_refl). split; [lia|].
      split; [done|]. rewrite Hidle. done.
Qed.

Lemma card_store_keeps pkt s : rx_inv s -> rx_inv (card_store pkt s).
Proof.
  intros Hs. pose proof Hs as [H1 H2 H3 H4 H5 H6 H7 H8 H9]. unfold card_store. cbv zeta.
  destruct (Z.eqb_spec (reg s E1000_RDH) (reg s E1000_RDT)) as [|Hne]; [done|]. rewrite H3, H4 in Hne. cbn [orb].
  destruct (_ >? RX_BUF_SIZE); [done|]. rewrite H3.
  assert (Hroom : (nin s < ntaken s + 127)%nat) by (destruct (decide (nin s = ntaken s + 127)%nat) as [E|]; [by rewrite E in Hne | lia]).
  change NRXDESC with (Z.of_nat 128). rewrite (ring_slot_next 128 (nin s)) by lia. pose proof (slot128 (S (nin s))) as Hb.
  set (s' := set_reg E1000_RDH _ _ <| arrived := _ |>).
  set (f := fun d => d <| rx_length := Z.of_nat (length pkt) |> <| rx_status := Z.lor (rx_status d) E1000_RXD_STAT_DD |>).
  assert (E : rx_parts s' = (Z.of_nat (ring_slot 128 (S (nin s))), reg s E1000_RDT, alter f (ring_slot 128 (nin s)) (rx_queue s),
    alter (overwrite pkt) (ring_slot 128 (nin s)) (rx_buf s), rcal s, arrived s ++ [pkt], taken s)).
  { unfold rx_parts, s'. change (reg (?x <| arrived := ?w |>)) with (reg x). rewrite set_reg_eq, set_reg_ne by (done || (zpow; lia)).
    unfold rx_put. rewrite Nat2Z.id. reflexivity. }
  clearbody s'. unfold rx_parts in E. injection E as E1 E2 E3 E4 E5 E6 E7.
  assert (Hni : nin s' = S (nin s)) by (unfold nin; rewrite E6, length_app; cbn; lia).
  assert (Hnt : ntaken s' = ntaken s) by (unfold ntaken; by rewrite E7).
  assert (Hother : forall k, (ntaken s <= k < nin s)%nat -> ring_slot 128 (nin s) <> ring_slot 128 k).
  { intros k Hk. apply not_eq_sym, ring_slot_inj. lia. }
  constructor; rewrite ?Hni, ?Hnt, ?E1, ?E2, ?E3, ?E4, ?E5, ?E6, ?E7, ?length_alter; try done.
  - lia.
  - rewrite take_app_le; [exact H6 | unfold nin in H5; lia].
  - intros k p Hk Hp. unfold rx_carries. rewrite E3, E4. apply lookup_app_Some in Hp as [Hp | [Hge Hp]].
    + pose proof (lookup_lt_Some _ _ _ Hp). rewrite !list_lookup_alter_ne by (apply Hother; unfold nin; lia). by apply H7.
    + apply list_lookup_singleton_Some in Hp as [Hk0 Hp0]. subst p.
      assert (k = nin s) as -> by (unfold nin in *; lia).
      destruct (ring_lookup (rx_queue s) 128 (nin s) H1 ltac:(lia)) as [d Hd]. destruct (ring_lookup (rx_buf s) 128 (nin s) H2 ltac:(lia)) as [b Hb'].
      exists (f d), (overwrite pkt b). rewrite !list_lookup_alter_eq, Hd, Hb'. split; [done|]. split; [done|]. split; [done|].
      split; [apply holds_overwrite|]. left. by apply set_flag.
  - intros j d. destruct (decide (ring_slot 128 (nin s) = j)) as [<- | Hj].
    + intros _ _. exists (nin s). split; [lia|]. split; [done|]. intros Hpc E.
      destruct (H9 ltac:(by rewrite Hpc)) as [_ Hgot]. destruct (Hgot ltac:(by rewrite Hpc)) as (p & Hp & _).
      apply lookup_lt_Some in Hp. unfold nin in E. lia.
    + rewrite list_lookup_alter_ne by done. intros Hd Hdd. destruct (H8 j d Hd Hdd) as (k & Hk & Hjk & Hpc). exists k. split; [lia | done].
  - intros Hpc. destruct (H9 Hpc) as [F1 F2]. split; [done|]. intros Hc. destruct (F2 Hc) as (p & Hp & Hg). exists p.
    split; [|done]. by apply lookup_app_l_Some.
Qed.

(** ** Both rings, and every event *)

Lemma tx_parts_reg r v s : r <> E1000_TDH -> r <> E1000_TDT -> tx_parts (set_reg r v s) = tx_parts s.
Proof. intros H1 H2. unfold tx_parts. by rewrite !set_reg_ne. Qed.
Lemma rx_parts_reg r v s : r <> E1000_RDH -> r <> E1000_RDT -> rx_parts (set_reg r v s) = rx_parts s.
Proof. intros H1 H2. unfold rx_parts. by rewrite !set_reg_ne. Qed.

Lemma receive_tx s : tx_parts (e1000_receive s) = tx_parts s.
Proof.
  unfold e1000_receive. cbv zeta. destruct (rc_pc (rcal s)); try done; [by case_match..|].
  exact (tx_parts_reg E1000_RDT (rc_next (rcal s)) s ltac:(done) ltac:(done)).
Qed.
Lemma store_tx pkt s : tx_parts (card_store pkt s) = tx_parts s.
Proof.
  unfold card_store. cbv zeta. case_match; [done|].
  exact (tx_parts_reg E1000_RDH (Z.rem (reg s E1000_RDH + 1) NRXDESC) s ltac:(done) ltac:(done)).
Qed.
Lemma transmit_rx s : rx_parts (e1000_transmit s) = rx_parts s.
Proof.
  unfold e1000_transmit. cbv zeta. destruct (t_pc (tcal s)); try done; [by case_match|].
  exact (rx_parts_reg E1000_TDT (Z.rem (t_tail (tcal s) + 1) NTXDESC) s ltac:(done) ltac:(done)).
Qed.
Lemma transmit_call_rx buf s : rx_parts (transmit_call buf s) = rx_parts s.
Proof. unfold transmit_call. cbv zeta. by case_match. Qed.
Lemma send_rx s : rx_parts (card_send s) = rx_parts s.
Proof.
  unfold card_send. cbv zeta. case_match; [done|].
  case_match; exact (rx_parts_reg E1000_TDH (Z.rem (reg s E1000_TDH + 1) NTXDESC) s ltac:(done) ltac:(done)).
Qed.

Definition nic_inv (s : nic) : Prop := tx_inv s /\ rx_inv s.

Lemma nstep_keeps e s : nic_inv s -> nic_inv (nstep e s).
Proof.
  intros [Ht Hr]. destruct e; cbn [nstep].
  - destruct (t_pc (tcal s)); [|done..]. destruct (rc_pc (rcal s)); [|done..].
    split; [by apply transmit_call_keeps | by apply (rx_inv_same s), Hr; apply transmit_call_rx].
  - split; [by apply transmit_keeps | apply (rx_inv_same s); [apply transmit_rx | done]].
  - destruct (t_pc (tcal s)); [|done..]. destruct (rc_pc (rcal s)) eqn:E; [|done..].
    split; [by apply (tx_inv_same s) | by apply receive_call_keeps].
  - split; [apply (tx_inv_same s); [apply receive_tx | done] | by apply receive_keeps].
  - split; [by apply card_send_keeps | apply (rx_inv_same s); [apply send_rx | done]].
  - split; [apply (tx_inv_same s); [apply store_tx | done] | by apply card_store_keeps].
Qed.

Lemma nrun_keeps es s : nic_inv s -> nic_inv (nrun es s).
Proof. revert s. induction es as [|e es IH]; intros s Hs; [done|]. by apply IH, nstep_keeps. Qed.

Section attached.
Context `{E1000Section}.

Lemma attached_regs r0 : reg (attached r0) E1000_TDH = 0 /\ reg (attached r0) E1000_TDT = 0 /\
  reg (attached r0) E1000_RDH = 0 /\ reg (attached r0) E1000_RDT = 127.
Proof.
  unfold attached, e1000_rx_init, e1000_tx_init. cbv zeta.
  repeat split; repeat (first [rewrite set_reg_eq by done | rewrite set_reg_ne by discriminate];
    try change (reg (?s <| rx_queue := ?q |>)) with (reg s)); reflexivity.
Qed.

Lemma attached_inv r0 : nic_inv (attached r0).
Proof.
  destruct (attached_regs r0) as (R1 & R2 & R3 & R4). split; constructor.
  all: try (rewrite ?R1, ?R2, ?R3, ?R4; vm_compute; reflexivity).
  all: try (cbn; lia).
  - intros k p _ Hp. cbn in Hp. by rewrite lookup_nil in Hp.
  - done.
  - intros k p _ Hp. cbn in Hp. by rewrite lookup_nil in Hp.
  - intros j d Hd. change (rx_queue (attached r0)) with ((fun i => mkRx (rx_buf_pa + i * RX_BUF_SIZE) 0 0) <$> seqZ 0 NRXDESC) in Hd.
    apply list_lookup_fmap_Some in Hd as (i & -> & _). done.
  - done.
Qed.
End attached.

(** ** A ring that filled up *)

Lemma nstep_full e s : nic_inv s -> nout s = (nsent s + 64)%nat ->
  let s' := nstep e s in accepted s' = accepted s /\ wire s' = wire s /\
  (t_ret (tcal s') = t_ret (tcal s) \/ t_ret (tcal s') = Some (- E_TX_FULL) \/ t_ret (tcal s') = Some (- E_PKT_TOO_LARGE)).
Proof.
  intros [Ht Hr] Hfull s'. unfold s'. destruct e; cbn [nstep].
  - destruct (t_pc (tcal s)); [|by auto..]. destruct (rc_pc (rcal s)); [|by auto..].
    unfold transmit_call. cbv zeta. destruct (_ >? _); cbn; auto.
  - unfold e1000_transmit. cbv zeta. destruct (t_pc (tcal s)) eqn:Epc; [by auto| | | | | |].
    all: destruct (ti_call _ Ht ltac:(by rewrite Epc)) as (Htail & _ & Hroom & _).
    2-6: rewrite Epc in Hroom; specialize (Hroom ltac:(discriminate)); lia.
    destruct (ring_lookup (tx_queue s) 64 (nout s) (ti_len _ Ht) ltac:(lia)) as [d Hd].
    destruct (full_tail_busy s d Ht Hfull Hd) as [Hrs Hdd]. unfold has_rs, tx_done in *.
    rewrite Htail, (tx_at_slot s _ d Hd), Hrs, Hdd. cbn. auto.
  - destruct (t_pc (tcal s)); [|by auto..]. destruct (rc_pc (rcal s)); by auto.
  - pose proof (receive_tx s) as E. unfold tx_parts in E. injection E as _ _ _ _ E5 E6 E7. rewrite E5, E6, E7. auto.
  - unfold card_send. cbv zeta. rewrite (ti_head _ Ht), (ti_tail _ Ht), Hfull, ring_slot_wrap, Z.eqb_refl by lia. auto.
  - pose proof (store_tx pkt s) as E. unfold tx_parts in E. injection E as _ _ _ _ E5 E6 E7. rewrite E5, E6, E7. auto.
Qed.

(** ** Properties *)

(** C9. The driver and the card keep both rings straight: whatever the order in which calls of
    the driver, one memory access at a time, and the card's moves follow each other after
    [e1000_attach], the packets sent are the packets accepted by [e1000_transmit], unchanged
    and in order, with at most 64 still to go out; and the packets [e1000_receive] returned
    are those that arrived, unchanged and in order, with at most 127 waiting. *)
Theorem e1000_rings_correct `{E1000Section} r0 es :
  let s := nrun es (attached r0) in
  wire s = take (length (wire s)) (accepted s) /\ (length (wire s) <= length (accepted s) <= length (wire s) + 64)%nat /\
  taken s = take (length (taken s)) (arrived s) /\ (length (taken s) <= length (arrived s) <= length (taken s) + 127)%nat.
Proof.
  intros s. destruct (nrun_keeps es _ (attached_inv r0)) as [Ht Hr]. fold s in Ht, Hr.
  split; [exact (ti_wire _ Ht)|]. split; [exact (ti_order _ Ht)|]. split; [exact (ri_taken _ Hr) | exact (ri_order _ Hr)].
Qed.

(** The transmit ring can be filled to the last descriptor, and then the tail is equal to
    the head, which tells the card that there is nothing to send: from then on, whatever
    happens, no packet ever goes out, none is accepted, and every call that ends returns
    [-E_TX_FULL] (or [-E_PKT_TOO_LARGE]). *)
Theorem e1000_transmit_wedged `{E1000Section} r0 es es' :
  let s := nrun es (attached r0) in length (accepted s) = (length (wire s) + 64)%nat ->
  let s' := nrun es' s in accepted s' = accepted s /\ wire s' = wire s /\
  (t_ret (tcal s') = t_ret (tcal s) \/ t_ret (tcal s') = Some (- E_TX_FULL) \/ t_ret (tcal s') = Some (- E_PKT_TOO_LARGE)).
Proof.
  intros s. pose proof (nrun_keeps es _ (attached_inv r0)) as Hs. fold s in Hs. clearbody s.
  induction es' as [|e es' IH] using rev_ind; intros Hfull s'; [by auto|].
  destruct (IH Hfull) as (H1 & H2 & H3). pose proof (nrun_keeps es' s Hs) as Hs'. set (s1 := nrun es' s) in *.
  assert (Es : s' = nstep e s1) by (unfold s', s1, nrun; by rewrite fold_left_app). rewrite Es.
  destruct (nstep_full e s1 Hs') as (G1 & G2 & G3); [unfold nout, nsent; by rewrite H1, H2|].
  rewrite G1, G2. split; [done|]. split; [done|]. destruct G3 as [-> | G3]; [exact H3 | by right].
Qed.

(** Sixty-four packets while the card is busy elsewhere. *)
Definition burst : list nic_event := concat (map (fun i => Transmit [i] :: repeat TGo 6) (seqZ 0 64)).
#[export] Instance sample_nic : E1000Section := {| tx_queue_pa := 0; tx_buf_pa := 0; rx_queue_pa := 0; rx_buf_pa := 0 |}.

Lemma e1000_transmit_wedged_witness :
  let s := nrun burst (attached ∅) in length (accepted s) = (length (wire s) + 64)%nat /\
  forall es', wire (nrun es' s) = wire s.
Proof.
  intros s. assert (Hfull : length (accepted s) = (length (wire s) + 64)%nat) by (vm_compute; reflexivity).
  split; [exact Hfull|]. intros es'. exact (proj1 (proj2 (e1000_transmit_wedged ∅ burst es' Hfull))).
Defined.
