(* ===== verification/Console.v ===== *)
(** * The console ([kern/console.c], [kern/picirq.c])

    Characters come in from the serial port and the keyboard through a ring that the
    interrupt handlers fill, and go out to the serial port, the parallel port and the
    text screen.  The ports and the video memory are hardware: the class [PcDevices] has
    the accesses the driver makes, and the state of whatever is behind them. *)

From S2P Require Import Prelude UState.

(** [inb], [outb] ([inc/x86.h]) and a 16-bit cell of the video memory, by physical address. *)
Class PcDevices (D : Type) := {
  dev_inb : Z -> D -> Z * D;
  dev_outb : Z -> Z -> D -> D;
  vmem_get : Z -> D -> Z;
  vmem_set : Z -> Z -> D -> D;
}.

(** ** Ports and sizes *)

Definition COM1 : Z := 0x3F8.
Definition COM_RX : Z := 0.
Definition COM_TX : Z := 0.
Definition COM_DLL : Z := 0.
Definition COM_DLM : Z := 1.
Definition COM_IER : Z := 1.
Definition COM_IER_RDI : Z := 0x01.
Definition COM_IIR : Z := 2.
Definition COM_FCR : Z := 2.
Definition COM_LCR : Z := 3.
Definition COM_LCR_DLAB : Z := 0x80.
Definition COM_LCR_WLEN8 : Z := 0x03.
Definition COM_MCR : Z := 4.
Definition COM_LSR : Z := 5.
Definition COM_LSR_DATA : Z := 0x01.
Definition COM_LSR_TXRDY : Z := 0x20.

Definition MONO_BASE : Z := 0x3B4.
Definition MONO_BUF : Z := 0xB0000.
Definition CGA_BASE : Z := 0x3D4.
Definition CGA_BUF : Z := 0xB8000.
Definition CRT_ROWS : Z := 25.
Definition CRT_COLS : Z := 80.
Definition CRT_SIZE : Z := CRT_ROWS * CRT_COLS.

Definition KBSTATP : Z := 0x64.
Definition KBS_DIB : Z := 0x01.
Definition KBDATAP : Z := 0x60.

Definition CONSBUFSIZE : Z := 512.

Definition IO_PIC1 : Z := 0x20.
Definition IO_PIC2 : Z := 0xA0.
Definition IRQ_SLAVE : Z := 2.

(** ** State

    The static variables of the two files, [shift] of [kbd_proc_data] included; [crt_buf]
    is the physical address of the screen. *)

Record cons_state (D : Type) := mkCons {
  dev : D;
  serial_exists : bool;
  addr_6845 : Z;
  crt_buf : Z;
  crt_pos : Z;
  shift : Z;
  buf : gmap Z Z;
  rpos : Z;
  wpos : Z;
  irq_mask_8259A : Z;
  didinit : bool;
}.
Arguments mkCons {D}.
Arguments dev {D}.
Arguments serial_exists {D}.
Arguments addr_6845 {D}.
Arguments crt_buf {D}.
Arguments crt_pos {D}.
Arguments shift {D}.
Arguments buf {D}.
Arguments rpos {D}.
Arguments wpos {D}.
Arguments irq_mask_8259A {D}.
Arguments didinit {D}.
#[export] Instance cons_eta D : Eta (cons_state D) := fun r => mkCons (dev r) (serial_exists r)
  (addr_6845 r) (crt_buf r) (crt_pos r) (shift r) (buf r) (rpos r) (wpos r)
  (irq_mask_8259A r) (didinit r).

(** The static variables before [cons_init]. *)
Definition cons_static {D} (d : D) : cons_state D :=
  mkCons d false 0 0 0 0 ∅ 0 0 (0xFFFF - Z.shiftl 1 IRQ_SLAVE) false.

Section console.
Context {D : Type} `{!PcDevices D}.
Implicit Types (s : cons_state D).

Definition inb (port : Z) : U (cons_state D) Z := fun s =>
  Ok (dev_inb port (dev s)).1 (s <| dev := (dev_inb port (dev s)).2 |>).
Definition outb (port data : Z) : U (cons_state D) unit :=
  uput (fun s => s <| dev := dev_outb port (w8 data) (dev s) |>).

Definition delay : U (cons_state D) unit := inb 0x84;; inb 0x84;; inb 0x84;; inb 0x84;; mret tt.

(** [for (i = 0; !(inb(port) & mask) && i < n; i++) delay();] *)
Fixpoint poll (n : nat) (port mask : Z) : U (cons_state D) unit :=
  x ← inb port;
  if has x mask then mret tt
  else match n with
       | O => mret tt
       | S n' => delay;; poll n' port mask
       end.

(** ** Output *)

Definition serial_putc (c : Z) : U (cons_state D) unit :=
  poll 12800 (COM1 + COM_LSR) COM_LSR_TXRDY;; outb (COM1 + COM_TX) c.

Definition lpt_putc (c : Z) : U (cons_state D) unit :=
  poll 12800 (0x378 + 1) 0x80;;
  outb (0x378 + 0) c;;
  outb (0x378 + 2) (Z.lor (Z.lor 0x08 0x04) 0x01);;
  outb (0x378 + 2) 0x08.

(** Cell [i] of the array [crt_buf] points to. *)
Definition crt_get (i : Z) : U (cons_state D) Z :=
  uget (fun s => vmem_get (crt_buf s + 2 * i) (dev s)).
Definition crt_set (i v : Z) : U (cons_state D) unit :=
  uput (fun s => s <| dev := vmem_set (crt_buf s + 2 * i) (w16 v) (dev s) |>).

(** [memmove(crt_buf, crt_buf + CRT_COLS, ...)], which copies upwards since the source is
    above the destination, from cell [i], for [n] cells. *)
Fixpoint crt_move (n : nat) (i : Z) : U (cons_state D) unit :=
  match n with
  | O => mret tt
  | S n' => v ← crt_get (i + CRT_COLS); crt_set i v;; crt_move n' (i + 1)
  end.
Fixpoint crt_clear (n : nat) (i : Z) : U (cons_state D) unit :=
  match n with
  | O => mret tt
  | S n' => crt_set i (Z.lor 0x0700 32);; crt_clear n' (i + 1)
  end.

Definition set_crt_pos (f : Z -> Z) : U (cons_state D) unit :=
  uput (fun s => s <| crt_pos := w16 (f (crt_pos s)) |>).

(** The last two parts of [cga_putc]: scroll, and move the cursor. *)
Definition crt_scroll : U (cons_state D) unit :=
  pos ← uget crt_pos;
  if pos >=? CRT_SIZE then
    crt_move (Z.to_nat (CRT_SIZE - CRT_COLS)) 0;;
    crt_clear (Z.to_nat CRT_COLS) (CRT_SIZE - CRT_COLS);;
    set_crt_pos (fun p => p - CRT_COLS)
  else mret tt.
Definition crt_cursor : U (cons_state D) unit :=
  s ← uget id;
  outb (addr_6845 s) 14;;
  outb (addr_6845 s + 1) (Z.shiftr (crt_pos s) 8);;
  outb (addr_6845 s) 15;;
  outb (addr_6845 s + 1) (crt_pos s).

Definition carriage_return : U (cons_state D) unit := set_crt_pos (fun p => p - p mod CRT_COLS).

(** If no attribute is given, black on white. *)
Definition with_attribute (c : Z) : Z := if negb (has c (Z.lnot 0xFF)) then Z.lor c 0x0700 else c.

(** The [switch] of [cga_putc], which calls [cons_putc] for the spaces of a tab. *)
Definition cga_switch (cons_putc : Z -> U (cons_state D) unit) (c : Z) : U (cons_state D) unit :=
  let ch := Z.land c 0xff in
  if ch =? 8 then
    pos ← uget crt_pos;
    if pos >? 0 then
      set_crt_pos (fun p => p - 1);;
      crt_set (pos - 1) (Z.lor (Z.land c (Z.lnot 0xff)) 32)
    else mret tt
  else if ch =? 10 then set_crt_pos (fun p => p + CRT_COLS);; carriage_return
  else if ch =? 13 then carriage_return
  else if ch =? 9 then
    cons_putc 32;; cons_putc 32;; cons_putc 32;; cons_putc 32;; cons_putc 32
  else
    pos ← uget crt_pos;
    set_crt_pos (fun p => p + 1);;
    crt_set pos c.

Definition cga_putc (cons_putc : Z -> U (cons_state D) unit) (c : Z) : U (cons_state D) unit :=
  cga_switch cons_putc (with_attribute c);;
  crt_scroll;;
  crt_cursor.

(** A space is not a tab: the recursion is one call deep. *)
Fixpoint cons_putc_at (depth : nat) (c : Z) : U (cons_state D) unit :=
  serial_putc c;;
  lpt_putc c;;
  cga_putc (match depth with O => fun _ => ustop Fuel | S d => cons_putc_at d end) c.
Definition cons_putc (c : Z) : U (cons_state D) unit := cons_putc_at 1 c.
Definition cputchar (c : Z) : U (cons_state D) unit := cons_putc c.

(** The characters of a message, as [cprintf] sends them to [cputchar]. *)
Fixpoint cputs (cs : list Z) : U (cons_state D) unit :=
  match cs with
  | [] => mret tt
  | c :: cs' => cputchar c;; cputs cs'
  end.
Definition chars (m : string) : list Z :=
  (fun c => Z.of_nat (Ascii.nat_of_ascii c)) <$> String.list_ascii_of_string m.
Definition cprintf (m : string) : U (cons_state D) unit := cputs (chars m).

(** ** Keyboard tables *)

Definition NO : Z := 0.
Definition SHIFT : Z := Z.shiftl 1 0.
Definition CTL : Z := Z.shiftl 1 1.
Definition ALT : Z := Z.shiftl 1 2.
Definition CAPSLOCK : Z := Z.shiftl 1 3.
Definition NUMLOCK : Z := Z.shiftl 1 4.
Definition SCROLLLOCK : Z := Z.shiftl 1 5.
Definition E0ESC : Z := Z.shiftl 1 6.

Definition KEY_HOME : Z := 0xE0.
Definition KEY_END : Z := 0xE1.
Definition KEY_UP : Z := 0xE2.
Definition KEY_DN : Z := 0xE3.
Definition KEY_LF : Z := 0xE4.
Definition KEY_RT : Z := 0xE5.
Definition KEY_PGUP : Z := 0xE6.
Definition KEY_PGDN : Z := 0xE7.
Definition KEY_INS : Z := 0xE8.
Definition KEY_DEL : Z := 0xE9.

(** An initialised array of 256 bytes: the elements listed from 0, the designated ones,
    and zeros. *)
Definition table (l : list Z) (designated : list (Z * Z)) (i : Z) : Z :=
  match List.find (fun p => p.1 =? i) designated with
  | Some p => w8 p.2
  | None => w8 (nth (Z.to_nat i) l 0)
  end.

Definition shiftcode : Z -> Z :=
  table [] [(0x1D, CTL); (0x2A, SHIFT); (0x36, SHIFT); (0x38, ALT); (0x9D, CTL); (0xB8, ALT)].
Definition togglecode : Z -> Z :=
  table [] [(0x3A, CAPSLOCK); (0x45, NUMLOCK); (0x46, SCROLLLOCK)].

Definition pad_keys : list (Z * Z) :=
  [(0xC8, KEY_UP); (0xC9, KEY_PGUP); (0xCB, KEY_LF); (0xCD, KEY_RT); (0xCF, KEY_END);
   (0xD0, KEY_DN); (0xD1, KEY_PGDN); (0xD2, KEY_INS); (0xD3, KEY_DEL)].

Definition normalmap : Z -> Z := table
  ([NO; 0x1B] ++ chars "1234567890-=" ++ [8; 9]
   ++ chars "qwertyuiop[]" ++ [10; NO]
   ++ chars "asdfghjkl;'`" ++ [NO; 92]
   ++ chars "zxcvbnm,./" ++ [NO] ++ chars "*" ++ [NO] ++ chars " "
   ++ repeat NO 13 ++ chars "789-456+1230." ++ repeat NO 4)
  ([(0xC7, KEY_HOME); (0x9C, 10); (0xB5, 47)] ++ pad_keys).

Definition shiftmap : Z -> Z := table
  ([NO; 27] ++ chars "!@#$%^&*()_+" ++ [8; 9]
   ++ chars "QWERTYUIOP{}" ++ [10; NO]
   ++ chars "ASDFGHJKL:" ++ [34; 126; NO; 124]
   ++ chars "ZXCVBNM<>?" ++ [NO] ++ chars "*" ++ [NO] ++ chars " "
   ++ repeat NO 13 ++ chars "789-456+1230." ++ repeat NO 4)
  ([(0xC7, KEY_HOME); (0x9C, 10); (0xB5, 47)] ++ pad_keys).

(** [C(x)], the control character of a letter. *)
Definition C (x : Z) : Z := x - 64.
Definition ctlmap : Z -> Z := table
  (repeat NO 16
   ++ (C <$> chars "QWERTYUIOP") ++ [NO; NO; 13; NO] ++ (C <$> chars "ASDFGHJKL")
   ++ repeat NO 4 ++ (C <$> [92] ++ chars "ZXCVBNM") ++ [NO; NO; C 47; NO; NO])
  ([(0x97, KEY_HOME); (0xB5, C 47)] ++ pad_keys).

Definition charcode (m : Z) : Z -> Z :=
  if m =? 0 then normalmap else if m =? 1 then shiftmap else ctlmap.

(** ** Input *)

Definition set_shift (f : Z -> Z) : U (cons_state D) unit :=
  uput (fun s => s <| shift := w32 (f (shift s)) |>).

(** The end of [kbd_proc_data], for the code of a key that went down. *)
Definition kbd_key (data : Z) : U (cons_state D) Z :=
  set_shift (fun sh => Z.lor sh (shiftcode data));;
  set_shift (fun sh => Z.lxor sh (togglecode data));;
  sh ← uget shift;
  let c := charcode (Z.land sh (Z.lor CTL SHIFT)) data in
  let c := if has sh CAPSLOCK then
             if (97 <=? c) && (c <=? 122) then c + (65 - 97)
             else if (65 <=? c) && (c <=? 90) then c + (97 - 65) else c
           else c in
  (if negb (has (Z.lnot sh) (Z.lor CTL ALT)) && (c =? KEY_DEL) then
     cprintf "Rebooting!";; cputchar 10;; outb 0x92 0x3
   else mret tt);;
  mret c.

Definition kbd_proc_data : U (cons_state D) Z :=
  st ← inb KBSTATP;
  if negb (has st KBS_DIB) then mret (-1)
  else
    data ← inb KBDATAP;
    sh ← uget shift;
    if data =? 0xE0 then set_shift (fun sh => Z.lor sh E0ESC);; mret 0
    else if has data 0x80 then
      let data := if has sh E0ESC then data else Z.land data 0x7F in
      set_shift (fun sh => Z.land sh (Z.lnot (Z.lor (shiftcode data) E0ESC)));;
      mret 0
    else if has sh E0ESC then
      set_shift (fun sh => Z.land sh (Z.lnot E0ESC));;
      kbd_key (Z.lor data 0x80)
    else kbd_key data.

Definition serial_proc_data : U (cons_state D) Z :=
  st ← inb (COM1 + COM_LSR);
  if negb (has st COM_LSR_DATA) then mret (-1)
  else inb (COM1 + COM_RX).

(** [cons.buf[cons.wpos++] = c] and the wrap. *)
Definition cons_store (c : Z) : U (cons_state D) unit :=
  uput (fun s => s <| buf := <[wpos s := w8 c]> (buf s) |> <| wpos := w32 (wpos s + 1) |>);;
  uput (fun s => if wpos s =? CONSBUFSIZE then s <| wpos := 0 |> else s).

(** A device that never runs dry would keep the loops going: [rounds] bounds the turns. *)
Context (rounds : nat).

Definition cons_intr (proc : U (cons_state D) Z) : U (cons_state D) unit :=
  uloop rounds (fun _ : unit =>
    c ← proc;
    if c =? -1 then mret (inr tt)
    else if c =? 0 then mret (inl tt)
    else cons_store c;; mret (inl tt : unit + unit)) tt.

Definition serial_intr : U (cons_state D) unit :=
  e ← uget serial_exists; if (e : bool) then cons_intr serial_proc_data else mret tt.
Definition kbd_intr : U (cons_state D) unit := cons_intr kbd_proc_data.

Definition cons_getc : U (cons_state D) Z :=
  serial_intr;;
  kbd_intr;;
  s ← uget id;
  if negb (rpos s =? wpos s) then
    let c := default 0 (buf s !! rpos s) in
    uput (fun s => s <| rpos := w32 (rpos s + 1) |>);;
    uput (fun s => if rpos s =? CONSBUFSIZE then s <| rpos := 0 |> else s);;
    mret c
  else mret 0.

Definition getchar : U (cons_state D) Z :=
  uloop rounds (fun _ : unit => c ← cons_getc; mret (if c =? 0 then inl tt else inr c)) tt.

Definition iscons (fdnum : Z) : Z := 1.

(** ** Initialisation *)

(** [cprintf(" %d", i)] for an interrupt line. *)
Definition print_irq (i : Z) : U (cons_state D) unit :=
  cputs (32 :: (if i <? 10 then [48 + i] else [48 + i / 10; 48 + i mod 10])).

Fixpoint print_irqs (n : nat) (i mask : Z) : U (cons_state D) unit :=
  match n with
  | O => mret tt
  | S n' => (if has (Z.lnot mask) (Z.shiftl 1 i) then print_irq i else mret tt);;
            print_irqs n' (i + 1) mask
  end.

Definition irq_setmask_8259A (mask : Z) : U (cons_state D) unit :=
  uput (fun s => s <| irq_mask_8259A := w16 mask |>);;
  d ← uget didinit;
  if negb d then mret tt
  else
    outb (IO_PIC1 + 1) mask;;
    outb (IO_PIC2 + 1) (Z.shiftr (w16 mask) 8);;
    cprintf "enabled interrupts:";;
    print_irqs 16 0 (w16 mask);;
    cputchar 10.

Fixpoint outbs (l : list (Z * Z)) : U (cons_state D) unit :=
  match l with
  | [] => mret tt
  | (port, data) :: l' => outb port data;; outbs l'
  end.

Definition IRQ_OFFSET : Z := 32.
Definition pic_init : U (cons_state D) unit :=
  uput (fun s => s <| didinit := true |>);;
  outbs [(IO_PIC1 + 1, 0xFF); (IO_PIC2 + 1, 0xFF);
    (IO_PIC1, 0x11); (IO_PIC1 + 1, IRQ_OFFSET); (IO_PIC1 + 1, Z.shiftl 1 IRQ_SLAVE);
    (IO_PIC1 + 1, 0x3); (IO_PIC2, 0x11); (IO_PIC2 + 1, IRQ_OFFSET + 8);
    (IO_PIC2 + 1, IRQ_SLAVE); (IO_PIC2 + 1, 0x01); (IO_PIC1, 0x68); (IO_PIC1, 0x0a);
    (IO_PIC2, 0x68); (IO_PIC2, 0x0a)];;
  m ← uget irq_mask_8259A;
  if negb (m =? 0xFFFF) then irq_setmask_8259A m else mret tt.

Definition irq_eoi : U (cons_state D) unit := outbs [(IO_PIC1, 0x20); (IO_PIC2, 0x20)].

Definition unmask_irq (irq : Z) : U (cons_state D) unit :=
  m ← uget irq_mask_8259A; irq_setmask_8259A (Z.land m (Z.lnot (Z.shiftl 1 irq))).

Definition serial_init : U (cons_state D) unit :=
  outbs [(COM1 + COM_FCR, 0); (COM1 + COM_LCR, COM_LCR_DLAB);
    (COM1 + COM_DLL, 115200 / 9600); (COM1 + COM_DLM, 0);
    (COM1 + COM_LCR, Z.land COM_LCR_WLEN8 (Z.lnot COM_LCR_DLAB)); (COM1 + COM_MCR, 0);
    (COM1 + COM_IER, COM_IER_RDI)];;
  lsr ← inb (COM1 + COM_LSR);
  uput (fun s => s <| serial_exists := negb (lsr =? 0xFF) |>);;
  _ ← inb (COM1 + COM_IIR);
  _ ← inb (COM1 + COM_RX);
  e ← uget serial_exists;
  if (e : bool) then unmask_irq 4 else mret tt.

Definition cga_init : U (cons_state D) unit :=
  was ← uget (fun s => vmem_get CGA_BUF (dev s));
  uput (fun s => s <| dev := vmem_set CGA_BUF 0xA55A (dev s) |>);;
  probe ← uget (fun s => vmem_get CGA_BUF (dev s));
  cp ← (if negb (probe =? 0xA55A) then
          uput (fun s => s <| addr_6845 := MONO_BASE |>);; mret MONO_BUF
        else
          uput (fun s => s <| dev := vmem_set CGA_BUF was (dev s) |>);;
          uput (fun s => s <| addr_6845 := CGA_BASE |>);; mret CGA_BUF);
  a ← uget addr_6845;
  outb a 14;;
  hi ← inb (a + 1);
  outb a 15;;
  lo ← inb (a + 1);
  uput (fun s => s <| crt_buf := cp |> <| crt_pos := w16 (Z.lor (Z.shiftl hi 8) lo) |>).

Definition kbd_init : U (cons_state D) unit := kbd_intr;; unmask_irq 1.

Definition cons_init : U (cons_state D) unit :=
  cga_init;;
  kbd_init;;
  serial_init;;
  e ← uget serial_exists;
  if negb e then cprintf "Serial port does not exist!";; cputchar 10 else mret tt.
End console.
