(* ===== verification/ConsoleThms.v ===== *)
(** * What the console does with characters

    The theorems hold for any hardware with the laws of [ConsoleHw]: a serial port and a
    keyboard that hand over what they have received byte by byte, and video memory that
    keeps what is written to it. *)

From S2P Require Import Prelude UState Console.

(** ** The hardware *)

(** The ports of the output side. *)
Definition out_ports : list Z :=
  [COM1 + COM_TX; 0x378; 0x37A; MONO_BASE; MONO_BASE + 1; CGA_BASE; CGA_BASE + 1; 0x92].

Section hw.
Context {D : Type} `{!PcDevices D}.

(** [hw_same serq kbq base d d']: an access that took nothing from the input queues and
    wrote nothing on the screen at [base]. *)
Record hw_same (serq kbq : D -> list Z) (base : Z) (d d' : D) : Prop := {
  same_serq : serq d' = serq d;
  same_kbq : kbq d' = kbq d;
  same_screen : forall i, 0 <= i < CRT_SIZE -> vmem_get (base + 2 * i) d' = vmem_get (base + 2 * i) d;
}.

(** Bytes wait in the serial port and the keyboard; a status bit says whether there is
    one and reading the data port takes it. *)
Class ConsoleHw (base : Z) := {
  serq : D -> list Z;
  kbq : D -> list Z;
  hw_bytes d : Forall (fun b => 0 <= b < 256) (serq d ++ kbq d);
  hw_cell i d : 0 <= i < CRT_SIZE -> 0 <= vmem_get (base + 2 * i) d < 2 ^ 16;
  hw_lsr d :
    has (dev_inb (COM1 + COM_LSR) d).1 COM_LSR_DATA = negb (bool_decide (serq d = [])) /\
    hw_same serq kbq base d (dev_inb (COM1 + COM_LSR) d).2;
  hw_rx d b q : serq d = b :: q ->
    exists d', dev_inb (COM1 + COM_RX) d = (b, d') /\ serq d' = q /\ kbq d' = kbq d /\
      forall i, 0 <= i < CRT_SIZE -> vmem_get (base + 2 * i) d' = vmem_get (base + 2 * i) d;
  hw_kbstat d :
    has (dev_inb KBSTATP d).1 KBS_DIB = negb (bool_decide (kbq d = [])) /\
    hw_same serq kbq base d (dev_inb KBSTATP d).2;
  hw_kbdata d b q : kbq d = b :: q ->
    exists d', dev_inb KBDATAP d = (b, d') /\ kbq d' = q /\ serq d' = serq d /\
      forall i, 0 <= i < CRT_SIZE -> vmem_get (base + 2 * i) d' = vmem_get (base + 2 * i) d;
  hw_inb p d : p ∈ [0x84; 0x379; MONO_BASE + 1; CGA_BASE + 1] -> hw_same serq kbq base d (dev_inb p d).2;
  hw_outb p v d : p ∈ out_ports -> hw_same serq kbq base d (dev_outb p v d);
  hw_set i v d : 0 <= i < CRT_SIZE -> 0 <= v < 2 ^ 16 ->
    serq (vmem_set (base + 2 * i) v d) = serq d /\
    kbq (vmem_set (base + 2 * i) v d) = kbq d /\
    vmem_get (base + 2 * i) (vmem_set (base + 2 * i) v d) = v /\
    forall j, 0 <= j < CRT_SIZE -> j <> i ->
      vmem_get (base + 2 * j) (vmem_set (base + 2 * i) v d) = vmem_get (base + 2 * j) d;
}.
End hw.
Arguments serq {D _} base {_} d.
Arguments kbq {D _} base {_} d.

(** ** The screen as a window on a tape

    A teletype prints on a tape of rows of [CRT_COLS] cells that never ends.  The screen
    is the window of [CRT_ROWS] rows from row [top]; scrolling only moves the window. *)

Record tty := mkTty { tape : Z -> Z; top : Z; pos : Z }.
#[export] Instance tty_eta : Eta tty := fun r => mkTty (tape r) (top r) (pos r).

Definition blank : Z := 0x0720.
Definition put_cell (i v : Z) (t : Z -> Z) (j : Z) : Z := if j =? i then v else t j.

Definition cell (c : Z) : Z := w16 (with_attribute c).
Definition erased (c : Z) : Z := w16 (Z.lor (Z.land (with_attribute c) (Z.lnot 0xff)) 32).

(** A character that is not a tab, before the window follows. *)
Definition typed (c : Z) (t : tty) : tty :=
  let ch := Z.land c 0xff in
  if ch =? 8 then
    if pos t >? CRT_COLS * top t
    then t <| tape := put_cell (pos t - 1) (erased c) (tape t) |> <| pos := pos t - 1 |> else t
  else if ch =? 10 then t <| pos := CRT_COLS * (pos t / CRT_COLS + 1) |>
  else if ch =? 13 then t <| pos := CRT_COLS * (pos t / CRT_COLS) |>
  else t <| tape := put_cell (pos t) (cell c) (tape t) |> <| pos := pos t + 1 |>.

(** The window follows the cursor. *)
Definition tty_follow (t : tty) : tty :=
  if pos t >=? CRT_COLS * top t + CRT_SIZE then t <| top := top t + 1 |> else t.

Definition tty_char (c : Z) (t : tty) : tty := tty_follow (typed c t).

(** A tab is five spaces. *)
Definition tty_put (c : Z) (t : tty) : tty :=
  if Z.land c 0xff =? 9
  then tty_char 32 (tty_char 32 (tty_char 32 (tty_char 32 (tty_char 32 t))))
  else tty_char c t.

(** Decide the range tests [a <= j < b] of the goal. *)
Ltac in_window :=
  repeat match goal with
  | |- context [(?a <=? ?j) && (?j <? ?b)] =>
      destruct (Z.leb_spec a j), (Z.ltb_spec j b); cbn [andb]; try lia
  end.

Ltac at_cell :=
  repeat match goal with |- context [?a =? ?b] => destruct (Z.eqb_spec a b); subst end.

(** Name the state and the facts after a step. *)
Ltac after s H := let a := fresh "a" in intros a s H; cbv beta in H; try clear a.

Ltac out_port := unfold out_ports; rewrite !elem_of_cons; vm_compute; tauto.

(** ** The keyboard

    The bits of [shift] as a record: which modifiers are down, which locks are on, and
    whether the last byte was the escape [0xE0]. *)

Record kbd := mkKbd { k_shift : bool; k_ctl : bool; k_alt : bool;
  k_caps : bool; k_num : bool; k_scroll : bool; k_e0 : bool }.
#[export] Instance kbd_eta : Eta kbd := fun r => mkKbd (k_shift r) (k_ctl r) (k_alt r)
  (k_caps r) (k_num r) (k_scroll r) (k_e0 r).

Definition kbd_bits (k : kbd) : Z :=
  Z.b2z (k_shift k) + 2 * Z.b2z (k_ctl k) + 4 * Z.b2z (k_alt k) + 8 * Z.b2z (k_caps k)
  + 16 * Z.b2z (k_num k) + 32 * Z.b2z (k_scroll k) + 64 * Z.b2z (k_e0 k).
Definition kbd_of (sh : Z) : kbd := mkKbd (Z.testbit sh 0) (Z.testbit sh 1) (Z.testbit sh 2)
  (Z.testbit sh 3) (Z.testbit sh 4) (Z.testbit sh 5) (Z.testbit sh 6).

(** A key is a code below 128, with 128 added if the escape came first. *)
Definition hold (key : Z) (down : bool) (k : kbd) : kbd :=
  if bool_decide (key ∈ [0x1D; 0x9D]) then k <| k_ctl := down |>
  else if bool_decide (key ∈ [0x2A; 0x36]) then k <| k_shift := down |>
  else if bool_decide (key ∈ [0x38; 0xB8]) then k <| k_alt := down |>
  else k.
Definition lock (key : Z) (k : kbd) : kbd :=
  if key =? 0x3A then k <| k_caps := negb (k_caps k) |>
  else if key =? 0x45 then k <| k_num := negb (k_num k) |>
  else if key =? 0x46 then k <| k_scroll := negb (k_scroll k) |>
  else k.

Definition swap_case (c : Z) : Z :=
  if (97 <=? c) && (c <=? 122) then c - 32 else if (65 <=? c) && (c <=? 90) then c + 32 else c.
Definition key_char (k : kbd) (key : Z) : Z :=
  let c := (if k_ctl k then ctlmap else if k_shift k then shiftmap else normalmap) key in
  if k_caps k then swap_case c else c.

(** One byte from the keyboard: the character it completes (0 for none), and the state. *)
Definition kbd_step (k : kbd) (data : Z) : Z * kbd :=
  if data =? 0xE0 then (0, k <| k_e0 := true |>)
  else if 128 <=? data then
    (0, hold (if k_e0 k then data else data - 128) false k <| k_e0 := false |>)
  else
    let key := if k_e0 k then data + 128 else data in
    let k := lock key (hold key true (k <| k_e0 := false |>)) in
    (key_char k key, k).

Fixpoint kbd_chars (k : kbd) (q : list Z) : list Z * kbd :=
  match q with
  | [] => ([], k)
  | b :: q' => let '(c, k1) := kbd_step k b in
               let '(cs, k2) := kbd_chars k1 q' in (c :: cs, k2)
  end.

Lemma kbd_of_bits k : kbd_of (kbd_bits k) = k.
Proof. destruct k as [[] [] [] [] [] [] []]; reflexivity. Qed.

(** What [kbd_key] computes. *)
Definition key_code (sh data : Z) : Z * Z :=
  let sh := w32 (Z.lxor (w32 (Z.lor sh (shiftcode data))) (togglecode data)) in
  let c := charcode (Z.land sh (Z.lor CTL SHIFT)) data in
  (if has sh CAPSLOCK then
     if (97 <=? c) && (c <=? 122) then c + (65 - 97)
     else if (65 <=? c) && (c <=? 90) then c + (97 - 65) else c
   else c, sh).
Definition kbd_check (sh data : Z) : bool :=
  let k := kbd_of sh in
  let '(c, k') := kbd_step k data in
  let '(c1, sh1) :=
    if data =? 0xE0 then (0, w32 (Z.lor sh E0ESC))
    else if has data 0x80 then
      (0, w32 (Z.land sh (Z.lnot (Z.lor (shiftcode (if has sh E0ESC then data else Z.land data 0x7F)) E0ESC))))
    else if has sh E0ESC then key_code (w32 (Z.land sh (Z.lnot E0ESC))) (Z.lor data 0x80)
    else key_code sh data in
  (c =? c1) && (kbd_bits k' =? sh1) && (0 <=? c) && (c <? 256).
Lemma kbd_check_all : forallb (fun sh => forallb (kbd_check sh) (seqZ 0 256)) (seqZ 0 128) = true.
Proof. vm_compute. reflexivity. Qed.

Lemma kbd_bits_range k : 0 <= kbd_bits k < 128.
Proof. destruct k as [[] [] [] [] [] [] []]; vm_compute; split; discriminate || done. Qed.

Lemma kbd_check_at k data : 0 <= data < 256 -> kbd_check (kbd_bits k) data = true.
Proof.
  intros Hd. pose proof (forallb_seqZ _ _ _ kbd_check_all (kbd_bits_range k)) as H. cbv beta in H.
  exact (forallb_seqZ _ _ _ H Hd).
Qed.

(** ** The ring *)

Definition nonzero (q : list Z) : list Z := filter (fun c => c <> 0) q.

(** What is left of the characters stored in the ring: each time they fill it, it looks
    empty. *)
Definition kept (l : list Z) : list Z :=
  drop (Z.to_nat (CONSBUFSIZE * (Z.of_nat (length l) / CONSBUFSIZE))) l.

Lemma kept_small l : Z.of_nat (length l) < CONSBUFSIZE -> kept l = l.
Proof. intros H. unfold kept. rewrite Z.div_small by lia. done. Qed.

Lemma kept_length l : Z.of_nat (length (kept l)) = Z.of_nat (length l) mod CONSBUFSIZE.
Proof. unfold kept. rewrite length_drop. change CONSBUFSIZE with 512. zlia. Qed.

Lemma kept_app l m : kept (kept l ++ m) = kept (l ++ m).
Proof.
  unfold kept at 1 3. rewrite !length_app, Nat2Z.inj_add, kept_length, Nat2Z.inj_add.
  unfold kept. rewrite <- drop_app_le, drop_drop; [|change CONSBUFSIZE with 512; zlia].
  f_equal. change CONSBUFSIZE with 512. zlia.
Qed.

Section screen.
Context {D : Type} `{!PcDevices D} (base : Z) `{!ConsoleHw base}.
Implicit Types (s : cons_state D) (t : tty).

(** The screen shows [t]; [shown] is before the scroll, when the cursor may be one past
    the last cell. *)
Record shown (t : tty) (s : cons_state D) : Prop := {
  sh_base : crt_buf s = base;
  sh_addr : addr_6845 s = MONO_BASE \/ addr_6845 s = CGA_BASE;
  sh_pos : crt_pos s = pos t - CRT_COLS * top t;
  sh_range : 0 <= crt_pos s <= CRT_SIZE;
  sh_cells : forall i, 0 <= i < CRT_SIZE ->
    vmem_get (base + 2 * i) (dev s) = tape t (CRT_COLS * top t + i);
  sh_below : forall j, CRT_COLS * top t + CRT_SIZE <= j -> tape t j = blank;
}.

Definition shows (t : tty) (s : cons_state D) : Prop := shown t s /\ crt_pos s < CRT_SIZE.

(** What output leaves alone: the input side of the state. *)
Record input_same (s s' : cons_state D) : Prop := {
  in_exists : serial_exists s' = serial_exists s;
  in_shift : shift s' = shift s;
  in_buf : buf s' = buf s;
  in_rpos : rpos s' = rpos s;
  in_wpos : wpos s' = wpos s;
  in_serq : serq base (dev s') = serq base (dev s);
  in_kbq : kbq base (dev s') = kbq base (dev s);
}.

#[export] Instance input_same_po : PreOrder input_same.
Proof.
  split; [by intros s; constructor|].
  intros s1 s2 s3 [? ? ? ? ? ? ?] [? ? ? ? ? ? ?]. constructor; congruence.
Qed.

(** Only the hardware moved, and not its screen. *)
Definition quiet (s s' : cons_state D) : Prop :=
  exists d', s' = s <| dev := d' |> /\ hw_same (serq base) (kbq base) base (dev s) d'.

#[export] Instance quiet_po : PreOrder quiet.
Proof.
  split.
  - intros s. exists (dev s). split; [by destruct s | by constructor].
  - intros s1 s2 s3 (d2 & -> & [? ? H2]) (d3 & -> & [? ? H3]). exists d3. simpl in *.
    split; [done|]. constructor; [congruence | congruence |].
    intros i Hi. by rewrite H3, H2.
Qed.

Lemma quiet_input s s' : quiet s s' -> input_same s s'.
Proof. intros (d & -> & [? ? ?]). by constructor. Qed.
Lemma quiet_shows t s s' : quiet s s' -> shows t s -> shows t s'.
Proof.
  intros (d & -> & [? ? Hs]) [[? ? ? ? Hc ?] ?]. split; [|done]. constructor; try done.
  intros i Hi. simpl. by rewrite Hs, Hc.
Qed.

(** ** Waiting and writing *)

Lemma outb_quiet p v s : p ∈ out_ports -> uwp (outb p v) (fun _ => quiet s) s.
Proof. intros Hp. apply uwp_put. eexists. split; [done|]. by apply hw_outb. Qed.

Lemma inb_quiet p s :
  p ∈ [0x84; 0x379; MONO_BASE + 1; CGA_BASE + 1; COM1 + COM_LSR] ->
  uwp (inb p) (fun _ => quiet s) s.
Proof.
  intros Hp. unfold uwp, inb. eexists. split; [done|].
  destruct (decide (p = COM1 + COM_LSR)) as [-> | Hne]; [apply hw_lsr|].
  apply hw_inb. rewrite !elem_of_cons in *. tauto.
Qed.

(** Steps that are quiet compose. *)
Lemma quiet_bind {A B} (m : U (cons_state D) A) (f : A -> U (cons_state D) B) s :
  uwp m (fun _ => quiet s) s -> (forall a s', uwp (f a) (fun _ => quiet s') s') ->
  uwp (m ≫= f) (fun _ => quiet s) s.
Proof.
  intros Hm Hf. apply uwp_bind. eapply uwp_mono; [exact Hm|]. intros a s1 H1.
  eapply uwp_mono; [apply Hf|]. intros b s2 H2. simpl in *. by transitivity s1.
Qed.
Lemma quiet_ret {A} (a : A) s : uwp (mret a) (fun _ => quiet s) s.
Proof. apply uwp_ret. reflexivity. Qed.

Lemma delay_quiet s : uwp delay (fun _ => quiet s) s.
Proof.
  repeat (apply quiet_bind; [apply inb_quiet; out_port | intros _ ?]).
  apply quiet_ret.
Qed.

Lemma poll_quiet n p m s :
  p = 0x379 \/ p = COM1 + COM_LSR -> uwp (poll n p m) (fun _ => quiet s) s.
Proof.
  intros Hp. revert s. induction n as [|n IH]; intros s; cbn [poll];
    (apply quiet_bind; [apply inb_quiet; destruct Hp as [-> | ->]; out_port | intros x s1; destruct (has x m)]);
    try apply quiet_ret.
  apply quiet_bind; [apply delay_quiet | auto].
Qed.

Lemma serial_putc_quiet c s : uwp (serial_putc c) (fun _ => quiet s) s.
Proof.
  apply quiet_bind; [apply poll_quiet; auto | intros _ s1]. apply outb_quiet; out_port.
Qed.

Lemma lpt_putc_quiet c s : uwp (lpt_putc c) (fun _ => quiet s) s.
Proof.
  apply quiet_bind; [apply poll_quiet; auto | intros _ s1].
  apply quiet_bind; [apply outb_quiet; out_port | intros _ s2].
  apply quiet_bind; [apply outb_quiet; out_port | intros _ s3].
  apply outb_quiet; out_port.
Qed.

Lemma crt_cursor_quiet s :
  addr_6845 s = MONO_BASE \/ addr_6845 s = CGA_BASE -> uwp crt_cursor (fun _ => quiet s) s.
Proof.
  intros Ha. unfold crt_cursor. apply uwp_bind, uwp_get. unfold id.
  repeat (apply quiet_bind; [apply outb_quiet; destruct Ha as [-> | ->]; out_port | intros _ ?]).
  apply outb_quiet; destruct Ha as [-> | ->]; out_port.
Qed.

(** ** Drawing *)

(** Only cells changed, and now they are [f]. *)
Definition drawn (s s' : cons_state D) (f : Z -> Z) : Prop :=
  exists d', s' = s <| dev := d' |> /\ serq base d' = serq base (dev s) /\
    kbq base d' = kbq base (dev s) /\
    forall j, 0 <= j < CRT_SIZE -> vmem_get (base + 2 * j) d' = f j.
Definition cells (s : cons_state D) (j : Z) : Z := vmem_get (base + 2 * j) (dev s).

Lemma drawn_input s s' f : drawn s s' f -> input_same s s'.
Proof. intros (d & -> & ? & ? & _). by constructor. Qed.
Lemma drawn_refl s : drawn s s (cells s).
Proof. exists (dev s). split; [by destruct s | done]. Qed.
Lemma drawn_ext s s' f g :
  drawn s s' f -> (forall j, 0 <= j < CRT_SIZE -> f j = g j) -> drawn s s' g.
Proof. intros (d & -> & ? & ? & H) Hfg. exists d. repeat split; try done. intros. by rewrite H, Hfg. Qed.
Lemma drawn_trans s1 s2 s3 f g : drawn s1 s2 f -> drawn s2 s3 g -> drawn s1 s3 g.
Proof.
  intros (d & -> & H1 & H2 & _) (d' & -> & H3 & H4 & H). exists d'. simpl in *.
  repeat split; try done; congruence.
Qed.

Lemma crt_set_drawn i v s :
  crt_buf s = base -> 0 <= i < CRT_SIZE ->
  uwp (crt_set i v) (fun _ s' => drawn s s' (put_cell i (w16 v) (cells s))) s.
Proof.
  intros Hb Hi. apply uwp_put. rewrite Hb. eexists. split; [done|].
  destruct (hw_set i (w16 v) (dev s) Hi) as (H1 & H2 & H3 & H4); [apply Z.mod_pos_bound; lia|].
  repeat split; try done. intros j Hj. unfold put_cell. destruct (Z.eqb_spec j i) as [-> | Hne]; auto.
Qed.

Lemma crt_move_drawn n i s :
  crt_buf s = base -> 0 <= i -> i + Z.of_nat n + CRT_COLS <= CRT_SIZE ->
  uwp (crt_move n i) (fun _ s' => drawn s s' (fun j =>
    if (i <=? j) && (j <? i + Z.of_nat n) then cells s (j + CRT_COLS) else cells s j)) s.
Proof.
  revert i s. induction n as [|n IH]; intros i s Hb Hi Hn; cbn [crt_move].
  - apply uwp_ret. eapply drawn_ext; [apply drawn_refl|]. intros j Hj. in_window; done || lia.
  - apply uwp_bind, uwp_get. apply uwp_bind.
    eapply uwp_mono; [apply crt_set_drawn; [done | unfold CRT_COLS in *; lia]|].
    after s1 H1. assert (Hb1 : crt_buf s1 = base) by (destruct H1 as (d & -> & _); done).
    eapply uwp_mono; [apply IH; [done | lia..]|]. after s2 H2.
    eapply drawn_ext; [exact (drawn_trans _ _ _ _ _ H1 H2)|]. intros j Hj.
    destruct H1 as (d & -> & _ & _ & Hd). rewrite Hb in Hd. unfold cells in *. simpl.
    assert (Hv : w16 (vmem_get (base + 2 * (i + CRT_COLS)) (dev s)) =
      vmem_get (base + 2 * (i + CRT_COLS)) (dev s)).
    { apply w16_small, hw_cell. unfold CRT_COLS in *. lia. }
    unfold put_cell in Hd. rewrite Hv in Hd. clear Hv. unfold CRT_COLS in *.
    in_window; rewrite Hd by lia; at_cell; done || lia.
Qed.

Lemma crt_clear_drawn n i s :
  crt_buf s = base -> 0 <= i -> i + Z.of_nat n <= CRT_SIZE ->
  uwp (crt_clear n i) (fun _ s' => drawn s s' (fun j =>
    if (i <=? j) && (j <? i + Z.of_nat n) then blank else cells s j)) s.
Proof.
  revert i s. induction n as [|n IH]; intros i s Hb Hi Hn; cbn [crt_clear].
  - apply uwp_ret. eapply drawn_ext; [apply drawn_refl|]. intros j Hj. in_window; done || lia.
  - apply uwp_bind. eapply uwp_mono; [apply crt_set_drawn; [done | lia]|].
    after s1 H1. assert (Hb1 : crt_buf s1 = base) by (destruct H1 as (d & -> & _); done).
    eapply uwp_mono; [apply IH; [done | lia..]|]. after s2 H2.
    eapply drawn_ext; [exact (drawn_trans _ _ _ _ _ H1 H2)|]. intros j Hj.
    destruct H1 as (d & -> & _ & _ & Hd). unfold cells in *. simpl. unfold put_cell in Hd.
    in_window; rewrite ?Hd by lia; at_cell; done || lia.
Qed.

Lemma crt_scroll_shows t s :
  shown t s -> uwp crt_scroll (fun _ s' => shows (tty_follow t) s' /\ input_same s s') s.
Proof.
  intros [Hb Ha Hp Hr Hc Hl]. unfold crt_scroll. apply uwp_bind, uwp_get.
  destruct (Z.geb_spec (crt_pos s) CRT_SIZE) as [Hge | Hlt].
  - apply uwp_bind. eapply uwp_mono; [apply crt_move_drawn; [done | vm_compute; done..]|].
    after s1 H1. assert (Hb1 : crt_buf s1 = base) by (destruct H1 as (d & -> & _); done).
    apply uwp_bind. eapply uwp_mono; [apply crt_clear_drawn; [done | vm_compute; done..]|].
    after s2 H2. apply uwp_put.
    destruct H1 as (d1 & -> & ? & ? & Hd1), H2 as (d2 & -> & ? & ? & Hd2).
    unfold tty_follow, shows, cells in *. simpl in *.
    destruct (Z.geb_spec (pos t) (CRT_COLS * top t + CRT_SIZE)); [|lia].
    change CRT_COLS with 80 in *. change CRT_SIZE with 2000 in *.
    unfold w16. rewrite Z.mod_small by lia.
    split; [split | constructor; simpl; congruence]; [|simpl; lia].
    constructor; simpl; change CRT_COLS with 80; change CRT_SIZE with 2000; try done; try lia.
    + intros i Hi. rewrite Hd2 by lia. in_window.
      * symmetry. apply Hl. lia.
      * rewrite Hd1 by lia. in_window. rewrite Hc by lia. f_equal. lia.
    + intros j Hj. apply Hl. lia.
  - apply uwp_ret. split; [|reflexivity]. unfold tty_follow.
    destruct (Z.geb_spec (pos t) (CRT_COLS * top t + CRT_SIZE)); [lia|]. split; [by constructor | lia].
Qed.
(** ** Characters *)

Lemma set_crt_pos_uwp f s (Q : unit -> cons_state D -> Prop) :
  Q tt (s <| crt_pos := w16 (f (crt_pos s)) |>) -> uwp (set_crt_pos f) Q s.
Proof. apply uwp_put. Qed.

(** A cell in the window is written on the screen and on the tape. *)
Lemma shown_set t s s' i v :
  shown t s -> 0 <= i < CRT_SIZE -> drawn s s' (put_cell i v (cells s)) ->
  shown (t <| tape := put_cell (CRT_COLS * top t + i) v (tape t) |>) s' /\ input_same s s'.
Proof.
  intros [Hb Ha Hp Hr Hc Hl] Hi Hd. split; [|by eapply drawn_input].
  destruct Hd as (d & -> & _ & _ & Hd). constructor; simpl; try done.
  - intros j Hj. rewrite Hd by done. unfold put_cell, cells.
    at_cell; try lia; auto.
  - intros j Hj. unfold put_cell. at_cell; [lia | auto].
Qed.

(** Moving the cursor. *)
Lemma shown_move t s p :
  shown t s -> 0 <= p - CRT_COLS * top t <= CRT_SIZE ->
  shown (t <| pos := p |>) (s <| crt_pos := p - CRT_COLS * top t |>).
Proof. intros [Hb Ha Hp Hr Hc Hl] Hi. constructor; simpl; done. Qed.

Lemma with_attribute_low c : Z.land (with_attribute c) 0xff = Z.land c 0xff.
Proof.
  unfold with_attribute. destruct (negb _); [|done]. apply Z.bits_inj'. intros i Hi.
  rewrite !Z.land_spec, Z.lor_spec. change 0xff with (Z.ones 8). change 0x0700 with (Z.shiftl 7 8).
  destruct (Z.ltb_spec i 8).
  - rewrite Z.shiftl_spec_low by lia. by rewrite orb_false_r.
  - rewrite Z.ones_spec_high by lia. by rewrite !andb_false_r.
Qed.

Lemma carriage_return_uwp t s :
  shown t s ->
  uwp carriage_return (fun _ s' =>
    shown (t <| pos := CRT_COLS * (pos t / CRT_COLS) |>) s' /\ input_same s s') s.
Proof.
  intros Hs. apply set_crt_pos_uwp. split; [|done].
  pose proof (sh_pos _ _ Hs). pose proof (sh_range _ _ Hs).
  change CRT_COLS with 80 in *. change CRT_SIZE with 2000 in *.
  rewrite w16_small by zlia.
  replace (crt_pos s - crt_pos s mod 80) with (80 * (pos t / 80) - 80 * top t) by zlia.
  apply (shown_move t s (80 * (pos t / 80))); [done|].
  change CRT_COLS with 80. change CRT_SIZE with 2000. zlia.
Qed.

Lemma cga_switch_uwp f c t s :
  shows t s -> Z.land c 0xff <> 9 ->
  uwp (cga_switch f (with_attribute c)) (fun _ s' => shown (typed c t) s' /\ input_same s s') s.
Proof.
  intros [Hs Hlt] H9. pose proof (sh_pos _ _ Hs) as Hp. pose proof (sh_range _ _ Hs) as Hr.
  unfold cga_switch, typed. rewrite with_attribute_low.
  change CRT_SIZE with 2000 in *.
  destruct (Z.eqb_spec (Z.land c 0xff) 8).
  { apply uwp_bind, uwp_get.
    destruct (Z.gtb_spec (crt_pos s) 0), (Z.gtb_spec (pos t) (CRT_COLS * top t)); try lia.
    - apply uwp_bind, set_crt_pos_uwp. rewrite w16_small by lia.
      set (s1 := s <| crt_pos := _ |>).
      assert (H1 : shown (t <| pos := pos t - 1 |>) s1).
      { unfold s1. replace (crt_pos s - 1) with (pos t - 1 - CRT_COLS * top t) by lia.
        apply shown_move; [done|]. change CRT_SIZE with 2000. lia. }
      eapply uwp_mono; [apply crt_set_drawn; [apply H1 | change CRT_SIZE with 2000; lia]|].
      after s2 H2. destruct (shown_set _ _ _ (crt_pos s - 1) _ H1 ltac:(change CRT_SIZE with 2000; lia) H2) as [H3 H4].
      assert (He : CRT_COLS * top t + (crt_pos s - 1) = pos t - 1) by lia.
      simpl in H3. rewrite He in H3. split; [exact H3|]. etransitivity; [|exact H4]. done.
    - apply uwp_ret. done. }
  destruct (Z.eqb_spec (Z.land c 0xff) 10).
  { apply uwp_bind, set_crt_pos_uwp, set_crt_pos_uwp. simpl. change CRT_COLS with 80 in *.
    split; [|done]. rewrite (w16_small (crt_pos s + 80)) by lia. rewrite w16_small by zlia.
    replace (crt_pos s + 80 - (crt_pos s + 80) mod 80) with (80 * (pos t / 80 + 1) - 80 * top t) by zlia.
    apply (shown_move t s (80 * (pos t / 80 + 1))); [done|].
    change CRT_COLS with 80. change CRT_SIZE with 2000. zlia. }
  destruct (Z.eqb_spec (Z.land c 0xff) 13).
  { by apply carriage_return_uwp. }
  destruct (Z.eqb_spec (Z.land c 0xff) 9); [done|].
  apply uwp_bind, uwp_get. apply uwp_bind, set_crt_pos_uwp. rewrite w16_small by lia.
  set (s1 := s <| crt_pos := _ |>).
  assert (H1 : shown (t <| pos := pos t + 1 |>) s1).
  { unfold s1. replace (crt_pos s + 1) with (pos t + 1 - CRT_COLS * top t) by lia.
    apply shown_move; [done|]. change CRT_SIZE with 2000. lia. }
  eapply uwp_mono; [apply crt_set_drawn; [apply H1 | change CRT_SIZE with 2000; lia]|].
  after s2 H2. destruct (shown_set _ _ _ (crt_pos s) _ H1 ltac:(change CRT_SIZE with 2000; lia) H2) as [H3 H4].
  assert (He : CRT_COLS * top t + crt_pos s = pos t) by lia.
  simpl in H3. rewrite He in H3. split; [exact H3|]. etransitivity; [|exact H4]. done.
Qed.

(** What every output function does: the screen goes from [t] to [t'], the input side
    stays. *)
Definition prints (m : U (cons_state D) unit) (f : tty -> tty) : Prop :=
  forall t s, shows t s -> uwp m (fun _ s' => shows (f t) s' /\ input_same s s') s.

Lemma prints_seq m1 m2 f1 f2 :
  prints m1 f1 -> prints m2 f2 -> prints (m1;; m2) (fun t => f2 (f1 t)).
Proof.
  intros H1 H2 t s Hs. apply uwp_bind. eapply uwp_mono; [by apply H1|].
  after s1 Hs1. destruct Hs1 as [Hs1 Hi1]. eapply uwp_mono; [by apply H2|].
  after s2 Hs2. destruct Hs2. split; [done|]. by transitivity s1.
Qed.

Lemma cga_end t s :
  shown t s ->
  uwp (crt_scroll;; crt_cursor) (fun _ s' => shows (tty_follow t) s' /\ input_same s s') s.
Proof.
  intros Hs. apply uwp_bind. eapply uwp_mono; [by apply crt_scroll_shows|].
  after s1 H1. destruct H1 as [H1 Hi1]. eapply uwp_mono; [apply crt_cursor_quiet, H1|].
  after s2 H2. split; [by eapply quiet_shows|]. transitivity s1; [done | by apply quiet_input].
Qed.

Lemma cga_putc_char f c : Z.land c 0xff <> 9 -> prints (cga_putc f c) (tty_char c).
Proof.
  intros Hc t s Hs. unfold cga_putc. apply uwp_bind.
  eapply uwp_mono; [by apply cga_switch_uwp|]. after s1 H1. destruct H1 as [H1 Hi1].
  eapply uwp_mono; [by apply cga_end|]. after s2 H2. destruct H2. split; [done | by transitivity s1].
Qed.

Lemma quiet_prints m : (forall s, uwp m (fun _ => quiet s) s) -> prints m (fun t => t).
Proof.
  intros Hm t s Hs. eapply uwp_mono; [apply Hm|]. after s1 H1.
  split; [by eapply quiet_shows | by apply quiet_input].
Qed.

Lemma cons_putc_char d c : Z.land c 0xff <> 9 -> prints (cons_putc_at d c) (tty_char c).
Proof.
  intros Hc. destruct d; cbn [cons_putc_at];
    (apply (prints_seq _ _ (fun t => t)); [apply quiet_prints; intros; apply serial_putc_quiet|]);
    (apply (prints_seq _ _ (fun t => t)); [apply quiet_prints; intros; apply lpt_putc_quiet|]);
    by apply cga_putc_char.
Qed.

Lemma tty_follow_shows t s : shows t s -> tty_follow t = t.
Proof.
  intros [Hs Hlt]. pose proof (sh_pos _ _ Hs). unfold tty_follow.
  destruct (Z.geb_spec (pos t) (CRT_COLS * top t + CRT_SIZE)); [lia | done].
Qed.

Lemma cons_putc_prints c : prints (cons_putc c) (tty_put c).
Proof.
  unfold tty_put. destruct (Z.eqb_spec (Z.land c 0xff) 9) as [H9 | Hc];
    [|by apply cons_putc_char].
  unfold cons_putc. cbn [cons_putc_at].
  apply (prints_seq _ _ (fun t => t)); [apply quiet_prints; intros; apply serial_putc_quiet|].
  apply (prints_seq _ _ (fun t => t)); [apply quiet_prints; intros; apply lpt_putc_quiet|].
  intros t s Hs. unfold cga_putc. apply uwp_bind. unfold cga_switch.
  rewrite with_attribute_low, H9.
  change (9 =? 8) with false. change (9 =? 10) with false. change (9 =? 13) with false.
  change (9 =? 9) with true. cbv iota.
  assert (Hsp : prints (cons_putc_at 0 32) (tty_char 32)) by (by apply cons_putc_char).
  eapply uwp_mono;
    [eapply (prints_seq _ _ _ _ Hsp (prints_seq _ _ _ _ Hsp (prints_seq _ _ _ _ Hsp
      (prints_seq _ _ _ _ Hsp Hsp)))); exact Hs|].
  after s1 H1. destruct H1 as [H1 Hi1]. cbv beta in H1.
  eapply uwp_mono; [apply cga_end, H1|]. after s2 H2.
  destruct H2 as [H2 Hi2]. rewrite (tty_follow_shows _ _ H1) in H2.
  split; [exact H2 | by transitivity s1].
Qed.

Lemma cputs_prints cs : prints (cputs cs) (fun t => foldl (fun t c => tty_put c t) t cs).
Proof.
  induction cs as [|c cs IH]; cbn [cputs foldl].
  - intros t s Hs. apply uwp_ret. done.
  - apply (prints_seq _ _ (tty_put c) (fun t => foldl _ t cs)); [apply cons_putc_prints | exact IH].
Qed.

(** [ring s l]: the characters [l] wait in the ring. *)
Record ring (s : cons_state D) (l : list Z) : Prop := {
  r_short : Z.of_nat (length l) < CONSBUFSIZE;
  r_rpos : 0 <= rpos s < CONSBUFSIZE;
  r_wpos : wpos s = (rpos s + Z.of_nat (length l)) mod CONSBUFSIZE;
  r_at i c : l !! i = Some c -> buf s !! ((rpos s + Z.of_nat i) mod CONSBUFSIZE) = Some c;
}.

Definition ring_same s s' : Prop := buf s' = buf s /\ rpos s' = rpos s /\ wpos s' = wpos s.

Lemma ring_keep s s' l : ring_same s s' -> ring s l -> ring s' l.
Proof. intros (H1 & H2 & H3) [? ? ? ?]. constructor; rewrite ?H1, ?H2, ?H3; done. Qed.
Lemma input_same_ring s s' : input_same s s' -> ring_same s s'.
Proof. intros [? ? ? ? ? ? ?]. done. Qed.

Lemma cons_store_ring c s l :
  ring s l -> 0 <= c < 256 ->
  uwp (cons_store c) (fun _ s' =>
    (exists b w, s' = s <| buf := b |> <| wpos := w |>) /\ ring s' (kept (l ++ [c]))) s.
Proof.
  intros [Hs Hr Hw Ha] Hc. apply uwp_bind, uwp_put, uwp_put. simpl.
  change CONSBUFSIZE with 512 in *. unfold w8. rewrite Z.mod_small by lia.
  rewrite w32_small by zlia.
  assert (Hstored : forall i d, (l ++ [c]) !! i = Some d ->
    <[wpos s := c]> (buf s) !! ((rpos s + Z.of_nat i) mod 512) = Some d).
  { intros i d Hi. apply lookup_app_Some in Hi as [Hi | [Hge Hi]].
    - rewrite lookup_insert_ne; [by apply Ha|]. apply lookup_lt_Some in Hi. rewrite Hw. zlia.
    - apply list_lookup_singleton_Some in Hi as [Hi <-].
      replace (rpos s + Z.of_nat i) with (rpos s + Z.of_nat (length l)) by lia.
      rewrite <- Hw. apply lookup_insert_eq. }
  destruct (decide (Z.of_nat (length l) = 511)) as [Hfull | Hnf].
  - assert (Hk : kept (l ++ [c]) = []).
    { apply nil_length_inv, Nat2Z.inj. rewrite kept_length, length_app, Nat2Z.inj_add, Hfull. done. }
    rewrite Hk. split.
    + destruct (Z.eqb_spec (wpos s + 1) 512); simpl; eauto.
    + assert (Hw' : (if wpos s + 1 =? 512 then 0 else wpos s + 1) = rpos s).
      { rewrite Hw, Hfull. destruct (Z.eqb_spec ((rpos s + 511) mod 512 + 1) 512); zlia. }
      destruct (Z.eqb_spec (wpos s + 1) 512); constructor; simpl; change CONSBUFSIZE with 512;
        try done; try lia; rewrite Z.add_0_r, Z.mod_small by lia; done.
  - rewrite kept_small by (rewrite length_app, Nat2Z.inj_add; change CONSBUFSIZE with 512; simpl; lia).
    split; [destruct (Z.eqb_spec (wpos s + 1) 512); simpl; eauto|].
    destruct (Z.eqb_spec (wpos s + 1) 512); constructor; simpl; change CONSBUFSIZE with 512;
      try done; rewrite ?length_app, ?Nat2Z.inj_add; simpl; zlia.
Qed.

(** A device drained into the ring: [I q s] says [q] is what it has still to give. *)
Lemma cons_intr_ring rounds proc (I : list Z -> cons_state D -> Prop) :
  (forall q s b w, I q s -> I q (s <| buf := b |> <| wpos := w |>)) ->
  (forall s, I [] s -> uwp proc (fun c s' => c = -1 /\ I [] s' /\ ring_same s s') s) ->
  (forall c q s, I (c :: q) s ->
     uwp proc (fun c' s' => c' = c /\ 0 <= c < 256 /\ I q s' /\ ring_same s s') s) ->
  forall q l s, ring s l -> I q s -> (length q < rounds)%nat ->
  uwp (cons_intr rounds proc) (fun _ s' => ring s' (kept (l ++ nonzero q)) /\ I [] s') s.
Proof.
  intros Hst Hnil Hcons q. unfold cons_intr. generalize rounds. clear rounds.
  induction q as [|c q IH]; intros [|rounds] l s Hr HI Hlen; simpl in Hlen; try lia;
    cbn [uloop]; apply uwp_bind, uwp_bind.
  - eapply uwp_mono; [by apply Hnil|]. intros c s1 (-> & H1 & Hs1). apply uwp_ret, uwp_ret.
    unfold nonzero. simpl. rewrite app_nil_r, kept_small by apply Hr.
    split; [by eapply ring_keep | done].
  - eapply uwp_mono; [by apply Hcons|]. intros c' s1 (-> & Hc & H1 & Hs1).
    pose proof (ring_keep _ _ _ Hs1 Hr) as Hr1.
    destruct (Z.eqb_spec c (-1)); [lia|]. destruct (Z.eqb_spec c 0) as [-> | Hc0].
    + apply uwp_ret. unfold nonzero. rewrite filter_cons_False by auto.
      apply IH; [done | done | lia].
    + apply uwp_bind. eapply uwp_mono; [by apply cons_store_ring|].
      intros _ s2 [(b & w & ->) Hr2]. apply uwp_ret. unfold nonzero.
      rewrite filter_cons_True by done.
      replace (l ++ c :: filter (fun c => c <> 0) q) with ((l ++ [c]) ++ nonzero q)
        by (rewrite <- app_assoc; done).
      rewrite <- kept_app. apply IH; [done | by apply Hst | lia].
Qed.

(** ** The serial port and the keyboard *)

(** A read of a port takes something from a queue and leaves the rest of the state. *)
Record takes (s s' : cons_state D) : Prop := {
  tk_exists : serial_exists s' = serial_exists s;
  tk_shift : shift s' = shift s;
  tk_ring : ring_same s s';
  tk_shows t : shows t s -> shows t s';
}.
#[export] Instance takes_trans : Transitive takes.
Proof.
  intros s1 s2 s3 [? ? (? & ? & ?) ?] [? ? (? & ? & ?) ?].
  constructor; [congruence.. | repeat split; congruence | auto].
Qed.
Lemma quiet_takes s s' : quiet s s' -> takes s s'.
Proof.
  intros H. pose proof (quiet_input _ _ H) as Hi.
  constructor; [apply Hi | apply Hi | by apply input_same_ring | intros t; by apply quiet_shows].
Qed.
Lemma dev_takes s d :
  (forall i, 0 <= i < CRT_SIZE -> vmem_get (base + 2 * i) d = vmem_get (base + 2 * i) (dev s)) ->
  takes s (s <| dev := d |>).
Proof.
  intros Hd. constructor; try done. intros t [[? ? ? ? Hc ?] ?]. split; [|done].
  constructor; try done. intros i Hi. simpl. by rewrite Hd, Hc.
Qed.

(** A status port says that nothing is there, or that [b] is and the data port has it. *)
Lemma serial_proc_none s :
  serq base (dev s) = [] -> uwp serial_proc_data (fun c s' => c = -1 /\ quiet s s') s.
Proof.
  intros Hq. apply uwp_bind. unfold uwp at 1, inb. destruct (hw_lsr (dev s)) as [Hst Hsame].
  rewrite Hst, Hq. apply uwp_ret. split; [done | by eexists].
Qed.
Lemma serial_proc_some b q s :
  serq base (dev s) = b :: q ->
  uwp serial_proc_data (fun c s' => c = b /\ takes s s' /\ serq base (dev s') = q /\
    kbq base (dev s') = kbq base (dev s)) s.
Proof.
  intros Hq. apply uwp_bind. unfold uwp at 1, inb at 1. destruct (hw_lsr (dev s)) as [Hst Hsame].
  rewrite Hst, Hq. set (s1 := s <| dev := _ |>).
  assert (H1 : quiet s s1) by (eexists; done).
  destruct (hw_rx (dev s1) b q) as (d' & Hd & Hs & Hk & Hc).
  { transitivity (serq base (dev s)); [apply Hsame | exact Hq]. }
  rewrite bool_decide_false by done. cbn [negb]. unfold uwp, inb. rewrite Hd.
  split; [done|]. split; [|split; [exact Hs|]].
  - transitivity s1; [by apply quiet_takes | by apply dev_takes].
  - simpl. rewrite Hk. apply Hsame.
Qed.

Lemma kbd_proc_none s :
  kbq base (dev s) = [] -> uwp kbd_proc_data (fun c s' => c = -1 /\ quiet s s') s.
Proof.
  intros Hq. apply uwp_bind. unfold uwp at 1, inb. destruct (hw_kbstat (dev s)) as [Hst Hsame].
  rewrite Hst, Hq. apply uwp_ret. split; [done | by eexists].
Qed.

(** The end of [kbd_proc_data] may print, so the screen can change. *)
Record decodes (s s' : cons_state D) : Prop := {
  dc_exists : serial_exists s' = serial_exists s;
  dc_ring : ring_same s s';
  dc_serq : serq base (dev s') = serq base (dev s);
  dc_kbq : kbq base (dev s') = kbq base (dev s);
  dc_shows : exists t, shows t s';
}.

Lemma kbd_key_uwp data t s :
  shows t s ->
  uwp (kbd_key data) (fun c s' => (c, shift s') = key_code (shift s) data /\ decodes s s') s.
Proof.
  intros Hs. unfold kbd_key. apply uwp_bind, uwp_put, uwp_bind, uwp_put, uwp_bind, uwp_get. simpl.
  set (sh := w32 (Z.lxor _ _)). match goal with |- uwp _ _ ?x => set (s1 := x) end.
  assert (H1 : shows t s1) by (destruct Hs as [[? ? ? ? ? ?] ?]; done).
  set (c := if has sh CAPSLOCK then _ else _). apply uwp_bind.
  destruct (negb (has (Z.lnot sh) (Z.lor CTL ALT)) && (c =? KEY_DEL)).
  - apply uwp_bind. eapply uwp_mono; [apply cputs_prints, H1|]. after s2 H2.
    destruct H2 as [H2 Hi2]. apply uwp_bind. eapply uwp_mono; [apply cons_putc_prints, H2|].
    after s3 H3. destruct H3 as [H3 Hi3]. eapply uwp_mono; [apply outb_quiet; out_port|].
    after s4 H4. apply uwp_ret.
    pose proof (quiet_shows _ _ _ H4 H3) as Hs4.
    assert (Hi : input_same s1 s4)
      by (transitivity s3; [by transitivity s2 | by apply quiet_input]).
    split; [by rewrite (in_shift _ _ Hi)|].
    constructor; [apply Hi | apply (input_same_ring s1 s4 Hi) | apply Hi | apply Hi | by eexists].
  - apply uwp_ret, uwp_ret. split; [done|]. constructor; try done. by eexists.
Qed.

Lemma kbd_proc_some k b q t s :
  shows t s -> shift s = kbd_bits k -> kbq base (dev s) = b :: q ->
  uwp kbd_proc_data (fun c s' => c = (kbd_step k b).1 /\ 0 <= c < 256 /\
    shift s' = kbd_bits (kbd_step k b).2 /\ kbq base (dev s') = q /\
    serq base (dev s') = serq base (dev s) /\ serial_exists s' = serial_exists s /\
    ring_same s s' /\ exists t', shows t' s') s.
Proof.
  intros Ht Hsh Hq. apply uwp_bind. unfold uwp at 1, inb at 1.
  destruct (hw_kbstat (dev s)) as [Hst Hsame]. rewrite Hst, Hq. set (s1 := s <| dev := _ |>).
  assert (H1 : quiet s s1) by (eexists; done).
  destruct (hw_kbdata (dev s1) b q) as (d' & Hd & Hk & Hs & Hc).
  { transitivity (kbq base (dev s)); [apply Hsame | exact Hq]. }
  assert (Hb : 0 <= b < 256).
  { pose proof (hw_bytes (dev s)) as Hall. apply Forall_app in Hall as [_ Hall].
    rewrite Hq in Hall. by inversion Hall. }
  rewrite bool_decide_false by done. cbn [negb]. apply uwp_bind. unfold uwp at 1, inb at 1. rewrite Hd.
  cbn [fst snd]. set (s2 := s1 <| dev := d' |>).
  assert (H2 : takes s s2) by (transitivity s1; [by apply quiet_takes | by apply dev_takes]).
  apply uwp_bind, uwp_get.
  pose proof (tk_shows _ _ H2 _ Ht) as Ht2.
  assert (Hsh2 : shift s2 = kbd_bits k) by (rewrite (tk_shift _ _ H2); done).
  pose proof (kbd_check_at k b Hb) as Hck. unfold kbd_check in Hck. rewrite kbd_of_bits in Hck.
  destruct (kbd_step k b) as [c k'] eqn:Estep.
  assert (Hs2 : serq base (dev s2) = serq base (dev s)).
  { unfold s2. simpl. rewrite Hs. apply Hsame. }
  assert (Hdone : forall s3 sh, decodes s2 s3 -> shift s3 = sh -> kbd_bits k' = sh ->
    shift s3 = kbd_bits k' /\ kbq base (dev s3) = q /\
    serq base (dev s3) = serq base (dev s) /\ serial_exists s3 = serial_exists s /\
    ring_same s s3 /\ exists t', shows t' s3).
  { intros s3 sh [H3 (H4 & H5 & H6) H7 H8 H9] Hsh3 Hsh'. rewrite H3, H7, H8.
    destruct H2 as [-> _ (H10 & H11 & H12) _]. repeat split; try congruence; done. }
  rewrite <- Hsh2 in Hck. clearbody s2.
  assert (Hset : forall f, decodes s2 (s2 <| shift := f |>)).
  { intros f. constructor; try done. exists t. destruct Ht2 as [[? ? ? ? ? ?] ?]. done. }
  assert (Hkey : forall f data, (forall c1 sh1, key_code f data = (c1, sh1) ->
      c = c1 /\ kbd_bits k' = sh1 /\ 0 <= c < 256) ->
    uwp (kbd_key data) (fun c1 s' => c1 = c /\ 0 <= c1 < 256 /\ shift s' = kbd_bits k' /\
      kbq base (dev s') = q /\ serq base (dev s') = serq base (dev s) /\
      serial_exists s' = serial_exists s /\ ring_same s s' /\ exists t', shows t' s')
      (s2 <| shift := f |>)).
  { intros f data Hf. destruct (dc_shows _ _ (Hset f)) as [t2 Ht3].
    eapply uwp_mono; [exact (kbd_key_uwp data _ _ Ht3)|]. intros c1 s3 [Hc1 [? ? ? ? ?]].
    simpl in Hc1. destruct (Hf _ _ (eq_sym Hc1)) as (-> & Hb2 & Hr). split; [done|]. split; [done|].
    eapply Hdone; [by constructor | done | done]. }
  cbn [fst snd]. destruct (b =? 0xE0).
  { zbool. apply uwp_bind, uwp_put, uwp_ret. split; [done|]. split; [lia|].
    eapply Hdone; [apply Hset | done | done]. }
  destruct (has b 0x80).
  { zbool. apply uwp_bind, uwp_put, uwp_ret. split; [done|]. split; [lia|].
    eapply Hdone; [apply Hset | done | done]. }
  destruct (has (shift s2) E0ESC).
  - apply uwp_bind, uwp_put, Hkey. intros c1 sh1 E. rewrite E in Hck. zbool. lia.
  - replace s2 with (s2 <| shift := shift s2 |>) by (by destruct s2).
    apply Hkey. intros c1 sh1 E. rewrite E in Hck. zbool. lia.
Qed.

(** ** [cons_getc] *)

(** The keyboard has [q] to give, in the end in state [k']. *)
Definition kbd_gives e sq k' (q : list Z) s : Prop :=
  serial_exists s = e /\ serq base (dev s) = sq /\ (exists t, shows t s) /\
  exists k, shift s = kbd_bits k /\ kbd_chars k (kbq base (dev s)) = (q, k').

Lemma shows_ring t s b w : shows t s -> shows t (s <| buf := b |> <| wpos := w |>).
Proof. intros [[? ? ? ? ? ?] ?]. done. Qed.

Lemma kbd_intr_ring rounds e sq k' q l s :
  ring s l -> kbd_gives e sq k' q s -> (length q < rounds)%nat ->
  uwp (kbd_intr rounds) (fun _ s' => ring s' (kept (l ++ nonzero q)) /\ kbd_gives e sq k' [] s') s.
Proof.
  apply cons_intr_ring; clear q l s.
  - intros q s b w (? & ? & [t Ht] & k & ? & ?). repeat split; try done.
    + exists t. by apply shows_ring.
    + by exists k.
  - intros s (? & ? & [t Ht] & k & Hk & Hq). destruct (kbq base (dev s)) as [|b bs] eqn:Eq.
    2: { simpl in Hq. destruct (kbd_step k b) as [c k1], (kbd_chars k1 bs). done. }
    eapply uwp_mono; [by apply kbd_proc_none|]. intros c s1 [-> H1].
    pose proof (quiet_input _ _ H1) as Hi. split; [done|]. split; [|by apply input_same_ring].
    split; [by rewrite (in_exists _ _ Hi)|]. split; [by rewrite (in_serq _ _ Hi)|].
    split; [exists t; by eapply quiet_shows|]. exists k.
    by rewrite (in_shift _ _ Hi), (in_kbq _ _ Hi), Eq.
  - intros c q s (? & ? & [t Ht] & k & Hk & Hq). destruct (kbq base (dev s)) as [|b bs] eqn:Eq; [done|].
    simpl in Hq. destruct (kbd_step k b) as [c1 k1] eqn:Es, (kbd_chars k1 bs) as [cs k2] eqn:Ec.
    injection Hq as -> -> ->.
    eapply uwp_mono; [by apply (kbd_proc_some k b bs t)|]. rewrite Es. simpl.
    intros c' s1 (-> & Hc & Hsh & Hq & Hs & He & Hr & Ht'). split; [done|]. split; [done|].
    split; [|done]. split; [congruence|]. split; [congruence|]. split; [done|]. exists k1. by rewrite Hq.
Qed.

Definition serial_gives t e kb sh q s : Prop :=
  shows t s /\ serq base (dev s) = q /\ kbq base (dev s) = kb /\ serial_exists s = e /\ shift s = sh.

Lemma serial_ring rounds t e kb sh q l s :
  ring s l -> serial_gives t e kb sh q s -> (length q < rounds)%nat ->
  uwp (cons_intr rounds serial_proc_data) (fun _ s' =>
    ring s' (kept (l ++ nonzero q)) /\ serial_gives t e kb sh [] s') s.
Proof.
  apply cons_intr_ring; clear q l s.
  - intros q s b w (? & ? & ? & ? & ?). split; [by apply shows_ring | done].
  - intros s (Hs & Hq & Hk & He & Hsh). eapply uwp_mono; [by apply serial_proc_none|].
    intros c s1 [-> H1]. pose proof (quiet_input _ _ H1) as Hi. split; [done|].
    split; [|by apply input_same_ring]. split; [by eapply quiet_shows|].
    rewrite (in_serq _ _ Hi), (in_kbq _ _ Hi), (in_exists _ _ Hi), (in_shift _ _ Hi). done.
  - intros c q s (Hs & Hq & Hk & He & Hsh).
    assert (Hc : 0 <= c < 256).
    { pose proof (hw_bytes (dev s)) as Hall. apply Forall_app in Hall as [Hall _].
      rewrite Hq in Hall. by inversion Hall. }
    eapply uwp_mono; [by eapply serial_proc_some|].
    intros c' s1 (-> & [H1 H2 H3 H4] & H5 & H6). split; [done|]. split; [done|].
    split; [|done]. split; [by apply H4|]. rewrite H1, H2, H5, H6. done.
Qed.

Lemma kbd_chars_length k q : length (kbd_chars k q).1 = length q.
Proof.
  revert k. induction q as [|b q IH]; intros k; [done|]. cbn [kbd_chars].
  destruct (kbd_step k b) as [c k1]. specialize (IH k1). destruct (kbd_chars k1 q). simpl in *. lia.
Qed.

(** Taking the first character out of the ring. *)
Lemma ring_take s l :
  ring s l ->
  uwp (s ← uget id;
       if negb (rpos s =? wpos s) then
         let c := default 0 (buf s !! rpos s) in
         uput (fun s => s <| rpos := w32 (rpos s + 1) |>);;
         uput (fun s => if rpos s =? CONSBUFSIZE then s <| rpos := 0 |> else s);;
         mret c
       else mret 0)
    (fun c s' => c = default 0 (head l) /\ ring s' (tail l) /\ exists p, s' = s <| rpos := p |>) s.
Proof.
  intros Hr. pose proof Hr as [Hs Hp Hw Ha]. apply uwp_bind, uwp_get. unfold id.
  change CONSBUFSIZE with 512 in *. destruct l as [|c l].
  - simpl in Hw. rewrite Hw, Z.add_0_r, Z.mod_small, Z.eqb_refl by lia. apply uwp_ret.
    split; [done|]. split; [done|]. exists (rpos s). by destruct s.
  - simpl in Hs. destruct (Z.eqb_spec (rpos s) (wpos s)) as [He | Hne].
    { rewrite Hw in He. simpl in He. zlia. }
    pose proof (Ha 0%nat c eq_refl) as H0. rewrite Z.add_0_r, Z.mod_small in H0 by lia.
    simpl. rewrite H0. apply uwp_bind, uwp_put, uwp_bind, uwp_put, uwp_ret. split; [done|]. simpl.
    rewrite w32_small by lia.
    split; [|destruct (Z.eqb_spec (rpos s + 1) 512); eexists; reflexivity].
    assert (Hat : forall i d, l !! i = Some d -> buf s !! ((rpos s + 1 + Z.of_nat i) mod 512) = Some d).
    { intros i d Hi. rewrite <- (Ha (S i) d Hi). f_equal. f_equal. lia. }
    destruct (Z.eqb_spec (rpos s + 1) 512) as [E | E]; constructor; simpl;
      change CONSBUFSIZE with 512; try lia.
    + rewrite Hw. simpl. zlia.
    + intros i d Hi. rewrite <- (Hat i d Hi). f_equal. rewrite E. zlia.
    + rewrite Hw. simpl. f_equal. lia.
    + exact Hat.
Qed.

Lemma cons_getc_run rounds t l k s :
  shows t s -> ring s l -> shift s = kbd_bits k ->
  (length (serq base (dev s)) < rounds)%nat -> (length (kbq base (dev s)) < rounds)%nat ->
  let serial := if serial_exists s then nonzero (serq base (dev s)) else [] in
  let '(keys, k') := kbd_chars k (kbq base (dev s)) in
  let waiting := kept (l ++ serial ++ nonzero keys) in
  exists s', cons_getc rounds s = Ok (default 0 (head waiting)) s' /\
    ring s' (tail waiting) /\ shift s' = kbd_bits k' /\ kbq base (dev s') = [] /\
    serial_exists s' = serial_exists s /\
    serq base (dev s') = (if serial_exists s then [] else serq base (dev s)) /\
    exists t', shows t' s'.
Proof.
  intros Ht Hr Hsh Hls Hlk. cbv zeta. destruct (kbd_chars k (kbq base (dev s))) as [keys k'] eqn:Ek.
  pose proof (kbd_chars_length k (kbq base (dev s))) as Hlen. rewrite Ek in Hlen. simpl in Hlen.
  set (serial := if serial_exists s then _ else _).
  assert (H1 : uwp (serial_intr rounds) (fun _ s' => ring s' (kept (l ++ serial)) /\
    serial_gives t (serial_exists s) (kbq base (dev s)) (shift s)
      (if serial_exists s then [] else serq base (dev s)) s') s).
  { unfold serial_intr, serial. apply uwp_bind, uwp_get. destruct (serial_exists s) eqn:E.
    - by apply serial_ring.
    - apply uwp_ret. rewrite app_nil_r, kept_small by apply Hr. done. }
  enough (H : uwp (cons_getc rounds) (fun c s' =>
    c = default 0 (head (kept (l ++ serial ++ nonzero keys))) /\
    ring s' (tail (kept (l ++ serial ++ nonzero keys))) /\ shift s' = kbd_bits k' /\
    kbq base (dev s') = [] /\ serial_exists s' = serial_exists s /\
    serq base (dev s') = (if serial_exists s then [] else serq base (dev s)) /\
    exists t', shows t' s') s).
  { destruct (uwp_elim _ _ _ H) as (c & s' & -> & -> & H'). by exists s'. }
  apply uwp_bind. eapply uwp_mono; [exact H1|]. intros _ s1 [Hr1 (Ht1 & Hs1 & Hk1 & He1 & Hsh1)].
  apply uwp_bind. eapply uwp_mono.
  { apply (kbd_intr_ring rounds (serial_exists s) (serq base (dev s1)) k' keys); [exact Hr1 | | lia].
    split; [done|]. split; [done|]. split; [by exists t|]. exists k. rewrite Hsh1, Hk1. done. }
  intros _ s2 [Hr2 (He2 & Hs2 & [t' Ht'] & k2 & Hk2 & Hq2)].
  rewrite kept_app, <- app_assoc in Hr2.
  eapply uwp_mono; [by apply ring_take|]. intros c s3 (-> & Hr3 & p & ->). split; [done|].
  split; [done|]. destruct (kbq base (dev s2)) as [|b bs] eqn:Eq.
  2: { simpl in Hq2. destruct (kbd_step k2 b) as [? k3], (kbd_chars k3 bs). done. }
  injection Hq2 as ->. split; [done|]. split; [done|]. split; [done|]. split.
  - simpl. by rewrite Hs2.
  - exists t'. destruct Ht' as [[? ? ? ? ? ?] ?]. done.
Qed.

(** ** The theorems *)

(** C12. Any characters put on the console end up on the screen as on the tape: the screen is
    always the last [CRT_ROWS] rows of it, printing returns, and does not lose input. *)
Theorem console_screen_correct cs t s :
  shows t s ->
  exists s', cputs cs s = Ok tt s' /\
    shows (foldl (fun t c => tty_put c t) t cs) s' /\ input_same s s'.
Proof.
  intros Hs. destruct (uwp_elim _ _ _ (cputs_prints cs t s Hs)) as ([] & s' & H1 & H2).
  exists s'. done.
Qed.

(** C13. [cons_getc] first moves everything the devices have into the ring, and then returns
    the oldest character, or 0 if there is none: characters come out in the order they
    were received, those of the serial port before those of the keyboard, bytes that
    complete no character dropped; and whenever [CONSBUFSIZE] characters wait they are
    all forgotten ([kept]).  The loops end once the devices are drained. *)
Theorem cons_getc_correct rounds t l k s :
  shows t s -> ring s l -> shift s = kbd_bits k ->
  (length (serq base (dev s)) < rounds)%nat -> (length (kbq base (dev s)) < rounds)%nat ->
  let serial := if serial_exists s then nonzero (serq base (dev s)) else [] in
  let '(keys, k') := kbd_chars k (kbq base (dev s)) in
  let waiting := kept (l ++ serial ++ nonzero keys) in
  exists s', cons_getc rounds s = Ok (default 0 (head waiting)) s' /\
    ring s' (tail waiting) /\ shift s' = kbd_bits k' /\ kbq base (dev s') = [] /\
    serial_exists s' = serial_exists s /\
    serq base (dev s') = (if serial_exists s then [] else serq base (dev s)) /\
    exists t', shows t' s'.
Proof. apply cons_getc_run. Qed.
End screen.

(** ** Initialisation *)

Section init.
Context {D : Type} `{!PcDevices D} `{!ConsoleHw CGA_BUF}.
Implicit Types (s : cons_state D).

Definition on_screen (d : D) (i : Z) : Z :=
  if (0 <=? i) && (i <? CRT_SIZE) then vmem_get (CGA_BUF + 2 * i) d else blank.

(** With a colour adapter present [cga_init] finds it, puts back the cell it probed, and
    starts with the screen as it was, if the adapter's cursor is on it. *)
Lemma cga_init_correct s :
  exists s', cga_init s = Ok tt s' /\ input_same CGA_BUF s s' /\
    (crt_pos s' < CRT_SIZE -> shows CGA_BUF (mkTty (on_screen (dev s)) 0 (crt_pos s')) s').
Proof.
  enough (H : uwp cga_init (fun _ s' => input_same CGA_BUF s s' /\
    (crt_pos s' < CRT_SIZE -> shows CGA_BUF (mkTty (on_screen (dev s)) 0 (crt_pos s')) s')) s).
  { destruct (uwp_elim _ _ _ H) as ([] & s' & ? & ?). by exists s'. }
  apply uwp_bind, uwp_get, uwp_bind, uwp_put, uwp_bind, uwp_get. simpl.
  assert (H0 : 0 <= 0 < CRT_SIZE) by (vm_compute; split; discriminate || done).
  destruct (hw_set 0 0xA55A (dev s) H0 ltac:(lia)) as (Hs1 & Hk1 & Hv1 & Ho1).
  change (CGA_BUF + 2 * 0) with CGA_BUF in *. rewrite Hv1. cbn [Z.eqb negb Pos.eqb].
  set (d1 := vmem_set CGA_BUF 0xA55A (dev s)) in *.
  destruct (hw_set 0 (vmem_get CGA_BUF (dev s)) d1 H0 (hw_cell (base := CGA_BUF) 0 (dev s) H0)) as (Hs2 & Hk2 & Hv2 & Ho2).
  change (CGA_BUF + 2 * 0) with CGA_BUF in *.
  apply uwp_bind, uwp_bind, uwp_put, uwp_bind, uwp_put, uwp_ret. simpl.
  set (d2 := vmem_set CGA_BUF (vmem_get CGA_BUF (dev s)) d1) in *.
  apply uwp_bind, uwp_get. simpl.
  match goal with |- uwp _ _ ?x => set (s2 := x) end.
  assert (Hcells : forall i, 0 <= i < CRT_SIZE -> vmem_get (CGA_BUF + 2 * i) d2 = on_screen (dev s) i).
  { intros i Hi. unfold on_screen. in_window. destruct (decide (i = 0)) as [-> | Hne]; [done|].
    by rewrite Ho2, Ho1. }
  assert (Hi2 : input_same CGA_BUF s s2) by (constructor; simpl; congruence || done).
  assert (Hend : forall hi lo s3, quiet CGA_BUF s2 s3 ->
    uwp (uput (fun s => s <| crt_buf := CGA_BUF |> <| crt_pos := w16 (Z.lor (Z.shiftl hi 8) lo) |>))
      (fun _ s' => input_same CGA_BUF s s' /\ (crt_pos s' < CRT_SIZE ->
        shows CGA_BUF (mkTty (on_screen (dev s)) 0 (crt_pos s')) s')) s3).
  { intros hi lo s3 Hq. apply uwp_put. split.
    - transitivity s2; [done|]. destruct (quiet_input _ _ _ Hq). constructor; done.
    - destruct Hq as (d3 & -> & [_ _ Hc]). simpl. intros Hlt. split; [|done].
      pose proof (Z.mod_pos_bound (Z.lor (Z.shiftl hi 8) lo) (2 ^ 16) ltac:(lia)) as Hb.
      fold (w16 (Z.lor (Z.shiftl hi 8) lo)) in Hb.
      constructor; simpl; try done; [by right | lia | lia | |].
      + intros i Hi. rewrite Hc by done. simpl. by apply Hcells.
      + intros j Hj. unfold on_screen. in_window; done. }
  clearbody s2 d2 d1.
  apply uwp_bind. eapply uwp_mono; [apply (outb_quiet CGA_BUF); out_port|]. after s3 H3.
  apply uwp_bind. eapply uwp_mono; [apply (inb_quiet CGA_BUF); out_port|]. intros hi s4 H4.
  apply uwp_bind. eapply uwp_mono; [apply (outb_quiet CGA_BUF); out_port|]. after s5 H5.
  apply uwp_bind. eapply uwp_mono; [apply (inb_quiet CGA_BUF); out_port|]. intros lo s6 H6.
  apply Hend. transitivity s3; [done|]. transitivity s4; [done|]. by transitivity s5.
Qed.
End init.

(** ** Typing *)

(** The scan codes of the letters, in the order of the alphabet. *)
Definition letter_codes : list Z :=
  [30; 48; 46; 32; 18; 33; 34; 35; 23; 36; 37; 38; 50; 49; 24; 25; 16; 19; 31; 20; 22; 47; 17;
   45; 21; 44].

(** A letter key gives the letter, a capital if exactly one of shift and caps lock is in
    force, and its control character if control is held, whatever else is. *)
Lemma letter_typed k i code :
  letter_codes !! i = Some code -> k_e0 k = false ->
  kbd_step k code =
    (if k_ctl k then Z.of_nat i + 1
     else if xorb (k_shift k) (k_caps k) then 65 + Z.of_nat i else 97 + Z.of_nat i, k).
Proof.
  intros Hi He. destruct k as [ks kc ka kp kn kl ke]; simpl in He; subst ke.
  do 26 (destruct i as [|i]; [injection Hi as <-; destruct ks, kc, ka, kp, kn, kl; reflexivity|]).
  done.
Qed.

(** ** A concrete machine *)

Record pc := mkPc { p_ser : list Z; p_kbd : list Z; p_ram : gmap Z Z }.
#[export] Instance pc_eta : Eta pc := fun r => mkPc (p_ser r) (p_kbd r) (p_ram r).

Definition pc_inb (port : Z) (d : pc) : Z * pc :=
  if port =? COM1 + COM_LSR then (if bool_decide (p_ser d = []) then 0x20 else 0x21, d)
  else if port =? COM1 + COM_RX then (w8 (default 0 (head (p_ser d))), d <| p_ser := tail (p_ser d) |>)
  else if port =? KBSTATP then (if bool_decide (p_kbd d = []) then 0 else 1, d)
  else if port =? KBDATAP then (w8 (default 0 (head (p_kbd d))), d <| p_kbd := tail (p_kbd d) |>)
  else (0x80, d).

#[export] Instance pc_devices : PcDevices pc := {
  dev_inb := pc_inb;
  dev_outb _ _ d := d;
  vmem_get a d := w16 (default blank (p_ram d !! a));
  vmem_set a v d := d <| p_ram := <[a := v]> (p_ram d) |>;
}.

Lemma fmap_nil_bool (q : list Z) : bool_decide (w8 <$> q = []) = bool_decide (q = []).
Proof. destruct q; [done|]. rewrite !bool_decide_false; done. Qed.

#[export] Program Instance pc_hw : ConsoleHw (D := pc) CGA_BUF := {
  serq d := w8 <$> p_ser d;
  kbq d := w8 <$> p_kbd d;
}.
Next Obligation.
  intros d. cbv beta. rewrite <- fmap_app. apply Forall_fmap, Forall_true. intros b. apply Z.mod_pos_bound. lia.
Qed.
Next Obligation. intros i d _. apply Z.mod_pos_bound. lia. Qed.
Next Obligation.
  intros d. cbv beta. rewrite fmap_nil_bool. simpl. destruct (bool_decide _); (split; [done | by constructor]).
Qed.
Next Obligation.
  intros d b q Hq. destruct d as [[|c ser] kb ram]; [done|]. injection Hq as <- <-. by eexists.
Qed.
Next Obligation.
  intros d. cbv beta. rewrite fmap_nil_bool. simpl. destruct (bool_decide _); (split; [done | by constructor]).
Qed.
Next Obligation.
  intros d b q Hq. destruct d as [ser [|c kb] ram]; [done|]. injection Hq as <- <-. by eexists.
Qed.
Next Obligation.
  intros p d Hp. rewrite !elem_of_cons in Hp.
  destruct Hp as [-> | [-> | [-> | [-> | Hp]]]]; [by constructor .. | by apply elem_of_nil in Hp].
Qed.
Next Obligation. by constructor. Qed.
Next Obligation.
  intros i v d Hi Hv. simpl. split; [done|]. split; [done|]. rewrite lookup_insert_eq.
  split; [by apply w16_small|]. intros j Hj Hne. rewrite lookup_insert_ne by lia. done.
Qed.

(** Five hundred and fourteen characters have come in over the line, and somebody has
    typed shift and A. *)
Definition line : list Z := repeat 97 513 ++ [98].
Definition pc0 : pc := mkPc line [0x2A; 0x1E; 0x9E; 0xAA] ∅.
Definition cons0 : cons_state pc :=
  cons_static pc0 <| serial_exists := true |> <| crt_buf := CGA_BUF |> <| addr_6845 := CGA_BASE |>.
Definition tty0 : tty := mkTty (fun _ => blank) 0 0.
Definition kbd0 : kbd := kbd_of 0.

Lemma shows0 : shows CGA_BUF tty0 cons0.
Proof.
  split; [|done]. constructor; [done | by right | done | by vm_compute | | done].
  intros i _. simpl. by rewrite lookup_empty.
Qed.
Lemma ring0 : ring cons0 [].
Proof. by constructor. Qed.

Lemma console_screen_correct_witness :
  exists s', cputs (chars "ls") cons0 = Ok tt s' /\
    shows CGA_BUF (tty_put 115 (tty_put 108 tty0)) s' /\ input_same CGA_BUF cons0 s'.
Proof. exact (console_screen_correct CGA_BUF (chars "ls") tty0 cons0 shows0). Defined.

Lemma cons_getc_correct_witness :
  exists s', cons_getc 600 cons0 = Ok 97 s' /\ ring s' [98; 65] /\ shift s' = 0.
Proof.
  assert (H1 : (length (serq CGA_BUF (dev cons0)) < 600)%nat) by (apply Nat.ltb_lt; vm_compute; reflexivity).
  assert (H2 : (length (kbq CGA_BUF (dev cons0)) < 600)%nat) by (apply Nat.ltb_lt; vm_compute; reflexivity).
  pose proof (cons_getc_correct CGA_BUF 600 tty0 [] kbd0 cons0 shows0 ring0 eq_refl H1 H2) as H.
  cbv zeta in H. destruct (kbd_chars kbd0 (kbq CGA_BUF (dev cons0))) as [keys k'] eqn:Ek.
  assert (Ek' : kbd_chars kbd0 (kbq CGA_BUF (dev cons0)) = ([0; 65; 0; 0], kbd0)) by (vm_compute; reflexivity).
  rewrite Ek in Ek'. injection Ek' as -> ->.
  assert (Hw : kept ([] ++ (if serial_exists cons0 then nonzero (serq CGA_BUF (dev cons0)) else []) ++
    nonzero [0; 65; 0; 0]) = [97; 98; 65]) by (vm_compute; reflexivity).
  rewrite Hw in H. destruct H as (s' & Hc & Hr & Hs & _). exists s'. exact (conj Hc (conj Hr Hs)).
Defined.
