(* ===== verification/Malloc.v ===== *)
(** * The user library's allocator ([lib/malloc.c])

    [malloc] scans an arena of the address space for unmapped pages and carves small
    chunks out of one page; the last word of a page counts the chunks in it, and the pages
    before the last one of a large chunk carry a bit in their page-table entries.

    The state is the program's memory and its page table, as [uvpd] and [uvpt] show it.
    The two system calls do to it what [sys_page_alloc] and [sys_page_unmap] of the kernel
    model do to the caller's address space (SysThms): whether the kernel finds a free page
    depends on the rest of the machine, and is a parameter. *)

From S2P Require Import Prelude Mem Mmu KState UState.

Definition MAXMALLOC : Z := 1024 * 1024.
Definition PTE_CONTINUED : Z := 0x400.
Definition mbegin : Z := 0x08000000.
Definition mend : Z := 0x10000000.

(** [pt] holds the permission bits of the mapped pages, by address. *)
Record heap := mkHeap { hmem : memory; pt : gmap Z Z; mptr : Z }.
#[export] Instance heap_eta : Eta heap := fun r => mkHeap (hmem r) (pt r) (mptr r).

(** Whether the kernel has a page for this call. *)
Class PhysMem := page_left : heap -> Z -> bool.

Section malloc.
Context `{PhysMem}.

Definition page_of (a : Z) : Z := a - a mod PGSIZE.

(** ** The system calls and the memory *)

Definition sys_page_alloc (va perm : Z) : U heap Z := fun h =>
  if (va >=? UTOP) || negb (va mod PGSIZE =? 0) then Ok (- E_INVAL) h
  else if page_left h va then
    Ok 0 (h <| pt := <[va := perm]> (pt h) |>
            <| hmem := stbytes (hmem h) va (repeat 0 (Z.to_nat PGSIZE)) |>)
  else Ok (- E_NO_MEM) h.
Definition sys_page_unmap (va : Z) : U heap unit := fun h =>
  if (va >=? UTOP) || negb (va mod PGSIZE =? 0) then Ok tt h
  else Ok tt (h <| pt := delete va (pt h) |>).

(** [uvpt[PGNUM(va)]]. *)
Definition uvpt (va : Z) : U heap Z := fun h =>
  match pt h !! page_of va with
  | Some pte => Ok pte h
  | None => Stops (Fault (w32 (UVPT + 4 * PGNUM va))) h
  end.

Definition load32 (a : Z) : U heap Z := fun h =>
  match pt h !! page_of a with
  | Some pte => if has pte PTE_P then Ok (ld32 (hmem h) a) h else Stops (Fault a) h
  | None => Stops (Fault a) h
  end.
Definition store32 (a v : Z) : U heap unit := fun h =>
  match pt h !! page_of a with
  | Some pte =>
      if has pte PTE_P && has pte PTE_W then Ok tt (h <| hmem := st32 (hmem h) a v |>)
      else Stops (Fault a) h
  | None => Stops (Fault a) h
  end.

Definition uassert (b : bool) (msg : string) : U heap unit := if b then mret tt else upanic msg.
Definition set_mptr (p : Z) : U heap unit := uput (fun h => h <| mptr := p |>).

(** ** [isfree] *)

(** The test of one page: both [uvpd] and [uvpt] say it is there. *)
Definition is_mapped (va : Z) (h : heap) : bool :=
  match pt h !! page_of va with Some pte => has pte PTE_P | None => false end.

Definition isfree (v n : Z) : U heap bool :=
  let end_va := w32 (v + n) in
  uloop (S (S (Z.to_nat ((end_va - v) / PGSIZE)))) (fun va =>
    if va <? end_va then
      m ← uget (is_mapped va);
      mret (if (va >=? mend) || m then inr false else inl (w32 (va + PGSIZE)))
    else mret (inr true)) v.

(** ** [free] *)

Definition arena_pages : nat := Z.to_nat ((mend - mbegin) / PGSIZE).

(** [if (--( *ref) == 0) sys_page_unmap(0, c);] *)
Definition drop_ref (c : Z) : U heap unit :=
  let ref := w32 (c + PGSIZE - 4) in
  r ← load32 ref;
  store32 ref (w32 (r - 1));;
  if w32 (r - 1) =? 0 then sys_page_unmap c else mret tt.

(** Unmap the pages that are marked, up to the one that is not. *)
Definition unmap_continued (c : Z) : U heap Z :=
  uloop (S arena_pages) (fun c =>
    pte ← uvpt c;
    if has pte PTE_CONTINUED then
      sys_page_unmap c;;
      let c := w32 (c + PGSIZE) in
      uassert ((mbegin <=? c) && (c <? mend)) "mbegin <= c && c < mend";;
      mret (inl c)
    else mret (inr c)) c.

Definition free (v : Z) : U heap unit :=
  if v =? 0 then mret tt
  else
    uassert ((mbegin <=? v) && (v <? mend)) "mbegin <= (uint8_t*) v && (uint8_t*) v < mend";;
    c ← unmap_continued (ROUNDDOWN v PGSIZE);
    drop_ref c.

(** ** [malloc] *)

(** Find room: twice round the arena at most.  [inr true] leaves [mptr] there. *)
Definition malloc_scan (n : Z) : U heap bool :=
  uloop (2 * (arena_pages + Z.to_nat (2 ^ 20))) (fun nwrap : Z =>
    p ← uget mptr;
    f ← isfree p (w32 (n + 4));
    if f : bool then mret (inr true)
    else
      set_mptr (w32 (p + PGSIZE));;
      p ← uget mptr;
      if p =? mend then
        set_mptr mbegin;;
        mret (if nwrap + 1 =? 2 then inr false else inl (nwrap + 1))
      else mret (inl nwrap)) 0.

(** [for (; i >= 0; i -= PGSIZE) sys_page_unmap(0, mptr + i);] *)
Definition malloc_undo (p i : Z) : U heap unit :=
  uloop (S (S (Z.to_nat (i / PGSIZE)))) (fun i =>
    if i >=? 0 then sys_page_unmap (w32 (p + i));; mret (inl (i - PGSIZE)) else mret (inr tt)) i.

(** Map the pages; [None] when there is no memory. *)
Definition malloc_map (n : Z) : U heap (option Z) :=
  uloop (S (S (Z.to_nat ((n + 4) / PGSIZE)))) (fun i =>
    if i <? w32 (n + 4) then
      let cont := if i + PGSIZE <? w32 (n + 4) then PTE_CONTINUED else 0 in
      p ← uget mptr;
      r ← sys_page_alloc (w32 (p + i)) (Z.lor (Z.lor (Z.lor PTE_P PTE_U) PTE_W) cont);
      if r <? 0 then malloc_undo p i;; mret (inr None)
      else mret (inl (i + PGSIZE))
    else mret (inr (Some i))) 0.

Definition malloc_pages (n : Z) : U heap Z :=
  found ← malloc_scan n;
  if negb found then mret 0
  else
    o ← malloc_map n;
    match o with
    | None => mret 0
    | Some i =>
        v ← uget mptr;
        store32 (w32 (v + i - 4)) 2;;
        set_mptr (w32 (v + n));;
        mret v
    end.

(** Try the page that is being carved up; [None]: move on. *)
Definition malloc_carve (n : Z) : U heap (option Z) :=
  p ← uget mptr;
  if negb (p mod PGSIZE =? 0) then
    let ref := w32 (ROUNDUP p PGSIZE - 4) in
    if p / PGSIZE =? w32 (p + n - 1 + 4) / PGSIZE then
      r ← load32 ref;
      store32 ref (w32 (r + 1));;
      set_mptr (w32 (p + n));;
      mret (Some p)
    else
      free p;;
      set_mptr (ROUNDDOWN (p + PGSIZE) PGSIZE);;
      mret None
  else mret None.

Definition malloc (n : Z) : U heap Z :=
  p ← uget mptr;
  (if p =? 0 then set_mptr mbegin else mret tt);;
  let n := ROUNDUP n 4 in
  if n >=? MAXMALLOC then mret 0
  else
    o ← malloc_carve n;
    match o with
    | Some v => mret v
    | None => malloc_pages n
    end.
End malloc.
