(* ===== verification/MallocThms.v ===== *)
(** * The allocator hands out disjoint memory

    [heap_inv live h]: the chunks [live] (start and size) are mapped, apart from each
    other and from the reference words, and every page's count is at least the number of
    chunks that end in it, so that [free] never unmaps a page in use. *)

From S2P Require Import Prelude Mem Mmu KState UState Malloc.

(** The permissions of the last page of a chunk, and of those before it. *)
Definition PERM : Z := 7.
Definition CPERM : Z := 0x407.

(** The page with the reference word of the chunk of [n] bytes at [v]. *)
Definition last_page (v n : Z) : Z := page_of (v + n + 3).
Definition ref_at (h : heap) (c : Z) : Z := ld32 (hmem h) (c + 4092).

(** The page being carved up, if [mptr] is inside one. *)
Definition is_open (h : heap) (c : Z) : bool :=
  negb (mptr h mod PGSIZE =? 0) && (page_of (mptr h) =? c).
Definition counted (live : gmap Z Z) (c : Z) : Z :=
  Z.of_nat (size (filter (fun p => last_page p.1 p.2 = c) live)).

Record block_ok (h : heap) (v n : Z) : Prop := {
  bk_size : 0 < n /\ n mod 4 = 0;
  bk_start : mbegin <= v /\ v mod 4 = 0;
  bk_end : v + n + 4 <= mend;
  bk_shape : page_of v = last_page v n \/ v mod PGSIZE = 0;
  bk_cont c : c mod PGSIZE = 0 -> page_of v <= c < last_page v n -> pt h !! c = Some CPERM;
  bk_last : pt h !! last_page v n = Some PERM;
}.

(** [extra] counts references that are about to be dropped. *)
Record hinv (live : gmap Z Z) (extra : Z -> Z) (h : heap) : Prop := {
  hi_mptr : mptr h = 0 \/ (mbegin <= mptr h < mend /\ mptr h mod 4 = 0);
  hi_block v n : live !! v = Some n -> block_ok h v n;
  hi_apart v n v' n' : live !! v = Some n -> live !! v' = Some n' -> v <> v' ->
    v + n <= v' \/ v' + n' <= v;
  hi_refs c : c mod PGSIZE = 0 -> 0 < counted live c + Z.b2z (is_open h c) + extra c ->
    counted live c + Z.b2z (is_open h c) + extra c <= ref_at h c /\
    4 * ref_at h c <= (if is_open h c then mptr h - c else PGSIZE) + 8;
  hi_open : mptr h mod PGSIZE <> 0 -> pt h !! page_of (mptr h) = Some PERM /\
    forall v n, live !! v = Some n -> v + n <= mptr h \/ page_of (mptr h) + PGSIZE <= v;
}.
Definition none (c : Z) : Z := 0.
Definition one (c0 c : Z) : Z := if c =? c0 then 1 else 0.
Definition heap_inv (live : gmap Z Z) (h : heap) : Prop := hinv live none h.

(** The bytes of the chunks are as they were. *)
Definition same_data (live : gmap Z Z) (h h' : heap) : Prop :=
  forall v n a, live !! v = Some n -> v <= a < v + n -> ld8 (hmem h') a = ld8 (hmem h) a.

(** ** Pages *)

Ltac pages := unfold last_page, page_of in *; change PGSIZE with 4096 in *; zlia.

Lemma page_of_mod a : page_of a mod PGSIZE = 0.
Proof. pages. Qed.
Lemma page_of_page c : c mod PGSIZE = 0 -> page_of c = c.
Proof. pages. Qed.
Lemma page_of_ref c : c mod PGSIZE = 0 -> page_of (c + 4092) = c.
Proof. pages. Qed.

Section inv.
Implicit Types (live : gmap Z Z) (h : heap).

(** Every byte of a chunk is in one of its pages, and not in the last word of the last. *)
Lemma block_byte h v n a :
  block_ok h v n -> v <= a < v + n ->
  page_of v <= page_of a <= last_page v n /\
  (page_of a = last_page v n -> a < last_page v n + 4092).
Proof. intros [[? ?] [? ?] ? ? _ _] Ha. pages. Qed.

Lemma block_mapped h v n a :
  block_ok h v n -> v <= a < v + n ->
  pt h !! page_of a = Some CPERM \/ pt h !! page_of a = Some PERM.
Proof.
  intros Hb Ha. destruct (block_byte _ _ _ _ Hb Ha) as [[H1 H2] _].
  destruct (decide (page_of a = last_page v n)) as [-> | Hne]; [right; apply Hb | left].
  apply Hb; [apply page_of_mod | lia].
Qed.

(** A reference word is in no chunk. *)
Lemma ref_apart h v n c a :
  block_ok h v n -> c mod PGSIZE = 0 -> pt h !! c = Some PERM ->
  c + 4092 <= a < c + 4096 -> ~ v <= a < v + n.
Proof.
  intros Hb Hc Hp Ha Hin. destruct (block_byte _ _ _ _ Hb Hin) as [[H1 H2] H3].
  assert (Hpa : page_of a = c) by pages. rewrite Hpa in *.
  destruct (decide (c = last_page v n)) as [-> | Hne]; [specialize (H3 eq_refl); lia|].
  rewrite (bk_cont _ _ _ Hb c) in Hp by (done || lia). done.
Qed.

(** ** Counting *)

Lemma counted_insert live v n c :
  live !! v = None -> counted (<[v := n]> live) c = counted live c + one (last_page v n) c.
Proof.
  intros Hv. unfold counted, one. destruct (Z.eqb_spec c (last_page v n)) as [-> | Hne].
  - rewrite map_filter_insert_True by done. rewrite map_size_insert_None; [lia|].
    apply map_lookup_filter_None. auto.
  - rewrite map_filter_insert_False by (simpl; congruence). rewrite delete_id by done. lia.
Qed.
Lemma counted_delete live v n c :
  live !! v = Some n -> counted live c = counted (delete v live) c + one (last_page v n) c.
Proof.
  intros Hv. rewrite <- (insert_delete_id live v n Hv) at 1.
  apply counted_insert, lookup_delete_eq.
Qed.
Lemma counted_pos live c : 0 < counted live c -> exists v n, live !! v = Some n /\ last_page v n = c.
Proof.
  unfold counted. intros Hp. destruct (map_choose (filter (fun p => last_page p.1 p.2 = c) live)) as (v & n & H).
  - intros He. rewrite He, map_size_empty in Hp. lia.
  - apply map_lookup_filter_Some in H as [H1 H2]. eauto.
Qed.
Lemma counted_nonneg live c : 0 <= counted live c.
Proof. unfold counted. lia. Qed.

Lemma same_data_refl live h : same_data live h h.
Proof. done. Qed.
Lemma same_data_trans live h1 h2 h3 : same_data live h1 h2 -> same_data live h2 h3 -> same_data live h1 h3.
Proof. intros H1 H2 v n a Hv Ha. by rewrite (H2 v n a Hv Ha), (H1 v n a Hv Ha). Qed.
Lemma same_data_sub live live' h h' : live' ⊆ live -> same_data live h h' -> same_data live' h h'.
Proof. intros Hs H v n a Hv. apply H. by eapply lookup_weaken. Qed.

Lemma block_frame h h' v n :
  (forall c, page_of v <= c <= last_page v n -> pt h' !! c = pt h !! c) ->
  block_ok h v n -> block_ok h' v n.
Proof.
  intros Hf [? ? ? ? Hc Hl]. constructor; try done.
  - intros c Hm Hr. rewrite Hf by lia. by apply Hc.
  - rewrite Hf; [done|]. pages.
Qed.

(** A reference word changes, within the bounds its page allows. *)
Lemma set_ref live x x' h c r p :
  hinv live x (h <| mptr := p |>) -> c mod PGSIZE = 0 -> pt h !! c = Some PERM -> 0 <= r < 2 ^ 32 ->
  (forall c', c' <> c -> x' c' = x c') ->
  (0 < counted live c + Z.b2z (is_open (h <| mptr := p |>) c) + x' c ->
    counted live c + Z.b2z (is_open (h <| mptr := p |>) c) + x' c <= r /\
    4 * r <= (if is_open (h <| mptr := p |>) c then p - c else PGSIZE) + 8) ->
  let h' := h <| hmem := st32 (hmem h) (c + 4092) r |> in
  hinv live x' (h' <| mptr := p |>) /\ same_data live h h' /\ ref_at h' c = r.
Proof.
  intros [Hm Hb Ha Hr Ho] Hc Hp Hrr Hx Hcc h'.
  assert (Hrc : ref_at h' c = r).
  { unfold ref_at, h'. simpl. rewrite ld32_st32_eq. by apply w32_small. }
  split; [|split; [|exact Hrc]].
  - constructor; try done.
    + intros v n Hv. destruct (Hb v n Hv). by constructor.
    + intros c' Hm' H0. change (is_open (h' <| mptr := p |>) c') with (is_open (h <| mptr := p |>) c') in *.
      change (mptr (h' <| mptr := p |>)) with p.
      change (ref_at (h' <| mptr := p |>) c') with (ref_at h' c').
      destruct (decide (c' = c)) as [-> | Hne]; [rewrite Hrc; auto|].
      rewrite (Hx c' Hne) in *. pose proof (Hr c' Hm' H0) as Hr'.
      change (ref_at (h <| mptr := p |>) c') with (ref_at h c') in Hr'.
      assert (He : ref_at h' c' = ref_at h c').
      { unfold ref_at, h'. simpl. apply ld32_st32_ne.
        pages. }
      rewrite He. exact Hr'.
  - intros v n a Hv Hin. unfold h'. simpl. rewrite ld8_st32.
    destruct ((c + 4092 <=? a) && (a <? c + 4092 + 4)) eqn:E; [|done]. zbool. exfalso.
    refine (ref_apart (h <| mptr := p |>) v n c a (Hb v n Hv) Hc Hp _ Hin). lia.
Qed.

(** A page that nothing refers to goes away. *)
Lemma drop_page live x h c :
  hinv live x h -> c mod PGSIZE = 0 ->
  (forall v n, live !! v = Some n -> ~ page_of v <= c <= last_page v n) ->
  is_open h c = false -> hinv live x (h <| pt := delete c (pt h) |>).
Proof.
  intros [Hm Hb Ha Hr Ho] Hc Hn Hop. constructor; try done.
  - intros v n Hv. eapply block_frame; [|by apply Hb]. intros c' Hc'. simpl.
    rewrite lookup_delete_ne; [done|]. intros ->. by apply (Hn v n Hv).
  - simpl. intros Hne. destruct (Ho Hne) as [Hp Hl]. split; [|done].
    rewrite lookup_delete_ne; [done|]. intros ->. unfold is_open in Hop.
    rewrite Z.eqb_refl, andb_true_r in Hop. apply negb_false_iff, Z.eqb_eq in Hop. done.
Qed.

(** A last page with no chunk that ends in it is in no chunk. *)
Lemma uncounted_unused live x h c :
  hinv live x h -> pt h !! c = Some PERM -> c mod PGSIZE = 0 -> counted live c = 0 ->
  forall v n, live !! v = Some n -> ~ page_of v <= c <= last_page v n.
Proof.
  intros Hi Hp Hm Hc v n Hv Hr. pose proof (hi_block _ _ _ Hi v n Hv) as Hb.
  destruct (decide (c = last_page v n)) as [-> | Hne].
  - rewrite (counted_delete live v n _ Hv) in Hc. unfold one in Hc. rewrite Z.eqb_refl in Hc.
    pose proof (counted_nonneg (delete v live) (last_page v n)). lia.
  - rewrite (bk_cont _ _ _ Hb c) in Hp by (done || lia). done.
Qed.

(** ** Running the accesses *)

Lemma heap_uvpt_run h va pte : pt h !! page_of va = Some pte -> uvpt va h = Ok pte h.
Proof. intros H. unfold uvpt. by rewrite H. Qed.
Lemma load_ref_run h c :
  c mod PGSIZE = 0 -> pt h !! c = Some PERM -> load32 (c + 4092) h = Ok (ref_at h c) h.
Proof. intros Hc Hp. unfold load32. by rewrite page_of_ref, Hp. Qed.
Lemma store_ref_run h c v :
  c mod PGSIZE = 0 -> pt h !! c = Some PERM ->
  store32 (c + 4092) v h = Ok tt (h <| hmem := st32 (hmem h) (c + 4092) v |>).
Proof. intros Hc Hp. unfold store32. by rewrite page_of_ref, Hp. Qed.
Lemma unmap_run h c :
  c mod PGSIZE = 0 -> c < mend -> sys_page_unmap c h = Ok tt (h <| pt := delete c (pt h) |>).
Proof.
  intros Hc Hlt. unfold sys_page_unmap. rewrite Hc. change UTOP with 0xEEC00000.
  change mend with 0x10000000 in Hlt. destruct (Z.geb_spec c 0xEEC00000); [lia | done].
Qed.

Lemma ref_range live x h c :
  hinv live x h -> c mod PGSIZE = 0 -> 0 < counted live c + Z.b2z (is_open h c) + x c ->
  0 < ref_at h c <= 1026.
Proof.
  intros Hi Hm Hp. destruct (hi_refs _ _ _ Hi c Hm Hp) as [H1 H2].
  destruct (is_open h c) eqn:E; [|change PGSIZE with 4096 in *; lia].
  unfold is_open in E. apply andb_true_iff in E as [_ E]. apply Z.eqb_eq in E. pages.
Qed.

(** One reference is dropped, and the page with the last one. *)
Lemma drop_ref_ok live x h c p :
  hinv live (fun c' => x c' + one c c') (h <| mptr := p |>) ->
  c mod PGSIZE = 0 -> mbegin <= c < mend -> pt h !! c = Some PERM -> 0 <= x c ->
  uwp (drop_ref c) (fun _ h' => hinv live x (h' <| mptr := p |>) /\ same_data live h h' /\
    mptr h' = mptr h) h.
Proof.
  intros Hi Hc Hr Hp Hx. change mbegin with 0x08000000 in *. change mend with 0x10000000 in *.
  set (op := is_open (h <| mptr := p |>) c). pose proof (counted_nonneg live c) as Hcn.
  assert (Hpos : 0 < counted live c + Z.b2z op + (x c + one c c)).
  { unfold one. rewrite Z.eqb_refl. destruct op; simpl; lia. }
  destruct (hi_refs _ _ _ Hi c Hc Hpos) as [H1 H2].
  pose proof (ref_range _ _ _ _ Hi Hc Hpos) as Hrr.
  change (ref_at (h <| mptr := p |>) c) with (ref_at h c) in *. fold op in H1, H2.
  change (mptr (h <| mptr := p |>)) with p in H2.
  unfold one in H1. rewrite Z.eqb_refl in H1.
  unfold drop_ref. change PGSIZE with 4096 in *.
  replace (w32 (c + 4096 - 4)) with (c + 4092) by (rewrite w32_small; lia).
  apply uwp_bind. eapply uwp_intro; [by apply load_ref_run|].
  rewrite w32_small by lia.
  apply uwp_bind. eapply uwp_intro; [by apply store_ref_run|].
  destruct (set_ref live _ x h c (ref_at h c - 1) p Hi Hc Hp) as (H3 & H4 & H5); [lia | | |].
  { intros c' Hne. unfold one. destruct (Z.eqb_spec c' c); [done | lia]. }
  { fold op. change PGSIZE with 4096. lia. }
  set (h1 := h <| hmem := _ |>) in *. destruct (Z.eqb_spec (ref_at h c - 1) 0) as [Hz | Hnz].
  - eapply uwp_intro; [apply unmap_run; [done | change mend with 0x10000000; lia]|].
    split; [|done]. change (h1 <| pt := delete c (pt h1) |> <| mptr := p |>) with
      ((h1 <| mptr := p |>) <| pt := delete c (pt (h1 <| mptr := p |>)) |>).
    assert (Hc0 : counted live c = 0 /\ op = false) by (destruct op; simpl in *; lia || (split; [lia | done])).
    destruct Hc0 as [Hc0 Hop]. apply drop_page; [done | done | | exact Hop].
    by apply (uncounted_unused live x (h1 <| mptr := p |>)).
  - apply uwp_ret. done.
Qed.

(** ** [free] *)

(** The pages before the last one of a chunk belong to it alone. *)
Lemma cont_unused live x h v n c :
  hinv live x h -> live !! v = Some n -> c mod PGSIZE = 0 -> page_of v <= c < last_page v n ->
  (forall v' n', delete v live !! v' = Some n' -> ~ page_of v' <= c <= last_page v' n') /\
  is_open h c = false.
Proof.
  intros Hi Hv Hc Hr. pose proof (hi_block _ _ _ Hi v n Hv) as Hb.
  pose proof (bk_cont _ _ _ Hb c Hc Hr) as Hp. split.
  - intros v' n' Hv' Hr'. apply lookup_delete_Some in Hv' as [Hne Hv'].
    pose proof (hi_block _ _ _ Hi v' n' Hv') as Hb'.
    destruct (hi_apart _ _ _ Hi v n v' n' Hv Hv' Hne) as [Hle | Hle].
    + destruct Hb as [[? ?] [? ?] ? _ _ _]. pages.
    + assert (Hsame : c = last_page v' n').
      { destruct Hb as [[? ?] [? ?] ? [Hs | Hs] _ _]; [lia|].
        destruct Hb' as [[? ?] [? ?] ? _ _ _]. pages. }
      rewrite Hsame, (bk_last _ _ _ Hb') in Hp. done.
  - unfold is_open. destruct (Z.eqb_spec (mptr h mod PGSIZE) 0) as [|Hm]; [done|]. simpl.
    apply Z.eqb_neq. intros <-. destruct (hi_open _ _ _ Hi Hm) as [Hp' _]. rewrite Hp in Hp'. done.
Qed.

(** A chunk is forgotten; its page keeps the reference for now. *)
Lemma forget live h v n :
  heap_inv live h -> live !! v = Some n ->
  hinv (delete v live) (fun c => none c + one (last_page v n) c) h.
Proof.
  intros [Hm Hb Ha Hr Ho] Hv. constructor; try done.
  - intros v' n' Hv'. apply lookup_delete_Some in Hv' as [_ Hv']. by apply Hb.
  - intros v1 n1 v2 n2 H1 H2. apply lookup_delete_Some in H1 as [_ H1], H2 as [_ H2]. by apply Ha.
  - intros c Hc H0. pose proof (Hr c Hc) as Hr'.
    rewrite (counted_delete live v n c Hv) in Hr'. unfold none in *. lia.
  - intros Hne. destruct (Ho Hne) as [Hp Hl]. split; [done|]. intros v' n' Hv'.
    apply lookup_delete_Some in Hv' as [_ Hv']. by apply Hl.
Qed.

Lemma unmap_continued_ok live h v n :
  heap_inv live h -> live !! v = Some n ->
  uwp (unmap_continued (page_of v)) (fun c h' => c = last_page v n /\
    hinv (delete v live) (fun c => none c + one (last_page v n) c) h' /\
    pt h' !! last_page v n = Some PERM /\ hmem h' = hmem h /\ mptr h' = mptr h) h.
Proof.
  intros Hi Hv. pose proof (hi_block _ _ _ Hi v n Hv) as Hb.
  assert (Harena : mbegin <= page_of v /\ page_of v <= last_page v n < mend).
  { destruct Hb as [[? ?] [? ?] ? _ _ _]. change mbegin with 0x08000000 in *.
    change mend with 0x10000000 in *. pages. }
  apply (uwp_loop _ (fun c h1 => c mod PGSIZE = 0 /\ page_of v <= c <= last_page v n /\
    hinv (delete v live) (fun c => none c + one (last_page v n) c) h1 /\
    (forall c', c <= c' -> pt h1 !! c' = pt h !! c') /\ hmem h1 = hmem h /\ mptr h1 = mptr h)
    (fun c => Z.to_nat ((last_page v n - c) / PGSIZE))).
  - intros c h1 (Hc & Hr & H1 & Hpt & Hme & Hmp). apply uwp_bind.
    destruct (decide (c = last_page v n)) as [-> | Hne].
    + eapply uwp_intro; [apply heap_uvpt_run; rewrite page_of_page, Hpt by (done || lia); apply (bk_last _ _ _ Hb)|].
      change (has PERM PTE_CONTINUED) with false. apply uwp_ret.
      cbv beta iota. rewrite Hpt by lia. split; [done|]. split; [done|]. split; [apply (bk_last _ _ _ Hb) | done].
    + assert (Hlt : page_of v <= c < last_page v n) by lia.
      eapply uwp_intro.
      { apply heap_uvpt_run. rewrite page_of_page, Hpt by (done || lia). by apply Hb. }
      change (has CPERM PTE_CONTINUED) with true. cbv iota.
      destruct (cont_unused _ _ _ _ _ _ Hi Hv Hc Hlt) as [Hun Hop].
      apply uwp_bind. eapply uwp_intro; [apply unmap_run; [done | lia]|].
      assert (Hnext : (c + PGSIZE) mod PGSIZE = 0 /\ c + PGSIZE <= last_page v n) by pages.
      change mbegin with 0x08000000 in *. change mend with 0x10000000 in *.
      change PGSIZE with 4096 in *. rewrite w32_small by lia.
      assert (Hass : (0x08000000 <=? c + 4096) && (c + 4096 <? 0x10000000) = true)
        by (apply andb_true_iff; rewrite Z.leb_le, Z.ltb_lt; lia).
      cbv zeta. rewrite Hass. apply uwp_bind, uwp_ret, uwp_ret.
      split; [|apply Z2Nat.inj_lt; zlia].
      split; [tauto|]. split; [lia|]. split; [|split; [|done]].
      * apply drop_page; [done | done | done |]. unfold is_open in *. by rewrite Hmp.
      * intros c' Hc'. simpl. rewrite lookup_delete_ne by lia. apply Hpt. lia.
  - split; [apply page_of_mod|]. split; [lia|]. split; [by apply forget|]. done.
  - unfold arena_pages. change mbegin with 0x08000000 in *. change mend with 0x10000000 in *.
    change PGSIZE with 4096. change ((0x10000000 - 0x08000000) / 4096) with 32768. zlia.
Qed.

Lemma free_ok live h v n :
  heap_inv live h -> live !! v = Some n ->
  uwp (free v) (fun _ h' => heap_inv (delete v live) h' /\ same_data (delete v live) h h' /\
    mptr h' = mptr h) h.
Proof.
  intros Hi Hv. pose proof (hi_block _ _ _ Hi v n Hv) as Hb.
  assert (Hr : 0x08000000 <= v < 0x10000000 /\ 0x08000000 <= last_page v n < 0x10000000).
  { destruct Hb as [[? ?] [? ?] ? _ _ _]. change mbegin with 0x08000000 in *.
    change mend with 0x10000000 in *. pages. }
  unfold free. destruct (Z.eqb_spec v 0); [lia|].
  assert (Hass : (mbegin <=? v) && (v <? mend) = true).
  { apply andb_true_iff. rewrite Z.leb_le, Z.ltb_lt. exact (proj1 Hr). }
  rewrite Hass. apply uwp_bind, uwp_ret.
  rewrite ROUNDDOWN_spec by (done || lia). change (v - v mod PGSIZE) with (page_of v).
  apply uwp_bind. eapply uwp_mono; [by apply unmap_continued_ok|].
  intros c h1 (-> & H1 & Hp & Hme & Hmp).
  eapply uwp_mono.
  { apply (drop_ref_ok (delete v live) none h1 (last_page v n) (mptr h1)).
    - destruct h1. exact H1.
    - apply page_of_mod.
    - exact (proj2 Hr).
    - exact Hp.
    - unfold none. lia. }
  intros [] h2 (H2 & Hs & Hm2). split; [|split; [|congruence]].
  - rewrite <- Hm2 in H2. destruct h2. exact H2.
  - intros v' n' a Hv' Ha. rewrite (Hs v' n' a Hv' Ha), Hme. done.
Qed.

(** ** Carving up a page *)

(** The arena has a page after the one being carved up. *)
Definition not_last (h : heap) : Prop := page_of (mptr h) + PGSIZE < mend.

Lemma close_page live h :
  heap_inv live h -> mptr h mod PGSIZE <> 0 -> not_last h ->
  uwp (free (mptr h)) (fun _ h' =>
    heap_inv live (h' <| mptr := page_of (mptr h) + PGSIZE |>) /\ same_data live h h') h.
Proof.
  intros Hi Hm Hl. set (p := mptr h) in *. set (o := page_of p).
  destruct (hi_open _ _ _ Hi Hm) as [Hp Hbelow].
  assert (Hr : 0x08000000 <= p < 0x10000000).
  { destruct (hi_mptr _ _ _ Hi) as [H0 | [H0 _]]; [|exact H0].
    fold p in H0. rewrite H0 in Hm. done. }
  assert (Ho : 0x08000000 <= o <= p /\ p < o + 4096 /\ o mod PGSIZE = 0 /\ o + 4096 < 0x10000000).
  { unfold not_last in Hl. change mend with 0x10000000 in Hl. fold p in Hl. unfold o. pages. }
  unfold free. destruct (Z.eqb_spec p 0); [lia|].
  assert (Hass : (mbegin <=? p) && (p <? mend) = true).
  { apply andb_true_iff. rewrite Z.leb_le, Z.ltb_lt. exact Hr. }
  rewrite Hass. apply uwp_bind, uwp_ret.
  rewrite ROUNDDOWN_spec by (done || lia). change (p - p mod PGSIZE) with o.
  apply uwp_bind. eapply uwp_intro.
  { apply uloop_stop.
    erewrite ubind_run by (apply heap_uvpt_run; rewrite page_of_page by tauto; exact Hp).
    exact eq_refl. }
  eapply uwp_mono.
  { apply (drop_ref_ok live none h o (o + PGSIZE)).
    - destruct Hi as [_ Hb Ha Hrf _]. constructor; try done.
      + right. change PGSIZE with 4096. change mbegin with 0x08000000. change mend with 0x10000000.
        simpl. destruct Ho as (? & ? & Hom & ?). change PGSIZE with 4096 in Hom. zlia.
      + intros v m Hv. destruct (Hb v m Hv). by constructor.
      + intros c Hc H0.
        assert (Hcl : forall q, is_open (h <| mptr := o + PGSIZE |>) q = false).
        { intros q. unfold is_open. simpl. apply andb_false_iff. left.
          apply negb_false_iff, Z.eqb_eq. destruct Ho as (? & ? & Hom & ?).
          change PGSIZE with 4096 in *. zlia. }
        rewrite Hcl in *. change (ref_at (h <| mptr := o + PGSIZE |>) c) with (ref_at h c).
        pose proof (Hrf c Hc) as Hr'.
        assert (Hop : Z.b2z (is_open h c) = one o c).
        { unfold is_open, one. fold p o. destruct (Z.eqb_spec (p mod PGSIZE) 0); [done|].
          simpl. rewrite Z.eqb_sym. by destruct (c =? o). }
        rewrite Hop in Hr'. unfold none in *. simpl in *. split; [lia|].
        destruct (is_open h c) eqn:E; [|lia]. simpl in Hop. fold p in Hr'.
        unfold one in Hop. destruct (Z.eqb_spec c o) as [-> |]; [|done].
        unfold one in *. rewrite Z.eqb_refl in *. change PGSIZE with 4096. lia.
      + simpl. intros Hne. destruct Ho as (? & ? & Hom & ?). change PGSIZE with 4096 in *. zlia.
    - tauto.
    - change mbegin with 0x08000000. change mend with 0x10000000. lia.
    - exact Hp.
    - unfold none. lia. }
  intros [] h' (H1 & H2 & _). done.
Qed.

(** A new chunk at [v] with everything in use below it, or above its last page. *)
Lemma add_block live h h' v n :
  let last := last_page v n in
  let open := negb ((v + n) mod PGSIZE =? 0) in
  heap_inv live h -> live !! v = None -> block_ok h' v n -> mptr h' = v + n ->
  (forall v' n', live !! v' = Some n' ->
     block_ok h' v' n' /\ (v' + n' <= v \/ last + PGSIZE <= v')) ->
  (forall c, c mod PGSIZE = 0 -> c <> last -> 0 < counted live c -> ref_at h' c = ref_at h c) ->
  counted live last + 1 + Z.b2z open <= ref_at h' last ->
  4 * ref_at h' last <= (if open then v + n - last else PGSIZE) + 8 ->
  heap_inv (<[v := n]> live) h'.
Proof.
  intros last op Hi Hv Hb Hm Hot Href H1 H2. pose proof Hb as [[Hn0 Hn4] [Hv0 Hv4] Hend _ _ Hpl].
  assert (Hlast : v + n = last + (v + n) mod PGSIZE) by (unfold last; pages).
  assert (Hopen : forall c, is_open h' c = op && (last =? c)).
  { intros c. unfold is_open, op. rewrite Hm. destruct (Z.eqb_spec ((v + n) mod PGSIZE) 0); [done|].
    simpl. f_equal. unfold page_of. lia. }
  constructor.
  - right. rewrite Hm. change mbegin with 0x08000000 in *. change mend with 0x10000000 in *. zlia.
  - intros v' n' Hv'. apply lookup_insert_Some in Hv' as [[<- <-] | [_ Hv']]; [done | by apply Hot].
  - intros v1 n1 v2 n2 Hv1 Hv2 Hne.
    assert (Hone : forall v' n', live !! v' = Some n' -> v + n <= v' \/ v' + n' <= v).
    { intros v' n' Hv'. destruct (Hot v' n' Hv') as [_ Hap]. change PGSIZE with 4096 in *. zlia. }
    apply lookup_insert_Some in Hv1 as [[<- <-] | [_ Hv1]], Hv2 as [[<- <-] | [_ Hv2]].
    + done.
    + by apply Hone.
    + destruct (Hone _ _ Hv1); auto.
    + by apply (hi_apart _ _ _ Hi).
  - intros c Hc. rewrite counted_insert by done. fold last. unfold none, one. rewrite Hopen.
    destruct (Z.eqb_spec c last) as [-> | Hne].
    + rewrite Z.eqb_refl, andb_true_r, Hm. intros _. split; [lia | exact H2].
    + destruct (Z.eqb_spec last c); [congruence|]. rewrite andb_false_r. simpl. intros H0.
      rewrite Href by (done || lia).
      pose proof (hi_refs _ _ _ Hi c Hc) as Hr. unfold none in Hr.
      destruct (is_open h c) eqn:E; simpl in Hr; [|lia].
      apply andb_true_iff in E as [_ E]. apply Z.eqb_eq in E. pages.
  - rewrite Hm. intros Hne. replace (page_of (v + n)) with last by (unfold page_of; lia).
    split; [done|]. intros v' n' Hv'.
    apply lookup_insert_Some in Hv' as [[<- <-] | [_ Hv']]; [lia|].
    destruct (Hot v' n' Hv') as [_ Hap]. lia.
Qed.

(** The result of trying the carved page: the chunk, or a page-aligned [mptr]. *)
Definition carved live n (o : option Z) (h h' : heap) : Prop :=
  match o with
  | Some v => heap_inv (<[v := n]> live) h' /\ live !! v = None
  | None => heap_inv live h' /\ mptr h' mod PGSIZE = 0 /\ mbegin <= mptr h' < mend
  end /\ same_data live h h'.

Lemma carve_here live h n :
  let p := mptr h in let o := page_of p in
  heap_inv live h -> p mod PGSIZE <> 0 -> 0 < n -> n mod 4 = 0 -> last_page p n = o ->
  let h' := h <| hmem := st32 (hmem h) (o + 4092) (ref_at h o + 1) |> <| mptr := p + n |> in
  pt h !! o = Some PERM /\ ref_at h o < 2 ^ 32 - 1 /\
  heap_inv (<[p := n]> live) h' /\ live !! p = None /\ same_data live h h'.
Proof.
  intros p o Hi Hm Hn Hn4 Hlast h'. destruct (hi_open _ _ _ Hi Hm) as [Hp Hbelow].
  fold p in Hp, Hbelow. fold o in Hp, Hbelow.
  assert (Ho : o mod PGSIZE = 0) by apply page_of_mod.
  assert (Hop : is_open h o = true).
  { unfold is_open. fold p. rewrite Z.eqb_refl, andb_true_r. apply negb_true_iff, Z.eqb_neq. done. }
  pose proof (counted_nonneg live o) as Hcn.
  destruct (hi_refs _ _ _ Hi o Ho) as [H1 H2]; [rewrite Hop; unfold none; simpl; lia|].
  rewrite Hop in H1, H2. unfold none in H1. simpl in H1. cbv iota in H2. fold p in H2.
  assert (Hn4' : 4 <= n) by zlia.
  assert (Hpr : mbegin <= p < mend /\ p mod 4 = 0).
  { destruct (hi_mptr _ _ _ Hi) as [H0 | H0]; [|exact H0]. fold p in H0. rewrite H0 in Hm. done. }
  assert (Hin : o <= p < o + 4096 /\ p + n + 3 < o + 4096) by (unfold o in *; pages).
  assert (Hr : ref_at h o < 2 ^ 32 - 1) by lia.
  assert (Hfresh : live !! p = None).
  { destruct (live !! p) as [m|] eqn:E; [|done].
    pose proof (bk_size _ _ _ (hi_block _ _ _ Hi p m E)).
    destruct (Hbelow p m E); [lia|]. change PGSIZE with 4096 in *. lia. }
  assert (Hsame : same_data live h h').
  { intros v m a Hv Ha. unfold h'. simpl. rewrite ld8_st32.
    destruct ((o + 4092 <=? a) && (a <? o + 4092 + 4)) eqn:E; [|done]. zbool. exfalso.
    refine (ref_apart h v m o a (hi_block _ _ _ Hi v m Hv) Ho Hp _ Ha). lia. }
  split; [done|]. split; [done|]. split; [|done].
  assert (Hro : ref_at h' o = ref_at h o + 1).
  { unfold ref_at at 1, h'. simpl. rewrite ld32_st32_eq. apply w32_small. lia. }
  apply (add_block live h); rewrite ?Hlast; try done.
  - constructor; rewrite ?Hlast; try done.
    + split; [lia | tauto].
    + change mend with 0x10000000 in *. change PGSIZE with 4096 in Ho. zlia.
    + by left.
    + intros c _ Hc. fold o in Hc. lia.
  - intros v m Hv. split; [destruct (hi_block _ _ _ Hi v m Hv); by constructor | by apply Hbelow].
  - intros c Hc Hne _. unfold ref_at, h'. simpl. apply ld32_st32_ne. change PGSIZE with 4096 in *. zlia.
  - rewrite Hro. destruct (Z.eqb_spec ((p + n) mod PGSIZE) 0); simpl; lia.
  - rewrite Hro. destruct (Z.eqb_spec ((p + n) mod PGSIZE) 0); simpl; change PGSIZE with 4096 in *; [|lia].
    zlia.
Qed.

Context `{PhysMem}.

Lemma malloc_carve_ok live h n :
  heap_inv live h -> mptr h <> 0 -> (mptr h mod PGSIZE <> 0 -> not_last h) ->
  0 < n < MAXMALLOC -> n mod 4 = 0 ->
  uwp (malloc_carve n) (fun o h' => carved live n o h h') h.
Proof.
  intros Hi Hz Hl Hn Hn4. change MAXMALLOC with 1048576 in *.
  destruct (hi_mptr _ _ _ Hi) as [H0 | [Hpr Hp4]]; [done|].
  unfold malloc_carve. apply uwp_bind, uwp_get.
  destruct (Z.eqb_spec (mptr h mod PGSIZE) 0) as [Hm | Hm]; [by apply uwp_ret|].
  specialize (Hl Hm). cbn [negb]. set (p := mptr h) in *. set (o := page_of p).
  assert (Ho : o mod PGSIZE = 0) by apply page_of_mod.
  assert (Hp : 0x08000000 <= p < 0x10000000) by exact Hpr.
  assert (Hup : w32 (ROUNDUP p PGSIZE - 4) = o + 4092).
  { rewrite ROUNDUP_spec by (change PGSIZE with 4096; lia). unfold o in *. rewrite w32_small; pages. }
  rewrite (w32_small (p + n - 1 + 4)) by lia.
  destruct (Z.eqb_spec (p / PGSIZE) ((p + n - 1 + 4) / PGSIZE)) as [He | He].
  - assert (Hlast : last_page p n = o) by (unfold o; pages).
    destruct (carve_here live h n Hi Hm) as (Hpt & Hr & Hi' & Hf & Hs); [lia | done | done |].
    fold p in Hpt, Hr, Hi', Hf. fold o in Hpt, Hr, Hi'. rewrite Hup. pose proof (ld32_bound (hmem h) (o + 4092)) as Hb.
    fold (ref_at h o) in Hb.
    apply uwp_bind. eapply uwp_intro; [by apply load_ref_run|].
    rewrite w32_small by lia.
    apply uwp_bind. eapply uwp_intro; [by apply store_ref_run|].
    rewrite w32_small by lia.
    apply uwp_bind, uwp_put, uwp_ret. split; [split; [exact Hi' | exact Hf] | exact Hs].
  - apply uwp_bind. eapply uwp_mono; [by apply close_page|]. intros [] h1 [H1 H2].
    fold p in H1. fold o in H1.
    assert (Hrd : ROUNDDOWN (p + PGSIZE) PGSIZE = o + PGSIZE).
    { rewrite ROUNDDOWN_spec by (change PGSIZE with 4096; lia). unfold o. pages. }
    rewrite Hrd. apply uwp_bind, uwp_put, uwp_ret. split; [|exact H2]. split; [exact H1|].
    simpl. unfold not_last in Hl. fold p in Hl. fold o in Hl.
    change mend with 0x10000000 in *. change mbegin with 0x08000000. change PGSIZE with 4096 in *.
    unfold o in *. pages.
Qed.

(** ** Looking for room *)

(** The pages from [p] to [q] are not mapped. *)
Definition vacant (p q : Z) (h : heap) : Prop :=
  forall c, c mod PGSIZE = 0 -> p <= c < q -> c < mend /\ is_mapped c h = false.

Lemma isfree_ok p m h :
  p mod PGSIZE = 0 -> 0 <= p < mend -> 0 < m <= MAXMALLOC + 4 ->
  uwp (isfree p m) (fun b h' => h' = h /\ (b = true -> vacant p (p + m) h)) h.
Proof.
  intros Hp Hr Hm. change MAXMALLOC with 1048576 in *. change mend with 0x10000000 in Hr.
  unfold isfree. rewrite w32_small by lia.
  apply (uwp_loop _ (fun va h' => h' = h /\ va mod PGSIZE = 0 /\ p <= va < p + m + 4096 /\ vacant p va h)
    (fun va => Z.to_nat ((p + m - va) / PGSIZE + 1))).
  - intros va h1 (-> & Hva & Hrange & Hv). destruct (Z.ltb_spec va (p + m)) as [Hlt | Hge].
    + apply uwp_bind, uwp_get. apply uwp_ret.
      destruct ((va >=? mend) || is_mapped va h) eqn:E; [done|].
      apply orb_false_iff in E as [E1 E2]. rewrite Z.geb_leb, Z.leb_gt in E1.
      change PGSIZE with 4096 in *. rewrite w32_small by lia. split.
      * split; [done|]. split; [zlia|]. split; [lia|]. intros c Hc Hcr.
        destruct (decide (c = va)) as [-> | Hne]; [done|]. apply Hv; [done|].
        change PGSIZE with 4096 in *. zlia.
      * zlia.
    + apply uwp_ret. split; [done|]. intros _ c Hc Hcr. apply Hv; [done | lia].
  - split; [done|]. split; [done|]. split; [lia|]. intros c Hc Hcr. lia.
  - change PGSIZE with 4096 in *. zlia.
Qed.

Lemma move_mptr live h q :
  heap_inv live h -> mptr h mod PGSIZE = 0 -> q mod PGSIZE = 0 -> mbegin <= q < mend ->
  heap_inv live (h <| mptr := q |>).
Proof.
  intros [Hm Hb Ha Hr Ho] Hp Hq Hqr.
  assert (Hcl : forall r c, r mod PGSIZE = 0 -> is_open (h <| mptr := r |>) c = false).
  { intros r c Hr0. unfold is_open. simpl. by rewrite Hr0. }
  assert (Hcl0 : forall c, is_open h c = false) by (intros c; unfold is_open; by rewrite Hp).
  constructor; try done.
  - right. split; [done|]. simpl. change PGSIZE with 4096 in Hq. zlia.
  - intros v n Hv. destruct (Hb v n Hv). by constructor.
  - intros c Hc. rewrite Hcl by done. pose proof (Hr c Hc) as H1. rewrite Hcl0 in H1. exact H1.
Qed.

Lemma malloc_scan_ok h n :
  mptr h mod PGSIZE = 0 -> mbegin <= mptr h < mend -> 0 <= n < MAXMALLOC ->
  uwp (malloc_scan n) (fun b h' => exists q, h' = h <| mptr := q |> /\ q mod PGSIZE = 0 /\
    mbegin <= q < mend /\ (b = true -> vacant q (q + (n + 4)) h)) h.
Proof.
  intros Hm Hr Hn. change mbegin with 0x08000000 in *. change mend with 0x10000000 in *.
  unfold malloc_scan.
  apply (uwp_loop_state _ (fun nwrap h' => 0 <= nwrap < 2 /\ exists q, h' = h <| mptr := q |> /\
      q mod PGSIZE = 0 /\ 0x08000000 <= q < 0x10000000)
    (fun nwrap h' => Z.to_nat ((2 - nwrap) * 32768 + (0x10000000 - mptr h') / PGSIZE))).
  - intros k h1 (Hk & q & -> & Hq & Hqr). apply uwp_bind, uwp_get. simpl.
    apply uwp_bind. rewrite w32_small by (change MAXMALLOC with 1048576 in *; lia).
    eapply uwp_mono; [apply isfree_ok; [done | change mend with 0x10000000; lia | lia]|].
    intros b h2 [-> Hv]. destruct b.
    + apply uwp_ret. exists q. split; [done|]. split; [done|]. split; [done|]. intros _.
      intros c Hc Hcr. destruct (Hv eq_refl c Hc Hcr). done.
    + apply uwp_bind, uwp_put, uwp_bind, uwp_get. simpl. change PGSIZE with 4096 in *.
      rewrite w32_small by lia. destruct (Z.eqb_spec (q + 4096) mend) as [He | Hne];
        change mend with 0x10000000 in *.
      * apply uwp_bind, uwp_put, uwp_ret. destruct (Z.eqb_spec (k + 1) 2).
        -- exists mbegin. done.
        -- split; [split; [lia|]; exists mbegin; done|]. simpl. change mbegin with 0x08000000. zlia.
      * apply uwp_ret. split; [split; [lia|]; exists (q + 4096); split; [done | zlia]|].
        simpl. zlia.
  - split; [lia|]. exists (mptr h). split; [by destruct h | done].
  - unfold arena_pages. change mbegin with 0x08000000. change mend with 0x10000000.
    change PGSIZE with 4096. change ((0x10000000 - 0x08000000) / 4096) with 32768.
    change (2 ^ 20) with 1048576. zlia.
Qed.

(** ** Mapping the room found *)

(** No chunk and no carved page is in vacant pages. *)
Lemma vacant_apart live h p q v n :
  heap_inv live h -> p mod PGSIZE = 0 -> p < q -> vacant p q h -> live !! v = Some n ->
  last_page v n < p \/ q <= page_of v.
Proof.
  intros Hi Hp Hpq Hv Hvn. pose proof (hi_block _ _ _ Hi v n Hvn) as Hb.
  destruct (decide (last_page v n < p)) as [|H1]; [by left|].
  destruct (decide (q <= page_of v)) as [|H2]; [by right|]. exfalso.
  assert (Hord : page_of v <= last_page v n) by (destruct Hb as [[? ?] [? ?] ? _ _ _]; pages).
  set (c := Z.max p (page_of v)).
  assert (Hc : c mod PGSIZE = 0) by (unfold c; pages).
  assert (Hcr : p <= c < q /\ page_of v <= c <= last_page v n) by (unfold c; lia). clearbody c.
  destruct (Hv c Hc) as [_ Hun]; [lia|]. unfold is_mapped in Hun. rewrite page_of_page in Hun by done.
  destruct (decide (c = last_page v n)) as [He | Hne].
  - rewrite He, (bk_last _ _ _ Hb) in Hun. done.
  - rewrite (bk_cont _ _ _ Hb c) in Hun by (done || lia). done.
Qed.

Lemma vacant_not_perm p q h c :
  vacant p q h -> c mod PGSIZE = 0 -> pt h !! c = Some PERM -> ~ p <= c < q.
Proof.
  intros Hv Hc Hp Hr. destruct (Hv c Hc Hr) as [_ Hun]. unfold is_mapped in Hun.
  by rewrite page_of_page, Hp in Hun.
Qed.

(** A page with references is mapped as the last page of a chunk. *)
Lemma in_use_perm live h c :
  heap_inv live h -> 0 < counted live c + Z.b2z (is_open h c) + none c -> pt h !! c = Some PERM.
Proof.
  intros Hi H0. unfold none in H0. destruct (is_open h c) eqn:E.
  - unfold is_open in E. apply andb_true_iff in E as [E1 E2].
    apply negb_true_iff, Z.eqb_neq in E1. apply Z.eqb_eq in E2. subst c. by apply (hi_open _ _ _ Hi).
  - destruct (counted_pos live c) as (v & n & Hvn & <-); [simpl in H0; lia|].
    apply (bk_last _ _ _ (hi_block _ _ _ Hi v n Hvn)).
Qed.

(** What happens in vacant pages does not touch the heap. *)
Lemma heap_frame live h h' p q :
  heap_inv live h -> p mod PGSIZE = 0 -> q mod PGSIZE = 0 -> p < q -> vacant p q h ->
  mptr h' = mptr h ->
  (forall c, ~ p <= c < q -> pt h' !! c = pt h !! c) ->
  (forall a, ~ p <= a < q -> ld8 (hmem h') a = ld8 (hmem h) a) ->
  heap_inv live h' /\ same_data live h h'.
Proof.
  intros Hi Hp Hq Hpq Hv Hm Hpt Hme. pose proof Hi as [H1 Hb Ha Hr Ho].
  assert (Hblk : forall v n, live !! v = Some n -> block_ok h' v n).
  { intros v n Hvn. eapply block_frame; [|by apply Hb]. intros c Hc. apply Hpt.
    destruct (vacant_apart _ _ _ _ _ _ Hi Hp Hpq Hv Hvn); lia. }
  assert (Hop : forall c, is_open h' c = is_open h c) by (intros c; unfold is_open; by rewrite Hm).
  assert (Hopen : mptr h mod PGSIZE <> 0 -> pt h' !! page_of (mptr h) = Some PERM).
  { intros Hne. destruct (Ho Hne) as [Hpo _]. rewrite Hpt; [done|].
    eapply vacant_not_perm; [done | apply page_of_mod | done]. }
  split.
  - constructor; rewrite ?Hm; try done.
    + intros c Hc H0. rewrite Hop in *.
      pose proof (in_use_perm _ _ _ Hi H0) as Hperm.
      pose proof (vacant_not_perm _ _ _ _ Hv Hc Hperm) as Hout.
      assert (He : ref_at h' c = ref_at h c).
      { unfold ref_at, ld32. rewrite !Hme by pages. done. }
      rewrite He. by apply Hr.
    + intros Hne. split; [by apply Hopen | by apply Ho].
  - intros v n a Hvn Hin. apply Hme. destruct (block_byte _ _ _ _ (Hb v n Hvn) Hin) as [Hpg _].
    destruct (vacant_apart _ _ _ _ _ _ Hi Hp Hpq Hv Hvn); pages.
Qed.

(** [i] bytes from [p] are mapped, of the [n + 4] that are needed. *)
Record mapping (p n i : Z) (h h' : heap) : Prop := {
  mg_mptr : mptr h' = mptr h;
  mg_in c : c mod PGSIZE = 0 -> p <= c < p + i ->
    pt h' !! c = Some (if c - p + PGSIZE <? n + 4 then CPERM else PERM);
  mg_out c : ~ p <= c < p + i -> pt h' !! c = pt h !! c;
  mg_mem a : ~ p <= a < p + i -> ld8 (hmem h') a = ld8 (hmem h) a;
}.

Lemma malloc_undo_ok p i h :
  p mod PGSIZE = 0 -> i mod PGSIZE = 0 -> 0 <= p -> 0 <= i -> p + i < mend ->
  uwp (malloc_undo p i) (fun _ h' => mptr h' = mptr h /\ hmem h' = hmem h /\
    forall c, ~ p <= c < p + i + PGSIZE -> pt h' !! c = pt h !! c) h.
Proof.
  intros Hp Hi Hp0 Hi0 Hend. change mend with 0x10000000 in Hend. unfold malloc_undo.
  apply (uwp_loop _ (fun j h' => j mod PGSIZE = 0 /\ - PGSIZE <= j <= i /\ mptr h' = mptr h /\
      hmem h' = hmem h /\ forall c, ~ p <= c < p + i + PGSIZE -> pt h' !! c = pt h !! c)
    (fun j => Z.to_nat (j / PGSIZE + 1))).
  - intros j h1 (Hj & Hjr & Hm & Hme & Hpt). destruct (Z.geb_spec j 0) as [Hge | Hlt].
    + change PGSIZE with 4096 in *. rewrite w32_small by lia. apply uwp_bind.
      eapply uwp_intro; [apply unmap_run; change PGSIZE with 4096; change mend with 0x10000000; zlia|].
      apply uwp_ret. split; [|zlia]. split; [zlia|]. split; [lia|]. split; [done|]. split; [done|].
      intros c Hc. simpl. rewrite lookup_delete_ne by zlia. by apply Hpt.
    + apply uwp_ret. done.
  - change PGSIZE with 4096 in *. split; [done|]. split; [lia | done].
  - change PGSIZE with 4096 in *. zlia.
Qed.

(** The pages are mapped, or there was no memory and the heap is as it was. *)
Definition map_post (p n : Z) (h : heap) (o : option Z) (h' : heap) : Prop :=
  match o with
  | Some i => mapping p n i h h' /\ i mod PGSIZE = 0 /\ n + 4 <= i < n + 4 + PGSIZE
  | None => exists q, q mod PGSIZE = 0 /\ p < q < p + n + 4 + PGSIZE /\ mptr h' = mptr h /\
      (forall c, ~ p <= c < q -> pt h' !! c = pt h !! c) /\
      forall a, ~ p <= a < q -> ld8 (hmem h') a = ld8 (hmem h) a
  end.

Lemma malloc_map_ok h n :
  let p := mptr h in
  p mod PGSIZE = 0 -> mbegin <= p -> 0 <= n < MAXMALLOC -> p + n + 4 <= mend ->
  uwp (malloc_map n) (map_post p n h) h.
Proof.
  intros p Hp Hp0 Hn Hend. change mbegin with 0x08000000 in *. change mend with 0x10000000 in *.
  change MAXMALLOC with 1048576 in *. unfold malloc_map.
  apply (uwp_loop _ (fun i h' => mapping p n i h h' /\ i mod PGSIZE = 0 /\ 0 <= i < n + 4 + PGSIZE)
    (fun i => Z.to_nat ((n + 4 - i) / PGSIZE + 1))).
  - intros i h1 ([Hm Hin Hout Hme] & Hi & Hir). rewrite (w32_small (n + 4)) by lia.
    destruct (Z.ltb_spec i (n + 4)) as [Hlt | Hge].
    2: { apply uwp_ret. split; [by constructor|]. split; [done | lia]. }
    apply uwp_bind, uwp_get. rewrite Hm. fold p. rewrite w32_small by lia.
    change PGSIZE with 4096 in *. apply uwp_bind. unfold uwp at 1, sys_page_alloc.
    change UTOP with 0xEEC00000. destruct (Z.geb_spec (p + i) 0xEEC00000); [lia|].
    assert (Hal : ((p + i) mod PGSIZE =? 0) = true) by (change PGSIZE with 4096; apply Z.eqb_eq; zlia).
    rewrite Hal. cbn [negb orb]. set (z := repeat 0 _).
    assert (Hz : Z.of_nat (length z) = 4096) by (unfold z; rewrite repeat_length; apply Z2Nat.id; done). clearbody z.
    destruct (page_left h1 (p + i)).
    + change (0 <? 0) with false. cbv iota. apply uwp_ret. split; [|zlia].
      split; [|split; [zlia | lia]]. constructor; simpl; change PGSIZE with 4096.
      * done.
      * intros c Hc Hr. destruct (decide (c = p + i)) as [-> | Hne].
        -- rewrite lookup_insert_eq. f_equal. replace (p + i - p + 4096) with (i + 4096) by lia.
           by destruct (i + 4096 <? n + 4).
        -- rewrite lookup_insert_ne by done. apply Hin; [done | zlia].
      * intros c Hr. rewrite lookup_insert_ne by lia. apply Hout. lia.
      * intros a Ha. rewrite ld8_stbytes_out; [apply Hme; lia | lia].
    + change (- E_NO_MEM <? 0) with true. cbv iota. apply uwp_bind.
      eapply uwp_mono; [apply malloc_undo_ok; change PGSIZE with 4096; change mend with 0x10000000; lia || done|].
      intros [] h2 (Hm2 & Hme2 & Hpt2). apply uwp_ret. exists (p + i + 4096).
      change PGSIZE with 4096 in *. split; [zlia|]. split; [lia|]. split; [congruence|]. split.
      * intros c Hc. rewrite Hpt2 by done. apply Hout. lia.
      * intros a Ha. rewrite Hme2. apply Hme. lia.
  - split; [|change PGSIZE with 4096 in *; split; [done | lia]].
    constructor; try done. intros c Hc Hr. lia.
  - change PGSIZE with 4096 in *. zlia.
Qed.

(** ** [malloc] *)

(** What a call that asks for [n] bytes, a multiple of four, leaves. *)
Definition malloc_post live n (h : heap) (v : Z) (h' : heap) : Prop :=
  same_data live h h' /\
  ((v = 0 /\ heap_inv live h') \/
   (v <> 0 /\ live !! v = None /\ heap_inv (<[v := n]> live) h')).

(** A chunk at the start of freshly mapped pages. *)
Lemma fresh_block live h h2 q n i :
  heap_inv live h -> mptr h = q -> q mod PGSIZE = 0 -> mbegin <= q -> q + n + 4 <= mend ->
  0 < n -> n mod 4 = 0 -> vacant q (q + i) h ->
  mapping q n i h h2 -> i mod PGSIZE = 0 -> n + 4 <= i < n + 4 + PGSIZE ->
  let last := q + i - PGSIZE in
  let h3 := h2 <| hmem := st32 (hmem h2) (last + 4092) 2 |> <| mptr := q + n |> in
  last mod PGSIZE = 0 /\ pt h2 !! last = Some PERM /\
  same_data live h h3 /\ live !! q = None /\ heap_inv (<[q := n]> live) h3.
Proof.
  intros Hi Hm Hq Hq0 Hend Hn Hn4 Hv Hmg Hia Hir last h3.
  destruct (heap_frame live h h2 q (q + i)) as [Hi2 Hs2];
    [done | done | pages | lia | done | apply Hmg | apply Hmg | apply Hmg|].
  assert (Hn4' : 4 <= n) by zlia.
  assert (Hl : last mod PGSIZE = 0 /\ last_page q n = last /\ q <= last < q + i) by (unfold last; pages).
  destruct Hl as (Hla & Hlp & Hlr).
  assert (Hpl : pt h2 !! last = Some PERM).
  { rewrite (mg_in _ _ _ _ _ Hmg last) by done. unfold last.
    destruct (Z.ltb_spec (q + i - PGSIZE - q + PGSIZE) (n + 4)); [lia | done]. }
  assert (Hapart : forall v' n', live !! v' = Some n' ->
    (v' + n' <= q \/ last + PGSIZE <= v') /\ last_page v' n' <> last).
  { intros v' n' Hv'. pose proof (hi_block _ _ _ Hi v' n' Hv') as [[? ?] [? ?] ? _ _ _].
    destruct (vacant_apart live h q (q + i) v' n' Hi Hq ltac:(lia) Hv Hv'); unfold last; pages. }
  assert (Hfresh : live !! q = None).
  { destruct (live !! q) as [m|] eqn:E; [|done]. destruct (Hapart q m E) as [Hx _].
    pose proof (bk_size _ _ _ (hi_block _ _ _ Hi q m E)). change PGSIZE with 4096 in *. lia. }
  assert (Hc0 : counted live last = 0).
  { pose proof (counted_nonneg live last). destruct (decide (0 < counted live last)) as [Hpos|]; [|lia].
    destruct (counted_pos _ _ Hpos) as (v' & n' & Hv' & He). by destruct (Hapart v' n' Hv'). }
  assert (Hs3 : same_data live h2 h3).
  { intros v m a Hvm Ha. unfold h3. simpl. rewrite ld8_st32.
    destruct ((last + 4092 <=? a) && (a <? last + 4092 + 4)) eqn:E; [|done]. zbool. exfalso.
    refine (ref_apart h2 v m last a (hi_block _ _ _ Hi2 v m Hvm) Hla Hpl _ Ha). lia. }
  assert (Hr3 : ref_at h3 last = 2).
  { unfold ref_at, h3. simpl. rewrite ld32_st32_eq. done. }
  split; [done|]. split; [done|]. split; [by eapply same_data_trans|]. split; [done|].
  apply (add_block live h2); rewrite ?Hlp; try done.
  - constructor; rewrite ?Hlp; try done.
    + split; [done | pages].
    + by right.
    + intros c Hc Hcr. change (pt h3) with (pt h2). rewrite page_of_page in Hcr by done.
      rewrite (mg_in _ _ _ _ _ Hmg c) by (done || lia).
      destruct (Z.ltb_spec (c - q + PGSIZE) (n + 4)); [done|]. unfold last in *. pages.
  - intros v' n' Hv'. split; [|by apply Hapart].
    destruct (hi_block _ _ _ Hi2 v' n' Hv'); by constructor.
  - intros c Hc Hne _. unfold ref_at, h3. simpl. apply ld32_st32_ne. change PGSIZE with 4096 in *. zlia.
  - rewrite Hr3, Hc0. destruct (Z.eqb_spec ((q + n) mod PGSIZE) 0); simpl; lia.
  - rewrite Hr3. unfold last. destruct (Z.eqb_spec ((q + n) mod PGSIZE) 0); simpl; pages.
Qed.

Lemma malloc_pages_ok live h n :
  heap_inv live h -> mptr h mod PGSIZE = 0 -> mbegin <= mptr h < mend ->
  0 < n < MAXMALLOC -> n mod 4 = 0 ->
  uwp (malloc_pages n) (malloc_post live n h) h.
Proof.
  intros Hi Hm Hr Hn Hn4. unfold malloc_pages. apply uwp_bind.
  eapply uwp_mono; [apply malloc_scan_ok; (done || lia)|].
  intros b h1 (q & -> & Hq & Hqr & Hv). set (h1 := h <| mptr := q |>).
  assert (Hi1 : heap_inv live h1) by (by apply move_mptr).
  destruct b; [|apply uwp_ret; split; [done | by left]]. specialize (Hv eq_refl). cbn [negb].
  assert (Hend : q + n + 4 <= mend).
  { destruct (Hv (page_of (q + n + 3))) as [Hlt _]; [apply page_of_mod | pages|].
    change mend with 0x10000000 in *. pages. }
  assert (Hv1 : forall e, e mod PGSIZE = 0 -> e < q + n + 4 + PGSIZE -> vacant q e h1).
  { intros e He Her c Hc Hcr. apply Hv; [done | pages]. }
  apply uwp_bind. eapply uwp_mono; [apply malloc_map_ok; simpl; (done || lia)|].
  intros [i|] h2 Ho; unfold map_post in Ho; change (mptr h1) with q in Ho.
  2: { destruct Ho as (e & He & Her & Hm2 & Hpt & Hme). apply uwp_ret.
       destruct (heap_frame live h1 h2 q e) as [Hi2 Hs2]; try done; [lia | apply Hv1; [done | lia]|].
       split; [exact Hs2 | by left]. }
  destruct Ho as (Hmg & Hia & Hir).
  assert (Hvi : vacant q (q + i) h1).
  { intros c Hc Hcr. apply Hv; [done | pages]. }
  destruct (fresh_block live h1 h2 q n i) as (Hla & Hpl & Hs & Hf & Hi3); try done; try lia.
  apply uwp_bind, uwp_get. rewrite (mg_mptr _ _ _ _ _ Hmg). change (mptr h1) with q.
  assert (Ha : w32 (q + i - 4) = q + i - PGSIZE + 4092).
  { change PGSIZE with 4096 in *. change mbegin with 0x08000000 in *. change mend with 0x10000000 in *.
    change MAXMALLOC with 1048576 in *. rewrite w32_small; lia. }
  rewrite Ha. apply uwp_bind. eapply uwp_intro; [by apply store_ref_run|].
  change mbegin with 0x08000000 in *. change mend with 0x10000000 in *.
  rewrite w32_small by lia. apply uwp_bind, uwp_put, uwp_ret.
  split; [exact Hs|]. right. split; [lia|]. split; [exact Hf | exact Hi3].
Qed.

(** The size the caller gets. *)
Definition rounded (n : Z) : Z := (n + 3) / 4 * 4.

Lemma malloc_ok live h n :
  heap_inv live h -> (mptr h mod PGSIZE <> 0 -> not_last h) -> 0 < n <= 2 ^ 32 - 4 ->
  uwp (malloc n) (malloc_post live (rounded n) h) h.
Proof.
  intros Hi Hl Hn. unfold malloc. apply uwp_bind, uwp_get.
  set (h1 := if mptr h =? 0 then h <| mptr := mbegin |> else h).
  assert (H1 : heap_inv live h1 /\ same_data live h h1 /\ mptr h1 <> 0 /\
    (mptr h1 mod PGSIZE <> 0 -> not_last h1)).
  { unfold h1. destruct (Z.eqb_spec (mptr h) 0) as [H0 | H0]; [|done].
    split; [|done]. apply move_mptr; [done | by rewrite H0 | done | done]. }
  assert (Hrun : (if mptr h =? 0 then set_mptr mbegin else mret tt) h = Ok tt h1).
  { unfold h1. by destruct (mptr h =? 0). }
  apply uwp_bind. eapply uwp_intro; [exact Hrun|]. clearbody h1. clear Hrun.
  destruct H1 as (Hi1 & Hs1 & Hz1 & Hl1).
  assert (Hru : ROUNDUP n 4 = rounded n) by (unfold rounded; rewrite ROUNDUP_spec by lia; zlia). rewrite Hru.
  assert (Hrn : 0 < rounded n /\ rounded n mod 4 = 0) by (unfold rounded; zlia).
  destruct (Z.geb_spec (rounded n) MAXMALLOC) as [Hge | Hlt].
  { apply uwp_ret. split; [done | by left]. }
  apply uwp_bind. eapply uwp_mono; [apply (malloc_carve_ok live); (done || lia)|].
  intros [v|] h2 [Hc Hs2].
  - destruct Hc as [Hi2 Hf]. apply uwp_ret. split; [by eapply same_data_trans|]. right.
    split; [|done]. pose proof (bk_start _ _ _ (hi_block _ _ _ Hi2 v _ (lookup_insert_eq _ _ _))) as [Hv _].
    change mbegin with 0x08000000 in Hv. lia.
  - destruct Hc as (Hi2 & Hm2 & Hr2).
    eapply uwp_mono; [apply (malloc_pages_ok live); (done || lia)|].
    intros v h3 [Hs3 Hpost]. split; [|done].
    eapply same_data_trans; [done|]. by eapply same_data_trans.
Qed.

(** ** Programs that use the allocator *)

(** The program writes in one of its chunks. *)
Lemma write_ok live h v n a b :
  heap_inv live h -> live !! v = Some n -> v <= a < v + n ->
  heap_inv live (h <| hmem := st8 (hmem h) a b |>).
Proof.
  intros Hi Hv Ha. pose proof Hi as [Hm Hb Hap Hr Ho]. constructor; try done.
  - intros v' n' Hv'. destruct (Hb v' n' Hv'). by constructor.
  - intros c Hc H0. change (is_open (h <| hmem := st8 (hmem h) a b |>) c) with (is_open h c) in *.
    assert (He : ref_at (h <| hmem := st8 (hmem h) a b |>) c = ref_at h c).
    { pose proof (in_use_perm _ _ _ Hi H0) as Hp.
      assert (Hout : ~ (c + 4092 <= a < c + 4096)).
      { intros Hin. exact (ref_apart _ _ _ _ _ (Hb v n Hv) Hc Hp Hin Ha). }
      unfold ref_at, ld32. simpl. rewrite !ld8_st8_ne by lia. done. }
    rewrite He. by apply Hr.
Qed.

(** There is a page after the one being carved up. *)
Definition room (h : heap) : Prop := mptr h mod PGSIZE <> 0 -> not_last h.

(** The chunks a program holds, and the moves it can make. *)
Inductive hstep : gmap Z Z * heap -> gmap Z Z * heap -> Prop :=
  | hs_malloc live h n v h' :
      0 < n <= 2 ^ 32 - 4 -> room h -> malloc n h = Ok v h' ->
      hstep (live, h) (if v =? 0 then live else <[v := rounded n]> live, h')
  | hs_free live h v n h' :
      live !! v = Some n -> free v h = Ok tt h' -> hstep (live, h) (delete v live, h')
  | hs_store live h v n a b :
      live !! v = Some n -> v <= a < v + n ->
      hstep (live, h) (live, h <| hmem := st8 (hmem h) a b |>).

Lemma hstep_inv s s' : heap_inv s.1 s.2 -> hstep s s' -> heap_inv s'.1 s'.2.
Proof.
  intros Hi Hs. destruct Hs as [live h n v h' Hn Hr Hm | live h v n h' Hv Hf | live h v n a b Hv Ha];
    simpl in *.
  - destruct (uwp_elim _ _ _ (malloc_ok live h n Hi Hr Hn)) as (v1 & h1 & He & Hp).
    rewrite Hm in He. injection He as <- <-. destruct Hp as [_ [[-> Hp] | (Hz & _ & Hp)]]; [done|].
    by destruct (Z.eqb_spec v 0).
  - destruct (uwp_elim _ _ _ (free_ok live h v n Hi Hv)) as ([] & h1 & He & Hp & _).
    rewrite Hf in He. by injection He as <-.
  - by apply (write_ok live h v n).
Qed.

Lemma heap_inv_initial h : mptr h = 0 -> heap_inv ∅ h.
Proof.
  intros Hm.
  assert (Hop : forall c, is_open h c = false) by (intros c; unfold is_open; by rewrite Hm).
  constructor; try done; [by left | | by rewrite Hm].
  intros c _. rewrite Hop. unfold counted. rewrite map_filter_empty, map_size_empty. done.
Qed.

(** C8. A program that calls [malloc] with sizes from 1 to [2^32 - 4], and only while the page
    being carved up is not the last of the arena ([room]; [malloc(0)], larger sizes and that
    page are where the allocator breaks), frees chunks it holds and stores to them, in any
    order, in any address space it starts with and whenever the kernel runs out of pages:
    its chunks are mapped and writable and do not overlap; the next such [malloc] returns,
    with 0 or a chunk apart from all others, and the next [free] of a chunk returns; and
    neither changes a byte of the chunks in use. *)
Theorem heap_safe h0 live h :
  mptr h0 = 0 -> rtc hstep (∅, h0) (live, h) ->
  (forall v n a, live !! v = Some n -> v <= a < v + n ->
     exists pte, pt h !! page_of a = Some pte /\ has pte PTE_P = true /\ has pte PTE_W = true) /\
  (forall v n v' n', live !! v = Some n -> live !! v' = Some n' -> v <> v' ->
     v + n <= v' \/ v' + n' <= v) /\
  (forall n, 0 < n <= 2 ^ 32 - 4 -> room h ->
     exists v h', malloc n h = Ok v h' /\ same_data live h h' /\
       (v <> 0 -> n <= rounded n /\ forall v' n', live !! v' = Some n' ->
          v + rounded n <= v' \/ v' + n' <= v)) /\
  (forall v n, live !! v = Some n ->
     exists h', free v h = Ok tt h' /\ same_data (delete v live) h h').
Proof.
  intros H0 Hr.
  assert (Hi : heap_inv live h).
  { assert (Hx : forall s s', rtc hstep s s' -> heap_inv s.1 s.2 -> heap_inv s'.1 s'.2).
    { intros s s' Hss. induction Hss as [|s1 s2 s3 H12 _ IH]; [done|].
      intros H1. apply IH. by apply (hstep_inv s1). }
    exact (Hx _ _ Hr (heap_inv_initial h0 H0)). }
  split; [|split; [|split]].
  - intros v n a Hv Ha.
    destruct (block_mapped _ _ _ _ (hi_block _ _ _ Hi v n Hv) Ha) as [Hp | Hp]; by eexists.
  - apply (hi_apart _ _ _ Hi).
  - intros n Hn Hroom. destruct (uwp_elim _ _ _ (malloc_ok live h n Hi Hroom Hn)) as (v & h' & He & Hs & Hp).
    exists v, h'. split; [done|]. split; [done|]. intros Hz. split; [unfold rounded; zlia|].
    destruct Hp as [[-> _] | (_ & Hf & Hi')]; [done|]. intros v' n' Hv'.
    apply (hi_apart _ _ _ Hi' v _ v' n'); [apply lookup_insert_eq | | by intros ->; rewrite Hv' in Hf].
    rewrite lookup_insert_ne; [done|]. intros ->. by rewrite Hv' in Hf.
  - intros v n Hv. destruct (uwp_elim _ _ _ (free_ok live h v n Hi Hv)) as ([] & h' & He & _ & Hs & _).
    by exists h'.
Qed.
End inv.

(** ** A program, and sizes at the edge *)

#[local] Instance plenty : PhysMem := fun _ _ => true.
Definition heap0 : heap := mkHeap ∅ ∅ 0.
Definition after {A} (r : result heap A) : heap :=
  match r with Ok _ h => h | _ => heap0 end.
Definition value {A} (r : result heap A) : option A := match r with Ok a _ => Some a | _ => None end.
Lemma after_run {A} (r : result heap A) a : value r = Some a -> r = Ok a (after r).
Proof. destruct r; [by intros [= ->] | done | done]. Qed.

Definition heap1 : heap := after (malloc 10 heap0).

Lemma heap_safe_witness :
  exists v h', malloc 5000 heap1 = Ok v h' /\ (v <> 0 -> v + 5000 <= mbegin \/ mbegin + 12 <= v).
Proof.
  assert (H1 : malloc 10 heap0 = Ok mbegin heap1) by (apply after_run; vm_compute; reflexivity).
  assert (Hr : rtc hstep (∅, heap0) (<[mbegin := 12]> ∅, heap1)).
  { eapply rtc_l; [|apply rtc_refl]. apply (hs_malloc ∅ heap0 10 mbegin heap1); [lia | | exact H1].
    intros H. by destruct H. }
  destruct (heap_safe heap0 _ heap1 eq_refl Hr) as (_ & _ & Hm & _).
  destruct (Hm 5000) as (v & h' & He & _ & Hd); [lia | intros _; vm_compute; reflexivity|].
  exists v, h'. split; [exact He|]. intros Hz. destruct (Hd Hz) as [_ Hap].
  exact (Hap mbegin 12 (lookup_insert_eq _ _ _)).
Defined.

(** A request for nearly the whole address space succeeds: rounding the size up to a
    multiple of four wraps around to 0, and a pointer to no bytes at all comes back.  And
    a chunk whose size is a multiple of the page size is never given back in full: when
    everything has been freed, its last page, and the page of the empty chunk, are
    still mapped. *)
Theorem malloc_boundary_sizes :
  ROUNDUP 0xFFFFFFFF 4 = 0 /\
  exists h1 h2 h3 h4,
    malloc 0xFFFFFFFF heap0 = Ok mbegin h1 /\
    malloc PGSIZE h1 = Ok (mbegin + PGSIZE) h2 /\
    free (mbegin + PGSIZE) h2 = Ok tt h3 /\
    free mbegin h3 = Ok tt h4 /\
    map_to_list (pt h4) ≡ₚ [(mbegin, PERM); (mbegin + 2 * PGSIZE, PERM)].
Proof.
  split; [reflexivity|].
  set (h1 := after (malloc 0xFFFFFFFF heap0)). set (h2 := after (malloc PGSIZE h1)).
  set (h3 := after (free (mbegin + PGSIZE) h2)).
  exists h1, h2, h3, (after (free mbegin h3)).
  do 4 (split; [apply after_run; vm_compute; reflexivity|]).
  assert (He : map_to_list (pt (after (free mbegin h3))) =
    [(mbegin + 2 * PGSIZE, PERM); (mbegin, PERM)]) by (vm_compute; reflexivity).
  rewrite He. apply perm_swap.
Qed.
