(* ===== verification/Monitor.v ===== *)
(** * The line editor and the kernel monitor ([lib/readline.c], [kern/monitor.c])

    Both are written against a terminal: [getchar], [cputchar] and [iscons].  The class
    [Terminal] is that interface; MonitorThms shows that the console of Console implements
    it.  The state is the terminal's and the memory the buffer and the words are in. *)

From S2P Require Import Prelude Mem CString Mmu KState Printf UState.

Class Terminal (T : Type) := {
  t_getchar : U T Z;
  t_cputchar : Z -> U T unit;
  t_iscons : Z -> Z;
}.

Record mon (T : Type) := mkMon { term : T; mmem : memory }.
Arguments mkMon {T}.
Arguments term {T}.
Arguments mmem {T}.
#[export] Instance mon_eta T : Eta (mon T) := fun r => mkMon (term r) (mmem r).

Definition letters (m : string) : list Z :=
  (fun c => Z.of_nat (Ascii.nat_of_ascii c)) <$> String.list_ascii_of_string m.

(** A decimal number, for the [%d] of a message; [%08x]. *)
Fixpoint decimal (fuel : nat) (z : Z) : list Z :=
  match fuel with
  | O => []
  | S fuel' => (if z <? 10 then [] else decimal fuel' (z / 10)) ++ [48 + z mod 10]
  end.
Fixpoint hex (n : nat) (z : Z) : list Z :=
  match n with
  | O => []
  | S n' => hex n' (z / 16) ++ [let d := z mod 16 in if d <? 10 then 48 + d else 87 + d]
  end.

Section monitor.
Context {T : Type} `{!Terminal T}.

Definition on_term {A} (m : U T A) : U (mon T) A := fun s =>
  match m (term s) with
  | Ok a t => Ok a (s <| term := t |>)
  | Panics msg t => Panics msg (s <| term := t |>)
  | Stops x t => Stops x (s <| term := t |>)
  end.
Definition load8 (a : Z) : U (mon T) Z := uget (fun s => ld8 (mmem s) a).
Definition store8 (a v : Z) : U (mon T) unit := uput (fun s => s <| mmem := st8 (mmem s) a v |>).

(** The characters of a message, as [cprintf] sends them. *)
Fixpoint puts (cs : list Z) : U (mon T) unit :=
  match cs with
  | [] => mret tt
  | c :: cs' => on_term (t_cputchar c);; puts cs'
  end.

(** ** [readline] *)

Definition BUFLEN : Z := 1024.

(** [%e] of a negative result. *)
Definition error_text (c : Z) : list Z :=
  match (if - c <? MAXERROR then error_string (- c) else None) with
  | Some m => letters m
  | None => letters "error " ++ decimal 10 (- c)
  end.

(** One turn of the loop, with [i] characters in [buf]. *)
Definition readline_step (buf : Z) (echoing : bool) (i : Z) : U (mon T) (Z + option Z) :=
  c ← on_term t_getchar;
  if c <? 0 then
    (if negb (c =? - E_EOF) then puts (letters "read error: " ++ error_text c ++ [10]) else mret tt);;
    mret (inr None)
  else if ((c =? 8) || (c =? 127)) && (i >? 0) then
    (if echoing then on_term (t_cputchar 8) else mret tt);;
    mret (inl (i - 1))
  else if (c >=? 32) && (i <? BUFLEN - 1) then
    (if echoing then on_term (t_cputchar c) else mret tt);;
    store8 (buf + i) c;;
    mret (inl (i + 1))
  else if (c =? 10) || (c =? 13) then
    (if echoing then on_term (t_cputchar 10) else mret tt);;
    store8 (buf + i) 0;;
    mret (inr (Some buf))
  else mret (inl i).

(** [rounds] bounds the characters that are typed. *)
Definition readline (rounds : nat) (buf : Z) (prompt : list Z) : U (mon T) (option Z) :=
  puts prompt;;
  uloop rounds (readline_step buf (negb (t_iscons 0 =? 0))) 0.

(** ** [runcmd] *)

Definition CMDBUF_SIZE : Z := 80.
Definition MAXARGS : Z := 16.

(** [strchr(WHITESPACE, c)] for a character that is not NUL. *)
Definition whitespace (c : Z) : bool := existsb (Z.eqb c) [9; 13; 10; 32].

Definition skip_white (b : Z) : U (mon T) Z :=
  uloop (S (Z.to_nat BUFLEN)) (fun b =>
    c ← load8 b;
    if negb (c =? 0) && whitespace c then store8 b 0;; mret (inl (b + 1)) else mret (inr b)) b.
Definition skip_word (b : Z) : U (mon T) Z :=
  uloop (S (Z.to_nat BUFLEN)) (fun b =>
    c ← load8 b;
    if negb (c =? 0) && negb (whitespace c) then mret (inl (b + 1)) else mret (inr b)) b.

(** The words of the line, by address; [None] after the complaint. *)
Definition parse_args (buf : Z) : U (mon T) (option (list Z)) :=
  uloop (S (Z.to_nat MAXARGS)) (fun '(b, argv) =>
    b ← skip_white b;
    c ← load8 b;
    if c =? 0 then mret (inr (Some argv))
    else if Z.of_nat (length argv) =? MAXARGS - 1 then
      puts (letters "Too many arguments (max 16)" ++ [10]);;
      mret (inr None)
    else
      e ← skip_word b;
      mret (inl (e, argv ++ [b]))) (buf, []).

Record Command := mkCommand {
  cmd_name : string;
  cmd_desc : string;
  cmd_func : list Z -> U (mon T) Z;
}.

(** [strcmp(a, name) == 0]. *)
Fixpoint str_is (m : memory) (a : Z) (name : list Z) : bool :=
  match name with
  | [] => ld8 m a =? 0
  | c :: name' => (ld8 m a =? c) && str_is m (a + 1) name'
  end.

(** [%s] of a word. *)
Definition puts_at (a : Z) : U (mon T) unit :=
  uloop (S (Z.to_nat BUFLEN)) (fun a =>
    c ← load8 a;
    if c =? 0 then mret (inr tt) else on_term (t_cputchar c);; mret (inl (a + 1))) a.

Fixpoint lookup_command (commands : list Command) (m : memory) (a : Z) : option Command :=
  match commands with
  | [] => None
  | c :: commands' => if str_is m a (letters (cmd_name c)) then Some c else lookup_command commands' m a
  end.

Definition runcmd (commands : list Command) (buf : Z) : U (mon T) Z :=
  o ← parse_args buf;
  match o with
  | None => mret 0
  | Some [] => mret 0
  | Some ((a :: _) as argv) =>
      m ← uget mmem;
      match lookup_command commands m a with
      | Some c => cmd_func c argv
      | None =>
          puts (letters "Unknown command '");;
          puts_at a;;
          puts [39; 10];;
          mret 0
      end
  end.

(** ** The commands

    The linker's symbols, and the backtrace of the stack the monitor runs on, are not part
    of the state here. *)
Class KernelSymbols := { sym_start : Z; sym_entry : Z; sym_etext : Z; sym_edata : Z; sym_end : Z }.
Context `{!KernelSymbols} (mon_backtrace : list Z -> U (mon T) Z).

Definition descriptions : list (string * string) :=
  [("help", "Display this list of commands");
   ("kerninfo", "Display information about the kernel");
   ("backtrace", "Print stack backtrace")]%string.

Definition mon_help (argv : list Z) : U (mon T) Z :=
  puts (concat (map (fun '(n, d) => letters n ++ letters " - " ++ letters d ++ [10]) descriptions));;
  mret 0.

Definition kerninfo_line (name : string) (a : Z) : list Z :=
  letters name ++ hex 8 a ++ letters " (virt)  " ++ hex 8 (w32 (a - KERNBASE)) ++ letters " (phys)" ++ [10].

Definition mon_kerninfo (argv : list Z) : U (mon T) Z :=
  puts (letters "Special kernel symbols:" ++ [10]
    ++ letters "  _start                  " ++ hex 8 sym_start ++ letters " (phys)" ++ [10]
    ++ kerninfo_line "  entry  " sym_entry ++ kerninfo_line "  etext  " sym_etext
    ++ kerninfo_line "  edata  " sym_edata ++ kerninfo_line "  end    " sym_end
    ++ letters "Kernel executable memory footprint: "
    ++ decimal 10 (ROUNDUP (sym_end - sym_entry) 1024 / 1024) ++ letters "KB" ++ [10]);;
  mret 0.

Definition commands : list Command :=
  [mkCommand "help" "Display this list of commands" mon_help;
   mkCommand "kerninfo" "Display information about the kernel" mon_kerninfo;
   mkCommand "backtrace" "Print stack backtrace" mon_backtrace].

(** [print_tf]: [print_trapframe] when there is a frame. *)
Definition monitor (lines rounds : nat) (buf : Z) (print_tf : U (mon T) unit) : U (mon T) unit :=
  puts (letters "Welcome to the JOS kernel monitor!" ++ [10]);;
  puts (letters "Type 'help' for a list of commands." ++ [10]);;
  print_tf;;
  uloop lines (fun _ : unit =>
    o ← readline rounds buf (letters "K> ");
    match o with
    | Some b => r ← runcmd commands b; mret (if r <? 0 then inr tt else inl tt)
    | None => mret (inl tt)
    end) tt.
End monitor.
Arguments Command T : clear implicits.
