(* ===== verification/MonitorThms.v ===== *)
(** * Lines and commands

    What [readline] puts in the buffer is the typed line with its corrections carried out,
    and [runcmd] runs the command that the first word of it names, on all its words.  The
    theorems are proved from the laws of a terminal ([TerminalOk]); the console has them. *)

From S2P Require Import Prelude Mem CString Mmu KState UState Console ConsoleThms Monitor.

(** [has t q]: the characters [q] are what [t] will give. *)
Class TerminalOk (T : Type) `{!Terminal T} := {
  has : T -> list Z -> Prop;
  has_get t c q : has t (c :: q) -> exists t', t_getchar t = Ok c t' /\ has t' q;
  has_put t c q : has t q -> exists t', t_cputchar c t = Ok tt t' /\ has t' q;
}.

(** ** The line as a list *)

Definition MAXLINE : Z := 1023.

(** Backspace and delete take the last character back; a printing character is added if
    there is room; delete on an empty line counts as printing. *)
Definition edit (l : list Z) (c : Z) : list Z :=
  if ((c =? 8) || (c =? 127)) && negb (bool_decide (l = [])) then take (length l - 1) l
  else if (32 <=? c) && (Z.of_nat (length l) <? MAXLINE) then l ++ [c]
  else l.
Definition line_of (typed : list Z) : list Z := foldl edit [] typed.

Definition newline (c : Z) : bool := (c =? 10) || (c =? 13).
Definition in_line (c : Z) : Prop := 0 <= c < 256 /\ newline c = false.

Lemma edit_keeps l c :
  in_line c -> Forall (fun d => 32 <= d < 256) l /\ Z.of_nat (length l) <= MAXLINE ->
  Forall (fun d => 32 <= d < 256) (edit l c) /\ Z.of_nat (length (edit l c)) <= MAXLINE.
Proof.
  intros [Hc _] [Hl Hn]. unfold edit. destruct (((c =? 8) || (c =? 127)) && _).
  { split; [by apply Forall_take|]. rewrite length_take. lia. }
  destruct ((32 <=? c) && _) eqn:E; [|done]. zbool. split.
  - apply Forall_app. split; [done|]. apply Forall_singleton. lia.
  - rewrite length_app. simpl. lia.
Qed.

Section terminal.
Context {T : Type} `{!Terminal T} `{!TerminalOk T}.
Implicit Types (s : mon T).

(** ** Output keeps the input *)

Lemma on_term_run {A} (m : U T A) s a t :
  m (term s) = Ok a t -> on_term m s = Ok a (s <| term := t |>).
Proof. unfold on_term. by intros ->. Qed.

Lemma load8_run a s : load8 a s = Ok (ld8 (mmem s) a) s.
Proof. done. Qed.
Lemma store8_run a v s : store8 a v s = Ok tt (s <| mmem := st8 (mmem s) a v |>).
Proof. done. Qed.

(** A piece of output: it returns, and leaves the memory and the input. *)
Definition chatty (m : U (mon T) unit) : Prop :=
  forall s q, has (term s) q -> exists t, m s = Ok tt (s <| term := t |>) /\ has t q.

Lemma putchar_chatty c : chatty (on_term (t_cputchar c)).
Proof.
  intros s q Hq. destruct (has_put _ c _ Hq) as (t & Ht & Hq'). exists t. split; [|done].
  by apply on_term_run.
Qed.
Lemma ret_chatty : chatty (mret tt).
Proof. intros s q Hq. exists (term s). by destruct s. Qed.
Lemma puts_chatty cs : chatty (puts cs).
Proof.
  induction cs as [|c cs IH]; [apply ret_chatty|]. intros s q Hq. cbn [puts].
  destruct (putchar_chatty c s q Hq) as (t & Ht & Hq1). urw Ht.
  set (s1 := s <| term := t |>). destruct (IH s1 q Hq1) as (t' & Ht' & Hq'). exists t'. done.
Qed.
Lemma echo_chatty (b : bool) c : chatty (if b then on_term (t_cputchar c) else mret tt).
Proof. destruct b; [apply putchar_chatty | apply ret_chatty]. Qed.

(** ** [readline] *)

(** [l] is in the buffer, and nothing outside the buffer has changed. *)
Definition line_in (buf : Z) (m0 m : memory) (l : list Z) : Prop :=
  (forall i c, l !! i = Some c -> ld8 m (buf + Z.of_nat i) = c) /\
  forall a, ~ buf <= a < buf + BUFLEN -> ld8 m a = ld8 m0 a.

Lemma line_in_store buf m0 m l c :
  line_in buf m0 m l -> 0 <= c < 256 -> Z.of_nat (length l) < BUFLEN ->
  line_in buf m0 (st8 m (buf + Z.of_nat (length l)) c) (l ++ [c]).
Proof.
  intros [H1 H2] Hc Hl. split.
  - intros i d Hi. rewrite ld8_st8. apply lookup_app_Some in Hi as [Hi | [Hge Hi]].
    + pose proof (lookup_lt_Some _ _ _ Hi).
      destruct (Z.eqb_spec (buf + Z.of_nat i) (buf + Z.of_nat (length l))); [lia | by apply H1].
    + apply list_lookup_singleton_Some in Hi as [Hi <-].
      replace (Z.of_nat i) with (Z.of_nat (length l)) by lia.
      rewrite Z.eqb_refl. by apply Z.mod_small.
  - intros a Ha. rewrite ld8_st8_ne by lia. by apply H2.
Qed.

(** One character of the line. *)
Lemma readline_step_char buf m0 e l c q s :
  has (term s) (c :: q) -> in_line c -> Z.of_nat (length l) <= MAXLINE -> line_in buf m0 (mmem s) l ->
  exists s', readline_step buf e (Z.of_nat (length l)) s = Ok (inl (Z.of_nat (length (edit l c)))) s' /\
    has (term s') q /\ line_in buf m0 (mmem s') (edit l c).
Proof.
  intros Hq [Hc Hn] Hlen Hl. destruct (has_get _ _ _ Hq) as (t1 & Ht1 & Hq1).
  unfold readline_step. erewrite ubind_run by (by apply on_term_run). cbv beta.
  destruct (Z.ltb_spec c 0); [lia|]. set (s1 := s <| term := t1 |>). unfold edit.
  assert (He : (Z.of_nat (length l) >? 0) = negb (bool_decide (l = []))).
  { destruct l; [done|]. rewrite bool_decide_false by done. done. }
  rewrite He. destruct (((c =? 8) || (c =? 127)) && negb (bool_decide (l = []))) eqn:E.
  - apply andb_true_iff in E as [_ E]. destruct (echo_chatty e 8 s1 q Hq1) as (t2 & Ht2 & Hq2).
    urw Ht2. exists (s1 <| term := t2 |>). split; [|split; [done|]].
    + unfold mret, U_ret. rewrite length_take. destruct l; [done|]. repeat f_equal. simpl. lia.
    + destruct Hl as [H1 H2]. split; [|done]. intros i d Hi. apply H1.
      by apply lookup_take_Some in Hi as [Hi _].
  - change (BUFLEN - 1) with MAXLINE. rewrite (Z.geb_leb c 32).
    destruct ((32 <=? c) && (Z.of_nat (length l) <? MAXLINE)) eqn:E2.
    + zbool. destruct (echo_chatty e c s1 q Hq1) as (t2 & Ht2 & Hq2). urw Ht2.
      replace (Z.of_nat (length (l ++ [c]))) with (Z.of_nat (length l) + 1)
        by (rewrite length_app; simpl; lia).
      eexists. split; [unfold store8; ub; reflexivity|]. split; [exact Hq2|].
      apply line_in_store; [done | lia |]. unfold BUFLEN, MAXLINE in *. lia.
    + fold (newline c). rewrite Hn. exists s1. done.
Qed.

Lemma readline_step_end buf m0 e l c q s :
  has (term s) (c :: q) -> newline c = true -> Z.of_nat (length l) <= MAXLINE ->
  line_in buf m0 (mmem s) l ->
  exists s', readline_step buf e (Z.of_nat (length l)) s = Ok (inr (Some buf)) s' /\
    has (term s') q /\ line_in buf m0 (mmem s') (l ++ [0]).
Proof.
  intros Hq Hn Hlen Hl. destruct (has_get _ _ _ Hq) as (t1 & Ht1 & Hq1).
  assert (Hc : c = 10 \/ c = 13) by (unfold newline in Hn; lia).
  unfold readline_step. erewrite ubind_run by (by apply on_term_run). cbv beta.
  set (s1 := s <| term := t1 |>).
  assert (Hsel : (c <? 0) = false /\ ((c =? 8) || (c =? 127)) = false /\ (c >=? 32) = false) by lia.
  destruct Hsel as (-> & -> & ->). cbn [andb]. fold (newline c). rewrite Hn.
  destruct (echo_chatty e 10 s1 q Hq1) as (t2 & Ht2 & Hq2). urw Ht2.
  eexists. split; [unfold store8; ub; reflexivity|]. split; [exact Hq2|].
  apply line_in_store; [done | lia |]. unfold BUFLEN, MAXLINE in *. lia.
Qed.

Lemma readline_loop buf m0 e c q pre rounds l s :
  has (term s) (pre ++ c :: q) -> Forall in_line pre -> newline c = true ->
  (length pre < rounds)%nat ->
  Forall (fun d => 32 <= d < 256) l -> Z.of_nat (length l) <= MAXLINE ->
  line_in buf m0 (mmem s) l ->
  exists s', uloop rounds (readline_step buf e) (Z.of_nat (length l)) s = Ok (Some buf) s' /\
    has (term s') q /\ cstr (mmem s') buf (foldl edit l pre) /\
    forall a, ~ buf <= a < buf + BUFLEN -> ld8 (mmem s') a = ld8 m0 a.
Proof.
  intros Hq Hp Hc. revert rounds l s Hq. induction pre as [|d pre IH];
    intros [|rounds] l s Hq Hr Hl Hn Hin; simpl in Hr; try lia; rewrite uloop_succ.
  - destruct (readline_step_end buf m0 e l c q s) as (s2 & H2 & Hq2 & [Hin2 Hout]); try done.
    urw H2. exists s2. split; [done|]. split; [done|]. split; [|done].
    change (foldl edit l []) with l. apply cstr_intro.
    + intros i x Hi. split; [|apply Hin2; by apply lookup_app_l_Some].
      pose proof (Forall_lookup_1 _ _ _ _ Hl Hi) as Hx. cbv beta in Hx. lia.
    + apply Hin2. rewrite lookup_app_r, Nat.sub_diag by lia. done.
  - apply Forall_cons in Hp as [Hd Hp].
    destruct (readline_step_char buf m0 e l d (pre ++ c :: q) s) as (s2 & H2 & Hq2 & Hin2); try done.
    urw H2. destruct (edit_keeps l d Hd (conj Hl Hn)) as [Hl2 Hn2].
    apply (IH Hp rounds (edit l d)); (done || lia).
Qed.

Lemma readline_run rounds buf prompt pre c q s :
  has (term s) (pre ++ c :: q) -> Forall in_line pre -> newline c = true ->
  (length pre < rounds)%nat ->
  exists s', readline rounds buf prompt s = Ok (Some buf) s' /\ has (term s') q /\
    cstr (mmem s') buf (line_of pre) /\
    (forall a, ~ buf <= a < buf + BUFLEN -> ld8 (mmem s') a = ld8 (mmem s) a).
Proof.
  intros Hq Hpre Hc Hr. unfold readline.
  destruct (puts_chatty prompt s _ Hq) as (t0 & Ht0 & Hq0). urw Ht0.
  set (s0 := s <| term := t0 |>). apply (readline_loop buf (mmem s) _ c q pre rounds [] s0); try done.
Qed.

Lemma line_of_bounds typed :
  Forall in_line typed ->
  Forall (fun d => 32 <= d < 256) (line_of typed) /\ Z.of_nat (length (line_of typed)) <= MAXLINE.
Proof.
  intros Ht. unfold line_of. assert (Hg : forall l, Forall (fun d => 32 <= d < 256) l /\
    Z.of_nat (length l) <= MAXLINE -> Forall (fun d => 32 <= d < 256) (foldl edit l typed) /\
    Z.of_nat (length (foldl edit l typed)) <= MAXLINE).
  { induction Ht as [|c typed Hc _ IH]; intros l Hl; [done|]. simpl. apply IH. by apply edit_keeps. }
  apply Hg. split; [constructor | done].
Qed.

(** ** Words *)

Definition letter (c : Z) : Prop := c <> 0 /\ whitespace c = false.
Definition white (c : Z) : Prop := c <> 0 /\ whitespace c = true.

(** The words of a line: its longest runs without white space. *)
Fixpoint split_words (cur l : list Z) : list (list Z) :=
  match l with
  | [] => if bool_decide (cur = []) then [] else [cur]
  | c :: l' =>
      if whitespace c then (if bool_decide (cur = []) then [] else [cur]) ++ split_words [] l'
      else split_words (cur ++ [c]) l'
  end.
Definition words (l : list Z) : list (list Z) := split_words [] l.

Lemma words_white p l : Forall white p -> words (p ++ l) = words l.
Proof. induction 1 as [|c p [_ Hc] _ IH]; [done|]. unfold words in *. simpl. by rewrite Hc. Qed.
Lemma split_words_letters cur w l :
  Forall letter w -> split_words cur (w ++ l) = split_words (cur ++ w) l.
Proof.
  intros Hw. revert cur. induction Hw as [|c w [_ Hc] _ IH]; intros cur; simpl.
  - by rewrite app_nil_r.
  - rewrite Hc, IH, <- app_assoc. done.
Qed.
Lemma words_word w l :
  Forall letter w -> w <> [] -> (forall c l', l = c :: l' -> white c) ->
  words (w ++ l) = w :: words l.
Proof.
  intros Hw Hne Hl. unfold words. rewrite split_words_letters by done. simpl.
  destruct l as [|c l']; simpl; [by rewrite bool_decide_false|].
  destruct (Hl c l' eq_refl) as [_ ->]. rewrite bool_decide_false by done. done.
Qed.

(** A string is white space, a word, and the rest. *)
Lemma split_white l : Forall (fun c => c <> 0) l ->
  exists p r, l = p ++ r /\ Forall white p /\ (forall c r', r = c :: r' -> letter c).
Proof.
  induction 1 as [|c l Hc _ (p & r & -> & Hp & Hr)].
  - exists [], []. done.
  - destruct (whitespace c) eqn:E.
    + exists (c :: p), r. split; [done|]. split; [by constructor | done].
    + exists [], (c :: p ++ r). split; [done|]. split; [done|]. intros d r' [= <- _]. done.
Qed.
Lemma split_word l : Forall (fun c => c <> 0) l ->
  exists w r, l = w ++ r /\ Forall letter w /\ (forall c r', r = c :: r' -> white c).
Proof.
  induction 1 as [|c l Hc _ (w & r & -> & Hw & Hr)].
  - exists [], []. done.
  - destruct (whitespace c) eqn:E.
    + exists [], (c :: w ++ r). split; [done|]. split; [done|]. intros d r' [= <- _]. done.
    + exists (c :: w), r. split; [done|]. split; [by constructor | done].
Qed.

(** ** [runcmd]'s scan of the line *)

Lemma cstr_app m b p r : cstr m b (p ++ r) -> cstr m (b + Z.of_nat (length p)) r.
Proof.
  revert b. induction p as [|c p IH]; intros b H; [by rewrite Z.add_0_r|].
  destruct H as (_ & _ & H). apply IH in H. replace (b + Z.of_nat (length (c :: p))) with
    (b + 1 + Z.of_nat (length p)) by (simpl; lia). done.
Qed.
Lemma cstr_nonzero m b l : cstr m b l -> Forall (fun c => c <> 0) l.
Proof.
  revert b. induction l as [|c l IH]; intros b H; [constructor|]. destruct H as (Hc & _ & H).
  constructor; [done | by apply (IH (b + 1))].
Qed.

(** [m'] is [m] with [n] zeros at [b]. *)
Definition zeroed (b n : Z) (m m' : memory) : Prop :=
  forall a, ld8 m' a = if (b <=? a) && (a <? b + n) then 0 else ld8 m a.

Lemma skip_white_run p r b s :
  cstr (mmem s) b (p ++ r) -> Forall white p -> (forall c r', r = c :: r' -> letter c) ->
  Z.of_nat (length p) <= BUFLEN ->
  exists m', skip_white b s = Ok (b + Z.of_nat (length p)) (s <| mmem := m' |>) /\
    zeroed b (Z.of_nat (length p)) (mmem s) m'.
Proof.
  unfold skip_white. intros Hs Hp Hr Hn.
  assert (Hf : (length p < S (Z.to_nat BUFLEN))%nat) by (unfold BUFLEN in *; lia).
  revert Hf Hs. generalize (S (Z.to_nat BUFLEN)). clear Hn. intros f.
  revert f b s. induction Hp as [|c p [Hc0 Hw] _ IH]; intros [|f] b s Hf Hs; simpl in Hf; try lia;
    rewrite uloop_succ, ubind_assoc, (ubind_run _ _ _ _ _ (load8_run b s)); cbv beta.
  - exists (mmem s). assert (Hstop : negb (ld8 (mmem s) b =? 0) && whitespace (ld8 (mmem s) b) = false).
    { destruct r as [|c r]; [simpl in Hs; by rewrite Hs|]. destruct Hs as (_ & -> & _).
      destruct (Hr c r eq_refl) as [_ ->]. apply andb_false_r. }
    rewrite Hstop. unfold mret, U_ret, mbind, U_bind. rewrite Z.add_0_r. split; [by destruct s|].
    intros a. change (Z.of_nat (length [])) with 0. rewrite Z.add_0_r.
    destruct (Z.leb_spec b a), (Z.ltb_spec a b); simpl; lia || done.
  - destruct Hs as (_ & Hc & Hs). rewrite Hc, Hw.
    destruct (Z.eqb_spec c 0); [done|]. cbn [negb andb].
    set (s1 := s <| mmem := st8 (mmem s) b 0 |>). rewrite ubind_assoc, (ubind_run _ _ _ _ _ (store8_run b 0 s)). fold s1. ub.
    assert (Hs1 : cstr (mmem s1) (b + 1) (p ++ r)).
    { eapply cstr_frame; [|exact Hs]. intros. unfold s1. simpl. apply ld8_st8_ne. lia. }
    destruct (IH f (b + 1) s1 ltac:(lia) Hs1) as (m' & Hm & Hz).
    exists m'. split.
    + replace (b + Z.of_nat (length (c :: p))) with (b + 1 + Z.of_nat (length p)) by (simpl; lia).
      rewrite Hm. done.
    + intros a. rewrite (Hz a). unfold s1. simpl length. simpl mmem. rewrite ld8_st8.
      destruct (Z.leb_spec (b + 1) a), (Z.ltb_spec a (b + 1 + Z.of_nat (length p))), (Z.leb_spec b a),
        (Z.ltb_spec a (b + Z.of_nat (S (length p)))), (Z.eqb_spec a b); simpl; lia || done.
Qed.

Lemma skip_word_run w r b s :
  cstr (mmem s) b (w ++ r) -> Forall letter w -> (forall c r', r = c :: r' -> white c) ->
  Z.of_nat (length w) <= BUFLEN ->
  skip_word b s = Ok (b + Z.of_nat (length w)) s.
Proof.
  unfold skip_word. intros Hs Hp Hr Hn.
  assert (Hf : (length w < S (Z.to_nat BUFLEN))%nat) by (unfold BUFLEN in *; lia).
  revert Hf Hs. generalize (S (Z.to_nat BUFLEN)). clear Hn. intros f.
  revert f b. induction Hp as [|c w [Hc0 Hw] _ IH]; intros [|f] b Hf Hs; simpl in Hf; try lia;
    rewrite uloop_succ, ubind_assoc, (ubind_run _ _ _ _ _ (load8_run b s)); cbv beta.
  - assert (Hstop : negb (ld8 (mmem s) b =? 0) && negb (whitespace (ld8 (mmem s) b)) = false).
    { destruct r as [|c r]; [simpl in Hs; by rewrite Hs|]. destruct Hs as (_ & -> & _).
      destruct (Hr c r eq_refl) as [_ ->]. apply andb_false_r. }
    rewrite Hstop. unfold mret, U_ret, mbind, U_bind. by rewrite Z.add_0_r.
  - destruct Hs as (_ & -> & Hs). rewrite Hw. destruct (Z.eqb_spec c 0); [done|]. cbn [negb andb].
    ub. rewrite (IH f (b + 1)) by (done || lia). f_equal. simpl. lia.
Qed.

(** What the scan leaves: the words as strings, by address; or too many of them. *)
Definition scanned (argv : list Z) (b : Z) (l : list Z) (m m' : memory) (o : option (list Z)) : Prop :=
  if decide (Z.of_nat (length argv + length (words l)) < MAXARGS) then
    exists new, o = Some (argv ++ new) /\ Forall2 (fun a w => cstr m' a w) new (words l) /\
      (forall a, ~ b <= a < b + Z.of_nat (length l) -> ld8 m' a = ld8 m a) /\
      ((forall c l', l = c :: l' -> white c) -> ld8 m' b = 0)
  else o = None.

Lemma parse_loop fuel argv b l q s :
  cstr (mmem s) b l -> Z.of_nat (length l) <= BUFLEN -> has (term s) q ->
  Z.of_nat (length argv) < MAXARGS -> MAXARGS < Z.of_nat fuel + Z.of_nat (length argv) ->
  exists o s', uloop fuel (fun '(b, argv) =>
      b ← skip_white b;
      c ← load8 b;
      if c =? 0 then mret (inr (Some argv))
      else if Z.of_nat (length argv) =? MAXARGS - 1 then
        puts (letters "Too many arguments (max 16)" ++ [10]);;
        mret (inr None)
      else
        e ← skip_word b;
        mret (inl (e, argv ++ [b]))) (b, argv) s = Ok o s' /\
    has (term s') q /\ scanned argv b l (mmem s) (mmem s') o.
Proof.
  revert argv b l s. induction fuel as [|fuel IH]; intros argv b l s Hs Hn Hq Ha Hf; [lia|].
  rewrite uloop_succ. pose proof (cstr_nonzero _ _ _ Hs) as Hnz.
  destruct (split_white l Hnz) as (p & r & -> & Hp & Hr).
  apply Forall_app in Hnz as [_ Hnz]. rewrite length_app, Nat2Z.inj_add in Hn.
  destruct (skip_white_run p r b s Hs Hp Hr ltac:(lia)) as (m1 & Hm1 & Hz1).
  rewrite ubind_assoc. urw Hm1. set (s1 := s <| mmem := m1 |>). set (b1 := b + Z.of_nat (length p)).
  assert (Hs1 : cstr (mmem s1) b1 r).
  { eapply cstr_frame; [|exact (cstr_app _ _ _ _ Hs)]. intros a Hin. unfold s1. simpl.
    rewrite (Hz1 a). destruct (Z.ltb_spec a (b + Z.of_nat (length p))); [lia|].
    by rewrite andb_false_r. }
  assert (Hout : forall a, ~ b <= a < b1 -> ld8 m1 a = ld8 (mmem s) a).
  { intros a Hin. rewrite (Hz1 a). unfold b1 in Hin.
    destruct (Z.leb_spec b a), (Z.ltb_spec a (b + Z.of_nat (length p))); simpl; lia || done. }
  rewrite ubind_assoc, (ubind_run _ _ _ _ _ (load8_run b1 s1)). cbv beta. unfold scanned. rewrite words_white by done.
  destruct (split_word r Hnz) as (w & rest & -> & Hw & Hrest).
  destruct w as [|c w].
  - destruct rest as [|c rest].
    2: { destruct (Hrest c rest eq_refl) as [_ Hx]. destruct (Hr c rest eq_refl) as [_ Hy]. congruence. }
    change (ld8 (mmem s1) b1 = 0) in Hs1. rewrite Hs1. change (0 =? 0) with true. cbv iota. eexists _, s1. split; [reflexivity|]. split; [done|].
    change (words ([] ++ [])) with (@nil (list Z)). rewrite decide_True by (simpl; lia).
    exists []. split; [by rewrite app_nil_r|]. split; [constructor|]. rewrite !app_nil_r. split; [done|].
    intros _. unfold s1. simpl. rewrite (Hz1 b). destruct p as [|d p].
    + unfold b1 in Hs1. simpl length in Hs1. rewrite Z.add_0_r in Hs1.
      change (ld8 m1 b = 0) in Hs1. by rewrite (Hz1 b) in Hs1.
    + rewrite Z.leb_refl. destruct (Z.ltb_spec b (b + Z.of_nat (length (d :: p)))); [done | simpl in *; lia].
  - rewrite words_word by done. destruct Hs1 as (Hc0 & Hc & Hs1'). pose proof (conj Hc0 (conj Hc Hs1')) as Hs1.
    change (cstr (mmem s1) b1 ((c :: w) ++ rest)) in Hs1. rewrite Hc.
    destruct (Z.eqb_spec c 0); [done|]. unfold MAXARGS in *.
    destruct (Z.eqb_spec (Z.of_nat (length argv)) (16 - 1)) as [Hfull | Hnf].
    { destruct (puts_chatty (letters "Too many arguments (max 16)" ++ [10]) s1 q Hq) as (t & Ht & Hqt).
      rewrite ubind_assoc. urw Ht. ub. eexists _, _. split; [reflexivity|].
      split; [exact Hqt|]. rewrite decide_False by (simpl; lia). done. }
    rewrite length_app, Nat2Z.inj_add in Hn.
    rewrite ubind_assoc, (ubind_run _ _ _ _ _ (skip_word_run (c :: w) rest b1 s1 Hs1 Hw Hrest ltac:(lia))).
    cbv beta. ub. set (b2 := b1 + Z.of_nat (length (c :: w))).
    assert (Hs2 : cstr (mmem s1) b2 rest) by exact (cstr_app _ _ (c :: w) _ Hs1).
    destruct (IH (argv ++ [b1]) b2 rest s1 Hs2) as (o & s' & Hrun & Hqs & Hsc);
      [lia | done | rewrite length_app; simpl; lia | rewrite length_app; simpl; lia |].
    exists o, s'. split; [exact Hrun|]. split; [done|]. unfold scanned in Hsc.
    unfold MAXARGS in *. rewrite length_app in Hsc. simpl length in Hsc |- *.
    destruct (decide (Z.of_nat (length argv + S (length (words rest))) < 16)) as [Hlt | Hge].
    2: { rewrite decide_False in Hsc by lia. done. }
    rewrite decide_True in Hsc by lia. destruct Hsc as (new & -> & Hnew & Hfr & Hend).
    specialize (Hend Hrest). exists (b1 :: new). split; [by rewrite <- app_assoc|].
    assert (Hl : b2 = b1 + 1 + Z.of_nat (length w)) by (unfold b2; simpl; lia).
    split; [constructor; [|done]|split].
    + apply cstr_intro; [|rewrite <- Hend; f_equal].
      intros i x Hi. pose proof (lookup_lt_Some _ _ _ Hi) as Hlti. simpl length in Hlti.
      rewrite Hfr by lia.
      destruct (cstr_byte _ _ _ i x Hs1 ltac:(by apply lookup_app_l_Some)). done.
    + intros a Hin. rewrite Hfr; [apply Hout|]; rewrite !length_app in Hin; simpl in Hin; rewrite length_app in Hin; unfold b1 in *; lia.
    + intros Hwh. destruct p as [|d p].
      * destruct (Hwh c (w ++ rest) eq_refl) as [_ Hx]. apply Forall_cons in Hw as [[_ Hy] _]. congruence.
      * rewrite Hfr by (unfold b1 in *; simpl in *; lia). unfold s1. simpl mmem. rewrite (Hz1 b), Z.leb_refl.
        destruct (Z.ltb_spec b (b + Z.of_nat (length (d :: p)))); [done | simpl in *; lia].
Qed.

(** ** Finding the command *)

Lemma str_is_spec m a w name :
  cstr m a w -> Forall (fun c => c <> 0) name -> str_is m a name = bool_decide (w = name).
Proof.
  intros Hw Hn. revert a w Hw. induction Hn as [|c name Hc _ IH]; intros a [|d w] Hw; cbn [str_is cstr] in *.
  - by rewrite Hw.
  - destruct Hw as (Hd & -> & _). rewrite bool_decide_false by done. by apply Z.eqb_neq.
  - rewrite Hw, bool_decide_false by done. destruct (Z.eqb_spec 0 c); [congruence | done].
  - destruct Hw as (Hd & -> & Hw). rewrite (IH (a + 1) w Hw).
    destruct (Z.eqb_spec d c) as [-> | Hne]; simpl.
    + apply bool_decide_ext. split; [congruence | by intros [= ->]].
    + symmetry. apply bool_decide_eq_false. congruence.
Qed.

(** The first command of that name. *)
Definition named (w : list Z) (cs : list (Command T)) : option (Command T) :=
  List.find (fun c => bool_decide (w = letters (cmd_name c))) cs.
Definition good_names (cs : list (Command T)) : Prop :=
  Forall (fun c => Forall (fun x => x <> 0) (letters (cmd_name c))) cs.

Lemma lookup_command_spec cs m a w :
  cstr m a w -> good_names cs -> lookup_command cs m a = named w cs.
Proof.
  intros Hw Hg. unfold named. induction Hg as [|c cs Hc _ IH]; simpl; [done|].
  rewrite (str_is_spec _ _ _ _ Hw Hc). by destruct (bool_decide _).
Qed.

Lemma puts_at_run a w q s :
  cstr (mmem s) a w -> Z.of_nat (length w) <= BUFLEN -> has (term s) q ->
  exists t, puts_at a s = Ok tt (s <| term := t |>) /\ has t q.
Proof.
  unfold puts_at. intros Hs Hn.
  assert (Hf : (length w < S (Z.to_nat BUFLEN))%nat) by (unfold BUFLEN in *; lia).
  revert Hf Hs. generalize (S (Z.to_nat BUFLEN)). clear Hn. intros f.
  revert f a s. induction w as [|c w IH]; intros [|f] a s Hf Hs Hq; simpl in Hf; try lia;
    rewrite uloop_succ, ubind_assoc, (ubind_run _ _ _ _ _ (load8_run a s)); cbv beta.
  - change (ld8 (mmem s) a = 0) in Hs. rewrite Hs. exists (term s). split; [by destruct s | done].
  - destruct Hs as (Hc & -> & Hs). destruct (Z.eqb_spec c 0); [done|].
    destruct (putchar_chatty c s q Hq) as (t & Ht & Hqt). rewrite ubind_assoc. urw Ht. ub.
    set (s1 := s <| term := t |>). destruct (IH f (a + 1) s1 ltac:(lia) Hs Hqt) as (t' & Ht' & Hq').
    exists t'. done.
Qed.

(** What [runcmd] does with a line of words [ws]. *)
Definition command_run (cs : list (Command T)) (buf : Z) (ws : list (list Z)) (q : list Z) s : Prop :=
  match ws with
  | [] => exists s', runcmd cs buf s = Ok 0 s' /\ has (term s') q
  | w :: _ =>
      if decide (Z.of_nat (length ws) < MAXARGS) then
        exists argv s', Forall2 (fun a w => cstr (mmem s') a w) argv ws /\ has (term s') q /\
          match named w cs with
          | Some c => runcmd cs buf s = cmd_func c argv s'
          | None => exists s'', runcmd cs buf s = Ok 0 s'' /\ has (term s'') q
          end
      else exists s', runcmd cs buf s = Ok 0 s' /\ has (term s') q
  end.

Lemma words_length l : Forall (fun w => (length w <= length l)%nat) (words l).
Proof.
  unfold words. assert (Hg : forall cur, Forall (fun w => (length w <= length cur + length l)%nat) (split_words cur l)).
  { induction l as [|c l IH]; intros cur; simpl.
    - case_bool_decide; [constructor | apply Forall_singleton; lia].
    - destruct (whitespace c).
      + apply Forall_app. split.
        * case_bool_decide; [constructor | apply Forall_singleton; lia].
        * eapply Forall_impl; [apply (IH [])|]. simpl. lia.
      + eapply Forall_impl; [apply (IH (cur ++ [c]))|]. cbv beta. rewrite length_app. simpl. lia. }
  apply (Hg []).
Qed.

Lemma runcmd_run cs buf l q s :
  good_names cs -> cstr (mmem s) buf l -> Z.of_nat (length l) <= BUFLEN -> has (term s) q ->
  command_run cs buf (words l) q s.
Proof.
  intros Hg Hs Hn Hq.
  destruct (parse_loop (S (Z.to_nat MAXARGS)) [] buf l q s Hs Hn Hq) as (o & s' & Hrun & Hq' & Hsc);
    [done | done |].
  fold (parse_args buf) in Hrun. unfold scanned in Hsc. simpl length in Hsc.
  pose proof (words_length l) as Hlen. unfold command_run.
  destruct (words l) as [|w ws] eqn:Ew.
  - rewrite decide_True in Hsc by done. destruct Hsc as (new & -> & Hnew & _).
    apply Forall2_nil_inv_r in Hnew as ->. exists s'. split; [|done].
    unfold runcmd. urw Hrun. done.
  - destruct (decide _) as [Hlt | Hge].
    + destruct Hsc as (new & -> & Hnew & _).
      exists new, s'. split; [done|]. split; [done|].
      destruct new as [|a new]; [by apply Forall2_nil_inv_l in Hnew|].
      pose proof (Forall2_cons_1 _ _ _ _ _ Hnew) as [Hw _]. apply Forall_cons in Hlen as [Hlw _].
      assert (Hr : runcmd cs buf s = match named w cs with
        | Some c => cmd_func c (a :: new)
        | None => puts (letters "Unknown command '");; puts_at a;; puts [39; 10];; mret 0
        end s').
      { unfold runcmd. urw Hrun. cbn [app]. ub. rewrite (lookup_command_spec cs _ _ _ Hw Hg). done. }
      rewrite Hr. destruct (named w cs) as [c|]; [done|].
      destruct (puts_chatty (letters "Unknown command '") s' q Hq') as (t1 & Ht1 & Hq1).
      set (s1 := s' <| term := t1 |>) in Ht1.
      destruct (puts_at_run a w q s1 Hw ltac:(lia) Hq1) as (t2 & Ht2 & Hq2).
      set (s2 := s1 <| term := t2 |>) in Ht2.
      destruct (puts_chatty [39; 10] s2 q Hq2) as (t3 & Ht3 & Hq3).
      urw Ht1. urw Ht2. urw Ht3. eexists. split; [reflexivity | exact Hq3].
    + subst o. exists s'. split; [|done].
      unfold runcmd. urw Hrun. done.
Qed.

Lemma line_command cs buf typed q s :
  good_names cs -> cstr (mmem s) buf (line_of typed) -> Forall in_line typed -> has (term s) q ->
  command_run cs buf (words (line_of typed)) q s.
Proof.
  intros Hg Hc Ht Hq. apply runcmd_run; [done | done | | done].
  destruct (line_of_bounds typed Ht) as [_ Hb]. unfold MAXLINE, BUFLEN in *. lia.
Qed.

(** A line typed at the terminal is read, and the command its first word names is called
    with the addresses of all its words, each of them a string of its own: corrections are
    carried out, whatever does not fit is dropped, an empty line does nothing, and an
    unknown name or more than fifteen words only give a message.  The input after the
    line is still there. *)
Lemma terminal_line rounds cs buf prompt typed e q s :
  good_names cs -> has (term s) (typed ++ e :: q) -> Forall in_line typed -> newline e = true ->
  (length typed < rounds)%nat ->
  exists s', readline rounds buf prompt s = Ok (Some buf) s' /\
    command_run cs buf (words (line_of typed)) q s'.
Proof.
  intros Hg Hq Ht He Hr.
  destruct (readline_run rounds buf prompt typed e q s Hq Ht He Hr) as (s' & Hrun & Hq' & Hc & _).
  exists s'. split; [done|]. by apply line_command.
Qed.
End terminal.

(** ** The console is a terminal *)

Section console.
Context {D : Type} `{!PcDevices D} (base : Z) `{!ConsoleHw base} (rounds : nat).

#[local] Instance console_terminal : Terminal (cons_state D) := {
  t_getchar := getchar rounds;
  t_cputchar := Console.cputchar;
  t_iscons := iscons;
}.

(** Everything the ring, the serial line and the keyboard have to give. *)
Record console_has (s : cons_state D) (q : list Z) : Prop := {
  ch_shows : exists t, shows base t s;
  ch_short : (length (serq base (dev s)) < rounds)%nat /\ (length (kbq base (dev s)) < rounds)%nat;
  ch_waiting : exists l k, ring s l /\ Forall (fun c => c <> 0) l /\ shift s = kbd_bits k /\
    q = kept (l ++ (if serial_exists s then nonzero (serq base (dev s)) else [])
                ++ nonzero (kbd_chars k (kbq base (dev s))).1);
}.

Lemma nonzero_all l : Forall (fun c => c <> 0) (nonzero l).
Proof. apply Forall_forall. intros c Hc. by apply list_elem_of_filter in Hc as [Hc _]. Qed.

Lemma console_get s c q :
  console_has s (c :: q) -> exists s', getchar rounds s = Ok c s' /\ console_has s' q.
Proof.
  intros [[t Ht] [Hls Hlk] (l & k & Hr & Hl & Hsh & Hq)].
  pose proof (cons_getc_run base rounds t l k s Ht Hr Hsh Hls Hlk) as H. cbv zeta in H.
  destruct (kbd_chars k (kbq base (dev s))) as [keys k'].
  set (serial := if serial_exists s then _ else _) in *. simpl fst in Hq. rewrite <- Hq in H.
  destruct H as (s' & Hc & Hr' & Hsh' & Hk' & He' & Hs' & Ht'). simpl in Hc, Hr'.
  assert (Hne : Forall (fun x => x <> 0) (c :: q)).
  { rewrite Hq. unfold kept. apply Forall_drop, Forall_app. split; [done|]. apply Forall_app.
    split; [|apply nonzero_all]. unfold serial. destruct (serial_exists s); [apply nonzero_all | done]. }
  apply Forall_cons in Hne as [Hc0 Hne]. exists s'. split.
  - unfold getchar. destruct rounds as [|f]; [lia|]. apply uloop_stop. urw Hc.
    by destruct (Z.eqb_spec c 0).
  - constructor; [done | |].
    + rewrite Hk', Hs'. destruct (serial_exists s); simpl; lia.
    + exists q, k'. split; [done|]. split; [done|]. split; [done|].
      rewrite Hk', He', Hs'.
      assert (Hnone : (if serial_exists s
        then nonzero (if serial_exists s then [] else serq base (dev s)) else []) = [])
        by (by destruct (serial_exists s)).
      rewrite Hnone. change (nonzero (kbd_chars k' []).1) with (@nil Z).
      rewrite !app_nil_r, kept_small; [done | apply (r_short _ _ Hr')].
Qed.

Lemma console_put s c q :
  console_has s q -> exists s', Console.cputchar c s = Ok tt s' /\ console_has s' q.
Proof.
  intros [[t Ht] Hlen (l & k & Hr & Hl & Hsh & Hq)].
  destruct (uwp_elim _ _ _ (cons_putc_prints base c t s Ht)) as ([] & s' & Hrun & Hs' & Hi).
  pose proof (input_same_ring base _ _ Hi) as Hrs. destruct Hi as [He Hshift _ _ _ Hsq Hkq].
  exists s'. split; [exact Hrun|]. constructor.
  - by eexists.
  - by rewrite Hsq, Hkq.
  - exists l, k. split; [by apply (ring_keep s)|]. split; [done|]. by rewrite Hshift, He, Hsq, Hkq.
Qed.

#[local] Program Instance console_terminal_ok : TerminalOk (cons_state D) := { has := console_has }.
Next Obligation. intros s c q. apply console_get. Qed.
Next Obligation. intros s c q. apply console_put. Qed.

(** C14. Whatever is typed at the keyboard or comes in on the serial line, [readline] and
    [runcmd] on the console do with it what the line editor and the word splitter on lists
    say: corrections are carried out, what does not fit is dropped, the command that the
    first word names is called with the addresses of all the words, each a string of its
    own, an empty line does nothing, and an unknown name or more than fifteen words only
    give a message.  What was typed after the line is still there. *)
Theorem console_line_correct turns cs bufa prompt typed e q (s : mon (cons_state D)) :
  good_names cs -> console_has (term s) (typed ++ e :: q) -> Forall in_line typed ->
  newline e = true -> (length typed < turns)%nat ->
  exists s', readline turns bufa prompt s = Ok (Some bufa) s' /\
    command_run cs bufa (words (line_of typed)) q s'.
Proof. apply (terminal_line (TerminalOk0 := console_terminal_ok)). Qed.
End console.

(** ** Somebody types at the keyboard *)

(** [hepl], two backspaces, [lp] and return, as scan codes; every key is released. *)
Definition keys : list Z := [0x23; 0xA3; 0x12; 0x92; 0x19; 0x99; 0x26; 0xA6; 0x0E; 0x8E; 0x0E; 0x8E;
  0x26; 0xA6; 0x19; 0x99; 0x1C; 0x9C].
Definition typist : cons_state pc :=
  cons_static (mkPc [] keys ∅) <| crt_buf := CGA_BUF |> <| addr_6845 := CGA_BASE |>.
Definition at_monitor : mon (cons_state pc) := mkMon typist ∅.
Definition test_symbols : KernelSymbols :=
  {| sym_start := 0x10000c; sym_entry := 0xf010000c; sym_etext := 0xf0101000;
     sym_edata := 0xf0112000; sym_end := 0xf0113000 |}.

Lemma typist_has : console_has CGA_BUF 100 typist (letters "hepl" ++ [8; 8] ++ letters "lp" ++ [10]).
Proof.
  constructor.
  - exists tty0. split; [|done]. constructor; [done | by right | done | by vm_compute | | done].
    intros i _. simpl. by rewrite lookup_empty.
  - split; apply Nat.ltb_lt; vm_compute; reflexivity.
  - exists [], kbd0. split; [by constructor|]. split; [constructor|]. split; [reflexivity|].
    vm_compute. reflexivity.
Qed.

#[local] Instance pc_terminal : Terminal (cons_state pc) := console_terminal 100.
#[local] Existing Instance test_symbols.
Definition pc_commands : list (Command (cons_state pc)) := commands (fun _ => mret 0).

Lemma console_line_correct_witness :
  exists s1 argv s2, readline 64 0x1000 (letters "K> ") at_monitor = Ok (Some 0x1000) s1 /\
    Forall2 (fun a w => cstr (mmem s2) a w) argv [letters "help"] /\
    runcmd pc_commands 0x1000 s1 = mon_help argv s2.
Proof.
  assert (Hg : good_names pc_commands).
  { unfold good_names, pc_commands, commands. repeat constructor; vm_compute; discriminate. }
  assert (Hq : console_has CGA_BUF 100 (term at_monitor)
    ((letters "hepl" ++ [8; 8] ++ letters "lp") ++ 10 :: [])) by exact typist_has.
  assert (Ht : Forall in_line (letters "hepl" ++ [8; 8] ++ letters "lp")).
  { repeat constructor; vm_compute; discriminate || reflexivity. }
  destruct (console_line_correct CGA_BUF 100 64 pc_commands 0x1000 (letters "K> ")
    (letters "hepl" ++ [8; 8] ++ letters "lp") 10 [] at_monitor Hg Hq Ht eq_refl) as (s1 & Hr & Hc).
  { apply Nat.ltb_lt. vm_compute. reflexivity. }
  assert (Hw : words (line_of (letters "hepl" ++ [8; 8] ++ letters "lp")) = [letters "help"])
    by (vm_compute; reflexivity).
  rewrite Hw in Hc. unfold command_run in Hc. destruct (decide _) as [_ | Hn].
  2: { exfalso. apply Hn. vm_compute. reflexivity. }
  assert (Hnamed : named (letters "help") pc_commands =
    Some (mkCommand "help" "Display this list of commands" mon_help)).
  { unfold named, pc_commands, commands. cbn [List.find cmd_name].
    rewrite bool_decide_true by reflexivity. reflexivity. }
  rewrite Hnamed in Hc. destruct Hc as (argv & s2 & Hf & _ & Hrun).
  exists s1, argv, s2. exact (conj Hr (conj Hf Hrun)).
Defined.
