(* ===== verification/Args.v ===== *)
(** * Command-line flags ([lib/args.c], [inc/args.h])

    The parser consumes the argument array of its caller in place.  [next], [nextvalue] and
    [value] say what it does on lists of strings; [args_correct] that the code does it. *)

From S2P Require Import Prelude Mem CString.

Record Argstate := mkArgstate {
  as_argc : Z;
  as_argv : Z;
  as_curarg : Z;
  as_argvalue : Z;
}.
#[export] Instance Argstate_eta : Eta Argstate :=
  fun r => mkArgstate (as_argc r) (as_argv r) (as_curarg r) (as_argvalue r).

Section args.
(** The address of the string literal [""]. *)
Context (nothing : Z).

Definition argstart (m : memory) (argc argv : Z) : Argstate :=
  mkArgstate argc argv (if (s32 (ld32 m argc) >? 1) && negb (argv =? 0) then nothing else 0) 0.

(** [memmove(args->argv + 1, args->argv + 2, ...); ( *args->argc)--]. *)
Definition shift_args (m : memory) (a : Argstate) : memory :=
  let m := memmove m (as_argv a + 4) (as_argv a + 8) (w32 (4 * w32 (s32 (ld32 m (as_argc a)) - 1))) in
  st32 m (as_argc a) (s32 (ld32 m (as_argc a)) - 1).

(** The character, and the parser past it. *)
Definition take_flag (m : memory) (a : Argstate) : Z * memory * Argstate :=
  (ld8 m (as_curarg a), m, a <| as_curarg := as_curarg a + 1 |>).

Definition argnext (m : memory) (a : Argstate) : Z * memory * Argstate :=
  let a := a <| as_argvalue := 0 |> in
  let arg1 := ld32 m (as_argv a + 4) in
  if as_curarg a =? 0 then (-1, m, a)
  else if ld8 m (as_curarg a) =? 0 then
    if (s32 (ld32 m (as_argc a)) =? 1) || negb (ld8 m arg1 =? 45) || (ld8 m (arg1 + 1) =? 0)
    then (-1, m, a <| as_curarg := 0 |>)
    else
      let a := a <| as_curarg := arg1 + 1 |> in
      let m := shift_args m a in
      if (ld8 m (as_curarg a) =? 45) && (ld8 m (as_curarg a + 1) =? 0)
      then (-1, m, a <| as_curarg := 0 |>)
      else take_flag m a
  else take_flag m a.

Definition argnextvalue (m : memory) (a : Argstate) : Z * memory * Argstate :=
  if as_curarg a =? 0 then (0, m, a)
  else if negb (ld8 m (as_curarg a) =? 0) then
    (as_curarg a, m, a <| as_argvalue := as_curarg a |> <| as_curarg := nothing |>)
  else if s32 (ld32 m (as_argc a)) >? 1 then
    let v := ld32 m (as_argv a + 4) in
    (v, shift_args m a, a <| as_argvalue := v |>)
  else (0, m, a <| as_argvalue := 0 |> <| as_curarg := 0 |>).

Definition argvalue (m : memory) (a : Argstate) : Z * memory * Argstate :=
  if negb (as_argvalue a =? 0) then (as_argvalue a, m, a) else argnextvalue m a.
End args.

(** ** The parser on lists

    What is left of the argument being read ([None] when the flags are over), the arguments
    not yet read, and the value of the current flag. *)

Record parse := mkParse { cur : option (list Z); rest : list (list Z); val : option (list Z) }.

(** Flags stop at an argument that does not start with [-], at [-], and after [--]. *)
Definition next (p : parse) : Z * parse :=
  match cur p with
  | None => (-1, mkParse None (rest p) None)
  | Some (c :: l) => (c, mkParse (Some l) (rest p) None)
  | Some [] =>
      match rest p with
      | (d :: c :: l) :: rs =>
          if negb (d =? 45) then (-1, mkParse None (rest p) None)
          else if (c =? 45) && bool_decide (l = []) then (-1, mkParse None rs None)
          else (c, mkParse (Some l) rs None)
      | _ => (-1, mkParse None (rest p) None)
      end
  end.

(** A value is the rest of the argument, or else the next argument. *)
Definition nextvalue (p : parse) : option (list Z) * parse :=
  match cur p, rest p with
  | None, _ => (None, p)
  | Some (c :: l), _ => (Some (c :: l), mkParse (Some []) (rest p) (Some (c :: l)))
  | Some [], w :: ws => (Some w, mkParse (Some []) ws (Some w))
  | Some [], [] => (None, mkParse None [] None)
  end.
Definition value (p : parse) : option (list Z) * parse :=
  match val p with Some v => (Some v, p) | None => nextvalue p end.

(** A program that asks for flags and values in some order. *)
Inductive request := Next | NextValue | Value.

(** ** The argument array in memory *)

(** An array of at most [n] pointers with its count; the strings are elsewhere. *)
Definition array_at (argc argv n x : Z) : Prop :=
  argc <= x < argc + 4 \/ argv <= x < argv + 4 * (n + 1).
Definition string_at (m : memory) (argc argv n p : Z) (l : list Z) : Prop :=
  0 < p /\ cstr m p l /\ forall i, 0 <= i <= Z.of_nat (length l) -> ~ array_at argc argv n (p + i).
Definition maybe_at (m : memory) (argc argv n p : Z) (o : option (list Z)) : Prop :=
  match o with None => p = 0 | Some l => string_at m argc argv n p l end.

(** The arguments after the program's name. *)
Record arguments (m : memory) (argc argv n : Z) (args : list (list Z)) : Prop := {
  ar_count : ld32 m argc = 1 + Z.of_nat (length args);
  ar_fits : 1 + Z.of_nat (length args) <= n;
  ar_apart : argc + 4 <= argv \/ argv + 4 * (n + 1) <= argc;
  ar_args : forall i l, args !! i = Some l ->
    string_at m argc argv n (ld32 m (argv + 4 + 4 * Z.of_nat i)) l;
}.

Record shows (nothing n : Z) (m : memory) (a : Argstate) (p : parse) : Prop := {
  sh_args : arguments m (as_argc a) (as_argv a) n (rest p);
  sh_cur : maybe_at m (as_argc a) (as_argv a) n (as_curarg a) (cur p);
  sh_val : maybe_at m (as_argc a) (as_argv a) n (as_argvalue a) (val p);
  sh_lit : string_at m (as_argc a) (as_argv a) n nothing [];
  sh_size : 0 <= n < 2 ^ 29;
}.

(** The answers to all [requests] are those of the parser on lists, and so is what is left
    of the argument array after each. *)
Fixpoint answers (nothing n : Z) (m : memory) (a : Argstate) (p : parse) (requests : list request) : Prop :=
  shows nothing n m a p /\
  match requests with
  | [] => True
  | Next :: qs =>
      let '(r, m', a') := argnext m a in
      r = (next p).1 /\ answers nothing n m' a' (next p).2 qs
  | NextValue :: qs =>
      let '(r, m', a') := argnextvalue nothing m a in
      maybe_at m' (as_argc a') (as_argv a') n r (nextvalue p).1 /\ answers nothing n m' a' (nextvalue p).2 qs
  | Value :: qs =>
      let '(r, m', a') := argvalue nothing m a in
      maybe_at m' (as_argc a') (as_argv a') n r (value p).1 /\ answers nothing n m' a' (value p).2 qs
  end.

Section proofs.
Context (argc argv n nothing : Z).
Implicit Types (m : memory) (p : Z) (l : list Z) (args : list (list Z)).
Local Abbreviation string_at m := (string_at m argc argv n).
Local Abbreviation arguments m := (arguments m argc argv n).

Lemma string_frame m m' p l :
  (forall x, ~ array_at argc argv n x -> ld8 m' x = ld8 m x) -> string_at m p l -> string_at m' p l.
Proof.
  intros Hf (Hp & Hs & Ha). split; [done|]. split; [|done]. eapply cstr_frame; [|exact Hs].
  intros x Hx. apply Hf. replace x with (p + (x - p)) by lia. apply Ha. lia.
Qed.
Lemma string_tail m p c l : string_at m p (c :: l) -> ld8 m p = c /\ c <> 0 /\ string_at m (p + 1) l.
Proof.
  intros (Hp & (Hc0 & Hc & Hl) & Ha). split; [done|]. split; [done|]. split; [lia|]. split; [done|].
  intros i Hi. replace (p + 1 + i) with (p + (1 + i)) by lia. apply Ha. simpl. lia.
Qed.
Lemma string_nil m p : string_at m p [] -> ld8 m p = 0.
Proof. by intros (_ & H & _). Qed.

Lemma maybe_frame m m' p o :
  (forall x, ~ array_at argc argv n x -> ld8 m' x = ld8 m x) ->
  maybe_at m argc argv n p o -> maybe_at m' argc argv n p o.
Proof. destruct o; [apply string_frame | done]. Qed.

(** Taking the first argument out of the array. *)
Lemma shift_args_run m a w args :
  as_argc a = argc -> as_argv a = argv -> n < 2 ^ 29 -> arguments m (w :: args) ->
  arguments (shift_args m a) args /\
  forall x, ~ array_at argc argv n x -> ld8 (shift_args m a) x = ld8 m x.
Proof.
  unfold shift_args. intros -> -> Hn [Hc Hf Ha Hs]. simpl length in *.
  set (k := Z.of_nat (length args)) in *.
  assert (Hk : w32 (4 * w32 (s32 (ld32 m argc) - 1)) = 4 * (k + 1)).
  { rewrite Hc, s32_small, (w32_small (_ - 1)), w32_small by lia. lia. }
  rewrite Hk. set (m1 := memmove _ _ _ _).
  assert (Hm1 : forall x, ld8 m1 x = if (argv + 4 <=? x) && (x <? argv + 4 + 4 * (k + 1)) then ld8 m (x + 4) else ld8 m x).
  { intros x. unfold m1. rewrite memmove_ld8 by lia. case_match; [f_equal; lia | done]. }
  assert (Hc1 : ld32 m1 argc = 1 + Z.of_nat (S (length args))).
  { rewrite <- Hc. unfold ld32. rewrite !Hm1. zrange. }
  rewrite Hc1, s32_small by lia.
  assert (Hout : forall x, ~ array_at argc argv n x -> ld8 (st32 m1 argc (1 + Z.of_nat (S (length args)) - 1)) x = ld8 m x).
  { intros x Hx. unfold array_at in Hx. rewrite ld8_st32, Hm1. zrange. }
  split; [|exact Hout]. constructor.
  - rewrite ld32_st32_eq, w32_small by lia. lia.
  - lia.
  - done.
  - intros i l Hi. pose proof (lookup_lt_Some _ _ _ Hi). rewrite ld32_st32_ne by lia.
    replace (ld32 m1 (argv + 4 + 4 * Z.of_nat i)) with (ld32 m (argv + 4 + 4 * Z.of_nat (S i))).
    + apply (string_frame m); [exact Hout | by apply Hs].
    + assert (He : forall j, 0 <= j < 4 ->
        ld8 m (argv + 4 + 4 * Z.of_nat (S i) + j) = ld8 m1 (argv + 4 + 4 * Z.of_nat i + j)).
      { intros j Hj. rewrite Hm1. zrange. }
      unfold ld32. pose proof (He 0 ltac:(lia)) as H0. rewrite !Z.add_0_r in H0.
      rewrite H0, !He by lia. done.
Qed.
End proofs.

Section steps.
Context (nothing n : Z).
Implicit Types (m : memory) (a : Argstate) (p : parse).
Local Abbreviation shows := (shows nothing n).

(** The parser's own fields may change; what they point to is as before. *)
Lemma shows_set m a p c v cu va :
  shows m a p -> maybe_at m (as_argc a) (as_argv a) n c cu -> maybe_at m (as_argc a) (as_argv a) n v va ->
  shows m (mkArgstate (as_argc a) (as_argv a) c v) (mkParse cu (rest p) va).
Proof. intros [H1 H2 H3 H4 H5] Hc Hv. by constructor. Qed.

Lemma shows_shift m a p w ws c v cu va :
  shows m a p -> rest p = w :: ws ->
  maybe_at m (as_argc a) (as_argv a) n c cu -> maybe_at m (as_argc a) (as_argv a) n v va ->
  forall a1, as_argc a1 = as_argc a -> as_argv a1 = as_argv a ->
  shows (shift_args m a1) (mkArgstate (as_argc a) (as_argv a) c v) (mkParse cu ws va).
Proof.
  intros [H1 H2 H3 H4 H5] Hr Hc Hv a1 E1 E2. rewrite Hr in H1.
  destruct (shift_args_run (as_argc a) (as_argv a) n m a1 w ws E1 E2 ltac:(lia) H1) as [Ha Hf].
  constructor; simpl; try done.
  - by apply (maybe_frame _ _ _ m).
  - by apply (maybe_frame _ _ _ m).
  - by apply (string_frame _ _ _ m).
Qed.

Lemma count_of m a p : shows m a p -> s32 (ld32 m (as_argc a)) = 1 + Z.of_nat (length (rest p)).
Proof. intros [[-> ? _ _] _ _ _ ?]. apply s32_small. lia. Qed.

Lemma argnext_run m a p : shows m a p ->
  exists m' a', argnext m a = ((next p).1, m', a') /\ shows m' a' (next p).2.
Proof.
  intros Hs. pose proof (sh_cur _ _ _ _ _ Hs) as Hcur. unfold argnext, next, take_flag.
  assert (Hnull : forall cu c, maybe_at m (as_argc a) (as_argv a) n c cu ->
    shows m (mkArgstate (as_argc a) (as_argv a) c 0) (mkParse cu (rest p) None)).
  { intros cu c Hc. by apply shows_set. }
  simpl as_curarg; simpl as_argv; simpl as_argc. destruct (cur p) as [[|c l] |] eqn:Ec; cbn [maybe_at] in Hcur.
  - pose proof (string_nil _ _ _ _ _ Hcur) as Hz. rewrite Hz. destruct Hcur as [Hpos _].
    destruct (Z.eqb_spec (as_curarg a) 0); [lia|]. rewrite (count_of _ _ _ Hs). change (0 =? 0) with true. cbv iota.
    destruct (rest p) as [|w ws] eqn:Er.
    { eexists _, _. split; [done|]. by apply (Hnull None). }
    pose proof (ar_args _ _ _ _ _ (sh_args _ _ _ _ _ Hs) 0) as Hw. rewrite Er in Hw. specialize (Hw w eq_refl).
    rewrite Z.mul_0_r, Z.add_0_r in Hw. set (arg1 := ld32 m (as_argv a + 4)) in *.
    assert (1 + Z.of_nat (length (w :: ws)) =? 1 = false) as -> by (apply Z.eqb_neq; cbn [length]; lia). cbn [orb].
    assert (Hstop : shows m (mkArgstate (as_argc a) (as_argv a) 0 0) (mkParse None (w :: ws) None)).
    { by apply (Hnull None). }
    destruct w as [|d w].
    { rewrite (string_nil _ _ _ _ _ Hw). eexists _, _. split; [done|]. exact Hstop. }
    destruct (string_tail _ _ _ _ _ _ _ Hw) as (-> & Hd0 & Hw1). destruct w as [|c l].
    { rewrite (string_nil _ _ _ _ _ Hw1), orb_true_r. eexists _, _. split; [done|]. exact Hstop. }
    destruct (string_tail _ _ _ _ _ _ _ Hw1) as (Hc & Hc0 & Hw2). rewrite Hc.
    destruct (Z.eqb_spec d 45) as [-> | Hd]; cbn [negb orb]; [|eexists _, _; split; [done | exact Hstop]].
    destruct (Z.eqb_spec c 0); [done|].
    set (a1 := a <| as_argvalue := 0 |> <| as_curarg := arg1 + 1 |>).
    assert (Hsh : forall cu c, maybe_at m (as_argc a) (as_argv a) n c cu ->
      shows (shift_args m a1) (mkArgstate (as_argc a) (as_argv a) c 0) (mkParse cu ws None)).
    { intros cu c1 Hc1. by apply (shows_shift m a p (45 :: c :: l) ws). }
    pose proof (sh_cur _ _ _ _ _ (Hsh (Some (c :: l)) (arg1 + 1) Hw1)) as Hs1. cbn [maybe_at as_argc as_argv as_curarg cur] in Hs1.
    destruct (string_tail _ _ _ _ _ _ _ Hs1) as (Hm & _ & Hs2). simpl as_curarg. rewrite Hm.
    destruct l as [|e l].
    + rewrite (string_nil _ _ _ _ _ Hs2), bool_decide_true by done.
      destruct (Z.eqb_spec c 45); eexists _, _; (split; [done|]); [by apply Hsh|]. by apply (Hsh (Some [])).
    + destruct (string_tail _ _ _ _ _ _ _ Hs2) as (-> & He0 & _). destruct (Z.eqb_spec e 0); [done|].
      rewrite bool_decide_false, !andb_false_r by done. eexists _, _. split; [done|]. by apply (Hsh (Some (e :: l))).
  - destruct (string_tail _ _ _ _ _ _ _ Hcur) as (Hc & Hc0 & Hl). rewrite Hc. destruct Hcur as [Hpos _].
    destruct (Z.eqb_spec (as_curarg a) 0); [lia|]. destruct (Z.eqb_spec c 0); [done|].
    eexists _, _. split; [done|]. by apply (Hnull (Some l)).
  - rewrite Hcur. eexists _, _. split; [done|]. by apply (Hnull None (as_curarg a)).
Qed.

Lemma argnextvalue_run m a p : shows m a p ->
  exists r m' a', argnextvalue nothing m a = (r, m', a') /\
    maybe_at m' (as_argc a') (as_argv a') n r (nextvalue p).1 /\ shows m' a' (nextvalue p).2.
Proof.
  intros Hs. pose proof (sh_cur _ _ _ _ _ Hs) as Hcur. pose proof (sh_lit _ _ _ _ _ Hs) as Hlit.
  unfold argnextvalue, nextvalue.
  destruct (cur p) as [[|c l] |] eqn:Ec; cbn [maybe_at] in Hcur.
  - rewrite (string_nil _ _ _ _ _ Hcur), (count_of _ _ _ Hs). destruct Hcur as [Hpos _].
    destruct (Z.eqb_spec (as_curarg a) 0); [lia|]. change (0 =? 0) with true. cbn [negb].
    destruct (rest p) as [|w ws] eqn:Er.
    { eexists _, _, _. split; [done|]. split; [done|]. rewrite <- Er. exact (shows_set m a p 0 0 None None Hs eq_refl eq_refl). }
    assert (1 + Z.of_nat (length (w :: ws)) >? 1 = true) as -> by (apply Z.gtb_lt; cbn [length]; lia).
    pose proof (ar_args _ _ _ _ _ (sh_args _ _ _ _ _ Hs) 0) as Hw. rewrite Er in Hw. specialize (Hw w eq_refl).
    rewrite Z.mul_0_r, Z.add_0_r in Hw. set (arg1 := ld32 m (as_argv a + 4)) in *.
    assert (Hsh : shows (shift_args m a) (mkArgstate (as_argc a) (as_argv a) (as_curarg a) arg1) (mkParse (Some []) ws (Some w))).
    { pose proof (sh_cur _ _ _ _ _ Hs) as Hc. rewrite Ec in Hc. by apply (shows_shift m a p w ws). }
    eexists _, _, _. split; [done|]. split; [|exact Hsh]. exact (sh_val _ _ _ _ _ Hsh).
  - pose proof (string_tail _ _ _ _ _ _ _ Hcur) as (Hc & Hc0 & _). rewrite Hc. pose proof Hcur as [Hpos _].
    destruct (Z.eqb_spec (as_curarg a) 0); [lia|]. destruct (Z.eqb_spec c 0); [done|]. cbn [negb].
    eexists _, _, _. split; [done|]. split; [exact Hcur|]. exact (shows_set m a p nothing (as_curarg a) (Some []) (Some (c :: l)) Hs Hlit Hcur).
  - rewrite Hcur. eexists _, _, _. by split.
Qed.

Lemma argvalue_run m a p : shows m a p ->
  exists r m' a', argvalue nothing m a = (r, m', a') /\
    maybe_at m' (as_argc a') (as_argv a') n r (value p).1 /\ shows m' a' (value p).2.
Proof.
  intros Hs. pose proof (sh_val _ _ _ _ _ Hs) as Hv. unfold argvalue, value.
  destruct (val p) as [v|]; cbn [maybe_at] in Hv.
  - pose proof Hv as [Hpos _]. destruct (Z.eqb_spec (as_argvalue a) 0); [lia|]. eexists _, _, _. by split.
  - rewrite Hv. by apply argnextvalue_run.
Qed.

Lemma answers_run requests m a p : shows m a p -> answers nothing n m a p requests.
Proof.
  revert m a p. induction requests as [|[] qs IH]; intros m a p Hs; (split; [done|]); [done | ..].
  - destruct (argnext_run m a p Hs) as (m' & a' & -> & Hs'). split; [done|]. by apply IH.
  - destruct (argnextvalue_run m a p Hs) as (r & m' & a' & -> & Hr & Hs'). split; [done|]. by apply IH.
  - destruct (argvalue_run m a p Hs) as (r & m' & a' & -> & Hr & Hs'). split; [done|]. by apply IH.
Qed.

(** A parser at the start: there are flags to look for if there are arguments. *)
Definition parse_of (args : list (list Z)) : parse :=
  mkParse (if decide (args = []) then None else Some []) args None.

Lemma argstart_run m argc argv args :
  0 < argv -> 0 <= n < 2 ^ 29 -> arguments m argc argv n args -> string_at m argc argv n nothing [] ->
  shows m (argstart nothing m argc argv) (parse_of args).
Proof.
  intros Hv Hn Ha Hl. unfold argstart, parse_of.
  assert (Hc : s32 (ld32 m argc) = 1 + Z.of_nat (length args)).
  { destruct Ha as [-> ? _ _]. apply s32_small. lia. }
  rewrite Hc. destruct (Z.eqb_spec argv 0); [lia|]. rewrite andb_true_r.
  constructor; simpl; try done. destruct args; simpl; [done|].
  assert (1 + Z.of_nat (S (length args)) >? 1 = true) as -> by (apply Z.gtb_lt; lia). exact Hl.
Qed.
End steps.

(** C17. The flag parser, called on an argument array in memory: whatever flags and values
    the program asks for, in whatever order, it gets what the parser on lists gives, as
    strings that are still in memory, and the program's array and count always hold the
    arguments not yet consumed. *)
Theorem args_correct nothing n m argc argv args requests :
  0 < argv -> 0 <= n < 2 ^ 29 -> arguments m argc argv n args -> string_at m argc argv n nothing [] ->
  answers nothing n m (argstart nothing m argc argv) (parse_of args) requests.
Proof. intros. by apply answers_run, argstart_run. Qed.

(** The example of [inc/args.h]: [-rx -f foo -- -r duh]. *)
Definition example_args : list (list Z) :=
  [[45; 114; 120]; [45; 102]; [102; 111; 111]; [45; 45]; [45; 114]; [100; 117; 104]].
Definition example_answers (p : parse) : Z * Z * Z * option (list Z) * Z * list (list Z) :=
  let '(r, p) := next p in
  let '(x, p) := next p in
  let '(f, p) := next p in
  let '(v, p) := value p in
  let '(e, p) := next p in
  (r, x, f, v, e, rest p).
Example documented_example :
  example_answers (parse_of example_args) = (114, 120, 102, Some [102; 111; 111], -1, [[45; 114]; [100; 117; 104]]).
Proof. reflexivity. Qed.

(** The count at 0x1000, the array at 0x1010, the strings from 0x2000. *)
Definition example_memory : memory :=
  let m := foldr (fun '(a, w) m => stbytes m a (w ++ [0])) ∅
    (zip [0x2000; 0x2010; 0x2020; 0x2030; 0x2040; 0x2050] example_args) in
  foldr (fun '(a, v) m => st32 m a v) m
    (zip [0x1000; 0x1014; 0x1018; 0x101C; 0x1020; 0x1024; 0x1028] [7; 0x2000; 0x2010; 0x2020; 0x2030; 0x2040; 0x2050]).

Lemma args_correct_witness :
  answers 0x3000 7 example_memory (argstart 0x3000 example_memory 0x1000 0x1010) (parse_of example_args)
    [Next; Next; Next; Value; Next].
Proof.
  apply args_correct; [done | done | |].
  - constructor; [reflexivity | done | left; done |].
    intros [|[|[|[|[|[|i]]]]]] l Hl; [injection Hl as <- .. | done];
      (split; [done|]; split; [by vm_compute|]; intros i Hi; simpl in Hi;
       match goal with |- context [ld32 ?m ?a] => let v := eval vm_compute in (ld32 m a) in change (ld32 m a) with v end;
       unfold array_at; lia).
  - split; [done|]. split; [done|]. intros i Hi. simpl in Hi. unfold array_at. lia.
Defined.
