(* ===== verification/Sh.v ===== *)
(** * The shell ([user/sh.c])

    The tokenizer works in place on the line: it writes a NUL over every separator and looks
    one token ahead, so that a word is terminated by the time it is handed out.  What the
    shell asks of the library is the class [ShellWorld]; a string that is passed is what
    the callee reads at the pointer. *)

From S2P Require Import Prelude Mem CString Mmu KState Printf UState Monitor Args.

Class ShellWorld (W : Type) := {
  w_cprintf : list Z -> W -> W;
  w_printf : list Z -> W -> W;
  w_open : list Z -> Z -> W -> Z * W;
  w_dup : Z -> Z -> W -> Z * W;
  w_close : Z -> W -> Z * W;
  w_close_all : W -> W;
  w_pipe : W -> Z * Z * Z * W;
  w_fork : W -> Z * W;
  w_spawn : list Z -> list (list Z) -> W -> Z * W;
  w_wait : Z -> W -> W;
  w_iscons : Z -> W -> Z * W;
  w_readline : option (list Z) -> W -> option (list Z) * W;
  w_env_id : W -> Z;
}.

Record sh (W : Type) := mkSh {
  world : W;
  smem : memory;
  sh_nc : Z;
  sh_np1 : Z;
  sh_np2 : Z;
  debug : Z;
}.
Arguments mkSh {W}.
Arguments world {W}.
Arguments smem {W}.
Arguments sh_nc {W}.
Arguments sh_np1 {W}.
Arguments sh_np2 {W}.
Arguments debug {W}.
#[export] Instance sh_eta W : Eta (sh W) :=
  fun r => mkSh (world r) (smem r) (sh_nc r) (sh_np1 r) (sh_np2 r) (debug r).

Definition BUFSIZ : Z := 1024.
Definition MAXARGS : Z := 16.
Definition O_RDONLY : Z := 0.
Definition O_WRONLY : Z := 1.
Definition O_CREAT : Z := 0x100.
Definition O_TRUNC : Z := 0x200.

(** [strchr(WHITESPACE, c)], [strchr(SYMBOLS, c)]: a NUL is in neither. *)
Definition sh_white (c : Z) : bool := existsb (Z.eqb c) [32; 9; 13; 10].
Definition sh_symbol (c : Z) : bool := existsb (Z.eqb c) [60; 124; 62; 38; 59; 40; 41].

(** How [runcmd] ends: by returning, by [exit], or in behaviour C leaves open, a store past
    the end of [argv] or of [argv0buf]. *)
Inductive finish := Returned | Exited | Overrun.

(** [%d]; the text of a panic. *)
Definition signed (z : Z) : list Z := if z <? 0 then 45 :: decimal 10 (- z) else decimal 10 z.
Definition panic_text (l : list Z) : string :=
  String.string_of_list_ascii ((fun c => Ascii.ascii_of_nat (Z.to_nat c)) <$> l).

Section shell.
Context {W : Type} `{!ShellWorld W}.

Definition on_world {A} (f : W -> A * W) : U (sh W) A := fun s =>
  let '(a, w) := f (world s) in Ok a (s <| world := w |>).
Definition wdo (f : W -> W) : U (sh W) unit := uput (fun s => s <| world := f (world s) |>).
Definition sload8 (a : Z) : U (sh W) Z := uget (fun s => ld8 (smem s) a).
Definition sstore8 (a v : Z) : U (sh W) unit := uput (fun s => s <| smem := st8 (smem s) a v |>).

(** Loops over a line or a word. *)
Definition line_fuel : nat := S (Z.to_nat BUFSIZ).

Definition string_from (a : Z) : U (sh W) (list Z) :=
  uloop line_fuel (fun '(a, l) =>
    c ← sload8 a;
    if c =? 0 then mret (inr l) else mret (inl (a + 1, l ++ [c]))) (a, []).
Fixpoint strings_from (ps : list Z) : U (sh W) (list (list Z)) :=
  match ps with
  | [] => mret []
  | p :: ps' => l ← string_from p; ls ← strings_from ps'; mret (l :: ls)
  end.

Definition if_debug (level : Z) (m : U (sh W) unit) : U (sh W) unit :=
  d ← uget debug; if d >? level then m else mret tt.
Definition say (l : list Z) : U (sh W) unit := wdo (w_cprintf l).

(** ** Tokens *)

(** [_gettoken(s, &np1, &np2)], which is how it is always called. *)
Definition _gettoken (s : Z) : U (sh W) Z :=
  if s =? 0 then if_debug 1 (say (letters "GETTOKEN NULL" ++ [10]));; mret 0
  else
    if_debug 1 (l ← string_from s; say (letters "GETTOKEN: " ++ l ++ [10]));;
    uput (fun st => st <| sh_np1 := 0 |>);;
    uput (fun st => st <| sh_np2 := 0 |>);;
    s ← uloop line_fuel (fun s =>
      c ← sload8 s;
      if sh_white c then sstore8 s 0;; mret (inl (s + 1)) else mret (inr s)) s;
    c ← sload8 s;
    if c =? 0 then if_debug 1 (say (letters "EOL" ++ [10]));; mret 0
    else if sh_symbol c then
      uput (fun st => st <| sh_np1 := s |>);;
      sstore8 s 0;;
      uput (fun st => st <| sh_np2 := s + 1 |>);;
      if_debug 1 (say (letters "TOK " ++ [c; 10]));;
      mret c
    else
      uput (fun st => st <| sh_np1 := s |>);;
      s ← uloop line_fuel (fun s =>
        c ← sload8 s;
        if negb (c =? 0) && negb (sh_white c || sh_symbol c) then mret (inl (s + 1)) else mret (inr s)) s;
      uput (fun st => st <| sh_np2 := s |>);;
      if_debug 1 (
        p2 ← uget sh_np2;
        t ← sload8 p2;
        sstore8 p2 0;;
        p1 ← uget sh_np1;
        l ← string_from p1;
        say (letters "WORD: " ++ l ++ [10]);;
        sstore8 p2 t);;
      mret 119.

(** [gettoken(s, p1)]: the token and, unless a new string is set, [*p1]. *)
Definition gettoken (s : Z) : U (sh W) (Z * Z) :=
  if negb (s =? 0) then
    nc ← _gettoken s;
    uput (fun st => st <| sh_nc := nc |>);;
    mret (0, 0)
  else
    c ← uget sh_nc;
    p1 ← uget sh_np1;
    np2 ← uget sh_np2;
    nc ← _gettoken np2;
    uput (fun st => st <| sh_nc := nc |>);;
    mret (c, p1).

(** ** Commands *)

Definition exits (l : list Z) : U (sh W) ((list Z * Z) + (finish + list Z * Z)) :=
  say l;; mret (inr (inl Exited)).

(** [<] and [>]: the file named by the next word becomes descriptor [to]. *)
Definition redirect (to flags : Z) (sign what : list Z) (argv : list Z) (pipe_child : Z)
    : U (sh W) ((list Z * Z) + (finish + list Z * Z)) :=
  '(c, t) ← gettoken 0;
  if negb (c =? 119) then exits (letters "syntax error: " ++ sign ++ letters " not followed by word" ++ [10])
  else
    name ← string_from t;
    fd ← on_world (w_open name flags);
    if fd <? 0 then exits (letters "open " ++ name ++ letters " for " ++ what ++ letters ": " ++ error_text fd)
    else
      (if negb (fd =? to) then on_world (w_dup fd to);; on_world (w_close fd);; mret tt else mret tt);;
      mret (inl (argv, pipe_child)).

(** One turn of [while (1)]: [argv] has the [argc] arguments so far. *)
Definition runcmd_step (argv : list Z) (pipe_child : Z) : U (sh W) ((list Z * Z) + (finish + list Z * Z)) :=
  '(c, t) ← gettoken 0;
  if c =? 119 then
    if Z.of_nat (length argv) =? MAXARGS then exits (letters "too many arguments" ++ [10])
    else mret (inl (argv ++ [t], pipe_child))
  else if c =? 60 then redirect 0 O_RDONLY [60] (letters "read") argv pipe_child
  else if c =? 62 then
    redirect 1 (Z.lor (Z.lor O_WRONLY O_CREAT) O_TRUNC) [62] (letters "write") argv pipe_child
  else if c =? 124 then
    '(r, p0, p1) ← on_world w_pipe;
    if r <? 0 then exits (letters "pipe: " ++ error_text r)
    else
      if_debug 0 (say (letters "PIPE: " ++ signed p0 ++ [32] ++ signed p1 ++ [10]));;
      r ← on_world w_fork;
      if r <? 0 then exits (letters "fork: " ++ error_text r)
      else if r =? 0 then
        (if negb (p0 =? 0) then on_world (w_dup p0 0);; on_world (w_close p0);; mret tt else mret tt);;
        on_world (w_close p1);;
        mret (inl ([], pipe_child))
      else
        (if negb (p1 =? 1) then on_world (w_dup p1 1);; on_world (w_close p1);; mret tt else mret tt);;
        on_world (w_close p0);;
        mret (inr (inr (argv, r)))
  else if c =? 0 then mret (inr (inr (argv, pipe_child)))
  else upanic (panic_text (letters "bad return " ++ signed c ++ letters " from gettoken")).

(** [argv0buf] is at [argv0buf]. *)
Context (argv0buf : Z).

(** [argv[0]] with an initial [/], by its address; [None] past the end of [argv0buf]. *)
Definition command_name (a0 : Z) : U (sh W) (option Z) :=
  c ← sload8 a0;
  if c =? 47 then mret (Some a0)
  else
    sstore8 argv0buf 47;;
    m ← uget smem;
    match strlen line_fuel m a0 with
    | None => ustop Fuel
    | Some n =>
        if n + 2 >? BUFSIZ then mret None
        else
          match strcpy line_fuel m (argv0buf + 1) a0 with
          | None => ustop Fuel
          | Some m' => uput (fun s => s <| smem := m' |>);; mret (Some argv0buf)
          end
    end.

Definition wait_debug (pid : Z) (who : list Z) : U (sh W) unit :=
  if_debug 0 (e ← uget (fun s => w_env_id (world s));
    say ([91] ++ hex 8 e ++ letters "] WAIT " ++ who ++ [32] ++ hex 8 pid ++ [10]));;
  wdo (w_wait pid);;
  if_debug 0 (e ← uget (fun s => w_env_id (world s));
    say ([91] ++ hex 8 e ++ letters "] wait finished" ++ [10])).

(** From [runit]. *)
Definition runit (argv : list Z) (pipe_child : Z) : U (sh W) finish :=
  match argv with
  | [] => if_debug 0 (say (letters "EMPTY COMMAND" ++ [10]));; mret Returned
  | a0 :: argv' =>
      o ← command_name a0;
      match o with
      | None => mret Overrun
      | Some a0 =>
          if Z.of_nat (length argv) =? MAXARGS then mret Overrun
          else
            if_debug 0 (e ← uget (fun s => w_env_id (world s));
              ls ← strings_from (a0 :: argv');
              say ([91] ++ hex 8 e ++ letters "] SPAWN:");;
              foldr (fun l k => say (32 :: l);; k) (say [10]) ls);;
            name ← string_from a0;
            args ← strings_from (a0 :: argv');
            r ← on_world (w_spawn name args);
            (if r <? 0 then say (letters "spawn " ++ name ++ letters ": " ++ error_text r ++ [10]) else mret tt);;
            wdo w_close_all;;
            (if r >=? 0 then wait_debug r name else mret tt);;
            (if negb (pipe_child =? 0) then wait_debug pipe_child (letters "pipe_child") else mret tt);;
            mret Exited
      end
  end.

Definition runcmd (s : Z) : U (sh W) finish :=
  gettoken s;;
  o ← uloop line_fuel (fun '(argv, pipe_child) => runcmd_step argv pipe_child) ([], 0);
  match o with
  | inl f => mret f
  | inr (argv, pipe_child) => runit argv pipe_child
  end.

(** ** The program *)

Definition usage : U (sh W) finish := say (letters "usage: sh [-dix] [command-file]" ++ [10]);; mret Exited.

(** [lit] is the address of [""], [readbuf] that of the buffer of [readline]. *)
Context (lit readbuf : Z).

(** The loop over the flags: [interactive] and [echocmds], or [None] after [usage]. *)
Definition options (fuel : nat) (a : Argstate) : U (sh W) (option (Z * Z)) :=
  uloop fuel (fun '(a, interactive, echocmds) =>
    m ← uget smem;
    let '(r, m, a) := argnext m a in
    uput (fun s => s <| smem := m |>);;
    if r >=? 0 then
      if r =? 100 then uput (fun s => s <| debug := debug s + 1 |>);; mret (inl (a, interactive, echocmds))
      else if r =? 105 then mret (inl (a, 1, echocmds))
      else if r =? 120 then mret (inl (a, interactive, 1))
      else usage;; mret (inr None)
    else mret (inr (Some (interactive, echocmds)))) (a, 63, 0).

(** One line: read, and run by a child. *)
Definition read_and_run (interactive echocmds : Z) : U (sh W) (unit + finish) :=
  o ← on_world (w_readline (if negb (interactive =? 0) then Some (letters "$ ") else None));
  match o with
  | None => if_debug 0 (say (letters "EXITING" ++ [10]));; mret (inr Exited)
  | Some line =>
      uput (fun s => s <| smem := stbytes (smem s) readbuf (line ++ [0]) |>);;
      if_debug 0 (l ← string_from readbuf; say (letters "LINE: " ++ l ++ [10]));;
      c ← sload8 readbuf;
      if c =? 35 then mret (inl tt)
      else
        (if negb (echocmds =? 0) then l ← string_from readbuf; wdo (w_printf ([35; 32] ++ l ++ [10])) else mret tt);;
        if_debug 0 (say (letters "BEFORE FORK" ++ [10]));;
        r ← on_world w_fork;
        if r <? 0 then upanic (panic_text (letters "fork: " ++ error_text r))
        else
          if_debug 0 (say (letters "FORK: " ++ signed r ++ [10]));;
          if r =? 0 then
            f ← runcmd readbuf;
            mret (inr (match f with Returned => Exited | f => f end))
          else wdo (w_wait r);; mret (inl tt)
  end.

(** [flags] bounds the flags, [lines] the lines that are read. *)
Definition umain (flags lines : nat) (argc argv : Z) : U (sh W) finish :=
  m ← uget smem;
  o ← options flags (argstart lit m argc argv);
  match o with
  | None => mret Exited
  | Some (interactive, echocmds) =>
      n ← uget (fun s => s32 (ld32 (smem s) argc));
      if n >? 2 then usage
      else
        (if n =? 2 then
           on_world (w_close 0);;
           p ← uget (fun s => ld32 (smem s) (argv + 4));
           name ← string_from p;
           r ← on_world (w_open name O_RDONLY);
           if r <? 0 then upanic (panic_text (letters "open " ++ name ++ letters ": " ++ error_text r))
           else if negb (r =? 0) then upanic "assertion failed: r == 0" else mret tt
         else mret tt);;
        interactive ← (if interactive =? 63 then on_world (w_iscons 0) else mret interactive);
        uloop lines (fun _ : unit => read_and_run interactive echocmds) tt
  end.
End shell.
