(* ===== verification/ShSpec.v ===== *)
(** * The shell: tokens and calls

    A line as a list of tokens, which is what the tokenizer hands out; a command line as
    the calls of the library that it makes. *)

From S2P Require Import Prelude Mem CString Mmu KState Printf UState Monitor Args Sh.

(** ** Lines as tokens *)

Inductive token := Word (w : list Z) | Sym (c : Z).
#[export] Instance token_eq_dec : EqDecision token.
Proof. solve_decision. Defined.

Definition word_char (c : Z) : bool := negb (sh_white c || sh_symbol c).
Definition starts_word (l : list Z) : bool := match l with [] => false | c :: _ => word_char c end.

Fixpoint tokens (l : list Z) : list token :=
  match l with
  | [] => []
  | c :: l' =>
      if sh_white c then tokens l'
      else if sh_symbol c then Sym c :: tokens l'
      else
        match tokens l' with
        | Word w :: ts => if starts_word l' then Word (c :: w) :: ts else Word [c] :: Word w :: ts
        | ts => Word [c] :: ts
        end
  end.

Definition word_ok (w : list Z) : Prop := Forall (fun c => word_char c = true) w.

Lemma tokens_white ws l : Forall (fun c => sh_white c = true) ws -> tokens (ws ++ l) = tokens l.
Proof. induction 1 as [|c ws Hc _ IH]; simpl; [done|]. by rewrite Hc. Qed.

Lemma tokens_word w l : word_ok w -> w <> [] -> starts_word l = false -> tokens (w ++ l) = Word w :: tokens l.
Proof.
  intros Hw Hn Hl. induction Hw as [|c w Hc Hw IH]; [done|]. simpl app. cbn [tokens].
  unfold word_char in Hc. apply negb_true_iff, orb_false_iff in Hc as [-> ->].
  destruct w as [|d w].
  - simpl app. rewrite Hl. by destruct (tokens l) as [|[] ?].
  - rewrite IH by done. simpl app. cbn [starts_word]. inversion Hw as [|? ? Hd _]. by rewrite Hd.
Qed.

Lemma tokens_length l : (length (tokens l) <= length l)%nat.
Proof.
  induction l as [|c l IH]; simpl; [done|]. destruct (sh_white c); [lia|]. destruct (sh_symbol c); simpl; [lia|].
  destruct (tokens l) as [|[w | d] ts]; [| destruct (starts_word l) |]; simpl in *; lia.
Qed.

(** A line is white space and then nothing, a symbol, or a word. *)
Inductive line_view : list Z -> Prop :=
  | view_end ws : Forall (fun c => sh_white c = true) ws -> line_view ws
  | view_sym ws c l : Forall (fun c => sh_white c = true) ws -> sh_symbol c = true -> line_view (ws ++ c :: l)
  | view_word ws w l : Forall (fun c => sh_white c = true) ws -> word_ok w -> w <> [] -> starts_word l = false ->
      line_view (ws ++ w ++ l).

Lemma word_prefix l : exists w r, l = w ++ r /\ word_ok w /\ starts_word r = false.
Proof.
  induction l as [|c l (w & r & -> & Hw & Hr)]; [exists [], []; repeat constructor|].
  destruct (word_char c) eqn:Hc.
  - exists (c :: w), r. split; [done|]. split; [by constructor | done].
  - exists [], (c :: w ++ r). split; [done|]. split; [constructor | done].
Qed.

Lemma line_view_all l : line_view l.
Proof.
  induction l as [|c l IH]; [by constructor|]. destruct (sh_white c) eqn:Hc.
  - inversion IH; subst.
    + by apply view_end; constructor.
    + change (line_view ((c :: ws) ++ c0 :: l0)). apply view_sym; [by constructor | done].
    + change (line_view ((c :: ws) ++ w ++ l0)). apply view_word; [by constructor | done..].
  - destruct (sh_symbol c) eqn:Hs; [by apply (view_sym [])|].
    destruct (word_prefix (c :: l)) as (w & r & Hl & Hw & Hr). rewrite Hl.
    apply (view_word []); [done | done | | done]. intros ->. simpl in Hl. subst r.
    cbn [starts_word] in Hr. unfold word_char in Hr. by rewrite Hc, Hs in Hr.
Qed.

Lemma white_not_symbol c : sh_white c = true -> word_char c = false.
Proof. unfold word_char. by intros ->. Qed.

(** ** What a command line asks for

    The calls of the library that a line makes, in order, as a function of its tokens: the
    arguments so far, and the child at the other end of the pipe. *)

Section commands.
Context {W : Type} `{!ShellWorld W}.

Definition wop {A} (f : W -> A * W) : U W A := fun w => let '(a, w') := f w in Ok a w'.
Definition complain (l : list Z) : U W finish := uput (w_cprintf l);; mret Exited.

Definition run_command (args : list (list Z)) (pipe_child : Z) : U W finish :=
  match args with
  | [] => mret Returned
  | a :: args' =>
      let slash := default 0 (head a) =? 47 in
      let name := if slash then a else 47 :: a in
      if (negb slash && (Z.of_nat (length a) + 2 >? BUFSIZ)) || (Z.of_nat (length args) =? MAXARGS) then mret Overrun
      else
        r ← wop (w_spawn name (name :: args'));
        (if r <? 0 then uput (w_cprintf (letters "spawn " ++ name ++ letters ": " ++ error_text r ++ [10])) else mret tt);;
        uput w_close_all;;
        (if r >=? 0 then uput (w_wait r) else mret tt);;
        (if negb (pipe_child =? 0) then uput (w_wait pipe_child) else mret tt);;
        mret Exited
  end.

(** Descriptor [fd] becomes [to]. *)
Definition move_fd (fd to : Z) : U W unit :=
  if negb (fd =? to) then wop (w_dup fd to);; wop (w_close fd);; mret tt else mret tt.

Definition open_as (to flags : Z) (what name : list Z) (k : U W finish) : U W finish :=
  fd ← wop (w_open name flags);
  if fd <? 0 then complain (letters "open " ++ name ++ letters " for " ++ what ++ letters ": " ++ error_text fd)
  else move_fd fd to;; k.
Definition no_word (sign : list Z) : U W finish :=
  complain (letters "syntax error: " ++ sign ++ letters " not followed by word" ++ [10]).

(** Two processes: the child goes on with what is right of the bar. *)
Definition pipe_to (left : Z -> U W finish) (right : U W finish) : U W finish :=
  '(r, p0, p1) ← wop w_pipe;
  if r <? 0 then complain (letters "pipe: " ++ error_text r)
  else
    r ← wop w_fork;
    if r <? 0 then complain (letters "fork: " ++ error_text r)
    else if r =? 0 then move_fd p0 0;; wop (w_close p1);; right
    else move_fd p1 1;; wop (w_close p0);; left r.

Fixpoint line_calls (ts : list token) (args : list (list Z)) (pipe_child : Z) : U W finish :=
  match ts with
  | [] => run_command args pipe_child
  | Word w :: ts1 =>
      if Z.of_nat (length args) =? MAXARGS then complain (letters "too many arguments" ++ [10])
      else line_calls ts1 (args ++ [w]) pipe_child
  | Sym c :: ts1 =>
      if c =? 60 then
        match ts1 with
        | Word f :: ts2 => open_as 0 O_RDONLY (letters "read") f (line_calls ts2 args pipe_child)
        | _ => no_word [60]
        end
      else if c =? 62 then
        match ts1 with
        | Word f :: ts2 =>
            open_as 1 (Z.lor (Z.lor O_WRONLY O_CREAT) O_TRUNC) (letters "write") f (line_calls ts2 args pipe_child)
        | _ => no_word [62]
        end
      else if c =? 124 then pipe_to (run_command args) (line_calls ts1 [] pipe_child)
      else upanic (panic_text (letters "bad return " ++ signed c ++ letters " from gettoken"))
  end.
End commands.

Section runs.
Context {W : Type} `{!ShellWorld W}.
Implicit Types (st : sh W) (l w : list Z) (ts : list token).

Lemma bind_load {B} a (f : Z -> U (sh W) B) st : (sload8 a ≫= f) st = f (ld8 (smem st) a) st.
Proof. done. Qed.
Lemma bind_store {B} a v (f : unit -> U (sh W) B) st :
  (sstore8 a v ≫= f) st = f tt (st <| smem := st8 (smem st) a v |>).
Proof. done. Qed.

Definition no_debug st : Prop := debug st = 0.

Lemma if_debug_run k m st : no_debug st -> 0 <= k -> if_debug k m st = Ok tt st.
Proof.
  intros Hd Hk. unfold if_debug. rewrite ubind_get, Hd.
  destruct (Z.gtb_spec 0 k); [lia | done].
Qed.

Local Ltac quiet H := erewrite ubind_run by (apply if_debug_run; [exact H | lia]); cbv beta iota.

Lemma line_fuel_val : Z.of_nat line_fuel = 1025.
Proof. reflexivity. Qed.

Lemma string_from_run a l st :
  cstr (smem st) a l -> Z.of_nat (length l) < 1025 -> string_from a st = Ok l st.
Proof.
  intros Hs Hl. unfold string_from.
  assert (H : forall f a l l0, cstr (smem st) a l -> (length l < f)%nat ->
    uloop f (fun '(a, l) => c ← sload8 a; if c =? 0 then mret (inr l) else mret (inl (a + 1, l ++ [c]))) (a, l0) st
    = Ok (l0 ++ l) st).
  { clear. induction f as [|f IH]; intros a l l0 Hs Hf; [lia|]. rewrite uloop_succ. cbv beta iota.
    rewrite ubind_assoc, bind_load. cbv beta. destruct l as [|c l].
    - cbn [cstr] in Hs. rewrite Hs, app_nil_r. done.
    - destruct Hs as (Hc0 & -> & Hl). destruct (Z.eqb_spec c 0); [done|]. rewrite ubind_ret.
      rewrite (IH _ l) by (done || simpl in Hf; lia). by rewrite <- app_assoc. }
  apply (H line_fuel a l []); [done|]. pose proof line_fuel_val. lia.
Qed.

Lemma strings_from_run ps ls st :
  Forall2 (fun p l => cstr (smem st) p l /\ Z.of_nat (length l) < 1025) ps ls -> strings_from ps st = Ok ls st.
Proof.
  induction 1 as [|p l ps ls [H1 H2] _ IH]; [done|]. cbn [strings_from].
  erewrite ubind_run by (by apply string_from_run). by erewrite ubind_run by exact IH.
Qed.

(** ** The tokenizer *)

(** White space becomes NULs. *)
Lemma skip_separators st f s ws l :
  cstr (smem st) s (ws ++ l) -> Forall (fun c => sh_white c = true) ws -> (length ws < f)%nat ->
  (forall c l', l = c :: l' -> sh_white c = false) ->
  exists m', uloop f (fun s => c ← sload8 s;
      if sh_white c then sstore8 s 0;; mret (inl (s + 1)) else mret (inr s)) s st
    = Ok (s + Z.of_nat (length ws)) (st <| smem := m' |>) /\
    cstr m' (s + Z.of_nat (length ws)) l /\ (ws <> [] -> ld8 m' s = 0) /\
    forall a, a < s \/ s + Z.of_nat (length ws) <= a -> ld8 m' a = ld8 (smem st) a.
Proof.
  revert st s ws. induction f as [|f IH]; intros st s ws Hs Hw Hf Hl; [lia|].
  rewrite uloop_succ. cbv beta iota. rewrite ubind_assoc, bind_load. cbv beta. destruct ws as [|c ws]; simpl app in Hs.
  - assert (Hwh : sh_white (ld8 (smem st) s) = false).
    { destruct l as [|c l]; cbn [cstr] in Hs; [by rewrite Hs|]. destruct Hs as (_ & -> & _). by eapply Hl. }
    rewrite Hwh, ubind_ret. exists (smem st). simpl length. rewrite Z.add_0_r. by destruct st.
  - pose proof Hs as Hs0. destruct Hs as (Hc0 & Hc & Hr). rewrite Hc. inversion Hw as [|? ? Hcw Hws]; subst. rewrite Hcw.
    rewrite ubind_assoc, bind_store, ubind_ret. cbv iota. set (st1 := st <| smem := _ |>).
    destruct (IH st1 (s + 1) ws) as (m' & Hrun & Hcs & _ & Hfr); [| done | simpl in Hf; lia | done |].
    { eapply cstr_frame; [|exact Hr]. intros a Ha. apply ld8_st8_ne. lia. }
    exists m'. rewrite Hrun. simpl length. replace (s + Z.of_nat (S (length ws))) with (s + 1 + Z.of_nat (length ws)) by lia.
    split; [done|]. split; [done|]. simpl smem in Hfr. split.
    + intros _. rewrite Hfr by lia. apply ld8_st8_eq.
    + intros a Ha. rewrite Hfr by lia. apply ld8_st8_ne. lia.
Qed.

Lemma skip_letters st f s w l :
  cstr (smem st) s (w ++ l) -> word_ok w -> starts_word l = false -> (length w < f)%nat ->
  uloop f (fun s => c ← sload8 s;
      if negb (c =? 0) && negb (sh_white c || sh_symbol c) then mret (inl (s + 1)) else mret (inr s)) s st
    = Ok (s + Z.of_nat (length w)) st.
Proof.
  revert s w. induction f as [|f IH]; intros s w Hs Hw Hl Hf; [lia|].
  rewrite uloop_succ. cbv beta iota. rewrite ubind_assoc, bind_load. cbv beta. destruct w as [|c w]; simpl app in Hs.
  - assert (He : negb (ld8 (smem st) s =? 0) && negb (sh_white (ld8 (smem st) s) || sh_symbol (ld8 (smem st) s)) = false).
    { destruct l as [|c l]; cbn [cstr] in Hs; [by rewrite Hs|]. destruct Hs as (_ & -> & _).
      cbn [starts_word] in Hl. unfold word_char in Hl. by rewrite Hl, andb_false_r. }
    rewrite He, ubind_ret. simpl length. by rewrite Z.add_0_r.
  - destruct Hs as (Hc0 & -> & Hr). inversion Hw as [|? ? Hcw Hws]; subst. unfold word_char in Hcw. rewrite Hcw.
    destruct (Z.eqb_spec c 0); [done|]. cbn [negb andb]. rewrite ubind_ret, (IH (s + 1) w) by (done || simpl in Hf; lia).
    f_equal. simpl length. lia.
Qed.
(** The tokens still to be handed out: the first is the one looked ahead to, the others are
    in the string at [np2], which ends at [hi].  Nothing below [low] will be written. *)
Definition ahead st (low hi : Z) ts : Prop :=
  match ts with
  | [] => sh_nc st = 0 /\ sh_np2 st = 0
  | t :: ts' =>
      exists r, cstr (smem st) (sh_np2 st) r /\ tokens r = ts' /\ sh_np2 st + Z.of_nat (length r) = hi /\
        0 < low <= (match t with Word _ => sh_np1 st | Sym _ => sh_np2 st end) /\
        match t with
        | Word w =>
            sh_nc st = 119 /\ sh_np2 st = sh_np1 st + Z.of_nat (length w) /\ starts_word r = false /\
            forall i c, w !! i = Some c -> c <> 0 /\ ld8 (smem st) (sh_np1 st + Z.of_nat i) = c
        | Sym c => sh_nc st = c /\ sh_symbol c = true /\ sh_np2 st = sh_np1 st + 1
        end
  end.

Lemma ahead_low st low low' hi ts : ahead st low hi ts -> 0 < low' <= low -> ahead st low' hi ts.
Proof.
  destruct ts as [|t ts]; [done|]. intros (r & H1 & H2 & H3 & H4 & H5) Hl. exists r. do 3 (split; [done|]). split; [destruct t; lia | done].
Qed.

(** Only the rest of the line is written. *)
Definition scanned st st' (s hi : Z) : Prop :=
  world st' = world st /\ no_debug st' /\ forall a, a < s \/ hi <= a -> ld8 (smem st') a = ld8 (smem st) a.

Lemma cstr_suffix m s l r : cstr m s (l ++ r) -> cstr m (s + Z.of_nat (length l)) r.
Proof.
  revert s. induction l as [|c l IH]; intros s Hs; simpl in Hs.
  - by rewrite Z.add_0_r.
  - destruct Hs as (_ & _ & Hl). simpl length. replace (s + Z.of_nat (S (length l))) with (s + 1 + Z.of_nat (length l)) by lia.
    by apply IH.
Qed.
Lemma cstr_prefix_byte m s l r i c :
  cstr m s (l ++ r) -> l !! i = Some c -> c <> 0 /\ ld8 m (s + Z.of_nat i) = c.
Proof.
  intros Hs Hi. pose proof (lookup_lt_Some _ _ _ Hi).
  destruct (cstr_byte m s (l ++ r) i c Hs) as [? ?]; [by rewrite lookup_app_l | done].
Qed.

Definition token_scanned s st l hi : Prop :=
  exists nc st', _gettoken s st = Ok nc st' /\ scanned st st' s hi /\
    (starts_word l = false -> ld8 (smem st') s = 0) /\
    ahead (st' <| sh_nc := nc |>) (if starts_word l then s else s + 1) hi (tokens l).

Lemma token_scan_end s st ws hi :
  Forall (fun c => sh_white c = true) ws ->
  no_debug st -> 0 < s -> cstr (smem st) s (ws) -> s + Z.of_nat (length (ws)) = hi ->
  Z.of_nat (length (ws)) < 1025 -> token_scanned s st (ws) hi.
Proof.
  intros Hw Hd Hs Hl Hhi Hlen. unfold token_scanned, _gettoken.
  destruct (Z.eqb_spec s 0); [lia|]. quiet Hd. rewrite !ubind_put. set (st0 := _ <| sh_np2 := 0 |>).
  rewrite <- (app_nil_r ws) in Hl.
  destruct (skip_separators st0 line_fuel s ws [] Hl Hw ltac:(pose proof line_fuel_val; lia) ltac:(done))
    as (m' & Hrun & Hcs & Hz & Hf).
  rewrite (ubind_run _ _ _ _ _ Hrun), bind_load. change (smem (st0 <| smem := m' |>)) with m'. rewrite Hcs. change (0 =? 0) with true. cbv iota.
  quiet Hd.
  eexists _, _. split; [done|]. split; [split; [done|]; split; [done|]; simpl; intros; apply Hf; lia|].
  rewrite <- (app_nil_r ws), tokens_white by done. split; [|done]. intros _. simpl.
  destruct ws; [|by apply Hz]. simpl in Hl. rewrite Hf by (simpl; lia). done.
Qed.

Lemma token_scan_sym s st ws c r hi :
  Forall (fun c => sh_white c = true) ws -> sh_symbol c = true ->
  no_debug st -> 0 < s -> cstr (smem st) s (ws ++ c :: r) -> s + Z.of_nat (length (ws ++ c :: r)) = hi ->
  Z.of_nat (length (ws ++ c :: r)) < 1025 -> token_scanned s st (ws ++ c :: r) hi.
Proof.
  intros Hw Hc Hd Hs Hl Hhi Hlen. unfold token_scanned, _gettoken.
  destruct (Z.eqb_spec s 0); [lia|]. quiet Hd. rewrite !ubind_put. set (st0 := _ <| sh_np2 := 0 |>).
  rewrite length_app in Hhi, Hlen. simpl length in *.
  destruct (skip_separators st0 line_fuel s ws (c :: r) Hl Hw ltac:(pose proof line_fuel_val; lia))
    as (m' & Hrun & (Hc0 & Hcb & Hcs) & Hz & Hf).
  { intros c' l' [= <- <-]. unfold sh_white, sh_symbol in *. clear -Hc. simpl in *. lia. }
  rewrite (ubind_run _ _ _ _ _ Hrun), bind_load. change (smem (st0 <| smem := m' |>)) with m'. rewrite Hcb.
  destruct (Z.eqb_spec c 0); [done|]. rewrite Hc, ubind_put, bind_store, ubind_put.
  quiet Hd.
  set (p := s + Z.of_nat (length ws)) in *.
  eexists _, _. split; [done|]. split; [split; [done|]; split; [done|]; simpl|].
  { intros a Ha. rewrite ld8_st8_ne by lia. apply Hf. lia. }
  assert (Hsw : starts_word (ws ++ c :: r) = false).
  { destruct ws as [|d ws]; simpl; unfold word_char; [by rewrite Hc, orb_true_r|].
    inversion Hw as [|? ? Hdw _]. by rewrite Hdw. }
  rewrite Hsw, tokens_white by done. split.
  { intros _. simpl. destruct ws as [|d ws]; [unfold p; rewrite Z.add_0_r; apply ld8_st8_eq|].
    rewrite ld8_st8_ne by (unfold p; simpl; lia). by apply Hz. }
  assert (Hnw : sh_white c = false) by (clear -Hc; unfold sh_white, sh_symbol in *; simpl in *; lia).
  cbn [tokens]. rewrite Hnw, Hc. exists r. simpl.
  split; [eapply cstr_frame; [|exact Hcs]; intros; apply ld8_st8_ne; lia|]. split; [done|].
  unfold p in *. split; [lia|]. split; [lia | done].
Qed.

Lemma token_scan_word s st ws w r hi :
  Forall (fun c => sh_white c = true) ws -> word_ok w -> w <> [] -> starts_word r = false ->
  no_debug st -> 0 < s -> cstr (smem st) s (ws ++ w ++ r) -> s + Z.of_nat (length (ws ++ w ++ r)) = hi ->
  Z.of_nat (length (ws ++ w ++ r)) < 1025 -> token_scanned s st (ws ++ w ++ r) hi.
Proof.
  intros Hw Hok Hn Hr Hd Hs Hl Hhi Hlen. unfold token_scanned, _gettoken.
  destruct (Z.eqb_spec s 0); [lia|]. quiet Hd. rewrite !ubind_put. set (st0 := _ <| sh_np2 := 0 |>).
  rewrite !length_app in Hhi, Hlen.
  assert (Hwc : forall c l', w ++ r = c :: l' -> word_char c = true).
  { intros c l' E. destruct w as [|d w]; [done|]. injection E as <- _. by inversion Hok. }
  destruct (skip_separators st0 line_fuel s ws (w ++ r) Hl Hw ltac:(pose proof line_fuel_val; lia))
    as (m' & Hrun & Hcs & Hz & Hf).
  { intros c l' E. specialize (Hwc _ _ E). unfold word_char in Hwc. by destruct (sh_white c). }
  rewrite (ubind_run _ _ _ _ _ Hrun), bind_load. change (smem (st0 <| smem := m' |>)) with m'.
  set (p := s + Z.of_nat (length ws)) in *.
  assert (Hw1 : sh_symbol (ld8 m' p) = false /\ ld8 m' p <> 0).
  { destruct w as [|d w]; [done|]. destruct Hcs as (Hd0 & -> & _). specialize (Hwc _ _ eq_refl).
    unfold word_char in Hwc. by destruct (sh_symbol d); [rewrite orb_true_r in Hwc|]. }
  destruct Hw1 as [-> Hw0]. destruct (Z.eqb_spec (ld8 m' p) 0); [done|]. rewrite ubind_put. set (st1 := _ <| sh_np1 := p |>).
  rewrite (ubind_run _ _ _ _ _ (skip_letters st1 line_fuel p w r Hcs Hok Hr ltac:(pose proof line_fuel_val; lia))), ubind_put.
  quiet Hd. eexists _, _. split; [done|]. split; [split; [done|]; split; [done|]; simpl; intros; apply Hf; lia|].
  rewrite tokens_white, tokens_word by done.
  assert (Hsw : starts_word (ws ++ w ++ r) = bool_decide (ws = [])).
  { destruct ws as [|d ws]; [destruct w as [|d w]; [done|]; by apply (Hwc d (w ++ r)) |].
    simpl. inversion Hw as [|? ? Hdw _]. by apply white_not_symbol. }
  rewrite Hsw. split.
  { intros E. simpl. apply Hz. intros ->. done. }
  exists r. simpl. split; [replace (p + Z.of_nat (length w)) with (p + Z.of_nat (length w)) by lia; by apply cstr_suffix|].
  split; [done|]. split; [lia|]. split.
  { destruct ws; [rewrite bool_decide_true by done; unfold p; simpl; lia|].
    rewrite bool_decide_false by done. unfold p. simpl. lia. }
  split; [done|]. split; [done|]. split; [done|]. intros i c Hi. by apply (cstr_prefix_byte m' p w r).
Qed.

Lemma token_scan s st l hi :
  no_debug st -> 0 < s -> cstr (smem st) s l -> s + Z.of_nat (length l) = hi -> Z.of_nat (length l) < 1025 ->
  token_scanned s st l hi.
Proof.
  intros. destruct (line_view_all l); [by apply token_scan_end | by apply token_scan_sym | by apply token_scan_word].
Qed.

(** What [gettoken(0, &t)] hands out. *)
Definition code ts : Z := match ts with [] => 0 | Word _ :: _ => 119 | Sym c :: _ => c end.

Lemma gettoken_run st low hi ts :
  no_debug st -> ahead st low hi ts -> hi < low + 1024 ->
  exists p st', gettoken 0 st = Ok (code ts, p) st' /\ scanned st st' low hi /\
    match ts with
    | [] => ahead st' low hi []
    | Sym c :: ts' => sh_symbol c = true /\ ahead st' low hi ts'
    | Word w :: ts' =>
        low <= p /\ p + Z.of_nat (length w) <= hi /\ cstr (smem st') p w /\
        ahead st' (p + Z.of_nat (length w) + 1) hi ts'
    end.
Proof.
  intros Hd Ha Hlen. unfold gettoken. change (negb (0 =? 0)) with false. cbv iota.
  rewrite !ubind_get. destruct ts as [|t ts].
  - destruct Ha as [Hnc Hnp]. rewrite Hnp. unfold _gettoken. change (0 =? 0) with true. cbv iota.
    rewrite ubind_assoc. quiet Hd. rewrite ubind_ret, ubind_put, Hnc. eexists _, _. split; [done|].
    split; [done|]. done.
  - destruct Ha as (r & Hr & Hts & Hhi & Hlow & Ht).
    destruct (token_scan (sh_np2 st) st r hi Hd) as (nc & st' & Hrun & (Hw & Hd' & Hf) & Hz & Ha');
      [destruct t; lia | done | done | destruct t; lia |].
    urw Hrun. rewrite ubind_put. eexists _, _. split; [destruct t; destruct Ht as [-> _]; reflexivity|].
    assert (Hnp : low <= sh_np2 st) by (destruct t; lia).
    split; [split; [done|]; split; [done|]; simpl; intros a Hx; apply Hf; lia|].
    rewrite Hts in Ha'. destruct t as [w | c].
    + destruct Ht as (_ & Hnp2 & Hsw & Hb). rewrite Hsw in Ha', Hz.
      split; [lia|]. split; [lia|]. split; [|by rewrite <- Hnp2].
      apply cstr_intro.
      * intros i c Hi. destruct (Hb i c Hi) as [? <-]. split; [done|]. simpl. apply Hf.
        pose proof (lookup_lt_Some _ _ _ Hi). lia.
      * simpl. rewrite <- Hnp2. by apply Hz.
    + destruct Ht as (_ & Hc & _). split; [done|]. eapply ahead_low; [exact Ha'|]. destruct (starts_word r); lia.
Qed.

(** ** From the machine to the calls *)

Definition outcome {A} (r : result (sh W) A) : result W A :=
  match r with
  | Ok a st => Ok a (world st)
  | Panics msg st => Panics msg (world st)
  | Stops x st => Stops x (world st)
  end.

(** [m] only makes the calls that [m'] makes. *)
Definition tracks {A} (m : U (sh W) A) (m' : U W A) : Prop :=
  forall st, no_debug st ->
    m st = match m' (world st) with
           | Ok a w => Ok a (st <| world := w |>)
           | Panics msg w => Panics msg (st <| world := w |>)
           | Stops x w => Stops x (st <| world := w |>)
           end.

Lemma tracks_ret {A} (a : A) : tracks (mret a) (mret a).
Proof. intros st _. by destruct st. Qed.
Lemma tracks_world {A} (f : W -> A * W) : tracks (on_world f) (wop f).
Proof. intros st _. unfold on_world, wop. by destruct (f (world st)). Qed.
Lemma tracks_wdo f : tracks (wdo f) (uput f).
Proof. by intros st _. Qed.
Lemma tracks_bind {A B} (m : U (sh W) A) m' (k : A -> U (sh W) B) k' :
  tracks m m' -> (forall a, tracks (k a) (k' a)) -> tracks (m ≫= k) (m' ≫= k').
Proof.
  intros Hm Hk st Hd. unfold mbind, U_bind. rewrite Hm by done. destruct (m' (world st)) as [a w | |]; try done.
  rewrite (Hk a (st <| world := w |>)) by exact Hd. change (world (st <| world := w |>)) with w. by destruct (k' a w).
Qed.
Lemma tracks_if {A} (b : bool) (m n : U (sh W) A) m' n' :
  tracks m m' -> tracks n n' -> tracks (if b then m else n) (if b then m' else n').
Proof. by destruct b. Qed.
Lemma tracks_quiet {A} k (m : U (sh W) unit) (n : U (sh W) A) n' : 0 <= k -> tracks n n' -> tracks (if_debug k m;; n) n'.
Proof. intros Hk Hn st Hd. quiet Hd. by apply Hn. Qed.
Lemma tracks_debug k (m : U (sh W) unit) : 0 <= k -> tracks (if_debug k m) (mret tt).
Proof. intros Hk st Hd. rewrite if_debug_run by done. by destruct st. Qed.

(** The rest of a run after calls. *)
Lemma outcome_bind {A B} (m : U (sh W) A) m' (k : A -> U (sh W) B) k' st :
  tracks m m' -> no_debug st ->
  (forall a v, outcome (k a (st <| world := v |>)) = k' a v) ->
  outcome ((m ≫= k) st) = (m' ≫= k') (world st).
Proof.
  intros Hm Hd Hk. unfold mbind, U_bind. rewrite Hm by done. destruct (m' (world st)); [apply Hk | done | done].
Qed.
Lemma outcome_world {A B} (f : W -> A * W) (k : A -> U (sh W) B) k' st :
  (forall a v, f (world st) = (a, v) -> outcome (k a (st <| world := v |>)) = k' a v) ->
  outcome ((on_world f ≫= k) st) = (wop f ≫= k') (world st).
Proof.
  intros Hk. unfold mbind, U_bind, on_world, wop. destruct (f (world st)) as [a v]. by apply Hk.
Qed.
Lemma outcome_tracks {A} (m : U (sh W) A) m' st : tracks m m' -> no_debug st -> outcome (m st) = m' (world st).
Proof. intros Hm Hd. rewrite Hm by done. by destruct (m' (world st)). Qed.

Lemma tracks_wait pid who : tracks (wait_debug pid who) (uput (w_wait pid)).
Proof.
  apply tracks_quiet; [lia|]. intros st Hd. unfold wait_debug. rewrite (ubind_run _ _ _ _ _ (tracks_wdo _ st Hd)).
  cbv beta iota. rewrite if_debug_run; [done | exact Hd | lia].
Qed.
Lemma tracks_move fd to :
  tracks (if negb (fd =? to) then on_world (w_dup fd to);; on_world (w_close fd);; mret tt else mret tt) (move_fd fd to).
Proof. apply tracks_if; [|apply tracks_ret]. repeat (apply tracks_bind; [apply tracks_world | intros _]). apply tracks_ret. Qed.
End runs.

(** Without debugging, a debug message is nothing. *)
Ltac quiet H := erewrite ubind_run by (apply if_debug_run; [exact H | lia]); cbv beta iota.
