(* ===== verification/ShThms.v ===== *)
(** * The shell: what a line does

    [runcmd] on a line in memory makes the calls that the tokens of the line stand for
    ([line_calls]); [umain] does what its flags say, line by line ([shell]). *)

From S2P Require Import Prelude Mem CString Mmu KState Printf UState Monitor Args Sh ShSpec.

Section runs.
Context {W : Type} `{!ShellWorld W}.
Implicit Types (st : sh W) (l w : list Z) (ts : list token).

Lemma tracks_exits {A} l (k : (list Z * Z) + (finish + list Z * Z) -> U (sh W) A) k' :
  tracks (k (inr (inl Exited))) k' -> tracks (exits l ≫= k) (uput (w_cprintf l);; k').
Proof.
  intros Hk st Hd. unfold exits, say. rewrite ubind_assoc.
  refine (tracks_bind _ _ _ _ (tracks_wdo _) _ st Hd). intros []. intros st' Hd'. by apply Hk.
Qed.

(** ** [runit] *)

Section line.
Context (lo hi argv0buf : Z).
Context (Hlo : 0 < lo) (Hsize : hi < lo + 1024) (Hbuf : argv0buf + 1024 <= lo \/ hi < argv0buf).

(** The arguments: words of the line that are complete. *)
Definition held (m : memory) (low : Z) (argv : list Z) (args : list (list Z)) : Prop :=
  Forall2 (fun p l => lo <= p /\ p + Z.of_nat (length l) < low /\ cstr m p l) argv args.

Lemma held_frame m m' low argv args :
  (forall x, lo <= x < low -> ld8 m' x = ld8 m x) -> held m low argv args -> held m' low argv args.
Proof.
  intros Hf Hh. eapply Forall2_impl; [exact Hh|]. intros p l (Hp & Hl & Hc). split; [done|]. split; [done|].
  eapply cstr_frame; [|exact Hc]. intros. apply Hf. lia.
Qed.
Lemma held_more m low low' argv args : low <= low' -> held m low argv args -> held m low' argv args.
Proof. intros Hl Hh. eapply Forall2_impl; [exact Hh|]. intros p l (Hp & Hpl & Hc). split; [done|]. split; [lia | done]. Qed.

Lemma held_strings st low argv args :
  held (smem st) low argv args -> low <= hi + 1 -> strings_from argv st = Ok args st.
Proof.
  intros Hh Hl. apply strings_from_run. eapply Forall2_impl; [exact Hh|].
  intros p l (Hp & Hpl & Hc). split; [done | lia].
Qed.

Lemma command_slash st p a :
  cstr (smem st) p a -> default 0 (head a) = 47 -> command_name argv0buf p st = Ok (Some p) st.
Proof.
  intros Hc Hs. unfold command_name. rewrite bind_load. destruct a as [|c a]; [done|]. simpl in Hs. subst c.
  destruct Hc as (_ & -> & _). done.
Qed.

Lemma command_name_run st p a :
  cstr (smem st) p a -> lo <= p -> p + Z.of_nat (length a) <= hi -> default 0 (head a) <> 47 ->
  exists m', (forall x, lo <= x <= hi -> ld8 m' x = ld8 (smem st) x) /\
    if Z.of_nat (length a) + 2 >? BUFSIZ then command_name argv0buf p st = Ok None (st <| smem := m' |>)
    else command_name argv0buf p st = Ok (Some argv0buf) (st <| smem := m' |>) /\ cstr m' argv0buf (47 :: a).
Proof.
  intros Hc Hp Hpa Hs. unfold command_name. rewrite bind_load.
  assert (ld8 (smem st) p =? 47 = false) as ->.
  { apply Z.eqb_neq. destruct a as [|c a]; [simpl in Hc; lia|]. by destruct Hc as (_ & -> & _). }
  rewrite bind_store, ubind_get. change (smem (st <| smem := ?m |>)) with m.
  set (m1 := st8 (smem st) argv0buf 47).
  assert (Hf1 : forall x, lo <= x <= hi -> ld8 m1 x = ld8 (smem st) x) by (intros; apply ld8_st8_ne; lia).
  assert (Hc1 : cstr m1 p a) by (eapply cstr_frame; [|exact Hc]; intros; apply Hf1; lia).
  rewrite (strlen_spec m1 p a) by (done || (pose proof line_fuel_val; lia)). unfold BUFSIZ.
  destruct (Z.gtb_spec (Z.of_nat (length a) + 2) 1024) as [Hbig | Hfit]; [by exists m1|].
  destruct (strcpy_spec m1 (argv0buf + 1) p a line_fuel Hc1) as (m' & Hrun & Hc' & Hf');
    [pose proof line_fuel_val; lia | lia |]. rewrite Hrun.
  exists m'. split; [intros x Hx; rewrite Hf' by lia; by apply Hf1|]. split; [done|].
  split; [done|]. split; [|done]. rewrite Hf' by lia. unfold m1. apply ld8_st8_eq.
Qed.

Lemma spawn_run st p argv name args pipe_child :
  no_debug st -> cstr (smem st) p name -> Z.of_nat (length name) < 1025 -> strings_from argv st = Ok args st ->
  outcome ((name ← string_from p;
    args ← strings_from (p :: argv);
    r ← on_world (w_spawn name args);
    (if r <? 0 then say (letters "spawn " ++ name ++ letters ": " ++ error_text r ++ [10]) else mret tt);;
    wdo w_close_all;;
    (if r >=? 0 then wait_debug r name else mret tt);;
    (if negb (pipe_child =? 0) then wait_debug pipe_child (letters "pipe_child") else mret tt);;
    mret Exited) st) =
  (r ← wop (w_spawn name (name :: args));
    (if r <? 0 then uput (w_cprintf (letters "spawn " ++ name ++ letters ": " ++ error_text r ++ [10])) else mret tt);;
    uput w_close_all;;
    (if r >=? 0 then uput (w_wait r) else mret tt);;
    (if negb (pipe_child =? 0) then uput (w_wait pipe_child) else mret tt);;
    mret Exited) (world st).
Proof.
  intros Hd Hc Hl Hs. pose proof (string_from_run p name st Hc Hl) as Hn. urw Hn.
  assert (Hss : strings_from (p :: argv) st = Ok (name :: args) st).
  { cbn [strings_from]. urw Hn. by urw Hs. }
  urw Hss. apply outcome_tracks; [|done].
  apply tracks_bind; [apply tracks_world | intros r].
  apply tracks_bind; [apply tracks_if; [apply tracks_wdo | apply tracks_ret] | intros _].
  apply tracks_bind; [apply tracks_wdo | intros _].
  do 2 (apply tracks_bind; [apply tracks_if; [apply tracks_wait | apply tracks_ret] | intros _]).
  apply tracks_ret.
Qed.

Lemma runit_run st argv args pipe_child :
  no_debug st -> held (smem st) (hi + 1) argv args ->
  outcome (runit argv0buf argv pipe_child st) = run_command args pipe_child (world st).
Proof.
  intros Hd Hh. pose proof (Forall2_length _ _ _ Hh) as Hlen.
  destruct Hh as [|p a argv args (Hp & Hpa & Hc) Hh]; [by apply (outcome_tracks _ (mret Returned)); [apply tracks_quiet; [lia | apply tracks_ret] |]|].
  unfold runit, run_command. rewrite Hlen. change (length (a :: args)) with (S (length args)).
  destruct (Z.eqb_spec (default 0 (head a)) 47) as [Hs | Hs].
  - urw (command_slash st p a Hc Hs). cbn [negb andb orb]. destruct (Z.of_nat (S (length args)) =? MAXARGS); [done|].
    quiet Hd. apply spawn_run; [done | done | lia |]. by apply (held_strings _ (hi + 1)).
  - destruct (command_name_run st p a Hc Hp ltac:(lia) Hs) as (m' & Hf & Hrun). cbn [negb andb].
    destruct (Z.of_nat (length a) + 2 >? BUFSIZ) eqn:Hbig; [by urw Hrun|]. destruct Hrun as [Hrun Hc']. urw Hrun. cbn [orb].
    destruct (Z.of_nat (S (length args)) =? MAXARGS); [done|]. quiet Hd.
    change (world st) with (world (st <| smem := m' |>)). apply spawn_run; [done | exact Hc' | simpl length; unfold BUFSIZ in Hbig; lia |].
    apply (held_strings _ (hi + 1)); [|lia]. simpl. eapply held_frame; [|exact Hh]. intros. apply Hf. lia.
Qed.

(** ** The loop *)

Record line_state st (low : Z) ts (argv : list Z) (args : list (list Z)) : Prop := {
  ls_debug : no_debug st;
  ls_ahead : ahead st low hi ts;
  ls_low : lo <= low <= hi + 1;
  ls_held : held (smem st) low argv args;
}.

Lemma line_world st low ts argv args (v : W) :
  line_state st low ts argv args -> line_state (st <| world := v |>) low ts argv args.
Proof. by intros []. Qed.

Lemma token_run st low ts argv args :
  line_state st low ts argv args ->
  exists p st', gettoken 0 st = Ok (code ts, p) st' /\ world st' = world st /\
    match ts with
    | [] => no_debug st' /\ held (smem st') (hi + 1) argv args
    | Sym c :: ts' => sh_symbol c = true /\ line_state st' low ts' argv args
    | Word w :: ts' =>
        cstr (smem st') p w /\ Z.of_nat (length w) < 1025 /\
        exists low', line_state st' low' ts' argv args /\ line_state st' low' ts' (argv ++ [p]) (args ++ [w])
    end.
Proof.
  intros [Hd Ha Hl Hh]. destruct (gettoken_run st low hi ts Hd Ha ltac:(lia)) as (p & st' & Hrun & (Hw & Hd' & Hf) & Ht).
  exists p, st'. split; [done|]. split; [done|].
  assert (Hh' : held (smem st') low argv args) by (eapply held_frame; [|exact Hh]; intros; apply Hf; lia).
  destruct ts as [|[w | c] ts].
  - split; [done|]. eapply held_more; [|exact Hh']. lia.
  - destruct Ht as (Hp & Hpw & Hc & Ha'). split; [done|]. split; [lia|]. eexists.
    assert (H1 : line_state st' (p + Z.of_nat (length w) + 1) ts argv args).
    { constructor; [done | exact Ha' | lia |]. eapply held_more; [|exact Hh']. lia. }
    split; [exact H1|]. destruct H1. constructor; try done. apply Forall2_app; [done|].
    constructor; [|constructor]. split; [lia|]. split; [lia | done].
  - destruct Ht as [Hc Ha']. split; [done|]. by constructor.
Qed.

Local Abbreviation body := (fun '(argv, pipe_child) => runcmd_step (W := W) argv pipe_child).
Definition ending (o : finish + list Z * Z) : U (sh W) finish :=
  match o with inl f => mret f | inr (argv, pipe_child) => runit argv0buf argv pipe_child end.
Definition go_on (f : nat) (y : (list Z * Z) + (finish + list Z * Z)) : U (sh W) finish :=
  (match y with inl x => uloop f body x | inr r => mret r end) ≫= ending.

(** With [f] turns left the rest of the line is run as it should be. *)
Definition runs_line (f : nat) : Prop := forall st low ts argv args pipe_child,
  line_state st low ts argv args -> (length ts < f)%nat ->
  outcome (go_on f (inl (argv, pipe_child)) st) = line_calls ts args pipe_child (world st).

Lemma exits_run f l st : no_debug st -> outcome ((exits l ≫= go_on f) st) = complain l (world st).
Proof. intros Hd. apply outcome_tracks; [|done]. apply tracks_exits. apply tracks_ret. Qed.

Lemma redirect_run f to flags sign what st low ts argv args pipe_child :
  runs_line f -> line_state st low ts argv args -> (length ts <= f)%nat ->
  outcome ((redirect to flags sign what argv pipe_child ≫= go_on f) st) =
  match ts with
  | Word n :: ts2 => open_as to flags what n (line_calls ts2 args pipe_child)
  | _ => no_word sign
  end (world st).
Proof.
  intros IH Hs Hf. destruct (token_run _ _ _ _ _ Hs) as (p & st' & Hrun & <- & Ht).
  unfold redirect. rewrite ubind_assoc. urw Hrun. destruct ts as [|[w | c] ts]; cbn [code].
  - apply exits_run. by destruct Ht.
  - change (negb (119 =? 119)) with false. cbv iota. destruct Ht as (Hc & Hl & low' & H1 & _).
    rewrite ubind_assoc. urw (string_from_run p w st' Hc Hl). rewrite ubind_assoc. unfold open_as.
    apply outcome_bind; [apply tracks_world | apply H1 |]. intros fd v.
    set (s1 := st' <| world := v |>). assert (H2 : line_state s1 low' ts argv args) by by apply line_world.
    change v with (world s1). destruct (fd <? 0); [apply exits_run, H2|].
    rewrite ubind_assoc. apply outcome_bind; [apply tracks_move | apply H2 |]. intros [] v'. rewrite ubind_ret.
    set (s2 := s1 <| world := v' |>). change v' with (world s2). apply (IH s2 low'); [by apply line_world | simpl in Hf; lia].
  - destruct Ht as [Hc Hl]. assert (negb (c =? 119) = true) as ->.
    { clear -Hc. unfold sh_symbol in Hc. simpl in Hc. lia. }
    apply exits_run, Hl.
Qed.

Lemma pipe_run f st low ts argv args pipe_child :
  runs_line f -> line_state st low ts argv args -> (length ts < f)%nat -> held (smem st) (hi + 1) argv args ->
  outcome ((('(r, p0, p1) ← on_world w_pipe;
    if r <? 0 then exits (letters "pipe: " ++ error_text r)
    else
      if_debug 0 (say (letters "PIPE: " ++ signed p0 ++ [32] ++ signed p1 ++ [10]));;
      r ← on_world w_fork;
      if r <? 0 then exits (letters "fork: " ++ error_text r)
      else if r =? 0 then
        (if negb (p0 =? 0) then on_world (w_dup p0 0);; on_world (w_close p0);; mret tt else mret tt);;
        on_world (w_close p1);;
        mret (inl ([], pipe_child))
      else
        (if negb (p1 =? 1) then on_world (w_dup p1 1);; on_world (w_close p1);; mret tt else mret tt);;
        on_world (w_close p0);;
        mret (inr (inr (argv, r)))) ≫= go_on f) st) =
  pipe_to (run_command args) (line_calls ts [] pipe_child) (world st).
Proof.
  intros IH Hs Hf Hh. pose proof (ls_debug _ _ _ _ _ Hs) as Hd. rewrite ubind_assoc. unfold pipe_to.
  apply outcome_bind; [apply tracks_world | done |]. intros [[r p0] p1] v.
  set (s1 := st <| world := v |>). assert (Hs1 : line_state s1 low ts argv args) by by apply line_world.
  destruct (r <? 0); [by apply (exits_run f _ s1)|]. rewrite ubind_assoc. quiet Hd.
  rewrite ubind_assoc. change v with (world s1). apply outcome_bind; [apply tracks_world | done |]. intros r2 v2.
  set (s2 := s1 <| world := v2 |>). assert (Hs2 : line_state s2 low ts argv args) by by apply line_world.
  destruct (r2 <? 0); [by apply (exits_run f _ s2)|]. change v2 with (world s2).
  destruct (r2 =? 0); rewrite ubind_assoc; (apply outcome_bind; [apply tracks_move | done |]; intros [] v3;
    rewrite ubind_assoc; change v3 with (world (s2 <| world := v3 |>));
    apply outcome_bind; [apply tracks_world | done |]; intros a v4; rewrite ubind_ret;
    set (s4 := _ <| world := v4 |>); change v4 with (world s4)).
  - apply (IH s4 low); [|done].
    destruct Hs2. constructor; try done. constructor.
  - unfold go_on. rewrite ubind_ret. by apply (runit_run s4).
Qed.

Lemma line_loop f : runs_line f.
Proof.
  induction f as [|f IH]; intros st low ts argv args pipe_child Hs Hf; [lia|].
  assert (Hgo : go_on (S f) (inl (argv, pipe_child)) st = (runcmd_step argv pipe_child ≫= go_on f) st).
  { unfold go_on at 1, mbind, U_bind. rewrite uloop_succ. cbv beta iota. unfold mbind, U_bind.
    by destruct (runcmd_step argv pipe_child st). }
  rewrite Hgo. destruct (token_run _ _ _ _ _ Hs) as (p & st' & Hrun & <- & Ht).
  unfold runcmd_step. rewrite ubind_assoc. urw Hrun. destruct ts as [|[w | c] ts]; cbn [code].
  - change (0 =? 119) with false. change (0 =? 60) with false. change (0 =? 62) with false. change (0 =? 124) with false.
    change (0 =? 0) with true. cbv iota. destruct Ht as [Hd Hh]. unfold go_on. rewrite !ubind_ret. by apply runit_run.
  - change (119 =? 119) with true. cbv iota. destruct Ht as (_ & _ & low' & H0 & H1). cbn [line_calls].
    rewrite (Forall2_length _ _ _ (ls_held _ _ _ _ _ H0)). destruct (Z.of_nat (length args) =? MAXARGS).
    + apply exits_run, H0.
    + rewrite ubind_ret. apply (IH st' low'); [done | simpl in Hf; lia].
  - destruct Ht as [Hc H1]. simpl in Hf. assert (c =? 119 = false /\ c =? 0 = false) as [-> ->].
    { clear -Hc. unfold sh_symbol in Hc. simpl in Hc. lia. }
    cbn [line_calls]. destruct (c =? 60); [|destruct (c =? 62)].
    + by apply (redirect_run f _ _ _ _ _ low); [| |lia].
    + by apply (redirect_run f _ _ _ _ _ low); [| |lia].
    + destruct (c =? 124); [|done]. apply (pipe_run f _ low); [done | done | lia |].
      eapply held_more; [|apply H1]. destruct H1; lia.
Qed.

(** [runcmd] on a line in memory. *)
Lemma line_run st l :
  no_debug st -> cstr (smem st) lo l -> lo + Z.of_nat (length l) = hi ->
  outcome (runcmd argv0buf lo st) = line_calls (tokens l) [] 0 (world st).
Proof.
  intros Hd Hl Hhi. unfold runcmd, gettoken.
  assert (negb (lo =? 0) = true) as -> by (apply negb_true_iff, Z.eqb_neq; lia). rewrite ubind_assoc.
  destruct (token_scan lo st l hi Hd Hlo Hl Hhi ltac:(lia)) as (nc & st' & Hrun & (Hw & Hd' & _) & _ & Ha).
  urw Hrun. rewrite ubind_assoc, ubind_put, ubind_ret. rewrite <- Hw.
  set (s1 := st' <| sh_nc := nc |>) in *. change (world st') with (world s1).
  refine (line_loop line_fuel s1 lo (tokens l) [] [] 0 _ _).
  - constructor; [exact Hd' | | lia | constructor]. eapply ahead_low; [exact Ha|]. destruct (starts_word l); lia.
  - pose proof (tokens_length l). pose proof line_fuel_val. lia.
Qed.
End line.

(** ** The program *)
End runs.

(** The flags of a command line, and the arguments after them.  Each flag is a character. *)
Definition weight (p : parse) : nat := length (default [] (cur p)) + sum_list_with length (rest p).
Fixpoint flag_list (fuel : nat) (p : parse) : list Z * list (list Z) :=
  match fuel with
  | O => ([], [])
  | S f =>
      let '(r, p') := next p in
      if r >=? 0 then let '(fs, rs) := flag_list f p' in (r :: fs, rs) else ([], rest p')
  end.
Definition flags_of (args : list (list Z)) : list Z * list (list Z) :=
  flag_list (S (weight (parse_of args))) (parse_of args).

Lemma next_weight p : 0 <= (next p).1 -> (weight (next p).2 < weight p)%nat.
Proof.
  unfold next, weight. destruct (cur p) as [[|c l] |]; simpl; [|lia|lia].
  destruct (rest p) as [|[|d [|c l]] rs]; simpl; [lia..|].
  destruct (negb (d =? 45)); simpl; [lia|]. destruct ((c =? 45) && _); simpl; lia.
Qed.

Lemma next_suffix p : rest (next p).2 `suffix_of` rest p.
Proof.
  unfold next. destruct (cur p) as [[|c l] |]; simpl; [|done|done].
  destruct (rest p) as [|[|d [|c l]] rs]; simpl; try done.
  assert (rs `suffix_of` (d :: c :: l) :: rs) by by apply suffix_cons_r.
  destruct (negb (d =? 45)); simpl; [done|]. by destruct ((c =? 45) && _).
Qed.
Lemma flag_list_suffix f p : (flag_list f p).2 `suffix_of` rest p \/ (flag_list f p).2 = [].
Proof.
  revert p. induction f as [|f IH]; intros p; cbn [flag_list]; [by right|].
  pose proof (next_suffix p) as Hn. destruct (next p) as [r p']. simpl in Hn. destruct (r >=? 0); [|by left].
  specialize (IH p'). destruct (flag_list f p') as [fs rs]. simpl in *. destruct IH as [IH | ->]; [left | by right].
  by trans (rest p').
Qed.
Lemma flag_list_Forall (P : list Z -> Prop) f p : Forall P (rest p) -> Forall P (flag_list f p).2.
Proof.
  intros Hp. destruct (flag_list_suffix f p) as [[k Hk] | ->]; [|constructor].
  rewrite Hk in Hp. by apply Forall_app in Hp as [_ ?].
Qed.

(** [-i] and [-x]; any other flag is an error. *)
Fixpoint settings (fs : list Z) (interactive echocmds : Z) : option (Z * Z) :=
  match fs with
  | [] => Some (interactive, echocmds)
  | f :: fs' =>
      if f =? 105 then settings fs' 1 echocmds
      else if f =? 120 then settings fs' interactive 1
      else None
  end.

Section shell_spec.
Context {W : Type} `{!ShellWorld W}.

Fixpoint read_lines (lines : nat) (interactive echocmds : Z) : U W finish :=
  match lines with
  | O => ustop Fuel
  | S lines' =>
      o ← wop (w_readline (if negb (interactive =? 0) then Some (letters "$ ") else None));
      match o with
      | None => mret Exited
      | Some line =>
          if default 0 (head line) =? 35 then read_lines lines' interactive echocmds
          else
            (if negb (echocmds =? 0) then uput (w_printf ([35; 32] ++ line ++ [10])) else mret tt);;
            r ← wop w_fork;
            if r <? 0 then upanic (panic_text (letters "fork: " ++ error_text r))
            else if r =? 0 then
              f ← line_calls (tokens line) [] 0;
              mret (match f with Returned => Exited | f => f end)
            else uput (w_wait r);; read_lines lines' interactive echocmds
      end
  end.

Definition usage_text : list Z := letters "usage: sh [-dix] [command-file]" ++ [10].
Definition take_script (name : list Z) : U W unit :=
  wop (w_close 0);;
  r ← wop (w_open name O_RDONLY);
  if r <? 0 then upanic (panic_text (letters "open " ++ name ++ letters ": " ++ error_text r))
  else if negb (r =? 0) then upanic "assertion failed: r == 0" else mret tt.

Definition shell (lines : nat) (args : list (list Z)) : U W finish :=
  let '(fs, rs) := flags_of args in
  match settings fs 63 0 with
  | None => complain usage_text
  | Some (interactive, echocmds) =>
      if Z.of_nat (length rs) >? 1 then complain usage_text
      else
        (match rs with [] => mret tt | name :: _ => take_script name end);;
        interactive ← (if interactive =? 63 then wop (w_iscons 0) else mret interactive);
        read_lines lines interactive echocmds
  end.
End shell_spec.

Section program.
Context {W : Type} `{!ShellWorld W}.
Context (argv0buf lit readbuf : Z).
Context (Hread : 0 < readbuf) (Hbuf : argv0buf + 1024 <= readbuf \/ readbuf + 1024 <= argv0buf).
Context (Hline : forall prompt (v : W) l v',
  w_readline prompt v = (Some l, v') -> Forall (fun c => 0 < c < 256) l /\ Z.of_nat (length l) < 1024).
Implicit Types (st : sh W).

Lemma cstr_stbytes m a l : Forall (fun c => 0 < c < 256) l -> cstr (stbytes m a (l ++ [0])) a l.
Proof.
  intros Hl. apply cstr_intro.
  - intros i c Hi. assert (Hc : 0 < c < 256) by by apply (Forall_lookup_1 _ _ _ _ Hl Hi). split; [lia|].
    erewrite ld8_stbytes_in by (by rewrite lookup_app_l by (by eapply lookup_lt_Some)). apply Z.mod_small. lia.
  - by erewrite ld8_stbytes_in by by apply list_lookup_middle.
Qed.

Lemma echo_run st echocmds line :
  cstr (smem st) readbuf line -> Z.of_nat (length line) < 1024 ->
  (if negb (echocmds =? 0) then l ← string_from readbuf; wdo (w_printf ([35; 32] ++ l ++ [10])) else mret tt) st =
  Ok tt (st <| world := if negb (echocmds =? 0) then w_printf ([35; 32] ++ line ++ [10]) (world st) else world st |>).
Proof.
  intros Hc Hl. destruct (negb (echocmds =? 0)); [|by destruct st].
  by urw (string_from_run readbuf line st Hc ltac:(lia)).
Qed.

(** A command in the child: the shell of the child ends with it. *)
Lemma child_run st line :
  no_debug st -> cstr (smem st) readbuf line -> Z.of_nat (length line) < 1024 ->
  outcome ((f ← runcmd argv0buf readbuf; mret (match f with Returned => Exited | f => f end)) st) =
  (f ← line_calls (tokens line) [] 0; mret (match f with Returned => Exited | f => f end)) (world st).
Proof.
  intros Hd Hc Hl.
  pose proof (line_run readbuf (readbuf + Z.of_nat (length line)) argv0buf Hread ltac:(lia) ltac:(lia) st line Hd Hc eq_refl) as H.
  unfold mbind, U_bind. rewrite <- H. by destruct (runcmd argv0buf readbuf st).
Qed.

Lemma read_lines_run lines interactive echocmds st :
  no_debug st ->
  outcome (uloop lines (fun _ => read_and_run argv0buf readbuf interactive echocmds) tt st) =
  read_lines lines interactive echocmds (world st).
Proof.
  revert st. induction lines as [|lines IH]; intros st Hd; [done|]. rewrite uloop_succ. cbv beta iota.
  set (go := uloop lines _) in *. unfold read_and_run. rewrite ubind_assoc. cbn [read_lines].
  apply outcome_world. intros [line|] v Er; cbv beta iota.
  - destruct (Hline _ _ _ _ Er) as [Hok Hlen]. rewrite ubind_assoc, ubind_put, ubind_assoc. quiet Hd.
    set (st1 := _ <| smem := _ |>). rewrite ubind_assoc, bind_load.
    assert (Hc : cstr (smem st1) readbuf line) by by apply cstr_stbytes.
    assert (Hh : (ld8 (smem st1) readbuf =? 35) = (default 0 (head line) =? 35)).
    { destruct line; cbn [cstr] in Hc; [by rewrite Hc|]. by destruct Hc as (_ & -> & _). }
    rewrite Hh. change v with (world st1). destruct (default 0 (head line) =? 35); [rewrite ubind_ret; by apply IH|].
    rewrite ubind_assoc. urw (echo_run st1 echocmds line Hc Hlen). rewrite ubind_assoc. quiet Hd. rewrite ubind_assoc.
    set (st2 := st1 <| world := _ |>).
    assert (Hw : ((if negb (echocmds =? 0) then uput (w_printf ([35; 32] ++ line ++ [10])) else mret tt) : U W unit) (world st1)
      = Ok tt (world st2)) by by unfold st2; destruct (negb (echocmds =? 0)).
    rewrite (ubind_run _ _ _ _ _ Hw). apply outcome_world. intros r v2 _. set (st3 := st2 <| world := v2 |>).
    destruct (r <? 0); [done|]. rewrite ubind_assoc. quiet Hd. change v2 with (world st3). destruct (r =? 0).
    + rewrite ubind_assoc. pose proof (child_run st3 line Hd Hc Hlen) as Hch. rewrite <- Hch.
      unfold mbind, U_bind. by destruct (runcmd argv0buf readbuf st3).
    + rewrite ubind_assoc. apply outcome_bind; [apply tracks_wdo | done |]. intros [] v4. rewrite ubind_ret.
      set (s4 := st3 <| world := v4 |>). change v4 with (world s4). exact (IH s4 Hd).
  - rewrite ubind_assoc. quiet Hd. by rewrite ubind_ret.
Qed.

(** ** The flags *)

Lemma argnext_fields m a : let '(_, _, a') := argnext m a in as_argc a' = as_argc a /\ as_argv a' = as_argv a.
Proof. unfold argnext, take_flag. by repeat case_match; simplify_eq. Qed.

Lemma options_run n st a p f f2 interactive echocmds :
  shows lit n (smem st) a p -> no_debug st -> (weight p < f)%nat -> (weight p < f2)%nat ->
  100 ∉ (flag_list f2 p).1 ->
  exists m a' p',
    uloop f (fun '(a, interactive, echocmds) =>
      m ← uget smem;
      let '(r, m, a) := argnext m a in
      uput (fun s => s <| smem := m |>);;
      if r >=? 0 then
        if r =? 100 then uput (fun s => s <| debug := debug s + 1 |>);; mret (inl (a, interactive, echocmds))
        else if r =? 105 then mret (inl (a, 1, echocmds))
        else if r =? 120 then mret (inl (a, interactive, 1))
        else usage;; mret (inr None)
      else mret (inr (Some (interactive, echocmds)))) (a, interactive, echocmds) st =
    Ok (settings (flag_list f2 p).1 interactive echocmds)
       (st <| smem := m |> <| world := match settings (flag_list f2 p).1 interactive echocmds with
                                         | Some _ => world st | None => w_cprintf usage_text (world st) end |>) /\
    (settings (flag_list f2 p).1 interactive echocmds <> None ->
     shows lit n m a' p' /\ rest p' = (flag_list f2 p).2 /\ as_argc a' = as_argc a /\ as_argv a' = as_argv a).
Proof.
  revert st a p f2 interactive echocmds. induction f as [|f IH]; intros st a p f2 i e Hs Hd Hf Hf2 Hn; [lia|].
  destruct f2 as [|f2]; [lia|]. rewrite uloop_succ. cbv beta iota. rewrite ubind_assoc, ubind_get.
  destruct (argnext_run lit n _ _ _ Hs) as (m' & a' & Hrun & Hs'). pose proof (argnext_fields (smem st) a) as Haf.
  rewrite Hrun in Haf |- *. destruct Haf as [Hac Hav]. pose proof (next_weight p) as Hw. cbn [flag_list] in Hn |- *.
  destruct (next p) as [r p']. simpl in Hs', Hw, Hrun. cbv beta iota. cbn [fst snd].
  rewrite ubind_assoc, ubind_put. set (st1 := st <| smem := m' |>). destruct (r >=? 0) eqn:Hr.
  - specialize (Hw ltac:(lia)). specialize (IH st1 a' p' f2). destruct (flag_list f2 p') as [fs rs] eqn:Efl. cbn [fst snd settings] in *.
    apply not_elem_of_cons in Hn as [Hr100 Hn]. destruct (Z.eqb_spec r 100); [done|].
    destruct (r =? 105); [|destruct (r =? 120)].
    + rewrite ubind_ret. destruct (IH 1 e Hs' Hd ltac:(lia) ltac:(lia) Hn) as (m & a2 & p2 & H1 & H2).
      exists m, a2, p2. rewrite Hac, Hav in H2. done.
    + rewrite ubind_ret. destruct (IH i 1 Hs' Hd ltac:(lia) ltac:(lia) Hn) as (m & a2 & p2 & H1 & H2).
      exists m, a2, p2. rewrite Hac, Hav in H2. done.
    + exists m', a', p'. done.
  - rewrite ubind_ret. exists m', a', p'. cbn [fst snd settings]. split; [by destruct st|]. done.
Qed.

Lemma umain_run flags lines argc argv n args st :
  no_debug st -> 0 < argv -> 0 <= n < 2 ^ 29 -> arguments (smem st) argc argv n args ->
  string_at (smem st) argc argv n lit [] -> (weight (parse_of args) < flags)%nat -> 100 ∉ (flags_of args).1 ->
  Forall (fun l => Z.of_nat (length l) < 1025) args ->
  outcome (umain argv0buf lit readbuf flags lines argc argv st) = shell lines args (world st).
Proof.
  intros Hd Hv Hn Ha Hl Hf H100 Hlen. unfold umain. rewrite ubind_get.
  pose proof (argstart_run lit n (smem st) argc argv args Hv Hn Ha Hl) as Hs.
  destruct (options_run n st _ _ flags (S (weight (parse_of args))) 63 0 Hs Hd Hf ltac:(lia) H100) as (m & a & p & Hrun & Hend).
  unfold options. urw Hrun. unfold shell, flags_of. destruct (flag_list _ _) as [fs rs] eqn:Ef. cbn [fst snd] in *.
  destruct (settings fs 63 0) as [[i e]|]; [|done].
  destruct (Hend ltac:(done)) as (Hs' & Hrest & Hac & Hav).
  pose proof (count_of _ _ _ _ _ Hs') as Hc. pose proof (sh_args _ _ _ _ _ Hs') as Hargs.
  rewrite Hac, Hav, Hrest in Hargs. rewrite Hac, Hrest in Hc. cbn [argstart as_argc as_argv] in Hc, Hargs.
  pose proof (flag_list_Forall _ (S (weight (parse_of args))) (parse_of args) Hlen) as Hrs. rewrite Ef in Hrs. cbn [snd] in Hrs.
  set (st1 := st <| smem := m |> <| world := world st |>).
  rewrite ubind_get. change (smem st1) with m. rewrite Hc.
  assert ((1 + Z.of_nat (length rs) >? 2) = (Z.of_nat (length rs) >? 1)) as -> by lia.
  change (world st) with (world st1).
  destruct (Z.of_nat (length rs) >? 1) eqn:Hmany.
  { apply (outcome_tracks usage _ st1); [|exact Hd]. apply tracks_bind; [apply tracks_wdo | intros _; apply tracks_ret]. }
  assert (Hrest' : forall st2, no_debug st2 ->
    outcome ((interactive ← (if i =? 63 then on_world (w_iscons 0) else mret i);
      uloop lines (fun _ : unit => read_and_run argv0buf readbuf interactive e) tt) st2) =
    (interactive ← (if i =? 63 then wop (w_iscons 0) else mret i); read_lines lines interactive e) (world st2)).
  { intros st2 Hd2. apply outcome_bind; [apply tracks_if; [apply tracks_world | apply tracks_ret] | done |].
    intros j v. set (st3 := st2 <| world := v |>). change v with (world st3). by apply read_lines_run. }
  destruct rs as [|name [|]]; [| |rewrite Z.gtb_ltb, Z.ltb_ge in Hmany; cbn [length] in Hmany; lia].
  - change (1 + Z.of_nat (length []) =? 2) with false. cbv iota. rewrite !ubind_ret. by apply Hrest'.
  - change (1 + Z.of_nat (length [name]) =? 2) with true. cbv iota. unfold take_script. rewrite !ubind_assoc.
    apply outcome_bind; [apply tracks_world | done |]. intros _ v. set (st2 := st1 <| world := v |>).
    rewrite !ubind_assoc, ubind_get. change (smem st2) with m.
    pose proof (ar_args _ _ _ _ _ Hargs 0 name eq_refl) as (_ & Hname & _). rewrite Z.mul_0_r, Z.add_0_r in Hname.
    inversion Hrs as [|? ? Hnl _]; subst. rewrite ubind_assoc. urw (string_from_run (ld32 m (argv + 4)) name st2 Hname Hnl).
    rewrite ubind_assoc. change v with (world st2). apply outcome_bind; [apply tracks_world | done |]. intros r v2.
    set (st3 := st2 <| world := v2 |>). change v2 with (world st3). destruct (r <? 0); [done|].
    destruct (negb (r =? 0)); [done|]. rewrite !ubind_ret. by apply Hrest'.
Qed.
End program.

(** ** The theorems *)

(** C15. A command line of at most 1023 characters, anywhere in memory away from
    [argv0buf].  [runcmd] makes exactly the calls of the library that the line's tokens
    stand for ([line_calls]), in order and with the words of the line as their strings:
    redirections, both sides of every pipe, the command with an initial [/], the waits; it
    complains and exits where the line is wrong or a call fails, and panics at [&], [;] and
    parentheses.  With 16 words, or when a command name of 1023 characters without [/] has to
    be given one, it stores past the end of an array. *)
Theorem runcmd_correct {W} `{!ShellWorld W} (st : sh W) argv0buf s l :
  debug st = 0 -> 0 < s -> cstr (smem st) s l -> Z.of_nat (length l) < 1024 ->
  argv0buf + 1024 <= s \/ s + Z.of_nat (length l) < argv0buf ->
  outcome (runcmd argv0buf s st) = line_calls (tokens l) [] 0 (world st).
Proof. intros. by apply (line_run s (s + Z.of_nat (length l))); [| lia | ..]. Qed.

(** C16. The shell, started with an argument array in memory, without [-d].  It takes its
    flags with the parser of [lib/args.c], complains about others and about a second
    argument, takes its input from the file that is named, and then line by line skips
    comments, echoes, and forks: the child makes the calls of the line ([line_calls]) and
    exits, the parent waits and reads on, whatever the child did.  What the theorem needs of
    [readline] is that a line has no NUL and fits in its buffer. *)
Theorem umain_correct {W} `{!ShellWorld W} (st : sh W) argv0buf lit readbuf flags lines argc argv n args :
  (forall prompt (v : W) l v', w_readline prompt v = (Some l, v') ->
    Forall (fun c => 0 < c < 256) l /\ Z.of_nat (length l) < 1024) ->
  debug st = 0 -> 0 < readbuf -> argv0buf + 1024 <= readbuf \/ readbuf + 1024 <= argv0buf ->
  0 < argv -> 0 <= n < 2 ^ 29 -> arguments (smem st) argc argv n args ->
  string_at (smem st) argc argv n lit [] -> (weight (parse_of args) < flags)%nat ->
  100 ∉ (flags_of args).1 -> Forall (fun l => Z.of_nat (length l) < 1025) args ->
  outcome (umain argv0buf lit readbuf flags lines argc argv st) = shell lines args (world st).
Proof. intros. by apply (umain_run argv0buf lit readbuf ltac:(done) ltac:(done) ltac:(done) flags lines argc argv n). Qed.

(** ** A world to run in

    The calls are logged, newest first; the lines are given. *)

Inductive call :=
  | Said (l : list Z) | Opened (name : list Z) (flags : Z) | Duped (a b : Z) | Closed (a : Z) | ClosedAll
  | Piped | Forked | Spawned (name : list Z) (args : list (list Z)) | Waited (pid : Z).
Record demo := mkDemo { calls : list call; input : list (list Z); forks : Z }.
Definition logged (c : call) (w : demo) : demo := mkDemo (c :: calls w) (input w) (forks w).

(** [open] gives descriptor 5, [pipe] 3 and 4, [spawn] 9; [fork] what it is told to. *)
#[export] Instance demo_world : ShellWorld demo := {|
  w_cprintf l := logged (Said l);
  w_printf l := logged (Said l);
  w_open n f w := (5, logged (Opened n f) w);
  w_dup a b w := (b, logged (Duped a b) w);
  w_close a w := (0, logged (Closed a) w);
  w_close_all := logged ClosedAll;
  w_pipe w := (0, 3, 4, logged Piped w);
  w_fork w := (forks w, logged Forked w);
  w_spawn n a w := (9, logged (Spawned n a) w);
  w_wait p := logged (Waited p);
  w_iscons f w := (1, w);
  w_readline p w := match input w with
                    | l :: ls => if decide (Forall (fun c => 0 < c < 256) l /\ Z.of_nat (length l) < 1024)
                                 then (Some l, mkDemo (calls w) ls (forks w)) else (None, w)
                    | [] => (None, w)
                    end;
  w_env_id w := 0;
|}.

(** [cat <in | wc]: the parent runs [/cat], a child [/wc]. *)
Definition demo_line : list Z := letters "cat <in | wc".
Definition demo_state (forks : Z) : sh demo :=
  mkSh (mkDemo [] [demo_line] forks) (stbytes ∅ 0x1000 (demo_line ++ [0])) 0 0 0 0.
Definition trace (r : result demo finish) : option (finish * list call) :=
  match r with Ok f w => Some (f, rev (calls w)) | _ => None end.

Example demo_parent :
  trace (outcome (runcmd 0x2000 0x1000 (demo_state 7))) =
  Some (Exited,
    [Opened (letters "in") 0; Duped 5 0; Closed 5; Piped; Forked; Duped 4 1; Closed 4; Closed 3;
     Spawned (letters "/cat") [letters "/cat"]; ClosedAll; Waited 9; Waited 7]).
Proof. vm_compute. reflexivity. Qed.
Example demo_child :
  trace (outcome (runcmd 0x2000 0x1000 (demo_state 0))) =
  Some (Exited,
    [Opened (letters "in") 0; Duped 5 0; Closed 5; Piped; Forked; Duped 3 0; Closed 3; Closed 4;
     Spawned (letters "/wc") [letters "/wc"]; ClosedAll; Waited 9]).
Proof. vm_compute. reflexivity. Qed.

(** The two arrays that can be overrun: [argv] by 16 words, [argv0buf] by a long name. *)
Example sixteen_words w : line_calls (tokens (concat (replicate 16 [120; 32]))) [] 0 w = Ok Overrun w.
Proof. by vm_compute. Qed.
Example longest_word w : line_calls (tokens (replicate 1023 120)) [] 0 w = Ok Overrun w.
Proof. by vm_compute. Qed.

Lemma runcmd_correct_witness :
  outcome (runcmd 0x2000 0x1000 (demo_state 7)) = line_calls (tokens demo_line) [] 0 (world (demo_state 7)).
Proof.
  apply (runcmd_correct (demo_state 7)); [done | done | by vm_compute | done | right; done].
Defined.

(** The shell itself, with [-x] and the file of commands [f]. *)
Definition shell_args : list (list Z) := [[45; 120]; [102]].
Definition shell_state : sh demo :=
  let m := stbytes (stbytes ∅ 0x800 [45; 120; 0]) 0x810 [102; 0] in
  mkSh (mkDemo [] [demo_line] 7) (st32 (st32 (st32 m 0x900 3) 0x914 0x800) 0x918 0x810) 0 0 0 0.

Lemma umain_correct_witness :
  outcome (umain 0x2000 0x3000 0x1000 4 3 0x900 0x910 shell_state) = shell 3 shell_args (world shell_state).
Proof.
  apply (umain_correct shell_state 0x2000 0x3000 0x1000 4 3 0x900 0x910 3).
  - intros p v l v'. simpl. destruct (input v); [done|]. case_decide; [|done]. by intros [= <- _].
  - done.
  - done.
  - by right.
  - done.
  - done.
  - constructor; [reflexivity | done | by left |].
    intros [|[|i]] l Hl; [injection Hl as <- .. | done];
      (split; [done|]; split; [by vm_compute|]; intros i Hi; simpl in Hi;
       match goal with |- context [ld32 ?m ?a] => let v := eval vm_compute in (ld32 m a) in change (ld32 m a) with v end;
       unfold array_at; lia).
  - split; [done|]. split; [by vm_compute|]. intros i Hi. simpl in Hi. unfold array_at. lia.
  - vm_compute. lia.
  - by apply (bool_decide_unpack _); vm_compute.
  - repeat constructor.
Defined.
